(* ===== verification/_CoqProject ===== *)
-Q . S2P
Prelude.v
FreeRTOSList.v
Kernel.v
KernelSched.v
EventGroup.v
KernelPrio.v
KernelNotify.v
KernelTask.v
KernelLists.v
KernelSafe.v
KernelStep.v
KernelCalls.v
KernelWake.v
KernelPriority.v
KernelReach.v
KernelFair.v
KernelWaiters.v
Queue.v
QueueFifo.v
QueueWait.v
QueueTimeout.v
QueueInv.v
QueueMutex.v
StreamBuffer.v
StreamRing.v
StreamCalm.v
StreamFifo.v
StreamWait.v
Timers.v
TimersExact.v
Ringbuf.v
RingbufByteBuf.v
RingbufQueue.v
RingbufItems.v
RingbufNoSplit.v
RingbufAllowSplit.v
EspTimer.v
Flash.v
Partition.v
Bootloader.v
Ota.v
EspEvent.v
EventOrder.v
EventRun.v
EventSafe.v
EventLoop.v
