(* ===== verification/Prelude.v ===== *)
(** * Verification of the C services under the mouse firmware

    The firmware of this repository runs on ESP-IDF, whose sources are under
    src/resources/esp-idf/components ([C/] below).  Modelled here are the services
    it is scheduled, timed, buffered, updated and booted by.

    ** Parts and how they interact

    - The FreeRTOS kernel (C/freertos/FreeRTOS-Kernel).  list.c is the kernel's
      only data structure; tasks.c keeps every task on one state list (ready,
      delayed, suspended) and at most one event list.  event_groups.c, queue.c
      and esp_ringbuf/ringbuf.c put tasks to sleep on event lists and wake them;
      stream_buffer.c does so by task notifications.  timers.c is a daemon task
      that serves two lists of software timers and a queue of commands.
    - Timers (C/esp_timer): two sorted lists of software timers, one hardware
      alarm each, served by an interrupt and a task.
    - Event loops (C/esp_event): lists of handlers and a queue of posts, which the
      task of the loop dispatches while it has the loop's mutex.
    - Boot and update: bootloader_support chooses a slot from two selection
      entries in flash, app_update writes images and rewrites these entries,
      both through esp_partition and the flash driver.

    ** Files

    - Prelude.v: the failure monad ([None] is a failed assertion, that is, an
      abort), machine integers in Z with their wrap-around, memory as bytes at
      addresses, error codes, insertion in order, shared lemmas and tactics.
    - FreeRTOSList.v (list.c): doubly linked lists as a heap of items; the other
      files use sequences, which the refinement theorems here justify.
    - Kernel.v, KernelSched.v, KernelPrio.v, KernelNotify.v (tasks.c): the record
      [kernel] holds the kernel's variables; blocking, time-outs and the tick;
      suspending and resuming the scheduler and unordered event lists; priority
      inheritance; task notifications.
    - KernelTask.v (tasks.c, freertos_tasks_c_additions.h, port_systick.c): the
      record [sched]; tasks, their priorities and states, the context switch.
      KernelLists.v: every task is on one list; KernelSafe.v: the invariant, the
      switch, ticks and resuming the scheduler; KernelStep.v, KernelCalls.v,
      KernelWake.v, KernelPriority.v: calls that block, suspend and delete, wake and
      create, change priorities; KernelReach.v: boot and every sequence of calls;
      KernelFair.v: what holds from boot on, and time slices.
      KernelWaiters.v: waking the tasks of an event list in turn.
    - EventGroup.v (event_groups.c): [EventGroup_t] and its waiters.
    - Queue.v (queue.c): [Queue_t], the [world] of memory, queues and kernel;
      QueueFifo.v: a queue is a bounded FIFO list; QueueWait.v: waiting on a queue
      loses no wake-up; QueueTimeout.v: it ends in time; QueueInv.v: queues stay
      well formed; QueueMutex.v: a mutex lends priority and hands over.  What
      interrupts and other tasks do in the middle of a call that waits is a function
      of the [point] the call has come to: one for every place between two critical
      sections of its loop.
    - StreamBuffer.v (stream_buffer.c): [StreamBuffer_t] with memory and kernel, and
      what the other side does in the middle of a call as functions; StreamRing.v
      and StreamCalm.v: the ring of bytes and the kernel around it; StreamFifo.v:
      the writer and the reader are correct against each other; StreamWait.v: no
      wake-up is lost.
    - Timers.v (timers.c): the record [tmr_state], the commands and the daemon;
      TimersExact.v: the daemon serves every timer exactly.
    - Ringbuf.v (ringbuf.c): [Ringbuffer_t] over byte memory; RingbufByteBuf.v: byte
      buffers are byte streams; RingbufQueue.v: the interface [ItemQueue] of the
      two item buffers and what its clients get; RingbufItems.v: their storage;
      RingbufNoSplit.v and RingbufAllowSplit.v: the instances.
    - EspTimer.v (esp_timer.c, esp_timer_impl_common.c, esp_timer_impl_systimer.c,
      ets_timer_legacy.c): the record [timer_state]; what others do between the
      start of a call and its taking the list lock is a function, [until_lock].
    - Flash.v: the class [FlashDriver] and its laws, with a NOR flash instance.
    - Partition.v (partition.c, partition_target.c): the record [partition_state].
    - Bootloader.v (bootloader_common_loader.c, bootloader_utility.c,
      flash_partitions.c): [bootloader_state_t] and slot selection.
    - Ota.v (esp_ota_ops.c): the record of handles, flash and table.
    - EspEvent.v (esp_event.c, default_event_loop.c, esp_event_private.c): the record
      [esp_event_loop_instance_t], with a record of what happened to the loop (posts
      accepted and dispatched, handlers called, registrations and unregistrations
      answered ESP_OK); the queue of a loop is a bounded list, as QueueFifo.v shows
      queues to be.  EventOrder.v: the handlers as a sequence of
      registrations; EventRun.v: what a dispatch calls; EventSafe.v: what holds from
      creation on; EventLoop.v: the theorems, and where promises are not kept.

    Definitions have the names of the C functions; a definition that is a part of
    a function (a loop, a critical section) says so.  State is passed
    explicitly, loops are Fixpoints, errors are the returned codes.

    ** What the theorems show

    - Refinement: list operations are sequence operations; queues, byte buffers
      and item buffers answer every sequence of calls as an abstract queue does,
      errors included; stream and message buffers append and take in order
      although neither side locks the other out.
    - Scheduling: from boot on, whatever calls, ticks and interrupts come, every
      task is on exactly one list, the running task is ready and not outranked
      unless a switch is pending, the next tick makes a pending switch if the
      scheduler is not suspended, no call made within its rules ([call_ok]) fails, and
      tasks of equal priority take turns.  The calls include taking a mutex, lending a
      priority and giving it back; left out of [call_ok] is the case where the code
      does not keep this, [raised_holder_does_not_run].
    - Timing: delays, time-outs and timers are exact across the overflow of the
      tick counter; ticks counted while the scheduler is suspended are made up
      for; timers are called once for each period however late they are served,
      and a timer command counts from when it was given (a new
      period from when it is handled).  Callbacks do not change timers there.
    - Waking: the highest waiter is woken, event bits wake exactly the satisfied
      waiters, a rendezvous releases everyone, a wake-up cannot be lost between
      looking at a queue or stream buffer and going to sleep, at whatever point
      interrupts post and however many tasks wait; a call that waits
      ends when its time is over and fails only if there was nothing.
    - Updating: a written image is stored byte for byte and nothing outside the
      partition is touched; a power loss while switching leaves the old or the
      new slot; the bootloader and the application agree on the slot; an update
      that is not confirmed is rolled back; some loadable slot is booted if any.
    - Events: handlers are called in the order of their registration, each once for
      an event, and not after they have been unregistered, even in the middle of a
      dispatch; accepted posts are
      dispatched in order, once each; a run with a time limit ends at its deadline.
    - Invariants: timer lists stay sorted and complete, queues well formed,
      accesses within their partition; a
      mutex holder runs at the waiting task's priority.

    The theorems on what esp_ota_write stores, on what the bootloader selects, and on
    the agreement of the two assume that flash is not encrypted.

    Lemmas named in the manifest's findings exhibit the inputs where the code
    does not do what it says.

    ** Bounds and fuel

    Loops over a list recurse on it.  Other loops have fuel: [insert_iterator] the
    number of items (the end marker is reached by then); the skipping loops of the
    ring buffer [rb_fuel], the headers that fit in it (each round passes one);
    [process_loop] a fuel argument, for which [timer_fuel], the number of calls
    due, is enough; [count_apps] 17, one more than there are slots; [seq_search]
    the quotient of the sequence number by the number of slots, which bounds the
    answer; [load_entries] and [table_verify_from] the entries that fit in the
    table; [reload_loop] the periods that have passed, [switch_loop] the timers in
    the list, [serve_until_wait] two more than there are timers in the lists;
    [unblock_due] and [delete_loop] the number of tasks on the list;
    [find_top_priority] the top ready priority, [clean_up_loop] the number of deleted
    tasks, both counted down by the C loops; the unlocking loops the lock counts,
    which the C loops count down; [slist_foreach_safe] a fuel argument, for which
    [fuel_for], the number of nodes, is enough if handlers register nothing (the C
    loop may not end if they do).  The theorems about these functions show that the
    result is reached.  A call that blocks
    takes a list of what the rest of the system does each time round its loop,
    and is still waiting when the list ends.

    ** Not modelled

    The project's own application (src/firmware) is Rust.  Of the C code: several
    cores (every model is of the single-core configuration, with interrupts and
    other tasks as explicit steps; a yield is the switch at the place of the call),
    stacks, names, statistics and thread-local storage of tasks, the loading and verifying of
    images, checksums and digests (parameters, constrained only where a theorem
    says so), anti-rollback, secure boot and flash encryption beyond the buffering it
    causes, profiling of event loops and several tasks in esp_event_loop_run of one
    loop, register access of drivers, networking, and code generated or vendored. *)

From stdpp Require Import base option numbers list gmap.
From Stdlib Require Import ZArith Lia Bool.

#[global] Open Scope Z_scope.

(** ** Notations and the failure monad

    A C function that may hit a failing [assert]/[configASSERT] (the firmware
    aborts) is a function into [option]; [None] is the abort. *)

Declare Scope c_scope.
Delimit Scope c_scope with C.
#[global] Open Scope c_scope.

Definition guard_c {A} (b : bool) (k : option A) : option A := if b then k else None.

Notation "'assert!' b ; k" := (guard_c b k)
  (at level 10, b at level 100, k at level 200,
   format "'assert!'  b ; '//' k") : c_scope.
Notation "'let!' x ':=' m 'in' k" :=
  (match m with Some x => k | None => None end)
  (at level 10, x pattern, m at level 100, k at level 200,
   format "'let!'  x  ':='  m  'in' '//' k") : c_scope.

(** ** Machine integers *)

Definition u8 (x : Z) : Z := x mod 256.
Definition u16 (x : Z) : Z := x mod 65536.
Definition u32 (x : Z) : Z := x mod 4294967296.
Definition u64 (x : Z) : Z := x mod 18446744073709551616.
Definition s32 (x : Z) : Z := (x + 2147483648) mod 4294967296 - 2147483648.
Definition s64 (x : Z) : Z :=
  (x + 9223372036854775808) mod 18446744073709551616 - 9223372036854775808.

Definition UINT32_MAX : Z := 4294967295.
Definition UINT64_MAX : Z := 18446744073709551615.
Definition INT64_MAX : Z := 9223372036854775807.

Definition is_u32 (x : Z) : Prop := 0 <= x < 4294967296.
Definition is_u64 (x : Z) : Prop := 0 <= x < 18446744073709551616.

(** Arithmetic goals about words: unfold the wraps, give [lia] the division
    equations. *)
Ltac word_lia :=
  unfold u8, u16, u32, u64, s32, s64, is_u32, is_u64,
    UINT32_MAX, UINT64_MAX, INT64_MAX in *;
  Z.div_mod_to_equations; lia.

Lemma u32_small x : 0 <= x < 4294967296 -> u32 x = x.
Proof. apply Z.mod_small. Qed.

Lemma u64_small x : 0 <= x < 18446744073709551616 -> u64 x = x.
Proof. apply Z.mod_small. Qed.

Lemma s32_small x : -2147483648 <= x < 2147483648 -> s32 x = x.
Proof. intros. unfold s32. rewrite Z.mod_small; lia. Qed.

Lemma s64_small x : -9223372036854775808 <= x < 9223372036854775808 -> s64 x = x.
Proof. intros. unfold s64. rewrite Z.mod_small; lia. Qed.

Lemma u32_range x : 0 <= u32 x < 4294967296.
Proof. apply Z.mod_pos_bound. lia. Qed.

Lemma s32_range x : -2147483648 <= s32 x < 2147483648.
Proof. word_lia. Qed.

Lemma u64_range x : 0 <= u64 x < 18446744073709551616.
Proof. apply Z.mod_pos_bound. lia. Qed.

(** Drop the wraps of arithmetic that stays in range, innermost first. *)
Ltac word_norm :=
  repeat match goal with
  | |- context [u32 ?x] => rewrite (u32_small x) by lia
  | |- context [s32 ?x] => rewrite (s32_small x) by lia
  | |- context [u64 ?x] => rewrite (u64_small x) by lia
  | |- context [s64 ?x] => rewrite (s64_small x) by lia
  end.

(** Case analysis on the comparisons in the goal that involve no wrap,
    dropping the impossible cases; [word_cases] alternates the two. *)
Ltac no_wrap t :=
  lazymatch t with
  | context [u32 _] => fail | context [s32 _] => fail
  | context [u64 _] => fail | context [s64 _] => fail
  | _ => idtac
  end.
Ltac bool_cases :=
  repeat match goal with
  | |- context [?a =? ?b] => no_wrap a; no_wrap b; destruct (Z.eqb_spec a b); try lia
  | |- context [?a <? ?b] => no_wrap a; no_wrap b; destruct (Z.ltb_spec a b); try lia
  | |- context [?a <=? ?b] => no_wrap a; no_wrap b; destruct (Z.leb_spec a b); try lia
  end.
Ltac word_cases := repeat (progress (word_norm; bool_cases; simpl)).

Create HintDb word.
Create Rewrite HintDb word.
#[export] Hint Rewrite u32_small u64_small s32_small s64_small using lia : word.
#[export] Hint Resolve u32_range u64_range : word.

(** ** Bit flags

    [has_flag f m] is the C test [f & m]; [set_flag] is [|=] and
    [clear_flag] is [&= ~m] on a 32-bit word. *)

Definition has_flag (f m : Z) : bool := negb (Z.land f m =? 0).
Definition set_flag (f m : Z) : Z := Z.lor f m.
Definition clear_flag (f m : Z) : Z := Z.land f (u32 (Z.lnot m)).

Lemma testbit_pow2 n i : 0 <= n -> 0 <= i -> Z.testbit (2 ^ n) i = (n =? i).
Proof.
  intros. destruct (Z.eqb_spec n i) as [->|].
  - now apply Z.pow2_bits_true.
  - now apply Z.pow2_bits_false.
Qed.

Lemma has_flag_testbit f n : 0 <= n -> has_flag f (2 ^ n) = Z.testbit f n.
Proof.
  intros Hn. unfold has_flag.
  replace (Z.land f (2 ^ n)) with (if Z.testbit f n then 2 ^ n else 0).
  - destruct (Z.testbit f n); [|reflexivity].
    assert (0 < 2 ^ n) by lia.
    destruct (Z.eqb_spec (2 ^ n) 0); [lia | reflexivity].
  - apply Z.bits_inj'. intros i Hi. rewrite Z.land_spec, testbit_pow2 by lia.
    destruct (Z.eqb_spec n i) as [->|].
    + destruct (Z.testbit f i) eqn:E; [rewrite testbit_pow2, Z.eqb_refl by lia |
        rewrite Z.bits_0]; reflexivity.
    + rewrite andb_false_r. destruct (Z.testbit f n); [|apply Z.bits_0].
      rewrite testbit_pow2 by lia. now apply Z.eqb_neq.
Qed.

Lemma has_set_flag f n m : 0 <= n -> 0 <= m ->
  has_flag (set_flag f (2 ^ m)) (2 ^ n) = (n =? m) || has_flag f (2 ^ n).
Proof.
  intros. rewrite !has_flag_testbit by lia. unfold set_flag.
  rewrite Z.lor_spec, testbit_pow2 by lia.
  rewrite orb_comm. now rewrite (Z.eqb_sym n m).
Qed.

Lemma has_clear_flag f n m : 0 <= n < 32 -> 0 <= m ->
  has_flag (clear_flag f (2 ^ m)) (2 ^ n) = negb (n =? m) && has_flag f (2 ^ n).
Proof.
  intros. rewrite !has_flag_testbit by lia. unfold clear_flag, u32.
  change 4294967296 with (2 ^ 32).
  rewrite Z.land_spec, Z.mod_pow2_bits_low, Z.lnot_spec, testbit_pow2 by lia.
  rewrite andb_comm. now rewrite (Z.eqb_sym n m).
Qed.

Lemma set_flag_other f n m : 0 <= n -> 0 <= m -> n <> m ->
  has_flag (set_flag f (2 ^ m)) (2 ^ n) = has_flag f (2 ^ n).
Proof. intros. rewrite has_set_flag by lia. destruct (Z.eqb_spec n m); [lia|done]. Qed.

Lemma set_flag_same f n : 0 <= n -> has_flag (set_flag f (2 ^ n)) (2 ^ n) = true.
Proof. intros. rewrite has_set_flag by lia. by rewrite Z.eqb_refl. Qed.

Lemma clear_flag_other f n m : 0 <= n < 32 -> 0 <= m -> n <> m ->
  has_flag (clear_flag f (2 ^ m)) (2 ^ n) = has_flag f (2 ^ n).
Proof. intros. rewrite has_clear_flag by lia. destruct (Z.eqb_spec n m); [lia|done]. Qed.

Lemma clear_flag_same f n : 0 <= n < 32 -> has_flag (clear_flag f (2 ^ n)) (2 ^ n) = false.
Proof. intros. rewrite has_clear_flag by lia. by rewrite Z.eqb_refl. Qed.

Lemma is_u32_bits f : 0 <= f -> (forall i, 32 <= i -> Z.testbit f i = false) -> is_u32 f.
Proof.
  intros H0 Hb. split; [lia|].
  destruct (Z.eq_dec f 0) as [->|]; [lia|].
  change 4294967296 with (2 ^ 32). apply Z.log2_lt_pow2; [lia|].
  destruct (Z_lt_le_dec (Z.log2 f) 32) as [|Hge]; [assumption|].
  specialize (Hb _ Hge). rewrite Z.bit_log2 in Hb by lia. discriminate.
Qed.

Lemma testbit_u32_high f i : is_u32 f -> 32 <= i -> Z.testbit f i = false.
Proof.
  intros [H0 H1] Hi. destruct (Z.eq_dec f 0) as [->|]; [apply Z.bits_0|].
  apply Z.bits_above_log2; [lia|].
  change 4294967296 with (2 ^ 32) in H1. apply Z.log2_lt_pow2 in H1; lia.
Qed.

Lemma set_flag_u32 f m : is_u32 f -> is_u32 m -> is_u32 (set_flag f m).
Proof.
  intros Hf Hm. apply is_u32_bits.
  - apply Z.lor_nonneg. destruct Hf, Hm. lia.
  - intros i Hi. unfold set_flag. rewrite Z.lor_spec, !testbit_u32_high by assumption.
    reflexivity.
Qed.

Lemma clear_flag_u32 f m : is_u32 f -> is_u32 (clear_flag f m).
Proof.
  intros Hf. apply is_u32_bits.
  - apply Z.land_nonneg. destruct Hf. lia.
  - intros i Hi. unfold clear_flag. rewrite Z.land_spec, (testbit_u32_high f) by assumption.
    reflexivity.
Qed.

#[export] Hint Resolve set_flag_u32 clear_flag_u32 : word.

(** [x & ~(2^k - 1)] rounds down to a multiple of [2^k]. *)
Lemma land_round_down x k : is_u32 x -> 0 <= k <= 32 ->
  Z.land x (u32 (Z.lnot (2 ^ k - 1))) = x - x mod 2 ^ k.
Proof.
  intros Hx Hk. assert (0 < 2 ^ k) by lia.
  replace (x - x mod 2 ^ k) with (Z.shiftl (Z.shiftr x k) k).
  - apply Z.bits_inj'. intros i Hi.
    replace (2 ^ k - 1) with (Z.ones k) by (rewrite Z.ones_equiv; lia).
    rewrite Z.land_spec, Z.shiftl_spec by lia. unfold u32. change 4294967296 with (2 ^ 32).
    destruct (Z.lt_ge_cases i 32) as [Hi2|Hi2].
    + rewrite Z.mod_pow2_bits_low, Z.lnot_spec by lia.
      destruct (Z.lt_ge_cases i k).
      * rewrite Z.ones_spec_low, (Z.testbit_neg_r _ (i - k)) by lia. by rewrite andb_false_r.
      * rewrite Z.ones_spec_high, Z.shiftr_spec by lia. rewrite andb_true_r. f_equal. lia.
    + rewrite testbit_u32_high by done. simpl. destruct (Z.lt_ge_cases i k); [lia|].
      rewrite Z.shiftr_spec by lia. replace (i - k + k) with i by lia. by rewrite testbit_u32_high.
  - rewrite Z.shiftr_div_pow2, Z.shiftl_mul_pow2 by lia.
    pose proof (Z.div_mod x (2 ^ k)). lia.
Qed.

(** ** Pointers and error codes

    Addresses are integers; the error codes are those of esp_err.h. *)

Definition NULL : Z := 0.

Definition esp_err_t := Z.
Definition ESP_OK : esp_err_t := 0.
Definition ESP_FAIL : esp_err_t := -1.
Definition ESP_ERR_NO_MEM : esp_err_t := 257.
Definition ESP_ERR_INVALID_ARG : esp_err_t := 258.
Definition ESP_ERR_INVALID_STATE : esp_err_t := 259.
Definition ESP_ERR_INVALID_SIZE : esp_err_t := 260.
Definition ESP_ERR_NOT_FOUND : esp_err_t := 261.
Definition ESP_ERR_NOT_SUPPORTED : esp_err_t := 262.
Definition ESP_ERR_TIMEOUT : esp_err_t := 263.
Definition ESP_ERR_INVALID_RESPONSE : esp_err_t := 264.
Definition ESP_ERR_INVALID_CRC : esp_err_t := 265.
Definition ESP_ERR_INVALID_VERSION : esp_err_t := 266.
Definition ESP_ERR_NOT_ALLOWED : esp_err_t := 269.

(** ** Byte-addressed memory

    A memory is a total map from addresses to byte values; a component that
    owns a region only ever looks inside it. *)

Definition memory := Z -> Z.

Definition store_bytes (m : memory) (a : Z) (l : list Z) : memory :=
  fun x => if (a <=? x) && (x <? a + Z.of_nat (length l))
           then nth (Z.to_nat (x - a)) l 0 else m x.

Definition load_bytes (m : memory) (a : Z) (n : Z) : list Z :=
  map (fun i => m (a + Z.of_nat i)) (seq 0 (Z.to_nat n)).

Definition bytes32 (v : Z) : list Z :=
  [v mod 256; (v / 256) mod 256; (v / 65536) mod 256; (v / 16777216) mod 256].

Definition store32 (m : memory) (a v : Z) : memory := store_bytes m a (bytes32 v).

Definition load32 (m : memory) (a : Z) : Z :=
  m a + 256 * m (a + 1) + 65536 * m (a + 2) + 16777216 * m (a + 3).

(** Two memories agree on [[lo, hi)]. *)
Definition agree (m m' : memory) (lo hi : Z) : Prop :=
  forall x, lo <= x < hi -> m x = m' x.

Lemma agree_refl m lo hi : agree m m lo hi.
Proof. now intros x _. Qed.

Lemma agree_trans m1 m2 m3 lo hi : agree m1 m2 lo hi -> agree m2 m3 lo hi -> agree m1 m3 lo hi.
Proof. intros H1 H2 x Hx. now rewrite H1, H2. Qed.

Lemma agree_sub m m' lo hi lo' hi' : agree m m' lo hi -> lo <= lo' -> hi' <= hi -> agree m m' lo' hi'.
Proof. intros H ? ? x Hx. apply H. lia. Qed.

Lemma agree_sym m m' lo hi : agree m m' lo hi -> agree m' m lo hi.
Proof. intros H x Hx. symmetry. auto. Qed.

Lemma store_bytes_agree m a l lo hi :
  hi <= a \/ a + Z.of_nat (length l) <= lo -> agree m (store_bytes m a l) lo hi.
Proof.
  intros H x Hx. unfold store_bytes.
  destruct (Z.leb_spec a x), (Z.ltb_spec x (a + Z.of_nat (length l))); simpl; reflexivity || lia.
Qed.

Lemma store32_agree m a v lo hi : hi <= a \/ a + 4 <= lo -> agree m (store32 m a v) lo hi.
Proof. intros. apply store_bytes_agree. simpl. lia. Qed.

Lemma load32_agree m m' a : agree m m' a (a + 4) -> load32 m' a = load32 m a.
Proof.
  intros H. unfold load32.
  now rewrite <- (H a), <- (H (a + 1)), <- (H (a + 2)), <- (H (a + 3)) by lia.
Qed.

Lemma load_bytes_agree m m' a n : agree m m' a (a + n) -> load_bytes m' a n = load_bytes m a n.
Proof.
  intros H. unfold load_bytes. apply map_ext_in. intros i Hi.
  apply in_seq in Hi. symmetry. apply H. lia.
Qed.

Lemma length_load_bytes m a n : length (load_bytes m a n) = Z.to_nat n.
Proof. unfold load_bytes. now rewrite length_map, length_seq. Qed.

Lemma load_bytes_app m a n1 n2 : 0 <= n1 -> 0 <= n2 ->
  load_bytes m a (n1 + n2) = load_bytes m a n1 ++ load_bytes m (a + n1) n2.
Proof.
  intros H1 H2. unfold load_bytes. rewrite Z2Nat.inj_add, seq_app, map_app by lia. f_equal.
  change (0 + Z.to_nat n1)%nat with (Z.to_nat n1).
  generalize (Z.to_nat n2). intros k. rewrite <- (Nat.add_0_r (Z.to_nat n1)).
  generalize 0%nat as j. induction k as [|k IH]; intros j; [done|]. simpl. f_equal.
  - f_equal. lia.
  - rewrite <- IH. f_equal. f_equal. lia.
Qed.

Lemma load32_store32_same m a v : is_u32 v -> load32 (store32 m a v) a = v.
Proof.
  intros Hv. unfold load32, store32, store_bytes, bytes32. simpl length.
  repeat match goal with
  | |- context [(?x <=? ?y)] => destruct (Z.leb_spec x y); [|lia]
  | |- context [(?x <? ?y)] => destruct (Z.ltb_spec x y); [|lia]
  end.
  simpl andb. cbv iota.
  replace (Z.to_nat (a - a)) with 0%nat by lia.
  replace (Z.to_nat (a + 1 - a)) with 1%nat by lia.
  replace (Z.to_nat (a + 2 - a)) with 2%nat by lia.
  replace (Z.to_nat (a + 3 - a)) with 3%nat by lia.
  simpl nth. unfold is_u32 in Hv.
  replace 65536 with (256 * 256) by lia. replace 16777216 with (256 * 256 * 256) by lia.
  rewrite <- !Z.div_div by lia.
  pose proof (Z.div_mod v 256). pose proof (Z.div_mod (v / 256) 256).
  pose proof (Z.div_mod (v / 256 / 256) 256).
  assert (v / 256 / 256 / 256 < 256).
  { rewrite !Z.div_div by lia. apply Z.div_lt_upper_bound; lia. }
  assert (0 <= v / 256 / 256 / 256) by (rewrite !Z.div_div by lia; apply Z.div_pos; lia).
  rewrite (Z.mod_small (v / 256 / 256 / 256)) by lia. lia.
Qed.

Lemma load_store_bytes_same m a l n :
  n = Z.of_nat (length l) -> load_bytes (store_bytes m a l) a n = l.
Proof.
  intros ->. unfold load_bytes. rewrite Nat2Z.id.
  apply nth_ext with (d := 0) (d' := 0); [now rewrite length_map, length_seq|].
  intros i Hi. rewrite length_map, length_seq in Hi.
  rewrite nth_indep with (d' := store_bytes m a l (a + Z.of_nat 0))
    by now rewrite length_map, length_seq.
  rewrite (map_nth (fun i => store_bytes m a l (a + Z.of_nat i))), seq_nth by assumption.
  unfold store_bytes.
  destruct (Z.leb_spec a (a + Z.of_nat (0 + i))); [|lia].
  destruct (Z.ltb_spec (a + Z.of_nat (0 + i)) (a + Z.of_nat (length l))); [|lia].
  simpl. f_equal. lia.
Qed.

Lemma load32_store32_other m a b v :
  a + 4 <= b \/ b + 4 <= a -> load32 (store32 m a v) b = load32 m b.
Proof. intros. apply load32_agree, store32_agree. lia. Qed.

Lemma load32_store_bytes_other m a b l :
  a + Z.of_nat (length l) <= b \/ b + 4 <= a -> load32 (store_bytes m a l) b = load32 m b.
Proof. intros. apply load32_agree, store_bytes_agree. lia. Qed.

Lemma load_bytes_store32_other m a b v n :
  a + 4 <= b \/ b + n <= a -> load_bytes (store32 m a v) b n = load_bytes m b n.
Proof. intros. apply load_bytes_agree, store32_agree. lia. Qed.

Lemma load_bytes_store_bytes_other m a b l n :
  a + Z.of_nat (length l) <= b \/ b + n <= a ->
  load_bytes (store_bytes m a l) b n = load_bytes m b n.
Proof. intros. apply load_bytes_agree, store_bytes_agree. lia. Qed.

(** Read through writes at other addresses, up to the write at this one. *)
Ltac mem_simpl :=
  repeat first
    [ rewrite load32_store32_same by (unfold is_u32; lia)
    | rewrite load_store_bytes_same by lia
    | rewrite load32_store32_other by (simpl length; lia)
    | rewrite load32_store_bytes_other by lia
    | rewrite load_bytes_store32_other by lia
    | rewrite load_bytes_store_bytes_other by lia ].

(** ** Lists in ascending order of a key *)

Lemma length_pos {A} (l : list A) : l <> [] -> 0 < Z.of_nat (length l).
Proof. destruct l; [done|]. rewrite length_cons. lia. Qed.

(** Insertion in ascending order of value, after the entries of equal value:
    what the event lists and delayed lists of the kernel rely on. *)
Fixpoint ordered_insert {A} (key : A -> Z) (x : A) (l : list A) : list A :=
  match l with
  | [] => [x]
  | y :: l' => if key y <=? key x then y :: ordered_insert key x l' else x :: l
  end.

Fixpoint ascending {A} (key : A -> Z) (l : list A) : Prop :=
  match l with
  | [] => True
  | x :: l' => Forall (fun y => key x <= key y) l' /\ ascending key l'
  end.

Lemma ordered_insert_perm {A} (key : A -> Z) x l : ordered_insert key x l ≡ₚ x :: l.
Proof.
  induction l as [|y l IH]; simpl; [done|]. destruct (_ <=? _); [|done].
  rewrite IH. constructor.
Qed.

Lemma ordered_insert_ascending {A} (key : A -> Z) x l :
  ascending key l -> ascending key (ordered_insert key x l).
Proof.
  induction l as [|y l IH]; simpl; [auto|]. intros [Hy Hl].
  destruct (Z.leb_spec (key y) (key x)); simpl.
  - split; [|auto]. rewrite ordered_insert_perm. auto.
  - split; [|auto]. constructor; [lia|]. eapply Forall_impl; [exact Hy|]. simpl. lia.
Qed.

(** Where the new entry lands: after everything of at most its value, before
    the first larger one. *)
Lemma ordered_insert_split {A} (key : A -> Z) x l :
  exists l1 l2, l = l1 ++ l2 /\ ordered_insert key x l = l1 ++ x :: l2 /\
    Forall (fun y => key y <= key x) l1 /\
    match l2 with [] => True | y :: _ => key x < key y end.
Proof.
  induction l as [|y l (l1 & l2 & -> & E & H1 & H2)]; simpl.
  - now exists [], [].
  - destruct (Z.leb_spec (key y) (key x)).
    + exists (y :: l1), l2. rewrite E. auto.
    + now exists [], (y :: l1 ++ l2).
Qed.

Lemma ordered_insert_ext {A} (k1 k2 : A -> Z) x l :
  k1 x = k2 x -> Forall (fun y => k1 y = k2 y) l ->
  ordered_insert k1 x l = ordered_insert k2 x l.
Proof.
  intros Hx. induction 1 as [|y l Hy _ IH]; simpl; [done|].
  rewrite Hx, Hy, IH. done.
Qed.

Lemma ascending_filter {A} (key : A -> Z) (P : A -> Prop) `{!forall x, Decision (P x)} l :
  ascending key l -> ascending key (filter P l).
Proof.
  induction l as [|x l IH]; [done|]. intros [Hx Hl]. rewrite filter_cons.
  case_decide; [|auto]. split; [|auto]. rewrite Forall_forall in *.
  intros y Hy. apply Hx. by apply list_elem_of_filter in Hy as [_ ?].
Qed.

Lemma ascending_ext {A} (k1 k2 : A -> Z) l :
  (forall x, k1 x = k2 x) -> ascending k1 l -> ascending k2 l.
Proof.
  intros E. induction l as [|x l IH]; [done|]. intros [Hx Hl]. split; [|auto].
  eapply Forall_impl; [exact Hx|]. intros y. simpl. by rewrite !E.
Qed.

Lemma ascending_ext_in {A} (k1 k2 : A -> Z) l :
  (forall x, x ∈ l -> k1 x = k2 x) -> ascending k1 l -> ascending k2 l.
Proof.
  induction l as [|x l IH]; intros E; [done|]. intros [Hx Hl].
  split; [|apply IH; [|done]; intros y Hy; apply E; by right].
  rewrite Forall_forall in Hx |- *. intros y Hy.
  rewrite <- !E; [auto|by right|by left].
Qed.
