(* ===== verification/FreeRTOSList.v ===== *)
(** * The kernel's list type (FreeRTOS-Kernel/list.c)

    Circular doubly linked lists with an embedded end marker, modelled at the
    level of the pointers: a heap maps item addresses to [ListItem_t] records
    and list addresses to [List_t] headers, the operations are the C
    assignments in order, and a NULL or wild dereference is [None].

    [is_list h l xs] says that the list at [l] holds exactly the items [xs] in
    order.  The theorems show that the pointer operations implement the
    operations of the abstract sequence. *)

From stdpp Require Import base list option gmap.
From Stdlib Require Import ZArith Lia.
From S2P Require Import Prelude.

Definition portMAX_DELAY : Z := 4294967295.

Record ListItem_t := mkItem {
  xItemValue : Z;
  pxNext : Z;
  pxPrevious : Z;
  pvOwner : Z;
  pxContainer : Z }.

Record List_t := mkList {
  uxNumberOfItems : Z;
  pxIndex : Z }.

Record list_heap := mkHeap {
  items : gmap Z ListItem_t;
  lists : gmap Z List_t }.

(** The end marker is embedded in the list structure, after the count and the
    index (two 32-bit words). *)
Definition xListEnd (pxList : Z) : Z := pxList + 8.

Definition set_next (v : Z) (i : ListItem_t) : ListItem_t :=
  mkItem (xItemValue i) v (pxPrevious i) (pvOwner i) (pxContainer i).
Definition set_prev (v : Z) (i : ListItem_t) : ListItem_t :=
  mkItem (xItemValue i) (pxNext i) v (pvOwner i) (pxContainer i).
Definition set_container (v : Z) (i : ListItem_t) : ListItem_t :=
  mkItem (xItemValue i) (pxNext i) (pxPrevious i) (pvOwner i) v.
Definition set_value (v : Z) (i : ListItem_t) : ListItem_t :=
  mkItem v (pxNext i) (pxPrevious i) (pvOwner i) (pxContainer i).

(** A store through an item pointer: undefined unless the item exists. *)
Definition upd_item (h : list_heap) (a : Z) (f : ListItem_t -> ListItem_t) : option list_heap :=
  match items h !! a with
  | Some i => Some (mkHeap (<[a := f i]> (items h)) (lists h))
  | None => None
  end.

Definition upd_list (h : list_heap) (l : Z) (f : List_t -> List_t) : option list_heap :=
  match lists h !! l with
  | Some d => Some (mkHeap (items h) (<[l := f d]> (lists h)))
  | None => None
  end.

Definition count_up (d : List_t) : List_t := mkList (u32 (uxNumberOfItems d + 1)) (pxIndex d).
Definition count_down (d : List_t) : List_t := mkList (u32 (uxNumberOfItems d - 1)) (pxIndex d).

(** [configUSE_MINI_LIST_ITEM] is 1 (no owner or container in the end marker)
    and the integrity-check bytes are off, as in the port's configuration. *)
Definition vListInitialise (h : list_heap) (pxList : Z) : option list_heap :=
  let e := xListEnd pxList in
  let! h := upd_list h pxList (fun d => mkList (uxNumberOfItems d) e) in
  let! h := upd_item h e (set_value portMAX_DELAY) in
  let! h := upd_item h e (set_next e) in
  let! h := upd_item h e (set_prev e) in
  upd_list h pxList (fun d => mkList 0 (pxIndex d)).

Definition vListInitialiseItem (h : list_heap) (pxItem : Z) : option list_heap :=
  upd_item h pxItem (set_container NULL).

Definition vListInsertEnd (h : list_heap) (pxList pxNewListItem : Z) : option list_heap :=
  let! d := lists h !! pxList in
  let pxIdx := pxIndex d in
  let! h := upd_item h pxNewListItem (set_next pxIdx) in
  let! ix := items h !! pxIdx in
  let! h := upd_item h pxNewListItem (set_prev (pxPrevious ix)) in
  let! ix := items h !! pxIdx in
  let! h := upd_item h (pxPrevious ix) (set_next pxNewListItem) in
  let! h := upd_item h pxIdx (set_prev pxNewListItem) in
  let! h := upd_item h pxNewListItem (set_container pxList) in
  upd_list h pxList count_up.

(** The [for] loop of [vListInsert]: advance while the next item's value is at
    most the value being inserted.  The fuel is one more than the number of
    items; [vListInsert_spec] shows that it is enough. *)
Fixpoint insert_iterator (fuel : nat) (h : list_heap) (pxIterator v : Z) : option Z :=
  match fuel with
  | O => None
  | S fuel =>
      let! it := items h !! pxIterator in
      let! nxt := items h !! pxNext it in
      if xItemValue nxt <=? v then insert_iterator fuel h (pxNext it) v
      else Some pxIterator
  end.

Definition vListInsert (h : list_heap) (pxList pxNewListItem : Z) : option list_heap :=
  let! new := items h !! pxNewListItem in
  let xValueOfInsertion := xItemValue new in
  let! d := lists h !! pxList in
  let! pxIterator :=
    (if xValueOfInsertion =? portMAX_DELAY then
       let! e := items h !! xListEnd pxList in Some (pxPrevious e)
     else insert_iterator (S (Z.to_nat (uxNumberOfItems d))) h (xListEnd pxList)
            xValueOfInsertion) in
  let! it := items h !! pxIterator in
  let! h := upd_item h pxNewListItem (set_next (pxNext it)) in
  let! new := items h !! pxNewListItem in
  let! h := upd_item h (pxNext new) (set_prev pxNewListItem) in
  let! h := upd_item h pxNewListItem (set_prev pxIterator) in
  let! h := upd_item h pxIterator (set_next pxNewListItem) in
  let! h := upd_item h pxNewListItem (set_container pxList) in
  upd_list h pxList count_up.

Definition uxListRemove (h : list_heap) (pxItemToRemove : Z) : option (Z * list_heap) :=
  let! it := items h !! pxItemToRemove in
  let pxList := pxContainer it in
  let! h := upd_item h (pxNext it) (set_prev (pxPrevious it)) in
  let! it := items h !! pxItemToRemove in
  let! h := upd_item h (pxPrevious it) (set_next (pxNext it)) in
  let! d := lists h !! pxList in
  let! h := (if pxIndex d =? pxItemToRemove
             then let! it := items h !! pxItemToRemove in
                  upd_list h pxList (fun d => mkList (uxNumberOfItems d) (pxPrevious it))
             else Some h) in
  let! h := upd_item h pxItemToRemove (set_container NULL) in
  let! h := upd_list h pxList count_down in
  let! d := lists h !! pxList in
  Some (uxNumberOfItems d, h).

(** ** The abstract sequence *)

(** ** Linked segments

    [seg nx pv p xs q]: following [nx] from [p] visits [xs] and reaches [q],
    and [pv] walks it back. *)

Fixpoint seg (nx pv : Z -> option Z) (p : Z) (xs : list Z) (q : Z) : Prop :=
  match xs with
  | [] => nx p = Some q /\ pv q = Some p
  | x :: xs' => nx p = Some x /\ pv x = Some p /\ seg nx pv x xs' q
  end.

Lemma seg_app nx pv p xs y ys q :
  seg nx pv p (xs ++ y :: ys) q <-> seg nx pv p xs y /\ seg nx pv y ys q.
Proof. revert p. induction xs as [|x xs IH]; intros p; simpl; [tauto|]. rewrite IH. tauto. Qed.

Lemma seg_ext nx pv nx' pv' p xs q :
  (forall x, x ∈ p :: xs -> nx' x = nx x) ->
  (forall x, x ∈ xs ++ [q] -> pv' x = pv x) ->
  seg nx pv p xs q -> seg nx' pv' p xs q.
Proof.
  revert p. induction xs as [|x xs IH]; intros p Hn Hp; simpl in *.
  - intros [H1 H2]. rewrite Hn, Hp by set_solver. done.
  - intros (H1 & H2 & H3). rewrite Hn, Hp by set_solver.
    split_and!; [done..|]. apply IH; [set_solver..|done].
Qed.

(** The predecessor of a split point, and its successor. *)
Lemma seg_split nx pv p xs ys q :
  seg nx pv p (xs ++ ys) q ->
  exists a b, last (p :: xs) = Some a /\ head (ys ++ [q]) = Some b /\
    nx a = Some b /\ pv b = Some a.
Proof.
  revert p. induction xs as [|x xs IH]; intros p; simpl.
  - destruct ys as [|y ys]; simpl; intros; [exists p, q | exists p, y]; naive_solver.
  - intros (_ & _ & H). exact (IH x H).
Qed.

(** Splicing a fresh node between the two neighbours of a split point. *)
Lemma seg_insert nx pv nx' pv' p xs ys q a b new :
  last (p :: xs) = Some a -> head (ys ++ [q]) = Some b ->
  NoDup (p :: xs ++ ys) -> NoDup (xs ++ ys ++ [q]) ->
  new ∉ p :: xs ++ ys -> new ∉ xs ++ ys ++ [q] ->
  (forall x, nx' x = if decide (x = a) then Some new else if decide (x = new) then Some b else nx x) ->
  (forall x, pv' x = if decide (x = b) then Some new else if decide (x = new) then Some a else pv x) ->
  seg nx pv p (xs ++ ys) q -> seg nx' pv' p (xs ++ new :: ys) q.
Proof.
  intros Ha Hb Hnd1 Hnd2 Hf1 Hf2 Hn Hp. revert p Ha Hnd1 Hnd2 Hf1 Hf2.
  induction xs as [|x xs IH]; intros p Ha Hnd1 Hnd2 Hf1 Hf2 Hs; simpl in *.
  - simplify_eq. destruct ys as [|y ys]; simpl in *; simplify_eq.
    + rewrite !Hn, !Hp. repeat case_decide; simplify_eq; set_solver.
    + destruct Hs as (H1 & H2 & H3).
      apply NoDup_cons in Hnd1 as [? Hnd1]. apply NoDup_cons in Hnd2 as [? Hnd2].
      split_and!.
      * rewrite Hn. case_decide; [done|set_solver].
      * rewrite Hp. repeat case_decide; set_solver.
      * rewrite Hn. repeat case_decide; set_solver.
      * rewrite Hp. case_decide; [done|set_solver].
      * apply (seg_ext nx pv); [| |done].
        -- intros z Hz. rewrite Hn. repeat case_decide; set_solver.
        -- intros z Hz. rewrite Hp. repeat case_decide; set_solver.
  - destruct Hs as (H1 & H2 & H3).
    apply NoDup_cons in Hnd1 as [Hp1 Hnd1]. apply NoDup_cons in Hnd2 as [Hx2 Hnd2].
    assert (a ∈ x :: xs) as Hax by (apply last_Some_elem_of; done).
    assert (b ∈ ys ++ [q]) as Hbx by (destruct ys; simpl in *; set_solver).
    split_and!.
    + rewrite Hn. repeat case_decide; set_solver.
    + rewrite Hp. repeat case_decide; set_solver.
    + apply IH; [done | done | set_solver | set_solver | set_solver | done].
Qed.

(** Unlinking a node. *)
Lemma seg_remove nx pv nx' pv' p xs x ys q a b :
  nx x = Some b -> pv x = Some a ->
  NoDup (p :: xs ++ x :: ys) -> NoDup (xs ++ x :: ys ++ [q]) ->
  (forall z, z <> x -> nx' z = if decide (z = a) then Some b else nx z) ->
  (forall z, z <> x -> pv' z = if decide (z = b) then Some a else pv z) ->
  seg nx pv p (xs ++ x :: ys) q -> seg nx' pv' p (xs ++ ys) q.
Proof.
  intros Hb Ha Hnd1 Hnd2 Hn Hp. revert p Hnd1 Hnd2.
  induction xs as [|z xs IH]; intros p Hnd1 Hnd2 Hs; simpl in *.
  - destruct Hs as (H1 & H2 & H3). simplify_eq.
    apply NoDup_cons in Hnd1 as [Hd1 Hnd1]. apply NoDup_cons in Hnd1 as [Hd2 Hnd1].
    apply NoDup_cons in Hnd2 as [Hd3 Hnd2].
    destruct ys as [|y ys]; simpl in *.
    + destruct H3 as [H3 H4]. simplify_eq. rewrite Hn, Hp by set_solver.
      rewrite !decide_True by done. done.
    + destruct H3 as (H3 & H4 & H5). simplify_eq.
      apply NoDup_cons in Hnd1 as [Hd4 Hnd1]. apply NoDup_cons in Hnd2 as [Hd5 Hnd2].
      rewrite Hn, Hp by set_solver. rewrite !decide_True by done.
      split_and!; [done..|]. apply (seg_ext nx pv); [| |done].
      * intros w Hw. rewrite Hn by set_solver. case_decide; set_solver.
      * intros w Hw. rewrite Hp by set_solver. case_decide; set_solver.
  - destruct Hs as (H1 & H2 & H3).
    apply NoDup_cons in Hnd1 as [Hd1 Hnd1]. apply NoDup_cons in Hnd2 as [Hd2 Hnd2].
    apply seg_split in H3 as Hsp. destruct Hsp as (a' & b' & Ha' & Hb' & Hn' & Hp').
    simpl in Hb'. injection Hb' as <-. rewrite Hp' in Ha. injection Ha as ->.
    assert (a ∈ z :: xs) as Hax by (apply last_Some_elem_of; done).
    assert (b ∈ ys ++ [q]) as Hbx.
    { apply (seg_app nx pv z xs x ys q) in H3 as [_ H3].
      destruct ys; simpl in *; naive_solver set_solver. }
    split_and!.
    + rewrite Hn by set_solver. case_decide; set_solver.
    + rewrite Hp by set_solver. case_decide; set_solver.
    + apply IH; [set_solver | set_solver | done].
Qed.

(** ** The representation invariant *)

Definition nx (h : list_heap) (a : Z) : option Z := pxNext <$> items h !! a.
Definition pv (h : list_heap) (a : Z) : option Z := pxPrevious <$> items h !! a.
Definition vl (h : list_heap) (a : Z) : option Z := xItemValue <$> items h !! a.
Definition ct (h : list_heap) (a : Z) : option Z := pxContainer <$> items h !! a.

(** The value an item sorts by (0 for an address that is not an item). *)
Definition value_at (h : list_heap) (a : Z) : Z := default 0 (vl h a).

Record is_list (h : list_heap) (l : Z) (xs : list Z) : Prop := {
  il_nodup : NoDup (xListEnd l :: xs);
  il_seg : seg (nx h) (pv h) (xListEnd l) xs (xListEnd l);
  il_end : vl h (xListEnd l) = Some portMAX_DELAY;
  il_values : Forall (fun x => exists v, vl h x = Some v /\ 0 <= v <= portMAX_DELAY) xs;
  il_cont : Forall (fun x => ct h x = Some l) xs;
  il_hdr : exists d, lists h !! l = Some d /\
     uxNumberOfItems d = Z.of_nat (length xs) /\ pxIndex d ∈ xListEnd l :: xs;
  il_small : Z.of_nat (length xs) < 4294967296 }.

Lemma upd_item_spec h a f i :
  items h !! a = Some i ->
  upd_item h a f = Some (mkHeap (<[a := f i]> (items h)) (lists h)).
Proof. intros H. unfold upd_item. by rewrite H. Qed.

Lemma seg_nodup_end e (xs : list Z) : NoDup (e :: xs) -> NoDup (xs ++ [e]).
Proof.
  intros H. rewrite (Permutation_app_comm xs [e]). exact H.
Qed.

(** What splicing [new] between the neighbours [a] and [b] leaves behind, and
    that it is all a list insertion has to do. *)
Record spliced (h h' : list_heap) (l a b new : Z) : Prop := {
  sp_nx : forall x, nx h' x = if decide (x = a) then Some new
                              else if decide (x = new) then Some b else nx h x;
  sp_pv : forall x, pv h' x = if decide (x = b) then Some new
                              else if decide (x = new) then Some a else pv h x;
  sp_vl : forall x, vl h' x = vl h x;
  sp_ct : forall x, ct h' x = if decide (x = new) then Some l else ct h x;
  sp_lists : lists h' = <[l := count_up (default (mkList 0 0) (lists h !! l))]> (lists h) }.

Lemma spliced_is_list h h' l a b new xs ys v :
  is_list h l (xs ++ ys) ->
  new ∉ xListEnd l :: xs ++ ys ->
  vl h new = Some v -> 0 <= v <= portMAX_DELAY ->
  Z.of_nat (length (xs ++ ys)) + 1 < 4294967296 ->
  last (xListEnd l :: xs) = Some a -> head (ys ++ [xListEnd l]) = Some b ->
  spliced h h' l a b new ->
  is_list h' l (xs ++ new :: ys).
Proof.
  intros [Hnd Hs He Hv Hc Hh Hsm] Hnew Hvn Hvr Hlen Ha Hb [S1 S2 S3 S4 S5].
  assert (new :: xs ++ ys ≡ₚ xs ++ new :: ys) as Hperm by (apply Permutation_middle).
  split.
  - rewrite <- Hperm. apply NoDup_cons in Hnd as [? ?].
    apply NoDup_cons. split; [set_solver|]. apply NoDup_cons. split; [set_solver|done].
  - pose proof (seg_nodup_end _ _ Hnd) as Hnd2. rewrite <- app_assoc in Hnd2.
    eapply (seg_insert (nx h) (pv h)); eauto. set_solver.
  - by rewrite S3.
  - rewrite <- Hperm. apply Forall_cons. split; [exists v; rewrite S3; done|].
    eapply Forall_impl; [exact Hv|]. intros x. simpl. by rewrite S3.
  - rewrite <- Hperm. apply Forall_cons. split; [rewrite S4; by case_decide|].
    rewrite Forall_forall in Hc |- *. intros x Hx. rewrite S4. case_decide; [done|auto].
  - destruct Hh as (d & Hd & Hn & Hi). exists (count_up d).
    rewrite S5, Hd. simpl. rewrite lookup_insert_eq. split; [done|].
    rewrite Hn, <- Hperm. simpl length.
    rewrite u32_small; [split; [lia|set_solver]|]. rewrite length_app in *. lia.
  - rewrite <- Hperm. simpl. lia.
Qed.

Lemma spliced_intro h l a b new i ia ib d h' :
  items h !! new = Some i -> items h !! a = Some ia -> items h !! b = Some ib ->
  lists h !! l = Some d -> new <> a -> new <> b ->
  pxNext ia = b -> pxPrevious ib = a ->
  lists h' = <[l := count_up d]> (lists h) ->
  (forall x, items h' !! x =
     if decide (x = new) then Some (mkItem (xItemValue i) b a (pvOwner i) l)
     else (fun j => mkItem (xItemValue j)
             (if decide (x = a) then new else pxNext j)
             (if decide (x = b) then new else pxPrevious j) (pvOwner j) (pxContainer j))
          <$> items h !! x) ->
  spliced h h' l a b new.
Proof.
  intros Hi Ha Hb Hd Hna Hnb Hab Hba Hl Hit.
  split; unfold nx, pv, vl, ct; [..|by rewrite Hl, Hd]; intros x; rewrite Hit.
  - destruct (decide (x = a)) as [->|]; [rewrite decide_False, Ha by done; done|].
    case_decide; [done|]. by destruct (items h !! x).
  - destruct (decide (x = b)) as [->|]; [rewrite decide_False, Hb by done; done|].
    case_decide; [done|]. by destruct (items h !! x).
  - case_decide as E; [by rewrite E, Hi|]. by destruct (items h !! x).
  - case_decide; [done|]. by destruct (items h !! x).
Qed.

(** Symbolic execution of the pointer assignments: each store is a lookup in a
    map of inserts, settled by the distinctness of the addresses. *)
Ltac run_stores :=
  unfold upd_item, upd_list;
  repeat first
    [ rewrite lookup_insert_eq | rewrite lookup_insert_ne by congruence
    | match goal with H : _ !! _ = Some _ |- _ => rewrite H end
    | match goal with H : pxNext _ = _ |- _ => rewrite H end
    | match goal with H : pxPrevious _ = _ |- _ => rewrite H end
    | match goal with H : pxIndex _ = _ |- _ => rewrite H end
    | match goal with H : pxContainer _ = _ |- _ => rewrite H end
    | match goal with H : (_ =? _) = _ |- _ => rewrite H end
    | progress simpl ].

(** Compare the resulting heap with the expected one, address by address. *)
Ltac compare_heaps :=
  repeat first
    [ rewrite lookup_insert_eq | rewrite lookup_insert_ne by congruence
    | match goal with H : _ !! _ = Some _ |- _ => rewrite H end
    | match goal with |- context [decide (?x = ?y)] =>
        destruct (decide (x = y)) as [->|]; try congruence end
    | progress simpl ];
  try reflexivity; try congruence.

Lemma insert_between h l new i ia ib d a b :
  items h !! new = Some i -> items h !! a = Some ia -> items h !! b = Some ib ->
  lists h !! l = Some d -> new <> a -> new <> b ->
  pxNext ia = b -> pxPrevious ib = a ->
  exists h',
    (let! h1 := upd_item h new (set_next (pxNext ia)) in
     let! n1 := items h1 !! new in
     let! h1 := upd_item h1 (pxNext n1) (set_prev new) in
     let! h1 := upd_item h1 new (set_prev a) in
     let! h1 := upd_item h1 a (set_next new) in
     let! h1 := upd_item h1 new (set_container l) in
     upd_list h1 l count_up) = Some h' /\ spliced h h' l a b new.
Proof.
  intros Hi Ha Hb Hd Hna Hnb Hab Hba.
  destruct (decide (a = b)) as [->|E]; run_stores; eexists; (split; [reflexivity|]);
    (eapply (spliced_intro h l _ _ new i ia ib d); [assumption ..|reflexivity|intros x; simpl]).
  all: compare_heaps.
  all: by destruct (items h !! x) as [[]|].
Qed.

Lemma insert_end_between h l new i ia ib d a b :
  items h !! new = Some i -> items h !! a = Some ia -> items h !! b = Some ib ->
  lists h !! l = Some d -> pxIndex d = b -> new <> a -> new <> b ->
  pxNext ia = b -> pxPrevious ib = a ->
  exists h', vListInsertEnd h l new = Some h' /\ spliced h h' l a b new.
Proof.
  intros Hi Ha Hb Hd Hix Hna Hnb Hab Hba. unfold vListInsertEnd.
  destruct (decide (a = b)) as [->|E]; run_stores; eexists; (split; [reflexivity|]);
    (eapply (spliced_intro h l _ _ new i ia ib d); [assumption ..|reflexivity|intros x; simpl]).
  all: compare_heaps.
  all: by destruct (items h !! x) as [[]|].
Qed.

Lemma nx_lookup h a b : nx h a = Some b -> exists i, items h !! a = Some i /\ pxNext i = b.
Proof. unfold nx. destruct (items h !! a) eqn:E; simpl; naive_solver. Qed.

Lemma pv_lookup h a b : pv h a = Some b -> exists i, items h !! a = Some i /\ pxPrevious i = b.
Proof. unfold pv. destruct (items h !! a) eqn:E; simpl; naive_solver. Qed.

Lemma vl_lookup h a v : vl h a = Some v -> exists i, items h !! a = Some i /\ xItemValue i = v.
Proof. unfold vl. destruct (items h !! a) eqn:E; simpl; naive_solver. Qed.

Lemma ct_lookup h a v : ct h a = Some v -> exists i, items h !! a = Some i /\ pxContainer i = v.
Proof. unfold ct. destruct (items h !! a) eqn:E; simpl; naive_solver. Qed.

(** The neighbours of a split point of a well-formed list. *)
Lemma is_list_split h l xs ys :
  is_list h l (xs ++ ys) ->
  exists a b ia ib, last (xListEnd l :: xs) = Some a /\ head (ys ++ [xListEnd l]) = Some b /\
    items h !! a = Some ia /\ items h !! b = Some ib /\ pxNext ia = b /\ pxPrevious ib = a /\
    a ∈ xListEnd l :: xs ++ ys /\ b ∈ xListEnd l :: xs ++ ys.
Proof.
  intros Hl. destruct (seg_split _ _ _ _ _ _ (il_seg _ _ _ Hl)) as (a & b & Ha & Hb & Hn & Hp).
  apply nx_lookup in Hn as (ia & Hia & <-). apply pv_lookup in Hp as (ib & Hib & <-).
  exists (pxPrevious ib), (pxNext ia), ia, ib. split_and!; try done.
  - apply last_Some_elem_of in Ha. set_solver.
  - destruct ys; simpl in *; simplify_eq; set_solver.
Qed.

(** The loop finds the last entry of at most the inserted value. *)
Lemma insert_iterator_spec h l v xs ys p fuel :
  seg (nx h) (pv h) p (xs ++ ys) (xListEnd l) ->
  Forall (fun x => value_at h x <= v) xs ->
  vl h (xListEnd l) = Some portMAX_DELAY -> v < portMAX_DELAY ->
  Forall (fun x => exists w, vl h x = Some w) (xs ++ ys) ->
  match ys with [] => True | y :: _ => v < value_at h y end ->
  (length xs < fuel)%nat ->
  insert_iterator fuel h p v = last (p :: xs).
Proof.
  intros Hs Hle He Hv Hval Hy. revert p fuel Hs.
  induction xs as [|x xs IH]; intros p fuel Hs Hf; (destruct fuel as [|fuel]; [simpl in Hf; lia|]); simpl.
  - destruct (seg_split _ _ p [] ys _ Hs) as (a & b & Ha & Hb & Hn & Hp). simpl in *. simplify_eq.
    apply nx_lookup in Hn as (i & Hi & Hnx). rewrite Hi, Hnx.
    assert (exists w, vl h b = Some w /\ v < w) as (w & Hw & Hlt).
    { destruct ys as [|y ys]; simpl in Hb; injection Hb as <-.
      { exists portMAX_DELAY. done. }
      apply Forall_cons in Hval as [[w Hw] _]. exists w. unfold value_at in Hy.
      rewrite Hw in Hy. done. }
    apply vl_lookup in Hw as (ib & Hib & Hbw). rewrite Hib, Hbw.
    destruct (Z.leb_spec w v); [lia|done].
  - simpl in Hs. destruct Hs as (Hn & Hp & Hs). apply Forall_cons in Hle as [Hx Hle'].
    apply Forall_cons in Hval as [[w Hw] Hval'].
    apply nx_lookup in Hn as (i & Hi & Hin). rewrite Hi, Hin.
    unfold value_at in Hx. rewrite Hw in Hx. apply vl_lookup in Hw as (ix & Hix & Hxw).
    rewrite Hix, Hxw. simpl in Hx. destruct (Z.leb_spec w v); [|lia].
    rewrite IH by (auto; simpl in Hf; lia). done.
Qed.

(** C39: [vListInsert] implements ordered insertion. *)
Theorem vListInsert_refines h l xs new v :
  is_list h l xs -> new ∉ xListEnd l :: xs ->
  vl h new = Some v -> 0 <= v <= portMAX_DELAY ->
  Z.of_nat (length xs) + 1 < 4294967296 ->
  exists h', vListInsert h l new = Some h' /\
    is_list h' l (ordered_insert (value_at h) new xs) /\
    (forall x, value_at h' x = value_at h x) /\
    (forall x, x <> new -> ct h' x = ct h x) /\ ct h' new = Some l.
Proof.
  intros Hl Hnew Hv Hvr Hlen.
  destruct (ordered_insert_split (value_at h) new xs) as (xs1 & xs2 & -> & -> & Hle & Hgt).
  assert (value_at h new = v) as Hva by (unfold value_at; by rewrite Hv). rewrite Hva in *.
  pose proof Hl as [Hnd Hs He Hvs Hc (d & Hd & Hn & Hix) Hsm].
  destruct (is_list_split _ _ _ _ Hl) as (a & b & ia & ib & Ha & Hb & Hia & Hib & Hab & Hba & Hain & Hbin).
  destruct (vl_lookup _ _ _ Hv) as (i & Hi & Hiv).
  destruct (insert_between h l new i ia ib d a b) as (h' & Hrun & Hsp);
    [done..|set_solver|set_solver|done|done|].
  exists h'. split_and!.
  - unfold vListInsert. rewrite Hi, Hd, Hiv.
    destruct (Z.eqb_spec v portMAX_DELAY) as [->|Hne].
    + assert (xs2 = []) as ->.
      { destruct xs2 as [|y xs2]; [done|]. exfalso.
        rewrite Forall_app, Forall_cons in Hvs. destruct Hvs as (_ & (w & Hw & Hwr) & _).
        unfold value_at in Hgt. rewrite Hw in Hgt. simpl in Hgt. lia. }
      simpl in Hb. injection Hb as <-. rewrite Hib, Hba, Hia. exact Hrun.
    + rewrite (insert_iterator_spec h l v xs1 xs2), Ha, Hia; try done; [lia| |].
      * eapply Forall_impl; [exact Hvs|]. intros x (w & Hw & _). eauto.
      * rewrite Hn, length_app. lia.
  - by eapply spliced_is_list.
  - intros x. unfold value_at. by rewrite (sp_vl _ _ _ _ _ _ Hsp).
  - intros x Hx. rewrite (sp_ct _ _ _ _ _ _ Hsp). by case_decide.
  - rewrite (sp_ct _ _ _ _ _ _ Hsp). by case_decide.
Qed.

(** [vListInsertEnd] inserts just before the list's current index. *)
Theorem vListInsertEnd_refines h l xs ys new v d :
  is_list h l (xs ++ ys) -> lists h !! l = Some d ->
  head (ys ++ [xListEnd l]) = Some (pxIndex d) ->
  new ∉ xListEnd l :: xs ++ ys ->
  vl h new = Some v -> 0 <= v <= portMAX_DELAY ->
  Z.of_nat (length (xs ++ ys)) + 1 < 4294967296 ->
  exists h', vListInsertEnd h l new = Some h' /\ is_list h' l (xs ++ new :: ys).
Proof.
  intros Hl Hd Hix Hnew Hv Hvr Hlen.
  destruct (is_list_split _ _ _ _ Hl) as (a & b & ia & ib & Ha & Hb & Hia & Hib & Hab & Hba & Hain & Hbin).
  rewrite Hb in Hix. injection Hix as Hix.
  destruct (vl_lookup _ _ _ Hv) as (i & Hi & Hiv).
  destruct (insert_end_between h l new i ia ib d a b) as (h' & Hrun & Hsp);
    [done..|set_solver|set_solver|done|done|].
  exists h'. split; [done|]. by eapply spliced_is_list.
Qed.

Lemma vListInitialise_spec h l i d :
  items h !! xListEnd l = Some i -> lists h !! l = Some d ->
  exists h', vListInitialise h l = Some h' /\ is_list h' l [] /\
    (forall x, x <> xListEnd l -> items h' !! x = items h !! x).
Proof.
  intros Hi Hd. unfold vListInitialise. run_stores. eexists. split; [reflexivity|].
  split; [|intros x Hx; simpl; by rewrite !lookup_insert_ne by congruence].
  split; simpl; unfold nx, pv, vl; simpl; rewrite ?lookup_insert_eq; try done.
  - apply NoDup_singleton.
  - eexists. rewrite ?lookup_insert_eq. split; [reflexivity|]. simpl. split; [done|set_solver].
Qed.

(** The neighbours of a linked item. *)
Lemma is_list_item h l xs x ys :
  is_list h l (xs ++ x :: ys) ->
  exists i a b ia ib, items h !! x = Some i /\ pxContainer i = l /\
    pxNext i = b /\ pxPrevious i = a /\
    items h !! a = Some ia /\ items h !! b = Some ib /\ x <> a /\ x <> b /\
    a ∈ xListEnd l :: xs /\ b ∈ xListEnd l :: ys.
Proof.
  intros Hl. pose proof (il_nodup _ _ _ Hl) as Hnd. pose proof (il_cont _ _ _ Hl) as Hc.
  destruct (is_list_split h l xs (x :: ys) Hl) as (a & b & ia & ib & Ha & Hb & Hia & Hib & Hab & Hba & _ & _).
  injection Hb as <-.
  assert (xs ++ x :: ys = (xs ++ [x]) ++ ys) as E by (by rewrite <- app_assoc).
  rewrite E in Hl.
  destruct (is_list_split h l (xs ++ [x]) ys Hl) as (a' & b' & ia' & ib' & Ha' & Hb' & Hia' & Hib' & Hab' & Hba' & _ & _).
  replace (xListEnd l :: xs ++ [x]) with ((xListEnd l :: xs) ++ [x]) in Ha' by done.
  rewrite last_snoc in Ha'. injection Ha' as <-. rewrite Hia' in Hib. injection Hib as ->.
  rewrite Forall_app, Forall_cons in Hc. destruct Hc as (_ & Hcx & _).
  apply ct_lookup in Hcx as (i & Hi & Hic). rewrite Hi in Hia'. injection Hia' as ->.
  apply NoDup_cons in Hnd as [Hd1 Hnd]. apply NoDup_app in Hnd as (Hn1 & Hn2 & Hn3).
  apply NoDup_cons in Hn3 as [Hn4 Hn5].
  apply last_Some_elem_of in Ha.
  assert (b' ∈ xListEnd l :: ys) as Hbin.
  { clear -Hb'. destruct ys as [|y ys]; simpl in Hb'; injection Hb' as <-; set_solver. }
  assert (x <> xListEnd l /\ x ∉ xs /\ x ∉ ys) as (Hx1 & Hx2 & Hx3) by set_solver.
  exists ib, a, b', ia, ib'. split_and!; try done.
  - intros ->. apply elem_of_cons in Ha. naive_solver.
  - intros ->. apply elem_of_cons in Hbin. naive_solver.
Qed.

(** [uxListRemove] unlinks exactly the given item. *)
Theorem uxListRemove_refines h l xs x ys :
  is_list h l (xs ++ x :: ys) ->
  exists h', uxListRemove h x = Some (Z.of_nat (length (xs ++ ys)), h') /\
    is_list h' l (xs ++ ys) /\ ct h' x = Some NULL.
Proof.
  intros Hl.
  destruct (is_list_item _ _ _ _ _ Hl) as
    (i & a & b & ia & ib & Hi & Hic & Hnxt & Hprv & Hia & Hib & Hxa & Hxb & Hain & Hbin).
  pose proof Hl as [Hnd Hs He Hvs Hc (d & Hd & Hn & Hix) Hsm].
  assert (NoDup (xListEnd l :: xs ++ ys)) as Hnd'.
  { rewrite <- Permutation_middle in Hnd. apply NoDup_cons in Hnd as [? Hnd].
    apply NoDup_cons in Hnd as [? ?]. apply NoDup_cons. set_solver. }
  assert (x ∉ xListEnd l :: xs ++ ys) as Hx.
  { rewrite <- Permutation_middle in Hnd. rewrite Permutation_swap in Hnd.
    by apply NoDup_cons in Hnd as [? _]. }
  assert (exists h', uxListRemove h x = Some (u32 (uxNumberOfItems d - 1), h') /\
     lists h' = <[l := mkList (u32 (uxNumberOfItems d - 1))
                        (if pxIndex d =? x then a else pxIndex d)]> (lists h) /\
     (forall z, items h' !! z =
        if decide (z = x) then Some (set_container NULL i)
        else (fun j => mkItem (xItemValue j)
             (if decide (z = a) then b else pxNext j)
             (if decide (z = b) then a else pxPrevious j) (pvOwner j) (pxContainer j))
          <$> items h !! z)) as (h' & Hrun & Hlists & Hit).
  { unfold uxListRemove. destruct (decide (a = b)) as [->|E];
      destruct (pxIndex d =? x) eqn:Eix; run_stores;
      eexists; (split; [reflexivity|]); (split; [simpl; rewrite ?insert_insert_eq; reflexivity|]);
      intros z; simpl.
    all: compare_heaps; by destruct (items h !! z) as [[]|]. }
  assert (forall z, vl h' z = vl h z) as Hvl.
  { intros z. unfold vl. rewrite Hit. case_decide as E; [by rewrite E, Hi|].
    by destruct (items h !! z). }
  assert (u32 (uxNumberOfItems d - 1) = Z.of_nat (length (xs ++ ys))) as Hcount.
  { rewrite Hn, !length_app in *. simpl in *. rewrite u32_small; lia. }
  exists h'. split_and!.
  - by rewrite Hrun, Hcount.
  - split.
    + done.
    + eapply (seg_remove (nx h) (pv h) _ _ _ _ x _ _ a b).
      * unfold nx. by rewrite Hi, <- Hnxt.
      * unfold pv. by rewrite Hi, <- Hprv.
      * done.
      * apply seg_nodup_end in Hnd. by rewrite <- app_assoc in Hnd.
      * intros z Hz. unfold nx. rewrite Hit. rewrite decide_False by done.
        destruct (decide (z = a)) as [->|]; [by rewrite Hia|]. by destruct (items h !! z).
      * intros z Hz. unfold pv. rewrite Hit. rewrite decide_False by done.
        destruct (decide (z = b)) as [->|]; [by rewrite Hib|]. by destruct (items h !! z).
      * done.
    + by rewrite Hvl.
    + rewrite <- Permutation_middle in Hvs. apply Forall_cons in Hvs as [_ Hvs].
      eapply Forall_impl; [exact Hvs|]. intros z. simpl. by rewrite Hvl.
    + rewrite <- Permutation_middle in Hc. apply Forall_cons in Hc as [_ Hc].
      rewrite Forall_forall in Hc |- *. intros z Hz. unfold ct. rewrite Hit.
      rewrite decide_False by set_solver. specialize (Hc z Hz). unfold ct in Hc.
      by destruct (items h !! z).
    + eexists. rewrite Hlists, lookup_insert_eq. split; [done|]. simpl. split; [done|].
      destruct (Z.eqb_spec (pxIndex d) x); set_solver.
    + rewrite !length_app in *. simpl in *. lia.
  - unfold ct. by rewrite Hit, decide_True.
Qed.

(** ** A concrete heap

    The list at 100 holds the items 200 (value 5) and 300 (value 9); item 400
    (value 5) is in no list. *)
Definition demo_heap : list_heap :=
  mkHeap (list_to_map
    [(108, mkItem portMAX_DELAY 200 300 0 0);
     (200, mkItem 5 300 108 1 100);
     (300, mkItem 9 108 200 2 100);
     (400, mkItem 5 0 0 3 0)])
    {[100 := mkList 2 108]}.

Lemma demo_is_list : is_list demo_heap 100 [200; 300].
Proof.
  split; [| | | | | | simpl; lia].
  - apply (bool_decide_unpack _). vm_compute. exact I.
  - vm_compute. repeat split.
  - reflexivity.
  - rewrite Forall_forall. intros x Hx. unfold portMAX_DELAY.
    apply elem_of_cons in Hx as [->|Hx]; [exists 5; split; [reflexivity|lia]|].
    apply elem_of_cons in Hx as [->|Hx]; [exists 9; split; [reflexivity|lia]|].
    by apply not_elem_of_nil in Hx.
  - repeat constructor.
  - exists (mkList 2 108). split_and!; [reflexivity..|]. simpl. left.
Qed.

Example vListInsert_refines_witness :
  exists h', vListInsert demo_heap 100 400 = Some h' /\ is_list h' 100 [200; 400; 300] /\
    (forall x, value_at h' x = value_at demo_heap x) /\
    (forall x, x <> 400 -> ct h' x = ct demo_heap x) /\ ct h' 400 = Some 100.
Proof.
  apply (vListInsert_refines demo_heap 100 [200; 300] 400 5);
    [exact demo_is_list | apply (bool_decide_unpack _); vm_compute; exact I | reflexivity
    | unfold portMAX_DELAY; lia | simpl; lia].
Defined.

Example vListInsertEnd_refines_witness :
  exists h', vListInsertEnd demo_heap 100 400 = Some h' /\ is_list h' 100 [200; 300; 400].
Proof.
  apply (vListInsertEnd_refines demo_heap 100 [200; 300] [] 400 5 (mkList 2 108));
    [exact demo_is_list | reflexivity | reflexivity
    | apply (bool_decide_unpack _); vm_compute; exact I | reflexivity
    | unfold portMAX_DELAY; lia | simpl; lia].
Defined.

Example uxListRemove_refines_witness :
  exists h', uxListRemove demo_heap 200 = Some (1, h') /\ is_list h' 100 [300] /\
    ct h' 200 = Some NULL.
Proof. apply (uxListRemove_refines demo_heap 100 [] 200 [300]). exact demo_is_list. Defined.
