(* ===== verification/Kernel.v ===== *)
(** * Blocking and time in the kernel (FreeRTOS-Kernel/tasks.c)

    The part of the scheduler the services above rely on: task control blocks,
    the ready, delayed, overflow-delayed, suspended and pending-ready lists,
    event lists, time-outs and the tick interrupt.  The configuration is the
    single-core one of the port ([configNUMBER_OF_CORES] = 1,
    [INCLUDE_xTaskAbortDelay] = [INCLUDE_vTaskSuspend] = 1, generic task
    selection, no tickless idle, no tick hook, preemption with time slicing).

    A list is the sequence of the tasks on it, after the end marker; of the ready
    lists, which the context switch walks, [pxIndex] is kept beside them (it stays
    at the end marker in the others); FreeRTOSList.v shows that the
    pointer structures implement [ordered_insert] and the other sequence
    operations used here.  A task is its handle (the address of its TCB). *)

From stdpp Require Import base list option gmap.
From Stdlib Require Import ZArith Lia.
From S2P Require Import Prelude FreeRTOSList.

Definition configMAX_PRIORITIES : Z := 25.

Record TCB_t := mkTCB {
  uxPriority : Z;
  xStateItemValue : Z;        (* xStateListItem.xItemValue *)
  xEventItemValue : Z;        (* xEventListItem.xItemValue *)
  xEventContainer : Z;        (* xEventListItem.pxContainer *)
  ucDelayAborted : bool;
  uxBasePriority : Z;
  uxMutexesHeld : Z }.

Record kernel := mkKernel {
  xTickCount : Z;
  xNumOfOverflows : Z;
  xPendedTicks : Z;
  pxCurrentTCB : Z;
  uxSchedulerSuspended : Z;
  uxTopReadyPriority : Z;
  xNextTaskUnblockTime : Z;
  xYieldPending : bool;
  tcbs : gmap Z TCB_t;
  pxReadyTasksLists : gmap Z (list Z);
  pxDelayedTaskList : list Z;
  pxOverflowDelayedTaskList : list Z;
  xSuspendedTaskList : list Z;
  xPendingReadyList : list Z;
  event_lists : gmap Z (list Z);
  ready_index : gmap Z Z }.     (* pxIndex of the ready lists; absent or NULL: the end marker *)

Record TimeOut_t := mkTimeOut {
  xOverflowCount : Z;
  xTimeOnEntering : Z }.

(** ** Field updates *)

Definition with_tcbs (k : kernel) (t : gmap Z TCB_t) : kernel :=
  mkKernel (xTickCount k) (xNumOfOverflows k) (xPendedTicks k) (pxCurrentTCB k)
    (uxSchedulerSuspended k) (uxTopReadyPriority k) (xNextTaskUnblockTime k) (xYieldPending k)
    t (pxReadyTasksLists k) (pxDelayedTaskList k) (pxOverflowDelayedTaskList k)
    (xSuspendedTaskList k) (xPendingReadyList k) (event_lists k) (ready_index k).
Definition with_state_lists (k : kernel) (r : gmap Z (list Z)) (d o s : list Z) : kernel :=
  mkKernel (xTickCount k) (xNumOfOverflows k) (xPendedTicks k) (pxCurrentTCB k)
    (uxSchedulerSuspended k) (uxTopReadyPriority k) (xNextTaskUnblockTime k) (xYieldPending k)
    (tcbs k) r d o s (xPendingReadyList k) (event_lists k) (ready_index k).
Definition with_unblock_time (k : kernel) (t : Z) : kernel :=
  mkKernel (xTickCount k) (xNumOfOverflows k) (xPendedTicks k) (pxCurrentTCB k)
    (uxSchedulerSuspended k) (uxTopReadyPriority k) t (xYieldPending k)
    (tcbs k) (pxReadyTasksLists k) (pxDelayedTaskList k) (pxOverflowDelayedTaskList k)
    (xSuspendedTaskList k) (xPendingReadyList k) (event_lists k) (ready_index k).
Definition with_top_ready (k : kernel) (p : Z) : kernel :=
  mkKernel (xTickCount k) (xNumOfOverflows k) (xPendedTicks k) (pxCurrentTCB k)
    (uxSchedulerSuspended k) p (xNextTaskUnblockTime k) (xYieldPending k)
    (tcbs k) (pxReadyTasksLists k) (pxDelayedTaskList k) (pxOverflowDelayedTaskList k)
    (xSuspendedTaskList k) (xPendingReadyList k) (event_lists k) (ready_index k).
Definition with_event_lists (k : kernel) (e : gmap Z (list Z)) : kernel :=
  mkKernel (xTickCount k) (xNumOfOverflows k) (xPendedTicks k) (pxCurrentTCB k)
    (uxSchedulerSuspended k) (uxTopReadyPriority k) (xNextTaskUnblockTime k) (xYieldPending k)
    (tcbs k) (pxReadyTasksLists k) (pxDelayedTaskList k) (pxOverflowDelayedTaskList k)
    (xSuspendedTaskList k) (xPendingReadyList k) e (ready_index k).
Definition with_pending (k : kernel) (p : list Z) (y : bool) : kernel :=
  mkKernel (xTickCount k) (xNumOfOverflows k) (xPendedTicks k) (pxCurrentTCB k)
    (uxSchedulerSuspended k) (uxTopReadyPriority k) (xNextTaskUnblockTime k) y
    (tcbs k) (pxReadyTasksLists k) (pxDelayedTaskList k) (pxOverflowDelayedTaskList k)
    (xSuspendedTaskList k) p (event_lists k) (ready_index k).
Definition with_time (k : kernel) (tick overflows pended : Z) : kernel :=
  mkKernel tick overflows pended (pxCurrentTCB k)
    (uxSchedulerSuspended k) (uxTopReadyPriority k) (xNextTaskUnblockTime k) (xYieldPending k)
    (tcbs k) (pxReadyTasksLists k) (pxDelayedTaskList k) (pxOverflowDelayedTaskList k)
    (xSuspendedTaskList k) (xPendingReadyList k) (event_lists k) (ready_index k).

Definition with_ready_index (k : kernel) (i : gmap Z Z) : kernel :=
  mkKernel (xTickCount k) (xNumOfOverflows k) (xPendedTicks k) (pxCurrentTCB k)
    (uxSchedulerSuspended k) (uxTopReadyPriority k) (xNextTaskUnblockTime k) (xYieldPending k)
    (tcbs k) (pxReadyTasksLists k) (pxDelayedTaskList k) (pxOverflowDelayedTaskList k)
    (xSuspendedTaskList k) (xPendingReadyList k) (event_lists k) i.

Definition set_delay_aborted (b : bool) (t : TCB_t) : TCB_t :=
  mkTCB (uxPriority t) (xStateItemValue t) (xEventItemValue t) (xEventContainer t) b
    (uxBasePriority t) (uxMutexesHeld t).
Definition set_state_value (v : Z) (t : TCB_t) : TCB_t :=
  mkTCB (uxPriority t) v (xEventItemValue t) (xEventContainer t) (ucDelayAborted t)
    (uxBasePriority t) (uxMutexesHeld t).
Definition set_event_container (c : Z) (t : TCB_t) : TCB_t :=
  mkTCB (uxPriority t) (xStateItemValue t) (xEventItemValue t) c (ucDelayAborted t)
    (uxBasePriority t) (uxMutexesHeld t).

Definition set_event_value (v : Z) (t : TCB_t) : TCB_t :=
  mkTCB (uxPriority t) (xStateItemValue t) v (xEventContainer t) (ucDelayAborted t)
    (uxBasePriority t) (uxMutexesHeld t).

(** Item values as the lists sort by them. *)
Definition state_value (k : kernel) (t : Z) : Z := from_option xStateItemValue 0 (tcbs k !! t).
Definition event_value (k : kernel) (t : Z) : Z := from_option xEventItemValue 0 (tcbs k !! t).
Definition priority (k : kernel) (t : Z) : Z := from_option uxPriority 0 (tcbs k !! t).

Definition list_remove_task (t : Z) (l : list Z) : list Z := filter (fun u => u <> t) l.

(** [listINSERT_END]: before the item the index is at. *)
Fixpoint list_insert_end (pxIndex t : Z) (l : list Z) : list Z :=
  match l with
  | [] => [t]
  | u :: l' => if u =? pxIndex then t :: l else u :: list_insert_end pxIndex t l'
  end.

(** [pxPrevious] of an item, [p] being that of the head. *)
Fixpoint list_previous (p t : Z) (l : list Z) : Z :=
  match l with
  | [] => p
  | u :: l => if u =? t then p else list_previous u t l
  end.

(** [uxListRemove(&tcb->xStateListItem)]: the item is on one of the state
    lists and leaves it; an index at it moves back. *)
Definition remove_state_item (k : kernel) (t : Z) : kernel :=
  let ready := pxReadyTasksLists k in
  with_ready_index
    (with_state_lists k (list_remove_task t <$> ready)
       (list_remove_task t (pxDelayedTaskList k))
       (list_remove_task t (pxOverflowDelayedTaskList k))
       (list_remove_task t (xSuspendedTaskList k)))
    (map_imap (fun p i => Some (if i =? t then list_previous NULL t (default [] (ready !! p)) else i)) (ready_index k)).

(** [listREMOVE_ITEM(&tcb->xEventListItem)]: leaves its container, which is an
    event list here, and forgets it. *)
Definition remove_event_item (k : kernel) (t : Z) : kernel :=
  match tcbs k !! t with
  | Some tcb =>
      with_tcbs
        (with_event_lists k (alter (list_remove_task t) (xEventContainer tcb) (event_lists k)))
        (<[t := set_event_container NULL tcb]> (tcbs k))
  | None => k
  end.

(** ** Ready list and delayed lists *)

Definition taskRECORD_READY_PRIORITY (k : kernel) (p : Z) : kernel :=
  if uxTopReadyPriority k <? p then with_top_ready k p else k.

Definition prvAddTaskToReadyList (k : kernel) (t : Z) : kernel :=
  let p := priority k t in
  let k := taskRECORD_READY_PRIORITY k p in
  with_state_lists k
    (<[p := list_insert_end (default NULL (ready_index k !! p)) t (default [] (pxReadyTasksLists k !! p))]>
       (pxReadyTasksLists k))
    (pxDelayedTaskList k) (pxOverflowDelayedTaskList k) (xSuspendedTaskList k).

Definition prvResetNextTaskUnblockTime (k : kernel) : kernel :=
  match pxDelayedTaskList k with
  | [] => with_unblock_time k portMAX_DELAY
  | t :: _ => with_unblock_time k (state_value k t)
  end.

Definition taskSWITCH_DELAYED_LISTS (k : kernel) : option kernel :=
  assert! (bool_decide (pxDelayedTaskList k = []));
  let k := with_state_lists k (pxReadyTasksLists k) (pxOverflowDelayedTaskList k)
             (pxDelayedTaskList k) (xSuspendedTaskList k) in
  let k := with_time k (xTickCount k) (s32 (xNumOfOverflows k + 1)) (xPendedTicks k) in
  Some (prvResetNextTaskUnblockTime k).

Definition prvAddCurrentTaskToDelayedList (k : kernel) (xTicksToWait : Z)
    (xCanBlockIndefinitely : bool) : kernel :=
  let t := pxCurrentTCB k in
  let xConstTickCount := xTickCount k in
  let k := with_tcbs k (alter (set_delay_aborted false) t (tcbs k)) in
  let k := remove_state_item k t in
  if (xTicksToWait =? portMAX_DELAY) && xCanBlockIndefinitely then
    with_state_lists k (pxReadyTasksLists k) (pxDelayedTaskList k)
      (pxOverflowDelayedTaskList k) (xSuspendedTaskList k ++ [t])
  else
    let xTimeToWake := u32 (xConstTickCount + xTicksToWait) in
    let k := with_tcbs k (alter (set_state_value xTimeToWake) t (tcbs k)) in
    if xTimeToWake <? xConstTickCount then
      with_state_lists k (pxReadyTasksLists k) (pxDelayedTaskList k)
        (ordered_insert (state_value k) t (pxOverflowDelayedTaskList k)) (xSuspendedTaskList k)
    else
      let k := with_state_lists k (pxReadyTasksLists k)
                 (ordered_insert (state_value k) t (pxDelayedTaskList k))
                 (pxOverflowDelayedTaskList k) (xSuspendedTaskList k) in
      if xTimeToWake <? xNextTaskUnblockTime k then with_unblock_time k xTimeToWake else k.

(** ** Event lists *)

Definition vTaskPlaceOnEventList (k : kernel) (pxEventList xTicksToWait : Z) : kernel :=
  let t := pxCurrentTCB k in
  let l := default [] (event_lists k !! pxEventList) in
  let k := with_tcbs k (alter (set_event_container pxEventList) t (tcbs k)) in
  let k := with_event_lists k
             (<[pxEventList := ordered_insert (event_value k) t l]> (event_lists k)) in
  prvAddCurrentTaskToDelayedList k xTicksToWait true.

Definition listLIST_IS_EMPTY (k : kernel) (pxEventList : Z) : bool :=
  match default [] (event_lists k !! pxEventList) with [] => true | _ => false end.

(** The address of [xPendingReadyList[0]]: only its identity matters. *)
Definition xPendingReadyList_addr : Z := -1.

(** Returns whether the unblocked task has a higher priority than the caller.
    The list is known not to be empty. *)
Definition xTaskRemoveFromEventList (k : kernel) (pxEventList : Z) : option (bool * kernel) :=
  match default [] (event_lists k !! pxEventList) with
  | [] => None
  | t :: _ =>
      let k := remove_event_item k t in
      let k := if uxSchedulerSuspended k =? 0
               then prvAddTaskToReadyList (remove_state_item k t) t
               else with_pending
                      (with_tcbs k (alter (set_event_container xPendingReadyList_addr) t (tcbs k)))
                      (xPendingReadyList k ++ [t]) (xYieldPending k) in
      if priority k (pxCurrentTCB k) <? priority k t
      then Some (true, with_pending k (xPendingReadyList k) true)
      else Some (false, k)
  end.

(** ** Time-outs *)

Definition vTaskInternalSetTimeOutState (k : kernel) : TimeOut_t :=
  mkTimeOut (xNumOfOverflows k) (xTickCount k).

(** The new time-out structure, the remaining ticks, whether the time is up. *)
Definition xTaskCheckForTimeOut (k : kernel) (pxTimeOut : TimeOut_t) (pxTicksToWait : Z) :
    bool * TimeOut_t * Z * kernel :=
  let xConstTickCount := xTickCount k in
  let xElapsedTime := u32 (xConstTickCount - xTimeOnEntering pxTimeOut) in
  let aborted := from_option ucDelayAborted false (tcbs k !! pxCurrentTCB k) in
  if aborted then
    (true, pxTimeOut, pxTicksToWait,
     with_tcbs k (alter (set_delay_aborted false) (pxCurrentTCB k) (tcbs k)))
  else if pxTicksToWait =? portMAX_DELAY then (false, pxTimeOut, pxTicksToWait, k)
  else if negb (xNumOfOverflows k =? xOverflowCount pxTimeOut) &&
          (xTimeOnEntering pxTimeOut <=? xConstTickCount) then
    (true, pxTimeOut, 0, k)
  else if xElapsedTime <? pxTicksToWait then
    (false, vTaskInternalSetTimeOutState k, u32 (pxTicksToWait - xElapsedTime), k)
  else (true, pxTimeOut, 0, k).

(** ** The tick interrupt *)

(** The [for(;;)] loop that unblocks the tasks whose wake time has come.  One
    task leaves the delayed list per iteration, so its length is enough fuel. *)
Fixpoint unblock_due (fuel : nat) (k : kernel) (xConstTickCount : Z) (xSwitchRequired : bool) :
    option (bool * kernel) :=
  match pxDelayedTaskList k with
  | [] => Some (xSwitchRequired, with_unblock_time k portMAX_DELAY)
  | t :: _ =>
      let xItemValue := state_value k t in
      if xConstTickCount <? xItemValue then
        Some (xSwitchRequired, with_unblock_time k xItemValue)
      else
        match fuel with
        | O => None
        | S fuel =>
            let k := remove_state_item k t in
            let k := match tcbs k !! t with
                     | Some tcb => if xEventContainer tcb =? NULL then k else remove_event_item k t
                     | None => k
                     end in
            let k := prvAddTaskToReadyList k t in
            let sw := priority k (pxCurrentTCB k) <? priority k t in
            unblock_due fuel k xConstTickCount (xSwitchRequired || sw)
        end
  end.

Definition xTaskIncrementTick (k : kernel) : option (bool * kernel) :=
  if uxSchedulerSuspended k =? 0 then
    let xConstTickCount := u32 (xTickCount k + 1) in
    let k := with_time k xConstTickCount (xNumOfOverflows k) (xPendedTicks k) in
    let! k := (if xConstTickCount =? 0 then taskSWITCH_DELAYED_LISTS k else Some k) in
    let! (sw, k) :=
      (if xNextTaskUnblockTime k <=? xConstTickCount
       then unblock_due (length (pxDelayedTaskList k)) k xConstTickCount false
       else Some (false, k)) in
    let ready := default [] (pxReadyTasksLists k !! priority k (pxCurrentTCB k)) in
    let sw := sw || (1 <? Z.of_nat (length ready)) in
    Some (sw || xYieldPending k, k)
  else
    Some (false, with_time k (xTickCount k) (xNumOfOverflows k) (u32 (xPendedTicks k + 1))).

(** ** Time-outs are measured correctly across tick overflow *)

(** The kernel clock at absolute time [T] (ticks since start, unbounded). *)
Definition clock_at (k : kernel) (T : Z) : Prop :=
  0 <= T /\ xTickCount k = u32 T /\ xNumOfOverflows k = s32 (T / 4294967296).

Lemma clock_elapsed T0 T1 :
  T0 <= T1 < T0 + 4294967296 -> u32 (u32 T1 - u32 T0) = T1 - T0.
Proof. word_lia. Qed.

Lemma s32_inj_near a b : a <= b < a + 4294967296 -> s32 a = s32 b -> a = b.
Proof. word_lia. Qed.

(** C35: a time-out taken at [T0] for [w] ticks and checked at [T1], less than a full
    round (2^32 ticks) of the tick counter later, is reported exactly when [w] ticks
    have passed, also when the counter wrapped once in between; otherwise the
    remaining wait is exact. *)
Theorem xTaskCheckForTimeOut_exact k k0 T0 T1 w :
  clock_at k0 T0 -> clock_at k T1 -> T0 <= T1 < T0 + 4294967296 ->
  0 <= w < portMAX_DELAY ->
  from_option ucDelayAborted false (tcbs k !! pxCurrentTCB k) = false ->
  xTaskCheckForTimeOut k (vTaskInternalSetTimeOutState k0) w =
    (if w <=? T1 - T0
     then (true, vTaskInternalSetTimeOutState k0, 0, k)
     else (false, vTaskInternalSetTimeOutState k, w - (T1 - T0), k)).
Proof.
  intros (H0 & Ht0 & Ho0) (H1 & Ht1 & Ho1) HT Hw Hab.
  unfold xTaskCheckForTimeOut, vTaskInternalSetTimeOutState. simpl.
  unfold portMAX_DELAY in *. rewrite Hab, Ht0, Ht1, clock_elapsed by lia.
  destruct (Z.eqb_spec w 4294967295); [lia|].
  assert (negb (xNumOfOverflows k =? xNumOfOverflows k0) && (u32 T0 <=? u32 T1) = false) as ->.
  { rewrite Ho0, Ho1.
    destruct (Z.eqb_spec (s32 (T1 / 4294967296)) (s32 (T0 / 4294967296))); [done|].
    simpl. apply Z.leb_gt.
    assert (T1 / 4294967296 <> T0 / 4294967296) by congruence. word_lia. }
  destruct (Z.ltb_spec (T1 - T0) w), (Z.leb_spec w (T1 - T0)); try lia; [|done].
  rewrite (u32_small (w - (T1 - T0))) by lia. done.
Qed.

(** ** The delayed lists *)

(** Both delayed lists are in wake order; the current one holds the wake times
    still to come before the tick counter wraps, the other one those after;
    [xNextTaskUnblockTime] is never later than the first of them. *)
Record delay_inv (k : kernel) : Prop := {
  di_tick : is_u32 (xTickCount k);
  di_nodup : NoDup (pxDelayedTaskList k ++ pxOverflowDelayedTaskList k);
  di_sorted : ascending (state_value k) (pxDelayedTaskList k);
  di_osorted : ascending (state_value k) (pxOverflowDelayedTaskList k);
  di_range : Forall (fun t => xTickCount k < state_value k t <= portMAX_DELAY) (pxDelayedTaskList k);
  di_orange : Forall (fun t => 0 <= state_value k t < xTickCount k) (pxOverflowDelayedTaskList k);
  di_next : Forall (fun t => xNextTaskUnblockTime k <= state_value k t) (pxDelayedTaskList k) }.

Lemma list_remove_task_elem t u l : u ∈ list_remove_task t l <-> u <> t /\ u ∈ l.
Proof. unfold list_remove_task. by rewrite list_elem_of_filter. Qed.

Lemma list_remove_task_cons t l :
  list_remove_task t (t :: l) = list_remove_task t l.
Proof. unfold list_remove_task. rewrite filter_cons. by rewrite decide_False by tauto. Qed.

Lemma list_remove_task_length t l : (length (list_remove_task t l) <= length l)%nat.
Proof. apply length_filter. Qed.

Lemma list_remove_task_absent t l : t ∉ l -> list_remove_task t l = l.
Proof.
  intros H. unfold list_remove_task. induction l as [|u l IH]; [done|].
  rewrite filter_cons, decide_True by set_solver. f_equal. apply IH. set_solver.
Qed.

Lemma state_value_ext k k' t : tcbs k !! t = tcbs k' !! t -> state_value k t = state_value k' t.
Proof. unfold state_value. by intros ->. Qed.

Lemma state_value_remove_event k t u : state_value (remove_event_item k t) u = state_value k u.
Proof.
  unfold remove_event_item, state_value. destruct (tcbs k !! t) as [tcb|] eqn:E; [|done].
  simpl. destruct (decide (t = u)) as [->|]; [by rewrite lookup_insert_eq, E|].
  by rewrite lookup_insert_ne.
Qed.

Lemma priority_remove_event k t u : priority (remove_event_item k t) u = priority k u.
Proof.
  unfold remove_event_item, priority. destruct (tcbs k !! t) as [tcb|] eqn:E; [|done].
  simpl. destruct (decide (t = u)) as [->|]; [by rewrite lookup_insert_eq, E|].
  by rewrite lookup_insert_ne.
Qed.

Lemma list_insert_end_perm i t l : list_insert_end i t l ≡ₚ t :: l.
Proof.
  induction l as [|u l IH]; [done|]. simpl. destruct (u =? i); [done|]. rewrite IH. apply perm_swap.
Qed.

Lemma list_insert_end_elem i t u l : u ∈ list_insert_end i t l <-> u = t \/ u ∈ l.
Proof. by rewrite list_insert_end_perm, elem_of_cons. Qed.

Lemma add_to_ready_perm k t p : default [] (pxReadyTasksLists (prvAddTaskToReadyList k t) !! p) ≡ₚ
  default [] (pxReadyTasksLists k !! p) ++ (if decide (p = priority k t) then [t] else []).
Proof.
  unfold prvAddTaskToReadyList, taskRECORD_READY_PRIORITY.
  destruct (_ <? _); simpl; (case_decide as Ep;
    [by rewrite Ep, lookup_insert_eq; simpl; rewrite list_insert_end_perm, <- Permutation_cons_append
    |by rewrite lookup_insert_ne, app_nil_r by done]).
Qed.

(** Everything the loop body does to one due task. *)
Definition wake_task (k : kernel) (t : Z) : kernel :=
  let k := remove_state_item k t in
  let k := match tcbs k !! t with
           | Some tcb => if xEventContainer tcb =? NULL then k else remove_event_item k t
           | None => k
           end in
  prvAddTaskToReadyList k t.

Lemma wake_task_fields k t :
  pxDelayedTaskList (wake_task k t) = list_remove_task t (pxDelayedTaskList k) /\
  pxOverflowDelayedTaskList (wake_task k t) = list_remove_task t (pxOverflowDelayedTaskList k) /\
  xTickCount (wake_task k t) = xTickCount k /\
  uxSchedulerSuspended (wake_task k t) = uxSchedulerSuspended k /\
  pxCurrentTCB (wake_task k t) = pxCurrentTCB k /\
  xYieldPending (wake_task k t) = xYieldPending k /\
  (forall u, state_value (wake_task k t) u = state_value k u) /\
  (forall u, priority (wake_task k t) u = priority k u) /\
  (forall p, default [] (pxReadyTasksLists (wake_task k t) !! p) ≡ₚ
     list_remove_task t (default [] (pxReadyTasksLists k !! p)) ++
     (if decide (p = priority k t) then [t] else [])).
Proof.
  unfold wake_task. set (k1 := remove_state_item k t).
  set (k2 := match tcbs k1 !! t with Some _ => _ | None => _ end).
  assert (pxDelayedTaskList k2 = pxDelayedTaskList k1 /\
          pxOverflowDelayedTaskList k2 = pxOverflowDelayedTaskList k1 /\
          pxReadyTasksLists k2 = pxReadyTasksLists k1 /\ xTickCount k2 = xTickCount k1 /\
          uxSchedulerSuspended k2 = uxSchedulerSuspended k1 /\ pxCurrentTCB k2 = pxCurrentTCB k1 /\ xYieldPending k2 = xYieldPending k1 /\
          (forall u, state_value k2 u = state_value k u) /\
          (forall u, priority k2 u = priority k u)) as (E1 & E2 & E3 & E4 & E4' & E5 & E6 & E7 & E8).
  { unfold k2. destruct (tcbs k1 !! t) as [tcb|] eqn:E; [|done].
    destruct (_ =? _); [done|].
    split_and!; try (unfold remove_event_item; by rewrite E); intros u.
    - by rewrite state_value_remove_event.
    - by rewrite priority_remove_event. }
  clearbody k2.
  assert (forall p, default [] (pxReadyTasksLists (prvAddTaskToReadyList k2 t) !! p) ≡ₚ
     default [] (pxReadyTasksLists k2 !! p) ++ (if decide (p = priority k t) then [t] else []))
    as Hready by (intros p; rewrite <- E8; apply add_to_ready_perm).
  split_and!; try (unfold prvAddTaskToReadyList, taskRECORD_READY_PRIORITY; destruct (_ <? _);
    simpl; first [assumption | rewrite E1; reflexivity | rewrite E2; reflexivity]).
  intros p. rewrite Hready, E3. unfold k1. simpl. rewrite lookup_fmap.
  by destruct (pxReadyTasksLists k !! p).
Qed.

(** The tasks of a list that are still not due at tick [c]. *)
Definition not_due (k : kernel) (c : Z) (l : list Z) : list Z := filter (fun t => c < state_value k t) l.

Lemma not_due_all k c l : Forall (fun t => c < state_value k t) l -> not_due k c l = l.
Proof.
  unfold not_due. induction 1 as [|t l Ht _ IH]; [done|].
  rewrite filter_cons, decide_True by done. by rewrite IH.
Qed.

Lemma not_due_ext k k' c l :
  (forall t, state_value k t = state_value k' t) -> not_due k c l = not_due k' c l.
Proof. intros H. apply list_filter_iff. intros t. by rewrite H. Qed.

(** What unblocking leaves: the tasks not yet due, in order; the due ones are
    ready at their priority; nobody else moved. *)
Record unblocked (k k' : kernel) (c : Z) : Prop := {
  ub_delayed : pxDelayedTaskList k' = not_due k c (pxDelayedTaskList k);
  ub_overflow : pxOverflowDelayedTaskList k' = pxOverflowDelayedTaskList k;
  ub_tick : xTickCount k' = xTickCount k;
  ub_susp : uxSchedulerSuspended k' = uxSchedulerSuspended k;
  ub_value : forall t, state_value k' t = state_value k t;
  ub_prio : forall t, priority k' t = priority k t;
  ub_ready : forall t p, t ∈ default [] (pxReadyTasksLists k' !! p) <->
     t ∈ default [] (pxReadyTasksLists k !! p) /\
       ~ (t ∈ pxDelayedTaskList k /\ state_value k t <= c) \/
     (t ∈ pxDelayedTaskList k /\ state_value k t <= c /\ p = priority k t);
  ub_next : Forall (fun t => xNextTaskUnblockTime k' <= state_value k' t) (pxDelayedTaskList k') }.

Lemma unblock_due_spec fuel : forall k c sw,
  (length (pxDelayedTaskList k) <= fuel)%nat ->
  ascending (state_value k) (pxDelayedTaskList k) ->
  NoDup (pxDelayedTaskList k ++ pxOverflowDelayedTaskList k) ->
  exists sw' k', unblock_due fuel k c sw = Some (sw', k') /\ unblocked k k' c.
Proof.
  induction fuel as [|fuel IH]; intros k c sw Hlen Hasc Hnd;
    destruct (pxDelayedTaskList k) as [|t l] eqn:El; try (simpl in Hlen; lia).
  1,2: exists sw, (with_unblock_time k portMAX_DELAY); simpl; rewrite El;
    (split; [done|]); split; simpl; rewrite ?El; try done; set_solver.
  simpl. rewrite El. destruct Hasc as [Hhd Hasc].
  destruct (Z.ltb_spec c (state_value k t)) as [Hlt|Hge].
  - exists sw, (with_unblock_time k (state_value k t)). split; [done|].
    assert (Forall (fun u => c < state_value k u) (t :: l)) as Hall.
    { constructor; [done|]. eapply Forall_impl; [exact Hhd|]. simpl. lia. }
    split; try done.
    + simpl. by rewrite El, not_due_all.
    + intros u p. simpl. rewrite El. rewrite Forall_forall in Hall.
      split; [|naive_solver lia]. intros Hu. left. split; [done|].
      intros [Hin Hle]. specialize (Hall u Hin). simpl in Hall. lia.
    + simpl. rewrite El. constructor; [done|]. exact Hhd.
  - fold (wake_task k t).
    destruct (wake_task_fields k t) as (F1 & F2 & F3 & F3' & F4 & F5 & F6 & F7 & F8).
    rewrite El in F1. simpl in Hnd. apply NoDup_cons in Hnd as [Htl Hnd].
    rewrite list_remove_task_cons, list_remove_task_absent in F1 by set_solver.
    rewrite list_remove_task_absent in F2 by set_solver.
    edestruct (IH (wake_task k t) c) as (sw' & k' & Hrun & [U1 U2 U3 U3' U4 U5 U6 U7]).
    { rewrite F1. simpl in Hlen. lia. }
    { rewrite F1. clear -Hasc F6. induction l as [|u l IHl]; [done|]. destruct Hasc as [Hu Hasc].
      split; [|auto]. eapply Forall_impl; [exact Hu|]. intros w. simpl. by rewrite !F6. }
    { by rewrite F1, F2. }
    eexists sw', k'. split; [exact Hrun|]. split.
    + rewrite U1, F1, El. rewrite (not_due_ext _ k) by done.
      unfold not_due. rewrite filter_cons, decide_False by lia. done.
    + by rewrite U2.
    + by rewrite U3.
    + by rewrite U3'.
    + intros u. by rewrite U4.
    + intros u. by rewrite U5.
    + intros u p. rewrite U6, F1, F6, F7, F8, El. clear -Hge Htl.
      rewrite elem_of_app, list_remove_task_elem.
      assert (u ∈ (if decide (p = priority k t) then [t] else []) <-> u = t /\ p = priority k t)
        as -> by (case_decide; set_solver).
      assert (t ∉ l) by set_solver. rewrite elem_of_cons.
      destruct (decide (u = t)) as [->|]; [|naive_solver]. naive_solver lia.
    + done.
Qed.

Lemma not_due_elem k c l t : t ∈ not_due k c l <-> c < state_value k t /\ t ∈ l.
Proof. unfold not_due. by rewrite list_elem_of_filter. Qed.

(** The state in which a tick starts unblocking tasks: the clock advanced, the
    lists switched when it wrapped. *)
Lemma tick_start k :
  delay_inv k -> uxSchedulerSuspended k = 0 ->
  let c := u32 (xTickCount k + 1) in
  exists k1,
    (let k := with_time k c (xNumOfOverflows k) (xPendedTicks k) in
     if c =? 0 then taskSWITCH_DELAYED_LISTS k else Some k) = Some k1 /\
    xTickCount k1 = c /\
    pxDelayedTaskList k1 = (if c =? 0 then pxOverflowDelayedTaskList k else pxDelayedTaskList k) /\
    pxOverflowDelayedTaskList k1 = (if c =? 0 then [] else pxOverflowDelayedTaskList k) /\
    tcbs k1 = tcbs k /\ pxReadyTasksLists k1 = pxReadyTasksLists k /\
    ascending (state_value k) (pxDelayedTaskList k1) /\
    NoDup (pxDelayedTaskList k1 ++ pxOverflowDelayedTaskList k1) /\
    Forall (fun t => c <= state_value k t <= portMAX_DELAY) (pxDelayedTaskList k1) /\
    Forall (fun t => 0 <= state_value k t < c) (pxOverflowDelayedTaskList k1) /\
    Forall (fun t => xNextTaskUnblockTime k1 <= state_value k t) (pxDelayedTaskList k1).
Proof.
  intros [D1 D2 D3 D4 D5 D6 D7] Hs c. unfold is_u32 in D1.
  pose proof (u32_range (xTickCount k + 1)) as Hc. fold c in Hc.
  destruct (Z.eqb_spec c 0) as [E|E].
  - assert (xTickCount k = portMAX_DELAY) as Ht.
    { unfold c, u32 in E. unfold portMAX_DELAY. Z.div_mod_to_equations. lia. }
    destruct (pxDelayedTaskList k) as [|t l] eqn:El.
    2:{ apply Forall_cons in D5 as [? _]. lia. }
    unfold taskSWITCH_DELAYED_LISTS. simpl. rewrite El. simpl.
    eexists. split; [reflexivity|].
    match goal with |- context [prvResetNextTaskUnblockTime ?k1] => set (k0 := k1) end.
    assert (prvResetNextTaskUnblockTime k0 = with_unblock_time k0
              (match pxOverflowDelayedTaskList k with [] => portMAX_DELAY | t :: _ => state_value k t end))
      as -> by (unfold prvResetNextTaskUnblockTime; simpl; by destruct (pxOverflowDelayedTaskList k)).
    simpl. simpl in D2. rewrite app_nil_r. split_and!; try done.
    + eapply Forall_impl; [exact D6|]. simpl. unfold portMAX_DELAY in *. lia.
    + destruct (pxOverflowDelayedTaskList k); constructor; [done|]. by destruct D4.
  - assert (c = xTickCount k + 1) as Ec.
    { unfold c, u32 in *. Z.div_mod_to_equations. lia. }
    eexists. split; [reflexivity|]. simpl. split_and!; try done.
    + eapply Forall_impl; [exact D5|]. simpl. lia.
    + eapply Forall_impl; [exact D6|]. simpl. lia.
Qed.

(** One tick with the scheduler running. *)
Lemma tick_spec k :
  delay_inv k -> uxSchedulerSuspended k = 0 ->
  let c := u32 (xTickCount k + 1) in
  let cur := if c =? 0 then pxOverflowDelayedTaskList k else pxDelayedTaskList k in
  exists sw k', xTaskIncrementTick k = Some (sw, k') /\ delay_inv k' /\
    xTickCount k' = c /\ uxSchedulerSuspended k' = 0 /\
    pxDelayedTaskList k' = not_due k c cur /\
    pxOverflowDelayedTaskList k' = (if c =? 0 then [] else pxOverflowDelayedTaskList k) /\
    (forall t, state_value k' t = state_value k t) /\
    (forall t, priority k' t = priority k t) /\
    (forall t, t ∈ cur -> state_value k t <= c ->
       t ∈ default [] (pxReadyTasksLists k' !! priority k t)) /\
    (forall t p, t ∈ default [] (pxReadyTasksLists k !! p) -> t ∉ cur ->
       t ∈ default [] (pxReadyTasksLists k' !! p)).
Proof.
  intros Hinv Hs c cur.
  pose proof (tick_start k Hinv Hs) as Hst. cbv zeta in Hst. fold c in Hst. fold cur in Hst.
  destruct Hst as (k1 & Hk1 & T1 & T2 & T3 & T4 & T5 & T6 & T7 & T8 & T9 & T10).
  assert (forall t, state_value k1 t = state_value k t) as Hsv
    by (intros t; apply state_value_ext; by rewrite T4).
  assert (forall t, priority k1 t = priority k t) as Hpr
    by (intros t; unfold priority; by rewrite T4).
  assert (uxSchedulerSuspended k1 = 0) as Hs1.
  { revert Hk1. unfold taskSWITCH_DELAYED_LISTS, prvResetNextTaskUnblockTime, guard_c.
    destruct (c =? 0); simpl; [|by intros [= <-]].
    destruct (bool_decide _); [|done]. simpl. intros [= <-].
    by destruct (pxOverflowDelayedTaskList k). }
  assert (exists sw k2,
    (if xNextTaskUnblockTime k1 <=? c
     then unblock_due (length (pxDelayedTaskList k1)) k1 c false
     else Some (false, k1)) = Some (sw, k2) /\ unblocked k1 k2 c)
    as (sw & k2 & Hrun & [U1 U2 U3 U3' U4 U5 U6 U7]).
  { destruct (Z.leb_spec (xNextTaskUnblockTime k1) c) as [Hle|Hgt].
    - apply unblock_due_spec; [lia| |done].
      by apply (ascending_ext (state_value k)).
    - exists false, k1. split; [done|].
      assert (Forall (fun t => c < state_value k1 t) (pxDelayedTaskList k1)) as Hall.
      { eapply Forall_impl; [exact T10|]. intros t. simpl. rewrite Hsv. lia. }
      split; try done.
      + by rewrite not_due_all.
      + intros t p. rewrite Forall_forall in Hall. split; [|naive_solver lia].
        intros Ht. left. split; [done|]. intros [Hin Hle]. specialize (Hall t Hin). simpl in Hall. lia.
      + eapply Forall_impl; [exact T10|]. intros t. simpl. by rewrite Hsv. }
  eexists _, k2. unfold xTaskIncrementTick. rewrite Hs. simpl. fold c.
  rewrite Hk1, Hrun. split; [reflexivity|].
  assert (pxDelayedTaskList k2 = not_due k c cur) as Hd2.
  { rewrite U1, T2. by apply not_due_ext. }
  split_and!; try done.
  - split.
    + rewrite U3, T1. apply u32_range.
    + rewrite Hd2, U2. rewrite T2 in T7. clear -T7. apply NoDup_app in T7 as (N1 & N2 & N3).
      apply NoDup_app. split_and!; [by apply NoDup_filter| |done].
      intros x Hx. apply not_due_elem in Hx as [_ Hx]. auto.
    + rewrite Hd2. apply (ascending_ext (state_value k)); [by intros; rewrite U4, Hsv|].
      apply ascending_filter. by rewrite <- T2.
    + apply (ascending_ext (state_value k)); [by intros; rewrite U4, Hsv|].
      rewrite U2, T3. destruct (c =? 0); [done|]. by destruct Hinv.
    + rewrite Hd2. rewrite T2 in T8. rewrite Forall_forall in T8 |- *. intros t Ht.
      apply not_due_elem in Ht as [Hlt Ht]. rewrite U3, T1, U4, Hsv. specialize (T8 t Ht). simpl in T8. lia.
    + rewrite U2. eapply Forall_impl; [exact T9|]. intros t. simpl. by rewrite U3, T1, U4, Hsv.
    + done.
  - by rewrite U3.
  - by rewrite U3'.
  - by rewrite U2.
  - intros t. by rewrite U4.
  - intros t. by rewrite U5.
  - intros t Ht Hle. apply U6. right. by rewrite T2, Hsv, Hpr.
  - intros t p Ht Hn. apply U6. left. rewrite T5, T2. split; [done|]. by intros [? _].
Qed.

(** ** A blocked task is woken at exactly its wake time *)

Fixpoint run_ticks (n : nat) (k : kernel) : option kernel :=
  match n with
  | O => Some k
  | S n => let! (_, k) := xTaskIncrementTick k in run_ticks n k
  end.

Definition delayed_tasks (k : kernel) : list Z :=
  pxDelayedTaskList k ++ pxOverflowDelayedTaskList k.

(** Ticks until task [t], which is on one of the delayed lists, is due. *)
Definition ticks_left (k : kernel) (t : Z) : Z := u32 (state_value k t - xTickCount k).

Lemma tick_step k t :
  delay_inv k -> uxSchedulerSuspended k = 0 -> t ∈ delayed_tasks k ->
  exists sw k', xTaskIncrementTick k = Some (sw, k') /\ delay_inv k' /\
    uxSchedulerSuspended k' = 0 /\ priority k' t = priority k t /\
    0 < ticks_left k t /\
    (if ticks_left k t =? 1
     then t ∉ delayed_tasks k' /\ t ∈ default [] (pxReadyTasksLists k' !! priority k t)
     else t ∈ delayed_tasks k' /\ ticks_left k' t = ticks_left k t - 1).
Proof.
  intros Hinv Hs Ht.
  destruct (tick_spec k Hinv Hs) as (sw & k' & Hrun & Hinv' & Hc & Hs' & Hd & Ho & Hv & Hp & Hw & _).
  pose proof Hinv as [D1 D2 D3 D4 D5 D6 D7]. unfold ticks_left.
  exists sw, k'. do 4 (split; [done|]). rewrite Hv, Hc.
  set (c := u32 (xTickCount k + 1)) in *. unfold is_u32, portMAX_DELAY in *.
  assert (t ∈ delayed_tasks k' <->
    (c < state_value k t /\ t ∈ (if c =? 0 then pxOverflowDelayedTaskList k else pxDelayedTaskList k)) \/
    t ∈ (if c =? 0 then [] else pxOverflowDelayedTaskList k)) as Hmem.
  { unfold delayed_tasks. by rewrite elem_of_app, Hd, Ho, not_due_elem. }
  unfold delayed_tasks in Ht. rewrite elem_of_app in Ht.
  rewrite Forall_forall in D5, D6. apply NoDup_app in D2 as (N1 & N2 & N3).
  assert (Ht' : 0 < u32 (state_value k t - xTickCount k)).
  { destruct Ht as [Ht|Ht]; [specialize (D5 t Ht)|specialize (D6 t Ht)]; simpl in *; word_lia. }
  split; [done|].
  destruct (Z.eqb_spec c 0) as [E|E]; destruct Ht as [Ht|Ht];
    [specialize (D5 t Ht)|specialize (D6 t Ht)|specialize (D5 t Ht)|specialize (D6 t Ht)];
    simpl in *; (destruct (Z.eqb_spec (u32 (state_value k t - xTickCount k)) 1) as [E1|E1]);
    unfold c in *; rewrite ?Hmem.
  - exfalso. word_lia.
  - exfalso. word_lia.
  - split; [|apply Hw; [done|word_lia]]. intros [[? _]|?]; [word_lia|set_solver].
  - split; [left; split; [word_lia|done]|word_lia].
  - split; [|apply Hw; [done|word_lia]]. intros [[? _]|?]; [word_lia|set_solver].
  - split; [left; split; [word_lia|done]|word_lia].
  - exfalso. word_lia.
  - split; [by right|word_lia].
Qed.

Lemma run_ticks_wait n : forall k t,
  delay_inv k -> uxSchedulerSuspended k = 0 -> t ∈ delayed_tasks k ->
  Z.of_nat n < ticks_left k t ->
  exists k', run_ticks n k = Some k' /\ delay_inv k' /\ uxSchedulerSuspended k' = 0 /\
    priority k' t = priority k t /\
    t ∈ delayed_tasks k' /\ ticks_left k' t = ticks_left k t - Z.of_nat n.
Proof.
  induction n as [|n IH]; intros k t Hinv Hs Ht Hn; simpl.
  - exists k. split_and!; try done. lia.
  - destruct (tick_step k t Hinv Hs Ht) as (sw & k1 & -> & Hinv1 & Hs1 & Hp1 & Hpos & Hcase).
    destruct (Z.eqb_spec (ticks_left k t) 1); [lia|]. destruct Hcase as [Ht1 Hl1].
    destruct (IH k1 t Hinv1 Hs1 Ht1) as (k' & Hrun & ? & ? & Hp & ? & Hl); [lia|].
    exists k'. split_and!; try done; [congruence|lia].
Qed.

Lemma run_ticks_snoc n k k' : run_ticks n k = Some k' ->
  run_ticks (S n) k = (let! (_, k2) := xTaskIncrementTick k' in Some k2).
Proof.
  revert k. induction n as [|n IH]; intros k; simpl.
  - by intros [= ->].
  - destruct (xTaskIncrementTick k) as [[sw k1]|]; [|done]. intros H. by apply IH.
Qed.

(** Blocking the running task keeps the lists well formed and files it under
    the requested wait. *)
Lemma add_current_delayed k w b tcb :
  delay_inv k -> tcbs k !! pxCurrentTCB k = Some tcb ->
  pxCurrentTCB k ∉ delayed_tasks k -> 0 < w <= portMAX_DELAY -> (w =? portMAX_DELAY) && b = false ->
  let k' := prvAddCurrentTaskToDelayedList k w b in
  delay_inv k' /\ pxCurrentTCB k ∈ delayed_tasks k' /\ ticks_left k' (pxCurrentTCB k) = w /\
  uxSchedulerSuspended k' = uxSchedulerSuspended k /\
  priority k' (pxCurrentTCB k) = priority k (pxCurrentTCB k).
Proof.
  intros Hinv Ht Hnin Hw Hb. pose proof Hinv as [D1 D2 D3 D4 D5 D6 D7].
  set (t := pxCurrentTCB k) in *. unfold delayed_tasks in Hnin.
  unfold prvAddCurrentTaskToDelayedList. rewrite Hb. fold t. cbv zeta. simpl.
  rewrite !(list_remove_task_absent t) by set_solver.
  set (v := u32 (xTickCount k + w)).
  set (m := alter (set_state_value v) t (alter (set_delay_aborted false) t (tcbs k))).
  assert (forall k', tcbs k' = m -> forall u, state_value k' u = if decide (u = t) then v else state_value k u)
    as Hsv.
  { intros k' E u. unfold state_value. rewrite E. unfold m. rewrite !lookup_alter.
    destruct (decide (u = t)) as [->|]; [by rewrite !decide_True, Ht by done|].
    by rewrite !decide_False by done. }
  assert (forall k', tcbs k' = m -> priority k' t = priority k t) as Hpr.
  { intros k' E. unfold priority. rewrite E. unfold m. by rewrite !lookup_alter, !decide_True, Ht by done. }
  assert (forall k', tcbs k' = m -> forall l, t ∉ l ->
    ascending (state_value k) l -> ascending (state_value k') l) as Hasc.
  { intros k' E l Hl. apply ascending_ext_in. intros u Hu. rewrite (Hsv k' E), decide_False; [done|].
    intros ->. done. }
  assert (forall (P : Z -> Prop) k', tcbs k' = m -> forall l, t ∉ l ->
    Forall (fun u => P (state_value k u)) l -> Forall (fun u => P (state_value k' u)) l) as Hfor.
  { intros P k' E l Hl. rewrite !Forall_forall. intros HP u Hu. rewrite (Hsv k' E), decide_False; [auto|].
    intros ->. done. }
  unfold is_u32, portMAX_DELAY in *.
  assert (t ∉ pxDelayedTaskList k /\ t ∉ pxOverflowDelayedTaskList k) as [Hn1 Hn2] by set_solver.
  destruct (Z.ltb_spec v (xTickCount k)) as [Hlt|Hge].
  - match goal with |- context [ordered_insert (state_value ?a) t _] => set (ka := a) in * end.
    match goal with |- delay_inv ?a /\ _ => set (k' := a) in * end.
    assert (tcbs ka = m) as Ea by done. assert (tcbs k' = m) as E' by done.
    split_and!; [|unfold delayed_tasks; simpl; rewrite ordered_insert_perm; set_solver
      |unfold ticks_left; rewrite (Hsv k' E'), decide_True by done; simpl; unfold v in *; word_lia
      |done|by apply Hpr].
    split; simpl; try (rewrite ordered_insert_perm).
    + done.
    + rewrite <- Permutation_middle. constructor; [by rewrite elem_of_app; intros [?|?]|done].
    + by apply (Hasc k' E').
    + apply (ascending_ext (state_value ka)); [by intros; rewrite (Hsv k' E'), (Hsv ka Ea)|].
      apply ordered_insert_ascending. by apply (Hasc ka Ea).
    + by apply (Hfor (fun x => xTickCount k < x <= _) k' E').
    + constructor; [|by apply (Hfor (fun x => 0 <= x < xTickCount k) k' E')].
      rewrite (Hsv k' E'), decide_True by done. pose proof (u32_range (xTickCount k + w)).
      fold v in H. lia.
    + by apply (Hfor (fun x => xNextTaskUnblockTime k <= x) k' E').
  - match goal with |- context [ordered_insert (state_value ?a) t _] => set (ka := a) in * end.
    match goal with |- delay_inv ?a /\ _ => set (k' := a) in * end.
    assert (tcbs ka = m) as Ea by done.
    assert (tcbs k' = m) as E' by (unfold k'; by destruct (_ <? _)).
    assert (pxDelayedTaskList k' = ordered_insert (state_value ka) t (pxDelayedTaskList k))
      as Ed by (unfold k'; by destruct (_ <? _)).
    assert (pxOverflowDelayedTaskList k' = pxOverflowDelayedTaskList k)
      as Eo by (unfold k'; by destruct (_ <? _)).
    assert (xTickCount k' = xTickCount k) as Et by (unfold k'; by destruct (_ <? _)).
    assert (uxSchedulerSuspended k' = uxSchedulerSuspended k) as Es
      by (unfold k'; by destruct (_ <? _)).
    assert (xNextTaskUnblockTime k' <= v /\ xNextTaskUnblockTime k' <= xNextTaskUnblockTime k) as [En1 En2].
    { unfold k'. simpl. destruct (Z.ltb_spec v (xNextTaskUnblockTime k)); simpl; lia. }
    pose proof (u32_range (xTickCount k + w)) as Hvr. fold v in Hvr.
    clearbody k'.
    split_and!; [|unfold delayed_tasks; rewrite Ed, ordered_insert_perm; set_solver
      |unfold ticks_left; rewrite (Hsv k' E'), decide_True, Et by done; unfold v in *; word_lia
      |done|by apply Hpr].
    split; rewrite ?Et, ?Ed, ?Eo; try (rewrite ordered_insert_perm).
    + done.
    + simpl. constructor; [by rewrite elem_of_app; intros [?|?]|done].
    + apply (ascending_ext (state_value ka)); [by intros; rewrite (Hsv k' E'), (Hsv ka Ea)|].
      apply ordered_insert_ascending. by apply (Hasc ka Ea).
    + by apply (Hasc k' E').
    + constructor; [|by apply (Hfor (fun x => xTickCount k < x <= _) k' E')].
      rewrite (Hsv k' E'), decide_True by done. unfold portMAX_DELAY, v in *. word_lia.
    + by apply (Hfor (fun x => 0 <= x < xTickCount k) k' E').
    + constructor; [by rewrite (Hsv k' E'), decide_True by done|].
      apply (Hfor (fun x => xNextTaskUnblockTime k' <= x) k' E'); [done|].
      eapply Forall_impl; [exact D7|]. simpl. lia.
Qed.

Lemma prvAddCurrentTaskToDelayedList_inv k w b tcb :
  delay_inv k -> tcbs k !! pxCurrentTCB k = Some tcb ->
  pxCurrentTCB k ∉ delayed_tasks k -> 0 < w < portMAX_DELAY ->
  let k' := prvAddCurrentTaskToDelayedList k w b in
  delay_inv k' /\ pxCurrentTCB k ∈ delayed_tasks k' /\ ticks_left k' (pxCurrentTCB k) = w /\
  uxSchedulerSuspended k' = uxSchedulerSuspended k /\
  priority k' (pxCurrentTCB k) = priority k (pxCurrentTCB k).
Proof.
  intros Hinv Ht Hnin Hw. apply (add_current_delayed k w b tcb); try done; [lia|].
  destruct (Z.eqb_spec w portMAX_DELAY); [lia|done].
Qed.

(** C31: a task that blocks for [w] ticks stays blocked for [w - 1] ticks and is
    ready after the [w]-th, across any wrap of the tick counter. *)
Theorem delay_wakes_exactly (k : kernel) (w : Z) (tcb : TCB_t) (n : nat) :
  delay_inv k -> uxSchedulerSuspended k = 0 ->
  tcbs k !! pxCurrentTCB k = Some tcb -> pxCurrentTCB k ∉ delayed_tasks k ->
  0 < w < portMAX_DELAY -> Z.of_nat n + 1 = w ->
  let t := pxCurrentTCB k in
  exists k1 k2 : kernel,
    run_ticks n (prvAddCurrentTaskToDelayedList k w true) = Some k1 /\
    t ∈ delayed_tasks k1 /\
    run_ticks (S n) (prvAddCurrentTaskToDelayedList k w true) = Some k2 /\
    t ∉ delayed_tasks k2 /\
    t ∈ default [] (pxReadyTasksLists k2 !! uxPriority tcb).
Proof.
  intros Hinv Hs Htcb Hnin Hw Hn t.
  destruct (prvAddCurrentTaskToDelayedList_inv k w true tcb Hinv Htcb Hnin Hw)
    as (Hinv' & Ht & Hl & Hs' & Hp).
  rewrite Hs in Hs'. fold t in Ht, Hl, Hp.
  destruct (run_ticks_wait n _ t Hinv' Hs' Ht) as (k1 & Hrun & Hinv1 & Hs1 & Hp1 & Ht1 & Hl1); [lia|].
  destruct (tick_step k1 t Hinv1 Hs1 Ht1) as (sw & k2 & Htick & _ & _ & _ & _ & Hcase).
  replace (ticks_left k1 t) with 1 in Hcase by lia. destruct Hcase as [Hout Hready].
  exists k1, k2. split_and!; try done.
  - rewrite (run_ticks_snoc n _ k1), Htick by done. done.
  - replace (uxPriority tcb) with (priority k1 t); [done|].
    rewrite Hp1, Hp. unfold priority, t. by rewrite Htcb.
Qed.

(** ** Event lists *)

(** Tasks queue up in priority order: the event item of a task holds
    [configMAX_PRIORITIES - uxPriority]. *)
Definition event_list_ok (k : kernel) (l : list Z) : Prop :=
  ascending (event_value k) l /\
  Forall (fun t => event_value k t = configMAX_PRIORITIES - priority k t) l.

Lemma event_value_remove_event k t u : event_value (remove_event_item k t) u = event_value k u.
Proof.
  unfold remove_event_item, event_value. destruct (tcbs k !! t) as [tcb|] eqn:E; [|done].
  simpl. destruct (decide (t = u)) as [->|]; [by rewrite lookup_insert_eq, E|].
  by rewrite lookup_insert_ne.
Qed.

(** Waking a waiter takes the one of highest priority (the earliest of
    those), off this list and no other, and makes it ready. *)
Theorem xTaskRemoveFromEventList_highest k ev t l tcb :
  event_lists k !! ev = Some (t :: l) -> event_list_ok k (t :: l) -> NoDup (t :: l) ->
  tcbs k !! t = Some tcb -> xEventContainer tcb = ev -> uxSchedulerSuspended k = 0 ->
  exists k', xTaskRemoveFromEventList k ev =
      Some (priority k (pxCurrentTCB k) <? priority k t, k') /\
    Forall (fun u => priority k u <= priority k t) l /\
    event_lists k' = <[ev := l]> (event_lists k) /\
    t ∈ default [] (pxReadyTasksLists k' !! priority k t).
Proof.
  intros Hev [Hasc Hval] Hnd Ht Hc Hs. unfold xTaskRemoveFromEventList. rewrite Hev. simpl.
  assert (uxSchedulerSuspended (remove_event_item k t) = 0) as ->
    by (unfold remove_event_item; by rewrite Ht). rewrite Z.eqb_refl.
  set (k1 := prvAddTaskToReadyList (remove_state_item (remove_event_item k t) t) t).
  assert (forall u, priority k1 u = priority k u) as Hp.
  { intros u. unfold k1, prvAddTaskToReadyList, taskRECORD_READY_PRIORITY.
    destruct (_ <? _); exact (priority_remove_event k t u). }
  assert (pxCurrentTCB k1 = pxCurrentTCB k) as Hcur.
  { unfold k1, prvAddTaskToReadyList, taskRECORD_READY_PRIORITY, remove_event_item.
    rewrite Ht. by destruct (_ <? _). }
  assert (event_lists k1 = <[ev := l]> (event_lists k)) as Hel.
  { unfold k1, prvAddTaskToReadyList, taskRECORD_READY_PRIORITY, remove_event_item.
    rewrite Ht. transitivity (alter (list_remove_task t) ev (event_lists k)).
    - rewrite <- Hc. by destruct (_ <? _).
    - apply map_eq. intros i. destruct (decide (ev = i)) as [<-|];
        [|by rewrite lookup_alter_ne, lookup_insert_ne].
      rewrite lookup_alter_eq, lookup_insert_eq, Hev. simpl.
      apply NoDup_cons in Hnd as [Hnin Hnd].
      by rewrite list_remove_task_cons, list_remove_task_absent. }
  assert (t ∈ default [] (pxReadyTasksLists k1 !! priority k t)) as Hr.
  { unfold k1, prvAddTaskToReadyList, taskRECORD_READY_PRIORITY.
    assert (priority (remove_state_item (remove_event_item k t) t) t = priority k t) as ->
      by exact (priority_remove_event k t t).
    destruct (_ <? _); simpl; rewrite lookup_insert_eq; simpl; rewrite list_insert_end_elem; by left. }
  rewrite !Hp, Hcur.
  assert (Forall (fun u => priority k u <= priority k t) l) as Hmax.
  { apply Forall_cons in Hval as [Hvt Hval]. destruct Hasc as [Hhd _].
    rewrite Forall_forall in *. intros u Hu. specialize (Hhd u Hu). specialize (Hval u Hu).
    simpl in *. lia. }
  destruct (_ <? _); eexists; (split; [reflexivity|]); split_and!; done.
Qed.

(** ** A concrete kernel

    Task 7 (priority 5) runs two ticks before the tick counter wraps; tasks 8
    (priority 9) and 9 (priority 3) wait on the event list 500. *)
Definition demo_kernel : kernel :=
  mkKernel 4294967294 0 0 7 0 5 portMAX_DELAY false
    (list_to_map [(7, mkTCB 5 0 20 0 false 5 0); (8, mkTCB 9 0 16 500 false 9 0);
                  (9, mkTCB 3 0 22 500 false 3 0)])
    {[5 := [7]]} [] [] [8; 9] [] {[500 := [8; 9]]} ∅.

Lemma demo_kernel_inv : delay_inv demo_kernel.
Proof. split; simpl; try constructor; unfold is_u32; simpl; lia. Qed.

Example delay_wakes_exactly_witness :
  exists k1 k2 : kernel,
    run_ticks 2 (prvAddCurrentTaskToDelayedList demo_kernel 3 true) = Some k1 /\
    7 ∈ delayed_tasks k1 /\
    run_ticks 3 (prvAddCurrentTaskToDelayedList demo_kernel 3 true) = Some k2 /\
    7 ∉ delayed_tasks k2 /\
    7 ∈ default [] (pxReadyTasksLists k2 !! 5).
Proof.
  apply (delay_wakes_exactly demo_kernel 3 (mkTCB 5 0 20 0 false 5 0) 2);
    [exact demo_kernel_inv | reflexivity | reflexivity
    | apply (bool_decide_unpack _); vm_compute; exact I | unfold portMAX_DELAY; lia | lia].
Defined.

Example xTaskCheckForTimeOut_exact_witness :
  xTaskCheckForTimeOut (with_time demo_kernel 1 1 0) (vTaskInternalSetTimeOutState demo_kernel) 5 =
    (false, mkTimeOut 1 1, 2, with_time demo_kernel 1 1 0).
Proof.
  apply (xTaskCheckForTimeOut_exact (with_time demo_kernel 1 1 0) demo_kernel
           4294967294 4294967297 5);
    [repeat split; lia | repeat split; lia | lia | unfold portMAX_DELAY; lia | reflexivity].
Defined.

Example xTaskRemoveFromEventList_highest_witness :
  exists k', xTaskRemoveFromEventList demo_kernel 500 = Some (true, k') /\
    Forall (fun u => priority demo_kernel u <= 9) [9] /\
    event_lists k' = <[500 := [9]]> (event_lists demo_kernel) /\
    8 ∈ default [] (pxReadyTasksLists k' !! 9).
Proof.
  apply (xTaskRemoveFromEventList_highest demo_kernel 500 8 [9] (mkTCB 9 0 16 500 false 9 0));
    [reflexivity | | apply (bool_decide_unpack _); vm_compute; exact I | reflexivity..].
  split; [repeat constructor; vm_compute; discriminate | repeat constructor].
Defined.
