(* ===== verification/KernelSched.v ===== *)
(** * Suspending the scheduler and unordered event lists (FreeRTOS-Kernel/tasks.c)

    [vTaskSuspendAll] / [xTaskResumeAll] and the kernel calls event groups are
    built on, in the single-core configuration of Kernel.v.  An unordered event
    list keeps its tasks in order of arrival; the event item value of a waiting
    task holds what it waits for. *)

From stdpp Require Import base list option gmap.
From Stdlib Require Import ZArith Lia.
From S2P Require Import Prelude FreeRTOSList Kernel.

Definition taskEVENT_LIST_ITEM_VALUE_IN_USE : Z := 2147483648.

Definition with_suspended (k : kernel) (n : Z) : kernel :=
  mkKernel (xTickCount k) (xNumOfOverflows k) (xPendedTicks k) (pxCurrentTCB k)
    n (uxTopReadyPriority k) (xNextTaskUnblockTime k) (xYieldPending k)
    (tcbs k) (pxReadyTasksLists k) (pxDelayedTaskList k) (pxOverflowDelayedTaskList k)
    (xSuspendedTaskList k) (xPendingReadyList k) (event_lists k) (ready_index k).

(** The next task to run is a matter of the context switch. *)
Definition with_current (k : kernel) (t : Z) : kernel :=
  mkKernel (xTickCount k) (xNumOfOverflows k) (xPendedTicks k) t
    (uxSchedulerSuspended k) (uxTopReadyPriority k) (xNextTaskUnblockTime k) (xYieldPending k)
    (tcbs k) (pxReadyTasksLists k) (pxDelayedTaskList k) (pxOverflowDelayedTaskList k)
    (xSuspendedTaskList k) (xPendingReadyList k) (event_lists k) (ready_index k).

Definition with_yield (k : kernel) (y : bool) : kernel := with_pending k (xPendingReadyList k) y.

Definition taskIS_YIELD_REQUIRED (k : kernel) (t : Z) (xYieldEqualPriority : bool) : bool :=
  priority k (pxCurrentTCB k) <? priority k t + (if xYieldEqualPriority then 1 else 0).

(** [uxCurrentNumberOfTasks]: the tasks are those with a TCB. *)
Definition uxTaskGetNumberOfTasks (k : kernel) : Z := Z.of_nat (size (tcbs k)).

(** ** Suspending and resuming *)

Definition vTaskSuspendAll (k : kernel) : kernel := with_suspended k (u32 (uxSchedulerSuspended k + 1)).

(** [listREMOVE_ITEM] of an event item that is on the pending ready list. *)
Definition remove_pending_item (k : kernel) (t : Z) : kernel :=
  with_pending (with_tcbs k (alter (set_event_container NULL) t (tcbs k)))
    (list_remove_task t (xPendingReadyList k)) (xYieldPending k).

(** The loop over [xPendingReadyList]; the list is [l] when it starts. *)
Fixpoint ready_pending (l : list Z) (k : kernel) : kernel :=
  match l with
  | [] => k
  | t :: l =>
      let k := remove_pending_item k t in
      let k := remove_state_item k t in
      let k := prvAddTaskToReadyList k t in
      ready_pending l (if taskIS_YIELD_REQUIRED k t true then with_yield k true else k)
  end.

(** The loop over the pended ticks. *)
Fixpoint process_pended_ticks (n : nat) (k : kernel) : option kernel :=
  match n with
  | O => Some k
  | S n => let! (sw, k) := xTaskIncrementTick k in
           process_pended_ticks n (if sw : bool then with_yield k true else k)
  end.

(** Returns whether a context switch was performed. *)
Definition xTaskResumeAll (k : kernel) : option (bool * kernel) :=
  assert! negb (uxSchedulerSuspended k =? 0);
  let k := with_suspended k (uxSchedulerSuspended k - 1) in
  if (uxSchedulerSuspended k =? 0) && (0 <? uxTaskGetNumberOfTasks k) then
    let pending := xPendingReadyList k in
    let k := ready_pending pending k in
    let k := match pending with [] => k | _ => prvResetNextTaskUnblockTime k end in
    let! k := (if 0 <? xPendedTicks k then
                 let! k := process_pended_ticks (Z.to_nat (xPendedTicks k)) k in
                 Some (with_time k (xTickCount k) (xNumOfOverflows k) 0)
               else Some k) in
    Some (xYieldPending k, k)
  else Some (false, k).

(** ** Unordered event lists *)

Definition vTaskPlaceOnUnorderedEventList (k : kernel) (pxEventList xItemValue xTicksToWait : Z) :
    option kernel :=
  assert! negb (uxSchedulerSuspended k =? 0);
  let t := pxCurrentTCB k in
  let l := default [] (event_lists k !! pxEventList) in
  let k := with_tcbs k (alter (set_event_value (Z.lor xItemValue taskEVENT_LIST_ITEM_VALUE_IN_USE)) t (tcbs k)) in
  let k := with_tcbs k (alter (set_event_container pxEventList) t (tcbs k)) in
  let k := with_event_lists k (<[pxEventList := l ++ [t]]> (event_lists k)) in
  Some (prvAddCurrentTaskToDelayedList k xTicksToWait true).

(** [t] owns the item that is removed. *)
Definition vTaskRemoveFromUnorderedEventList (k : kernel) (t xItemValue : Z) : option kernel :=
  assert! negb (uxSchedulerSuspended k =? 0);
  let k := with_tcbs k (alter (set_event_value (Z.lor xItemValue taskEVENT_LIST_ITEM_VALUE_IN_USE)) t (tcbs k)) in
  let k := remove_event_item k t in
  let k := remove_state_item k t in
  let k := prvAddTaskToReadyList k t in
  Some (if taskIS_YIELD_REQUIRED k t false then with_yield k true else k).

Definition uxTaskResetEventItemValue (k : kernel) : Z * kernel :=
  let t := pxCurrentTCB k in
  (event_value k t,
   with_tcbs k (alter (set_event_value (u32 (configMAX_PRIORITIES - priority k t))) t (tcbs k))).

(** ** Ticks that come while the scheduler is suspended are not lost *)

(** A kernel with another yield flag and count of pended ticks. *)
Definition lift_pending (y : bool) (p : Z) (k : kernel) : kernel :=
  with_time (with_yield k y) (xTickCount k) (xNumOfOverflows k) p.

Lemma lift_ready y p k t :
  prvAddTaskToReadyList (lift_pending y p k) t = lift_pending y p (prvAddTaskToReadyList k t).
Proof.
  unfold prvAddTaskToReadyList, taskRECORD_READY_PRIORITY, priority. simpl. by destruct (_ <? _).
Qed.

Lemma lift_wake y p k t : wake_task (lift_pending y p k) t = lift_pending y p (wake_task k t).
Proof.
  unfold wake_task. rewrite <- lift_ready. f_equal. simpl.
  destruct (tcbs k !! t) as [tcb|] eqn:E; [|done].
  destruct (xEventContainer tcb =? NULL); [done|].
  unfold remove_event_item. simpl. by rewrite E.
Qed.

Lemma lift_unblock_due y p c fuel : forall k sw,
  unblock_due fuel (lift_pending y p k) c sw =
  (let! (sw, k') := unblock_due fuel k c sw in Some (sw, lift_pending y p k')).
Proof.
  induction fuel as [|fuel IH]; intros k sw; cbn [unblock_due];
    change (pxDelayedTaskList (lift_pending y p k)) with (pxDelayedTaskList k);
    (destruct (pxDelayedTaskList k) as [|t l]; [done|]);
    change (state_value (lift_pending y p k) t) with (state_value k t);
    (destruct (_ <? _); [done|]); [done|].
  fold (wake_task (lift_pending y p k) t) (wake_task k t). rewrite lift_wake. apply IH.
Qed.

Lemma lift_switch y p k :
  taskSWITCH_DELAYED_LISTS (lift_pending y p k) =
  (let! k' := taskSWITCH_DELAYED_LISTS k in Some (lift_pending y p k')).
Proof.
  unfold taskSWITCH_DELAYED_LISTS, prvResetNextTaskUnblockTime. simpl.
  destruct (bool_decide _); [|done]. simpl. by destruct (pxOverflowDelayedTaskList k).
Qed.

(** A tick with the scheduler running does to both the same. *)
Lemma lift_tick y p k : uxSchedulerSuspended k = 0 ->
  match xTaskIncrementTick k, xTaskIncrementTick (lift_pending y p k) with
  | Some (_, k'), Some (_, l') => l' = lift_pending y p k'
  | None, None => True
  | _, _ => False
  end.
Proof.
  intros Hs. unfold xTaskIncrementTick. simpl. rewrite Hs. simpl.
  set (c := u32 (xTickCount k + 1)).
  change (with_time (lift_pending y p k) c (xNumOfOverflows k) p)
    with (lift_pending y p (with_time k c (xNumOfOverflows k) (xPendedTicks k))).
  set (k0 := with_time k c (xNumOfOverflows k) (xPendedTicks k)).
  assert ((if c =? 0 then taskSWITCH_DELAYED_LISTS (lift_pending y p k0) else Some (lift_pending y p k0))
    = (let! k' := (if c =? 0 then taskSWITCH_DELAYED_LISTS k0 else Some k0) in Some (lift_pending y p k')))
    as -> by (destruct (c =? 0); [apply lift_switch|done]).
  destruct (if c =? 0 then _ else _) as [k1|]; [|done]. simpl.
  assert ((if xNextTaskUnblockTime k1 <=? c
           then unblock_due (length (pxDelayedTaskList k1)) (lift_pending y p k1) c false
           else Some (false, lift_pending y p k1))
    = (let! (sw, k') := (if xNextTaskUnblockTime k1 <=? c
           then unblock_due (length (pxDelayedTaskList k1)) k1 c false else Some (false, k1)) in
       Some (sw, lift_pending y p k')))
    as -> by (destruct (_ <=? _); [apply lift_unblock_due|done]).
  by destruct (if _ <=? _ then _ else _) as [[sw k2]|].
Qed.

(** What ticks leave alone. *)
Record tick_same (k k' : kernel) : Prop := {
  ts_pending : xPendingReadyList k' = xPendingReadyList k;
  ts_current : pxCurrentTCB k' = pxCurrentTCB k;
  ts_suspended : uxSchedulerSuspended k' = uxSchedulerSuspended k;
  ts_aborted : forall t, ucDelayAborted <$> tcbs k' !! t = ucDelayAborted <$> tcbs k !! t }.

Lemma tick_same_trans k1 k2 k3 : tick_same k1 k2 -> tick_same k2 k3 -> tick_same k1 k3.
Proof. intros [A1 A2 A3 A4] [B1 B2 B3 B4]. split; [congruence..|]. intros t. by rewrite B4. Qed.

Lemma wake_task_same k t : tick_same k (wake_task k t) /\ xPendedTicks (wake_task k t) = xPendedTicks k.
Proof.
  unfold wake_task, prvAddTaskToReadyList, taskRECORD_READY_PRIORITY.
  destruct (_ <? _); simpl; destruct (tcbs k !! t) as [tcb|] eqn:E; try done;
    destruct (_ =? _); try done; unfold remove_event_item; simpl; rewrite E; (split; [split|]); try done;
    intros u; simpl; destruct (decide (u = t)) as [->|];
    [by rewrite lookup_insert_eq, E|by rewrite lookup_insert_ne|by rewrite lookup_insert_eq, E|by rewrite lookup_insert_ne].
Qed.

Lemma unblock_due_same fuel : forall k c sw sw' k', unblock_due fuel k c sw = Some (sw', k') ->
  tick_same k k' /\ xPendedTicks k' = xPendedTicks k.
Proof.
  induction fuel as [|fuel IH]; intros k c sw sw' k'; cbn [unblock_due];
    (destruct (pxDelayedTaskList k) as [|t l]; [by intros [= _ <-]|]);
    (destruct (_ <? _); [by intros [= _ <-]|]); [done|].
  fold (wake_task k t). intros H. apply IH in H as [H ->]. destruct (wake_task_same k t) as [W ->].
  split; [by eapply tick_same_trans|done].
Qed.

Lemma switch_same k k' : taskSWITCH_DELAYED_LISTS k = Some k' ->
  tick_same k k' /\ xPendedTicks k' = xPendedTicks k /\ event_lists k' = event_lists k /\
  tcbs k' = tcbs k /\ pxDelayedTaskList k' = pxOverflowDelayedTaskList k /\
  pxOverflowDelayedTaskList k' = pxDelayedTaskList k.
Proof.
  unfold taskSWITCH_DELAYED_LISTS, prvResetNextTaskUnblockTime.
  destruct (bool_decide _); [|done]. simpl. intros [= <-].
  by destruct (pxOverflowDelayedTaskList k).
Qed.

Lemma tick_frame k sw k' : xTaskIncrementTick k = Some (sw, k') ->
  tick_same k k' /\ (uxSchedulerSuspended k = 0 -> xPendedTicks k' = xPendedTicks k).
Proof.
  unfold xTaskIncrementTick. destruct (Z.eqb_spec (uxSchedulerSuspended k) 0); [|by intros [= _ <-]].
  cbv zeta. set (k0 := with_time k _ _ _).
  destruct (if _ =? 0 then _ else _) as [k1|] eqn:E1; [|done].
  assert (tick_same k0 k1 /\ xPendedTicks k1 = xPendedTicks k0) as [H1 P1].
  { destruct (_ =? 0); [|by injection E1 as <-]. by apply switch_same in E1 as (? & ? & _). }
  destruct (if _ <=? _ then _ else _) as [[sw2 k2]|] eqn:E2; [|done].
  assert (tick_same k1 k2 /\ xPendedTicks k2 = xPendedTicks k1) as [H2 P2].
  { destruct (_ <=? _); [by apply unblock_due_same in E2|by injection E2 as _ <-]. }
  intros [= _ <-]. split; [|by rewrite P2, P1].
  apply (tick_same_trans k k0); [by split|]. by eapply tick_same_trans.
Qed.

(** [n] ticks with the scheduler running. *)
Lemma run_ticks_spec n : forall k, delay_inv k -> uxSchedulerSuspended k = 0 ->
  exists k', run_ticks n k = Some k' /\ delay_inv k' /\ uxSchedulerSuspended k' = 0 /\
    xTickCount k' = u32 (xTickCount k + Z.of_nat n) /\ tick_same k k' /\ xPendedTicks k' = xPendedTicks k /\
    (forall t, priority k' t = priority k t) /\
    (forall t p, t ∈ default [] (pxReadyTasksLists k !! p) -> t ∉ delayed_tasks k ->
       t ∈ default [] (pxReadyTasksLists k' !! p) /\ t ∉ delayed_tasks k').
Proof.
  induction n as [|n IH]; intros k Hinv Hs.
  - exists k. simpl. split_and!; try done.
    rewrite Z.add_0_r, u32_small; [done|]. apply (di_tick _ Hinv).
  - simpl. destruct (tick_spec k Hinv Hs)
      as (sw & k1 & Hrun & Hinv1 & Hc & Hs1 & Hd & Ho & _ & Hp & _ & Hr).
    destruct (tick_frame _ _ _ Hrun) as [Hsame Hpt]. rewrite Hrun.
    destruct (IH k1 Hinv1 Hs1) as (k' & Hrun' & Hinv' & Hs' & Hc' & Hsame' & Hpt' & Hp' & Hr').
    exists k'. split_and!; try done.
    + rewrite Hc', Hc. pose proof (di_tick _ Hinv). word_lia.
    + by eapply tick_same_trans.
    + by rewrite Hpt', Hpt.
    + intros t. by rewrite Hp'.
    + intros t p Ht Hn. unfold delayed_tasks in Hn. rewrite elem_of_app in Hn.
      apply Hr'; [apply Hr; [done|destruct (_ =? 0); tauto]|].
      unfold delayed_tasks. rewrite elem_of_app, Hd, Ho, not_due_elem.
      destruct (_ =? 0); [|tauto]. rewrite elem_of_nil. tauto.
Qed.

Lemma process_pended_ticks_run n : forall k y p, delay_inv k -> uxSchedulerSuspended k = 0 ->
  exists k' y', run_ticks n k = Some k' /\
    process_pended_ticks n (lift_pending y p k) = Some (lift_pending y' p k').
Proof.
  induction n as [|n IH]; intros k y p Hinv Hs; simpl; [eauto|].
  destruct (tick_spec k Hinv Hs) as (sw & k1 & Hrun & Hinv1 & _ & Hs1 & _).
  pose proof (lift_tick y p k Hs) as Hl. rewrite Hrun in *.
  destruct (xTaskIncrementTick (lift_pending y p k)) as [[sw' l]|]; [|done]. subst l.
  destruct (IH k1 (if sw' then true else y) p Hinv1 Hs1) as (k' & y' & ? & Hp).
  exists k', y'. split; [done|]. rewrite <- Hp. by destruct sw'.
Qed.

Lemma run_ticks_suspended n : forall k, uxSchedulerSuspended k <> 0 -> is_u32 (xPendedTicks k) ->
  run_ticks n k =
    Some (with_time k (xTickCount k) (xNumOfOverflows k) (u32 (xPendedTicks k + Z.of_nat n))).
Proof.
  induction n as [|n IH]; intros k Hs Hp; simpl.
  - rewrite Z.add_0_r, u32_small by done. by destruct k.
  - unfold xTaskIncrementTick. destruct (Z.eqb_spec (uxSchedulerSuspended k) 0); [done|].
    rewrite IH; [|done|apply u32_range]. cbn -[u32 Z.of_nat].
    replace (u32 (u32 (xPendedTicks k + 1) + Z.of_nat n))
      with (u32 (xPendedTicks k + Z.of_nat (S n))) by word_lia. done.
Qed.

Lemma suspended_state k n m c : uxSchedulerSuspended k = m ->
  with_suspended (with_time (with_suspended k n) (xTickCount k) (xNumOfOverflows k) c) m =
  lift_pending (xYieldPending k) c k.
Proof. destruct k. simpl. by intros <-. Qed.

(** What the call that resumes the scheduler does. *)
Definition resumed (k : kernel) : option (bool * kernel) :=
  let k1 := ready_pending (xPendingReadyList k) k in
  let k2 := match xPendingReadyList k with [] => k1 | _ => prvResetNextTaskUnblockTime k1 end in
  let! k3 := (if 0 <? xPendedTicks k2 then
                let! k := process_pended_ticks (Z.to_nat (xPendedTicks k2)) k2 in
                Some (with_time k (xTickCount k) (xNumOfOverflows k) 0)
              else Some k2) in
  Some (xYieldPending k3, k3).

Lemma xTaskResumeAll_last k : uxSchedulerSuspended k = 1 -> 0 < uxTaskGetNumberOfTasks k ->
  xTaskResumeAll k = resumed (with_suspended k 0).
Proof.
  intros Hs Hn. unfold xTaskResumeAll. rewrite Hs. change (1 - 1) with 0.
  change (uxTaskGetNumberOfTasks (with_suspended k 0)) with (uxTaskGetNumberOfTasks k).
  destruct (Z.ltb_spec 0 (uxTaskGetNumberOfTasks k)); [done|lia].
Qed.

(** Ticks counted while the scheduler is suspended are made up for when it is
    resumed: the kernel is then as if every tick had been served on time, but
    for a pending yield. *)
Theorem resume_replays_ticks (k : kernel) (n : nat) :
  delay_inv k -> 0 < uxTaskGetNumberOfTasks k -> uxSchedulerSuspended k = 0 -> xPendedTicks k = 0 ->
  xPendingReadyList k = [] -> Z.of_nat n < 4294967296 ->
  exists (k1 k2 : kernel) (y : bool),
    run_ticks n (vTaskSuspendAll k) = Some k1 /\ xTickCount k1 = xTickCount k /\
    run_ticks n k = Some k2 /\ xTaskResumeAll k1 = Some (y, lift_pending y 0 k2).
Proof.
  intros Hinv Hnt Hs Hp Hpl Hn.
  destruct (process_pended_ticks_run n k (xYieldPending k) (Z.of_nat n) Hinv Hs) as (k2 & y & Hrun & Hpt).
  unfold vTaskSuspendAll. rewrite run_ticks_suspended; simpl; [|by rewrite Hs|by rewrite Hp; word_lia].
  eexists _, k2. rewrite Hp, Hs, Z.add_0_l, u32_small by lia.
  match goal with |- context [Some ?a = Some _] => set (k1 := a) end.
  exists y. split_and!; [reflexivity|done|done|].
  rewrite xTaskResumeAll_last by done. unfold resumed. subst k1.
  cbn -[process_pended_ticks Z.to_nat Z.of_nat Z.ltb]. rewrite Hpl.
  cbn -[process_pended_ticks Z.to_nat Z.of_nat Z.ltb]. rewrite u32_small by lia.
  destruct (Z.ltb_spec 0 (0 + Z.of_nat n)) as [_|Hz].
  - rewrite Z.add_0_l, Nat2Z.id, suspended_state by done. by rewrite Hpt.
  - replace n with 0%nat in * by lia. simpl in Hrun, Hpt. injection Hrun as <-.
    rewrite suspended_state by done. simplify_eq/=. done.
Qed.

(** ** Tasks readied while the scheduler is suspended *)

Lemma delay_inv_remove k k' t :
  delay_inv k -> xTickCount k' = xTickCount k ->
  pxDelayedTaskList k' = list_remove_task t (pxDelayedTaskList k) ->
  pxOverflowDelayedTaskList k' = list_remove_task t (pxOverflowDelayedTaskList k) ->
  xNextTaskUnblockTime k' = xNextTaskUnblockTime k ->
  (forall u, state_value k' u = state_value k u) -> delay_inv k'.
Proof.
  intros [D1 D2 D3 D4 D5 D6 D7] Et Ed Eo En Ev.
  assert (forall (P : Z -> Z -> Prop) a l, Forall (fun u => P a (state_value k u)) l ->
    Forall (fun u => P a (state_value k' u)) (list_remove_task t l)) as Hf.
  { intros P a l. rewrite !Forall_forall. intros H u Hu. rewrite Ev. apply H.
    by apply list_remove_task_elem in Hu as [_ ?]. }
  split; rewrite ?Et, ?Ed, ?Eo, ?En; try done.
  - apply NoDup_app in D2 as (N1 & N2 & N3). apply NoDup_app.
    split_and!; [by apply NoDup_filter| |by apply NoDup_filter].
    intros u. rewrite !list_remove_task_elem. naive_solver.
  - apply (ascending_ext (state_value k)); [done|]. by apply ascending_filter.
  - apply (ascending_ext (state_value k)); [done|]. by apply ascending_filter.
  - by apply (Hf (fun a v => a < v <= portMAX_DELAY)).
  - by apply (Hf (fun a v => 0 <= v < a)).
  - by apply (Hf (fun a v => a <= v)).
Qed.

Lemma delay_inv_same k k' : xTickCount k' = xTickCount k ->
  pxDelayedTaskList k' = pxDelayedTaskList k -> pxOverflowDelayedTaskList k' = pxOverflowDelayedTaskList k ->
  xNextTaskUnblockTime k' = xNextTaskUnblockTime k -> (forall u, state_value k' u = state_value k u) ->
  delay_inv k -> delay_inv k'.
Proof.
  intros E1 E2 E3 E4 E5 [D1 D2 D3 D4 D5 D6 D7].
  split; rewrite ?E1, ?E2, ?E3, ?E4; try done; try by apply (ascending_ext (state_value k)).
  - eapply Forall_impl; [exact D5|]. intros t. simpl. by rewrite E5.
  - eapply Forall_impl; [exact D6|]. intros t. simpl. by rewrite E5.
  - eapply Forall_impl; [exact D7|]. intros t. simpl. by rewrite E5.
Qed.

(** One round of the loop over the pending ready list. *)
Definition ready_one (k : kernel) (t : Z) : kernel :=
  let k := prvAddTaskToReadyList (remove_state_item (remove_pending_item k t) t) t in
  if taskIS_YIELD_REQUIRED k t true then with_yield k true else k.

Lemma ready_pending_cons t l k : ready_pending (t :: l) k = ready_pending l (ready_one k t).
Proof. cbn [ready_pending]. cbv zeta. unfold ready_one. cbv zeta. exact eq_refl. Qed.

Lemma ready_one_fields k t :
  let k' := ready_one k t in
  xTickCount k' = xTickCount k /\ xPendedTicks k' = xPendedTicks k /\
  uxSchedulerSuspended k' = uxSchedulerSuspended k /\ xNextTaskUnblockTime k' = xNextTaskUnblockTime k /\
  pxDelayedTaskList k' = list_remove_task t (pxDelayedTaskList k) /\
  pxOverflowDelayedTaskList k' = list_remove_task t (pxOverflowDelayedTaskList k) /\
  xPendingReadyList k' = list_remove_task t (xPendingReadyList k) /\
  (forall u, state_value k' u = state_value k u) /\ (forall u, priority k' u = priority k u) /\
  (forall p, default [] (pxReadyTasksLists k' !! p) ≡ₚ
     list_remove_task t (default [] (pxReadyTasksLists k !! p)) ++
     (if decide (p = priority k t) then [t] else [])).
Proof.
  cbv zeta. unfold ready_one.
  set (k1 := remove_state_item (remove_pending_item k t) t).
  assert (forall u, priority k1 u = priority k u) as Hp.
  { intros u. unfold k1, priority. simpl. rewrite lookup_alter.
    case_decide as E; [subst|done]. by destruct (tcbs k !! u). }
  assert (forall u, state_value k1 u = state_value k u) as Hv.
  { intros u. unfold k1, state_value. simpl. rewrite lookup_alter.
    case_decide as E; [subst|done]. by destruct (tcbs k !! u). }
  set (k2 := prvAddTaskToReadyList k1 t).
  assert (forall p, default [] (pxReadyTasksLists k2 !! p) ≡ₚ
     list_remove_task t (default [] (pxReadyTasksLists k !! p)) ++
     (if decide (p = priority k t) then [t] else [])) as Hr.
  { intros p. rewrite <- Hp. unfold k2. rewrite add_to_ready_perm. unfold k1. simpl. rewrite lookup_fmap.
    by destruct (pxReadyTasksLists k !! _). }
  split_and!; try (destruct (taskIS_YIELD_REQUIRED _ _ _); unfold k2, prvAddTaskToReadyList,
    taskRECORD_READY_PRIORITY; destruct (_ <? _); done);
    destruct (taskIS_YIELD_REQUIRED _ _ _); try done; intros u.
  all: first [rewrite <- Hv|rewrite <- Hp]; unfold k2, prvAddTaskToReadyList,
    taskRECORD_READY_PRIORITY; by destruct (_ <? _).
Qed.

Lemma ready_pending_spec l : forall k,
  delay_inv k -> NoDup l -> xPendingReadyList k = l ->
  let k' := ready_pending l k in
  delay_inv k' /\ uxSchedulerSuspended k' = uxSchedulerSuspended k /\
  xTickCount k' = xTickCount k /\ xPendedTicks k' = xPendedTicks k /\ xPendingReadyList k' = [] /\
  (forall t, priority k' t = priority k t) /\
  (forall t p, t ∈ default [] (pxReadyTasksLists k' !! p) <->
     t ∉ l /\ t ∈ default [] (pxReadyTasksLists k !! p) \/ t ∈ l /\ p = priority k t) /\
  (forall t, t ∈ delayed_tasks k' <-> t ∉ l /\ t ∈ delayed_tasks k).
Proof.
  induction l as [|t l IH]; intros k Hinv Hnd Hl.
  - simpl. split_and!; try done; intros; set_solver.
  - rewrite ready_pending_cons. cbv zeta.
    apply NoDup_cons in Hnd as [Ht Hnd].
    destruct (ready_one_fields k t) as (F1 & F2 & F3 & F4 & F5 & F6 & F7 & F8 & F9 & F10).
    assert (delay_inv (ready_one k t)) as Hinv1 by (by apply (delay_inv_remove k _ t)).
    assert (xPendingReadyList (ready_one k t) = l) as Hl1.
    { by rewrite F7, Hl, list_remove_task_cons, list_remove_task_absent. }
    destruct (IH (ready_one k t) Hinv1 Hnd Hl1) as (I1 & I2 & I3 & I4 & I5 & I6 & I7 & I8).
    split_and!; try congruence; try done.
    + intros u p. rewrite I7, F10, F9, elem_of_app, list_remove_task_elem, elem_of_cons. clear - Ht.
      assert (u ∈ (if decide (p = priority k t) then [t] else []) <-> u = t /\ p = priority k t)
        as -> by (case_decide; [rewrite list_elem_of_singleton|rewrite elem_of_nil]; tauto).
      destruct (decide (u = t)) as [->|]; intuition congruence.
    + intros u. rewrite I8. unfold delayed_tasks. rewrite F5, F6, !elem_of_app, !list_remove_task_elem,
        elem_of_cons. tauto.
Qed.

(** The end of [xTaskResumeAll] runs the pended ticks. *)
Lemma resume_pended_ticks k :
  delay_inv k -> uxSchedulerSuspended k = 0 -> is_u32 (xPendedTicks k) ->
  exists y k', (let! k := (if 0 <? xPendedTicks k then
      let! k := process_pended_ticks (Z.to_nat (xPendedTicks k)) k in
      Some (with_time k (xTickCount k) (xNumOfOverflows k) 0) else Some k) in Some (xYieldPending k, k))
    = Some (y, lift_pending y 0 k') /\ run_ticks (Z.to_nat (xPendedTicks k)) k = Some k'.
Proof.
  intros Hinv Hs Hp. destruct (Z.ltb_spec 0 (xPendedTicks k)).
  - destruct (process_pended_ticks_run (Z.to_nat (xPendedTicks k)) k (xYieldPending k) (xPendedTicks k))
      as (k' & y & Hrt & Hpt); [done..|].
    replace (lift_pending _ _ k) with k in Hpt by (by destruct k).
    rewrite Hpt. by exists y, k'.
  - unfold is_u32 in Hp. assert (xPendedTicks k = 0) as Ep by lia. rewrite Ep.
    exists (xYieldPending k), k. split; [|done]. rewrite <- Ep. by destruct k.
Qed.

(** C34: when the scheduler is resumed every task an interrupt readied meanwhile
    becomes ready at its priority and is no longer delayed, the clock has caught
    up, and nothing is left pending. *)
Theorem xTaskResumeAll_catches_up (k : kernel) :
  delay_inv k -> 0 < uxTaskGetNumberOfTasks k -> uxSchedulerSuspended k = 1 ->
  is_u32 (xPendedTicks k) -> NoDup (xPendingReadyList k) ->
  exists (y : bool) (k' : kernel), xTaskResumeAll k = Some (y, k') /\ delay_inv k' /\
    uxSchedulerSuspended k' = 0 /\ xPendedTicks k' = 0 /\ xPendingReadyList k' = [] /\
    xTickCount k' = u32 (xTickCount k + xPendedTicks k) /\
    (forall t, t ∈ xPendingReadyList k ->
       t ∈ default [] (pxReadyTasksLists k' !! priority k t) /\ t ∉ delayed_tasks k').
Proof.
  intros Hinv Hnt Hs Hp Hnd. rewrite xTaskResumeAll_last by done. unfold resumed.
  set (k0 := with_suspended k 0). change (xPendingReadyList k0) with (xPendingReadyList k).
  assert (delay_inv k0) as Hinv0 by (by destruct Hinv).
  destruct (ready_pending_spec _ k0 Hinv0 Hnd eq_refl) as (R1 & R2 & R3 & R4 & R5 & R6 & R7 & R8).
  set (k1 := match xPendingReadyList k with [] => _ | _ => _ end).
  assert (exists n, k1 = with_unblock_time (ready_pending (xPendingReadyList k) k0) n /\ delay_inv k1)
    as (n & E1 & Hinv1).
  { unfold k1. destruct (xPendingReadyList k) as [|t l] eqn:El.
    { exists (xNextTaskUnblockTime k). split; [by destruct k|done]. }
    rewrite <- El in *. unfold prvResetNextTaskUnblockTime.
    destruct R1 as [D1 D2 D3 D4 D5 D6 D7].
    destruct (pxDelayedTaskList (ready_pending (xPendingReadyList k) k0)) as [|u d] eqn:Ed;
      eexists; (split; [reflexivity|]); split; simpl; rewrite ?Ed; try done.
    constructor; [done|]. by destruct D3. }
  assert (uxSchedulerSuspended k1 = 0) as Hs1 by (by rewrite E1).
  assert (xPendedTicks k1 = xPendedTicks k) as Hp1 by (by rewrite E1).
  destruct (resume_pended_ticks k1 Hinv1 Hs1) as (y & k' & Hrun & Hrt); [by rewrite Hp1|].
  rewrite Hp1 in Hrt.
  rewrite Hrun. exists y. eexists. split; [reflexivity|].
  destruct (run_ticks_spec (Z.to_nat (xPendedTicks k)) k1 Hinv1 Hs1) as
    (k2 & Hrt' & I1 & I2 & I3 & I4 & _ & I5 & I6).
  rewrite Hrt in Hrt'. injection Hrt' as <-. split_and!; try done.
  - by destruct I1.
  - simpl. rewrite (ts_pending _ _ I4), E1. done.
  - simpl. rewrite I3, E1. simpl. rewrite R3, Z2Nat.id by (unfold is_u32 in Hp; lia). done.
  - intros t Ht. apply (I6 t (priority k t)).
    + rewrite E1. apply R7. by right.
    + rewrite E1. intros Hd. apply R8 in Hd. naive_solver.
Qed.

(** ** Waking tasks from an unordered event list *)

Definition wake_tcb (v : Z) (c : TCB_t) : TCB_t := set_event_container NULL (set_event_value v c).

(** The tasks [ws] of the list [l] are woken in turn with the value [v]. *)
Record woken (k k' : kernel) (l v : Z) (ws : list Z) : Prop := {
  wk_tcbs : forall t, tcbs k' !! t =
    if decide (t ∈ ws) then wake_tcb v <$> tcbs k !! t else tcbs k !! t;
  wk_lists : event_lists k' = alter (filter (.∉ ws)) l (event_lists k);
  wk_ready : forall p, default [] (pxReadyTasksLists k' !! p) ≡ₚ
    filter (.∉ ws) (default [] (pxReadyTasksLists k !! p)) ++ filter (fun t => priority k t = p) ws;
  wk_delayed : delayed_tasks k' = filter (.∉ ws) (delayed_tasks k);
  wk_suspended : xSuspendedTaskList k' = filter (.∉ ws) (xSuspendedTaskList k);
  wk_yield : xYieldPending k' =
    xYieldPending k || existsb (fun t => priority k (pxCurrentTCB k) <? priority k t) ws;
  wk_current : pxCurrentTCB k' = pxCurrentTCB k;
  wk_count : uxSchedulerSuspended k' = uxSchedulerSuspended k;
  wk_pended : xPendedTicks k' = xPendedTicks k;
  wk_pending : xPendingReadyList k' = xPendingReadyList k;
  wk_tick : xTickCount k' = xTickCount k }.

Lemma woken_priority k k' l v ws : woken k k' l v ws -> forall t, priority k' t = priority k t.
Proof.
  intros H t. unfold priority. rewrite (wk_tcbs _ _ _ _ _ H). case_decide; [|done].
  by destruct (tcbs k !! t).
Qed.

Lemma filter_notin_cons (t : Z) ws l :
  filter (.∉ ws) (list_remove_task t l) = filter (.∉ t :: ws) l.
Proof.
  unfold list_remove_task. rewrite list_filter_filter. apply list_filter_iff. intros u.
  rewrite not_elem_of_cons. tauto.
Qed.

Lemma filter_notin_nil (l : list Z) : filter (.∉ []) l = l.
Proof.
  induction l as [|u l IH]; [done|].
  rewrite filter_cons, decide_True by apply not_elem_of_nil. by rewrite IH.
Qed.

Lemma woken_nil k l v : woken k k l v [].
Proof.
  split; simpl; try done; intros; rewrite ?filter_notin_nil, ?app_nil_r, ?orb_false_r; try done.
  apply map_eq. intros i. destruct (decide (l = i)) as [->|];
    [rewrite lookup_alter_eq|by rewrite lookup_alter_ne].
  destruct (event_lists k !! i); simpl; [by rewrite filter_notin_nil|done].
Qed.

Lemma woken_cons k k1 k2 l v t ws : t ∉ ws ->
  woken k k1 l v [t] -> woken k1 k2 l v ws -> woken k k2 l v (t :: ws).
Proof.
  intros Hn H1 H2. pose proof (woken_priority _ _ _ _ _ H1) as Hp.
  assert (forall l', filter (.∉ [t]) l' = list_remove_task t l') as Hf.
  { intros l'. apply list_filter_iff. intros u. by rewrite list_elem_of_singleton. }
  destruct H1 as [A1 A2 A3 A4 A5 A6 A7 A8 A9 A10 A11], H2 as [B1 B2 B3 B4 B5 B6 B7 B8 B9 B10 B11].
  split; try congruence.
  - intros u. rewrite B1, A1. destruct (decide (u = t)) as [->|Hu].
    + rewrite (decide_False (P := t ∈ ws)), !decide_True by (done || left). done.
    + rewrite (decide_False (P := u ∈ [t])) by (by rewrite list_elem_of_singleton).
      apply decide_ext. rewrite elem_of_cons. tauto.
  - rewrite B2, A2. apply map_eq. intros i.
    destruct (decide (l = i)) as [->|]; [rewrite !lookup_alter_eq|by rewrite !lookup_alter_ne].
    destruct (event_lists k !! i); simpl; [|done]. by rewrite Hf, filter_notin_cons.
  - intros p. rewrite B3, A3, filter_app, Hf, filter_notin_cons, <- app_assoc. f_equal.
    rewrite (filter_cons _ t ws), filter_cons, filter_nil.
    assert (filter (fun u => priority k1 u = p) ws = filter (fun u => priority k u = p) ws) as ->
      by (apply list_filter_iff; intros u; by rewrite Hp).
    destruct (decide (priority k t = p)); [|done].
    by rewrite filter_cons, decide_True, filter_nil by done.
  - by rewrite B4, A4, Hf, filter_notin_cons.
  - by rewrite B5, A5, Hf, filter_notin_cons.
  - rewrite B6, A6, A7. simpl. rewrite orb_false_r, <- orb_assoc. do 2 f_equal.
    clear -Hp. induction ws as [|u ws IH]; [done|]. simpl. by rewrite IH, !Hp.
Qed.

Lemma prvAddTaskToReadyList_eq k t : exists p, prvAddTaskToReadyList k t =
  with_state_lists (with_top_ready k p)
    (<[priority k t := list_insert_end (default NULL (ready_index k !! priority k t)) t
                         (default [] (pxReadyTasksLists k !! priority k t))]> (pxReadyTasksLists k))
    (pxDelayedTaskList k) (pxOverflowDelayedTaskList k) (xSuspendedTaskList k).
Proof.
  unfold prvAddTaskToReadyList, taskRECORD_READY_PRIORITY.
  destruct (uxTopReadyPriority k <? priority k t); [by eexists|].
  exists (uxTopReadyPriority k). by destruct k.
Qed.

Lemma with_yield_if (b : bool) k :
  (if b then with_yield k true else k) = with_yield k (xYieldPending k || b).
Proof. destruct b; [by rewrite orb_true_r|]. rewrite orb_false_r. by destruct k. Qed.

Lemma filter_notin_one (t : Z) l : filter (.∉ [t]) l = list_remove_task t l.
Proof. apply list_filter_iff. intros u. by rewrite list_elem_of_singleton. Qed.

Lemma vTaskRemoveFromUnorderedEventList_woken k t v tcb :
  uxSchedulerSuspended k <> 0 -> tcbs k !! t = Some tcb ->
  exists k', vTaskRemoveFromUnorderedEventList k t v = Some k' /\
    woken k k' (xEventContainer tcb) (Z.lor v taskEVENT_LIST_ITEM_VALUE_IN_USE) [t].
Proof.
  intros Hs Ht. unfold vTaskRemoveFromUnorderedEventList.
  destruct (Z.eqb_spec (uxSchedulerSuspended k) 0); [done|]. simpl.
  set (w := Z.lor v taskEVENT_LIST_ITEM_VALUE_IN_USE).
  unfold remove_event_item. simpl. rewrite lookup_alter_eq, Ht. simpl.
  match goal with |- context [prvAddTaskToReadyList ?a t] => set (k2 := a) end.
  assert (forall u, priority k2 u = priority k u) as Hp.
  { intros u. unfold priority. simpl. rewrite lookup_insert, lookup_alter.
    case_decide; [by subst; rewrite Ht|done]. }
  destruct (prvAddTaskToReadyList_eq k2 t) as [top ->]. rewrite Hp, with_yield_if.
  eexists. split; [reflexivity|]. unfold taskIS_YIELD_REQUIRED.
  split; unfold delayed_tasks; simpl; try done.
  - intros u. rewrite lookup_insert, lookup_alter. destruct (decide (u = t)) as [->|].
    + by rewrite !decide_True, Ht by (done || left).
    + rewrite decide_False, decide_False, decide_False by (rewrite ?list_elem_of_singleton; congruence). done.
  - apply alter_ext. intros l _. by rewrite filter_notin_one.
  - intros p. rewrite filter_notin_one, filter_cons, filter_nil, lookup_insert, !lookup_fmap.
    case_decide as E; [subst p; simpl; rewrite list_insert_end_perm, <- Permutation_cons_append|rewrite app_nil_r];
      by destruct (pxReadyTasksLists k !! _).
  - by rewrite filter_notin_one; unfold list_remove_task; rewrite filter_app.
  - by rewrite filter_notin_one.
  - rewrite orb_false_r, Z.add_0_r. f_equal. by rewrite <- !Hp.
Qed.

(** Between calls nothing is pended while the scheduler runs. *)
Definition quiet (k : kernel) : Prop :=
  0 <= uxSchedulerSuspended k < 4294967295 /\
  (uxSchedulerSuspended k = 0 -> xPendingReadyList k = [] /\ xPendedTicks k = 0).

(** Then suspending and resuming leaves what was done in between. *)
Lemma suspend_resume k k' :
  quiet k -> uxSchedulerSuspended k' = uxSchedulerSuspended (vTaskSuspendAll k) ->
  xPendingReadyList k' = xPendingReadyList k -> xPendedTicks k' = xPendedTicks k ->
  exists y, xTaskResumeAll k' = Some (y, with_suspended k' (uxSchedulerSuspended k)).
Proof.
  intros [Hr Hq] Hc Hp Ht. simpl in Hc. rewrite u32_small in Hc by lia. unfold xTaskResumeAll.
  rewrite Hc. destruct (Z.eqb_spec (uxSchedulerSuspended k + 1) 0); [lia|]. cbn [negb guard_c].
  replace (uxSchedulerSuspended k + 1 - 1) with (uxSchedulerSuspended k) by lia. cbn -[ready_pending].
  destruct (Z.eqb_spec (uxSchedulerSuspended k) 0) as [E|E]; [|eauto].
  destruct (0 <? _); simpl; [|eauto]. destruct (Hq E) as [H1 H2]. rewrite Hp, H1. cbn -[Z.ltb]. rewrite Ht, H2. simpl. eauto.
Qed.

Lemma woken_suspend k k' l v ws n :
  woken (with_suspended k n) k' l v ws -> woken k (with_suspended k' (uxSchedulerSuspended k)) l v ws.
Proof. intros [A1 A2 A3 A4 A5 A6 A7 A8 A9 A10 A11]. by split. Qed.

(** Putting the running task to sleep touches no other task and no event list. *)
Lemma prvAddCurrentTaskToDelayedList_frame k w :
  let k' := prvAddCurrentTaskToDelayedList k w true in
  event_lists k' = event_lists k /\ pxCurrentTCB k' = pxCurrentTCB k /\
  uxSchedulerSuspended k' = uxSchedulerSuspended k /\ xPendingReadyList k' = xPendingReadyList k /\
  xPendedTicks k' = xPendedTicks k /\
  (forall t, t <> pxCurrentTCB k -> tcbs k' !! t = tcbs k !! t) /\
  (forall tcb, tcbs k !! pxCurrentTCB k = Some tcb -> exists tcb',
     tcbs k' !! pxCurrentTCB k = Some tcb' /\ uxPriority tcb' = uxPriority tcb /\
     xEventContainer tcb' = xEventContainer tcb /\ xEventItemValue tcb' = xEventItemValue tcb /\
     ucDelayAborted tcb' = false /\ uxMutexesHeld tcb' = uxMutexesHeld tcb).
Proof.
  unfold prvAddCurrentTaskToDelayedList. destruct (_ && _); simpl;
    [|destruct (_ <? _); simpl; [|destruct (_ <? _); simpl]];
    (split_and!; try done;
     [intros t Ht; by rewrite !lookup_alter_ne by done
     |intros tcb Ht; eexists; rewrite ?lookup_alter_eq, Ht; split_and!; done]).
Qed.

(** ** A suspended kernel

    Task 7 runs; task 9 is due one tick before the counter wraps, task 10 one
    tick after; an interrupt has readied task 8 and three ticks are pended. *)
Definition demo_suspended : kernel :=
  mkKernel 4294967294 0 3 7 1 5 4294967295 false
    (list_to_map [(7, mkTCB 5 0 20 0 false 5 0); (8, mkTCB 9 100 16 xPendingReadyList_addr false 9 0);
                  (9, mkTCB 3 4294967295 22 0 false 3 0); (10, mkTCB 3 1 22 0 false 3 0)])
    {[5 := [7]]} [9] [10] [8] [8] ∅ ∅.

Lemma demo_suspended_inv : delay_inv demo_suspended.
Proof.
  split; try (apply (bool_decide_unpack _); vm_compute; exact I).
  all: unfold is_u32, portMAX_DELAY; repeat constructor; vm_compute; intuition discriminate.
Qed.

Example xTaskResumeAll_catches_up_witness :
  exists (y : bool) (k' : kernel), xTaskResumeAll demo_suspended = Some (y, k') /\ delay_inv k' /\
    uxSchedulerSuspended k' = 0 /\ xPendedTicks k' = 0 /\ xPendingReadyList k' = [] /\
    xTickCount k' = 1 /\
    (forall t, t ∈ [8] ->
       t ∈ default [] (pxReadyTasksLists k' !! priority demo_suspended t) /\ t ∉ delayed_tasks k').
Proof.
  apply (xTaskResumeAll_catches_up demo_suspended);
    [exact demo_suspended_inv | reflexivity | reflexivity | by split | apply (bool_decide_unpack _); vm_compute; exact I].
Defined.

Example resume_replays_ticks_witness :
  exists (k1 k2 : kernel) (y : bool),
    run_ticks 3 (vTaskSuspendAll (prvAddCurrentTaskToDelayedList demo_kernel 3 true)) = Some k1 /\
    xTickCount k1 = 4294967294 /\
    run_ticks 3 (prvAddCurrentTaskToDelayedList demo_kernel 3 true) = Some k2 /\
    xTaskResumeAll k1 = Some (y, lift_pending y 0 k2).
Proof.
  apply (resume_replays_ticks (prvAddCurrentTaskToDelayedList demo_kernel 3 true) 3);
    [|reflexivity..|lia].
  apply (prvAddCurrentTaskToDelayedList_inv demo_kernel 3 true (mkTCB 5 0 20 0 false 5 0));
    [exact demo_kernel_inv | reflexivity | apply (bool_decide_unpack _); vm_compute; exact I
    | unfold portMAX_DELAY; lia].
Defined.
