(* ===== verification/EventGroup.v ===== *)
(** * Event groups (FreeRTOS-Kernel/event_groups.c)

    All functions of event_groups.c that change state, on the kernel of Kernel.v
    and KernelSched.v.  A call that blocks is in two halves: up to the yield, and
    from when the task runs again; what the rest of the system does in between is
    a function on the group and the kernel. *)

From stdpp Require Import base list option gmap.
From Stdlib Require Import ZArith Lia.
From S2P Require Import Prelude FreeRTOSList Kernel KernelSched.

Definition eventCLEAR_EVENTS_ON_EXIT_BIT : Z := 2 ^ 24.
Definition eventUNBLOCKED_DUE_TO_BIT_SET : Z := 2 ^ 25.
Definition eventWAIT_FOR_ALL_BITS : Z := 2 ^ 26.
Definition eventEVENT_BITS_CONTROL_BYTES : Z := 4278190080.

Record EventGroup_t := mkEG {
  uxEventBits : Z;
  xTasksWaitingForBits : Z;        (* address of the event list *)
  ucStaticallyAllocated : bool }.

Definition set_bits (eg : EventGroup_t) (b : Z) : EventGroup_t :=
  mkEG b (xTasksWaitingForBits eg) (ucStaticallyAllocated eg).

(** No control bit is set. *)
Definition user_bits (b : Z) : bool := Z.land b eventEVENT_BITS_CONTROL_BYTES =? 0.

(** ** Creation *)

(** The offset of [xTasksWaitingForBits] in the structure. *)
Definition offset_TasksWaitingForBits : Z := 4.

Definition xEventGroupCreateStatic (pxEventGroupBuffer : Z) (k : kernel) : option (EventGroup_t * kernel) :=
  assert! negb (pxEventGroupBuffer =? NULL);
  let l := pxEventGroupBuffer + offset_TasksWaitingForBits in
  Some (mkEG 0 l true, with_event_lists k (<[l := []]> (event_lists k))).

(** [pxEventBits] is what [pvPortMalloc] returns. *)
Definition xEventGroupCreate (pxEventBits : Z) (k : kernel) : option (EventGroup_t * kernel) :=
  if pxEventBits =? NULL then None
  else let l := pxEventBits + offset_TasksWaitingForBits in
       Some (mkEG 0 l false, with_event_lists k (<[l := []]> (event_lists k))).

(** ** Setting and clearing bits *)

Definition prvTestWaitCondition (uxCurrentEventBits uxBitsToWaitFor : Z) (xWaitForAllBits : bool) : bool :=
  if negb xWaitForAllBits then negb (Z.land uxCurrentEventBits uxBitsToWaitFor =? 0)
  else Z.land uxCurrentEventBits uxBitsToWaitFor =? uxBitsToWaitFor.

(** The loop of [xEventGroupSetBits] over the waiting tasks: the next item is
    read before the current one may leave the list, so the loop sees the tasks
    that were waiting when it started.  Returns [uxBitsToClear]. *)
Fixpoint set_bits_loop (waiters : list Z) (bits uxBitsToClear : Z) (k : kernel) : option (Z * kernel) :=
  match waiters with
  | [] => Some (uxBitsToClear, k)
  | t :: waiters =>
      let value := event_value k t in
      let uxControlBits := Z.land value eventEVENT_BITS_CONTROL_BYTES in
      let uxBitsWaitedFor := Z.land value (u32 (Z.lnot eventEVENT_BITS_CONTROL_BYTES)) in
      let xMatchFound :=
        if Z.land uxControlBits eventWAIT_FOR_ALL_BITS =? 0
        then negb (Z.land uxBitsWaitedFor bits =? 0)
        else Z.land uxBitsWaitedFor bits =? uxBitsWaitedFor in
      if xMatchFound then
        let uxBitsToClear :=
          if negb (Z.land uxControlBits eventCLEAR_EVENTS_ON_EXIT_BIT =? 0)
          then Z.lor uxBitsToClear uxBitsWaitedFor else uxBitsToClear in
        let! k := vTaskRemoveFromUnorderedEventList k t (Z.lor bits eventUNBLOCKED_DUE_TO_BIT_SET) in
        set_bits_loop waiters bits uxBitsToClear k
      else set_bits_loop waiters bits uxBitsToClear k
  end.

Definition xEventGroupSetBits (eg : EventGroup_t) (k : kernel) (uxBitsToSet : Z) :
    option (Z * EventGroup_t * kernel) :=
  assert! user_bits uxBitsToSet;
  let k := vTaskSuspendAll k in
  let eg := set_bits eg (Z.lor (uxEventBits eg) uxBitsToSet) in
  let! (uxBitsToClear, k) :=
    set_bits_loop (default [] (event_lists k !! xTasksWaitingForBits eg)) (uxEventBits eg) 0 k in
  let eg := set_bits eg (clear_flag (uxEventBits eg) uxBitsToClear) in
  let! (_, k) := xTaskResumeAll k in
  Some (uxEventBits eg, eg, k).

Definition xEventGroupClearBits (eg : EventGroup_t) (uxBitsToClear : Z) : option (Z * EventGroup_t) :=
  assert! user_bits uxBitsToClear;
  Some (uxEventBits eg, set_bits eg (clear_flag (uxEventBits eg) uxBitsToClear)).

Definition xEventGroupGetBitsFromISR (eg : EventGroup_t) : Z := uxEventBits eg.

(** What the timer task runs for the FromISR variants. *)
Definition vEventGroupSetBitsCallback (eg : EventGroup_t) (k : kernel) (ulBitsToSet : Z) :
    option (EventGroup_t * kernel) :=
  let! (_, eg, k) := xEventGroupSetBits eg k ulBitsToSet in Some (eg, k).

Definition vEventGroupClearBitsCallback (eg : EventGroup_t) (ulBitsToClear : Z) : option EventGroup_t :=
  let! (_, eg) := xEventGroupClearBits eg ulBitsToClear in Some eg.

(** ** Waiting *)

(** The assertions of both waiting functions. *)
Definition wait_args_ok (k : kernel) (uxBitsToWaitFor xTicksToWait : Z) : bool :=
  user_bits uxBitsToWaitFor && negb (uxBitsToWaitFor =? 0) &&
  negb (negb (uxSchedulerSuspended k =? 0) && negb (xTicksToWait =? 0)).

(** Up to the yield: the value returned, or [None] if the task blocked. *)
Definition xEventGroupWaitBits_enter (eg : EventGroup_t) (k : kernel) (uxBitsToWaitFor : Z)
    (xClearOnExit xWaitForAllBits : bool) (xTicksToWait : Z) :
    option (option Z * EventGroup_t * kernel) :=
  assert! wait_args_ok k uxBitsToWaitFor xTicksToWait;
  let k := vTaskSuspendAll k in
  let uxCurrentEventBits := uxEventBits eg in
  let! (uxReturn, eg, k) :=
    (if prvTestWaitCondition uxCurrentEventBits uxBitsToWaitFor xWaitForAllBits then
       Some (Some uxCurrentEventBits,
             (if xClearOnExit then set_bits eg (clear_flag (uxEventBits eg) uxBitsToWaitFor) else eg), k)
     else if xTicksToWait =? 0 then Some (Some uxCurrentEventBits, eg, k)
     else
       let uxControlBits := if xClearOnExit then eventCLEAR_EVENTS_ON_EXIT_BIT else 0 in
       let uxControlBits := if xWaitForAllBits then Z.lor uxControlBits eventWAIT_FOR_ALL_BITS
                            else uxControlBits in
       let! k := vTaskPlaceOnUnorderedEventList k (xTasksWaitingForBits eg)
                   (Z.lor uxBitsToWaitFor uxControlBits) xTicksToWait in
       Some (None, eg, k)) in
  let! (_, k) := xTaskResumeAll k in
  Some (uxReturn, eg, k).

(** Once the task runs again. *)
Definition xEventGroupWaitBits_wake (eg : EventGroup_t) (k : kernel) (uxBitsToWaitFor : Z)
    (xClearOnExit xWaitForAllBits : bool) : Z * EventGroup_t * kernel :=
  let (uxReturn, k) := uxTaskResetEventItemValue k in
  let (uxReturn, eg) :=
    (if Z.land uxReturn eventUNBLOCKED_DUE_TO_BIT_SET =? 0 then
       let uxReturn := uxEventBits eg in
       (uxReturn,
        if prvTestWaitCondition uxReturn uxBitsToWaitFor xWaitForAllBits && xClearOnExit
        then set_bits eg (clear_flag (uxEventBits eg) uxBitsToWaitFor) else eg)
     else (uxReturn, eg)) in
  (Z.land uxReturn (u32 (Z.lnot eventEVENT_BITS_CONTROL_BYTES)), eg, k).

Definition xEventGroupWaitBits (env : EventGroup_t * kernel -> EventGroup_t * kernel)
    (eg : EventGroup_t) (k : kernel) (uxBitsToWaitFor : Z)
    (xClearOnExit xWaitForAllBits : bool) (xTicksToWait : Z) : option (Z * EventGroup_t * kernel) :=
  let! (r, eg, k) := xEventGroupWaitBits_enter eg k uxBitsToWaitFor xClearOnExit xWaitForAllBits
                       xTicksToWait in
  match r with
  | Some v => Some (v, eg, k)
  | None => let (eg, k) := env (eg, k) in
            Some (xEventGroupWaitBits_wake eg k uxBitsToWaitFor xClearOnExit xWaitForAllBits)
  end.

(** ** Rendezvous *)

Definition xEventGroupSync_enter (eg : EventGroup_t) (k : kernel) (uxBitsToSet uxBitsToWaitFor xTicksToWait : Z) :
    option (option Z * EventGroup_t * kernel) :=
  assert! wait_args_ok k uxBitsToWaitFor xTicksToWait;
  let k := vTaskSuspendAll k in
  let uxOriginalBitValue := uxEventBits eg in
  let! (_, eg, k) := xEventGroupSetBits eg k uxBitsToSet in
  let! (uxReturn, eg, k) :=
    (if Z.land (Z.lor uxOriginalBitValue uxBitsToSet) uxBitsToWaitFor =? uxBitsToWaitFor then
       Some (Some (Z.lor uxOriginalBitValue uxBitsToSet),
             set_bits eg (clear_flag (uxEventBits eg) uxBitsToWaitFor), k)
     else if negb (xTicksToWait =? 0) then
       let! k := vTaskPlaceOnUnorderedEventList k (xTasksWaitingForBits eg)
                   (Z.lor uxBitsToWaitFor (Z.lor eventCLEAR_EVENTS_ON_EXIT_BIT eventWAIT_FOR_ALL_BITS))
                   xTicksToWait in
       Some (None, eg, k)
     else Some (Some (uxEventBits eg), eg, k)) in
  let! (_, k) := xTaskResumeAll k in
  Some (uxReturn, eg, k).

Definition xEventGroupSync_wake (eg : EventGroup_t) (k : kernel) (uxBitsToWaitFor : Z) :
    Z * EventGroup_t * kernel :=
  let (uxReturn, k) := uxTaskResetEventItemValue k in
  let (uxReturn, eg) :=
    (if Z.land uxReturn eventUNBLOCKED_DUE_TO_BIT_SET =? 0 then
       let uxReturn := uxEventBits eg in
       (uxReturn,
        if Z.land uxReturn uxBitsToWaitFor =? uxBitsToWaitFor
        then set_bits eg (clear_flag (uxEventBits eg) uxBitsToWaitFor) else eg)
     else (uxReturn, eg)) in
  (Z.land uxReturn (u32 (Z.lnot eventEVENT_BITS_CONTROL_BYTES)), eg, k).

Definition xEventGroupSync (env : EventGroup_t * kernel -> EventGroup_t * kernel)
    (eg : EventGroup_t) (k : kernel) (uxBitsToSet uxBitsToWaitFor xTicksToWait : Z) :
    option (Z * EventGroup_t * kernel) :=
  let! (r, eg, k) := xEventGroupSync_enter eg k uxBitsToSet uxBitsToWaitFor xTicksToWait in
  match r with
  | Some v => Some (v, eg, k)
  | None => let (eg, k) := env (eg, k) in Some (xEventGroupSync_wake eg k uxBitsToWaitFor)
  end.

(** ** Deletion *)

(** The loop takes the first task each time; one leaves per iteration, so the
    length of the list is enough fuel. *)
Fixpoint delete_loop (fuel : nat) (l : Z) (k : kernel) : option kernel :=
  match default [] (event_lists k !! l) with
  | [] => Some k
  | t :: _ =>
      match fuel with
      | O => None
      | S fuel => let! k := vTaskRemoveFromUnorderedEventList k t eventUNBLOCKED_DUE_TO_BIT_SET in
                  delete_loop fuel l k
      end
  end.

(** Whether the group is freed. *)
Definition vEventGroupDelete (eg : EventGroup_t) (k : kernel) : option (bool * kernel) :=
  let k := vTaskSuspendAll k in
  let l := xTasksWaitingForBits eg in
  let! k := delete_loop (length (default [] (event_lists k !! l))) l k in
  let! (_, k) := xTaskResumeAll k in
  Some (negb (ucStaticallyAllocated eg), k).

(** The static buffer: the group itself, if it is static. *)
Definition xEventGroupGetStaticBuffer (eg : EventGroup_t) (pxEventBits : Z) : option Z :=
  if ucStaticallyAllocated eg then Some pxEventBits else None.


(** ** Event bits and control bits *)

(** Sets of user bits are the numbers below [2 ^ 24]. *)
Definition is_bits (b : Z) : Prop := 0 <= b < 2 ^ 24.

Lemma bits_mask b : is_bits b -> Z.land b 16777215 = b.
Proof.
  intros H. change 16777215 with (Z.ones 24). rewrite Z.land_ones by lia. by apply Z.mod_small.
Qed.

Lemma bits_land_control b c : is_bits b -> Z.land 16777215 c = 0 -> Z.land b c = 0.
Proof. intros H Hc. by rewrite <- (bits_mask b H), <- Z.land_assoc, Hc, Z.land_0_r. Qed.

Lemma bits_user b : is_bits b -> user_bits b = true.
Proof. intros H. unfold user_bits. by rewrite bits_land_control. Qed.

Lemma user_is_bits b : is_u32 b -> user_bits b = true -> is_bits b.
Proof.
  unfold is_u32, user_bits. intros H Hu. apply Z.eqb_eq in Hu.
  assert (b = Z.land b 16777215) as E.
  { rewrite <- (Z.lor_0_r (Z.land b 16777215)), <- Hu, <- Z.land_lor_distr_r.
    change (Z.lor 16777215 eventEVENT_BITS_CONTROL_BYTES) with (Z.ones 32).
    rewrite Z.land_ones by lia. rewrite Z.mod_small by (simpl; lia). done. }
  rewrite E. unfold is_bits. change 16777215 with (Z.ones 24). rewrite Z.land_ones by lia.
  apply Z.mod_pos_bound. lia.
Qed.

Lemma land_mask_bits x : 0 <= x -> is_bits (Z.land x 16777215).
Proof.
  intros Hx. unfold is_bits. change 16777215 with (Z.ones 24). rewrite Z.land_ones by lia.
  apply Z.mod_pos_bound. lia.
Qed.

Lemma lor_bits a b : is_bits a -> is_bits b -> is_bits (Z.lor a b).
Proof.
  intros Ha Hb. rewrite <- (bits_mask a Ha), <- (bits_mask b Hb), <- Z.land_lor_distr_l.
  apply land_mask_bits. apply Z.lor_nonneg. unfold is_bits in *. lia.
Qed.

Lemma clear_flag_bits a b : is_bits a -> is_bits (clear_flag a b).
Proof.
  intros Ha. unfold clear_flag. rewrite <- (bits_mask a Ha), <- Z.land_assoc, (Z.land_comm 16777215),
    Z.land_assoc. apply land_mask_bits. apply Z.land_nonneg. unfold is_bits in Ha. lia.
Qed.

(** The user part and the flags of a value with control bits. *)
Lemma value_user b c : is_bits b -> Z.land c 16777215 = 0 -> Z.land (Z.lor b c) 16777215 = b.
Proof. intros Hb Hc. by rewrite Z.land_lor_distr_l, Hc, Z.lor_0_r, bits_mask. Qed.

Lemma value_control b c m : is_bits b -> Z.land 16777215 m = 0 -> Z.land (Z.lor b c) m = Z.land c m.
Proof. intros Hb Hm. by rewrite Z.land_lor_distr_l, (bits_land_control b m). Qed.

#[export] Hint Resolve bits_user lor_bits clear_flag_bits : event.

(** ** The waiting tasks *)

(** A task waiting for the bits [wt_bits], all of them or any, which it will
    clear or not. *)
Record Waiter := mkWaiter {
  wt_task : Z;
  wt_bits : Z;
  wt_clear : bool;
  wt_all : bool }.

(** How [xEventGroupWaitBits] packs this in the task's event item. *)
Definition wait_control (w : Waiter) : Z :=
  Z.lor (Z.lor (if wt_clear w then eventCLEAR_EVENTS_ON_EXIT_BIT else 0)
               (if wt_all w then eventWAIT_FOR_ALL_BITS else 0)) taskEVENT_LIST_ITEM_VALUE_IN_USE.

Definition waiting (ev : Z) (k : kernel) (w : Waiter) : Prop :=
  is_bits (wt_bits w) /\
  exists tcb, tcbs k !! wt_task w = Some tcb /\ xEventContainer tcb = ev /\
    xEventItemValue tcb = Z.lor (wt_bits w) (wait_control w).

(** The group [eg] in the kernel [k], with the waiting tasks [ws]. *)
Record group_ok (eg : EventGroup_t) (k : kernel) (ws : list Waiter) : Prop := {
  gr_bits : is_bits (uxEventBits eg);
  gr_list : event_lists k !! xTasksWaitingForBits eg = Some (map wt_task ws);
  gr_nodup : NoDup (map wt_task ws);
  gr_waiting : Forall (waiting (xTasksWaitingForBits eg) k) ws;
  gr_quiet : quiet k }.

Definition satisfied (bits : Z) (w : Waiter) : bool :=
  prvTestWaitCondition bits (wt_bits w) (wt_all w).

(** What a satisfied waiter consumes. *)
Definition consumed (w : Waiter) : Z := if wt_clear w then wt_bits w else 0.
Definition all_consumed (ws : list Waiter) : Z := foldr (fun w => Z.lor (consumed w)) 0 ws.

Lemma waiting_value ev k w : waiting ev k w ->
  let value := event_value k (wt_task w) in
  let control := Z.land value eventEVENT_BITS_CONTROL_BYTES in
  Z.land value (u32 (Z.lnot eventEVENT_BITS_CONTROL_BYTES)) = wt_bits w /\
  (Z.land control eventWAIT_FOR_ALL_BITS =? 0) = negb (wt_all w) /\
  (Z.land control eventCLEAR_EVENTS_ON_EXIT_BIT =? 0) = negb (wt_clear w).
Proof.
  intros (Hb & tcb & Ht & _ & Hv). cbv zeta. unfold event_value. rewrite Ht. simpl from_option. rewrite Hv.
  change (u32 (Z.lnot eventEVENT_BITS_CONTROL_BYTES)) with 16777215.
  rewrite <- !Z.land_assoc, value_user, !value_control by
    (first [done | unfold wait_control; by destruct (wt_clear w), (wt_all w)]).
  unfold wait_control. by destruct (wt_clear w), (wt_all w).
Qed.

(** The value left in the event item of a woken task. *)
Definition woken_value (bits : Z) : Z :=
  Z.lor (Z.lor bits eventUNBLOCKED_DUE_TO_BIT_SET) taskEVENT_LIST_ITEM_VALUE_IN_USE.

Lemma woken_waiting ev k k' v ts w : woken k k' ev v ts ->
  wt_task w ∉ ts -> waiting ev k w -> waiting ev k' w.
Proof.
  intros H Hn (Hb & tcb & Ht & Hc). split; [done|]. exists tcb.
  by rewrite (wk_tcbs _ _ _ _ _ H), decide_False.
Qed.

Lemma in_map_task w ws : w ∈ ws -> wt_task w ∈ map wt_task ws.
Proof. apply (list_elem_of_fmap_2 wt_task). Qed.

Lemma map_task_in t ws : t ∈ map wt_task ws -> exists w, t = wt_task w /\ w ∈ ws.
Proof. apply (list_elem_of_fmap wt_task). Qed.

Lemma in_map_filter (P : Waiter -> Prop) `{!forall w, Decision (P w)} t ws :
  t ∈ map wt_task (filter P ws) -> t ∈ map wt_task ws.
Proof.
  intros Hin. apply map_task_in in Hin as (w & -> & Hw). apply list_elem_of_filter in Hw as [_ Hw].
  by apply in_map_task.
Qed.

(** The loop wakes exactly the satisfied waiters. *)
Lemma set_bits_loop_spec ev bits ws : forall k c,
  uxSchedulerSuspended k <> 0 -> NoDup (map wt_task ws) -> Forall (waiting ev k) ws ->
  let sat := filter (satisfied bits) ws in
  exists k', set_bits_loop (map wt_task ws) bits c k = Some (Z.lor c (all_consumed sat), k') /\
    woken k k' ev (woken_value bits) (map wt_task sat).
Proof.
  induction ws as [|w ws IH]; intros k c Hs Hnd Hw.
  - exists k. simpl. rewrite Z.lor_0_r. split; [done|]. apply woken_nil.
  - cbv zeta. simpl in Hnd. apply NoDup_cons in Hnd as [Hn Hnd]. apply Forall_cons in Hw as [Hw Hws].
    destruct (waiting_value _ _ _ Hw) as (E1 & E2 & E3). cbn [map set_bits_loop].
    rewrite E1, E2, E3, negb_involutive, (Z.land_comm (wt_bits w)).
    assert ((if negb (wt_all w) then negb (Z.land bits (wt_bits w) =? 0)
             else Z.land bits (wt_bits w) =? wt_bits w) = satisfied bits w) as -> by done.
    rewrite filter_cons. destruct (satisfied bits w).
    + rewrite decide_True by done. destruct Hw as (Hb & tcb & Ht & Hc & Hv).
      destruct (vTaskRemoveFromUnorderedEventList_woken k (wt_task w)
                  (Z.lor bits eventUNBLOCKED_DUE_TO_BIT_SET) tcb Hs Ht) as (k1 & Hrun & Hwk).
      rewrite Hrun, Hc in *.
      edestruct (IH k1) as (k' & Hloop & Hwk').
      { by rewrite (wk_count _ _ _ _ _ Hwk). }
      { done. }
      { rewrite Forall_forall in Hws |- *. intros u Hu. eapply woken_waiting; [exact Hwk| |by apply Hws].
        rewrite list_elem_of_singleton. intros E. apply Hn. rewrite <- E. apply in_map_task. done. }
      exists k'. rewrite Hloop. split.
      * assert (forall l, all_consumed (w :: l) = Z.lor (consumed w) (all_consumed l)) as -> by done.
        unfold consumed. destruct (wt_clear w); cbn [negb].
        -- by rewrite Z.lor_assoc.
        -- by rewrite Z.lor_0_l.
      * simpl. eapply woken_cons; [|done|done]. intros Hin. apply Hn.
        by eapply in_map_filter.
    + rewrite decide_False by naive_solver. by apply IH.
Qed.

Lemma filter_unsatisfied bits ws : NoDup (map wt_task ws) ->
  filter (.∉ map wt_task (filter (satisfied bits) ws)) (map wt_task ws) =
  map wt_task (filter (fun w => ~ satisfied bits w) ws).
Proof.
  intros Hnd.
  assert (forall l, incl l ws -> filter (.∉ map wt_task (filter (satisfied bits) ws)) (map wt_task l) =
    map wt_task (filter (fun w => ~ satisfied bits w) l)) as H; [|apply H, incl_refl].
  induction l as [|w l IH]; intros Hl; [done|].
  assert (wt_task w ∈ map wt_task (filter (satisfied bits) ws) <-> satisfied bits w) as E.
  { assert (w ∈ ws) as Hw by (apply list_elem_of_In, Hl; by left). split.
    - intros Hin. apply map_task_in in Hin as (u & Eu & Hu). apply list_elem_of_filter in Hu as [Hu Hin].
      replace w with u; [done|]. clear -Eu Hin Hw Hnd.
      induction ws as [|x ws IH]; [by apply elem_of_nil in Hw|]. simpl in Hnd.
      apply NoDup_cons in Hnd as [Hx Hnd]. apply elem_of_cons in Hin, Hw.
      destruct Hin as [->|Hin], Hw as [->|Hw]; [done| | |by apply IH].
      + exfalso. apply Hx. rewrite <- Eu. by apply in_map_task.
      + exfalso. apply Hx. rewrite Eu. by apply in_map_task.
    - intros Hs. apply in_map_task. by apply list_elem_of_filter. }
  cbn [map]. rewrite !filter_cons. rewrite IH by (intros x Hx; apply Hl, in_cons, Hx).
  destruct (decide (satisfied bits w)) as [Hs|Hs].
  - rewrite !decide_False by tauto. done.
  - rewrite !decide_True by tauto. done.
Qed.

(** [xEventGroupSetBits] in terms of the waiters. *)
Lemma xEventGroupSetBits_spec eg k ws b : group_ok eg k ws -> is_bits b ->
  let bits := Z.lor (uxEventBits eg) b in
  let sat := filter (satisfied bits) ws in
  let bits' := clear_flag bits (all_consumed sat) in
  exists k', xEventGroupSetBits eg k b = Some (bits', set_bits eg bits', k') /\
    woken k k' (xTasksWaitingForBits eg) (woken_value bits) (map wt_task sat) /\
    group_ok (set_bits eg bits') k' (filter (fun w => ~ satisfied bits w) ws).
Proof.
  intros [Hb Hl Hnd Hw Hq] Hbits bits sat bits'. unfold xEventGroupSetBits.
  rewrite bits_user by done. cbn [guard_c].
  assert (Forall (waiting (xTasksWaitingForBits eg) (vTaskSuspendAll k)) ws) as Hw1 by done.
  destruct (set_bits_loop_spec (xTasksWaitingForBits eg) bits ws (vTaskSuspendAll k) 0) as (k1 & Hrun & Hwk);
    [|done..|].
  { simpl. destruct Hq. rewrite u32_small; lia. }
  cbn [set_bits uxEventBits xTasksWaitingForBits]. change (event_lists (vTaskSuspendAll k)) with (event_lists k).
  rewrite Hl. simpl (default _ _). fold bits. rewrite Hrun, Z.lor_0_l. fold sat bits'.
  destruct (suspend_resume k k1) as (y & Hres); [done|by rewrite (wk_count _ _ _ _ _ Hwk)
    |by rewrite (wk_pending _ _ _ _ _ Hwk)|by rewrite (wk_pended _ _ _ _ _ Hwk)|].
  rewrite Hres. eexists. split; [reflexivity|].
  apply woken_suspend in Hwk. split; [done|]. split; cbn [set_bits uxEventBits xTasksWaitingForBits].
  - apply clear_flag_bits. by apply lor_bits.
  - rewrite (wk_lists _ _ _ _ _ Hwk), lookup_alter_eq, Hl. simpl. f_equal. by apply filter_unsatisfied.
  - clear -Hnd. induction ws as [|w ws IH]; [done|]. simpl in Hnd. apply NoDup_cons in Hnd as [? ?].
    rewrite filter_cons. case_decide; [|auto]. simpl. constructor; [|auto].
    intros Hin. apply in_map_filter in Hin. done.
  - rewrite Forall_forall in Hw |- *. intros w Hin. apply list_elem_of_filter in Hin as [Hs Hin].
    eapply woken_waiting; [exact Hwk| |by apply Hw].
    assert (wt_task w ∈ filter (.∉ map wt_task sat) (map wt_task ws)) as Hf.
    { unfold sat. rewrite filter_unsatisfied by done. apply in_map_task. by apply list_elem_of_filter. }
    by apply list_elem_of_filter in Hf as [? _].
  - destruct Hq as [Hr Hq]. split; [done|]. cbn [uxSchedulerSuspended with_suspended]. intros E.
    destruct (Hq E). by rewrite (wk_pending _ _ _ _ _ Hwk), (wk_pended _ _ _ _ _ Hwk).
Qed.

(** A woken task returns the bits that satisfied it, whatever they are now. *)
Lemma woken_wake bits k t : is_bits bits -> event_value k t = woken_value bits ->
  forall eg w c a, exists k',
    xEventGroupWaitBits_wake eg (with_current k t) w c a = (bits, eg, k') /\
    xEventGroupSync_wake eg (with_current k t) w = (bits, eg, k').
Proof.
  intros Hb Hv eg w c a. unfold xEventGroupWaitBits_wake, xEventGroupSync_wake, uxTaskResetEventItemValue.
  change (event_value (with_current k t) (pxCurrentTCB (with_current k t))) with (event_value k t).
  rewrite Hv. unfold woken_value. rewrite <- Z.lor_assoc, value_control by done.
  change (Z.land (Z.lor eventUNBLOCKED_DUE_TO_BIT_SET taskEVENT_LIST_ITEM_VALUE_IN_USE)
    eventUNBLOCKED_DUE_TO_BIT_SET =? 0) with false. cbv iota.
  change (u32 (Z.lnot eventEVENT_BITS_CONTROL_BYTES)) with 16777215. rewrite value_user by done. eauto.
Qed.

(** What waking does to each task that was waiting. *)
Lemma woken_satisfied ev k k' bits ws w : is_bits bits -> NoDup (map wt_task ws) ->
  Forall (waiting ev k) ws ->
  woken k k' ev (woken_value bits) (map wt_task (filter (satisfied bits) ws)) -> w ∈ ws ->
  if satisfied bits w then
    wt_task w ∈ default [] (pxReadyTasksLists k' !! priority k (wt_task w)) /\
    wt_task w ∉ delayed_tasks k' /\ event_value k' (wt_task w) = woken_value bits
  else tcbs k' !! wt_task w = tcbs k !! wt_task w /\
    (wt_task w ∈ delayed_tasks k -> wt_task w ∈ delayed_tasks k').
Proof.
  intros Hb Hnd Hw Hwk Hin. rewrite Forall_forall in Hw. destruct (Hw w Hin) as (_ & tcb & Ht & _ & _).
  destruct (satisfied bits w) eqn:Es.
  - assert (wt_task w ∈ map wt_task (filter (satisfied bits) ws)) as Hs.
    { apply in_map_task, list_elem_of_filter. by rewrite Es. }
    split_and!.
    + rewrite (wk_ready _ _ _ _ _ Hwk), elem_of_app. right. by apply list_elem_of_filter.
    + rewrite (wk_delayed _ _ _ _ _ Hwk), list_elem_of_filter. tauto.
    + unfold event_value. by rewrite (wk_tcbs _ _ _ _ _ Hwk), decide_True, Ht.
  - assert (wt_task w ∉ map wt_task (filter (satisfied bits) ws)) as Hs.
    { assert (wt_task w ∈ map wt_task (filter (fun w => ~ satisfied bits w) ws)) as H.
      { apply in_map_task, list_elem_of_filter. rewrite Es. split; [intros []|done]. }
      rewrite <- filter_unsatisfied in H by done. by apply list_elem_of_filter in H as [? _]. }
    split.
    + by rewrite (wk_tcbs _ _ _ _ _ Hwk), decide_False.
    + intros Hd. by rewrite (wk_delayed _ _ _ _ _ Hwk), list_elem_of_filter.
Qed.

(** C32: setting bits wakes exactly the tasks whose wait the new bits satisfy, and
    each of them, whenever it runs, returns these bits; the others wait on in
    their order; then the bits asked to be cleared by the woken tasks are. *)
Theorem xEventGroupSetBits_wakes (eg : EventGroup_t) (k : kernel) (ws : list Waiter) (b : Z) :
  group_ok eg k ws -> is_bits b ->
  let bits := Z.lor (uxEventBits eg) b in
  let eg' := set_bits eg (clear_flag bits (all_consumed (filter (satisfied bits) ws))) in
  exists k' : kernel, xEventGroupSetBits eg k b = Some (uxEventBits eg', eg', k') /\
    group_ok eg' k' (filter (fun w => ~ satisfied bits w) ws) /\
    forall w, w ∈ ws ->
      if satisfied bits w then
        wt_task w ∈ default [] (pxReadyTasksLists k' !! priority k (wt_task w)) /\
        wt_task w ∉ delayed_tasks k' /\
        forall eg2, exists k2, xEventGroupWaitBits_wake eg2 (with_current k' (wt_task w))
                       (wt_bits w) (wt_clear w) (wt_all w) = (bits, eg2, k2)
      else tcbs k' !! wt_task w = tcbs k !! wt_task w /\
        (wt_task w ∈ delayed_tasks k -> wt_task w ∈ delayed_tasks k').
Proof.
  intros Hg Hb bits eg'. destruct (xEventGroupSetBits_spec eg k ws b Hg Hb) as (k' & Hrun & Hwk & Hg').
  exists k'. split_and!; [done..|]. intros w Hin. destruct Hg as [G1 G2 G3 G4 G5].
  assert (is_bits bits) as Hbits by (by apply lor_bits).
  pose proof (woken_satisfied _ _ _ _ _ w Hbits G3 G4 Hwk Hin) as H. fold bits in H.
  destruct (satisfied bits w); [|done]. destruct H as (H1 & H2 & H3). split_and!; [done..|].
  intros eg2. destruct (woken_wake bits k' (wt_task w) Hbits H3 eg2 (wt_bits w) (wt_clear w) (wt_all w))
    as (k2 & H & _). by exists k2.
Qed.

(** ** Blocking *)

(** The kernel [k'] differs from [k] in the running task and the lists only. *)
Record others_same (k k' : kernel) : Prop := {
  os_current : pxCurrentTCB k' = pxCurrentTCB k;
  os_count : uxSchedulerSuspended k' = uxSchedulerSuspended k;
  os_tcbs : forall t, t <> pxCurrentTCB k -> tcbs k' !! t = tcbs k !! t;
  os_priority : priority k' (pxCurrentTCB k) = priority k (pxCurrentTCB k);
  os_tcb : is_Some (tcbs k !! pxCurrentTCB k) -> is_Some (tcbs k' !! pxCurrentTCB k) }.

(** A task that blocks joins the waiters at the end. *)
Lemma block_spec eg k ws w value ticks :
  group_ok eg k ws -> is_bits (wt_bits w) -> wt_task w = pxCurrentTCB k ->
  wt_task w ∉ map wt_task ws -> is_Some (tcbs k !! wt_task w) ->
  Z.lor value taskEVENT_LIST_ITEM_VALUE_IN_USE = Z.lor (wt_bits w) (wait_control w) ->
  exists k1 y k', vTaskPlaceOnUnorderedEventList (vTaskSuspendAll k) (xTasksWaitingForBits eg) value ticks
      = Some k1 /\ xTaskResumeAll k1 = Some (y, k') /\ group_ok eg k' (ws ++ [w]) /\ others_same k k'.
Proof.
  intros [G1 G2 G3 G4 G5] Hb Hc Hn [tcb Ht] Hv. rewrite Hc in Ht, Hn.
  unfold vTaskPlaceOnUnorderedEventList.
  assert (uxSchedulerSuspended (vTaskSuspendAll k) = uxSchedulerSuspended k + 1) as Es
    by (destruct G5; simpl; rewrite u32_small; lia).
  rewrite Es. destruct (Z.eqb_spec (uxSchedulerSuspended k + 1) 0); [destruct G5; lia|]. cbn [negb guard_c].
  rewrite Hv. cbv zeta.
  change (event_lists (vTaskSuspendAll k)) with (event_lists k). rewrite G2. simpl (default _ _).
  match goal with |- context [prvAddCurrentTaskToDelayedList ?a ticks true] => set (k0 := a) end.
  change (pxCurrentTCB (vTaskSuspendAll k)) with (pxCurrentTCB k) in k0.
  set (tcb0 := set_event_container (xTasksWaitingForBits eg)
    (set_event_value (Z.lor (wt_bits w) (wait_control w)) tcb)).
  assert (tcbs k0 !! pxCurrentTCB k0 = Some tcb0) as Ht0.
  { simpl. by rewrite !lookup_alter_eq, Ht. }
  destruct (prvAddCurrentTaskToDelayedList_frame k0 ticks) as (F1 & F2 & F3 & F4 & F5 & F6 & F7).
  destruct (F7 tcb0 Ht0) as (tcb' & Ht' & Hp' & Hc' & Hv' & _).
  set (k1 := prvAddCurrentTaskToDelayedList k0 ticks true) in *.
  destruct (suspend_resume k k1) as (y & Hres); [done|by rewrite F3|by rewrite F4|by rewrite F5|].
  exists k1, y. eexists. split; [done|]. split; [exact Hres|].
  assert (forall t, t <> pxCurrentTCB k -> tcbs k1 !! t = tcbs k !! t) as Hoth.
  { intros t Hne. rewrite F6 by done. simpl. by rewrite !lookup_alter_ne. }
  split; [split|split]; cbn [event_lists tcbs with_suspended pxCurrentTCB]; try done.
  - rewrite F1. simpl. rewrite lookup_insert_eq. unfold vTaskSuspendAll. simpl. rewrite map_app. simpl. by rewrite Hc.
  - rewrite map_app. apply NoDup_app. split_and!; [done| |apply NoDup_singleton].
    intros t Hin. cbn [map]. rewrite Hc, list_elem_of_singleton. by intros ->.
  - apply Forall_app. split.
    + rewrite Forall_forall in G4 |- *. intros u Hu. destruct (G4 u Hu) as (? & c & ? & ?).
      split; [done|]. exists c. simpl. rewrite Hoth; [done|]. intros E. apply Hn. rewrite <- E.
      by apply in_map_task.
    + apply Forall_singleton. split; [done|]. exists tcb'. simpl. rewrite Hc. split; [exact Ht'|].
      by rewrite Hc', Hv'.
  - destruct G5 as [Hr Hq]. split; [done|]. simpl. intros E. destruct (Hq E). by rewrite F4, F5.
  - unfold priority. simpl. change (pxCurrentTCB k0) with (pxCurrentTCB k) in Ht'.
    by rewrite Ht', Ht.
Qed.

(** With no waiter satisfied only the bits change. *)
Lemma xEventGroupSetBits_none eg k ws b : group_ok eg k ws -> is_bits b ->
  filter (satisfied (Z.lor (uxEventBits eg) b)) ws = [] ->
  xEventGroupSetBits eg k b =
    Some (Z.lor (uxEventBits eg) b, set_bits eg (Z.lor (uxEventBits eg) b), k).
Proof.
  intros [G1 G2 G3 G4 G5] Hb Hf. unfold xEventGroupSetBits. rewrite bits_user by done. cbn [guard_c].
  set (bits := Z.lor (uxEventBits eg) b) in *.
  assert (forall ws c, filter (satisfied bits) ws = [] -> Forall (waiting (xTasksWaitingForBits eg) k) ws ->
    set_bits_loop (map wt_task ws) bits c (vTaskSuspendAll k) = Some (c, vTaskSuspendAll k)) as Hloop.
  { clear. induction ws as [|w ws IH]; intros c Hf Hw; [done|]. apply Forall_cons in Hw as [Hw Hws].
    destruct (waiting_value _ (vTaskSuspendAll k) _ Hw) as (E1 & E2 & E3). cbn [map set_bits_loop].
    rewrite E1, E2, (Z.land_comm (wt_bits w)).
    assert ((if negb (wt_all w) then negb (Z.land bits (wt_bits w) =? 0)
             else Z.land bits (wt_bits w) =? wt_bits w) = satisfied bits w) as -> by done.
    rewrite filter_cons in Hf. destruct (satisfied bits w); simpl in Hf; [done|]. by apply IH. }
  cbn [set_bits uxEventBits xTasksWaitingForBits]. change (event_lists (vTaskSuspendAll k)) with (event_lists k).
  rewrite G2. simpl (default _ _). fold bits. rewrite Hloop by done.
  destruct (suspend_resume k (vTaskSuspendAll k)) as (y & ->); [done..|].
  assert (clear_flag bits 0 = bits) as ->.
  { unfold clear_flag. change (u32 (Z.lnot 0)) with (Z.ones 32). rewrite Z.land_ones by lia.
    apply Z.mod_small. assert (is_bits bits) as Hbits by (by apply lor_bits).
    unfold is_bits in Hbits. lia. }
  do 2 f_equal. by destruct k.
Qed.

Lemma clear_flag_twice x a b : Z.land a b = a -> clear_flag (clear_flag x a) b = clear_flag x b.
Proof.
  intros Hab. unfold clear_flag, u32. change 4294967296 with (2 ^ 32).
  apply Z.bits_inj'. intros i Hi. rewrite !Z.land_spec.
  destruct (Z.lt_ge_cases i 32).
  - rewrite !Z.mod_pow2_bits_low, !Z.lnot_spec by lia. rewrite <- Hab, Z.land_spec.
    by destruct (Z.testbit x i), (Z.testbit a i), (Z.testbit b i).
  - rewrite (Z.mod_pow2_bits_high (Z.lnot b)) by lia. by rewrite !andb_false_r.
Qed.

(** ** Rendezvous, waiting and deletion *)

Definition sync_waiter (W t : Z) : Waiter := mkWaiter t W true true.

Lemma sync_satisfied bits W ts :
  filter (satisfied bits) (map (sync_waiter W) ts) =
  if Z.land bits W =? W then map (sync_waiter W) ts else [].
Proof.
  induction ts as [|t ts IH]; simpl; [by destruct (_ =? _)|].
  rewrite filter_cons, IH. unfold satisfied, prvTestWaitCondition. simpl. by destruct (_ =? _).
Qed.

Lemma sync_consumed W ts :
  all_consumed (map (sync_waiter W) ts) = match ts with [] => 0 | _ => W end.
Proof.
  induction ts as [|t ts IH]; [done|].
  change (Z.lor W (all_consumed (map (sync_waiter W) ts)) = W). rewrite IH.
  destruct ts; [by rewrite Z.lor_0_r|apply Z.lor_diag].
Qed.

Lemma group_ok_suspend eg k ws : group_ok eg k ws -> uxSchedulerSuspended k = 0 ->
  group_ok eg (vTaskSuspendAll k) ws.
Proof.
  intros [G1 G2 G3 G4 G5] Hs. split; try done. split; simpl; rewrite Hs; [by split|done].
Qed.

Lemma sync_args_ok k W ticks : is_bits W -> W <> 0 -> uxSchedulerSuspended k = 0 ->
  wait_args_ok k W ticks = true.
Proof.
  intros Hb Hz Hs. unfold wait_args_ok. rewrite bits_user, Hs by done.
  by destruct (Z.eqb_spec W 0).
Qed.

Lemma sync_unsatisfied bits W ts : Z.land bits W = W ->
  filter (fun w => ~ satisfied bits w) (map (sync_waiter W) ts) = [].
Proof.
  intros E. induction ts as [|t ts IH]; [done|]. simpl. rewrite filter_cons, IH.
  unfold satisfied, prvTestWaitCondition. simpl. by rewrite E, Z.eqb_refl, decide_False by (intros H; by apply H).
Qed.

(** [xEventGroupWaitBits] up to the yield, on every branch: the wait is over at
    once, or not granted any time, or the task joins the waiters. *)
Lemma xEventGroupWaitBits_enter_spec eg k ws W c a ticks tcb :
  group_ok eg k ws -> is_bits W -> W <> 0 -> 0 <= ticks -> uxSchedulerSuspended k = 0 ->
  tcbs k !! pxCurrentTCB k = Some tcb -> pxCurrentTCB k ∉ map wt_task ws ->
  let bits := uxEventBits eg in
  exists k', xEventGroupWaitBits_enter eg k W c a ticks =
    (if prvTestWaitCondition bits W a then
       Some (Some bits, (if c then set_bits eg (clear_flag bits W) else eg), k')
     else if ticks =? 0 then Some (Some bits, eg, k')
     else Some (None, eg, k')) /\
    (if prvTestWaitCondition bits W a || (ticks =? 0) then k' = k
     else group_ok eg k' (ws ++ [mkWaiter (pxCurrentTCB k) W c a]) /\ others_same k k').
Proof.
  intros Hg HW Hz Ht Hs Htcb Hn bits. unfold xEventGroupWaitBits_enter.
  rewrite sync_args_ok by done. cbn [guard_c]. fold bits.
  assert (exists y, xTaskResumeAll (vTaskSuspendAll k) = Some (y, k)) as (y & Hy).
  { destruct (suspend_resume k (vTaskSuspendAll k)) as (y & H); [by destruct Hg|done..|].
    exists y. rewrite H. by destruct k. }
  destruct (prvTestWaitCondition bits W a); [rewrite Hy; by exists k|].
  destruct (ticks =? 0); [rewrite Hy; by exists k|].
  destruct (block_spec eg k ws (mkWaiter (pxCurrentTCB k) W c a)
    (Z.lor W (if a then Z.lor (if c then eventCLEAR_EVENTS_ON_EXIT_BIT else 0) eventWAIT_FOR_ALL_BITS
              else if c then eventCLEAR_EVENTS_ON_EXIT_BIT else 0)) ticks Hg)
    as (k1 & y1 & k' & Hp & Hr & Hg2 & Ho); [done..| |].
  { rewrite <- Z.lor_assoc. by destruct a, c. }
  rewrite Hp, Hr. by exists k'.
Qed.

(** Deleting the group wakes every waiter with no bits. *)
Lemma delete_loop_spec ev ws : forall k, uxSchedulerSuspended k <> 0 ->
  event_lists k !! ev = Some (map wt_task ws) -> NoDup (map wt_task ws) -> Forall (waiting ev k) ws ->
  exists k', delete_loop (length ws) ev k = Some k' /\
    woken k k' ev (woken_value 0) (map wt_task ws).
Proof.
  induction ws as [|w ws IH]; intros k Hs Hl Hnd Hw.
  - exists k. simpl. rewrite Hl. split; [done|]. apply woken_nil.
  - simpl in Hnd. apply NoDup_cons in Hnd as [Hn Hnd]. apply Forall_cons in Hw as [Hw Hws].
    destruct Hw as (_ & tcb & Ht & Hc & _).
    destruct (vTaskRemoveFromUnorderedEventList_woken k (wt_task w) eventUNBLOCKED_DUE_TO_BIT_SET tcb Hs Ht)
      as (k1 & Hrun & Hwk). rewrite Hc in Hwk.
    cbn [length delete_loop]. rewrite Hl. simpl (default _ _). cbn [map]. rewrite Hrun.
    destruct (IH k1) as (k' & Hloop & Hwk').
    + by rewrite (wk_count _ _ _ _ _ Hwk).
    + rewrite (wk_lists _ _ _ _ _ Hwk), lookup_alter_eq, Hl.
      simpl (_ <$> _). rewrite filter_notin_one. cbn [map].
      by rewrite list_remove_task_cons, list_remove_task_absent.
    + done.
    + rewrite Forall_forall in Hws |- *. intros u Hu. eapply woken_waiting; [exact Hwk| |by apply Hws].
      rewrite list_elem_of_singleton. intros E. apply Hn. rewrite <- E. by apply in_map_task.
    + exists k'. split; [done|]. by eapply woken_cons.
Qed.

(** Not all have arrived: the task joins those waiting. *)
Lemma sync_blocks eg k W ts b ticks :
  group_ok eg k (map (sync_waiter W) ts) -> is_bits W -> W <> 0 -> is_bits b -> 0 < ticks ->
  uxSchedulerSuspended k = 0 -> pxCurrentTCB k ∉ ts -> is_Some (tcbs k !! pxCurrentTCB k) ->
  Z.land (Z.lor (uxEventBits eg) b) W <> W ->
  exists k', xEventGroupSync_enter eg k b W ticks =
      Some (None, set_bits eg (Z.lor (uxEventBits eg) b), k') /\
    group_ok (set_bits eg (Z.lor (uxEventBits eg) b)) k' (map (sync_waiter W) (ts ++ [pxCurrentTCB k])) /\
    others_same k k'.
Proof.
  intros Hg HW Hz Hb Ht Hs Hn Htcb Hne. unfold xEventGroupSync_enter.
  rewrite sync_args_ok by done. cbn [guard_c].
  assert (Z.land (Z.lor (uxEventBits eg) b) W =? W = false) as E by (by apply Z.eqb_neq).
  rewrite (xEventGroupSetBits_none eg (vTaskSuspendAll k) (map (sync_waiter W) ts)); [|by apply group_ok_suspend|done|].
  2:{ by rewrite sync_satisfied, E. }
  rewrite E. destruct (Z.eqb_spec ticks 0); [lia|]. cbn [negb].
  set (eg' := set_bits eg (Z.lor (uxEventBits eg) b)).
  assert (group_ok eg' k (map (sync_waiter W) ts)) as Hg'.
  { destruct Hg as [G1 G2 G3 G4 G5]. split; try done. by apply lor_bits. }
  assert (map wt_task (map (sync_waiter W) ts) = ts) as Em by (rewrite map_map; apply map_id).
  destruct (block_spec eg' k _ (sync_waiter W (pxCurrentTCB k))
    (Z.lor W (Z.lor eventCLEAR_EVENTS_ON_EXIT_BIT eventWAIT_FOR_ALL_BITS)) ticks Hg')
    as (k1 & y & k' & Hp & Hr & Hg2 & Ho); [done|done|by rewrite Em|done|by rewrite <- Z.lor_assoc|].
  rewrite Hp, Hr. exists k'. split_and!; [done| |done]. by rewrite map_app.
Qed.

(** The last one has arrived: all the waiting tasks wake. *)
Lemma sync_completes eg k W ts b ticks :
  group_ok eg k (map (sync_waiter W) ts) -> is_bits W -> W <> 0 -> is_bits b ->
  uxSchedulerSuspended k = 0 -> Z.land (Z.lor (uxEventBits eg) b) W = W ->
  let bits := Z.lor (uxEventBits eg) b in
  exists k', xEventGroupSync_enter eg k b W ticks =
      Some (Some bits, set_bits eg (clear_flag bits W), k') /\
    group_ok (set_bits eg (clear_flag bits W)) k' [] /\
    forall t, t ∈ ts -> t ∈ default [] (pxReadyTasksLists k' !! priority k t) /\
      event_value k' t = woken_value bits.
Proof.
  intros Hg HW Hz Hb Hs Hall bits. unfold xEventGroupSync_enter.
  rewrite sync_args_ok by done. cbn [guard_c].
  destruct (xEventGroupSetBits_spec eg (vTaskSuspendAll k) (map (sync_waiter W) ts) b)
    as (k1 & Hrun & Hwk & Hg1); [by apply group_ok_suspend|done|].
  fold bits in Hrun, Hwk, Hg1.
  assert (filter (satisfied bits) (map (sync_waiter W) ts) = map (sync_waiter W) ts) as Hsat
    by (rewrite sync_satisfied; unfold bits; by rewrite Hall, Z.eqb_refl).
  rewrite Hsat, sync_consumed in *. rewrite Hrun. fold bits. unfold bits at 1. rewrite Hall, Z.eqb_refl.
  destruct (suspend_resume k k1) as (y & Hr); [by destruct Hg|by rewrite (wk_count _ _ _ _ _ Hwk)
    |by rewrite (wk_pending _ _ _ _ _ Hwk)|by rewrite (wk_pended _ _ _ _ _ Hwk)|].
  rewrite Hr. eexists.
  cbn [set_bits uxEventBits xTasksWaitingForBits ucStaticallyAllocated].
  rewrite clear_flag_twice by (destruct ts; [done|apply Z.land_diag]).
  split; [reflexivity|].
  rewrite sync_unsatisfied in Hg1 by done. destruct Hg as [G1 G2 G3 G4 G5]. split; [split|].
  - apply clear_flag_bits. by apply lor_bits.
  - exact (gr_list _ _ _ Hg1).
  - constructor.
  - constructor.
  - destruct G5 as [Hr1 Hq]. split; [done|]. simpl. intros E. destruct (Hq E).
    by rewrite (wk_pending _ _ _ _ _ Hwk), (wk_pended _ _ _ _ _ Hwk).
  - intros t Hin. assert (map wt_task (map (sync_waiter W) ts) = ts) as Em by (rewrite map_map; apply map_id).
    rewrite Em in Hwk. split.
    + simpl. rewrite (wk_ready _ _ _ _ _ Hwk), elem_of_app. right. by apply list_elem_of_filter.
    + unfold event_value. simpl. rewrite (wk_tcbs _ _ _ _ _ Hwk), decide_True by done.
      rewrite Forall_forall in G4. destruct (G4 (sync_waiter W t)) as (_ & tcb & Ht & _).
      { by apply (list_elem_of_fmap_2 (sync_waiter W)). }
      simpl in Ht. simpl. by rewrite Ht.
Qed.

(** Tasks [t] arrive one after the other, each setting its bits. *)
Fixpoint arrive (eg : EventGroup_t) (k : kernel) (W ticks : Z) (l : list (Z * Z)) :
    option (list (option Z) * EventGroup_t * kernel) :=
  match l with
  | [] => Some ([], eg, k)
  | (t, b) :: l =>
      let! (r, eg, k) := xEventGroupSync_enter eg (with_current k t) b W ticks in
      let! (rs, eg, k) := arrive eg k W ticks l in
      Some (r :: rs, eg, k)
  end.

Lemma arrive_app W ticks l1 : forall eg k l2, arrive eg k W ticks (l1 ++ l2) =
  (let! (rs, eg, k) := arrive eg k W ticks l1 in
   let! (rs2, eg, k) := arrive eg k W ticks l2 in Some (rs ++ rs2, eg, k)).
Proof.
  induction l1 as [|[u c] l1 IH]; intros eg k l2; simpl.
  - by destruct (arrive eg k W ticks l2) as [[[? ?] ?]|].
  - destruct (xEventGroupSync_enter _ _ _ _ _) as [[[r eg1] k1]|]; [|done]. rewrite IH.
    destruct (arrive eg1 k1 W ticks l1) as [[[rs eg2] k2]|]; [|done].
    by destruct (arrive eg2 k2 W ticks l2) as [[[rs2 eg3] k3]|].
Qed.

Definition all_bits (e : Z) (l : list (Z * Z)) : Z := fold_left Z.lor (map snd l) e.

Lemma all_bits_mono e l W : Z.land e W = W -> Z.land (all_bits e l) W = W.
Proof.
  revert e. induction l as [|[t b] l IH]; intros e He; [done|]. apply IH. simpl.
  rewrite Z.land_lor_distr_l, He. apply Z.bits_inj'. intros i Hi.
  rewrite Z.lor_spec, Z.land_spec. by destruct (Z.testbit W i), (Z.testbit b i).
Qed.

Lemma all_bits_app e l t b : all_bits e (l ++ [(t, b)]) = Z.lor (all_bits e l) b.
Proof. unfold all_bits. by rewrite map_app, fold_left_app. Qed.

Lemma arrive_blocked W ticks l : forall eg k ts,
  group_ok eg k (map (sync_waiter W) ts) -> uxSchedulerSuspended k = 0 ->
  is_bits W -> W <> 0 -> 0 < ticks ->
  Forall (fun a => is_bits (snd a) /\ is_Some (tcbs k !! fst a)) l -> NoDup (ts ++ map fst l) ->
  Z.land (all_bits (uxEventBits eg) l) W <> W ->
  exists k', arrive eg k W ticks l =
      Some (repeat None (length l), set_bits eg (all_bits (uxEventBits eg) l), k') /\
    group_ok (set_bits eg (all_bits (uxEventBits eg) l)) k' (map (sync_waiter W) (ts ++ map fst l)) /\
    uxSchedulerSuspended k' = 0 /\ (forall t, priority k' t = priority k t) /\
    (forall t, is_Some (tcbs k !! t) -> is_Some (tcbs k' !! t)).
Proof.
  induction l as [|[t b] l IH]; intros eg k ts Hg Hs HW Hz Ht Hl Hnd Hne.
  - exists k. simpl. rewrite app_nil_r. split_and!; try done. by destruct eg.
    by destruct eg.
  - apply Forall_cons in Hl as [[Hb Htcb] Hl]. cbn [arrive].
    assert (group_ok eg (with_current k t) (map (sync_waiter W) ts)) as Hg0 by (by destruct Hg).
    destruct (sync_blocks eg (with_current k t) W ts b ticks Hg0) as (k1 & Hrun & Hg1 & Ho); try done.
    { simpl in Hnd |- *. apply NoDup_app in Hnd as (_ & Hd & _). intros Hin. apply (Hd t Hin). left. }
    { intros Hw. apply Hne. by apply (all_bits_mono _ l) in Hw. }
    rewrite Hrun.
    assert (forall u, is_Some (tcbs k !! u) -> is_Some (tcbs k1 !! u)) as Hsome.
    { intros u Hu. destruct (decide (u = t)) as [->|]; [by apply (os_tcb _ _ Ho)|].
      by rewrite (os_tcbs _ _ Ho). }
    assert (forall u, priority k1 u = priority k u) as Hpr.
    { intros u. destruct (decide (u = t)) as [->|]; [by apply (os_priority _ _ Ho)|].
      unfold priority. by rewrite (os_tcbs _ _ Ho). }
    edestruct (IH (set_bits eg (Z.lor (uxEventBits eg) b)) k1 (ts ++ [t])) as (k' & Hrun' & Hg' & Hs' & Hp' & Ht').
    { done. }
    { by rewrite (os_count _ _ Ho). }
    1,2,3: done.
    { eapply Forall_impl; [exact Hl|]. intros a [? ?]. auto. }
    { rewrite <- app_assoc. done. }
    { done. }
    rewrite Hrun'. exists k'. rewrite <- app_assoc in Hg'. split_and!; try done.
    + intros u. by rewrite Hp'.
    + auto.
Qed.

(** C33: a rendezvous: the tasks block until all bits of [W] are set; the call that
    sets the last of them returns at once, makes every task that waited ready and
    clears [W], and each of them returns the full set when it runs. *)
Theorem xEventGroupSync_rendezvous (eg : EventGroup_t) (k : kernel) (W ticks : Z) (l : list (Z * Z)) (t b : Z) :
  group_ok eg k [] -> uxSchedulerSuspended k = 0 -> is_bits W -> W <> 0 -> 0 < ticks ->
  Forall (fun a => is_bits (snd a) /\ is_Some (tcbs k !! fst a)) l -> is_bits b -> NoDup (map fst l) ->
  Z.land (all_bits (uxEventBits eg) l) W <> W ->
  let full := Z.lor (all_bits (uxEventBits eg) l) b in
  Z.land full W = W ->
  exists k' : kernel, arrive eg k W ticks (l ++ [(t, b)]) =
      Some (repeat None (length l) ++ [Some full], set_bits eg (clear_flag full W), k') /\
    group_ok (set_bits eg (clear_flag full W)) k' [] /\
    forall a, a ∈ l ->
      fst a ∈ default [] (pxReadyTasksLists k' !! priority k (fst a)) /\
      forall eg2, exists k2, xEventGroupSync_wake eg2 (with_current k' (fst a)) W = (full, eg2, k2).
Proof.
  intros Hg Hs HW Hz Ht Hl Hb Hnd Hne full Hfull.
  destruct (arrive_blocked W ticks l eg k []) as (k1 & Hrun & Hg1 & Hs1 & Hp1 & Ht1); [done..|].
  set (eg1 := set_bits eg (all_bits (uxEventBits eg) l)) in *.
  assert (group_ok eg1 (with_current k1 t) (map (sync_waiter W) (map fst l))) as Hg2
    by (by destruct Hg1).
  destruct (sync_completes eg1 (with_current k1 t) W (map fst l) b ticks Hg2)
    as (k' & Hrun' & Hg' & Hw); [done..|].
  exists k'.
  split_and!.
  - rewrite arrive_app, Hrun. simpl. by rewrite Hrun'.
  - done.
  - intros a Ha. assert (fst a ∈ map fst l) as Ha1 by (by apply (list_elem_of_fmap_2 fst)).
    destruct (Hw _ Ha1) as [H1 H2]. split.
    + replace (priority k (fst a)) with (priority (with_current k1 t) (fst a)); [done|]. apply (Hp1 (fst a)).
    + intros eg2. assert (is_bits full) as Hbits by (by apply lor_bits; [apply (gr_bits _ _ _ Hg1)|]).
      destruct (woken_wake full k' (fst a) Hbits H2 eg2 W true true) as (k2 & _ & H). by exists k2.
Qed.

(** ** Concrete groups

    The group at 600: task 8 waits for bits 0 and 1 together and clears them,
    task 9 for bit 2; bit 0 is set. *)
Definition demo_group : EventGroup_t := mkEG 1 604 true.

Definition demo_waiters : list Waiter := [mkWaiter 8 3 true true; mkWaiter 9 4 false false].

Definition demo_group_kernel : kernel :=
  mkKernel 100 0 0 7 0 5 portMAX_DELAY false
    (list_to_map [(7, mkTCB 5 0 20 0 false 5 0);
      (8, mkTCB 9 0 (Z.lor 3 (wait_control (mkWaiter 8 3 true true))) 604 false 9 0);
      (9, mkTCB 3 0 (Z.lor 4 (wait_control (mkWaiter 9 4 false false))) 604 false 3 0)])
    {[5 := [7]]} [] [] [8; 9] [] {[604 := [8; 9]]} ∅.

Lemma demo_group_ok : group_ok demo_group demo_group_kernel demo_waiters.
Proof.
  split; try reflexivity.
  - split; simpl; lia.
  - apply (bool_decide_unpack _). vm_compute. exact I.
  - repeat constructor; simpl; try lia; eexists; split_and!; reflexivity.
  - split; [split; simpl; lia|done].
Qed.

Example xEventGroupSetBits_wakes_witness :
  exists k' : kernel, xEventGroupSetBits demo_group demo_group_kernel 2 = Some (0, set_bits demo_group 0, k') /\
    group_ok (set_bits demo_group 0) k' [mkWaiter 9 4 false false] /\
    forall w, w ∈ demo_waiters ->
      if satisfied 3 w then
        wt_task w ∈ default [] (pxReadyTasksLists k' !! priority demo_group_kernel (wt_task w)) /\
        wt_task w ∉ delayed_tasks k' /\
        forall eg2, exists k2, xEventGroupWaitBits_wake eg2 (with_current k' (wt_task w))
                       (wt_bits w) (wt_clear w) (wt_all w) = (3, eg2, k2)
      else tcbs k' !! wt_task w = tcbs demo_group_kernel !! wt_task w /\
        (wt_task w ∈ delayed_tasks demo_group_kernel -> wt_task w ∈ delayed_tasks k').
Proof.
  apply (xEventGroupSetBits_wakes demo_group demo_group_kernel demo_waiters 2 demo_group_ok).
  split; simpl; lia.
Defined.

Definition demo_sync_kernel : kernel :=
  mkKernel 100 0 0 7 0 9 portMAX_DELAY false
    (list_to_map [(7, mkTCB 5 0 20 0 false 5 0); (8, mkTCB 9 0 16 0 false 9 0);
                  (9, mkTCB 3 0 22 0 false 3 0)])
    (list_to_map [(5, [7]); (9, [8]); (3, [9])]) [] [] [] [] {[604 := []]} ∅.

Example xEventGroupSync_rendezvous_witness :
  exists k' : kernel, arrive (mkEG 0 604 true) demo_sync_kernel 7 100 [(7, 1); (8, 2); (9, 4)] =
      Some ([None; None; Some 7], mkEG 0 604 true, k') /\
    group_ok (mkEG 0 604 true) k' [] /\
    forall a, a ∈ [(7, 1); (8, 2)] ->
      fst a ∈ default [] (pxReadyTasksLists k' !! priority demo_sync_kernel (fst a)) /\
      forall eg2, exists k2, xEventGroupSync_wake eg2 (with_current k' (fst a)) 7 = (7, eg2, k2).
Proof.
  apply (xEventGroupSync_rendezvous (mkEG 0 604 true) demo_sync_kernel 7 100 [(7, 1); (8, 2)] 9 4).
  - split; try reflexivity; [split; simpl; lia | constructor | constructor | split; [split; simpl; lia|done]].
  - reflexivity.
  - split; simpl; lia.
  - discriminate.
  - reflexivity.
  - repeat constructor; simpl; try lia; eexists; reflexivity.
  - split; simpl; lia.
  - apply (bool_decide_unpack _). vm_compute. exact I.
  - discriminate.
  - reflexivity.
Defined.
