(* ===== verification/KernelPrio.v ===== *)
(** * Priority inheritance (FreeRTOS-Kernel/tasks.c)

    The kernel calls mutexes are built on: a task that waits for a mutex lends
    its priority to the holder, which gives it back with its last mutex, or when
    the wait times out.  [portRESET_READY_PRIORITY] does nothing with generic
    task selection. *)

From stdpp Require Import base list option gmap.
From Stdlib Require Import ZArith Lia.
From S2P Require Import Prelude FreeRTOSList Kernel KernelSched.

Definition tskIDLE_PRIORITY : Z := 0.

Definition set_priority (p : Z) (t : TCB_t) : TCB_t :=
  mkTCB p (xStateItemValue t) (xEventItemValue t) (xEventContainer t) (ucDelayAborted t)
    (uxBasePriority t) (uxMutexesHeld t).
Definition set_mutexes_held (n : Z) (t : TCB_t) : TCB_t :=
  mkTCB (uxPriority t) (xStateItemValue t) (xEventItemValue t) (xEventContainer t) (ucDelayAborted t)
    (uxBasePriority t) n.

Definition base_priority (k : kernel) (t : Z) : Z := from_option uxBasePriority 0 (tcbs k !! t).
Definition mutexes_held (k : kernel) (t : Z) : Z := from_option uxMutexesHeld 0 (tcbs k !! t).

Definition alter_tcb (k : kernel) (t : Z) (f : TCB_t -> TCB_t) : kernel := with_tcbs k (alter f t (tcbs k)).

(** [listIS_CONTAINED_WITHIN] of the ready list of priority [p]. *)
Definition in_ready_list (k : kernel) (t p : Z) : bool :=
  bool_decide (t ∈ default [] (pxReadyTasksLists k !! p)).

(** The event item of [t] is given the value of priority [p], unless an event
    group uses it. *)
Definition reset_event_item_value (k : kernel) (t p : Z) : kernel :=
  if Z.land (event_value k t) taskEVENT_LIST_ITEM_VALUE_IN_USE =? 0
  then alter_tcb k t (set_event_value (u32 (configMAX_PRIORITIES - p))) else k.

Definition vTaskMissedYield (k : kernel) : kernel := with_yield k true.

(** [pxCurrentTCB] is NULL before the scheduler starts. *)
Definition pvTaskIncrementMutexHeldCount (k : kernel) : Z * kernel :=
  let t := pxCurrentTCB k in
  (t, if t =? NULL then k else alter_tcb k t (set_mutexes_held (u32 (mutexes_held k t + 1)))).

Definition xTaskPriorityInherit (k : kernel) (pxMutexHolder : Z) : bool * kernel :=
  let current := priority k (pxCurrentTCB k) in
  if negb (pxMutexHolder =? NULL) then
    if priority k pxMutexHolder <? current then
      let k := reset_event_item_value k pxMutexHolder current in
      if in_ready_list k pxMutexHolder (priority k pxMutexHolder) then
        let k := remove_state_item k pxMutexHolder in
        let k := alter_tcb k pxMutexHolder (set_priority current) in
        (true, prvAddTaskToReadyList k pxMutexHolder)
      else (true, alter_tcb k pxMutexHolder (set_priority current))
    else (base_priority k pxMutexHolder <? current, k)
  else (false, k).

Definition xTaskPriorityDisinherit (k : kernel) (pxMutexHolder : Z) : option (bool * kernel) :=
  if negb (pxMutexHolder =? NULL) then
    assert! pxMutexHolder =? pxCurrentTCB k;
    assert! negb (mutexes_held k pxMutexHolder =? 0);
    let k := alter_tcb k pxMutexHolder (set_mutexes_held (mutexes_held k pxMutexHolder - 1)) in
    if negb (priority k pxMutexHolder =? base_priority k pxMutexHolder) &&
       (mutexes_held k pxMutexHolder =? 0) then
      let k := remove_state_item k pxMutexHolder in
      let k := alter_tcb k pxMutexHolder (set_priority (base_priority k pxMutexHolder)) in
      let k := alter_tcb k pxMutexHolder
                 (set_event_value (u32 (configMAX_PRIORITIES - priority k pxMutexHolder))) in
      Some (true, prvAddTaskToReadyList k pxMutexHolder)
    else Some (false, k)
  else Some (false, k).

Definition vTaskPriorityDisinheritAfterTimeout (k : kernel)
    (pxMutexHolder uxHighestPriorityWaitingTask : Z) : option kernel :=
  if negb (pxMutexHolder =? NULL) then
    assert! negb (mutexes_held k pxMutexHolder =? 0);
    let uxPriorityToUse := if base_priority k pxMutexHolder <? uxHighestPriorityWaitingTask
                           then uxHighestPriorityWaitingTask else base_priority k pxMutexHolder in
    if negb (priority k pxMutexHolder =? uxPriorityToUse) && (mutexes_held k pxMutexHolder =? 1) then
      assert! negb (pxMutexHolder =? pxCurrentTCB k);
      let uxPriorityUsedOnEntry := priority k pxMutexHolder in
      let k := alter_tcb k pxMutexHolder (set_priority uxPriorityToUse) in
      let k := reset_event_item_value k pxMutexHolder uxPriorityToUse in
      if in_ready_list k pxMutexHolder uxPriorityUsedOnEntry
      then Some (prvAddTaskToReadyList (remove_state_item k pxMutexHolder) pxMutexHolder)
      else Some k
    else Some k
  else Some k.

(** The one waiter of a list only the timer task waits on. *)
Definition vTaskPlaceOnEventListRestricted (k : kernel) (pxEventList xTicksToWait : Z)
    (xWaitIndefinitely : bool) : option kernel :=
  assert! negb (pxEventList =? NULL);
  let t := pxCurrentTCB k in
  let k := alter_tcb k t (set_event_container pxEventList) in
  let k := with_event_lists k
             (<[pxEventList := default [] (event_lists k !! pxEventList) ++ [t]]> (event_lists k)) in
  let xTicksToWait := if xWaitIndefinitely then portMAX_DELAY else xTicksToWait in
  Some (prvAddCurrentTaskToDelayedList k xTicksToWait xWaitIndefinitely).
