(* ===== verification/KernelNotify.v ===== *)
(** * Task notifications (FreeRTOS-Kernel/tasks.c)

    The direct-to-task notifications stream buffers are built on.  The arrays
    [ulNotifiedValue] and [ucNotifyState] of the TCBs are maps from a task and an
    index; [configTASK_NOTIFICATION_ARRAY_ENTRIES] has its default.  A call that
    waits is two critical sections; what happens between them is a function. *)

From stdpp Require Import base list option gmap.
From Stdlib Require Import ZArith Lia.
From S2P Require Import Prelude FreeRTOSList Kernel KernelSched KernelPrio.

Definition configTASK_NOTIFICATION_ARRAY_ENTRIES : Z := 1.
Definition tskDEFAULT_INDEX_TO_NOTIFY : Z := 0.
Definition taskNOT_WAITING_NOTIFICATION : Z := 0.
Definition taskWAITING_NOTIFICATION : Z := 1.
Definition taskNOTIFICATION_RECEIVED : Z := 2.

Inductive eNotifyAction :=
| eNoAction | eSetBits | eIncrement | eSetValueWithOverwrite | eSetValueWithoutOverwrite.

Record nkernel := mkNK {
  nk_kernel : kernel;
  ulNotifiedValue : gmap (Z * Z) Z;
  ucNotifyState : gmap (Z * Z) Z }.

Definition notified_value (n : nkernel) (t i : Z) : Z := default 0 (ulNotifiedValue n !! (t, i)).
Definition notify_state (n : nkernel) (t i : Z) : Z :=
  default taskNOT_WAITING_NOTIFICATION (ucNotifyState n !! (t, i)).

Definition with_nk (n : nkernel) (k : kernel) : nkernel := mkNK k (ulNotifiedValue n) (ucNotifyState n).
Definition set_notified_value (n : nkernel) (t i v : Z) : nkernel :=
  mkNK (nk_kernel n) (<[(t, i) := v]> (ulNotifiedValue n)) (ucNotifyState n).
Definition set_notify_state (n : nkernel) (t i s : Z) : nkernel :=
  mkNK (nk_kernel n) (ulNotifiedValue n) (<[(t, i) := s]> (ucNotifyState n)).

Definition taskCAN_BE_SCHEDULED (k : kernel) : bool := uxSchedulerSuspended k =? 0.

(** The [switch] on the action: the result and the new value. *)
Definition notify_action (eAction : eNotifyAction) (ucOriginalNotifyState old ulValue : Z) : bool * Z :=
  match eAction with
  | eSetBits => (true, Z.lor old ulValue)
  | eIncrement => (true, u32 (old + 1))
  | eSetValueWithOverwrite => (true, ulValue)
  | eSetValueWithoutOverwrite =>
      if negb (ucOriginalNotifyState =? taskNOTIFICATION_RECEIVED) then (true, ulValue) else (false, old)
  | eNoAction => (true, old)
  end.

(** [listLIST_ITEM_CONTAINER] of the event item. *)
Definition event_container (k : kernel) (t : Z) : Z := from_option xEventContainer NULL (tcbs k !! t).

(** A yield: [vTaskSwitchContext] only notes it while the scheduler is suspended;
    the tasks that run otherwise are the caller's interference. *)
Definition taskYIELD_IF_USING_PREEMPTION (k : kernel) : kernel :=
  if negb (uxSchedulerSuspended k =? 0) then with_yield k true else k.

(** The state becomes received, the value what the action says; also the value
    there was, for [pulPreviousNotificationValue]. *)
Definition receive_notification (n : nkernel) (t i ulValue : Z) (eAction : eNotifyAction) : bool * Z * nkernel :=
  let old := notified_value n t i in
  let ucOriginalNotifyState := notify_state n t i in
  let n := set_notify_state n t i taskNOTIFICATION_RECEIVED in
  let (xReturn, v) := notify_action eAction ucOriginalNotifyState old ulValue in
  (xReturn, old, set_notified_value n t i v).

Definition xTaskGenericNotify (n : nkernel) (xTaskToNotify uxIndexToNotify ulValue : Z)
    (eAction : eNotifyAction) : option (bool * Z * nkernel) :=
  let t := xTaskToNotify in
  assert! uxIndexToNotify <? configTASK_NOTIFICATION_ARRAY_ENTRIES;
  assert! negb (t =? NULL);
  let ucOriginalNotifyState := notify_state n t uxIndexToNotify in
  let '(xReturn, old, n) := receive_notification n t uxIndexToNotify ulValue eAction in
  if ucOriginalNotifyState =? taskWAITING_NOTIFICATION then
    let k := remove_state_item (nk_kernel n) t in
    let k := prvAddTaskToReadyList k t in
    assert! event_container k t =? NULL;
    let k := if taskIS_YIELD_REQUIRED k t false then taskYIELD_IF_USING_PREEMPTION k else k in
    Some (xReturn, old, with_nk n k)
  else Some (xReturn, old, n).

(** Of the calls for interrupts: whether a task that outranks the running one
    was woken. *)
Definition notify_unblock_from_isr (k : kernel) (t : Z) : option (bool * kernel) :=
  assert! event_container k t =? NULL;
  let k := if taskCAN_BE_SCHEDULED k
           then prvAddTaskToReadyList (remove_state_item k t) t
           else with_pending (with_tcbs k (alter (set_event_container xPendingReadyList_addr) t (tcbs k)))
                  (xPendingReadyList k ++ [t]) (xYieldPending k) in
  if taskIS_YIELD_REQUIRED k t false then Some (true, with_yield k true) else Some (false, k).

(** The result, the value there was, whether a task that outranks the running
    one was woken. *)
Definition xTaskGenericNotifyFromISR (n : nkernel) (xTaskToNotify uxIndexToNotify ulValue : Z)
    (eAction : eNotifyAction) : option (bool * Z * bool * nkernel) :=
  let t := xTaskToNotify in
  assert! negb (t =? NULL);
  assert! uxIndexToNotify <? configTASK_NOTIFICATION_ARRAY_ENTRIES;
  let ucOriginalNotifyState := notify_state n t uxIndexToNotify in
  let '(xReturn, old, n) := receive_notification n t uxIndexToNotify ulValue eAction in
  if ucOriginalNotifyState =? taskWAITING_NOTIFICATION then
    let! (woken, k) := notify_unblock_from_isr (nk_kernel n) t in
    Some (xReturn, old, woken, with_nk n k)
  else Some (xReturn, old, false, n).

Definition vTaskGenericNotifyGiveFromISR (n : nkernel) (xTaskToNotify uxIndexToNotify : Z) :
    option (bool * nkernel) :=
  let t := xTaskToNotify in
  assert! negb (t =? NULL);
  assert! uxIndexToNotify <? configTASK_NOTIFICATION_ARRAY_ENTRIES;
  let ucOriginalNotifyState := notify_state n t uxIndexToNotify in
  let n := set_notify_state n t uxIndexToNotify taskNOTIFICATION_RECEIVED in
  let n := set_notified_value n t uxIndexToNotify (u32 (notified_value n t uxIndexToNotify + 1)) in
  if ucOriginalNotifyState =? taskWAITING_NOTIFICATION then
    let! (woken, k) := notify_unblock_from_isr (nk_kernel n) t in
    Some (woken, with_nk n k)
  else Some (false, n).

(** A handle of NULL is the running task. *)
Definition prvGetTCBFromHandle (n : nkernel) (xTask : Z) : Z :=
  if xTask =? NULL then pxCurrentTCB (nk_kernel n) else xTask.

Definition xTaskGenericNotifyStateClear (n : nkernel) (xTask uxIndexToClear : Z) : option (bool * nkernel) :=
  assert! uxIndexToClear <? configTASK_NOTIFICATION_ARRAY_ENTRIES;
  let t := prvGetTCBFromHandle n xTask in
  Some (if notify_state n t uxIndexToClear =? taskNOTIFICATION_RECEIVED
        then (true, set_notify_state n t uxIndexToClear taskNOT_WAITING_NOTIFICATION) else (false, n)).

Definition ulTaskGenericNotifyValueClear (n : nkernel) (xTask uxIndexToClear ulBitsToClear : Z) : Z * nkernel :=
  let t := prvGetTCBFromHandle n xTask in
  let v := notified_value n t uxIndexToClear in
  (v, set_notified_value n t uxIndexToClear (clear_flag v ulBitsToClear)).

(** The first critical section of [xTaskGenericNotifyWait]. *)
Definition notify_wait_enter (n : nkernel) (i ulBitsToClearOnEntry xTicksToWait : Z) : nkernel :=
  let t := pxCurrentTCB (nk_kernel n) in
  if negb (notify_state n t i =? taskNOTIFICATION_RECEIVED) then
    let n := set_notified_value n t i (clear_flag (notified_value n t i) ulBitsToClearOnEntry) in
    let n := set_notify_state n t i taskWAITING_NOTIFICATION in
    if 0 <? xTicksToWait
    then with_nk n (prvAddCurrentTaskToDelayedList (nk_kernel n) xTicksToWait true) else n
  else n.

(** And the second, when the task runs again. *)
Definition notify_wait_exit (n : nkernel) (i ulBitsToClearOnExit : Z) : bool * Z * nkernel :=
  let t := pxCurrentTCB (nk_kernel n) in
  let v := notified_value n t i in
  let (xReturn, n) :=
    if negb (notify_state n t i =? taskNOTIFICATION_RECEIVED) then (false, n)
    else (true, set_notified_value n t i (clear_flag v ulBitsToClearOnExit)) in
  (xReturn, v, set_notify_state n t i taskNOT_WAITING_NOTIFICATION).

Definition xTaskGenericNotifyWait (env : nkernel -> nkernel) (n : nkernel)
    (i ulBitsToClearOnEntry ulBitsToClearOnExit xTicksToWait : Z) : option (bool * Z * nkernel) :=
  assert! i <? configTASK_NOTIFICATION_ARRAY_ENTRIES;
  Some (notify_wait_exit (env (notify_wait_enter n i ulBitsToClearOnEntry xTicksToWait)) i ulBitsToClearOnExit).

(** Of [ulTaskGenericNotifyTake]. *)
Definition notify_take_enter (n : nkernel) (i xTicksToWait : Z) : nkernel :=
  let t := pxCurrentTCB (nk_kernel n) in
  if notified_value n t i =? 0 then
    let n := set_notify_state n t i taskWAITING_NOTIFICATION in
    if 0 <? xTicksToWait
    then with_nk n (prvAddCurrentTaskToDelayedList (nk_kernel n) xTicksToWait true) else n
  else n.

Definition notify_take_exit (n : nkernel) (i : Z) (xClearCountOnExit : bool) : Z * nkernel :=
  let t := pxCurrentTCB (nk_kernel n) in
  let ulReturn := notified_value n t i in
  let n := if negb (ulReturn =? 0)
           then set_notified_value n t i (if xClearCountOnExit then 0 else u32 (ulReturn - 1)) else n in
  (ulReturn, set_notify_state n t i taskNOT_WAITING_NOTIFICATION).

Definition ulTaskGenericNotifyTake (env : nkernel -> nkernel) (n : nkernel) (i : Z)
    (xClearCountOnExit : bool) (xTicksToWait : Z) : option (Z * nkernel) :=
  assert! i <? configTASK_NOTIFICATION_ARRAY_ENTRIES;
  Some (notify_take_exit (env (notify_take_enter n i xTicksToWait)) i xClearCountOnExit).
