(* ===== verification/KernelTask.v ===== *)
(** * Tasks and the context switch (FreeRTOS-Kernel/tasks.c)

    Creating, deleting, suspending, resuming and delaying tasks, their priorities
    and states, and the choice of the task that runs, in the configuration of
    Kernel.v.  [sched] adds to the kernel and the notifications the list of deleted
    tasks, which the idle task frees.  Stacks, names, trace numbers and the
    thread-local storage of a task are not modelled.

    A yield is [vTaskSwitchContext] at the place of the call: the calling task goes
    on when it is chosen again. *)

From stdpp Require Import base list option gmap.
From Stdlib Require Import ZArith Lia.
From S2P Require Import Prelude FreeRTOSList Kernel KernelSched KernelPrio KernelNotify.

(** ** The choice of the next task *)

(** [pxNext] of an item, or of the end marker ([NULL]). *)
Fixpoint item_after (pxItem : Z) (l : list Z) : Z :=
  match l with
  | [] => NULL
  | u :: l => if u =? pxItem then default NULL (head l) else item_after pxItem l
  end.

Definition list_next (pxItem : Z) (l : list Z) : Z :=
  if pxItem =? NULL then default NULL (head l) else item_after pxItem l.

(** The new [pxIndex], whose owner is the task. *)
Definition listGET_OWNER_OF_NEXT_ENTRY (pxIndex : Z) (l : list Z) : Z :=
  let pxIndex := list_next pxIndex l in
  if pxIndex =? NULL then list_next pxIndex l else pxIndex.

(** The [while] loop: the first ready list that is not empty, from priority [p] down. *)
Fixpoint find_top_priority (p : nat) (k : kernel) : option Z :=
  match default [] (pxReadyTasksLists k !! Z.of_nat p) with
  | _ :: _ => Some (Z.of_nat p)
  | [] => match p with O => None | S p => find_top_priority p k end
  end.

Definition taskSELECT_HIGHEST_PRIORITY_TASK (k : kernel) : option kernel :=
  let! uxTopPriority := find_top_priority (Z.to_nat (uxTopReadyPriority k)) k in
  let t := listGET_OWNER_OF_NEXT_ENTRY (default NULL (ready_index k !! uxTopPriority))
             (default [] (pxReadyTasksLists k !! uxTopPriority)) in
  let k := with_ready_index k (<[uxTopPriority := t]> (ready_index k)) in
  Some (with_top_ready (with_current k t) uxTopPriority).

Definition vTaskSwitchContext (k : kernel) : option kernel :=
  if negb (uxSchedulerSuspended k =? 0) then Some (with_yield k true)
  else taskSELECT_HIGHEST_PRIORITY_TASK (with_yield k false).

(** ** The state *)

Record sched := mkSched {
  sd_nk : nkernel;
  xTasksWaitingTermination : list Z;
  uxDeletedTasksWaitingCleanUp : Z;
  xSchedulerRunning : bool }.

Definition sd_kernel (s : sched) : kernel := nk_kernel (sd_nk s).
Definition with_sd_nk (s : sched) (n : nkernel) : sched :=
  mkSched n (xTasksWaitingTermination s) (uxDeletedTasksWaitingCleanUp s) (xSchedulerRunning s).
Definition with_k (s : sched) (k : kernel) : sched := with_sd_nk s (with_nk (sd_nk s) k).
Definition with_deleted (s : sched) (l : list Z) (n : Z) : sched :=
  mkSched (sd_nk s) l n (xSchedulerRunning s).
Definition with_running (s : sched) (b : bool) : sched :=
  mkSched (sd_nk s) (xTasksWaitingTermination s) (uxDeletedTasksWaitingCleanUp s) b.

Definition switch_context (s : sched) : option sched :=
  let! k := vTaskSwitchContext (sd_kernel s) in Some (with_k s k).

Definition taskIS_SCHEDULER_SUSPENDED (s : sched) : bool := negb (uxSchedulerSuspended (sd_kernel s) =? 0).
Definition taskIS_CURRENTLY_RUNNING (s : sched) (t : Z) : bool := t =? pxCurrentTCB (sd_kernel s).

(** Compares with the priority plus one, and lets equality pass. *)
Definition taskIS_YIELD_REQUIRED_USING_PRIORITY (k : kernel) (uxTaskPriority : Z) (xYieldEqualPriority : bool) : bool :=
  priority k (pxCurrentTCB k) <=? uxTaskPriority + (if xYieldEqualPriority then 1 else 0).

(** [xTaskResumeAll], the yield at its end included; whether there was one. *)
Definition sched_resume_all (s : sched) : option (bool * sched) :=
  let! (xAlreadyYielded, k) := xTaskResumeAll (sd_kernel s) in
  let s := with_k s k in
  if xAlreadyYielded : bool then let! s := switch_context s in Some (true, s) else Some (false, s).

Definition suspend_all (s : sched) : sched := with_k s (vTaskSuspendAll (sd_kernel s)).

(** The end of the calls that block: resume, and yield unless that happened. *)
Definition resume_all_and_yield (s : sched) : option sched :=
  let! (xAlreadyYielded, s) := sched_resume_all s in
  if xAlreadyYielded : bool then Some s else switch_context s.

(** [uxListRemove] of an event item that is in some list. *)
Definition leave_event_list (k : kernel) (t : Z) : kernel :=
  let c := event_container k t in
  if c =? NULL then k
  else if c =? xPendingReadyList_addr then remove_pending_item k t
  else remove_event_item k t.

(** [uxListRemove] of a state item, which may be in the list of deleted tasks. *)
Definition leave_state_list (s : sched) (t : Z) : sched :=
  with_deleted (with_k s (remove_state_item (sd_kernel s) t))
    (list_remove_task t (xTasksWaitingTermination s)) (uxDeletedTasksWaitingCleanUp s).

(** ** Creation and deletion *)

Definition prvInitialiseTaskLists (s : sched) : sched :=
  let k := sd_kernel s in
  with_deleted (with_k s (with_pending (with_ready_index (with_state_lists k ∅ [] [] []) ∅) [] (xYieldPending k)))
    [] (uxDeletedTasksWaitingCleanUp s).

(** The part of a new control block the scheduler uses; the rest is zero. *)
Definition prvInitialiseNewTask (uxPriority : Z) : option TCB_t :=
  assert! uxPriority <? configMAX_PRIORITIES;
  let uxPriority := if configMAX_PRIORITIES <=? uxPriority then configMAX_PRIORITIES - 1 else uxPriority in
  Some (mkTCB uxPriority 0 (u32 (configMAX_PRIORITIES - uxPriority)) NULL false uxPriority 0).

(** [tcb] is what [pxNewTCB] points to. *)
Definition prvAddNewTaskToReadyList (s : sched) (pxNewTCB : Z) (tcb : TCB_t) : option sched :=
  let s := with_k s (with_tcbs (sd_kernel s) (<[pxNewTCB := tcb]> (tcbs (sd_kernel s)))) in
  let s := if uxTaskGetNumberOfTasks (sd_kernel s) =? 1 then prvInitialiseTaskLists s else s in
  let k := sd_kernel s in
  let k := if pxCurrentTCB k =? NULL then with_current k pxNewTCB
           else if negb (xSchedulerRunning s) && (priority k (pxCurrentTCB k) <=? uxPriority tcb)
           then with_current k pxNewTCB else k in
  let k := prvAddTaskToReadyList k pxNewTCB in
  let s := with_k s k in
  if xSchedulerRunning s && taskIS_YIELD_REQUIRED k pxNewTCB true then switch_context s else Some s.

(** [p] is the memory that was allocated, [NULL] if there was none. *)
Definition xTaskCreatePinnedToCore (s : sched) (p uxPriority : Z) : option (bool * sched) :=
  if negb (p =? NULL) then
    let! tcb := prvInitialiseNewTask uxPriority in
    let! s := prvAddNewTaskToReadyList s p tcb in
    Some (true, s)
  else Some (false, s).

(** The control block is freed, its notifications with it. *)
Definition prvDeleteTCB (s : sched) (t : Z) : sched :=
  let n := sd_nk s in
  with_sd_nk s (mkNK (with_tcbs (nk_kernel n) (delete t (tcbs (nk_kernel n))))
                  (delete (t, 0) (ulNotifiedValue n)) (delete (t, 0) (ucNotifyState n))).

Definition vTaskDelete (s : sched) (xTaskToDelete : Z) : option sched :=
  let t := prvGetTCBFromHandle (sd_nk s) xTaskToDelete in
  let s := leave_state_list s t in
  let s := with_k s (leave_event_list (sd_kernel s) t) in
  if taskIS_CURRENTLY_RUNNING s t then
    let s := with_deleted s (xTasksWaitingTermination s ++ [t]) (u32 (uxDeletedTasksWaitingCleanUp s + 1)) in
    if xSchedulerRunning s then
      assert! negb (taskIS_SCHEDULER_SUSPENDED s);
      switch_context s
    else Some s
  else Some (prvDeleteTCB (with_k s (prvResetNextTaskUnblockTime (sd_kernel s))) t).

(** The idle task frees the deleted tasks; the count is the number of rounds. *)
Fixpoint clean_up_loop (n : nat) (s : sched) : option sched :=
  match n with
  | O => Some s
  | S n =>
      let! t := head (xTasksWaitingTermination s) in
      let s := leave_state_list s t in
      let s := with_deleted s (xTasksWaitingTermination s) (u32 (uxDeletedTasksWaitingCleanUp s - 1)) in
      clean_up_loop n (prvDeleteTCB s t)
  end.

Definition prvCheckTasksWaitingTermination (s : sched) : option sched :=
  clean_up_loop (Z.to_nat (uxDeletedTasksWaitingCleanUp s)) s.

(** [vTaskStartScheduler], once the idle and the timer task are created. *)
Definition vTaskStartScheduler (s : sched) : sched :=
  let k := with_unblock_time (sd_kernel s) portMAX_DELAY in
  with_running (with_k s (with_time k 0 (xNumOfOverflows k) (xPendedTicks k))) true.

(** ** Delays *)

Definition vTaskDelay (s : sched) (xTicksToDelay : Z) : option sched :=
  if 0 <? xTicksToDelay then
    assert! negb (taskIS_SCHEDULER_SUSPENDED s);
    let s := suspend_all s in
    let s := with_k s (prvAddCurrentTaskToDelayedList (sd_kernel s) xTicksToDelay false) in
    resume_all_and_yield s
  else switch_context s.

(** Whether the task was delayed, and the new wake time. *)
Definition xTaskDelayUntil (s : sched) (pxPreviousWakeTime xTimeIncrement : Z) : option (bool * Z * sched) :=
  assert! 0 <? xTimeIncrement;
  assert! negb (taskIS_SCHEDULER_SUSPENDED s);
  let s := suspend_all s in
  let xConstTickCount := xTickCount (sd_kernel s) in
  let xTimeToWake := u32 (pxPreviousWakeTime + xTimeIncrement) in
  let xShouldDelay :=
    if xConstTickCount <? pxPreviousWakeTime
    then (xTimeToWake <? pxPreviousWakeTime) && (xConstTickCount <? xTimeToWake)
    else (xTimeToWake <? pxPreviousWakeTime) || (xConstTickCount <? xTimeToWake) in
  let s := if xShouldDelay
           then with_k s (prvAddCurrentTaskToDelayedList (sd_kernel s) (u32 (xTimeToWake - xConstTickCount)) false)
           else s in
  let! s := resume_all_and_yield s in
  Some (xShouldDelay, xTimeToWake, s).

(** ** Task states and priorities *)

Inductive eTaskState := eRunning | eReady | eBlocked | eSuspended | eDeleted.

#[global] Instance eTaskState_eq_dec : EqDecision eTaskState.
Proof. solve_decision. Defined.

Definition on_a_ready_list (k : kernel) (t : Z) : bool :=
  existsb (fun l : Z * list Z => bool_decide (t ∈ snd l)) (map_to_list (pxReadyTasksLists k)).

Definition eTaskGetState (s : sched) (xTask : Z) : option eTaskState :=
  assert! negb (xTask =? NULL);
  let k := sd_kernel s in
  Some (if taskIS_CURRENTLY_RUNNING s xTask then eRunning
        else if bool_decide (xTask ∈ pxDelayedTaskList k) || bool_decide (xTask ∈ pxOverflowDelayedTaskList k) then eBlocked
        else if bool_decide (xTask ∈ xSuspendedTaskList k) then
          if event_container k xTask =? NULL then
            if notify_state (sd_nk s) xTask 0 =? taskWAITING_NOTIFICATION then eBlocked else eSuspended
          else eBlocked
        else if bool_decide (xTask ∈ xTasksWaitingTermination s) || negb (on_a_ready_list k xTask) then eDeleted
        else eReady).

Definition uxTaskPriorityGet (s : sched) (xTask : Z) : Z :=
  priority (sd_kernel s) (prvGetTCBFromHandle (sd_nk s) xTask).
Definition uxTaskPriorityGetFromISR (s : sched) (xTask : Z) : Z :=
  priority (sd_kernel s) (prvGetTCBFromHandle (sd_nk s) xTask).

Definition set_base_priority (p : Z) (t : TCB_t) : TCB_t :=
  mkTCB (uxPriority t) (xStateItemValue t) (xEventItemValue t) (xEventContainer t) (ucDelayAborted t)
    p (uxMutexesHeld t).

Definition vTaskPrioritySet (s : sched) (xTask uxNewPriority : Z) : option sched :=
  assert! uxNewPriority <? configMAX_PRIORITIES;
  let uxNewPriority := if configMAX_PRIORITIES <=? uxNewPriority then configMAX_PRIORITIES - 1 else uxNewPriority in
  let k := sd_kernel s in
  let t := prvGetTCBFromHandle (sd_nk s) xTask in
  let uxCurrentBasePriority := base_priority k t in
  if negb (uxCurrentBasePriority =? uxNewPriority) then
    let xYieldRequired :=
      if uxCurrentBasePriority <? uxNewPriority then
        negb (taskIS_CURRENTLY_RUNNING s t) && taskIS_YIELD_REQUIRED_USING_PRIORITY k uxNewPriority true
      else taskIS_CURRENTLY_RUNNING s t in
    let uxPriorityUsedOnEntry := priority k t in
    let k := if base_priority k t =? priority k t then alter_tcb k t (set_priority uxNewPriority) else k in
    let k := alter_tcb k t (set_base_priority uxNewPriority) in
    let k := reset_event_item_value k t uxNewPriority in
    let k := if in_ready_list k t uxPriorityUsedOnEntry
             then prvAddTaskToReadyList (remove_state_item k t) t else k in
    let s := with_k s k in
    if xYieldRequired then switch_context s else Some s
  else Some s.

(** ** Suspending and resuming *)

Definition vTaskSuspend (s : sched) (xTaskToSuspend : Z) : option sched :=
  let t := prvGetTCBFromHandle (sd_nk s) xTaskToSuspend in
  let s := leave_state_list s t in
  let k := leave_event_list (sd_kernel s) t in
  let k := with_state_lists k (pxReadyTasksLists k) (pxDelayedTaskList k) (pxOverflowDelayedTaskList k)
             (xSuspendedTaskList k ++ [t]) in
  let s := with_k s k in
  let n := sd_nk s in
  let s := with_sd_nk s (if notify_state n t 0 =? taskWAITING_NOTIFICATION
                         then set_notify_state n t 0 taskNOT_WAITING_NOTIFICATION else n) in
  let s := if xSchedulerRunning s then with_k s (prvResetNextTaskUnblockTime (sd_kernel s)) else s in
  if taskIS_CURRENTLY_RUNNING s t then
    if xSchedulerRunning s then
      assert! uxSchedulerSuspended (sd_kernel s) =? 0;
      switch_context s
    else if Z.of_nat (length (xSuspendedTaskList (sd_kernel s))) =? uxTaskGetNumberOfTasks (sd_kernel s)
    then Some (with_k s (with_current (sd_kernel s) NULL))
    else switch_context s
  else Some s.

Definition prvTaskIsTaskSuspended (k : kernel) (xTask : Z) : option bool :=
  assert! negb (xTask =? NULL);
  Some (bool_decide (xTask ∈ xSuspendedTaskList k) && bool_decide (xTask ∉ xPendingReadyList k) &&
        (event_container k xTask =? NULL)).

Definition vTaskResume (s : sched) (xTaskToResume : Z) : option sched :=
  let t := xTaskToResume in
  assert! negb (t =? NULL);
  if negb (taskIS_CURRENTLY_RUNNING s t) && negb (t =? NULL) then
    let! suspended := prvTaskIsTaskSuspended (sd_kernel s) t in
    if suspended : bool then
      let k := prvAddTaskToReadyList (remove_state_item (sd_kernel s) t) t in
      let s := with_k s k in
      if taskIS_YIELD_REQUIRED k t true then switch_context s else Some s
    else Some s
  else Some s.

(** Whether the interrupt should yield. *)
Definition xTaskResumeFromISR (s : sched) (xTaskToResume : Z) : option (bool * sched) :=
  let t := xTaskToResume in
  assert! negb (t =? NULL);
  let! suspended := prvTaskIsTaskSuspended (sd_kernel s) t in
  if suspended : bool then
    let k := sd_kernel s in
    if taskCAN_BE_SCHEDULED k then
      let xYieldRequired := taskIS_YIELD_REQUIRED k t true in
      let k := if xYieldRequired then with_yield k true else k in
      Some (xYieldRequired, with_k s (prvAddTaskToReadyList (remove_state_item k t) t))
    else
      let k := with_tcbs k (alter (set_event_container xPendingReadyList_addr) t (tcbs k)) in
      Some (false, with_k s (with_pending k (xPendingReadyList k ++ [t]) (xYieldPending k)))
  else Some (false, s).

Definition xTaskAbortDelay (s : sched) (xTask : Z) : option (bool * sched) :=
  let t := xTask in
  assert! negb (t =? NULL);
  let s := suspend_all s in
  let! state := eTaskGetState s t in
  let xReturn := bool_decide (state = eBlocked) in
  let s :=
    if xReturn then
      let k := remove_state_item (sd_kernel s) t in
      let k := if negb (event_container k t =? NULL)
               then alter_tcb (leave_event_list k t) t (set_delay_aborted true) else k in
      let k := prvAddTaskToReadyList k t in
      with_k s (if taskIS_YIELD_REQUIRED k t false then with_yield k true else k)
    else s in
  let! (_, s) := sched_resume_all s in
  Some (xReturn, s).

(** ** The clock *)

Definition xTaskCatchUpTicks (s : sched) (xTicksToCatchUp : Z) : option (bool * sched) :=
  assert! negb (taskIS_SCHEDULER_SUSPENDED s);
  let s := suspend_all s in
  let k := sd_kernel s in
  sched_resume_all (with_k s (with_time k (xTickCount k) (xNumOfOverflows k) (u32 (xPendedTicks k + xTicksToCatchUp)))).

(** The tick interrupt of the port. *)
Definition xPortSysTickHandler (s : sched) : option sched :=
  let! (xSwitchRequired, k) := xTaskIncrementTick (sd_kernel s) in
  let s := with_k s k in
  if xSwitchRequired : bool then switch_context s else Some s.
