(* ===== verification/KernelLists.v ===== *)
(** * Every task is on exactly one list

    The part of the kernel's invariant that is about where tasks are: their state
    items, their event items and the ready lists; and that the moves all calls are
    made of keep it. *)

From stdpp Require Import base list option gmap.
From Stdlib Require Import ZArith Lia.
From S2P Require Import Prelude FreeRTOSList Kernel KernelSched KernelPrio KernelNotify KernelTask.

Inductive state_list := LReady (p : Z) | LDelayed | LOverflow | LSuspended | LDeleted.

Definition ready_at (k : kernel) (p : Z) : list Z := default [] (pxReadyTasksLists k !! p).

(** [w] is the list of deleted tasks. *)
Definition on_list (w : list Z) (k : kernel) (l : state_list) : list Z :=
  match l with
  | LReady p => ready_at k p
  | LDelayed => pxDelayedTaskList k
  | LOverflow => pxOverflowDelayedTaskList k
  | LSuspended => xSuspendedTaskList k
  | LDeleted => w
  end.

Definition on_event_list (k : kernel) (l : Z) : list Z := default [] (event_lists k !! l).

Definition is_event_list (l : Z) : Prop := l <> NULL /\ l <> xPendingReadyList_addr.

(** The tasks of [x] are on their way from one list to another. *)
Record placed (w x : list Z) (k : kernel) : Prop := {
  pl_nodup : forall l, NoDup (on_list w k l);
  pl_unique : forall t l1 l2, t ∈ on_list w k l1 -> t ∈ on_list w k l2 -> l1 = l2;
  pl_task : forall t, is_Some (tcbs k !! t) <-> t ∈ x \/ exists l, t ∈ on_list w k l;
  pl_moving : forall t l, t ∈ x -> t ∉ on_list w k l;
  pl_null : tcbs k !! NULL = None;
  pl_ready : forall t p, t ∈ ready_at k p -> priority k t = p;
  pl_priority : forall t c, tcbs k !! t = Some c ->
    0 <= uxPriority c < configMAX_PRIORITIES /\ 0 <= uxBasePriority c < configMAX_PRIORITIES;
  pl_top : forall p t, t ∈ ready_at k p -> p <= uxTopReadyPriority k;
  pl_index : forall p i, ready_index k !! p = Some i -> i = NULL \/ i ∈ ready_at k p;
  pl_event : forall t l, is_event_list l -> (t ∈ on_event_list k l <-> event_container k t = l);
  pl_event_lists : forall l, ~ is_event_list l -> event_lists k !! l = None;
  pl_event_nodup : forall l, NoDup (on_event_list k l);
  pl_pending : forall t, t ∈ xPendingReadyList k <-> event_container k t = xPendingReadyList_addr;
  pl_pending_nodup : NoDup (xPendingReadyList k);
  pl_free : forall t l, t ∈ on_list w k l -> match l with LReady _ | LDeleted => event_container k t = NULL | _ => True end }.

Lemma event_container_task k t : event_container k t <> NULL -> is_Some (tcbs k !! t).
Proof. unfold event_container. destruct (tcbs k !! t); [eauto|done]. Qed.

(** What the invariant looks at. *)
Lemma placed_ext w x k k' : placed w x k -> (forall l, on_list w k' l = on_list w k l) -> tcbs k' = tcbs k ->
  uxTopReadyPriority k' = uxTopReadyPriority k -> ready_index k' = ready_index k ->
  event_lists k' = event_lists k -> xPendingReadyList k' = xPendingReadyList k -> placed w x k'.
Proof.
  intros [A1 A2 A3 A4 A5 A6 A7 A8 A9 A10 A11 A12 A13 A14 A15] El Et Eu Ei Ee Ep.
  assert (forall p, ready_at k' p = ready_at k p) as Er by (intros p; apply (El (LReady p))).
  assert (forall t, priority k' t = priority k t) as Epr by (intros t; unfold priority; by rewrite Et).
  assert (forall t, event_container k' t = event_container k t) as Ec by (intros t; unfold event_container; by rewrite Et).
  assert (forall l, on_event_list k' l = on_event_list k l) as Eo by (intros l; unfold on_event_list; by rewrite Ee).
  split; intros *; rewrite ?El, ?Et, ?Eu, ?Ei, ?Ee, ?Ep, ?Er, ?Epr, ?Ec, ?Eo; eauto.
  - rewrite A3. by setoid_rewrite El.
  - exact (A15 t l).
Qed.

Ltac placed_same H := apply (placed_ext _ _ _ _ H); first [done | by intros []].

Lemma placed_yield w x k y : placed w x k -> placed w x (with_yield k y).
Proof. intros H. placed_same H. Qed.

Lemma placed_time w x k a b c : placed w x k -> placed w x (with_time k a b c).
Proof. intros H. placed_same H. Qed.

Lemma placed_unblock w x k a : placed w x k -> placed w x (with_unblock_time k a).
Proof. intros H. placed_same H. Qed.

Lemma placed_suspended w x k n : placed w x k -> placed w x (with_suspended k n).
Proof. intros H. placed_same H. Qed.

Lemma placed_current w x k t : placed w x k -> placed w x (with_current k t).
Proof. intros H. placed_same H. Qed.

(** ** Taking a task off its state list *)

Lemma list_previous_elem p t l : list_previous p t l = p \/ list_previous p t l ∈ l.
Proof.
  revert p. induction l as [|u l IH]; intros p; simpl; [by left|]. destruct (u =? t); [by left|].
  right. destruct (IH u) as [->|H]; [by left|by right].
Qed.

Lemma list_previous_ne p t l : NoDup l -> p <> t -> t ∈ l -> list_previous p t l <> t.
Proof.
  revert p. induction l as [|u l IH]; intros p Hnd Hp Ht; simpl; [by apply elem_of_nil in Ht|].
  destruct (Z.eqb_spec u t) as [->|Hu]; [done|]. apply NoDup_cons in Hnd as [_ Hnd].
  apply IH; [done|done|]. by apply elem_of_cons in Ht as [->|Ht].
Qed.

Lemma on_list_remove w k t l :
  on_list (list_remove_task t w) (remove_state_item k t) l = list_remove_task t (on_list w k l).
Proof.
  destruct l; try done. simpl. unfold ready_at. simpl. rewrite lookup_fmap. by destruct (pxReadyTasksLists k !! p).
Qed.

Lemma placed_take_off w x k t : placed w x k -> t ∉ x -> is_Some (tcbs k !! t) ->
  placed (list_remove_task t w) (t :: x) (remove_state_item k t).
Proof.
  intros H Htx Ht. pose proof H as [A1 A2 A3 A4 A5 A6 A7 A8 A9 A10 A11 A12 A13 A14 A15].
  assert (forall p u, u ∈ ready_at (remove_state_item k t) p <-> u <> t /\ u ∈ ready_at k p) as Hr.
  { intros p u. change (ready_at (remove_state_item k t) p) with (on_list (list_remove_task t w) (remove_state_item k t) (LReady p)).
    by rewrite on_list_remove, list_remove_task_elem. }
  split; try done.
  - intros l. rewrite on_list_remove. by apply NoDup_filter.
  - intros u l1 l2. rewrite !on_list_remove, !list_remove_task_elem. intros [_ H1] [_ H2]. eauto.
  - intros u. simpl. rewrite A3, elem_of_cons. setoid_rewrite on_list_remove. setoid_rewrite list_remove_task_elem.
    destruct (decide (u = t)) as [->|Hu].
    + rewrite <- A3. split; [auto|done].
    + naive_solver.
  - intros u l. rewrite on_list_remove, list_remove_task_elem, elem_of_cons. intros [->|Hu]; [naive_solver|].
    intros [_ Hl]. by apply (A4 u l).
  - intros u p Hu. apply Hr in Hu as [_ Hu]. by apply A6.
  - intros p u Hu. apply Hr in Hu as [_ Hu]. eauto.
  - intros p i. simpl. rewrite map_lookup_imap. destruct (ready_index k !! p) as [j|] eqn:E; simpl; [|done].
    intros [= <-]. pose proof (A9 p j E) as Hj. rewrite Hr.
    destruct (Z.eqb_spec j t) as [->|Hjt]; [|destruct Hj; auto].
    fold (ready_at k p). destruct (list_previous_elem NULL t (ready_at k p)) as [E'|E']; [by left|right].
    destruct Hj as [->|Hj]; [by rewrite A5 in Ht; destruct Ht|]. split; [|done].
    apply list_previous_ne; [apply (A1 (LReady p))|intros <-; rewrite A5 in Ht; by destruct Ht|done].
  - intros u l. rewrite on_list_remove, list_remove_task_elem. intros [_ Hu]. exact (A15 u l Hu).
Qed.

(** A task that is not deleted. *)
Lemma placed_take_off' w x k t : placed w x k -> t ∉ x -> t ∉ w -> is_Some (tcbs k !! t) ->
  placed w (t :: x) (remove_state_item k t).
Proof. intros H Hx Hw Ht. rewrite <- (list_remove_task_absent t w Hw) at 1. by apply placed_take_off. Qed.

(** ** Event items *)

Lemma container_altered k t c u : event_container (alter_tcb k t (set_event_container c)) u =
  (if decide (u = t) then match tcbs k !! t with Some _ => c | None => NULL end else event_container k u).
Proof.
  unfold event_container, alter_tcb. simpl. rewrite lookup_alter. case_decide as E.
  - subst u. rewrite decide_True by done. by destruct (tcbs k !! t).
  - by rewrite decide_False by congruence.
Qed.

Lemma priority_alter k t f u : (forall c, uxPriority (f c) = uxPriority c) -> priority (alter_tcb k t f) u = priority k u.
Proof.
  intros Hf. unfold priority, alter_tcb. simpl. rewrite lookup_alter. case_decide as E; [|done].
  subst. destruct (tcbs k !! u); simpl; [by rewrite Hf|done].
Qed.

Lemma is_Some_alter k t f u : is_Some (tcbs (alter_tcb k t f) !! u) <-> is_Some (tcbs k !! u).
Proof.
  unfold alter_tcb. simpl. rewrite lookup_alter. case_decide; [|done]. subst. by rewrite fmap_is_Some.
Qed.

(** A change to a control block the lists do not depend on. *)
Lemma placed_alter w x k t f : placed w x k -> (forall c, uxPriority (f c) = uxPriority c) ->
  (forall c, xEventContainer (f c) = xEventContainer c) ->
  (forall c, tcbs k !! t = Some c -> 0 <= uxBasePriority (f c) < configMAX_PRIORITIES) -> placed w x (alter_tcb k t f).
Proof.
  intros [A1 A2 A3 A4 A5 A6 A7 A8 A9 A10 A11 A12 A13 A14 A15] Hp Hc Hb.
  assert (forall u, event_container (alter_tcb k t f) u = event_container k u) as Ec.
  { intros u. unfold event_container, alter_tcb. simpl. rewrite lookup_alter. case_decide as E; [|done].
    subst. destruct (tcbs k !! u); simpl; [by rewrite Hc|done]. }
  split; try done.
  - intros u. rewrite is_Some_alter. apply A3.
  - unfold alter_tcb. simpl. rewrite lookup_alter. case_decide; [|done]. subst. by rewrite A5.
  - intros u p Hu. rewrite priority_alter by done. by apply A6.
  - intros u c. unfold alter_tcb. simpl. rewrite lookup_alter. case_decide; [|apply A7]. subst.
    destruct (tcbs k !! u) as [c0|] eqn:E; simpl; [|done]. intros [= <-]. rewrite Hp. split; [by apply (A7 u)|by apply Hb].
  - intros u l Hl. rewrite Ec. by apply A10.
  - intros u. rewrite Ec. apply A13.
  - intros u l Hu. rewrite Ec. exact (A15 u l Hu).
Qed.

(** Event item of [t] off its list: the lists [e] and [p] are without it. *)
Lemma placed_event_off w x k k' t : placed w x k -> is_Some (tcbs k !! t) ->
  (forall l, on_list w k' l = on_list w k l) -> tcbs k' = alter (set_event_container NULL) t (tcbs k) ->
  uxTopReadyPriority k' = uxTopReadyPriority k -> ready_index k' = ready_index k ->
  (forall l, event_lists k' !! l = list_remove_task t <$> event_lists k !! l) ->
  xPendingReadyList k' = list_remove_task t (xPendingReadyList k) ->
  placed w x k' /\ event_container k' t = NULL /\ forall u, u <> t -> event_container k' u = event_container k u.
Proof.
  intros [A1 A2 A3 A4 A5 A6 A7 A8 A9 A10 A11 A12 A13 A14 A15] Ht El Et Eu Ei Ee Ep.
  assert (forall u, event_container k' u = if decide (u = t) then NULL else event_container k u) as Ec.
  { intros u. unfold event_container. rewrite Et, lookup_alter. case_decide as E.
    - subst u. rewrite decide_True by done. by destruct (tcbs k !! t).
    - by rewrite decide_False by congruence. }
  assert (forall u, priority k' u = priority k u) as Epr.
  { intros u. unfold priority. rewrite Et, lookup_alter. case_decide as E; [subst|done]. by destruct (tcbs k !! u). }
  assert (forall p, ready_at k' p = ready_at k p) as Er by (intros p; apply (El (LReady p))).
  assert (forall l, on_event_list k' l = list_remove_task t (on_event_list k l)) as Eo
    by (intros l; unfold on_event_list; rewrite Ee; by destruct (event_lists k !! l)).
  split; [|split; [by rewrite Ec, decide_True|intros u Hu; by rewrite Ec, decide_False]].
  split; intros *; rewrite ?El, ?Eu, ?Ei, ?Ep, ?Er, ?Epr, ?Ec, ?Eo; eauto.
  - rewrite Et, lookup_alter. setoid_rewrite El. rewrite <- A3. case_decide; [subst; by rewrite fmap_is_Some|done].
  - rewrite Et, lookup_alter. case_decide; [subst; by rewrite A5|done].
  - rewrite Et, lookup_alter. case_decide; [|apply A7]. subst. destruct (tcbs k !! t0) as [c0|] eqn:E; simpl; [|done].
    intros [= <-]. exact (A7 t0 c0 E).
  - intros Hl. rewrite list_remove_task_elem, A10 by done. case_decide; [|naive_solver]. unfold is_event_list in Hl. naive_solver.
  - intros Hl. by rewrite Ee, A11.
  - by apply NoDup_filter.
  - rewrite list_remove_task_elem, A13. case_decide; [|naive_solver]. unfold NULL, xPendingReadyList_addr. naive_solver.
  - by apply NoDup_filter.
  - intros Hl. pose proof (A15 t0 l Hl). case_decide; [by destruct l|done].
Qed.

Lemma alter_remove_absent (m : gmap Z (list Z)) c t l : (forall l', l' <> c -> t ∉ default [] (m !! l')) ->
  alter (list_remove_task t) c m !! l = list_remove_task t <$> m !! l.
Proof.
  intros H. rewrite lookup_alter. case_decide as E; [by subst|].
  specialize (H l ltac:(congruence)). destruct (m !! l); simpl in *; [by rewrite list_remove_task_absent|done].
Qed.

Lemma placed_leave_event w x k t : placed w x k -> is_Some (tcbs k !! t) ->
  placed w x (leave_event_list k t) /\ event_container (leave_event_list k t) t = NULL /\
  forall u, u <> t -> event_container (leave_event_list k t) u = event_container k u.
Proof.
  intros H Ht. unfold leave_event_list. destruct (Z.eqb_spec (event_container k t) NULL) as [En|En]; [done|].
  pose proof H as [A1 A2 A3 A4 A5 A6 A7 A8 A9 A10 A11 A12 A13 A14 A15].
  assert (forall l, l <> event_container k t -> t ∉ default [] (event_lists k !! l)) as Hout.
  { intros l Hl Hin. destruct (decide (l = NULL \/ l = xPendingReadyList_addr)) as [Hd|Hd].
    - rewrite A11 in Hin by (unfold is_event_list; tauto). by apply elem_of_nil in Hin.
    - apply Hl. symmetry. apply (A10 t l); [unfold is_event_list; tauto|done]. }
  destruct (Z.eqb_spec (event_container k t) xPendingReadyList_addr) as [Ep|Ep].
  - apply (placed_event_off w x k); try done. intros l.
    assert (t ∉ default [] (event_lists k !! l)) as Hn.
    { destruct (decide (l = event_container k t)) as [->|]; [|by apply Hout].
      rewrite Ep, A11; [apply not_elem_of_nil|unfold is_event_list; tauto]. }
    simpl. destruct (event_lists k !! l); simpl in *; [by rewrite list_remove_task_absent|done].
  - unfold remove_event_item. destruct Ht as [c Hc]. rewrite Hc.
    assert (xEventContainer c = event_container k t) as -> by (unfold event_container; by rewrite Hc).
    apply (placed_event_off w x k); try done.
    + simpl. apply map_eq. intros u. rewrite lookup_insert, lookup_alter. case_decide; [|done]. subst. by rewrite Hc.
    + intros l. simpl. by apply alter_remove_absent.
    + simpl. rewrite list_remove_task_absent; [done|]. by rewrite A13.
Qed.

Lemma leave_event_other k t : let k' := leave_event_list k t in
  (forall w l, on_list w k' l = on_list w k l) /\ pxCurrentTCB k' = pxCurrentTCB k /\
  uxSchedulerSuspended k' = uxSchedulerSuspended k /\ xYieldPending k' = xYieldPending k /\
  xTickCount k' = xTickCount k /\ xPendedTicks k' = xPendedTicks k /\
  xNextTaskUnblockTime k' = xNextTaskUnblockTime k /\
  (forall u, priority k' u = priority k u) /\ (forall u, state_value k' u = state_value k u).
Proof.
  unfold leave_event_list. destruct (_ =? _); [done|]. destruct (_ =? _).
  - split_and!; try done; intros u; unfold priority, state_value; simpl; rewrite lookup_alter;
      (case_decide; [subst; by destruct (tcbs k !! u)|done]).
  - split_and!; try (unfold remove_event_item; by destruct (tcbs k !! t)).
    + intros u. apply priority_remove_event.
    + intros u. apply state_value_remove_event.
Qed.

(** ** Putting a task on a state list *)

#[global] Instance state_list_eq_dec : EqDecision state_list.
Proof. solve_decision. Defined.

Lemma placed_put w w' x k k' t to : placed w (t :: x) k -> t ∉ x ->
  (forall l, on_list w' k' l ≡ₚ (if decide (l = to) then t :: on_list w k l else on_list w k l)) ->
  match to with
  | LReady p => priority k t = p /\ event_container k t = NULL /\ p <= uxTopReadyPriority k'
  | LDeleted => event_container k t = NULL
  | _ => True
  end ->
  tcbs k' = tcbs k -> uxTopReadyPriority k <= uxTopReadyPriority k' -> ready_index k' = ready_index k ->
  event_lists k' = event_lists k -> xPendingReadyList k' = xPendingReadyList k -> placed w' x k'.
Proof.
  intros [A1 A2 A3 A4 A5 A6 A7 A8 A9 A10 A11 A12 A13 A14 A15] Hx El Hto Et Eu Ei Ee Ep.
  assert (forall l, t ∉ on_list w k l) as Hn by (intros l; apply A4; by left).
  assert (forall l u, u ∈ on_list w' k' l <-> u = t /\ l = to \/ u ∈ on_list w k l) as Ein.
  { intros l u. rewrite El. case_decide; [rewrite elem_of_cons|]; naive_solver. }
  assert (forall p u, u ∈ ready_at k' p <-> u = t /\ LReady p = to \/ u ∈ ready_at k p) as Er
    by (intros p u; apply (Ein (LReady p))).
  assert (forall u, priority k' u = priority k u) as Epr by (intros u; unfold priority; by rewrite Et).
  assert (forall u, event_container k' u = event_container k u) as Ec by (intros u; unfold event_container; by rewrite Et).
  assert (forall l, on_event_list k' l = on_event_list k l) as Eo by (intros l; unfold on_event_list; by rewrite Ee).
  split; intros *; rewrite ?Et, ?Ei, ?Ee, ?Ep, ?Epr, ?Ec, ?Eo; eauto.
  - rewrite El. case_decide; [|done]. by constructor.
  - rewrite !Ein. intros [[-> ->]|H1] [[E ->]|H2]; [done|by destruct (Hn l2)|subst; by destruct (Hn l1)|eauto].
  - rewrite A3, elem_of_cons. setoid_rewrite Ein. split; [|naive_solver].
    intros [[->|?]|[l ?]]; [right; exists to|..]; eauto.
  - intros Hu. rewrite Ein. intros [[-> _]|Hl]; [done|]. apply (A4 t0 l); [by right|done].
  - rewrite Er. intros [[-> <-]|Hu]; [by apply Hto|by apply A6].
  - rewrite Er. intros [[-> <-]|Hu]; [by apply Hto|]. transitivity (uxTopReadyPriority k); [by eapply A8|done].
  - intros Hi. rewrite Er. destruct (A9 p i Hi); auto.
  - rewrite Ein. intros [[-> ->]|Hu]; [|exact (A15 t0 l Hu)]. destruct to; try done. by destruct Hto as (_ & ? & _).
Qed.

Lemma add_ready_other k t : let k' := prvAddTaskToReadyList k t in
  tcbs k' = tcbs k /\ ready_index k' = ready_index k /\ event_lists k' = event_lists k /\
  xPendingReadyList k' = xPendingReadyList k /\ uxTopReadyPriority k <= uxTopReadyPriority k' /\
  priority k t <= uxTopReadyPriority k' /\ pxCurrentTCB k' = pxCurrentTCB k /\
  uxSchedulerSuspended k' = uxSchedulerSuspended k /\ xYieldPending k' = xYieldPending k /\
  xTickCount k' = xTickCount k /\ xPendedTicks k' = xPendedTicks k /\
  xNextTaskUnblockTime k' = xNextTaskUnblockTime k /\ pxDelayedTaskList k' = pxDelayedTaskList k /\
  pxOverflowDelayedTaskList k' = pxOverflowDelayedTaskList k /\ xSuspendedTaskList k' = xSuspendedTaskList k.
Proof.
  unfold prvAddTaskToReadyList, taskRECORD_READY_PRIORITY.
  destruct (Z.ltb_spec (uxTopReadyPriority k) (priority k t)); simpl; split_and!; done || lia.
Qed.

Lemma on_list_add_ready w k t l : on_list w (prvAddTaskToReadyList k t) l ≡ₚ
  (if decide (l = LReady (priority k t)) then t :: on_list w k l else on_list w k l).
Proof.
  destruct (add_ready_other k t) as (_ & _ & _ & _ & _ & _ & _ & _ & _ & _ & _ & _ & Ed & Eo & Es).
  destruct l as [p| | | |]; cbn [on_list]; rewrite ?Ed, ?Eo, ?Es; try by case_decide.
  unfold ready_at. rewrite add_to_ready_perm. case_decide as E; [|rewrite app_nil_r, decide_False by congruence; done].
  rewrite decide_True by congruence. by rewrite <- Permutation_cons_append.
Qed.

Lemma placed_put_ready w x k t : placed w (t :: x) k -> t ∉ x -> event_container k t = NULL ->
  placed w x (prvAddTaskToReadyList k t).
Proof.
  intros H Hx Hc. destruct (add_ready_other k t) as (F1 & F2 & F3 & F4 & F5 & F6 & _).
  apply (placed_put w w x k _ t (LReady (priority k t)) H Hx); try done. apply on_list_add_ready.
Qed.

Lemma placed_put_suspended w x k t : placed w (t :: x) k -> t ∉ x ->
  placed w x (with_state_lists k (pxReadyTasksLists k) (pxDelayedTaskList k) (pxOverflowDelayedTaskList k)
                (xSuspendedTaskList k ++ [t])).
Proof.
  intros H Hx. apply (placed_put w w x k _ t LSuspended H Hx); try done.
  intros l. destruct l; cbn [on_list]; try by case_decide. rewrite decide_True by done. symmetry. apply Permutation_cons_append.
Qed.

Lemma placed_put_deleted w x k t : placed w (t :: x) k -> t ∉ x -> event_container k t = NULL ->
  placed (w ++ [t]) x k.
Proof.
  intros H Hx Hc. apply (placed_put w (w ++ [t]) x k _ t LDeleted H Hx); try done.
  intros l. destruct l; cbn [on_list]; try by case_decide. rewrite decide_True by done. symmetry. apply Permutation_cons_append.
Qed.

(** ** Priorities, new and freed tasks *)

(** A change to the control block [c] that gives it the priority [p]. *)
Record gives (p : Z) (f : TCB_t -> TCB_t) (c : TCB_t) : Prop := {
  gi_priority : uxPriority (f c) = p;
  gi_base : 0 <= uxBasePriority c < configMAX_PRIORITIES -> 0 <= uxBasePriority (f c) < configMAX_PRIORITIES;
  gi_container : xEventContainer (f c) = xEventContainer c;
  gi_state : xStateItemValue (f c) = xStateItemValue c }.

(** A task that is not ready takes another priority. *)
Lemma placed_gives w x k t p f c : placed w x k -> (forall q, t ∉ ready_at k q) -> 0 <= p < configMAX_PRIORITIES ->
  tcbs k !! t = Some c -> gives p f c -> placed w x (alter_tcb k t f).
Proof.
  intros [A1 A2 A3 A4 A5 A6 A7 A8 A9 A10 A11 A12 A13 A14 A15] Hr Hp Ht [G1 G2 G3 G4].
  assert (forall u, event_container (alter_tcb k t f) u = event_container k u) as Ec.
  { intros u. unfold event_container, alter_tcb. simpl. rewrite lookup_alter. case_decide as E; [|done].
    subst. by rewrite Ht. }
  split; try done.
  - intros u. rewrite is_Some_alter. apply A3.
  - unfold alter_tcb. simpl. rewrite lookup_alter. case_decide; [|done]. subst. by rewrite A5.
  - intros u q Hu. unfold priority, alter_tcb. simpl. rewrite lookup_alter_ne by (intros <-; by apply (Hr q)). by apply A6.
  - intros u d. unfold alter_tcb. simpl. rewrite lookup_alter. case_decide as E; [subst u|apply A7].
    rewrite Ht. intros [= <-]. rewrite G1. split; [done|]. apply G2. exact (proj2 (A7 t c Ht)).
  - intros u l Hl. rewrite Ec. by apply A10.
  - intros u. rewrite Ec. apply A13.
  - intros u l Hu. rewrite Ec. exact (A15 u l Hu).
Qed.

Lemma placed_free w x k t : placed w (t :: x) k -> t ∉ x -> event_container k t = NULL ->
  placed w x (with_tcbs k (delete t (tcbs k))).
Proof.
  intros [A1 A2 A3 A4 A5 A6 A7 A8 A9 A10 A11 A12 A13 A14 A15] Hx Hc.
  assert (forall l, t ∉ on_list w k l) as Hn by (intros l; apply A4; by left).
  set (k' := with_tcbs k (delete t (tcbs k))).
  assert (forall u, event_container k' u = if decide (u = t) then NULL else event_container k u) as Ec.
  { intros u. unfold event_container. simpl. rewrite lookup_delete. case_decide as E; [by rewrite decide_True|by rewrite decide_False by congruence]. }
  assert (forall u, event_container k' u = event_container k u) as Ec' by (intros u; rewrite Ec; case_decide; by subst).
  split; try done.
  - intros u. simpl. rewrite lookup_delete. destruct (decide (t = u)) as [<-|Hu].
    + split; [by intros []|]. intros [?|[l ?]]; [done|by destruct (Hn l)].
    + rewrite A3, elem_of_cons. change (on_list w k') with (on_list w k). naive_solver.
  - intros u l Hu. apply A4. by right.
  - simpl. rewrite lookup_delete. by case_decide.
  - intros u p Hu. unfold priority. simpl. rewrite lookup_delete_ne by (intros <-; by apply (Hn (LReady p))). by apply A6.
  - intros u c. simpl. rewrite lookup_delete. case_decide; [done|apply A7].
  - intros u l Hl. rewrite Ec'. by apply A10.
  - intros u. rewrite Ec'. apply A13.
  - intros u l Hu. rewrite Ec'. exact (A15 u l Hu).
Qed.

Lemma placed_new w x k t c : placed w x k -> tcbs k !! t = None -> t <> NULL -> xEventContainer c = NULL ->
  0 <= uxPriority c < configMAX_PRIORITIES -> 0 <= uxBasePriority c < configMAX_PRIORITIES ->
  placed w (t :: x) (with_tcbs k (<[t := c]> (tcbs k))) /\ t ∉ x.
Proof.
  intros [A1 A2 A3 A4 A5 A6 A7 A8 A9 A10 A11 A12 A13 A14 A15] Ht H0 Hc Hp Hb.
  set (k' := with_tcbs k (<[t := c]> (tcbs k))).
  assert (t ∉ x /\ forall l, t ∉ on_list w k l) as [Hx Hn].
  { assert (~ (t ∈ x \/ exists l, t ∈ on_list w k l)) as H by (rewrite <- A3, Ht; by intros []). split; [tauto|].
    intros l Hl. apply H. eauto. }
  assert (event_container k t = NULL) as H1 by (unfold event_container; by rewrite Ht).
  assert (forall u, event_container k' u = event_container k u) as Ec.
  { intros u. unfold event_container at 1. simpl. rewrite lookup_insert. case_decide; [subst; simpl; congruence|done]. }
  split; [|done]. split; try done.
  - intros u. simpl. rewrite lookup_insert, elem_of_cons. destruct (decide (t = u)) as [<-|Hu].
    + split; [by left; left|eauto].
    + rewrite A3. change (on_list w k') with (on_list w k). naive_solver.
  - intros u l [->|Hu]%elem_of_cons; [apply Hn|by apply A4].
  - simpl. by rewrite lookup_insert_ne.
  - intros u p Hu. unfold priority. simpl. rewrite lookup_insert_ne by (intros <-; by apply (Hn (LReady p))). by apply A6.
  - intros u c'. simpl. rewrite lookup_insert. case_decide; [by intros [= <-]|apply A7].
  - intros u l Hl. rewrite Ec. by apply A10.
  - intros u. rewrite Ec. apply A13.
  - intros u l Hu. rewrite Ec. exact (A15 u l Hu).
Qed.
