(* ===== verification/KernelSafe.v ===== *)
(** * The highest-priority ready task runs

    The invariant of the kernel's calls: every task is on exactly one list, the
    running task is ready, and no ready task outranks it unless a switch is
    pending; every call keeps it and hits no assertion. *)

From stdpp Require Import base list option gmap.
From Stdlib Require Import ZArith Lia.
From S2P Require Import Prelude FreeRTOSList Kernel KernelSched KernelPrio KernelNotify KernelTask KernelLists.

(** [y]: a switch is pending. *)
Definition preempts (k : kernel) (y : bool) : Prop :=
  forall t p, t ∈ ready_at k p -> priority k (pxCurrentTCB k) < p -> y = true.

Definition is_ready (k : kernel) (t : Z) : Prop := t ∈ ready_at k (priority k t).

(** ** The context switch *)

Lemma item_after_elem i l : item_after i l = NULL \/ item_after i l ∈ l.
Proof.
  induction l as [|u l IH]; simpl; [by left|]. destruct (u =? i).
  - destruct l; simpl; [by left|right; right; by left].
  - destruct IH as [->|H]; [by left|right; by right].
Qed.

Lemma next_entry_elem i l : l <> [] -> NULL ∉ l -> listGET_OWNER_OF_NEXT_ENTRY i l ∈ l.
Proof.
  intros Hl H0. unfold listGET_OWNER_OF_NEXT_ENTRY.
  assert (list_next NULL l ∈ l) as Hh by (destruct l; [done|by left]).
  destruct (Z.eqb_spec (list_next i l) NULL) as [->|Hn]; [done|].
  unfold list_next in *. destruct (Z.eqb_spec i NULL) as [->|Hi]; [done|].
  by destruct (item_after_elem i l).
Qed.

Lemma find_top_priority_spec n k : (exists p, 0 <= p <= Z.of_nat n /\ ready_at k p <> []) ->
  exists p, find_top_priority n k = Some p /\ ready_at k p <> [] /\ 0 <= p <= Z.of_nat n /\
    forall q, p < q <= Z.of_nat n -> ready_at k q = [].
Proof.
  induction n as [|n IH]; intros (p & Hp & Hr); simpl; fold (ready_at k 0); unfold ready_at at 1.
  - assert (p = 0) as -> by lia. unfold ready_at in Hr. simpl in Hr.
    destruct (default [] (pxReadyTasksLists k !! 0)) eqn:E; [done|]. exists 0. unfold ready_at. change (Z.of_nat 0) with 0 in *. rewrite E.
    split_and!; try done; intros; lia.
  - destruct (default [] (pxReadyTasksLists k !! Z.of_nat (S n))) eqn:E.
    + destruct IH as (q & Hq & H1 & H2 & H3).
      { exists p. split; [|done]. destruct (decide (p = Z.of_nat (S n))) as [->|]; [|lia].
        unfold ready_at in Hr. by rewrite E in Hr. }
      exists q. split_and!; try done; try lia. intros r Hr'. destruct (decide (r = Z.of_nat (S n))) as [->|]; [done|].
      apply H3. lia.
    + exists (Z.of_nat (S n)). unfold ready_at at 1. rewrite E. split_and!; try done; intros; lia.
Qed.

Lemma ready_priority w x k t p : placed w x k -> t ∈ ready_at k p -> 0 <= p < configMAX_PRIORITIES.
Proof.
  intros H Ht. pose proof (pl_ready _ _ _ H t p Ht) as E.
  assert (is_Some (tcbs k !! t)) as [c Hc] by (apply (pl_task _ _ _ H); right; by exists (LReady p)).
  pose proof (proj1 (pl_priority _ _ _ H t c Hc)). rewrite <- E. unfold priority. by rewrite Hc.
Qed.

(** With the scheduler running a switch chooses a ready task of the highest priority. *)
Lemma select_spec w k t0 p0 : placed w [] k -> t0 ∈ ready_at k p0 -> uxSchedulerSuspended k = 0 ->
  exists t p, vTaskSwitchContext k = Some (with_top_ready (with_current (with_ready_index (with_yield k false)
      (<[p := t]> (ready_index k))) t) p) /\
    t = listGET_OWNER_OF_NEXT_ENTRY (default NULL (ready_index k !! p)) (ready_at k p) /\
    t ∈ ready_at k p /\ forall u q, u ∈ ready_at k q -> q <= p.
Proof.
  intros H Ht0 Hs. unfold vTaskSwitchContext. rewrite Hs. simpl. unfold taskSELECT_HIGHEST_PRIORITY_TASK. simpl.
  pose proof (ready_priority _ _ _ _ _ H Ht0) as B0. pose proof (pl_top _ _ _ H p0 t0 Ht0) as Hle.
  destruct (find_top_priority_spec (Z.to_nat (uxTopReadyPriority k)) (with_yield k false)) as (p & Hp & Hne & Hpr & Hmax).
  { exists p0. split; [lia|]. change (ready_at k p0 <> []). intros E. rewrite E in Ht0. by apply elem_of_nil in Ht0. }
  rewrite Hp. simpl. do 2 eexists. split; [reflexivity|]. split; [done|]. split.
  - apply next_entry_elem; [done|]. intros H0. assert (is_Some (tcbs k !! NULL)) as Hn
      by (apply (pl_task _ _ _ H); right; by exists (LReady p)). rewrite (pl_null _ _ _ H) in Hn. by destruct Hn.
  - intros u q Hu. destruct (decide (q <= p)); [done|]. exfalso.
    pose proof (pl_top _ _ _ H q u Hu). assert (ready_at k q = []) as E by (apply (Hmax q); lia).
    rewrite E in Hu. by apply elem_of_nil in Hu.
Qed.

Lemma placed_switched w k t p : placed w [] k -> t ∈ ready_at k p -> (forall u q, u ∈ ready_at k q -> q <= p) ->
  placed w [] (with_top_ready (with_current (with_ready_index (with_yield k false) (<[p := t]> (ready_index k))) t) p).
Proof.
  intros [A1 A2 A3 A4 A5 A6 A7 A8 A9 A10 A11 A12 A13 A14 A15] Ht Hmax. split; try done.
  - intros q u Hu. by apply (Hmax u q).
  - intros q i. simpl. rewrite lookup_insert. case_decide as E; [|apply A9]. intros [= <-]. right. by subst.
Qed.

(** What every state between two steps has. *)
Record base_ok (idle : Z) (w : list Z) (k : kernel) : Prop := {
  bo_placed : placed w [] k;
  bo_delay : delay_inv k;
  bo_idle : is_ready k idle }.

(** The end of a call that yields. *)
Record settled (idle : Z) (w : list Z) (k : kernel) : Prop := {
  se_base : base_ok idle w k;
  se_current : is_ready k (pxCurrentTCB k);
  se_preempt : preempts k (xYieldPending k) }.

Definition same_counts (k k' : kernel) : Prop :=
  uxSchedulerSuspended k' = uxSchedulerSuspended k /\ xPendedTicks k' = xPendedTicks k /\
  xPendingReadyList k' = xPendingReadyList k.

Lemma yield_settles idle w k : base_ok idle w k -> (uxSchedulerSuspended k <> 0 -> is_ready k (pxCurrentTCB k)) ->
  exists k', vTaskSwitchContext k = Some k' /\ settled idle w k' /\ same_counts k k'.
Proof.
  intros [H1 H2 H3] Hc. destruct (decide (uxSchedulerSuspended k = 0)) as [Hs|Hs].
  - destruct (select_spec w k idle _ H1 H3 Hs) as (t & p & -> & _ & Ht & Hmax). eexists. split; [reflexivity|].
    split; [|done]. pose proof (pl_ready _ _ _ H1 t p Ht) as Hp. split.
    + split; [by apply placed_switched| |done]. destruct H2; by split.
    + unfold is_ready. simpl. change (t ∈ ready_at k (priority k t)). by rewrite Hp.
    + intros u q Hu Hlt. simpl in Hlt. exfalso. pose proof (Hmax u q Hu). unfold priority in *. simpl in *. lia.
  - unfold vTaskSwitchContext. destruct (Z.eqb_spec (uxSchedulerSuspended k) 0); [done|]. simpl.
    eexists. split; [reflexivity|]. split; [|done]. split.
    + split; [by apply placed_yield| |done]. destruct H2; by split.
    + by apply Hc.
    + by intros u q.
Qed.

(** ** Making a task ready *)

Lemma ready_at_moved w k t u p : placed w [] k ->
  u ∈ ready_at (prvAddTaskToReadyList (remove_state_item k t) t) p <->
  u <> t /\ u ∈ ready_at k p \/ u = t /\ p = priority k t.
Proof.
  intros _. unfold ready_at at 1. rewrite add_to_ready_perm, elem_of_app. simpl. rewrite lookup_fmap.
  assert (default [] (list_remove_task t <$> pxReadyTasksLists k !! p) = list_remove_task t (ready_at k p)) as ->
    by (unfold ready_at; by destruct (pxReadyTasksLists k !! p)).
  rewrite list_remove_task_elem. change (priority (remove_state_item k t) t) with (priority k t).
  case_decide; [rewrite list_elem_of_singleton|rewrite elem_of_nil]; naive_solver.
Qed.

(** [k'] is [k] with [t], which was blocked or suspended, made ready. *)
Record readied (w : list Z) (t : Z) (k k' : kernel) : Prop := {
  re_placed : placed w [] k';
  re_delay : delay_inv k -> delay_inv k';
  re_ready : forall u p, u ∈ ready_at k' p <-> u <> t /\ u ∈ ready_at k p \/ u = t /\ p = priority k t;
  re_priority : forall u, priority k' u = priority k u;
  re_current : pxCurrentTCB k' = pxCurrentTCB k;
  re_suspended : uxSchedulerSuspended k' = uxSchedulerSuspended k;
  re_yield : xYieldPending k' = xYieldPending k;
  re_pended : xPendedTicks k' = xPendedTicks k;
  re_pending : xPendingReadyList k' = list_remove_task t (xPendingReadyList k) }.

Lemma leave_event_pending w k t : placed w [] k -> is_Some (tcbs k !! t) ->
  xPendingReadyList (leave_event_list k t) = list_remove_task t (xPendingReadyList k).
Proof.
  intros H Ht. unfold leave_event_list. pose proof (pl_pending _ _ _ H t) as Hp.
  destruct (Z.eqb_spec (event_container k t) NULL) as [E|E].
  { rewrite list_remove_task_absent; [done|]. rewrite Hp, E. unfold NULL, xPendingReadyList_addr. lia. }
  destruct (Z.eqb_spec (event_container k t) xPendingReadyList_addr) as [E'|E']; [done|].
  unfold remove_event_item. destruct Ht as [c ->]. simpl. rewrite list_remove_task_absent; [done|]. tauto.
Qed.

(** Off its event list, off its state list, onto its ready list. *)
Definition make_ready (k : kernel) (t : Z) : kernel :=
  prvAddTaskToReadyList (remove_state_item (leave_event_list k t) t) t.

Lemma make_ready_readied w k t : placed w [] k -> is_Some (tcbs k !! t) -> t ∉ w -> readied w t k (make_ready k t).
Proof.
  intros H Ht Hw. unfold make_ready.
  destruct (placed_leave_event _ _ _ _ H Ht) as (H1 & E1 & _). set (k1 := leave_event_list k t) in *.
  destruct (leave_event_other k t) as (F1 & F2 & F3 & F4 & F5 & F6 & F7 & F8 & F9). fold k1 in F1, F2, F3, F4, F5, F6, F7, F8, F9.
  assert (is_Some (tcbs k1 !! t)) as Ht1.
  { apply (pl_task _ _ _ H1). setoid_rewrite F1. by apply (pl_task _ _ _ H). }
  destruct (add_ready_other (remove_state_item k1 t) t) as (G1 & G2 & G3 & G4 & G5 & G6 & G7 & G8 & G9 & G10 & G11 & G12 & G13 & G14 & G15).
  split.
  - apply placed_put_ready; [|by apply not_elem_of_nil|done]. apply placed_take_off'; [done|by apply not_elem_of_nil|done|done].
  - intros Hd. apply (delay_inv_remove k _ t Hd); [by rewrite G10| | |by rewrite G12|].
    + rewrite G13. simpl. f_equal. apply (F1 w LDelayed).
    + rewrite G14. simpl. f_equal. apply (F1 w LOverflow).
    + intros u. rewrite <- F9. unfold state_value. by rewrite G1.
  - intros u p. rewrite (ready_at_moved w) by done. rewrite F8. change (ready_at k1 p) with (on_list w k1 (LReady p)). by rewrite F1.
  - intros u. rewrite <- F8. unfold priority. by rewrite G1.
  - by rewrite G7.
  - by rewrite G8.
  - by rewrite G9.
  - by rewrite G11.
  - rewrite G4. simpl. by apply (leave_event_pending w).
Qed.

(** A task the invariant has ready stays ready. *)
Lemma readied_is_ready w t k k' u : placed w [] k -> readied w t k k' -> is_ready k u -> is_ready k' u.
Proof.
  intros H [R1 R2 R3 R4 R5 R6 R7] Hu. unfold is_ready in *. rewrite R4, R3. destruct (decide (u = t)); naive_solver.
Qed.

Lemma readied_preempts w t k k' y y' : readied w t k k' -> preempts k y ->
  (y = true -> y' = true) -> (priority k (pxCurrentTCB k) < priority k t -> y' = true) -> preempts k' y'.
Proof.
  intros [R1 R2 R3 R4 R5 R6 R7] H Hy Ht u p Hu Hlt. rewrite R5, R4 in Hlt. apply R3 in Hu as [[_ Hu]|[-> ->]]; eauto.
Qed.

Lemma readied_base idle w t k k' : readied w t k k' -> base_ok idle w k -> base_ok idle w k'.
Proof.
  intros R [H1 H2 H3]. split; [apply R|by apply R|]. by eapply readied_is_ready.
Qed.

(** ** Ticks *)

Lemma wake_task_make_ready k t : event_container k t <> xPendingReadyList_addr -> wake_task k t = make_ready k t.
Proof.
  intros Hp. unfold wake_task, make_ready, leave_event_list, event_container in *. simpl.
  destruct (tcbs k !! t) as [c|] eqn:E; simpl in *; [|done].
  destruct (Z.eqb_spec (xEventContainer c) NULL); [done|]. destruct (Z.eqb_spec (xEventContainer c) xPendingReadyList_addr); [done|].
  unfold remove_event_item. simpl. by rewrite E.
Qed.

Lemma on_list_task w x k t l : placed w x k -> t ∈ on_list w k l -> is_Some (tcbs k !! t).
Proof. intros H Ht. apply (pl_task _ _ _ H). eauto. Qed.

Lemma no_pending_container w x k t : placed w x k -> xPendingReadyList k = [] ->
  event_container k t <> xPendingReadyList_addr.
Proof. intros H Hp E. apply (pl_pending _ _ _ H) in E. rewrite Hp in E. by apply elem_of_nil in E. Qed.

(** What a tick does to who is ready. *)
Record ticked (w : list Z) (k k' : kernel) : Prop := {
  tk_placed : placed w [] k';
  tk_current : pxCurrentTCB k' = pxCurrentTCB k;
  tk_priority : forall u, priority k' u = priority k u;
  tk_ready : forall u, is_ready k u -> is_ready k' u;
  tk_pending : xPendingReadyList k' = [];
  tk_yield : xYieldPending k' = xYieldPending k }.

Lemma unblock_due_safe fuel : forall w k c sw sw' k' y, unblock_due fuel k c sw = Some (sw', k') ->
  placed w [] k -> xPendingReadyList k = [] ->
  ticked w k k' /\ (preempts k (sw || y) -> preempts k' (sw' || y)).
Proof.
  induction fuel as [|fuel IH]; intros w k c sw sw' k' y; cbn [unblock_due]; destruct (pxDelayedTaskList k) as [|t l] eqn:El.
  1,3: intros [= <- <-] H Hp; split; [|done]; split; try done; by apply placed_unblock.
  all: destruct (c <? state_value k t);
    [intros [= <- <-] H Hp; split; [|done]; split; try done; by apply placed_unblock|].
  { done. }
  fold (wake_task k t). intros Hrun H Hp.
  assert (t ∈ on_list w k LDelayed) as Hin by (simpl; rewrite El; by left).
  assert (t ∉ w) as Hw by (intros Hw; by pose proof (pl_unique _ _ _ H t LDelayed LDeleted Hin Hw)).
  pose proof (on_list_task _ _ _ _ _ H Hin) as Ht.
  rewrite wake_task_make_ready in Hrun by (by eapply no_pending_container).
  pose proof (make_ready_readied w k t H Ht Hw) as R.
  assert (xPendingReadyList (make_ready k t) = []) as Hp1 by (rewrite (re_pending _ _ _ _ R), Hp; done).
  destruct (IH w _ _ _ _ _ y Hrun (re_placed _ _ _ _ R) Hp1) as [[T1 T2 T3 T4 T5 T6] Hpr]. split.
  - split; [done|by rewrite T2, (re_current _ _ _ _ R)|intros u; by rewrite T3, (re_priority _ _ _ _ R)| |done|by rewrite T6, (re_yield _ _ _ _ R)].
    intros u Hu. by apply T4, (readied_is_ready w t k).
  - intros Hk. apply Hpr. apply (readied_preempts w t k _ (sw || y) _ R Hk).
    + intros Hy. destruct sw, y; try done; simpl; by rewrite ?orb_true_r.
    + intros Hlt. rewrite !(re_priority _ _ _ _ R), (re_current _ _ _ _ R). apply Z.ltb_lt in Hlt. rewrite Hlt. by rewrite orb_true_r.
Qed.

Definition swap_delayed (l : state_list) : state_list :=
  match l with LDelayed => LOverflow | LOverflow => LDelayed | _ => l end.

Lemma placed_switch_lists w x k k' : placed w x k -> taskSWITCH_DELAYED_LISTS k = Some k' -> placed w x k'.
Proof.
  intros [A1 A2 A3 A4 A5 A6 A7 A8 A9 A10 A11 A12 A13 A14 A15]. unfold taskSWITCH_DELAYED_LISTS, prvResetNextTaskUnblockTime.
  destruct (bool_decide _); [|done]. simpl. intros [= <-].
  set (k' := match _ with [] => _ | _ :: _ => _ end).
  assert (forall l, on_list w k' l = on_list w k (swap_delayed l)) as El by (intros l; unfold k'; destruct (pxOverflowDelayedTaskList k) eqn:E, l; simpl; by rewrite ?E).
  assert (forall p, ready_at k' p = ready_at k p) as Er by (intros p; apply (El (LReady p))).
  assert (tcbs k' = tcbs k /\ uxTopReadyPriority k' = uxTopReadyPriority k /\ ready_index k' = ready_index k /\
          event_lists k' = event_lists k /\ xPendingReadyList k' = xPendingReadyList k) as (Et & Eu & Ei & Ee & Ep)
    by (unfold k'; by destruct (pxOverflowDelayedTaskList k)).
  clearbody k'.
  assert (forall t, priority k' t = priority k t) as Epr by (intros t; unfold priority; by rewrite Et).
  assert (forall t, event_container k' t = event_container k t) as Ec by (intros t; unfold event_container; by rewrite Et).
  assert (forall l, on_event_list k' l = on_event_list k l) as Eo by (intros l; unfold on_event_list; by rewrite Ee).
  assert (forall l, swap_delayed (swap_delayed l) = l) as Ess by (by intros []).
  split; intros *; rewrite ?El, ?Et, ?Eu, ?Ei, ?Ee, ?Ep, ?Er, ?Epr, ?Ec, ?Eo; eauto.
  - intros H1 H2. rewrite <- (Ess l1), <- (Ess l2). f_equal. eauto.
  - rewrite A3. setoid_rewrite El. split; (intros [?|[l ?]]; [by left|right; exists (swap_delayed l); by rewrite ?Ess]).
  - intros Hl. pose proof (A15 t _ Hl). by destruct l.
Qed.

Lemma tick_safe idle w k : base_ok idle w k -> uxSchedulerSuspended k = 0 -> xPendingReadyList k = [] ->
  exists sw k', xTaskIncrementTick k = Some (sw, k') /\ base_ok idle w k' /\ ticked w k k' /\
    uxSchedulerSuspended k' = 0 /\ xPendedTicks k' = xPendedTicks k /\
    (preempts k (xYieldPending k) -> preempts k' sw).
Proof.
  intros [H1 H2 H3] Hs Hp.
  destruct (tick_spec k H2 Hs) as (sw & k' & Hrun & Hinv & _ & Hs' & _). exists sw, k'.
  assert (ticked w k k' /\ (preempts k (xYieldPending k) -> preempts k' sw)) as [T Hpr].
  { unfold xTaskIncrementTick in Hrun. rewrite Hs in Hrun. simpl in Hrun.
    set (c := u32 (xTickCount k + 1)) in *. set (k0 := with_time k c _ _) in Hrun.
    destruct (if c =? 0 then taskSWITCH_DELAYED_LISTS k0 else Some k0) as [k1|] eqn:E1; [|done].
    assert (placed w [] k1 /\ pxCurrentTCB k1 = pxCurrentTCB k /\ (forall u, priority k1 u = priority k u) /\
            (forall p, ready_at k1 p = ready_at k p) /\ xPendingReadyList k1 = [] /\ xYieldPending k1 = xYieldPending k)
      as (P1 & P2 & P3 & P4 & P5 & P6).
    { assert (placed w [] k0) as H0 by by apply placed_time. destruct (c =? 0); [|by injection E1 as <-].
      split; [by eapply placed_switch_lists|]. revert E1. unfold taskSWITCH_DELAYED_LISTS, prvResetNextTaskUnblockTime.
      destruct (bool_decide _); [|done]. simpl. intros [= <-]. by destruct (pxOverflowDelayedTaskList k). }
    destruct (if _ <=? _ then _ else _) as [[sw2 k2]|] eqn:E2; [|done]. injection Hrun as Hsw ->.
    assert (ticked w k1 k' /\ (preempts k1 (xYieldPending k) -> preempts k' (sw2 || xYieldPending k))) as [[T1 T2 T3 T4 T5 T6] Hpr].
    { destruct (_ <=? _).
      - destruct (unblock_due_safe _ _ _ _ _ _ _ (xYieldPending k) E2 P1 P5) as [T Hpr]. split; [done|]. by simpl in Hpr.
      - injection E2 as <- <-. split; [by split|]. by rewrite orb_false_l. }
    split.
    - split; [done|by rewrite T2|intros u; by rewrite T3| |done|by rewrite T6]. intros u Hu. apply T4.
      unfold is_ready in *. by rewrite P3, P4.
    - intros Hk u p Hu Hlt. subst sw. rewrite T6, P6.
      assert (sw2 || xYieldPending k = true) as E.
      { eapply Hpr; [|done|done]. intros v q Hv. rewrite P2, P3, P4 in *. eauto. }
      apply orb_true_iff in E as [->| ->]; [done|by rewrite orb_true_r]. }
  split; [done|]. split; [|split; [done|split; [done|split; [|done]]]].
  - split; [apply T|done|by apply T].
  - by apply (tick_frame _ _ _ Hrun).
Qed.

(** ** Resuming the scheduler *)

Definition counts_ok (k : kernel) : Prop :=
  0 <= uxSchedulerSuspended k < 4294967295 /\ is_u32 (xPendedTicks k) /\
  (uxSchedulerSuspended k = 0 -> xPendingReadyList k = [] /\ xPendedTicks k = 0).

(** What happens to who is ready, and to a pending switch, in a step that keeps the
    running task. *)
Record carried (idle : Z) (w : list Z) (k k' : kernel) : Prop := {
  ca_base : base_ok idle w k';
  ca_current : pxCurrentTCB k' = pxCurrentTCB k;
  ca_ready : forall u, is_ready k u -> is_ready k' u;
  ca_preempt : preempts k (xYieldPending k) -> preempts k' (xYieldPending k') }.

Lemma carried_trans idle w k1 k2 k3 : carried idle w k1 k2 -> carried idle w k2 k3 -> carried idle w k1 k3.
Proof. intros [A1 A2 A3 A4] [B1 B2 B3 B4]. split; [done|congruence|auto|auto]. Qed.

Lemma base_yield idle w k y : base_ok idle w k -> base_ok idle w (with_yield k y).
Proof. intros [H1 [] H3]. split; [by apply placed_yield|by split|done]. Qed.

Lemma base_unblock idle w k : base_ok idle w k -> base_ok idle w (prvResetNextTaskUnblockTime k).
Proof.
  intros [H1 [D1 D2 D3 D4 D5 D6 D7] H3]. unfold prvResetNextTaskUnblockTime.
  destruct (pxDelayedTaskList k) as [|t l] eqn:E; (split; [by apply placed_unblock| |done]); split; simpl; rewrite ?E; try done.
  - constructor; [done|]. by destruct D3.
Qed.

Lemma base_suspended idle w k n : base_ok idle w k -> base_ok idle w (with_suspended k n).
Proof. intros [H1 [] H3]. split; [by apply placed_suspended|by split|done]. Qed.

Lemma base_pended idle w k n : base_ok idle w k -> base_ok idle w (with_time k (xTickCount k) (xNumOfOverflows k) n).
Proof. intros [H1 [] H3]. split; [by apply placed_time|by split|done]. Qed.

Lemma ready_one_make_ready k t : event_container k t = xPendingReadyList_addr ->
  ready_one k t = if taskIS_YIELD_REQUIRED (make_ready k t) t true then with_yield (make_ready k t) true else make_ready k t.
Proof. intros E. unfold ready_one, make_ready, leave_event_list. by rewrite E. Qed.

Lemma taskIS_YIELD_REQUIRED_spec k t (e : bool) : taskIS_YIELD_REQUIRED k t e = true <->
  priority k (pxCurrentTCB k) < priority k t + (if e then 1 else 0).
Proof. apply Z.ltb_lt. Qed.

(** A task is made ready, and a switch noted if it outranks the running one. *)
Lemma made_ready_carried idle w k t (e : bool) : base_ok idle w k -> is_Some (tcbs k !! t) -> t ∉ w ->
  let k1 := make_ready k t in
  carried idle w k (if taskIS_YIELD_REQUIRED k1 t e then with_yield k1 true else k1).
Proof.
  intros H Ht Hw k1. pose proof (make_ready_readied w k t (bo_placed _ _ _ H) Ht Hw) as R. fold k1 in R.
  pose proof (readied_base idle w t k k1 R H) as H1.
  pose proof (taskIS_YIELD_REQUIRED_spec k1 t e) as Hy.
  split.
  - destruct (taskIS_YIELD_REQUIRED _ _ _); [by apply base_yield|done].
  - rewrite <- (re_current _ _ _ _ R). by destruct (taskIS_YIELD_REQUIRED _ _ _).
  - intros u Hu. pose proof (readied_is_ready w t k k1 u (bo_placed _ _ _ H) R Hu). by destruct (taskIS_YIELD_REQUIRED _ _ _).
  - intros Hp. assert (preempts k1 (xYieldPending k || taskIS_YIELD_REQUIRED k1 t e)) as Hp1.
    { apply (readied_preempts w t k k1 _ _ R Hp); [by intros ->|]. intros Hlt.
      rewrite (proj2 Hy); [by rewrite orb_true_r|]. rewrite !(re_priority _ _ _ _ R), (re_current _ _ _ _ R). destruct e; lia. }
    destruct (taskIS_YIELD_REQUIRED _ _ _); [by intros u p|].
    rewrite orb_false_r in Hp1. by rewrite (re_yield _ _ _ _ R).
Qed.

Lemma made_ready_counts w k t (e : bool) : placed w [] k -> is_Some (tcbs k !! t) -> t ∉ w ->
  let k1 := make_ready k t in let k2 := if taskIS_YIELD_REQUIRED k1 t e then with_yield k1 true else k1 in
  uxSchedulerSuspended k2 = uxSchedulerSuspended k /\ xPendedTicks k2 = xPendedTicks k /\
  xPendingReadyList k2 = list_remove_task t (xPendingReadyList k).
Proof.
  intros H Ht Hw k1 k2. pose proof (make_ready_readied w k t H Ht Hw) as [R1 R2 R3 R4 R5 R6 R7 R8 R9].
  subst k2. fold k1 in R6, R8, R9. by destruct (taskIS_YIELD_REQUIRED _ _ _).
Qed.

Lemma pending_task w k t : placed w [] k -> t ∈ xPendingReadyList k ->
  event_container k t = xPendingReadyList_addr /\ is_Some (tcbs k !! t) /\ t ∉ w.
Proof.
  intros H Ht. assert (event_container k t = xPendingReadyList_addr) as E by by apply (pl_pending _ _ _ H).
  split_and!; [done| |].
  - apply event_container_task. rewrite E. done.
  - intros Hw. pose proof (pl_free _ _ _ H t LDeleted Hw) as E'. simpl in E'. by rewrite E in E'.
Qed.

Lemma ready_pending_safe l : forall idle w k, base_ok idle w k -> xPendingReadyList k = l ->
  let k' := ready_pending l k in
  carried idle w k k' /\ xPendingReadyList k' = [] /\
  uxSchedulerSuspended k' = uxSchedulerSuspended k /\ xPendedTicks k' = xPendedTicks k.
Proof.
  induction l as [|t l IH]; intros idle w k H Hl; [by split_and!; [split|..]|].
  rewrite ready_pending_cons. cbv zeta. pose proof (bo_placed _ _ _ H) as Hp.
  destruct (pending_task w k t Hp) as (E & Ht & Hw); [rewrite Hl; by left|].
  rewrite (ready_one_make_ready k t E).
  destruct (made_ready_counts w k t true Hp Ht Hw) as (C1 & C2 & C3).
  pose proof (made_ready_carried idle w k t true H Ht Hw) as Hc.
  set (k1 := if taskIS_YIELD_REQUIRED _ _ _ then _ else _) in *.
  assert (xPendingReadyList k1 = l) as Hl1.
  { rewrite C3, Hl, list_remove_task_cons. pose proof (pl_pending_nodup _ _ _ Hp) as Hn. rewrite Hl in Hn.
    apply NoDup_cons in Hn as [Hn _]. by apply list_remove_task_absent. }
  destruct (IH idle w k1 (ca_base _ _ _ _ Hc) Hl1) as (I1 & I2 & I3 & I4).
  split_and!; [by eapply carried_trans|done|congruence|congruence].
Qed.

Lemma process_pended_ticks_safe n : forall idle w k, base_ok idle w k -> uxSchedulerSuspended k = 0 -> xPendingReadyList k = [] ->
  exists k', process_pended_ticks n k = Some k' /\ carried idle w k k' /\ uxSchedulerSuspended k' = 0 /\ xPendingReadyList k' = [].
Proof.
  induction n as [|n IH]; intros idle w k H Hs Hp; simpl; [exists k; by split_and!|].
  destruct (tick_safe idle w k H Hs Hp) as (sw & k1 & Hrun & H1 & [T1 T2 T3 T4 T5 T6] & Hs1 & _ & Hpr). rewrite Hrun.
  set (k2 := if sw then with_yield k1 true else k1).
  assert (carried idle w k k2) as Hc.
  { split.
    - unfold k2. destruct sw; [by apply base_yield|done].
    - unfold k2. by destruct sw.
    - intros u Hu. unfold k2. pose proof (T4 u Hu). by destruct sw.
    - intros Hk. specialize (Hpr Hk). unfold k2. destruct sw; [by intros u p|].
      intros u p Hu Hlt. specialize (Hpr u p Hu Hlt). done. }
  destruct (IH idle w k2 (ca_base _ _ _ _ Hc)) as (k' & I1 & I2 & I3 & I4); [unfold k2; by destruct sw..|].
  exists k'. split_and!; try done. by eapply carried_trans.
Qed.

Lemma idle_counted idle w k : base_ok idle w k -> 0 < uxTaskGetNumberOfTasks k.
Proof.
  intros [H _ Hi]. pose proof (on_list_task w [] k idle (LReady (priority k idle)) H Hi) as [c Hc].
  unfold uxTaskGetNumberOfTasks. assert (size (tcbs k) <> 0%nat); [|lia].
  apply map_size_non_empty_iff. intros E. by rewrite E, lookup_empty in Hc.
Qed.

Lemma xTaskResumeAll_safe idle w k : base_ok idle w k -> 1 <= uxSchedulerSuspended k < 4294967296 -> is_u32 (xPendedTicks k) ->
  exists y k', xTaskResumeAll k = Some (y, k') /\ carried idle w k k' /\ counts_ok k' /\
    uxSchedulerSuspended k' = uxSchedulerSuspended k - 1 /\
    (y = true -> uxSchedulerSuspended k' = 0) /\ (y = false -> uxSchedulerSuspended k' = 0 -> xYieldPending k' = false).
Proof.
  intros H Hs Ht. unfold xTaskResumeAll. destruct (Z.eqb_spec (uxSchedulerSuspended k) 0); [lia|]. cbn [negb guard_c].
  set (k0 := with_suspended k (uxSchedulerSuspended k - 1)).
  assert (carried idle w k k0) as C0 by (split; [by apply base_suspended|done..]).
  change (uxSchedulerSuspended k0) with (uxSchedulerSuspended k - 1).
  destruct (Z.eqb_spec (uxSchedulerSuspended k - 1) 0) as [E0|E0]; simpl andb.
  2:{ exists false, k0. split; [done|]. split; [done|]. unfold counts_ok. simpl. split_and!; done || lia || (intros; lia). }
  pose proof (idle_counted _ _ _ (ca_base _ _ _ _ C0)) as Hn.
  destruct (Z.ltb_spec 0 (uxTaskGetNumberOfTasks k0)); [|lia]. cbv zeta.
  destruct (ready_pending_safe (xPendingReadyList k0) idle w k0 (ca_base _ _ _ _ C0) eq_refl) as (C1 & P1 & S1 & T1).
  set (k1 := ready_pending (xPendingReadyList k0) k0) in *.
  set (k2 := match xPendingReadyList k0 with [] => k1 | _ => prvResetNextTaskUnblockTime k1 end).
  assert (carried idle w k1 k2 /\ xPendingReadyList k2 = [] /\ uxSchedulerSuspended k2 = 0 /\ xPendedTicks k2 = xPendedTicks k) as (C2 & P2 & S2 & T2).
  { unfold k2. destruct (xPendingReadyList k0).
    - split_and!; [split; [apply C1|done..]|done|by rewrite S1|done].
    - pose proof (base_unblock idle w k1 (ca_base _ _ _ _ C1)) as B. unfold prvResetNextTaskUnblockTime in *.
      destruct (pxDelayedTaskList k1); (split_and!; [by split|done|by simpl; rewrite S1|done]). }
  destruct (Z.ltb_spec 0 (xPendedTicks k2)).
  - destruct (process_pended_ticks_safe (Z.to_nat (xPendedTicks k2)) idle w k2 (ca_base _ _ _ _ C2) S2 P2) as (k3 & R3 & C3 & S3 & P3).
    rewrite R3. do 2 eexists. split; [reflexivity|].
    assert (carried idle w k3 (with_time k3 (xTickCount k3) (xNumOfOverflows k3) 0)) as C4 by (split; [apply base_pended, C3|done..]).
    split; [by apply (carried_trans _ _ k k2), (carried_trans _ _ k2 k3); [apply (carried_trans _ _ k k1), C2; apply (carried_trans _ _ k k0)|..]|]. unfold counts_ok. simpl. rewrite S3, P3, E0.
    split_and!; done || lia.
  - assert (xPendedTicks k2 = 0) as E2 by (unfold is_u32 in Ht; lia).
    do 2 eexists. split; [reflexivity|].
    split; [by apply (carried_trans _ _ k k1), C2; apply (carried_trans _ _ k k0)|].
    unfold counts_ok. rewrite S2, E2, P2, E0. split_and!; done || lia.
Qed.
