(* ===== verification/KernelStep.v ===== *)
(** * Every call keeps the invariant

    The calls of KernelTask.v, one by one: what they need to find no assertion in
    their way, and that they leave a state the invariant of KernelSafe.v holds in. *)

From stdpp Require Import base list option gmap.
From Stdlib Require Import ZArith Lia.
From S2P Require Import Prelude FreeRTOSList Kernel KernelSched KernelPrio KernelNotify KernelTask KernelLists KernelSafe.

(** ** The running task blocks *)

Lemma ready_not_deleted w k t : placed w [] k -> is_ready k t -> t ∉ w.
Proof. intros H Ht Hw. by pose proof (pl_unique _ _ _ H t (LReady (priority k t)) LDeleted Ht Hw). Qed.

Lemma ready_task w k t : placed w [] k -> is_ready k t -> is_Some (tcbs k !! t).
Proof. intros H Ht. by apply (on_list_task w [] k t (LReady (priority k t)) H). Qed.

Lemma ready_not_delayed w k t : placed w [] k -> is_ready k t -> t ∉ delayed_tasks k.
Proof.
  intros H Ht [Hd|Hd]%elem_of_app.
  - by pose proof (pl_unique _ _ _ H t (LReady (priority k t)) LDelayed Ht Hd).
  - by pose proof (pl_unique _ _ _ H t (LReady (priority k t)) LOverflow Ht Hd).
Qed.

(** The state without [t] on its list, before [t] is filed. *)
Lemma block_placed w k n b : placed w [pxCurrentTCB k] (remove_state_item k (pxCurrentTCB k)) ->
  placed w [] (prvAddCurrentTaskToDelayedList k n b).
Proof.
  intros H. unfold prvAddCurrentTaskToDelayedList. cbv zeta. set (t := pxCurrentTCB k) in *.
  change (with_tcbs k (alter (set_delay_aborted false) t (tcbs k))) with (alter_tcb k t (set_delay_aborted false)).
  change (remove_state_item (alter_tcb k t (set_delay_aborted false)) t) with (alter_tcb (remove_state_item k t) t (set_delay_aborted false)).
  assert (placed w [t] (alter_tcb (remove_state_item k t) t (set_delay_aborted false))) as H1.
  { apply placed_alter; try done. intros c Hc. exact (proj2 (pl_priority _ _ _ H t c Hc)). }
  set (k1 := alter_tcb _ t _) in *.
  destruct (_ && _); [by apply placed_put_suspended, not_elem_of_nil|].
  set (v := u32 (xTickCount k + n)).
  change (with_tcbs k1 (alter (set_state_value v) t (tcbs k1))) with (alter_tcb k1 t (set_state_value v)).
  assert (placed w [t] (alter_tcb k1 t (set_state_value v))) as H2.
  { apply placed_alter; try done. intros c Hc. exact (proj2 (pl_priority _ _ _ H1 t c Hc)). }
  set (k2 := alter_tcb k1 t (set_state_value v)) in *.
  destruct (v <? xTickCount k).
  - apply (placed_put w w [] k2 _ t LOverflow H2); try done; [by apply not_elem_of_nil|].
    intros l. destruct l; cbn [on_list]; try by case_decide. rewrite decide_True by done. simpl. by rewrite ordered_insert_perm.
  - set (k3 := with_state_lists k2 _ _ _ _).
    assert (placed w [] k3) as H3.
    { apply (placed_put w w [] k2 k3 t LDelayed H2); try done; [by apply not_elem_of_nil|].
      intros l. destruct l; cbn [on_list]; try by case_decide. rewrite decide_True by done. simpl. by rewrite ordered_insert_perm. }
    cbv zeta. destruct (_ <? _); [by apply placed_unblock|done].
Qed.

(** What blocking leaves alone. *)
Lemma block_other k n b : let t := pxCurrentTCB k in let k' := prvAddCurrentTaskToDelayedList k n b in
  (forall p, ready_at k' p = list_remove_task t (ready_at k p)) /\ (forall u, priority k' u = priority k u) /\
  pxCurrentTCB k' = t /\ uxSchedulerSuspended k' = uxSchedulerSuspended k /\ xYieldPending k' = xYieldPending k /\
  xPendedTicks k' = xPendedTicks k /\ xPendingReadyList k' = xPendingReadyList k.
Proof.
  intros t k'. subst k'. unfold prvAddCurrentTaskToDelayedList. cbv zeta. fold t.
  assert (forall p, default [] ((list_remove_task t <$> pxReadyTasksLists k) !! p) = list_remove_task t (ready_at k p)) as Hr.
  { intros p. unfold ready_at. rewrite lookup_fmap. by destruct (pxReadyTasksLists k !! p). }
  assert (forall (m : gmap Z TCB_t) f u, (forall c, uxPriority (f c) = uxPriority c) ->
    from_option uxPriority 0 (alter f t m !! u) = from_option uxPriority 0 (m !! u)) as Hpr.
  { intros m f v Hf. rewrite lookup_alter. case_decide as E; [|done]. rewrite <- E. destruct (m !! t); simpl; [by rewrite Hf|done]. }
  destruct (_ && _); [|destruct (_ <? _); [|destruct (_ <? _)]];
    (split_and!; [exact Hr|intros v; unfold priority; simpl; by rewrite !Hpr|done..]).
Qed.

(** Blocking for ever is on the suspended list; for a while on a delayed one. *)
Lemma block_delay k n b tcb : delay_inv k -> tcbs k !! pxCurrentTCB k = Some tcb ->
  pxCurrentTCB k ∉ delayed_tasks k -> 0 < n <= portMAX_DELAY -> delay_inv (prvAddCurrentTaskToDelayedList k n b).
Proof.
  intros H Ht Hn Hb. destruct ((n =? portMAX_DELAY) && b) eqn:E; [|by apply (add_current_delayed k n b tcb)].
  unfold prvAddCurrentTaskToDelayedList. rewrite E. cbv zeta.
  apply (delay_inv_remove k _ (pxCurrentTCB k) H); try done.
  intros u. unfold state_value. simpl. rewrite lookup_alter. case_decide; [|done]. subst. by rewrite Ht.
Qed.

(** On an event list; the state item is elsewhere. *)
Definition event_on (k : kernel) (t ev : Z) : kernel :=
  let k := with_tcbs k (alter (set_event_container ev) t (tcbs k)) in
  with_event_lists k (<[ev := ordered_insert (event_value k) t (on_event_list k ev)]> (event_lists k)).

Lemma event_on_placed w x k t ev : placed w (t :: x) k -> event_container k t = NULL -> is_event_list ev ->
  placed w (t :: x) (event_on k t ev).
Proof.
  intros H Hc Hev. pose proof H as [A1 A2 A3 A4 A5 A6 A7 A8 A9 A10 A11 A12 A13 A14 A15].
  assert (is_Some (tcbs k !! t)) as [c Ht] by (apply A3; left; by left).
  set (k' := event_on k t ev).
  assert (forall u, event_container k' u = if decide (u = t) then ev else event_container k u) as Ec.
  { intros u. pose proof (container_altered k t ev u) as E. rewrite Ht in E. exact E. }
  assert (forall u, priority k' u = priority k u) as Epr by (intros u; by apply priority_alter).
  assert (t ∉ on_event_list k ev) as Hn by (rewrite A10, Hc by done; destruct Hev; congruence).
  assert (forall l, on_event_list k' l ≡ₚ if decide (l = ev) then t :: on_event_list k l else on_event_list k l) as Eo.
  { intros l. unfold on_event_list at 1. simpl. rewrite lookup_insert. case_decide.
    - subst. rewrite decide_True by done. simpl. by rewrite ordered_insert_perm.
    - by rewrite decide_False by congruence. }
  split; try done.
  - intros u. change (tcbs k') with (tcbs (alter_tcb k t (set_event_container ev))). rewrite is_Some_alter. apply A3.
  - simpl. rewrite lookup_alter. case_decide; [|done]. subst. by rewrite A5.
  - intros u p Hu. rewrite Epr. by apply A6.
  - intros u d. simpl. rewrite lookup_alter. case_decide; [|apply A7]. subst. rewrite Ht. intros [= <-]. exact (A7 u c Ht).
  - intros u l Hl. rewrite Eo, Ec. destruct (decide (l = ev)) as [->|Hle], (decide (u = t)) as [->|Hut].
    + rewrite elem_of_cons. tauto.
    + rewrite elem_of_cons, A10 by done. tauto.
    + rewrite A10, Hc by done. split; [intros <-; by destruct Hl|congruence].
    + by apply A10.
  - intros l Hl. simpl. rewrite lookup_insert_ne by congruence. by apply A11.
  - intros l. rewrite Eo. case_decide; [subst; by constructor|done].
  - intros u. change (xPendingReadyList k') with (xPendingReadyList k). rewrite Ec, A13. case_decide; [subst; rewrite Hc|done]. destruct Hev as [_ Hev]. split; [done|congruence].
  - intros u l Hu. rewrite Ec. case_decide; [subst; destruct (A4 t l); [by left|done]|exact (A15 u l Hu)].
Qed.

Lemma base_block idle w k n b : base_ok idle w k -> is_ready k (pxCurrentTCB k) -> pxCurrentTCB k <> idle ->
  0 < n <= portMAX_DELAY -> base_ok idle w (prvAddCurrentTaskToDelayedList k n b).
Proof.
  intros [H1 H2 H3] Hr Hi Hn. destruct (ready_task _ _ _ H1 Hr) as [c Hc].
  destruct (block_other k n b) as (B1 & B2 & _). split.
  - apply block_placed, placed_take_off'; [done|by apply not_elem_of_nil|by apply (ready_not_deleted w k)|eauto].
  - apply (block_delay k n b c); try done. by apply (ready_not_delayed w).
  - unfold is_ready. rewrite B1, B2, list_remove_task_elem. done.
Qed.

Lemma base_place idle w k ev n : base_ok idle w k -> is_ready k (pxCurrentTCB k) -> pxCurrentTCB k <> idle ->
  is_event_list ev -> 0 < n <= portMAX_DELAY -> base_ok idle w (vTaskPlaceOnEventList k ev n).
Proof.
  intros [H1 H2 H3] Hr Hi Hev Hn. destruct (ready_task _ _ _ H1 Hr) as [c Hc].
  set (t := pxCurrentTCB k) in *.
  change (vTaskPlaceOnEventList k ev n) with (prvAddCurrentTaskToDelayedList (event_on k t ev) n true).
  set (k1 := event_on k t ev). destruct (block_other k1 n true) as (B1 & B2 & _).
  assert (forall u, priority k1 u = priority k u) as Epr by (intros u; by apply priority_alter).
  split.
  - apply block_placed. change (remove_state_item k1 (pxCurrentTCB k1)) with (event_on (remove_state_item k t) t ev).
    apply event_on_placed; [|exact (pl_free _ _ _ H1 t (LReady (priority k t)) Hr)|done].
    apply placed_take_off'; [done|by apply not_elem_of_nil|by apply (ready_not_deleted w k)|eauto].
  - assert (tcbs k1 !! t = Some (set_event_container ev c)) as Ht1 by (simpl; by rewrite lookup_alter_eq, Hc).
    apply (block_delay k1 n true (set_event_container ev c)); try done; [|exact (ready_not_delayed w k t H1 Hr)].
    apply (delay_inv_same k); try done. intros u. unfold state_value. simpl. rewrite lookup_alter. case_decide as E; [|done].
    rewrite <- E. by rewrite Hc.
  - unfold is_ready. rewrite B1, B2, list_remove_task_elem, Epr. done.
Qed.

(** ** The invariant *)

(** The scheduler runs, and the idle task knows how many deleted tasks wait for it. *)
Definition frame_ok (s : sched) : Prop :=
  xSchedulerRunning s = true /\
  uxDeletedTasksWaitingCleanUp s = Z.of_nat (length (xTasksWaitingTermination s)) /\
  Z.of_nat (length (xTasksWaitingTermination s)) < 4294967296.

Record sched_ok (idle : Z) (s : sched) : Prop := {
  so_settled : settled idle (xTasksWaitingTermination s) (sd_kernel s);
  so_counts : counts_ok (sd_kernel s);
  so_frame : frame_ok s }.

Definition base_of (idle : Z) (s : sched) : Prop := base_ok idle (xTasksWaitingTermination s) (sd_kernel s).

Lemma same_counts_ok k k' : same_counts k k' -> counts_ok k -> counts_ok k'.
Proof. intros (E1 & E2 & E3) H. unfold counts_ok. by rewrite E1, E2, E3. Qed.

Lemma switch_ok idle s : base_of idle s -> counts_ok (sd_kernel s) -> frame_ok s ->
  (uxSchedulerSuspended (sd_kernel s) <> 0 -> is_ready (sd_kernel s) (pxCurrentTCB (sd_kernel s))) ->
  exists s', switch_context s = Some s' /\ sched_ok idle s'.
Proof.
  intros H Hc Hf Hs. unfold switch_context. destruct (yield_settles _ _ _ H Hs) as (k' & -> & Hset & Hsame).
  eexists. split; [reflexivity|]. split; [done|by apply (same_counts_ok (sd_kernel s))|done].
Qed.

Lemma with_k_ok idle s k : frame_ok s -> settled idle (xTasksWaitingTermination s) k -> counts_ok k -> sched_ok idle (with_k s k).
Proof. intros Hf Hs Hc. by split. Qed.

(** A yield if there is a reason for one. *)
Lemma switch_if_ok idle s (y : bool) : base_of idle s -> counts_ok (sd_kernel s) -> frame_ok s ->
  is_ready (sd_kernel s) (pxCurrentTCB (sd_kernel s)) ->
  (y = false -> preempts (sd_kernel s) (xYieldPending (sd_kernel s))) ->
  exists s', (if y then switch_context s else Some s) = Some s' /\ sched_ok idle s'.
Proof.
  intros H Hc Hf Hr Hy. destruct y; [by apply switch_ok|]. eexists. split; [reflexivity|]. split; [split; auto|done..].
Qed.

Lemma carried_settled idle w k k' : settled idle w k -> carried idle w k k' -> settled idle w k'.
Proof. intros [S1 S2 S3] [C1 C2 C3 C4]. split; [done|rewrite C2; auto|auto]. Qed.

Lemma resume_all_ok idle s : settled idle (xTasksWaitingTermination s) (sd_kernel s) -> frame_ok s ->
  1 <= uxSchedulerSuspended (sd_kernel s) < 4294967296 -> is_u32 (xPendedTicks (sd_kernel s)) ->
  exists y s', sched_resume_all s = Some (y, s') /\ sched_ok idle s'.
Proof.
  intros H Hf Hs Ht. unfold sched_resume_all.
  destruct (xTaskResumeAll_safe _ _ _ (se_base _ _ _ H) Hs Ht) as (y & k' & -> & Hc & Hn & _ & Hy & _).
  destruct y.
  - destruct (switch_ok idle (with_k s k')) as (s' & -> & Hok); [apply Hc|done|done|by intros E; destruct E; apply Hy|].
    eexists _, s'. by split.
  - eexists _, (with_k s k'). split; [reflexivity|]. apply with_k_ok; [done|by apply (carried_settled _ _ (sd_kernel s))|done].
Qed.

Lemma resume_and_yield_ok idle s : base_of idle s -> frame_ok s ->
  uxSchedulerSuspended (sd_kernel s) = 1 -> is_u32 (xPendedTicks (sd_kernel s)) ->
  exists s', resume_all_and_yield s = Some s' /\ sched_ok idle s'.
Proof.
  intros H Hf Hs Ht. unfold resume_all_and_yield, sched_resume_all.
  destruct (xTaskResumeAll_safe _ _ _ H ltac:(lia) Ht) as (y & k' & -> & Hc & Hn & E & _). rewrite Hs in E.
  destruct (switch_ok idle (with_k s k')) as (s' & Hsw & Hok); [apply Hc|done|done|by intros []|].
  destruct y; [rewrite Hsw|cbn [fst snd]; rewrite Hsw]; eauto.
Qed.

Lemma suspend_all_counts s : counts_ok (sd_kernel s) -> uxSchedulerSuspended (sd_kernel s) = 0 ->
  uxSchedulerSuspended (sd_kernel (suspend_all s)) = 1 /\ is_u32 (xPendedTicks (sd_kernel (suspend_all s))).
Proof. intros (H1 & H2 & _) Hs. simpl. rewrite Hs. by split. Qed.

Lemma settled_suspended idle w k n : settled idle w k -> settled idle w (with_suspended k n).
Proof. intros [H1 H2 H3]. split; [by apply base_suspended|done|done]. Qed.

(** ** The calls that block *)

Lemma is_u32_eq a b : a = b -> is_u32 b -> is_u32 a.
Proof. by intros ->. Qed.
#[local] Arguments is_u32_eq {_ _} _ _.

Section calls.
Context (idle : Z) (s : sched).
Context (H : sched_ok idle s).

Local Notation k := (sd_kernel s).
Local Notation w := (xTasksWaitingTermination s).
Local Notation cur := (pxCurrentTCB k).

Lemma suspended_off : uxSchedulerSuspended k = 0 -> taskIS_SCHEDULER_SUSPENDED s = false.
Proof. unfold taskIS_SCHEDULER_SUSPENDED. by intros ->. Qed.

Lemma block_ok k' n b : uxSchedulerSuspended k = 0 -> cur <> idle -> 0 < n <= portMAX_DELAY ->
  k' = prvAddCurrentTaskToDelayedList (vTaskSuspendAll k) n b ->
  exists s', resume_all_and_yield (with_k s k') = Some s' /\ sched_ok idle s'.
Proof.
  intros Hs Hi Hn ->. destruct H as [Hset Hc Hf]. destruct (suspend_all_counts s Hc Hs) as [C1 C2].
  destruct (settled_suspended _ _ _ (u32 (uxSchedulerSuspended k + 1)) Hset) as [S1 S2 _].
  destruct (block_other (vTaskSuspendAll k) n b) as (_ & _ & _ & B4 & _ & B6 & _).
  apply resume_and_yield_ok; [by apply base_block|done|exact (eq_trans B4 C1)|exact (is_u32_eq B6 C2)].
Qed.

Lemma vTaskDelay_ok n : (0 < n -> uxSchedulerSuspended k = 0 /\ cur <> idle) -> is_u32 n ->
  exists s', vTaskDelay s n = Some s' /\ sched_ok idle s'.
Proof.
  intros Hp Hn. unfold vTaskDelay. destruct (Z.ltb_spec 0 n) as [Hpos|].
  - destruct (Hp Hpos) as [Hs Hi]. rewrite suspended_off by done. cbn [negb guard_c].
    apply (block_ok _ n false); try done. unfold portMAX_DELAY, is_u32 in *. lia.
  - destruct H as [[] Hc Hf]. by apply switch_ok.
Qed.

Lemma delay_until_ticks prev inc c : is_u32 c ->
  (let wake := u32 (prev + inc) in
   if c <? prev then (wake <? prev) && (c <? wake) else (wake <? prev) || (c <? wake)) = true ->
  0 < u32 (u32 (prev + inc) - c) <= portMAX_DELAY.
Proof.
  intros Hc Hd. cbv zeta in Hd. unfold portMAX_DELAY. pose proof (u32_range (prev + inc)) as Hr.
  set (v := u32 (prev + inc)) in *. unfold is_u32 in Hc.
  assert (v <> c) by (intros ->; by destruct (Z.ltb_spec c prev); rewrite Z.ltb_irrefl in Hd).
  word_lia.
Qed.

Lemma xTaskDelayUntil_ok prev inc : uxSchedulerSuspended k = 0 -> cur <> idle -> 0 < inc ->
  exists d wk s', xTaskDelayUntil s prev inc = Some (d, wk, s') /\ sched_ok idle s'.
Proof.
  intros Hs Hi Hn. unfold xTaskDelayUntil. rewrite suspended_off by done. destruct (Z.ltb_spec 0 inc); [|lia].
  cbn [negb guard_c]. cbv zeta. change (xTickCount (sd_kernel (suspend_all s))) with (xTickCount k).
  destruct (if xTickCount k <? prev then _ else _) eqn:E.
  - pose proof (di_tick _ (bo_delay _ _ _ (se_base _ _ _ (so_settled _ _ H)))) as Ht.
    destruct (block_ok _ _ false Hs Hi (delay_until_ticks prev inc _ Ht E) eq_refl) as (s' & Hrun & Hok).
    change (sd_kernel (suspend_all s)) with (vTaskSuspendAll k). change (with_k (suspend_all s)) with (with_k s).
    rewrite Hrun. eauto.
  - destruct H as [Hset Hc Hf]. destruct (suspend_all_counts s Hc Hs) as [C1 C2].
    destruct (resume_and_yield_ok idle (suspend_all s)) as (s' & -> & Hok); [by apply base_suspended, Hset|done|done|done|].
    eauto.
Qed.

Lemma wait_ok ev n : uxSchedulerSuspended k = 0 -> cur <> idle -> is_event_list ev -> 0 < n <= portMAX_DELAY ->
  exists s', resume_all_and_yield (with_k s (vTaskPlaceOnEventList (vTaskSuspendAll k) ev n)) = Some s' /\ sched_ok idle s'.
Proof.
  intros Hs Hi Hev Hn. destruct H as [Hset Hc Hf]. destruct (suspend_all_counts s Hc Hs) as [C1 C2].
  destruct (settled_suspended _ _ _ (u32 (uxSchedulerSuspended k + 1)) Hset) as [S1 S2 _].
  change (vTaskPlaceOnEventList (vTaskSuspendAll k) ev n) with
    (prvAddCurrentTaskToDelayedList (event_on (vTaskSuspendAll k) cur ev) n true).
  destruct (block_other (event_on (vTaskSuspendAll k) cur ev) n true) as (_ & _ & _ & B4 & _ & B6 & _).
  apply resume_and_yield_ok; [by apply (base_place idle w (vTaskSuspendAll k))|done|exact (eq_trans B4 C1)|exact (is_u32_eq B6 C2)].
Qed.

End calls.
