(* ===== verification/KernelCalls.v ===== *)
(** * Suspending, waking, creating and deleting tasks keep the invariant *)

From stdpp Require Import base list option gmap.
From Stdlib Require Import ZArith Lia.
From S2P Require Import Prelude FreeRTOSList Kernel KernelSched KernelPrio KernelNotify KernelTask KernelLists KernelSafe KernelStep.

(** ** A task off its lists *)

(** Other control blocks and the clock do not matter to the delayed lists. *)
Lemma delay_inv_ext_in k k' : xTickCount k' = xTickCount k ->
  pxDelayedTaskList k' = pxDelayedTaskList k -> pxOverflowDelayedTaskList k' = pxOverflowDelayedTaskList k ->
  xNextTaskUnblockTime k' = xNextTaskUnblockTime k ->
  (forall u, u ∈ delayed_tasks k -> state_value k' u = state_value k u) -> delay_inv k -> delay_inv k'.
Proof.
  intros E1 E2 E3 E4 E5 [D1 D2 D3 D4 D5 D6 D7]. unfold delayed_tasks in E5.
  assert (forall (P : Z -> Prop) l, l ⊆ delayed_tasks k -> Forall (fun u => P (state_value k u)) l ->
    Forall (fun u => P (state_value k' u)) l) as Hf.
  { intros P l Hl. rewrite !Forall_forall. intros HP u Hu. rewrite E5; auto. }
  assert (pxDelayedTaskList k ⊆ delayed_tasks k /\ pxOverflowDelayedTaskList k ⊆ delayed_tasks k) as [I1 I2]
    by (unfold delayed_tasks; split; set_solver).
  split; rewrite ?E1, ?E2, ?E3, ?E4; try done.
  - eapply ascending_ext_in; [|exact D3]. intros u Hu. symmetry. apply E5, I1, Hu.
  - eapply ascending_ext_in; [|exact D4]. intros u Hu. symmetry. apply E5, I2, Hu.
  - by apply (Hf (fun x => xTickCount k < x <= portMAX_DELAY)).
  - by apply (Hf (fun x => 0 <= x < xTickCount k)).
  - by apply (Hf (fun x => xNextTaskUnblockTime k <= x)).
Qed.

Lemma reset_eq k : exists a, prvResetNextTaskUnblockTime k = with_unblock_time k a.
Proof. unfold prvResetNextTaskUnblockTime. destruct (pxDelayedTaskList k); eauto. Qed.

Lemma reset_delay k : delay_inv k -> delay_inv (prvResetNextTaskUnblockTime k).
Proof.
  intros [D1 D2 D3 D4 D5 D6 D7]. unfold prvResetNextTaskUnblockTime.
  destruct (pxDelayedTaskList k) as [|t l] eqn:E; split; simpl; rewrite ?E; try done.
  constructor; [done|]. by destruct D3.
Qed.

(** Off its state list and its event list. *)
Definition off_lists (k : kernel) (t : Z) : kernel := leave_event_list (remove_state_item k t) t.

Record off (w' : list Z) (t : Z) (k k' : kernel) : Prop := {
  of_placed : placed w' [t] k';
  of_free : event_container k' t = NULL;
  of_ready : forall p, ready_at k' p = list_remove_task t (ready_at k p);
  of_priority : forall u, priority k' u = priority k u;
  of_delay : delay_inv k -> delay_inv k';
  of_current : pxCurrentTCB k' = pxCurrentTCB k;
  of_suspended : uxSchedulerSuspended k' = uxSchedulerSuspended k;
  of_yield : xYieldPending k' = xYieldPending k;
  of_pended : xPendedTicks k' = xPendedTicks k;
  of_pending : xPendingReadyList k' = list_remove_task t (xPendingReadyList k) }.

Lemma off_lists_off w k t : placed w [] k -> is_Some (tcbs k !! t) ->
  off (list_remove_task t w) t k (off_lists k t).
Proof.
  intros H Ht. unfold off_lists.
  pose proof (placed_take_off w [] k t H ltac:(by apply not_elem_of_nil) Ht) as H0. set (k0 := remove_state_item k t) in *.
  destruct (placed_leave_event _ _ _ _ H0 Ht) as (H1 & E1 & _).
  destruct (leave_event_other k0 t) as (F1 & F2 & F3 & F4 & F5 & F6 & F7 & F8 & F9).
  assert (forall p, ready_at (leave_event_list k0 t) p = list_remove_task t (ready_at k p)) as Er.
  { intros p. transitivity (ready_at k0 p); [apply (F1 w (LReady p))|].
    exact (on_list_remove w k t (LReady p)). }
  split; try done.
  - intros Hd. apply (delay_inv_remove k _ t Hd); [by rewrite F5|exact (F1 w LDelayed)|exact (F1 w LOverflow)|by rewrite F7|].
    intros u. by rewrite F9.
  - change (xPendingReadyList k) with (xPendingReadyList k0).
    unfold leave_event_list. pose proof (pl_pending _ _ _ H0 t) as Hp.
    destruct (Z.eqb_spec (event_container k0 t) NULL) as [E|E].
    { rewrite list_remove_task_absent; [done|]. rewrite Hp, E. unfold NULL, xPendingReadyList_addr. lia. }
    destruct (Z.eqb_spec (event_container k0 t) xPendingReadyList_addr) as [E'|E']; [done|].
    unfold remove_event_item. destruct (tcbs k0 !! t); (rewrite list_remove_task_absent; [done|tauto]).
Qed.

(** Fewer tasks are ready, but the running one still is. *)
Lemma settled_fewer idle w w' k k' : settled idle w k -> base_ok idle w' k' -> pxCurrentTCB k' = pxCurrentTCB k ->
  (forall u p, u ∈ ready_at k' p -> u ∈ ready_at k p) -> is_ready k' (pxCurrentTCB k) ->
  priority k' (pxCurrentTCB k) = priority k (pxCurrentTCB k) -> xYieldPending k' = xYieldPending k -> settled idle w' k'.
Proof.
  intros [S1 S2 S3] Hb Ec Hr Hc Ep Ey. split; [done|by rewrite Ec|]. intros u p Hu. rewrite Ec, Ep, Ey. eauto.
Qed.

Lemma off_is_ready w' t k k' u : off w' t k k' -> u <> t -> is_ready k u -> is_ready k' u.
Proof. intros [A1 A2 A3 A4] Hu Hr. unfold is_ready. rewrite A3, A4, list_remove_task_elem. done. Qed.

Lemma off_counts w' t k k' : off w' t k k' -> counts_ok k -> counts_ok k'.
Proof.
  intros [A1 A2 A3 A4 A5 A6 A7 A8 A9 A10] (C1 & C2 & C3). unfold counts_ok. rewrite A7, A9, A10.
  split; [done|]. split; [done|]. intros Hs. by destruct (C3 Hs) as [-> ->].
Qed.

(** ** Suspending *)

Lemma leave_state_same s t : t ∉ xTasksWaitingTermination s ->
  leave_state_list s t = with_k s (remove_state_item (sd_kernel s) t).
Proof. intros Hw. unfold leave_state_list. rewrite list_remove_task_absent by done. by destruct s. Qed.

Section suspend.
Context (idle : Z) (s : sched) (H : sched_ok idle s).

Local Notation k := (sd_kernel s).
Local Notation w := (xTasksWaitingTermination s).

(** A handle stands for a task that is not deleted. *)
Definition valid_task (t : Z) : Prop := is_Some (tcbs k !! t) /\ t ∉ w.

Lemma so_base : base_of idle s.
Proof. apply H. Qed.

Lemma off_same t : valid_task t -> off w t k (off_lists k t).
Proof.
  intros [Ht Hw]. pose proof (off_lists_off w k t (bo_placed _ _ _ so_base) Ht) as O.
  by rewrite list_remove_task_absent in O.
Qed.

(** On the suspended list, its time-out forgotten. *)
Definition suspended_task (k : kernel) (t : Z) : kernel :=
  let k := off_lists k t in
  prvResetNextTaskUnblockTime (with_state_lists k (pxReadyTasksLists k) (pxDelayedTaskList k)
    (pxOverflowDelayedTaskList k) (xSuspendedTaskList k ++ [t])).

Lemma suspended_eq t : exists a b, suspended_task k t = with_unblock_time (with_state_lists (off_lists k t)
  (pxReadyTasksLists (off_lists k t)) (pxDelayedTaskList (off_lists k t)) (pxOverflowDelayedTaskList (off_lists k t)) b) a.
Proof. unfold suspended_task. cbv zeta. match goal with |- context [prvResetNextTaskUnblockTime ?x] => destruct (reset_eq x) as [a ->] end. eauto. Qed.

Lemma suspended_base t : valid_task t -> t <> idle -> base_ok idle w (suspended_task k t).
Proof.
  intros Hv Hi. pose proof (off_same t Hv) as O. unfold suspended_task. set (k1 := off_lists k t) in *. cbv zeta.
  apply base_unblock. split.
  - apply placed_put_suspended; [apply O|by apply not_elem_of_nil].
  - apply (delay_inv_same k1); try done. apply O, so_base.
  - apply (off_is_ready w t k k1 idle O); [done|]. apply so_base.
Qed.

Lemma suspended_settled t : valid_task t -> t <> idle -> t <> pxCurrentTCB k -> settled idle w (suspended_task k t).
Proof.
  intros Hv Hi Hc. pose proof (off_same t Hv) as O. destruct H as [Hset _ _].
  apply (settled_fewer idle w w k); [done|by apply suspended_base|..];
    destruct (suspended_eq t) as (a & b & ->); try by apply O.
  - intros u p. change (u ∈ ready_at (off_lists k t) p -> u ∈ ready_at k p). rewrite (of_ready _ _ _ _ O), list_remove_task_elem. by intros [].
  - apply (off_is_ready w t k _ _ O); [done|]. apply Hset.
  - exact (of_priority _ _ _ _ O _).
Qed.

Lemma suspended_counts t : valid_task t -> counts_ok (suspended_task k t).
Proof.
  intros Hv. pose proof (off_counts _ _ _ _ (off_same t Hv) (so_counts _ _ H)) as C.
  by destruct (suspended_eq t) as (a & b & ->).
Qed.

Lemma vTaskSuspend_ok h : let t := prvGetTCBFromHandle (sd_nk s) h in
  valid_task t -> t <> idle -> (t = pxCurrentTCB k -> uxSchedulerSuspended k = 0) ->
  exists s', vTaskSuspend s h = Some s' /\ sched_ok idle s'.
Proof.
  intros t Hv Hi Hs. unfold vTaskSuspend. fold t. cbv zeta. rewrite leave_state_same by apply Hv.
  destruct H as [Hset Hc Hf].
  match goal with |- context [if notify_state ?n t 0 =? _ then ?a else ?b] => set (n' := if notify_state n t 0 =? _ then a else b) end.
  set (s2 := with_sd_nk _ n'). assert (xSchedulerRunning s2 = true) as -> by apply Hf.
  assert (sd_kernel s2 = with_state_lists (off_lists k t) (pxReadyTasksLists (off_lists k t)) (pxDelayedTaskList (off_lists k t))
    (pxOverflowDelayedTaskList (off_lists k t)) (xSuspendedTaskList (off_lists k t) ++ [t])) as E2.
  { unfold s2, n', sd_kernel. simpl. by destruct (_ =? _). }
  set (s3 := with_k s2 _). assert (sd_kernel s3 = suspended_task k t) as E3 by (unfold s3; simpl; by rewrite E2).
  assert (frame_ok s3) as F3 by apply Hf.
  assert (counts_ok (sd_kernel s3)) as C3 by (rewrite E3; by apply suspended_counts).
  assert (xSchedulerRunning s3 = true) as -> by apply Hf.
  assert (pxCurrentTCB (sd_kernel s3) = pxCurrentTCB k /\ uxSchedulerSuspended (sd_kernel s3) = uxSchedulerSuspended k) as [P3 Q3].
  { rewrite E3. destruct (suspended_eq t) as (a & b & ->). split; apply (off_same t Hv). }
  unfold taskIS_CURRENTLY_RUNNING. rewrite P3, Q3. destruct (Z.eqb_spec t (pxCurrentTCB k)) as [Ht|Ht].
  - rewrite (Hs Ht). cbn [Z.eqb guard_c]. apply switch_ok; try done; [|rewrite Q3, Hs by done; done].
    unfold base_of. rewrite E3. by apply suspended_base.
  - exists s3. split; [done|]. split; [|done|done]. rewrite E3. by apply suspended_settled.
Qed.

End suspend.

(** ** Deleting *)

(** A control block that no list and no wake time refers to is freed. *)
Lemma freed_base idle w t k : placed w [t] k -> event_container k t = NULL -> delay_inv k -> is_ready k idle -> t <> idle ->
  base_ok idle w (with_tcbs k (delete t (tcbs k))).
Proof.
  intros H Hc Hd Hr Hi.
  assert (forall u, u <> t -> priority (with_tcbs k (delete t (tcbs k))) u = priority k u) as Hp
    by (intros u Hu; unfold priority; simpl; by rewrite lookup_delete_ne).
  split.
  - apply placed_free; [done|by apply not_elem_of_nil|done].
  - apply (delay_inv_ext_in k); try done. intros u Hu. unfold state_value. simpl. rewrite lookup_delete_ne; [done|]. intros <-.
    apply elem_of_app in Hu as [Hu|Hu]; [apply (pl_moving _ _ _ H t LDelayed)|apply (pl_moving _ _ _ H t LOverflow)]; done || by left.
  - unfold is_ready. rewrite Hp by done. exact Hr.
Qed.

Lemma placed_reset w x k : placed w x k -> placed w x (prvResetNextTaskUnblockTime k).
Proof. intros H. destruct (reset_eq k) as [a ->]. by apply placed_unblock. Qed.

Section delete.
Context (idle : Z) (s : sched) (H : sched_ok idle s).

Local Notation k := (sd_kernel s).
Local Notation w := (xTasksWaitingTermination s).

Lemma vTaskDelete_self t : t = pxCurrentTCB k -> t <> idle -> uxSchedulerSuspended k = 0 ->
  Z.of_nat (length w) + 1 < 4294967296 ->
  exists s', vTaskDelete s t = Some s' /\ sched_ok idle s'.
Proof.
  intros Et Hi Hs Hl. pose proof H as [[Hb Hr _] Hc (F1 & F2 & F3)]. rewrite <- Et in Hr.
  assert (valid_task s t) as Hv by (split; [apply (ready_task w)|apply (ready_not_deleted w k)]; done || apply Hb).
  assert (t <> NULL) as Hn by (intros ->; destruct Hv as [[c E] _]; by rewrite (pl_null _ _ _ (bo_placed _ _ _ Hb)) in E).
  unfold vTaskDelete, prvGetTCBFromHandle. destruct (Z.eqb_spec t NULL); [done|]. cbv zeta.
  rewrite leave_state_same by apply Hv. pose proof (off_same idle s H t Hv) as O.
  change (leave_event_list (sd_kernel (with_k s (remove_state_item k t))) t) with (off_lists k t).
  set (s2 := with_k _ (off_lists k t)). unfold taskIS_CURRENTLY_RUNNING.
  assert (sd_kernel s2 = off_lists k t) as E2 by done.
  rewrite E2, (of_current _ _ _ _ O), Et, Z.eqb_refl. simpl xSchedulerRunning. rewrite F1. rewrite <- Et.
  unfold taskIS_SCHEDULER_SUSPENDED. change (sd_kernel (with_deleted s2 _ _)) with (off_lists k t).
  rewrite (of_suspended _ _ _ _ O), Hs. cbn [Z.eqb negb guard_c]. apply switch_ok.
  - split.
    + apply placed_put_deleted; [exact (of_placed _ _ _ _ O)|by apply not_elem_of_nil|exact (of_free _ _ _ _ O)].
    + exact (of_delay _ _ _ _ O (bo_delay _ _ _ Hb)).
    + by apply (off_is_ready w t k _ _ O), Hb.
  - by apply (off_counts _ _ _ _ O).
  - split; [done|]. simpl. rewrite F2, length_app. simpl. rewrite u32_small by lia. lia.
  - change (uxSchedulerSuspended (off_lists k t) <> 0 -> is_ready (off_lists k t) (pxCurrentTCB (off_lists k t))).
    rewrite (of_suspended _ _ _ _ O), Hs. done.
Qed.

Lemma vTaskDelete_other t : valid_task s t -> t <> NULL -> t <> idle -> t <> pxCurrentTCB k ->
  exists s', vTaskDelete s t = Some s' /\ sched_ok idle s'.
Proof.
  intros Hv Hn Hi Ht. pose proof H as [Hset Hc (F1 & F2 & F3)]. pose proof (off_same idle s H t Hv) as O.
  unfold vTaskDelete, prvGetTCBFromHandle. destruct (Z.eqb_spec t NULL); [done|]. cbv zeta.
  rewrite leave_state_same by apply Hv. 
  change (leave_event_list (sd_kernel (with_k s (remove_state_item k t))) t) with (off_lists k t).
  set (s2 := with_k _ (off_lists k t)). unfold taskIS_CURRENTLY_RUNNING.
  change (sd_kernel s2) with (off_lists k t).
  rewrite (of_current _ _ _ _ O). destruct (Z.eqb_spec t (pxCurrentTCB k)); [done|].
  destruct (reset_eq (off_lists k t)) as [a Ea]. rewrite Ea. eexists. split; [reflexivity|].
  set (k3 := with_unblock_time (off_lists k t) a).
  assert (forall u, is_ready k u -> u <> t -> is_ready k3 u) as Hready
    by (intros u Hu Hut; exact (off_is_ready w t k _ u O Hut Hu)).
  split; [|exact (off_counts _ _ _ _ O Hc)|done].
  assert (base_ok idle w (with_tcbs k3 (delete t (tcbs k3)))) as Hb3.
  { apply freed_base; [apply placed_unblock, O|exact (of_free _ _ _ _ O)|unfold k3; rewrite <- Ea; apply reset_delay, O, Hset|apply Hready, not_eq_sym, Hi; apply Hset|done]. }
  assert (priority (with_tcbs k3 (delete t (tcbs k3))) (pxCurrentTCB k) = priority k (pxCurrentTCB k)) as Hp.
  { unfold priority at 1. simpl. rewrite lookup_delete_ne by done. exact (of_priority _ _ _ _ O _). }
  apply (settled_fewer idle w w k); try done; try by apply O.
  - intros u p. change (u ∈ ready_at (off_lists k t) p -> u ∈ ready_at k p). rewrite (of_ready _ _ _ _ O), list_remove_task_elem. by intros [].
  - change (is_ready (with_tcbs k3 (delete t (tcbs k3))) (pxCurrentTCB k)). unfold is_ready. rewrite Hp. change (pxCurrentTCB k ∈ ready_at (off_lists k t) (priority k (pxCurrentTCB k))).
    rewrite (of_ready _ _ _ _ O), list_remove_task_elem. split; [done|]. apply Hset.
Qed.

Lemma vTaskDelete_ok h : let t := prvGetTCBFromHandle (sd_nk s) h in
  valid_task s t -> t <> idle ->
  (t = pxCurrentTCB k -> uxSchedulerSuspended k = 0 /\ Z.of_nat (length w) + 1 < 4294967296) ->
  exists s', vTaskDelete s h = Some s' /\ sched_ok idle s'.
Proof.
  intros t Hv Hi Hs.
  assert (t <> NULL) as Hn by (intros E; destruct Hv as [[c Ec] _]; rewrite E in Ec; by rewrite (pl_null _ _ _ (bo_placed _ _ _ (so_base _ _ H))) in Ec).
  assert (vTaskDelete s h = vTaskDelete s t) as ->.
  { assert (prvGetTCBFromHandle (sd_nk s) t = t) as E by (unfold prvGetTCBFromHandle; by destruct (Z.eqb_spec t NULL)).
    unfold vTaskDelete. by rewrite E. }
  destruct (decide (t = pxCurrentTCB k)) as [E|E]; [destruct (Hs E); by apply vTaskDelete_self|by apply vTaskDelete_other].
Qed.

End delete.
