(* ===== verification/KernelWake.v ===== *)
(** * Waking, creating and freeing tasks and the clock keep the invariant *)

From stdpp Require Import base list option gmap.
From Stdlib Require Import ZArith Lia.
From S2P Require Import Prelude FreeRTOSList Kernel KernelSched KernelPrio KernelNotify KernelTask KernelLists KernelSafe KernelStep KernelCalls.

(** ** The idle task frees the deleted tasks *)

Lemma clean_up_round idle s t l : sched_ok idle s -> xTasksWaitingTermination s = t :: l ->
  let s1 := leave_state_list s t in
  sched_ok idle (prvDeleteTCB (with_deleted s1 (xTasksWaitingTermination s1) (u32 (uxDeletedTasksWaitingCleanUp s1 - 1))) t).
Proof.
  intros [Hset Hc (F1 & F2 & F3)] Hl. cbv zeta. pose proof (se_base _ _ _ Hset) as [Hp Hd Hi]. rewrite Hl in *.
  assert (is_Some (tcbs (sd_kernel s) !! t)) as Ht by (apply (on_list_task (t :: l) [] (sd_kernel s) t LDeleted Hp); by left).
  assert (forall u p, u ∈ ready_at (sd_kernel s) p -> u <> t) as Hne.
  { intros u p Hu ->. by pose proof (pl_unique _ _ _ Hp t (LReady p) LDeleted Hu ltac:(by left)). }
  pose proof (placed_take_off (t :: l) [] (sd_kernel s) t Hp ltac:(by apply not_elem_of_nil) Ht) as Hoff.
  assert (NoDup (t :: l)) as Hnd by apply (pl_nodup _ _ _ Hp LDeleted).
  apply NoDup_cons in Hnd as [Htl _].
  rewrite list_remove_task_cons, list_remove_task_absent in Hoff by done.
  set (k1 := remove_state_item (sd_kernel s) t) in *.
  assert (forall p, ready_at k1 p = list_remove_task t (ready_at (sd_kernel s) p)) as Er
    by (intros p; exact (on_list_remove [] (sd_kernel s) t (LReady p))).
  assert (base_ok idle l (with_tcbs k1 (delete t (tcbs k1)))) as Hb.
  { apply freed_base; [done|exact (pl_free _ _ _ Hp t LDeleted ltac:(by left))| | |by apply not_eq_sym, (Hne idle _ Hi)].
    - by apply (delay_inv_remove (sd_kernel s) _ t).
    - unfold is_ready. rewrite Er, list_remove_task_elem. split; [by eapply Hne|exact Hi]. }
  assert (priority (with_tcbs k1 (delete t (tcbs k1))) (pxCurrentTCB (sd_kernel s)) = priority (sd_kernel s) (pxCurrentTCB (sd_kernel s))) as Ep.
  { unfold priority. simpl. rewrite lookup_delete_ne; [done|]. apply not_eq_sym. eapply Hne, Hset. }
  assert (xTasksWaitingTermination (leave_state_list s t) = l) as El.
  { simpl. by rewrite Hl, list_remove_task_cons, list_remove_task_absent. }
  split; [|done|].
  - change (settled idle (xTasksWaitingTermination (leave_state_list s t)) (with_tcbs k1 (delete t (tcbs k1)))). rewrite El.
    apply (settled_fewer idle (t :: l) l (sd_kernel s)); try done.
    + intros u p. change (u ∈ ready_at k1 p -> u ∈ ready_at (sd_kernel s) p). rewrite Er, list_remove_task_elem. by intros [].
    + unfold is_ready. rewrite Ep. change (pxCurrentTCB (sd_kernel s) ∈ ready_at k1 (priority (sd_kernel s) (pxCurrentTCB (sd_kernel s)))).
      rewrite Er, list_remove_task_elem. split; [eapply Hne|]; apply Hset.
  - unfold frame_ok. change (xTasksWaitingTermination (prvDeleteTCB _ t)) with (xTasksWaitingTermination (leave_state_list s t)).
    rewrite El. simpl in F2, F3 |- *. rewrite F2, u32_small by lia. split_and!; [done|lia..].
Qed.

Lemma clean_up_loop_ok n : forall idle s, sched_ok idle s -> n = length (xTasksWaitingTermination s) ->
  exists s', clean_up_loop n s = Some s' /\ sched_ok idle s' /\ xTasksWaitingTermination s' = [].
Proof.
  induction n as [|n IH]; intros idle s H Hn; cbn [clean_up_loop].
  { exists s. split_and!; [done..|]. by destruct (xTasksWaitingTermination s). }
  assert (exists t l, xTasksWaitingTermination s = t :: l) as (t & l & E) by (destruct (xTasksWaitingTermination s); [done|eauto]).
  assert (head (xTasksWaitingTermination s) = Some t) as -> by by rewrite E. cbv zeta.
  pose proof (clean_up_round idle s t l H E) as Hr. cbv zeta in Hr. apply (IH idle _ Hr).
  simpl. pose proof (pl_nodup _ _ _ (bo_placed _ _ _ (so_base _ _ H)) LDeleted) as Hnd. simpl in Hnd. rewrite E in *.
  apply NoDup_cons in Hnd as [Htl _]. rewrite list_remove_task_cons, list_remove_task_absent by done. simpl in Hn. lia.
Qed.

Lemma prvCheckTasksWaitingTermination_ok idle s : sched_ok idle s ->
  exists s', prvCheckTasksWaitingTermination s = Some s' /\ sched_ok idle s' /\ xTasksWaitingTermination s' = [].
Proof.
  intros H. apply clean_up_loop_ok; [done|]. destruct (so_frame _ _ H) as (_ & -> & _). by rewrite Nat2Z.id.
Qed.

(** ** Creation *)

(** A new task on its ready list. *)
Lemma new_task_ready w k p tcb : placed w [] k -> tcbs k !! p = None -> p <> NULL -> xEventContainer tcb = NULL ->
  0 <= uxPriority tcb < configMAX_PRIORITIES -> 0 <= uxBasePriority tcb < configMAX_PRIORITIES ->
  let k1 := with_tcbs k (<[p := tcb]> (tcbs k)) in let k2 := prvAddTaskToReadyList k1 p in
  placed w [] k2 /\ (forall u q, u ∈ ready_at k2 q <-> u = p /\ q = uxPriority tcb \/ u ∈ ready_at k q) /\
  (forall u, u <> p -> priority k2 u = priority k u) /\ priority k2 p = uxPriority tcb /\ (forall u q, u ∈ ready_at k q -> u <> p).
Proof.
  intros H Hp Hn Hc Hb Hb' k1 k2. destruct (placed_new w [] k p tcb H Hp Hn Hc Hb Hb') as [Hnew _]. fold k1 in Hnew.
  assert (priority k1 p = uxPriority tcb) as Epp by (unfold priority, k1; simpl; by rewrite lookup_insert_eq).
  assert (forall u, priority k2 u = priority k1 u) as Ep2.
  { intros u. unfold priority, k2. by rewrite (proj1 (add_ready_other k1 p)). }
  split_and!.
  - apply placed_put_ready; [done|by apply not_elem_of_nil|]. unfold event_container. simpl. by rewrite lookup_insert_eq.
  - intros u q. unfold k2. change (ready_at (prvAddTaskToReadyList k1 p) q) with (on_list w (prvAddTaskToReadyList k1 p) (LReady q)).
    rewrite on_list_add_ready, Epp. change (on_list w k1 (LReady q)) with (ready_at k q). case_decide as E.
    + injection E as ->. rewrite elem_of_cons. naive_solver.
    + assert (q <> uxPriority tcb) by congruence. naive_solver.
  - intros u Hu. rewrite Ep2. unfold priority, k1. simpl. by rewrite lookup_insert_ne.
  - by rewrite Ep2.
  - intros u q Hu ->. destruct (on_list_task w [] k p (LReady q) H Hu) as [c E]. congruence.
Qed.

Lemma created_ok idle s p prio : sched_ok idle s -> tcbs (sd_kernel s) !! p = None -> 0 <= prio < configMAX_PRIORITIES ->
  exists b s', xTaskCreatePinnedToCore s p prio = Some (b, s') /\ sched_ok idle s' /\ (b = true <-> p <> NULL).
Proof.
  intros H Hp Hprio. unfold xTaskCreatePinnedToCore. destruct (Z.eqb_spec p NULL) as [->|Hn]; cbn [negb].
  { exists false, s. split_and!; done. }
  unfold prvInitialiseNewTask. destruct (Z.ltb_spec prio configMAX_PRIORITIES); [|lia]. cbn [guard_c].
  destruct (Z.leb_spec configMAX_PRIORITIES prio); [lia|].
  set (tcb := mkTCB prio 0 _ NULL false prio 0). pose proof H as [[[Hb1 Hd Hi] Hr Hpre] Hc Hf].
  set (k := sd_kernel s) in *. set (k1 := with_tcbs k (<[p := tcb]> (tcbs k))).
  destruct (new_task_ready _ k p tcb Hb1 Hp Hn eq_refl Hprio Hprio) as (Hpl & Er & Epr & Epp & Hne). fold k1 in Hpl, Er, Epr, Epp.
  assert (pxCurrentTCB k <> NULL) as Hcur.
  { intros E. destruct (ready_task _ _ _ Hb1 Hr) as [c Ec]. rewrite E in Ec. by rewrite (pl_null _ _ _ Hb1) in Ec. }
  unfold prvAddNewTaskToReadyList. cbv zeta. fold k. fold k1. change (sd_kernel (with_k s k1)) with k1.
  assert (uxTaskGetNumberOfTasks k1 =? 1 = false) as ->.
  { apply Z.eqb_neq. pose proof (idle_counted _ _ _ (se_base _ _ _ (so_settled _ _ H))) as Hcnt. fold k in Hcnt.
    unfold uxTaskGetNumberOfTasks in *. simpl. rewrite map_size_insert_None by done. lia. }
  change (sd_kernel (with_k s k1)) with k1. change (pxCurrentTCB k1) with (pxCurrentTCB k).
  destruct (Z.eqb_spec (pxCurrentTCB k) NULL); [done|].
  change (xSchedulerRunning (with_k s k1)) with (xSchedulerRunning s). destruct Hf as (F1 & F2). rewrite F1. cbn [negb andb].
  change (xSchedulerRunning (with_k (with_k s k1) _)) with (xSchedulerRunning s). rewrite F1. cbn [andb].
  set (k2 := prvAddTaskToReadyList k1 p) in *.
  assert (forall u, is_ready k u -> is_ready k2 u) as Hkeep.
  { intros u Hu. unfold is_ready. rewrite Epr by by eapply Hne. apply Er. by right. }
  destruct (add_ready_other k1 p) as (G1 & G2 & G3 & G4 & G5 & G6 & G7 & G8 & G9 & G10 & G11 & G12 & G13 & G14 & G15).
  fold k2 in G1, G4, G7, G8, G9, G10, G11, G12, G13, G14.
  assert (base_ok idle (xTasksWaitingTermination s) k2) as Hb2.
  { split; [done| |by apply Hkeep].
    apply (delay_inv_ext_in k); try done. intros u Hu. unfold state_value. rewrite G1. simpl. rewrite lookup_insert.
    case_decide as E; [|done]. subst u. by rewrite Hp. }
  assert (counts_ok k2) as Hc2 by (unfold counts_ok; by rewrite G4, G8, G11).
  edestruct (switch_if_ok idle (with_k (with_k s k1) k2) (taskIS_YIELD_REQUIRED k2 p true) Hb2 Hc2 (conj F1 F2)) as (s' & Hrun & Hok).
  - change (is_ready k2 (pxCurrentTCB k2)). rewrite G7. by apply Hkeep.
  - intros Ey u q. change (u ∈ ready_at k2 q -> priority k2 (pxCurrentTCB k2) < q -> xYieldPending k2 = true).
    pose proof (taskIS_YIELD_REQUIRED_spec k2 p true) as Hy. rewrite Ey, Epp, G7 in Hy. change (pxCurrentTCB k1) with (pxCurrentTCB k) in Hy.
    rewrite Er, G7, G9. change (pxCurrentTCB k1) with (pxCurrentTCB k). change (xYieldPending k1) with (xYieldPending k).
    intros [[-> ->]|Hu] Hlt; [|rewrite Epr in Hlt by exact (Hne _ _ Hr); by apply (Hpre u q)].
    destruct Hy as [_ Hy]. discriminate Hy. simpl in *. lia.
  - exists true, s'. rewrite Hrun. split_and!; done.
Qed.

(** ** Waking *)

(** On the pending ready list while the scheduler is suspended; the state item stays. *)
Definition pend_task (k : kernel) (t : Z) (y : bool) : kernel :=
  with_pending (with_tcbs k (alter (set_event_container xPendingReadyList_addr) t (tcbs k)))
    (xPendingReadyList k ++ [t]) y.

Lemma pended_placed w k t y : placed w [] k -> event_container k t = NULL -> is_Some (tcbs k !! t) ->
  ~ is_ready k t -> t ∉ w -> placed w [] (pend_task k t y).
Proof.
  intros H Hc Ht Hr Hw. pose proof H as [A1 A2 A3 A4 A5 A6 A7 A8 A9 A10 A11 A12 A13 A14 A15].
  set (k' := pend_task k t y). destruct Ht as [c Ht].
  assert (forall u, event_container k' u = if decide (u = t) then xPendingReadyList_addr else event_container k u) as Ec.
  { intros u. pose proof (container_altered k t xPendingReadyList_addr u) as E. rewrite Ht in E. exact E. }
  assert (forall u, priority k' u = priority k u) as Ep by (intros u; by apply (priority_alter k t)).
  assert (t ∉ xPendingReadyList k) as Hn by (rewrite A13, Hc; done).
  split; try done.
  - intros u. change (tcbs k') with (tcbs (alter_tcb k t (set_event_container xPendingReadyList_addr))). rewrite is_Some_alter. apply A3.
  - simpl. rewrite lookup_alter. case_decide; [|done]. subst. by rewrite A5.
  - intros u p Hu. rewrite Ep. by apply A6.
  - intros u d. simpl. rewrite lookup_alter. case_decide; [|apply A7]. subst. rewrite Ht. intros [= <-]. exact (A7 u c Ht).
  - intros u l Hl. change (on_event_list k' l) with (on_event_list k l). rewrite Ec, A10 by done. case_decide; [subst|done].
    rewrite Hc. destruct Hl. split; congruence.
  - intros u. simpl. rewrite Ec, elem_of_app, list_elem_of_singleton, A13. case_decide; tauto.
  - simpl. rewrite <- Permutation_cons_append. by constructor.
  - intros u l Hu. rewrite Ec. case_decide; [subst|exact (A15 u l Hu)].
    destruct l; try done. destruct Hr. unfold is_ready. by rewrite (A6 t p Hu).
Qed.

Lemma pended_settled idle w k t y : settled idle w k -> event_container k t = NULL -> is_Some (tcbs k !! t) ->
  ~ is_ready k t -> t ∉ w -> (xYieldPending k = true -> y = true) -> settled idle w (pend_task k t y).
Proof.
  intros [[Hp Hd Hi] Hr Hpre] Hc Ht Hn Hw Hy.
  assert (forall u, priority (pend_task k t y) u = priority k u) as Ep by (intros u; by apply (priority_alter k t)).
  assert (forall u, is_ready k u -> is_ready (pend_task k t y) u) as Hk by (intros u Hu; unfold is_ready; by rewrite Ep).
  split; [split; [by apply pended_placed| |auto]|by apply Hk|].
  - apply (delay_inv_ext_in k); try done. intros u _. unfold state_value. simpl. rewrite lookup_alter. case_decide; [|done].
    subst. destruct Ht as [c ->]. done.
  - intros u p Hu Hlt. rewrite Ep in Hlt. apply Hy. by apply (Hpre u p).
Qed.

Lemma pended_counts k t y : counts_ok k -> uxSchedulerSuspended k <> 0 -> counts_ok (pend_task k t y).
Proof. intros (C1 & C2 & C3) Hs. split; [done|]. split; [done|]. intros E. by destruct Hs. Qed.

(** The event list is not empty. *)
Lemma head_waits idle w k ev t l : base_ok idle w k -> is_event_list ev -> on_event_list k ev = t :: l ->
  event_container k t = ev /\ is_Some (tcbs k !! t) /\ t ∉ w /\ ~ is_ready k t.
Proof.
  intros [H Hd Hi] Hev Hl.
  assert (event_container k t = ev) as E by (apply (pl_event _ _ _ H); [done|rewrite Hl; by left]).
  destruct Hev as [He1 He2]. split_and!; [done|by apply event_container_task; rewrite E| |].
  - intros Hw. pose proof (pl_free _ _ _ H t LDeleted Hw) as E'. simpl in E'. congruence.
  - intros Hr. pose proof (pl_free _ _ _ H t (LReady _) Hr) as E'. simpl in E'. congruence.
Qed.

Lemma remove_event_leave k t ev : event_container k t = ev -> is_event_list ev -> remove_event_item k t = leave_event_list k t.
Proof.
  intros E [H1 H2]. unfold leave_event_list. rewrite E.
  destruct (Z.eqb_spec ev NULL); [done|]. by destruct (Z.eqb_spec ev xPendingReadyList_addr).
Qed.

Lemma carried_with_pending idle w k k' y : carried idle w k k' -> (xYieldPending k' = true -> y = true) ->
  carried idle w k (with_yield k' y).
Proof.
  intros [C1 C2 C3 C4] Hy. split; [by apply base_yield|done|done|]. intros H u p Hu Hlt. apply Hy. exact (C4 H u p Hu Hlt).
Qed.

(** Whatever the waker does about the yield, the state is settled. *)
Lemma woken_settled idle s ev t l : sched_ok idle s -> is_event_list ev -> on_event_list (sd_kernel s) ev = t :: l ->
  exists y k', xTaskRemoveFromEventList (sd_kernel s) ev = Some (y, k') /\ sched_ok idle (with_k s k').
Proof.
  intros [Hset Hc Hf] Hev Hl. set (k := sd_kernel s) in *. set (w := xTasksWaitingTermination s) in *.
  pose proof (se_base _ _ _ Hset) as Hb. destruct (head_waits idle w k ev t l Hb Hev Hl) as (E & Ht & Hw & Hnr).
  unfold xTaskRemoveFromEventList. fold (on_event_list k ev). rewrite Hl.
  rewrite (remove_event_leave k t ev E Hev). set (k0 := leave_event_list k t).
  destruct (leave_event_other k t) as (F1 & F2 & F3 & F4 & F5 & F6 & F7 & F8 & F9). fold k0 in F1, F2, F3, F4, F5, F6, F7, F8, F9.
  rewrite F3. destruct (Z.eqb_spec (uxSchedulerSuspended k) 0) as [Hs|Hs]; cbv zeta.
  - fold (make_ready k t). set (k1 := make_ready k t).
    pose proof (made_ready_carried idle w k t false Hb Ht Hw) as C. cbv zeta in C. fold k1 in C.
    pose proof (made_ready_counts w k t false (bo_placed _ _ _ Hb) Ht Hw) as Cn. cbv zeta in Cn. fold k1 in Cn.
    assert (taskIS_YIELD_REQUIRED k1 t false = (priority k1 (pxCurrentTCB k1) <? priority k1 t)) as Ey
      by (unfold taskIS_YIELD_REQUIRED; by rewrite Z.add_0_r).
    assert (counts_ok (if taskIS_YIELD_REQUIRED k1 t false then with_yield k1 true else k1)) as Hc1.
    { unfold counts_ok. destruct Cn as (-> & -> & ->). destruct Hc as (C1 & C2 & C3).
      split; [done|]. split; [done|]. intros Hz. by destruct (C3 Hz) as [-> ->]. }
    rewrite Ey in *. destruct (_ <? _); do 2 eexists; (split; [reflexivity|]);
      (apply with_k_ok; [done|by eapply carried_settled|done]).
  - destruct (placed_leave_event w [] k t (bo_placed _ _ _ Hb) Ht) as (P1 & P2 & _). fold k0 in P1, P2.
    assert (forall u, is_ready k u -> is_ready k0 u) as Hk.
    { intros u Hu. unfold is_ready. rewrite F8. change (ready_at k0 (priority k u)) with (on_list w k0 (LReady (priority k u))). by rewrite F1. }
    assert (settled idle w k0) as S0.
    { split; [split; [done| |by apply Hk, Hb]|rewrite F2; by apply Hk, Hset|].
      - apply (delay_inv_same k); [by rewrite F5|exact (F1 w LDelayed)|exact (F1 w LOverflow)|by rewrite F7|done|apply Hb].
      - intros u p. change (ready_at k0 p) with (on_list w k0 (LReady p)). rewrite F1, F2, F4, F8. apply Hset. }
    assert (is_Some (tcbs k0 !! t)) as Ht0.
    { apply (pl_task _ _ _ P1). right. apply (pl_task _ _ _ (bo_placed _ _ _ Hb)) in Ht as [Ht|[x Hx]]; [by apply elem_of_nil in Ht|].
      exists x. by rewrite F1. }
    assert (~ is_ready k0 t) as Hnr0.
    { unfold is_ready. rewrite F8. change (ready_at k0 (priority k t)) with (on_list w k0 (LReady (priority k t))). by rewrite F1. }
    assert (counts_ok k0) as Hc0.
    { unfold counts_ok. rewrite F3, F6. destruct Hc as (C1 & C2 & _). done. }
    assert (forall y, (xYieldPending k0 = true -> y = true) -> sched_ok idle (with_k s (pend_task k0 t y))) as Hfin.
    { intros y Hy. apply with_k_ok; [done|by apply pended_settled|apply pended_counts; [done|by rewrite F3]]. }
    fold (pend_task k0 t (xYieldPending k0)).
    destruct (_ <? _); do 2 eexists; (split; [reflexivity|]); [by apply (Hfin true)|by apply Hfin].
Qed.

(** ** Resuming *)

Lemma make_ready_free k t : event_container k t = NULL -> make_ready k t = prvAddTaskToReadyList (remove_state_item k t) t.
Proof. intros E. unfold make_ready, leave_event_list. by rewrite E. Qed.

Lemma readied_counts w t k k' : readied w t k k' -> counts_ok k -> counts_ok k'.
Proof.
  intros [R1 R2 R3 R4 R5 R6 R7 R8 R9] (C1 & C2 & C3). unfold counts_ok. rewrite R6, R8, R9.
  split; [done|]. split; [done|]. intros Hs. by destruct (C3 Hs) as [-> ->].
Qed.

Lemma readied_yield w t k k' y : readied w t k k' -> preempts k (xYieldPending k) -> taskIS_YIELD_REQUIRED k' t y = false ->
  preempts k' (xYieldPending k').
Proof.
  intros R Hp Hy. rewrite (re_yield _ _ _ _ R). apply (readied_preempts w t k k' _ _ R Hp); [done|].
  intros Hlt. pose proof (taskIS_YIELD_REQUIRED_spec k' t y) as E. rewrite Hy, !(re_priority _ _ _ _ R), (re_current _ _ _ _ R) in E.
  destruct E as [_ E]. discriminate E. destruct y; lia.
Qed.

Section resume.
Context (idle : Z) (s : sched) (H : sched_ok idle s).

Local Notation k := (sd_kernel s).
Local Notation w := (xTasksWaitingTermination s).

Lemma readied_switch t k' y : readied w t k k' ->
  exists s', (if taskIS_YIELD_REQUIRED k' t y then switch_context (with_k s k') else Some (with_k s k')) = Some s' /\ sched_ok idle s'.
Proof.
  intros R. destruct H as [[Hb Hr Hp] Hc Hf]. apply switch_if_ok; [by apply (readied_base idle w t k)|by apply (readied_counts w t k)|done| |].
  - change (is_ready k' (pxCurrentTCB k')). rewrite (re_current _ _ _ _ R). by apply (readied_is_ready w t k), Hr; [apply Hb|].
  - intros Hy. by apply (readied_yield w t k k' y).
Qed.

Lemma suspended_task_spec t : t <> NULL -> exists b, prvTaskIsTaskSuspended k t = Some b /\
  (b = true -> t ∈ xSuspendedTaskList k /\ event_container k t = NULL /\ valid_task s t /\ ~ is_ready k t).
Proof.
  intros Hn. pose proof (bo_placed _ _ _ (so_base _ _ H)) as Hp. unfold prvTaskIsTaskSuspended.
  destruct (Z.eqb_spec t NULL); [done|]. eexists. split; [reflexivity|].
  intros [[Hs _]%andb_true_iff Hc]%andb_true_iff. apply bool_decide_eq_true in Hs. apply Z.eqb_eq in Hc.
  split; [done|]. split; [done|]. split; [split|].
  - by apply (on_list_task w [] k t LSuspended Hp).
  - intros Hw. by pose proof (pl_unique _ _ _ Hp t LSuspended LDeleted Hs Hw).
  - intros Hr. by pose proof (pl_unique _ _ _ Hp t LSuspended (LReady _) Hs Hr).
Qed.

Lemma vTaskResume_ok t : t <> NULL -> exists s', vTaskResume s t = Some s' /\ sched_ok idle s'.
Proof.
  intros Hn. unfold vTaskResume. destruct (Z.eqb_spec t NULL); [done|]. cbn [negb guard_c]. rewrite andb_true_r.
  destruct (taskIS_CURRENTLY_RUNNING s t); cbn [negb]; [eauto|].
  destruct (suspended_task_spec t Hn) as ([] & -> & Hspec); [|eauto].
  destruct (Hspec eq_refl) as (Hs & Hc & Hv & Hr). rewrite <- make_ready_free by done. cbv zeta.
  apply readied_switch. apply make_ready_readied; [apply (so_base idle s H)|apply Hv..].
Qed.

Lemma xTaskResumeFromISR_ok t : t <> NULL -> exists y s', xTaskResumeFromISR s t = Some (y, s') /\ sched_ok idle s'.
Proof.
  intros Hn. unfold xTaskResumeFromISR. destruct (Z.eqb_spec t NULL); [done|]. cbn [negb guard_c].
  destruct (suspended_task_spec t Hn) as ([] & -> & Hspec); [|eauto].
  destruct (Hspec eq_refl) as (Hs & Hc & Hv & Hnr). pose proof H as [Hset Hcn Hf]. unfold taskCAN_BE_SCHEDULED.
  pose proof (se_base _ _ _ Hset) as Hb.
  destruct (Z.eqb_spec (uxSchedulerSuspended k) 0) as [E|E]; cbv zeta.
  - set (y := taskIS_YIELD_REQUIRED k t true).
    set (k1 := if y then with_yield k true else k).
    assert (settled idle w k1) as S1 by (unfold k1; destruct y; [split; [by apply base_yield, Hset|apply Hset|by intros u p]|done]).
    assert (event_container k1 t = NULL) as Hc1 by (unfold k1; by destruct y).
    rewrite <- make_ready_free by done. do 2 eexists. split; [reflexivity|].
    assert (is_Some (tcbs k1 !! t)) as Ht1 by (unfold k1; destruct y; apply Hv).
    pose proof (make_ready_readied w k1 t (bo_placed _ _ _ (se_base _ _ _ S1)) Ht1 (proj2 Hv)) as R.
    apply with_k_ok; [done| |apply (readied_counts w t k1 _ R); unfold k1; by destruct y].
    split; [by apply (readied_base idle w t k1 _ R), S1|rewrite (re_current _ _ _ _ R); apply (readied_is_ready w t k1); [apply S1|done|apply S1]|].
    apply (readied_preempts w t k1 _ (xYieldPending k1) _ R); [apply S1|by rewrite (re_yield _ _ _ _ R)|].
    intros Hlt. rewrite (re_yield _ _ _ _ R). unfold k1 in *. destruct y eqn:Ey; [done|].
    pose proof (taskIS_YIELD_REQUIRED_spec k t true) as Q. fold y in Q. rewrite Ey in Q. destruct Q as [_ Q]. discriminate Q. lia.
  - do 2 eexists. split; [reflexivity|].
    apply with_k_ok; [done|by apply (pended_settled idle w k t (xYieldPending k)); try apply Hv|by apply (pended_counts k t (xYieldPending k))].
Qed.

End resume.

(** ** Aborting a delay *)

(** A field the invariant does not look at. *)
Lemma alter_settled idle w k t f : (forall c, uxPriority (f c) = uxPriority c) -> (forall c, uxBasePriority (f c) = uxBasePriority c) ->
  (forall c, xEventContainer (f c) = xEventContainer c) -> (forall c, xStateItemValue (f c) = xStateItemValue c) ->
  settled idle w k -> settled idle w (alter_tcb k t f).
Proof.
  intros Fp Fb Fc Fv [[Hp Hd Hi] Hr Hpre]. set (k' := alter_tcb k t _).
  assert (forall u, priority k' u = priority k u) as Ep by (intros u; by apply priority_alter).
  split; [split|..].
  - apply placed_alter; try done. intros c Hc. rewrite Fb. exact (proj2 (pl_priority _ _ _ Hp t c Hc)).
  - apply (delay_inv_same k); try done. intros u. unfold state_value, k', alter_tcb. simpl. rewrite lookup_alter.
    case_decide; [|done]. subst. destruct (tcbs k !! u); simpl; [by rewrite Fv|done].
  - unfold is_ready. by rewrite Ep.
  - unfold is_ready. by rewrite Ep.
  - intros u p Hu. rewrite Ep. exact (Hpre u p Hu).
Qed.

(** [xTaskAbortDelay] takes the items off in the other order. *)
Lemma abort_make_ready k t : let k1 := remove_state_item k t in
  prvAddTaskToReadyList (if negb (event_container k1 t =? NULL)
    then alter_tcb (leave_event_list k1 t) t (set_delay_aborted true) else k1) t =
  (if negb (event_container k t =? NULL) then make_ready (alter_tcb k t (set_delay_aborted true)) t else make_ready k t).
Proof.
  cbv zeta. change (event_container (remove_state_item k t) t) with (event_container k t).
  destruct (Z.eqb_spec (event_container k t) NULL) as [E|E]; cbn [negb]; [by rewrite make_ready_free|].
  unfold make_ready. f_equal. set (f := set_delay_aborted true).
  assert (event_container (alter_tcb k t f) t = event_container k t) as Ec.
  { unfold event_container, alter_tcb. simpl. rewrite lookup_alter_eq. by destruct (tcbs k !! t). }
  unfold leave_event_list. rewrite Ec. change (event_container (remove_state_item k t) t) with (event_container k t).
  destruct (Z.eqb_spec (event_container k t) NULL); [done|]. destruct (Z.eqb_spec (event_container k t) xPendingReadyList_addr).
  - unfold remove_pending_item, alter_tcb. simpl. unfold remove_state_item, with_state_lists, with_ready_index, with_pending, with_tcbs. simpl.
    f_equal. apply map_eq. intros u. rewrite !lookup_alter. repeat case_decide; try done. subst. by destruct (tcbs k !! u) as [[]|].
  - destruct (event_container_task k t E) as [c Hc]. unfold remove_event_item, alter_tcb. simpl.
    assert (alter f t (tcbs k) !! t = Some (f c)) as -> by by rewrite lookup_alter_eq, Hc. rewrite Hc.
    unfold remove_state_item, with_state_lists, with_ready_index, with_event_lists, with_tcbs. simpl. f_equal.
    apply map_eq. intros u. rewrite !lookup_alter, !lookup_insert, !lookup_alter. by repeat case_decide; simplify_eq.
Qed.

Lemma xTaskAbortDelay_ok idle s t : sched_ok idle s -> t <> NULL -> valid_task s t ->
  exists b s', xTaskAbortDelay s t = Some (b, s') /\ sched_ok idle s'.
Proof.
  intros [Hset Hc Hf] Hn [Ht Hw]. unfold xTaskAbortDelay. destruct (Z.eqb_spec t NULL) as [|Hn']; [done|]. cbn [negb guard_c]. cbv zeta.
  assert (exists st, eTaskGetState (suspend_all s) t = Some st) as [st ->]
    by (unfold eTaskGetState; destruct (Z.eqb_spec t NULL); [done|eauto]).
  set (k0 := sd_kernel (suspend_all s)).
  pose proof (settled_suspended _ _ _ (u32 (uxSchedulerSuspended (sd_kernel s) + 1)) Hset) as S0.
  change (with_suspended _ _) with k0 in S0. destruct Hc as (C1 & C2 & C3).
  assert (1 <= uxSchedulerSuspended k0 < 4294967296) as Hs0 by (simpl; rewrite u32_small by lia; lia).
  match goal with |- context [sched_resume_all ?a] => set (s1 := a) end.
  assert (frame_ok s1 /\ xTasksWaitingTermination s1 = xTasksWaitingTermination s) as [F1 W1] by (unfold s1; by destruct (bool_decide _)).
  assert (settled idle (xTasksWaitingTermination s) (sd_kernel s1) /\ uxSchedulerSuspended (sd_kernel s1) = uxSchedulerSuspended k0 /\
          xPendedTicks (sd_kernel s1) = xPendedTicks k0) as (S1 & E1 & E2).
  { unfold s1. destruct (bool_decide _); [|done].
    change (sd_kernel (with_k (suspend_all s) ?x)) with x. rewrite abort_make_ready.
    assert (forall k1, settled idle (xTasksWaitingTermination s) k1 -> is_Some (tcbs k1 !! t) ->
      let k2 := if taskIS_YIELD_REQUIRED (make_ready k1 t) t false then with_yield (make_ready k1 t) true else make_ready k1 t in
      settled idle (xTasksWaitingTermination s) k2 /\ uxSchedulerSuspended k2 = uxSchedulerSuspended k1 /\ xPendedTicks k2 = xPendedTicks k1) as Hk.
    { intros k1 Hk1 Ht1. pose proof (se_base _ _ _ Hk1) as B1.
      destruct (made_ready_counts _ k1 t false (bo_placed _ _ _ B1) Ht1 Hw) as (Q1 & Q2 & _).
      split; [|done]. apply (carried_settled _ _ k1); [done|]. by apply made_ready_carried. }
    destruct (negb _).
    - apply (Hk (alter_tcb k0 t (set_delay_aborted true))); [by apply alter_settled|by apply is_Some_alter].
    - by apply (Hk k0). }
  destruct (resume_all_ok idle s1) as (y & s' & -> & Hok); [by rewrite W1|done|by rewrite E1|by rewrite E2|]. eauto.
Qed.
