(* ===== verification/KernelPriority.v ===== *)
(** * Changing priorities and the clock keep the invariant *)

From stdpp Require Import base list option gmap.
From Stdlib Require Import ZArith Lia.
From S2P Require Import Prelude FreeRTOSList Kernel KernelSched KernelPrio KernelNotify KernelTask KernelLists KernelSafe KernelStep KernelCalls KernelWake.

(** ** Priorities *)

(** A task takes priority [p], and the other ready list with it. *)
Record prioritised (w : list Z) (t p : Z) (k k' : kernel) : Prop := {
  pr_placed : placed w [] k';
  pr_delay : delay_inv k -> delay_inv k';
  pr_ready : forall u q, u ∈ ready_at k' q <-> u <> t /\ u ∈ ready_at k q \/ u = t /\ q = p /\ is_ready k t;
  pr_priority : forall u, priority k' u = if decide (u = t) then p else priority k u;
  pr_current : pxCurrentTCB k' = pxCurrentTCB k;
  pr_yield : xYieldPending k' = xYieldPending k;
  pr_counts : same_counts k k' }.


Definition move_priority (k : kernel) (t : Z) (f : TCB_t -> TCB_t) : kernel :=
  if in_ready_list k t (priority k t) then prvAddTaskToReadyList (remove_state_item (alter_tcb k t f) t) t else alter_tcb k t f.

Lemma alter_delay k t f c : tcbs k !! t = Some c -> xStateItemValue (f c) = xStateItemValue c -> delay_inv k -> delay_inv (alter_tcb k t f).
Proof.
  intros Ht Hf. apply delay_inv_same; try done. intros u. unfold state_value, alter_tcb. simpl. rewrite lookup_alter.
  case_decide; [|done]. subst. by rewrite Ht.
Qed.

Lemma in_ready_list_spec k t : in_ready_list k t (priority k t) = true <-> is_ready k t.
Proof. apply bool_decide_eq_true. Qed.

Lemma move_priority_spec w k t p f c : placed w [] k -> tcbs k !! t = Some c -> t ∉ w -> 0 <= p < configMAX_PRIORITIES -> gives p f c ->
  prioritised w t p k (move_priority k t f).
Proof.
  intros H Ht Hw Hp Hg. unfold move_priority. set (k1 := alter_tcb k t f).
  assert (forall u, priority k1 u = if decide (u = t) then p else priority k u) as Ep.
  { intros u. unfold priority, k1, alter_tcb. simpl. rewrite lookup_alter. case_decide as E.
    - subst u. rewrite decide_True, Ht by done. apply Hg.
    - by rewrite decide_False by congruence. }
  assert (delay_inv k -> delay_inv k1) as Hd by (apply (alter_delay k t f c Ht), Hg).
  destruct (in_ready_list k t (priority k t)) eqn:E.
  - apply in_ready_list_spec in E. change (remove_state_item k1 t) with (alter_tcb (remove_state_item k t) t f).
    pose proof (placed_take_off' w [] k t H ltac:(by apply not_elem_of_nil) Hw (mk_is_Some _ _ Ht)) as H1.
    assert (placed w [t] (alter_tcb (remove_state_item k t) t f)) as H2.
    { apply (placed_gives w [t] _ t p f c); try done. intros q. apply (pl_moving _ _ _ H1 t (LReady q)). by left. }
    destruct (add_ready_other (alter_tcb (remove_state_item k t) t f) t) as (G1 & G2 & G3 & G4 & G5 & G6 & G7 & G8 & G9 & G10 & G11 & G12 & G13 & G14 & G15).
    assert (event_container (alter_tcb (remove_state_item k t) t f) t = NULL) as Hc.
    { pose proof (pl_free _ _ _ H t (LReady _) E) as Hc. revert Hc. unfold event_container, alter_tcb. simpl.
      rewrite lookup_alter_eq, Ht. simpl. by rewrite (gi_container _ _ _ Hg). }
    split.
    + apply placed_put_ready; [done|by apply not_elem_of_nil|done].
    + intros Hdi. apply (delay_inv_remove k1 _ t); [auto|by rewrite G10|by rewrite G13|by rewrite G14|by rewrite G12|].
      intros u. unfold state_value. by rewrite G1.
    + intros u q. change (ready_at (prvAddTaskToReadyList (alter_tcb (remove_state_item k t) t f) t) q) with
        (on_list w (prvAddTaskToReadyList (alter_tcb (remove_state_item k t) t f) t) (LReady q)).
      rewrite on_list_add_ready. change (priority (alter_tcb (remove_state_item k t) t f) t) with (priority k1 t).
      assert (priority k1 t = p) as -> by (by rewrite Ep, decide_True). change (on_list w (alter_tcb (remove_state_item k t) t f) (LReady q)) with (ready_at (remove_state_item k t) q).
      assert (ready_at (remove_state_item k t) q = list_remove_task t (ready_at k q)) as -> by exact (on_list_remove w k t (LReady q)).
      case_decide as Eq; [injection Eq as ->; rewrite elem_of_cons|assert (q <> p) by congruence]; rewrite list_remove_task_elem; naive_solver.
    + intros u. rewrite <- Ep. unfold priority. by rewrite G1.
    + by rewrite G7.
    + by rewrite G9.
    + unfold same_counts. by rewrite G4, G8, G11.
  - assert (~ is_ready k t) as Hn by (rewrite <- in_ready_list_spec, E; done).
    assert (forall q, t ∉ ready_at k q) as Hnr.
    { intros q Hq. apply Hn. unfold is_ready. by rewrite (pl_ready _ _ _ H t q Hq). }
    split; try done; [by apply (placed_gives w [] k t p f c)|].
    intros u q. change (ready_at k1 q) with (ready_at k q). split; [|tauto].
    intros Hu. destruct (decide (u = t)) as [->|]; [by destruct (Hnr q)|by left].
Qed.

Lemma prioritised_is_ready w t p k k' u : prioritised w t p k k' -> is_ready k u -> is_ready k' u.
Proof. intros [R1 R2 R3 R4] Hu. unfold is_ready. rewrite R3, R4. case_decide; [subst; by right|by left]. Qed.

Lemma prioritised_base idle w t p k k' : prioritised w t p k k' -> base_ok idle w k -> base_ok idle w k'.
Proof. intros R [H1 H2 H3]. split; [apply R|by apply R|by apply (prioritised_is_ready w t p k)]. Qed.

(** Nobody outranks the running task who did not before, or there is a switch. *)
Lemma prioritised_preempts w t p k k' : prioritised w t p k k' -> preempts k (xYieldPending k) ->
  (t <> pxCurrentTCB k -> is_ready k t -> priority k (pxCurrentTCB k) < p -> priority k (pxCurrentTCB k) < priority k t) ->
  (t = pxCurrentTCB k -> priority k t <= p) -> preempts k' (xYieldPending k').
Proof.
  intros [R1 R2 R3 R4 R5 R6 R7] H Hother Hself u q Hu Hlt. rewrite R6. rewrite R5, R4 in Hlt. apply R3 in Hu as [[Hut Hu]|(-> & -> & Hr)].
  - apply (H u q Hu). case_decide as E; [|done]. rewrite E in Hself |- *. specialize (Hself eq_refl). lia.
  - destruct (decide (t = pxCurrentTCB k)) as [E|E]; [rewrite decide_True in Hlt by done; lia|].
    rewrite decide_False in Hlt by congruence. apply (H t (priority k t)); [exact Hr|by apply Hother].
Qed.

Lemma prioritised_counts w t p k k' : prioritised w t p k k' -> counts_ok k -> counts_ok k'.
Proof. intros R. apply same_counts_ok, R. Qed.

(** The change [reset_event_item_value] makes. *)
Lemma reset_event_item_value_eq k t p : exists v, reset_event_item_value k t p = alter_tcb k t v /\
  (forall c, uxPriority (v c) = uxPriority c) /\ (forall c, uxBasePriority (v c) = uxBasePriority c) /\
  (forall c, xEventContainer (v c) = xEventContainer c) /\ (forall c, xStateItemValue (v c) = xStateItemValue c).
Proof.
  unfold reset_event_item_value. destruct (_ =? 0); [exists (set_event_value (u32 (configMAX_PRIORITIES - p)))|exists (fun c => c)]; split_and!; try done.
  unfold alter_tcb. destruct k. unfold with_tcbs. simpl. f_equal. apply map_eq. intros u. rewrite lookup_alter. case_decide; [subst|done].
  by destruct (_ !! u).
Qed.

Lemma alter_tcb_comp k t f g : alter_tcb (alter_tcb k t f) t g = alter_tcb k t (fun c => g (f c)).
Proof.
  unfold alter_tcb, with_tcbs. simpl. f_equal. apply map_eq. intros u. rewrite !lookup_alter. repeat case_decide; try done. subst. by destruct (tcbs k !! u).
Qed.

Section priority.
Context (idle : Z) (s : sched) (H : sched_ok idle s).

Local Notation k := (sd_kernel s).
Local Notation w := (xTasksWaitingTermination s).

Lemma task_priority t : is_Some (tcbs k !! t) -> 0 <= priority k t < configMAX_PRIORITIES /\ 0 <= base_priority k t < configMAX_PRIORITIES.
Proof.
  intros [c Hc]. unfold priority, base_priority. rewrite Hc. exact (pl_priority _ _ _ (bo_placed _ _ _ (so_base _ _ H)) t c Hc).
Qed.

(** What a change of priority is followed by. *)
Lemma prioritised_switch t p k' (y : bool) : prioritised w t p k k' ->
  (y = false -> t <> pxCurrentTCB k -> is_ready k t -> priority k (pxCurrentTCB k) < p -> priority k (pxCurrentTCB k) < priority k t) ->
  (y = false -> t = pxCurrentTCB k -> priority k t <= p) ->
  exists s', (if y then switch_context (with_k s k') else Some (with_k s k')) = Some s' /\ sched_ok idle s'.
Proof.
  intros R H1 H2. destruct H as [[Hb Hr Hp] Hc Hf].
  apply switch_if_ok; [by apply (prioritised_base idle w t p k)|by apply (prioritised_counts w t p k)|done| |].
  - change (is_ready k' (pxCurrentTCB k')). rewrite (pr_current _ _ _ _ _ R). by apply (prioritised_is_ready w t p k).
  - intros Hy. apply (prioritised_preempts w t p k); auto.
Qed.

Lemma vTaskPrioritySet_ok h p : let t := prvGetTCBFromHandle (sd_nk s) h in
  valid_task s t -> 0 <= p < configMAX_PRIORITIES ->
  exists s', vTaskPrioritySet s h p = Some s' /\ sched_ok idle s'.
Proof.
  intros t [Ht Hw] Hp. unfold vTaskPrioritySet. fold t. cbv zeta.
  destruct (Z.ltb_spec p configMAX_PRIORITIES); [|lia]. cbn [guard_c].
  destruct (Z.leb_spec configMAX_PRIORITIES p); [lia|].
  destruct (Z.eqb_spec (base_priority k t) p) as [|Hb]; cbn [negb]; [eauto|].
  pose proof (task_priority t Ht) as [Hpt Hbt].
  set (same := base_priority k t =? priority k t).
  set (p' := if same then p else priority k t).
  match goal with |- context [reset_event_item_value ?a t p] => destruct (reset_event_item_value_eq a t p) as (v & -> & V1 & V2 & V3 & V4) end.
  set (f := fun c => v (set_base_priority p (if same then set_priority p c else c))).
  match goal with |- context [alter_tcb ?a t v] => assert (alter_tcb a t v = alter_tcb k t f) as -> by (unfold f; destruct same; by rewrite !alter_tcb_comp) end.
  destruct Ht as [c Hc].
  assert (gives p' f c) as Hg.
  { unfold f, p', same, priority, base_priority. rewrite Hc. simpl.
    destruct (uxBasePriority c =? uxPriority c); split; simpl; rewrite ?V1, ?V2, ?V3, ?V4; auto. }
  change (if in_ready_list _ _ _ then prvAddTaskToReadyList _ _ else _) with (move_priority k t f).
  assert (0 <= p' < configMAX_PRIORITIES) as Hp' by (unfold p'; by destruct same).
  apply (prioritised_switch t p').
  - apply (move_priority_spec w k t p' f c); try done. apply (so_base _ _ H).
  - unfold taskIS_CURRENTLY_RUNNING. intros Hy Hn Hr Hlt. destruct (Z.eqb_spec t (pxCurrentTCB k)); [done|].
    unfold p' in Hlt. destruct same eqn:Es; [|done]. apply Z.eqb_eq in Es.
    destruct (Z.ltb_spec (base_priority k t) p); [|lia]. cbn [negb andb] in Hy. apply Z.leb_gt in Hy. lia.
  - unfold taskIS_CURRENTLY_RUNNING. intros Hy ->. rewrite Z.eqb_refl in Hy. unfold p'. destruct same eqn:Es; [|lia]. apply Z.eqb_eq in Es.
    destruct (Z.ltb_spec (base_priority k (pxCurrentTCB k)) p); [lia|done].
Qed.

Lemma xTaskPriorityInherit_ok h : (h <> NULL -> valid_task s h) ->
  sched_ok idle (with_k s (snd (xTaskPriorityInherit k h))).
Proof.
  intros Hv. unfold xTaskPriorityInherit. destruct (Z.eqb_spec h NULL) as [|Hn]; cbn [negb]; [by apply with_k_ok; apply H|].
  destruct (Hv Hn) as [[c Hc] Hw]. cbv zeta. set (current := priority k (pxCurrentTCB k)).
  destruct (Z.ltb_spec (priority k h) current) as [Hlt|]; [|by apply with_k_ok; apply H].
  destruct (reset_event_item_value_eq k h current) as (v & -> & V1 & V2 & V3 & V4).
  set (f := fun c => set_priority current (v c)).
  assert (in_ready_list (alter_tcb k h v) h (priority (alter_tcb k h v) h) = in_ready_list k h (priority k h)) as ->
    by (unfold in_ready_list; by rewrite priority_alter).
  assert (gives current f c) as Hg by (split; simpl; rewrite ?V2, ?V3, ?V4; done).
  assert (is_ready k (pxCurrentTCB k)) as Hcur by apply H.
  assert (0 <= current < configMAX_PRIORITIES) as Hb by (by apply task_priority, (ready_task w), Hcur; apply (so_base _ _ H)).
  edestruct (prioritised_switch h current (move_priority k h f) false) as (s' & E & Hok).
  - apply (move_priority_spec w k h current f c); try done. apply (so_base _ _ H).
  - intros _ _ _ Hx. lia.
  - intros _ ->. lia.
  - injection E as <-. unfold move_priority in Hok. unfold f in Hok.
    destruct (in_ready_list _ _ _); cbn [snd];
      [change (remove_state_item (alter_tcb k h v) h) with (alter_tcb (remove_state_item k h) h v)|]; rewrite alter_tcb_comp; exact Hok.
Qed.

(** Giving the mutex back and the yield the caller makes if that lowered its priority. *)
Lemma xTaskPriorityDisinherit_ok h : (h <> NULL -> h = pxCurrentTCB k /\ mutexes_held k h <> 0) ->
  exists y k' s', xTaskPriorityDisinherit k h = Some (y, k') /\
    (if y : bool then switch_context (with_k s k') else Some (with_k s k')) = Some s' /\ sched_ok idle s'.
Proof.
  intros Hv. unfold xTaskPriorityDisinherit. destruct (Z.eqb_spec h NULL) as [|Hn]; cbn [negb].
  { do 3 eexists. split; [reflexivity|]. split; [reflexivity|]. by apply with_k_ok; apply H. }
  destruct (Hv Hn) as [-> Hm]. rewrite Z.eqb_refl. cbn [guard_c]. destruct (Z.eqb_spec (mutexes_held k (pxCurrentTCB k)) 0); [done|].
  cbn [negb guard_c]. cbv zeta. set (t := pxCurrentTCB k) in *. set (g := set_mutexes_held (mutexes_held k t - 1)).
  assert (is_ready k t) as Hcur by apply H. pose proof (bo_placed _ _ _ (so_base _ _ H)) as Hp.
  destruct (ready_task _ _ _ Hp Hcur) as [c Hc].
  destruct (negb _ && _).
  - change (remove_state_item (alter_tcb k t g) t) with (alter_tcb (remove_state_item k t) t g).
    set (b := base_priority _ t). set (v := set_event_value _).
    rewrite !alter_tcb_comp. set (f := fun c => v _).
    assert (b = base_priority k t) as Eb.
    { unfold b, base_priority, alter_tcb. simpl. by rewrite lookup_alter_eq, Hc. }
    assert (gives b f c) as Hg by by split.
    assert (move_priority k t f = prvAddTaskToReadyList (alter_tcb (remove_state_item k t) t f) t) as <-.
    { unfold move_priority. by rewrite (proj2 (in_ready_list_spec k t) Hcur). }
    destruct (prioritised_switch t b (move_priority k t f) true) as (s' & E & Hok); [|done..|by exists true, (move_priority k t f), s'].
    apply (move_priority_spec w k t b f c); try done; [by apply (ready_not_deleted w k)|].
    rewrite Eb. apply task_priority. eauto.
  - do 3 eexists. split; [reflexivity|]. split; [reflexivity|].
    apply with_k_ok; [apply H|by apply alter_settled; try apply H|apply H].
Qed.

(** The waiter gives up; [highest] is the priority of the highest waiter left. *)
Lemma xTaskPriorityDisinheritAfterTimeout_ok h highest :
  (h <> NULL -> valid_task s h /\ h <> pxCurrentTCB k /\ mutexes_held k h <> 0 /\ base_priority k h <= priority k h) ->
  0 <= highest <= priority k h ->
  exists k', vTaskPriorityDisinheritAfterTimeout k h highest = Some k' /\ sched_ok idle (with_k s k').
Proof.
  intros Hv Hh. unfold vTaskPriorityDisinheritAfterTimeout. destruct (Z.eqb_spec h NULL) as [|Hn]; cbn [negb].
  { eexists. split; [reflexivity|]. by apply with_k_ok; apply H. }
  destruct (Hv Hn) as ([[c Hc] Hw] & Hcur & Hm & Hb). destruct (Z.eqb_spec (mutexes_held k h) 0); [done|]. cbn [negb guard_c]. cbv zeta.
  set (p := if base_priority k h <? highest then highest else base_priority k h).
  assert (0 <= p <= priority k h) as Hp.
  { pose proof (task_priority h (mk_is_Some _ _ Hc)). unfold p. destruct (Z.ltb_spec (base_priority k h) highest); lia. }
  destruct (negb _ && _); [|eexists; split; [reflexivity|]; by apply with_k_ok; apply H].
  destruct (Z.eqb_spec h (pxCurrentTCB k)); [done|]. cbn [negb guard_c].
  match goal with |- context [reset_event_item_value ?a h p] => destruct (reset_event_item_value_eq a h p) as (v & -> & V1 & V2 & V3 & V4) end.
  rewrite alter_tcb_comp. set (f := fun c => v _).
  assert (gives p f c) as Hg by (split; unfold f; rewrite ?V1, ?V2, ?V3, ?V4; done).
  pose proof (task_priority h (mk_is_Some _ _ Hc)) as [Hpr _].
  edestruct (prioritised_switch h p (move_priority k h f) false) as (s' & E & Hok).
  - apply (move_priority_spec w k h p f c); try done; [apply (so_base _ _ H)|lia].
  - intros _ _ _ Hx. lia.
  - intros _ E. done.
  - injection E as <-. eexists. split; [|exact Hok]. unfold move_priority.
    change (in_ready_list (alter_tcb k h f) h (priority k h)) with (in_ready_list k h (priority k h)). by destruct (in_ready_list _ _ _).
Qed.

End priority.
