(* ===== verification/KernelReach.v ===== *)
(** * From boot on, the highest-priority ready task runs

    The clock's calls; starting the scheduler; every sequence of calls. *)

From stdpp Require Import base list option gmap.
From Stdlib Require Import ZArith Lia.
From S2P Require Import Prelude FreeRTOSList Kernel KernelSched KernelPrio KernelNotify KernelTask KernelLists KernelSafe KernelStep KernelCalls KernelWake KernelPriority.

(** ** The clock, and the scheduler's lock *)

Section clock.
Context (idle : Z) (s : sched) (H : sched_ok idle s).

Local Notation k := (sd_kernel s).
Local Notation w := (xTasksWaitingTermination s).

Lemma settled_pended n : settled idle w (with_time k (xTickCount k) (xNumOfOverflows k) n).
Proof. destruct H as [[H1 H2 H3] _ _]. split; [by apply base_pended|done|done]. Qed.

Lemma xPortSysTickHandler_ok : exists s', xPortSysTickHandler s = Some s' /\ sched_ok idle s'.
Proof.
  destruct H as [Hset Hc Hf]. unfold xPortSysTickHandler. destruct (decide (uxSchedulerSuspended k = 0)) as [Hs|Hs].
  - destruct Hc as (C1 & C2 & C3). destruct (C3 Hs) as [P0 T0].
    destruct (tick_safe idle w k (se_base _ _ _ Hset) Hs P0) as (sw & k' & -> & Hb & [T1 T2 T3 T4 T5 T6] & Hs' & Ht' & Hpre).
    cbv zeta. apply switch_if_ok; [done| |done| |].
    + unfold counts_ok. change (sd_kernel (with_k s k')) with k'. rewrite Hs', Ht', T5, T0. split; [lia|]. split; [|done]. unfold is_u32. lia.
    + change (is_ready k' (pxCurrentTCB k')). rewrite T2. apply T4, Hset.
    + intros -> u p Hu Hlt. discriminate (Hpre (se_preempt _ _ _ Hset) u p Hu Hlt).
  - unfold xTaskIncrementTick. destruct (Z.eqb_spec (uxSchedulerSuspended k) 0); [done|]. cbv zeta.
    eexists. split; [reflexivity|]. apply with_k_ok; [done|apply settled_pended|].
    destruct Hc as (C1 & C2 & C3). split; [done|]. split; [apply u32_range|]. intros E. by destruct Hs.
Qed.

Lemma suspend_all_ok : uxSchedulerSuspended k + 1 < 4294967295 -> sched_ok idle (suspend_all s).
Proof.
  destruct H as [Hset (C1 & C2 & C3) Hf]. intros Hn. apply with_k_ok; [done|by apply settled_suspended|].
  assert (uxSchedulerSuspended (vTaskSuspendAll k) = uxSchedulerSuspended k + 1) as E by (simpl; apply u32_small; lia).
  unfold counts_ok. rewrite E. split; [lia|]. split; [done|]. lia.
Qed.

Lemma xTaskResumeAll_ok : uxSchedulerSuspended k <> 0 -> exists y s', sched_resume_all s = Some (y, s') /\ sched_ok idle s'.
Proof.
  destruct H as [Hset (C1 & C2 & C3) Hf]. intros Hn. apply resume_all_ok; [done|done|lia|done].
Qed.

Lemma xTaskCatchUpTicks_ok n : uxSchedulerSuspended k = 0 -> exists y s', xTaskCatchUpTicks s n = Some (y, s') /\ sched_ok idle s'.
Proof.
  intros Hs. unfold xTaskCatchUpTicks. rewrite suspended_off by done. cbn [negb guard_c]. cbv zeta.
  destruct (suspend_all_counts s (so_counts _ _ H) Hs) as [E1 _].
  apply resume_all_ok.
  - apply (settled_suspended idle w (with_time k (xTickCount k) (xNumOfOverflows k) (u32 (xPendedTicks k + n)))), settled_pended.
  - apply H.
  - change (1 <= uxSchedulerSuspended (sd_kernel (suspend_all s)) < 4294967296). lia.
  - apply u32_range.
Qed.

End clock.

(** ** Starting the scheduler *)

(** Zeroed memory. *)
Definition no_tasks : sched :=
  mkSched (mkNK (mkKernel 0 0 0 NULL 0 0 0 false ∅ ∅ [] [] [] [] ∅ ∅) ∅ ∅) [] 0 false.

(** Tasks created before the scheduler starts, with their priorities. *)
Fixpoint create_all (l : list (Z * Z)) (s : sched) : option sched :=
  match l with
  | [] => Some s
  | (p, prio) :: l => let! (_, s) := xTaskCreatePinnedToCore s p prio in create_all l s
  end.

(** Before it starts the chosen task is one of the highest priority. *)
Record starting (s : sched) : Prop := {
  st_placed : placed [] [] (sd_kernel s);
  st_running : xSchedulerRunning s = false;
  st_deleted : xTasksWaitingTermination s = [] /\ uxDeletedTasksWaitingCleanUp s = 0;
  st_counts : uxSchedulerSuspended (sd_kernel s) = 0 /\ xPendedTicks (sd_kernel s) = 0 /\ xPendingReadyList (sd_kernel s) = [];
  st_delayed : pxDelayedTaskList (sd_kernel s) = [] /\ pxOverflowDelayedTaskList (sd_kernel s) = [] /\ xSuspendedTaskList (sd_kernel s) = [];
  st_current : is_ready (sd_kernel s) (pxCurrentTCB (sd_kernel s));
  st_highest : forall u p, u ∈ ready_at (sd_kernel s) p -> p <= priority (sd_kernel s) (pxCurrentTCB (sd_kernel s)) }.

Lemma no_tasks_placed : placed [] [] (sd_kernel no_tasks).
Proof.
  assert (forall l, on_list [] (sd_kernel no_tasks) l = []) as E by by intros [].
  split; try done.
  - intros l. rewrite E. constructor.
  - intros t l1 l2. rewrite E. by intros ?%elem_of_nil.
  - intros t. simpl. split; [by intros []|]. intros [Ht|[l Hl]]; [|rewrite E in Hl]; by apply elem_of_nil in Ht || apply elem_of_nil in Hl.
  - intros t p Ht. by apply elem_of_nil in Ht.
  - intros p t Ht. by apply elem_of_nil in Ht.
  - intros p t Ht. by apply elem_of_nil in Ht.
  - intros t l [Hl _]. unfold on_event_list, event_container. simpl. split; [by intros ?%elem_of_nil|]. by intros <-.
  - intros l. unfold on_event_list. simpl. constructor.
  - intros t. simpl. split; [by intros ?%elem_of_nil|done].
  - simpl. constructor.
  - intros t l. rewrite E. by intros ?%elem_of_nil.
Qed.

Lemma first_create p prio : p <> NULL -> 0 <= prio < configMAX_PRIORITIES ->
  exists s, xTaskCreatePinnedToCore no_tasks p prio = Some (true, s) /\ starting s /\ dom (tcbs (sd_kernel s)) = {[p]}.
Proof.
  intros Hn Hprio. unfold xTaskCreatePinnedToCore, prvInitialiseNewTask. destruct (Z.eqb_spec p NULL); [done|]. cbn [negb].
  destruct (Z.ltb_spec prio configMAX_PRIORITIES); [|lia]. cbn [guard_c]. destruct (Z.leb_spec configMAX_PRIORITIES prio); [lia|].
  set (tcb := mkTCB prio 0 _ NULL false prio 0).
  destruct (new_task_ready [] (sd_kernel no_tasks) p tcb no_tasks_placed eq_refl Hn eq_refl Hprio Hprio) as (Hpl & Er & _ & Epp & _).
  set (k1 := with_tcbs (sd_kernel no_tasks) (<[p := tcb]> (tcbs (sd_kernel no_tasks)))) in *.
  unfold prvAddNewTaskToReadyList. fold k1. change (sd_kernel (with_k no_tasks k1)) with k1.
  assert (uxTaskGetNumberOfTasks k1 =? 1 = true) as ->
    by (apply Z.eqb_eq; unfold uxTaskGetNumberOfTasks; simpl; by rewrite map_size_insert_None, map_size_empty).
  change (sd_kernel (prvInitialiseTaskLists _)) with k1. change (pxCurrentTCB k1) with NULL. cbn [Z.eqb].
  change (with_k (prvInitialiseTaskLists _)) with (with_k no_tasks). change (xSchedulerRunning _) with false. cbn [andb negb].
  eexists. split; [reflexivity|].
  set (k2 := prvAddTaskToReadyList k1 p) in *.
  assert (prvAddTaskToReadyList (with_current k1 p) p = with_current k2 p) as Ec.
  { unfold k2, prvAddTaskToReadyList, taskRECORD_READY_PRIORITY. simpl. by destruct (_ <? _). }
  destruct (add_ready_other k1 p) as (G1 & G2 & G3 & G4 & G5 & G6 & G7 & G8 & G9 & G10 & G11 & G12 & G13 & G14 & G15).
  fold k2 in G1, G4, G7, G8, G9, G10, G11, G12, G13, G14, G15.
  set (k3 := prvAddTaskToReadyList _ p). assert (k3 = with_current k2 p) as -> by exact Ec.
  split.
  - split; try done.
    + by apply placed_current.
    + change (p ∈ ready_at k2 (priority k2 p)). rewrite Epp. apply Er. by left.
    + intros u q. change (u ∈ ready_at k2 q -> q <= priority k2 p). rewrite Epp, Er. intros [[-> ->]|Hu]; [done|by apply elem_of_nil in Hu].
  - change (dom (tcbs k2) = {[p]}). rewrite G1. simpl. by rewrite dom_insert_L, dom_empty_L, union_empty_r_L.
Qed.

Lemma next_create s p prio : starting s -> p ∉ dom (tcbs (sd_kernel s)) -> p <> NULL -> 0 <= prio < configMAX_PRIORITIES ->
  exists s', xTaskCreatePinnedToCore s p prio = Some (true, s') /\ starting s' /\
    dom (tcbs (sd_kernel s')) = {[p]} ∪ dom (tcbs (sd_kernel s)).
Proof.
  intros [S1 S2 [S3 S3'] (S4 & S5 & S6) (S7 & S8 & S9) S10 S11] Hp Hn Hprio. apply not_elem_of_dom in Hp.
  unfold xTaskCreatePinnedToCore, prvInitialiseNewTask. destruct (Z.eqb_spec p NULL); [done|]. cbn [negb].
  destruct (Z.ltb_spec prio configMAX_PRIORITIES); [|lia]. cbn [guard_c]. destruct (Z.leb_spec configMAX_PRIORITIES prio); [lia|].
  set (tcb := mkTCB prio 0 _ NULL false prio 0). set (k := sd_kernel s) in *. set (k1 := with_tcbs k (<[p := tcb]> (tcbs k))).
  destruct (new_task_ready [] k p tcb S1 Hp Hn eq_refl Hprio Hprio) as (Hpl & Er & Epr & Epp & Hne). fold k1 in Hpl, Er, Epr, Epp.
  destruct (ready_task _ _ _ S1 S10) as [c0 Hc0].
  assert (pxCurrentTCB k <> NULL) as Hcur by (intros E; rewrite E in Hc0; by rewrite (pl_null _ _ _ S1) in Hc0).
  unfold prvAddNewTaskToReadyList. cbv zeta. fold k. fold k1. change (sd_kernel (with_k s k1)) with k1.
  assert (uxTaskGetNumberOfTasks k1 =? 1 = false) as ->.
  { apply Z.eqb_neq. unfold uxTaskGetNumberOfTasks. simpl. rewrite map_size_insert_None by done.
    assert (size (tcbs k) <> 0%nat); [|lia]. apply map_size_non_empty_iff. intros E. by rewrite E, lookup_empty in Hc0. }
  change (sd_kernel (with_k s k1)) with k1. change (pxCurrentTCB k1) with (pxCurrentTCB k).
  destruct (Z.eqb_spec (pxCurrentTCB k) NULL); [done|].
  change (xSchedulerRunning (with_k s k1)) with (xSchedulerRunning s). rewrite S2. cbn [negb andb].
  change (xSchedulerRunning (with_k (with_k s k1) _)) with (xSchedulerRunning s). rewrite S2. cbn [andb].
  assert (priority k1 (pxCurrentTCB k) = priority k (pxCurrentTCB k)) as Ecp.
  { unfold priority, k1. simpl. rewrite lookup_insert_ne; [done|]. intros E. rewrite <- E in Hc0. congruence. }
  rewrite Ecp. change (uxPriority tcb) with prio.
  set (cur := if priority k (pxCurrentTCB k) <=? prio then p else pxCurrentTCB k).
  assert ((if priority k (pxCurrentTCB k) <=? prio then with_current k1 p else k1) = with_current k1 cur) as ->
    by (unfold cur; destruct (_ <=? _); [done|reflexivity]).
  set (k2 := prvAddTaskToReadyList k1 p) in *.
  assert (prvAddTaskToReadyList (with_current k1 cur) p = with_current k2 cur) as ->.
  { unfold k2, prvAddTaskToReadyList, taskRECORD_READY_PRIORITY. simpl. change (priority (with_current k1 cur) p) with (priority k1 p). by destruct (_ <? _). }
  destruct (add_ready_other k1 p) as (G1 & G2 & G3 & G4 & G5 & G6 & G7 & G8 & G9 & G10 & G11 & G12 & G13 & G14 & G15).
  fold k2 in G1, G4, G7, G8, G9, G10, G11, G12, G13, G14, G15.
  assert (pxCurrentTCB k <> p) as Hcp by (eapply Hne, S10).
  eexists. split; [reflexivity|]. split; [|change (dom (tcbs k2) = {[p]} ∪ dom (tcbs k)); rewrite G1; simpl; by rewrite dom_insert_L].
  assert (priority k2 cur = Z.max (priority k (pxCurrentTCB k)) prio) as Epc.
  { unfold cur. destruct (Z.leb_spec (priority k (pxCurrentTCB k)) prio); [rewrite Epp|rewrite Epr by done]; simpl; lia. }
  split; try done.
  - by apply placed_current.
  - change (uxSchedulerSuspended k2 = 0 /\ xPendedTicks k2 = 0 /\ xPendingReadyList k2 = []). by rewrite G8, G11, G4.
  - change (pxDelayedTaskList k2 = [] /\ pxOverflowDelayedTaskList k2 = [] /\ xSuspendedTaskList k2 = []). by rewrite G13, G14, G15.
  - change (cur ∈ ready_at k2 (priority k2 cur)). apply Er. unfold cur. destruct (_ <=? _).
    + left. by rewrite Epp.
    + right. rewrite Epr by done. exact S10.
  - intros u q. change (u ∈ ready_at k2 q -> q <= priority k2 cur). rewrite Epc, Er.
    intros [[-> ->]|Hu]; [simpl; lia|]. pose proof (S11 u q Hu). lia.
Qed.

(** What is created: addresses of memory that is not in use, and valid priorities. *)
Definition creatable (l : list (Z * Z)) : Prop :=
  NoDup l.*1 /\ Forall (fun x : Z * Z => fst x <> NULL /\ 0 <= snd x < configMAX_PRIORITIES) l.

Lemma create_rest l : forall s, starting s -> creatable l -> (forall p, p ∈ l.*1 -> p ∉ dom (tcbs (sd_kernel s))) ->
  exists s', create_all l s = Some s' /\ starting s' /\ dom (tcbs (sd_kernel s')) = list_to_set l.*1 ∪ dom (tcbs (sd_kernel s)).
Proof.
  induction l as [|[p prio] l IH]; intros s Hs [Hnd Hall] Hfresh; simpl.
  { exists s. split_and!; [done|done|]. by rewrite union_empty_l_L. }
  apply NoDup_cons in Hnd as [Hpl Hnd]. apply Forall_cons in Hall as [[Hn Hprio] Hall]. simpl in *.
  destruct (next_create s p prio Hs) as (s1 & -> & Hs1 & Hd1); [apply Hfresh; by left|done|done|].
  destruct (IH s1 Hs1) as (s' & -> & Hs' & Hd'); [by split| |].
  { intros q Hq. rewrite Hd1. apply not_elem_of_union. split; [|apply Hfresh; by right].
    rewrite elem_of_singleton. by intros ->. }
  exists s'. split_and!; [done..|]. rewrite Hd', Hd1. set_solver.
Qed.

Lemma create_all_ok l : creatable l -> l <> [] ->
  exists s, create_all l no_tasks = Some s /\ starting s /\ dom (tcbs (sd_kernel s)) = list_to_set l.*1.
Proof.
  destruct l as [|[p prio] l]; [done|]. intros [Hnd Hall] _. apply NoDup_cons in Hnd as [Hpl Hnd].
  apply Forall_cons in Hall as [[Hn Hprio] Hall]. simpl in *.
  destruct (first_create p prio Hn Hprio) as (s1 & -> & Hs1 & Hd1).
  destruct (create_rest l s1 Hs1) as (s' & -> & Hs' & Hd'); [by split| |].
  { intros q Hq. rewrite Hd1, elem_of_singleton. by intros ->. }
  exists s'. split_and!; [done..|]. rewrite Hd', Hd1. set_solver.
Qed.

(** The start: any created task may be taken for the idle one. *)
Lemma start_ok s idle : starting s -> idle ∈ dom (tcbs (sd_kernel s)) -> sched_ok idle (vTaskStartScheduler s).
Proof.
  intros [S1 S2 [S3 S3'] (S4 & S5 & S6) (S7 & S8 & S9) S10 S11] Hi.
  assert (is_ready (sd_kernel s) idle) as Hr.
  { apply elem_of_dom, (pl_task _ _ _ S1) in Hi as [Hi|[l Hl]]; [by apply elem_of_nil in Hi|].
    destruct l as [q| | | |]; simpl in Hl; rewrite ?S7, ?S8, ?S9 in Hl; try by apply elem_of_nil in Hl.
    unfold is_ready. by rewrite (pl_ready _ _ _ S1 idle q Hl). }
  unfold vTaskStartScheduler. set (k' := with_time _ 0 _ _). split.
  - change (xTasksWaitingTermination (with_running _ true)) with (xTasksWaitingTermination s). rewrite S3.
    change (sd_kernel (with_running _ true)) with k'. split; [split|..].
    + by apply placed_time, placed_unblock.
    + split; simpl; rewrite ?S7, ?S8; try constructor; unfold is_u32; lia.
    + exact Hr.
    + exact S10.
    + intros u q Hu Hlt. pose proof (S11 u q Hu). change (priority k' (pxCurrentTCB k')) with (priority (sd_kernel s) (pxCurrentTCB (sd_kernel s))) in Hlt. lia.
  - change (counts_ok k'). unfold counts_ok, k'. simpl. rewrite S4, S5, S6. split; [lia|]. split; [unfold is_u32; lia|done].
  - split; [done|]. simpl. by rewrite S3, S3'.
Qed.

(** ** Every sequence of calls *)

(** What tasks and interrupts do to the scheduler.  [CTakeMutex] is what taking a
    mutex does to the scheduler's state.  [CWait] is how a service blocks the
    running task on an event list, [CWake] how it wakes the first waiter, and whether
    the caller yields if it should. *)
Inductive call :=
  | CTick | CYield
  | CDelay (n : Z) | CDelayUntil (prev inc : Z)
  | CSuspend (h : Z) | CResume (t : Z) | CResumeFromISR (t : Z) | CAbortDelay (t : Z)
  | CPrioritySet (h p : Z) | CTakeMutex | CInherit (h : Z) | CDisinherit (h : Z) | CDisinheritAfterTimeout (h p : Z)
  | CCreate (p prio : Z) | CDelete (h : Z) | CCleanUp
  | CSuspendAll | CResumeAll | CCatchUp (n : Z)
  | CWait (ev n : Z) | CWake (ev : Z) (yields : bool).

Definition run_call (c : call) (s : sched) : option sched :=
  match c with
  | CTick => xPortSysTickHandler s
  | CYield => switch_context s
  | CDelay n => vTaskDelay s n
  | CDelayUntil prev inc => let! (_, _, s) := xTaskDelayUntil s prev inc in Some s
  | CSuspend h => vTaskSuspend s h
  | CResume t => vTaskResume s t
  | CResumeFromISR t => let! (_, s) := xTaskResumeFromISR s t in Some s
  | CAbortDelay t => let! (_, s) := xTaskAbortDelay s t in Some s
  | CPrioritySet h p => vTaskPrioritySet s h p
  | CTakeMutex => Some (with_k s (snd (pvTaskIncrementMutexHeldCount (sd_kernel s))))
  | CInherit h => Some (with_k s (snd (xTaskPriorityInherit (sd_kernel s) h)))
  | CDisinherit h =>
      let! (y, k) := xTaskPriorityDisinherit (sd_kernel s) h in
      if y : bool then switch_context (with_k s k) else Some (with_k s k)
  | CDisinheritAfterTimeout h p =>
      let! k := vTaskPriorityDisinheritAfterTimeout (sd_kernel s) h p in Some (with_k s k)
  | CCreate p prio => let! (_, s) := xTaskCreatePinnedToCore s p prio in Some s
  | CDelete h => vTaskDelete s h
  | CCleanUp => prvCheckTasksWaitingTermination s
  | CSuspendAll => Some (suspend_all s)
  | CResumeAll => let! (_, s) := sched_resume_all s in Some s
  | CCatchUp n => let! (_, s) := xTaskCatchUpTicks s n in Some s
  | CWait ev n => resume_all_and_yield (with_k s (vTaskPlaceOnEventList (vTaskSuspendAll (sd_kernel s)) ev n))
  | CWake ev yields =>
      let! (y, k) := xTaskRemoveFromEventList (sd_kernel s) ev in
      if y && yields then switch_context (with_k s k) else Some (with_k s k)
  end.

(** How the functions may be called: the idle task never blocks, handles are of
    tasks that are not deleted, nobody blocks with the scheduler suspended, only the
    holder gives a mutex, and a task that gives up waiting for one has a holder whose
    own priority was not raised above what it inherited meanwhile (see
    [raised_holder_does_not_run] for what happens otherwise). *)
Definition call_ok (idle : Z) (s : sched) (c : call) : Prop :=
  let k := sd_kernel s in
  let may_block := uxSchedulerSuspended k = 0 /\ pxCurrentTCB k <> idle in
  match c with
  | CTick | CYield | CCleanUp | CTakeMutex => True
  | CDelay n => is_u32 n /\ (0 < n -> may_block)
  | CDelayUntil _ inc => 0 < inc /\ may_block
  | CSuspend h => let t := prvGetTCBFromHandle (sd_nk s) h in
      valid_task s t /\ t <> idle /\ (t = pxCurrentTCB k -> uxSchedulerSuspended k = 0)
  | CResume t | CResumeFromISR t => t <> NULL
  | CAbortDelay t => t <> NULL /\ valid_task s t
  | CPrioritySet h p => valid_task s (prvGetTCBFromHandle (sd_nk s) h) /\ 0 <= p < configMAX_PRIORITIES
  | CInherit h => h <> NULL -> valid_task s h
  | CDisinherit h => h <> NULL -> h = pxCurrentTCB k /\ mutexes_held k h <> 0
  | CDisinheritAfterTimeout h p => 0 <= p <= priority k h /\
      (h <> NULL -> valid_task s h /\ h <> pxCurrentTCB k /\ mutexes_held k h <> 0 /\ base_priority k h <= priority k h)
  | CCreate p prio => tcbs k !! p = None /\ 0 <= prio < configMAX_PRIORITIES
  | CDelete h => let t := prvGetTCBFromHandle (sd_nk s) h in
      valid_task s t /\ t <> idle /\
      (t = pxCurrentTCB k -> uxSchedulerSuspended k = 0 /\ Z.of_nat (length (xTasksWaitingTermination s)) + 1 < 4294967296)
  | CSuspendAll => uxSchedulerSuspended k + 1 < 4294967295
  | CResumeAll => uxSchedulerSuspended k <> 0
  | CCatchUp _ => uxSchedulerSuspended k = 0
  | CWait ev n => is_event_list ev /\ 0 < n <= portMAX_DELAY /\ may_block
  | CWake ev _ => is_event_list ev /\ listLIST_IS_EMPTY k ev = false
  end.

(** From the creation of the first task. *)
Inductive reachable (idle : Z) : sched -> Prop :=
  | re_start l s : creatable l -> idle ∈ l.*1 -> create_all l no_tasks = Some s -> reachable idle (vTaskStartScheduler s)
  | re_call s c s' : reachable idle s -> call_ok idle s c -> run_call c s = Some s' -> reachable idle s'.

Lemma drop_result {A} (o : option (A * sched)) idle : (exists a s', o = Some (a, s') /\ sched_ok idle s') ->
  exists s', (let! (_, s) := o in Some s) = Some s' /\ sched_ok idle s'.
Proof. intros (a & s' & -> & H). eauto. Qed.

Lemma mutex_held_ok idle s : sched_ok idle s -> sched_ok idle (with_k s (snd (pvTaskIncrementMutexHeldCount (sd_kernel s)))).
Proof.
  intros H. unfold pvTaskIncrementMutexHeldCount. simpl snd. destruct (_ =? NULL).
  - by destruct H as [Hs Hc Hf]; apply with_k_ok.
  - destruct H as [Hs Hc Hf]. apply with_k_ok; [done|by apply alter_settled|done].
Qed.

Lemma run_call_ok idle s c : sched_ok idle s -> call_ok idle s c ->
  exists s', run_call c s = Some s' /\ sched_ok idle s'.
Proof.
  intros H Hc. destruct c; cbn [run_call]; unfold call_ok in Hc; cbv zeta in Hc.
  - by apply xPortSysTickHandler_ok.
  - apply switch_ok; [apply H|apply H|apply H|intros _; apply H].
  - destruct Hc as [Hn Hb]. by apply vTaskDelay_ok.
  - destruct Hc as (Hn & Hs & Hi). destruct (xTaskDelayUntil_ok idle s H prev inc) as (d & wk & s' & -> & Hok); eauto.
  - destruct Hc as (Hv & Hi & Hs). by apply vTaskSuspend_ok.
  - by apply vTaskResume_ok.
  - by apply drop_result, xTaskResumeFromISR_ok.
  - destruct Hc. by apply drop_result, xTaskAbortDelay_ok.
  - destruct Hc. by apply vTaskPrioritySet_ok.
  - eexists. split; [reflexivity|]. by apply mutex_held_ok.
  - eexists. split; [reflexivity|]. by apply xTaskPriorityInherit_ok.
  - destruct (xTaskPriorityDisinherit_ok idle s H h Hc) as (y & k' & s' & -> & Hs' & Hok). exists s'. by destruct y.
  - destruct Hc as [Hp Hv]. destruct (xTaskPriorityDisinheritAfterTimeout_ok idle s H h p Hv Hp) as (k' & -> & Hok). eauto.
  - destruct Hc as [Hp Hprio]. destruct (created_ok idle s p prio H Hp Hprio) as (b & s' & -> & Hok & _). eauto.
  - destruct Hc as (Hv & Hi & Hs). by apply vTaskDelete_ok.
  - destruct (prvCheckTasksWaitingTermination_ok idle s H) as (s' & -> & Hok & _). eauto.
  - eexists. split; [reflexivity|]. by apply suspend_all_ok.
  - by apply drop_result, xTaskResumeAll_ok.
  - by apply drop_result, xTaskCatchUpTicks_ok.
  - destruct Hc as (Hev & Hn & Hs & Hi). by apply wait_ok.
  - destruct Hc as [Hev Hne]. unfold listLIST_IS_EMPTY in Hne.
    destruct (default [] (event_lists (sd_kernel s) !! ev)) as [|t l] eqn:El; [done|].
    destruct (woken_settled idle s ev t l H Hev El) as (y & k' & -> & Hok).
    destruct (y && yields); [|eauto]. apply switch_ok; [apply Hok|apply Hok|apply Hok|intros _; apply Hok].
Qed.

Lemma reachable_ok idle s : reachable idle s -> sched_ok idle s.
Proof.
  induction 1 as [l s Hl Hi Hs|s c s' _ IH Hc Hs].
  - destruct (create_all_ok l Hl) as (s' & Hs' & Hst & Hd); [by intros ->; apply elem_of_nil in Hi|].
    rewrite Hs in Hs'. injection Hs' as <-. apply start_ok; [done|]. rewrite Hd. by apply elem_of_list_to_set.
  - destruct (run_call_ok idle s c IH Hc) as (s'' & Hs'' & Hok). congruence.
Qed.
