(* ===== verification/KernelFair.v ===== *)
(** * Tasks of equal priority share the processor

    What holds in every state reached from boot, and the time slices that the ready
    tasks of the highest priority get in turn. *)

From stdpp Require Import base list option gmap.
From Stdlib Require Import ZArith Lia.
From S2P Require Import Prelude FreeRTOSList Kernel KernelSched KernelPrio KernelNotify KernelTask KernelLists KernelSafe KernelStep KernelCalls KernelWake KernelPriority KernelReach.

(** ** The order of the turns *)

(** With the index at [i] the tasks of [l] get their turns in the order [c]. *)
Definition turns (i : Z) (l c : list Z) : Prop :=
  i = NULL /\ c = l \/ exists l1 l2, l = l1 ++ i :: l2 /\ c = l2 ++ l1 ++ [i].

Lemma turns_perm i l c : turns i l c -> c ≡ₚ l.
Proof.
  intros [[_ ->]|(l1 & l2 & -> & ->)]; [done|].
  by rewrite (assoc_L (++)), <- Permutation_cons_append, (comm (++) l2 l1), <- Permutation_middle.
Qed.

Lemma item_after_split i l1 l2 : i ∉ l1 -> item_after i (l1 ++ i :: l2) = default NULL (head l2).
Proof.
  induction l1 as [|u l1 IH]; intros Hi; simpl; [by rewrite Z.eqb_refl|].
  apply not_elem_of_cons in Hi as [Hu Hi]. destruct (Z.eqb_spec u i); [congruence|auto].
Qed.

Lemma turns_exists i l : i = NULL \/ i ∈ l -> exists c, turns i l c.
Proof.
  intros [->|Hi]; [exists l; by left|]. apply list_elem_of_split in Hi as (l1 & l2 & ->).
  eexists. right. by exists l1, l2.
Qed.

(** One turn. *)
Lemma turns_next i l x c : NoDup l -> NULL ∉ l -> turns i l (x :: c) ->
  listGET_OWNER_OF_NEXT_ENTRY i l = x /\ turns x l (c ++ [x]).
Proof.
  intros Hnd Hn [[-> <-]|(l1 & l2 & -> & Hc)].
  - apply not_elem_of_cons in Hn as [Hx Hn]. split; [|right; by exists [], c].
    unfold listGET_OWNER_OF_NEXT_ENTRY, list_next. simpl. by destruct (Z.eqb_spec x NULL).
  - assert (i <> NULL) as Hi by (intros ->; set_solver). apply NoDup_app in Hnd as (_ & Hd & _).
    assert (i ∉ l1) as Hil by (intros Hil; apply (Hd i Hil); by left).
    unfold listGET_OWNER_OF_NEXT_ENTRY, list_next. destruct (Z.eqb_spec i NULL); [done|]. rewrite item_after_split by done.
    destruct l2 as [|y l2]; simpl in *.
    + destruct l1 as [|z l1]; simpl in *; injection Hc as -> ->; (split; [done|]); right.
      * by exists [], [].
      * exists [], (l1 ++ [i]). split; [done|]. simpl. done.
    + injection Hc as -> ->. split; [destruct (Z.eqb_spec y NULL) as [->|]; [set_solver|done]|].
      right. exists (l1 ++ [i]), l2. by rewrite <- !(assoc_L (++)).
Qed.

(** ** Time slices *)

(** [n] ticks; the task that runs after each. *)
Fixpoint run_slices (n : nat) (s : sched) : option (list Z * sched) :=
  match n with
  | O => Some ([], s)
  | S n =>
      let! s := xPortSysTickHandler s in
      let! (ts, s') := run_slices n s in
      Some (pxCurrentTCB (sd_kernel s) :: ts, s')
  end.

(** A tick nobody waits for. *)
Lemma quiet_tick k : uxSchedulerSuspended k = 0 -> pxDelayedTaskList k = [] -> pxOverflowDelayedTaskList k = [] ->
  exists k', xTaskIncrementTick k =
    Some ((1 <? Z.of_nat (length (ready_at k (priority k (pxCurrentTCB k))))) || xYieldPending k, k') /\
  (forall p, ready_at k' p = ready_at k p) /\ ready_index k' = ready_index k /\ tcbs k' = tcbs k /\
  pxCurrentTCB k' = pxCurrentTCB k /\ uxSchedulerSuspended k' = 0 /\ pxDelayedTaskList k' = [] /\ pxOverflowDelayedTaskList k' = [].
Proof.
  intros Hs Hd Ho. unfold xTaskIncrementTick. rewrite Hs. cbv zeta. simpl (0 =? 0). cbv iota.
  set (c := u32 (xTickCount k + 1)). set (k0 := with_time k c _ _).
  assert (exists k1, (if c =? 0 then taskSWITCH_DELAYED_LISTS k0 else Some k0) = Some k1 /\
    pxReadyTasksLists k1 = pxReadyTasksLists k /\ ready_index k1 = ready_index k /\ tcbs k1 = tcbs k /\
    pxCurrentTCB k1 = pxCurrentTCB k /\ uxSchedulerSuspended k1 = 0 /\ pxDelayedTaskList k1 = [] /\
    pxOverflowDelayedTaskList k1 = [] /\ xYieldPending k1 = xYieldPending k) as (k1 & -> & E1 & E2 & E3 & E4 & E5 & E6 & E7 & E8).
  { destruct (c =? 0); [|by exists k0]. unfold taskSWITCH_DELAYED_LISTS, prvResetNextTaskUnblockTime. simpl.
    rewrite Hd, Ho. simpl. eexists. split; [reflexivity|]. by split_and!. }
  assert ((if xNextTaskUnblockTime k1 <=? c then unblock_due (length (pxDelayedTaskList k1)) k1 c false else Some (false, k1)) =
    Some (false, if xNextTaskUnblockTime k1 <=? c then with_unblock_time k1 portMAX_DELAY else k1)) as ->.
  { destruct (_ <=? c); [|done]. rewrite E6. simpl. by rewrite E6. }
  set (k2 := if _ <=? c then _ else k1).
  assert (pxReadyTasksLists k2 = pxReadyTasksLists k1 /\ ready_index k2 = ready_index k1 /\ tcbs k2 = tcbs k1 /\
    pxCurrentTCB k2 = pxCurrentTCB k1 /\ uxSchedulerSuspended k2 = uxSchedulerSuspended k1 /\ pxDelayedTaskList k2 = pxDelayedTaskList k1 /\
    pxOverflowDelayedTaskList k2 = pxOverflowDelayedTaskList k1 /\ xYieldPending k2 = xYieldPending k1)
    as (Q1 & Q2 & Q3 & Q4 & Q5 & Q6 & Q7 & Q8) by (unfold k2; by destruct (_ <=? c)).
  exists k2. unfold priority, ready_at. rewrite Q1, Q3, Q4, Q8, E1, E3, E4, E8.
  split; [reflexivity|]. split_and!; congruence || done.
Qed.

(** Between two slices: [l] are the ready tasks of the priority of the running one,
    whose next turns are [c]; nothing waits for the clock. *)
Record slicing (idle p : Z) (l c : list Z) (s : sched) : Prop := {
  sl_ok : sched_ok idle s;
  sl_suspended : uxSchedulerSuspended (sd_kernel s) = 0;
  sl_yield : xYieldPending (sd_kernel s) = false;
  sl_delayed : pxDelayedTaskList (sd_kernel s) = [] /\ pxOverflowDelayedTaskList (sd_kernel s) = [];
  sl_priority : priority (sd_kernel s) (pxCurrentTCB (sd_kernel s)) = p;
  sl_ready : ready_at (sd_kernel s) p = l;
  sl_turns : turns (default NULL (ready_index (sd_kernel s) !! p)) l c }.

Lemma slice_step idle p l x c s : slicing idle p l (x :: c) s -> 1 < Z.of_nat (length l) ->
  exists s', xPortSysTickHandler s = Some s' /\ pxCurrentTCB (sd_kernel s') = x /\ slicing idle p l (c ++ [x]) s'.
Proof.
  intros [S1 S2 S3 [S4 S5] S6 S7 S8] Hl. destruct (xPortSysTickHandler_ok idle s S1) as (s' & Hrun & Hok).
  exists s'. split; [done|]. revert Hrun. unfold xPortSysTickHandler. set (k := sd_kernel s) in *.
  pose proof S1 as [[Hbk Hcur Hpre] (_ & _ & C3) _]. fold k in Hbk, Hcur, Hpre, C3. unfold is_ready in Hcur. rewrite S6 in Hcur.
  destruct (tick_safe idle _ k Hbk S2 (proj1 (C3 S2))) as (sw & k1 & Ht & [Hp1 _ _] & _).
  destruct (quiet_tick k S2 S4 S5) as (k1' & Ht' & Q1 & Q2 & Q3 & Q4 & Q5 & Q6 & Q7). rewrite Ht in Ht'. injection Ht' as Esw <-.
  rewrite Ht, Esw, S6, S7. destruct (Z.ltb_spec 1 (Z.of_nat (length l))); [|lia]. cbn [orb]. cbv zeta. unfold switch_context.
  change (sd_kernel (with_k s k1)) with k1. rewrite <- Q1 in Hcur.
  destruct (select_spec _ k1 _ _ Hp1 Hcur Q5) as (t & q & -> & Et & Hin & Hmax). intros [= <-].
  assert (forall u, priority k1 u = priority k u) as Ep by (intros u; unfold priority; by rewrite Q3).
  assert (q = p) as ->.
  { pose proof (Hmax _ _ Hcur). destruct (decide (p < q)) as [Hlt|]; [|lia]. rewrite Q1 in Hin.
    rewrite <- S6 in Hlt. pose proof (Hpre t q Hin Hlt). congruence. }
  rewrite Q1, Q2 in Et. rewrite S7 in Et.
  assert (NoDup l) as Hnd by (rewrite <- S7; apply (pl_nodup _ _ _ (bo_placed _ _ _ Hbk) (LReady p))).
  assert (NULL ∉ l) as Hn.
  { intros Hn. rewrite <- S7 in Hn. destruct (on_list_task _ _ _ _ (LReady p) (bo_placed _ _ _ Hbk) Hn) as [c0 Hc0].
    by rewrite (pl_null _ _ _ (bo_placed _ _ _ Hbk)) in Hc0. }
  destruct (turns_next _ _ _ _ Hnd Hn S8) as [E8 T8]. rewrite E8 in Et. subst t.
  split; [done|]. split; [done|done|done|done| | |].
  - change (priority k1 x = p). by apply (pl_ready _ _ _ Hp1).
  - change (ready_at k1 p = l). by rewrite Q1.
  - simpl. by rewrite lookup_insert_eq.
Qed.

Lemma slices_turns idle p l a : forall b s, slicing idle p l (a ++ b) s -> 1 < Z.of_nat (length l) ->
  exists s', run_slices (length a) s = Some (a, s') /\ slicing idle p l (b ++ a) s'.
Proof.
  induction a as [|x a IH]; intros b s H Hl; simpl.
  { exists s. by rewrite app_nil_r. }
  destruct (slice_step idle p l x (a ++ b) s H Hl) as (s1 & -> & Hx & H1).
  rewrite <- (assoc_L (++)) in H1. destruct (IH (b ++ [x]) s1 H1 Hl) as (s' & -> & H').
  exists s'. rewrite Hx. split; [done|]. by rewrite <- (assoc_L (++)) in H'.
Qed.

(** ** What holds from boot on *)

(** C7: in every state reached from boot every task is on exactly one state list, once, a
    ready task on the list of its priority; and its event item says which event list it is on. *)
Theorem tasks_on_one_list (idle : Z) (s : sched) : reachable idle s ->
  let k := sd_kernel s in let w := xTasksWaitingTermination s in
  (forall t, is_Some (tcbs k !! t) -> exists l, t ∈ on_list w k l /\ forall l', t ∈ on_list w k l' -> l' = l) /\
  (forall l, NoDup (on_list w k l)) /\
  (forall t p, t ∈ ready_at k p -> priority k t = p /\ event_container k t = NULL) /\
  (forall t ev, is_event_list ev -> t ∈ on_event_list k ev <-> event_container k t = ev).
Proof.
  intros H%reachable_ok k w. pose proof (bo_placed _ _ _ (so_base _ _ H)) as P. fold k in P. fold w in P. split_and!.
  - intros t [Ht|[l Hl]]%(pl_task _ _ _ P); [by apply elem_of_nil in Ht|]. exists l. split; [done|].
    intros l' Hl'. by apply (pl_unique _ _ _ P t).
  - apply P.
  - intros t p Ht. split; [by apply (pl_ready _ _ _ P)|exact (pl_free _ _ _ P t (LReady p) Ht)].
  - intros t ev Hev. by apply (pl_event _ _ _ P).
Qed.

(** C6: in every state reached from boot the running task is ready and no ready task
    outranks it, unless a switch is pending.  The states are those that calls within
    [call_ok] reach: among them every way of blocking and waking, of setting, lending
    and giving back priorities, but not a holder that a waiter gives up on while its
    own priority is set above the one it inherited (see [raised_holder_does_not_run]). *)
Theorem highest_priority_runs (idle : Z) (s : sched) : reachable idle s ->
  let k := sd_kernel s in
  is_ready k (pxCurrentTCB k) /\
  forall t p, t ∈ ready_at k p -> p <= priority k (pxCurrentTCB k) \/ xYieldPending k = true.
Proof.
  intros [[_ Hc Hp] _ _]%reachable_ok k. split; [done|]. intros t p Ht.
  destruct (decide (priority k (pxCurrentTCB k) < p)); [right; by apply (Hp t p)|left; lia].
Qed.

(** C8: a pending switch waits for the next tick at most, the scheduler not being
    suspended: after that tick no ready task outranks the running one, in the states
    that calls within [call_ok] reach. *)
Theorem tick_runs_highest (idle : Z) (s : sched) : reachable idle s -> uxSchedulerSuspended (sd_kernel s) = 0 ->
  exists s', xPortSysTickHandler s = Some s' /\ xTickCount (sd_kernel s') = u32 (xTickCount (sd_kernel s) + 1) /\
    forall t p, t ∈ ready_at (sd_kernel s') p -> p <= priority (sd_kernel s') (pxCurrentTCB (sd_kernel s')).
Proof.
  intros [Hset (_ & _ & C3) Hf]%reachable_ok Hs. unfold xPortSysTickHandler.
  destruct (tick_safe idle _ _ (se_base _ _ _ Hset) Hs (proj1 (C3 Hs))) as (sw & k' & Ht & Hb & _ & Hs' & _ & Hpre).
  destruct (tick_spec _ (bo_delay _ _ _ (se_base _ _ _ Hset)) Hs) as (sw' & k'' & Ht' & _ & Hc & _).
  rewrite Ht in Ht'. injection Ht' as <- <-. rewrite Ht. cbv zeta. destruct sw.
  - unfold switch_context. change (sd_kernel (with_k s k')) with k'.
    destruct (select_spec _ k' _ _ (bo_placed _ _ _ Hb) (bo_idle _ _ _ Hb) Hs') as (t & q & -> & _ & Hin & Hmax).
    eexists. split; [reflexivity|]. split; [done|]. intros u p Hu. transitivity q; [by apply (Hmax u)|].
    change (q <= priority k' t). by rewrite (pl_ready _ _ _ (bo_placed _ _ _ Hb) t q Hin).
  - eexists. split; [reflexivity|]. split; [done|]. intros u p Hu.
    change (p <= priority k' (pxCurrentTCB k')). destruct (decide (priority k' (pxCurrentTCB k') < p)) as [Hlt|]; [|lia].
    discriminate (Hpre (se_preempt _ _ _ Hset) u p Hu Hlt).
Qed.

(** C5: no call made as it may be trips an assertion, follows a bad pointer or finds
    no task to run, whatever calls came before. *)
Theorem calls_never_fail (idle : Z) (s : sched) (c : call) : reachable idle s -> call_ok idle s c ->
  exists s', run_call c s = Some s' /\ reachable idle s'.
Proof.
  intros H Hc. destruct (run_call_ok idle s c (reachable_ok _ _ H) Hc) as (s' & Hs' & _).
  exists s'. split; [done|]. by apply (re_call idle s c).
Qed.

(** C9: time slices are fair: of [n] ready tasks of the highest priority each runs for
    exactly one of [n] ticks, when nothing else happens. *)
Theorem time_slices_fair (idle : Z) (s : sched) : reachable idle s ->
  let k := sd_kernel s in let l := ready_at k (priority k (pxCurrentTCB k)) in
  uxSchedulerSuspended k = 0 -> xYieldPending k = false ->
  pxDelayedTaskList k = [] -> pxOverflowDelayedTaskList k = [] -> 1 < Z.of_nat (length l) ->
  exists ts s', run_slices (length l) s = Some (ts, s') /\ ts ≡ₚ l.
Proof.
  intros H%reachable_ok k l Hs Hy Hd Ho Hl. set (p := priority k (pxCurrentTCB k)) in *.
  destruct (turns_exists (default NULL (ready_index k !! p)) l) as [c Hc].
  { destruct (ready_index k !! p) as [i|] eqn:E; [|by left]. exact (pl_index _ _ _ (bo_placed _ _ _ (so_base _ _ H)) p i E). }
  pose proof (turns_perm _ _ _ Hc) as Hcp. rewrite <- (Permutation_length Hcp).
  destruct (slices_turns idle p l c [] s) as (s' & Hrun & _); [rewrite app_nil_r; by split|done|].
  by exists c, s'.
Qed.

(** ** A system that boots *)

(** The idle task, two tasks that share priority 5 and one above them, which waits
    for the event list 900. *)
Definition demo_tasks : list (Z * Z) := [(100, 0); (200, 5); (300, 5); (400, 7)].
Definition demo_booted : sched := Eval vm_compute in
  from_option vTaskStartScheduler no_tasks (create_all demo_tasks no_tasks).
Definition demo_waiting : sched := Eval vm_compute in
  default no_tasks (run_call (CWait 900 portMAX_DELAY) demo_booted).

Lemma demo_booted_reachable : reachable 100 demo_booted.
Proof.
  assert (exists s, create_all demo_tasks no_tasks = Some s /\ demo_booted = vTaskStartScheduler s) as (s & Hs & ->).
  { destruct (create_all demo_tasks no_tasks) as [s|] eqn:E; [|by vm_compute in E]. exists s. split; [done|].
    transitivity (from_option vTaskStartScheduler no_tasks (create_all demo_tasks no_tasks)); [by vm_compute|by rewrite E]. }
  apply (re_start 100 demo_tasks); [|by left|done]. split; [apply (bool_decide_unpack _); vm_compute; exact I|].
  repeat constructor; done.
Qed.

(** Calls one after the other, each made as it may be. *)
Fixpoint run_calls (cs : list call) (s : sched) : option sched :=
  match cs with
  | [] => Some s
  | c :: cs => let! s := run_call c s in run_calls cs s
  end.

(** Task 200 takes a mutex; task 400 is woken, lends its priority 7 to it and waits
    again; task 200 runs on with priority 7, and gives the mutex. *)
Definition demo_taken : sched := Eval vm_compute in default no_tasks (run_calls [CTakeMutex] demo_waiting).
Definition demo_woken : sched := Eval vm_compute in default no_tasks (run_calls [CWake 900 true] demo_taken).
Definition demo_inherits : sched := Eval vm_compute in default no_tasks (run_calls [CInherit 200] demo_woken).
Definition demo_lent : sched := Eval vm_compute in default no_tasks (run_calls [CWait 900 portMAX_DELAY] demo_inherits).
Definition demo_given : sched := Eval vm_compute in default no_tasks (run_calls [CDisinherit 200] demo_lent).

Lemma demo_waiting_reachable : reachable 100 demo_waiting.
Proof.
  apply (re_call 100 demo_booted (CWait 900 portMAX_DELAY)); [exact demo_booted_reachable| |by vm_compute].
  split; [done|]. split; [unfold portMAX_DELAY; lia|]. done.
Qed.

Lemma demo_given_reachable : reachable 100 demo_given.
Proof.
  apply (re_call 100 demo_lent (CDisinherit 200)); [|by intros _; split|by vm_compute].
  apply (re_call 100 demo_inherits (CWait 900 portMAX_DELAY));
    [|split; [done|split; [unfold portMAX_DELAY; lia|done]]|by vm_compute].
  apply (re_call 100 demo_woken (CInherit 200)); [|intros _; split; [by eexists|]|by vm_compute].
  2:{ apply (bool_decide_unpack _). by vm_compute. }
  apply (re_call 100 demo_taken (CWake 900 true)); [|by split|by vm_compute].
  apply (re_call 100 demo_waiting CTakeMutex); [exact demo_waiting_reachable|done|by vm_compute].
Qed.

Example tasks_on_one_list_witness :
  exists l, 400 ∈ on_list (xTasksWaitingTermination demo_waiting) (sd_kernel demo_waiting) l /\
    forall l', 400 ∈ on_list (xTasksWaitingTermination demo_waiting) (sd_kernel demo_waiting) l' -> l' = l.
Proof. apply (proj1 (tasks_on_one_list 100 demo_waiting demo_waiting_reachable)). vm_compute. eauto. Defined.

(** Before it gives the mutex task 200 runs with the priority lent; afterwards it has
    its own again and another task of that priority runs. *)
Example highest_priority_runs_witness :
  pxCurrentTCB (sd_kernel demo_lent) = 200 /\ priority (sd_kernel demo_lent) 200 = 7 /\
  priority (sd_kernel demo_given) 200 = 5 /\ is_ready (sd_kernel demo_given) 300 /\
  forall t p, t ∈ ready_at (sd_kernel demo_given) p -> p <= 5 \/ xYieldPending (sd_kernel demo_given) = true.
Proof.
  split; [reflexivity|]. split; [reflexivity|]. split; [reflexivity|].
  exact (highest_priority_runs 100 demo_given demo_given_reachable).
Defined.

Example tick_runs_highest_witness : exists s', xPortSysTickHandler demo_waiting = Some s' /\
  xTickCount (sd_kernel s') = u32 (xTickCount (sd_kernel demo_waiting) + 1) /\
  forall t p, t ∈ ready_at (sd_kernel s') p -> p <= priority (sd_kernel s') (pxCurrentTCB (sd_kernel s')).
Proof. apply (tick_runs_highest 100); [exact demo_waiting_reachable|reflexivity]. Defined.

Example calls_never_fail_witness : exists s', run_call (CWake 900 true) demo_waiting = Some s' /\ reachable 100 s'.
Proof. apply calls_never_fail; [exact demo_waiting_reachable|]. split; [done|reflexivity]. Defined.

Example time_slices_fair_witness : exists ts s', run_slices 2 demo_waiting = Some (ts, s') /\ ts ≡ₚ [200; 300].
Proof. apply (time_slices_fair 100 demo_waiting demo_waiting_reachable); done || reflexivity. Defined.

(** ** Where the rule is broken *)

(** The running task gives its turn away though the priority set is below its own. *)
Example raised_below_running_yields :
  priority (sd_kernel demo_waiting) (pxCurrentTCB (sd_kernel demo_waiting)) = 5 /\
  pxCurrentTCB (sd_kernel demo_waiting) = 200 /\
  option_map (fun s => pxCurrentTCB (sd_kernel s)) (vTaskPrioritySet demo_waiting 100 3) = Some 200 /\
  option_map (fun s => pxCurrentTCB (sd_kernel s)) (vTaskPrioritySet demo_waiting 100 4) = Some 300.
Proof. by vm_compute. Qed.

(** Two waiters: the one whose priority is raised is still woken last. *)
Example raised_waiter_woken_last :
  let calls := [CWait 900 portMAX_DELAY; CWait 900 portMAX_DELAY; CWait 900 portMAX_DELAY; CPrioritySet 300 9; CWake 900 false] in
  option_map (fun s => (on_event_list (sd_kernel s) 900, priority (sd_kernel s) 300, priority (sd_kernel s) 400, ready_at (sd_kernel s) 7))
    (foldr (fun c o => let! s := o in run_call c s) (Some demo_booted) (rev calls)) = Some ([200; 300], 9, 7, [400]).
Proof. by vm_compute. Qed.

(** Task 200 takes a mutex and inherits the priority 5 of task 300; its priority is set
    to 8, which has no effect yet; when task 300 gives up waiting, task 200 gets
    priority 8 and is ready, but no switch is made or pending, nor does the next tick make one. *)
Definition demo_inherited : sched := Eval vm_compute in
  default no_tasks (
    let! s := create_all [(100, 0); (200, 3); (300, 5)] no_tasks in
    run_calls [CDelay 1; CTakeMutex; CTick; CInherit 200; CPrioritySet 200 8; CTick] (vTaskStartScheduler s)).

Example raised_holder_does_not_run :
  option_map (fun k => (ready_at k 8, pxCurrentTCB k, priority k 300, xYieldPending k, option_map fst (xTaskIncrementTick k)))
    (vTaskPriorityDisinheritAfterTimeout (sd_kernel demo_inherited) 200 0) = Some ([200], 300, 5, false, Some false).
Proof. by vm_compute. Qed.
