(* ===== verification/KernelWaiters.v ===== *)
(** * The tasks that wait on an event list, woken one after the other

    What the tasks on an event list can count on while interrupts wake them: a
    task that was told is ready, or pending until the scheduler is resumed; the
    others still wait, in their order. *)

From stdpp Require Import base list option gmap.
From Stdlib Require Import ZArith Lia.
From S2P Require Import Prelude FreeRTOSList Kernel KernelSched KernelPrio.

(** What waking the first task of an event list, if there is one, makes of the
    kernel. *)
Definition wakes (ev : Z) (k k' : kernel) : Prop :=
  if listLIST_IS_EMPTY k ev then k' = k else exists b, xTaskRemoveFromEventList k ev = Some (b, k').

(** The task's event item is in the event list. *)
Definition item_on (k : kernel) (ev u : Z) : Prop :=
  exists tcb, tcbs k !! u = Some tcb /\ xEventContainer tcb = ev.

Definition ready (k : kernel) (p u : Z) : Prop := u ∈ default [] (pxReadyTasksLists k !! p).

Lemma ready_one_rest k u :
  event_lists (ready_one k u) = event_lists k /\ pxCurrentTCB (ready_one k u) = pxCurrentTCB k /\
  xNumOfOverflows (ready_one k u) = xNumOfOverflows k /\
  tcbs (ready_one k u) = alter (set_event_container NULL) u (tcbs k).
Proof.
  unfold ready_one, prvAddTaskToReadyList, taskRECORD_READY_PRIORITY.
  destruct (taskIS_YIELD_REQUIRED _ _ _); by destruct (_ <? _).
Qed.

Lemma ready_one_ready k u p v :
  ready (ready_one k u) p v <-> v <> u /\ ready k p v \/ v = u /\ p = priority k u.
Proof.
  destruct (ready_one_fields k u) as (_ & _ & _ & _ & _ & _ & _ & _ & _ & F). unfold ready.
  rewrite F, elem_of_app, list_remove_task_elem. case_decide; set_solver.
Qed.

(** An event item removed: nothing else of the task changes. *)
Lemma alter_container_aborted c u (m : gmap Z TCB_t) t :
  from_option ucDelayAborted false (alter (set_event_container c) u m !! t) = from_option ucDelayAborted false (m !! t).
Proof. rewrite lookup_alter. case_decide as E; [subst|done]. by destruct (m !! t). Qed.

Section telling.
(** The event list, the running task, the clock, the number of tasks and their
    priorities; tasks that are ready, and those that wait, in their order. *)
Context (ev t : Z) (clock : Z * Z) (tasks : Z) (p : Z -> Z) (up waiters : list Z).
Context (Hnodup : NoDup waiters).

(** [m] of the waiters were told; of the tasks told those in [rest] are not ready
    yet. *)
Record telling (m : nat) (rest : list Z) (k : kernel) : Prop := {
  tl_current : pxCurrentTCB k = t;
  tl_aborted : from_option ucDelayAborted false (tcbs k !! t) = false;
  tl_clock : (xTickCount k, xNumOfOverflows k) = clock;
  tl_pended : xPendedTicks k = 0;
  tl_tasks : uxTaskGetNumberOfTasks k = tasks;
  tl_list : default [] (event_lists k !! ev) = drop m waiters;
  tl_items : forall u, u ∈ drop m waiters -> item_on k ev u;
  tl_ready : forall u, u ∈ up ++ take m waiters -> ready k (p u) u \/ u ∈ rest;
  tl_pending : forall u, u ∈ xPendingReadyList k -> u ∈ rest;
  tl_apart : forall u, u ∈ rest -> u ∉ drop m waiters;
  tl_priority : forall u, priority k u = p u }.

(** With the scheduler running, or suspended once. *)
Definition tells (suspended : bool) (m : nat) (k : kernel) : Prop :=
  if suspended then uxSchedulerSuspended k = 1 /\ telling m (xPendingReadyList k) k
  else uxSchedulerSuspended k = 0 /\ telling m [] k.

Lemma telling_ready_one m u rest k : telling m (u :: rest) k -> telling m rest (ready_one k u).
Proof.
  intros [T1 T2 T3 T4 T5 T6 T7 T8 T9 T10 T11].
  destruct (ready_one_fields k u) as (F1 & F2 & _ & _ & _ & _ & F7 & _ & F9 & _).
  destruct (ready_one_rest k u) as (E1 & E2 & E3 & E4).
  split; try congruence.
  - by rewrite E4, alter_container_aborted.
  - rewrite <- T5. unfold uxTaskGetNumberOfTasks. by rewrite E4, <- !size_dom, dom_alter_L.
  - intros v Hv. destruct (T7 v Hv) as (tcb & Ht & Hc). exists tcb. rewrite E4, lookup_alter_ne; [done|].
    intros ->. apply (T10 v); [by left|done].
  - intros v Hv. rewrite ready_one_ready. destruct (decide (v = u)) as [->|Hne]; [left; right; by rewrite T11|].
    destruct (T8 v Hv) as [H|H]; [auto|]. apply elem_of_cons in H as [|]; [done|by right].
  - intros v. rewrite F7, list_remove_task_elem. intros [Hne Hv]. apply T9 in Hv.
    by apply elem_of_cons in Hv as [|].
  - intros v Hv. apply T10. by right.
Qed.

Lemma telling_ready_pending m rest : forall k, telling m rest k -> telling m [] (ready_pending rest k).
Proof.
  induction rest as [|u rest IH]; intros k H; [done|]. rewrite ready_pending_cons.
  by apply IH, telling_ready_one.
Qed.

(** Suspending and resuming the scheduler. *)
Lemma tells_suspend m k : tells false m k -> tells true m (vTaskSuspendAll k).
Proof.
  intros [Hs [T1 T2 T3 T4 T5 T6 T7 T8 T9 T10 T11]]. split; [simpl; by rewrite Hs|].
  split; try done; simpl.
  - intros u Hu. destruct (T8 u Hu) as [|H]; [by left|by apply elem_of_nil in H].
  - intros u Hu. apply T9 in Hu. by apply elem_of_nil in Hu.
Qed.

Lemma ready_pending_suspended l : forall k, uxSchedulerSuspended (ready_pending l k) = uxSchedulerSuspended k.
Proof.
  induction l as [|u l IH]; intros k; [done|]. rewrite ready_pending_cons, IH. apply ready_one_fields.
Qed.

Lemma tells_resume m k : 0 < tasks -> tells true m k ->
  exists y k', xTaskResumeAll k = Some (y, k') /\ tells false m k'.
Proof.
  intros Hn [Hs T]. rewrite xTaskResumeAll_last; [|done|by rewrite (tl_tasks _ _ _ T)]. unfold resumed.
  set (k0 := with_suspended k 0). change (xPendingReadyList k0) with (xPendingReadyList k).
  assert (telling m (xPendingReadyList k) k0) as T0 by (destruct T; by split).
  apply telling_ready_pending in T0. set (k1 := ready_pending _ k0) in *.
  assert (uxSchedulerSuspended k1 = 0) as Hs1 by (unfold k1; by rewrite ready_pending_suspended).
  set (k2 := match xPendingReadyList k with [] => k1 | _ => _ end).
  assert (exists n, k2 = with_unblock_time k1 n) as [n ->].
  { unfold k2, prvResetNextTaskUnblockTime. destruct (xPendingReadyList k).
    - exists (xNextTaskUnblockTime k1). by destruct k1.
    - destruct (pxDelayedTaskList k1); eauto. }
  change (xPendedTicks (with_unblock_time k1 n)) with (xPendedTicks k1). rewrite (tl_pended _ _ _ T0). cbn.
  eexists _, _. split; [reflexivity|]. split; [done|]. by destruct T0.
Qed.

Lemma tells_yield s m k : tells s m k -> tells s m (vTaskMissedYield k).
Proof. destruct s; intros [Hs []]; by split. Qed.

(** Once every waiter was told it does not matter how many more are. *)
Lemma tells_all s m n k : (length waiters <= m)%nat -> (length waiters <= n)%nat -> tells s m k -> tells s n k.
Proof.
  intros Hm Hn. assert (forall rest, telling m rest k -> telling n rest k) as H.
  { intros rest [T1 T2 T3 T4 T5 T6 T7 T8 T9 T10 T11]. rewrite drop_ge in * by done. rewrite take_ge in * by done.
    split; try done; by rewrite ?drop_ge, ?take_ge by done. }
  destruct s; intros [? ?]; split; auto.
Qed.

(** The first waiter is told. *)
Lemma telling_remove m u r rest k : drop m waiters = u :: r -> telling m rest k ->
  let k' := remove_event_item k u in
  event_lists k' = <[ev := r]> (event_lists k) /\ pxCurrentTCB k' = t /\
  from_option ucDelayAborted false (tcbs k' !! t) = false /\ uxTaskGetNumberOfTasks k' = tasks /\
  (forall v, v ∈ r -> v <> u /\ item_on k' ev v) /\ (forall v, priority k' v = p v) /\
  k' = with_tcbs (with_event_lists k (event_lists k')) (tcbs k').
Proof.
  intros Hd [T1 T2 T3 T4 T5 T6 T7 T8 T9 T10 T11]. rewrite Hd in *.
  destruct (T7 u) as (tcb & Ht & Hc); [by left|]. unfold remove_event_item. rewrite Ht. cbv zeta. simpl.
  assert (NoDup (u :: r)) as [Hu Hr]%NoDup_cons.
  { rewrite <- Hd. pose proof Hnodup as Hn. rewrite <- (take_drop m waiters) in Hn. by apply NoDup_app in Hn as (_ & _ & ?). }
  split_and!; try done.
  - rewrite Hc. apply map_eq. intros i. destruct (decide (ev = i)) as [<-|];
      [|by rewrite lookup_alter_ne, lookup_insert_ne].
    rewrite lookup_alter_eq, lookup_insert_eq. destruct (event_lists k !! ev); simpl in *; [|done]. subst l.
    by rewrite list_remove_task_cons, list_remove_task_absent.
  - etrans; [|exact T2]. rewrite lookup_insert. case_decide as E; [|done]. rewrite <- E. by rewrite Ht.
  - rewrite <- T5. unfold uxTaskGetNumberOfTasks. simpl. by rewrite map_size_insert, Ht.
  - intros v Hv. assert (v <> u) as Hne by (intros ->; done). split; [done|].
    destruct (T7 v) as (c & Hv1 & Hv2); [by right|]. exists c. simpl. by rewrite lookup_insert_ne.
  - intros v. rewrite <- T11. unfold priority. simpl. rewrite lookup_insert. case_decide; [|done]. subst.
    by rewrite Ht.
Qed.

Lemma drop_next (m : nat) u r : drop m waiters = u :: r ->
  drop (S m) waiters = r /\ take (S m) waiters = take m waiters ++ [u].
Proof.
  intros Hd. split; [by rewrite <- Nat.add_1_r, <- drop_drop, Hd|].
  apply take_S_r. by rewrite <- (Nat.add_0_r m), <- lookup_drop, Hd.
Qed.

(** It becomes pending while the scheduler is suspended, ... *)
Lemma tells_pend m u r k : drop m waiters = u :: r -> tells true m k ->
  let k1 := remove_event_item k u in
  tells true (S m) (with_pending (with_tcbs k1 (alter (set_event_container xPendingReadyList_addr) u (tcbs k1)))
    (xPendingReadyList k1 ++ [u]) (xYieldPending k1)).
Proof.
  intros Hd [Hs H] k1. destruct (telling_remove m u r _ k Hd H) as (E1 & E2 & E3 & E4 & E5 & E6 & E7).
  fold k1 in E1, E2, E3, E4, E5, E6, E7. destruct (drop_next m u r Hd) as [Hd1 Ht1].
  assert (u ∉ r) as Hur by (intros Hu; by destruct (E5 u Hu)).
  split; [simpl; by rewrite E7|]. destruct H as [T1 T2 T3 T4 T5 T6 T7 T8 T9 T10 T11].
  assert (xPendingReadyList k1 = xPendingReadyList k) as Ep by (by rewrite E7).
  split; rewrite ?Hd1, ?Ht1; simpl; rewrite ?Ep; try (rewrite E7; simpl; done); try done.
  - by rewrite alter_container_aborted.
  - unfold uxTaskGetNumberOfTasks in *. simpl. by rewrite <- size_dom, dom_alter_L, size_dom.
  - by rewrite E1, lookup_insert_eq.
  - intros v Hv. destruct (E5 v Hv) as (Hne & tcb & Hv1 & Hv2). exists tcb. simpl. by rewrite lookup_alter_ne.
  - intros v. rewrite app_assoc, elem_of_app, list_elem_of_singleton, (elem_of_app (xPendingReadyList k)),
      list_elem_of_singleton. intros [Hv| ->]; [|auto].
    unfold ready. simpl. rewrite E7. simpl. destruct (T8 v Hv); auto.
  - intros v. rewrite elem_of_app, list_elem_of_singleton. intros [Hv| ->]; [|done].
    intros Hr. apply (T10 v Hv). rewrite Hd. by right.
  - intros v. rewrite <- E6. unfold priority. simpl. rewrite lookup_alter. case_decide; [|done]. subst.
    by destruct (tcbs k1 !! v).
Qed.

(** ... and ready otherwise. *)
Lemma tells_ready m u r k : drop m waiters = u :: r -> tells false m k ->
  tells false (S m) (prvAddTaskToReadyList (remove_state_item (remove_event_item k u) u) u).
Proof.
  intros Hd [Hs H]. destruct (telling_remove m u r _ k Hd H) as (E1 & E2 & E3 & E4 & E5 & E6 & E7).
  set (k1 := remove_event_item k u) in *. destruct (drop_next m u r Hd) as [Hd1 Ht1].
  destruct (prvAddTaskToReadyList_eq (remove_state_item k1 u) u) as [top Etop].
  assert (priority (remove_state_item k1 u) u = p u) as Epu by exact (E6 u). rewrite Epu in Etop.
  rewrite Etop. split; [simpl; by rewrite E7|]. destruct H as [T1 T2 T3 T4 T5 T6 T7 T8 T9 T10 T11].
  assert (xPendingReadyList k1 = xPendingReadyList k /\ pxReadyTasksLists k1 = pxReadyTasksLists k) as [Ep Er]
    by (by rewrite E7).
  split; rewrite ?Hd1, ?Ht1; simpl; rewrite ?Ep; try (rewrite E7; simpl; done); try done.
  - by rewrite E1, lookup_insert_eq.
  - intros v Hv. by destruct (E5 v Hv).
  - intros v. rewrite app_assoc, elem_of_app, list_elem_of_singleton. intros Hv. left.
    unfold ready. simpl. rewrite lookup_insert, lookup_fmap, Er. destruct (decide (v = u)) as [->|Hne].
    + rewrite decide_True by done. simpl. apply list_insert_end_elem. by left.
    + destruct Hv as [Hv|]; [|done]. destruct (T8 v Hv) as [H|H]; [|by apply elem_of_nil in H].
      unfold ready in H. case_decide as Epv; [rewrite <- Epv in *|]; simpl.
      * apply list_insert_end_elem. right.
        destruct (pxReadyTasksLists k !! p u); simpl in *; [|done]. by apply list_remove_task_elem.
      * rewrite lookup_fmap. destruct (pxReadyTasksLists k !! p v); simpl in *; [|done]. by apply list_remove_task_elem.
  - intros v Hv. by apply elem_of_nil in Hv.
Qed.

Lemma tells_wake s m k : tells s m k -> exists k', wakes ev k k' /\ tells s (S m) k'.
Proof.
  intros H. assert (exists rest, telling m rest k) as [rest T] by (destruct s, H; eauto).
  unfold wakes, listLIST_IS_EMPTY. rewrite (tl_list _ _ _ T).
  destruct (drop m waiters) as [|u r] eqn:Hd.
  { exists k. split; [done|]. apply (tells_all s m); [..|done]; apply (f_equal length) in Hd;
      rewrite length_drop in Hd; simpl in Hd; lia. }
  unfold xTaskRemoveFromEventList. rewrite (tl_list _ _ _ T), Hd. cbv iota zeta.
  destruct (telling_remove m u r rest k Hd T) as (_ & _ & _ & _ & _ & _ & E7).
  assert (uxSchedulerSuspended (remove_event_item k u) = if s then 1 else 0) as Hs
    by (rewrite E7; by destruct s, H).
  rewrite Hs. destruct s; cbn [Z.eqb].
  - pose proof (tells_pend m u r k Hd H) as HT.
    destruct (_ <? _); eexists; (split; [by eexists|]); [by apply (tells_yield true)|done].
  - pose proof (tells_ready m u r k Hd H) as HT.
    destruct (_ <? _); eexists; (split; [by eexists|]); [by apply (tells_yield false)|done].
Qed.
End telling.

(** A kernel at rest, and what [vTaskPlaceOnEventList] makes of it. *)
Lemma tells_start ev k waiters up :
  uxSchedulerSuspended k = 0 -> quiet k -> from_option ucDelayAborted false (tcbs k !! pxCurrentTCB k) = false ->
  default [] (event_lists k !! ev) = waiters -> (forall u, u ∈ waiters -> item_on k ev u) ->
  (forall u, u ∈ up -> ready k (priority k u) u) ->
  tells ev (pxCurrentTCB k) (xTickCount k, xNumOfOverflows k) (uxTaskGetNumberOfTasks k) (priority k) up waiters
    false 0 k.
Proof.
  intros Hs [_ Hq] Ha Hl Hi Hup. destruct (Hq Hs) as [Hp Ht]. split; [done|]. split; try done; rewrite ?drop_0; try done.
  - intros u. rewrite take_0, app_nil_r. auto.
  - by rewrite Hp.
  - intros u Hu. by apply elem_of_nil in Hu.
Qed.

Lemma place_fields k ev ticks :
  let k' := vTaskPlaceOnEventList k ev ticks in
  event_lists k' = <[ev := ordered_insert (event_value k) (pxCurrentTCB k) (default [] (event_lists k !! ev))]>
    (event_lists k) /\
  pxCurrentTCB k' = pxCurrentTCB k /\ uxSchedulerSuspended k' = uxSchedulerSuspended k /\
  xPendingReadyList k' = xPendingReadyList k /\ xPendedTicks k' = xPendedTicks k /\
  xTickCount k' = xTickCount k /\ xNumOfOverflows k' = xNumOfOverflows k /\
  uxTaskGetNumberOfTasks k' = uxTaskGetNumberOfTasks k /\
  (forall u, u <> pxCurrentTCB k -> tcbs k' !! u = tcbs k !! u) /\
  (forall tcb, tcbs k !! pxCurrentTCB k = Some tcb -> exists tcb', tcbs k' !! pxCurrentTCB k = Some tcb' /\
     xEventContainer tcb' = ev /\ uxPriority tcb' = uxPriority tcb /\ ucDelayAborted tcb' = false).
Proof.
  unfold vTaskPlaceOnEventList. cbv zeta.
  match goal with |- context [prvAddCurrentTaskToDelayedList ?a ticks true] => set (k0 := a) end.
  destruct (prvAddCurrentTaskToDelayedList_frame k0 ticks) as (F1 & F2 & F3 & F4 & F5 & F6 & F7).
  rewrite F1, F2, F3, F4, F5. split_and!; try done.
  - assert (forall u, event_value (with_tcbs k (alter (set_event_container ev) (pxCurrentTCB k) (tcbs k))) u =
      event_value k u) as Hv.
    { intros u. unfold event_value. simpl. rewrite lookup_alter. case_decide as E; [|done]. rewrite E.
      by destruct (tcbs k !! u). }
    unfold k0. simpl event_lists. f_equal. apply ordered_insert_ext; [apply Hv|]. by apply Forall_true.
  - unfold prvAddCurrentTaskToDelayedList. destruct (_ && _); [done|]. cbv zeta.
    by do 2 (destruct (_ <? _); [done|]).
  - unfold prvAddCurrentTaskToDelayedList. destruct (_ && _); [done|]. cbv zeta.
    by do 2 (destruct (_ <? _); [done|]).
  - unfold uxTaskGetNumberOfTasks. f_equal. rewrite <- !size_dom. f_equal.
    transitivity (dom (tcbs k0)); [|simpl; by rewrite dom_alter_L].
    unfold prvAddCurrentTaskToDelayedList. destruct (_ && _); [simpl; by rewrite dom_alter_L|]. cbv zeta.
    do 2 (destruct (_ <? _); [simpl; by rewrite !dom_alter_L|]). simpl. by rewrite !dom_alter_L.
  - intros u Hu. rewrite F6 by done. simpl. by rewrite lookup_alter_ne.
  - intros tcb Ht. destruct (F7 (set_event_container ev tcb)) as (tcb' & H1 & H2 & H3 & _ & H4 & _).
    { simpl. by rewrite lookup_alter_eq, Ht. }
    exists tcb'. by rewrite H2, H3.
Qed.

Lemma tells_place ev clock tasks p up waiters k ticks tcb :
  tcbs k !! pxCurrentTCB k = Some tcb -> pxCurrentTCB k ∉ waiters -> xPendingReadyList k = [] ->
  tells ev (pxCurrentTCB k) clock tasks p up waiters true 0 k ->
  tells ev (pxCurrentTCB k) clock tasks p [] (ordered_insert (event_value k) (pxCurrentTCB k) waiters) true 0
    (vTaskPlaceOnEventList k ev ticks).
Proof.
  intros Ht Hn Hp [Hs [T1 T2 T3 T4 T5 T6 T7 T8 T9 T10 T11]]. rewrite drop_0 in *.
  destruct (place_fields k ev ticks) as (P1 & P2 & P3 & P4 & P5 & P6 & P7 & P8 & P9 & P10).
  destruct (P10 tcb Ht) as (tcb' & Q1 & Q2 & Q3 & Q4). set (k' := vTaskPlaceOnEventList k ev ticks) in *.
  split; [congruence|]. split; rewrite ?drop_0, ?P4, ?Hp; try congruence.
  - by rewrite Q1.
  - by rewrite P1, lookup_insert_eq, T6.
  - intros u. rewrite ordered_insert_perm, elem_of_cons. intros [->|Hu]; [by exists tcb'|].
    destruct (T7 u Hu) as (c & Hc1 & Hc2). exists c. rewrite P9; [done|]. intros ->. done.
  - intros u. rewrite take_0. simpl. intros Hu. by apply elem_of_nil in Hu.
  - intros u Hu. by apply elem_of_nil in Hu.
  - intros u. rewrite <- T11. unfold priority. destruct (decide (u = pxCurrentTCB k)) as [->|Hu];
      [by rewrite Q1, Ht|by rewrite P9].
Qed.
