(* ===== verification/Queue.v ===== *)
(** * Queues, semaphores and mutexes (FreeRTOS-Kernel/queue.c)

    The functions of queue.c on one core ([queueUSE_LOCKS] = 1,
    [configUSE_QUEUE_SETS] = [configUSE_MUTEXES] = 1; no co-routines, no trace
    facility).  Queues are structures at addresses, so that a queue can be in a
    queue set; items are bytes in memory.  A mutex is a queue of one empty item
    whose [pcHead] is NULL; the structure's union makes the tail pointer of a
    queue and the holder of a mutex one field.  A call that waits takes what
    interrupts and other tasks do at each [point] of each round of its loop. *)

From stdpp Require Import base list option gmap.
From Stdlib Require Import ZArith Lia.
From S2P Require Import Prelude FreeRTOSList Kernel KernelSched KernelPrio.

Definition pdTRUE : Z := 1.
Definition pdFALSE : Z := 0.
Definition pdPASS : Z := pdTRUE.
Definition pdFAIL : Z := pdFALSE.
Definition errQUEUE_EMPTY : Z := 0.
Definition errQUEUE_FULL : Z := 0.
Definition queueSEND_TO_BACK : Z := 0.
Definition queueSEND_TO_FRONT : Z := 1.
Definition queueOVERWRITE : Z := 2.
Definition queueUNLOCKED : Z := -1.
Definition queueLOCKED_UNMODIFIED : Z := 0.
Definition queueINT8_MAX : Z := 127.
Definition queueQUEUE_IS_MUTEX : Z := NULL.
Definition queueSEMAPHORE_QUEUE_ITEM_LENGTH : Z := 0.
Definition queueMUTEX_GIVE_BLOCK_TIME : Z := 0.
Definition SIZE_MAX : Z := 4294967295.
Definition sizeof_Queue_t : Z := 84.

Record Queue_t := mkQueue {
  pcHead : Z;                  (* uxQueueType of a mutex *)
  pcWriteTo : Z;
  u_first : Z;                 (* u.xQueue.pcTail, u.xSemaphore.xMutexHolder *)
  u_second : Z;                (* u.xQueue.pcReadFrom, u.xSemaphore.uxRecursiveCallCount *)
  uxMessagesWaiting : Z;
  uxLength : Z;
  uxItemSize : Z;
  cRxLock : Z;
  cTxLock : Z;
  q_ucStaticallyAllocated : bool;
  pxQueueSetContainer : Z }.

Definition pcTail (x : Queue_t) : Z := u_first x.
Definition pcReadFrom (x : Queue_t) : Z := u_second x.
Definition xMutexHolder (x : Queue_t) : Z := u_first x.
Definition uxRecursiveCallCount (x : Queue_t) : Z := u_second x.

(** The two event lists in the structure at [q]. *)
Definition q_xTasksWaitingToSend (q : Z) : Z := q + 16.
Definition q_xTasksWaitingToReceive (q : Z) : Z := q + 36.

Record world := mkWorld {
  mem : memory;
  queues : gmap Z Queue_t;
  kern : kernel }.

Definition with_mem (w : world) (m : memory) : world := mkWorld m (queues w) (kern w).
Definition with_kern (w : world) (k : kernel) : world := mkWorld (mem w) (queues w) k.
Definition modify (w : world) (q : Z) (f : Queue_t -> Queue_t) : world :=
  mkWorld (mem w) (alter f q (queues w)) (kern w).

Definition set_pcHead (p : Z) (x : Queue_t) : Queue_t :=
  mkQueue p (pcWriteTo x) (u_first x) (u_second x) (uxMessagesWaiting x) (uxLength x) (uxItemSize x)
    (cRxLock x) (cTxLock x) (q_ucStaticallyAllocated x) (pxQueueSetContainer x).
Definition set_pcWriteTo (p : Z) (x : Queue_t) : Queue_t :=
  mkQueue (pcHead x) p (u_first x) (u_second x) (uxMessagesWaiting x) (uxLength x) (uxItemSize x)
    (cRxLock x) (cTxLock x) (q_ucStaticallyAllocated x) (pxQueueSetContainer x).
Definition set_u_first (p : Z) (x : Queue_t) : Queue_t :=
  mkQueue (pcHead x) (pcWriteTo x) p (u_second x) (uxMessagesWaiting x) (uxLength x) (uxItemSize x)
    (cRxLock x) (cTxLock x) (q_ucStaticallyAllocated x) (pxQueueSetContainer x).
Definition set_u_second (p : Z) (x : Queue_t) : Queue_t :=
  mkQueue (pcHead x) (pcWriteTo x) (u_first x) p (uxMessagesWaiting x) (uxLength x) (uxItemSize x)
    (cRxLock x) (cTxLock x) (q_ucStaticallyAllocated x) (pxQueueSetContainer x).
Definition set_messages (n : Z) (x : Queue_t) : Queue_t :=
  mkQueue (pcHead x) (pcWriteTo x) (u_first x) (u_second x) n (uxLength x) (uxItemSize x)
    (cRxLock x) (cTxLock x) (q_ucStaticallyAllocated x) (pxQueueSetContainer x).
Definition set_locks (rx tx : Z) (x : Queue_t) : Queue_t :=
  mkQueue (pcHead x) (pcWriteTo x) (u_first x) (u_second x) (uxMessagesWaiting x) (uxLength x)
    (uxItemSize x) rx tx (q_ucStaticallyAllocated x) (pxQueueSetContainer x).
Definition set_container (c : Z) (x : Queue_t) : Queue_t :=
  mkQueue (pcHead x) (pcWriteTo x) (u_first x) (u_second x) (uxMessagesWaiting x) (uxLength x)
    (uxItemSize x) (cRxLock x) (cTxLock x) (q_ucStaticallyAllocated x) c.

(** ** Copying items *)

(** [data] is what [pvItemToQueue] points to.  Returns whether a context switch
    is required. *)
Definition prvCopyDataToQueue (w : world) (q : Z) (data : list Z) (xPosition : Z) : option (bool * world) :=
  let! x := queues w !! q in
  let n := uxMessagesWaiting x in
  let! (xReturn, n, w) :=
    (if uxItemSize x =? 0 then
       if pcHead x =? queueQUEUE_IS_MUTEX then
         let! (xReturn, k) := xTaskPriorityDisinherit (kern w) (xMutexHolder x) in
         Some (xReturn, n, with_kern (modify w q (set_u_first NULL)) k)
       else Some (false, n, w)
     else if xPosition =? queueSEND_TO_BACK then
       let w := with_mem w (store_bytes (mem w) (pcWriteTo x) data) in
       let p := pcWriteTo x + uxItemSize x in
       let p := if pcTail x <=? p then pcHead x else p in
       Some (false, n, modify w q (set_pcWriteTo p))
     else
       let w := with_mem w (store_bytes (mem w) (pcReadFrom x) data) in
       let p := pcReadFrom x - uxItemSize x in
       let p := if p <? pcHead x then pcTail x - uxItemSize x else p in
       let n := if (xPosition =? queueOVERWRITE) && (0 <? n) then n - 1 else n in
       Some (false, n, modify w q (set_u_second p))) in
  Some (xReturn, modify w q (set_messages (u32 (n + 1)))).

(** Copies to [pvBuffer]. *)
Definition prvCopyDataFromQueue (w : world) (q pvBuffer : Z) : option world :=
  let! x := queues w !! q in
  if negb (uxItemSize x =? 0) then
    let p := pcReadFrom x + uxItemSize x in
    let p := if pcTail x <=? p then pcHead x else p in
    let w := modify w q (set_u_second p) in
    Some (with_mem w (store_bytes (mem w) pvBuffer (load_bytes (mem w) p (uxItemSize x))))
  else Some w.

(** ** Locks *)

(** A locked queue's event lists are left alone by interrupts, which count
    what they do in [cRxLock] and [cTxLock] instead. *)
Definition prvLockQueue (w : world) (q : Z) : world :=
  modify w q (fun x => set_locks
    (if cRxLock x =? queueUNLOCKED then queueLOCKED_UNMODIFIED else cRxLock x)
    (if cTxLock x =? queueUNLOCKED then queueLOCKED_UNMODIFIED else cTxLock x) x).

Definition prvIncrementQueueTxLock (w : world) (q cTxLock : Z) : option world :=
  if u32 cTxLock <? uxTaskGetNumberOfTasks (kern w) then
    assert! negb (cTxLock =? queueINT8_MAX);
    Some (modify w q (fun x => set_locks (cRxLock x) (cTxLock + 1) x))
  else Some w.

Definition prvIncrementQueueRxLock (w : world) (q cRxLock : Z) : option world :=
  if u32 cRxLock <? uxTaskGetNumberOfTasks (kern w) then
    assert! negb (cRxLock =? queueINT8_MAX);
    Some (modify w q (fun x => set_locks (cRxLock + 1) (cTxLock x) x))
  else Some w.

(** Wakes the first task of an event list, if any; whether it outranks the
    running task. *)
Definition wake_first (w : world) (pxEventList : Z) : option (bool * world) :=
  if listLIST_IS_EMPTY (kern w) pxEventList then Some (false, w)
  else let! (higher, k) := xTaskRemoveFromEventList (kern w) pxEventList in
       Some (higher, with_kern w k).

Definition prvNotifyQueueSetContainer (w : world) (q : Z) : option (bool * world) :=
  let! x := queues w !! q in
  let c := pxQueueSetContainer x in
  assert! negb (c =? NULL);
  let! s := queues w !! c in
  assert! uxMessagesWaiting s <? uxLength s;
  if uxMessagesWaiting s <? uxLength s then
    let lock := cTxLock s in
    let! (xReturn, w) := prvCopyDataToQueue w c (bytes32 q) queueSEND_TO_BACK in
    if lock =? queueUNLOCKED then
      let! (higher, w) := wake_first w (q_xTasksWaitingToReceive c) in
      Some (higher || xReturn, w)
    else let! w := prvIncrementQueueTxLock w c lock in Some (xReturn, w)
  else Some (false, w).

Definition missed_yield (yield : bool) (w : world) : world :=
  if yield then with_kern w (vTaskMissedYield (kern w)) else w.

(** The two loops of [prvUnlockQueue]; the lock counts down. *)
Fixpoint unlock_tx (n : nat) (w : world) (q : Z) : option world :=
  match n with
  | O => Some w
  | S n =>
      let! x := queues w !! q in
      if negb (pxQueueSetContainer x =? NULL) then
        let! (yield, w) := prvNotifyQueueSetContainer w q in
        unlock_tx n (missed_yield yield w) q
      else if listLIST_IS_EMPTY (kern w) (q_xTasksWaitingToReceive q) then Some w
      else let! (yield, w) := wake_first w (q_xTasksWaitingToReceive q) in
           unlock_tx n (missed_yield yield w) q
  end.

Fixpoint unlock_rx (n : nat) (w : world) (q : Z) : option world :=
  match n with
  | O => Some w
  | S n =>
      if listLIST_IS_EMPTY (kern w) (q_xTasksWaitingToSend q) then Some w
      else let! (yield, w) := wake_first w (q_xTasksWaitingToSend q) in
           unlock_rx n (missed_yield yield w) q
  end.

(** Two critical sections: first what was added while the queue was locked is
    told, then what was removed. *)
Definition unlock_added (w : world) (q : Z) : option world :=
  let! x := queues w !! q in
  let! w := unlock_tx (Z.to_nat (cTxLock x)) w q in
  Some (modify w q (fun x => set_locks (cRxLock x) queueUNLOCKED x)).

Definition unlock_removed (w : world) (q : Z) : option world :=
  let! x := queues w !! q in
  let! w := unlock_rx (Z.to_nat (cRxLock x)) w q in
  Some (modify w q (fun x => set_locks queueUNLOCKED (cTxLock x) x)).

(** [between] is what interrupts do between the two. *)
Definition prvUnlockQueue (between : world -> world) (w : world) (q : Z) : option world :=
  let! w := unlock_added w q in unlock_removed (between w) q.

Definition prvIsQueueEmpty (x : Queue_t) : bool := uxMessagesWaiting x =? 0.
Definition prvIsQueueFull (x : Queue_t) : bool := uxMessagesWaiting x =? uxLength x.
Definition xQueueIsQueueEmptyFromISR (x : Queue_t) : bool := uxMessagesWaiting x =? 0.
Definition xQueueIsQueueFullFromISR (x : Queue_t) : bool := uxMessagesWaiting x =? uxLength x.

Definition uxQueueMessagesWaiting (x : Queue_t) : Z := uxMessagesWaiting x.
Definition uxQueueMessagesWaitingFromISR (x : Queue_t) : Z := uxMessagesWaiting x.
Definition uxQueueSpacesAvailable (x : Queue_t) : Z := u32 (uxLength x - uxMessagesWaiting x).

(** ** Sending *)

Definition has_room (x : Queue_t) (xCopyPosition : Z) : bool :=
  (uxMessagesWaiting x <? uxLength x) || (xCopyPosition =? queueOVERWRITE).

Definition send_args_ok (x : Queue_t) (pvItemToQueue xCopyPosition : Z) : bool :=
  negb ((pvItemToQueue =? NULL) && negb (uxItemSize x =? 0)) &&
  negb ((xCopyPosition =? queueOVERWRITE) && negb (uxLength x =? 1)).

(** Who is told that an item was added: the queue set, or the first waiting
    receiver; whether a task that outranks the caller was woken. *)
Definition notify_added (w : world) (q xCopyPosition uxPreviousMessagesWaiting : Z) : option (bool * world) :=
  let! x := queues w !! q in
  if negb (pxQueueSetContainer x =? NULL) then
    if (xCopyPosition =? queueOVERWRITE) && negb (uxPreviousMessagesWaiting =? 0) then Some (false, w)
    else prvNotifyQueueSetContainer w q
  else wake_first w (q_xTasksWaitingToReceive q).

(** The critical section of [xQueueGenericSend] when there is room. *)
Definition send_item (w : world) (q pvItemToQueue xCopyPosition : Z) : option world :=
  let! x := queues w !! q in
  let! (_, w) := prvCopyDataToQueue w q (load_bytes (mem w) pvItemToQueue (uxItemSize x)) xCopyPosition in
  let! (_, w) := notify_added w q xCopyPosition (uxMessagesWaiting x) in
  Some w.

(** Returns whether a higher priority task was woken. *)
Definition xQueueGenericSendFromISR (w : world) (q pvItemToQueue xCopyPosition : Z) :
    option (Z * bool * world) :=
  let! x := queues w !! q in
  assert! send_args_ok x pvItemToQueue xCopyPosition;
  if has_room x xCopyPosition then
    let lock := cTxLock x in
    let! (_, w) := prvCopyDataToQueue w q (load_bytes (mem w) pvItemToQueue (uxItemSize x)) xCopyPosition in
    if lock =? queueUNLOCKED then
      let! (woken, w) := notify_added w q xCopyPosition (uxMessagesWaiting x) in
      Some (pdPASS, woken, w)
    else let! w := prvIncrementQueueTxLock w q lock in Some (pdPASS, false, w)
  else Some (errQUEUE_FULL, false, w).

Definition xQueueGiveFromISR (w : world) (q : Z) : option (Z * bool * world) :=
  let! x := queues w !! q in
  assert! uxItemSize x =? 0;
  assert! negb ((pcHead x =? queueQUEUE_IS_MUTEX) && negb (xMutexHolder x =? NULL));
  let n := uxMessagesWaiting x in
  if n <? uxLength x then
    let lock := cTxLock x in
    let w := modify w q (set_messages (u32 (n + 1))) in
    if lock =? queueUNLOCKED then
      let! (woken, w) := notify_added w q queueSEND_TO_BACK n in Some (pdPASS, woken, w)
    else let! w := prvIncrementQueueTxLock w q lock in Some (pdPASS, false, w)
  else Some (errQUEUE_FULL, false, w).

(** ** Receiving *)

(** The critical section of [xQueueReceive] when there is an item. *)
Definition receive_now (w : world) (q pvBuffer : Z) : option world :=
  let! x := queues w !! q in
  let! w := prvCopyDataFromQueue w q pvBuffer in
  let w := modify w q (set_messages (u32 (uxMessagesWaiting x - 1))) in
  let! (_, w) := wake_first w (q_xTasksWaitingToSend q) in
  Some w.

(** Of [xQueuePeek]: the read pointer is put back, and the other receivers get
    a chance. *)
Definition peek_now (w : world) (q pvBuffer : Z) : option world :=
  let! x := queues w !! q in
  let! w := prvCopyDataFromQueue w q pvBuffer in
  let w := modify w q (set_u_second (pcReadFrom x)) in
  let! (_, w) := wake_first w (q_xTasksWaitingToReceive q) in
  Some w.

(** Of [xQueueSemaphoreTake]. *)
Definition take_now (w : world) (q : Z) : option world :=
  let! x := queues w !! q in
  let w := modify w q (set_messages (u32 (uxMessagesWaiting x - 1))) in
  let w := (if pcHead x =? queueQUEUE_IS_MUTEX then
              let (holder, k) := pvTaskIncrementMutexHeldCount (kern w) in
              with_kern (modify w q (set_u_first holder)) k
            else w) in
  let! (_, w) := wake_first w (q_xTasksWaitingToSend q) in
  Some w.

Definition receive_args_ok (x : Queue_t) (pvBuffer : Z) : bool :=
  negb ((pvBuffer =? NULL) && negb (uxItemSize x =? 0)).

Definition xQueueReceiveFromISR (w : world) (q pvBuffer : Z) : option (Z * bool * world) :=
  let! x := queues w !! q in
  assert! receive_args_ok x pvBuffer;
  let n := uxMessagesWaiting x in
  if 0 <? n then
    let lock := cRxLock x in
    let! w := prvCopyDataFromQueue w q pvBuffer in
    let w := modify w q (set_messages (u32 (n - 1))) in
    if lock =? queueUNLOCKED then
      let! (woken, w) := wake_first w (q_xTasksWaitingToSend q) in Some (pdPASS, woken, w)
    else let! w := prvIncrementQueueRxLock w q lock in Some (pdPASS, false, w)
  else Some (pdFAIL, false, w).

Definition xQueuePeekFromISR (w : world) (q pvBuffer : Z) : option (Z * world) :=
  let! x := queues w !! q in
  assert! receive_args_ok x pvBuffer;
  assert! negb (uxItemSize x =? 0);
  if 0 <? uxMessagesWaiting x then
    let! w := prvCopyDataFromQueue w q pvBuffer in
    Some (pdPASS, modify w q (set_u_second (pcReadFrom x)))
  else Some (pdFAIL, w).

(** ** Blocking

    A call that cannot proceed goes round its loop once per time it is woken.
    Interrupts are enabled between any two of its critical sections, and other
    tasks run while the scheduler is not suspended.  What they do is a function
    on the world for each of these points; a pass through the loop comes to the
    points in the order they are listed.  A call that is still in its loop when
    the list of its passes ends is [QRunning]. *)

Inductive point :=
| BeforeSuspend     (* after the critical section that found no room, or no item *)
| Suspended         (* the scheduler is suspended, the queue not yet locked *)
| WhileLocked       (* the queue is locked, the time not yet checked *)
| BeforeTest        (* the time is checked, the queue not yet looked at again *)
| AfterTest         (* the queue was looked at *)
| BeforePlacing     (* the priority is lent, the task not yet on the event list *)
| AfterPlacing      (* the task is on the event list, the queue still locked *)
| WhileUnlocking    (* between the two critical sections of [prvUnlockQueue] *)
| BeforeResume      (* the queue is unlocked, the scheduler still suspended *)
| AfterResume       (* the scheduler runs: while the task sleeps, if it does *)
| BeforeRetry.      (* the time is up but there is an item after all *)

Definition interference := point -> world -> world.

Inductive q_outcome :=
| QReturned (r : Z) (w : world)
| QRunning (w : world).

Record q_wait := mkQWait {
  qw_ticks : Z;                    (* xTicksToWait *)
  qw_timeout : option TimeOut_t;   (* xTimeOut, once xEntryTimeSet *)
  qw_inherited : bool }.           (* xInheritanceOccurred *)

Definition q_start (xTicksToWait : Z) : q_wait := mkQWait xTicksToWait None false.

(** The scheduler must be running for a call that may block. *)
Definition may_block (w : world) (xTicksToWait : Z) : bool :=
  negb (negb (uxSchedulerSuspended (kern w) =? 0) && negb (xTicksToWait =? 0)).

Definition set_entry_time (w : world) (s : q_wait) : TimeOut_t :=
  default (vTaskInternalSetTimeOutState (kern w)) (qw_timeout s).

Definition resume_all (w : world) : option world :=
  let! (_, k) := xTaskResumeAll (kern w) in Some (with_kern w k).

Definition is_mutex (x : Queue_t) : bool := pcHead x =? queueQUEUE_IS_MUTEX.

(** Before it waits on a mutex a task lends its priority to the holder. *)
Definition inherit (w : world) (x : Queue_t) (inherited : bool) : bool * world :=
  if is_mutex x then
    let (r, k) := xTaskPriorityInherit (kern w) (xMutexHolder x) in (r, with_kern w k)
  else (inherited, w).

(** The end of every pass. *)
Definition unlock_and_resume (i : interference) (w : world) (q : Z) : option world :=
  let! w := prvUnlockQueue (i WhileUnlocking) w q in
  let! w := resume_all (i BeforeResume w) in
  Some (i AfterResume w).

(** The part of the loops with the scheduler suspended: the task goes on the
    event list if it still has to wait.  Returns whether the time is up. *)
Definition wait_locked (w : world) (q : Z) (s : q_wait) (i : interference)
    (must_wait : Queue_t -> bool) (pxEventList : Z) (takes : bool) : option (bool * q_wait * world) :=
  let timeout := set_entry_time w s in
  let w := i BeforeSuspend w in
  let w := i Suspended (with_kern w (vTaskSuspendAll (kern w))) in
  let w := i WhileLocked (prvLockQueue w q) in
  let '(timed_out, timeout, ticks, k) := xTaskCheckForTimeOut (kern w) timeout (qw_ticks s) in
  let w := i BeforeTest (with_kern w k) in
  let s := mkQWait ticks (Some timeout) (qw_inherited s) in
  if timed_out then let! w := unlock_and_resume i w q in Some (true, s, w)
  else
    let! x := queues w !! q in
    let w := i AfterTest w in
    if must_wait x then
      let! x := queues w !! q in
      let (inherited, w) := (if takes then inherit w x (qw_inherited s) else (qw_inherited s, w)) in
      let s := mkQWait ticks (Some timeout) inherited in
      let w := i BeforePlacing w in
      let w := i AfterPlacing (with_kern w (vTaskPlaceOnEventList (kern w) pxEventList ticks)) in
      let! w := unlock_and_resume i w q in
      Some (false, s, w)
    else let! w := unlock_and_resume i w q in Some (false, s, w).

Fixpoint send_loop (env : list interference) (w : world) (q pvItemToQueue xCopyPosition : Z) (s : q_wait) :
    option q_outcome :=
  let! x := queues w !! q in
  if has_room x xCopyPosition then
    let! w := send_item w q pvItemToQueue xCopyPosition in Some (QReturned pdPASS w)
  else if qw_ticks s =? 0 then Some (QReturned errQUEUE_FULL w)
  else
    match env with
    | [] => Some (QRunning w)
    | i :: env =>
        let! (timed_out, s, w) := wait_locked w q s i prvIsQueueFull (q_xTasksWaitingToSend q) false in
        if timed_out : bool then Some (QReturned errQUEUE_FULL w)
        else send_loop env w q pvItemToQueue xCopyPosition s
    end.

Definition xQueueGenericSend (env : list interference) (w : world) (q pvItemToQueue xTicksToWait xCopyPosition : Z) :
    option q_outcome :=
  let! x := queues w !! q in
  assert! send_args_ok x pvItemToQueue xCopyPosition;
  assert! may_block w xTicksToWait;
  send_loop env w q pvItemToQueue xCopyPosition (q_start xTicksToWait).

(** When the time is up but an item has come after all, the receiving loops go
    round once more. *)
Fixpoint receive_loop (env : list interference) (w : world) (q : Z) (s : q_wait)
    (now : world -> option world) : option q_outcome :=
  let! x := queues w !! q in
  if 0 <? uxMessagesWaiting x then let! w := now w in Some (QReturned pdPASS w)
  else if qw_ticks s =? 0 then Some (QReturned errQUEUE_EMPTY w)
  else
    match env with
    | [] => Some (QRunning w)
    | i :: env =>
        let! (timed_out, s, w) := wait_locked w q s i prvIsQueueEmpty (q_xTasksWaitingToReceive q) false in
        if timed_out : bool then
          let! x := queues w !! q in
          if prvIsQueueEmpty x then Some (QReturned errQUEUE_EMPTY w)
          else receive_loop env (i BeforeRetry w) q s now
        else receive_loop env w q s now
    end.

Definition xQueueReceive (env : list interference) (w : world) (q pvBuffer xTicksToWait : Z) : option q_outcome :=
  let! x := queues w !! q in
  assert! receive_args_ok x pvBuffer;
  assert! may_block w xTicksToWait;
  receive_loop env w q (q_start xTicksToWait) (fun w => receive_now w q pvBuffer).

Definition xQueuePeek (env : list interference) (w : world) (q pvBuffer xTicksToWait : Z) : option q_outcome :=
  let! x := queues w !! q in
  assert! receive_args_ok x pvBuffer;
  assert! may_block w xTicksToWait;
  receive_loop env w q (q_start xTicksToWait) (fun w => peek_now w q pvBuffer).

(** The priority of the first task that still waits. *)
Definition prvGetDisinheritPriorityAfterTimeout (w : world) (q : Z) : Z :=
  match default [] (event_lists (kern w) !! q_xTasksWaitingToReceive q) with
  | [] => tskIDLE_PRIORITY
  | t :: _ => u32 (configMAX_PRIORITIES - event_value (kern w) t)
  end.

Fixpoint take_loop (env : list interference) (w : world) (q : Z) (s : q_wait) : option q_outcome :=
  let! x := queues w !! q in
  if 0 <? uxMessagesWaiting x then let! w := take_now w q in Some (QReturned pdPASS w)
  else if qw_ticks s =? 0 then Some (QReturned errQUEUE_EMPTY w)
  else
    match env with
    | [] => Some (QRunning w)
    | i :: env =>
        let! (timed_out, s, w) := wait_locked w q s i prvIsQueueEmpty (q_xTasksWaitingToReceive q) true in
        if timed_out : bool then
          let! x := queues w !! q in
          if prvIsQueueEmpty x then
            if qw_inherited s then
              let! k := vTaskPriorityDisinheritAfterTimeout (kern w) (xMutexHolder x)
                          (prvGetDisinheritPriorityAfterTimeout w q) in
              Some (QReturned errQUEUE_EMPTY (with_kern w k))
            else Some (QReturned errQUEUE_EMPTY w)
          else take_loop env (i BeforeRetry w) q s
        else take_loop env w q s
    end.

Definition xQueueSemaphoreTake (env : list interference) (w : world) (q xTicksToWait : Z) : option q_outcome :=
  let! x := queues w !! q in
  assert! uxItemSize x =? 0;
  assert! may_block w xTicksToWait;
  take_loop env w q (q_start xTicksToWait).

(** For the timer task, with the scheduler suspended. *)
Definition vQueueWaitForMessageRestricted (i : interference) (w : world) (q xTicksToWait : Z)
    (xWaitIndefinitely : bool) : option world :=
  let w := i WhileLocked (prvLockQueue w q) in
  let! x := queues w !! q in
  let w := i AfterTest w in
  let! w := (if uxMessagesWaiting x =? 0 then
               let! k := vTaskPlaceOnEventListRestricted (kern w) (q_xTasksWaitingToReceive q)
                           xTicksToWait xWaitIndefinitely in Some (i AfterPlacing (with_kern w k))
             else Some w) in
  prvUnlockQueue (i WhileUnlocking) w q.

(** ** Creation and reset *)

Definition empty_event_list (w : world) (l : Z) : world :=
  with_kern w (with_event_lists (kern w) (<[l := []]> (event_lists (kern w)))).

(** An empty, unlocked queue. *)
Definition reset_queue (x : Queue_t) : Queue_t :=
  set_locks queueUNLOCKED queueUNLOCKED
    (set_u_second (pcHead x + (uxLength x - 1) * uxItemSize x)
      (set_pcWriteTo (pcHead x)
        (set_messages 0
          (set_u_first (pcHead x + uxLength x * uxItemSize x) x)))).

(** A size check that fails is an assertion. *)
Definition xQueueGenericReset (w : world) (q : Z) (xNewQueue : bool) : option (Z * world) :=
  let! x := queues w !! q in
  assert! (1 <=? uxLength x) && (uxItemSize x <=? SIZE_MAX / uxLength x);
  let w := modify w q reset_queue in
  if xNewQueue then
    Some (pdPASS, empty_event_list (empty_event_list w (q_xTasksWaitingToSend q)) (q_xTasksWaitingToReceive q))
  else let! (_, w) := wake_first w (q_xTasksWaitingToSend q) in Some (pdPASS, w).

(** The fields [xQueueGenericReset] does not set hold what they held; a queue
    is put at [q]. *)
Definition prvInitialiseNewQueue (w : world) (uxQueueLength uxItemSize pucQueueStorage : Z)
    (ucStaticallyAllocated : bool) (q : Z) : option world :=
  let pcHead := if uxItemSize =? 0 then q else pucQueueStorage in
  let x := mkQueue pcHead 0 0 0 0 uxQueueLength uxItemSize 0 0 ucStaticallyAllocated NULL in
  let! (_, w) := xQueueGenericReset (mkWorld (mem w) (<[q := x]> (queues w)) (kern w)) q true in
  Some w.

(** [q] is what [pvPortMalloc] returns.  The queue created, or NULL. *)
Definition xQueueGenericCreate (w : world) (uxQueueLength uxItemSize q : Z) : option (Z * world) :=
  assert! (0 <? uxQueueLength) && (uxItemSize <=? SIZE_MAX / uxQueueLength) &&
          (u32 (uxQueueLength * uxItemSize) <=? SIZE_MAX - sizeof_Queue_t);
  if q =? NULL then Some (NULL, w)
  else let! w := prvInitialiseNewQueue w uxQueueLength uxItemSize (q + sizeof_Queue_t) false q in
       Some (q, w).

Definition xQueueGenericCreateStatic (w : world) (uxQueueLength uxItemSize pucQueueStorage pxStaticQueue : Z) :
    option (Z * world) :=
  assert! negb (pxStaticQueue =? NULL);
  assert! (0 <? uxQueueLength) &&
          negb (negb (pucQueueStorage =? NULL) && (uxItemSize =? 0)) &&
          negb ((pucQueueStorage =? NULL) && negb (uxItemSize =? 0));
  let! w := prvInitialiseNewQueue w uxQueueLength uxItemSize pucQueueStorage true pxStaticQueue in
  Some (pxStaticQueue, w).

(** The storage and the structure of a static queue. *)
Definition xQueueGenericGetStaticBuffers (w : world) (q : Z) : option (option (Z * Z)) :=
  let! x := queues w !! q in
  Some (if q_ucStaticallyAllocated x then Some (pcHead x, q) else None).

(** ** Mutexes and semaphores *)

Definition prvInitialiseMutex (w : world) (q : Z) : option world :=
  if negb (q =? NULL) then
    let w := modify w q (fun x => set_u_second 0 (set_pcHead queueQUEUE_IS_MUTEX (set_u_first NULL x))) in
    let! r := xQueueGenericSend [] w q NULL 0 queueSEND_TO_BACK in
    match r with QReturned _ w => Some w | QRunning _ => None end
  else Some w.

Definition xQueueCreateMutex (w : world) (q : Z) : option (Z * world) :=
  let! (h, w) := xQueueGenericCreate w 1 0 q in
  let! w := prvInitialiseMutex w h in Some (h, w).

Definition xQueueCreateMutexStatic (w : world) (pxStaticQueue : Z) : option (Z * world) :=
  let! (h, w) := xQueueGenericCreateStatic w 1 0 NULL pxStaticQueue in
  let! w := prvInitialiseMutex w h in Some (h, w).

Definition xQueueGetMutexHolder (x : Queue_t) : Z := if is_mutex x then xMutexHolder x else NULL.
Definition xQueueGetMutexHolderFromISR (x : Queue_t) : Z := if is_mutex x then xMutexHolder x else NULL.

Definition xQueueGiveMutexRecursive (w : world) (q : Z) : option (Z * world) :=
  let! x := queues w !! q in
  if xMutexHolder x =? pxCurrentTCB (kern w) then
    let n := u32 (uxRecursiveCallCount x - 1) in
    let w := modify w q (set_u_second n) in
    if n =? 0 then
      let! r := xQueueGenericSend [] w q NULL queueMUTEX_GIVE_BLOCK_TIME queueSEND_TO_BACK in
      match r with QReturned _ w => Some (pdPASS, w) | QRunning _ => None end
    else Some (pdPASS, w)
  else Some (pdFAIL, w).

Definition xQueueTakeMutexRecursive (env : list interference) (w : world) (q xTicksToWait : Z) :
    option q_outcome :=
  let! x := queues w !! q in
  let count (w : world) := modify w q (fun x => set_u_second (u32 (uxRecursiveCallCount x + 1)) x) in
  if xMutexHolder x =? pxCurrentTCB (kern w) then Some (QReturned pdPASS (count w))
  else
    let! r := xQueueSemaphoreTake env w q xTicksToWait in
    match r with
    | QReturned r w => Some (QReturned r (if negb (r =? pdFAIL) then count w else w))
    | QRunning w => Some (QRunning w)
    end.

Definition xQueueCreateCountingSemaphore (w : world) (uxMaxCount uxInitialCount q : Z) : option (Z * world) :=
  assert! negb (uxMaxCount =? 0) && (uxInitialCount <=? uxMaxCount);
  let! (h, w) := xQueueGenericCreate w uxMaxCount queueSEMAPHORE_QUEUE_ITEM_LENGTH q in
  Some (h, if negb (h =? NULL) then modify w h (set_messages uxInitialCount) else w).

Definition xQueueCreateCountingSemaphoreStatic (w : world) (uxMaxCount uxInitialCount pxStaticQueue : Z) :
    option (Z * world) :=
  assert! negb (uxMaxCount =? 0) && (uxInitialCount <=? uxMaxCount);
  let! (h, w) := xQueueGenericCreateStatic w uxMaxCount queueSEMAPHORE_QUEUE_ITEM_LENGTH NULL pxStaticQueue in
  Some (h, if negb (h =? NULL) then modify w h (set_messages uxInitialCount) else w).

(** ** Queue sets *)

Definition xQueueCreateSet (w : world) (uxEventQueueLength q : Z) : option (Z * world) :=
  xQueueGenericCreate w uxEventQueueLength 4 q.

Definition xQueueAddToSet (w : world) (q xQueueSet : Z) : option (Z * world) :=
  let! x := queues w !! q in
  if negb (pxQueueSetContainer x =? NULL) then Some (pdFAIL, w)
  else if negb (uxMessagesWaiting x =? 0) then Some (pdFAIL, w)
  else Some (pdPASS, modify w q (set_container xQueueSet)).

Definition xQueueRemoveFromSet (w : world) (q xQueueSet : Z) : option (Z * world) :=
  let! x := queues w !! q in
  if negb (pxQueueSetContainer x =? xQueueSet) then Some (pdFAIL, w)
  else if negb (uxMessagesWaiting x =? 0) then Some (pdFAIL, w)
  else Some (pdPASS, modify w q (set_container NULL)).

(** The handle received, or NULL; [buf] is the address of the local variable. *)
Definition xQueueSelectFromSet (env : list interference) (w : world) (xQueueSet xTicksToWait buf : Z) :
    option (option Z * world) :=
  let w := with_mem w (store32 (mem w) buf NULL) in
  let! r := xQueueReceive env w xQueueSet buf xTicksToWait in
  match r with
  | QReturned _ w => Some (Some (load32 (mem w) buf), w)
  | QRunning w => Some (None, w)
  end.

Definition xQueueSelectFromSetFromISR (w : world) (xQueueSet buf : Z) : option (Z * world) :=
  let w := with_mem w (store32 (mem w) buf NULL) in
  let! (_, _, w) := xQueueReceiveFromISR w xQueueSet buf in
  Some (load32 (mem w) buf, w).

(** ** The registry (for debuggers)

    Entries of a name and a handle, either NULL when free. *)

Definition registry := list (Z * Z).

(** The entry of [q] if it has one, or the first without a name. *)
Fixpoint registry_slot (r : registry) (q : Z) (i : nat) (free : option nat) : option nat :=
  match r with
  | [] => free
  | (name, h) :: r =>
      if q =? h then Some i
      else registry_slot r q (S i) (match free with
                                    | None => if name =? NULL then Some i else None
                                    | Some j => Some j
                                    end)
  end.

Definition vQueueAddToRegistry (r : registry) (q pcQueueName : Z) : registry :=
  match (if negb (pcQueueName =? NULL) then registry_slot r q 0 None else None) with
  | Some i => <[i := (pcQueueName, q)]> r
  | None => r
  end.

Fixpoint pcQueueGetName (r : registry) (q : Z) : Z :=
  match r with
  | [] => NULL
  | (name, h) :: r => if h =? q then name else pcQueueGetName r q
  end.

Fixpoint vQueueUnregisterQueue (r : registry) (q : Z) : registry :=
  match r with
  | [] => []
  | (name, h) :: r => if h =? q then (NULL, NULL) :: r else (name, h) :: vQueueUnregisterQueue r q
  end.

(** The registry afterwards, and whether the memory is freed. *)
Definition vQueueDelete (w : world) (r : registry) (q : Z) : option (registry * bool) :=
  let! x := queues w !! q in
  Some (vQueueUnregisterQueue r q, negb (q_ucStaticallyAllocated x)).
