(* ===== verification/QueueFifo.v ===== *)
(** * Queues of items are bounded FIFO queues

    The ring of item slots behind [pcReadFrom] and [pcWriteTo], the functional
    specification of the copy functions, and the refinement: what a queue made by
    [xQueueGenericCreate] returns for any sequence of calls is what a list of at
    most [uxLength] items returns. *)

From stdpp Require Import base list option gmap.
From Stdlib Require Import ZArith Lia.
From S2P Require Import Prelude FreeRTOSList Kernel KernelSched KernelPrio Queue.

(** ** The ring of slots *)

Section ring.
Context (head n size : Z) (Hn : 0 < n) (Hsize : 0 < size).

Definition slot (i : Z) : Z := head + (i mod n) * size.

Lemma slot_bounds i : head <= slot i /\ slot i + size <= head + n * size.
Proof. unfold slot. pose proof (Z.mod_pos_bound i n Hn). nia. Qed.

Lemma slot_eq i j : i mod n = j mod n -> slot i = slot j.
Proof. unfold slot. by intros ->. Qed.

Lemma slot_apart i j : 0 < j - i < n -> slot i + size <= slot j \/ slot j + size <= slot i.
Proof.
  intros Hij. unfold slot.
  assert (i mod n <> j mod n) as Hne.
  { intros E. assert ((j - i) mod n = 0) as Hz by (rewrite Zminus_mod, E, Z.sub_diag; by apply Z.mod_0_l; lia).
    rewrite Z.mod_small in Hz; lia. }
  pose proof (Z.mod_pos_bound i n Hn). pose proof (Z.mod_pos_bound j n Hn). nia.
Qed.

(** Advancing a pointer at a slot with the wrap of the code. *)
Lemma slot_succ i :
  (if head + n * size <=? slot i + size then head else slot i + size) = slot (i + 1).
Proof.
  unfold slot. pose proof (Z.mod_pos_bound i n Hn).
  rewrite <- Zplus_mod_idemp_l. destruct (Z.eq_dec (i mod n) (n - 1)) as [E|E].
  - rewrite E. replace (n - 1 + 1) with n by lia. rewrite Z_mod_same_full.
    destruct (Z.leb_spec (head + n * size) (head + (n - 1) * size + size)); lia.
  - rewrite (Z.mod_small (i mod n + 1)) by lia.
    destruct (Z.leb_spec (head + n * size) (head + i mod n * size + size)); [nia|lia].
Qed.

Lemma slot_pred i :
  (if slot i - size <? head then head + n * size - size else slot i - size) = slot (i - 1).
Proof.
  unfold slot. pose proof (Z.mod_pos_bound i n Hn).
  rewrite <- Zminus_mod_idemp_l. destruct (Z.eq_dec (i mod n) 0) as [E|E].
  - rewrite E. replace ((0 - 1) mod n) with (n - 1).
    2:{ rewrite <- (Z_mod_plus_full _ 1). rewrite Z.mod_small; lia. }
    destruct (Z.ltb_spec (head + 0 * size - size) head); lia.
  - rewrite (Z.mod_small (i mod n - 1)) by lia.
    destruct (Z.ltb_spec (head + i mod n * size - size) head); [nia|lia].
Qed.

(** The items [l] lie in the slots from [first]. *)
Definition stored (m : memory) (first : Z) (l : list (list Z)) : Prop :=
  forall i d, l !! i = Some d -> load_bytes m (slot (first + Z.of_nat i)) size = d.

Lemma stored_agree m m' first l :
  agree m m' head (head + n * size) -> stored m first l -> stored m' first l.
Proof.
  intros Ha Hs i d Hi. rewrite <- (Hs i d Hi). apply load_bytes_agree.
  eapply agree_sub; [exact Ha|..]; pose proof (slot_bounds (first + Z.of_nat i)); lia.
Qed.

Lemma stored_first m first first' l : first mod n = first' mod n -> stored m first l -> stored m first' l.
Proof.
  intros E Hs i d Hi. rewrite <- (Hs i d Hi). f_equal. apply slot_eq.
  by rewrite <- Zplus_mod_idemp_l, <- E, Zplus_mod_idemp_l.
Qed.

(** Writing a free slot. *)
Lemma stored_write m first l j d :
  Z.of_nat (length d) = size -> stored m first l ->
  (forall i, (i < length l)%nat -> 0 < j - (first + Z.of_nat i) < n \/ 0 < first + Z.of_nat i - j < n) ->
  stored (store_bytes m (slot j) d) first l.
Proof.
  intros Hd Hs Hfree i e Hi. rewrite <- (Hs i e Hi). apply load_bytes_store_bytes_other.
  apply lookup_lt_Some in Hi. rewrite Hd.
  destruct (Hfree i Hi) as [H|H]; apply slot_apart in H; lia.
Qed.

Lemma stored_snoc m first l d :
  Z.of_nat (length d) = size -> Z.of_nat (length l) < n -> stored m first l ->
  stored (store_bytes m (slot (first + Z.of_nat (length l))) d) first (l ++ [d]).
Proof.
  intros Hd Hl Hs i e Hi. destruct (decide (i < length l)%nat) as [Hlt|Hge].
  - rewrite lookup_app_l in Hi by done. apply (stored_write m first l); try done. intros j Hj. lia.
  - rewrite lookup_app_r in Hi by lia. apply list_lookup_singleton_Some in Hi as [Hz <-].
    replace i with (length l) by lia. apply load_store_bytes_same. done.
Qed.

Lemma stored_cons m first l d :
  Z.of_nat (length d) = size -> Z.of_nat (length l) < n -> stored m first l ->
  stored (store_bytes m (slot (first - 1)) d) (first - 1) (d :: l).
Proof.
  intros Hd Hl Hs [|i] e Hi; simpl in Hi.
  - injection Hi as <-. rewrite Z.add_0_r. apply load_store_bytes_same. done.
  - replace (first - 1 + Z.of_nat (S i)) with (first + Z.of_nat i) by lia.
    apply (stored_write m first l); try done. intros j Hj. lia.
Qed.

Lemma stored_tail m first l d : stored m first (d :: l) -> stored m (first + 1) l.
Proof.
  intros Hs i e Hi. rewrite <- (Hs (S i) e Hi). f_equal. f_equal. lia.
Qed.
End ring.

(** ** The state of a queue *)

(** The queue at [q] holds the items [l]; its lock counts are [rx] and [tx]. *)
Record queue_at (w : world) (q head n size : Z) (l : list (list Z)) (rx tx : Z) : Prop := mkRepr {
  qr_queue : exists x rd, queues w !! q = Some x /\ pcHead x = head /\ uxLength x = n /\ uxItemSize x = size /\
    pcTail x = head + n * size /\ uxMessagesWaiting x = Z.of_nat (length l) /\
    pcReadFrom x = slot head n size rd /\
    pcWriteTo x = slot head n size (rd + 1 + Z.of_nat (length l)) /\
    cRxLock x = rx /\ cTxLock x = tx /\ pxQueueSetContainer x = NULL /\
    stored head n size (mem w) (rd + 1) l;
  qr_head : head <> NULL;
  qr_pos : 0 < n < 4294967296 /\ 0 < size;
  qr_len : Z.of_nat (length l) <= n;
  qr_items : Forall (fun d => Z.of_nat (length d) = size) l }.

(** Not locked, as between calls. *)
Definition queue_repr (w : world) (q head n size : Z) (l : list (list Z)) : Prop :=
  queue_at w q head n size l queueUNLOCKED queueUNLOCKED.

Lemma queue_at_kern w q head n size l rx tx k :
  queue_at w q head n size l rx tx -> queue_at (with_kern w k) q head n size l rx tx.
Proof. intros [H1 H2 H3 H4 H5]. by split. Qed.

Lemma queue_at_mem w q head n size l rx tx m :
  agree (mem w) m head (head + n * size) ->
  queue_at w q head n size l rx tx -> queue_at (with_mem w m) q head n size l rx tx.
Proof.
  intros Ha [(x & rd & H) H2 H3 H4 H5]. split; try done. exists x, rd. simpl.
  destruct_and! H. split_and!; try done. eapply stored_agree; [lia..|exact Ha|done].
Qed.

Lemma modify_lookup w q f x : queues w !! q = Some x -> queues (modify w q f) !! q = Some (f x).
Proof. intros H. simpl. by rewrite lookup_alter_eq, H. Qed.

(** What copying in and out does to the items. *)
Lemma copy_to_back w q head n size l d rx tx :
  queue_at w q head n size l rx tx -> Z.of_nat (length d) = size -> Z.of_nat (length l) < n ->
  exists w', prvCopyDataToQueue w q d queueSEND_TO_BACK = Some (false, w') /\
    queue_at w' q head n size (l ++ [d]) rx tx /\ kern w' = kern w.
Proof.
  intros [(x & rd & Hx & E1 & E2 & E3 & E4 & E5 & E6 & E7 & E8 & E9 & E10 & Hst) Hh [Hn Hs] Hl Hi] Hd Hlt.
  unfold prvCopyDataToQueue. rewrite Hx, E3. destruct (Z.eqb_spec size 0); [lia|]. cbv iota zeta.
  rewrite Z.eqb_refl. eexists. split; [reflexivity|]. split; [|done]. split; try done.
  - eexists _, rd. split; [simpl; rewrite lookup_alter_eq, lookup_alter_eq, Hx; reflexivity|].
    simpl. rewrite E1, E4, E5, E7, length_app, (u32_small _) by lia. simpl (length [d]).
    split_and!; try done; [lia| |].
    + rewrite slot_succ by lia. f_equal. lia.
    + by apply stored_snoc; [lia..|].
  - rewrite length_app. simpl. lia.
  - apply Forall_app. by split; [|constructor].
Qed.

Lemma copy_to_front w q head n size l d rx tx :
  queue_at w q head n size l rx tx -> Z.of_nat (length d) = size -> Z.of_nat (length l) < n ->
  exists w', prvCopyDataToQueue w q d queueSEND_TO_FRONT = Some (false, w') /\
    queue_at w' q head n size (d :: l) rx tx /\ kern w' = kern w.
Proof.
  intros [(x & rd & Hx & E1 & E2 & E3 & E4 & E5 & E6 & E7 & E8 & E9 & E10 & Hst) Hh [Hn Hs] Hl Hi] Hd Hlt.
  unfold prvCopyDataToQueue. rewrite Hx, E3. destruct (Z.eqb_spec size 0); [lia|]. cbv iota zeta.
  change (queueSEND_TO_FRONT =? queueSEND_TO_BACK) with false.
  change (queueSEND_TO_FRONT =? queueOVERWRITE) with false. cbn [andb].
  eexists. split; [reflexivity|]. split; [|done]. split; try done.
  - eexists _, (rd - 1). split; [simpl; rewrite lookup_alter_eq, lookup_alter_eq, Hx; reflexivity|].
    unfold pcTail, pcReadFrom in *.
    cbn [set_messages set_u_second pcHead uxLength uxItemSize u_first u_second uxMessagesWaiting pcWriteTo
      cRxLock cTxLock pxQueueSetContainer mem modify with_mem queues].
    rewrite E1, E4, E5, E6, (u32_small _) by lia.
    split_and!; try done.
    + simpl length. lia.
    + apply slot_pred; lia.
    + rewrite E7. f_equal. simpl length. lia.
    + replace (rd - 1 + 1) with (rd + 1 - 1) by lia. replace (slot head n size rd) with (slot head n size (rd + 1 - 1))
        by (f_equal; lia). by apply stored_cons; [lia..|].
  - simpl length. lia.
  - by constructor.
Qed.

(** Overwriting is for queues of one item. *)
Lemma copy_overwrite w q head size l d rx tx :
  queue_at w q head 1 size l rx tx -> Z.of_nat (length d) = size ->
  exists w', prvCopyDataToQueue w q d queueOVERWRITE = Some (false, w') /\
    queue_at w' q head 1 size [d] rx tx /\ kern w' = kern w.
Proof.
  intros [(x & rd & Hx & E1 & E2 & E3 & E4 & E5 & E6 & E7 & E8 & E9 & E10 & Hst) Hh [Hn Hs] Hl Hi] Hd.
  unfold prvCopyDataToQueue. rewrite Hx, E3. destruct (Z.eqb_spec size 0); [lia|]. cbv iota zeta.
  change (queueOVERWRITE =? queueSEND_TO_BACK) with false. rewrite Z.eqb_refl. cbn [andb].
  assert (forall i j, slot head 1 size i = slot head 1 size j) as Hsame
    by (intros; apply slot_eq; by rewrite !Z.mod_1_r).
  eexists. split; [reflexivity|]. split; [|done]. split; try done.
  - eexists _, (rd - 1). split; [simpl; rewrite lookup_alter_eq, lookup_alter_eq, Hx; reflexivity|].
    unfold pcTail, pcReadFrom in *.
    cbn [set_messages set_u_second pcHead uxLength uxItemSize u_first u_second uxMessagesWaiting pcWriteTo
      cRxLock cTxLock pxQueueSetContainer mem modify with_mem queues].
    rewrite E1, E4, E5, E6.
    split_and!; try done.
    + destruct (Z.ltb_spec 0 (Z.of_nat (length l))); rewrite u32_small; simpl length; lia.
    + apply slot_pred; lia.
    + rewrite E7. apply Hsame.
    + intros i e Hi'. apply list_lookup_singleton_Some in Hi' as [-> <-].
      rewrite (Hsame (rd - 1 + 1 + Z.of_nat 0) rd). by apply load_store_bytes_same.
  - by constructor.
Qed.

Lemma copy_from w q head n size d l buf rx tx :
  queue_at w q head n size (d :: l) rx tx -> buf + size <= head \/ head + n * size <= buf ->
  exists w', prvCopyDataFromQueue w q buf = Some w' /\
    queue_at (modify w' q (set_messages (Z.of_nat (length l)))) q head n size l rx tx /\
    load_bytes (mem w') buf size = d /\ kern w' = kern w /\
    (forall x, queues w !! q = Some x ->
       queue_at (modify w' q (set_u_second (pcReadFrom x))) q head n size (d :: l) rx tx).
Proof.
  intros [(x & rd & Hx & E1 & E2 & E3 & E4 & E5 & E6 & E7 & E8 & E9 & E10 & Hst) Hh [Hn Hs] Hl Hi] Hb.
  unfold prvCopyDataFromQueue. rewrite Hx, E3. destruct (Z.eqb_spec size 0); [lia|]. cbn [negb]. cbv zeta.
  rewrite E4, E6, E1, slot_succ by lia.
  assert (load_bytes (mem w) (slot head n size (rd + 1)) size = d) as Ed.
  { rewrite <- (Hst 0%nat d eq_refl). f_equal. f_equal. lia. }
  change (mem (modify w q (set_u_second (slot head n size (rd + 1))))) with (mem w). rewrite Ed.
  pose proof (Forall_inv Hi) as Hd. simpl in Hd.
  assert (forall l, stored head n size (mem w) (rd + 1) l ->
    stored head n size (store_bytes (mem w) buf d) (rd + 1) l) as Hst1.
  { intros l0. apply stored_agree; [lia..|]. apply store_bytes_agree. lia. }
  eexists. split; [reflexivity|]. split_and!.
  - split; try done.
    + eexists _, (rd + 1). split; [simpl; rewrite lookup_alter_eq, lookup_alter_eq, Hx; reflexivity|].
      simpl. split_and!; try done.
      * rewrite E7. f_equal. simpl length. lia.
      * apply (stored_tail _ _ _ _ _ _ d). by apply Hst1.
    + simpl length in Hl. lia.
    + by apply Forall_inv_tail in Hi.
  - apply load_store_bytes_same. lia.
  - done.
  - intros x' Hx'. injection Hx' as <-. split; try done.
    eexists _, rd. split; [simpl; rewrite lookup_alter_eq, lookup_alter_eq, Hx; reflexivity|].
    simpl. split_and!; try done. by apply Hst1.
Qed.

(** ** Calls that do not wait *)

Lemma wake_first_total w l : exists b k, wake_first w l = Some (b, with_kern w k).
Proof.
  unfold wake_first, listLIST_IS_EMPTY, xTaskRemoveFromEventList.
  destruct (default [] (event_lists (kern w) !! l)) as [|t ts].
  - exists false, (kern w). by destruct w.
  - destruct (_ <? _); eauto.
Qed.

Lemma notify_added_total w q head n size l rx tx pos prev : queue_at w q head n size l rx tx ->
  exists b k, notify_added w q pos prev = Some (b, with_kern w k).
Proof.
  intros [(x & rd & Hx & E1 & E2 & E3 & E4 & E5 & E6 & E7 & E8 & E9 & E10 & Hst) _ _ _ _].
  unfold notify_added. rewrite Hx, E10. apply wake_first_total.
Qed.

(** The specification: a list of at most [n] items. *)
Definition fifo_send (l : list (list Z)) (pos : Z) (d : list Z) : list (list Z) :=
  if pos =? queueSEND_TO_BACK then l ++ [d] else if pos =? queueSEND_TO_FRONT then d :: l else [d].

(** A position as callers may pass it; overwriting is for queues of one item. *)
Definition position_ok (n pos : Z) : Prop :=
  pos = queueSEND_TO_BACK \/ pos = queueSEND_TO_FRONT \/ pos = queueOVERWRITE /\ n = 1.

Lemma prvCopyDataToQueue_spec w q head n size l rx tx d pos :
  queue_at w q head n size l rx tx -> Z.of_nat (length d) = size -> position_ok n pos ->
  (Z.of_nat (length l) <? n) || (pos =? queueOVERWRITE) = true ->
  exists w', prvCopyDataToQueue w q d pos = Some (false, w') /\
    queue_at w' q head n size (fifo_send l pos d) rx tx /\ kern w' = kern w.
Proof.
  intros Hr Hd [->|[->|[-> ->]]] Hroom.
  - apply copy_to_back; try done. rewrite orb_false_r in Hroom. by apply Z.ltb_lt.
  - apply copy_to_front; try done. rewrite orb_false_r in Hroom. by apply Z.ltb_lt.
  - by apply (copy_overwrite w q head size l).
Qed.

Section calls.
Context (q head n size buf : Z).
Context (Hbuf : buf <> NULL) (Hapart : buf + size <= head \/ head + n * size <= buf).

Lemma repr_args w l rx tx x pos : queue_at w q head n size l rx tx -> position_ok n pos -> queues w !! q = Some x ->
  send_args_ok x buf pos = true /\ receive_args_ok x buf = true /\
  has_room x pos = (Z.of_nat (length l) <? n) || (pos =? queueOVERWRITE) /\
  uxItemSize x = size /\ cTxLock x = tx /\ cRxLock x = rx /\
  uxMessagesWaiting x = Z.of_nat (length l).
Proof.
  intros [(y & rd & Hx & E1 & E2 & E3 & E4 & E5 & E6 & E7 & E8 & E9 & E10 & Hst) _ [_ Hs] _ _] Hpos Hx'.
  rewrite Hx in Hx'. injection Hx' as <-.
  unfold send_args_ok, receive_args_ok, has_room. rewrite E2, E3, E5.
  destruct (Z.eqb_spec buf NULL); [done|]. simpl. split_and!; try done.
  destruct Hpos as [->|[->|[-> ->]]]; done.
Qed.

Lemma repr_queue w l rx tx : queue_at w q head n size l rx tx -> exists x, queues w !! q = Some x.
Proof. intros [(x & rd & Hx & _) _ _ _ _]. eauto. Qed.

(** One call by a task that does not wait, or by an interrupt. *)
Definition send_call (isr : bool) (w : world) (pos : Z) : option (Z * world) :=
  if isr then let! (r, _, w) := xQueueGenericSendFromISR w q buf pos in Some (r, w)
  else let! o := xQueueGenericSend [] w q buf 0 pos in
       match o with QReturned r w => Some (r, w) | QRunning _ => None end.

Definition receive_call (isr : bool) (w : world) : option (Z * world) :=
  if isr then let! (r, _, w) := xQueueReceiveFromISR w q buf in Some (r, w)
  else let! o := xQueueReceive [] w q buf 0 in
       match o with QReturned r w => Some (r, w) | QRunning _ => None end.

Definition peek_call (isr : bool) (w : world) : option (Z * world) :=
  if isr then xQueuePeekFromISR w q buf
  else let! o := xQueuePeek [] w q buf 0 in
       match o with QReturned r w => Some (r, w) | QRunning _ => None end.

Lemma may_block_now w : may_block w 0 = true.
Proof. unfold may_block. by destruct (_ =? _). Qed.

Lemma send_call_spec isr w l d pos :
  queue_repr w q head n size l -> position_ok n pos -> Z.of_nat (length d) = size ->
  load_bytes (mem w) buf size = d ->
  exists w', send_call isr w pos =
      Some (if (Z.of_nat (length l) <? n) || (pos =? queueOVERWRITE) then pdPASS else errQUEUE_FULL, w') /\
    queue_repr w' q head n size
      (if (Z.of_nat (length l) <? n) || (pos =? queueOVERWRITE) then fifo_send l pos d else l) /\
    ((Z.of_nat (length l) <? n) || (pos =? queueOVERWRITE) = false -> w' = w).
Proof.
  intros Hr Hpos Hd Hm. destruct (repr_queue w l _ _ Hr) as [x Hx].
  destruct (repr_args w l _ _ x pos Hr Hpos Hx) as (A1 & _ & A3 & A4 & A5 & _ & _).
  destruct ((Z.of_nat (length l) <? n) || (pos =? queueOVERWRITE)) eqn:Hroom.
  2:{ exists w. split; [|done]. unfold send_call, xQueueGenericSendFromISR, xQueueGenericSend.
      destruct isr; rewrite Hx, A1; cbn [guard_c]; [by rewrite A3|].
      rewrite may_block_now. cbn [guard_c]. unfold send_loop. by rewrite Hx, A3. }
  destruct (prvCopyDataToQueue_spec w q head n size l _ _ d pos Hr Hd Hpos Hroom) as (w1 & Hc & Hr1 & Hk1).
  destruct (notify_added_total w1 q head n size _ _ _ pos (uxMessagesWaiting x) Hr1) as (b & k & Hn).
  exists (with_kern w1 k). split; [|split; [by apply queue_at_kern|done]].
  unfold send_call, xQueueGenericSendFromISR, xQueueGenericSend.
  destruct isr; rewrite Hx, A1; cbn [guard_c].
  - by rewrite A3, A4, Hm, Hc, A5, Z.eqb_refl, Hn.
  - rewrite may_block_now. cbn [guard_c]. unfold send_loop. rewrite Hx, A3. unfold send_item.
    by rewrite Hx, A4, Hm, Hc, Hn.
Qed.

Lemma receive_call_spec isr w l : queue_repr w q head n size l ->
  exists w', receive_call isr w = Some (match l with [] => pdFAIL | _ => pdPASS end, w') /\
    queue_repr w' q head n size (tail l) /\
    match l with [] => w' = w | d :: _ => load_bytes (mem w') buf size = d end.
Proof.
  intros Hr. destruct (repr_queue w l _ _ Hr) as [x Hx].
  destruct (repr_args w l _ _ x queueSEND_TO_BACK Hr) as (_ & A2 & _ & A4 & _ & A6 & A7); [by left|done|].
  destruct l as [|d l].
  - exists w. split; [|done]. unfold receive_call, xQueueReceiveFromISR, xQueueReceive.
    destruct isr; rewrite Hx, A2; cbn [guard_c]; [by rewrite A7|].
    rewrite may_block_now. cbn [guard_c]. unfold receive_loop. by rewrite Hx, A7.
  - destruct (copy_from w q head n size d l buf _ _ Hr Hapart) as (w1 & Hc & Hr1 & Hl1 & Hk1 & _).
    set (w2 := modify w1 q (set_messages (Z.of_nat (length l)))) in *.
    destruct (wake_first_total w2 (q_xTasksWaitingToSend q)) as (b & k & Hw).
    exists (with_kern w2 k). split; [|split; [by apply queue_at_kern|done]].
    assert (u32 (Z.of_nat (length (d :: l)) - 1) = Z.of_nat (length l)) as En.
    { simpl length. destruct Hr as [_ _ [? _] Hle _]. simpl length in Hle. rewrite u32_small; lia. }
    assert (0 <? Z.of_nat (length (d :: l)) = true) as Hpos by (apply Z.ltb_lt; simpl; lia).
    unfold receive_call, xQueueReceiveFromISR, xQueueReceive.
    destruct isr; rewrite Hx, A2; cbn [guard_c].
    + rewrite A7, Hpos, Hc, En. fold w2. by rewrite A6, Z.eqb_refl, Hw.
    + rewrite may_block_now. cbn [guard_c]. unfold receive_loop. rewrite Hx, A7, Hpos. unfold receive_now.
      rewrite Hx, Hc, A7, En. fold w2. by rewrite Hw.
Qed.

Lemma peek_call_spec isr w l : queue_repr w q head n size l ->
  exists w', peek_call isr w = Some (match l with [] => pdFAIL | _ => pdPASS end, w') /\
    queue_repr w' q head n size l /\
    match l with [] => w' = w | d :: _ => load_bytes (mem w') buf size = d end.
Proof.
  intros Hr. destruct (repr_queue w l _ _ Hr) as [x Hx].
  destruct (repr_args w l _ _ x queueSEND_TO_BACK Hr) as (_ & A2 & _ & A4 & _ & _ & A7); [by left|done|].
  assert (size =? 0 = false) as Hz by (apply Z.eqb_neq; destruct Hr as [_ _ [_ ?] _ _]; lia).
  destruct l as [|d l].
  - exists w. split; [|done]. unfold peek_call, xQueuePeekFromISR, xQueuePeek.
    destruct isr; rewrite Hx, A2; cbn [guard_c]; [by rewrite A4, Hz, A7|].
    rewrite may_block_now. cbn [guard_c]. unfold receive_loop. by rewrite Hx, A7.
  - destruct (copy_from w q head n size d l buf _ _ Hr Hapart) as (w1 & Hc & _ & Hl1 & Hk1 & Hr1).
    specialize (Hr1 x Hx). set (w2 := modify w1 q (set_u_second (pcReadFrom x))) in *.
    assert (0 <? Z.of_nat (length (d :: l)) = true) as Hpos by (apply Z.ltb_lt; simpl; lia).
    unfold peek_call, xQueuePeekFromISR, xQueuePeek.
    destruct isr; rewrite Hx, A2; cbn [guard_c].
    + exists w2. by rewrite A4, Hz, A7, Hpos, Hc.
    + destruct (wake_first_total w2 (q_xTasksWaitingToReceive q)) as (b & k & Hw).
      exists (with_kern w2 k). split; [|split; [by apply queue_at_kern|done]].
      rewrite may_block_now. cbn [guard_c]. unfold receive_loop. rewrite Hx, A7, Hpos. unfold peek_now.
      rewrite Hx, Hc. fold w2. by rewrite Hw.
Qed.
End calls.

(** ** Any sequence of calls *)

(** Each call is by a task or an interrupt; a sender first puts its item in the
    buffer. *)
Inductive q_call :=
| SendTo (isr : bool) (pos : Z) (d : list Z)
| ReceiveOne (isr : bool)
| PeekOne (isr : bool).

Inductive q_reply :=
| Sent (r : Z)
| Got (r : Z) (d : option (list Z)).

Definition q_call_ok (n size : Z) (c : q_call) : Prop :=
  match c with
  | SendTo _ pos d => position_ok n pos /\ Z.of_nat (length d) = size
  | _ => True
  end.

Definition got (w : world) (buf size r : Z) : q_reply :=
  Got r (if r =? pdPASS then Some (load_bytes (mem w) buf size) else None).

Definition client_call (q buf size : Z) (w : world) (c : q_call) : option (q_reply * world) :=
  match c with
  | SendTo isr pos d =>
      let w := with_mem w (store_bytes (mem w) buf d) in
      let! (r, w) := send_call q buf isr w pos in Some (Sent r, w)
  | ReceiveOne isr => let! (r, w) := receive_call q buf isr w in Some (got w buf size r, w)
  | PeekOne isr => let! (r, w) := peek_call q buf isr w in Some (got w buf size r, w)
  end.

Fixpoint client_run (q buf size : Z) (w : world) (cs : list q_call) : option (list q_reply * world) :=
  match cs with
  | [] => Some ([], w)
  | c :: cs => let! (r, w) := client_call q buf size w c in
               let! (rs, w) := client_run q buf size w cs in Some (r :: rs, w)
  end.

(** The same calls on a list. *)
Definition fifo_call (n : Z) (l : list (list Z)) (c : q_call) : q_reply * list (list Z) :=
  match c with
  | SendTo _ pos d =>
      if (Z.of_nat (length l) <? n) || (pos =? queueOVERWRITE) then (Sent pdPASS, fifo_send l pos d)
      else (Sent errQUEUE_FULL, l)
  | ReceiveOne _ => match l with [] => (Got errQUEUE_EMPTY None, []) | d :: l => (Got pdPASS (Some d), l) end
  | PeekOne _ => match l with [] => (Got errQUEUE_EMPTY None, []) | d :: _ => (Got pdPASS (Some d), l) end
  end.

Fixpoint fifo_run (n : Z) (l : list (list Z)) (cs : list q_call) : list q_reply :=
  match cs with
  | [] => []
  | c :: cs => let (r, l) := fifo_call n l c in r :: fifo_run n l cs
  end.

Lemma client_call_spec q head n size buf w l c :
  buf <> NULL -> buf + size <= head \/ head + n * size <= buf -> q_call_ok n size c ->
  queue_repr w q head n size l ->
  exists w', client_call q buf size w c = Some (fst (fifo_call n l c), w') /\
    queue_repr w' q head n size (snd (fifo_call n l c)).
Proof.
  intros Hb Ha Hc Hr. destruct c as [isr pos d|isr|isr]; simpl.
  - destruct Hc as [Hpos Hd]. set (w1 := with_mem w (store_bytes (mem w) buf d)).
    assert (queue_repr w1 q head n size l) as Hr1.
    { apply queue_at_mem; [|done]. apply store_bytes_agree. lia. }
    destruct (send_call_spec q head n size buf Hb Ha isr w1 l d pos Hr1 Hpos Hd) as (w' & Hs & Hr' & _).
    { apply load_store_bytes_same. lia. }
    exists w'. rewrite Hs. by destruct (_ || _).
  - destruct (receive_call_spec q head n size buf Hb Ha isr w l Hr) as (w' & Hs & Hr' & Hd).
    exists w'. rewrite Hs. unfold got. destruct l as [|d l]; [done|]. simpl in *. by rewrite Hd.
  - destruct (peek_call_spec q head n size buf Hb Ha isr w l Hr) as (w' & Hs & Hr' & Hd).
    exists w'. rewrite Hs. unfold got. destruct l as [|d l]; [done|]. simpl in *. by rewrite Hd.
Qed.

Lemma client_run_spec q head n size buf cs : forall w l,
  buf <> NULL -> buf + size <= head \/ head + n * size <= buf -> Forall (q_call_ok n size) cs ->
  queue_repr w q head n size l ->
  exists w', client_run q buf size w cs = Some (fifo_run n l cs, w').
Proof.
  induction cs as [|c cs IH]; intros w l Hb Ha Hcs Hr; simpl; [eauto|].
  apply Forall_cons in Hcs as [Hc Hcs].
  destruct (client_call_spec q head n size buf w l c Hb Ha Hc Hr) as (w1 & -> & Hr1).
  destruct (fifo_call n l c) as [r l1]. simpl in *.
  destruct (IH w1 l1 Hb Ha Hcs Hr1) as (w' & ->). eauto.
Qed.

Lemma xQueueGenericCreate_repr w n size q :
  0 < n < 4294967296 -> 0 < size -> n * size <= SIZE_MAX - sizeof_Queue_t -> 0 < q ->
  exists w', xQueueGenericCreate w n size q = Some (q, w') /\
    queue_repr w' q (q + sizeof_Queue_t) n size [].
Proof.
  intros Hn Hs Hm Hq. unfold SIZE_MAX, sizeof_Queue_t in *.
  assert (size <= 4294967295 / n) as Hd by (apply Z.div_le_lower_bound; lia).
  unfold xQueueGenericCreate, SIZE_MAX, sizeof_Queue_t.
  rewrite u32_small by nia.
  destruct (Z.ltb_spec 0 n); [|lia]. destruct (Z.leb_spec size (4294967295 / n)); [|lia].
  destruct (Z.leb_spec (n * size) (4294967295 - 84)); [|lia]. cbn [andb guard_c].
  destruct (Z.eqb_spec q NULL) as [E|]; [unfold NULL in E; lia|].
  unfold prvInitialiseNewQueue, xQueueGenericReset. simpl. rewrite lookup_insert_eq. simpl.
  unfold SIZE_MAX. destruct (Z.leb_spec 1 n); [|lia].
  destruct (Z.leb_spec size (4294967295 / n)); [|lia]. simpl.
  destruct (Z.eqb_spec size 0); [lia|].
  eexists. split; [reflexivity|]. split; simpl; try done; try lia; [|unfold NULL, sizeof_Queue_t; lia].
  eexists _, (n - 1). split; [by rewrite lookup_alter_eq, lookup_insert_eq|].
  simpl. unfold pcTail, pcReadFrom, slot. simpl. split_and!; try done.
  - rewrite Z.mod_small by lia. done.
  - replace (n - 1 + 1 + Z.of_nat 0) with n by lia. rewrite Z_mod_same_full. lia.
Qed.

(** C12: a queue made by [xQueueGenericCreate] answers every sequence of calls, by
    tasks or interrupts, as a list of at most [n] items does: sends to the back
    or the front fail with [errQUEUE_FULL] exactly when it is full, receives and
    peeks with [errQUEUE_EMPTY] exactly when it is empty, items come out whole. *)
Theorem queue_is_fifo (w : world) (q n size buf : Z) (cs : list q_call) :
  0 < n < 4294967296 -> 0 < size -> n * size <= SIZE_MAX - sizeof_Queue_t -> 0 < q -> buf <> NULL ->
  buf + size <= q \/ q + sizeof_Queue_t + n * size <= buf ->
  Forall (q_call_ok n size) cs ->
  exists (w0 w' : world), xQueueGenericCreate w n size q = Some (q, w0) /\
    client_run q buf size w0 cs = Some (fifo_run n [] cs, w').
Proof.
  intros Hn Hs Hm Hq Hb Ha Hcs.
  destruct (xQueueGenericCreate_repr w n size q Hn Hs Hm Hq) as (w0 & Hc & Hr).
  destruct (client_run_spec q (q + sizeof_Queue_t) n size buf cs w0 [] Hb) as (w' & Hrun); [|done..|].
  - unfold sizeof_Queue_t in *. lia.
  - eauto.
Qed.

Definition demo_world : world := mkWorld (fun _ => 0) ∅ demo_kernel.

Example queue_is_fifo_witness :
  exists (w0 w' : world), xQueueGenericCreate demo_world 2 1 1000 = Some (1000, w0) /\
    client_run 1000 2000 1 w0
      [SendTo false queueSEND_TO_BACK [5]; SendTo true queueSEND_TO_FRONT [6];
       SendTo false queueSEND_TO_BACK [7]; PeekOne true; ReceiveOne false; ReceiveOne true; ReceiveOne false] =
    Some ([Sent pdPASS; Sent pdPASS; Sent errQUEUE_FULL; Got pdPASS (Some [6]); Got pdPASS (Some [6]);
           Got pdPASS (Some [5]); Got errQUEUE_EMPTY None], w').
Proof.
  apply (queue_is_fifo demo_world 1000 2 1 2000
    [SendTo false queueSEND_TO_BACK [5]; SendTo true queueSEND_TO_FRONT [6];
     SendTo false queueSEND_TO_BACK [7]; PeekOne true; ReceiveOne false; ReceiveOne true; ReceiveOne false]);
    unfold SIZE_MAX, sizeof_Queue_t, NULL; try lia.
  rewrite !Forall_cons. unfold q_call_ok, position_ok. split_and!; auto.
Defined.
