(* ===== verification/QueueWait.v ===== *)
(** * Waiting on a queue: no wake-up is lost

    A task that finds the queue empty goes to sleep in several steps, with
    interrupts enabled between them.  The lock counts make sure that an item an
    interrupt posts at any of these points still wakes a task that waits, be it
    this one or one that has waited longer. *)

From stdpp Require Import base list option gmap.
From Stdlib Require Import ZArith Lia.
From S2P Require Import Prelude FreeRTOSList Kernel KernelSched KernelPrio KernelWaiters Queue QueueFifo.

(** ** Placing the running task *)

Lemma size_alter_tcbs (f : TCB_t -> TCB_t) t (m : gmap Z TCB_t) : size (alter f t m) = size m.
Proof. by rewrite <- !size_dom, dom_alter_L. Qed.

(** Placing the running task on an event list that was empty. *)
Lemma place_alone k l ticks tcb :
  tcbs k !! pxCurrentTCB k = Some tcb -> default [] (event_lists k !! l) = [] ->
  let k' := vTaskPlaceOnEventList k l ticks in
  event_lists k' = <[l := [pxCurrentTCB k]]> (event_lists k) /\ pxCurrentTCB k' = pxCurrentTCB k /\
  uxSchedulerSuspended k' = uxSchedulerSuspended k /\ xPendingReadyList k' = xPendingReadyList k /\
  xPendedTicks k' = xPendedTicks k /\ size (tcbs k') = size (tcbs k) /\
  exists tcb', tcbs k' !! pxCurrentTCB k = Some tcb' /\ xEventContainer tcb' = l /\
    uxPriority tcb' = uxPriority tcb /\ ucDelayAborted tcb' = false /\ uxMutexesHeld tcb' = uxMutexesHeld tcb.
Proof.
  intros Ht Hl. unfold vTaskPlaceOnEventList. rewrite Hl. simpl ordered_insert.
  match goal with |- context [prvAddCurrentTaskToDelayedList ?a ticks true] => set (k0 := a) end.
  destruct (prvAddCurrentTaskToDelayedList_frame k0 ticks) as (F1 & F2 & F3 & F4 & F5 & F6 & F7).
  destruct (F7 (set_event_container l tcb)) as (tcb' & Ht' & Hp' & Hc' & _ & Ha' & Hm').
  { simpl. by rewrite lookup_alter_eq, Ht. }
  cbv zeta. rewrite F1, F2, F3, F4, F5. split_and!; try done.
  - rewrite <- !size_dom. f_equal. apply set_eq. intros u. rewrite !elem_of_dom.
    destruct (decide (u = pxCurrentTCB k)) as [->|Hu].
    + change (pxCurrentTCB k0) with (pxCurrentTCB k) in Ht'. rewrite Ht', Ht. split; eauto.
    + rewrite F6 by done. simpl. by rewrite lookup_alter_ne.
  - exists tcb'. split_and!; [exact Ht'|by rewrite Hc'|by rewrite Hp'|done|done].
Qed.

(** ** Interrupts that post items *)

Section posts.
Context (q head n size buf : Z).
Context (Hbuf : buf <> NULL) (Hapart : buf + size <= head \/ head + n * size <= buf).

Definition isr_post (w : world) (d : list Z) : world :=
  let w := with_mem w (store_bytes (mem w) buf d) in
  match xQueueGenericSendFromISR w q buf queueSEND_TO_BACK with
  | Some (_, _, w) => w
  | None => w
  end.

Definition isr_posts (ds : list (list Z)) (w : world) : world := fold_left isr_post ds w.

(** What a post does to a queue, whatever its locks are. *)
Lemma isr_post_copies w l rx tx d :
  queue_at w q head n size l rx tx -> Z.of_nat (length d) = size -> Z.of_nat (length l) < n ->
  exists w2, queue_at w2 q head n size (l ++ [d]) rx tx /\ kern w2 = kern w /\
    isr_post w d =
      match (if tx =? queueUNLOCKED then
               let! (woken, w) := wake_first w2 (q_xTasksWaitingToReceive q) in Some (pdPASS, woken, w)
             else let! w := prvIncrementQueueTxLock w2 q tx in Some (pdPASS, false, w)) with
      | Some (_, _, w) => w
      | None => with_mem w (store_bytes (mem w) buf d)
      end.
Proof.
  intros Hr Hd Hl. unfold isr_post. set (w1 := with_mem w (store_bytes (mem w) buf d)).
  assert (queue_at w1 q head n size l rx tx) as Hr1.
  { apply queue_at_mem; [|done]. apply store_bytes_agree. lia. }
  destruct (repr_queue q head n size w1 l rx tx Hr1) as [x Hx].
  destruct (repr_args q head n size buf Hbuf Hapart w1 l rx tx x queueSEND_TO_BACK Hr1)
    as (A1 & _ & A3 & A4 & A5 & A6 & A7); [by left|done|].
  destruct (prvCopyDataToQueue_spec w1 q head n size l rx tx d queueSEND_TO_BACK Hr1 Hd) as (w2 & Hc & Hr2 & Hk2).
  { by left. }
  { by rewrite orb_false_r; apply Z.ltb_lt. }
  exists w2. split; [done|]. split; [done|].
  unfold xQueueGenericSendFromISR. rewrite Hx, A1. cbn [guard_c]. rewrite A3.
  replace (Z.of_nat (length l) <? n) with true by (symmetry; by apply Z.ltb_lt). cbn [orb].
  rewrite A4. replace (load_bytes (mem w1) buf size) with d
    by (symmetry; apply load_store_bytes_same; lia).
  rewrite Hc, A5. unfold notify_added. destruct (repr_queue q head n size w2 _ _ _ Hr2) as [y Hy]. rewrite Hy.
  replace (pxQueueSetContainer y) with NULL; [done|].
  destruct Hr2 as [(z & rd & Hz & H) _ _ _ _]. rewrite Hy in Hz. injection Hz as <-. by destruct_and! H.
Qed.

(** To a locked queue: the item is there and the count is up, to at most the
    number of tasks. *)
Lemma isr_post_locked w l rx tx d :
  queue_at w q head n size l rx tx -> 0 <= tx -> tx <= uxTaskGetNumberOfTasks (kern w) ->
  0 < uxTaskGetNumberOfTasks (kern w) <= 127 ->
  Z.of_nat (length d) = size -> Z.of_nat (length l) < n ->
  queue_at (isr_post w d) q head n size (l ++ [d]) rx (Z.min (uxTaskGetNumberOfTasks (kern w)) (tx + 1)) /\
  kern (isr_post w d) = kern w.
Proof.
  intros Hr Htx Htx2 Hnt Hd Hl. destruct (isr_post_copies w l rx tx d Hr Hd Hl) as (w2 & Hr2 & Hk2 & ->).
  destruct (Z.eqb_spec tx queueUNLOCKED) as [E|_]; [unfold queueUNLOCKED in E; lia|].
  unfold prvIncrementQueueTxLock. rewrite Hk2, u32_small by lia.
  destruct (Z.ltb_spec tx (uxTaskGetNumberOfTasks (kern w))).
  - destruct (Z.eqb_spec tx queueINT8_MAX) as [E|_]; [unfold queueINT8_MAX in E; lia|]. cbn [negb guard_c].
    split; [|done]. rewrite Z.min_r by lia. destruct Hr2 as [(y & rd & Hy & HY) B2 B3 B4 B5]. split; try done.
    exists (set_locks (cRxLock y) (tx + 1) y), rd. simpl. rewrite lookup_alter_eq, Hy. split; [done|].
    destruct_and! HY. by split_and!.
  - split; [|done]. by replace (Z.min _ _) with tx by lia.
Qed.

Lemma isr_posts_locked ds : forall w l rx tx,
  queue_at w q head n size l rx tx -> 0 <= tx -> tx <= uxTaskGetNumberOfTasks (kern w) ->
  0 < uxTaskGetNumberOfTasks (kern w) <= 127 ->
  Forall (fun d => Z.of_nat (length d) = size) ds -> Z.of_nat (length l) + Z.of_nat (length ds) <= n ->
  queue_at (isr_posts ds w) q head n size (l ++ ds) rx
    (Z.min (uxTaskGetNumberOfTasks (kern w)) (tx + Z.of_nat (length ds))) /\
  kern (isr_posts ds w) = kern w.
Proof.
  induction ds as [|d ds IH]; intros w l rx tx Hr Htx Htx2 Hnt Hds Hl.
  - rewrite app_nil_r. split; [|done]. simpl. by replace (Z.min _ _) with tx by lia.
  - apply Forall_cons in Hds as [Hd Hds]. simpl length in Hl.
    destruct (isr_post_locked w l rx tx d) as (Hr1 & Hk1); [done..|lia|].
    destruct (IH (isr_post w d) _ rx _ Hr1) as (Hr' & Hk'); rewrite ?Hk1 in *;
      [lia..|done|rewrite length_app; simpl; lia|].
    rewrite <- app_assoc in Hr'. split; [|done]. cbn [isr_posts fold_left].
    change (fold_left isr_post ds (isr_post w d)) with (isr_posts ds (isr_post w d)). simpl length.
    by replace (Z.min _ (tx + _)) with
      (Z.min (uxTaskGetNumberOfTasks (kern w)) (Z.min (uxTaskGetNumberOfTasks (kern w)) (tx + 1) + Z.of_nat (length ds))) by lia.
Qed.

(** To a queue not locked for senders: the first task that waits is told. *)
Lemma wake_first_wakes w k' : wakes (q_xTasksWaitingToReceive q) (kern w) k' ->
  exists b, wake_first w (q_xTasksWaitingToReceive q) = Some (b, with_kern w k').
Proof.
  unfold wakes, wake_first. destruct (listLIST_IS_EMPTY _ _).
  - intros ->. exists false. by destruct w.
  - intros [b ->]. by exists b.
Qed.

Lemma isr_post_told w l rx d k' :
  queue_at w q head n size l rx queueUNLOCKED -> Z.of_nat (length d) = size -> Z.of_nat (length l) < n ->
  wakes (q_xTasksWaitingToReceive q) (kern w) k' ->
  queue_at (isr_post w d) q head n size (l ++ [d]) rx queueUNLOCKED /\ kern (isr_post w d) = k'.
Proof.
  intros Hr Hd Hl Hk. destruct (isr_post_copies w l rx _ d Hr Hd Hl) as (w2 & Hr2 & Hk2 & ->).
  rewrite Z.eqb_refl. rewrite <- Hk2 in Hk. destruct (wake_first_wakes w2 k' Hk) as [b ->].
  split; [by apply queue_at_kern|done].
Qed.

Lemma isr_posts_told t clock tasks p up waiters s ds : NoDup waiters -> forall w l rx m,
  queue_at w q head n size l rx queueUNLOCKED ->
  tells (q_xTasksWaitingToReceive q) t clock tasks p up waiters s m (kern w) ->
  Forall (fun d => Z.of_nat (length d) = size) ds -> Z.of_nat (length l) + Z.of_nat (length ds) <= n ->
  queue_at (isr_posts ds w) q head n size (l ++ ds) rx queueUNLOCKED /\
  tells (q_xTasksWaitingToReceive q) t clock tasks p up waiters s (m + length ds) (kern (isr_posts ds w)).
Proof.
  intros Hnd. induction ds as [|d ds IH]; intros w l rx m Hr Ht Hds Hl; [by rewrite app_nil_r, Nat.add_0_r|].
  apply Forall_cons in Hds as [Hd Hds]. simpl length in *.
  destruct (tells_wake _ _ _ _ _ _ _ Hnd s m _ Ht) as (k' & Hw & Ht').
  destruct (isr_post_told w l rx d k') as [Hr1 Hk1]; [done|done|lia|done|].
  destruct (IH (isr_post w d) (l ++ [d]) rx (S m)) as [H1 H2];
    [done|by rewrite Hk1|done|rewrite length_app; simpl; lia|].
  rewrite <- app_assoc in H1. rewrite <- Nat.add_succ_comm. by split.
Qed.
End posts.

(** ** Locking, unlocking and the first pass of a wait *)

Lemma lock_queue w q head n size l : queue_repr w q head n size l ->
  queue_at (prvLockQueue w q) q head n size l 0 0.
Proof.
  intros [(x & rd & Hx & H) B2 B3 B4 B5]. split; try done.
  eexists _, rd. split; [simpl; by rewrite lookup_alter_eq, Hx|].
  destruct_and! H. simpl. repeat match goal with H : _ = queueUNLOCKED |- _ => rewrite H end.
  by split_and!.
Qed.

Lemma queue_at_empty w q head n size l rx tx x : queue_at w q head n size l rx tx -> queues w !! q = Some x ->
  prvIsQueueEmpty x = bool_decide (l = []).
Proof.
  intros [(y & rd & Hy & HY) _ _ _ _] Hx. rewrite Hx in Hy. injection Hy as <-. unfold prvIsQueueEmpty.
  replace (uxMessagesWaiting x) with (Z.of_nat (length l)) by (by destruct_and! HY).
  case_bool_decide as E; [by rewrite E|]. apply Z.eqb_neq. destruct l; simpl; [done|lia].
Qed.

(** What the two halves of [prvUnlockQueue] leave behind. *)
Lemma unlock_removed_spec w q head n size l tx : queue_at w q head n size l 0 tx ->
  exists w', unlock_removed w q = Some w' /\ queue_at w' q head n size l queueUNLOCKED tx /\ kern w' = kern w.
Proof.
  intros [(x & rd & Hx & H) B2 B3 B4 B5]. unfold unlock_removed. rewrite Hx.
  replace (cRxLock x) with 0 by (by destruct_and! H). simpl. eexists. split; [reflexivity|].
  split; [|done]. split; try done. eexists _, rd. split; [simpl; by rewrite lookup_alter_eq, Hx|].
  destruct_and! H. by split_and!.
Qed.

Lemma unlock_added_done w q head n size l rx tx : queue_at w q head n size l rx tx ->
  queue_at (modify w q (fun x => set_locks (cRxLock x) queueUNLOCKED x)) q head n size l rx queueUNLOCKED.
Proof.
  intros [(x & rd & Hx & H) B2 B3 B4 B5]. split; try done.
  eexists _, rd. split; [simpl; by rewrite lookup_alter_eq, Hx|]. destruct_and! H. by split_and!.
Qed.

(** Nothing came while the queue was locked. *)
Lemma unlock_idle w q head n size l : queue_at w q head n size l 0 0 ->
  exists w', prvUnlockQueue (fun w => w) w q = Some w' /\ queue_repr w' q head n size l /\ kern w' = kern w.
Proof.
  intros Hr. pose proof Hr as [(x & rd & Hx & HX) _ _ _ _]. unfold prvUnlockQueue, unlock_added. rewrite Hx.
  replace (cTxLock x) with 0 by (by destruct_and! HX). change (unlock_tx (Z.to_nat 0) w q) with (Some w). cbv [id].
  apply unlock_added_done in Hr. destruct (unlock_removed_spec _ q head n size l _ Hr) as (w' & -> & H). eauto.
Qed.

(** ** With tasks that wait *)

Section tells.
Context (q head n size buf : Z) (t : Z) (clock : Z * Z) (tasks : Z) (p : Z -> Z) (up waiters : list Z).
Context (Hbuf : buf <> NULL) (Hapart : buf + size <= head \/ head + n * size <= buf).
Context (Hnodup : NoDup waiters) (Htasks : Z.of_nat (length waiters) <= tasks) (Hpos : 0 < tasks).
Local Notation ev := (q_xTasksWaitingToReceive q).
Local Notation tells := (tells ev t clock tasks p up waiters).

(** As many are told as items were counted. *)
Lemma unlock_tx_tells m : forall w l rx tx k,
  queue_at w q head n size l rx tx -> tells true k (kern w) ->
  exists w', unlock_tx m w q = Some w' /\ queue_at w' q head n size l rx tx /\ tells true (k + m) (kern w').
Proof.
  induction m as [|m IH]; intros w l rx tx k Hr Ht; [exists w; by rewrite Nat.add_0_r|].
  pose proof Hr as [(x & rd & Hx & HX) _ _ _ _]. cbn [unlock_tx]. rewrite Hx.
  replace (pxQueueSetContainer x) with NULL by (by destruct_and! HX). cbn [Z.eqb NULL negb].
  destruct (tells_wake _ _ _ _ _ _ _ Hnodup true k _ Ht) as (k' & Hw & Ht').
  destruct (listLIST_IS_EMPTY (kern w) ev) eqn:El.
  - exists w. split; [done|]. split; [done|]. unfold wakes in Hw. rewrite El in Hw. subst k'.
    assert (length waiters <= k)%nat as Hk.
    { unfold listLIST_IS_EMPTY in El. rewrite (tl_list _ _ _ _ _ _ _ _ _ _ (proj2 Ht)) in El.
      destruct (drop k waiters) eqn:Ed; [|done]. apply (f_equal length) in Ed. rewrite length_drop in Ed. simpl in Ed. lia. }
    apply (tells_all _ _ _ _ _ _ _ true k); [lia..|done].
  - destruct (wake_first_wakes q w k' Hw) as [b ->]. rewrite <- Nat.add_succ_comm.
    apply IH; [destruct b; by repeat apply queue_at_kern|]. destruct b; [by apply tells_yield|done].
Qed.

(** The end of a pass: every item that came since the first is told. *)
Lemma pass_ends (posts : point -> list (list Z)) w l tx k c :
  queue_at w q head n size l 0 tx -> tells true k (kern w) -> tx = Z.min tasks (Z.of_nat c) ->
  (forall pt, Forall (fun d => Z.of_nat (length d) = size) (posts pt)) ->
  let late := posts WhileUnlocking ++ posts BeforeResume ++ posts AfterResume in
  Z.of_nat (length l) + Z.of_nat (length late) <= n ->
  exists w', unlock_and_resume (fun pt => isr_posts q buf (posts pt)) w q = Some w' /\
    queue_repr w' q head n size (l ++ late) /\ tells false (k + c + length late) (kern w').
Proof.
  intros Hr Ht -> Hd late Hl. unfold late in *. rewrite !length_app in *.
  unfold unlock_and_resume, prvUnlockQueue, unlock_added.
  pose proof Hr as [(x & rd & Hx & HX) _ _ _ _]. rewrite Hx.
  replace (cTxLock x) with (Z.min tasks (Z.of_nat c)) by (by destruct_and! HX).
  destruct (unlock_tx_tells (Z.to_nat (Z.min tasks (Z.of_nat c))) w l _ _ k Hr Ht) as (w1 & -> & Hr1 & Ht1).
  assert (tells true (k + c) (kern w1)) as Ht1'.
  { destruct (Z.le_ge_cases (Z.of_nat c) tasks) as [Hc|Hc].
    - by replace (Z.to_nat (Z.min tasks (Z.of_nat c))) with c in Ht1 by lia.
    - eapply tells_all; [| |exact Ht1]; lia. }
  apply unlock_added_done in Hr1. clear Ht1 Hr Ht Hx HX.
  change (kern w1) with (kern (modify w1 q (fun x => set_locks (cRxLock x) queueUNLOCKED x))) in Ht1'.
  destruct (isr_posts_told q head n size buf Hbuf Hapart _ _ _ _ _ _ _ (posts WhileUnlocking) Hnodup _ _ _ _ Hr1 Ht1')
    as [Hr2 Ht2]; [done|lia|].
  destruct (unlock_removed_spec _ q head n size _ _ Hr2) as (w3 & -> & Hr3 & K3). rewrite <- K3 in Ht2.
  destruct (isr_posts_told q head n size buf Hbuf Hapart _ _ _ _ _ _ _ (posts BeforeResume) Hnodup _ _ _ _ Hr3 Ht2)
    as [Hr4 Ht4]; [done|rewrite length_app; lia|].
  set (w4 := isr_posts q buf (posts BeforeResume) w3) in *. unfold resume_all.
  destruct (tells_resume _ _ _ _ _ _ _ _ _ Hpos Ht4) as (y & k5 & -> & Ht5).
  apply (queue_at_kern _ _ _ _ _ _ _ _ k5) in Hr4.
  change k5 with (kern (with_kern w4 k5)) in Ht5.
  destruct (isr_posts_told q head n size buf Hbuf Hapart _ _ _ _ _ _ _ (posts AfterResume) Hnodup _ _ _ _ Hr4 Ht5)
    as [Hr6 Ht6]; [done|rewrite !length_app; lia|].
  eexists. split; [reflexivity|]. rewrite <- !app_assoc in Hr6. rewrite <- !Nat.add_assoc in *. by split.
Qed.
End tells.

Lemma first_check k ticks :
  from_option ucDelayAborted false (tcbs k !! pxCurrentTCB k) = false -> 0 < ticks ->
  exists timeout ticks', xTaskCheckForTimeOut k (mkTimeOut (xNumOfOverflows k) (xTickCount k)) ticks =
    (false, timeout, ticks', k).
Proof.
  intros Ha Ht. unfold xTaskCheckForTimeOut. simpl. rewrite Ha.
  destruct (ticks =? portMAX_DELAY); [eauto|]. rewrite Z.eqb_refl. simpl.
  rewrite Z.sub_diag. change (u32 0) with 0. destruct (Z.ltb_spec 0 ticks); [eauto|lia].
Qed.

(** ** No lost wake-up *)

(** Interrupts that post these items at these points. *)
Definition posting (q buf : Z) (posts : point -> list (list Z)) : interference :=
  fun pt => isr_posts q buf (posts pt).

(** What comes before the task looks at the queue again, and before it is on the
    event list if it then finds the queue empty. *)
Definition seen (posts : point -> list (list Z)) : list (list Z) :=
  posts BeforeSuspend ++ posts Suspended ++ posts WhileLocked ++ posts BeforeTest.

Definition missed (posts : point -> list (list Z)) : list (list Z) :=
  if decide (seen posts = []) then posts BeforePlacing ++ posts AfterPlacing else [].

Definition arrived (posts : point -> list (list Z)) : list (list Z) :=
  seen posts ++ posts AfterTest ++ missed posts ++
  posts WhileUnlocking ++ posts BeforeResume ++ posts AfterResume.

Section wait.
Context (q head n size buf ticks : Z) (w : world) (tcb : TCB_t) (waiters : list Z) (posts : point -> list (list Z)).
Local Notation t := (pxCurrentTCB (kern w)).
Local Notation ev := (q_xTasksWaitingToReceive q).
Local Notation tasks := (uxTaskGetNumberOfTasks (kern w)).
Context (Hbuf : buf <> NULL) (Hapart : buf + size <= head \/ head + n * size <= buf).
Context (Hr : queue_repr w q head n size []).
Context (Hs : uxSchedulerSuspended (kern w) = 0) (Hq : quiet (kern w)).
Context (Ht : tcbs (kern w) !! t = Some tcb) (Ha : ucDelayAborted tcb = false).
Context (Hup : ready (kern w) (priority (kern w) t) t).
Context (He : default [] (event_lists (kern w) !! ev) = waiters).
Context (Hnodup : NoDup (t :: waiters)) (Hitems : forall u, u ∈ waiters -> item_on (kern w) ev u).
Context (Hticks : 0 < ticks) (Hnt : tasks <= 127).
Context (Hposts : forall pt, Forall (fun d => Z.of_nat (length d) = size) (posts pt)).
Context (Hroom : Z.of_nat (length (arrived posts)) <= n).

Local Notation telling := (tells ev t (xTickCount (kern w), xNumOfOverflows (kern w)) tasks (priority (kern w))).

Lemma waiters_bound : Z.of_nat (length (t :: waiters)) <= tasks.
Proof.
  assert (list_to_set (t :: waiters) ⊆@{gset Z} dom (tcbs (kern w))) as Hsub.
  { intros u. rewrite elem_of_list_to_set, elem_of_cons, elem_of_dom. intros [->|Hu]; [eauto|].
    destruct (Hitems u Hu) as (c & Hc & _). eauto. }
  apply subseteq_size in Hsub. rewrite size_list_to_set in Hsub by done. rewrite size_dom in Hsub.
  unfold uxTaskGetNumberOfTasks. lia.
Qed.

Lemma lengths : Z.of_nat (length (posts BeforeSuspend)) + Z.of_nat (length (posts Suspended)) +
  Z.of_nat (length (posts WhileLocked)) + Z.of_nat (length (posts BeforeTest)) +
  Z.of_nat (length (posts AfterTest)) + Z.of_nat (length (missed posts)) +
  Z.of_nat (length (posts WhileUnlocking ++ posts BeforeResume ++ posts AfterResume)) <= n.
Proof. pose proof Hroom as H. unfold arrived, seen in H. rewrite !length_app in *. lia. Qed.
(** Up to the test: the queue is locked, with what came so far. *)
Lemma wait_start :
  let w0 := isr_posts q buf (posts BeforeSuspend) w in
  let w1 := isr_posts q buf (posts Suspended) (with_kern w0 (vTaskSuspendAll (kern w0))) in
  let w2 := isr_posts q buf (posts WhileLocked) (prvLockQueue w1 q) in
  let w3 := isr_posts q buf (posts BeforeTest) w2 in
  queue_at w3 q head n size (seen posts) 0
    (Z.min tasks (Z.of_nat (length (posts WhileLocked) + length (posts BeforeTest)))) /\
  telling [t] waiters true (length (posts BeforeSuspend) + length (posts Suspended)) (kern w3) /\
  kern w3 = kern w2 /\ (seen posts = [] -> kern w3 = vTaskSuspendAll (kern w)).
Proof.
  intros w0 w1 w2 w3. pose proof lengths as Hl. pose proof waiters_bound as Hb. simpl length in Hb.
  apply NoDup_cons in Hnodup as [_ Hnd].
  assert (telling [t] waiters false 0 (kern w)) as T0.
  { apply tells_start; try done; [by rewrite Ht|]. intros u. by rewrite list_elem_of_singleton; intros ->. }
  destruct (isr_posts_told q head n size buf Hbuf Hapart _ _ _ _ _ _ _ (posts BeforeSuspend) Hnd _ _ _ _ Hr T0)
    as [Hr1 T1]; [done|simpl; lia|]. fold w0 in Hr1, T1.
  apply tells_suspend in T1. apply (queue_at_kern _ _ _ _ _ _ _ _ (vTaskSuspendAll (kern w0))) in Hr1.
  change (vTaskSuspendAll (kern w0)) with (kern (with_kern w0 (vTaskSuspendAll (kern w0)))) in T1.
  destruct (isr_posts_told q head n size buf Hbuf Hapart _ _ _ _ _ _ _ (posts Suspended) Hnd _ _ _ _ Hr1 T1)
    as [Hr2 T2]; [done|simpl; lia|]. fold w1 in Hr2, T2. simpl in Hr2, T2. apply lock_queue in Hr2.
  pose proof (tl_tasks _ _ _ _ _ _ _ _ _ _ (proj2 T2)) as Hn2.
  change (kern w1) with (kern (prvLockQueue w1 q)) in T2, Hn2.
  destruct (isr_posts_locked q head n size buf Hbuf Hapart (posts WhileLocked) _ _ _ _ Hr2) as [Hr3 K3];
    rewrite ?Hn2; [lia..|done|rewrite !length_app; lia|]. fold w2 in Hr3, K3. rewrite Hn2 in Hr3.
  destruct (isr_posts_locked q head n size buf Hbuf Hapart (posts BeforeTest) _ _ _ _ Hr3) as [Hr4 K4];
    rewrite ?K3, ?Hn2; [lia..|done|rewrite !length_app; lia|]. fold w3 in Hr4, K4. rewrite K3, Hn2 in Hr4.
  split; [|split; [|split]].
  - unfold seen. rewrite <- !app_assoc in Hr4. by replace (Z.min tasks (Z.of_nat _)) with
      (Z.min tasks (Z.min tasks (0 + Z.of_nat (length (posts WhileLocked))) + Z.of_nat (length (posts BeforeTest)))) by lia.
  - by rewrite K4, K3.
  - by rewrite K4, K3.
  - intros E. unfold seen in E. apply app_eq_nil in E as [E1 E]. apply app_eq_nil in E as [E2 _].
    rewrite K4, K3. unfold w1, w0. by rewrite E1, E2.
Qed.

(** The task saw something. *)
Lemma wait_seen w3 (c : nat) k : seen posts <> [] ->
  queue_at w3 q head n size (seen posts) 0 (Z.min tasks (Z.of_nat c)) -> telling [t] waiters true k (kern w3) ->
  (k + c)%nat = length (seen posts) ->
  exists w', unlock_and_resume (posting q buf posts) (isr_posts q buf (posts AfterTest) w3) q = Some w' /\
    queue_repr w' q head n size (arrived posts) /\ telling [t] waiters false (length (arrived posts)) (kern w').
Proof.
  intros Hne Hr3 T3 Hkc. pose proof lengths as Hl. pose proof waiters_bound as Hb. simpl length in Hb.
  apply NoDup_cons in Hnodup as [_ Hnd]. pose proof (tl_tasks _ _ _ _ _ _ _ _ _ _ (proj2 T3)) as Hn3.
  assert (length (seen posts) + length (posts AfterTest) +
    length (posts WhileUnlocking ++ posts BeforeResume ++ posts AfterResume) = length (arrived posts))%nat as Hlen.
  { unfold arrived, missed. rewrite decide_False by done. rewrite !length_app. simpl. lia. }
  assert (Z.of_nat (length (seen posts)) + Z.of_nat (length (posts AfterTest)) <= n) as Hfit
    by (unfold seen; rewrite !length_app in *; lia).
  destruct (isr_posts_locked q head n size buf Hbuf Hapart (posts AfterTest) _ _ _ _ Hr3) as [Hr4 K4];
    rewrite ?Hn3; [lia..|done|lia|]. rewrite Hn3 in Hr4. rewrite <- K4 in T3.
  destruct (pass_ends q head n size buf _ _ tasks _ _ waiters Hbuf Hapart Hnd ltac:(lia) ltac:(lia) posts _ _ _ k
    (c + length (posts AfterTest)) Hr4 T3) as (w' & Hu & Hr' & T'); [lia|done|rewrite (length_app (seen posts)); lia|].
  exists w'. split; [exact Hu|]. split.
  - unfold arrived, missed. rewrite decide_False by done. by rewrite <- app_assoc in Hr'.
  - by replace (length (arrived posts)) with (k + (c + length (posts AfterTest)) +
      length (posts WhileUnlocking ++ posts BeforeResume ++ posts AfterResume))%nat by lia.
Qed.

(** It saw nothing and goes on the event list. *)
Lemma wait_sleeps w3 ticks' : seen posts = [] ->
  queue_at w3 q head n size [] 0 0 -> kern w3 = vTaskSuspendAll (kern w) ->
  let w4 := isr_posts q buf (posts BeforePlacing) (isr_posts q buf (posts AfterTest) w3) in
  exists w' y, queues (isr_posts q buf (posts AfterTest) w3) !! q = Some y /\
    unlock_and_resume (posting q buf posts)
      (isr_posts q buf (posts AfterPlacing) (with_kern w4 (vTaskPlaceOnEventList (kern w4) ev ticks'))) q = Some w' /\
    queue_repr w' q head n size (arrived posts) /\
    telling [] (ordered_insert (event_value (kern w)) t waiters) false (length (arrived posts)) (kern w').
Proof.
  intros E Hr3 K3 w4. pose proof lengths as Hl. pose proof waiters_bound as Hb.
  assert (missed posts = posts BeforePlacing ++ posts AfterPlacing) as Em by (unfold missed; by rewrite decide_True).
  rewrite Em, length_app in Hl.
  assert (telling [t] waiters true 0 (kern w3)) as T3.
  { rewrite K3. apply tells_suspend, tells_start; try done; [by rewrite Ht|].
    intros u. by rewrite list_elem_of_singleton; intros ->. }
  assert (uxTaskGetNumberOfTasks (kern w3) = tasks) as Hn3 by (by rewrite K3).
  destruct (isr_posts_locked q head n size buf Hbuf Hapart (posts AfterTest) _ _ _ _ Hr3) as [Hr4 K4];
    rewrite ?Hn3; [lia..|simpl length in Hb; lia|done|simpl; lia|]. rewrite Hn3 in Hr4.
  destruct (isr_posts_locked q head n size buf Hbuf Hapart (posts BeforePlacing) _ _ _ _ Hr4) as [Hr5 K5];
    rewrite ?K4, ?Hn3; [lia..|simpl length in Hb; lia|done|simpl; lia|]. fold w4 in Hr5, K5. rewrite K4, Hn3 in Hr5.
  destruct (repr_queue q head n size _ _ _ _ Hr4) as [y Hy]. rewrite K4 in K5. rewrite <- K5 in T3. rewrite K3 in K5.
  assert (Permutation (ordered_insert (event_value (kern w)) t waiters) (t :: waiters)) as Hperm
    by apply ordered_insert_perm.
  assert (pxCurrentTCB (kern w4) = t) as Ec by (by rewrite K5).
  rewrite <- Ec in T3. apply (tells_place _ _ _ _ _ _ _ ticks' tcb) in T3;
    [|by rewrite K5|rewrite Ec; by apply NoDup_cons in Hnodup as [? _]|rewrite K5; apply (proj2 Hq Hs)].
  rewrite Ec in T3. replace (ordered_insert (event_value (kern w4)) t waiters)
    with (ordered_insert (event_value (kern w)) t waiters) in T3 by (by rewrite K5).
  set (k5 := vTaskPlaceOnEventList (kern w4) ev ticks') in *.
  apply (queue_at_kern _ _ _ _ _ _ _ _ k5) in Hr5. change k5 with (kern (with_kern w4 k5)) in T3.
  pose proof (tl_tasks _ _ _ _ _ _ _ _ _ _ (proj2 T3)) as Hn5.
  destruct (isr_posts_locked q head n size buf Hbuf Hapart (posts AfterPlacing) _ _ _ _ Hr5) as [Hr6 K6];
    rewrite ?Hn5; [lia..|simpl length in Hb; lia|done|simpl; rewrite !length_app; lia|].
  rewrite Hn5 in Hr6. rewrite <- K6 in T3.
  destruct (pass_ends q head n size buf _ _ tasks _ _ (ordered_insert (event_value (kern w)) t waiters) Hbuf Hapart
    ltac:(by rewrite Hperm)
    ltac:(by rewrite Hperm) ltac:(simpl length in Hb; lia) posts _ _ _ 0
    (length (posts AfterTest) + length (posts BeforePlacing) + length (posts AfterPlacing)) Hr6 T3)
    as (w' & Hu & Hr' & T'); [lia|done|rewrite !length_app in *; simpl; lia|].
  exists w', y. split; [done|]. split; [exact Hu|]. unfold arrived. rewrite Em, E. split.
  - simpl. by rewrite <- !app_assoc in *.
  - match goal with |- telling _ _ _ ?m _ => replace m with (0 + (length (posts AfterTest) +
      length (posts BeforePlacing) + length (posts AfterPlacing)) +
      length (posts WhileUnlocking ++ posts BeforeResume ++ posts AfterResume))%nat
      by (simpl; rewrite !length_app; lia) end. exact T'.
Qed.

(** C10: a task that finds the queue empty and goes to sleep, with interrupts
    posting items at any of the points it comes to and any number of tasks that
    wait already: every item that arrived is in the queue, and has woken one of
    the tasks that wait, the next in their order, as long as there are any.  The
    task itself is one of them unless it saw an item before it was on the event
    list; then it is ready and looks again. *)
Theorem no_lost_wakeup :
  let line := if decide (seen posts = []) then ordered_insert (event_value (kern w)) t waiters else waiters in
  exists (s' : q_wait) (w' : world),
    wait_locked w q (q_start ticks) (posting q buf posts) prvIsQueueEmpty ev false = Some (false, s', w') /\
    queue_repr w' q head n size (arrived posts) /\
    default [] (event_lists (kern w') !! ev) = drop (length (arrived posts)) line /\
    (forall u, u ∈ take (length (arrived posts)) line -> ready (kern w') (priority (kern w) u) u) /\
    (seen posts <> [] -> ready (kern w') (priority (kern w) t) t).
Proof.
  intros line. unfold wait_locked. destruct wait_start as (Hr3 & T3 & K3 & Hseen0).
  set (w0 := isr_posts q buf (posts BeforeSuspend) w) in *. set (w1 := isr_posts q buf (posts Suspended) _) in *.
  set (w2 := isr_posts q buf (posts WhileLocked) _) in *. set (w3 := isr_posts q buf (posts BeforeTest) w2) in *.
  cbv zeta. change (posting q buf posts BeforeSuspend w) with w0.
  change (posting q buf posts Suspended _) with w1. change (posting q buf posts WhileLocked _) with w2.
  pose proof (proj2 T3) as [T1 T2 TC _ _ _ _ _ _ _ _]. rewrite K3 in T1, T2, TC.
  destruct (first_check (kern w2) ticks) as (to' & ticks' & Hcheck); [by rewrite T1|done|].
  injection TC as Ec Eo. rewrite Ec, Eo in Hcheck.
  change (set_entry_time w (q_start ticks)) with (mkTimeOut (xNumOfOverflows (kern w)) (xTickCount (kern w))).
  cbn [qw_ticks q_start qw_inherited]. rewrite Hcheck. cbv iota beta zeta.
  replace (posting q buf posts BeforeTest (with_kern w2 (kern w2))) with w3 by (by destruct w2).
  destruct (repr_queue q head n size w3 _ _ _ Hr3) as [x Hx]. rewrite Hx.
  rewrite (queue_at_empty _ _ _ _ _ _ _ _ x Hr3 Hx).
  unfold line. destruct (decide (seen posts = [])) as [E|E].
  - rewrite bool_decide_true by done. specialize (Hseen0 E). pose proof E as Es. unfold seen in Es.
    repeat (apply app_eq_nil in Es as [? Es]). rewrite E in Hr3.
    replace (posts WhileLocked) with (@nil (list Z)) in Hr3 by done.
    replace (posts BeforeTest) with (@nil (list Z)) in Hr3 by done.
    rewrite Z.min_r in Hr3 by (simpl; pose proof waiters_bound; lia).
    destruct (wait_sleeps w3 ticks' E Hr3 Hseen0) as (w' & y & Hy & Hu & Hr' & [Hs' T']).
    change (posting q buf posts AfterTest w3) with (isr_posts q buf (posts AfterTest) w3). rewrite Hy.
    cbv iota beta zeta. unfold posting in Hu |- *. rewrite Hu. eexists _, w'. split; [reflexivity|]. split; [done|].
    split; [apply (tl_list _ _ _ _ _ _ _ _ _ _ T')|]. split; [|done].
    intros u Hin. destruct (tl_ready _ _ _ _ _ _ _ _ _ _ T' u) as [H'|H']; [by apply elem_of_app; right|done|].
    by apply elem_of_nil in H'.
  - rewrite bool_decide_false by done.
    destruct (wait_seen w3 (length (posts WhileLocked) + length (posts BeforeTest))
      (length (posts BeforeSuspend) + length (posts Suspended)) E Hr3 T3) as (w' & Hu & Hr' & [Hs' T']).
    { unfold seen. rewrite !length_app. lia. }
    change (posting q buf posts AfterTest w3) with (isr_posts q buf (posts AfterTest) w3). rewrite Hu. eexists _, w'. split; [reflexivity|]. split; [done|].
    split; [apply (tl_list _ _ _ _ _ _ _ _ _ _ T')|].
    assert (forall u, u ∈ [t] ++ take (length (arrived posts)) waiters -> ready (kern w') (priority (kern w) u) u) as H.
    { intros u Hin. destruct (tl_ready _ _ _ _ _ _ _ _ _ _ T' u Hin) as [H'|H']; [done|by apply elem_of_nil in H']. }
    split; [intros u Hin; apply H, elem_of_app; by right|]. intros _. apply H, elem_of_app. left.
    by apply list_elem_of_singleton.
Qed.
End wait.

(** A queue of two bytes and the running task of [demo_kernel]. *)
Definition demo_queue : world :=
  match xQueueGenericCreate demo_world 2 1 1000 with Some (_, w) => w | None => demo_world end.

Lemma demo_queue_repr : queue_repr demo_queue 1000 1084 2 1 [].
Proof.
  destruct (xQueueGenericCreate_repr demo_world 2 1 1000) as (w & Hc & Hr);
    unfold SIZE_MAX, sizeof_Queue_t; try lia.
  unfold demo_queue. by rewrite Hc.
Qed.

(** Tasks 8 (priority 9) and 9 (priority 3) wait for an item already. *)
Definition demo_waiting : world :=
  let k := kern demo_queue in let ev := q_xTasksWaitingToReceive 1000 in
  with_kern demo_queue
    (with_event_lists (with_tcbs k (set_event_container ev <$> tcbs k)) (<[ev := [8; 9]]> (event_lists k))).

(** One item comes when task 7 is on the event list, another when the queue is
    unlocked but the scheduler not yet resumed: 8 and 7 are woken. *)
Definition demo_posts (pt : point) : list (list Z) :=
  match pt with AfterPlacing => [[5]] | BeforeResume => [[6]] | _ => [] end.

Example no_lost_wakeup_witness :
  exists (s' : q_wait) (w' : world),
    wait_locked demo_waiting 1000 (q_start 10) (posting 1000 2000 demo_posts) prvIsQueueEmpty
      (q_xTasksWaitingToReceive 1000) false = Some (false, s', w') /\
    queue_repr w' 1000 1084 2 1 [[5]; [6]] /\
    default [] (event_lists (kern w') !! q_xTasksWaitingToReceive 1000) = [9] /\
    ready (kern w') 9 8 /\ ready (kern w') 5 7.
Proof.
  destruct (no_lost_wakeup 1000 1084 2 1 2000 10 demo_waiting (mkTCB 5 0 20 (q_xTasksWaitingToReceive 1000) false 5 0)
    [8; 9] demo_posts ltac:(done) ltac:(lia) (queue_at_kern _ _ _ _ _ _ _ _ _ demo_queue_repr) eq_refl
    ltac:(split; [done|by intros _]) ltac:(vm_compute; reflexivity) eq_refl ltac:(vm_compute; constructor)
    ltac:(vm_compute; reflexivity) ltac:(repeat constructor; set_solver))
    as (s' & w' & H1 & H2 & H3 & H4 & H5).
  - intros u Hu. assert (u = 8 \/ u = 9) as [->| ->] by set_solver; eexists; (split; [vm_compute; reflexivity|done]).
  - lia.
  - vm_compute. discriminate.
  - intros []; by repeat constructor.
  - by vm_compute.
  - exists s', w'. split; [exact H1|]. split; [exact H2|]. split; [exact H3|].
    split; [apply (H4 8)|apply (H4 7)]; vm_compute; repeat constructor.
Defined.
