(* ===== verification/QueueTimeout.v ===== *)
(** * Waiting on a queue: time-outs

    A call that waits on an empty queue sleeps for exactly the time it was given
    and then fails with [errQUEUE_EMPTY]; the tick interrupt, the event list and
    the time-out structure agree on when that is. *)

From stdpp Require Import base list option gmap.
From Stdlib Require Import ZArith Lia.
From S2P Require Import Prelude FreeRTOSList Kernel KernelSched KernelPrio Queue QueueFifo QueueWait.

(** ** Ticks and event lists *)

(** Every task on the event list [l] is delayed as well, and its event item knows
    where it is. *)
Definition waits_on (l : Z) (k : kernel) : Prop :=
  forall u, u ∈ default [] (event_lists k !! l) ->
    u ∈ delayed_tasks k /\ exists tcb, tcbs k !! u = Some tcb /\ xEventContainer tcb = l.

Lemma waits_on_ext l k k' :
  event_lists k' = event_lists k -> tcbs k' = tcbs k ->
  (forall u, u ∈ delayed_tasks k -> u ∈ delayed_tasks k') -> waits_on l k -> waits_on l k'.
Proof. intros E1 E2 E3 H u. rewrite E1, E2. intros Hu. destruct (H u Hu). auto. Qed.

Lemma ready_fields k t :
  event_lists (prvAddTaskToReadyList k t) = event_lists k /\ tcbs (prvAddTaskToReadyList k t) = tcbs k /\
  delayed_tasks (prvAddTaskToReadyList k t) = delayed_tasks k.
Proof. destruct (prvAddTaskToReadyList_eq k t) as [p ->]. done. Qed.

(** A task that is woken by the clock leaves its event list. *)
Lemma wake_task_waits l k v : l <> NULL -> waits_on l k -> waits_on l (wake_task k v).
Proof.
  intros Hl H. unfold wake_task.
  destruct (ready_fields (match tcbs (remove_state_item k v) !! v with
    | Some tcb => if xEventContainer tcb =? NULL then remove_state_item k v
                  else remove_event_item (remove_state_item k v) v
    | None => remove_state_item k v end) v) as (R1 & R2 & R3).
  intros u. rewrite R1, R2, R3. clear R1 R2 R3. change (tcbs (remove_state_item k v)) with (tcbs k).
  assert (forall u, u <> v -> u ∈ delayed_tasks k -> u ∈ delayed_tasks (remove_state_item k v)) as Hd.
  { intros w Hw. unfold delayed_tasks. simpl. rewrite !elem_of_app, !list_remove_task_elem. tauto. }
  destruct (tcbs k !! v) as [tcb|] eqn:Ev.
  - destruct (Z.eqb_spec (xEventContainer tcb) NULL) as [En|En].
    + simpl. intros Hu. destruct (H u Hu) as (Hdel & c & Hc & Hcl). split; [|eauto].
      apply Hd; [|done]. intros ->. rewrite Ev in Hc. injection Hc as <-. congruence.
    + assert (u ∈ default [] (event_lists (remove_event_item (remove_state_item k v) v) !! l) ->
        u ∈ default [] (event_lists k !! l) /\ u <> v) as Hsub.
      { unfold remove_event_item. simpl. rewrite Ev. simpl. intros Hu.
        destruct (decide (xEventContainer tcb = l)) as [<-|Hne].
        - rewrite lookup_alter_eq in Hu. destruct (event_lists k !! xEventContainer tcb); [|set_solver].
          simpl in Hu. apply list_remove_task_elem in Hu. tauto.
        - rewrite lookup_alter_ne in Hu by done. split; [done|]. intros ->.
          destruct (H v Hu) as (_ & c & Hc & Hcl). rewrite Ev in Hc. injection Hc as <-. done. }
      intros Hu. destruct (Hsub Hu) as [Hin Hne]. destruct (H u Hin) as (Hdel & c & Hc & Hcl).
      unfold remove_event_item. simpl. rewrite Ev. simpl. split; [by apply Hd|].
      exists c. by rewrite lookup_insert_ne.
  - simpl. intros Hu. destruct (H u Hu) as (Hdel & c & Hc & Hcl). split; [|eauto].
    apply Hd; [|done]. intros ->. congruence.
Qed.

Lemma unblock_due_waits l fuel : l <> NULL -> forall k c sw sw' k',
  unblock_due fuel k c sw = Some (sw', k') -> waits_on l k -> waits_on l k'.
Proof.
  intros Hl. induction fuel as [|fuel IH]; intros k c sw sw' k'; cbn [unblock_due];
    (destruct (pxDelayedTaskList k) as [|t d]; [by intros [= _ <-]|]);
    (destruct (_ <? _); [by intros [= _ <-]|]); [done|].
  fold (wake_task k t). intros Hrun H. eapply IH; [exact Hrun|]. by apply wake_task_waits.
Qed.

Lemma tick_waits l k sw k' : l <> NULL ->
  xTaskIncrementTick k = Some (sw, k') -> waits_on l k -> waits_on l k'.
Proof.
  intros Hl. unfold xTaskIncrementTick. destruct (_ =? 0); [|by intros [= _ <-]].
  cbv zeta. set (k0 := with_time k _ _ _). destruct (if _ =? 0 then _ else _) as [k1|] eqn:E1; [|done].
  destruct (if _ <=? _ then _ else _) as [[sw2 k2]|] eqn:E2; [|done]. intros [= _ <-] H.
  assert (waits_on l k1) as H1.
  { destruct (_ =? 0); [|by injection E1 as <-].
    apply switch_same in E1 as (_ & _ & X1 & X2 & X3 & X4). revert H. apply waits_on_ext; [done..|].
    intros u. unfold delayed_tasks. rewrite X3, X4. simpl. rewrite !elem_of_app. tauto. }
  destruct (_ <=? _); [by eapply unblock_due_waits|by injection E2 as _ <-].
Qed.

Lemma run_ticks_waits l n : l <> NULL -> forall k k', run_ticks n k = Some k' -> waits_on l k -> waits_on l k'.
Proof.
  intros Hl. induction n as [|n IH]; intros k k'; simpl; [by intros [= <-]|].
  destruct (xTaskIncrementTick k) as [[sw k1]|] eqn:E; [|done]. intros Hrun H.
  eapply IH; [exact Hrun|]. by eapply tick_waits.
Qed.

(** [w] ticks after it was filed for [w] ticks, a task is ready. *)
Lemma run_ticks_due n k t :
  delay_inv k -> uxSchedulerSuspended k = 0 -> t ∈ delayed_tasks k -> ticks_left k t = Z.of_nat (S n) ->
  exists k', run_ticks (S n) k = Some k' /\ t ∉ delayed_tasks k' /\
    t ∈ default [] (pxReadyTasksLists k' !! priority k t).
Proof.
  intros Hinv Hs Ht Hl.
  destruct (run_ticks_wait n k t Hinv Hs Ht) as (k1 & Hrun & Hinv1 & Hs1 & Hp1 & Ht1 & Hl1); [lia|].
  destruct (tick_step k1 t Hinv1 Hs1 Ht1) as (sw & k2 & Htick & _ & _ & _ & _ & Hcase).
  replace (ticks_left k1 t) with 1 in Hcase by lia. destruct Hcase as [Hout Hready].
  exists k2. rewrite (run_ticks_snoc n _ k1), Htick by done. rewrite Hp1 in Hready. by split_and!.
Qed.

(** ** Going to sleep with a time-out *)

Lemma place_delay k l ticks tcb :
  delay_inv k -> tcbs k !! pxCurrentTCB k = Some tcb -> pxCurrentTCB k ∉ delayed_tasks k ->
  0 < ticks < portMAX_DELAY ->
  let k' := vTaskPlaceOnEventList k l ticks in
  delay_inv k' /\ pxCurrentTCB k ∈ delayed_tasks k' /\ ticks_left k' (pxCurrentTCB k) = ticks /\
  priority k' (pxCurrentTCB k) = uxPriority tcb /\ xTickCount k' = xTickCount k.
Proof.
  intros Hinv Ht Hn Hticks. unfold vTaskPlaceOnEventList. cbv zeta.
  match goal with |- context [prvAddCurrentTaskToDelayedList ?a ticks true] => set (k0 := a) end.
  assert (tcbs k0 !! pxCurrentTCB k0 = Some (set_event_container l tcb)) as Ht0
    by (simpl; by rewrite lookup_alter_eq, Ht).
  assert (delay_inv k0) as Hinv0.
  { apply (delay_inv_same k); try done. intros u. unfold state_value. simpl. rewrite lookup_alter.
    case_decide; [|done]. subst u. by rewrite Ht. }
  destruct (prvAddCurrentTaskToDelayedList_inv k0 ticks true _ Hinv0 Ht0 Hn Hticks) as (I1 & I2 & I3 & _ & I5).
  split_and!; [done..| |].
  - change (pxCurrentTCB k) with (pxCurrentTCB k0). rewrite I5. unfold priority. by rewrite Ht0.
  - unfold prvAddCurrentTaskToDelayedList. destruct (_ && _); [done|]. simpl.
    destruct (_ <? _); [done|]. simpl. by destruct (_ <? _).
Qed.

(** ** One pass through the loop with nobody posting *)

(** What happens after the scheduler is resumed is [f]. *)
Definition only_after (f : world -> world) : interference :=
  fun pt => match pt with AfterResume => f | _ => id end.

Section pass.
Context (q head n size : Z) (w : world) (s : q_wait) (f : world -> world).
Context (Hr : queue_repr w q head n size []).
Context (Hs : uxSchedulerSuspended (kern w) = 0) (Hq : quiet (kern w)).

Local Notation ev := (q_xTasksWaitingToReceive q).
Local Notation locked := (prvLockQueue (with_kern w (vTaskSuspendAll (kern w))) q).

Lemma pass_locked : queue_at locked q head n size [] 0 0.
Proof. apply lock_queue. by apply queue_at_kern. Qed.

Lemma resume_from k w3 : kern w3 = k ->
  uxSchedulerSuspended k = uxSchedulerSuspended (vTaskSuspendAll (kern w)) ->
  xPendingReadyList k = xPendingReadyList (kern w) -> xPendedTicks k = xPendedTicks (kern w) ->
  resume_all w3 = Some (with_kern w3 (with_suspended k 0)).
Proof.
  intros E H1 H2 H3. unfold resume_all. rewrite E.
  destruct (suspend_resume (kern w) k) as (y & ->); [done..|]. by rewrite Hs.
Qed.

Lemma pass_timed_out to to' tk :
  set_entry_time w s = to ->
  xTaskCheckForTimeOut (vTaskSuspendAll (kern w)) to (qw_ticks s) = (true, to', tk, vTaskSuspendAll (kern w)) ->
  exists w', wait_locked w q s (only_after f) prvIsQueueEmpty ev false =
      Some (true, mkQWait tk (Some to') (qw_inherited s), f w') /\
    queue_repr w' q head n size [] /\ kern w' = kern w.
Proof.
  intros E Hc. unfold wait_locked. rewrite E. unfold unlock_and_resume. cbn [only_after]. unfold id. change (kern locked) with (vTaskSuspendAll (kern w)). rewrite Hc.
  replace (with_kern locked (vTaskSuspendAll (kern w))) with locked by done. cbv iota beta zeta.
  destruct (unlock_idle locked q head n size [] pass_locked) as (w3 & -> & H3 & K3).
  rewrite (resume_from _ w3 K3) by done. eexists. split; [reflexivity|].
  split; [by apply queue_at_kern|]. simpl. by destruct (kern w); simpl in *; subst.
Qed.

Lemma pass_sleeps to to' tk :
  set_entry_time w s = to ->
  xTaskCheckForTimeOut (vTaskSuspendAll (kern w)) to (qw_ticks s) = (false, to', tk, vTaskSuspendAll (kern w)) ->
  forall tcb, tcbs (kern w) !! pxCurrentTCB (kern w) = Some tcb ->
  default [] (event_lists (kern w) !! ev) = [] ->
  exists w', wait_locked w q s (only_after f) prvIsQueueEmpty ev false =
      Some (false, mkQWait tk (Some to') (qw_inherited s), f w') /\
    queue_repr w' q head n size [] /\
    kern w' = with_suspended (vTaskPlaceOnEventList (vTaskSuspendAll (kern w)) ev tk) 0.
Proof.
  intros E Hc tcb Ht He. unfold wait_locked. rewrite E.
  unfold unlock_and_resume. cbn [only_after]. unfold id. change (kern locked) with (vTaskSuspendAll (kern w)). rewrite Hc.
  replace (with_kern locked (vTaskSuspendAll (kern w))) with locked by done. cbv iota beta zeta.
  destruct (repr_queue q head n size locked _ _ _ pass_locked) as [x Hx]. rewrite Hx.
  assert (prvIsQueueEmpty x = true) as ->.
  { pose proof pass_locked as [(y & rd & Hy & HY) _ _ _ _]. rewrite Hx in Hy. injection Hy as <-.
    unfold prvIsQueueEmpty. destruct_and! HY. by apply Z.eqb_eq. }
  change (kern locked) with (vTaskSuspendAll (kern w)).
  set (k2 := vTaskPlaceOnEventList (vTaskSuspendAll (kern w)) ev tk).
  destruct (place_alone (vTaskSuspendAll (kern w)) ev tk tcb Ht He) as (_ & _ & P3 & P4 & P5 & _).
  fold k2 in P3, P4, P5.
  destruct (unlock_idle (with_kern locked k2) q head n size []) as (w3 & -> & H3 & K3);
    [apply queue_at_kern, pass_locked|].
  rewrite (resume_from k2 w3 K3) by done. eexists. split; [reflexivity|].
  split; [by apply queue_at_kern|done].
Qed.
End pass.

(** ** Time passes while other tasks run *)

Definition others_run (m : nat) (other : Z) (w : world) : world :=
  match run_ticks m (with_current (kern w) other) with
  | Some k => with_kern w (with_current k (pxCurrentTCB (kern w)))
  | None => w
  end.

Definition sleep (m : nat) (other : Z) : interference := only_after (others_run m other).
Definition calm : interference := only_after id.

Lemma check_at_start k ticks :
  from_option ucDelayAborted false (tcbs k !! pxCurrentTCB k) = false -> 0 < ticks < portMAX_DELAY ->
  xTaskCheckForTimeOut (vTaskSuspendAll k) (vTaskInternalSetTimeOutState k) ticks =
    (false, vTaskInternalSetTimeOutState k, ticks, vTaskSuspendAll k).
Proof.
  intros Ha Ht. unfold xTaskCheckForTimeOut, vTaskInternalSetTimeOutState. simpl. rewrite Ha.
  unfold portMAX_DELAY in *. destruct (Z.eqb_spec ticks 4294967295); [lia|]. rewrite Z.eqb_refl. simpl.
  rewrite Z.sub_diag. change (u32 0) with 0. destruct (Z.ltb_spec 0 ticks); [|lia].
  by rewrite Z.sub_0_r, u32_small by lia.
Qed.

Lemma check_at_end k0 k ticks :
  from_option ucDelayAborted false (tcbs k !! pxCurrentTCB k) = false -> 0 < ticks < portMAX_DELAY ->
  xTickCount k = u32 (xTickCount k0 + ticks) -> is_u32 (xTickCount k0) ->
  xTaskCheckForTimeOut (vTaskSuspendAll k) (vTaskInternalSetTimeOutState k0) ticks =
    (true, vTaskInternalSetTimeOutState k0, 0, vTaskSuspendAll k).
Proof.
  intros Ha Ht Hc H0. unfold xTaskCheckForTimeOut, vTaskInternalSetTimeOutState. simpl. rewrite Ha.
  unfold portMAX_DELAY in *. destruct (Z.eqb_spec ticks 4294967295); [lia|].
  replace (u32 (xTickCount k - xTickCount k0)) with ticks by (rewrite Hc; word_lia).
  rewrite Z.ltb_irrefl. by destruct (negb _ && _).
Qed.

Section times_out.
Context (q head n size buf ticks other : Z) (w : world) (tcb : TCB_t).
Local Notation ev := (q_xTasksWaitingToReceive q).
Local Notation t := (pxCurrentTCB (kern w)).
Context (Hr : queue_repr w q head n size []) (Hev : ev <> NULL) (Hbuf : buf <> NULL).
Context (Hinv : delay_inv (kern w)) (Hs : uxSchedulerSuspended (kern w) = 0) (Hq : quiet (kern w)).
Context (Ht : tcbs (kern w) !! t = Some tcb) (Ha : ucDelayAborted tcb = false) (Hn : t ∉ delayed_tasks (kern w)).
Context (He : default [] (event_lists (kern w) !! ev) = []) (Hticks : 0 < ticks < portMAX_DELAY).

(** The kernel while the task sleeps and another one runs. *)
Local Notation asleep :=
  (with_current (with_suspended (vTaskPlaceOnEventList (vTaskSuspendAll (kern w)) ev ticks) 0) other).

Lemma asleep_spec : delay_inv asleep /\ t ∈ delayed_tasks asleep /\ ticks_left asleep t = ticks /\
  priority asleep t = uxPriority tcb /\ xTickCount asleep = xTickCount (kern w) /\ waits_on ev asleep /\
  xPendingReadyList asleep = [] /\ xPendedTicks asleep = 0 /\
  ucDelayAborted <$> tcbs asleep !! t = Some false.
Proof.
  destruct (place_delay (vTaskSuspendAll (kern w)) ev ticks tcb) as (I1 & I2 & I3 & I4 & I5);
    [by apply (delay_inv_same (kern w))|done..|].
  destruct (place_alone (vTaskSuspendAll (kern w)) ev ticks tcb Ht He)
    as (P1 & _ & _ & P4 & P5 & _ & tcb' & P7 & P8 & P9 & P10 & _).
  destruct (proj2 Hq Hs) as [Q1 Q2].
  set (k2 := vTaskPlaceOnEventList (vTaskSuspendAll (kern w)) ev ticks) in *.
  split_and!; try done.
  - by apply (delay_inv_same k2).
  - intros u. simpl. rewrite P1, lookup_insert_eq. simpl. rewrite list_elem_of_singleton. intros ->.
    split; [exact I2|]. by exists tcb'.
  - simpl. by rewrite P4.
  - simpl. by rewrite P5.
  - change (pxCurrentTCB (vTaskSuspendAll (kern w))) with t in P7. simpl. by rewrite P7, <- P10.
Qed.

Lemma receive_sleeps env m : exists w1,
  receive_loop (sleep m other :: env) w q (q_start ticks) (fun w => receive_now w q buf) =
    receive_loop env (others_run m other w1) q (mkQWait ticks (Some (vTaskInternalSetTimeOutState (kern w))) false)
      (fun w => receive_now w q buf) /\
  queue_repr w1 q head n size [] /\ with_current (kern w1) other = asleep /\ pxCurrentTCB (kern w1) = t.
Proof.
  destruct (pass_sleeps q head n size w (q_start ticks) (others_run m other) Hr Hs Hq
    (vTaskInternalSetTimeOutState (kern w)) (vTaskInternalSetTimeOutState (kern w)) ticks eq_refl)
    with (tcb := tcb) as (w1 & Hpass & H1 & K1); [|done|done|].
  { apply check_at_start; [by rewrite Ht|done]. }
  exists w1. split; [|split; [done|split; [by rewrite K1|]]].
  - cbn [receive_loop]. pose proof Hr as [(x & rd & Hx & HX) _ _ _ _]. rewrite Hx.
    replace (uxMessagesWaiting x) with 0 by (by destruct_and! HX). cbn [Z.ltb Z.compare].
    cbn [qw_ticks q_start]. destruct (Z.eqb_spec ticks 0); [lia|]. unfold sleep. by rewrite Hpass.
  - rewrite K1. simpl.
    by destruct (place_alone (vTaskSuspendAll (kern w)) ev ticks tcb Ht He) as (_ & P2 & _).
Qed.

Lemma receive_entry env : xQueueReceive env w q buf ticks =
  receive_loop env w q (q_start ticks) (fun w => receive_now w q buf).
Proof.
  unfold xQueueReceive. pose proof Hr as [(x & rd & Hx & HX) _ _ _ _]. rewrite Hx.
  unfold receive_args_ok, may_block. rewrite Hs. destruct (Z.eqb_spec buf NULL); done.
Qed.

Lemma others_run_eq m w1 k : with_current (kern w1) other = asleep -> pxCurrentTCB (kern w1) = t ->
  run_ticks m asleep = Some k -> others_run m other w1 = with_kern w1 (with_current k t).
Proof. unfold others_run. intros -> -> ->. done. Qed.

(** The pass that finds the time to be up. *)
Lemma receive_last w1 : queue_repr w1 q head n size [] ->
  uxSchedulerSuspended (kern w1) = 0 -> quiet (kern w1) ->
  ucDelayAborted <$> tcbs (kern w1) !! pxCurrentTCB (kern w1) = Some false ->
  xTickCount (kern w1) = u32 (xTickCount (kern w) + ticks) ->
  exists w2, receive_loop [calm] w1 q (mkQWait ticks (Some (vTaskInternalSetTimeOutState (kern w))) false)
      (fun w => receive_now w q buf) = Some (QReturned errQUEUE_EMPTY w2) /\
    queue_repr w2 q head n size [] /\ kern w2 = kern w1.
Proof.
  intros H1 Hs1 Hq1 Ha1 Hc1.
  destruct (pass_timed_out q head n size w1 (mkQWait ticks (Some (vTaskInternalSetTimeOutState (kern w))) false) id
    H1 Hs1 Hq1 (vTaskInternalSetTimeOutState (kern w)) (vTaskInternalSetTimeOutState (kern w)) 0 eq_refl)
    as (w2 & Hpass & H2 & K2).
  { apply check_at_end; [|done|done|by destruct Hinv].
    destruct (tcbs (kern w1) !! pxCurrentTCB (kern w1)); [|done]. by injection Ha1. }
  exists w2. split; [|done]. cbn [receive_loop].
  pose proof H1 as [(x & rd & Hx & HX) _ _ _ _]. rewrite Hx.
  replace (uxMessagesWaiting x) with 0 by (by destruct_and! HX). cbn [Z.ltb Z.compare qw_ticks].
  destruct (Z.eqb_spec ticks 0); [lia|]. unfold calm. rewrite Hpass. cbn [id].
  pose proof H2 as [(y & rd' & Hy & HY) _ _ _ _]. rewrite Hy. unfold prvIsQueueEmpty.
  replace (uxMessagesWaiting y) with 0 by (by destruct_and! HY). done.
Qed.

(** C15: a task that waits on an empty queue for [ticks] ticks sleeps through
    every shorter time; once the time is over it is ready, is on no list any
    more, and the call returns [errQUEUE_EMPTY], the queue being as it was. *)
Theorem receive_times_out (m : nat) : Z.of_nat m <= ticks ->
  if Z.of_nat m <? ticks then
    exists w1 : world, xQueueReceive [sleep m other] w q buf ticks = Some (QRunning w1) /\
      t ∈ delayed_tasks (kern w1)
  else
    exists w2 : world, xQueueReceive [sleep m other; calm] w q buf ticks = Some (QReturned errQUEUE_EMPTY w2) /\
      queue_repr w2 q head n size [] /\ xTickCount (kern w2) = u32 (xTickCount (kern w) + ticks) /\
      t ∈ default [] (pxReadyTasksLists (kern w2) !! uxPriority tcb) /\
      t ∉ delayed_tasks (kern w2) /\ t ∉ default [] (event_lists (kern w2) !! ev).
Proof.
  intros Hm. destruct asleep_spec as (A1 & A2 & A3 & A4 & A5 & A6 & A7 & A8 & A9).
  destruct (Z.ltb_spec (Z.of_nat m) ticks) as [Hlt|Hge].
  - destruct (receive_sleeps [] m) as (w1 & Hrun & H1 & K1 & C1).
    destruct (run_ticks_wait m asleep t A1 eq_refl A2) as (k & Hk & _ & _ & _ & Hd & _); [lia|].
    exists (with_kern w1 (with_current k t)). split; [|exact Hd].
    rewrite receive_entry, Hrun, (others_run_eq m w1 k K1 C1 Hk). cbn [receive_loop].
    pose proof H1 as [(x & rd & Hx & HX) _ _ _ _]. simpl queues. rewrite Hx.
    replace (uxMessagesWaiting x) with 0 by (by destruct_and! HX). cbn [Z.ltb Z.compare qw_ticks].
    destruct (Z.eqb_spec ticks 0); [lia|done].
  - destruct m as [|m]; [lia|].
    destruct (receive_sleeps [calm] (S m)) as (w1 & Hrun & H1 & K1 & C1).
    destruct (run_ticks_due m asleep t A1 eq_refl A2) as (k & Hk & Hout & Hready); [lia|].
    destruct (run_ticks_spec (S m) asleep A1 eq_refl) as (k' & Hk' & _ & Hs' & Hc' & Hsame & Hpt & _ & _).
    rewrite Hk in Hk'. injection Hk' as <-. pose proof (run_ticks_waits ev _ Hev _ _ Hk A6) as Hw.
    destruct (receive_last (with_kern w1 (with_current k t))) as (w2 & Hlast & H2 & K2); try done.
    { by apply queue_at_kern. }
    { split; simpl; [rewrite Hs'; lia|]. intros _. by rewrite (ts_pending _ _ Hsame), Hpt. }
    { simpl. by rewrite (ts_aborted _ _ Hsame). }
    { simpl. rewrite Hc', A5. f_equal. lia. }
    exists w2. rewrite receive_entry, Hrun, (others_run_eq (S m) w1 k K1 C1 Hk), K2.
    rewrite A4 in Hready. split_and!; try done; simpl.
    + rewrite Hc', A5. f_equal. lia.
    + intros Hin. by destruct (Hw t Hin).
Qed.
End times_out.

(** ** What the result of a receive says *)

Lemma receive_loop_outcome env : forall w q s now r w',
  receive_loop env w q s now = Some (QReturned r w') ->
  r = errQUEUE_EMPTY /\ (exists x, queues w' !! q = Some x /\ uxMessagesWaiting x <= 0) \/
  r = pdPASS /\ (exists w1 x, queues w1 !! q = Some x /\ 0 < uxMessagesWaiting x /\ now w1 = Some w').
Proof.
  induction env as [|i env IH]; intros w q s now r w'; cbn [receive_loop];
    (destruct (queues w !! q) as [x|] eqn:Hx; [|done]); destruct (Z.ltb_spec 0 (uxMessagesWaiting x)).
  1,3: destruct (now w) as [w1|] eqn:Hn; [|done]; intros [= <- <-]; right; eauto 6.
  - destruct (_ =? 0); [|done]. intros [= <- <-]. left. eauto.
  - destruct (_ =? 0); [intros [= <- <-]; left; eauto|].
    destruct (wait_locked _ _ _ _ _ _ _) as [[[timed_out s1] w1]|]; [|done].
    destruct timed_out; [|apply IH]. destruct (queues w1 !! q) as [y|] eqn:Hy; [|done].
    unfold prvIsQueueEmpty. destruct (Z.eqb_spec (uxMessagesWaiting y) 0); [|apply IH].
    intros [= <- <-]. left. split; [done|]. exists y. split; [done|lia].
Qed.

(** C16: whatever interrupts and other tasks do meanwhile, a receive fails only if
    the queue is empty when it returns, never because an item was missed, and
    succeeds only by taking an item that was there. *)
Theorem receive_error_means_empty (env : list interference) (w : world) (q buf ticks r : Z) (w' : world) :
  xQueueReceive env w q buf ticks = Some (QReturned r w') ->
  r = errQUEUE_EMPTY /\ (exists x : Queue_t, queues w' !! q = Some x /\ uxMessagesWaiting x <= 0) \/
  r = pdPASS /\ (exists (w1 : world) (x : Queue_t), queues w1 !! q = Some x /\ 0 < uxMessagesWaiting x /\
    receive_now w1 q buf = Some w').
Proof.
  unfold xQueueReceive. destruct (queues w !! q); [|done].
  destruct (receive_args_ok _ _); [|done]. destruct (may_block _ _); [|done].
  apply receive_loop_outcome.
Qed.

(** ** Examples *)

Lemma demo_queue_inv : delay_inv (kern demo_queue).
Proof. by apply (delay_inv_same demo_kernel); [..|exact demo_kernel_inv]. Qed.

(** Task 7 waits for 3 ticks, across the overflow of the tick counter, while
    task 9 runs. *)
Example receive_times_out_witness :
  exists w2 : world, xQueueReceive [sleep 3 9; calm] demo_queue 1000 2000 3 = Some (QReturned errQUEUE_EMPTY w2) /\
    queue_repr w2 1000 1084 2 1 [] /\ xTickCount (kern w2) = 1 /\
    7 ∈ default [] (pxReadyTasksLists (kern w2) !! 5) /\
    7 ∉ delayed_tasks (kern w2) /\ 7 ∉ default [] (event_lists (kern w2) !! q_xTasksWaitingToReceive 1000).
Proof.
  apply (receive_times_out 1000 1084 2 1 2000 3 9 demo_queue (mkTCB 5 0 20 0 false 5 0) demo_queue_repr
    ltac:(done) ltac:(done) demo_queue_inv eq_refl ltac:(split; [done|by intros _])
    ltac:(vm_compute; reflexivity) eq_refl ltac:(apply (bool_decide_unpack _); vm_compute; exact I)
    ltac:(vm_compute; reflexivity) ltac:(unfold portMAX_DELAY; lia) 3%nat ltac:(lia)).
Defined.

(** An interrupt posts a byte after the time is over, before the task runs. *)
Definition late_result : option q_outcome :=
  xQueueReceive [only_after (fun w => isr_posts 1000 3000 [[5]] (others_run 3 9 w)); calm]
    demo_queue 1000 2000 3.

Lemma late_result_pass : match late_result with Some (QReturned r _) => r = pdPASS | _ => False end.
Proof. vm_compute. reflexivity. Qed.

Example receive_error_means_empty_witness :
  exists (w' w1 : world) (x : Queue_t), late_result = Some (QReturned pdPASS w') /\
    queues w1 !! 1000 = Some x /\ 0 < uxMessagesWaiting x /\ receive_now w1 1000 2000 = Some w'.
Proof.
  pose proof late_result_pass as Hp. destruct late_result as [[r w'|]|] eqn:E; [|destruct Hp..].
  unfold late_result in E.
  destruct (receive_error_means_empty _ _ _ _ _ _ _ E) as [[Hr _]|(_ & w1 & x & H)].
  - rewrite Hp in Hr. discriminate Hr.
  - exists w', w1, x. rewrite Hp. split; [reflexivity|exact H].
Defined.
