(* ===== verification/QueueInv.v ===== *)
(** * Queues stay well formed

    Every operation of queue.c keeps every queue within its bounds: the count
    within the length, the lock counts within an [int8_t], and the pointers at
    item slots of the storage.  [q_step] is the step relation of the operations;
    what runs while one of them is blocked is any function that keeps queues
    well formed, as the operations of other tasks do. *)

From stdpp Require Import base list option gmap.
From Stdlib Require Import ZArith Lia.
From S2P Require Import Prelude FreeRTOSList Kernel KernelSched KernelPrio Queue QueueFifo.

(** [p] points to one of the slots. *)
Definition at_slot (x : Queue_t) (p : Z) : Prop :=
  exists i, 0 <= i < uxLength x /\ p = pcHead x + i * uxItemSize x.

Record queue_ok (x : Queue_t) : Prop := mkQueueOk {
  qo_length : 0 < uxLength x < 4294967296;
  qo_size : 0 <= uxItemSize x;
  qo_messages : 0 <= uxMessagesWaiting x <= uxLength x;
  qo_rx : -1 <= cRxLock x <= 127;
  qo_tx : -1 <= cTxLock x <= 127;
  qo_pointers : uxItemSize x <> 0 ->
    pcTail x = pcHead x + uxLength x * uxItemSize x /\ at_slot x (pcWriteTo x) /\ at_slot x (pcReadFrom x) }.

Definition world_ok (w : world) : Prop := forall q x, queues w !! q = Some x -> queue_ok x.

(** No queue disappears or changes its size. *)
Definition same_shape (w w' : world) : Prop := forall q x, queues w !! q = Some x ->
  exists y, queues w' !! q = Some y /\ uxItemSize y = uxItemSize x /\ uxLength y = uxLength x.

Definition safe (w w' : world) : Prop := world_ok w -> world_ok w' /\ same_shape w w'.

Lemma same_shape_trans w1 w2 w3 : same_shape w1 w2 -> same_shape w2 w3 -> same_shape w1 w3.
Proof.
  intros H1 H2 q x Hx. destruct (H1 q x Hx) as (y & Hy & ? & ?). destruct (H2 q y Hy) as (z & Hz & ? & ?).
  exists z. split; [done|split; congruence].
Qed.

Lemma safe_same w w' : queues w' = queues w -> safe w w'.
Proof. intros E H. split; [unfold world_ok; by rewrite E|]. intros q x Hx. exists x. by rewrite E. Qed.

Lemma safe_with_ok w w' : (world_ok w -> safe w w') -> safe w w'.
Proof. intros H Hok. by apply H. Qed.

Lemma safe_refl w : safe w w.
Proof. by apply safe_same. Qed.

Lemma safe_trans w1 w2 w3 : safe w1 w2 -> (world_ok w2 -> same_shape w1 w2 -> safe w2 w3) -> safe w1 w3.
Proof.
  intros H1 H2 H. destruct (H1 H) as [O1 S1]. destruct (H2 O1 S1 O1) as [O2 S2].
  split; [done|]. by eapply same_shape_trans.
Qed.

Lemma safe_alter w w' q f : queues w' = alter f q (queues w) ->
  (forall x, queues w !! q = Some x -> queue_ok x ->
     queue_ok (f x) /\ uxItemSize (f x) = uxItemSize x /\ uxLength (f x) = uxLength x) ->
  safe w w'.
Proof.
  intros E Hf H. split.
  - intros q' y. rewrite E, lookup_alter. clear E. case_decide as E; [subst q'|apply H].
    destruct (queues w !! q) as [x|] eqn:Ex; [|done]. intros [= <-]. by apply Hf; [|apply (H q)].
  - intros q' x Hx. rewrite E, lookup_alter. clear E. case_decide as E; [subst q'|by exists x].
    rewrite Hx. exists (f x). split; [done|]. by apply Hf; [|apply (H q)].
Qed.

(** ** Moving the pointers *)

Lemma advance_slot x p : queue_ok x -> uxItemSize x <> 0 -> at_slot x p ->
  at_slot x (if pcTail x <=? p + uxItemSize x then pcHead x else p + uxItemSize x).
Proof.
  intros [Q1 Q2 _ _ _ Q6] Hs (i & Hi & ->). destruct (Q6 Hs) as [-> _].
  destruct (Z.leb_spec (pcHead x + uxLength x * uxItemSize x) (pcHead x + i * uxItemSize x + uxItemSize x)).
  - exists 0. lia.
  - exists (i + 1). split; [nia|lia].
Qed.

Lemma retreat_slot x p : queue_ok x -> uxItemSize x <> 0 -> at_slot x p ->
  at_slot x (if p - uxItemSize x <? pcHead x then pcTail x - uxItemSize x else p - uxItemSize x).
Proof.
  intros [Q1 Q2 _ _ _ Q6] Hs (i & Hi & ->). destruct (Q6 Hs) as [-> _].
  destruct (Z.ltb_spec (pcHead x + i * uxItemSize x - uxItemSize x) (pcHead x)).
  - exists (uxLength x - 1). lia.
  - exists (i - 1). split; [nia|lia].
Qed.

Lemma ok_write x p : queue_ok x -> (uxItemSize x <> 0 -> at_slot x p) -> queue_ok (set_pcWriteTo p x).
Proof. intros [Q1 Q2 Q3 Q4 Q5 Q6] Hp. split; try done. intros Hs. destruct (Q6 Hs) as (? & ? & ?). auto. Qed.

Lemma ok_read x p : queue_ok x -> (uxItemSize x <> 0 -> at_slot x p) -> queue_ok (set_u_second p x).
Proof. intros [Q1 Q2 Q3 Q4 Q5 Q6] Hp. split; try done. intros Hs. destruct (Q6 Hs) as (? & ? & ?). auto. Qed.

Lemma ok_messages x n : queue_ok x -> 0 <= n <= uxLength x -> queue_ok (set_messages n x).
Proof. intros [Q1 Q2 Q3 Q4 Q5 Q6] Hn. by split. Qed.

Lemma ok_locks x rx tx : queue_ok x -> -1 <= rx <= 127 -> -1 <= tx <= 127 -> queue_ok (set_locks rx tx x).
Proof. intros [Q1 Q2 Q3 Q4 Q5 Q6] Hr Ht. by split. Qed.

Lemma ok_container x c : queue_ok x -> queue_ok (set_container c x).
Proof. intros [Q1 Q2 Q3 Q4 Q5 Q6]. by split. Qed.

(** The fields of a semaphore or mutex are not pointers. *)
Lemma ok_semaphore x y : queue_ok x -> uxItemSize x = 0 -> uxItemSize y = 0 -> uxLength y = uxLength x ->
  uxMessagesWaiting y = uxMessagesWaiting x -> cRxLock y = cRxLock x -> cTxLock y = cTxLock x -> queue_ok y.
Proof. intros [Q1 Q2 Q3 Q4 Q5 Q6] H0 E1 E2 E3 E4 E5. split; rewrite ?E2, ?E3, ?E4, ?E5; by rewrite ?E1. Qed.

(** ** Copying *)

(** An item may be put: there is room, or the only item is overwritten.  The
    code does not look at the count of a semaphore that is "overwritten". *)
Definition may_put (x : Queue_t) (pos : Z) : Prop :=
  uxMessagesWaiting x < uxLength x \/ (pos = queueOVERWRITE /\ uxItemSize x <> 0 /\ 0 < uxMessagesWaiting x).

Lemma prvCopyDataToQueue_safe w q data pos b w' :
  (forall x, queues w !! q = Some x -> may_put x pos) ->
  prvCopyDataToQueue w q data pos = Some (b, w') -> safe w w'.
Proof.
  intros Hput. unfold prvCopyDataToQueue. destruct (queues w !! q) as [x|] eqn:Hx; [|done].
  specialize (Hput x eq_refl).
  destruct (if uxItemSize x =? 0 then _ else _) as [[[r n] w1]|] eqn:E; [|done]. intros [= _ <-].
  assert (world_ok w -> safe w w1 /\ 0 <= u32 (n + 1) <= uxLength x) as Hw1.
  { intros Hok. pose proof (Hok q x Hx) as Qx. pose proof Qx as [Q1 Q2 Q3 Q4 Q5 Q6].
    destruct (Z.eqb_spec (uxItemSize x) 0) as [E0|E0].
    - assert (n = uxMessagesWaiting x /\ safe w w1) as [-> Hs].
      { destruct (pcHead x =? queueQUEUE_IS_MUTEX); [|injection E as _ <- <-; split; [done|apply safe_refl]].
        destruct (xTaskPriorityDisinherit _ _) as [[r' k]|]; [|done]. injection E as _ <- <-. split; [done|].
        eapply safe_trans; [|intros _ _; by apply safe_same].
        eapply safe_alter; [reflexivity|]. intros y Hy Qy. rewrite Hx in Hy. injection Hy as <-.
        split; [|done]. by apply (ok_semaphore x). }
      split; [done|]. destruct Hput as [?|(_ & ? & _)]; [|done]. rewrite u32_small; lia.
    - destruct (Q6 E0) as (_ & Hw & Hr). destruct (pos =? queueSEND_TO_BACK) eqn:Ep.
      + injection E as _ <- <-. split.
        * eapply safe_alter; [reflexivity|]. intros y Hy Qy. rewrite Hx in Hy. injection Hy as <-. split; [|done].
          apply ok_write; [done|]. intros _. by apply advance_slot.
        * destruct Hput as [?|(-> & _)]; [|done]. rewrite u32_small; lia.
      + injection E as _ <- <-. split.
        * eapply safe_alter; [reflexivity|]. intros y Hy Qy. rewrite Hx in Hy. injection Hy as <-. split; [|done].
          apply ok_read; [done|]. intros _. by apply retreat_slot.
        * destruct (Z.eqb_spec pos queueOVERWRITE), (Z.ltb_spec 0 (uxMessagesWaiting x)); simpl;
            rewrite u32_small; destruct Hput as [?|(? & _ & ?)]; try lia; done. }
  intros Hok. destruct (Hw1 Hok) as [Hs Hn]. revert Hok.
  eapply safe_trans; [exact Hs|]. intros _ Hsh. eapply safe_alter; [reflexivity|].
  intros y Hy Qy. split; [|done]. apply ok_messages; [done|].
  destruct (Hsh q x Hx) as (z & Hz & _ & El). rewrite Hy in Hz. injection Hz as <-. by rewrite El.
Qed.

Lemma prvCopyDataFromQueue_safe w q buf w' : prvCopyDataFromQueue w q buf = Some w' -> safe w w'.
Proof.
  unfold prvCopyDataFromQueue. destruct (queues w !! q) as [x|] eqn:Hx; [|done].
  destruct (Z.eqb_spec (uxItemSize x) 0) as [E0|E0]; intros [= <-]; [apply safe_refl|].
  eapply safe_trans; [|intros _ _; by apply safe_same].
  eapply safe_alter; [reflexivity|]. intros y Hy Qy. rewrite Hx in Hy. injection Hy as <-. split; [|done].
  apply ok_read; [done|]. intros _. apply advance_slot; [done..|]. by apply (qo_pointers x Qy).
Qed.

(** ** Locks and wake-ups *)

Lemma prvLockQueue_safe w q : safe w (prvLockQueue w q).
Proof.
  eapply safe_alter; [reflexivity|]. intros x _ Qx. split; [|done]. destruct Qx as [Q1 Q2 Q3 Q4 Q5 Q6].
  apply ok_locks; [by split|destruct (_ =? _)..]; unfold queueLOCKED_UNMODIFIED; lia.
Qed.

Lemma wake_first_same w l b w' : wake_first w l = Some (b, w') -> queues w' = queues w.
Proof.
  unfold wake_first. destruct (listLIST_IS_EMPTY _ _); [by intros [= _ <-]|].
  destruct (xTaskRemoveFromEventList _ _) as [[h k]|]; [|done]. by intros [= _ <-].
Qed.

Lemma tx_lock_safe w q c w' : -1 <= c <= 127 -> c <> queueUNLOCKED ->
  prvIncrementQueueTxLock w q c = Some w' -> safe w w'.
Proof.
  intros Hc Hn. unfold prvIncrementQueueTxLock. destruct (_ <? _); [|intros [= <-]; apply safe_refl].
  destruct (Z.eqb_spec c queueINT8_MAX) as [|E]; [done|]. intros [= <-].
  eapply safe_alter; [reflexivity|]. intros x _ Qx. split; [|done].
  apply ok_locks; [done|apply Qx|]. unfold queueINT8_MAX, queueUNLOCKED in *. lia.
Qed.

Lemma rx_lock_safe w q c w' : -1 <= c <= 127 -> c <> queueUNLOCKED ->
  prvIncrementQueueRxLock w q c = Some w' -> safe w w'.
Proof.
  intros Hc Hn. unfold prvIncrementQueueRxLock. destruct (_ <? _); [|intros [= <-]; apply safe_refl].
  destruct (Z.eqb_spec c queueINT8_MAX) as [|E]; [done|]. intros [= <-].
  eapply safe_alter; [reflexivity|]. intros x _ Qx. split; [|done].
  apply ok_locks; [done| |apply Qx]. unfold queueINT8_MAX, queueUNLOCKED in *. lia.
Qed.

Lemma notify_set_safe w q b w' : prvNotifyQueueSetContainer w q = Some (b, w') -> safe w w'.
Proof.
  unfold prvNotifyQueueSetContainer. destruct (queues w !! q) as [x|]; [|done].
  destruct (negb (pxQueueSetContainer x =? NULL)); [|done]. cbn [guard_c].
  destruct (queues w !! pxQueueSetContainer x) as [s|] eqn:Hs; [|done].
  destruct (Z.ltb_spec (uxMessagesWaiting s) (uxLength s)) as [Hlt|]; [|done]. cbn [guard_c].
  destruct (prvCopyDataToQueue _ _ _ _) as [[r w1]|] eqn:Hc; [|done]. intros H Hok.
  pose proof (Hok _ s Hs) as Qs. revert Hok. eapply safe_trans.
  { eapply prvCopyDataToQueue_safe; [|exact Hc]. intros y Hy. rewrite Hs in Hy. injection Hy as <-. by left. }
  intros _ _. destruct (Z.eqb_spec (cTxLock s) queueUNLOCKED) as [E|E].
  - destruct (wake_first _ _) as [[h w2]|] eqn:Hw; [|done]. injection H as _ <-.
    apply safe_same. by eapply wake_first_same.
  - destruct (prvIncrementQueueTxLock _ _ _) as [w2|] eqn:Ht; [|done]. injection H as _ <-.
    eapply tx_lock_safe; [|done..]. apply Qs.
Qed.

Lemma missed_yield_same b w : queues (missed_yield b w) = queues w.
Proof. by destruct b. Qed.

Lemma unlock_tx_safe n : forall w q w', unlock_tx n w q = Some w' -> safe w w'.
Proof.
  induction n as [|n IH]; intros w q w'; simpl; [intros [= <-]; apply safe_refl|].
  destruct (queues w !! q) as [x|]; [|done]. destruct (negb _).
  - destruct (prvNotifyQueueSetContainer w q) as [[b w1]|] eqn:E; [|done]. intros H.
    apply (safe_trans _ w1); [by eapply notify_set_safe|]. intros _ _.
    apply (safe_trans _ (missed_yield b w1)); [apply safe_same, missed_yield_same|]. eauto.
  - destruct (listLIST_IS_EMPTY _ _); [intros [= <-]; apply safe_refl|].
    destruct (wake_first _ _) as [[b w1]|] eqn:E; [|done]. intros H.
    apply (safe_trans _ (missed_yield b w1)); [|eauto].
    apply safe_same. rewrite missed_yield_same. by eapply wake_first_same.
Qed.

Lemma unlock_rx_safe n : forall w q w', unlock_rx n w q = Some w' -> safe w w'.
Proof.
  induction n as [|n IH]; intros w q w'; simpl; [intros [= <-]; apply safe_refl|].
  destruct (listLIST_IS_EMPTY _ _); [intros [= <-]; apply safe_refl|].
  destruct (wake_first _ _) as [[b w1]|] eqn:E; [|done]. intros H.
  apply (safe_trans _ (missed_yield b w1)); [|eauto].
  apply safe_same. rewrite missed_yield_same. by eapply wake_first_same.
Qed.

Lemma unlock_added_safe w q w' : unlock_added w q = Some w' -> safe w w'.
Proof.
  unfold unlock_added. destruct (queues w !! q) as [x|]; [|done].
  destruct (unlock_tx _ w q) as [w1|] eqn:E1; [|done]. intros [= <-].
  apply (safe_trans _ w1); [by eapply unlock_tx_safe|]. intros _ _.
  eapply safe_alter; [reflexivity|]. intros z _ Qz. split; [|done].
  apply ok_locks; [done|apply Qz|unfold queueUNLOCKED; lia].
Qed.

Lemma unlock_removed_safe w q w' : unlock_removed w q = Some w' -> safe w w'.
Proof.
  unfold unlock_removed. destruct (queues w !! q) as [x|]; [|done].
  destruct (unlock_rx _ w q) as [w1|] eqn:E1; [|done]. intros [= <-].
  apply (safe_trans _ w1); [by eapply unlock_rx_safe|]. intros _ _.
  eapply safe_alter; [reflexivity|]. intros z _ Qz. split; [|done].
  apply ok_locks; [done|unfold queueUNLOCKED; lia|apply Qz].
Qed.

Lemma prvUnlockQueue_safe between w q w' : (forall w, safe w (between w)) ->
  prvUnlockQueue between w q = Some w' -> safe w w'.
Proof.
  intros Hb. unfold prvUnlockQueue. destruct (unlock_added w q) as [w1|] eqn:E1; [|done]. intros E2.
  apply (safe_trans _ w1); [by eapply unlock_added_safe|]. intros _ _.
  apply (safe_trans _ (between w1)); [done|]. intros _ _. by eapply unlock_removed_safe.
Qed.

(** ** What the critical sections do *)

Lemma notify_added_safe w q pos n b w' : notify_added w q pos n = Some (b, w') -> safe w w'.
Proof.
  unfold notify_added. destruct (queues w !! q) as [x|]; [|done]. destruct (negb _).
  - destruct (_ && _); [intros [= _ <-]; apply safe_refl|]. apply notify_set_safe.
  - intros H. apply safe_same. by eapply wake_first_same.
Qed.

(** The caller of a send knows that overwriting is for queues of one item. *)
Definition overwrite_ok (w : world) (q pos : Z) : Prop :=
  pos = queueOVERWRITE -> forall x, queues w !! q = Some x -> uxItemSize x <> 0 /\ uxLength x = 1.

Lemma room_may_put w q pos x : world_ok w -> overwrite_ok w q pos -> queues w !! q = Some x ->
  has_room x pos = true -> may_put x pos.
Proof.
  intros Hok Hov Hx Hr. destruct (Z.ltb_spec (uxMessagesWaiting x) (uxLength x)) as [|Hge]; [by left|].
  unfold has_room in Hr. destruct (Z.ltb_spec (uxMessagesWaiting x) (uxLength x)); [lia|]. simpl in Hr.
  apply Z.eqb_eq in Hr. right. destruct (Hov Hr x Hx). pose proof (qo_length x (Hok q x Hx)). split_and!; [done..|lia].
Qed.

Lemma send_item_safe w q p pos w' :
  (forall x, queues w !! q = Some x -> has_room x pos = true) -> overwrite_ok w q pos ->
  send_item w q p pos = Some w' -> safe w w'.
Proof.
  intros Hr Hov. unfold send_item. destruct (queues w !! q) as [x|] eqn:Hx; [|done].
  destruct (prvCopyDataToQueue _ _ _ _) as [[b w1]|] eqn:E1; [|done].
  destruct (notify_added _ _ _ _) as [[b' w2]|] eqn:E2; [|done]. intros [= <-] Hok.
  apply (safe_trans _ w1); [|intros _ _; by eapply notify_added_safe|done].
  eapply prvCopyDataToQueue_safe; [|exact E1]. intros y Hy. apply (room_may_put w q); [done..|].
  apply Hr. by rewrite <- Hy.
Qed.

Lemma after_room w q pos (x : Queue_t) w1 b p :
  overwrite_ok w q pos -> queues w !! q = Some x -> has_room x pos = true ->
  prvCopyDataToQueue w q p pos = Some (b, w1) -> safe w w1.
Proof.
  intros Hov Hx Hr E. apply safe_with_ok. intros Hok.
  eapply prvCopyDataToQueue_safe; [|exact E]. intros y Hy. apply (room_may_put w q); [done..|]. congruence.
Qed.

Lemma xQueueGenericSendFromISR_safe w q p pos r b w' : overwrite_ok w q pos ->
  xQueueGenericSendFromISR w q p pos = Some (r, b, w') -> safe w w'.
Proof.
  intros Hov. unfold xQueueGenericSendFromISR. destruct (queues w !! q) as [x|] eqn:Hx; [|done].
  destruct (send_args_ok _ _ _); [|done]. cbn [guard_c].
  destruct (has_room x pos) eqn:Hr; [|intros [= _ _ <-]; apply safe_refl].
  destruct (prvCopyDataToQueue _ _ _ _) as [[c w1]|] eqn:E1; [|done]. intros H Hok.
  pose proof (qo_tx x (Hok q x Hx)) as Htx. revert Hok.
  apply (safe_trans _ w1); [by eapply after_room|]. intros _ _.
  destruct (Z.eqb_spec (cTxLock x) queueUNLOCKED).
  - destruct (notify_added _ _ _ _) as [[d w2]|] eqn:E2; [|done]. injection H as _ _ <-.
    by eapply notify_added_safe.
  - destruct (prvIncrementQueueTxLock _ _ _) as [w2|] eqn:E2; [|done]. injection H as _ _ <-.
    by eapply tx_lock_safe.
Qed.

Lemma set_messages_safe w w' q x n : queues w !! q = Some x -> 0 <= n <= uxLength x ->
  queues w' = alter (set_messages n) q (queues w) -> safe w w'.
Proof.
  intros Hx Hn E. eapply safe_alter; [exact E|]. intros y Hy Qy. rewrite Hx in Hy. injection Hy as <-.
  split; [by apply ok_messages|done].
Qed.

Lemma xQueueGiveFromISR_safe w q r b w' : xQueueGiveFromISR w q = Some (r, b, w') -> safe w w'.
Proof.
  unfold xQueueGiveFromISR. destruct (queues w !! q) as [x|] eqn:Hx; [|done].
  destruct (uxItemSize x =? 0); [|done]. cbn [guard_c]. destruct (negb (_ && _)); [|done]. cbn [guard_c].
  destruct (Z.ltb_spec (uxMessagesWaiting x) (uxLength x)) as [Hlt|]; [|intros [= _ _ <-]; apply safe_refl].
  set (w1 := modify w q _). intros H Hok. pose proof (Hok q x Hx) as [Q1 Q2 Q3 Q4 Q5 Q6]. revert Hok.
  apply (safe_trans _ w1).
  { eapply set_messages_safe; [done| |reflexivity]. rewrite u32_small; lia. }
  intros _ _. destruct (Z.eqb_spec (cTxLock x) queueUNLOCKED).
  - destruct (notify_added _ _ _ _) as [[d w2]|] eqn:E2; [|done]. injection H as _ _ <-.
    by eapply notify_added_safe.
  - destruct (prvIncrementQueueTxLock _ _ _) as [w2|] eqn:E2; [|done]. injection H as _ _ <-.
    by eapply tx_lock_safe.
Qed.

Lemma alter_read p p' q (m : gmap Z Queue_t) :
  alter (set_u_second p') q (alter (set_u_second p) q m) = alter (set_u_second p') q m.
Proof.
  apply map_eq. intros i. destruct (decide (q = i)) as [->|];
    [rewrite !lookup_alter_eq; by destruct (m !! i)|by rewrite !lookup_alter_ne].
Qed.

Lemma copy_from_queues w q buf w1 : prvCopyDataFromQueue w q buf = Some w1 ->
  queues w1 = queues w \/ exists p, queues w1 = alter (set_u_second p) q (queues w).
Proof.
  unfold prvCopyDataFromQueue. destruct (queues w !! q) as [x|]; [|done].
  destruct (negb _); intros [= <-]; [right; by eexists|by left].
Qed.

(** Taking a copy and putting the read pointer back. *)
Lemma peek_copy_safe w q buf w1 x : queues w !! q = Some x ->
  prvCopyDataFromQueue w q buf = Some w1 -> safe w (modify w1 q (set_u_second (pcReadFrom x))).
Proof.
  intros Hx E. apply (safe_alter w _ q (set_u_second (pcReadFrom x))).
  - simpl. destruct (copy_from_queues _ _ _ _ E) as [->|[p ->]]; [done|apply alter_read].
  - intros y Hy Qy. rewrite Hx in Hy. injection Hy as <-. split; [|done].
    apply ok_read; [done|]. intros Hs. by destruct (qo_pointers x Qy Hs) as (_ & _ & ?).
Qed.

(** Taking an item out: the copy, then the count. *)
Lemma take_copy_safe w q buf w1 x : queues w !! q = Some x -> 0 < uxMessagesWaiting x ->
  prvCopyDataFromQueue w q buf = Some w1 ->
  safe w (modify w1 q (set_messages (u32 (uxMessagesWaiting x - 1)))).
Proof.
  intros Hx Hn E Hok. pose proof (Hok q x Hx) as [Q1 Q2 Q3 Q4 Q5 Q6]. revert Hok.
  apply (safe_trans _ w1); [by eapply prvCopyDataFromQueue_safe|]. intros _ Hsh.
  destruct (Hsh q x Hx) as (y & Hy & _ & El).
  eapply set_messages_safe; [exact Hy| |reflexivity]. rewrite El, u32_small; lia.
Qed.

Lemma receive_now_safe w q buf w' x : queues w !! q = Some x -> 0 < uxMessagesWaiting x ->
  receive_now w q buf = Some w' -> safe w w'.
Proof.
  intros Hx Hn. unfold receive_now. rewrite Hx.
  destruct (prvCopyDataFromQueue _ _ _) as [w1|] eqn:E1; [|done]. cbv zeta.
  destruct (wake_first _ _) as [[b w2]|] eqn:E2; [|done]. intros [= <-].
  eapply safe_trans; [by eapply take_copy_safe|]. intros _ _. apply safe_same. by eapply wake_first_same.
Qed.

Lemma peek_now_safe w q buf w' x : queues w !! q = Some x -> 0 < uxMessagesWaiting x ->
  peek_now w q buf = Some w' -> safe w w'.
Proof.
  intros Hx Hn. unfold peek_now. rewrite Hx.
  destruct (prvCopyDataFromQueue _ _ _) as [w1|] eqn:E1; [|done]. cbv zeta.
  destruct (wake_first _ _) as [[b w2]|] eqn:E2; [|done]. intros [= <-].
  eapply safe_trans; [by eapply peek_copy_safe|]. intros _ _. apply safe_same. by eapply wake_first_same.
Qed.

Lemma take_now_safe w q w' x : queues w !! q = Some x -> 0 < uxMessagesWaiting x -> uxItemSize x = 0 ->
  take_now w q = Some w' -> safe w w'.
Proof.
  intros Hx Hn H0. unfold take_now. rewrite Hx. cbv zeta. set (w1 := modify w q _).
  set (w2 := if pcHead x =? queueQUEUE_IS_MUTEX then _ else _).
  destruct (wake_first w2 _) as [[b w3]|] eqn:E; [|done]. intros [= <-] Hok.
  pose proof (Hok q x Hx) as [Q1 Q2 Q3 Q4 Q5 Q6]. revert Hok.
  apply (safe_trans _ w1); [eapply set_messages_safe; [done| |reflexivity]; rewrite u32_small; lia|].
  intros _ Hsh. apply (safe_trans _ w2); [|intros _ _; apply safe_same; by eapply wake_first_same].
  unfold w2. destruct (pcHead x =? queueQUEUE_IS_MUTEX); [|apply safe_refl].
  destruct (pvTaskIncrementMutexHeldCount _) as [h k]. eapply safe_alter; [reflexivity|].
  intros y Hy Qy. destruct (Hsh q x Hx) as (z & Hz & E0 & _). rewrite Hy in Hz. injection Hz as <-.
  split; [|done]. apply (ok_semaphore y); [done|simpl; congruence..].
Qed.

Lemma xQueueReceiveFromISR_safe w q buf r b w' :
  xQueueReceiveFromISR w q buf = Some (r, b, w') -> safe w w'.
Proof.
  unfold xQueueReceiveFromISR. destruct (queues w !! q) as [x|] eqn:Hx; [|done].
  destruct (receive_args_ok _ _); [|done]. cbn [guard_c].
  destruct (Z.ltb_spec 0 (uxMessagesWaiting x)); [|intros [= _ _ <-]; apply safe_refl].
  destruct (prvCopyDataFromQueue _ _ _) as [w1|] eqn:E1; [|done]. cbv zeta. intros H1 Hok.
  pose proof (qo_rx x (Hok q x Hx)) as Hrx. revert Hok.
  eapply safe_trans; [by eapply take_copy_safe|]. intros _ _.
  destruct (Z.eqb_spec (cRxLock x) queueUNLOCKED).
  - destruct (wake_first _ _) as [[d w2]|] eqn:E2; [|done]. injection H1 as _ _ <-.
    apply safe_same. by eapply wake_first_same.
  - destruct (prvIncrementQueueRxLock _ _ _) as [w2|] eqn:E2; [|done]. injection H1 as _ _ <-.
    by eapply rx_lock_safe.
Qed.

Lemma xQueuePeekFromISR_safe w q buf r w' : xQueuePeekFromISR w q buf = Some (r, w') -> safe w w'.
Proof.
  unfold xQueuePeekFromISR. destruct (queues w !! q) as [x|] eqn:Hx; [|done].
  destruct (receive_args_ok _ _); [|done]. destruct (negb _); [|done]. cbn [guard_c].
  destruct (0 <? _); [|intros [= _ <-]; apply safe_refl].
  destruct (prvCopyDataFromQueue _ _ _) as [w1|] eqn:E1; [|done]. intros [= _ <-]. by eapply peek_copy_safe.
Qed.

(** ** Blocking *)

(** What runs while an operation is blocked keeps queues well formed. *)
Definition env_safe (i : interference) : Prop := forall p w, safe w (i p w).

Lemma resume_all_same w w' : resume_all w = Some w' -> queues w' = queues w.
Proof. unfold resume_all. destruct (xTaskResumeAll _) as [[b k]|]; [|done]. by intros [= <-]. Qed.

Lemma unlock_resume_safe i w q w' : env_safe i -> unlock_and_resume i w q = Some w' -> safe w w'.
Proof.
  intros Hi. unfold unlock_and_resume. destruct (prvUnlockQueue _ w q) as [w1|] eqn:E1; [|done].
  destruct (resume_all _) as [w2|] eqn:E2; [|done]. intros [= <-].
  apply (safe_trans _ w1); [by eapply prvUnlockQueue_safe|]. intros _ _.
  apply (safe_trans _ (i BeforeResume w1)); [apply Hi|]. intros _ _.
  apply (safe_trans _ w2); [apply safe_same; by eapply resume_all_same|]. intros _ _. apply Hi.
Qed.

Lemma inherit_same w x b b' w' : inherit w x b = (b', w') -> queues w' = queues w.
Proof.
  unfold inherit. destruct (is_mutex x); [|by intros [= _ <-]].
  destruct (xTaskPriorityInherit _ _). by intros [= _ <-].
Qed.

Lemma wait_locked_safe w q s i must l takes r s' w' : env_safe i ->
  wait_locked w q s i must l takes = Some (r, s', w') -> safe w w'.
Proof.
  intros Hi. unfold wait_locked. cbv zeta.
  set (w1 := i BeforeSuspend w). set (w2 := with_kern w1 _). set (w3 := i Suspended w2).
  set (w4 := i WhileLocked _). destruct (xTaskCheckForTimeOut _ _ _) as [[[timed_out to] tk] k].
  set (w5 := i BeforeTest _). intros H.
  apply (safe_trans _ w1); [apply Hi|]. intros _ _.
  apply (safe_trans _ w3); [apply (safe_trans _ w2); [by apply safe_same|intros _ _; apply Hi]|]. intros _ _.
  apply (safe_trans _ w4); [apply (safe_trans _ (prvLockQueue w3 q));
    [apply prvLockQueue_safe|intros _ _; apply Hi]|]. intros _ _.
  apply (safe_trans _ w5); [apply (safe_trans _ (with_kern w4 k)); [by apply safe_same|intros _ _; apply Hi]|].
  intros _ _. revert H. assert (forall wa, safe w5 wa -> forall b sx,
    (let! w := unlock_and_resume i wa q in Some (b, sx, w)) = Some (r, s', w') -> safe w5 w') as Hend.
  { intros wa Ha b sx. destruct (unlock_and_resume i wa q) as [wb|] eqn:Eb; [|done]. intros [= _ _ <-].
    apply (safe_trans _ wa); [done|]. intros _ _. by eapply unlock_resume_safe. }
  destruct timed_out; [apply Hend, safe_refl|]. destruct (queues w5 !! q) as [x|]; [|done].
  destruct (must x); [|apply Hend, Hi]. destruct (queues (i AfterTest w5) !! q) as [y|]; [|done].
  destruct (if takes then _ else _) as [inh w6] eqn:E6.
  assert (queues w6 = queues (i AfterTest w5)) as Hw6.
  { destruct takes; [by eapply inherit_same|by injection E6 as _ <-]. }
  apply Hend. apply (safe_trans _ (i AfterTest w5)); [apply Hi|]. intros _ _.
  apply (safe_trans _ w6); [by apply safe_same|]. intros _ _.
  apply (safe_trans _ (i BeforePlacing w6)); [apply Hi|]. intros _ _.
  eapply safe_trans; [|intros _ _; apply Hi]. by apply safe_same.
Qed.

Definition outcome_safe (w : world) (o : q_outcome) : Prop :=
  match o with QReturned _ w' => safe w w' | QRunning w' => safe w w' end.

Lemma outcome_safe_trans w w1 o : safe w w1 -> (world_ok w1 -> same_shape w w1 -> outcome_safe w1 o) -> outcome_safe w o.
Proof. destruct o; simpl; apply safe_trans. Qed.

Lemma send_loop_safe env : Forall env_safe env -> forall w q p pos s o, overwrite_ok w q pos ->
  send_loop env w q p pos s = Some o -> outcome_safe w o.
Proof.
  induction 1 as [|i env Hi _ IH]; intros w q p pos s o Hov; cbn [send_loop];
    (destruct (queues w !! q) as [x|] eqn:Hx; [|done]); destruct (has_room x pos) eqn:Hr.
  1,3: destruct (send_item w q p pos) as [w1|] eqn:E; [|done]; intros [= <-];
    eapply send_item_safe; [|exact Hov|exact E]; intros y Hy; congruence.
  1,2: destruct (_ =? 0).
  1-3: intros [= <-]; apply safe_refl.
  destruct (wait_locked _ _ _ _ _ _ _) as [[[timed_out s1] w1]|] eqn:E; [|done]. intros H.
  assert (safe w w1) as Hs by (by eapply wait_locked_safe).
  destruct timed_out; [by injection H as <-|].
  eapply outcome_safe_trans; [exact Hs|]. intros _ _. eapply IH; [|exact H].
  intros ->. unfold has_room in Hr. by rewrite orb_true_r in Hr.
Qed.

Lemma receive_loop_safe env q now :
  (forall w x w', queues w !! q = Some x -> 0 < uxMessagesWaiting x -> now w = Some w' -> safe w w') ->
  Forall env_safe env -> forall w s o, receive_loop env w q s now = Some o -> outcome_safe w o.
Proof.
  intros Hnow. induction 1 as [|i env Hi _ IH]; intros w s o; cbn [receive_loop];
    (destruct (queues w !! q) as [x|] eqn:Hx; [|done]); destruct (Z.ltb_spec 0 (uxMessagesWaiting x)).
  1,3: destruct (now w) as [w1|] eqn:E; [|done]; intros [= <-]; by eapply Hnow.
  1,2: destruct (_ =? 0).
  1-3: intros [= <-]; apply safe_refl.
  destruct (wait_locked _ _ _ _ _ _ _) as [[[timed_out s1] w1]|] eqn:E; [|done]. intros H1.
  eapply outcome_safe_trans; [by eapply wait_locked_safe|]. intros _ _.
  destruct timed_out; [|by eapply IH]. destruct (queues w1 !! q) as [y|]; [|done].
  destruct (prvIsQueueEmpty y); [injection H1 as <-; apply safe_refl|].
  eapply outcome_safe_trans; [apply Hi|]. intros _ _. by eapply IH.
Qed.

(** A semaphore stays one while the call is blocked. *)
Definition is_semaphore (w : world) (q : Z) : Prop := forall x, queues w !! q = Some x -> uxItemSize x = 0.

Lemma semaphore_shape w w' q x : queues w !! q = Some x -> is_semaphore w q -> same_shape w w' ->
  is_semaphore w' q.
Proof.
  intros Hx H Hs y Hy. destruct (Hs q x Hx) as (z & Hz & E & _). rewrite Hy in Hz. injection Hz as <-.
  rewrite E. by apply H.
Qed.

Lemma take_loop_safe env : Forall env_safe env -> forall w q s o, is_semaphore w q ->
  take_loop env w q s = Some o -> outcome_safe w o.
Proof.
  induction 1 as [|i env Hi _ IH]; intros w q s o Hsem; cbn [take_loop];
    (destruct (queues w !! q) as [x|] eqn:Hx; [|done]); destruct (Z.ltb_spec 0 (uxMessagesWaiting x)).
  1,3: destruct (take_now w q) as [w1|] eqn:E; [|done]; intros [= <-]; eapply take_now_safe; [done..|by apply Hsem|done].
  1,2: destruct (_ =? 0).
  1-3: intros [= <-]; apply safe_refl.
  destruct (wait_locked _ _ _ _ _ _ _) as [[[timed_out s1] w1]|] eqn:E; [|done]. intros H1.
  eapply outcome_safe_trans; [by eapply wait_locked_safe|]. intros _ Hsh.
  pose proof (semaphore_shape _ _ _ _ Hx Hsem Hsh) as Hsem1.
  destruct timed_out; [|by eapply IH]. destruct (queues w1 !! q) as [y|] eqn:Hy; [|done].
  destruct (prvIsQueueEmpty y).
  - destruct (qw_inherited s1); [|injection H1 as <-; apply safe_refl].
    destruct (vTaskPriorityDisinheritAfterTimeout _ _ _); [|done]. injection H1 as <-. by apply safe_same.
  - eapply outcome_safe_trans; [apply Hi|]. intros _ Hsh2.
    eapply IH; [|done]. by eapply semaphore_shape.
Qed.

(** ** Creation and reset *)

Lemma reset_ok x : 0 < uxLength x < 4294967296 -> 0 <= uxItemSize x -> queue_ok (reset_queue x).
Proof.
  intros Hl Hs. split; simpl; try (unfold queueUNLOCKED); try lia; try done. intros H0.
  split; [done|]. split; [exists 0|exists (uxLength x - 1)]; simpl; lia.
Qed.

Lemma xQueueGenericReset_safe w q new r w' : xQueueGenericReset w q new = Some (r, w') -> safe w w'.
Proof.
  unfold xQueueGenericReset. destruct (queues w !! q) as [x|]; [|done]. destruct (_ && _); [|done].
  cbn [guard_c]. cbv zeta. intros H. apply (safe_trans _ (modify w q reset_queue)).
  { eapply safe_alter; [reflexivity|]. intros y _ Qy. split; [|done]. apply reset_ok; apply Qy. }
  intros _ _. apply safe_same. destruct new; [by injection H as _ <-|].
  destruct (wake_first _ _) as [[b w1]|] eqn:E; [|done]. injection H as _ <-. by eapply wake_first_same.
Qed.

(** A new queue is put at an address where there is none. *)
Lemma new_queue_queues w n size p st q w' : prvInitialiseNewQueue w n size p st q = Some w' ->
  exists x, queues w' = <[q := reset_queue x]> (queues w) /\ uxLength x = n /\ uxItemSize x = size.
Proof.
  unfold prvInitialiseNewQueue, xQueueGenericReset. cbn [queues]. rewrite lookup_insert_eq.
  destruct (_ && _); [|done]. cbn [guard_c]. cbv zeta. intros [= <-]. simpl.
  exists (mkQueue (if size =? 0 then q else p) 0 0 0 0 n size 0 0 st NULL). split; [|done].
  apply map_eq. intros i. destruct (decide (q = i)) as [->|].
  - by rewrite lookup_alter_eq, !lookup_insert_eq.
  - by rewrite lookup_alter_ne, !lookup_insert_ne.
Qed.

Lemma safe_insert w w' q x : queues w !! q = None -> queue_ok x -> queues w' = <[q := x]> (queues w) -> safe w w'.
Proof.
  intros Hn Hx E H. split.
  - intros q' y. rewrite E, lookup_insert. case_decide; [by intros [= <-]|apply H].
  - intros q' y Hy. exists y. rewrite E, lookup_insert_ne; [done|congruence].
Qed.

Lemma create_queues w n size q h w' : is_u32 n -> 0 <= size ->
  xQueueGenericCreate w n size q = Some (h, w') ->
  h = q /\ (w' = w \/ exists x, queues w' = <[q := x]> (queues w) /\ queue_ok x /\ uxLength x = n /\ uxItemSize x = size).
Proof.
  unfold is_u32. intros Hn Hs. unfold xQueueGenericCreate. destruct (Z.ltb_spec 0 n); [|done].
  destruct (_ && _); [|done]. cbn [guard_c]. destruct (Z.eqb_spec q NULL) as [->|]; [intros [= <- <-]; auto|].
  destruct (prvInitialiseNewQueue _ _ _ _ _ _) as [w1|] eqn:E; [|done]. intros [= <- <-].
  apply new_queue_queues in E as (x & E & E1 & E2). split; [done|]. right. exists (reset_queue x).
  split_and!; [done|apply reset_ok; lia|done..].
Qed.

Lemma create_static_queues w n size p q h w' : is_u32 n -> 0 <= size ->
  xQueueGenericCreateStatic w n size p q = Some (h, w') ->
  h = q /\ exists x, queues w' = <[q := x]> (queues w) /\ queue_ok x /\ uxLength x = n /\ uxItemSize x = size.
Proof.
  unfold is_u32. intros Hn Hs. unfold xQueueGenericCreateStatic. destruct (negb _); [|done]. cbn [guard_c].
  destruct (Z.ltb_spec 0 n); [|done]. destruct (_ && _); [|done]. cbn [guard_c].
  destruct (prvInitialiseNewQueue _ _ _ _ _ _) as [w1|] eqn:E; [|done]. intros [= <- <-].
  apply new_queue_queues in E as (x & E & E1 & E2). split; [done|]. exists (reset_queue x).
  split_and!; [done|apply reset_ok; lia|done..].
Qed.

Lemma xQueueGenericCreate_safe w n size q h w' : queues w !! q = None -> is_u32 n -> 0 <= size ->
  xQueueGenericCreate w n size q = Some (h, w') -> safe w w'.
Proof.
  intros Hf Hn Hs E. destruct (create_queues _ _ _ _ _ _ Hn Hs E) as [_ [->|(x & E' & Qx & _)]];
    [apply safe_refl|]. by eapply safe_insert.
Qed.

Lemma xQueueGenericCreateStatic_safe w n size p q h w' : queues w !! q = None -> is_u32 n -> 0 <= size ->
  xQueueGenericCreateStatic w n size p q = Some (h, w') -> safe w w'.
Proof.
  intros Hf Hn Hs E. destruct (create_static_queues _ _ _ _ _ _ _ Hn Hs E) as [_ (x & E' & Qx & _)].
  by eapply safe_insert.
Qed.

(** ** The blocking calls *)

Lemma xQueueGenericSend_safe env w q p t pos o : Forall env_safe env -> overwrite_ok w q pos ->
  xQueueGenericSend env w q p t pos = Some o -> outcome_safe w o.
Proof.
  intros He Hov. unfold xQueueGenericSend. destruct (queues w !! q); [|done].
  destruct (send_args_ok _ _ _); [|done]. destruct (may_block _ _); [|done]. cbn [guard_c].
  by apply send_loop_safe.
Qed.

Lemma xQueueReceive_safe env w q p t o : Forall env_safe env ->
  xQueueReceive env w q p t = Some o -> outcome_safe w o.
Proof.
  intros He. unfold xQueueReceive. destruct (queues w !! q); [|done].
  destruct (receive_args_ok _ _); [|done]. destruct (may_block _ _); [|done]. cbn [guard_c].
  apply receive_loop_safe; [|done]. intros w0 x w'. apply receive_now_safe.
Qed.

Lemma xQueuePeek_safe env w q p t o : Forall env_safe env ->
  xQueuePeek env w q p t = Some o -> outcome_safe w o.
Proof.
  intros He. unfold xQueuePeek. destruct (queues w !! q); [|done].
  destruct (receive_args_ok _ _); [|done]. destruct (may_block _ _); [|done]. cbn [guard_c].
  apply receive_loop_safe; [|done]. intros w0 x w'. apply peek_now_safe.
Qed.

Lemma xQueueSemaphoreTake_safe env w q t o : Forall env_safe env ->
  xQueueSemaphoreTake env w q t = Some o -> outcome_safe w o.
Proof.
  intros He. unfold xQueueSemaphoreTake. destruct (queues w !! q) as [x|] eqn:Hx; [|done].
  destruct (Z.eqb_spec (uxItemSize x) 0); [|done]. cbn [guard_c]. destruct (may_block _ _); [|done].
  apply take_loop_safe; [done|]. intros y Hy. congruence.
Qed.

(** ** Mutexes, semaphores and sets *)

(** Of a semaphore or mutex any field but the bounds may change. *)
Lemma semaphore_modify_safe w w' q f : is_semaphore w q ->
  (forall x, uxItemSize (f x) = uxItemSize x /\ uxLength (f x) = uxLength x /\
     uxMessagesWaiting (f x) = uxMessagesWaiting x /\ cRxLock (f x) = cRxLock x /\ cTxLock (f x) = cTxLock x) ->
  queues w' = alter f q (queues w) -> safe w w'.
Proof.
  intros Hsem Hf E. eapply safe_alter; [exact E|]. intros x Hx Qx. specialize (Hsem x Hx).
  destruct (Hf x) as (F1 & F2 & F3 & F4 & F5). split; [|done]. apply (ok_semaphore x); congruence.
Qed.

Lemma not_overwriting w q : overwrite_ok w q queueSEND_TO_BACK.
Proof. done. Qed.

Lemma prvInitialiseMutex_safe w q w' : is_semaphore w q -> prvInitialiseMutex w q = Some w' -> safe w w'.
Proof.
  intros Hsem. unfold prvInitialiseMutex. destruct (negb _); [|intros [= <-]; apply safe_refl].
  cbv zeta. set (w1 := modify w q _).
  destruct (xQueueGenericSend _ w1 _ _ _ _) as [[r w2|w2]|] eqn:E; [|done..]. intros [= <-].
  apply (safe_trans _ w1).
  { eapply semaphore_modify_safe; [exact Hsem| |reflexivity]. done. }
  intros _ _. apply xQueueGenericSend_safe in E; [done|constructor|apply not_overwriting].
Qed.

Lemma create_mutex_safe w n w1 w' q h : queues w !! q = None ->
  (h = q /\ (w1 = w \/ exists x, queues w1 = <[q := x]> (queues w) /\ queue_ok x /\ uxLength x = n /\ uxItemSize x = 0)) ->
  prvInitialiseMutex w1 h = Some w' -> safe w w'.
Proof.
  intros Hf [-> H] E. assert (safe w w1 /\ is_semaphore w1 q) as [Hs Hsem].
  { destruct H as [->|(x & E1 & Qx & _ & E0)].
    - split; [apply safe_refl|]. intros y Hy. congruence.
    - split; [by eapply safe_insert|]. intros y. rewrite E1, lookup_insert_eq. by intros [= <-]. }
  apply (safe_trans _ w1); [done|]. intros _ _. by eapply prvInitialiseMutex_safe.
Qed.

Lemma counting_safe w n c w1 q h : queues w !! q = None -> 0 <= c <= n ->
  (h = q /\ (w1 = w \/ exists x, queues w1 = <[q := x]> (queues w) /\ queue_ok x /\ uxLength x = n /\ uxItemSize x = 0)) ->
  safe w (if negb (h =? NULL) then modify w1 h (set_messages c) else w1).
Proof.
  intros Hf Hc [-> H]. apply (safe_trans _ w1).
  { destruct H as [->|(x & E1 & Qx & _)]; [apply safe_refl|by eapply safe_insert]. }
  intros _ _. destruct (negb _); [|apply safe_refl]. destruct H as [->|(x & E1 & Qx & El & _)].
  - eapply safe_alter; [reflexivity|]. intros y Hy. congruence.
  - eapply (set_messages_safe w1); [by rewrite E1, lookup_insert_eq| |reflexivity]. by rewrite El.
Qed.

Lemma xQueueGiveMutexRecursive_safe w q r w' : is_semaphore w q ->
  xQueueGiveMutexRecursive w q = Some (r, w') -> safe w w'.
Proof.
  intros Hsem. unfold xQueueGiveMutexRecursive. destruct (queues w !! q) as [x|]; [|done].
  destruct (_ =? pxCurrentTCB _); [|intros [= _ <-]; apply safe_refl]. cbv zeta. set (w1 := modify w q _).
  assert (safe w w1) as H1 by (by eapply semaphore_modify_safe; [exact Hsem| |reflexivity]).
  destruct (_ =? 0); [|by intros [= _ <-]].
  destruct (xQueueGenericSend _ w1 _ _ _ _) as [[r' w2|w2]|] eqn:E; [|done..]. intros [= _ <-].
  apply (safe_trans _ w1); [done|]. intros _ _.
  apply xQueueGenericSend_safe in E; [done|constructor|apply not_overwriting].
Qed.

Lemma xQueueTakeMutexRecursive_safe env w q t o : Forall env_safe env -> is_semaphore w q ->
  xQueueTakeMutexRecursive env w q t = Some o -> outcome_safe w o.
Proof.
  intros He Hsem. unfold xQueueTakeMutexRecursive. destruct (queues w !! q) as [x|] eqn:Hx; [|done]. cbv zeta.
  assert (forall w, is_semaphore w q ->
    safe w (modify w q (fun x => set_u_second (u32 (uxRecursiveCallCount x + 1)) x))) as Hcount.
  { intros w0 H0. eapply semaphore_modify_safe; [exact H0| |reflexivity]. done. }
  destruct (_ =? pxCurrentTCB _); [intros [= <-]; by apply Hcount|].
  destruct (xQueueSemaphoreTake env w q t) as [[r w1|w1]|] eqn:E; [| |done]; intros [= <-];
    apply xQueueSemaphoreTake_safe in E; try done. simpl in *.
  apply (safe_trans _ w1); [done|]. intros _ Hsh. destruct (negb _); [|apply safe_refl].
  apply Hcount. by eapply semaphore_shape.
Qed.

Lemma vQueueWaitForMessageRestricted_safe i w q t b w' : env_safe i ->
  vQueueWaitForMessageRestricted i w q t b = Some w' -> safe w w'.
Proof.
  intros Hi. unfold vQueueWaitForMessageRestricted. cbv zeta. set (w1 := i WhileLocked _).
  destruct (queues w1 !! q) as [x|]; [|done]. destruct (if _ =? 0 then _ else _) as [w2|] eqn:E; [|done].
  intros H. apply (safe_trans _ w1); [apply (safe_trans _ (prvLockQueue w q));
    [apply prvLockQueue_safe|intros _ _; apply Hi]|]. intros _ _.
  apply (safe_trans _ w2); [|intros _ _; eapply prvUnlockQueue_safe; [intros ?; apply Hi|done]].
  apply (safe_trans _ (i AfterTest w1)); [apply Hi|]. intros _ _.
  destruct (_ =? 0); [|injection E as <-; apply safe_refl].
  destruct (vTaskPlaceOnEventListRestricted _ _ _ _) as [k|]; [|done]. injection E as <-.
  eapply safe_trans; [|intros _ _; apply Hi]. by apply safe_same.
Qed.

Lemma set_container_safe w q c : safe w (modify w q (set_container c)).
Proof. eapply safe_alter; [reflexivity|]. intros x _ Qx. split; [by apply ok_container|done]. Qed.

Lemma xQueueAddToSet_safe w q s r w' : xQueueAddToSet w q s = Some (r, w') -> safe w w'.
Proof.
  unfold xQueueAddToSet. destruct (queues w !! q); [|done].
  destruct (negb _); [intros [= _ <-]; apply safe_refl|].
  destruct (negb _); [intros [= _ <-]; apply safe_refl|]. intros [= _ <-]. apply set_container_safe.
Qed.

Lemma xQueueRemoveFromSet_safe w q s r w' : xQueueRemoveFromSet w q s = Some (r, w') -> safe w w'.
Proof.
  unfold xQueueRemoveFromSet. destruct (queues w !! q); [|done].
  destruct (negb _); [intros [= _ <-]; apply safe_refl|].
  destruct (negb _); [intros [= _ <-]; apply safe_refl|]. intros [= _ <-]. apply set_container_safe.
Qed.

Lemma xQueueSelectFromSet_safe env w s t buf r w' : Forall env_safe env ->
  xQueueSelectFromSet env w s t buf = Some (r, w') -> safe w w'.
Proof.
  intros He. unfold xQueueSelectFromSet. cbv zeta. set (w1 := with_mem w _).
  destruct (xQueueReceive env w1 s buf t) as [[x w2|w2]|] eqn:E; [| |done]; intros [= _ <-];
    (apply xQueueReceive_safe in E; [|done]); (apply (safe_trans _ w1); [by apply safe_same|]);
    intros _ _; exact E.
Qed.

Lemma xQueueSelectFromSetFromISR_safe w s buf r w' :
  xQueueSelectFromSetFromISR w s buf = Some (r, w') -> safe w w'.
Proof.
  unfold xQueueSelectFromSetFromISR. cbv zeta. set (w1 := with_mem w _).
  destruct (xQueueReceiveFromISR w1 s buf) as [[[x b] w2]|] eqn:E; [|done]. intros [= _ <-].
  apply (safe_trans _ w1); [by apply safe_same|]. intros _ _. by eapply xQueueReceiveFromISR_safe.
Qed.

(** ** Every operation *)

Definition outcome_world (o : q_outcome) : world :=
  match o with QReturned _ w => w | QRunning w => w end.

(** A step is one call of queue.c, or the rest of the system changing the kernel
    or memory other than queue structures. *)
Inductive q_step : world -> world -> Prop :=
| st_create w n size q h w' : queues w !! q = None -> is_u32 n -> 0 <= size ->
    xQueueGenericCreate w n size q = Some (h, w') -> q_step w w'
| st_create_static w n size p q h w' : queues w !! q = None -> is_u32 n -> 0 <= size ->
    xQueueGenericCreateStatic w n size p q = Some (h, w') -> q_step w w'
| st_mutex w q h w' : queues w !! q = None -> xQueueCreateMutex w q = Some (h, w') -> q_step w w'
| st_mutex_static w q h w' : queues w !! q = None -> xQueueCreateMutexStatic w q = Some (h, w') -> q_step w w'
| st_counting w n c q h w' : queues w !! q = None -> is_u32 n -> 0 <= c ->
    xQueueCreateCountingSemaphore w n c q = Some (h, w') -> q_step w w'
| st_counting_static w n c q h w' : queues w !! q = None -> is_u32 n -> 0 <= c ->
    xQueueCreateCountingSemaphoreStatic w n c q = Some (h, w') -> q_step w w'
| st_create_set w n q h w' : queues w !! q = None -> is_u32 n ->
    xQueueCreateSet w n q = Some (h, w') -> q_step w w'
| st_reset w q r w' : xQueueGenericReset w q false = Some (r, w') -> q_step w w'
| st_send env w q p t pos o : Forall env_safe env -> overwrite_ok w q pos ->
    xQueueGenericSend env w q p t pos = Some o -> q_step w (outcome_world o)
| st_send_isr w q p pos r b w' : overwrite_ok w q pos ->
    xQueueGenericSendFromISR w q p pos = Some (r, b, w') -> q_step w w'
| st_give_isr w q r b w' : xQueueGiveFromISR w q = Some (r, b, w') -> q_step w w'
| st_receive env w q p t o : Forall env_safe env ->
    xQueueReceive env w q p t = Some o -> q_step w (outcome_world o)
| st_peek env w q p t o : Forall env_safe env ->
    xQueuePeek env w q p t = Some o -> q_step w (outcome_world o)
| st_take env w q t o : Forall env_safe env ->
    xQueueSemaphoreTake env w q t = Some o -> q_step w (outcome_world o)
| st_receive_isr w q p r b w' : xQueueReceiveFromISR w q p = Some (r, b, w') -> q_step w w'
| st_peek_isr w q p r w' : xQueuePeekFromISR w q p = Some (r, w') -> q_step w w'
| st_give_recursive w q r w' : is_semaphore w q -> xQueueGiveMutexRecursive w q = Some (r, w') -> q_step w w'
| st_take_recursive env w q t o : Forall env_safe env -> is_semaphore w q ->
    xQueueTakeMutexRecursive env w q t = Some o -> q_step w (outcome_world o)
| st_restricted i w q t b w' : env_safe i -> vQueueWaitForMessageRestricted i w q t b = Some w' -> q_step w w'
| st_add_set w q s r w' : xQueueAddToSet w q s = Some (r, w') -> q_step w w'
| st_remove_set w q s r w' : xQueueRemoveFromSet w q s = Some (r, w') -> q_step w w'
| st_select env w s t buf r w' : Forall env_safe env ->
    xQueueSelectFromSet env w s t buf = Some (r, w') -> q_step w w'
| st_select_isr w s buf r w' : xQueueSelectFromSetFromISR w s buf = Some (r, w') -> q_step w w'
| st_system w m k : q_step w (with_kern (with_mem w m) k).

Lemma outcome_safe_world w o : outcome_safe w o -> safe w (outcome_world o).
Proof. by destruct o. Qed.

Lemma q_step_safe w w' : q_step w w' -> safe w w'.
Proof.
  destruct 1 as [w n size q h w' Hf Hn Hs E|w n size p q h w' Hf Hn Hs E|w q h w' Hf E|w q h w' Hf E
    |w n c q h w' Hf Hn Hc E|w n c q h w' Hf Hn Hc E|w n q h w' Hf Hn E|w q r w' E
    |env w q p t pos o He Hov E|w q p pos r b w' Hov E|w q r b w' E|env w q p t o He E|env w q p t o He E
    |env w q t o He E|w q p r b w' E|w q p r w' E|w q r w' Hsem E|env w q t o He Hsem E|i w q t b w' Hi E
    |w q s r w' E|w q s r w' E|env w s t buf r w' He E|w s buf r w' E|w m k].
  - by eapply xQueueGenericCreate_safe.
  - by eapply xQueueGenericCreateStatic_safe.
  - unfold xQueueCreateMutex in E. destruct (xQueueGenericCreate w 1 0 q) as [[h1 w1]|] eqn:E1; [|done].
    destruct (prvInitialiseMutex w1 h1) as [w2|] eqn:E2; [|done]. injection E as _ <-.
    eapply create_mutex_safe; [exact Hf| |exact E2].
    apply create_queues in E1; [done|done|lia].
  - unfold xQueueCreateMutexStatic in E.
    destruct (xQueueGenericCreateStatic w 1 0 NULL q) as [[h1 w1]|] eqn:E1; [|done].
    destruct (prvInitialiseMutex w1 h1) as [w2|] eqn:E2; [|done]. injection E as _ <-.
    eapply create_mutex_safe; [exact Hf| |exact E2].
    apply create_static_queues in E1 as [-> ?]; [split; [done|by right]|done|lia].
  - unfold xQueueCreateCountingSemaphore in E. destruct (negb (n =? 0)); [|done].
    destruct (Z.leb_spec c n); [|done]. cbn [andb guard_c] in E.
    destruct (xQueueGenericCreate w n _ q) as [[h1 w1]|] eqn:E1; [|done]. injection E as _ <-.
    apply (counting_safe w n c _ q); [exact Hf|lia|]. by apply create_queues in E1.
  - unfold xQueueCreateCountingSemaphoreStatic in E. destruct (negb (n =? 0)); [|done].
    destruct (Z.leb_spec c n); [|done]. cbn [andb guard_c] in E.
    destruct (xQueueGenericCreateStatic w n _ NULL q) as [[h1 w1]|] eqn:E1; [|done]. injection E as _ <-.
    apply (counting_safe w n c _ q); [exact Hf|lia|].
    apply create_static_queues in E1 as [-> ?]; [split; [done|by right]|done|unfold queueSEMAPHORE_QUEUE_ITEM_LENGTH; lia].
  - apply (xQueueGenericCreate_safe w n 4 q h w'); [done..|lia|exact E].
  - by eapply xQueueGenericReset_safe.
  - eapply outcome_safe_world, xQueueGenericSend_safe; done.
  - by eapply xQueueGenericSendFromISR_safe.
  - by eapply xQueueGiveFromISR_safe.
  - by eapply outcome_safe_world, xQueueReceive_safe.
  - by eapply outcome_safe_world, xQueuePeek_safe.
  - by eapply outcome_safe_world, xQueueSemaphoreTake_safe.
  - by eapply xQueueReceiveFromISR_safe.
  - by eapply xQueuePeekFromISR_safe.
  - by eapply xQueueGiveMutexRecursive_safe.
  - by eapply outcome_safe_world, xQueueTakeMutexRecursive_safe.
  - by eapply vQueueWaitForMessageRestricted_safe.
  - by eapply xQueueAddToSet_safe.
  - by eapply xQueueRemoveFromSet_safe.
  - by eapply xQueueSelectFromSet_safe.
  - by eapply xQueueSelectFromSetFromISR_safe.
  - by apply safe_same.
Qed.

(** C13: every reachable queue is well formed: it never holds more items than its
    length, its pointers stay at slots of its storage, its lock counts stay in
    range; and no call changes the size of a queue that exists.  The calls are those of
    [q_step], in any order and with anything of that kind done by others while one is
    blocked: all of queue.c, with an overwrite only of a queue that is not a semaphore
    (see [overwrite_binary_semaphore]), queues created at addresses not in use, and the
    recursive mutex functions on semaphores and mutexes only. *)
Theorem queues_stay_well_formed (w w' : world) :
  rtc q_step w w' -> world_ok w -> world_ok w' /\ same_shape w w'.
Proof.
  intros H. change (safe w w'). induction H as [w|w1 w2 w3 Hstep _ IH]; [apply safe_refl|].
  apply (safe_trans _ w2); [by apply q_step_safe|done].
Qed.

(** ** Examples *)

Lemma demo_world_ok : world_ok demo_world.
Proof. intros q x. simpl. rewrite lookup_empty. done. Qed.

(** A queue is made and an interrupt posts to it. *)
Example queues_stay_well_formed_witness :
  exists w1 w2 : world, xQueueGenericCreate demo_world 2 1 1000 = Some (1000, w1) /\
    xQueueGenericSendFromISR w1 1000 2000 queueSEND_TO_BACK = Some (pdPASS, false, w2) /\
    world_ok w2 /\ same_shape demo_world w2.
Proof.
  destruct (xQueueGenericCreate demo_world 2 1 1000) as [[h w1]|] eqn:E1; [|vm_compute in E1; discriminate E1].
  assert (match xQueueGenericCreate demo_world 2 1 1000 with
    | Some (h, w1) => h = 1000 /\ match xQueueGenericSendFromISR w1 1000 2000 queueSEND_TO_BACK with
        | Some (r, b, _) => r = pdPASS /\ b = false | None => False end
    | None => False end) as H by (vm_compute; done).
  rewrite E1 in H. destruct H as [-> H].
  destruct (xQueueGenericSendFromISR w1 1000 2000 queueSEND_TO_BACK) as [[[r b] w2]|] eqn:E2; [|done].
  destruct H as [-> ->]. exists w1, w2. split; [done|]. split; [done|].
  apply (queues_stay_well_formed demo_world w2); [|exact demo_world_ok].
  eapply rtc_l; [|eapply rtc_l; [|apply rtc_refl]].
  - eapply st_create; [| | |exact E1]; [apply lookup_empty|done|done].
  - eapply st_send_isr; [|exact E2]. apply not_overwriting.
Defined.

(** Only the length is checked when overwriting, so "overwriting" a binary
    semaphore that has been given makes its count 2. *)
Lemma overwrite_binary_semaphore :
  match xQueueCreateCountingSemaphore demo_world 1 1 1000 with
  | Some (_, w) =>
      match xQueueGenericSend [] w 1000 NULL 0 queueOVERWRITE with
      | Some (QReturned r w) => r = pdPASS /\
          (uxMessagesWaiting <$> queues w !! 1000) = Some 2 /\ (uxLength <$> queues w !! 1000) = Some 1
      | _ => False
      end
  | None => False
  end.
Proof. vm_compute. done. Qed.
