(* ===== verification/QueueMutex.v ===== *)
(** * Mutexes hand over and lend priorities

    A task that waits for a mutex lends its priority to the holder; when the
    holder gives the mutex it falls back to its own priority, the waiting task is
    woken and gets the mutex. *)

From stdpp Require Import base list option gmap.
From Stdlib Require Import ZArith Lia.
From S2P Require Import Prelude FreeRTOSList Kernel KernelSched KernelPrio Queue QueueFifo QueueWait QueueTimeout.

(** ** The kernel side *)

Lemma alter_tcb_lookup k t f u : tcbs (alter_tcb k t f) !! u = if decide (u = t) then f <$> tcbs k !! t else tcbs k !! u.
Proof.
  simpl. rewrite lookup_alter. destruct (decide (t = u)), (decide (u = t)); by subst.
Qed.

(** What a change of one task's TCB and ready list leaves alone. *)
Record other_tasks_same (t : Z) (k k' : kernel) : Prop := {
  os_tcbs : forall u, u <> t -> tcbs k' !! u = tcbs k !! u;
  os_ready : forall u p, u <> t -> (u ∈ default [] (pxReadyTasksLists k' !! p) <-> u ∈ default [] (pxReadyTasksLists k !! p));
  os_events : event_lists k' = event_lists k;
  os_current : pxCurrentTCB k' = pxCurrentTCB k;
  os_suspended : uxSchedulerSuspended k' = uxSchedulerSuspended k;
  os_pending : xPendingReadyList k' = xPendingReadyList k;
  os_pended : xPendedTicks k' = xPendedTicks k }.

Lemma other_tasks_trans t k1 k2 k3 : other_tasks_same t k1 k2 -> other_tasks_same t k2 k3 -> other_tasks_same t k1 k3.
Proof.
  intros [A1 A2 A3 A4 A5 A6 A7] [B1 B2 B3 B4 B5 B6 B7]. split; try congruence.
  - intros u Hu. by rewrite B1, A1.
  - intros u p Hu. by rewrite B2, A2.
Qed.

Lemma alter_tcb_others k t f : other_tasks_same t k (alter_tcb k t f).
Proof. split; try done. intros u Hu. by rewrite alter_tcb_lookup, decide_False. Qed.

Lemma remove_state_others k t : other_tasks_same t k (remove_state_item k t).
Proof.
  split; try done. intros u p Hu. simpl. rewrite lookup_fmap.
  destruct (pxReadyTasksLists k !! p); simpl; [|done]. rewrite list_remove_task_elem. tauto.
Qed.

Lemma ready_others k t : other_tasks_same t k (prvAddTaskToReadyList k t).
Proof.
  destruct (prvAddTaskToReadyList_eq k t) as [top ->]. split; try done. intros u p Hu. simpl.
  destruct (decide (p = priority k t)) as [->|]; [|by rewrite lookup_insert_ne].
  rewrite lookup_insert_eq. simpl. rewrite list_insert_end_elem. tauto.
Qed.

Lemma ready_self k t : t ∈ default [] (pxReadyTasksLists (prvAddTaskToReadyList k t) !! priority k t) /\
  tcbs (prvAddTaskToReadyList k t) = tcbs k.
Proof.
  destruct (prvAddTaskToReadyList_eq k t) as [top ->]. simpl. rewrite lookup_insert_eq. simpl.
  split; [|done]. apply list_insert_end_elem. by left.
Qed.

(** The ready holder inherits the running task's higher priority. *)
Lemma inherit_spec k h c :
  tcbs k !! h = Some c -> h <> NULL -> uxPriority c < priority k (pxCurrentTCB k) ->
  h ∈ default [] (pxReadyTasksLists k !! uxPriority c) ->
  exists k' c', xTaskPriorityInherit k h = (true, k') /\ other_tasks_same h k k' /\
    tcbs k' !! h = Some c' /\ uxPriority c' = priority k (pxCurrentTCB k) /\
    uxBasePriority c' = uxBasePriority c /\ uxMutexesHeld c' = uxMutexesHeld c /\
    h ∈ default [] (pxReadyTasksLists k' !! priority k (pxCurrentTCB k)).
Proof.
  intros Hc Hh Hlt Hr. unfold xTaskPriorityInherit. destruct (Z.eqb_spec h NULL); [done|]. cbn [negb].
  assert (forall k0 c0, tcbs k0 !! h = Some c0 -> priority k0 h = uxPriority c0) as Hp
    by (intros k0 c0 E; unfold priority; by rewrite E).
  rewrite (Hp k c Hc). destruct (Z.ltb_spec (uxPriority c) (priority k (pxCurrentTCB k))); [|lia].
  set (p := priority k (pxCurrentTCB k)) in *. set (k1 := reset_event_item_value k h p).
  assert (exists c1, tcbs k1 !! h = Some c1 /\ uxPriority c1 = uxPriority c /\ uxBasePriority c1 = uxBasePriority c /\
    uxMutexesHeld c1 = uxMutexesHeld c /\ other_tasks_same h k k1 /\ pxReadyTasksLists k1 = pxReadyTasksLists k)
    as (c1 & Hc1 & E1 & E2 & E3 & Ho1 & Er1).
  { unfold k1, reset_event_item_value. destruct (_ =? 0); [|exists c; by split_and!].
    eexists. rewrite alter_tcb_lookup, decide_True, Hc by done. split; [reflexivity|].
    split_and!; try done. apply alter_tcb_others. }
  unfold in_ready_list. rewrite (Hp k1 c1 Hc1), E1, Er1, bool_decide_true by done.
  set (k2 := remove_state_item k1 h). set (k3 := alter_tcb k2 h (set_priority p)).
  assert (tcbs k3 !! h = Some (set_priority p c1)) as Hc3
    by (unfold k3; rewrite alter_tcb_lookup, decide_True by done; simpl; by rewrite Hc1).
  destruct (ready_self k3 h) as [R1 R2].
  eexists _, (set_priority p c1). split; [reflexivity|]. split_and!; try done.
  - eapply other_tasks_trans; [exact Ho1|]. eapply other_tasks_trans; [apply remove_state_others|].
    eapply other_tasks_trans; [apply alter_tcb_others|]. apply ready_others.
  - by rewrite R2.
  - by rewrite (Hp k3 _ Hc3) in R1.
Qed.

(** It gives the priority back with its last mutex. *)
Lemma disinherit_spec k h c :
  tcbs k !! h = Some c -> h <> NULL -> pxCurrentTCB k = h -> uxMutexesHeld c = 1 ->
  uxPriority c <> uxBasePriority c ->
  exists k' c', xTaskPriorityDisinherit k h = Some (true, k') /\ other_tasks_same h k k' /\
    tcbs k' !! h = Some c' /\ uxPriority c' = uxBasePriority c /\ uxMutexesHeld c' = 0 /\
    h ∈ default [] (pxReadyTasksLists k' !! uxBasePriority c).
Proof.
  intros Hc Hh Hcur Hm Hne. unfold xTaskPriorityDisinherit. destruct (Z.eqb_spec h NULL); [done|]. cbn [negb].
  rewrite Hcur, Z.eqb_refl. cbn [guard_c].
  assert (mutexes_held k h = 1) as -> by (unfold mutexes_held; by rewrite Hc).
  cbn [Z.eqb negb guard_c]. change (1 - 1) with 0. set (k1 := alter_tcb k h _).
  assert (tcbs k1 !! h = Some (set_mutexes_held 0 c)) as Hc1.
  { unfold k1. by rewrite alter_tcb_lookup, decide_True, Hc by done. }
  assert (priority k1 h = uxPriority c) as -> by (unfold priority; by rewrite Hc1).
  assert (base_priority k1 h = uxBasePriority c) as -> by (unfold base_priority; by rewrite Hc1).
  assert (mutexes_held k1 h = 0) as -> by (unfold mutexes_held; by rewrite Hc1).
  destruct (Z.eqb_spec (uxPriority c) (uxBasePriority c)); [done|]. cbn [negb andb Z.eqb].
  set (k2 := remove_state_item k1 h).
  assert (base_priority k2 h = uxBasePriority c) as -> by (unfold base_priority; change (tcbs k2) with (tcbs k1); by rewrite Hc1).
  set (k3 := alter_tcb k2 h _). set (k4 := alter_tcb k3 h _).
  assert (exists c4, tcbs k4 !! h = Some c4 /\ uxPriority c4 = uxBasePriority c /\ uxMutexesHeld c4 = 0)
    as (c4 & Hc4 & E4 & F4).
  { unfold k4, k3. rewrite !alter_tcb_lookup, !decide_True by done. change (tcbs k2) with (tcbs k1). rewrite Hc1. simpl. eauto. }
  destruct (ready_self k4 h) as [R1 R2]. eexists _, c4. split; [reflexivity|]. split_and!; try done.
  - eapply other_tasks_trans; [apply alter_tcb_others|]. eapply other_tasks_trans; [apply remove_state_others|].
    eapply other_tasks_trans; [apply alter_tcb_others|]. eapply other_tasks_trans; [apply alter_tcb_others|].
    apply ready_others.
  - by rewrite R2.
  - replace (priority k4 h) with (uxBasePriority c) in R1; [done|]. unfold priority. by rewrite Hc4.
Qed.

(** Going to sleep does not touch the other tasks. *)
Lemma place_others k l ticks u : u <> pxCurrentTCB k ->
  let k' := vTaskPlaceOnEventList k l ticks in
  tcbs k' !! u = tcbs k !! u /\
  forall p, u ∈ default [] (pxReadyTasksLists k' !! p) <-> u ∈ default [] (pxReadyTasksLists k !! p).
Proof.
  intros Hu. unfold vTaskPlaceOnEventList. cbv zeta.
  match goal with |- context [prvAddCurrentTaskToDelayedList ?a ticks true] => set (k0 := a) end.
  split.
  - destruct (prvAddCurrentTaskToDelayedList_frame k0 ticks) as (_ & _ & _ & _ & _ & F6 & _).
    rewrite F6 by done. simpl. by rewrite lookup_alter_ne.
  - intros p. assert (pxReadyTasksLists (prvAddCurrentTaskToDelayedList k0 ticks true) =
      list_remove_task (pxCurrentTCB k) <$> pxReadyTasksLists k) as ->.
    { unfold prvAddCurrentTaskToDelayedList. destruct (_ && _); [done|]. simpl.
      destruct (_ <? _); [done|]. simpl. by destruct (_ <? _). }
    rewrite lookup_fmap. destruct (pxReadyTasksLists k !! p); simpl; [|done].
    rewrite list_remove_task_elem. tauto.
Qed.

(** The only waiter of an event list is made ready. *)
Lemma wake_ready k l t tcb :
  event_lists k !! l = Some [t] -> tcbs k !! t = Some tcb -> xEventContainer tcb = l ->
  uxSchedulerSuspended k = 0 ->
  exists b k', xTaskRemoveFromEventList k l = Some (b, k') /\ event_lists k' = <[l := []]> (event_lists k) /\
    tcbs k' = <[t := set_event_container NULL tcb]> (tcbs k) /\
    (forall u p, u <> t -> (u ∈ default [] (pxReadyTasksLists k' !! p) <-> u ∈ default [] (pxReadyTasksLists k !! p))) /\
    t ∈ default [] (pxReadyTasksLists k' !! uxPriority tcb) /\ pxCurrentTCB k' = pxCurrentTCB k.
Proof.
  intros Hl Ht Hc Hs. unfold xTaskRemoveFromEventList. rewrite Hl. simpl (default _ _). cbv iota zeta.
  set (k1 := remove_event_item k t).
  assert (event_lists k1 = <[l := []]> (event_lists k) /\ tcbs k1 = <[t := set_event_container NULL tcb]> (tcbs k) /\
    pxReadyTasksLists k1 = pxReadyTasksLists k /\ pxCurrentTCB k1 = pxCurrentTCB k /\
    uxSchedulerSuspended k1 = 0) as (E1 & E2 & E3 & E4 & E5).
  { unfold k1, remove_event_item. rewrite Ht. simpl. split_and!; try done. rewrite Hc.
    apply map_eq. intros i. destruct (decide (l = i)) as [<-|];
      [|by rewrite lookup_alter_ne, lookup_insert_ne].
    rewrite lookup_alter_eq, lookup_insert_eq, Hl. simpl. by rewrite list_remove_task_cons. }
  rewrite E5. cbn [Z.eqb]. set (k2 := remove_state_item k1 t). set (k3 := prvAddTaskToReadyList k2 t).
  destruct (ready_self k2 t) as [R1 R2]. destruct (ready_others k2 t) as [_ O2 O3 O4 _ _ _]. fold k3 in R1, R2, O2, O3, O4.
  assert (priority k2 t = uxPriority tcb) as Hp.
  { unfold priority. change (tcbs k2) with (tcbs k1). by rewrite E2, lookup_insert_eq. }
  assert (exists b k', (if priority k3 (pxCurrentTCB k3) <? priority k3 t
      then Some (true, with_pending k3 (xPendingReadyList k3) true) else Some (false, k3)) = Some (b, k') /\
    event_lists k' = event_lists k3 /\ tcbs k' = tcbs k3 /\ pxReadyTasksLists k' = pxReadyTasksLists k3 /\
    pxCurrentTCB k' = pxCurrentTCB k3) as (b & k' & -> & W1 & W2 & W3 & W4).
  { destruct (_ <? _); eexists _, _; by split. }
  exists b, k'. rewrite W1, W2, W3, W4. split; [done|]. split_and!.
  - by rewrite O3.
  - by rewrite R2.
  - intros u p Hu. rewrite O2 by done. rewrite <- E3. by apply (os_ready _ _ _ (remove_state_others k1 t)).
  - by rewrite <- Hp.
  - by rewrite O4.
Qed.

(** ** The mutex *)

Record mutex_at (w : world) (q holder count rx tx : Z) : Prop := mkMutexAt {
  ma_queue : exists x, queues w !! q = Some x /\ pcHead x = queueQUEUE_IS_MUTEX /\ uxItemSize x = 0 /\
    uxLength x = 1 /\ uxMessagesWaiting x = count /\ xMutexHolder x = holder /\ cRxLock x = rx /\
    cTxLock x = tx /\ pxQueueSetContainer x = NULL }.

(** Not locked: free, or held. *)
Definition mutex_free (w : world) (q : Z) : Prop := mutex_at w q NULL 1 queueUNLOCKED queueUNLOCKED.
Definition mutex_held (w : world) (q h : Z) : Prop := mutex_at w q h 0 queueUNLOCKED queueUNLOCKED.

Lemma mutex_at_queues w w' q h c rx tx : queues w' = queues w -> mutex_at w q h c rx tx -> mutex_at w' q h c rx tx.
Proof. intros E [H]. split. by rewrite E. Qed.

Lemma lock_mutex w q h c : mutex_at w q h c queueUNLOCKED queueUNLOCKED -> mutex_at (prvLockQueue w q) q h c 0 0.
Proof.
  intros [(x & Hx & M)]. split. eexists. split; [simpl; by rewrite lookup_alter_eq, Hx|].
  destruct_and! M. simpl. repeat match goal with H : _ = queueUNLOCKED |- _ => rewrite H end. by split_and!.
Qed.

Lemma unlock_mutex w q h c : mutex_at w q h c 0 0 ->
  exists w', prvUnlockQueue (fun w => w) w q = Some w' /\ mutex_at w' q h c queueUNLOCKED queueUNLOCKED /\ kern w' = kern w.
Proof.
  intros [(x & Hx & M)]. unfold prvUnlockQueue, unlock_added, unlock_removed. rewrite Hx. destruct_and! M.
  repeat match goal with H : cTxLock x = _ |- _ => rewrite H end.
  change (unlock_tx (Z.to_nat 0) w q) with (Some w). cbv iota beta zeta. simpl queues. rewrite lookup_alter_eq, Hx. simpl.
  repeat match goal with H : cRxLock x = _ |- _ => rewrite H end. simpl.
  eexists. split; [reflexivity|]. split; [|done]. split. eexists. split; [simpl; by rewrite !lookup_alter_eq, Hx|].
  simpl. by split_and!.
Qed.

(** ** The three steps of a hand-over *)

Local Notation ev q := (q_xTasksWaitingToReceive q).

Lemma check_first k ticks :
  from_option ucDelayAborted false (tcbs k !! pxCurrentTCB k) = false -> 0 < ticks <= portMAX_DELAY ->
  exists to, xTaskCheckForTimeOut (vTaskSuspendAll k) (vTaskInternalSetTimeOutState k) ticks =
    (false, to, ticks, vTaskSuspendAll k).
Proof.
  intros Ha Ht. destruct (Z.eq_dec ticks portMAX_DELAY) as [->|Hn].
  - unfold xTaskCheckForTimeOut. simpl. rewrite Ha. eauto.
  - rewrite check_at_start by (done || lia). eauto.
Qed.

(** The waiting task: one pass through the loop of [xQueueSemaphoreTake]. *)
Lemma take_sleeps w q h c tcb ticks f k' :
  mutex_held w q h -> uxSchedulerSuspended (kern w) = 0 -> quiet (kern w) -> 0 < ticks <= portMAX_DELAY ->
  tcbs (kern w) !! pxCurrentTCB (kern w) = Some tcb -> ucDelayAborted tcb = false ->
  default [] (event_lists (kern w) !! ev q) = [] -> pxCurrentTCB (kern w) <> h ->
  xTaskPriorityInherit (vTaskSuspendAll (kern w)) h = (true, k') ->
  other_tasks_same h (vTaskSuspendAll (kern w)) k' -> tcbs k' !! h = Some c ->
  exists s' w1 tcb1, wait_locked w q (q_start ticks) (only_after f) prvIsQueueEmpty (ev q) true =
      Some (false, s', f w1) /\ qw_ticks s' <> 0 /\
    mutex_held w1 q h /\ uxSchedulerSuspended (kern w1) = 0 /\ pxCurrentTCB (kern w1) = pxCurrentTCB (kern w) /\
    event_lists (kern w1) = <[ev q := [pxCurrentTCB (kern w)]]> (event_lists (kern w)) /\
    tcbs (kern w1) !! pxCurrentTCB (kern w) = Some tcb1 /\ xEventContainer tcb1 = ev q /\
    uxPriority tcb1 = uxPriority tcb /\ uxMutexesHeld tcb1 = uxMutexesHeld tcb /\ tcbs (kern w1) !! h = Some c /\
    (forall p, h ∈ default [] (pxReadyTasksLists (kern w1) !! p) <-> h ∈ default [] (pxReadyTasksLists k' !! p)).
Proof.
  intros Hm Hs Hq Ht Htcb Ha He Hth Hinh [O1 O2 O3 O4 O5 O6 O7] Hh. unfold wait_locked.
  unfold unlock_and_resume. cbn [only_after]. unfold id.
  set (wl := prvLockQueue (with_kern w (vTaskSuspendAll (kern w))) q).
  assert (mutex_at wl q h 0 0 0) as Hl by (apply lock_mutex; by apply (mutex_at_queues w)).
  change (kern wl) with (vTaskSuspendAll (kern w)).
  destruct (check_first (kern w) ticks) as (to & Hc); [by rewrite Htcb|done|].
  change (set_entry_time w (q_start ticks)) with (vTaskInternalSetTimeOutState (kern w)).
  cbn [qw_ticks q_start]. rewrite Hc.
  replace (with_kern wl (vTaskSuspendAll (kern w))) with wl by done. cbv iota beta zeta.
  pose proof Hl as [(x & Hx & M)]. rewrite Hx. destruct_and! M. unfold prvIsQueueEmpty at 1.
  replace (uxMessagesWaiting x) with 0 by done. cbn [Z.eqb]. unfold inherit, is_mutex.
  replace (pcHead x) with queueQUEUE_IS_MUTEX by done. rewrite Z.eqb_refl.
  replace (xMutexHolder x) with h by done. change (kern wl) with (vTaskSuspendAll (kern w)).
  rewrite Hinh. cbn [kern with_kern].
  change (pxCurrentTCB (vTaskSuspendAll (kern w))) with (pxCurrentTCB (kern w)) in O4.
  destruct (place_alone k' (ev q) ticks tcb) as (P1 & P2 & P3 & P4 & P5 & _ & tcb1 & P7 & P8 & P9 & _ & P12).
  { by rewrite O4, O1. }
  { by rewrite O3. }
  destruct (place_others k' (ev q) ticks h) as [P10 P11]; [by rewrite O4|].
  set (k2 := vTaskPlaceOnEventList k' (ev q) ticks) in *.
  destruct (unlock_mutex (with_kern (with_kern wl k') k2) q h 0) as (w3 & -> & Hm3 & Hk3);
    [by apply (mutex_at_queues wl)|].
  rewrite (resume_from w Hs Hq k2 w3 Hk3); [|by rewrite P3, O5|by rewrite P4, O6|by rewrite P5, O7].
  eexists _, _, tcb1. split; [reflexivity|]. simpl. rewrite P1, P2, P9, O3, O4 in *. rewrite P10.
  split_and!; try done; [simpl; lia|by apply (mutex_at_queues w3)].
Qed.

(** The holder: it gives the mutex. *)
Lemma give_spec w q h c t tcb :
  mutex_held w q h -> h <> NULL -> t <> h -> uxSchedulerSuspended (kern w) = 0 -> pxCurrentTCB (kern w) = h ->
  tcbs (kern w) !! h = Some c -> uxMutexesHeld c = 1 -> uxPriority c <> uxBasePriority c ->
  event_lists (kern w) !! ev q = Some [t] -> tcbs (kern w) !! t = Some tcb -> xEventContainer tcb = ev q ->
  exists w', xQueueGenericSend [] w q NULL 0 queueSEND_TO_BACK = Some (QReturned pdPASS w') /\
    mutex_free w' q /\ event_lists (kern w') = <[ev q := []]> (event_lists (kern w)) /\
    tcbs (kern w') !! t = Some (set_event_container NULL tcb) /\
    t ∈ default [] (pxReadyTasksLists (kern w') !! uxPriority tcb) /\
    priority (kern w') h = uxBasePriority c /\
    h ∈ default [] (pxReadyTasksLists (kern w') !! uxBasePriority c).
Proof.
  intros Hm Hh Hth Hs Hcur Hc Hheld Hne Hev Ht Hcont.
  pose proof Hm as [(x & Hx & M)]. destruct_and! M.
  unfold xQueueGenericSend. rewrite Hx. unfold send_args_ok, may_block.
  replace (uxItemSize x) with 0 by done. rewrite Hs. cbn [Z.eqb NULL negb andb guard_c queueSEND_TO_BACK queueOVERWRITE].
  unfold send_loop. rewrite Hx. unfold has_room. replace (uxMessagesWaiting x) with 0 by done.
  replace (uxLength x) with 1 by done. cbn [Z.ltb Z.compare orb]. unfold send_item. rewrite Hx.
  unfold prvCopyDataToQueue. rewrite Hx. replace (uxItemSize x) with 0 by done.
  replace (pcHead x) with queueQUEUE_IS_MUTEX by done. replace (xMutexHolder x) with h by done.
  replace (uxMessagesWaiting x) with 0 by done.
  destruct (disinherit_spec (kern w) h c Hc Hh Hcur Hheld Hne)
    as (k1 & c1 & Hd & [O1 O2 O3 O4 O5 O6 O7] & Hc1 & Hp1 & _ & Hr1).
  cbn [Z.eqb queueQUEUE_IS_MUTEX NULL]. rewrite Hd. change (u32 (0 + 1)) with 1.
  set (w1 := modify (with_kern (modify w q (set_u_first NULL)) k1) q (set_messages 1)).
  assert (mutex_free w1 q) as Hf.
  { split. eexists. split; [simpl; by rewrite !lookup_alter_eq, Hx|]. by split_and!. }
  unfold notify_added. pose proof Hf as [(y & Hy & MY)]. rewrite Hy. destruct_and! MY.
  replace (pxQueueSetContainer y) with NULL by done. cbn [Z.eqb NULL negb].
  destruct (wake_ready k1 (ev q) t tcb) as (b & k2 & Hw & W1 & W2 & W3 & W4 & W5);
    [by rewrite O3|by rewrite O1|done|by rewrite O5|].
  unfold wake_first. change (kern w1) with k1. unfold listLIST_IS_EMPTY. rewrite O3, Hev. simpl (default _ _).
  cbv iota. rewrite Hw. eexists. split; [reflexivity|]. split; [by apply (mutex_at_queues w1)|]. cbn [kern with_kern].
  rewrite W1, W2, O3. split_and!; try done.
  - apply lookup_insert_eq.
  - unfold priority. rewrite W2, lookup_insert_ne, Hc1 by done. exact Hp1.
  - by apply W3.
Qed.

(** The waiting task again: it takes the free mutex. *)
Lemma take_spec w q t tcb : mutex_free w q -> pxCurrentTCB (kern w) = t -> t <> NULL ->
  tcbs (kern w) !! t = Some tcb -> default [] (event_lists (kern w) !! q_xTasksWaitingToSend q) = [] ->
  exists w', take_now w q = Some w' /\ mutex_held w' q t /\
    kern w' = alter_tcb (kern w) t (set_mutexes_held (u32 (uxMutexesHeld tcb + 1))).
Proof.
  intros [(x & Hx & M)] Hcur Ht Htcb Hsend. destruct_and! M. unfold take_now. rewrite Hx.
  replace (pcHead x) with queueQUEUE_IS_MUTEX by done. replace (uxMessagesWaiting x) with 1 by done.
  rewrite Z.eqb_refl. change (u32 (1 - 1)) with 0. unfold pvTaskIncrementMutexHeldCount. cbn [kern modify].
  rewrite Hcur. destruct (Z.eqb_spec t NULL); [done|].
  replace (mutexes_held (kern w) t) with (uxMutexesHeld tcb) by (unfold mutexes_held; by rewrite Htcb).
  unfold wake_first, listLIST_IS_EMPTY. cbn [kern with_kern event_lists alter_tcb with_tcbs]. rewrite Hsend.
  eexists. split; [reflexivity|]. split; [|done]. split. eexists.
  split; [simpl; by rewrite !lookup_alter_eq, Hx|]. by split_and!.
Qed.

(** ** The hand-over *)

(** The holder [h] runs, gives the mutex, and the task that waits runs again. *)
Definition gives (q h : Z) (w : world) : world :=
  match xQueueGenericSend [] (with_kern w (with_current (kern w) h)) q NULL 0 queueSEND_TO_BACK with
  | Some (QReturned _ w') => with_kern w' (with_current (kern w') (pxCurrentTCB (kern w)))
  | _ => w
  end.

Section hand_over.
Context (w : world) (q h ticks : Z) (c tcb : TCB_t).
Local Notation t := (pxCurrentTCB (kern w)).
Context (Hm : mutex_held w q h) (Hh : h <> NULL) (Ht0 : t <> NULL) (Hth : t <> h) (Hticks : 0 < ticks <= portMAX_DELAY).
Context (Hs : uxSchedulerSuspended (kern w) = 0) (Hq : quiet (kern w)).
Context (Ht : tcbs (kern w) !! t = Some tcb) (Ha : ucDelayAborted tcb = false).
Context (He : default [] (event_lists (kern w) !! ev q) = []).
Context (Hsend : default [] (event_lists (kern w) !! q_xTasksWaitingToSend q) = []).
Context (Hc : tcbs (kern w) !! h = Some c) (Hheld : uxMutexesHeld c = 1).
Context (Hp : uxBasePriority c <= uxPriority c < uxPriority tcb).
Context (Hr : h ∈ default [] (pxReadyTasksLists (kern w) !! uxPriority c)).

(** The task sleeps in its call, the holder has its priority. *)
Lemma take_waits env f : exists s' w1 tcb1 c1,
  xQueueSemaphoreTake (only_after f :: env) w q ticks = take_loop env (f w1) q s' /\ qw_ticks s' <> 0 /\
  mutex_held w1 q h /\ uxSchedulerSuspended (kern w1) = 0 /\ pxCurrentTCB (kern w1) = t /\
  event_lists (kern w1) = <[ev q := [t]]> (event_lists (kern w)) /\
  tcbs (kern w1) !! t = Some tcb1 /\ xEventContainer tcb1 = ev q /\ uxPriority tcb1 = uxPriority tcb /\
  uxMutexesHeld tcb1 = uxMutexesHeld tcb /\ tcbs (kern w1) !! h = Some c1 /\ uxPriority c1 = uxPriority tcb /\
  uxBasePriority c1 = uxBasePriority c /\ uxMutexesHeld c1 = 1 /\
  h ∈ default [] (pxReadyTasksLists (kern w1) !! uxPriority tcb).
Proof.
  assert (priority (vTaskSuspendAll (kern w)) t = uxPriority tcb) as Epr
    by (unfold priority; simpl; by rewrite Ht).
  destruct (inherit_spec (vTaskSuspendAll (kern w)) h c Hc Hh) as (k' & c1 & Hinh & Ho & Hc1 & Ep & Eb & Em & Hr1).
  { simpl pxCurrentTCB. rewrite Epr. lia. }
  { done. }
  simpl pxCurrentTCB in Ep, Hr1. rewrite Epr in Ep, Hr1.
  destruct (take_sleeps w q h c1 tcb ticks f k')
    as (s' & w1 & tcb1 & E1 & Hk & M1 & S1 & C1 & V1 & T1 & X1 & P1 & D1 & H1 & R1); [done..|].
  exists s', w1, tcb1, c1. split; [|split_and!; try done; [congruence|by apply R1]].
  pose proof Hm as [(x & Hx & M)]. destruct_and! M. unfold xQueueSemaphoreTake. rewrite Hx.
  replace (uxItemSize x) with 0 by done. unfold may_block. rewrite Hs. cbn [Z.eqb negb andb guard_c take_loop].
  rewrite Hx. replace (uxMessagesWaiting x) with 0 by done. cbn [Z.ltb Z.compare qw_ticks q_start].
  destruct (Z.eqb_spec ticks 0); [lia|]. by rewrite E1.
Qed.
(** C14: a mutex is held by a task that is ready and holds no other, and no task
    waits for it.  While a task of higher priority waits for it, the holder runs at
    the waiting task's priority; when the holder gives the mutex it is back at its own
    priority, and the waiting task is ready, gets the mutex and is its holder. *)
Theorem mutex_lends_priority_and_hands_over :
  exists w1 w2 : world,
    xQueueSemaphoreTake [only_after id] w q ticks = Some (QRunning w1) /\
    priority (kern w1) h = uxPriority tcb /\ h ∈ default [] (pxReadyTasksLists (kern w1) !! uxPriority tcb) /\
    event_lists (kern w1) !! ev q = Some [t] /\
    xQueueSemaphoreTake [only_after (gives q h)] w q ticks = Some (QReturned pdPASS w2) /\
    mutex_held w2 q t /\ mutexes_held (kern w2) t = u32 (uxMutexesHeld tcb + 1) /\
    t ∈ default [] (pxReadyTasksLists (kern w2) !! uxPriority tcb) /\
    priority (kern w2) h = uxBasePriority c /\ h ∈ default [] (pxReadyTasksLists (kern w2) !! uxBasePriority c).
Proof.
  destruct (take_waits [] id) as (s1 & w1 & tcb1 & c1 & E1 & K1 & M1 & _ & _ & V1 & _ & _ & _ & _ & H1 & P1 & _ & _ & R1).
  destruct (take_waits [] (gives q h))
    as (s2 & w2 & tcb2 & c2 & E2 & _ & M2 & S2 & C2 & V2 & T2 & X2 & P2 & D2 & H2 & P3 & B2 & L2 & _).
  destruct (give_spec (with_kern w2 (with_current (kern w2) h)) q h c2 t tcb2)
    as (w3 & Hg & M3 & V3 & T3 & R3 & P4 & R4); try done.
  { by apply (mutex_at_queues w2). }
  { lia. }
  { simpl. by rewrite V2, lookup_insert_eq. }
  set (w4 := with_kern w3 (with_current (kern w3) t)).
  assert (gives q h w2 = w4) as Ew by (unfold gives; by rewrite Hg, C2).
  destruct (take_spec w4 q t (set_event_container NULL tcb2)) as (w5 & Htake & M5 & K5); try done.
  { by apply (mutex_at_queues w3). }
  { change (event_lists (kern w4)) with (event_lists (kern w3)). rewrite V3.
    change (event_lists (kern (with_kern w2 (with_current (kern w2) h)))) with (event_lists (kern w2)).
    rewrite V2, !lookup_insert_ne by (unfold q_xTasksWaitingToReceive, q_xTasksWaitingToSend; lia). exact Hsend. }
  exists w1, w5. rewrite E1, E2, Ew, V1, K5. split_and!; try done.
  - cbn [take_loop id]. pose proof M1 as [(x & Hx & M)]. destruct_and! M. rewrite Hx.
    replace (uxMessagesWaiting x) with 0 by done. cbn [Z.ltb Z.compare]. by destruct (Z.eqb_spec (qw_ticks s1) 0).
  - unfold priority. by rewrite H1.
  - apply lookup_insert_eq.
  - pose proof M3 as [(x & Hx & M)]. destruct_and! M. cbn [take_loop]. simpl queues. rewrite Hx.
    replace (uxMessagesWaiting x) with 1 by done. cbn [Z.ltb Z.compare]. by rewrite Htake.
  - unfold mutexes_held. rewrite alter_tcb_lookup, decide_True by done. simpl. rewrite T3. simpl. by rewrite D2.
  - simpl. by rewrite <- P2.
  - unfold priority. rewrite alter_tcb_lookup, decide_False by done. simpl. unfold priority in P4.
    by rewrite P4, B2.
  - simpl. by rewrite <- B2.
Qed.
End hand_over.

(** ** An example

    Task 9 of priority 3 makes and takes a mutex; then task 7 of priority 5 runs. *)
Definition demo_mutex_kernel : kernel :=
  mkKernel 100 0 0 9 0 5 portMAX_DELAY false
    (list_to_map [(7, mkTCB 5 0 20 0 false 5 0); (9, mkTCB 3 0 22 0 false 3 0)])
    {[5 := [7]; 3 := [9]]} [] [] [] [] ∅ ∅.

Definition demo_mutex : world :=
  match xQueueCreateMutex (mkWorld (fun _ => 0) ∅ demo_mutex_kernel) 1000 with
  | Some (_, w) =>
      match xQueueSemaphoreTake [] w 1000 0 with
      | Some (QReturned _ w) => with_kern w (with_current (kern w) 7)
      | _ => w
      end
  | None => demo_world
  end.

Lemma demo_mutex_held : mutex_held demo_mutex 1000 9.
Proof.
  split. exists (mkQueue 0 1000 9 0 0 1 0 (-1) (-1) false 0). split; [vm_compute; reflexivity|by split_and!].
Qed.

Example mutex_lends_priority_and_hands_over_witness :
  exists w1 w2 : world,
    xQueueSemaphoreTake [only_after id] demo_mutex 1000 10 = Some (QRunning w1) /\
    priority (kern w1) 9 = 5 /\ 9 ∈ default [] (pxReadyTasksLists (kern w1) !! 5) /\
    event_lists (kern w1) !! q_xTasksWaitingToReceive 1000 = Some [7] /\
    xQueueSemaphoreTake [only_after (gives 1000 9)] demo_mutex 1000 10 = Some (QReturned pdPASS w2) /\
    mutex_held w2 1000 7 /\ mutexes_held (kern w2) 7 = 1 /\
    7 ∈ default [] (pxReadyTasksLists (kern w2) !! 5) /\
    priority (kern w2) 9 = 3 /\ 9 ∈ default [] (pxReadyTasksLists (kern w2) !! 3).
Proof.
  apply (mutex_lends_priority_and_hands_over demo_mutex 1000 9 10 (mkTCB 3 0 22 0 false 3 1) (mkTCB 5 0 20 0 false 5 0)
    demo_mutex_held); try (vm_compute; reflexivity); try (unfold portMAX_DELAY; simpl; lia);
    try (vm_compute; discriminate).
  - split; [vm_compute; intuition discriminate|]. intros _. split; vm_compute; reflexivity.
  - vm_compute. constructor.
Defined.

(** A holder that is blocked on another event list inherits a priority without
    being moved in that list: task 9 (now of priority 5) stays behind task 8 of
    priority 4, which is woken first. *)
Definition demo_blocked_holder : kernel :=
  mkKernel 100 0 0 7 0 5 portMAX_DELAY false
    (list_to_map [(7, mkTCB 5 0 20 0 false 5 0); (8, mkTCB 4 0 21 500 false 4 0); (9, mkTCB 3 0 22 500 false 3 1)])
    {[5 := [7]]} [] [] [8; 9] [] {[500 := [8; 9]]} ∅.

Lemma inheritance_leaves_event_list_unsorted :
  let (_, k) := xTaskPriorityInherit demo_blocked_holder 9 in
  priority k 9 = 5 /\ priority k 8 = 4 /\ event_lists k !! 500 = Some [8; 9] /\
  event_value k 9 < event_value k 8 /\
  match xTaskRemoveFromEventList k 500 with
  | Some (_, k) => default [] (pxReadyTasksLists k !! 4) = [8] /\ event_lists k !! 500 = Some [9]
  | None => False
  end.
Proof. vm_compute. split_and!; reflexivity. Qed.
