(* ===== verification/StreamBuffer.v ===== *)
(** * Stream buffers and message buffers (FreeRTOS-Kernel/stream_buffer.c)

    The functions of stream_buffer.c on one core, without the optional callbacks
    and trace facility.  One writer and one reader share a ring of bytes: the
    writer owns [xHead], the reader [xTail], and neither locks the other out
    while it copies.  What the other side, interrupts and other tasks do between
    the accesses of a call is a function of the state, given to the call. *)

From stdpp Require Import base list option gmap.
From Stdlib Require Import ZArith Lia.
From S2P Require Import Prelude FreeRTOSList Kernel KernelSched KernelPrio KernelNotify.

Definition sbBYTES_TO_STORE_MESSAGE_LENGTH : Z := 4.
Definition sbFLAGS_IS_MESSAGE_BUFFER : Z := 1.
Definition sbFLAGS_IS_STATICALLY_ALLOCATED : Z := 2.
Definition sizeof_StreamBuffer_t : Z := 40.

Record StreamBuffer_t := mkSB {
  xTail : Z;
  xHead : Z;
  xLength : Z;
  xTriggerLevelBytes : Z;
  xTaskWaitingToReceive : Z;
  xTaskWaitingToSend : Z;
  pucBuffer : Z;
  sb_ucFlags : Z }.

Record stream := mkStream {
  sb : StreamBuffer_t;
  smem : memory;
  snk : nkernel }.

Definition skern (s : stream) : kernel := nk_kernel (snk s).

Definition with_sb (s : stream) (x : StreamBuffer_t) : stream := mkStream x (smem s) (snk s).
Definition with_smem (s : stream) (m : memory) : stream := mkStream (sb s) m (snk s).
Definition with_snk (s : stream) (n : nkernel) : stream := mkStream (sb s) (smem s) n.
Definition with_skern (s : stream) (k : kernel) : stream := with_snk s (with_nk (snk s) k).

Definition set_xTail (v : Z) (x : StreamBuffer_t) : StreamBuffer_t :=
  mkSB v (xHead x) (xLength x) (xTriggerLevelBytes x) (xTaskWaitingToReceive x) (xTaskWaitingToSend x)
    (pucBuffer x) (sb_ucFlags x).
Definition set_xHead (v : Z) (x : StreamBuffer_t) : StreamBuffer_t :=
  mkSB (xTail x) v (xLength x) (xTriggerLevelBytes x) (xTaskWaitingToReceive x) (xTaskWaitingToSend x)
    (pucBuffer x) (sb_ucFlags x).
Definition set_trigger (v : Z) (x : StreamBuffer_t) : StreamBuffer_t :=
  mkSB (xTail x) (xHead x) (xLength x) v (xTaskWaitingToReceive x) (xTaskWaitingToSend x)
    (pucBuffer x) (sb_ucFlags x).
Definition set_receiver (t : Z) (x : StreamBuffer_t) : StreamBuffer_t :=
  mkSB (xTail x) (xHead x) (xLength x) (xTriggerLevelBytes x) t (xTaskWaitingToSend x)
    (pucBuffer x) (sb_ucFlags x).
Definition set_sender (t : Z) (x : StreamBuffer_t) : StreamBuffer_t :=
  mkSB (xTail x) (xHead x) (xLength x) (xTriggerLevelBytes x) (xTaskWaitingToReceive x) t
    (pucBuffer x) (sb_ucFlags x).
Definition set_sb_flags (f : Z) (x : StreamBuffer_t) : StreamBuffer_t :=
  mkSB (xTail x) (xHead x) (xLength x) (xTriggerLevelBytes x) (xTaskWaitingToReceive x)
    (xTaskWaitingToSend x) (pucBuffer x) f.

Definition upd_sb (s : stream) (f : StreamBuffer_t -> StreamBuffer_t) : stream := with_sb s (f (sb s)).

Definition is_message_buffer (x : StreamBuffer_t) : bool := has_flag (sb_ucFlags x) sbFLAGS_IS_MESSAGE_BUFFER.

(** [xBytesToStoreMessageLength]. *)
Definition length_bytes (x : StreamBuffer_t) : Z :=
  if is_message_buffer x then sbBYTES_TO_STORE_MESSAGE_LENGTH else 0.

(** ** Creation, deletion and reset *)

(** The storage is filled with 0x55 by the assertion. *)
Definition prvInitialiseNewStreamBuffer (s : stream)
    (pucBuffer xBufferSizeBytes xTriggerLevelBytes ucFlags : Z) : stream :=
  let s := with_smem s (store_bytes (smem s) pucBuffer (repeat 85 (Z.to_nat xBufferSizeBytes))) in
  with_sb s (mkSB 0 0 xBufferSizeBytes xTriggerLevelBytes NULL NULL pucBuffer ucFlags).

(** A trigger level of 0 is taken as 1. *)
Definition trigger_level (xTriggerLevelBytes : Z) : Z :=
  if xTriggerLevelBytes =? 0 then 1 else xTriggerLevelBytes.

Section Creation.
(** The heap: the address it returns for a size, or [NULL]. *)
Variable pvPortMalloc : Z -> Z.

Definition xStreamBufferGenericCreate (s : stream) (xBufferSizeBytes xTriggerLevelBytes : Z)
    (xIsMessageBuffer : bool) : option (Z * stream) :=
  let! ucFlags := (if xIsMessageBuffer then
                     assert! sbBYTES_TO_STORE_MESSAGE_LENGTH <? xBufferSizeBytes;
                     Some sbFLAGS_IS_MESSAGE_BUFFER
                   else assert! 0 <? xBufferSizeBytes; Some 0) in
  assert! xTriggerLevelBytes <=? xBufferSizeBytes;
  let xTriggerLevelBytes := trigger_level xTriggerLevelBytes in
  let '(xBufferSizeBytes, pucAllocatedMemory) :=
    if xBufferSizeBytes <? u32 (xBufferSizeBytes + 1 + sizeof_StreamBuffer_t) then
      (u32 (xBufferSizeBytes + 1), pvPortMalloc (u32 (u32 (xBufferSizeBytes + 1) + sizeof_StreamBuffer_t)))
    else (xBufferSizeBytes, NULL) in
  Some (pucAllocatedMemory,
        if negb (pucAllocatedMemory =? NULL)
        then prvInitialiseNewStreamBuffer s (pucAllocatedMemory + sizeof_StreamBuffer_t)
               xBufferSizeBytes xTriggerLevelBytes ucFlags
        else s).

End Creation.

(** After the assertions neither pointer is [NULL]. *)
Definition xStreamBufferGenericCreateStatic (s : stream) (xBufferSizeBytes xTriggerLevelBytes : Z)
    (xIsMessageBuffer : bool) (pucStreamBufferStorageArea pxStaticStreamBuffer : Z) : option (Z * stream) :=
  assert! negb (pucStreamBufferStorageArea =? NULL);
  assert! negb (pxStaticStreamBuffer =? NULL);
  assert! xTriggerLevelBytes <=? xBufferSizeBytes;
  let xTriggerLevelBytes := trigger_level xTriggerLevelBytes in
  let ucFlags := if xIsMessageBuffer
                 then set_flag sbFLAGS_IS_MESSAGE_BUFFER sbFLAGS_IS_STATICALLY_ALLOCATED
                 else sbFLAGS_IS_STATICALLY_ALLOCATED in
  assert! sbBYTES_TO_STORE_MESSAGE_LENGTH <? xBufferSizeBytes;
  let s := prvInitialiseNewStreamBuffer s pucStreamBufferStorageArea xBufferSizeBytes
             xTriggerLevelBytes ucFlags in
  let s := upd_sb s (fun x => set_sb_flags (set_flag (sb_ucFlags x) sbFLAGS_IS_STATICALLY_ALLOCATED) x) in
  Some (pxStaticStreamBuffer, s).

(** The storage and the structure, if they were given by the application; [p]
    is the structure's address. *)
Definition xStreamBufferGetStaticBuffers (s : stream) (p : Z) : option (Z * Z) :=
  if has_flag (sb_ucFlags (sb s)) sbFLAGS_IS_STATICALLY_ALLOCATED then Some (pucBuffer (sb s), p) else None.

(** Whether the memory goes back to the heap; a static structure is scrubbed. *)
Definition vStreamBufferDelete (s : stream) : bool * stream :=
  if negb (has_flag (sb_ucFlags (sb s)) sbFLAGS_IS_STATICALLY_ALLOCATED) then (true, s)
  else (false, with_sb s (mkSB 0 0 0 0 NULL NULL NULL 0)).

Definition xStreamBufferReset (s : stream) : bool * stream :=
  let x := sb s in
  if (xTaskWaitingToReceive x =? NULL) && (xTaskWaitingToSend x =? NULL) then
    (true, prvInitialiseNewStreamBuffer s (pucBuffer x) (xLength x) (xTriggerLevelBytes x) (sb_ucFlags x))
  else (false, s).

Definition xStreamBufferSetTriggerLevel (s : stream) (xTriggerLevel : Z) : bool * stream :=
  let xTriggerLevel := trigger_level xTriggerLevel in
  if xTriggerLevel <? xLength (sb s) then (true, upd_sb s (set_trigger xTriggerLevel)) else (false, s).

(** ** How much there is *)

Definition prvBytesInBuffer (x : StreamBuffer_t) : Z :=
  let xCount := u32 (xLength x + xHead x) in
  let xCount := u32 (xCount - xTail x) in
  if xLength x <=? xCount then u32 (xCount - xLength x) else xCount.

(** The four reads of a round of the loop in [xStreamBufferSpacesAvailable]. *)
Record space_reads := mkReads {
  read_original : Z;
  read_tail : Z;
  read_head : Z;
  read_again : Z }.

Fixpoint spaces_loop (xLength : Z) (reads : list space_reads) : option Z :=
  match reads with
  | [] => None
  | r :: reads =>
      let xSpace := u32 (u32 (xLength + read_tail r) - read_head r) in
      if negb (read_original r =? read_again r) then spaces_loop xLength reads
      else
        let xSpace := u32 (xSpace - 1) in
        Some (if xLength <=? xSpace then u32 (xSpace - xLength) else xSpace)
  end.

(** Read at one instant. *)
Definition xStreamBufferSpacesAvailable (x : StreamBuffer_t) : option Z :=
  spaces_loop (xLength x) [mkReads (xTail x) (xTail x) (xHead x) (xTail x)].

Definition xStreamBufferBytesAvailable (s : stream) : Z := prvBytesInBuffer (sb s).

Definition xStreamBufferIsEmpty (s : stream) : bool := xHead (sb s) =? xTail (sb s).

Definition xStreamBufferIsFull (s : stream) : option bool :=
  let! xSpace := xStreamBufferSpacesAvailable (sb s) in
  Some (xSpace <=? length_bytes (sb s)).

(** ** Copying bytes *)

(** [data] is what [pucData] points to.  The new head, which is not yet
    stored. *)
Definition prvWriteBytesToBuffer (s : stream) (data : list Z) (xHead : Z) : option (Z * stream) :=
  let xCount := Z.of_nat (length data) in
  let x := sb s in
  assert! 0 <? xCount;
  let xFirstLength := Z.min (u32 (xLength x - xHead)) xCount in
  assert! u32 (xHead + xFirstLength) <=? xLength x;
  let s := with_smem s (store_bytes (smem s) (pucBuffer x + xHead) (take (Z.to_nat xFirstLength) data)) in
  let! s := (if xFirstLength <? xCount then
               assert! u32 (xCount - xFirstLength) <=? xLength x;
               Some (with_smem s (store_bytes (smem s) (pucBuffer x) (drop (Z.to_nat xFirstLength) data)))
             else Some s) in
  let xHead := u32 (xHead + xCount) in
  Some (if xLength x <=? xHead then u32 (xHead - xLength x) else xHead, s).

(** The bytes copied and the new tail, which is not yet stored. *)
Definition prvReadBytesFromBuffer (s : stream) (xCount xTail : Z) : option (list Z * Z) :=
  let x := sb s in
  assert! negb (xCount =? 0);
  let xFirstLength := Z.min (u32 (xLength x - xTail)) xCount in
  assert! xFirstLength <=? xCount;
  assert! u32 (xTail + xFirstLength) <=? xLength x;
  let first := load_bytes (smem s) (pucBuffer x + xTail) xFirstLength in
  let rest := if xFirstLength <? xCount
              then load_bytes (smem s) (pucBuffer x) (u32 (xCount - xFirstLength)) else [] in
  let xTail := u32 (xTail + xCount) in
  Some (first ++ rest, if xLength x <=? xTail then u32 (xTail - xLength x) else xTail).

(** What others do between the copies and the store of the head. *)
Record write_interference := mkWI {
  between_copies : stream -> stream;
  before_publish : stream -> stream }.

Definition prvWriteMessageToBuffer (i : write_interference) (s : stream)
    (pvTxData xDataLengthBytes xSpace xRequiredSpace : Z) : option (Z * stream) :=
  let xNextHead := xHead (sb s) in
  let! (xDataLengthBytes, xNextHead, s) :=
    (if is_message_buffer (sb s) then
       let xMessageLength := u32 xDataLengthBytes in
       assert! xMessageLength =? xDataLengthBytes;
       if xRequiredSpace <=? xSpace then
         let! (h, s) := prvWriteBytesToBuffer s (bytes32 xMessageLength) xNextHead in
         Some (xDataLengthBytes, h, s)
       else Some (0, xNextHead, s)
     else Some (Z.min xDataLengthBytes xSpace, xNextHead, s)) in
  if negb (xDataLengthBytes =? 0) then
    let s := between_copies i s in
    let! (h, s) := prvWriteBytesToBuffer s (load_bytes (smem s) pvTxData xDataLengthBytes) xNextHead in
    let s := before_publish i s in
    Some (xDataLengthBytes, upd_sb s (set_xHead h))
  else Some (xDataLengthBytes, s).

(** [before_consume] is what others do between the copies and the store of the
    tail. *)
Definition prvReadMessageFromBuffer (before_consume : stream -> stream) (s : stream)
    (pvRxData xBufferLengthBytes xBytesAvailable : Z) : option (Z * stream) :=
  let xNextTail := xTail (sb s) in
  let! (xNextMessageLength, xNextTail, xBytesAvailable) :=
    (if is_message_buffer (sb s) then
       let! (bytes, tail) := prvReadBytesFromBuffer s sbBYTES_TO_STORE_MESSAGE_LENGTH xNextTail in
       let xNextMessageLength := load32 (store_bytes (fun _ => 0) 0 bytes) 0 in
       let xBytesAvailable := u32 (xBytesAvailable - sbBYTES_TO_STORE_MESSAGE_LENGTH) in
       Some (if xBufferLengthBytes <? xNextMessageLength then 0 else xNextMessageLength, tail, xBytesAvailable)
     else Some (xBufferLengthBytes, xNextTail, xBytesAvailable)) in
  let xCount := Z.min xNextMessageLength xBytesAvailable in
  if negb (xCount =? 0) then
    let! (bytes, tail) := prvReadBytesFromBuffer s xCount xNextTail in
    let s := with_smem s (store_bytes (smem s) pvRxData bytes) in
    let s := before_consume s in
    Some (xCount, upd_sb s (set_xTail tail))
  else Some (xCount, s).

(** ** Waking the other side *)

(** With the scheduler suspended; no interference is modelled in here. *)
Definition sbRECEIVE_COMPLETED (s : stream) : option stream :=
  let s := with_skern s (vTaskSuspendAll (skern s)) in
  let t := xTaskWaitingToSend (sb s) in
  let! s := (if negb (t =? NULL) then
               let! (_, _, n) := xTaskGenericNotify (snk s) t tskDEFAULT_INDEX_TO_NOTIFY 0 eNoAction in
               Some (upd_sb (with_snk s n) (set_sender NULL))
             else Some s) in
  let! (_, k) := xTaskResumeAll (skern s) in
  Some (with_skern s k).

Definition sbSEND_COMPLETED (s : stream) : option stream :=
  let s := with_skern s (vTaskSuspendAll (skern s)) in
  let t := xTaskWaitingToReceive (sb s) in
  let! s := (if negb (t =? NULL) then
               let! (_, _, n) := xTaskGenericNotify (snk s) t tskDEFAULT_INDEX_TO_NOTIFY 0 eNoAction in
               Some (upd_sb (with_snk s n) (set_receiver NULL))
             else Some s) in
  let! (_, k) := xTaskResumeAll (skern s) in
  Some (with_skern s k).

(** Whether there was a task, whether it outranks the running one. *)
Definition xStreamBufferSendCompletedFromISR (s : stream) : option (bool * bool * stream) :=
  let t := xTaskWaitingToReceive (sb s) in
  if negb (t =? NULL) then
    let! (_, _, woken, n) := xTaskGenericNotifyFromISR (snk s) t tskDEFAULT_INDEX_TO_NOTIFY 0 eNoAction in
    Some (true, woken, upd_sb (with_snk s n) (set_receiver NULL))
  else Some (false, false, s).

Definition xStreamBufferReceiveCompletedFromISR (s : stream) : option (bool * bool * stream) :=
  let t := xTaskWaitingToSend (sb s) in
  if negb (t =? NULL) then
    let! (_, _, woken, n) := xTaskGenericNotifyFromISR (snk s) t tskDEFAULT_INDEX_TO_NOTIFY 0 eNoAction in
    Some (true, woken, upd_sb (with_snk s n) (set_sender NULL))
  else Some (false, false, s).

Definition sbSEND_COMPLETE_FROM_ISR (s : stream) : option (bool * stream) :=
  let! (_, woken, s) := xStreamBufferSendCompletedFromISR s in Some (woken, s).

Definition sbRECEIVE_COMPLETED_FROM_ISR (s : stream) : option (bool * stream) :=
  let! (_, woken, s) := xStreamBufferReceiveCompletedFromISR s in Some (woken, s).

(** ** Waiting *)

Inductive sb_outcome :=
| SbReturned (n : Z) (s : stream)
| SbWaiting (s : stream).

(** [xTaskNotifyWait( 0, 0, NULL, xTicksToWait )]; [asleep] is what happens until
    the task runs again. *)
Definition sb_notify_wait (asleep : stream -> stream) (s : stream) (xTicksToWait : Z) : stream :=
  let s := with_snk s (notify_wait_enter (snk s) tskDEFAULT_INDEX_TO_NOTIFY 0 xTicksToWait) in
  let s := asleep s in
  let '(_, _, n) := notify_wait_exit (snk s) tskDEFAULT_INDEX_TO_NOTIFY 0 in
  with_snk s n.

(** ** Sending *)

(** Of one round of the waiting loop. *)
Record round_interference := mkRI {
  before_check : stream -> stream;
  before_wait : stream -> stream;
  asleep : stream -> stream;
  before_time : stream -> stream }.

(** The critical section that decides to wait. *)
Definition wait_for_space (s : stream) : option stream :=
  let! (_, n) := xTaskGenericNotifyStateClear (snk s) NULL tskDEFAULT_INDEX_TO_NOTIFY in
  let s := with_snk s n in
  assert! xTaskWaitingToSend (sb s) =? NULL;
  Some (upd_sb s (set_sender (pxCurrentTCB (skern s)))).

(** The space found last, or [None] for a task that still waits. *)
Fixpoint send_wait_loop (rounds : list round_interference) (s : stream) (xTimeOut : TimeOut_t)
    (xTicksToWait xRequiredSpace : Z) : option (option Z * stream) :=
  match rounds with
  | [] => Some (None, s)
  | r :: rounds =>
      let s := before_check r s in
      let! xSpace := xStreamBufferSpacesAvailable (sb s) in
      if xSpace <? xRequiredSpace then
        let! s := wait_for_space s in
        let s := before_wait r s in
        let s := sb_notify_wait (asleep r) s xTicksToWait in
        let s := upd_sb s (set_sender NULL) in
        let s := before_time r s in
        let '(timed_out, xTimeOut, xTicksToWait, k) := xTaskCheckForTimeOut (skern s) xTimeOut xTicksToWait in
        let s := with_skern s k in
        if timed_out : bool then Some (Some xSpace, s)
        else send_wait_loop rounds s xTimeOut xTicksToWait xRequiredSpace
      else Some (Some xSpace, s)
  end.

(** Of the rest of the call. *)
Record send_interference := mkSI {
  before_space : stream -> stream;
  before_write : stream -> stream;
  writing : write_interference;
  before_count : stream -> stream;
  before_completed : stream -> stream }.

(** From the test of [xSpace] on. *)
Definition send_now (i : send_interference) (s : stream)
    (pvTxData xDataLengthBytes xSpace xRequiredSpace : Z) : option (Z * stream) :=
  let s := before_space i s in
  let! xSpace := (if xSpace =? 0 then xStreamBufferSpacesAvailable (sb s) else Some xSpace) in
  let s := before_write i s in
  let! (xReturn, s) := prvWriteMessageToBuffer (writing i) s pvTxData xDataLengthBytes xSpace xRequiredSpace in
  if 0 <? xReturn then
    let s := before_count i s in
    if xTriggerLevelBytes (sb s) <=? prvBytesInBuffer (sb s) then
      let s := before_completed i s in
      let! s := sbSEND_COMPLETED s in
      Some (xReturn, s)
    else Some (xReturn, s)
  else Some (xReturn, s).

(** The space required and the ticks to wait. *)
Definition send_request (x : StreamBuffer_t) (xDataLengthBytes xTicksToWait : Z) : option (Z * Z) :=
  let xMaxReportedSpace := u32 (xLength x - 1) in
  if is_message_buffer x then
    let xRequiredSpace := u32 (xDataLengthBytes + sbBYTES_TO_STORE_MESSAGE_LENGTH) in
    assert! xDataLengthBytes <? xRequiredSpace;
    Some (xRequiredSpace, if xMaxReportedSpace <? xRequiredSpace then 0 else xTicksToWait)
  else Some (if xMaxReportedSpace <? xDataLengthBytes then xMaxReportedSpace else xDataLengthBytes, xTicksToWait).

Definition xStreamBufferSend (rounds : list round_interference) (i : send_interference) (s : stream)
    (pvTxData xDataLengthBytes xTicksToWait : Z) : option sb_outcome :=
  assert! negb (pvTxData =? NULL);
  let! (xRequiredSpace, xTicksToWait) := send_request (sb s) xDataLengthBytes xTicksToWait in
  let! (xSpace, s) := (if negb (xTicksToWait =? 0)
                       then send_wait_loop rounds s (vTaskInternalSetTimeOutState (skern s)) xTicksToWait xRequiredSpace
                       else Some (Some 0, s)) in
  match xSpace with
  | None => Some (SbWaiting s)
  | Some xSpace =>
      let! (xReturn, s) := send_now i s pvTxData xDataLengthBytes xSpace xRequiredSpace in
      Some (SbReturned xReturn s)
  end.

(** Whether a task that outranks the running one was woken. *)
Definition xStreamBufferSendFromISR (s : stream) (pvTxData xDataLengthBytes : Z) : option (Z * bool * stream) :=
  assert! negb (pvTxData =? NULL);
  let xRequiredSpace := if is_message_buffer (sb s)
                        then u32 (xDataLengthBytes + sbBYTES_TO_STORE_MESSAGE_LENGTH) else xDataLengthBytes in
  let! xSpace := xStreamBufferSpacesAvailable (sb s) in
  let! (xReturn, s) := prvWriteMessageToBuffer (mkWI id id) s pvTxData xDataLengthBytes xSpace xRequiredSpace in
  if (0 <? xReturn) && (xTriggerLevelBytes (sb s) <=? prvBytesInBuffer (sb s)) then
    let! (woken, s) := sbSEND_COMPLETE_FROM_ISR s in Some (xReturn, woken, s)
  else Some (xReturn, false, s).

(** ** Receiving *)

Record receive_interference := mkRcI {
  r_before_wait : stream -> stream;
  r_asleep : stream -> stream;
  r_before_clear : stream -> stream;
  before_read : stream -> stream;
  before_consume : stream -> stream;
  r_before_completed : stream -> stream }.

Definition wait_for_data (s : stream) : option stream :=
  let! (_, n) := xTaskGenericNotifyStateClear (snk s) NULL tskDEFAULT_INDEX_TO_NOTIFY in
  let s := with_snk s n in
  assert! xTaskWaitingToReceive (sb s) =? NULL;
  Some (upd_sb s (set_receiver (pxCurrentTCB (skern s)))).

(** The bytes available when the call goes on. *)
Definition receive_wait (i : receive_interference) (s : stream) (xTicksToWait : Z) : option (Z * stream) :=
  let xBytesAvailable := prvBytesInBuffer (sb s) in
  if negb (xTicksToWait =? 0) && (xBytesAvailable <=? length_bytes (sb s)) then
    let! s := wait_for_data s in
    let s := r_before_wait i s in
    let s := sb_notify_wait (r_asleep i) s xTicksToWait in
    let s := r_before_clear i s in
    let s := upd_sb s (set_receiver NULL) in
    Some (prvBytesInBuffer (sb s), s)
  else Some (xBytesAvailable, s).

Definition xStreamBufferReceive (i : receive_interference) (s : stream)
    (pvRxData xBufferLengthBytes xTicksToWait : Z) : option (Z * stream) :=
  assert! negb (pvRxData =? NULL);
  let xBytesToStoreMessageLength := length_bytes (sb s) in
  let! (xBytesAvailable, s) := receive_wait i s xTicksToWait in
  if xBytesToStoreMessageLength <? xBytesAvailable then
    let s := before_read i s in
    let! (xReceivedLength, s) := prvReadMessageFromBuffer (before_consume i) s pvRxData xBufferLengthBytes xBytesAvailable in
    if negb (xReceivedLength =? 0) then
      let s := r_before_completed i s in
      let! s := sbRECEIVE_COMPLETED s in
      Some (xReceivedLength, s)
    else Some (xReceivedLength, s)
  else Some (0, s).

Definition xStreamBufferReceiveFromISR (s : stream) (pvRxData xBufferLengthBytes : Z) :
    option (Z * bool * stream) :=
  assert! negb (pvRxData =? NULL);
  let xBytesAvailable := prvBytesInBuffer (sb s) in
  if length_bytes (sb s) <? xBytesAvailable then
    let! (xReceivedLength, s) := prvReadMessageFromBuffer id s pvRxData xBufferLengthBytes xBytesAvailable in
    if negb (xReceivedLength =? 0) then
      let! (woken, s) := sbRECEIVE_COMPLETED_FROM_ISR s in Some (xReceivedLength, woken, s)
    else Some (xReceivedLength, false, s)
  else Some (0, false, s).

Definition xStreamBufferNextMessageLengthBytes (s : stream) : option Z :=
  if is_message_buffer (sb s) then
    let xBytesAvailable := prvBytesInBuffer (sb s) in
    if sbBYTES_TO_STORE_MESSAGE_LENGTH <? xBytesAvailable then
      let! (bytes, _) := prvReadBytesFromBuffer s sbBYTES_TO_STORE_MESSAGE_LENGTH (xTail (sb s)) in
      Some (load32 (store_bytes (fun _ => 0) 0 bytes) 0)
    else assert! xBytesAvailable =? 0; Some 0
  else Some 0.

(** ** Examples *)

Definition demo_stream_kernel : nkernel := mkNK demo_kernel ∅ ∅.

(** An empty buffer of ten bytes, about to wrap. *)
Definition demo_stream (flags : Z) : stream :=
  mkStream (mkSB 8 8 11 1 NULL NULL 1000 flags) (fun a => if 2000 <=? a then a - 1990 else 0) demo_stream_kernel.

Definition calm_send : send_interference := mkSI id id (mkWI id id) id id.
Definition calm_receive : receive_interference := mkRcI id id id id id id.

Example stream_demo :
  match xStreamBufferSend [] calm_send (demo_stream 0) 2000 6 0 with
  | Some (SbReturned n s) =>
      match xStreamBufferReceive calm_receive s 3000 4 0 with
      | Some (m, s) => (n, m, load_bytes (smem s) 3000 4, prvBytesInBuffer (sb s), xTail (sb s), xHead (sb s))
      | None => (0, 0, [], 0, 0, 0)
      end
  | _ => (0, 0, [], 0, 0, 0)
  end = (6, 4, [10; 11; 12; 13], 2, 1, 3).
Proof. vm_compute. reflexivity. Qed.

Example message_demo :
  match xStreamBufferSend [] calm_send (demo_stream 1) 2000 6 0 with
  | Some (SbReturned n s) =>
      match xStreamBufferReceive calm_receive s 3000 6 0 with
      | Some (m, s) => (n, m, load_bytes (smem s) 3000 6, xStreamBufferNextMessageLengthBytes s)
      | None => (0, 0, [], None)
      end
  | _ => (0, 0, [], None)
  end = (6, 6, [10; 11; 12; 13; 14; 15], Some 0).
Proof. vm_compute. reflexivity. Qed.
