(* ===== verification/StreamRing.v ===== *)
(** * The ring of bytes under a stream buffer

    The contents of a stream buffer as a list of bytes, the copying functions on
    the ring, and the three moves of a transfer: staging bytes behind the head,
    publishing them by storing the head, consuming them by storing the tail. *)

From stdpp Require Import base list option gmap.
From Stdlib Require Import ZArith Lia.
From S2P Require Import Prelude FreeRTOSList Kernel KernelSched KernelPrio KernelNotify StreamBuffer.

(** ** Rings of bytes *)

(** [n] bytes from index [t] on, round and round the [L] bytes at [b]. *)
Definition ring (m : memory) (b L t : Z) (n : nat) : list Z :=
  map (fun i => m (b + (t + Z.of_nat i) mod L)) (seq 0 n).

Lemma length_ring m b L t n : length (ring m b L t n) = n.
Proof. unfold ring. by rewrite length_map, length_seq. Qed.

Lemma ring_app m b L t n1 n2 :
  ring m b L t (n1 + n2) = ring m b L t n1 ++ ring m b L (t + Z.of_nat n1) n2.
Proof.
  unfold ring. rewrite seq_app, map_app. f_equal. simpl.
  replace (seq n1 n2) with (map (Nat.add n1) (seq 0 n2)).
  - rewrite map_map. apply map_ext. intros i. do 3 f_equal. lia.
  - rewrite <- (Nat.add_0_r n1) at 2. generalize 0%nat as j.
    induction n2 as [|n2 IH]; intros j; [done|]. simpl. f_equal.
    rewrite IH. f_equal. lia.
Qed.

Lemma ring_mod m b L t n : ring m b L (t mod L) n = ring m b L t n.
Proof. unfold ring. apply map_ext. intros i. by rewrite Zplus_mod_idemp_l. Qed.

Lemma ring_agree m m' b L t n : 0 < L -> agree m m' b (b + L) -> ring m' b L t n = ring m b L t n.
Proof.
  intros HL Ha. unfold ring. apply map_ext. intros i. symmetry. apply Ha.
  pose proof (Z.mod_pos_bound (t + Z.of_nat i) L HL). lia.
Qed.

Lemma take_ring m b L t n k : (k <= n)%nat -> take k (ring m b L t n) = ring m b L t k.
Proof.
  intros Hk. replace n with (k + (n - k))%nat by lia. rewrite ring_app.
  by rewrite take_app_length' by by rewrite length_ring.
Qed.

Lemma drop_ring m b L t n k : (k <= n)%nat ->
  drop k (ring m b L t n) = ring m b L (t + Z.of_nat k) (n - k).
Proof.
  intros Hk. replace n with (k + (n - k))%nat at 1 by lia. rewrite ring_app.
  by rewrite drop_app_length' by by rewrite length_ring.
Qed.

Lemma load_bytes_ring m b L t n : 0 <= t -> 0 <= n -> t + n <= L ->
  load_bytes m (b + t) n = ring m b L t (Z.to_nat n).
Proof.
  intros Ht Hn Hl. unfold load_bytes, ring. apply map_ext_in. intros i Hi%in_seq.
  rewrite Z.mod_small by lia. f_equal. lia.
Qed.

Lemma ring_lookup m b L t n data :
  ring m b L t n = data <->
  length data = n /\ forall i, (i < n)%nat -> m (b + (t + Z.of_nat i) mod L) = nth i data 0.
Proof.
  split.
  - intros <-. rewrite length_ring. split; [done|]. intros i Hi. unfold ring.
    rewrite nth_indep with (d' := (fun i => m (b + (t + Z.of_nat i) mod L)) 0%nat)
      by by rewrite length_map, length_seq.
    rewrite (map_nth (fun i => m (b + (t + Z.of_nat i) mod L))), seq_nth by done. reflexivity.
  - intros [Hl H]. apply nth_ext with (d := 0) (d' := 0); [by rewrite length_ring|].
    rewrite length_ring. intros i Hi. rewrite <- (H i Hi). unfold ring.
    rewrite nth_indep with (d' := (fun i => m (b + (t + Z.of_nat i) mod L)) 0%nat)
      by by rewrite length_map, length_seq.
    rewrite (map_nth (fun i => m (b + (t + Z.of_nat i) mod L))), seq_nth by done. reflexivity.
Qed.

Lemma mod_wrap a L : 0 < L -> 0 <= a < 2 * L -> a mod L = if a <? L then a else a - L.
Proof.
  intros. destruct (Z.ltb_spec a L); [apply Z.mod_small; lia|].
  rewrite <- (Z_mod_plus_full a (-1) L). apply Z.mod_small. lia.
Qed.

(** ** The state of a stream buffer *)

Record ring_ok (x : StreamBuffer_t) : Prop := {
  ring_length : 1 < xLength x /\ 2 * xLength x <= 4294967296;
  ring_tail : 0 <= xTail x < xLength x;
  ring_head : 0 <= xHead x < xLength x }.

Definition count (x : StreamBuffer_t) : Z := (xHead x - xTail x) mod xLength x.
Definition space (x : StreamBuffer_t) : Z := xLength x - 1 - count x.

Definition contents (s : stream) : list Z :=
  ring (smem s) (pucBuffer (sb s)) (xLength (sb s)) (xTail (sb s)) (Z.to_nat (count (sb s))).

Lemma count_cases x : ring_ok x ->
  count x = if xTail x <=? xHead x then xHead x - xTail x else xHead x - xTail x + xLength x.
Proof.
  intros [Hl Ht Hh]. unfold count. destruct (Z.leb_spec (xTail x) (xHead x)).
  - apply Z.mod_small. lia.
  - rewrite <- (Z_mod_plus_full _ 1), Z.mod_small; lia.
Qed.

Lemma count_range x : ring_ok x -> 0 <= count x < xLength x.
Proof. intros [Hl _ _]. apply Z.mod_pos_bound. lia. Qed.

Lemma prvBytesInBuffer_count x : ring_ok x -> prvBytesInBuffer x = count x.
Proof.
  intros H. rewrite count_cases by done. destruct H as [Hl Ht Hh]. unfold prvBytesInBuffer. cbv zeta.
  destruct (Z.leb_spec (xTail x) (xHead x)); word_cases.
Qed.

Lemma xStreamBufferSpacesAvailable_space x : ring_ok x -> xStreamBufferSpacesAvailable x = Some (space x).
Proof.
  intros H. unfold xStreamBufferSpacesAvailable, space. rewrite count_cases by done.
  destruct H as [Hl Ht Hh]. simpl. rewrite Z.eqb_refl. simpl. f_equal.
  destruct (Z.leb_spec (xTail x) (xHead x)); word_cases.
Qed.

Lemma length_contents s : ring_ok (sb s) -> Z.of_nat (length (contents s)) = count (sb s).
Proof. intros H. unfold contents. rewrite length_ring. pose proof (count_range _ H). lia. Qed.

(** ** Writing bytes *)

(** [m'] is [m] with [data] written from index [h] of the ring. *)
Record wrote (m m' : memory) (b L h : Z) (data : list Z) : Prop := {
  wrote_in : ring m' b L h (length data) = data;
  wrote_ring : forall j, 0 <= j < L -> Z.of_nat (length data) <= (j - h) mod L -> m' (b + j) = m (b + j);
  wrote_out : forall x, x < b \/ b + L <= x -> m' x = m x }.

Lemma store_bytes_in m a l i : (i < length l)%nat -> store_bytes m a l (a + Z.of_nat i) = nth i l 0.
Proof.
  intros Hi. unfold store_bytes.
  destruct (Z.leb_spec a (a + Z.of_nat i)); [|lia].
  destruct (Z.ltb_spec (a + Z.of_nat i) (a + Z.of_nat (length l))); [|lia]. simpl. f_equal. lia.
Qed.

Lemma store_bytes_out m a l x : x < a \/ a + Z.of_nat (length l) <= x -> store_bytes m a l x = m x.
Proof.
  intros Hx. unfold store_bytes.
  destruct (Z.leb_spec a x), (Z.ltb_spec x (a + Z.of_nat (length l))); simpl; lia || done.
Qed.

Lemma store_wraps m b L h data (first : Z) :
  0 < L -> 0 <= h < L -> Z.of_nat (length data) <= L ->
  first = Z.min (L - h) (Z.of_nat (length data)) ->
  wrote m (store_bytes (store_bytes m (b + h) (take (Z.to_nat first) data)) b (drop (Z.to_nat first) data))
    b L h data.
Proof.
  intros HL Hh Hn Hf.
  assert (length (take (Z.to_nat first) data) = Z.to_nat first) as Ht by (rewrite length_take; lia).
  assert (length (drop (Z.to_nat first) data) = length data - Z.to_nat first)%nat as Hd
    by apply length_drop.
  split.
  - apply ring_lookup. split; [done|]. intros i Hi. rewrite mod_wrap by lia.
    destruct (Z.ltb_spec (h + Z.of_nat i) L).
    + rewrite store_bytes_out by lia. replace (b + (h + Z.of_nat i)) with (b + h + Z.of_nat i) by lia.
      rewrite store_bytes_in by lia. rewrite <- (take_drop (Z.to_nat first) data) at 2.
      rewrite app_nth1 by lia. done.
    + replace (b + (h + Z.of_nat i - L)) with (b + Z.of_nat (i - Z.to_nat first)) by lia.
      rewrite store_bytes_in by lia. rewrite <- (take_drop (Z.to_nat first) data) at 2.
      rewrite app_nth2 by lia. f_equal. lia.
  - intros j Hj Hm. rewrite <- (Z_mod_plus_full _ 1), mod_wrap in Hm by lia.
    destruct (Z.ltb_spec (j - h + 1 * L) L); rewrite !store_bytes_out by lia; done.
  - intros x Hx. rewrite !store_bytes_out by lia. done.
Qed.

Lemma wrote_ext m m1 m2 b L h data :
  (forall x, m2 x = m1 x) -> wrote m m1 b L h data -> wrote m m2 b L h data.
Proof.
  intros E [H1 H2 H3]. split; [|intros; rewrite E; auto..].
  rewrite <- H1 at 2. unfold ring. apply map_ext. intros i. apply E.
Qed.

Lemma prvWriteBytesToBuffer_wrote s data h : let x := sb s in
  ring_ok x -> 0 <= h < xLength x -> 0 < Z.of_nat (length data) <= xLength x ->
  exists m, prvWriteBytesToBuffer s data h =
      Some ((h + Z.of_nat (length data)) mod xLength x, with_smem s m) /\
    wrote (smem s) m (pucBuffer x) (xLength x) h data.
Proof.
  intros x Hok Hh Hn. pose proof (ring_length _ Hok) as [HL HL2]. fold x in HL, HL2.
  unfold prvWriteBytesToBuffer. fold x. cbv zeta.
  destruct (Z.ltb_spec 0 (Z.of_nat (length data))); [|lia].
  rewrite (u32_small (xLength x - h)) by lia. cbn [guard_c].
  set (first := Z.min (xLength x - h) (Z.of_nat (length data))).
  rewrite (u32_small (h + first)) by lia.
  destruct (Z.leb_spec (h + first) (xLength x)); [|lia]. cbn [guard_c].
  assert ((if xLength x <=? u32 (h + Z.of_nat (length data)) then
             u32 (u32 (h + Z.of_nat (length data)) - xLength x) else u32 (h + Z.of_nat (length data))) =
          (h + Z.of_nat (length data)) mod xLength x) as -> by (rewrite mod_wrap by lia; word_cases; lia).
  pose proof (store_wraps (smem s) (pucBuffer x) (xLength x) h data first ltac:(lia) Hh ltac:(lia) eq_refl) as W.
  destruct (Z.ltb_spec first (Z.of_nat (length data))).
  - rewrite (u32_small (_ - first)) by lia.
    destruct (Z.leb_spec (Z.of_nat (length data) - first) (xLength x)); [|lia]. cbn [guard_c].
    eexists. split; [reflexivity|exact W].
  - eexists. split; [reflexivity|]. eapply wrote_ext; [|exact W].
    intros a. symmetry. rewrite drop_ge by lia. apply store_bytes_out. simpl. lia.
Qed.

(** What lies behind the data, round to its other end, is as before. *)
Lemma wrote_behind m m' b L h data t k : 0 < L -> wrote m m' b L (h mod L) data ->
  t + Z.of_nat k <= h -> h + Z.of_nat (length data) <= t + L -> ring m' b L t k = ring m b L t k.
Proof.
  intros HL [_ H _] H1 H2. unfold ring. apply map_ext_in. intros i Hi%in_seq.
  apply H; [apply Z.mod_pos_bound; lia|].
  rewrite Zminus_mod_idemp_l, Zminus_mod_idemp_r.
  rewrite <- (Z_mod_plus_full _ 1), Z.mod_small; lia.
Qed.

(** ** Reading bytes *)

Lemma prvReadBytesFromBuffer_ring s n t : let x := sb s in
  ring_ok x -> 0 <= t < xLength x -> 0 < n <= xLength x ->
  prvReadBytesFromBuffer s n t =
  Some (ring (smem s) (pucBuffer x) (xLength x) t (Z.to_nat n), (t + n) mod xLength x).
Proof.
  intros x Hok Ht Hn. pose proof (ring_length _ Hok) as [HL HL2]. fold x in HL, HL2.
  unfold prvReadBytesFromBuffer. fold x. cbv zeta.
  destruct (Z.eqb_spec n 0); [lia|]. cbn [negb guard_c].
  rewrite (u32_small (xLength x - t)) by lia. set (first := Z.min (xLength x - t) n).
  destruct (Z.leb_spec first n); [|lia]. cbn [guard_c]. rewrite (u32_small (t + first)) by lia.
  destruct (Z.leb_spec (t + first) (xLength x)); [|lia]. cbn [guard_c].
  assert ((if xLength x <=? u32 (t + n) then u32 (u32 (t + n) - xLength x) else u32 (t + n)) =
          (t + n) mod xLength x) as -> by (rewrite mod_wrap by lia; word_cases; lia).
  do 2 f_equal. rewrite (load_bytes_ring _ _ (xLength x)) by lia. destruct (Z.ltb_spec first n).
  - rewrite (u32_small (n - first)) by lia.
    rewrite <- (Z.add_0_r (pucBuffer x)) at 2. rewrite (load_bytes_ring _ _ (xLength x)) by lia.
    replace (Z.to_nat n) with (Z.to_nat first + Z.to_nat (n - first))%nat by lia.
    rewrite ring_app. f_equal. rewrite <- (ring_mod _ _ _ (t + _)). f_equal.
    replace (t + Z.of_nat (Z.to_nat first)) with (xLength x) by lia. by rewrite Z_mod_same_full.
  - rewrite app_nil_r. f_equal. lia.
Qed.

(** ** Data staged behind the head, published, consumed *)

Lemma head_eq x : ring_ok x -> xHead x = (xTail x + count x) mod xLength x.
Proof.
  intros H. unfold count. rewrite Zplus_mod_idemp_r.
  replace (xTail x + (xHead x - xTail x)) with (xHead x) by lia.
  symmetry. apply Z.mod_small, H.
Qed.

(** [d] lies behind the head, up to index [h]; the reader does not see it yet. *)
Record staged (s : stream) (d : list Z) (h : Z) : Prop := {
  staged_end : h = (xHead (sb s) + Z.of_nat (length d)) mod xLength (sb s);
  staged_fits : Z.of_nat (length d) <= space (sb s);
  staged_data : ring (smem s) (pucBuffer (sb s)) (xLength (sb s)) (xHead (sb s)) (length d) = d }.

Lemma staged_nil s : ring_ok (sb s) -> staged s [] (xHead (sb s)).
Proof.
  intros H. pose proof (count_range _ H). split; [|unfold space; simpl; lia|done].
  rewrite Z.add_0_r. symmetry. apply Z.mod_small, H.
Qed.

Lemma staged_write s d h data : ring_ok (sb s) -> staged s d h -> data <> [] ->
  Z.of_nat (length d) + Z.of_nat (length data) <= space (sb s) ->
  exists m h', prvWriteBytesToBuffer s data h = Some (h', with_smem s m) /\
    staged (with_smem s m) (d ++ data) h' /\ contents (with_smem s m) = contents s /\
    (forall a, a < pucBuffer (sb s) \/ pucBuffer (sb s) + xLength (sb s) <= a -> m a = smem s a).
Proof.
  intros H [He Hf Hd] Hdata Hfit. apply length_pos in Hdata.
  pose proof (ring_length _ H) as HL. pose proof (count_range _ H) as Hc. unfold space in *.
  assert (h = (xTail (sb s) + count (sb s) + Z.of_nat (length d)) mod xLength (sb s)) as Hh.
  { rewrite He, (head_eq _ H). by rewrite Zplus_mod_idemp_l. }
  destruct (prvWriteBytesToBuffer_wrote s data h H) as (m & E & W);
    [rewrite Hh; apply Z.mod_pos_bound; lia|lia|].
  exists m, ((h + Z.of_nat (length data)) mod xLength (sb s)). rewrite Hh in W.
  split_and!; [done| |unfold contents; eapply wrote_behind; [|exact W|..]; lia|].
  - split; simpl; rewrite length_app.
    + rewrite He, Zplus_mod_idemp_l. f_equal. lia.
    + unfold space. lia.
    + rewrite ring_app. f_equal.
      * rewrite <- Hd at 2. rewrite (head_eq _ H), !ring_mod.
        eapply wrote_behind; [|exact W|..]; lia.
      * rewrite <- (wrote_in _ _ _ _ _ _ W) at 2. rewrite ring_mod.
        rewrite <- ring_mod, (head_eq _ H), Zplus_mod_idemp_l. by rewrite ring_mod.
  - intros a. apply (wrote_out _ _ _ _ _ _ W).
Qed.

Lemma publish s d h : ring_ok (sb s) -> staged s d h ->
  let s' := upd_sb s (set_xHead h) in
  ring_ok (sb s') /\ contents s' = contents s ++ d.
Proof.
  intros H [He Hf Hd] s'. pose proof (ring_length _ H). pose proof (count_range _ H). unfold space in *.
  assert (count (sb s') = count (sb s) + Z.of_nat (length d)) as Hc.
  { unfold count at 1. simpl. rewrite He, Zminus_mod_idemp_l.
    replace (xHead (sb s) + Z.of_nat (length d) - xTail (sb s))
      with (xHead (sb s) - xTail (sb s) + Z.of_nat (length d)) by lia.
    rewrite <- Zplus_mod_idemp_l. fold (count (sb s)). apply Z.mod_small. lia. }
  split; [split; simpl; try apply H; rewrite He; apply Z.mod_pos_bound; lia|].
  unfold contents. rewrite Hc, Z2Nat.inj_add, Nat2Z.id, ring_app by lia. simpl. f_equal.
  rewrite <- Hd at 2. rewrite (head_eq _ H), ring_mod. f_equal. lia.
Qed.

Lemma consume s n : ring_ok (sb s) -> 0 <= n <= count (sb s) ->
  let s' := upd_sb s (set_xTail ((xTail (sb s) + n) mod xLength (sb s))) in
  ring_ok (sb s') /\ contents s' = drop (Z.to_nat n) (contents s).
Proof.
  intros H Hn s'. pose proof (ring_length _ H). pose proof (count_range _ H).
  assert (count (sb s') = count (sb s) - n) as Hc.
  { unfold count at 1. simpl. rewrite Zminus_mod_idemp_r.
    replace (xHead (sb s) - (xTail (sb s) + n)) with (xHead (sb s) - xTail (sb s) - n) by lia.
    rewrite <- Zminus_mod_idemp_l. fold (count (sb s)). apply Z.mod_small. lia. }
  split; [split; simpl; try apply H; apply Z.mod_pos_bound; lia|].
  unfold contents. rewrite Hc, drop_ring by lia. simpl. rewrite ring_mod. f_equal; lia.
Qed.
