(* ===== verification/StreamCalm.v ===== *)
(** * The kernel around a stream buffer

    What the calls of stream_buffer.c need of the kernel, and that waiting, waking
    the other side and checking the time leave every byte alone. *)

From stdpp Require Import base list option gmap.
From Stdlib Require Import ZArith Lia.
From S2P Require Import Prelude FreeRTOSList Kernel KernelSched KernelPrio KernelNotify StreamBuffer StreamRing.

(** ** What a calm state is *)

(** A running task is on no event list, nor is one that waits for a
    notification from here. *)
Record calm (s : stream) : Prop := {
  calm_quiet : quiet (skern s);
  calm_running : event_container (skern s) (pxCurrentTCB (skern s)) = NULL;
  calm_waiting : forall t, t <> NULL -> t = xTaskWaitingToReceive (sb s) \/ t = xTaskWaitingToSend (sb s) ->
    notify_state (snk s) t tskDEFAULT_INDEX_TO_NOTIFY = taskWAITING_NOTIFICATION ->
    event_container (skern s) t = NULL }.

(** What the calls leave alone. *)
Record kernel_same (k k' : kernel) : Prop := {
  ks_suspended : uxSchedulerSuspended k' = uxSchedulerSuspended k;
  ks_pending : xPendingReadyList k' = xPendingReadyList k;
  ks_pended : xPendedTicks k' = xPendedTicks k;
  ks_current : pxCurrentTCB k' = pxCurrentTCB k;
  ks_container : forall t, event_container k' t = event_container k t }.

Lemma kernel_same_refl k : kernel_same k k.
Proof. by split. Qed.

Lemma kernel_same_trans k1 k2 k3 : kernel_same k1 k2 -> kernel_same k2 k3 -> kernel_same k1 k3.
Proof. intros [] []. split; congruence. Qed.

Lemma kernel_same_ready k t : kernel_same k (prvAddTaskToReadyList (remove_state_item k t) t).
Proof. unfold prvAddTaskToReadyList, taskRECORD_READY_PRIORITY. by case_match. Qed.

Lemma kernel_same_yield k y : kernel_same k (with_yield k y).
Proof. by split. Qed.

Lemma event_container_alter k f t u : (forall c, xEventContainer (f c) = xEventContainer c) ->
  event_container (with_tcbs k (alter f t (tcbs k))) u = event_container k u.
Proof.
  intros Hf. unfold event_container. simpl. destruct (decide (t = u)) as [->|].
  - rewrite lookup_alter_eq. destruct (tcbs k !! u); simpl; auto.
  - by rewrite lookup_alter_ne.
Qed.

Lemma kernel_same_delay k w : kernel_same k (prvAddCurrentTaskToDelayedList k w true).
Proof.
  destruct (prvAddCurrentTaskToDelayedList_frame k w) as (_ & ? & ? & ? & ? & Ho & Hc).
  split; try done. intros t. unfold event_container.
  destruct (decide (t = pxCurrentTCB k)) as [->|]; [|by rewrite Ho].
  destruct (tcbs k !! pxCurrentTCB k) as [tcb|] eqn:E.
  - destruct (Hc tcb eq_refl) as (tcb' & -> & _ & Hcont & _). done.
  - unfold prvAddCurrentTaskToDelayedList. destruct (_ && _); simpl;
      [|destruct (_ <? _); simpl; [|destruct (_ <? _); simpl]];
      by rewrite ?lookup_alter_eq, E.
Qed.

Lemma kernel_same_timeout k to w b to' w' k' :
  xTaskCheckForTimeOut k to w = (b, to', w', k') -> kernel_same k k'.
Proof.
  unfold xTaskCheckForTimeOut. cbv zeta. intros H.
  repeat case_match; simplify_eq; try apply kernel_same_refl.
  split; try done. intros t. by apply event_container_alter.
Qed.

(** A call that leaves that alone keeps the state calm: a task that starts to
    wait is the running one. *)
Lemma calm_same s s' : calm s -> kernel_same (skern s) (skern s') ->
  (forall t, t = xTaskWaitingToReceive (sb s') \/ t = xTaskWaitingToSend (sb s') ->
     t <> NULL -> t <> pxCurrentTCB (skern s) ->
     t = xTaskWaitingToReceive (sb s) \/ t = xTaskWaitingToSend (sb s)) ->
  (forall t, t <> pxCurrentTCB (skern s) ->
     notify_state (snk s') t tskDEFAULT_INDEX_TO_NOTIFY = taskWAITING_NOTIFICATION ->
     notify_state (snk s) t tskDEFAULT_INDEX_TO_NOTIFY = taskWAITING_NOTIFICATION) ->
  calm s'.
Proof.
  intros [Hq Hr Hw] [K1 K2 K3 K4 K5] Ht Hn. split.
  - unfold quiet in *. by rewrite K1, K2, K3.
  - by rewrite K4, K5.
  - intros t Hnz Hor Hs. rewrite K5.
    destruct (decide (t = pxCurrentTCB (skern s))) as [->|]; [done|]. apply Hw; auto.
Qed.

Lemma notify_state_set n t i v u : notify_state (set_notify_state n t i v) u i = if decide (u = t) then v else notify_state n u i.
Proof.
  unfold notify_state. simpl. case_decide as E; [subst; by rewrite lookup_insert_eq|].
  rewrite lookup_insert_ne by congruence. done.
Qed.

Definition same_sb_but_waiters (x x' : StreamBuffer_t) : Prop :=
  xTail x' = xTail x /\ xHead x' = xHead x /\ xLength x' = xLength x /\ pucBuffer x' = pucBuffer x /\
  sb_ucFlags x' = sb_ucFlags x /\ xTriggerLevelBytes x' = xTriggerLevelBytes x.

(** A call that moves no byte. *)
Record bystander (s s' : stream) : Prop := {
  by_sb : same_sb_but_waiters (sb s) (sb s');
  by_mem : smem s' = smem s;
  by_calm : calm s -> calm s' }.

Lemma bystander_refl s : bystander s s.
Proof. by split. Qed.

Lemma bystander_trans s1 s2 s3 : bystander s1 s2 -> bystander s2 s3 -> bystander s1 s3.
Proof.
  intros [A1 A2 A3] [B1 B2 B3]. split; [|by rewrite B2|auto].
  unfold same_sb_but_waiters in *. intuition congruence.
Qed.

Lemma bystander_waiters s (f : StreamBuffer_t -> StreamBuffer_t) :
  same_sb_but_waiters (sb s) (f (sb s)) ->
  (forall t, t = xTaskWaitingToReceive (f (sb s)) \/ t = xTaskWaitingToSend (f (sb s)) ->
     t <> NULL -> t <> pxCurrentTCB (skern s) ->
     t = xTaskWaitingToReceive (sb s) \/ t = xTaskWaitingToSend (sb s)) ->
  bystander s (upd_sb s f).
Proof.
  intros H1 H2. split; [done..|]. intros Hc. apply (calm_same s); [done|apply kernel_same_refl|done|done].
Qed.

Lemma bystander_kernel s n : kernel_same (skern s) (nk_kernel n) ->
  (forall t, t <> pxCurrentTCB (skern s) ->
     notify_state n t tskDEFAULT_INDEX_TO_NOTIFY = taskWAITING_NOTIFICATION ->
     notify_state (snk s) t tskDEFAULT_INDEX_TO_NOTIFY = taskWAITING_NOTIFICATION) ->
  bystander s (with_snk s n).
Proof. intros H1 H2. split; [done..|]. intros Hc. apply (calm_same s); try done. Qed.

Lemma clear_notification n :
  exists b n', xTaskGenericNotifyStateClear n NULL tskDEFAULT_INDEX_TO_NOTIFY = Some (b, n') /\
    nk_kernel n' = nk_kernel n /\
    (forall t, t <> pxCurrentTCB (nk_kernel n) ->
       notify_state n' t tskDEFAULT_INDEX_TO_NOTIFY = notify_state n t tskDEFAULT_INDEX_TO_NOTIFY).
Proof.
  unfold xTaskGenericNotifyStateClear. cbn -[notify_state]. case_match; eexists _, _; (split; [done|]).
  - split; [done|]. intros t Ht. rewrite notify_state_set. by case_decide.
  - done.
Qed.

Lemma wait_for_space_by s : xTaskWaitingToSend (sb s) = NULL ->
  exists s', wait_for_space s = Some s' /\ bystander s s'.
Proof.
  intros Hn. unfold wait_for_space. destruct (clear_notification (snk s)) as (b & n & -> & Hk & Hs).
  simpl. rewrite Hn. simpl. eexists. split; [reflexivity|].
  apply bystander_trans with (with_snk s n).
  - apply bystander_kernel; [rewrite Hk; apply kernel_same_refl|]. intros t Ht. by rewrite Hs.
  - apply bystander_waiters; [done|]. unfold skern. simpl. intros t [->| ->]; auto. congruence.
Qed.

Lemma wait_for_data_by s : xTaskWaitingToReceive (sb s) = NULL ->
  exists s', wait_for_data s = Some s' /\ bystander s s'.
Proof.
  intros Hn. unfold wait_for_data. destruct (clear_notification (snk s)) as (b & n & -> & Hk & Hs).
  simpl. rewrite Hn. simpl. eexists. split; [reflexivity|].
  apply bystander_trans with (with_snk s n).
  - apply bystander_kernel; [rewrite Hk; apply kernel_same_refl|]. intros t Ht. by rewrite Hs.
  - apply bystander_waiters; [done|]. unfold skern. simpl. intros t [->| ->]; auto. congruence.
Qed.

Lemma notify_wait_enter_by s w :
  bystander s (with_snk s (notify_wait_enter (snk s) tskDEFAULT_INDEX_TO_NOTIFY 0 w)).
Proof.
  unfold notify_wait_enter. cbv zeta. case_match; [|by destruct s].
  assert (forall n, kernel_same (skern s) (nk_kernel n) -> ucNotifyState n =
    ucNotifyState (set_notify_state (set_notified_value (snk s) (pxCurrentTCB (nk_kernel (snk s)))
      tskDEFAULT_INDEX_TO_NOTIFY (clear_flag (notified_value (snk s) (pxCurrentTCB (nk_kernel (snk s)))
        tskDEFAULT_INDEX_TO_NOTIFY) 0)) (pxCurrentTCB (nk_kernel (snk s))) tskDEFAULT_INDEX_TO_NOTIFY
      taskWAITING_NOTIFICATION) -> bystander s (with_snk s n)) as Hby.
  { intros n Hk Hs. apply bystander_kernel; [done|]. intros t Ht. unfold notify_state. rewrite Hs. simpl.
    rewrite lookup_insert_ne; [done|]. unfold skern in Ht. congruence. }
  case_match; apply Hby; try done. simpl. apply kernel_same_delay.
Qed.

Lemma notify_wait_exit_by s : forall b v n,
  notify_wait_exit (snk s) tskDEFAULT_INDEX_TO_NOTIFY 0 = (b, v, n) -> bystander s (with_snk s n).
Proof.
  unfold notify_wait_exit. cbv zeta. intros b v n E.
  destruct (negb _); simplify_eq; (apply bystander_kernel; [by split|]);
    intros t Ht; rewrite notify_state_set; by case_decide.
Qed.

Lemma check_timeout_by s to w b to' w' k' :
  xTaskCheckForTimeOut (skern s) to w = (b, to', w', k') -> bystander s (with_skern s k').
Proof. intros E. apply bystander_kernel; [by eapply kernel_same_timeout|done]. Qed.

(** Notifying a waiting task, with the scheduler suspended. *)
Lemma notify_waiting n t k : t <> NULL -> kernel_same k (nk_kernel n) ->
  (notify_state n t tskDEFAULT_INDEX_TO_NOTIFY = taskWAITING_NOTIFICATION -> event_container k t = NULL) ->
  exists b v n', xTaskGenericNotify n t tskDEFAULT_INDEX_TO_NOTIFY 0 eNoAction = Some (b, v, n') /\
    kernel_same k (nk_kernel n') /\
    (forall u, notify_state n' u tskDEFAULT_INDEX_TO_NOTIFY = taskWAITING_NOTIFICATION ->
       notify_state n u tskDEFAULT_INDEX_TO_NOTIFY = taskWAITING_NOTIFICATION).
Proof.
  intros Ht Hk Hw. unfold xTaskGenericNotify, receive_notification, notify_action. cbv zeta.
  destruct (Z.eqb_spec t NULL); [done|]. cbn [negb guard_c].
  change (tskDEFAULT_INDEX_TO_NOTIFY <? configTASK_NOTIFICATION_ARRAY_ENTRIES) with true. cbn [guard_c].
  set (n1 := set_notified_value _ _ _ _).
  assert (forall u, notify_state n1 u tskDEFAULT_INDEX_TO_NOTIFY = taskWAITING_NOTIFICATION ->
    notify_state n u tskDEFAULT_INDEX_TO_NOTIFY = taskWAITING_NOTIFICATION) as Hs.
  { intros u. change (notify_state n1 u tskDEFAULT_INDEX_TO_NOTIFY) with
      (notify_state (set_notify_state n t tskDEFAULT_INDEX_TO_NOTIFY taskNOTIFICATION_RECEIVED) u tskDEFAULT_INDEX_TO_NOTIFY).
    rewrite notify_state_set. by case_decide. }
  destruct (Z.eqb_spec (notify_state n t tskDEFAULT_INDEX_TO_NOTIFY) taskWAITING_NOTIFICATION) as [E|E].
  - pose proof (kernel_same_trans _ _ _ Hk (kernel_same_ready (nk_kernel n) t)) as Hr.
    change (nk_kernel n1) with (nk_kernel n). rewrite (ks_container _ _ Hr), (Hw E). cbn [guard_c Z.eqb].
    change (NULL =? NULL) with true. cbn [guard_c].
    eexists _, _, _. split; [reflexivity|]. split; [|exact Hs]. simpl.
    unfold taskYIELD_IF_USING_PREEMPTION. repeat case_match; try done.
    by eapply kernel_same_trans; [|apply kernel_same_yield].
  - eexists _, _, _. split; [reflexivity|]. by split.
Qed.

(** Either of the two macros: the other side is waked, no byte moves. *)
Lemma completed_by s t f : calm s -> t = xTaskWaitingToReceive (sb s) \/ t = xTaskWaitingToSend (sb s) ->
  same_sb_but_waiters (sb s) (f (sb s)) ->
  (forall u, u = xTaskWaitingToReceive (f (sb s)) \/ u = xTaskWaitingToSend (f (sb s)) -> u <> NULL ->
     u = xTaskWaitingToReceive (sb s) \/ u = xTaskWaitingToSend (sb s)) ->
  exists s', (let s := with_skern s (vTaskSuspendAll (skern s)) in
    let! s := (if negb (t =? NULL) then
                 let! (_, _, n) := xTaskGenericNotify (snk s) t tskDEFAULT_INDEX_TO_NOTIFY 0 eNoAction in
                 Some (upd_sb (with_snk s n) f)
               else Some s) in
    let! (_, k) := xTaskResumeAll (skern s) in
    Some (with_skern s k)) = Some s' /\ bystander s s' /\ (sb s' = sb s \/ sb s' = f (sb s)).
Proof.
  intros Hc Ht Hf Hw. cbv zeta. destruct (Z.eqb_spec t NULL) as [E|E]; cbn [negb].
  - change (skern (with_skern s (vTaskSuspendAll (skern s)))) with (vTaskSuspendAll (skern s)).
    destruct (suspend_resume (skern s) (vTaskSuspendAll (skern s)) (calm_quiet _ Hc)) as [y ->]; [done..|].
    simpl. eexists. split; [reflexivity|]. split; [|by left]. split; [done..|]. intros _.
    apply (calm_same s); [done|by split|auto|done].
  - destruct (notify_waiting (with_nk (snk s) (vTaskSuspendAll (skern s))) t (vTaskSuspendAll (skern s)) E)
      as (b & v & n & En & Hk & Hs); [apply kernel_same_refl|intros H; by apply (calm_waiting _ Hc)|].
    change (snk (with_skern s (vTaskSuspendAll (skern s)))) with (with_nk (snk s) (vTaskSuspendAll (skern s))).
    rewrite En. simpl. destruct Hk as [K1 K2 K3 K4 K5].
    destruct (suspend_resume (skern s) (nk_kernel n) (calm_quiet _ Hc)) as [y Er]; [done..|].
    change (skern (upd_sb _ _)) with (nk_kernel n). rewrite Er. simpl.
    eexists. split; [reflexivity|]. split; [|by right]. split; [done..|]. intros _.
    apply (calm_same s); [done|by split|auto|]. intros u _. apply Hs.
Qed.

Lemma sbSEND_COMPLETED_by s : calm s ->
  exists s', sbSEND_COMPLETED s = Some s' /\ bystander s s' /\ (sb s' = sb s \/ sb s' = set_receiver NULL (sb s)).
Proof.
  intros Hc. destruct (completed_by s (xTaskWaitingToReceive (sb s)) (set_receiver NULL) Hc) as (s' & E & Hb & Hs);
    [auto|done|simpl; naive_solver|]. by exists s'.
Qed.

Lemma sbRECEIVE_COMPLETED_by s : calm s ->
  exists s', sbRECEIVE_COMPLETED s = Some s' /\ bystander s s' /\ (sb s' = sb s \/ sb s' = set_sender NULL (sb s)).
Proof.
  intros Hc. destruct (completed_by s (xTaskWaitingToSend (sb s)) (set_sender NULL) Hc) as (s' & E & Hb & Hs);
    [auto|done|simpl; naive_solver|]. by exists s'.
Qed.
