(* ===== verification/StreamFifo.v ===== *)
(** * Stream buffers are queues of bytes, message buffers queues of messages

    The proof is in the rely-guarantee style: a writer is shown correct against
    any interference that only takes bytes out ([drained]), a reader against any
    that only puts bytes in ([filled]), at every point of the two calls; each
    call is shown to be such an interference for the other. *)

From stdpp Require Import base list option gmap.
From Stdlib Require Import ZArith Lia.
From S2P Require Import Prelude FreeRTOSList Kernel KernelSched KernelPrio KernelNotify StreamBuffer StreamRing StreamCalm.

(** ** Interference

    On a stream buffer whose [size] bytes are at [base]. *)

Section Place.
Context (base size flags : Z).

Definition in_place (s : stream) : Prop :=
  pucBuffer (sb s) = base /\ xLength (sb s) = size /\ sb_ucFlags (sb s) = flags.

Definition stream_ok (s : stream) : Prop := ring_ok (sb s) /\ calm s /\ in_place s.

Definition same_buffer (x x' : StreamBuffer_t) : Prop :=
  xLength x' = xLength x /\ pucBuffer x' = pucBuffer x /\ sb_ucFlags x' = sb_ucFlags x.

(** What a reader does to a stream buffer, [[lo, hi)] being memory of the
    writer's own. *)
Record drained (lo hi : Z) (s s' : stream) : Prop := {
  dr_same : same_buffer (sb s) (sb s');
  dr_head : xHead (sb s') = xHead (sb s);
  dr_mem : agree (smem s) (smem s') (pucBuffer (sb s)) (pucBuffer (sb s) + xLength (sb s));
  dr_private : agree (smem s) (smem s') lo hi;
  dr_ok : stream_ok s';
  dr_contents : exists k, contents s' = drop k (contents s) }.

(** And a writer, all of whose additions are [P]. *)
Record filled (P : list Z -> Prop) (lo hi : Z) (s s' : stream) : Prop := {
  fi_same : same_buffer (sb s) (sb s');
  fi_tail : xTail (sb s') = xTail (sb s);
  fi_private : agree (smem s) (smem s') lo hi;
  fi_ok : stream_ok s';
  fi_contents : exists d, P d /\ contents s' = contents s ++ d }.

Definition by_reader (lo hi : Z) (f : stream -> stream) : Prop := forall s, stream_ok s ->
  drained lo hi s (f s) /\ (xTaskWaitingToSend (sb s) = NULL -> xTaskWaitingToSend (sb (f s)) = NULL).

Definition by_writer (P : list Z -> Prop) (lo hi : Z) (f : stream -> stream) : Prop := forall s, stream_ok s ->
  filled P lo hi s (f s) /\ (xTaskWaitingToReceive (sb s) = NULL -> xTaskWaitingToReceive (sb (f s)) = NULL).

Lemma same_buffer_trans x1 x2 x3 : same_buffer x1 x2 -> same_buffer x2 x3 -> same_buffer x1 x3.
Proof. unfold same_buffer. intuition congruence. Qed.

Lemma drained_trans lo hi s1 s2 s3 : drained lo hi s1 s2 -> drained lo hi s2 s3 -> drained lo hi s1 s3.
Proof.
  intros [A1 A2 A3 A4 A5 [k A6]] [B1 B2 B3 B4 B5 [j B6]]. split.
  - by eapply same_buffer_trans.
  - congruence.
  - destruct A1 as (E1 & E2 & _). rewrite E1, E2 in B3. by eapply agree_trans.
  - by eapply agree_trans.
  - done.
  - exists (k + j)%nat. by rewrite B6, A6, drop_drop.
Qed.

Lemma contents_same s s' : same_sb_but_waiters (sb s) (sb s') -> smem s' = smem s -> contents s' = contents s.
Proof.
  intros (H1 & H2 & H3 & H4 & _) Hm. unfold contents, count. by rewrite H1, H2, H3, H4, Hm.
Qed.

Lemma bystander_ok s s' : stream_ok s -> bystander s s' -> stream_ok s'.
Proof.
  intros ([] & Hc & Hp) [(H1 & H2 & H3 & H4 & H5 & _) _ Hb]. split; [split; rewrite ?H1, ?H2, ?H3; done|].
  split; [auto|]. unfold in_place in *. by rewrite H3, H4, H5.
Qed.

Lemma bystander_drained lo hi s s' : stream_ok s -> bystander s s' -> drained lo hi s s'.
Proof.
  intros Hok Hb. pose proof (bystander_ok _ _ Hok Hb). destruct Hb as [Hs Hm _].
  pose proof (contents_same _ _ Hs Hm) as Hc. destruct Hs as (H1 & H2 & H3 & H4 & H5 & _).
  split; try (rewrite Hm; apply agree_refl); [by split_and!|done|done|]. exists 0%nat. by rewrite drop_0.
Qed.

Lemma bystander_filled (P : list Z -> Prop) lo hi s s' :
  P [] -> stream_ok s -> bystander s s' -> filled P lo hi s s'.
Proof.
  intros HP Hok Hb. pose proof (bystander_ok _ _ Hok Hb). destruct Hb as [Hs Hm _].
  pose proof (contents_same _ _ Hs Hm) as Hc. destruct Hs as (H1 & H2 & H3 & H4 & H5 & _).
  split; try (rewrite Hm; apply agree_refl); [by split_and!|done|done|].
  exists []. by rewrite app_nil_r.
Qed.

Lemma filled_trans (P : list Z -> Prop) lo hi s1 s2 s3 :
  (forall d1 d2, P d1 -> P d2 -> P (d1 ++ d2)) ->
  filled P lo hi s1 s2 -> filled P lo hi s2 s3 -> filled P lo hi s1 s3.
Proof.
  intros HP [A1 A2 A3 A4 (d1 & A5 & A6)] [B1 B2 B3 B4 (d2 & B5 & B6)]. split.
  - by eapply same_buffer_trans.
  - congruence.
  - by eapply agree_trans.
  - done.
  - exists (d1 ++ d2). rewrite B6, A6, app_assoc. auto.
Qed.

Lemma drained_space lo hi s s' : stream_ok s -> drained lo hi s s' -> space (sb s) <= space (sb s').
Proof.
  intros [Hok _] [(HL & _) _ _ _ [Hok' _] [k Hk]]. unfold space. rewrite HL.
  rewrite <- !length_contents by done. rewrite Hk, length_drop. lia.
Qed.

Lemma drained_staged lo hi s s' d h : stream_ok s -> drained lo hi s s' -> staged s d h -> staged s' d h.
Proof.
  intros Hok Hd [S1 S2 S3]. pose proof (drained_space _ _ _ _ Hok Hd).
  pose proof (ring_length _ (proj1 Hok)). destruct Hd as [(HL & Hp & _) Hh Hm _ _ _].
  split; rewrite ?Hh, ?HL, ?Hp; [done|lia|]. rewrite <- S3 at 2. apply ring_agree; [lia|done].
Qed.

(** ** The writer *)

Lemma calm_struct s s' : skern s' = skern s -> snk s' = snk s ->
  xTaskWaitingToReceive (sb s') = xTaskWaitingToReceive (sb s) ->
  xTaskWaitingToSend (sb s') = xTaskWaitingToSend (sb s) ->
  same_buffer (sb s) (sb s') ->
  calm s /\ in_place s -> calm s' /\ in_place s'.
Proof.
  intros E1 E2 E3 E4 (E5 & E6 & E7) [[C1 C2 C3] C4]. unfold in_place in *.
  split; [split|]; by rewrite ?E1, ?E2, ?E3, ?E4, ?E5, ?E6, ?E7.
Qed.

(** [drained], but for the free bytes of the ring. *)
Record receded (lo hi : Z) (s s' : stream) : Prop := {
  rc_same : same_buffer (sb s) (sb s');
  rc_private : agree (smem s) (smem s') lo hi;
  rc_ok : stream_ok s';
  rc_contents : exists k, contents s' = drop k (contents s) }.

Lemma drained_receded lo hi s s' : drained lo hi s s' -> receded lo hi s s'.
Proof. intros []. by split. Qed.

Lemma receded_refl lo hi s : stream_ok s -> receded lo hi s s.
Proof. intros H. split; [by split_and!|apply agree_refl|done|]. exists 0%nat. by rewrite drop_0. Qed.

Lemma receded_trans lo hi s1 s2 s3 : receded lo hi s1 s2 -> receded lo hi s2 s3 -> receded lo hi s1 s3.
Proof.
  intros [A1 A2 A3 [k A4]] [B1 B2 B3 [j B4]]. split.
  - by eapply same_buffer_trans.
  - by eapply agree_trans.
  - done.
  - exists (k + j)%nat. by rewrite B4, A4, drop_drop.
Qed.

(** The bytes a transfer of [d] puts in. *)
Definition framed (message : bool) (d : list Z) : list Z :=
  match d with
  | [] => []
  | _ => (if message then bytes32 (Z.of_nat (length d)) else []) ++ d
  end.

Lemma framed_pos message d : d <> [] -> framed message d = (if message then bytes32 (Z.of_nat (length d)) else []) ++ d.
Proof. by destruct d. Qed.

(** What is left of [c] once [d] was added. *)
Lemma drop_then_add {A} k (c d : list A) : exists j, drop k c ++ d = drop j (c ++ d).
Proof.
  exists (min k (length c)). rewrite drop_app_le by lia. f_equal.
  destruct (Nat.le_gt_cases k (length c)); [by rewrite Nat.min_l|].
  rewrite Nat.min_r, !drop_ge by lia. done.
Qed.

Section Writer.
Context (lo hi : Z).

Definition apart (s : stream) : Prop :=
  hi <= pucBuffer (sb s) \/ pucBuffer (sb s) + xLength (sb s) <= lo.

Lemma apart_same s s' : same_buffer (sb s) (sb s') -> apart s -> apart s'.
Proof. intros (H1 & H2 & _). unfold apart. by rewrite H1, H2. Qed.

Lemma stage s d h data : stream_ok s -> apart s -> staged s d h -> data <> [] ->
  Z.of_nat (length d) + Z.of_nat (length data) <= space (sb s) ->
  exists s' h', prvWriteBytesToBuffer s data h = Some (h', s') /\
    staged s' (d ++ data) h' /\ sb s' = sb s /\ receded lo hi s s'.
Proof.
  intros [Hok Hc] Ha Hs Hd Hf.
  destruct (staged_write s d h data Hok Hs Hd Hf) as (m & h' & E & S & C & M).
  exists (with_smem s m), h'. split_and!; [done..|]. split; [done| |split; [done|by apply (calm_struct s)]|].
  - intros x Hx. symmetry. apply M. unfold apart in Ha. lia.
  - exists 0%nat. by rewrite drop_0.
Qed.

(** The second copy of a transfer and the store of the head. *)
Lemma write_and_publish i s d h tx n : by_reader lo hi (between_copies i) -> by_reader lo hi (before_publish i) ->
  stream_ok s -> apart s -> staged s d h -> 0 < n -> lo <= tx /\ tx + n <= hi ->
  Z.of_nat (length d) + n <= space (sb s) ->
  exists s' k,
    (let! (h, s) := prvWriteBytesToBuffer (between_copies i s) (load_bytes (smem (between_copies i s)) tx n) h in
     Some (n, upd_sb (before_publish i s) (set_xHead h))) = Some (n, s') /\
    same_buffer (sb s) (sb s') /\ stream_ok s' /\ agree (smem s) (smem s') lo hi /\
    contents s' = drop k (contents s ++ d ++ load_bytes (smem s) tx n).
Proof.
  intros Hb Hp Hok Ha Hs Hn Hr Hf. destruct (Hb s Hok) as [H1 _]. cbv zeta.
  set (s1 := between_copies i s) in *.
  assert (load_bytes (smem s1) tx n = load_bytes (smem s) tx n) as El.
  { apply load_bytes_agree. eapply agree_sub; [exact (dr_private _ _ _ _ H1)|lia..]. }
  rewrite El. pose proof (drained_staged _ _ _ _ _ _ Hok H1 Hs) as S1.
  pose proof (drained_space _ _ _ _ Hok H1). assert (length (load_bytes (smem s) tx n) = Z.to_nat n) as Ln
    by apply length_load_bytes.
  destruct (stage s1 d h (load_bytes (smem s) tx n)) as (s2 & h' & -> & S2 & Es2 & R2);
    [apply H1|by apply (apart_same s), Ha; apply H1|done|by intros E%(f_equal length); rewrite Ln in E; simpl in E; lia|lia|].
  simpl. destruct (Hp s2 (rc_ok _ _ _ _ R2)) as [H3 _]. set (s3 := before_publish i s2) in *.
  pose proof (receded_trans _ _ _ _ _ (drained_receded _ _ _ _ H1)
    (receded_trans _ _ _ _ _ R2 (drained_receded _ _ _ _ H3))) as [T1 T2 [T3 T3'] [k T4]].
  pose proof (drained_staged _ _ _ _ _ _ (rc_ok _ _ _ _ R2) H3 S2) as S3.
  destruct (publish s3 _ h' T3 S3) as [P1 P2].
  destruct (drop_then_add k (contents s) (d ++ load_bytes (smem s) tx n)) as [j Hj].
  exists (upd_sb s3 (set_xHead h')), j. split_and!; [done|done| |done|].
  - split; [done|]. by apply (calm_struct s3).
  - by rewrite P2, T4.
Qed.

(** How many bytes a transfer into [sp] free ones takes. *)
Definition transfer (message : bool) (len sp : Z) : Z :=
  if message then if len + sbBYTES_TO_STORE_MESSAGE_LENGTH <=? sp then len else 0 else Z.min len sp.

(** The state after [n] bytes from [tx] were added to [s]. *)
Record added (s s' : stream) (tx n : Z) : Prop := {
  ad_same : same_buffer (sb s) (sb s');
  ad_private : agree (smem s) (smem s') lo hi;
  ad_ok : stream_ok s';
  ad_contents : exists k, contents s' =
    drop k (contents s ++ framed (is_message_buffer (sb s)) (load_bytes (smem s) tx n)) }.

Lemma receded_added s s' tx : receded lo hi s s' -> added s s' tx 0.
Proof. intros [A1 A2 A3 [k A4]]. split; try done. exists k. simpl. by rewrite app_nil_r. Qed.

Lemma load_bytes_nonempty m a n : 0 < n -> load_bytes m a n <> [].
Proof. intros Hn E%(f_equal length). rewrite length_load_bytes in E. simpl in E. lia. Qed.

Lemma prvWriteMessageToBuffer_added i s tx len sp req : by_reader lo hi (between_copies i) ->
  by_reader lo hi (before_publish i) -> stream_ok s -> apart s -> 0 <= len < 4294967296 ->
  lo <= tx -> tx + len <= hi -> 0 <= sp <= space (sb s) ->
  (is_message_buffer (sb s) = true -> req = len + sbBYTES_TO_STORE_MESSAGE_LENGTH) ->
  let n := transfer (is_message_buffer (sb s)) len sp in
  exists s', prvWriteMessageToBuffer i s tx len sp req = Some (n, s') /\ added s s' tx n.
Proof.
  intros Hb Hp Hok Ha Hl H1 H2 Hsp Hreq n. unfold prvWriteMessageToBuffer, transfer in *. cbv zeta.
  pose proof (staged_nil s (proj1 Hok)) as S0.
  destruct (is_message_buffer (sb s)) eqn:M.
  - rewrite (u32_small len), Z.eqb_refl, (Hreq eq_refl) by lia. cbn [guard_c]. subst n.
    unfold sbBYTES_TO_STORE_MESSAGE_LENGTH in *.
    destruct (Z.leb_spec (len + 4) sp) as [Hfit|].
    + destruct (stage s [] _ (bytes32 len) Hok Ha S0) as (s1 & h & -> & S1 & Es & R1); [done|simpl; lia|].
      cbn -[Z.eqb]. destruct (Z.eqb_spec len 0) as [->|]; cbn [negb]; [eauto using receded_added|].
      destruct (write_and_publish i s1 _ h tx len Hb Hp (rc_ok _ _ _ _ R1)
        (apart_same _ _ (rc_same _ _ _ _ R1) Ha) S1) as (s' & k & -> & B1 & B2 & B3 & B4);
        [lia|lia|simpl; rewrite Es; lia|].
      eexists. split; [reflexivity|]. destruct R1 as [A1 A2 A3 [j A4]]. split.
      * by eapply same_buffer_trans.
      * by eapply agree_trans.
      * done.
      * assert (load_bytes (smem s1) tx len = load_bytes (smem s) tx len) as El
          by (apply load_bytes_agree; eapply agree_sub; [exact A2|lia..]).
        rewrite El in B4. rewrite M, framed_pos, length_load_bytes, Z2Nat.id by (apply load_bytes_nonempty || idtac; lia).
        change ([] ++ bytes32 len) with (bytes32 len) in B4.
        destruct (drop_then_add j (contents s) (bytes32 len ++ load_bytes (smem s) tx len)) as [j' E].
        exists (j' + k)%nat. by rewrite B4, A4, E, drop_drop.
    + eauto using receded_added, receded_refl.
  - destruct (Z.eqb_spec n 0) as [E|]; subst n.
    + rewrite E. simpl. eauto using receded_added, receded_refl.
    + cbn [guard_c]. destruct (Z.eqb_spec (Z.min len sp) 0); [done|]. cbn [negb].
      destruct (write_and_publish i s _ _ tx (Z.min len sp) Hb Hp Hok Ha S0) as (s' & k & -> & B1 & B2 & B3 & B4);
        [lia|lia|simpl; lia|].
      eexists. split; [reflexivity|]. split; [done..|]. exists k.
      rewrite M, framed_pos by (apply load_bytes_nonempty; lia). done.
Qed.

Record reader_round (r : round_interference) : Prop := {
  rr_check : by_reader lo hi (before_check r);
  rr_wait : by_reader lo hi (before_wait r);
  rr_asleep : by_reader lo hi (asleep r);
  rr_time : by_reader lo hi (before_time r) }.

Record reader_send (i : send_interference) : Prop := {
  rs_space : by_reader lo hi (before_space i);
  rs_write : by_reader lo hi (before_write i);
  rs_between : by_reader lo hi (between_copies (writing i));
  rs_publish : by_reader lo hi (before_publish (writing i));
  rs_count : by_reader lo hi (before_count i);
  rs_completed : by_reader lo hi (before_completed i) }.

Lemma sb_notify_wait_drained f s w : by_reader lo hi f -> stream_ok s -> drained lo hi s (sb_notify_wait f s w).
Proof.
  intros Hf Hok. unfold sb_notify_wait. cbv zeta.
  pose proof (notify_wait_enter_by s w) as B1. set (s1 := with_snk s _) in *.
  pose proof (bystander_ok _ _ Hok B1) as O1. destruct (Hf s1 O1) as [D1 _].
  destruct (notify_wait_exit (snk (f s1)) tskDEFAULT_INDEX_TO_NOTIFY 0) as [[b v] n] eqn:E.
  eapply drained_trans; [by apply bystander_drained|]. eapply drained_trans; [exact D1|].
  apply bystander_drained; [apply D1|]. by eapply notify_wait_exit_by.
Qed.

Lemma no_sender_by s : bystander s (upd_sb s (set_sender NULL)).
Proof. apply bystander_waiters; [done|]. simpl. naive_solver. Qed.

Lemma no_receiver_by s : bystander s (upd_sb s (set_receiver NULL)).
Proof. apply bystander_waiters; [done|]. simpl. naive_solver. Qed.

(** One wait of the loop. *)
Lemma wait_round_drained r s w : reader_round r -> stream_ok s -> xTaskWaitingToSend (sb s) = NULL ->
  exists s1, wait_for_space s = Some s1 /\
    let s2 := before_time r (upd_sb (sb_notify_wait (asleep r) (before_wait r s1) w) (set_sender NULL)) in
    drained lo hi s s2 /\ xTaskWaitingToSend (sb s2) = NULL.
Proof.
  intros [R1 R2 R3 R4] Hok Hn. destruct (wait_for_space_by s Hn) as (s1 & E & B1). exists s1. split; [done|].
  pose proof (bystander_drained lo hi _ _ Hok B1) as D1. destruct (R2 s1 (dr_ok _ _ _ _ D1)) as [D2 _].
  pose proof (sb_notify_wait_drained (asleep r) (before_wait r s1) w R3 (dr_ok _ _ _ _ D2)) as D3.
  pose proof (bystander_drained lo hi _ _ (dr_ok _ _ _ _ D3) (no_sender_by _)) as D4.
  destruct (R4 _ (dr_ok _ _ _ _ D4)) as [D5 N5]. split; [|by apply N5].
  by do 4 (eapply drained_trans; [eassumption|]).
Qed.

Lemma send_wait_loop_drained rounds : Forall reader_round rounds -> forall s to w req,
  stream_ok s -> xTaskWaitingToSend (sb s) = NULL ->
  exists r s', send_wait_loop rounds s to w req = Some (r, s') /\ drained lo hi s s' /\
    match r with Some sp => space (sb s) <= sp <= space (sb s') | None => True end.
Proof.
  induction 1 as [|r rounds Hr _ IH]; intros s to w req Hok Hn; simpl.
  - exists None, s. split_and!; [done|by apply bystander_drained, bystander_refl|done].
  - destruct (rr_check r Hr s Hok) as [D1 N1]. set (s1 := before_check r s) in *.
    pose proof (dr_ok _ _ _ _ D1) as O1. pose proof (drained_space _ _ _ _ Hok D1) as P1.
    rewrite xStreamBufferSpacesAvailable_space by apply O1. simpl.
    destruct (Z.ltb_spec (space (sb s1)) req).
    + destruct (wait_round_drained r s1 w Hr O1 (N1 Hn)) as (s2 & -> & D2 & N2). simpl.
      set (s3 := before_time r _) in *. pose proof (drained_trans _ _ _ _ _ D1 D2) as D3.
      destruct (xTaskCheckForTimeOut (skern s3) to w) as [[[b to'] w'] k] eqn:E.
      pose proof (check_timeout_by _ _ _ _ _ _ _ E) as B4.
      pose proof (bystander_drained lo hi _ _ (dr_ok _ _ _ _ D3) B4) as D4.
      pose proof (drained_trans _ _ _ _ _ D3 D4) as D5. destruct b.
      * eexists _, _. split_and!; [done|done|]. split; [lia|]. etrans; [apply (drained_space _ _ _ _ O1 D2)|].
        apply (drained_space _ _ _ _ (dr_ok _ _ _ _ D3) D4).
      * destruct (IH (with_skern s3 k) to' w' req (dr_ok _ _ _ _ D5) N2) as (r' & s' & -> & D6 & P6).
        exists r', s'. split_and!; [done|by eapply drained_trans|]. destruct r'; [|done].
        pose proof (drained_space _ _ _ _ Hok D5). lia.
    + exists (Some (space (sb s1))), s1. split_and!; [done..|lia].
Qed.

Lemma same_message x x' : same_buffer x x' -> is_message_buffer x' = is_message_buffer x.
Proof. intros (_ & _ & H). unfold is_message_buffer. by rewrite H. Qed.

Lemma added_then s s1 s2 tx n : added s s1 tx n -> drained lo hi s1 s2 -> added s s2 tx n.
Proof.
  intros [A1 A2 A3 [k A4]] [B1 _ _ B2 B3 [j B4]]. split.
  - by eapply same_buffer_trans.
  - by eapply agree_trans.
  - done.
  - exists (k + j)%nat. by rewrite B4, A4, drop_drop.
Qed.

Lemma then_added s s1 s2 tx n : lo <= tx -> tx + n <= hi ->
  drained lo hi s s1 -> added s1 s2 tx n -> added s s2 tx n.
Proof.
  intros Ht Hn [A1 _ _ A2 _ [k A4]] [B1 B2 B3 [j B4]]. split.
  - by eapply same_buffer_trans.
  - by eapply agree_trans.
  - done.
  - rewrite (same_message _ _ A1), (load_bytes_agree (smem s) (smem s1)), A4 in B4
      by (eapply agree_sub; [exact A2|lia..]).
    destruct (drop_then_add k (contents s) (framed (is_message_buffer (sb s)) (load_bytes (smem s) tx n))) as [k' E].
    exists (k' + j)%nat. by rewrite B4, E, drop_drop.
Qed.

Lemma transfer_range message len sp : 0 <= len -> 0 <= sp -> 0 <= transfer message len sp <= len.
Proof. intros. unfold transfer. repeat case_match; lia. Qed.

Lemma send_now_added i s tx len sp req : reader_send i -> stream_ok s -> apart s -> 0 <= len < 4294967296 ->
  lo <= tx -> tx + len <= hi -> 0 <= sp <= space (sb s) ->
  (is_message_buffer (sb s) = true -> req = len + sbBYTES_TO_STORE_MESSAGE_LENGTH) ->
  exists sp' s', let n := transfer (is_message_buffer (sb s)) len sp' in
    send_now i s tx len sp req = Some (n, s') /\ added s s' tx n /\
    (sp = 0 /\ space (sb s) <= sp' \/ sp <> 0 /\ sp' = sp) /\ sp' < xLength (sb s).
Proof.
  intros [I1 I2 I3 I4 I5 I6] Hok Ha Hl H1 H2 Hsp Hreq. unfold send_now. cbv zeta.
  destruct (I1 s Hok) as [D1 _]. set (s1 := before_space i s) in *.
  pose proof (dr_ok _ _ _ _ D1) as O1. pose proof (drained_space _ _ _ _ Hok D1) as P1.
  assert (exists sp', (if sp =? 0 then xStreamBufferSpacesAvailable (sb s1) else Some sp) = Some sp' /\
    0 <= sp' <= space (sb s1) /\ (sp = 0 /\ space (sb s) <= sp' \/ sp <> 0 /\ sp' = sp)) as (sp' & -> & Hsp' & Hor).
  { rewrite xStreamBufferSpacesAvailable_space by apply O1. destruct (Z.eqb_spec sp 0); eexists;
      (split; [reflexivity|]); lia. }
  assert (sp' < xLength (sb s)) as HL.
  { destruct (dr_same _ _ _ _ D1) as (<- & _). pose proof (count_range _ (proj1 O1)). unfold space in *. lia. }
  exists sp'. simpl. destruct (I2 s1 O1) as [D2 _]. set (s2 := before_write i s1) in *.
  pose proof (drained_trans _ _ _ _ _ D1 D2) as D12. pose proof (dr_ok _ _ _ _ D2) as O2.
  pose proof (drained_space _ _ _ _ O1 D2) as P2. pose proof (same_message _ _ (dr_same _ _ _ _ D12)) as M.
  pose proof (transfer_range (is_message_buffer (sb s)) len sp' ltac:(lia) ltac:(lia)) as Hn.
  destruct (prvWriteMessageToBuffer_added (writing i) s2 tx len sp' req I3 I4 O2) as (s3 & E3 & A3);
    [by apply (apart_same s), Ha; apply D12|done|done|done|lia|by rewrite M|].
  rewrite M in E3, A3. rewrite E3. simpl. apply then_added with (s := s) in A3; [|done|lia|done].
  set (n := transfer _ _ _) in *. destruct (Z.ltb_spec 0 n); [|by eauto 6].
  destruct (I5 s3 (ad_ok _ _ _ _ A3)) as [D4 _]. set (s4 := before_count i s3) in *.
  pose proof (added_then _ _ _ _ _ A3 D4) as A4. case_match; [|by eauto 6].
  destruct (I6 s4 (ad_ok _ _ _ _ A4)) as [D5 _]. set (s5 := before_completed i s4) in *.
  destruct (sbSEND_COMPLETED_by s5 (proj1 (proj2 (dr_ok _ _ _ _ D5)))) as (s6 & -> & B6 & _). simpl.
  eexists. split; [reflexivity|]. split; [|done].
  eapply added_then; [exact A4|]. eapply drained_trans; [exact D5|].
  apply bystander_drained; [apply D5|done].
Qed.

(** C17: a send adds to the contents, behind what is there and whatever the reader
    takes out meanwhile: to a stream buffer the first bytes of the data, at least
    as many as there was room for when it was called; to a message buffer the
    whole message after its length or nothing, and the whole message if there was
    room. No assertion fails. *)
Theorem xStreamBufferSend_appends (rounds : list round_interference) (i : send_interference) (s : stream)
    (pvTxData len ticks : Z) :
  Forall reader_round rounds -> reader_send i -> stream_ok s -> xTaskWaitingToSend (sb s) = NULL ->
  apart s -> pvTxData <> NULL -> lo <= pvTxData -> pvTxData + len <= hi -> 0 <= len < 4294967292 ->
  exists o, xStreamBufferSend rounds i s pvTxData len ticks = Some o /\
    match o with
    | SbWaiting s' => drained lo hi s s'
    | SbReturned n s' =>
        stream_ok s' /\
        (exists k, contents s' = drop k (contents s ++
           framed (is_message_buffer (sb s)) (load_bytes (smem s) pvTxData n))) /\
        exists sp, space (sb s) <= sp < xLength (sb s) /\ n = transfer (is_message_buffer (sb s)) len sp
    end.
Proof.
  intros HR HI Hok Hn Ha Hp H1 H2 Hl. unfold xStreamBufferSend. cbv zeta.
  destruct (Z.eqb_spec pvTxData NULL); [done|]. cbn [negb guard_c].
  assert (exists req w, send_request (sb s) len ticks = Some (req, w) /\
    (is_message_buffer (sb s) = true -> req = len + sbBYTES_TO_STORE_MESSAGE_LENGTH)) as (req & w & -> & Hreq).
  { unfold send_request, sbBYTES_TO_STORE_MESSAGE_LENGTH. cbv zeta. case_match; [|by eexists _, _].
    rewrite u32_small by lia. destruct (Z.ltb_spec len (len + 4)); [|lia]. simpl. by eexists _, _. }
  assert (exists r s1, (if negb (w =? 0) then send_wait_loop rounds s (vTaskInternalSetTimeOutState (skern s)) w req
    else Some (Some 0, s)) = Some (r, s1) /\ drained lo hi s s1 /\
    match r with Some sp => sp <= space (sb s1) /\ (sp = 0 \/ space (sb s) <= sp) /\ 0 <= sp | None => True end)
    as (r & s1 & -> & D1 & Hr).
  { pose proof (count_range _ (proj1 Hok)). destruct (Z.eqb_spec w 0); cbn [negb].
    - exists (Some 0), s. split_and!; [done|by apply bystander_drained, bystander_refl| |by left|done].
      unfold space. lia.
    - destruct (send_wait_loop_drained rounds HR s (vTaskInternalSetTimeOutState (skern s)) w req Hok Hn)
        as (r & s' & -> & D & Hr). exists r, s'. split_and!; [done|done|]. destruct r; [|done]. unfold space in *. lia. }
  destruct r as [sp|]; [|by eauto]. destruct Hr as (Hr1 & Hr2 & Hr3).
  pose proof (same_message _ _ (dr_same _ _ _ _ D1)) as M. pose proof (drained_space _ _ _ _ Hok D1).
  destruct (send_now_added i s1 pvTxData len sp req HI) as (sp' & s2 & E & A & Hor & HL);
    [apply D1|by apply (apart_same s), Ha; apply D1|lia|done|done|lia|by rewrite M|].
  rewrite E. rewrite M in *. eexists. split; [reflexivity|].
  destruct (dr_same _ _ _ _ D1) as (EL & _). rewrite EL in HL.
  assert (space (sb s) <= sp') by lia. pose proof (count_range _ (proj1 Hok)).
  pose proof (transfer_range (is_message_buffer (sb s)) len sp' ltac:(lia) ltac:(unfold space in *; lia)).
  apply then_added with (s := s) in A; [|done|lia|done].
  split; [apply A|]. split; [apply A|]. eauto.
Qed.

End Writer.

(** ** The reader *)

Section Reader.
Context (P : list Z -> Prop) (HP0 : P []) (HPapp : forall d1 d2, P d1 -> P d2 -> P (d1 ++ d2)).
Context (lo hi : Z).

Record writer_receive (i : receive_interference) : Prop := {
  wr_wait : by_writer P lo hi (r_before_wait i);
  wr_asleep : by_writer P lo hi (r_asleep i);
  wr_clear : by_writer P lo hi (r_before_clear i);
  wr_read : by_writer P lo hi (before_read i);
  wr_consume : by_writer P lo hi (before_consume i);
  wr_completed : by_writer P lo hi (r_before_completed i) }.

Lemma sb_notify_wait_filled f s w : by_writer P lo hi f -> stream_ok s -> filled P lo hi s (sb_notify_wait f s w).
Proof.
  intros Hf Hok. unfold sb_notify_wait. cbv zeta.
  pose proof (notify_wait_enter_by s w) as B1. set (s1 := with_snk s _) in *.
  pose proof (bystander_ok _ _ Hok B1) as O1. destruct (Hf s1 O1) as [D1 _].
  destruct (notify_wait_exit (snk (f s1)) tskDEFAULT_INDEX_TO_NOTIFY 0) as [[b v] n] eqn:E.
  eapply filled_trans; [done|by apply bystander_filled|]. eapply filled_trans; [done|exact D1|].
  apply bystander_filled; [done|apply D1|]. by eapply notify_wait_exit_by.
Qed.

(** The wait ends with the number of bytes there are. *)
Lemma receive_wait_filled i s w : writer_receive i -> stream_ok s -> xTaskWaitingToReceive (sb s) = NULL ->
  exists s', receive_wait i s w = Some (count (sb s'), s') /\ filled P lo hi s s'.
Proof.
  intros [R1 R2 R3 _ _ _] Hok Hn. unfold receive_wait. cbv zeta.
  rewrite prvBytesInBuffer_count by apply Hok. destruct (negb (w =? 0) && _).
  2: { exists s. split; [done|]. by apply bystander_filled, bystander_refl. }
  destruct (wait_for_data_by s Hn) as (s1 & -> & B1). 
  pose proof (bystander_filled P lo hi _ _ HP0 Hok B1) as D1. destruct (R1 s1 (fi_ok _ _ _ _ _ D1)) as [D2 _].
  pose proof (sb_notify_wait_filled (r_asleep i) (r_before_wait i s1) w R2 (fi_ok _ _ _ _ _ D2)) as D3.
  destruct (R3 _ (fi_ok _ _ _ _ _ D3)) as [D4 _].
  pose proof (bystander_filled P lo hi _ _ HP0 (fi_ok _ _ _ _ _ D4) (no_receiver_by _)) as D5.
  eexists. split; [rewrite prvBytesInBuffer_count by apply D5; reflexivity|].
  by do 4 (eapply filled_trans; [done|eassumption|]).
Qed.

Lemma filled_app s s' : filled P lo hi s s' -> exists d, P d /\ contents s' = contents s ++ d.
Proof. apply fi_contents. Qed.

(** [n] bytes from the [o]th on are copied to [rx] and consumed with those
    before them. *)
Lemma read_and_consume f s o n rx : by_writer P lo hi f -> stream_ok s -> apart lo hi s ->
  lo <= rx -> rx + n <= hi -> 0 < n -> 0 <= o -> o + n <= count (sb s) ->
  exists s' d,
    (let! (bytes, tail) := prvReadBytesFromBuffer s n ((xTail (sb s) + o) mod xLength (sb s)) in
     Some (n, upd_sb (f (with_smem s (store_bytes (smem s) rx bytes))) (set_xTail tail))) = Some (n, s') /\
    stream_ok s' /\ same_buffer (sb s) (sb s') /\ P d /\
    contents s' = drop (Z.to_nat (o + n)) (contents s) ++ d /\
    load_bytes (smem s') rx n = take (Z.to_nat n) (drop (Z.to_nat o) (contents s)).
Proof.
  intros Hf Hok Ha H1 H2 Hn Ho Hon. destruct Hok as [Hr Hc]. pose proof (ring_length _ Hr).
  pose proof (count_range _ Hr). rewrite prvReadBytesFromBuffer_ring by (done || (try apply Z.mod_pos_bound); lia).
  set (bytes := ring _ _ _ _ _).
  assert (bytes = take (Z.to_nat n) (drop (Z.to_nat o) (contents s))) as Eb.
  { unfold contents. rewrite drop_ring, take_ring by lia. unfold bytes. rewrite ring_mod. f_equal. lia. }
  assert (length bytes = Z.to_nat n) as Lb by apply length_ring.
  set (s1 := with_smem s (store_bytes (smem s) rx bytes)).
  assert (contents s1 = contents s) as C1.
  { unfold contents. simpl. apply ring_agree; [lia|]. apply store_bytes_agree. unfold apart in Ha. lia. }
  destruct (Hf s1) as [[F1 F2 F3 [F4 F4'] (d & F5 & F6)] _]; [split; [done|by apply (calm_struct s)]|].
  rewrite C1 in F6. set (s2 := f s1) in *. simpl in F1, F2.
  assert (count (sb s2) = count (sb s) + Z.of_nat (length d)) as Ec.
  { rewrite <- !length_contents by done. rewrite F6, length_app. lia. }
  destruct (consume s2 (o + n) F4 ltac:(lia)) as [G1 G2].
  rewrite Zplus_mod_idemp_l. replace (xTail (sb s) + o + n) with (xTail (sb s2) + (o + n)) by (rewrite F2; lia).
  destruct F1 as (F1 & F1' & F1''). rewrite F1 in G1, G2. simpl in G1, G2.
  eexists _, d. split; [reflexivity|]. split_and!; try done.
  - split; [done|by apply (calm_struct s2)].
  - rewrite G2, F6. apply drop_app_le. pose proof (length_contents _ Hr). lia.
  - simpl. rewrite <- Eb, (load_bytes_agree (smem s1)) by (eapply agree_sub; [exact F3|lia..]).
    apply load_store_bytes_same. lia.
Qed.

Lemma receive_finish i s : writer_receive i -> stream_ok s ->
  exists s', sbRECEIVE_COMPLETED (r_before_completed i s) = Some s' /\ filled P lo hi s s'.
Proof.
  intros [_ _ _ _ _ R] Hok. destruct (R s Hok) as [D1 _]. pose proof (fi_ok _ _ _ _ _ D1) as O1.
  destruct (sbRECEIVE_COMPLETED_by _ (proj1 (proj2 O1))) as (s' & -> & B & _). exists s'. split; [done|].
  eapply filled_trans; [done|exact D1|]. by apply bystander_filled.
Qed.

(** The whole of a successful read. *)
Lemma read_then_finish i s o n rx : writer_receive i -> stream_ok s -> apart lo hi s ->
  lo <= rx -> rx + n <= hi -> 0 < n -> 0 <= o -> o + n <= count (sb s) ->
  exists s1 s' d,
    (let! (bytes, tail) := prvReadBytesFromBuffer s n ((xTail (sb s) + o) mod xLength (sb s)) in
     Some (n, upd_sb (before_consume i (with_smem s (store_bytes (smem s) rx bytes))) (set_xTail tail))) = Some (n, s1) /\
    sbRECEIVE_COMPLETED (r_before_completed i s1) = Some s' /\
    stream_ok s' /\ P d /\
    contents s' = drop (Z.to_nat (o + n)) (contents s) ++ d /\
    load_bytes (smem s') rx n = take (Z.to_nat n) (drop (Z.to_nat o) (contents s)).
Proof.
  intros Hi Hok Ha H1 H2 Hn Ho Hon.
  destruct (read_and_consume _ s o n rx (wr_consume _ Hi) Hok Ha H1 H2 Hn Ho Hon)
    as (s1 & d1 & E1 & O1 & _ & P1 & C1 & L1).
  destruct (receive_finish i s1 Hi O1) as (s2 & E2 & [_ _ F2 O2 (d2 & P2 & C2)]).
  exists s1, s2, (d1 ++ d2). split_and!; try done; [by auto|by rewrite C2, C1, app_assoc|].
  rewrite <- L1. apply load_bytes_agree. eapply agree_sub; [exact F2|lia..].
Qed.

(** C18: a receive from a stream buffer takes bytes from the front, in order, and
    leaves the rest with what the writer added meanwhile: as many as fit the
    caller's memory or were there when it was called. No assertion fails. *)
Theorem xStreamBufferReceive_takes (i : receive_interference) (s : stream) (pvRxData len ticks : Z) :
  writer_receive i -> stream_ok s -> xTaskWaitingToReceive (sb s) = NULL -> is_message_buffer (sb s) = false ->
  apart lo hi s -> pvRxData <> NULL -> lo <= pvRxData -> pvRxData + len <= hi -> 0 <= len ->
  exists n s' d, xStreamBufferReceive i s pvRxData len ticks = Some (n, s') /\ stream_ok s' /\ P d /\
    contents s ++ d = load_bytes (smem s') pvRxData n ++ contents s' /\
    Z.min len (Z.of_nat (length (contents s))) <= n <= len.
Proof.
  intros Hi Hok Hn M Ha Hp H1 H2 Hl. unfold xStreamBufferReceive. cbv zeta.
  destruct (Z.eqb_spec pvRxData NULL); [done|]. cbn [negb guard_c].
  destruct (receive_wait_filled i s ticks Hi Hok Hn) as (s1 & -> & D1). pose proof (fi_ok _ _ _ _ _ D1) as O1.
  destruct (fi_contents _ _ _ _ _ D1) as (d1 & P1 & C1). unfold length_bytes. rewrite M.
  pose proof (length_contents _ (proj1 Hok)). pose proof (length_contents _ (proj1 O1)) as L1.
  rewrite C1, length_app in L1. destruct (Z.ltb_spec 0 (count (sb s1))) as [Hc|Hc].
  2: { exists 0, s1, d1. split_and!; try done; lia. }
  destruct (wr_read _ Hi s1 O1) as [D2 _]. set (s2 := before_read i s1) in *.
  pose proof (fi_ok _ _ _ _ _ D2) as O2. pose proof (filled_trans P lo hi _ _ _ HPapp D1 D2) as D12.
  destruct (fi_contents _ _ _ _ _ D2) as (d2 & P2 & C2).
  pose proof (length_contents _ (proj1 O2)) as L2. rewrite C2, C1, !length_app in L2.
  assert (contents s2 = contents s ++ d1 ++ d2) as C12 by by rewrite C2, C1, app_assoc.
  unfold prvReadMessageFromBuffer. rewrite (same_message _ _ (fi_same _ _ _ _ _ D12)), M. cbn -[Z.min].
  destruct (Z.eqb_spec (Z.min len (count (sb s1))) 0) as [E|E]; cbn [negb].
  - rewrite E. exists 0, s2, (d1 ++ d2). split_and!; try done; auto; lia.
  - destruct (read_then_finish i s2 0 (Z.min len (count (sb s1))) pvRxData Hi O2)
      as (s3 & s4 & d3 & E3 & E4 & O4 & P4 & C4 & L4); [|done|lia..|].
    { eapply apart_same; [apply D12|done]. }
    rewrite Z.add_0_r, Z.mod_small in E3 by apply O2. rewrite E3.
    destruct (Z.eqb_spec (Z.min len (count (sb s1))) 0); [done|]. cbn [negb]. rewrite E4.
    eexists _, s4, (d1 ++ d2 ++ d3). split_and!; [reflexivity|done|auto| |lia..].
    rewrite Z.add_0_l in C4. rewrite L4, C4, drop_0, (app_assoc (take _ _)), take_drop, C12, <- !app_assoc.
    done.
Qed.

End Reader.

(** ** Messages *)

Definition whole (m : list Z) : Prop := m <> [] /\ Z.of_nat (length m) < 4294967292.
Definition frames (ms : list (list Z)) : list Z := concat (map (framed true) ms).
Definition whole_messages (d : list Z) : Prop := exists ms, Forall whole ms /\ d = frames ms.

Lemma frames_app ms1 ms2 : frames (ms1 ++ ms2) = frames ms1 ++ frames ms2.
Proof. unfold frames. by rewrite map_app, concat_app. Qed.

Lemma frames_cons m ms : whole m -> frames (m :: ms) = bytes32 (Z.of_nat (length m)) ++ m ++ frames ms.
Proof.
  intros [Hm _]. change (frames (m :: ms)) with (framed true m ++ frames ms).
  rewrite framed_pos by done. by rewrite <- app_assoc.
Qed.

Lemma whole_messages_nil : whole_messages [].
Proof. by exists []. Qed.

Lemma whole_messages_app d1 d2 : whole_messages d1 -> whole_messages d2 -> whole_messages (d1 ++ d2).
Proof.
  intros (m1 & W1 & ->) (m2 & W2 & ->). exists (m1 ++ m2). rewrite frames_app. split; [by apply Forall_app|done].
Qed.

Lemma load32_bytes32 v : is_u32 v -> load32 (store_bytes (fun _ => 0) 0 (bytes32 v)) 0 = v.
Proof. apply (load32_store32_same (fun _ => 0) 0 v). Qed.

(** The length in front of the first message. *)
Lemma read_length s m rest : stream_ok s -> whole m -> contents s = frames (m :: rest) ->
  prvReadBytesFromBuffer s sbBYTES_TO_STORE_MESSAGE_LENGTH (xTail (sb s)) =
  Some (bytes32 (Z.of_nat (length m)),
        (xTail (sb s) + sbBYTES_TO_STORE_MESSAGE_LENGTH) mod xLength (sb s)) /\
  sbBYTES_TO_STORE_MESSAGE_LENGTH + Z.of_nat (length m) <= count (sb s).
Proof.
  intros [Hr _] Hm Hc. rewrite frames_cons in Hc by done.
  pose proof (length_contents _ Hr) as Hl. rewrite Hc, !length_app in Hl.
  change (length (bytes32 (Z.of_nat (length m)))) with 4%nat in Hl.
  pose proof (count_range _ Hr). unfold sbBYTES_TO_STORE_MESSAGE_LENGTH.
  rewrite prvReadBytesFromBuffer_ring by (apply Hr || lia). split; [|lia]. do 2 f_equal.
  rewrite <- (take_ring _ _ _ _ (Z.to_nat (count (sb s)))) by lia. fold (contents s). rewrite Hc. done.
Qed.

Section Messages.
Context (lo hi : Z).

(** C19: a receive from a message buffer whose contents are whole messages takes
    the first message whole, if it fits the caller's memory, and leaves the others
    whole, however writers add whole messages meanwhile; otherwise it takes
    nothing, because there was no message or the first one is too long. No
    assertion fails. *)
Theorem message_buffer_receive (i : receive_interference) (s : stream) (ms : list (list Z))
    (pvRxData len ticks : Z) :
  writer_receive whole_messages lo hi i -> stream_ok s -> xTaskWaitingToReceive (sb s) = NULL ->
  is_message_buffer (sb s) = true -> Forall whole ms -> contents s = frames ms ->
  apart lo hi s -> pvRxData <> NULL -> lo <= pvRxData -> pvRxData + len <= hi -> 0 <= len ->
  exists n s' new, xStreamBufferReceive i s pvRxData len ticks = Some (n, s') /\ stream_ok s' /\
    Forall whole new /\
    ((exists m rest, ms ++ new = m :: rest /\ n = Z.of_nat (length m) /\ n <= len /\
        load_bytes (smem s') pvRxData n = m /\ contents s' = frames rest) \/
     (n = 0 /\ contents s' = frames (ms ++ new) /\
        match ms with [] => True | m :: _ => len < Z.of_nat (length m) end)).
Proof.
  intros Hi Hok Hn M Hw Hms Ha Hp H1 H2 Hl. unfold xStreamBufferReceive. cbv zeta.
  pose proof whole_messages_nil as P0. pose proof whole_messages_app as PA.
  destruct (Z.eqb_spec pvRxData NULL); [done|]. cbn [negb guard_c].
  destruct (receive_wait_filled _ P0 PA lo hi i s ticks Hi Hok Hn) as (s1 & -> & D1).
  pose proof (fi_ok _ _ _ _ _ D1) as O1. destruct (fi_contents _ _ _ _ _ D1) as (d1 & (n1 & W1 & ->) & C1).
  rewrite Hms, <- frames_app in C1. unfold length_bytes. rewrite M.
  destruct (ms ++ n1) as [|m rest] eqn:Em.
  { apply app_nil in Em as [-> ->]. pose proof (length_contents _ (proj1 O1)) as L1. rewrite C1 in L1.
    rewrite <- L1. simpl. exists 0, s1, []. split_and!; auto. }
  assert (Forall whole (m :: rest)) as Hall by (rewrite <- Em; by apply Forall_app).
  pose proof (Forall_inv Hall) as Hm. destruct (read_length s1 m rest O1 Hm C1) as [_ Hc].
  pose proof (length_pos m (proj1 Hm)). 
  destruct (Z.ltb_spec sbBYTES_TO_STORE_MESSAGE_LENGTH (count (sb s1))) as [_|]; [|lia].
  destruct (wr_read _ _ _ _ Hi s1 O1) as [D2 _]. set (s2 := before_read i s1) in *.
  pose proof (fi_ok _ _ _ _ _ D2) as O2. pose proof (filled_trans _ lo hi _ _ _ PA D1 D2) as D12.
  destruct (fi_contents _ _ _ _ _ D2) as (d2 & (n2 & W2 & ->) & C2). rewrite C1, <- frames_app in C2. simpl app in C2.
  unfold prvReadMessageFromBuffer. rewrite (same_message _ _ (fi_same _ _ _ _ _ D12)), M. cbv zeta.
  destruct (read_length s2 m (rest ++ n2) O2 Hm C2) as [-> Hc2].
  pose proof (count_range _ (proj1 O1)). pose proof (ring_length _ (proj1 O1)). pose proof Hm as [Hm0 Hm1].
  rewrite load32_bytes32 by (unfold is_u32; lia). unfold sbBYTES_TO_STORE_MESSAGE_LENGTH in *. rewrite u32_small by lia.
  destruct (Z.ltb_spec len (Z.of_nat (length m))) as [Hlen|Hlen].
  - rewrite Z.min_l by lia. simpl. exists 0, s2, (n1 ++ n2). split_and!; try done; [by apply Forall_app|]. right.
    rewrite app_assoc, Em. simpl. split_and!; [done..|].
    destruct ms as [|m' ms']; [done|]. simpl in Em. by injection Em as -> _.
  - rewrite Z.min_l by lia. destruct (Z.eqb_spec (Z.of_nat (length m)) 0); [lia|]. cbn [negb].
    destruct (read_then_finish _ P0 PA lo hi i s2 4 (Z.of_nat (length m)) pvRxData Hi O2)
      as (s3 & s4 & d3 & E3 & E4 & O4 & (n3 & W3 & ->) & C4 & L4); [|done|lia..|].
    { eapply apart_same; [apply D12|done]. }
    rewrite E3, E4. destruct (Z.eqb_spec (Z.of_nat (length m)) 0); [done|]. cbn [negb].
    exists (Z.of_nat (length m)), s4, (n1 ++ n2 ++ n3).
    split_and!; [done|done|rewrite !Forall_app; done|]. left. exists m, (rest ++ n2 ++ n3).
    assert (contents s2 = bytes32 (Z.of_nat (length m)) ++ m ++ frames (rest ++ n2)) as C2' by by rewrite C2, frames_cons.
    split_and!; [by rewrite !app_assoc, Em|done|lia| |].
    + rewrite L4, C2', Nat2Z.id. apply (take_app_length m).
    + rewrite C4, C2', Z2Nat.inj_add, Nat2Z.id, <- drop_drop by lia.
      change (drop (Z.to_nat 4) (bytes32 (Z.of_nat (length m)) ++ m ++ frames (rest ++ n2))) with (m ++ frames (rest ++ n2)).
      by rewrite drop_app_length, <- frames_app, <- app_assoc.
Qed.

End Messages.

(** ** Each call is an interference the other allows for *)

Definition reader_call (rx n : Z) (s : stream) : stream :=
  match xStreamBufferReceive calm_receive s rx n 0 with Some (_, s') => s' | None => s end.

Definition writer_call (tx n : Z) (s : stream) : stream :=
  match xStreamBufferSend [] calm_send s tx n 0 with Some (SbReturned _ s') => s' | _ => s end.

Definition outside (a n lo hi : Z) : Prop := a + n <= lo \/ hi <= a.

(** The state a receive of [c] bytes leaves before it wakes a sender. *)
Definition received (s : stream) (rx c : Z) : stream :=
  upd_sb (with_smem s (store_bytes (smem s) rx
      (ring (smem s) (pucBuffer (sb s)) (xLength (sb s)) (xTail (sb s)) (Z.to_nat c))))
    (set_xTail ((xTail (sb s) + c) mod xLength (sb s))).

Lemma receive_at_once s rx n : ring_ok (sb s) -> is_message_buffer (sb s) = false -> rx <> NULL -> 0 <= n ->
  let c := Z.min n (count (sb s)) in
  xStreamBufferReceive calm_receive s rx n 0 =
  if c =? 0 then Some (0, s) else let! s' := sbRECEIVE_COMPLETED (received s rx c) in Some (c, s').
Proof.
  intros Hr M Hrx Hn c. pose proof (count_range _ Hr). pose proof (ring_length _ Hr).
  unfold xStreamBufferReceive, receive_wait, length_bytes, prvReadMessageFromBuffer. cbv zeta.
  rewrite M. destruct (Z.eqb_spec rx NULL); [done|]. cbn -[Z.ltb Z.eqb Z.min sbRECEIVE_COMPLETED].
  change (0 =? 0) with true. cbn -[Z.ltb Z.eqb Z.min sbRECEIVE_COMPLETED].
  rewrite prvBytesInBuffer_count, M by done. destruct (Z.ltb_spec 0 (count (sb s))).
  - fold c. destruct (Z.eqb_spec c 0) as [->|]; cbn [negb]; [done|].
    rewrite prvReadBytesFromBuffer_ring by (apply Hr || lia || done).
    destruct (Z.eqb_spec c 0); [done|]. reflexivity.
  - destruct (Z.eqb_spec c 0); [done|lia].
Qed.

Lemma reader_call_drains lo hi rx n : has_flag flags sbFLAGS_IS_MESSAGE_BUFFER = false ->
  rx <> NULL -> 0 <= n -> outside rx n base (base + size) -> outside rx n lo hi ->
  by_reader lo hi (reader_call rx n).
Proof.
  intros HM Hrx Hn Hb Hp s Hok. pose proof Hok as (Hr & Hc & Hb1 & Hb2 & Hb3).
  pose proof (count_range _ Hr). pose proof (ring_length _ Hr). unfold outside in *.
  assert (is_message_buffer (sb s) = false) as M by (unfold is_message_buffer; by rewrite Hb3).
  unfold reader_call. rewrite receive_at_once by done. set (c := Z.min n (count (sb s))).
  destruct (Z.eqb_spec c 0); [split; [by apply bystander_drained, bystander_refl|done]|].
  assert (length (ring (smem s) (pucBuffer (sb s)) (xLength (sb s)) (xTail (sb s)) (Z.to_nat c)) = Z.to_nat c) as Lb
    by apply length_ring.
  assert (agree (smem s) (smem (received s rx c)) (pucBuffer (sb s)) (pucBuffer (sb s) + xLength (sb s))) as A1
    by (apply store_bytes_agree; lia).
  destruct (consume s c Hr ltac:(lia)) as [G1 G2].
  assert (stream_ok (received s rx c)) as O2 by (split; [exact G1|by apply (calm_struct s)]).
  assert (drained lo hi s (received s rx c)) as D2.
  { split; [done|done|exact A1|apply store_bytes_agree; lia|exact O2|]. exists (Z.to_nat c). rewrite <- G2.
    unfold contents. apply ring_agree; [simpl; lia|exact A1]. }
  destruct (sbRECEIVE_COMPLETED_by _ (proj1 (proj2 O2))) as (s3 & -> & B3 & Hs). split.
  - eapply drained_trans; [exact D2|]. by apply bystander_drained.
  - destruct Hs as [-> | ->]; done.
Qed.

(** The bytes [d] of memory [m], published. *)
Lemma publish_filled (P : list Z -> Prop) lo hi s m d h : stream_ok s -> staged (with_smem s m) d h ->
  contents (with_smem s m) = contents s -> agree (smem s) m lo hi -> P d ->
  filled P lo hi s (upd_sb (with_smem s m) (set_xHead h)).
Proof.
  intros [Hr Hc] S C A HP. destruct (publish (with_smem s m) d h Hr S) as [P1 P2].
  split; [done|done|exact A|split; [exact P1|by apply (calm_struct s)]|]. exists d. by rewrite P2, C.
Qed.

(** The free bytes may change. *)
Lemma scratch_filled (P : list Z -> Prop) lo hi s m : P [] -> stream_ok s ->
  contents (with_smem s m) = contents s -> agree (smem s) m lo hi -> filled P lo hi s (with_smem s m).
Proof.
  intros HP [Hr Hc] C A. split; [done|done|exact A|split; [done|by apply (calm_struct s)]|].
  exists []. by rewrite C, app_nil_r.
Qed.

Section Writes.
Context (P : list Z -> Prop) (lo hi : Z) (Hout : outside lo (hi - lo) base (base + size)).
Context (message : bool) (Hm : has_flag flags sbFLAGS_IS_MESSAGE_BUFFER = message).
Context (HP : forall d, d = [] \/ whole d -> P (framed message d)).
Context (HPapp : forall d1 d2, P d1 -> P d2 -> P (d1 ++ d2)).

Lemma stage_quietly s d h data : stream_ok s -> staged s d h -> data <> [] ->
  Z.of_nat (length d) + Z.of_nat (length data) <= space (sb s) ->
  exists m h', prvWriteBytesToBuffer s data h = Some (h', with_smem s m) /\
    staged (with_smem s m) (d ++ data) h' /\ contents (with_smem s m) = contents s /\ agree (smem s) m lo hi.
Proof.
  intros (Hr & _ & Hb & Hs & _) S Hd Hf. destruct (staged_write s d h data Hr S Hd Hf) as (m & h' & E & S' & C & O).
  exists m, h'. split_and!; try done. intros x Hx. symmetry. apply O. unfold outside in Hout. lia.
Qed.

Lemma undisturbed_write s tx len sp req : stream_ok s -> 0 <= len < 4294967292 -> 0 <= sp <= space (sb s) ->
  (message = true -> req = len + sbBYTES_TO_STORE_MESSAGE_LENGTH) ->
  exists r s', prvWriteMessageToBuffer (mkWI id id) s tx len sp req = Some (r, s') /\ filled P lo hi s s' /\
    xTaskWaitingToReceive (sb s') = xTaskWaitingToReceive (sb s).
Proof.
  intros Hok Hl Hsp Hreq. pose proof Hok as (Hr & _ & _ & _ & Hf).
  assert (is_message_buffer (sb s) = message) as M by (unfold is_message_buffer; by rewrite Hf).
  pose proof (HP [] (or_introl eq_refl)) as P0. pose proof (staged_nil s Hr) as S0.
  pose proof (bystander_filled P lo hi _ _ P0 Hok (bystander_refl s)) as F0.
  unfold prvWriteMessageToBuffer. cbv zeta. rewrite M. cbn [between_copies before_publish]. unfold id.
  destruct message.
  - rewrite (u32_small len), Z.eqb_refl, (Hreq eq_refl) by lia. cbn [guard_c].
    unfold sbBYTES_TO_STORE_MESSAGE_LENGTH in *. destruct (Z.leb_spec (len + 4) sp); [|by eauto].
    destruct (stage_quietly s [] _ (bytes32 len) Hok S0) as (m & h & -> & S1 & C1 & A1); [done|simpl; lia|].
    pose proof (scratch_filled P lo hi s m P0 Hok C1 A1) as F1.
    destruct (Z.eqb_spec len 0); cbn [negb]; [by eexists _, _|].
    destruct (stage_quietly (with_smem s m) _ h (load_bytes (smem (with_smem s m)) tx len) (fi_ok _ _ _ _ _ F1) S1)
      as (m2 & h2 & -> & S2 & C2 & A2);
      [apply load_bytes_nonempty; lia|rewrite length_load_bytes; simpl; lia|].
    eexists _, _. split; [reflexivity|]. split; [|done].
    apply (publish_filled P lo hi s m2 _ h2 Hok S2); [by rewrite <- C1|by eapply agree_trans|].
    change ([] ++ bytes32 len) with (bytes32 len).
    assert (whole (load_bytes (smem (with_smem s m)) tx len)) as W.
    { split; [apply load_bytes_nonempty; lia|rewrite length_load_bytes; lia]. }
    replace (bytes32 len ++ _) with (framed true (load_bytes (smem (with_smem s m)) tx len)); [auto|].
    by rewrite framed_pos, length_load_bytes, Z2Nat.id by (apply W || lia).
  - destruct (Z.eqb_spec (Z.min len sp) 0); cbn [negb]; [by eauto|].
    destruct (stage_quietly s [] _ (load_bytes (smem s) tx (Z.min len sp)) Hok S0) as (m & h & -> & S1 & C1 & A1);
      [apply load_bytes_nonempty; lia|rewrite length_load_bytes; simpl; lia|].
    eexists _, _. split; [reflexivity|]. split; [|done]. apply (publish_filled P lo hi s m _ h Hok S1 C1 A1).
    assert (whole (load_bytes (smem s) tx (Z.min len sp))) as W.
    { split; [apply load_bytes_nonempty; lia|rewrite length_load_bytes; lia]. }
    replace ([] ++ _) with (framed false (load_bytes (smem s) tx (Z.min len sp))); [auto|]. by rewrite framed_pos by apply W.
Qed.

Lemma undisturbed_send s tx n : stream_ok s -> tx <> NULL -> 0 <= n < 4294967292 ->
  exists r s', xStreamBufferSend [] calm_send s tx n 0 = Some (SbReturned r s') /\ filled P lo hi s s' /\
    (xTaskWaitingToReceive (sb s) = NULL -> xTaskWaitingToReceive (sb s') = NULL).
Proof.
  intros Hok Htx Hn. pose proof Hok as (Hr & _ & _ & _ & Hf). pose proof (count_range _ Hr).
  assert (is_message_buffer (sb s) = message) as M by (unfold is_message_buffer; by rewrite Hf).
  unfold xStreamBufferSend. cbv zeta. destruct (Z.eqb_spec tx NULL); [done|]. cbn [negb guard_c].
  assert (exists req, send_request (sb s) n 0 = Some (req, 0) /\
    (message = true -> req = n + sbBYTES_TO_STORE_MESSAGE_LENGTH)) as (req & -> & Hreq).
  { unfold send_request, sbBYTES_TO_STORE_MESSAGE_LENGTH. cbv zeta. rewrite M. destruct message; [|by eexists].
    rewrite u32_small by lia. destruct (Z.ltb_spec n (n + 4)); [|lia]. cbn [guard_c].
    exists (n + 4). split; [|done]. by destruct (_ <? _). }
  change (negb (0 =? 0)) with false. cbv iota. unfold send_now. cbv zeta.
  change (0 =? 0) with true. cbv iota. cbn [before_space before_write before_count before_completed writing calm_send].
  unfold id. rewrite xStreamBufferSpacesAvailable_space by done.
  destruct (undisturbed_write s tx n (space (sb s)) req Hok Hn) as (r & s1 & E & F & Er);
    [pose proof (ring_length _ Hr); unfold space; lia|done|]. unfold id in E. rewrite E.
  assert (xTaskWaitingToReceive (sb s) = NULL -> xTaskWaitingToReceive (sb s1) = NULL) as G by by rewrite Er.
  destruct (0 <? r); [|by eauto]. destruct (_ <=? _); [|by eauto].
  destruct (sbSEND_COMPLETED_by s1 (proj1 (proj2 (fi_ok _ _ _ _ _ F)))) as (s2 & -> & B & Hs).
  eexists _, s2. split; [reflexivity|]. split.
  - eapply filled_trans; [done|exact F|]. apply bystander_filled; [apply (HP []); by left|apply F|done].
  - destruct Hs as [-> | ->]; [apply G|done].
Qed.

Lemma writer_call_fills tx n : tx <> NULL -> 0 <= n < 4294967292 -> by_writer P lo hi (writer_call tx n).
Proof.
  intros Htx Hn s Hok. unfold writer_call. by destruct (undisturbed_send s tx n Hok Htx Hn) as (r & s' & -> & ?).
Qed.

End Writes.

End Place.

(** ** Examples

    The writer's send is interrupted by reads of the bytes there are, the
    reader's receive by writes. *)

Lemma by_reader_id base size flags lo hi : by_reader base size flags lo hi id.
Proof. intros s Hok. split; [by apply bystander_drained, bystander_refl|done]. Qed.

Lemma by_writer_id base size flags (P : list Z -> Prop) lo hi : P [] -> by_writer base size flags P lo hi id.
Proof. intros HP s Hok. split; [by apply bystander_filled, bystander_refl|done]. Qed.

(** [demo_stream] with four bytes in it, [1; 2; 3; 4], round the end. *)
Definition demo_full : stream :=
  mkStream (mkSB 8 1 11 1 NULL NULL 1000 0)
    (fun a => if 2000 <=? a then a - 1990 else if a =? 1008 then 1 else if a =? 1009 then 2
              else if a =? 1010 then 3 else if a =? 1000 then 4 else 0) demo_stream_kernel.

Lemma demo_full_ok : stream_ok 1000 11 0 demo_full.
Proof.
  split; [split; simpl; lia|]. split; [|by split_and!]. split; [by repeat split|done|].
  intros t Ht [-> | ->]; done.
Qed.

Definition interrupted_send : send_interference :=
  mkSI (reader_call 3000 1) id (mkWI id (reader_call 3000 2)) id id.

Example xStreamBufferSend_appends_witness :
  exists o, xStreamBufferSend [mkRI (reader_call 3000 1) id id id] interrupted_send demo_full 2000 6 5 = Some o /\
    match o with
    | SbWaiting s' => drained 1000 11 0 2000 2006 demo_full s'
    | SbReturned n s' =>
        stream_ok 1000 11 0 s' /\
        (exists k, contents s' = drop k (contents demo_full ++ framed false (load_bytes (smem demo_full) 2000 n))) /\
        exists sp, space (sb demo_full) <= sp < 11 /\ n = transfer false 6 sp
    end.
Proof.
  assert (forall n, 0 <= n < 100 -> by_reader 1000 11 0 2000 2006 (reader_call 3000 n)) as R
    by (intros n Hn; apply reader_call_drains; unfold outside; (reflexivity || discriminate || lia)).
  apply (xStreamBufferSend_appends 1000 11 0 2000 2006 [mkRI (reader_call 3000 1) id id id] interrupted_send demo_full 2000 6 5);
    [|split; simpl; first [apply R; lia|apply by_reader_id]|exact demo_full_ok|reflexivity
     |unfold apart; simpl; lia|discriminate|lia|lia|lia].
  constructor; [split; simpl; first [apply R; lia|apply by_reader_id]|constructor].
Defined.

Definition interrupted_receive : receive_interference :=
  mkRcI id (writer_call 2000 6) id (writer_call 2000 2) (writer_call 2000 2) (writer_call 2000 1).

Example xStreamBufferReceive_takes_witness :
  exists n s' d, xStreamBufferReceive interrupted_receive demo_full 3000 3 7 = Some (n, s') /\
    stream_ok 1000 11 0 s' /\ True /\
    [1; 2; 3; 4] ++ d = load_bytes (smem s') 3000 n ++ contents s' /\ 3 <= n <= 3.
Proof.
  assert (forall n, 0 <= n < 100 -> by_writer 1000 11 0 (fun _ => True) 3000 3003 (writer_call 2000 n)) as R
    by (intros n Hn; apply (writer_call_fills 1000 11 0 (fun _ => True) 3000 3003) with (message := false);
        unfold outside; (done || lia)).
  apply (xStreamBufferReceive_takes 1000 11 0 (fun _ => True) I ltac:(auto) 3000 3003 interrupted_receive demo_full 3000 3 7);
    [split; simpl; first [apply R; lia|by apply by_writer_id]|exact demo_full_ok|reflexivity|reflexivity
    |unfold apart; simpl; lia|discriminate|lia|lia|lia].
Defined.

(** Two messages, [5; 6; 7] and [8], of which the first is read. *)
Definition demo_messages : stream :=
  mkStream (mkSB 0 12 21 1 NULL NULL 1000 1)
    (store_bytes (fun _ => 0) 1000 [3; 0; 0; 0; 5; 6; 7; 1; 0; 0; 0; 8]) demo_stream_kernel.

Lemma demo_messages_ok : stream_ok 1000 21 1 demo_messages.
Proof.
  split; [split; simpl; lia|]. split; [|by split_and!]. split; [by repeat split|done|].
  intros t Ht [-> | ->]; done.
Qed.

(** The writer adds messages of two bytes meanwhile. *)
Definition interrupted_by_messages : receive_interference :=
  mkRcI id id id (writer_call 2000 2) (writer_call 2000 2) id.

Example message_buffer_receive_witness :
  exists n s' new, xStreamBufferReceive interrupted_by_messages demo_messages 3000 10 0 = Some (n, s') /\
    stream_ok 1000 21 1 s' /\ Forall whole new /\
    ((exists m rest, [[5; 6; 7]; [8]] ++ new = m :: rest /\ n = Z.of_nat (length m) /\ n <= 10 /\
        load_bytes (smem s') 3000 n = m /\ contents s' = frames rest) \/
     (n = 0 /\ contents s' = frames ([[5; 6; 7]; [8]] ++ new) /\ 10 < 3)).
Proof.
  assert (forall n, 0 <= n < 100 -> by_writer 1000 21 1 whole_messages 3000 3010 (writer_call 2000 n)) as R.
  { intros n Hn. apply (writer_call_fills 1000 21 1 whole_messages 3000 3010) with (message := true);
      try (unfold outside; (done || lia)); [|exact whole_messages_app].
    intros d [->|Hd]; [exact whole_messages_nil|]. exists [d]. split; [by constructor|].
    unfold frames. simpl. by rewrite app_nil_r. }
  apply (message_buffer_receive 1000 21 1 3000 3010 interrupted_by_messages demo_messages [[5; 6; 7]; [8]] 3000 10 0);
    [split; simpl; first [apply R; lia|apply by_writer_id, whole_messages_nil]|exact demo_messages_ok|reflexivity|reflexivity
    |repeat constructor; (discriminate || simpl; lia)|reflexivity|unfold apart; simpl; lia|discriminate|lia|lia|lia].
Defined.
