(* ===== verification/StreamWait.v ===== *)
(** * A reader that goes to sleep on a stream buffer is not left asleep

    An interrupt may send at any point of a task's going to sleep in
    [xStreamBufferReceive]: before [xTaskNotifyWait] puts it to sleep, or after. *)

From stdpp Require Import base list option gmap.
From Stdlib Require Import ZArith Lia.
From S2P Require Import Prelude FreeRTOSList Kernel KernelSched KernelPrio KernelNotify StreamBuffer StreamRing StreamCalm StreamFifo.

(** An interrupt that sends [n] bytes from [tx]. *)
Definition isr_send (tx n : Z) (s : stream) : stream :=
  match xStreamBufferSendFromISR s tx n with Some (_, _, s') => s' | None => s end.

(** Another task is switched in. *)
Definition switch_to (o : Z) (s : stream) : stream := with_skern s (with_current (skern s) o).

(** [xTaskNotifyWait] up to where the task sleeps. *)
Definition fall_asleep (ticks : Z) (s : stream) : stream :=
  with_snk s (notify_wait_enter (snk s) tskDEFAULT_INDEX_TO_NOTIFY 0 ticks).

(** The task can run, and will see the notification. *)
Record awake (s : stream) (t : Z) : Prop := {
  aw_ready : t ∈ default [] (pxReadyTasksLists (skern s) !! priority (skern s) t);
  aw_delayed : t ∉ delayed_tasks (skern s);
  aw_suspended : t ∉ xSuspendedTaskList (skern s);
  aw_notified : notify_state (snk s) t tskDEFAULT_INDEX_TO_NOTIFY = taskNOTIFICATION_RECEIVED }.

(** ** What an interrupt's send does *)

Lemma notify_from_isr_waiting n t : t <> NULL -> uxSchedulerSuspended (nk_kernel n) = 0 ->
  event_container (nk_kernel n) t = NULL ->
  notify_state n t tskDEFAULT_INDEX_TO_NOTIFY = taskWAITING_NOTIFICATION ->
  exists v woken n', xTaskGenericNotifyFromISR n t tskDEFAULT_INDEX_TO_NOTIFY 0 eNoAction = Some (true, v, woken, n') /\
    notify_state n' t tskDEFAULT_INDEX_TO_NOTIFY = taskNOTIFICATION_RECEIVED /\
    exists y, nk_kernel n' = with_yield (prvAddTaskToReadyList (remove_state_item (nk_kernel n) t) t) y.
Proof.
  intros Ht Hs Hc Hw. unfold xTaskGenericNotifyFromISR, receive_notification, notify_action, notify_unblock_from_isr.
  cbv zeta. destruct (Z.eqb_spec t NULL); [done|]. cbn [negb guard_c].
  change (tskDEFAULT_INDEX_TO_NOTIFY <? configTASK_NOTIFICATION_ARRAY_ENTRIES) with true. cbn [guard_c].
  rewrite Hw, Z.eqb_refl. cbn [nk_kernel set_notified_value set_notify_state]. rewrite Hc.
  change (NULL =? NULL) with true. cbn [guard_c]. unfold taskCAN_BE_SCHEDULED. rewrite Hs.
  change (0 =? 0) with true. cbv iota. set (k := prvAddTaskToReadyList _ t).
  exists (notified_value n t tskDEFAULT_INDEX_TO_NOTIFY).
  destruct (taskIS_YIELD_REQUIRED k t false); eexists _, _; (split; [reflexivity|]); (split;
    [change (notify_state (set_notify_state n t tskDEFAULT_INDEX_TO_NOTIFY taskNOTIFICATION_RECEIVED) t
       tskDEFAULT_INDEX_TO_NOTIFY = taskNOTIFICATION_RECEIVED); rewrite notify_state_set; by case_decide|]).
  - by exists true.
  - exists (xYieldPending k). clearbody k. by destruct k.
Qed.

Lemma notify_from_isr_running n t : t <> NULL ->
  notify_state n t tskDEFAULT_INDEX_TO_NOTIFY <> taskWAITING_NOTIFICATION ->
  exists v n', xTaskGenericNotifyFromISR n t tskDEFAULT_INDEX_TO_NOTIFY 0 eNoAction = Some (true, v, false, n') /\
    notify_state n' t tskDEFAULT_INDEX_TO_NOTIFY = taskNOTIFICATION_RECEIVED /\ nk_kernel n' = nk_kernel n.
Proof.
  intros Ht Hw. unfold xTaskGenericNotifyFromISR, receive_notification, notify_action.
  cbv zeta. destruct (Z.eqb_spec t NULL); [done|]. cbn [negb guard_c].
  change (tskDEFAULT_INDEX_TO_NOTIFY <? configTASK_NOTIFICATION_ARRAY_ENTRIES) with true. cbn [guard_c].
  destruct (Z.eqb_spec (notify_state n t tskDEFAULT_INDEX_TO_NOTIFY) taskWAITING_NOTIFICATION); [done|].
  eexists _, _. split; [reflexivity|]. split; [|done].
  change (notify_state (set_notify_state n t tskDEFAULT_INDEX_TO_NOTIFY taskNOTIFICATION_RECEIVED) t
    tskDEFAULT_INDEX_TO_NOTIFY = taskNOTIFICATION_RECEIVED). rewrite notify_state_set. by case_decide.
Qed.

(** The state a send of [n] bytes leaves before it wakes a receiver, [m] being the
    memory with the bytes in the ring. *)
Definition sent (s : stream) (m : memory) (n : Z) : stream :=
  upd_sb (with_smem s m) (set_xHead ((xHead (sb s) + n) mod xLength (sb s))).

(** The bytes are published before the reader is notified. *)
Lemma isr_send_spec s tx n : ring_ok (sb s) -> is_message_buffer (sb s) = false -> tx <> NULL -> 0 <= n ->
  let c := Z.min n (space (sb s)) in
  0 < c -> xTriggerLevelBytes (sb s) <= count (sb s) + c ->
  exists m, contents (sent s m c) = contents s ++ load_bytes (smem s) tx c /\
    isr_send tx n s = match sbSEND_COMPLETE_FROM_ISR (sent s m c) with Some (_, s') => s' | None => s end.
Proof.
  intros Hr M Htx Hn c Hc Ht. pose proof (count_range _ Hr). pose proof (ring_length _ Hr).
  assert (Z.of_nat (length (load_bytes (smem s) tx c)) = c) as Lb by (rewrite length_load_bytes; lia).
  destruct (staged_write s [] _ (load_bytes (smem s) tx c) Hr (staged_nil _ Hr))
    as (m & h & Ew & S1 & C1 & _); [apply load_bytes_nonempty; lia|unfold space in *; simpl; lia|].
  pose proof (staged_end _ _ _ S1) as Eh. simpl in Eh. rewrite Lb in Eh. rewrite Eh in Ew.
  destruct (publish (with_smem s m) _ _ Hr S1) as [P1 P2]. rewrite Eh in P1, P2.
  change (upd_sb (with_smem s m) _) with (sent s m c) in P1, P2. rewrite C1 in P2.
  change ([] ++ load_bytes (smem s) tx c) with (load_bytes (smem s) tx c) in P2.
  exists m. split; [done|]. unfold isr_send, xStreamBufferSendFromISR, prvWriteMessageToBuffer. cbv zeta.
  destruct (Z.eqb_spec tx NULL); [done|]. cbn [negb guard_c]. rewrite M, xStreamBufferSpacesAvailable_space by done.
  fold c. destruct (Z.eqb_spec c 0); [lia|]. cbn [negb]. unfold id. cbn [between_copies before_publish]. rewrite Ew.
  change (upd_sb (with_smem s m) _) with (sent s m c). rewrite prvBytesInBuffer_count by done.
  rewrite <- length_contents, P2, length_app by done. pose proof (length_contents _ Hr).
  change (xTriggerLevelBytes (sb (sent s m c))) with (xTriggerLevelBytes (sb s)).
  destruct (Z.ltb_spec 0 c); [|lia]. destruct (Z.leb_spec (xTriggerLevelBytes (sb s))
    (Z.of_nat (length (contents s) + length (load_bytes (smem s) tx c)))); [|lia].
  simpl andb. cbv iota. by destruct (sbSEND_COMPLETE_FROM_ISR _) as [[]|].
Qed.

(** ** No wake-up is lost *)

(** [t] runs and waits for nothing. *)
Record runs (s : stream) (t : Z) : Prop := {
  ru_current : pxCurrentTCB (skern s) = t;
  ru_task : t <> NULL;
  ru_ready : t ∈ default [] (pxReadyTasksLists (skern s) !! priority (skern s) t);
  ru_delayed : t ∉ delayed_tasks (skern s);
  ru_suspended : t ∉ xSuspendedTaskList (skern s);
  ru_container : event_container (skern s) t = NULL;
  ru_notify : notify_state (snk s) t tskDEFAULT_INDEX_TO_NOTIFY <> taskWAITING_NOTIFICATION;
  ru_scheduler : uxSchedulerSuspended (skern s) = 0 }.

Lemma readied_awake s t k y : skern s = with_yield (prvAddTaskToReadyList (remove_state_item k t) t) y ->
  notify_state (snk s) t tskDEFAULT_INDEX_TO_NOTIFY = taskNOTIFICATION_RECEIVED -> awake s t.
Proof.
  intros E Hn. split; try done; rewrite E; unfold prvAddTaskToReadyList, taskRECORD_READY_PRIORITY.
  - case_match; simpl; (change (priority _ t) with (priority k t)); rewrite lookup_insert_eq; simpl; rewrite list_insert_end_elem; by left.
  - unfold delayed_tasks. rewrite elem_of_app. case_match; simpl; rewrite !list_remove_task_elem; naive_solver.
  - case_match; simpl; rewrite list_remove_task_elem; naive_solver.
Qed.

(** The task has said it waits; the space and the bytes are as before. *)
Lemma wait_for_data_running s t : runs s t -> xTaskWaitingToReceive (sb s) = NULL ->
  exists s1, wait_for_data s = Some s1 /\ runs s1 t /\ sb s1 = set_receiver t (sb s) /\ smem s1 = smem s /\
    notify_state (snk s1) t tskDEFAULT_INDEX_TO_NOTIFY <> taskNOTIFICATION_RECEIVED.
Proof.
  intros [R1 R2 R3 R4 R5 R6 R7 R8] Hn. unfold wait_for_data.
  destruct (clear_notification (snk s)) as (b & n & E & Hk & _). rewrite E. simpl. rewrite Hn. simpl.
  assert (notify_state n t tskDEFAULT_INDEX_TO_NOTIFY <> taskWAITING_NOTIFICATION /\
    notify_state n t tskDEFAULT_INDEX_TO_NOTIFY <> taskNOTIFICATION_RECEIVED) as [N1 N2].
  { unfold xTaskGenericNotifyStateClear, skern in *. cbn -[notify_state] in E. rewrite R1 in E.
    destruct (Z.eqb_spec (notify_state (snk s) t tskDEFAULT_INDEX_TO_NOTIFY) taskNOTIFICATION_RECEIVED);
      injection E as _ <-; [|done]. rewrite notify_state_set. by case_decide. }
  unfold skern in *. simpl. rewrite Hk, R1. eexists. split; [reflexivity|]. split_and!; [|done..].
  split; unfold skern; simpl; rewrite ?Hk; done.
Qed.

Lemma fall_asleep_waits s t ticks : pxCurrentTCB (skern s) = t -> 0 < ticks ->
  notify_state (snk s) t tskDEFAULT_INDEX_TO_NOTIFY <> taskNOTIFICATION_RECEIVED ->
  kernel_same (skern s) (skern (fall_asleep ticks s)) /\
  notify_state (snk (fall_asleep ticks s)) t tskDEFAULT_INDEX_TO_NOTIFY = taskWAITING_NOTIFICATION.
Proof.
  intros R1 Ht Hn. unfold fall_asleep, notify_wait_enter, skern in *. cbv zeta. rewrite R1.
  destruct (Z.eqb_spec (notify_state (snk s) t tskDEFAULT_INDEX_TO_NOTIFY) taskNOTIFICATION_RECEIVED); [done|].
  destruct (Z.ltb_spec 0 ticks); [|lia]. cbn [negb]. split; [apply kernel_same_delay|].
  unfold notify_state. simpl. by rewrite lookup_insert_eq.
Qed.

Section NoLostWakeup.
Context (s1 : stream) (t tx n ticks o : Z).
Context (Hr : ring_ok (sb s1)) (M : is_message_buffer (sb s1) = false) (Ht : runs s1 t).
Context (Hcl : notify_state (snk s1) t tskDEFAULT_INDEX_TO_NOTIFY <> taskNOTIFICATION_RECEIVED).
Context (Hw : xTaskWaitingToReceive (sb s1) = t) (Htx : tx <> NULL) (Hn : 0 <= n) (Hticks : 0 < ticks).
Let c := Z.min n (space (sb s1)).
Context (Hc : 0 < c) (Htr : xTriggerLevelBytes (sb s1) <= count (sb s1) + c).

(** The interrupt comes before the task sleeps. *)
Lemma send_before_sleep : let s2 := fall_asleep ticks (isr_send tx n s1) in
  awake s2 t /\ contents s2 = contents s1 ++ load_bytes (smem s1) tx c.
Proof.
  destruct Ht as [R1 R2 R3 R4 R5 R6 R7 R8].
  destruct (isr_send_spec s1 tx n Hr M Htx Hn Hc Htr) as (m & C & ->). fold c in C |- *.
  unfold sbSEND_COMPLETE_FROM_ISR, xStreamBufferSendCompletedFromISR. cbv zeta.
  change (xTaskWaitingToReceive (sb (sent s1 m c))) with (xTaskWaitingToReceive (sb s1)). rewrite Hw.
  destruct (Z.eqb_spec t NULL); [done|]. cbn [negb].
  destruct (notify_from_isr_running (snk s1) t R2 R7) as (v & n' & E & Hs & Hk).
  change (snk (sent s1 m c)) with (snk s1). rewrite E.
  set (s2 := upd_sb (with_snk (sent s1 m c) n') (set_receiver NULL)).
  assert (fall_asleep ticks s2 = s2) as ->.
  { unfold fall_asleep, notify_wait_enter. change (snk s2) with n'. rewrite Hk. fold (skern s1). rewrite R1, Hs.
    by rewrite Z.eqb_refl. }
  split; [|exact C]. unfold skern in *. by split; unfold skern; simpl; rewrite ?Hk.
Qed.

(** Or while it sleeps and [o] runs. *)
Lemma send_after_sleep : let s2 := isr_send tx n (switch_to o (fall_asleep ticks s1)) in
  awake s2 t /\ contents s2 = contents s1 ++ load_bytes (smem s1) tx c.
Proof.
  destruct Ht as [R1 R2 R3 R4 R5 R6 R7 R8]. set (s2 := switch_to o (fall_asleep ticks s1)).
  destruct (fall_asleep_waits s1 t ticks R1 Hticks Hcl) as [[K1 _ _ _ K5] W].
  assert (sb s2 = sb s1) as Es by done. assert (smem s2 = smem s1) as Em by done.
  destruct (isr_send_spec s2 tx n) as (m & C & E); [done..|]. rewrite Es, Em in C. rewrite Es in E. fold c in C, E.
  change (sent s2 m c) with (mkStream (sb (sent s1 m c)) m (snk s2)) in C, E. cbv zeta. rewrite E. clear E.
  change (contents s2) with (contents s1) in C.
  unfold sbSEND_COMPLETE_FROM_ISR, xStreamBufferSendCompletedFromISR. cbv zeta. cbn [sb snk].
  change (xTaskWaitingToReceive (sb (sent s1 m c))) with (xTaskWaitingToReceive (sb s1)). rewrite Hw.
  destruct (Z.eqb_spec t NULL); [done|]. cbn [negb].
  destruct (notify_from_isr_waiting (snk s2) t R2) as (v & woken & n' & E & Hs & y & Hk).
  - change (uxSchedulerSuspended (skern (fall_asleep ticks s1)) = 0). congruence.
  - change (event_container (skern (fall_asleep ticks s1)) t = NULL). by rewrite K5.
  - exact W.
  - rewrite E. split; [|exact C]. by eapply readied_awake.
Qed.

End NoLostWakeup.

(** C20: a task that finds a stream buffer without data and goes to sleep is not left
    asleep when an interrupt sends at least the trigger level, be it before the
    task sleeps or while another task runs: the task is ready, on no list of
    waiting tasks, has its notification, and the bytes are there. *)
Theorem stream_no_lost_wakeup (s : stream) (t tx n ticks o : Z) :
  ring_ok (sb s) -> is_message_buffer (sb s) = false -> runs s t -> xTaskWaitingToReceive (sb s) = NULL ->
  tx <> NULL -> 0 <= n -> 0 < ticks ->
  let c := Z.min n (space (sb s)) in
  0 < c -> xTriggerLevelBytes (sb s) <= count (sb s) + c ->
  exists s1, wait_for_data s = Some s1 /\
    forall s2, s2 = fall_asleep ticks (isr_send tx n s1) \/
               s2 = isr_send tx n (switch_to o (fall_asleep ticks s1)) ->
      awake s2 t /\ contents s2 = contents s ++ load_bytes (smem s) tx c.
Proof.
  intros Hr M Ht Hn Htx Hn0 Hticks c Hc Htr.
  destruct (wait_for_data_running s t Ht Hn) as (s1 & E & Hr1 & Es & Em & Hcl). exists s1. split; [done|].
  assert (contents s1 = contents s) as <- by (unfold contents, count; by rewrite Es, Em).
  assert (Z.min n (space (sb s1)) = c) as Ec by (unfold space, count; by rewrite Es).
  assert (ring_ok (sb s1)) as Hok by (rewrite Es; by destruct Hr).
  assert (xTriggerLevelBytes (sb s1) <= count (sb s1) + Z.min n (space (sb s1))) as Htr1
    by (rewrite Ec; unfold count; by rewrite Es).
  rewrite <- Em, <- Ec. rewrite <- Ec in Hc. assert (xTaskWaitingToReceive (sb s1) = t) as Hw by by rewrite Es.
  assert (is_message_buffer (sb s1) = false) as M1 by by rewrite Es.
  intros s2 [-> | ->]; [by apply send_before_sleep|by apply send_after_sleep].
Qed.

(** A static buffer accepts its own size as trigger level, which its contents
    never reach: no send wakes a waiting reader. *)
Lemma unreachable_trigger_level s size storage p :
  storage <> NULL -> p <> NULL -> sbBYTES_TO_STORE_MESSAGE_LENGTH < size ->
  exists s', xStreamBufferGenericCreateStatic s size size false storage p = Some (p, s') /\
    forall x, ring_ok x -> xLength x = xLength (sb s') -> xTriggerLevelBytes x = xTriggerLevelBytes (sb s') ->
      prvBytesInBuffer x < xTriggerLevelBytes x.
Proof.
  unfold sbBYTES_TO_STORE_MESSAGE_LENGTH. intros H1 H2 H3.
  unfold xStreamBufferGenericCreateStatic, trigger_level, sbBYTES_TO_STORE_MESSAGE_LENGTH.
  destruct (Z.eqb_spec storage NULL), (Z.eqb_spec p NULL); try done. rewrite Z.leb_refl.
  destruct (Z.eqb_spec size 0); [lia|]. destruct (Z.ltb_spec 4 size); [|lia]. simpl.
  eexists. split; [reflexivity|]. simpl. intros x Hx El Et. rewrite prvBytesInBuffer_count, Et by done.
  pose proof (count_range _ Hx). lia.
Qed.

(** ** Examples *)

Lemma demo_stream_runs : runs (demo_stream 0) 7.
Proof.
  split; try done; try (vm_compute; done); apply (bool_decide_unpack _); vm_compute; exact I.
Qed.

Example stream_no_lost_wakeup_witness :
  exists s1, wait_for_data (demo_stream 0) = Some s1 /\
    forall s2, s2 = fall_asleep 5 (isr_send 2000 6 s1) \/
               s2 = isr_send 2000 6 (switch_to 9 (fall_asleep 5 s1)) ->
      awake s2 7 /\ contents s2 = [] ++ [10; 11; 12; 13; 14; 15].
Proof.
  apply (stream_no_lost_wakeup (demo_stream 0) 7 2000 6 5 9);
    [split; simpl; lia|reflexivity|exact demo_stream_runs|reflexivity|discriminate|lia|lia|vm_compute; reflexivity|vm_compute; discriminate].
Defined.

(** The sleeping time is over and meanwhile the reader has emptied the message
    buffer: the message is refused all the same, for the space found before. *)
Definition late_space : stream :=
  mkStream (mkSB 2 0 11 1 NULL NULL 1000 1) (fun a => if 2000 <=? a then a - 1990 else 0) demo_stream_kernel.

Definition emptied_in_time (s : stream) : stream :=
  with_skern (upd_sb s (set_xTail (xHead (sb s)))) (with_time (skern s) 4294967295 0 0).

Example late_space_not_used :
  match xStreamBufferSend [mkRI id id emptied_in_time id; mkRI id id id id] calm_send late_space 2000 5 1 with
  | Some (SbReturned n s) => (n, xStreamBufferSpacesAvailable (sb s))
  | _ => (0, None)
  end = (0, Some 10).
Proof. vm_compute. reflexivity. Qed.
