(* ===== verification/Timers.v ===== *)
(** * Software timers of the kernel (FreeRTOS-Kernel/timers.c)

    The timer service (daemon) task, its two lists of active timers and its command
    queue, on one core.  The two list variables are swapped where the C code swaps
    the pointers to them.  The command queue is the list of messages in it, which
    QueueFifo.v shows a queue to be.  Callbacks are the application's: a function
    of the state that is run after the call is noted in [calls_made]. *)

From stdpp Require Import base list option gmap.
From Stdlib Require Import ZArith Lia.
From S2P Require Import Prelude FreeRTOSList.

Definition tmrNO_DELAY : Z := 0.
Definition tmrMAX_TIME_BEFORE_OVERFLOW : Z := 4294967295.
Definition tmrSTATUS_IS_ACTIVE : Z := 1.
Definition tmrSTATUS_IS_STATICALLY_ALLOCATED : Z := 2.
Definition tmrSTATUS_IS_AUTORELOAD : Z := 4.

Definition tmrCOMMAND_EXECUTE_CALLBACK_FROM_ISR : Z := -2.
Definition tmrCOMMAND_EXECUTE_CALLBACK : Z := -1.
Definition tmrCOMMAND_START : Z := 1.
Definition tmrCOMMAND_RESET : Z := 2.
Definition tmrCOMMAND_STOP : Z := 3.
Definition tmrCOMMAND_CHANGE_PERIOD : Z := 4.
Definition tmrCOMMAND_DELETE : Z := 5.
Definition tmrFIRST_FROM_ISR_COMMAND : Z := 6.
Definition tmrCOMMAND_START_FROM_ISR : Z := 6.
Definition tmrCOMMAND_RESET_FROM_ISR : Z := 7.
Definition tmrCOMMAND_STOP_FROM_ISR : Z := 8.
Definition tmrCOMMAND_CHANGE_PERIOD_FROM_ISR : Z := 9.

Definition configTIMER_QUEUE_LENGTH : Z := 10.

Record Timer_t := mkTimer {
  pcTimerName : Z;
  xTimerItemValue : Z;          (* xTimerListItem.xItemValue *)
  xTimerPeriodInTicks : Z;
  pvTimerID : Z;
  pxCallbackFunction : Z;
  tmr_ucStatus : Z }.

(** The words of the union: [xMessageValue] or the function, [pxTimer] or the first
    parameter, the second parameter. *)
Record DaemonTaskMessage_t := mkMessage {
  xMessageID : Z;
  u_word0 : Z;
  u_word1 : Z;
  u_word2 : Z }.

Definition xMessageValue (m : DaemonTaskMessage_t) : Z := u_word0 m.
Definition pxTimer (m : DaemonTaskMessage_t) : Z := u_word1 m.

Inductive callback :=
| TimerCallback (f t : Z)
| PendedFunction (f pvParameter1 ulParameter2 : Z).

Record tmr_state := mkTmr {
  sw_timers : gmap Z Timer_t;
  current_list : list Z;
  overflow_list : list Z;
  xTimerQueue : option (list DaemonTaskMessage_t);
  xTimerTaskHandle : Z;
  xLastTime : Z;
  sw_tick_count : Z;
  scheduler_running : bool;
  calls_made : list callback }.

Definition with_sw_timers (s : tmr_state) (m : gmap Z Timer_t) : tmr_state :=
  mkTmr m (current_list s) (overflow_list s) (xTimerQueue s) (xTimerTaskHandle s) (xLastTime s)
    (sw_tick_count s) (scheduler_running s) (calls_made s).
Definition with_sw_lists (s : tmr_state) (c o : list Z) : tmr_state :=
  mkTmr (sw_timers s) c o (xTimerQueue s) (xTimerTaskHandle s) (xLastTime s)
    (sw_tick_count s) (scheduler_running s) (calls_made s).
Definition with_sw_queue (s : tmr_state) (q : option (list DaemonTaskMessage_t)) : tmr_state :=
  mkTmr (sw_timers s) (current_list s) (overflow_list s) q (xTimerTaskHandle s) (xLastTime s)
    (sw_tick_count s) (scheduler_running s) (calls_made s).
Definition with_last_time (s : tmr_state) (v : Z) : tmr_state :=
  mkTmr (sw_timers s) (current_list s) (overflow_list s) (xTimerQueue s) (xTimerTaskHandle s) v
    (sw_tick_count s) (scheduler_running s) (calls_made s).
Definition with_call (s : tmr_state) (c : callback) : tmr_state :=
  mkTmr (sw_timers s) (current_list s) (overflow_list s) (xTimerQueue s) (xTimerTaskHandle s) (xLastTime s)
    (sw_tick_count s) (scheduler_running s) (calls_made s ++ [c]).
Definition with_timer_task (s : tmr_state) (h : Z) : tmr_state :=
  mkTmr (sw_timers s) (current_list s) (overflow_list s) (xTimerQueue s) h (xLastTime s)
    (sw_tick_count s) (scheduler_running s) (calls_made s).

Definition set_item_value (v : Z) (x : Timer_t) : Timer_t :=
  mkTimer (pcTimerName x) v (xTimerPeriodInTicks x) (pvTimerID x) (pxCallbackFunction x) (tmr_ucStatus x).
Definition set_period (v : Z) (x : Timer_t) : Timer_t :=
  mkTimer (pcTimerName x) (xTimerItemValue x) v (pvTimerID x) (pxCallbackFunction x) (tmr_ucStatus x).
Definition set_timer_id (v : Z) (x : Timer_t) : Timer_t :=
  mkTimer (pcTimerName x) (xTimerItemValue x) (xTimerPeriodInTicks x) v (pxCallbackFunction x) (tmr_ucStatus x).
Definition set_status (f : Z -> Z) (x : Timer_t) : Timer_t :=
  mkTimer (pcTimerName x) (xTimerItemValue x) (xTimerPeriodInTicks x) (pvTimerID x) (pxCallbackFunction x)
    (f (tmr_ucStatus x)).

Definition upd_sw_timer (s : tmr_state) (t : Z) (f : Timer_t -> Timer_t) : tmr_state :=
  with_sw_timers s (alter f t (sw_timers s)).

Definition item_value (s : tmr_state) (t : Z) : Z := from_option xTimerItemValue 0 (sw_timers s !! t).

Definition is_autoreload (x : Timer_t) : bool := has_flag (tmr_ucStatus x) tmrSTATUS_IS_AUTORELOAD.
Definition is_active (x : Timer_t) : bool := has_flag (tmr_ucStatus x) tmrSTATUS_IS_ACTIVE.

(** ** Creation and queries *)

Definition prvCheckForValidListAndQueue (s : tmr_state) : tmr_state :=
  match xTimerQueue s with
  | None => with_sw_queue (with_sw_lists s [] []) (Some [])
  | Some _ => s
  end.

(** The task is created at [xTaskCreateStatic]'s handle, [NULL] if that fails. *)
Definition xTimerCreateTimerTask (xTaskCreateStatic : Z) (s : tmr_state) : option (bool * tmr_state) :=
  let s := prvCheckForValidListAndQueue s in
  let '(xReturn, s) :=
    match xTimerQueue s with
    | Some _ => (negb (xTaskCreateStatic =? NULL), with_timer_task s xTaskCreateStatic)
    | None => (false, s)
    end in
  assert! xReturn;
  Some (xReturn, s).

(** The item value is what the memory held. *)
Definition prvInitialiseNewTimer (s : tmr_state) (name xTimerPeriodInTicks : Z) (xAutoReload : bool)
    (id callback pxNewTimer ucStatus : Z) : option tmr_state :=
  assert! 0 <? xTimerPeriodInTicks;
  let s := prvCheckForValidListAndQueue s in
  let x := mkTimer name (item_value s pxNewTimer) xTimerPeriodInTicks id callback
             (if xAutoReload then set_flag ucStatus tmrSTATUS_IS_AUTORELOAD else ucStatus) in
  Some (with_sw_timers s (<[pxNewTimer := x]> (sw_timers s))).

(** [p] is what [pvPortMalloc] returned. *)
Definition xTimerCreate (p : Z) (s : tmr_state) (name xTimerPeriodInTicks : Z) (xAutoReload : bool)
    (id callback : Z) : option (Z * tmr_state) :=
  if negb (p =? NULL) then
    let! s := prvInitialiseNewTimer s name xTimerPeriodInTicks xAutoReload id callback p 0 in Some (p, s)
  else Some (p, s).

Definition xTimerCreateStatic (s : tmr_state) (name xTimerPeriodInTicks : Z) (xAutoReload : bool)
    (id callback pxTimerBuffer : Z) : option (Z * tmr_state) :=
  assert! negb (pxTimerBuffer =? NULL);
  let! s := prvInitialiseNewTimer s name xTimerPeriodInTicks xAutoReload id callback pxTimerBuffer
              tmrSTATUS_IS_STATICALLY_ALLOCATED in
  Some (pxTimerBuffer, s).

Definition xTimerGetTimerDaemonTaskHandle (s : tmr_state) : option Z :=
  assert! negb (xTimerTaskHandle s =? NULL); Some (xTimerTaskHandle s).

Definition xTimerGetPeriod (s : tmr_state) (xTimer : Z) : option Z :=
  let! x := sw_timers s !! xTimer in Some (xTimerPeriodInTicks x).
Definition vTimerSetReloadMode (s : tmr_state) (xTimer : Z) (xAutoReload : bool) : option tmr_state :=
  assert! negb (xTimer =? NULL);
  Some (upd_sw_timer s xTimer (set_status (fun f =>
    if xAutoReload then set_flag f tmrSTATUS_IS_AUTORELOAD else clear_flag f tmrSTATUS_IS_AUTORELOAD))).
Definition xTimerGetReloadMode (s : tmr_state) (xTimer : Z) : option bool :=
  let! x := sw_timers s !! xTimer in Some (is_autoreload x).
Definition uxTimerGetReloadMode (s : tmr_state) (xTimer : Z) : option Z :=
  let! b := xTimerGetReloadMode s xTimer in Some (Z.b2z b).
Definition xTimerGetExpiryTime (s : tmr_state) (xTimer : Z) : option Z :=
  let! x := sw_timers s !! xTimer in Some (xTimerItemValue x).
Definition xTimerGetStaticBuffer (s : tmr_state) (xTimer : Z) : option (option Z) :=
  let! x := sw_timers s !! xTimer in
  Some (if has_flag (tmr_ucStatus x) tmrSTATUS_IS_STATICALLY_ALLOCATED then Some xTimer else None).
Definition pcTimerGetName (s : tmr_state) (xTimer : Z) : option Z :=
  let! x := sw_timers s !! xTimer in Some (pcTimerName x).
Definition xTimerIsTimerActive (s : tmr_state) (xTimer : Z) : option bool :=
  let! x := sw_timers s !! xTimer in Some (is_active x).
Definition pvTimerGetTimerID (s : tmr_state) (xTimer : Z) : option Z :=
  let! x := sw_timers s !! xTimer in Some (pvTimerID x).
Definition vTimerSetTimerID (s : tmr_state) (xTimer pvNewID : Z) : option tmr_state :=
  assert! negb (xTimer =? NULL);
  Some (upd_sw_timer s xTimer (set_timer_id pvNewID)).

(** ** Posting commands *)

(** [xQueueSendToBack]; [waiting] is what others do until there is room or the
    time is up. *)
Definition timer_queue_send (waiting : tmr_state -> tmr_state) (s : tmr_state)
    (m : DaemonTaskMessage_t) (xTicksToWait : Z) : option (bool * tmr_state) :=
  let post s := let! q := xTimerQueue s in
    Some (if Z.of_nat (length q) <? configTIMER_QUEUE_LENGTH
          then (true, with_sw_queue s (Some (q ++ [m]))) else (false, s)) in
  let! (xReturn, s) := post s in
  if negb xReturn && negb (xTicksToWait =? 0) then post (waiting s) else Some (xReturn, s).

Definition xTimerGenericCommand (waiting : tmr_state -> tmr_state) (s : tmr_state)
    (xTimer xCommandID xOptionalValue xTicksToWait : Z) : option (bool * tmr_state) :=
  assert! negb (xTimer =? NULL);
  match xTimerQueue s with
  | None => Some (false, s)
  | Some _ =>
      let m := mkMessage xCommandID xOptionalValue xTimer 0 in
      if xCommandID <? tmrFIRST_FROM_ISR_COMMAND then
        timer_queue_send waiting s m (if scheduler_running s then xTicksToWait else tmrNO_DELAY)
      else timer_queue_send id s m tmrNO_DELAY
  end.

Definition xTimerPendFunctionCallFromISR (s : tmr_state) (xFunctionToPend pvParameter1 ulParameter2 : Z) :
    option (bool * tmr_state) :=
  timer_queue_send id s (mkMessage tmrCOMMAND_EXECUTE_CALLBACK_FROM_ISR xFunctionToPend pvParameter1 ulParameter2)
    tmrNO_DELAY.

Definition xTimerPendFunctionCall (waiting : tmr_state -> tmr_state) (s : tmr_state)
    (xFunctionToPend pvParameter1 ulParameter2 xTicksToWait : Z) : option (bool * tmr_state) :=
  timer_queue_send waiting s (mkMessage tmrCOMMAND_EXECUTE_CALLBACK xFunctionToPend pvParameter1 ulParameter2)
    xTicksToWait.

(** ** The daemon *)

(** [vListInsert] and [uxListRemove] on the two lists. *)
Definition insert_timer (s : tmr_state) (t : Z) (l : list Z) : list Z := ordered_insert (item_value s) t l.
Definition remove_timer (s : tmr_state) (t : Z) : tmr_state :=
  with_sw_lists s (filter (fun u => u <> t) (current_list s)) (filter (fun u => u <> t) (overflow_list s)).

(** Whether the timer is to be processed now; otherwise it is in a list. *)
Definition prvInsertTimerInActiveList (s : tmr_state) (t xNextExpiryTime xTimeNow xCommandTime : Z) :
    option (bool * tmr_state) :=
  let! x := sw_timers s !! t in
  let s := upd_sw_timer s t (set_item_value xNextExpiryTime) in
  Some (if xNextExpiryTime <=? xTimeNow then
          if xTimerPeriodInTicks x <=? u32 (xTimeNow - xCommandTime) then (true, s)
          else (false, with_sw_lists s (current_list s) (insert_timer s t (overflow_list s)))
        else if (xTimeNow <? xCommandTime) && (xCommandTime <=? xNextExpiryTime) then (true, s)
        else (false, with_sw_lists s (insert_timer s t (current_list s)) (overflow_list s))).

Section Daemon.
(** The application's functions. *)
Variable run_callback : callback -> tmr_state -> tmr_state.

Definition make_call (s : tmr_state) (c : callback) : tmr_state := run_callback c (with_call s c).

Definition call_timer (s : tmr_state) (t : Z) : option tmr_state :=
  let! x := sw_timers s !! t in Some (make_call s (TimerCallback (pxCallbackFunction x) t)).

(** A round for every period that has passed already. *)
Fixpoint reload_loop (fuel : nat) (s : tmr_state) (t xExpiredTime xTimeNow : Z) : option tmr_state :=
  let! x := sw_timers s !! t in
  let! (again, s) := prvInsertTimerInActiveList s t (u32 (xExpiredTime + xTimerPeriodInTicks x)) xTimeNow xExpiredTime in
  if again : bool then
    match fuel with
    | O => None
    | S fuel =>
        let xExpiredTime := u32 (xExpiredTime + xTimerPeriodInTicks x) in
        let! s := call_timer s t in
        reload_loop fuel s t xExpiredTime xTimeNow
    end
  else Some s.

Definition prvReloadTimer (s : tmr_state) (t xExpiredTime xTimeNow : Z) : option tmr_state :=
  let! x := sw_timers s !! t in
  reload_loop (S (Z.to_nat (u32 (xTimeNow - xExpiredTime) / xTimerPeriodInTicks x))) s t xExpiredTime xTimeNow.

Definition clear_active (s : tmr_state) (t : Z) : tmr_state :=
  upd_sw_timer s t (set_status (fun f => clear_flag f tmrSTATUS_IS_ACTIVE)).
Definition set_active (s : tmr_state) (t : Z) : tmr_state :=
  upd_sw_timer s t (set_status (fun f => set_flag f tmrSTATUS_IS_ACTIVE)).

(** Reload an auto-reload timer or make a one-shot timer inactive, then call. *)
Definition expire_timer (s : tmr_state) (t xExpiredTime xTimeNow : Z) : option tmr_state :=
  let! x := sw_timers s !! t in
  let! s := (if is_autoreload x then prvReloadTimer s t xExpiredTime xTimeNow else Some (clear_active s t)) in
  call_timer s t.

Definition prvProcessExpiredTimer (s : tmr_state) (xNextExpireTime xTimeNow : Z) : option tmr_state :=
  let! t := head (current_list s) in
  expire_timer (remove_timer s t) t xNextExpireTime xTimeNow.

(** One timer leaves the current list in each round. *)
Fixpoint switch_loop (fuel : nat) (s : tmr_state) : option tmr_state :=
  match current_list s with
  | [] => Some s
  | t :: _ =>
      match fuel with
      | O => None
      | S fuel =>
          let! s := prvProcessExpiredTimer s (item_value s t) tmrMAX_TIME_BEFORE_OVERFLOW in
          switch_loop fuel s
      end
  end.

Definition prvSwitchTimerLists (s : tmr_state) : option tmr_state :=
  let! s := switch_loop (length (current_list s)) s in
  Some (with_sw_lists s (overflow_list s) (current_list s)).

(** The time and whether the lists were switched. *)
Definition prvSampleTimeNow (s : tmr_state) : option (Z * bool * tmr_state) :=
  let xTimeNow := sw_tick_count s in
  let! (switched, s) := (if xTimeNow <? xLastTime s
                         then let! s := prvSwitchTimerLists s in Some (true, s)
                         else Some (false, s)) in
  Some (xTimeNow, switched, with_last_time s xTimeNow).

Definition prvGetNextExpireTime (s : tmr_state) : Z * bool :=
  match current_list s with
  | [] => (0, true)
  | t :: _ => (item_value s t, false)
  end.

(** What the daemon does once it has looked at the lists: the wait is that of
    [vQueueWaitForMessageRestricted]. *)
Inductive daemon_step :=
| ProcessedTimer
| SwitchedLists
| WaitForMessage (xTicksToWait : Z) (indefinitely : bool).

Definition prvProcessTimerOrBlockTask (s : tmr_state) (xNextExpireTime : Z) (xListWasEmpty : bool) :
    option (daemon_step * tmr_state) :=
  let! (xTimeNow, switched, s) := prvSampleTimeNow s in
  if negb switched then
    if negb xListWasEmpty && (xNextExpireTime <=? xTimeNow) then
      let! s := prvProcessExpiredTimer s xNextExpireTime xTimeNow in Some (ProcessedTimer, s)
    else
      let indefinitely := if xListWasEmpty then bool_decide (overflow_list s = []) else xListWasEmpty in
      Some (WaitForMessage (u32 (xNextExpireTime - xTimeNow)) indefinitely, s)
  else Some (SwitchedLists, s).

(** ** Commands *)

Definition is_one_of (id : Z) (l : list Z) : bool := existsb (Z.eqb id) l.

(** The [switch] on the command, at time [xTimeNow]. *)
Definition perform_command (s : tmr_state) (m : DaemonTaskMessage_t) (xTimeNow : Z) : option tmr_state :=
  let t := pxTimer m in
  let! x := sw_timers s !! t in
  if is_one_of (xMessageID m) [tmrCOMMAND_START; tmrCOMMAND_START_FROM_ISR; tmrCOMMAND_RESET; tmrCOMMAND_RESET_FROM_ISR] then
    let s := set_active s t in
    let xExpiry := u32 (xMessageValue m + xTimerPeriodInTicks x) in
    let! (now, s) := prvInsertTimerInActiveList s t xExpiry xTimeNow (xMessageValue m) in
    if now : bool then expire_timer s t xExpiry xTimeNow else Some s
  else if is_one_of (xMessageID m) [tmrCOMMAND_STOP; tmrCOMMAND_STOP_FROM_ISR] then Some (clear_active s t)
  else if is_one_of (xMessageID m) [tmrCOMMAND_CHANGE_PERIOD; tmrCOMMAND_CHANGE_PERIOD_FROM_ISR] then
    let s := set_active s t in
    let s := upd_sw_timer s t (set_period (xMessageValue m)) in
    assert! 0 <? xMessageValue m;
    let! (_, s) := prvInsertTimerInActiveList s t (u32 (xTimeNow + xMessageValue m)) xTimeNow xTimeNow in
    Some s
  else if xMessageID m =? tmrCOMMAND_DELETE then
    Some (if negb (has_flag (tmr_ucStatus x) tmrSTATUS_IS_STATICALLY_ALLOCATED)
          then with_sw_timers s (delete t (sw_timers s)) else clear_active s t)
  else Some s.

Definition process_message (s : tmr_state) (m : DaemonTaskMessage_t) : option tmr_state :=
  if xMessageID m <? 0 then
    Some (make_call s (PendedFunction (u_word0 m) (u_word1 m) (u_word2 m)))
  else
    let s := remove_timer s (pxTimer m) in
    let! (xTimeNow, _, s) := prvSampleTimeNow s in
    perform_command s m xTimeNow.

(** Callbacks may post further commands: [fuel] bounds the messages handled. *)
Fixpoint prvProcessReceivedCommands (fuel : nat) (s : tmr_state) : option tmr_state :=
  let! q := xTimerQueue s in
  match q, fuel with
  | [], _ => Some s
  | m :: q, O => None
  | m :: q, S fuel =>
      let! s := process_message (with_sw_queue s (Some q)) m in
      prvProcessReceivedCommands fuel s
  end.

(** Once round the loop of [prvTimerTask]; [asleep] is what happens while the daemon
    waits. *)
Definition prvTimerTask (fuel : nat) (asleep : tmr_state -> tmr_state) (s : tmr_state) :
    option (daemon_step * tmr_state) :=
  let (xNextExpireTime, xListWasEmpty) := prvGetNextExpireTime s in
  let! (step, s) := prvProcessTimerOrBlockTask s xNextExpireTime xListWasEmpty in
  let s := match step with WaitForMessage _ _ => asleep s | _ => s end in
  let! s := prvProcessReceivedCommands fuel s in
  Some (step, s).

(** The loop of [prvTimerTask] until the daemon waits, for how long and whether without
    a limit, when nobody posts a command. *)
Fixpoint serve_until_wait (fuel : nat) (s : tmr_state) : option (Z * bool * tmr_state) :=
  match fuel with
  | O => None
  | S fuel =>
      let! (step, s) := prvTimerTask 0 id s in
      match step with
      | WaitForMessage xTicksToWait indefinitely => Some (xTicksToWait, indefinitely, s)
      | _ => serve_until_wait fuel s
      end
  end.

End Daemon.

(** ** Examples *)

Definition no_effect (c : callback) (s : tmr_state) : tmr_state := s.

(** An auto-reload timer of 5 ticks due at 2^32 - 3 and a one-shot timer due at 1,
    after the tick counter has wrapped. *)
Definition demo_tmr (now : Z) : tmr_state :=
  mkTmr (list_to_map [(100, mkTimer 0 4294967293 5 0 11 5); (200, mkTimer 0 1 9 0 22 1)])
    [100] [200] (Some []) 1 4294967290 now true [].
