(* ===== verification/TimersExact.v ===== *)
(** * The daemon serves software timers exactly

    Times are absolute here, without the wrap of the tick counter: [N] stands for
    the tick [u32 N] of epoch [N / 2^32]. *)

From stdpp Require Import base list option gmap.
From Stdlib Require Import ZArith Lia.
From S2P Require Import Prelude FreeRTOSList Timers.

Definition epoch (N : Z) : Z := N / 4294967296.

(** ** Putting a timer into a list *)

Definition placed_timer (s : tmr_state) (t E N : Z) : tmr_state :=
  let s := upd_sw_timer s t (set_item_value (u32 E)) in
  if epoch E =? epoch N
  then with_sw_lists s (insert_timer s t (current_list s)) (overflow_list s)
  else with_sw_lists s (current_list s) (insert_timer s t (overflow_list s)).

(** A command of tick [C] handled at tick [N], less than a full round of the tick
    counter later: the timer is to be processed at once exactly if its period has
    passed, and otherwise it is in the list of the epoch it expires in, the current
    one or the next, whether the counter wrapped before or after the command was
    handled. *)
Lemma prvInsertTimerInActiveList_exact (s : tmr_state) (t : Z) (x : Timer_t) (C N : Z) :
  sw_timers s !! t = Some x -> 0 < xTimerPeriodInTicks x < 4294967296 -> 0 <= C <= N -> N - C < 4294967296 ->
  let E := C + xTimerPeriodInTicks x in
  prvInsertTimerInActiveList s t (u32 E) (u32 N) (u32 C) =
  Some (if E <=? N then (true, upd_sw_timer s t (set_item_value (u32 E))) else (false, placed_timer s t E N)) /\
  (N < E -> epoch N <= epoch E <= epoch N + 1).
Proof.
  intros Ht Hp HC HN E. assert (E = C + xTimerPeriodInTicks x) as HE by done. clearbody E.
  split; [|unfold epoch; word_lia]. unfold prvInsertTimerInActiveList. rewrite Ht.
  unfold placed_timer, epoch. cbv zeta. f_equal.
  assert (u32 (u32 N - u32 C) = N - C) as -> by word_lia.
  destruct (Z.leb_spec (u32 E) (u32 N)), (Z.leb_spec (xTimerPeriodInTicks x) (N - C)),
    (Z.leb_spec E N), (Z.ltb_spec (u32 N) (u32 C)), (Z.leb_spec (u32 C) (u32 E)),
    (Z.eqb_spec (E / 4294967296) (N / 4294967296)); simpl; try reflexivity; word_lia.
Qed.

(** ** Expiring a timer *)

(** Whole periods since [E]. *)
Definition periods (x : Timer_t) (E N : Z) : Z := (N - E) / xTimerPeriodInTicks x.

(** How often an active timer that expires at [E] has been due by [N]. *)
Definition times_due (x : Timer_t) (E N : Z) : Z :=
  if N <? E then 0 else if is_autoreload x then periods x E N + 1 else 1.

(** When it expires next; a one-shot timer does not. *)
Definition next_expiry (x : Timer_t) (E N : Z) : option Z :=
  if N <? E then Some E
  else if is_autoreload x then Some (E + (periods x E N + 1) * xTimerPeriodInTicks x) else None.

Lemma periods_bounds x E N : 0 < xTimerPeriodInTicks x -> E <= N ->
  0 <= periods x E N /\
  E + periods x E N * xTimerPeriodInTicks x <= N < E + (periods x E N + 1) * xTimerPeriodInTicks x.
Proof.
  intros Hp HE. unfold periods. pose proof (Z.div_mod (N - E) (xTimerPeriodInTicks x)).
  pose proof (Z.mod_pos_bound (N - E) _ Hp). pose proof (Z.div_pos (N - E) (xTimerPeriodInTicks x)). nia.
Qed.

Lemma periods_shift x E M N : 0 < xTimerPeriodInTicks x -> E <= M <= N ->
  periods x (E + (periods x E M + 1) * xTimerPeriodInTicks x) N = periods x E N - (periods x E M + 1).
Proof.
  intros Hp HE. unfold periods at 1.
  replace (N - (E + (periods x E M + 1) * xTimerPeriodInTicks x))
    with (N - E + (- (periods x E M + 1)) * xTimerPeriodInTicks x) by lia.
  rewrite Z.div_add by lia. unfold periods. lia.
Qed.

(** Being served at [M] and then at [N] is being served at [N]. *)
Lemma next_expiry_later x E M N E' : 0 < xTimerPeriodInTicks x -> M <= N -> next_expiry x E M = Some E' ->
  next_expiry x E' N = next_expiry x E N /\ times_due x E M + times_due x E' N = times_due x E N.
Proof.
  intros Hp HN H. unfold next_expiry, times_due in *. destruct (Z.ltb_spec M E) as [HM|HM].
  { injection H as <-. by rewrite Z.add_0_l. }
  destruct (is_autoreload x) eqn:A; [|done]. injection H as <-.
  pose proof (periods_bounds x E M Hp HM). pose proof (periods_bounds x E N Hp ltac:(lia)) as B.
  set (E' := E + (periods x E M + 1) * xTimerPeriodInTicks x) in *.
  destruct (Z.ltb_spec N E); [lia|]. destruct (Z.ltb_spec N E').
  - assert (periods x E N = periods x E M) as -> by nia. split; [done|lia].
  - pose proof (periods_shift x E M N Hp ltac:(lia)) as S. fold E' in S. rewrite S.
    split; [|lia]. f_equal. unfold E'. lia.
Qed.

Lemma next_expiry_gone x E M N : M <= N -> next_expiry x E M = None ->
  next_expiry x E N = None /\ times_due x E M = times_due x E N.
Proof.
  unfold next_expiry, times_due. intros HN H. destruct (Z.ltb_spec M E); [done|].
  destruct (is_autoreload x); [done|]. by destruct (Z.ltb_spec N E); [lia|].
Qed.

(** The calls of timer [t]. *)
Definition is_call_of (t : Z) (c : callback) : bool :=
  match c with TimerCallback _ u => u =? t | PendedFunction _ _ _ => false end.

Definition calls_of (t : Z) (s : tmr_state) : Z := Z.of_nat (length (List.filter (is_call_of t) (calls_made s))).

Section Daemon.
Variable run_callback : callback -> tmr_state -> tmr_state.
(** The application's callbacks leave the daemon's state alone. *)
Hypothesis callbacks_quiet : forall c s, run_callback c s = s.

(** [s'] is [s] but for [n] more calls of [t], new lists and the item value of
    timer [t], whose record was [x]. *)
Record expired (s s' : tmr_state) (t n : Z) (x : Timer_t) : Prop := {
  ex_queue : xTimerQueue s' = xTimerQueue s;
  ex_tick : sw_tick_count s' = sw_tick_count s;
  ex_last : xLastTime s' = xLastTime s;
  ex_others : forall u, u <> t -> sw_timers s' !! u = sw_timers s !! u;
  ex_timer : exists v, sw_timers s' !! t = Some (set_item_value v x);
  ex_calls : forall u, calls_of u s' = calls_of u s + (if u =? t then n else 0) }.

Lemma call_timer_expired s t x : sw_timers s !! t = Some x ->
  exists s', call_timer run_callback s t = Some s' /\ expired s s' t 1 x /\
    sw_timers s' = sw_timers s /\ current_list s' = current_list s /\ overflow_list s' = overflow_list s.
Proof.
  intros Ht. unfold call_timer. rewrite Ht. eexists. split; [reflexivity|].
  unfold make_call. rewrite callbacks_quiet. split; [|done]. split; try done.
  - exists (xTimerItemValue x). simpl. rewrite Ht. by destruct x.
  - intros u. unfold calls_of. simpl. rewrite List.filter_app, length_app. simpl.
    rewrite Z.eqb_sym. destruct (u =? t); simpl; lia.
Qed.

Lemma expired_trans s1 s2 s3 t n m x y : expired s1 s2 t n x -> expired s2 s3 t m y ->
  expired s1 s3 t (n + m) y.
Proof.
  intros [A1 A2 A3 A4 A5 A6] [B1 B2 B3 B4 B5 B6]. split; try congruence.
  - intros u Hu. rewrite B4, A4; done.
  - intros u. rewrite B6, A6. destruct (u =? t); lia.
Qed.

(** Timer [t], expiring at [E], was put into its list at [N]. *)
Record inserted (s s' : tmr_state) (t E N : Z) : Prop := {
  in_value : item_value s' t = u32 E;
  in_lists :
    epoch E = epoch N /\ current_list s' = ordered_insert (item_value s') t (current_list s) /\
      overflow_list s' = overflow_list s \/
    epoch E = epoch N + 1 /\ current_list s' = current_list s /\
      overflow_list s' = ordered_insert (item_value s') t (overflow_list s) }.

Lemma item_value_set s t x E : sw_timers s !! t = Some x ->
  item_value (upd_sw_timer s t (set_item_value (u32 E))) t = u32 E.
Proof. intros Ht. unfold item_value. simpl. by rewrite lookup_alter_eq, Ht. Qed.

Lemma placed_timer_inserted s t x E N : sw_timers s !! t = Some x ->
  epoch N <= epoch E <= epoch N + 1 -> inserted s (placed_timer s t E N) t E N.
Proof.
  intros Ht HE. unfold placed_timer. cbv zeta. destruct (Z.eqb_spec (epoch E) (epoch N)); split;
    try exact (item_value_set s t x E Ht); [by left|right; split; [lia|done]].
Qed.

Lemma set_value_expired s t x E : sw_timers s !! t = Some x ->
  expired s (upd_sw_timer s t (set_item_value (u32 E))) t 0 x.
Proof.
  intros Ht. split; try done; simpl.
  - intros u Hu. by rewrite lookup_alter_ne.
  - exists (u32 E). by rewrite lookup_alter_eq, Ht.
  - intros u. unfold calls_of. simpl. destruct (u =? t); lia.
Qed.

Lemma expired_lists s s' t n x c o : expired s s' t n x -> expired s (with_sw_lists s' c o) t n x.
Proof. intros []. by split. Qed.

Lemma placed_timer_expired s t x E N : sw_timers s !! t = Some x -> expired s (placed_timer s t E N) t 0 x.
Proof.
  intros Ht. unfold placed_timer. cbv zeta. destruct (_ =? _); by apply expired_lists, set_value_expired.
Qed.

Lemma u32_add_l a b : u32 (u32 a + b) = u32 (a + b).
Proof. unfold u32. apply Zplus_mod_idemp_l. Qed.

Lemma set_item_value_twice v w x : set_item_value v (set_item_value w x) = set_item_value v x.
Proof. done. Qed.

Lemma reload_loop_exact fuel : forall s t x E N,
  sw_timers s !! t = Some x -> 0 < xTimerPeriodInTicks x < 4294967296 -> 0 <= E <= N -> N - E < 4294967296 ->
  periods x E N <= Z.of_nat fuel ->
  exists s', reload_loop run_callback fuel s t (u32 E) (u32 N) = Some s' /\
    expired s s' t (periods x E N) x /\
    inserted s s' t (E + (periods x E N + 1) * xTimerPeriodInTicks x) N.
Proof.
  induction fuel as [|fuel IH]; intros s t x E N Ht Hp HE HN Hf.
  all: pose proof (periods_bounds x E N ltac:(lia) ltac:(lia)) as B.
  all: destruct (prvInsertTimerInActiveList_exact s t x E N Ht Hp HE HN) as [Hi He].
  all: simpl; rewrite Ht, u32_add_l, Hi; destruct (Z.leb_spec (E + xTimerPeriodInTicks x) N) as [Hle|Hgt].
  - nia.
  - assert (periods x E N = 0) as -> by nia. eexists. split; [reflexivity|].
    split; [by apply placed_timer_expired|]. rewrite Z.mul_1_l. eapply placed_timer_inserted; eauto.
  - set (s1 := upd_sw_timer s t _). set (x1 := set_item_value (u32 (E + xTimerPeriodInTicks x)) x).
    assert (sw_timers s1 !! t = Some x1) as Ht1 by (simpl; by rewrite lookup_alter_eq, Ht).
    destruct (call_timer_expired s1 t x1 Ht1) as (s2 & -> & X2 & Em & Ec & Eo).
    assert (sw_timers s2 !! t = Some x1) as Ht2 by by rewrite Em.
    assert (periods x1 (E + xTimerPeriodInTicks x) N = periods x E N - 1) as Ep.
    { unfold periods. simpl. replace (N - (E + xTimerPeriodInTicks x)) with (N - E + (-1) * xTimerPeriodInTicks x) by lia.
      rewrite Z.div_add by lia. lia. }
    destruct (IH s2 t x1 (E + xTimerPeriodInTicks x) N Ht2 Hp ltac:(lia) ltac:(lia) ltac:(lia)) as (s3 & -> & X3 & I3).
    exists s3. split; [done|]. rewrite Ep in X3, I3. split.
    + pose proof (expired_trans _ _ _ _ _ _ _ _ (expired_trans _ _ _ _ _ _ _ _ (set_value_expired s t x (E + xTimerPeriodInTicks x) Ht) X2) X3) as X.
      replace (periods x E N) with (0 + 1 + (periods x E N - 1)) by lia. destruct X as [Y1 Y2 Y3 Y4 [v Y5] Y6].
      split; try done. exists v. by rewrite Y5.
    + destruct I3 as [J1 J2]. simpl in J1, J2. rewrite Ec, Eo in J2. 
      replace (E + xTimerPeriodInTicks x + (periods x E N - 1 + 1) * xTimerPeriodInTicks x)
        with (E + (periods x E N + 1) * xTimerPeriodInTicks x) in J1, J2 by lia. by split.
  - assert (periods x E N = 0) as -> by nia. eexists. split; [reflexivity|].
    split; [by apply placed_timer_expired|]. rewrite Z.mul_1_l. eapply placed_timer_inserted; eauto.
Qed.

(** Timer [t], with record [x] and expiring at [E], was served at [M]. *)
Record served (s s' : tmr_state) (t : Z) (x : Timer_t) (E M : Z) : Prop := {
  sv_queue : xTimerQueue s' = xTimerQueue s;
  sv_tick : sw_tick_count s' = sw_tick_count s;
  sv_last : xLastTime s' = xLastTime s;
  sv_others : forall u, u <> t -> sw_timers s' !! u = sw_timers s !! u;
  sv_timer : exists y, sw_timers s' !! t = Some y /\ xTimerPeriodInTicks y = xTimerPeriodInTicks x /\
    is_autoreload y = is_autoreload x /\
    is_active y = (if next_expiry x E M then is_active x else false);
  sv_calls : forall u, calls_of u s' = calls_of u s + (if u =? t then times_due x E M else 0);
  sv_lists : match next_expiry x E M with
             | Some E' => inserted s s' t E' M
             | None => current_list s' = current_list s /\ overflow_list s' = overflow_list s
             end }.

Lemma autoreload_clear_active x :
  is_autoreload (set_status (fun f => clear_flag f tmrSTATUS_IS_ACTIVE) x) = is_autoreload x.
Proof. apply (clear_flag_other _ 2 0); lia. Qed.

Lemma active_clear_active x : is_active (set_status (fun f => clear_flag f tmrSTATUS_IS_ACTIVE) x) = false.
Proof. apply (clear_flag_same _ 0). lia. Qed.

Lemma expire_timer_served s t x E M :
  sw_timers s !! t = Some x -> 0 < xTimerPeriodInTicks x < 4294967296 -> 0 <= E <= M -> M - E < 4294967296 ->
  exists s', expire_timer run_callback s t (u32 E) (u32 M) = Some s' /\ served s s' t x E M.
Proof.
  intros Ht Hp HE HM. unfold expire_timer. rewrite Ht.
  pose proof (periods_bounds x E M ltac:(lia) ltac:(lia)) as B.
  destruct (is_autoreload x) eqn:A.
  - unfold prvReloadTimer. rewrite Ht. assert (u32 (u32 M - u32 E) = M - E) as -> by word_lia.
    fold (periods x E M).
    destruct (reload_loop_exact (S (Z.to_nat (periods x E M))) s t x E M Ht Hp HE HM ltac:(lia)) as (s1 & -> & X1 & I1).
    destruct (ex_timer _ _ _ _ _ X1) as [v Hv].
    destruct (call_timer_expired s1 t _ Hv) as (s2 & -> & X2 & Em & Ec & Eo). exists s2. split; [done|].
    pose proof (expired_trans _ _ _ _ _ _ _ _ X1 X2) as [Y1 Y2 Y3 Y4 Y5 Y6].
    assert (next_expiry x E M = Some (E + (periods x E M + 1) * xTimerPeriodInTicks x)) as En
      by (unfold next_expiry; rewrite A; by destruct (Z.ltb_spec M E); [lia|]).
    split; try done.
    + rewrite Em, Hv. eexists. split; [reflexivity|]. by rewrite En.
    + intros u. rewrite Y6. unfold times_due. rewrite A. destruct (Z.ltb_spec M E); [lia|]. done.
    + rewrite En. destruct I1 as [J1 J2]. split; unfold item_value in *; rewrite Em; [done|]. by rewrite Ec, Eo.
  - set (y := set_status (fun f => clear_flag f tmrSTATUS_IS_ACTIVE) x).
    assert (sw_timers (clear_active s t) !! t = Some y) as Hy by (simpl; by rewrite lookup_alter_eq, Ht).
    destruct (call_timer_expired (clear_active s t) t y Hy) as (s2 & -> & [Y1 Y2 Y3 Y4 Y5 Y6] & Em & Ec & Eo).
    exists s2. split; [done|].
    assert (next_expiry x E M = None) as En
      by (unfold next_expiry; rewrite A; by destruct (Z.ltb_spec M E); [lia|]).
    split; try done.
    + intros u Hu. rewrite Y4 by done. simpl. by rewrite lookup_alter_ne.
    + rewrite Em. exists y. split_and!; [done|done|apply autoreload_clear_active|]. rewrite En. apply active_clear_active.
    + intros u. rewrite Y6. unfold times_due. rewrite A. destruct (Z.ltb_spec M E); [lia|]. done.
    + by rewrite En.
Qed.

(** ** The lists at a time *)

Definition armed (s : tmr_state) : list Z := current_list s ++ overflow_list s.

(** The timers in the lists expire at the times [E]; the current list holds those of
    the epoch of [L], when the daemon last looked at the clock.  The timers of [e]
    are being changed: they are in no list and their active flag says nothing. *)
Record lists_at (e : list Z) (s : tmr_state) (L : Z) (E : Z -> Z) : Prop := {
  la_nodup : NoDup (armed s);
  la_timer : forall t, t ∈ armed s -> exists x, sw_timers s !! t = Some x /\
    0 < xTimerPeriodInTicks x < 4294967296 /\ item_value s t = u32 (E t) /\ 0 <= E t;
  la_current : forall t, t ∈ current_list s -> epoch (E t) = epoch L;
  la_overflow : forall t, t ∈ overflow_list s -> epoch (E t) = epoch L + 1;
  la_sorted : ascending (item_value s) (current_list s) /\ ascending (item_value s) (overflow_list s);
  la_active : forall t x, t ∉ e -> sw_timers s !! t = Some x -> is_active x = bool_decide (t ∈ armed s);
  la_changing : forall t, t ∈ e -> t ∉ armed s;
  la_last : xLastTime s = u32 L }.

(** What timer [t] still has to do by [N], and when it expires then. *)
Definition owed (s : tmr_state) (E : Z -> Z) (N t : Z) : Z :=
  match sw_timers s !! t with
  | Some x => if bool_decide (t ∈ armed s) then times_due x (E t) N else 0
  | None => 0
  end.
Definition fate (s : tmr_state) (E : Z -> Z) (N t : Z) : option Z :=
  match sw_timers s !! t with
  | Some x => if bool_decide (t ∈ armed s) then next_expiry x (E t) N else None
  | None => None
  end.

(** Timer [t] has the same calls by [N] and expires at the same time then. *)
Definition same_future_of (t N : Z) (s : tmr_state) (E : Z -> Z) (s' : tmr_state) (E' : Z -> Z) : Prop :=
  calls_of t s' + owed s' E' N t = calls_of t s + owed s E N t /\ fate s' E' N t = fate s E N t.
Definition same_future (N : Z) (s : tmr_state) (E : Z -> Z) (s' : tmr_state) (E' : Z -> Z) : Prop :=
  forall t, same_future_of t N s E s' E'.

Lemma same_future_trans N s1 E1 s2 E2 s3 E3 :
  same_future N s1 E1 s2 E2 -> same_future N s2 E2 s3 E3 -> same_future N s1 E1 s3 E3.
Proof. intros A B t. destruct (A t), (B t). split; congruence. Qed.

Lemma filter_ne_elem (t u : Z) (l : list Z) : u ∈ filter (fun v => v <> t) l <-> u <> t /\ u ∈ l.
Proof. by rewrite list_elem_of_filter. Qed.

Lemma filter_ne_split (t : Z) (l : list Z) : NoDup l -> t ∈ l -> l ≡ₚ t :: filter (fun v => v <> t) l.
Proof.
  intros Hn Ht. apply NoDup_Permutation; [done| |].
  - constructor; [rewrite filter_ne_elem; naive_solver|by apply NoDup_filter].
  - intros u. rewrite elem_of_cons, filter_ne_elem. destruct (decide (u = t)) as [->|]; naive_solver.
Qed.

Lemma armed_remove s t : armed (remove_timer s t) = filter (fun u => u <> t) (armed s).
Proof. symmetry. apply filter_app. Qed.

Lemma remove_lists_at e s t L E : lists_at e s L E -> lists_at (t :: e) (remove_timer s t) L E.
Proof.
  intros [A1 A2 A3 A4 [A5 A5'] A6 A7 A8]. split; rewrite ?armed_remove; try done; simpl.
  - by apply NoDup_filter.
  - intros u [_ Hu]%filter_ne_elem. apply (A2 u Hu).
  - intros u [_ Hu]%filter_ne_elem. auto.
  - intros u [_ Hu]%filter_ne_elem. auto.
  - split; by apply ascending_filter.
  - intros u x Hu Hx. apply not_elem_of_cons in Hu as [Hut Hue]. rewrite (A6 u x Hue Hx).
    apply bool_decide_ext. rewrite filter_ne_elem. naive_solver.
  - intros u. rewrite elem_of_cons, filter_ne_elem. intros [->|Hu]; naive_solver.
Qed.

Lemma inserted_armed s s' t E N : inserted s s' t E N -> armed s' ≡ₚ t :: armed s.
Proof.
  intros [_ [(_ & Ec & Eo)|(_ & Ec & Eo)]]; unfold armed; rewrite Ec, Eo, ordered_insert_perm; [done|].
  by rewrite Permutation_middle.
Qed.

(** [s] is [s0] with timer [t] put in for the time [T]. *)
Lemma inserted_lists_at e s0 s t T L E x : lists_at (t :: e) s0 L E -> t ∉ e -> inserted s0 s t T L -> 0 <= T ->
  (forall u, u <> t -> sw_timers s !! u = sw_timers s0 !! u) -> xLastTime s = xLastTime s0 ->
  sw_timers s !! t = Some x -> 0 < xTimerPeriodInTicks x < 4294967296 -> is_active x = true ->
  lists_at e s L (fun u => if u =? t then T else E u).
Proof.
  intros [A1 A2 A3 A4 [A5 A5'] A6 A7 A8] He Hi HT Ho Hl Hx Hp Ha. pose proof (inserted_armed _ _ _ _ _ Hi) as P.
  assert (forall u, u <> t -> item_value s u = item_value s0 u) as Hv by (intros u Hu; unfold item_value; by rewrite Ho).
  assert (t ∉ armed s0) as Hn by (apply A7; by left).
  assert (forall l, t ∉ l -> ascending (item_value s0) l -> ascending (item_value s) l) as Hasc.
  { intros l Hl'. apply ascending_ext_in. intros u Hu. symmetry. apply Hv. by intros ->. }
  assert (forall u, u ∈ armed s0 -> u <> t) as Hne by (intros u Hu ->; done).
  pose proof Hn as [Hnc Hno]%not_elem_of_app.
  split.
  - rewrite P. by constructor.
  - intros u. rewrite P, elem_of_cons. intros [->|Hu].
    + rewrite Z.eqb_refl. exists x. split_and!; try done; try lia. apply Hi.
    + destruct (Z.eqb_spec u t) as [->|Hut]; [by destruct (Hne t)|]. rewrite Ho, Hv by done. auto.
  - intros u Hu. destruct (Z.eqb_spec u t) as [->|Hut].
    + destruct Hi as [_ [(Ee & _)|(_ & Ec & _)]]; [done|]. by rewrite Ec in Hu.
    + apply A3. destruct Hi as [_ [(_ & Ec & _)|(_ & Ec & _)]]; rewrite Ec in Hu; [|done].
      rewrite ordered_insert_perm in Hu. set_solver.
  - intros u Hu. destruct (Z.eqb_spec u t) as [->|Hut].
    + destruct Hi as [_ [(_ & _ & Eo)|(Ee & _ & _)]]; [by rewrite Eo in Hu|done].
    + apply A4. destruct Hi as [_ [(_ & _ & Eo)|(_ & _ & Eo)]]; rewrite Eo in Hu; [done|].
      rewrite ordered_insert_perm in Hu. set_solver.
  - destruct Hi as [_ [(_ & -> & ->)|(_ & -> & ->)]]; split; try apply ordered_insert_ascending; auto.
  - intros u y Hu Hy. destruct (decide (u = t)) as [->|Hut].
    + rewrite Hx in Hy. injection Hy as <-. rewrite Ha. symmetry. apply bool_decide_eq_true. rewrite P. by left.
    + rewrite Ho in Hy by done. rewrite (A6 u y) by (done || set_solver). apply bool_decide_ext. rewrite P. set_solver.
  - intros u Hu. rewrite P. apply not_elem_of_cons. split; [by intros ->|]. apply A7. by right.
  - by rewrite Hl.
Qed.

(** [s] is [s0] with timer [t] inactive. *)
Lemma inactive_lists_at e s0 s t L E : lists_at (t :: e) s0 L E ->
  current_list s = current_list s0 -> overflow_list s = overflow_list s0 ->
  (forall u, u <> t -> sw_timers s !! u = sw_timers s0 !! u) ->
  (forall x, sw_timers s !! t = Some x -> is_active x = false) -> xLastTime s = xLastTime s0 ->
  lists_at e s L E.
Proof.
  intros [A1 A2 A3 A4 [A5 A5'] A6 A7 A8] Ec Eo Ho Hx Hl.
  assert (armed s = armed s0) as Ea by (unfold armed; by rewrite Ec, Eo).
  assert (t ∉ armed s0) as Hn by (apply A7; by left).
  assert (forall u, u ∈ armed s0 -> u <> t) as Hne by (intros u Hu ->; done).
  assert (forall u, u <> t -> item_value s u = item_value s0 u) as Hv by (intros u Hu; unfold item_value; by rewrite Ho).
  split; rewrite ?Ea, ?Ec, ?Eo, ?Hl; try done.
  - intros u Hu. rewrite Ho, Hv by auto. auto.
  - split; (eapply ascending_ext_in; [|eassumption]); intros u Hu; symmetry; apply Hv, Hne; apply elem_of_app; auto.
  - intros u x Hu Hux. destruct (decide (u = t)) as [->|Hut].
    + rewrite (Hx x Hux). symmetry. by apply bool_decide_eq_false.
    + rewrite Ho in Hux by done. apply A6; [set_solver|done].
  - intros u Hu. apply A7. by right.
Qed.

Definition update_expiry (E : Z -> Z) (t : Z) (e : option Z) : Z -> Z :=
  match e with Some T => fun u => if u =? t then T else E u | None => E end.

(** A timer of record [x] was served at [M] for the time [T]. *)
Lemma served_lists_at e s0 s t x T M L E : lists_at (t :: e) s0 L E -> t ∉ e ->
  served s0 s t x T M -> 0 < xTimerPeriodInTicks x < 4294967296 -> 0 <= T <= M -> epoch M = epoch L ->
  is_active x = true -> lists_at e s L (update_expiry E t (next_expiry x T M)).
Proof.
  intros H Hn [S1 S2 S3 S4 (y & Y1 & Y2 & Y3 & Y4) S6 S7] Hp HT HM Ha.
  pose proof (periods_bounds x T M ltac:(lia) ltac:(lia)) as B.
  destruct (next_expiry x T M) as [T'|] eqn:En; simpl.
  - apply (inserted_lists_at e s0 s t T' L E y); try done; try congruence; try by rewrite Y2.
    + destruct S7 as [J1 J2]. split; [done|]. by rewrite <- HM.
    + unfold next_expiry in En. destruct (Z.ltb_spec M T); [lia|]. destruct (is_autoreload x); [|done].
      injection En as <-. nia.
  - destruct S7 as [Ec Eo]. apply (inactive_lists_at e s0 s t); try done. intros z Hz. congruence.
Qed.

(** The lists start empty, and a new timer is in none and not active. *)
Lemma fresh_lists_at s E : current_list s = [] -> overflow_list s = [] -> sw_timers s = ∅ -> xLastTime s = 0 ->
  lists_at [] s 0 E.
Proof.
  intros Hc Ho Hm Hl. assert (armed s = []) as Ha by (unfold armed; by rewrite Hc, Ho).
  split; rewrite ?Ha, ?Hc, ?Ho; try done; try (intros t Ht; by apply elem_of_nil in Ht).
  - constructor.
  - intros t x _ Hx. by rewrite Hm, lookup_empty in Hx.
Qed.

Lemma created_lists_at s s' name p auto id callback t status L E : lists_at [] s L E -> t ∉ armed s ->
  xTimerQueue s <> None -> status = 0 \/ status = tmrSTATUS_IS_STATICALLY_ALLOCATED ->
  prvInitialiseNewTimer s name p auto id callback t status = Some s' -> lists_at [] s' L E.
Proof.
  intros [A1 A2 A3 A4 [A5 A5'] A6 A7 A8] Hn Hq Hs. unfold prvInitialiseNewTimer, prvCheckForValidListAndQueue.
  destruct (0 <? p); [|done]. destruct (xTimerQueue s); [|done]. intros [= <-].
  assert (forall u, u ∈ armed s -> u <> t) as Hne by (intros u Hu ->; done).
  set (x := mkTimer _ _ _ _ _ _).
  assert (forall u, u ∈ armed s -> item_value (with_sw_timers s (<[t:=x]> (sw_timers s))) u = item_value s u) as Hv
    by (intros u Hu; unfold item_value; simpl; by rewrite lookup_insert_ne by (by apply not_eq_sym, Hne)).
  split; try done; simpl.
  - intros u Hu. rewrite lookup_insert_ne, Hv by (done || by apply not_eq_sym, Hne). auto.
  - split; (eapply ascending_ext_in; [|eassumption]); intros u Hu; symmetry; apply Hv; apply elem_of_app; auto.
  - intros u y Hu Hy. apply lookup_insert_Some in Hy as [[<- <-]|[_ Hy]]; [|by apply A6].
    rewrite bool_decide_false by done. unfold is_active. subst x. simpl.
    destruct auto, Hs as [->| ->]; reflexivity.
Qed.

(** ** Serving a timer *)

Lemma served_armed s0 s t x T M : served s0 s t x T M ->
  armed s ≡ₚ (if next_expiry x T M then t :: armed s0 else armed s0).
Proof.
  intros [_ _ _ _ _ _ S]. destruct (next_expiry x T M) as [T'|].
  - by eapply inserted_armed.
  - destruct S as [Ec Eo]. unfold armed. by rewrite Ec, Eo.
Qed.

Lemma due_same_kind x y E N : xTimerPeriodInTicks y = xTimerPeriodInTicks x -> is_autoreload y = is_autoreload x ->
  times_due y E N = times_due x E N /\ next_expiry y E N = next_expiry x E N.
Proof. intros Hp Ha. unfold times_due, next_expiry, periods. by rewrite Hp, Ha. Qed.

(** A timer that was not touched. *)
Lemma untouched_future s E s' E' u N : sw_timers s' !! u = sw_timers s !! u -> calls_of u s' = calls_of u s ->
  (u ∈ armed s' <-> u ∈ armed s) -> E' u = E u -> same_future_of u N s E s' E'.
Proof.
  intros Hr Hc Ha He. unfold same_future_of, owed, fate. rewrite Hr, Hc, He.
  by rewrite (bool_decide_ext _ _ Ha).
Qed.

Lemma update_expiry_other E t e u : u <> t -> update_expiry E t e u = E u.
Proof. intros Hu. destruct e; simpl; [|done]. by destruct (Z.eqb_spec u t). Qed.

(** [t] was served for the time [T]: by [N] it will have been called as often as a
    timer that expires at [T]. *)
Lemma served_future s0 s t x T M N E : served s0 s t x T M -> t ∉ armed s0 ->
  0 < xTimerPeriodInTicks x -> T <= M <= N ->
  let E' := update_expiry E t (next_expiry x T M) in
  calls_of t s + owed s E' N t = calls_of t s0 + times_due x T N /\ fate s E' N t = next_expiry x T N.
Proof.
  intros H Hn Hp HM E'. pose proof (served_armed _ _ _ _ _ _ H) as P.
  destruct H as [_ _ _ _ (y & Y1 & Y2 & Y3 & Y4) S6 _]. unfold owed, fate. rewrite Y1, S6, Z.eqb_refl.
  subst E'. destruct (next_expiry x T M) as [T'|] eqn:En; simpl.
  - rewrite bool_decide_true by (rewrite P; by left). rewrite Z.eqb_refl.
    destruct (due_same_kind x y T' N Y2 Y3) as [-> ->].
    destruct (next_expiry_later x T M N T' Hp ltac:(lia) En) as [-> <-]. split; [lia|done].
  - rewrite bool_decide_false by (by rewrite P). destruct (next_expiry_gone x T M N ltac:(lia) En) as [-> ->].
    split; [lia|done].
Qed.

Lemma served_others s0 s t x T M N E u : served s0 s t x T M -> u <> t ->
  same_future_of u N s0 E s (update_expiry E t (next_expiry x T M)).
Proof.
  intros H Hu. pose proof (served_armed _ _ _ _ _ _ H) as P. destruct H as [_ _ _ S4 _ S6 _].
  apply untouched_future; [by apply S4| | |by apply update_expiry_other].
  - rewrite S6. destruct (Z.eqb_spec u t); [done|lia].
  - rewrite P. destruct (next_expiry x T M); [|done]. rewrite elem_of_cons. naive_solver.
Qed.

Lemma remove_others s t u N E : u <> t -> same_future_of u N s E (remove_timer s t) E.
Proof.
  intros Hu. apply untouched_future; try done. rewrite armed_remove, filter_ne_elem. naive_solver.
Qed.

Lemma same_future_of_trans t N s1 E1 s2 E2 s3 E3 : same_future_of t N s1 E1 s2 E2 ->
  same_future_of t N s2 E2 s3 E3 -> same_future_of t N s1 E1 s3 E3.
Proof. intros [] []. split; congruence. Qed.

(** The timers that are due by [M]. *)
Definition due (M : Z) (E : Z -> Z) (l : list Z) : nat := length (filter (fun u => E u <= M) l).

Lemma due_perm M E l l' : l ≡ₚ l' -> due M E l = due M E l'.
Proof. intros H. unfold due. by rewrite H. Qed.

Lemma due_ext M E E' l : (forall u, u ∈ l -> E' u = E u) -> due M E' l = due M E l.
Proof.
  unfold due. induction l as [|u l IH]; intros H; [done|]. rewrite !filter_cons, (H u) by set_solver.
  destruct (decide _); simpl; rewrite IH; set_solver.
Qed.

(** What a step of the daemon leaves alone. *)
Record same_clock (s s' : tmr_state) : Prop := {
  sc_queue : xTimerQueue s' = xTimerQueue s;
  sc_tick : sw_tick_count s' = sw_tick_count s;
  sc_last : xLastTime s' = xLastTime s;
  sc_idle : forall u, u ∉ armed s -> u ∉ armed s' /\ sw_timers s' !! u = sw_timers s !! u }.

Lemma same_clock_trans s1 s2 s3 : same_clock s1 s2 -> same_clock s2 s3 -> same_clock s1 s3.
Proof.
  intros [A1 A2 A3 A4] [B1 B2 B3 B4]. split; try congruence. intros u Hu.
  destruct (A4 u Hu) as [Hu2 Hr2], (B4 u Hu2) as [Hu3 Hr3]. split; congruence.
Qed.

(** Every active timer is served no later than at the end of its epoch. *)
Lemma same_epoch_near E M : 0 <= E <= M -> epoch E = epoch M -> M - E < 4294967296.
Proof. unfold epoch. intros. word_lia. Qed.

Lemma process_head e s L E M t rest : lists_at e s L E -> current_list s = t :: rest -> E t <= M -> epoch M = epoch L ->
  exists s' E', prvProcessExpiredTimer run_callback s (item_value s t) (u32 M) = Some s' /\
    lists_at e s' L E' /\ same_clock s s' /\ (forall N, M <= N -> same_future N s E s' E') /\
    (due M E' (armed s') < due M E (armed s))%nat /\ (length (armed s') <= length (armed s))%nat.
Proof.
  intros H Hc HE HM. destruct H as [A1 A2 A3 A4 A5 A6 A7 A8] eqn:Heq. pose proof H as H'. clear Heq.
  assert (t ∈ armed s) as Ht by (unfold armed; rewrite Hc; set_solver).
  destruct (A2 t Ht) as (x & Hx & Hp & Hv & H0). rewrite Hv.
  assert (t ∉ e) as Hte by (intros ?; by apply (A7 t)).
  unfold prvProcessExpiredTimer. rewrite Hc. simpl.
  destruct (expire_timer_served (remove_timer s t) t x (E t) M Hx Hp ltac:(lia)) as (s' & He & Hs).
  { apply same_epoch_near; [lia|]. rewrite HM. apply A3. rewrite Hc. by left. }
  exists s', (update_expiry E t (next_expiry x (E t) M)). rewrite He. split; [done|].
  pose proof (remove_lists_at e s t L E H') as Hr.
  assert (t ∉ armed (remove_timer s t)) as Hn by (apply Hr; by left).
  assert (is_active x = true) as Ha by (rewrite (A6 t x Hte Hx); by apply bool_decide_eq_true).
  pose proof (served_armed _ _ _ _ _ _ Hs) as P. rewrite armed_remove in P.
  pose proof (filter_ne_split t (armed s) A1 Ht) as Q. split_and!.
  - apply (served_lists_at e _ _ _ _ _ _ _ _ Hr Hte Hs); done || lia.
  - destruct Hs as [Y1 Y2 Y3 Y4 _ _ _]. split; try done. intros u Hu.
    assert (u <> t) by congruence. split; [|by apply Y4]. rewrite P.
    destruct (next_expiry x (E t) M); rewrite ?not_elem_of_cons, filter_ne_elem; naive_solver.
  - intros N HN u. destruct (decide (u = t)) as [->|Hu].
    + destruct (served_future _ _ _ _ _ _ N E Hs Hn ltac:(lia) ltac:(lia)) as [F1 F2].
      split; [rewrite F1|rewrite F2]; unfold owed, fate; rewrite Hx, bool_decide_true by done; done.
    + eapply same_future_of_trans; [by apply remove_others|by apply served_others].
  - rewrite (due_perm _ _ _ _ P), (due_perm _ _ _ _ Q). unfold due at 2. rewrite filter_cons_True by done. simpl.
    fold (due M E (filter (fun u => u <> t) (armed s))).
    rewrite <- (due_ext M E (update_expiry E t (next_expiry x (E t) M))).
    2:{ intros u [Hu _]%filter_ne_elem. by apply update_expiry_other. }
    destruct (next_expiry x (E t) M) as [T'|] eqn:En; simpl; [|lia].
    unfold due. rewrite filter_cons_False; [lia|]. rewrite Z.eqb_refl.
    pose proof (periods_bounds x (E t) M ltac:(lia) ltac:(lia)) as B.
    unfold next_expiry in En. destruct (Z.ltb_spec M (E t)); [lia|]. destruct (is_autoreload x); [|done].
    injection En as <-. lia.
  - rewrite P, Q. destruct (next_expiry x (E t) M); simpl; lia.
Qed.

(** ** Looking at the clock *)

Definition epoch_end (L : Z) : Z := epoch L * 4294967296 + 4294967295.

Lemma epoch_end_spec L E : 0 <= L -> 0 <= E ->
  L <= epoch_end L /\ epoch (epoch_end L) = epoch L /\ u32 (epoch_end L) = tmrMAX_TIME_BEFORE_OVERFLOW /\
  (epoch E = epoch L -> E <= epoch_end L) /\ (epoch E = epoch L + 1 -> epoch_end L < E).
Proof. unfold epoch_end, epoch, tmrMAX_TIME_BEFORE_OVERFLOW. intros. split_and!; word_lia. Qed.

Lemma switch_loop_exact fuel : forall e s L E, lists_at e s L E -> 0 <= L ->
  (due (epoch_end L) E (armed s) <= fuel)%nat ->
  exists s' E', switch_loop run_callback fuel s = Some s' /\ lists_at e s' L E' /\ same_clock s s' /\
    (forall N, epoch_end L <= N -> same_future N s E s' E') /\ current_list s' = [] /\
    (length (armed s') <= length (armed s))%nat.
Proof.
  induction fuel as [|fuel IH]; intros e s L E H HL Hf.
  all: destruct (current_list s) as [|t rest] eqn:Hc.
  1,3: exists s, E; simpl; rewrite Hc; split_and!; done || lia.
  all: assert (t ∈ armed s) as Ht by (unfold armed; rewrite Hc; set_solver).
  all: destruct (la_timer _ _ _ _ H t Ht) as (_ & _ & _ & _ & H0).
  all: destruct (epoch_end_spec L (E t) HL H0) as (B1 & B2 & B3 & B4 & _).
  all: assert (E t <= epoch_end L) as Hd by (apply B4, H; rewrite Hc; by left).
  - exfalso. unfold due in Hf. rewrite (filter_ne_split t (armed s)) in Hf by (apply H || done).
    rewrite filter_cons_True in Hf by done. simpl in Hf. lia.
  - destruct (process_head e s L E (epoch_end L) t rest H Hc Hd B2) as (s1 & E1 & P1 & P2 & P3 & P4 & P5 & P6).
    destruct (IH e s1 L E1 P2 HL ltac:(lia)) as (s2 & E2 & Q1 & Q2 & Q3 & Q4 & Q5 & Q6).
    exists s2, E2. simpl. rewrite Hc, <- B3, P1. split_and!; try done; [by eapply same_clock_trans| |lia].
    intros N HN. eapply same_future_trans; [by apply P4|by apply Q4].
Qed.


Lemma due_current e s L E : lists_at e s L E -> 0 <= L ->
  (due (epoch_end L) E (armed s) <= length (current_list s))%nat.
Proof.
  intros H HL. unfold due, armed. rewrite filter_app, length_app.
  assert (filter (fun u => E u <= epoch_end L) (overflow_list s) = []) as ->.
  { apply elem_of_nil_inv. intros u [Hle Hu]%list_elem_of_filter. assert (u ∈ armed s) as Hin by (apply elem_of_app; by right).
    destruct (la_timer _ _ _ _ H u Hin) as (_ & _ & _ & _ & H0). apply H in Hu.
    pose proof (epoch_end_spec L (E u) HL H0). lia. }
  simpl. pose proof (length_filter (fun u => E u <= epoch_end L) (current_list s)). lia.
Qed.

(** The lists do not depend on the rest of the state. *)
Lemma switched_lists_at e s L E N : lists_at e s L E -> current_list s = [] -> epoch N = epoch L + 1 ->
  lists_at e (with_last_time (with_sw_lists s (overflow_list s) (current_list s)) (u32 N)) N E.
Proof.
  intros [A1 A2 A3 A4 [A5 A5'] A6 A7 A8] Hc HN.
  assert (armed (with_last_time (with_sw_lists s (overflow_list s) (current_list s)) (u32 N)) = armed s) as Ea
    by (unfold armed; simpl; rewrite Hc; apply app_nil_r).
  split; rewrite ?Ea; simpl; try done.
  - intros t Ht. rewrite HN. auto.
  - intros t Ht. rewrite Hc in Ht. by apply elem_of_nil in Ht.
Qed.

Lemma later_lists_at e s L E N : lists_at e s L E -> epoch N = epoch L -> lists_at e (with_last_time s (u32 N)) N E.
Proof. intros [A1 A2 A3 A4 A5 A6 A7 A8] HN. split; rewrite ?HN; done. Qed.

Lemma later_future s N E L : same_future N s E (with_last_time s L) E.
Proof. done. Qed.

Lemma sample_time e s L E N : lists_at e s L E -> 0 <= L <= N -> N < L + 4294967296 -> sw_tick_count s = u32 N ->
  exists switched s' E', prvSampleTimeNow run_callback s = Some (u32 N, switched, s') /\ lists_at e s' N E' /\
    xTimerQueue s' = xTimerQueue s /\ sw_tick_count s' = u32 N /\
    (forall N', N <= N' -> same_future N' s E s' E') /\ (length (armed s') <= length (armed s))%nat /\
    (forall u, u ∉ armed s -> sw_timers s' !! u = sw_timers s !! u) /\
    (if switched : bool then epoch N = epoch L + 1 else s' = with_last_time s (u32 N) /\ E' = E /\ epoch N = epoch L).
Proof.
  intros H HL HN Hs. unfold prvSampleTimeNow. rewrite Hs, (la_last _ _ _ _ H).
  destruct (Z.ltb_spec (u32 N) (u32 L)).
  - assert (epoch N = epoch L + 1) as He by (unfold epoch; word_lia).
    destruct (switch_loop_exact (length (current_list s)) e s L E H ltac:(lia)) as (s1 & E1 & P1 & P2 & P3 & P4 & P5 & P6).
    { eapply due_current; [done|lia]. }
    unfold prvSwitchTimerLists. rewrite P1. simpl.
    pose proof (switched_lists_at e s1 L E1 N P2 P5 He) as Hl. do 3 eexists. split; [reflexivity|].
    destruct P3 as [Y1 Y2 Y3 Y4]. split_and!; try done; simpl; try congruence.
    + intros N' HN'. eapply same_future_trans; [apply P4; unfold epoch_end, epoch in *; word_lia|].
      intros u. apply untouched_future; try done. unfold armed; simpl. rewrite P5. by rewrite app_nil_r.
    + unfold armed at 1; simpl. rewrite P5, app_nil_r. unfold armed at 1 in P6. by rewrite P5 in P6.
    + intros u Hu. by destruct (Y4 u Hu).
  - assert (epoch N = epoch L) as He by (unfold epoch; word_lia).
    exists false, (with_last_time s (u32 N)), E. split_and!; try done. by apply (later_lists_at e s L).
Qed.

(** ** A pass of the daemon *)










(** ** Commands *)

Lemma changing_lists_at e s t L E f : lists_at (t :: e) s L E -> lists_at (t :: e) (upd_sw_timer s t f) L E.
Proof.
  intros [A1 A2 A3 A4 [A5 A5'] A6 A7 A8].
  assert (t ∉ armed s) as Hn by (apply A7; by left).
  assert (forall u, u ∈ armed s -> u <> t) as Hne by (intros u Hu ->; done).
  assert (forall u, u <> t -> item_value (upd_sw_timer s t f) u = item_value s u) as Hv
    by (intros u Hu; unfold item_value; simpl; by rewrite lookup_alter_ne).
  split; try done.
  - intros u Hu. rewrite Hv by (by apply Hne). simpl. rewrite lookup_alter_ne by (by apply not_eq_sym, Hne). auto.
  - split; (eapply ascending_ext_in; [|eassumption]); intros u Hu; symmetry; apply Hv, Hne; apply elem_of_app; auto.
  - intros u x Hu. simpl. rewrite lookup_alter_ne by set_solver. by apply A6.
Qed.

Lemma changing_others s t f u N E : u <> t -> same_future_of u N s E (upd_sw_timer s t f) E.
Proof. intros Hu. apply untouched_future; try done. simpl. by rewrite lookup_alter_ne. Qed.

(** The end of a command that starts timer [t], of record [y], at tick [C]. *)
Definition start_at (s : tmr_state) (t : Z) (y : Timer_t) (C N : Z) : option tmr_state :=
  let T := C + xTimerPeriodInTicks y in
  let! (now, s) := prvInsertTimerInActiveList s t (u32 T) (u32 N) (u32 C) in
  if now : bool then expire_timer run_callback s t (u32 T) (u32 N) else Some s.

(** [s'] is [s] but for timer [t], which does what a timer of record [y] expiring at
    [T] does. *)
Definition started (s : tmr_state) (E : Z -> Z) (s' : tmr_state) (E' : Z -> Z) (t : Z) (y : Timer_t) (T N : Z) : Prop :=
  (forall u, u <> t -> same_future_of u N s E s' E') /\
  calls_of t s' + owed s' E' N t = calls_of t s + times_due y T N /\ fate s' E' N t = next_expiry y T N.

Lemma start_at_exact s t y C N E : lists_at [t] s N E -> sw_timers s !! t = Some y -> is_active y = true ->
  0 < xTimerPeriodInTicks y < 4294967296 -> 0 <= C <= N -> N - C < 4294967296 ->
  exists s' E', start_at s t y C N = Some s' /\ lists_at [] s' N E' /\ xTimerQueue s' = xTimerQueue s /\
    forall N', N <= N' -> started s E s' E' t y (C + xTimerPeriodInTicks y) N'.
Proof.
  intros H Hy Ha Hp HC HN. set (T := C + xTimerPeriodInTicks y).
  destruct (prvInsertTimerInActiveList_exact s t y C N Hy Hp HC HN) as [Hi He]. fold T in Hi, He.
  unfold start_at. fold T. rewrite Hi. destruct (Z.leb_spec T N) as [Hle|Hgt].
  - set (s1 := upd_sw_timer s t _). set (x := set_item_value (u32 T) y).
    assert (sw_timers s1 !! t = Some x) as Hx by (simpl; by rewrite lookup_alter_eq, Hy).
    pose proof (changing_lists_at [] s t N E (set_item_value (u32 T)) H) as H1. fold s1 in H1.
    assert (t ∉ armed s1) as Hn by (apply H1; by left).
    destruct (expire_timer_served s1 t x T N Hx Hp ltac:(lia) ltac:(lia)) as (s' & P1 & P2).
    exists s', (update_expiry E t (next_expiry x T N)). split_and!; [done| |by destruct P2|].
    + apply (served_lists_at [] s1 s' t x T N N E H1); try done; [by apply not_elem_of_nil|lia].
    + intros N' HN'. split.
      * intros u Hu. eapply same_future_of_trans; [by apply changing_others|by apply served_others].
      * destruct (due_same_kind y x T N' eq_refl eq_refl) as [<- <-].
        apply (served_future s1 s' t x T N N' E P2 Hn); simpl; lia.
  - exists (placed_timer s t T N), (fun u => if u =? t then T else E u).
    pose proof (placed_timer_inserted s t y T N Hy (He Hgt)) as Hin.
    pose proof (placed_timer_expired s t y T N Hy) as [X1 X2 X3 X4 [v X5] X6].
    pose proof (inserted_armed _ _ _ _ _ Hin) as P. split_and!; [done| |done|].
    + apply (inserted_lists_at [] s _ t T N E (set_item_value v y)); try done; [apply not_elem_of_nil|lia].
    + intros N' HN'. split.
      * intros u Hu. apply untouched_future; [by apply X4| | |by destruct (Z.eqb_spec u t)].
        -- rewrite X6. destruct (Z.eqb_spec u t); [done|lia].
        -- rewrite P, elem_of_cons. naive_solver.
      * unfold owed, fate. rewrite X5, X6, Z.eqb_refl, bool_decide_true by (rewrite P; by left).
        destruct (due_same_kind y (set_item_value v y) T N' eq_refl eq_refl) as [-> ->].
        split; [lia|done].
Qed.

(** What a command posted at [C] and handled at [N] makes of a timer of record [x]:
    its new record and expiry time, if it is active then. *)
Definition commanded (x : Timer_t) (id v C N : Z) : option (Timer_t * Z) :=
  if is_one_of id [tmrCOMMAND_START; tmrCOMMAND_START_FROM_ISR; tmrCOMMAND_RESET; tmrCOMMAND_RESET_FROM_ISR]
  then Some (x, C + xTimerPeriodInTicks x)
  else if is_one_of id [tmrCOMMAND_CHANGE_PERIOD; tmrCOMMAND_CHANGE_PERIOD_FROM_ISR]
  then Some (set_period v x, N + v)
  else None.

(** The parameter of a command: the tick at which it was given, or the new period. *)
Definition command_value (id v C : Z) : Prop :=
  if is_one_of id [tmrCOMMAND_START; tmrCOMMAND_START_FROM_ISR; tmrCOMMAND_RESET; tmrCOMMAND_RESET_FROM_ISR] then v = u32 C
  else if is_one_of id [tmrCOMMAND_CHANGE_PERIOD; tmrCOMMAND_CHANGE_PERIOD_FROM_ISR] then 0 < v < 4294967296 else True.

Lemma started_same_kind s E s' E' t y z T N : started s E s' E' t y T N ->
  xTimerPeriodInTicks z = xTimerPeriodInTicks y -> is_autoreload z = is_autoreload y -> started s E s' E' t z T N.
Proof. intros H Hp Ha. unfold started. by destruct (due_same_kind y z T N Hp Ha) as [-> ->]. Qed.

Lemma active_set_active x : is_active (set_status (fun f => set_flag f tmrSTATUS_IS_ACTIVE) x) = true.
Proof. apply (set_flag_same _ 0). lia. Qed.

Lemma autoreload_set_active x :
  is_autoreload (set_status (fun f => set_flag f tmrSTATUS_IS_ACTIVE) x) = is_autoreload x.
Proof. apply (set_flag_other _ 2 0); lia. Qed.

(** A timer that is in no list owes nothing. *)
Lemma idle_future s E N t : t ∉ armed s -> owed s E N t = 0 /\ fate s E N t = None.
Proof.
  intros H. unfold owed, fate. destruct (sw_timers s !! t); [|done]. by rewrite bool_decide_false.
Qed.

(** [s'] is [s] but for timer [t], which is inactive or gone. *)
Lemma stopped_exact s s' t N E : lists_at [t] s N E -> current_list s' = current_list s ->
  overflow_list s' = overflow_list s -> xLastTime s' = xLastTime s -> calls_made s' = calls_made s ->
  (forall u, u <> t -> sw_timers s' !! u = sw_timers s !! u) ->
  (forall x, sw_timers s' !! t = Some x -> is_active x = false) ->
  lists_at [] s' N E /\ (forall N' u, u <> t -> same_future_of u N' s E s' E) /\
  calls_of t s' = calls_of t s /\ t ∉ armed s'.
Proof.
  intros H Ec Eo El Em Ho Hx. assert (armed s' = armed s) as Ea by (unfold armed; by rewrite Ec, Eo).
  split; [by apply (inactive_lists_at [] s s' t)|]. split; [|unfold calls_of; rewrite Em, Ea; split; [done|apply H; by left]].
  intros N' u Hu. apply untouched_future; [by apply Ho|unfold calls_of; by rewrite Em|by rewrite Ea|done].
Qed.

Lemma clear_active_stopped s t N E : lists_at [t] s N E ->
  lists_at [] (clear_active s t) N E /\ (forall N' u, u <> t -> same_future_of u N' s E (clear_active s t) E) /\
  calls_of t (clear_active s t) = calls_of t s /\ t ∉ armed (clear_active s t).
Proof.
  intros H. apply stopped_exact; try done; simpl.
  - intros u Hu. by rewrite lookup_alter_ne.
  - intros x. rewrite lookup_alter_eq. destruct (sw_timers s !! t); simpl; [|done]. intros [= <-]. apply active_clear_active.
Qed.

Ltac unfold_commands H := unfold is_one_of, tmrCOMMAND_START, tmrCOMMAND_START_FROM_ISR, tmrCOMMAND_RESET,
  tmrCOMMAND_RESET_FROM_ISR, tmrCOMMAND_STOP, tmrCOMMAND_STOP_FROM_ISR, tmrCOMMAND_CHANGE_PERIOD,
  tmrCOMMAND_CHANGE_PERIOD_FROM_ISR, tmrCOMMAND_DELETE in H; simpl in H.

Lemma stop_not_change id : is_one_of id [tmrCOMMAND_STOP; tmrCOMMAND_STOP_FROM_ISR] = true ->
  is_one_of id [tmrCOMMAND_CHANGE_PERIOD; tmrCOMMAND_CHANGE_PERIOD_FROM_ISR] = false.
Proof. intros H. apply not_true_iff_false. intros H'. unfold_commands H. unfold_commands H'. lia. Qed.

(** The end of a change of period: the new period starts now. *)
Lemma change_period_exact s t x v N E : lists_at [t] s N E -> sw_timers s !! t = Some x -> is_active x = true ->
  0 < v < 4294967296 -> 0 <= N ->
  exists s' E' b, prvInsertTimerInActiveList (upd_sw_timer s t (set_period v)) t (u32 (u32 N + v)) (u32 N) (u32 N) = Some (b, s') /\
    lists_at [] s' N E' /\ xTimerQueue s' = xTimerQueue s /\
    forall N', N <= N' -> started s E s' E' t (set_period v x) (N + v) N'.
Proof.
  intros H Hx Ha Hv HN. set (s1 := upd_sw_timer s t (set_period v)).
  assert (sw_timers s1 !! t = Some (set_period v x)) as Hy by (simpl; by rewrite lookup_alter_eq, Hx).
  pose proof (changing_lists_at [] s t N E (set_period v) H) as H1. fold s1 in H1.
  destruct (start_at_exact s1 t (set_period v x) N N E H1 Hy Ha Hv ltac:(lia) ltac:(lia)) as (s' & E' & P1 & P2 & P3 & P4).
  unfold start_at in P1. rewrite u32_add_l. simpl xTimerPeriodInTicks in *.
  destruct (prvInsertTimerInActiveList_exact s1 t (set_period v x) N N Hy Hv ltac:(lia) ltac:(lia)) as [Hi _].
  simpl xTimerPeriodInTicks in Hi. rewrite Hi in P1 |- *. destruct (Z.leb_spec (N + v) N); [lia|].
  injection P1 as <-. do 3 eexists. split; [reflexivity|]. split_and!; [done|done|].
  intros N' HN'. destruct (P4 N' HN') as (Q1 & Q2). split; [|done].
  intros u Hu. eapply same_future_of_trans; [by apply changing_others|by apply Q1].
Qed.

Lemma perform_command_exact s t x id v C N E : lists_at [t] s N E -> sw_timers s !! t = Some x ->
  0 < xTimerPeriodInTicks x < 4294967296 -> 0 <= C <= N -> N - C < 4294967296 -> 1 <= id <= 9 -> command_value id v C ->
  exists s' E', perform_command run_callback s (mkMessage id v t 0) (u32 N) = Some s' /\
    lists_at [] s' N E' /\ xTimerQueue s' = xTimerQueue s /\
    forall N', N <= N' -> match commanded x id v C N with
    | Some (y, T) => started s E s' E' t y T N'
    | None => (forall u, u <> t -> same_future_of u N' s E s' E') /\ calls_of t s' = calls_of t s /\ t ∉ armed s'
    end.
Proof.
  intros H Hx Hp HC HN Hid Hv. unfold perform_command, commanded, command_value in *. unfold pxTimer, xMessageValue.
  simpl xMessageID. simpl u_word0. simpl u_word1. rewrite Hx.
  set (y := set_status (fun f => set_flag f tmrSTATUS_IS_ACTIVE) x).
  assert (sw_timers (set_active s t) !! t = Some y) as Hy by (simpl; by rewrite lookup_alter_eq, Hx).
  pose proof (changing_lists_at [] s t N E (set_status (fun f => set_flag f tmrSTATUS_IS_ACTIVE)) H) as H1.
  fold (set_active s t) in H1.
  pose proof (clear_active_stopped s t N E H) as (K1 & K2 & K3 & K4).
  destruct (is_one_of id [tmrCOMMAND_START; _; _; _]) eqn:Is.
  { subst v. rewrite u32_add_l.
    destruct (start_at_exact (set_active s t) t y C N E H1 Hy (active_set_active x) Hp HC HN)
      as (s' & E' & P1 & P2 & P3 & P4). exists s', E'. split_and!; try done.
    intros N' HN'. destruct (P4 N' HN') as (Q1 & Q2). split.
    - intros u Hu. eapply same_future_of_trans; [by apply changing_others|by apply Q1].
    - by destruct (due_same_kind x y (C + xTimerPeriodInTicks x) N' eq_refl (autoreload_set_active x)) as [<- <-]. }
  destruct (is_one_of id [tmrCOMMAND_STOP; _]) eqn:Ip.
  { assert (is_one_of id [tmrCOMMAND_CHANGE_PERIOD; tmrCOMMAND_CHANGE_PERIOD_FROM_ISR] = false) as ->
      by by apply (stop_not_change id).
    exists (clear_active s t), E. split_and!; try done. intros N' _. split_and!; try done. intros u Hu. by apply K2. }
  destruct (is_one_of id [tmrCOMMAND_CHANGE_PERIOD; _]) eqn:Ic.
  { destruct (Z.ltb_spec 0 v); [|lia].
    destruct (change_period_exact (set_active s t) t y v N E H1 Hy (active_set_active x) Hv ltac:(lia))
      as (s' & E' & b & P1 & P2 & P3 & P4). rewrite P1. exists s', E'. split_and!; try done.
    intros N' HN'. apply (started_same_kind _ _ _ _ _ (set_period v y)); [|done|symmetry; apply (autoreload_set_active x)].
    destruct (P4 N' HN') as (Q1 & Q2). split; [|done].
    intros u Hu. eapply same_future_of_trans; [by apply changing_others|by apply Q1]. }
  destruct (Z.eqb_spec id tmrCOMMAND_DELETE) as [Hd|Hd];
    [|exfalso; unfold_commands Is; unfold_commands Ip; unfold_commands Ic; unfold_commands Hd; lia].
  destruct (negb _); [|exists (clear_active s t), E; split_and!; try done; intros N' _; split_and!; try done;
                       intros u Hu; by apply K2].
  destruct (stopped_exact s (with_sw_timers s (delete t (sw_timers s))) t N E H) as (D1 & D2 & D3 & D4); try done; simpl.
  - intros u Hu. by rewrite lookup_delete_ne.
  - intros z. by rewrite lookup_delete_eq.
  - eexists _, E. split; [reflexivity|]. split_and!; try done. intros N' _. split_and!; try done. intros u Hu. by apply D2.
Qed.

(** C4: a timer command posted at [C] and handled at [N], less than a full round of the
    tick counter later and after the daemon last looked at the clock, with callbacks
    that call no timer functions: started or reset, the timer does what a timer that
    expires a period after the command was given does, calls that are due already
    included, and not a period after it was handled; a new period starts when the
    command is handled; stopped or deleted, it is called no more; every other timer does
    what it would have done without the command, whichever lists were switched on the
    way, and the lists and the active flags agree afterwards. *)
Theorem process_message_exact (s : tmr_state) (L N C : Z) (E : Z -> Z) (t id v : Z) (x : Timer_t) :
  lists_at [] s L E -> 0 <= L <= N -> N < L + 4294967296 -> sw_tick_count s = u32 N ->
  0 <= C <= N -> N < C + 4294967296 -> sw_timers s !! t = Some x -> 0 < xTimerPeriodInTicks x < 4294967296 ->
  1 <= id <= 9 -> command_value id v C ->
  exists s' E', process_message run_callback s (mkMessage id v t 0) = Some s' /\
    lists_at [] s' N E' /\ xTimerQueue s' = xTimerQueue s /\
    forall N', N <= N' ->
      (forall u, u <> t -> same_future_of u N' s E s' E') /\
      match commanded x id v C N with
      | Some (y, T) => calls_of t s' + owed s' E' N' t = calls_of t s + times_due y T N' /\ fate s' E' N' t = next_expiry y T N'
      | None => calls_of t s' = calls_of t s /\ t ∉ armed s'
      end.
Proof.
  intros H HL HN Hs HC HNC Hx Hp Hid Hv. unfold process_message. simpl xMessageID. unfold pxTimer. simpl u_word1.
  destruct (Z.ltb_spec id 0); [lia|].
  assert (t ∉ armed (remove_timer s t)) as Hn by (rewrite armed_remove, filter_ne_elem; naive_solver).
  destruct (sample_time [t] (remove_timer s t) L E N (remove_lists_at [] s t L E H) HL HN Hs)
    as (sw & s1 & E1 & P1 & P2 & P3 & P4 & P5 & P6 & P7 & _). rewrite P1. simpl.
  assert (sw_timers s1 !! t = Some x) as Hx1 by (by rewrite P7).
  destruct (perform_command_exact s1 t x id v C N E1 P2 Hx1 Hp HC ltac:(lia) Hid Hv) as (s' & E' & Q1 & Q2 & Q3 & Q4).
  exists s', E'. split_and!; [done|done|by rewrite Q3|]. intros N' HN'.
  destruct (idle_future _ E N' t Hn) as [I1 _]. destruct (idle_future s1 E1 N' t) as [I2 _]; [apply P2; by left|].
  assert (calls_of t s1 = calls_of t s) as Hcalls.
  { destruct (P5 N' HN' t) as [F _]. rewrite I1, I2 in F. unfold calls_of in *. simpl in F. lia. }
  assert (forall u, u <> t -> same_future_of u N' s E s1 E1) as Ho.
  { intros u Hu. eapply same_future_of_trans; [by apply remove_others|by apply P5]. }
  specialize (Q4 N' HN'). destruct (commanded x id v C N) as [[y T]|].
  - destruct Q4 as (R1 & R2 & R3). split; [|by rewrite R2, Hcalls].
    intros u Hu. eapply same_future_of_trans; [by apply Ho|by apply R1].
  - destruct Q4 as (R1 & R2 & R3). split; [|by rewrite R2, Hcalls].
    intros u Hu. eapply same_future_of_trans; [by apply Ho|by apply R1].
Qed.

End Daemon.

(** ** Examples *)

(** Timer 100 expires at 2^32 - 3, timer 200 at 2^32 + 1; the daemon last looked at the
    clock at 2^32 - 6. *)
Definition demo_expiry (t : Z) : Z := if t =? 100 then 4294967293 else 4294967297.

Lemma demo_lists_at now : lists_at [] (demo_tmr now) 4294967290 demo_expiry.
Proof.
  split.
  - by apply (bool_decide_unpack (NoDup [100; 200])).
  - intros t Ht. change (t ∈ [100; 200]) in Ht. rewrite !elem_of_cons, elem_of_nil in Ht.
    destruct Ht as [->|[->|[]]]; eexists; (split; [vm_compute; reflexivity|]); simpl; split_and!; done || lia.
  - intros t Ht. change (t ∈ [100]) in Ht. apply list_elem_of_singleton in Ht as ->. reflexivity.
  - intros t Ht. change (t ∈ [200]) in Ht. apply list_elem_of_singleton in Ht as ->. reflexivity.
  - split; simpl; split; constructor.
  - intros t x _ Hx. change (armed (demo_tmr now)) with [100; 200].
    unfold demo_tmr in Hx. simpl in Hx. apply lookup_insert_Some in Hx as [[<- <-]|[Hne Hx]]; [reflexivity|].
    apply lookup_insert_Some in Hx as [[<- <-]|[Hne2 Hx]]; [reflexivity|]. by rewrite lookup_empty in Hx.
  - intros t Ht. by apply elem_of_nil in Ht.
  - reflexivity.
Qed.

(** The daemon is late by 13 ticks: the first timer was due three times and is due next
    at 12; then the second is served. *)
Example daemon_demo :
  option_map (fun '(w, i, s) => (w, i, calls_made s, current_list s, item_value s 100))
    (serve_until_wait no_effect 5 (demo_tmr 10)) =
  Some (2, false, [TimerCallback 11 100; TimerCallback 22 200; TimerCallback 11 100; TimerCallback 11 100], [100], 12).
Proof. vm_compute. reflexivity. Qed.


Example demo_owed : owed (demo_tmr 14) demo_expiry 4294967310 100 = 4 /\ fate (demo_tmr 14) demo_expiry 4294967310 100 = Some 4294967313.
Proof. vm_compute. done. Qed.

(** Timer 200 is started with a command given at 2^32 - 1 and handled at 2^32 + 14. *)
Lemma process_message_exact_witness :
  exists s' E', process_message no_effect (demo_tmr 14) (mkMessage tmrCOMMAND_START 4294967295 200 0) = Some s' /\
    lists_at [] s' 4294967310 E' /\ xTimerQueue s' = Some [] /\
    forall N', 4294967310 <= N' ->
      (forall u, u <> 200 -> same_future_of u N' (demo_tmr 14) demo_expiry s' E') /\
      calls_of 200 s' + owed s' E' N' 200 = times_due (mkTimer 0 1 9 0 22 1) 4294967304 N' /\
      fate s' E' N' 200 = next_expiry (mkTimer 0 1 9 0 22 1) 4294967304 N'.
Proof.
  assert (sw_timers (demo_tmr 14) !! 200 = Some (mkTimer 0 1 9 0 22 1)) as Hx by (vm_compute; reflexivity).
  destruct (process_message_exact no_effect (fun _ _ => eq_refl) (demo_tmr 14) 4294967290 4294967310 4294967295
    demo_expiry 200 tmrCOMMAND_START 4294967295 (mkTimer 0 1 9 0 22 1) (demo_lists_at 14)
    ltac:(lia) ltac:(lia) eq_refl ltac:(lia) ltac:(lia) Hx ltac:(simpl; lia) ltac:(unfold tmrCOMMAND_START; lia) eq_refl)
    as (s' & E' & P1 & P2 & P3 & P4).
  exists s', E'. split; [exact P1|]. split; [exact P2|]. split; [exact P3|].
  intros N' HN'. destruct (P4 N' HN') as (Q1 & Q2 & Q3). split; [exact Q1|]. split; [exact Q2|exact Q3].
Defined.
