(* ===== verification/Ringbuf.v ===== *)
(** * Ring buffers (esp_ringbuf/ringbuf.c)

    The whole of ringbuf.c: the three buffer types (no-split, allow-split, byte
    buffer) selected by function pointers, the send / acquire / complete /
    receive / return operations with their blocking loops, and the creation and
    query functions.

    Pointers are 32-bit addresses in Z; the storage is the byte memory at
    [[pucHead, pucTail)]; item headers live in it as two little-endian words.
    A failing [configASSERT] is [None].  The function pointers of the structure
    are tags, dispatched by [run_*]. *)

From stdpp Require Import base list option gmap.
From Stdlib Require Import ZArith Lia.
From S2P Require Import Prelude FreeRTOSList Kernel.

(** ** Macros and types *)

Definition rbALIGN_MASK : Z := 3.
Definition rbALIGN_SIZE (xSize : Z) : Z := Z.land (u32 (xSize + rbALIGN_MASK)) (u32 (Z.lnot rbALIGN_MASK)).
Definition rbCHECK_ALIGNED (pvPtr : Z) : bool := Z.land (u32 pvPtr) rbALIGN_MASK =? 0.

Definition rbALLOW_SPLIT_FLAG : Z := 2 ^ 0.
Definition rbBYTE_BUFFER_FLAG : Z := 2 ^ 1.
Definition rbBUFFER_FULL_FLAG : Z := 2 ^ 2.
Definition rbBUFFER_STATIC_FLAG : Z := 2 ^ 3.

Definition rbITEM_FREE_FLAG : Z := 2 ^ 0.
Definition rbITEM_DUMMY_DATA_FLAG : Z := 2 ^ 1.
Definition rbITEM_SPLIT_FLAG : Z := 2 ^ 2.
Definition rbITEM_WRITTEN_FLAG : Z := 2 ^ 3.

Definition rbHEADER_SIZE : Z := 8.

Inductive RingbufferType_t := RINGBUF_TYPE_NOSPLIT | RINGBUF_TYPE_ALLOWSPLIT | RINGBUF_TYPE_BYTEBUF.

Inductive CheckItemFitsFunction_t := CheckItemFitsDefault | CheckItemFitsByteBuffer.
Inductive CopyItemFunction_t := CopyItemNoSplit | CopyItemAllowSplit | CopyItemByteBuf.
Inductive GetItemFunction_t := GetItemDefault | GetItemByteBuf.
Inductive ReturnItemFunction_t := ReturnItemDefault | ReturnItemByteBuf.
Inductive GetCurMaxSizeFunction_t := GetCurMaxSizeNoSplit | GetCurMaxSizeAllowSplit | GetCurMaxSizeByteBuf.

Record Ringbuffer_t := mkRb {
  xSize : Z;
  xMaxItemSize : Z;
  uxRingbufferFlags : Z;
  xCheckItemFits : CheckItemFitsFunction_t;
  vCopyItem : CopyItemFunction_t;
  pvGetItem : GetItemFunction_t;
  vReturnItem : ReturnItemFunction_t;
  xGetCurMaxSize : GetCurMaxSizeFunction_t;
  pucAcquire : Z;
  pucWrite : Z;
  pucRead : Z;
  pucFree : Z;
  pucHead : Z;
  pucTail : Z;
  xItemsWaiting : Z;
  xTasksWaitingToSend : Z;      (* address of the event list *)
  xTasksWaitingToReceive : Z;   (* address of the event list *)
  xQueueSet : Z;
  storage : memory }.

Definition set_flags (rb : Ringbuffer_t) (v : Z) : Ringbuffer_t :=
  mkRb (xSize rb) (xMaxItemSize rb) v (xCheckItemFits rb) (vCopyItem rb) (pvGetItem rb)
    (vReturnItem rb) (xGetCurMaxSize rb) (pucAcquire rb) (pucWrite rb) (pucRead rb) (pucFree rb)
    (pucHead rb) (pucTail rb) (xItemsWaiting rb) (xTasksWaitingToSend rb)
    (xTasksWaitingToReceive rb) (xQueueSet rb) (storage rb).
Definition set_acquire (rb : Ringbuffer_t) (v : Z) : Ringbuffer_t :=
  mkRb (xSize rb) (xMaxItemSize rb) (uxRingbufferFlags rb) (xCheckItemFits rb) (vCopyItem rb) (pvGetItem rb)
    (vReturnItem rb) (xGetCurMaxSize rb) v (pucWrite rb) (pucRead rb) (pucFree rb)
    (pucHead rb) (pucTail rb) (xItemsWaiting rb) (xTasksWaitingToSend rb)
    (xTasksWaitingToReceive rb) (xQueueSet rb) (storage rb).
Definition set_write (rb : Ringbuffer_t) (v : Z) : Ringbuffer_t :=
  mkRb (xSize rb) (xMaxItemSize rb) (uxRingbufferFlags rb) (xCheckItemFits rb) (vCopyItem rb) (pvGetItem rb)
    (vReturnItem rb) (xGetCurMaxSize rb) (pucAcquire rb) v (pucRead rb) (pucFree rb)
    (pucHead rb) (pucTail rb) (xItemsWaiting rb) (xTasksWaitingToSend rb)
    (xTasksWaitingToReceive rb) (xQueueSet rb) (storage rb).
Definition set_read (rb : Ringbuffer_t) (v : Z) : Ringbuffer_t :=
  mkRb (xSize rb) (xMaxItemSize rb) (uxRingbufferFlags rb) (xCheckItemFits rb) (vCopyItem rb) (pvGetItem rb)
    (vReturnItem rb) (xGetCurMaxSize rb) (pucAcquire rb) (pucWrite rb) v (pucFree rb)
    (pucHead rb) (pucTail rb) (xItemsWaiting rb) (xTasksWaitingToSend rb)
    (xTasksWaitingToReceive rb) (xQueueSet rb) (storage rb).
Definition set_free (rb : Ringbuffer_t) (v : Z) : Ringbuffer_t :=
  mkRb (xSize rb) (xMaxItemSize rb) (uxRingbufferFlags rb) (xCheckItemFits rb) (vCopyItem rb) (pvGetItem rb)
    (vReturnItem rb) (xGetCurMaxSize rb) (pucAcquire rb) (pucWrite rb) (pucRead rb) v
    (pucHead rb) (pucTail rb) (xItemsWaiting rb) (xTasksWaitingToSend rb)
    (xTasksWaitingToReceive rb) (xQueueSet rb) (storage rb).
Definition set_waiting (rb : Ringbuffer_t) (v : Z) : Ringbuffer_t :=
  mkRb (xSize rb) (xMaxItemSize rb) (uxRingbufferFlags rb) (xCheckItemFits rb) (vCopyItem rb) (pvGetItem rb)
    (vReturnItem rb) (xGetCurMaxSize rb) (pucAcquire rb) (pucWrite rb) (pucRead rb) (pucFree rb)
    (pucHead rb) (pucTail rb) v (xTasksWaitingToSend rb)
    (xTasksWaitingToReceive rb) (xQueueSet rb) (storage rb).
Definition set_queue_set (rb : Ringbuffer_t) (v : Z) : Ringbuffer_t :=
  mkRb (xSize rb) (xMaxItemSize rb) (uxRingbufferFlags rb) (xCheckItemFits rb) (vCopyItem rb) (pvGetItem rb)
    (vReturnItem rb) (xGetCurMaxSize rb) (pucAcquire rb) (pucWrite rb) (pucRead rb) (pucFree rb)
    (pucHead rb) (pucTail rb) (xItemsWaiting rb) (xTasksWaitingToSend rb)
    (xTasksWaitingToReceive rb) v (storage rb).
Definition set_storage (rb : Ringbuffer_t) (m : memory) : Ringbuffer_t :=
  mkRb (xSize rb) (xMaxItemSize rb) (uxRingbufferFlags rb) (xCheckItemFits rb) (vCopyItem rb) (pvGetItem rb)
    (vReturnItem rb) (xGetCurMaxSize rb) (pucAcquire rb) (pucWrite rb) (pucRead rb) (pucFree rb)
    (pucHead rb) (pucTail rb) (xItemsWaiting rb) (xTasksWaitingToSend rb)
    (xTasksWaitingToReceive rb) (xQueueSet rb) m.

(** The fields of an [ItemHeader_t] in the storage. *)
Definition item_len (rb : Ringbuffer_t) (p : Z) : Z := load32 (storage rb) p.
Definition item_flags (rb : Ringbuffer_t) (p : Z) : Z := load32 (storage rb) (p + 4).
Definition set_item_len (rb : Ringbuffer_t) (p v : Z) : Ringbuffer_t :=
  set_storage rb (store32 (storage rb) p v).
Definition set_item_flags (rb : Ringbuffer_t) (p v : Z) : Ringbuffer_t :=
  set_storage rb (store32 (storage rb) (p + 4) v).

(** [memcpy] into the storage from a caller's buffer holding [src]. *)
Definition memcpy_in (rb : Ringbuffer_t) (p : Z) (src : list Z) (n : Z) : option Ringbuffer_t :=
  assert! n <=? Z.of_nat (length src);
  Some (set_storage rb (store_bytes (storage rb) p (take (Z.to_nat n) src))).

Definition rb_flag (rb : Ringbuffer_t) (m : Z) : bool := has_flag (uxRingbufferFlags rb) m.

(** ** Initialisation *)

(** Offsets of the two [List_t] members in the structure. *)
Definition offset_WaitingToSend : Z := 60.
Definition offset_WaitingToReceive : Z := 80.

Definition init_event_list (k : kernel) (l : Z) : kernel := with_event_lists k (<[l := []]> (event_lists k)).

Definition prvInitializeNewRingbuffer (xBufferSize : Z) (xBufferType : RingbufferType_t)
    (pxNewRingbuffer pucRingbufferStorage : Z) (m : memory) (k : kernel) : Ringbuffer_t * kernel :=
  let mk flags fits copy get ret maxsize cur :=
    mkRb xBufferSize maxsize flags fits copy get ret cur
      pucRingbufferStorage pucRingbufferStorage pucRingbufferStorage pucRingbufferStorage
      pucRingbufferStorage (pucRingbufferStorage + xBufferSize) 0
      (pxNewRingbuffer + offset_WaitingToSend) (pxNewRingbuffer + offset_WaitingToReceive) NULL m in
  let rb :=
    match xBufferType with
    | RINGBUF_TYPE_NOSPLIT =>
        mk 0 CheckItemFitsDefault CopyItemNoSplit GetItemDefault ReturnItemDefault
          (u32 (rbALIGN_SIZE (xBufferSize / 2) - rbHEADER_SIZE)) GetCurMaxSizeNoSplit
    | RINGBUF_TYPE_ALLOWSPLIT =>
        mk (set_flag 0 rbALLOW_SPLIT_FLAG) CheckItemFitsDefault CopyItemAllowSplit GetItemDefault
          ReturnItemDefault (u32 (xBufferSize - rbHEADER_SIZE * 2)) GetCurMaxSizeAllowSplit
    | RINGBUF_TYPE_BYTEBUF =>
        mk (set_flag 0 rbBYTE_BUFFER_FLAG) CheckItemFitsByteBuffer CopyItemByteBuf GetItemByteBuf
          ReturnItemByteBuf xBufferSize GetCurMaxSizeByteBuf
    end in
  (rb, init_event_list (init_event_list k (xTasksWaitingToSend rb)) (xTasksWaitingToReceive rb)).

(** ** Space and availability *)

Definition prvGetFreeSize (rb : Ringbuffer_t) : option Z :=
  let xReturn :=
    if rb_flag rb rbBUFFER_FULL_FLAG then 0
    else let xFreeSize := s32 (pucFree rb - pucAcquire rb) in
         let xFreeSize := if xFreeSize <=? 0 then s32 (u32 xFreeSize + xSize rb) else xFreeSize in
         u32 xFreeSize in
  assert! xReturn <=? xSize rb;
  Some xReturn.

Definition acquire_in_bounds (rb : Ringbuffer_t) : bool :=
  (pucHead rb <=? pucAcquire rb) && (pucAcquire rb <? pucTail rb).

Definition prvCheckItemFitsDefault (rb : Ringbuffer_t) (xItemSize : Z) : option bool :=
  assert! rbCHECK_ALIGNED (pucAcquire rb);
  assert! acquire_in_bounds rb;
  let xTotalItemSize := u32 (rbALIGN_SIZE xItemSize + rbHEADER_SIZE) in
  if pucAcquire rb =? pucFree rb then Some (negb (rb_flag rb rbBUFFER_FULL_FLAG))
  else if pucAcquire rb <? pucFree rb then
    Some (xTotalItemSize <=? u32 (pucFree rb - pucAcquire rb))
  else if xTotalItemSize <=? u32 (pucTail rb - pucAcquire rb) then Some true
  else if rb_flag rb rbALLOW_SPLIT_FLAG then
    Some (u32 (xTotalItemSize + rbHEADER_SIZE) <=?
          u32 (xSize rb - u32 (pucAcquire rb - pucFree rb)))
  else Some (xTotalItemSize <=? u32 (pucFree rb - pucHead rb)).

Definition prvCheckItemFitsByteBuffer (rb : Ringbuffer_t) (xItemSize : Z) : option bool :=
  assert! acquire_in_bounds rb;
  if pucAcquire rb =? pucFree rb then Some (negb (rb_flag rb rbBUFFER_FULL_FLAG))
  else if pucAcquire rb <? pucFree rb then
    Some (xItemSize <=? u32 (pucFree rb - pucAcquire rb))
  else Some (xItemSize <=? u32 (xSize rb - u32 (pucAcquire rb - pucFree rb))).

(** ** No-split buffers: acquiring, completing and copying items *)

Definition mark_full_if_caught_up (rb : Ringbuffer_t) : Ringbuffer_t :=
  if pucAcquire rb =? pucFree rb
  then set_flags rb (set_flag (uxRingbufferFlags rb) rbBUFFER_FULL_FLAG) else rb.

(** A pointer too close to the tail for a header wraps to the head. *)
Definition wrap_if_short (rb : Ringbuffer_t) (p : Z) : Z :=
  if u32 (pucTail rb - p) <? rbHEADER_SIZE then pucHead rb else p.

Definition prvAcquireItemNoSplit (rb : Ringbuffer_t) (xItemSize : Z) : option (Z * Ringbuffer_t) :=
  let xAlignedItemSize := rbALIGN_SIZE xItemSize in
  let xRemLen := u32 (pucTail rb - pucAcquire rb) in
  assert! rbCHECK_ALIGNED (pucAcquire rb);
  assert! acquire_in_bounds rb;
  assert! rbHEADER_SIZE <=? xRemLen;
  let rb :=
    if xRemLen <? u32 (xAlignedItemSize + rbHEADER_SIZE) then
      let rb := set_item_flags rb (pucAcquire rb) rbITEM_DUMMY_DATA_FLAG in
      let rb := set_item_len rb (pucAcquire rb) 0 in
      set_acquire rb (pucHead rb)
    else rb in
  let rb := set_item_len rb (pucAcquire rb) xItemSize in
  let rb := set_item_flags rb (pucAcquire rb) 0 in
  let item_address := pucAcquire rb + rbHEADER_SIZE in
  let rb := set_acquire rb (pucAcquire rb + u32 (rbHEADER_SIZE + xAlignedItemSize)) in
  let rb := set_acquire rb (wrap_if_short rb (pucAcquire rb)) in
  Some (item_address, mark_full_if_caught_up rb).

(** The write-pointer loop of [prvSendItemDoneNoSplit]; blocks are at least a
    header long, so [xSize / 8 + 1] iterations suffice (shown below). *)
Definition rb_fuel (rb : Ringbuffer_t) : nat := S (Z.to_nat (xSize rb / rbHEADER_SIZE)).

Fixpoint advance_write (fuel : nat) (rb : Ringbuffer_t) : option Ringbuffer_t :=
  let flags := item_flags rb (pucWrite rb) in
  if has_flag flags rbITEM_WRITTEN_FLAG || has_flag flags rbITEM_DUMMY_DATA_FLAG then
    match fuel with
    | O => None
    | S fuel =>
        let! rb :=
          (if has_flag flags rbITEM_DUMMY_DATA_FLAG then
             let rb := set_item_flags rb (pucWrite rb) (set_flag flags rbITEM_WRITTEN_FLAG) in
             Some (set_write rb (pucHead rb))
           else
             let xAlignedItemSize := rbALIGN_SIZE (item_len rb (pucWrite rb)) in
             let rb := set_write rb (pucWrite rb + u32 (xAlignedItemSize + rbHEADER_SIZE)) in
             assert! pucWrite rb <=? pucHead rb + xSize rb;
             Some rb) in
        let rb := set_write rb (wrap_if_short rb (pucWrite rb)) in
        if pucWrite rb =? pucAcquire rb then Some rb else advance_write fuel rb
    end
  else Some rb.

Definition prvSendItemDoneNoSplit (rb : Ringbuffer_t) (pucItem : Z) : option Ringbuffer_t :=
  assert! rbCHECK_ALIGNED pucItem;
  assert! pucHead rb <=? pucItem;
  assert! pucItem <=? pucTail rb;
  let pxCurHeader := pucItem - rbHEADER_SIZE in
  assert! item_len rb pxCurHeader <=? xMaxItemSize rb;
  assert! negb (has_flag (item_flags rb pxCurHeader) rbITEM_DUMMY_DATA_FLAG);
  assert! negb (has_flag (item_flags rb pxCurHeader) rbITEM_WRITTEN_FLAG);
  let rb := set_item_flags rb pxCurHeader (clear_flag (item_flags rb pxCurHeader) rbITEM_SPLIT_FLAG) in
  let rb := set_item_flags rb pxCurHeader (set_flag (item_flags rb pxCurHeader) rbITEM_WRITTEN_FLAG) in
  let rb := set_waiting rb (s32 (xItemsWaiting rb + 1)) in
  advance_write (rb_fuel rb) rb.

Definition prvCopyItemNoSplit (rb : Ringbuffer_t) (pucItem : list Z) (xItemSize : Z) : option Ringbuffer_t :=
  let! (item_addr, rb) := prvAcquireItemNoSplit rb xItemSize in
  let! rb := memcpy_in rb item_addr pucItem xItemSize in
  prvSendItemDoneNoSplit rb item_addr.

(** ** Allow-split buffers and byte buffers: copying *)

Definition prvCopyItemAllowSplit (rb : Ringbuffer_t) (pucItem : list Z) (xItemSize : Z) : option Ringbuffer_t :=
  let xAlignedItemSize := rbALIGN_SIZE xItemSize in
  let xRemLen := u32 (pucTail rb - pucAcquire rb) in
  assert! rbCHECK_ALIGNED (pucAcquire rb);
  assert! acquire_in_bounds rb;
  assert! rbHEADER_SIZE <=? xRemLen;
  let! (rb, pucItem, xItemSize, xAlignedItemSize) :=
    (if xRemLen <? u32 (xAlignedItemSize + rbHEADER_SIZE) then
       let pxFirstHeader := pucAcquire rb in
       let rb := set_item_flags rb pxFirstHeader 0 in
       let rb := set_item_len rb pxFirstHeader (u32 (xRemLen - rbHEADER_SIZE)) in
       let rb := set_acquire rb (pucAcquire rb + rbHEADER_SIZE) in
       let xRemLen := u32 (xRemLen - rbHEADER_SIZE) in
       if 0 <? xRemLen then
         let! rb := memcpy_in rb (pucAcquire rb) pucItem xRemLen in
         let rb := set_waiting rb (s32 (xItemsWaiting rb + 1)) in
         let rb := set_item_flags rb pxFirstHeader
                     (set_flag (item_flags rb pxFirstHeader) rbITEM_SPLIT_FLAG) in
         Some (set_acquire rb (pucHead rb), drop (Z.to_nat xRemLen) pucItem,
               u32 (xItemSize - xRemLen), u32 (xAlignedItemSize - xRemLen))
       else
         let rb := set_item_flags rb pxFirstHeader
                     (set_flag (item_flags rb pxFirstHeader) rbITEM_DUMMY_DATA_FLAG) in
         Some (set_acquire rb (pucHead rb), pucItem, xItemSize, xAlignedItemSize)
     else Some (rb, pucItem, xItemSize, xAlignedItemSize)) in
  let pxSecondHeader := pucAcquire rb in
  let rb := set_item_len rb pxSecondHeader xItemSize in
  let rb := set_item_flags rb pxSecondHeader 0 in
  let rb := set_acquire rb (pucAcquire rb + rbHEADER_SIZE) in
  let! rb := memcpy_in rb (pucAcquire rb) pucItem xItemSize in
  let rb := set_waiting rb (s32 (xItemsWaiting rb + 1)) in
  let rb := set_acquire rb (pucAcquire rb + xAlignedItemSize) in
  let rb := set_acquire rb (wrap_if_short rb (pucAcquire rb)) in
  let rb := mark_full_if_caught_up rb in
  Some (set_write rb (pucAcquire rb)).

Definition prvCopyItemByteBuf (rb : Ringbuffer_t) (pucItem : list Z) (xItemSize : Z) : option Ringbuffer_t :=
  assert! acquire_in_bounds rb;
  let xRemLen := u32 (pucTail rb - pucAcquire rb) in
  let! (rb, pucItem, xItemSize) :=
    (if xRemLen <? xItemSize then
       let! rb := memcpy_in rb (pucAcquire rb) pucItem xRemLen in
       let rb := set_waiting rb (s32 (xItemsWaiting rb + xRemLen)) in
       Some (set_acquire rb (pucHead rb), drop (Z.to_nat xRemLen) pucItem, u32 (xItemSize - xRemLen))
     else Some (rb, pucItem, xItemSize)) in
  let! rb := memcpy_in rb (pucAcquire rb) pucItem xItemSize in
  let rb := set_waiting rb (s32 (xItemsWaiting rb + xItemSize)) in
  let rb := set_acquire rb (pucAcquire rb + xItemSize) in
  let rb := if pucAcquire rb =? pucTail rb then set_acquire rb (pucHead rb) else rb in
  let rb := mark_full_if_caught_up rb in
  Some (set_write rb (pucAcquire rb)).

(** ** Retrieving items *)

Definition items_to_read (rb : Ringbuffer_t) : bool :=
  (0 <? xItemsWaiting rb) &&
  (negb (pucRead rb =? pucWrite rb) || rb_flag rb rbBUFFER_FULL_FLAG).

Definition is_no_split (rb : Ringbuffer_t) : bool :=
  Z.land (uxRingbufferFlags rb) (Z.lor rbBYTE_BUFFER_FLAG rbALLOW_SPLIT_FLAG) =? 0.

Definition prvCheckItemAvail (rb : Ringbuffer_t) : bool :=
  if rb_flag rb rbBYTE_BUFFER_FLAG && negb (pucRead rb =? pucFree rb) then false
  else if items_to_read rb then
    if is_no_split rb then has_flag (item_flags rb (pucRead rb)) rbITEM_WRITTEN_FLAG
    else true
  else false.

Definition read_in_bounds (rb : Ringbuffer_t) : bool :=
  (pucHead rb <=? pucRead rb) && (pucRead rb <? pucTail rb).

(** The address of the data, its length, whether it is the first part of a
    split item. *)
Definition prvGetItemDefault (rb : Ringbuffer_t) : option (Z * Z * bool * Ringbuffer_t) :=
  let pxHeader := pucRead rb in
  assert! items_to_read rb;
  assert! rbCHECK_ALIGNED (pucRead rb);
  assert! read_in_bounds rb;
  assert! (item_len rb pxHeader <=? xMaxItemSize rb) || has_flag (item_flags rb pxHeader) rbITEM_DUMMY_DATA_FLAG;
  let! (rb, pxHeader) :=
    (if has_flag (item_flags rb pxHeader) rbITEM_DUMMY_DATA_FLAG then
       let rb := set_read rb (pucHead rb) in
       assert! item_len rb (pucRead rb) <=? xMaxItemSize rb;
       Some (rb, pucRead rb)
     else Some (rb, pxHeader)) in
  let pcReturn := pucRead rb + rbHEADER_SIZE in
  assert! (if item_len rb pxHeader =? 0
           then (pucHead rb <=? pcReturn) && (pcReturn <=? pucTail rb)
           else (pucHead rb <=? pcReturn) && (pcReturn <? pucTail rb));
  let xItemSize := item_len rb pxHeader in
  let rb := set_waiting rb (s32 (xItemsWaiting rb - 1)) in
  let xIsSplit := has_flag (item_flags rb pxHeader) rbITEM_SPLIT_FLAG in
  let rb := set_read rb (pucRead rb + u32 (rbHEADER_SIZE + rbALIGN_SIZE xItemSize)) in
  let rb := set_read rb (wrap_if_short rb (pucRead rb)) in
  Some (pcReturn, xItemSize, xIsSplit, rb).

Definition prvGetItemByteBuf (rb : Ringbuffer_t) (xMaxSize : Z) : option (Z * Z * Ringbuffer_t) :=
  assert! items_to_read rb;
  assert! read_in_bounds rb;
  assert! pucRead rb =? pucFree rb;
  let ret := pucRead rb in
  if (pucWrite rb <? pucRead rb) || rb_flag rb rbBUFFER_FULL_FLAG then
    let contiguous := u32 (pucTail rb - pucRead rb) in
    if (xMaxSize =? 0) || (contiguous <=? xMaxSize) then
      let rb := set_waiting rb (s32 (xItemsWaiting rb - (pucTail rb - pucRead rb))) in
      Some (ret, contiguous, set_read rb (pucHead rb))
    else
      let rb := set_waiting rb (s32 (xItemsWaiting rb - xMaxSize)) in
      Some (ret, xMaxSize, set_read rb (pucRead rb + xMaxSize))
  else
    let contiguous := u32 (pucWrite rb - pucRead rb) in
    if (xMaxSize =? 0) || (contiguous <=? xMaxSize) then
      let rb := set_waiting rb (s32 (xItemsWaiting rb - (pucWrite rb - pucRead rb))) in
      Some (ret, contiguous, set_read rb (pucWrite rb))
    else
      let rb := set_waiting rb (s32 (xItemsWaiting rb - xMaxSize)) in
      Some (ret, xMaxSize, set_read rb (pucRead rb + xMaxSize)).

(** ** Returning items *)

Fixpoint advance_free (fuel : nat) (rb : Ringbuffer_t) : option Ringbuffer_t :=
  let flags := item_flags rb (pucFree rb) in
  if (has_flag flags rbITEM_FREE_FLAG || has_flag flags rbITEM_DUMMY_DATA_FLAG) &&
     negb (pucFree rb =? pucRead rb) then
    match fuel with
    | O => None
    | S fuel =>
        let! rb :=
          (if has_flag flags rbITEM_DUMMY_DATA_FLAG then
             let rb := set_item_flags rb (pucFree rb) (set_flag flags rbITEM_FREE_FLAG) in
             Some (set_free rb (pucHead rb))
           else
             let xAlignedItemSize := rbALIGN_SIZE (item_len rb (pucFree rb)) in
             let rb := set_free rb (pucFree rb + u32 (xAlignedItemSize + rbHEADER_SIZE)) in
             assert! pucFree rb <=? pucHead rb + xSize rb;
             Some rb) in
        advance_free fuel (set_free rb (wrap_if_short rb (pucFree rb)))
    end
  else Some rb.

Definition clear_full (rb : Ringbuffer_t) : Ringbuffer_t :=
  set_flags rb (clear_flag (uxRingbufferFlags rb) rbBUFFER_FULL_FLAG).

Definition prvReturnItemDefault (rb : Ringbuffer_t) (pucItem : Z) : option Ringbuffer_t :=
  assert! rbCHECK_ALIGNED pucItem;
  assert! pucHead rb <=? pucItem;
  assert! pucItem <=? pucTail rb;
  let pxCurHeader := pucItem - rbHEADER_SIZE in
  assert! item_len rb pxCurHeader <=? xMaxItemSize rb;
  assert! negb (has_flag (item_flags rb pxCurHeader) rbITEM_DUMMY_DATA_FLAG);
  assert! negb (has_flag (item_flags rb pxCurHeader) rbITEM_FREE_FLAG);
  let rb := set_item_flags rb pxCurHeader (clear_flag (item_flags rb pxCurHeader) rbITEM_SPLIT_FLAG) in
  let rb := set_item_flags rb pxCurHeader (set_flag (item_flags rb pxCurHeader) rbITEM_FREE_FLAG) in
  let! rb := advance_free (rb_fuel rb) rb in
  Some (if rb_flag rb rbBUFFER_FULL_FLAG then
          if negb (pucFree rb =? pucAcquire rb) then clear_full rb
          else if (pucFree rb =? pucAcquire rb) && (pucFree rb =? pucRead rb) then clear_full rb
          else rb
        else rb).

Definition prvReturnItemByteBuf (rb : Ringbuffer_t) (pucItem : Z) : option Ringbuffer_t :=
  assert! pucHead rb <=? pucItem;
  assert! pucItem <? pucTail rb;
  let rb := set_free rb (pucRead rb) in
  Some (if rb_flag rb rbBUFFER_FULL_FLAG then clear_full rb else rb).

(** ** Current maximum item size *)

(** [xFreeSize] is signed, compared with the unsigned maximum after the check
    for a negative value. *)
Definition clamp_free_size (rb : Ringbuffer_t) (xFreeSize : Z) : Z :=
  if xFreeSize <? 0 then 0
  else if xMaxItemSize rb <? u32 xFreeSize then xMaxItemSize rb
  else u32 xFreeSize.

Definition prvGetCurMaxSizeNoSplit (rb : Ringbuffer_t) : Z :=
  if rb_flag rb rbBUFFER_FULL_FLAG then 0
  else
    let xFreeSize :=
      if pucAcquire rb <? pucFree rb then s32 (pucFree rb - pucAcquire rb)
      else let xSize1 := u32 (pucTail rb - pucAcquire rb) in
           let xSize2 := u32 (pucFree rb - pucHead rb) in
           s32 (if xSize2 <? xSize1 then xSize1 else xSize2) in
    clamp_free_size rb (s32 (u32 xFreeSize - rbHEADER_SIZE)).

Definition prvGetCurMaxSizeAllowSplit (rb : Ringbuffer_t) : Z :=
  if rb_flag rb rbBUFFER_FULL_FLAG then 0
  else
    clamp_free_size rb
      (if (pucAcquire rb =? pucHead rb) && (pucFree rb =? pucHead rb) then
         s32 (xSize rb - rbHEADER_SIZE)
       else if pucAcquire rb <? pucFree rb then
         s32 (pucFree rb - pucAcquire rb - rbHEADER_SIZE)
       else
         s32 ((pucFree rb - pucHead rb) + (pucTail rb - pucAcquire rb) - rbHEADER_SIZE * 2)).

Definition prvGetCurMaxSizeByteBuf (rb : Ringbuffer_t) : Z :=
  if rb_flag rb rbBUFFER_FULL_FLAG then 0
  else
    let xFreeSize := s32 (pucFree rb - pucAcquire rb) in
    u32 (if xFreeSize <=? 0 then s32 (u32 xFreeSize + xSize rb) else xFreeSize).

(** ** Dispatch of the function pointers *)

Definition run_CheckItemFits (rb : Ringbuffer_t) (xItemSize : Z) : option bool :=
  match xCheckItemFits rb with
  | CheckItemFitsDefault => prvCheckItemFitsDefault rb xItemSize
  | CheckItemFitsByteBuffer => prvCheckItemFitsByteBuffer rb xItemSize
  end.

Definition run_CopyItem (rb : Ringbuffer_t) (pvItem : list Z) (xItemSize : Z) : option Ringbuffer_t :=
  match vCopyItem rb with
  | CopyItemNoSplit => prvCopyItemNoSplit rb pvItem xItemSize
  | CopyItemAllowSplit => prvCopyItemAllowSplit rb pvItem xItemSize
  | CopyItemByteBuf => prvCopyItemByteBuf rb pvItem xItemSize
  end.

Definition run_GetItem (rb : Ringbuffer_t) (xMaxSize : Z) : option (Z * Z * bool * Ringbuffer_t) :=
  match pvGetItem rb with
  | GetItemDefault => prvGetItemDefault rb
  | GetItemByteBuf => let! (p, n, rb) := prvGetItemByteBuf rb xMaxSize in Some (p, n, false, rb)
  end.

Definition run_ReturnItem (rb : Ringbuffer_t) (pucItem : Z) : option Ringbuffer_t :=
  match vReturnItem rb with
  | ReturnItemDefault => prvReturnItemDefault rb pucItem
  | ReturnItemByteBuf => prvReturnItemByteBuf rb pucItem
  end.

Definition run_GetCurMaxSize (rb : Ringbuffer_t) : Z :=
  match xGetCurMaxSize rb with
  | GetCurMaxSizeNoSplit => prvGetCurMaxSizeNoSplit rb
  | GetCurMaxSizeAllowSplit => prvGetCurMaxSizeAllowSplit rb
  | GetCurMaxSizeByteBuf => prvGetCurMaxSizeByteBuf rb
  end.

(** ** Blocking

    A call that cannot proceed puts its task on an event list and yields
    inside the loop; it goes round again when the task next runs.  What the
    rest of the system does while the task is off the processor is a list of
    state changes, one per sleep; a call still asleep when the list ends is
    [Blocked]. *)

Record wait_state := mkWait {
  ws_ticks : Z;            (* xTicksToWait *)
  ws_entry_set : bool;     (* xEntryTimeSet *)
  ws_timeout : TimeOut_t }.

Definition start_wait (xTicksToWait : Z) : wait_state := mkWait xTicksToWait false (mkTimeOut 0 0).

Definition environment := list (Ringbuffer_t * kernel -> Ringbuffer_t * kernel).

Inductive outcome (A : Type) :=
| Returned (r : A) (rb : Ringbuffer_t) (k : kernel)
| Blocked (rb : Ringbuffer_t) (k : kernel).
Arguments Returned {A}.
Arguments Blocked {A}.

(** The tail of both loops: give up, or go to sleep on [pxEventList].  Returns
    whether the call exits. *)
Definition wait_pass (k : kernel) (pxEventList : Z) (ws : wait_state) : bool * wait_state * kernel :=
  if ws_ticks ws =? 0 then (true, ws, k)
  else
    let ws := if ws_entry_set ws then ws
              else mkWait (ws_ticks ws) true (vTaskInternalSetTimeOutState k) in
    let '(timed_out, t, ticks, k) := xTaskCheckForTimeOut k (ws_timeout ws) (ws_ticks ws) in
    let ws := mkWait ticks true t in
    if timed_out then (true, ws, k)
    else (false, ws, vTaskPlaceOnEventList k pxEventList ticks).

(** Data has become readable: either the queue set is to be told, or the first
    waiting receiver is woken (second component: it outranks the caller). *)
Definition notify_receiver (rb : Ringbuffer_t) (k : kernel) : option (bool * bool * kernel) :=
  if negb (xQueueSet rb =? NULL) then Some (true, false, k)
  else if listLIST_IS_EMPTY k (xTasksWaitingToReceive rb) then Some (false, false, k)
  else let! (higher, k) := xTaskRemoveFromEventList k (xTasksWaitingToReceive rb) in
       Some (false, higher, k).

Record send_result := mkSend {
  sr_return : bool;
  sr_item : option Z;          (* what was stored through ppvItem *)
  sr_notify : bool }.          (* xQueueSend to the queue set *)

(** [acquire] is [ppvItem != NULL]; [pvItem] the bytes to send. *)
Fixpoint prvSendAcquireGeneric (env : environment) (rb : Ringbuffer_t) (k : kernel)
    (pvItem : list Z) (acquire : bool) (xItemSize : Z) (ws : wait_state) :
    option (outcome send_result) :=
  let! fits := run_CheckItemFits rb xItemSize in
  if fits : bool then
    if acquire then
      let! (p, rb) := prvAcquireItemNoSplit rb xItemSize in
      Some (Returned (mkSend true (Some p) false) rb k)
    else
      let! rb := run_CopyItem rb pvItem xItemSize in
      let! (xNotifyQueueSet, _, k) := notify_receiver rb k in
      Some (Returned (mkSend true None xNotifyQueueSet) rb k)
  else
    match wait_pass k (xTasksWaitingToSend rb) ws with
    | (true, _, k) => Some (Returned (mkSend false None false) rb k)
    | (false, ws, k) =>
        match env with
        | [] => Some (Blocked rb k)
        | f :: env => let (rb, k) := f (rb, k) in
                      prvSendAcquireGeneric env rb k pvItem acquire xItemSize ws
        end
    end.

Record receive_result := mkReceive {
  rr_item1 : Z; rr_size1 : Z;
  rr_item2 : option (Z * Z) }.   (* the second part; None is *pvItem2 = NULL *)

(** The body of the critical section of both receive functions. *)
Definition receive_item (rb : Ringbuffer_t) (xMaxSize : Z) : option (receive_result * Ringbuffer_t) :=
  let! (p1, n1, xIsSplit, rb) :=
    (if rb_flag rb rbBYTE_BUFFER_FLAG
     then let! (p, n, _, rb) := run_GetItem rb xMaxSize in Some (p, n, false, rb)
     else run_GetItem rb 0) in
  if rb_flag rb rbALLOW_SPLIT_FLAG then
    if xIsSplit : bool then
      let! (p2, n2, xIsSplit, rb) := run_GetItem rb 0 in
      assert! p2 <? p1;
      assert! negb xIsSplit;
      Some (mkReceive p1 n1 (Some (p2, n2)), rb)
    else Some (mkReceive p1 n1 None, rb)
  else Some (mkReceive p1 n1 None, rb).

Fixpoint prvReceiveGeneric (env : environment) (rb : Ringbuffer_t) (k : kernel)
    (xMaxSize : Z) (ws : wait_state) : option (outcome (option receive_result)) :=
  if prvCheckItemAvail rb then
    let! (r, rb) := receive_item rb xMaxSize in
    Some (Returned (Some r) rb k)
  else
    match wait_pass k (xTasksWaitingToReceive rb) ws with
    | (true, _, k) => Some (Returned None rb k)
    | (false, ws, k) =>
        match env with
        | [] => Some (Blocked rb k)
        | f :: env => let (rb, k) := f (rb, k) in prvReceiveGeneric env rb k xMaxSize ws
        end
    end.

Definition prvReceiveGenericFromISR (rb : Ringbuffer_t) (xMaxSize : Z) :
    option (option receive_result * Ringbuffer_t) :=
  if prvCheckItemAvail rb then
    let! (r, rb) := receive_item rb xMaxSize in Some (Some r, rb)
  else Some (None, rb).

(** ** Public functions: creation *)

(** [calloc] and [malloc] (or the static buffers) are the two addresses
    [pxNewRingbuffer] and [pucRingbufferStorage], NULL when they fail; [m] is
    what the memory holds. *)
Definition rounded_size (xBufferSize : Z) (xBufferType : RingbufferType_t) : Z :=
  match xBufferType with RINGBUF_TYPE_BYTEBUF => xBufferSize | _ => rbALIGN_SIZE xBufferSize end.

Definition xRingbufferCreate (xBufferSize : Z) (xBufferType : RingbufferType_t)
    (pxNewRingbuffer pucRingbufferStorage : Z) (m : memory) (k : kernel) :
    option (option (Ringbuffer_t * kernel)) :=
  assert! 0 <? xBufferSize;
  let xBufferSize := rounded_size xBufferSize xBufferType in
  if (pxNewRingbuffer =? NULL) || (pucRingbufferStorage =? NULL) then Some None
  else Some (Some (prvInitializeNewRingbuffer xBufferSize xBufferType pxNewRingbuffer
                     pucRingbufferStorage m k)).

Definition xRingbufferCreateNoSplit (xItemSize xItemNum : Z) (h s : Z) (m : memory) (k : kernel) :
    option (option (Ringbuffer_t * kernel)) :=
  xRingbufferCreate (u32 (u32 (rbALIGN_SIZE xItemSize + rbHEADER_SIZE) * xItemNum))
    RINGBUF_TYPE_NOSPLIT h s m k.

Definition xRingbufferCreateStatic (xBufferSize : Z) (xBufferType : RingbufferType_t)
    (pucRingbufferStorage pxStaticRingbuffer : Z) (m : memory) (k : kernel) :
    option (Ringbuffer_t * kernel) :=
  assert! 0 <? xBufferSize;
  assert! negb (pucRingbufferStorage =? NULL) && negb (pxStaticRingbuffer =? NULL);
  assert! match xBufferType with RINGBUF_TYPE_BYTEBUF => true | _ => rbCHECK_ALIGNED xBufferSize end;
  let (rb, k) := prvInitializeNewRingbuffer xBufferSize xBufferType pxStaticRingbuffer
                   pucRingbufferStorage m k in
  Some (set_flags rb (set_flag (uxRingbufferFlags rb) rbBUFFER_STATIC_FLAG), k).

Definition xRingbufferCreateWithCaps (xBufferSize : Z) (xBufferType : RingbufferType_t)
    (pxStaticRingbuffer pucRingbufferStorage : Z) (m : memory) (k : kernel) :
    option (option (Ringbuffer_t * kernel)) :=
  let xBufferSize := rounded_size xBufferSize xBufferType in
  if (pxStaticRingbuffer =? NULL) || (pucRingbufferStorage =? NULL) then Some None
  else let! r := xRingbufferCreateStatic xBufferSize xBufferType pucRingbufferStorage
                   pxStaticRingbuffer m k in
       Some (Some r).

(** ** Public functions: sending *)

Definition xRingbufferSendAcquire (env : environment) (rb : Ringbuffer_t) (k : kernel)
    (xItemSize xTicksToWait : Z) : option (outcome send_result) :=
  assert! is_no_split rb;
  if xMaxItemSize rb <? xItemSize then Some (Returned (mkSend false (Some NULL) false) rb k)
  else prvSendAcquireGeneric env rb k [] true xItemSize (start_wait xTicksToWait).

(** Returns whether the queue set is notified. *)
Definition xRingbufferSendComplete (rb : Ringbuffer_t) (k : kernel) (pvItem : Z) :
    option (bool * Ringbuffer_t * kernel) :=
  assert! negb (pvItem =? NULL);
  assert! is_no_split rb;
  let! rb := prvSendItemDoneNoSplit rb pvItem in
  let! (xNotifyQueueSet, _, k) := notify_receiver rb k in
  Some (xNotifyQueueSet, rb, k).

(** [pvItem] is [None] for a NULL pointer. *)
Definition xRingbufferSend (env : environment) (rb : Ringbuffer_t) (k : kernel)
    (pvItem : option (list Z)) (xItemSize xTicksToWait : Z) : option (outcome send_result) :=
  assert! (match pvItem with Some _ => true | None => false end) || (xItemSize =? 0);
  if xMaxItemSize rb <? xItemSize then Some (Returned (mkSend false None false) rb k)
  else if rb_flag rb rbBYTE_BUFFER_FLAG && (xItemSize =? 0) then
    Some (Returned (mkSend true None false) rb k)
  else prvSendAcquireGeneric env rb k (default [] pvItem) false xItemSize (start_wait xTicksToWait).

(** Result, [*pxHigherPriorityTaskWoken] set, queue set notified. *)
Definition xRingbufferSendFromISR (rb : Ringbuffer_t) (k : kernel)
    (pvItem : option (list Z)) (xItemSize : Z) : option (bool * bool * bool * Ringbuffer_t * kernel) :=
  assert! (match pvItem with Some _ => true | None => false end) || (xItemSize =? 0);
  if xMaxItemSize rb <? xItemSize then Some (false, false, false, rb, k)
  else if rb_flag rb rbBYTE_BUFFER_FLAG && (xItemSize =? 0) then Some (true, false, false, rb, k)
  else
    let! fits := run_CheckItemFits rb xItemSize in
    if fits : bool then
      let! rb := run_CopyItem rb (default [] pvItem) xItemSize in
      let! (xNotifyQueueSet, higher, k) := notify_receiver rb k in
      Some (true, higher, xNotifyQueueSet, rb, k)
    else Some (false, false, false, rb, k).

(** ** Public functions: receiving *)

Definition xRingbufferReceive (env : environment) (rb : Ringbuffer_t) (k : kernel)
    (xTicksToWait : Z) : option (outcome (option receive_result)) :=
  assert! negb (rb_flag rb rbALLOW_SPLIT_FLAG);
  prvReceiveGeneric env rb k 0 (start_wait xTicksToWait).

Definition xRingbufferReceiveFromISR (rb : Ringbuffer_t) : option (option receive_result * Ringbuffer_t) :=
  assert! negb (rb_flag rb rbALLOW_SPLIT_FLAG);
  prvReceiveGenericFromISR rb 0.

Definition xRingbufferReceiveSplit (env : environment) (rb : Ringbuffer_t) (k : kernel)
    (xTicksToWait : Z) : option (outcome (option receive_result)) :=
  assert! rb_flag rb rbALLOW_SPLIT_FLAG;
  prvReceiveGeneric env rb k 0 (start_wait xTicksToWait).

Definition xRingbufferReceiveSplitFromISR (rb : Ringbuffer_t) :
    option (option receive_result * Ringbuffer_t) :=
  assert! rb_flag rb rbALLOW_SPLIT_FLAG;
  prvReceiveGenericFromISR rb 0.

Definition xRingbufferReceiveUpTo (env : environment) (rb : Ringbuffer_t) (k : kernel)
    (xTicksToWait xMaxSize : Z) : option (outcome (option receive_result)) :=
  assert! rb_flag rb rbBYTE_BUFFER_FLAG;
  if xMaxSize =? 0 then Some (Returned None rb k)
  else prvReceiveGeneric env rb k xMaxSize (start_wait xTicksToWait).

Definition xRingbufferReceiveUpToFromISR (rb : Ringbuffer_t) (xMaxSize : Z) :
    option (option receive_result * Ringbuffer_t) :=
  assert! rb_flag rb rbBYTE_BUFFER_FLAG;
  if xMaxSize =? 0 then Some (None, rb) else prvReceiveGenericFromISR rb xMaxSize.

(** ** Public functions: returning, deleting, querying *)

(** A waiting sender is woken; the flag is whether it outranks the caller. *)
Definition vRingbufferReturnItem (rb : Ringbuffer_t) (k : kernel) (pvItem : Z) :
    option (bool * Ringbuffer_t * kernel) :=
  assert! negb (pvItem =? NULL);
  let! rb := run_ReturnItem rb pvItem in
  if listLIST_IS_EMPTY k (xTasksWaitingToSend rb) then Some (false, rb, k)
  else let! (higher, k) := xTaskRemoveFromEventList k (xTasksWaitingToSend rb) in
       Some (higher, rb, k).

Definition vRingbufferReturnItemFromISR (rb : Ringbuffer_t) (k : kernel) (pvItem : Z) :
    option (bool * Ringbuffer_t * kernel) :=
  vRingbufferReturnItem rb k pvItem.

(** The addresses passed to [free]. *)
Definition vRingbufferDelete (rb : Ringbuffer_t) (pxRingbuffer : Z) : list Z :=
  if rb_flag rb rbBUFFER_STATIC_FLAG then [] else [pucHead rb; pxRingbuffer].

Definition xRingbufferGetMaxItemSize (rb : Ringbuffer_t) : Z := xMaxItemSize rb.

Definition xRingbufferGetCurFreeSize (rb : Ringbuffer_t) : Z := run_GetCurMaxSize rb.

Definition xRingbufferAddToQueueSetRead (rb : Ringbuffer_t) (qs : Z) : option (bool * Ringbuffer_t) :=
  assert! negb (qs =? NULL);
  if negb (xQueueSet rb =? NULL) || prvCheckItemAvail rb then Some (false, rb)
  else Some (true, set_queue_set rb qs).

Definition xRingbufferRemoveFromQueueSetRead (rb : Ringbuffer_t) (qs : Z) : option (bool * Ringbuffer_t) :=
  assert! negb (qs =? NULL);
  if negb (xQueueSet rb =? qs) || prvCheckItemAvail rb then Some (false, rb)
  else Some (true, set_queue_set rb NULL).

(** Free, read, write, acquire offsets and the items waiting. *)
Definition vRingbufferGetInfo (rb : Ringbuffer_t) : Z * Z * Z * Z * Z :=
  (u32 (pucFree rb - pucHead rb), u32 (pucRead rb - pucHead rb), u32 (pucWrite rb - pucHead rb),
   u32 (pucAcquire rb - pucHead rb), u32 (xItemsWaiting rb)).

(** The static buffers, if it has any: storage and structure. *)
Definition xRingbufferGetStaticBuffer (rb : Ringbuffer_t) (pxRingbuffer : Z) : option (Z * Z) :=
  if rb_flag rb rbBUFFER_STATIC_FLAG then Some (pucHead rb, pxRingbuffer) else None.

(** [heap_caps_free] of what [xRingbufferCreateWithCaps] allocated, after
    deletion. *)
Definition vRingbufferDeleteWithCaps (rb : Ringbuffer_t) (pxRingbuffer : Z) : option (list Z) :=
  let! (pucRingbufferStorage, pxStaticRingbuffer) := xRingbufferGetStaticBuffer rb pxRingbuffer in
  Some (vRingbufferDelete rb pxRingbuffer ++ [pxStaticRingbuffer; pucRingbufferStorage]).

(** ** Positions

    Facts the proofs about the three buffer types share: positions counted from
    the head over two laps, and what every operation leaves alone. *)

(** The address of position [v] (counted from the head, less than two laps). *)
Definition phys (rb : Ringbuffer_t) (v : Z) : Z :=
  pucHead rb + (if v <? xSize rb then v else v - xSize rb).

Lemma phys_bounds rb v : 0 < xSize rb -> 0 <= v < 2 * xSize rb ->
  pucHead rb <= phys rb v < pucHead rb + xSize rb.
Proof. intros. unfold phys. destruct (Z.ltb_spec v (xSize rb)); lia. Qed.

Lemma phys_lo rb v : v < xSize rb -> phys rb v = pucHead rb + v.
Proof. intros. unfold phys. destruct (Z.ltb_spec v (xSize rb)); lia. Qed.

Lemma phys_hi rb v : xSize rb <= v -> phys rb v = pucHead rb + v - xSize rb.
Proof. intros. unfold phys. destruct (Z.ltb_spec v (xSize rb)); lia. Qed.

Ltac phys_cases :=
  repeat match goal with
  | |- context [phys ?rb ?v] =>
      first [rewrite (phys_lo rb v) in * by lia | rewrite (phys_hi rb v) in * by lia
            | destruct (Z.lt_ge_cases v (xSize rb))]
  | H : context [phys ?rb ?v] |- _ =>
      first [rewrite (phys_lo rb v) in * by lia | rewrite (phys_hi rb v) in * by lia
            | destruct (Z.lt_ge_cases v (xSize rb))]
  end.

(** What every operation leaves alone. *)
Definition same_object (rb rb' : Ringbuffer_t) : Prop :=
  xSize rb' = xSize rb /\ xMaxItemSize rb' = xMaxItemSize rb /\
  pucHead rb' = pucHead rb /\ pucTail rb' = pucTail rb /\
  xCheckItemFits rb' = xCheckItemFits rb /\ vCopyItem rb' = vCopyItem rb /\
  pvGetItem rb' = pvGetItem rb /\ vReturnItem rb' = vReturnItem rb /\
  xGetCurMaxSize rb' = xGetCurMaxSize rb /\ xQueueSet rb' = xQueueSet rb /\
  xTasksWaitingToSend rb' = xTasksWaitingToSend rb /\
  xTasksWaitingToReceive rb' = xTasksWaitingToReceive rb.

Lemma phys_same rb rb' v : same_object rb rb' -> phys rb' v = phys rb v.
Proof. intros (E1 & _ & E3 & _). unfold phys. by rewrite E1, E3. Qed.

Lemma notify_receiver_total rb k : exists r, notify_receiver rb k = Some r.
Proof.
  unfold notify_receiver, listLIST_IS_EMPTY, xTaskRemoveFromEventList.
  destruct (negb _); [by eexists|].
  destruct (default [] _) as [|t l]; [by eexists|]. simpl.
  destruct (_ <? _); by eexists.
Qed.

Lemma vRingbufferReturnItem_run rb rb' k p :
  p <> NULL -> run_ReturnItem rb p = Some rb' ->
  exists b k', vRingbufferReturnItem rb k p = Some (b, rb', k').
Proof.
  intros Hp Hr. unfold vRingbufferReturnItem. apply Z.eqb_neq in Hp. rewrite Hp, Hr. simpl.
  unfold listLIST_IS_EMPTY, xTaskRemoveFromEventList.
  destruct (default [] _) as [|t l]; [by eexists _, _|]. simpl.
  destruct (_ <? _); by eexists _, _.
Qed.
