(* ===== verification/RingbufByteBuf.v ===== *)
(** * Byte ring buffers carry a byte stream faithfully

    The byte-buffer functions of ringbuf.c against the abstract queue of bytes:
    positions are counted from the free pointer, [out] bytes are retrieved and
    not yet returned, then [data] is still to be read. *)

From stdpp Require Import base list option gmap.
From Stdlib Require Import ZArith Lia.
From S2P Require Import Prelude FreeRTOSList Kernel Ringbuf.

Definition byte_at (rb : Ringbuffer_t) (v : Z) : Z := storage rb (phys rb v).

(** [bytes_from rb v n]: the [n] stored bytes from position [v]. *)
Definition bytes_from (rb : Ringbuffer_t) (v : Z) (n : nat) : list Z :=
  map (fun i => byte_at rb (v + Z.of_nat i)) (seq 0 n).

Record byte_buffer (rb : Ringbuffer_t) : Prop := {
  bb_size : 0 < xSize rb < 2147483648;
  bb_max : xMaxItemSize rb = xSize rb;
  bb_tail : pucTail rb = pucHead rb + xSize rb;
  bb_flag : rb_flag rb rbBYTE_BUFFER_FLAG = true;
  bb_split : rb_flag rb rbALLOW_SPLIT_FLAG = false;
  bb_fits : xCheckItemFits rb = CheckItemFitsByteBuffer;
  bb_copy : vCopyItem rb = CopyItemByteBuf;
  bb_get : pvGetItem rb = GetItemByteBuf;
  bb_ret : vReturnItem rb = ReturnItemByteBuf;
  bb_cur : xGetCurMaxSize rb = GetCurMaxSizeByteBuf }.

(** The abstract state of a byte buffer: [out] bytes outstanding, [data]
    unread. *)
Record bb_repr (rb : Ringbuffer_t) (out : Z) (data : list Z) : Prop := {
  br_buf : byte_buffer rb;
  br_pos : exists f, 0 <= f < xSize rb /\ 0 <= out /\
     out + Z.of_nat (length data) <= xSize rb /\
     pucFree rb = phys rb f /\
     pucRead rb = phys rb (f + out) /\
     pucWrite rb = phys rb (f + out + Z.of_nat (length data)) /\
     pucAcquire rb = pucWrite rb /\
     data = bytes_from rb (f + out) (length data) /\
     rb_flag rb rbBUFFER_FULL_FLAG = (out + Z.of_nat (length data) =? xSize rb);
  br_items : xItemsWaiting rb = Z.of_nat (length data) }.

(** ** Stored bytes *)

Lemma length_bytes_from rb v n : length (bytes_from rb v n) = n.
Proof. unfold bytes_from. by rewrite length_map, length_seq. Qed.

Lemma lookup_bytes_from rb v n i : (i < n)%nat ->
  bytes_from rb v n !! i = Some (byte_at rb (v + Z.of_nat i)).
Proof.
  intros Hi. unfold bytes_from. rewrite list_lookup_fmap, lookup_seq_lt by done. done.
Qed.

Lemma bytes_from_ext rb rb' v v' n :
  (forall i, 0 <= i < Z.of_nat n -> byte_at rb (v + i) = byte_at rb' (v' + i)) ->
  bytes_from rb v n = bytes_from rb' v' n.
Proof.
  intros H. apply map_ext_in. intros i Hi. apply in_seq in Hi. apply H. lia.
Qed.

Lemma bytes_from_app rb v n1 n2 :
  bytes_from rb v (n1 + n2) = bytes_from rb v n1 ++ bytes_from rb (v + Z.of_nat n1) n2.
Proof.
  apply list_eq. intros i. destruct (Nat.lt_ge_cases i n1) as [H1|H1].
  - rewrite lookup_app_l by (by rewrite length_bytes_from). by rewrite !lookup_bytes_from by lia.
  - rewrite lookup_app_r, length_bytes_from by (by rewrite length_bytes_from).
    destruct (Nat.lt_ge_cases i (n1 + n2)) as [H2|H2].
    + rewrite !lookup_bytes_from by lia. do 2 f_equal. lia.
    + by rewrite !lookup_ge_None_2 by (rewrite length_bytes_from; lia).
Qed.

Lemma bytes_from_take rb v n m : (m <= n)%nat -> take m (bytes_from rb v n) = bytes_from rb v m.
Proof.
  intros H. replace n with (m + (n - m))%nat by lia. rewrite bytes_from_app.
  by rewrite take_app_length' by (by rewrite length_bytes_from).
Qed.

Lemma bytes_from_drop rb v n m : (m <= n)%nat ->
  drop m (bytes_from rb v n) = bytes_from rb (v + Z.of_nat m) (n - m).
Proof.
  intros H. replace n with (m + (n - m))%nat at 1 by lia. rewrite bytes_from_app.
  by rewrite drop_app_length' by (by rewrite length_bytes_from).
Qed.

(** ** Sending *)

(** The space check of a byte buffer is exact: [n] bytes (not zero) fit
    when they fit in what is neither unread nor outstanding. *)
Lemma prvCheckItemFitsByteBuffer_exact rb out data n :
  bb_repr rb out data -> 0 < n <= xMaxItemSize rb ->
  prvCheckItemFitsByteBuffer rb n =
    Some (n <=? xSize rb - out - Z.of_nat (length data)).
Proof.
  intros [[Hsz Hmax Htl _ _ _ _ _ _ _] (f & Hf & Ho & Hle & Hfr & Hrd & Hwr & Hac & _ & Hfull) _] Hn.
  rewrite Hmax in Hn. set (len := Z.of_nat (length data)) in *.
  assert (0 <= len) by lia.
  unfold prvCheckItemFitsByteBuffer, acquire_in_bounds. rewrite Hac, Hwr, Hfr, Hfull, Htl.
  pose proof (phys_bounds rb (f + out + len)).
  destruct (Z.leb_spec (pucHead rb) (phys rb (f + out + len))); [|lia].
  destruct (Z.ltb_spec (phys rb (f + out + len)) (pucHead rb + xSize rb)); [|lia]. simpl.
  phys_cases; word_cases; done.
Qed.

(** The memory after copying [n] bytes of [src] to the positions from [w]. *)
Definition copied (rb : Ringbuffer_t) (m' : memory) (w n : Z) (src : list Z) : Prop :=
  (forall i, 0 <= i < n -> m' (phys rb (w + i)) = nth (Z.to_nat i) src 0) /\
  (forall x, (forall i, 0 <= i < n -> x <> phys rb (w + i)) -> m' x = storage rb x).

Lemma store_bytes_hit m a l x :
  a <= x < a + Z.of_nat (length l) -> store_bytes m a l x = nth (Z.to_nat (x - a)) l 0.
Proof. intros. unfold store_bytes. bool_cases; done. Qed.

Lemma store_bytes_miss m a l x :
  x < a \/ a + Z.of_nat (length l) <= x -> store_bytes m a l x = m x.
Proof. intros. unfold store_bytes. bool_cases; done. Qed.

Lemma nth_take {A} (l : list A) n i d : (i < n)%nat -> nth i (take n l) d = nth i l d.
Proof.
  revert n i. induction l as [|x l IH]; intros [|n] [|i] H; simpl; try done; try lia.
  apply IH. lia.
Qed.

Lemma nth_drop {A} (l : list A) n i d : nth i (drop n l) d = nth (n + i) l d.
Proof.
  revert n. induction l as [|x l IH]; intros [|n]; simpl; try done. by destruct i.
Qed.

Lemma copied_straight rb w n src :
  0 < xSize rb -> 0 <= w -> 0 <= n <= Z.of_nat (length src) ->
  phys rb w + n <= pucHead rb + xSize rb -> w < 2 * xSize rb ->
  copied rb (store_bytes (storage rb) (phys rb w) (take (Z.to_nat n) src)) w n src.
Proof.
  intros HS Hw Hn Hfit Hw2.
  assert (Z.of_nat (length (take (Z.to_nat n) src)) = n) as Hlen by (rewrite length_take; lia).
  assert (forall i, 0 <= i < n -> phys rb (w + i) = phys rb w + i) as Hph
    by (intros; phys_cases; lia).
  split.
  - intros i Hi. rewrite Hph, store_bytes_hit, nth_take by lia. f_equal. lia.
  - intros x Hx. apply store_bytes_miss. rewrite Hlen.
    destruct (Z.lt_ge_cases x (phys rb w)); [by left|].
    destruct (Z.le_gt_cases (phys rb w + n) x); [by right|].
    exfalso. apply (Hx (x - phys rb w)); [lia|]. rewrite Hph by lia. lia.
Qed.

Lemma copied_wrapped rb w n src :
  0 < xSize rb -> 0 <= w < xSize rb -> xSize rb - w < n -> n <= Z.of_nat (length src) ->
  n <= xSize rb ->
  copied rb
    (store_bytes
       (store_bytes (storage rb) (phys rb w) (take (Z.to_nat (xSize rb - w)) src))
       (pucHead rb) (take (Z.to_nat (n - (xSize rb - w))) (drop (Z.to_nat (xSize rb - w)) src)))
    w n src.
Proof.
  intros HS Hw Hn Hsrc Hle.
  set (r := xSize rb - w) in *.
  assert (Z.of_nat (length (take (Z.to_nat r) src)) = r) as Hl1 by (rewrite length_take; lia).
  assert (Z.of_nat (length (take (Z.to_nat (n - r)) (drop (Z.to_nat r) src))) = n - r) as Hl2
    by (rewrite length_take, length_drop; lia).
  assert (forall i, 0 <= i < r -> phys rb (w + i) = phys rb w + i) as Hp1
    by (intros; unfold r in *; phys_cases; lia).
  assert (forall i, r <= i < n -> phys rb (w + i) = pucHead rb + (i - r)) as Hp2
    by (intros; unfold r in *; phys_cases; lia).
  assert (phys rb w = pucHead rb + w) as Hpw by (apply phys_lo; lia).
  split.
  - intros i Hi. destruct (Z.lt_ge_cases i r).
    + rewrite Hp1, store_bytes_miss, store_bytes_hit, nth_take by lia. f_equal. lia.
    + rewrite Hp2, store_bytes_hit, nth_take, nth_drop by lia. f_equal. lia.
  - intros x Hx. rewrite !store_bytes_miss; [done| |].
    + rewrite Hl1. destruct (Z.lt_ge_cases x (phys rb w)); [by left|].
      destruct (Z.le_gt_cases (phys rb w + r) x); [by right|].
      exfalso. apply (Hx (x - phys rb w)); [lia|]. rewrite Hp1 by lia. lia.
    + rewrite Hl2. destruct (Z.lt_ge_cases x (pucHead rb)); [by left|].
      destruct (Z.le_gt_cases (pucHead rb + (n - r)) x); [by right|].
      exfalso. apply (Hx (x - pucHead rb + r)); [lia|]. rewrite Hp2 by lia. lia.
Qed.

(** The unread data after a copy. *)
Lemma copied_data rb rb' f w data n src :
  0 < xSize rb -> 0 <= f -> w = f + Z.of_nat (length data) -> w + n <= f + xSize rb -> f < 2 * xSize rb ->
  0 <= n <= Z.of_nat (length src) -> f + Z.of_nat (length data) + n < 2 * xSize rb + 1 ->
  xSize rb' = xSize rb -> pucHead rb' = pucHead rb ->
  copied rb (storage rb') w n src ->
  data = bytes_from rb f (length data) ->
  data ++ take (Z.to_nat n) src = bytes_from rb' f (length (data ++ take (Z.to_nat n) src)).
Proof.
  intros HS Hf -> Hfit Hf2 Hn Hf3 ES EH [C1 C2] Hd.
  rewrite length_app, bytes_from_app. f_equal.
  - rewrite Hd at 1. apply bytes_from_ext. intros i Hi. unfold byte_at.
    assert (phys rb' (f + i) = phys rb (f + i)) as -> by (unfold phys; by rewrite ES, EH).
    rewrite C2; [done|]. intros j Hj. phys_cases; lia.
  - apply list_eq. intros i.
    destruct (Nat.lt_ge_cases i (length (take (Z.to_nat n) src))) as [Hi|Hi].
    + rewrite lookup_bytes_from by done. rewrite length_take in Hi.
      rewrite lookup_take_lt by lia. unfold byte_at.
      assert (phys rb' (f + Z.of_nat (length data) + Z.of_nat i) =
              phys rb (f + Z.of_nat (length data) + Z.of_nat i)) as ->
        by (unfold phys; by rewrite ES, EH).
      rewrite C1 by lia. rewrite Nat2Z.id.
      rewrite nth_lookup. destruct (lookup_lt_is_Some_2 src i) as [y Hy]; [lia|]. by rewrite Hy.
    + by rewrite !lookup_ge_None_2 by (rewrite ?length_bytes_from; lia).
Qed.

Lemma same_object_byte_buffer rb rb' :
  same_object rb rb' ->
  rb_flag rb' rbBYTE_BUFFER_FLAG = rb_flag rb rbBYTE_BUFFER_FLAG ->
  rb_flag rb' rbALLOW_SPLIT_FLAG = rb_flag rb rbALLOW_SPLIT_FLAG ->
  byte_buffer rb -> byte_buffer rb'.
Proof.
  intros (E1 & E2 & E3 & E4 & E5 & E6 & E7 & E8 & E9 & _) F1 F2 [B1 B2 B3 B4 B5 B6 B7 B8 B9 B10].
  split; rewrite ?E1, ?E2, ?E3, ?E4, ?E5, ?E6, ?E7, ?E8, ?E9, ?F1, ?F2; done.
Qed.

(** The tail of [prvCopyItemByteBuf], once the bytes are in. *)
Definition finish_copy (rb : Ringbuffer_t) : Ringbuffer_t :=
  let rb := if pucAcquire rb =? pucTail rb then set_acquire rb (pucHead rb) else rb in
  let rb := mark_full_if_caught_up rb in
  set_write rb (pucAcquire rb).

Lemma finish_copy_spec rb out data rb1 src n :
  bb_repr rb out data -> 0 < n -> n <= Z.of_nat (length src) ->
  out + Z.of_nat (length data) + n <= xSize rb ->
  same_object rb rb1 -> uxRingbufferFlags rb1 = uxRingbufferFlags rb ->
  pucFree rb1 = pucFree rb -> pucRead rb1 = pucRead rb ->
  xItemsWaiting rb1 = Z.of_nat (length data) + n ->
  (forall f, 0 <= f < xSize rb -> pucFree rb = phys rb f ->
     pucWrite rb = phys rb (f + out + Z.of_nat (length data)) ->
     copied rb (storage rb1) (f + out + Z.of_nat (length data)) n src /\
     (pucAcquire rb1 = phys rb (f + out + Z.of_nat (length data) + n) \/
      pucAcquire rb1 = pucTail rb /\
      phys rb (f + out + Z.of_nat (length data) + n) = pucHead rb)) ->
  bb_repr (finish_copy rb1) out (data ++ take (Z.to_nat n) src) /\ same_object rb (finish_copy rb1).
Proof.
  intros [Hbuf (f & Hf & Ho & Hle & Hfr & Hrd & Hwr & Hac & Hdata & Hfull) Hit]
    Hn Hsrc Hspace Hsame Hflags Hf1 Hr1 Hi1 Hcopy.
  pose proof Hbuf as [Hsz Hmax Htl Hbf Hsf _ _ _ _ _].
  destruct (Hcopy f Hf Hfr Hwr) as [Hcp Hacq].
  set (len := Z.of_nat (length data)) in *. assert (0 <= len) by lia.
  set (w := f + out + len) in *.
  set (rb2 := if pucAcquire rb1 =? pucTail rb1 then set_acquire rb1 (pucHead rb1) else rb1).
  assert (same_object rb rb2 /\ uxRingbufferFlags rb2 = uxRingbufferFlags rb /\
          pucFree rb2 = pucFree rb /\ pucRead rb2 = pucRead rb /\
          xItemsWaiting rb2 = len + n /\ storage rb2 = storage rb1)
    as (Hs2 & Hfl2 & Hf2 & Hr2 & Hi2 & Hm2) by (unfold rb2; destruct (pucAcquire rb1 =? pucTail rb1); split_and!; first [exact Hsame | done]).
  assert (pucAcquire rb2 = phys rb (w + n)) as Ha2.
  { destruct Hsame as (_ & _ & EH & ET & _). unfold rb2. rewrite ET.
    pose proof (phys_bounds rb (w + n)).
    destruct Hacq as [Ea|[Ea Hw0]]; rewrite Ea.
    - destruct (Z.eqb_spec (phys rb (w + n)) (pucTail rb)); [lia|]. done.
    - rewrite Z.eqb_refl. simpl. lia. }
  assert (finish_copy rb1 = let r := mark_full_if_caught_up rb2 in set_write r (pucAcquire r)) as Hfin by done.
  clearbody rb2. set (rb3 := mark_full_if_caught_up rb2) in *.
  assert (same_object rb rb3 /\ pucFree rb3 = pucFree rb /\ pucRead rb3 = pucRead rb /\
          pucAcquire rb3 = phys rb (w + n) /\
          xItemsWaiting rb3 = len + n /\ storage rb3 = storage rb1)
    as (Hs3 & Hf3 & Hr3 & Ha3 & Hi3 & Hm3)
    by (unfold rb3, mark_full_if_caught_up; destruct (pucAcquire rb2 =? pucFree rb2); split_and!; first [exact Hs2 | assumption]).
  assert (out + len < xSize rb) as Hnf by lia.
  assert (rb_flag rb rbBUFFER_FULL_FLAG = false) as Hnfull
    by (rewrite Hfull; apply Z.eqb_neq; lia).
  assert (rb_flag rb3 rbBYTE_BUFFER_FLAG = true /\ rb_flag rb3 rbALLOW_SPLIT_FLAG = false /\
          rb_flag rb3 rbBUFFER_FULL_FLAG = (out + (len + n) =? xSize rb)) as (Hb3 & Hp3 & Hu3).
  { unfold rb3, mark_full_if_caught_up. rewrite Ha2, Hf2, Hfr. unfold w.
    unfold rb_flag, rbBYTE_BUFFER_FLAG, rbALLOW_SPLIT_FLAG, rbBUFFER_FULL_FLAG in *.
    destruct (Z.eqb_spec (phys rb (f + out + len + n)) (phys rb f)) as [E|E]; simpl;
      rewrite ?set_flag_same, ?set_flag_other by lia; rewrite Hfl2; split_and!; try done.
    - symmetry. apply Z.eqb_eq. phys_cases; lia.
    - rewrite Hnfull. symmetry. apply Z.eqb_neq. phys_cases; lia. }
  rewrite Hfin. cbv zeta.
  assert (same_object rb (set_write rb3 (pucAcquire rb3))) as Hs4 by done.
  split; [|done]. assert (Z.of_nat (length (data ++ take (Z.to_nat n) src)) = len + n) as Hlen.
  { rewrite length_app, length_take. lia. }
  split.
  - apply (same_object_byte_buffer rb); [done|simpl..|done].
    + change (rb_flag rb3 rbBYTE_BUFFER_FLAG = rb_flag rb rbBYTE_BUFFER_FLAG). congruence.
    + change (rb_flag rb3 rbALLOW_SPLIT_FLAG = rb_flag rb rbALLOW_SPLIT_FLAG). congruence.
  - exists f. rewrite Hlen, !(phys_same rb _ _ Hs4). destruct Hs4 as (ES & _ & EH & _).
    rewrite ES. simpl. rewrite Hf3, Hr3, Ha3. split_and!; try done; try lia.
    + f_equal. lia.
    + apply (copied_data rb _ (f + out) w data n src); try done; try lia.
      simpl. by rewrite Hm3.
  - simpl. lia.
Qed.

Arguments finish_copy : simpl never.

Lemma prvCopyItemByteBuf_unfold rb pucItem xItemSize :
  prvCopyItemByteBuf rb pucItem xItemSize =
    (assert! acquire_in_bounds rb;
     let xRemLen := u32 (pucTail rb - pucAcquire rb) in
     let! (rb, pucItem, xItemSize) :=
       (if xRemLen <? xItemSize then
          let! rb := memcpy_in rb (pucAcquire rb) pucItem xRemLen in
          let rb := set_waiting rb (s32 (xItemsWaiting rb + xRemLen)) in
          Some (set_acquire rb (pucHead rb), drop (Z.to_nat xRemLen) pucItem, u32 (xItemSize - xRemLen))
        else Some (rb, pucItem, xItemSize)) in
     let! rb := memcpy_in rb (pucAcquire rb) pucItem xItemSize in
     let rb := set_waiting rb (s32 (xItemsWaiting rb + xItemSize)) in
     Some (finish_copy (set_acquire rb (pucAcquire rb + xItemSize)))).
Proof. reflexivity. Qed.

(** Copying bytes that fit appends exactly them to the unread data; no
    assertion fails and no other stored byte changes. *)
Lemma prvCopyItemByteBuf_appends rb out data src n :
  bb_repr rb out data -> 0 < n -> n <= Z.of_nat (length src) ->
  out + Z.of_nat (length data) + n <= xSize rb ->
  exists rb', prvCopyItemByteBuf rb src n = Some rb' /\
    bb_repr rb' out (data ++ take (Z.to_nat n) src) /\ same_object rb rb'.
Proof.
  intros Hrepr Hn Hsrc Hspace. pose proof Hrepr as
    [Hbuf (f & Hf & Ho & Hle & Hfr & Hrd & Hwr & Hac & Hdata & Hfull) Hit].
  pose proof Hbuf as [Hsz Hmax Htl Hbf Hsf _ _ _ _ _].
  assert (forall f', 0 <= f' < xSize rb -> pucFree rb = phys rb f' -> f' = f) as Huniq.
  { intros f' Hf' E. rewrite Hfr, !phys_lo in E by lia. lia. }
  set (len := Z.of_nat (length data)) in *. assert (0 <= len) by lia.
  set (w := f + out + len) in *. pose proof (phys_bounds rb w) as Hwb.
  rewrite prvCopyItemByteBuf_unfold. unfold acquire_in_bounds, memcpy_in. rewrite Hac, Hwr.
  destruct (Z.leb_spec (pucHead rb) (phys rb w)); [|lia].
  destruct (Z.ltb_spec (phys rb w) (pucTail rb)); [|lia]. simpl.
  rewrite (u32_small (pucTail rb - phys rb w)) by lia.
  destruct (Z.ltb_spec (pucTail rb - phys rb w) n) as [Hwrap|Hstr].
  - assert (w < xSize rb) as Hws by (destruct (Z.lt_ge_cases w (xSize rb));
      [done|rewrite (phys_hi rb w) in Hwrap by lia; lia]).
    rewrite Htl in *. rewrite !(phys_lo rb w) in * by lia.
    replace (pucHead rb + xSize rb - (pucHead rb + w)) with (xSize rb - w) in * by lia.
    destruct (Z.leb_spec (xSize rb - w) (Z.of_nat (length src))); [|lia]. simpl.
    rewrite (u32_small (n - (xSize rb - w))) by lia.
    destruct (Z.leb_spec (n - (xSize rb - w)) (Z.of_nat (length (drop (Z.to_nat (xSize rb - w)) src))));
      [|rewrite length_drop in *; lia]. simpl.
    eexists. split; [reflexivity|].
    apply finish_copy_spec with (rb := rb); try done; simpl.
    + rewrite Hit. fold len. rewrite !s32_small by (rewrite ?s32_small by lia; lia). lia.
    + intros f' Hf' Hff _. rewrite (Huniq f' Hf' Hff). fold len w.
      split.
      * rewrite <- (phys_lo rb w) by lia. apply copied_wrapped; lia.
      * left. rewrite phys_hi by lia. lia.
  - simpl. destruct (Z.leb_spec n (Z.of_nat (length src))); [|lia]. simpl.
    eexists. split; [reflexivity|].
    apply finish_copy_spec with (rb := rb); try done; simpl.
    + rewrite Hit. fold len. rewrite s32_small by lia. lia.
    + intros f' Hf' Hff _. rewrite (Huniq f' Hf' Hff). fold len w. rewrite Hac, Hwr.
      split; [apply copied_straight; lia|]. phys_cases; lia.
Qed.

(** ** Receiving and returning *)

Lemma load_bytes_from rb v p n :
  0 <= n -> (forall i, 0 <= i < n -> phys rb (v + i) = p + i) ->
  load_bytes (storage rb) p n = bytes_from rb v (Z.to_nat n).
Proof.
  intros Hn H. unfold load_bytes, bytes_from. apply map_ext_in. intros i Hi. apply in_seq in Hi.
  unfold byte_at. rewrite H by lia. done.
Qed.

(** Moving the read pointer over [n] bytes that lie before the tail. *)
Lemma bb_repr_read rb data n rb' :
  bb_repr rb 0 data -> 0 < n <= Z.of_nat (length data) ->
  (forall f, 0 <= f < xSize rb -> pucFree rb = phys rb f -> pucRead rb' = phys rb (f + n)) ->
  rb' = set_read (set_waiting rb (Z.of_nat (length data) - n)) (pucRead rb') ->
  bb_repr rb' n (drop (Z.to_nat n) data).
Proof.
  intros [Hbuf (f & Hf & Ho & Hle & Hfr & Hrd & Hwr & Hac & Hdata & Hfull) Hit] Hn Hread E.
  specialize (Hread f Hf Hfr). rewrite E. clear E. set (r := pucRead rb') in *. clearbody r.
  assert (Z.of_nat (length (drop (Z.to_nat n) data)) = Z.of_nat (length data) - n) as Hlen
    by (rewrite length_drop; lia).
  split; [by apply (same_object_byte_buffer rb)| |simpl; lia].
  exists f. rewrite Hlen. simpl.
  change (phys (set_read (set_waiting rb (Z.of_nat (length data) - n)) r)) with (phys rb).
  split_and!; try done; try lia.
  - rewrite Hwr. f_equal. lia.
  - rewrite Hdata at 1. rewrite bytes_from_drop by lia. rewrite <- length_drop.
    apply bytes_from_ext. intros i Hi. unfold byte_at. simpl.
    change (phys (set_read (set_waiting rb (Z.of_nat (length data) - n)) r)) with (phys rb).
    do 2 f_equal. lia.
  - transitivity (rb_flag rb rbBUFFER_FULL_FLAG); [done|]. rewrite Hfull. f_equal. lia.
Qed.

(** How much a retrieval hands out when [len] bytes are unread from offset [f]
    of a buffer of [size] bytes: what is contiguous, capped by [xMaxSize]. *)
Definition contiguous_len (size f len : Z) : Z := if size <=? f + len then size - f else len.
Definition handed_out (size f len xMaxSize : Z) : Z :=
  let c := contiguous_len size f len in
  if (xMaxSize =? 0) || (c <=? xMaxSize) then c else xMaxSize.

Lemma handed_out_bounds size f len xMaxSize :
  0 <= f < size -> 0 < len <= size -> 0 <= xMaxSize ->
  let n := handed_out size f len xMaxSize in
  0 < n <= len /\ f + n <= size /\ (xMaxSize <> 0 -> n <= xMaxSize) /\
  (n = len \/ n = xMaxSize \/ f + n = size).
Proof.
  intros Hf Hl Hm. unfold handed_out, contiguous_len.
  destruct (Z.leb_spec size (f + len)), (Z.eqb_spec xMaxSize 0); simpl; bool_cases; lia.
Qed.

Lemma bb_repr_at_read (rb : Ringbuffer_t) (data : list Z) :
  bb_repr rb 0 data -> data <> [] ->
  let len := Z.of_nat (length data) in
  exists f, 0 <= f < xSize rb /\ 0 < len <= xSize rb /\
    pucFree rb = pucHead rb + f /\ pucRead rb = pucHead rb + f /\
    items_to_read rb = true /\
    ((pucWrite rb <? pucRead rb) || rb_flag rb rbBUFFER_FULL_FLAG) = (xSize rb <=? f + len) /\
    (f + len < xSize rb -> pucWrite rb = pucHead rb + (f + len)) /\
    (forall n, 0 < n <= len -> f + n <= xSize rb ->
       load_bytes (storage rb) (pucRead rb) n = take (Z.to_nat n) data).
Proof.
  intros [Hbuf (f & Hf & Ho & Hle & Hfr & Hrd & Hwr & Hac & Hdata & Hfull) Hit] Hne len.
  fold len in Hle, Hwr, Hfull, Hit.
  pose proof (bb_size _ Hbuf). assert (0 < len) by (unfold len; destruct data; simpl in *; [done|lia]).
  assert (pucRead rb = pucHead rb + f) as Hrp by (rewrite Hrd, phys_lo by lia; lia).
  exists f. rewrite Hrp. split_and!; try lia.
  - rewrite Hfr. apply phys_lo. lia.
  - unfold items_to_read. rewrite Hit, Hfull, Hrp, Hwr. phys_cases; word_cases; done.
  - rewrite Hwr, Hfull. phys_cases; word_cases; done.
  - intros. rewrite Hwr, phys_lo by lia. lia.
  - intros n Hn Hfit. rewrite (load_bytes_from rb (f + 0)) by (intros; phys_cases; lia).
    rewrite Hdata at 1. by rewrite bytes_from_take by lia.
Qed.

Lemma prvGetItemByteBuf_run (rb : Ringbuffer_t) (data : list Z) (xMaxSize f : Z) :
  let len := Z.of_nat (length data) in
  let n := handed_out (xSize rb) f len xMaxSize in
  byte_buffer rb -> 0 <= f < xSize rb -> 0 < len <= xSize rb -> 0 <= xMaxSize ->
  pucFree rb = pucHead rb + f -> pucRead rb = pucHead rb + f ->
  items_to_read rb = true -> xItemsWaiting rb = len ->
  ((pucWrite rb <? pucRead rb) || rb_flag rb rbBUFFER_FULL_FLAG) = (xSize rb <=? f + len) ->
  (f + len < xSize rb -> pucWrite rb = pucHead rb + (f + len)) ->
  prvGetItemByteBuf rb xMaxSize =
    Some (pucHead rb + f, n, set_read (set_waiting rb (len - n)) (phys rb (f + n))).
Proof.
  intros len n Hbuf Hf Hl Hm Hfr Hrd Hitr Hwait Hwrap Hw. pose proof (bb_size _ Hbuf).
  unfold prvGetItemByteBuf, read_in_bounds. rewrite Hitr, Hwrap, Hfr, Hrd, (bb_tail _ Hbuf), Hwait.
  rewrite Z.eqb_refl.
  destruct (Z.leb_spec (pucHead rb) (pucHead rb + f)); [|lia].
  destruct (Z.ltb_spec (pucHead rb + f) (pucHead rb + xSize rb)); [|lia]. simpl.
  unfold n, handed_out, contiguous_len.
  destruct (Z.leb_spec (xSize rb) (f + len)) as [Hfl|Hfl]; [|rewrite (Hw Hfl)]; word_norm.
  - replace (pucHead rb + xSize rb - (pucHead rb + f)) with (xSize rb - f) by lia.
    destruct ((xMaxSize =? 0) || _) eqn:E; simpl.
    + rewrite phys_hi by lia. do 3 f_equal. lia.
    + apply orb_false_iff in E as [_ E%Z.leb_gt].
      rewrite s32_small, phys_lo by lia. do 3 f_equal. lia.
  - replace (pucHead rb + (f + len) - (pucHead rb + f)) with len by lia.
    destruct ((xMaxSize =? 0) || _) eqn:E; simpl.
    + rewrite phys_lo by lia. done.
    + apply orb_false_iff in E as [_ E%Z.leb_gt].
      rewrite s32_small, phys_lo by lia. do 3 f_equal. lia.
Qed.

(** A retrieval hands out the longest contiguous prefix of the unread bytes
    allowed by [xMaxSize], at its address, and moves it from unread to
    outstanding. *)
Lemma prvGetItemByteBuf_prefix rb data xMaxSize :
  bb_repr rb 0 data -> data <> [] -> is_u32 xMaxSize ->
  exists p n rb', prvGetItemByteBuf rb xMaxSize = Some (p, n, rb') /\
    0 < n <= Z.of_nat (length data) /\
    (xMaxSize <> 0 -> n <= xMaxSize) /\
    (n = Z.of_nat (length data) \/ n = xMaxSize \/ p + n = pucTail rb) /\
    pucHead rb <= p < pucTail rb /\
    load_bytes (storage rb') p n = take (Z.to_nat n) data /\
    bb_repr rb' n (drop (Z.to_nat n) data) /\ same_object rb rb'.
Proof.
  intros Hrepr Hne [Hm _].
  destruct (bb_repr_at_read rb data Hrepr Hne) as (f & Hf & Hl & Hfr & Hrd & Hitr & Hwrap & Hw & Hload).
  pose proof (br_buf _ _ _ Hrepr) as Hbuf. pose proof (bb_tail _ Hbuf).
  destruct (handed_out_bounds (xSize rb) f _ xMaxSize Hf Hl Hm) as (Hn1 & Hn2 & Hn3 & Hn4).
  set (n := handed_out _ _ _ _) in *.
  eexists _, n, _. split.
  { apply (prvGetItemByteBuf_run rb data); try done. apply (br_items _ _ _ Hrepr). }
  split_and!; try done; try lia.
  - simpl. rewrite <- Hrd. by apply Hload.
  - apply (bb_repr_read rb); try done. intros f' Hf' E. rewrite phys_lo in E by lia.
    simpl. f_equal. lia.
Qed.

(** Returning the outstanding bytes frees their space and touches nothing
    else. *)
Lemma prvReturnItemByteBuf_frees rb out data p :
  bb_repr rb out data -> 0 < out -> pucHead rb <= p < pucTail rb ->
  exists rb', prvReturnItemByteBuf rb p = Some rb' /\ bb_repr rb' 0 data /\
    same_object rb rb' /\ storage rb' = storage rb.
Proof.
  intros [Hbuf (f & Hf & Ho & Hle & Hfr & Hrd & Hwr & Hac & Hdata & Hfull) Hit] Hout Hp.
  pose proof (bb_size _ Hbuf). unfold prvReturnItemByteBuf.
  destruct (Z.leb_spec (pucHead rb) p); [|lia]. destruct (Z.ltb_spec p (pucTail rb)); [|lia]. simpl.
  set (rb1 := set_free rb (pucRead rb)).
  set (rb2 := if rb_flag rb1 rbBUFFER_FULL_FLAG then clear_full rb1 else rb1).
  assert (same_object rb rb2 /\ storage rb2 = storage rb /\ pucFree rb2 = pucRead rb /\
    pucRead rb2 = pucRead rb /\ pucWrite rb2 = pucWrite rb /\ pucAcquire rb2 = pucAcquire rb /\
    xItemsWaiting rb2 = xItemsWaiting rb) as (S1 & S2 & S3 & S4 & S5 & S6 & S7)
    by (unfold rb2; destruct (rb_flag rb1 rbBUFFER_FULL_FLAG); done).
  assert (rb_flag rb2 rbBUFFER_FULL_FLAG = false /\
    rb_flag rb2 rbBYTE_BUFFER_FLAG = rb_flag rb rbBYTE_BUFFER_FLAG /\
    rb_flag rb2 rbALLOW_SPLIT_FLAG = rb_flag rb rbALLOW_SPLIT_FLAG) as (F1 & F2 & F3).
  { unfold rb2. destruct (rb_flag rb1 rbBUFFER_FULL_FLAG) eqn:E; [|done].
    unfold rb_flag, clear_full, rbBUFFER_FULL_FLAG, rbBYTE_BUFFER_FLAG, rbALLOW_SPLIT_FLAG. simpl.
    rewrite clear_flag_same, !clear_flag_other by lia. done. }
  clearbody rb2. exists rb2. split_and!; try done.
  split; [by apply (same_object_byte_buffer rb)| |by rewrite S7].
  assert (exists f', 0 <= f' < xSize rb /\ forall v, 0 <= v -> f + out + v < 2 * xSize rb ->
     v <= xSize rb - out -> phys rb (f' + v) = phys rb (f + out + v)) as (f' & Hf' & Hph).
  { exists (if f + out <? xSize rb then f + out else f + out - xSize rb).
    split; [bool_cases; lia|]. intros v ? ? ?. bool_cases; phys_cases; lia. }
  exists f'. pose proof S1 as (ES & _). rewrite ES, !(phys_same rb rb2) by done.
  split_and!; try done; try lia.
  - rewrite S3, Hrd, <- (Z.add_0_r f'), Hph by lia. f_equal. lia.
  - rewrite S4, Hrd, Hph by lia. f_equal. lia.
  - rewrite S5, Hwr. replace (f' + 0 + Z.of_nat (length data)) with
      (f' + Z.of_nat (length data)) by lia. by rewrite Hph by lia.
  - rewrite Hdata at 1. apply bytes_from_ext. intros i Hi. unfold byte_at.
    rewrite S2, (phys_same rb rb2) by done. rewrite <- (Z.add_assoc f'), (Hph (0 + i)) by lia.
    do 2 f_equal.
  - rewrite F1. symmetry. apply Z.eqb_neq. lia.
Qed.

(** ** Availability and the calls a driver makes *)

Lemma prvCheckItemAvail_byte rb out data : bb_repr rb out data ->
  prvCheckItemAvail rb = (out =? 0) && negb (Z.of_nat (length data) =? 0).
Proof.
  intros [Hbuf (f & Hf & Ho & Hle & Hfr & Hrd & Hwr & Hac & Hdata & Hfull) Hit].
  pose proof (bb_size _ Hbuf). unfold prvCheckItemAvail, items_to_read.
  assert (is_no_split rb = false) as ->.
  { pose proof (bb_flag _ Hbuf) as F. unfold rb_flag, has_flag, is_no_split in *.
    apply negb_true_iff, Z.eqb_neq in F. apply Z.eqb_neq. intros E. apply F.
    rewrite Z.land_lor_distr_r in E. by apply Z.lor_eq_0_iff in E as [E _]. }
  rewrite (bb_flag _ Hbuf), Hit, Hfull, Hrd, Hfr, Hwr. simpl.
  phys_cases; word_cases; simpl; try done; lia.
Qed.

(** What the users of a byte buffer do, from interrupt handlers or tasks that
    do not wait: send bytes, receive up to a number of them, return what was
    received. *)
Inductive bb_op := OpSend (l : list Z) | OpReceive (xMaxSize : Z) | OpReturn.

Record bb_users := mkUsers {
  u_rb : Ringbuffer_t;
  u_k : kernel;
  u_item : option Z;         (* the item being held *)
  u_sent : list Z;           (* bytes the buffer accepted, in order *)
  u_received : list Z }.     (* bytes read from the items handed out, in order *)

Definition bb_step (u : bb_users) (op : bb_op) : option bb_users :=
  match op with
  | OpSend l =>
      let! (ok, _, _, rb, k) :=
        xRingbufferSendFromISR (u_rb u) (u_k u) (Some l) (Z.of_nat (length l)) in
      Some (mkUsers rb k (u_item u) (if ok : bool then u_sent u ++ l else u_sent u) (u_received u))
  | OpReceive xMaxSize =>
      let! (r, rb) := xRingbufferReceiveUpToFromISR (u_rb u) xMaxSize in
      Some match r with
           | None => mkUsers rb (u_k u) (u_item u) (u_sent u) (u_received u)
           | Some r => mkUsers rb (u_k u) (Some (rr_item1 r)) (u_sent u)
                         (u_received u ++ load_bytes (storage rb) (rr_item1 r) (rr_size1 r))
           end
  | OpReturn =>
      match u_item u with
      | None => Some u
      | Some p => let! (_, rb, k) := vRingbufferReturnItemFromISR (u_rb u) (u_k u) p in
                  Some (mkUsers rb k None (u_sent u) (u_received u))
      end
  end.

Fixpoint bb_run (u : bb_users) (ops : list bb_op) : option bb_users :=
  match ops with
  | [] => Some u
  | op :: ops => let! u := bb_step u op in bb_run u ops
  end.

(** The invariant of the users' steps. *)
Record bb_inv (size : Z) (u : bb_users) (unread : list Z) : Prop := {
  bi_size : xSize (u_rb u) = size;
  bi_head : 0 < pucHead (u_rb u);
  bi_repr : exists out, bb_repr (u_rb u) out unread /\
    match u_item u with
    | None => out = 0
    | Some p => 0 < out /\ pucHead (u_rb u) <= p < pucTail (u_rb u)
    end;
  bi_stream : u_sent u = u_received u ++ unread }.

Lemma bb_step_send size u unread l :
  bb_inv size u unread -> exists u' unread', bb_step u (OpSend l) = Some u' /\ bb_inv size u' unread'.
Proof.
  intros [HS HH (out & Hrepr & Hit) Hst]. simpl. unfold xRingbufferSendFromISR. simpl.
  pose proof (br_buf _ _ _ Hrepr) as Hb. destruct u as [rb k it sent recv]; simpl in *.
  destruct (Z.ltb_spec (xMaxItemSize rb) (Z.of_nat (length l))) as [|Hmax].
  { eexists _, unread. split; [done|]. split; simpl; eauto. }
  rewrite (bb_flag _ Hb). simpl.
  destruct (Z.eqb_spec (Z.of_nat (length l)) 0) as [E|E].
  { destruct l; [|done]. eexists _, unread. split; [done|]. split; simpl; eauto. by rewrite app_nil_r. }
  unfold run_CheckItemFits, run_CopyItem. rewrite (bb_fits _ Hb), (bb_copy _ Hb).
  rewrite (prvCheckItemFitsByteBuffer_exact rb out unread) by (done || lia).
  destruct (Z.leb_spec (Z.of_nat (length l)) (xSize rb - out - Z.of_nat (length unread))).
  - destruct (prvCopyItemByteBuf_appends rb out unread l (Z.of_nat (length l)) Hrepr)
      as (rb' & Hrun & Hr' & Hs); [lia..|]. simpl. rewrite Hrun.
    destruct (notify_receiver_total rb' k) as [[[q h] k'] ->].
    exists (mkUsers rb' k' it (sent ++ l) recv), (unread ++ l). split; [done|].
    rewrite Nat2Z.id, firstn_all in Hr'. pose proof Hs as (ES & _ & EH & ET & _).
    split; simpl; try congruence.
    + exists out. rewrite EH, ET. done.
    + by rewrite Hst, app_assoc.
  - eexists _, unread. split; [done|]. split; simpl; eauto.
Qed.

Lemma bb_step_receive size u unread n :
  is_u32 n ->
  bb_inv size u unread -> exists u' unread', bb_step u (OpReceive n) = Some u' /\ bb_inv size u' unread'.
Proof.
  intros Hn [HS HH (out & Hrepr & Hit) Hst]. simpl. unfold xRingbufferReceiveUpToFromISR.
  pose proof (br_buf _ _ _ Hrepr) as Hb. destruct u as [rb k it sent recv]; simpl in *.
  rewrite (bb_flag _ Hb). simpl.
  destruct (Z.eqb_spec n 0).
  { eexists _, unread. split; [done|]. split; simpl; eauto. }
  unfold prvReceiveGenericFromISR. rewrite (prvCheckItemAvail_byte _ _ _ Hrepr).
  destruct ((out =? 0) && _) eqn:E.
  - apply andb_true_iff in E as [->%Z.eqb_eq E%negb_true_iff%Z.eqb_neq].
    destruct (prvGetItemByteBuf_prefix rb unread n Hrepr) as
      (p & c & rb' & Hrun & Hc & _ & _ & Hp & Hload & Hr' & Hs); [by destruct unread|done|].
    pose proof Hs as (ES & _ & EH & ET & _). pose proof (br_buf _ _ _ Hr') as Hb'.
    unfold receive_item, run_GetItem. rewrite (bb_flag _ Hb), (bb_get _ Hb), Hrun.
    rewrite (bb_split _ Hb'). simpl.
    eexists _, (drop (Z.to_nat c) unread). split; [done|]. split; simpl; try congruence.
    + exists c. rewrite EH, ET. split; [done|]. lia.
    + by rewrite Hload, <- app_assoc, take_drop.
  - eexists _, unread. split; [done|]. split; simpl; eauto.
Qed.

Lemma bb_step_return size u unread :
  bb_inv size u unread -> exists u' unread', bb_step u OpReturn = Some u' /\ bb_inv size u' unread'.
Proof.
  intros Hinv. pose proof Hinv as [HS HH (out & Hrepr & Hit) Hst]. simpl.
  destruct (u_item u) as [p|]; [|by eauto]. destruct Hit as [Hout Hp].
  destruct (prvReturnItemByteBuf_frees _ _ _ p Hrepr Hout Hp) as (rb' & Hrun & Hr' & Hs & _).
  pose proof (br_buf _ _ _ Hrepr) as Hb. pose proof Hs as (ES & _ & EH & _).
  destruct (vRingbufferReturnItem_run (u_rb u) rb' (u_k u) p) as (b & k' & E);
    [unfold NULL; lia|unfold run_ReturnItem; by rewrite (bb_ret _ Hb)|].
  unfold vRingbufferReturnItemFromISR. rewrite E. eexists _, unread. split; [done|].
  split; simpl; try congruence. eauto.
Qed.

Definition op_ok (op : bb_op) : Prop := match op with OpReceive n => is_u32 n | _ => True end.

Lemma bb_run_inv size ops : forall u unread, Forall op_ok ops -> bb_inv size u unread ->
  exists u' unread', bb_run u ops = Some u' /\ bb_inv size u' unread'.
Proof.
  induction ops as [|op ops IH]; intros u unread Hok Hinv; simpl; [by eauto|].
  inversion Hok as [|? ? Ho Hops]; subst.
  assert (exists u' unread', bb_step u op = Some u' /\ bb_inv size u' unread') as (u1 & un1 & -> & Hi).
  { destruct op; [by eapply bb_step_send|by eapply bb_step_receive|by eapply bb_step_return]. }
  by eapply IH.
Qed.

Lemma created_repr size h s m k :
  0 < size < 2147483648 ->
  bb_repr (fst (prvInitializeNewRingbuffer size RINGBUF_TYPE_BYTEBUF h s m k)) 0 [].
Proof.
  intros Hs. split; [by split| |done]. exists 0. simpl. unfold phys. simpl.
  assert ((0 <? size) = true) as -> by (apply Z.ltb_lt; lia).
  assert (0 + 0 <? size = true) as E by (apply Z.ltb_lt; lia).
  assert (0 =? size = false) as E2 by (apply Z.eqb_neq; lia).
  rewrite ?E, ?E2. split_and!; try done; try lia.
  change (0 + 0 + Z.of_nat 0) with 0. change (0 <? size = true) in E. rewrite E. lia.
Qed.

(** C11: a byte buffer is a faithful byte stream. From a freshly created buffer,
    through any sequence of sends, receives and returns, no assertion fails and
    the bytes accepted are, in order, those received followed by those still
    unread, which the buffer counts. *)
Theorem byte_buffer_stream size h s m k ops :
  0 < size < 2147483648 -> 0 < h -> 0 < s -> Forall op_ok ops ->
  exists rb k0 u unread,
    xRingbufferCreate size RINGBUF_TYPE_BYTEBUF h s m k = Some (Some (rb, k0)) /\
    bb_run (mkUsers rb k0 None [] []) ops = Some u /\
    u_sent u = u_received u ++ unread /\
    xItemsWaiting (u_rb u) = Z.of_nat (length unread) /\ Z.of_nat (length unread) <= size.
Proof.
  intros Hs Hh Hst Hok.
  destruct (prvInitializeNewRingbuffer size RINGBUF_TYPE_BYTEBUF h s m k) as [rb k0] eqn:Ei.
  pose proof (created_repr size h s m k Hs) as Hr. rewrite Ei in Hr. simpl in Hr.
  assert (xSize rb = size /\ pucHead rb = s) as [HS0 HH0] by (injection Ei as <- _; done).
  destruct (bb_run_inv size ops (mkUsers rb k0 None [] []) []) as (u & unread & Hrun & Hinv); [done| |].
  { split; simpl; [done|lia| |done]. exists 0. done. }
  exists rb, k0, u, unread. destruct Hinv as [HS _ (out & [_ (f & ? & ? & ? & _) Hit] & _) Hstr].
  split_and!; try done; [|lia].
  unfold xRingbufferCreate, rounded_size. destruct (Z.ltb_spec 0 size); [|lia].
  destruct (Z.eqb_spec h NULL); [unfold NULL in *; lia|].
  destruct (Z.eqb_spec s NULL); [unfold NULL in *; lia|].
  simpl. by rewrite Ei.
Qed.

(** A send to a byte buffer succeeds exactly when its bytes fit in what is
    neither unread nor outstanding; then it appends them to the unread bytes,
    and otherwise it leaves the buffer as it was. *)
Theorem xRingbufferSendFromISR_byte rb k out unread l :
  bb_repr rb out unread -> l <> [] ->
  exists ok woken notify rb' k',
    xRingbufferSendFromISR rb k (Some l) (Z.of_nat (length l)) = Some (ok, woken, notify, rb', k') /\
    ok = (Z.of_nat (length l) <=? xSize rb - out - Z.of_nat (length unread)) /\
    bb_repr rb' out (if ok then unread ++ l else unread) /\
    (ok = false -> rb' = rb).
Proof.
  intros Hrepr Hne. pose proof (br_buf _ _ _ Hrepr) as Hb.
  pose proof (br_pos _ _ _ Hrepr) as (f & _ & Ho & _).
  unfold xRingbufferSendFromISR. simpl. rewrite (bb_flag _ Hb). simpl.
  destruct (Z.eqb_spec (Z.of_nat (length l)) 0); [by destruct l|].
  destruct (Z.ltb_spec (xMaxItemSize rb) (Z.of_nat (length l))) as [Hmax|Hmax];
    rewrite (bb_max _ Hb) in Hmax.
  { eexists false, _, _, _, _. split; [done|]. split_and!; try done. symmetry. apply Z.leb_gt. lia. }
  unfold run_CheckItemFits, run_CopyItem. rewrite (bb_fits _ Hb), (bb_copy _ Hb).
  rewrite (prvCheckItemFitsByteBuffer_exact rb out unread) by (done || rewrite ?(bb_max _ Hb); lia).
  destruct (Z.leb_spec (Z.of_nat (length l)) (xSize rb - out - Z.of_nat (length unread))).
  - destruct (prvCopyItemByteBuf_appends rb out unread l (Z.of_nat (length l)) Hrepr)
      as (rb' & Hrun & Hr' & _); [lia..|]. simpl. rewrite Hrun.
    destruct (notify_receiver_total rb' k) as [[[q h] k'] ->].
    eexists true, _, _, _, _. split; [done|]. rewrite Nat2Z.id, firstn_all in Hr'. done.
  - eexists false, _, _, _, _. done.
Qed.

(** A receive of up to [xMaxSize] bytes hands out the longest contiguous
    prefix of the unread bytes allowed, and nothing while another item is
    outstanding or nothing is unread. *)
Theorem xRingbufferReceiveUpToFromISR_byte rb out unread xMaxSize :
  bb_repr rb out unread -> 0 < xMaxSize < 4294967296 ->
  (0 < out \/ unread = [] -> xRingbufferReceiveUpToFromISR rb xMaxSize = Some (None, rb)) /\
  (out = 0 -> unread <> [] -> exists p n rb',
     xRingbufferReceiveUpToFromISR rb xMaxSize = Some (Some (mkReceive p n None), rb') /\
     0 < n <= Z.of_nat (length unread) /\ n <= xMaxSize /\
     (n = Z.of_nat (length unread) \/ n = xMaxSize \/ p + n = pucTail rb) /\
     load_bytes (storage rb') p n = take (Z.to_nat n) unread /\
     bb_repr rb' n (drop (Z.to_nat n) unread)).
Proof.
  intros Hrepr Hn. pose proof (br_buf _ _ _ Hrepr) as Hb.
  unfold xRingbufferReceiveUpToFromISR, prvReceiveGenericFromISR. rewrite (bb_flag _ Hb). simpl.
  destruct (Z.eqb_spec xMaxSize 0); [lia|]. rewrite (prvCheckItemAvail_byte _ _ _ Hrepr). split.
  - intros [Ho| ->]; simpl; [|by rewrite andb_false_r].
    destruct (Z.eqb_spec out 0); [lia|]. done.
  - intros -> Hne. destruct (Z.eqb_spec (Z.of_nat (length unread)) 0); [by destruct unread|]. simpl.
    destruct (prvGetItemByteBuf_prefix rb unread xMaxSize Hrepr) as
      (p & c & rb' & Hrun & Hc & Hc2 & Hc3 & Hp & Hload & Hr' & Hs); [done|by split; lia|].
    unfold receive_item, run_GetItem. rewrite (bb_flag _ Hb), (bb_get _ Hb), Hrun.
    rewrite (bb_split _ (br_buf _ _ _ Hr')). simpl.
    exists p, c, rb'. split_and!; try done; lia.
Qed.

(** ** Witnesses: an eight-byte buffer *)

Definition demo_byte_buffer : Ringbuffer_t :=
  fst (prvInitializeNewRingbuffer 8 RINGBUF_TYPE_BYTEBUF 1000 2000 (fun _ => 0) demo_kernel).

(** The same buffer with three bytes stored. *)
Definition demo_after_send : Ringbuffer_t :=
  let rb := set_storage demo_byte_buffer (fun x => nth (Z.to_nat (x - 2000)) [1; 2; 3] 0) in
  set_waiting (set_write (set_acquire rb 2003) 2003) 3.

Lemma demo_after_send_repr : bb_repr demo_after_send 0 [1; 2; 3].
Proof. split; [by split| |done]. exists 0. by vm_compute. Qed.

Lemma byte_buffer_stream_witness :
  exists rb k0 u unread,
    xRingbufferCreate 8 RINGBUF_TYPE_BYTEBUF 1000 2000 (fun _ => 0) demo_kernel = Some (Some (rb, k0)) /\
    bb_run (mkUsers rb k0 None [] []) [OpSend [1; 2; 3]; OpReceive 2; OpReturn; OpSend [4]] = Some u /\
    u_sent u = u_received u ++ unread /\
    xItemsWaiting (u_rb u) = Z.of_nat (length unread) /\ Z.of_nat (length unread) <= 8.
Proof.
  apply (byte_buffer_stream 8 1000 2000 (fun _ => 0) demo_kernel
           [OpSend [1; 2; 3]; OpReceive 2; OpReturn; OpSend [4]]); try lia.
  repeat constructor; simpl; unfold is_u32; lia.
Defined.

Lemma xRingbufferSendFromISR_byte_witness :
  exists ok woken notify rb' k',
    xRingbufferSendFromISR demo_byte_buffer demo_kernel (Some [7; 9]) 2 = Some (ok, woken, notify, rb', k') /\
    ok = (2 <=? xSize demo_byte_buffer - 0 - 0) /\
    bb_repr rb' 0 (if ok then [] ++ [7; 9] else []) /\ (ok = false -> rb' = demo_byte_buffer).
Proof.
  apply (xRingbufferSendFromISR_byte demo_byte_buffer demo_kernel 0 [] [7; 9]); [|done].
  by apply created_repr.
Defined.

Lemma xRingbufferReceiveUpToFromISR_byte_witness :
  let rb := demo_after_send in
  (0 < 0 \/ [1; 2; 3] = [] -> xRingbufferReceiveUpToFromISR rb 2 = Some (None, rb)) /\
  (0 = 0 -> [1; 2; 3] <> [] -> exists p n rb',
     xRingbufferReceiveUpToFromISR rb 2 = Some (Some (mkReceive p n None), rb') /\
     0 < n <= 3 /\ n <= 2 /\
     (n = 3 \/ n = 2 \/ p + n = pucTail rb) /\
     load_bytes (storage rb') p n = take (Z.to_nat n) [1; 2; 3] /\
     bb_repr rb' n (drop (Z.to_nat n) [1; 2; 3])).
Proof.
  intros rb. apply (xRingbufferReceiveUpToFromISR_byte rb 0 [1; 2; 3] 2); [|lia].
  exact demo_after_send_repr.
Defined.
