(* ===== verification/RingbufQueue.v ===== *)
(** * What an item ring buffer promises its users

    [ItemQueue] is the contract of the item buffers (no-split and allow-split)
    of ringbuf.c to users that hold at most one item: a queue of whole items.
    The users' theorem is proved against the contract; RingbufNoSplit.v and
    RingbufAllowSplit.v show that the code meets it. *)

From stdpp Require Import base list option gmap.
From Stdlib Require Import ZArith Lia.
From S2P Require Import Prelude FreeRTOSList Kernel Ringbuf.

(** ** One item, received and returned *)

(** The receive call for the type of the buffer. *)
Definition receive_from_isr (rb : Ringbuffer_t) : option (option receive_result * Ringbuffer_t) :=
  if rb_flag rb rbALLOW_SPLIT_FLAG then xRingbufferReceiveSplitFromISR rb
  else xRingbufferReceiveFromISR rb.

(** The parts of an item: address and length. *)
Definition parts (r : receive_result) : list (Z * Z) :=
  (rr_item1 r, rr_size1 r) :: match rr_item2 r with None => [] | Some p => [p] end.

Definition part_bytes (m : memory) (r : receive_result) : list Z :=
  flat_map (fun p => load_bytes m (fst p) (snd p)) (parts r).

(** The parts of an item are returned one after the other. *)
Fixpoint return_parts (rb : Ringbuffer_t) (k : kernel) (held : list Z) : option (Ringbuffer_t * kernel) :=
  match held with
  | [] => Some (rb, k)
  | p :: held => let! (_, rb, k) := vRingbufferReturnItemFromISR rb k p in return_parts rb k held
  end.

(** [repr rb held items]: the parts [held] are held by a user, [items] are to be
    read, in order. *)
Class ItemQueue (repr : Ringbuffer_t -> list Z -> list (list Z) -> Prop) : Prop := {
  iq_send rb k held items l : repr rb held items ->
    exists ok woken notify rb' k',
      xRingbufferSendFromISR rb k (Some l) (Z.of_nat (length l)) = Some (ok, woken, notify, rb', k') /\
      repr rb' held (if ok then items ++ [l] else items) /\
      (ok = false -> rb' = rb) /\
      (l <> [] -> Z.of_nat (length l) <= xRingbufferGetCurFreeSize rb -> ok = true) /\
      (held = [] -> items = [] -> ok = (Z.of_nat (length l) <=? xRingbufferGetMaxItemSize rb));
  iq_receive rb items : repr rb [] items ->
    match items with
    | [] => receive_from_isr rb = Some (None, rb)
    | l :: items => exists r rb', receive_from_isr rb = Some (Some r, rb') /\
        part_bytes (storage rb') r = l /\ repr rb' (map fst (parts r)) items
    end;
  iq_return rb k held items : repr rb held items ->
    exists rb' k', return_parts rb k held = Some (rb', k') /\ repr rb' [] items }.

(** ** Users that hold at most one item *)

Inductive item_op := SendItem (l : list Z) | ReceiveItem | ReturnItem.

Record item_users := mkItemUsers {
  iu_rb : Ringbuffer_t;
  iu_k : kernel;
  iu_held : list Z;                (* the parts of the item being held *)
  iu_sent : list (list Z);         (* items the buffer accepted, in order *)
  iu_received : list (list Z) }.   (* items handed out, in order *)

Definition item_step (u : item_users) (op : item_op) : option item_users :=
  match op with
  | SendItem l =>
      let! (ok, _, _, rb, k) :=
        xRingbufferSendFromISR (iu_rb u) (iu_k u) (Some l) (Z.of_nat (length l)) in
      Some (mkItemUsers rb k (iu_held u) (if ok : bool then iu_sent u ++ [l] else iu_sent u)
              (iu_received u))
  | ReceiveItem =>
      match iu_held u with
      | _ :: _ => Some u
      | [] => let! (r, rb) := receive_from_isr (iu_rb u) in
              Some match r with
                   | None => mkItemUsers rb (iu_k u) [] (iu_sent u) (iu_received u)
                   | Some r => mkItemUsers rb (iu_k u) (map fst (parts r)) (iu_sent u)
                                 (iu_received u ++ [part_bytes (storage rb) r])
                   end
      end
  | ReturnItem =>
      let! (rb, k) := return_parts (iu_rb u) (iu_k u) (iu_held u) in
      Some (mkItemUsers rb k [] (iu_sent u) (iu_received u))
  end.

Fixpoint item_run (u : item_users) (ops : list item_op) : option item_users :=
  match ops with
  | [] => Some u
  | op :: ops => let! u := item_step u op in item_run u ops
  end.

(** Return what is held, then receive and return [n] items. *)
Definition drain (n : nat) : list item_op :=
  ReturnItem :: concat (repeat [ReceiveItem; ReturnItem] n).

(** What the users of a buffer get from any sequence of operations: it runs
    without a failing assertion; the items accepted are those received and then
    those unread, in order and intact; draining the buffer delivers the unread
    ones, and the buffer then accepts exactly the items of at most the maximum
    size. *)
Definition item_service (rb : Ringbuffer_t) (k : kernel) (ops : list item_op) : Prop :=
  exists u unread,
    item_run (mkItemUsers rb k [] [] []) ops = Some u /\
    iu_sent u = iu_received u ++ unread /\
    exists u', item_run u (drain (length unread)) = Some u' /\
      iu_sent u' = iu_sent u /\ iu_received u' = iu_sent u /\
      forall l, exists u'', item_step u' (SendItem l) = Some u'' /\
        iu_sent u'' = if Z.of_nat (length l) <=? xRingbufferGetMaxItemSize (iu_rb u')
                      then iu_sent u' ++ [l] else iu_sent u'.

Section queue.
Context (repr : Ringbuffer_t -> list Z -> list (list Z) -> Prop) `{!ItemQueue repr}.

Definition users_inv (u : item_users) (unread : list (list Z)) : Prop :=
  repr (iu_rb u) (iu_held u) unread /\ iu_sent u = iu_received u ++ unread.

Lemma item_step_inv u unread op : users_inv u unread ->
  exists u' unread', item_step u op = Some u' /\ users_inv u' unread'.
Proof.
  intros [Hr Hs]. destruct u as [rb k held sent recv]; simpl in *. destruct op as [l| |]; simpl.
  - destruct (iq_send rb k held unread l Hr) as (ok & w & q & rb' & k' & -> & Hr' & _).
    eexists _, _. split; [done|]. split; simpl; [exact Hr'|].
    destruct ok; [|done]. by rewrite Hs, app_assoc.
  - destruct held as [|p held]; [|by exists (mkItemUsers rb k (p :: held) sent recv), unread].
    pose proof (iq_receive rb unread Hr) as H. destruct unread as [|l unread].
    + rewrite H. eexists _, []. done.
    + destruct H as (r & rb' & -> & Hb & Hr'). eexists _, unread. split; [done|].
      split; simpl; [done|]. by rewrite Hb, <- app_assoc.
  - destruct (iq_return rb k held unread Hr) as (rb' & k' & -> & Hr').
    eexists _, unread. done.
Qed.

Lemma item_run_inv ops : forall u unread, users_inv u unread ->
  exists u' unread', item_run u ops = Some u' /\ users_inv u' unread'.
Proof.
  induction ops as [|op ops IH]; intros u unread Hi; simpl; [by eauto|].
  destruct (item_step_inv u unread op Hi) as (u' & unread' & -> & Hi'). by apply (IH u' unread').
Qed.

Lemma item_run_app u ops1 ops2 :
  item_run u (ops1 ++ ops2) = let! u := item_run u ops1 in item_run u ops2.
Proof.
  revert u. induction ops1 as [|op ops1 IH]; intros u; simpl; [done|].
  destruct (item_step u op); [apply IH|done].
Qed.

(** Whatever is unread can be received, and then the buffer takes any item up
    to the maximum size. *)
Lemma drain_inv unread : forall u, users_inv u unread ->
  exists u', item_run u (drain (length unread)) = Some u' /\ users_inv u' [] /\ iu_held u' = [] /\
    iu_sent u' = iu_sent u.
Proof.
  assert (forall u, users_inv u unread -> iu_held u = [] ->
    exists u', item_run u (concat (repeat [ReceiveItem; ReturnItem] (length unread))) = Some u' /\
      users_inv u' [] /\ iu_held u' = [] /\ iu_sent u' = iu_sent u) as H.
  { induction unread as [|l unread IH]; intros u Hi Hh; [by exists u|].
    destruct Hi as [Hr Hs]. destruct u as [rb k held sent recv].
    cbn [iu_rb iu_k iu_held iu_sent iu_received] in *. subst held.
    cbn [length repeat concat app item_run item_step iu_rb iu_k iu_held iu_sent iu_received].
    destruct (iq_receive rb (l :: unread) Hr) as (r & rb1 & E & Hb & Hr1). rewrite E.
    remember (map fst (parts r)) as held eqn:Eh. simpl.
    destruct (iq_return rb1 k _ unread Hr1) as (rb2 & k2 & -> & Hr2). simpl.
    destruct (IH (mkItemUsers rb2 k2 [] sent (recv ++ [part_bytes (storage rb1) r]))) as (u' & ? & ?);
      [|done|by exists u'].
    split; simpl; [done|]. by rewrite Hb, <- app_assoc. }
  intros u [Hr Hs]. unfold drain. simpl.
  destruct (iq_return (iu_rb u) (iu_k u) (iu_held u) unread Hr) as (rb' & k' & -> & Hr'). simpl.
  by apply (H (mkItemUsers rb' k' [] (iu_sent u) (iu_received u))).
Qed.

(** The users' theorem. *)
Lemma item_queue rb k ops : repr rb [] [] -> item_service rb k ops.
Proof.
  intros Hr. destruct (item_run_inv ops (mkItemUsers rb k [] [] []) []) as (u & unread & Hrun & Hi);
    [done|].
  destruct (drain_inv unread u Hi) as (u' & Hd & [Hr' Hs'] & Hh & Hsent).
  exists u, unread. split_and!; [done|apply Hi|]. exists u'. split_and!; try done.
  - rewrite <- Hsent, Hs'. by rewrite app_nil_r.
  - intros l. rewrite Hh in Hr'.
    destruct (iq_send (iu_rb u') (iu_k u') [] [] l Hr') as (ok & w & q & rb' & k' & E & _ & _ & _ & Hok).
    simpl. rewrite E. eexists. split; [done|]. simpl. by rewrite Hok.
Qed.
End queue.
