(* ===== verification/RingbufItems.v ===== *)
(** * The storage of item ring buffers as a chain of blocks

    No-split and allow-split buffers (ringbuf.c) keep items in the storage as
    blocks, each a header and its data, from the free pointer round to the
    acquire pointer.  Positions are counted from the head over two laps, as in
    [phys].  A chain is first described ([chain]), then the buffer by its two
    chains ([item_repr]): the blocks handed out and not yet freed, and the
    blocks still to be read. *)

From stdpp Require Import base list option gmap.
From Stdlib Require Import ZArith Lia.
From S2P Require Import Prelude FreeRTOSList Kernel Ringbuf.

(** ** Sizes and positions *)

Definition aligned (n : Z) : Z := (n + 3) / 4 * 4.

(** A block starts aligned, with room for a header before the tail. *)
Definition pos_ok (size v : Z) : Prop :=
  0 <= v /\ v mod 4 = 0 /\ (v <= size - rbHEADER_SIZE \/ size <= v <= 2 * size - rbHEADER_SIZE).

(** Where the block after an item of [n] bytes at [v] starts: bytes too few for
    a header before the tail belong to the item. *)
Definition item_end (size v n : Z) : Z :=
  let e := v + rbHEADER_SIZE + aligned n in
  if (v <? size) && (size - e <? rbHEADER_SIZE) then size else e.

Record item_buffer (rb : Ringbuffer_t) : Prop := {
  ib_size : 16 <= xSize rb < 2147483648;
  ib_size4 : xSize rb mod 4 = 0;
  ib_head : 0 < pucHead rb;
  ib_head4 : pucHead rb mod 4 = 0;
  ib_tail : pucTail rb = pucHead rb + xSize rb;
  ib_tail32 : pucTail rb < 4294967296;
  ib_max : 0 <= xMaxItemSize rb <= xSize rb - 16;
  ib_byte : rb_flag rb rbBYTE_BUFFER_FLAG = false;
  ib_fits : xCheckItemFits rb = CheckItemFitsDefault;
  ib_get : pvGetItem rb = GetItemDefault;
  ib_ret : vReturnItem rb = ReturnItemDefault }.

Lemma aligned_bounds n : n <= aligned n <= n + 3 /\ aligned n mod 4 = 0.
Proof. unfold aligned. split; [word_lia|]. by rewrite Z.mod_mul. Qed.

Lemma rbALIGN_SIZE_aligned n : 0 <= n < 2147483648 -> rbALIGN_SIZE n = aligned n.
Proof.
  intros H. unfold rbALIGN_SIZE, rbALIGN_MASK. rewrite u32_small by lia.
  change 3 with (2 ^ 2 - 1) at 2. rewrite land_round_down by (unfold is_u32; lia).
  unfold aligned. change (2 ^ 2) with 4. pose proof (Z.div_mod (n + 3) 4). lia.
Qed.

Lemma rbCHECK_ALIGNED_true p : 0 <= p < 4294967296 -> p mod 4 = 0 -> rbCHECK_ALIGNED p = true.
Proof.
  intros Hp H. unfold rbCHECK_ALIGNED, rbALIGN_MASK. rewrite u32_small by done.
  change 3 with (Z.ones 2). rewrite Z.land_ones by lia. change (2 ^ 2) with 4. rewrite H. done.
Qed.

(** Facts about positions for [lia]. *)
Ltac pos_facts :=
  repeat match goal with
  | H : item_buffer ?rb |- _ =>
      lazymatch goal with
      | _ : 16 <= xSize rb < 2147483648 |- _ => fail
      | _ => pose proof (ib_size _ H); pose proof (ib_size4 _ H); pose proof (ib_head _ H);
             pose proof (ib_head4 _ H); pose proof (ib_tail _ H); pose proof (ib_tail32 _ H);
             pose proof (ib_max _ H)
      end
  | H : pos_ok _ ?v |- _ => destruct H as (? & ? & ?)
  | |- context [aligned ?n] =>
      lazymatch goal with
      | _ : n <= aligned n <= n + 3 |- _ => fail
      | _ => destruct (aligned_bounds n)
      end
  | _ : context [aligned ?n] |- _ =>
      lazymatch goal with
      | _ : n <= aligned n <= n + 3 |- _ => fail
      | _ => destruct (aligned_bounds n)
      end
  end; unfold rbHEADER_SIZE in *.

Lemma phys_aligned rb v : item_buffer rb -> pos_ok (xSize rb) v ->
  rbCHECK_ALIGNED (phys rb v) = true /\ pucHead rb <= phys rb v <= pucTail rb - 8.
Proof.
  intros Hb Hv. pos_facts. split; [|phys_cases; lia].
  apply rbCHECK_ALIGNED_true; phys_cases; Z.div_mod_to_equations; lia.
Qed.

Lemma phys_inj rb v w : 0 <= v < 2 * xSize rb -> 0 <= w < 2 * xSize rb ->
  -xSize rb < v - w < xSize rb -> phys rb v = phys rb w -> v = w.
Proof. intros. phys_cases; lia. Qed.

(** The pointer arithmetic that steps over an item: add, then wrap if short. *)
Lemma wrap_phys rb rb' v n :
  item_buffer rb -> pos_ok (xSize rb) v -> 0 <= n ->
  v + 8 + aligned n <= (if v <? xSize rb then xSize rb else 2 * xSize rb - 8) ->
  pucHead rb' = pucHead rb -> pucTail rb' = pucTail rb ->
  wrap_if_short rb' (phys rb v + (8 + aligned n)) = phys rb (item_end (xSize rb) v n).
Proof.
  intros Hb Hv Hn Hfit EH ET. unfold wrap_if_short, item_end. rewrite EH, ET. pos_facts.
  destruct (Z.ltb_spec v (xSize rb)); simpl; rewrite (ib_tail _ Hb).
  - rewrite phys_lo by lia. rewrite u32_small by lia.
    replace (pucHead rb + xSize rb - (pucHead rb + v + (8 + aligned n)))
      with (xSize rb - (v + 8 + aligned n)) by lia.
    destruct (Z.ltb_spec (xSize rb - (v + 8 + aligned n)) 8).
    + rewrite phys_hi by lia. lia.
    + rewrite phys_lo by lia. lia.
  - rewrite !phys_hi by lia. rewrite u32_small by lia. bool_cases; lia.
Qed.

Lemma item_end_ok rb v n :
  item_buffer rb -> pos_ok (xSize rb) v -> 0 <= n ->
  v + 8 + aligned n <= (if v <? xSize rb then xSize rb else 2 * xSize rb - 8) ->
  pos_ok (xSize rb) (item_end (xSize rb) v n) /\ v + 8 <= item_end (xSize rb) v n.
Proof.
  intros Hb Hv Hn Hfit. unfold item_end, pos_ok. pos_facts.
  destruct (Z.ltb_spec v (xSize rb)); simpl; bool_cases; split_and!; try lia;
    Z.div_mod_to_equations; lia.
Qed.

(** ** Blocks *)

Record block := mkBlock { b_flags : Z; b_data : list Z }.

Definition is_dummy (b : block) : bool := has_flag (b_flags b) rbITEM_DUMMY_DATA_FLAG.
Definition block_len (b : block) : Z := Z.of_nat (length (b_data b)).
Definition block_end (size v : Z) (b : block) : Z :=
  if is_dummy b then size else item_end size v (block_len b).

(** The block is in the storage at position [v].  A dummy block and the first
    part of a split item run to the tail. *)
Record block_at (rb : Ringbuffer_t) (v : Z) (b : block) : Prop := {
  ba_pos : pos_ok (xSize rb) v;
  ba_len : item_len rb (phys rb v) = block_len b;
  ba_flags : item_flags rb (phys rb v) = b_flags b;
  ba_split : has_flag (b_flags b) rbITEM_SPLIT_FLAG = true ->
             v + rbHEADER_SIZE + aligned (block_len b) = xSize rb;
  ba_kind : if is_dummy b then v < xSize rb /\ b_data b = []
            else block_len b <= xMaxItemSize rb /\
              v + 8 + aligned (block_len b) <=
                (if v <? xSize rb then xSize rb else 2 * xSize rb - 8) /\
              load_bytes (storage rb) (phys rb v + 8) (block_len b) = b_data b }.

Fixpoint chain (rb : Ringbuffer_t) (v : Z) (bs : list block) (v' : Z) : Prop :=
  match bs with
  | [] => v = v'
  | b :: bs => block_at rb v b /\ chain rb (block_end (xSize rb) v b) bs v'
  end.

(** [m] differs from the storage only at the positions [[lo, hi)]. *)
Definition only_within (rb : Ringbuffer_t) (m : memory) (lo hi : Z) : Prop :=
  forall x, (forall w, lo <= w < hi -> x <> phys rb w) -> m x = storage rb x.

Lemma block_len_nonneg b : 0 <= block_len b.
Proof. unfold block_len. lia. Qed.

Lemma block_end_bounds rb v b : item_buffer rb -> block_at rb v b ->
  v + 8 <= block_end (xSize rb) v b /\ pos_ok (xSize rb) (block_end (xSize rb) v b) /\
  (is_dummy b = false -> v + 8 + aligned (block_len b) <= block_end (xSize rb) v b).
Proof.
  intros Hb [Hp _ _ _ Hk]. unfold block_end. pose proof (block_len_nonneg b).
  destruct (is_dummy b).
  - pos_facts. split_and!; try done; try lia. unfold pos_ok, rbHEADER_SIZE. lia.
  - destruct Hk as (_ & Hfit & _).
    destruct (item_end_ok rb v (block_len b) Hb Hp) as [H1 H2]; [lia|done|].
    split_and!; try done. intros _. unfold item_end. pos_facts.
    destruct (v <? xSize rb); simpl in *; bool_cases; lia.
Qed.

Lemma chain_le rb bs : forall v v', item_buffer rb -> chain rb v bs v' ->
  v + 8 * Z.of_nat (length bs) <= v'.
Proof.
  induction bs as [|b bs IH]; intros v v' Hb; simpl; [lia|]. intros [Hblk Hch].
  apply IH in Hch; [|done]. destruct (block_end_bounds rb v b Hb Hblk). lia.
Qed.

Lemma chain_app rb bs1 bs2 : forall v v',
  chain rb v (bs1 ++ bs2) v' <-> exists u, chain rb v bs1 u /\ chain rb u bs2 v'.
Proof.
  induction bs1 as [|b bs1 IH]; intros v v'; simpl.
  - split; [by eauto|]. by intros (u & -> & ?).
  - rewrite IH. split; [intros (? & u & ? & ?)|intros (u & (? & ?) & ?)]; eauto.
Qed.

(** A block is not affected by changes outside it. *)
Lemma block_at_frame rb rb' v b : item_buffer rb -> same_object rb rb' ->
  (forall w, v <= w < block_end (xSize rb) v b -> storage rb' (phys rb w) = storage rb (phys rb w)) ->
  block_at rb v b -> block_at rb' v b.
Proof.
  intros Hb Hs Hm Hblk. pose proof (block_end_bounds rb v b Hb Hblk) as (He & Hpe & Hde).
  destruct Hblk as [Hp Hl Hf Hsp Hk].
  assert (forall n, 0 <= n -> v + n <= block_end (xSize rb) v b ->
    agree (storage rb) (storage rb') (phys rb v) (phys rb v + n)) as Hag.
  { intros n Hn Hle x Hx. symmetry. pos_facts.
    assert (x = phys rb (v + (x - phys rb v))) as ->.
    { unfold block_end, item_end in Hle. destruct (is_dummy b).
      - phys_cases; lia.
      - destruct Hk as (_ & Hfit & _). revert Hle Hfit. bool_cases; simpl; bool_cases; phys_cases; lia. }
    apply Hm. lia. }
  pose proof Hs as (ES & EM & EH & ET & _).
  split; rewrite ?ES, ?EM, ?(phys_same rb rb') by done; try done.
  - rewrite <- Hl. unfold item_len. apply load32_agree, Hag; lia.
  - rewrite <- Hf. unfold item_flags. apply load32_agree.
    eapply agree_sub; [apply (Hag 8); lia|lia..].
  - destruct (is_dummy b) eqn:E; [done|]. destruct Hk as (H1 & H2 & H3).
    split_and!; try done. rewrite <- H3. apply load_bytes_agree.
    pos_facts. eapply agree_sub; [apply (Hag (8 + block_len b)); [unfold block_len; lia|lia]|lia..].
Qed.

Lemma chain_frame rb rb' bs : forall v v', item_buffer rb -> same_object rb rb' ->
  (forall w, v <= w < v' -> storage rb' (phys rb w) = storage rb (phys rb w)) ->
  chain rb v bs v' -> chain rb' v bs v'.
Proof.
  induction bs as [|b bs IH]; intros v v' Hb Hs Hm; simpl; [done|]. intros [Hblk Hch].
  pose proof (chain_le _ _ _ _ Hb Hch). destruct (block_end_bounds rb v b Hb Hblk) as [He _].
  pose proof Hs as (ES & _). rewrite ES. split.
  - apply (block_at_frame rb); try done. intros w Hw. apply Hm. lia.
  - apply IH; try done. intros w Hw. apply Hm. lia.
Qed.

(** In particular a chain survives changes to other positions of its lap. *)
Lemma chain_elsewhere rb rb' v bs v' lo hi : item_buffer rb -> same_object rb rb' ->
  only_within rb (storage rb') lo hi -> 0 <= v -> 0 <= lo -> v' <= 2 * xSize rb -> hi <= 2 * xSize rb ->
  v' <= lo /\ hi <= v + xSize rb \/ hi <= v /\ v' <= lo + xSize rb ->
  chain rb v bs v' -> chain rb' v bs v'.
Proof.
  intros Hb Hs Hw Hv Hlo Hv2 Hhi Hd. apply chain_frame; [done..|].
  intros w Hwr. apply Hw. intros w' Hw' E. pos_facts.
  apply phys_inj in E; lia.
Qed.

(** Going round: positions of the second lap may be counted from the first. *)
Lemma chain_shift rb bs : forall v v', item_buffer rb -> xSize rb <= v -> v' <= 2 * xSize rb - 8 ->
  chain rb v bs v' -> chain rb (v - xSize rb) bs (v' - xSize rb).
Proof.
  induction bs as [|b bs IH]; intros v v' Hb Hv Hv'; simpl; [lia|]. intros [Hblk Hch].
  pose proof (chain_le _ _ _ _ Hb Hch). destruct (block_end_bounds rb v b Hb Hblk) as (He & Hp & Hde).
  destruct Hblk as [Hpos Hl Hf Hsp Hk].
  assert (phys rb (v - xSize rb) = phys rb v) as Eph by (pos_facts; phys_cases; lia).
  destruct (is_dummy b) eqn:Ed; [lia|]. specialize (Hde eq_refl). pos_facts.
  assert (block_end (xSize rb) (v - xSize rb) b = block_end (xSize rb) v b - xSize rb) as Eend.
  { unfold block_end, item_end in *. rewrite Ed in *. revert Hde H. unfold rbHEADER_SIZE in *.
    bool_cases; simpl; bool_cases; lia. }
  split.
  - destruct Hk as (Hk1 & Hk2 & Hk3).
    split; rewrite ?Eph, ?Ed; try done.
    + unfold pos_ok, rbHEADER_SIZE in *. split_and!; try lia. Z.div_mod_to_equations; lia.
    + intros Hflag. specialize (Hsp Hflag). pose proof (block_len_nonneg b). lia.
    + split_and!; try done. revert Hk2 Hde. bool_cases; lia.
  - rewrite Eend. apply IH; done || lia.
Qed.

(** ** The buffer as two chains

    The blocks [outs] from position [f] to [r] are handed out and not freed, the
    blocks [bs] from [r] to [a] are to be read. *)

Definition items_in (bs : list block) : Z :=
  Z.of_nat (length (filter (fun b => is_dummy b = false) bs)).

Record item_repr (rb : Ringbuffer_t) (f r a : Z) (outs bs : list block) : Prop := {
  ir_buf : item_buffer rb;
  ir_f : f < xSize rb;
  ir_fpos : pos_ok (xSize rb) f;
  ir_apos : pos_ok (xSize rb) a;
  ir_lap : a <= f + xSize rb;
  ir_outs : chain rb f outs r;
  ir_bs : chain rb r bs a;
  ir_free : pucFree rb = phys rb f;
  ir_read : pucRead rb = phys rb r;
  ir_write : pucWrite rb = phys rb a;
  ir_acquire : pucAcquire rb = phys rb a;
  ir_full : rb_flag rb rbBUFFER_FULL_FLAG = (a =? f + xSize rb);
  ir_items : xItemsWaiting rb = items_in bs }.

Lemma chain_pos rb bs : forall v v', item_buffer rb -> pos_ok (xSize rb) v -> chain rb v bs v' ->
  pos_ok (xSize rb) v'.
Proof.
  induction bs as [|b bs IH]; intros v v' Hb Hp; simpl; [by intros <-|]. intros [Hblk Hch].
  destruct (block_end_bounds rb v b Hb Hblk) as (_ & Hp' & _). by apply (IH _ _ Hb Hp').
Qed.

Lemma items_in_app bs1 bs2 : items_in (bs1 ++ bs2) = items_in bs1 + items_in bs2.
Proof. unfold items_in. rewrite filter_app, length_app. lia. Qed.

Lemma items_in_cons b bs : items_in (b :: bs) = (if is_dummy b then 0 else 1) + items_in bs.
Proof.
  unfold items_in. rewrite filter_cons. destruct (is_dummy b) eqn:E; simpl; [|lia].
  destruct (decide (true = false)); done.
Qed.

Lemma items_in_bounds bs : 0 <= items_in bs <= Z.of_nat (length bs).
Proof. induction bs as [|b bs IH]; [done|]. rewrite items_in_cons. simpl. destruct (is_dummy b); lia. Qed.

Lemma item_repr_order rb f r a outs bs : item_repr rb f r a outs bs ->
  f + 8 * Z.of_nat (length outs) <= r /\ r + 8 * Z.of_nat (length bs) <= a /\ pos_ok (xSize rb) r.
Proof.
  intros [Hb _ Hf _ _ Ho Hbs _ _ _ _ _ _].
  split_and!; [by eapply chain_le|by eapply chain_le|by eapply chain_pos].
Qed.

(** Something is to be read exactly when an item is waiting. *)
Lemma items_to_read_exact rb f r a outs bs : item_repr rb f r a outs bs ->
  items_to_read rb = (0 <? items_in bs).
Proof.
  intros Hr. destruct (item_repr_order _ _ _ _ _ _ Hr) as (H1 & H2 & H3).
  destruct Hr as [Hb Hfs Hf Ha Hlap _ _ _ Er Ew _ Ef Ei].
  unfold items_to_read. rewrite Ei, Er, Ew, Ef. pose proof (items_in_bounds bs).
  destruct (Z.ltb_spec 0 (items_in bs)); [|done]. simpl. pos_facts.
  destruct (Z.eqb_spec (phys rb r) (phys rb a)) as [E|]; [|done]. simpl.
  apply Z.eqb_eq. phys_cases; lia.
Qed.

(** ** The space check *)

Definition total_size (n : Z) : Z := rbHEADER_SIZE + aligned n.

Definition room (split : bool) (size f a n : Z) : bool :=
  if a =? f then true
  else if a <? size then
    (total_size n <=? size - a) ||
    (if split then total_size n + rbHEADER_SIZE <=? size - (a - f) else total_size n <=? f)
  else total_size n <=? f + size - a.

Lemma prvCheckItemFitsDefault_exact rb f r a outs bs n :
  item_repr rb f r a outs bs -> 0 <= n <= xMaxItemSize rb ->
  prvCheckItemFitsDefault rb n = Some (room (rb_flag rb rbALLOW_SPLIT_FLAG) (xSize rb) f a n).
Proof.
  intros Hr Hn. destruct (item_repr_order _ _ _ _ _ _ Hr) as (H1 & H2 & H3).
  destruct Hr as [Hb Hfs Hf Ha Hlap _ _ Efr _ _ Eac Ef _].
  destruct (phys_aligned rb a Hb Ha) as [Hal Hbd].
  unfold prvCheckItemFitsDefault, acquire_in_bounds, room, total_size. rewrite Eac, Efr, Ef, Hal. pos_facts.
  destruct (Z.leb_spec (pucHead rb) (phys rb a)); [|lia].
  destruct (Z.ltb_spec (phys rb a) (pucTail rb)); [|lia]. simpl.
  rewrite rbALIGN_SIZE_aligned by lia. rewrite !u32_small by (unfold rbHEADER_SIZE; lia).
  rewrite (Z.add_comm (aligned n)). unfold rbHEADER_SIZE. rewrite (ib_tail _ Hb).
  destruct (rb_flag rb rbALLOW_SPLIT_FLAG).
  all: phys_cases; bool_cases; simpl; word_cases; try done.
Qed.

(** ** Writing blocks *)

Lemma only_within_refl rb lo hi : only_within rb (storage rb) lo hi.
Proof. done. Qed.

Lemma only_within_trans rb rb' m lo hi : same_object rb rb' ->
  only_within rb (storage rb') lo hi -> only_within rb' m lo hi -> only_within rb m lo hi.
Proof.
  intros Hs H1 H2 x Hx. rewrite H2; [by apply H1|]. intros w Hw. rewrite (phys_same rb rb') by done.
  by apply Hx.
Qed.

Lemma only_within_sub rb m lo hi lo' hi' : only_within rb m lo hi -> lo' <= lo -> hi <= hi' ->
  only_within rb m lo' hi'.
Proof. intros H ? ? x Hx. apply H. intros w Hw. apply Hx. lia. Qed.

Lemma only_within_store rb m lo hi v i l : only_within rb m lo hi ->
  lo <= v -> 0 <= i -> v + i + Z.of_nat (length l) <= hi ->
  (v < xSize rb -> v + i + Z.of_nat (length l) <= xSize rb) ->
  only_within rb (store_bytes m (phys rb v + i) l) lo hi.
Proof.
  intros Hm Hlo Hi Hhi Hc x Hx. unfold store_bytes.
  destruct (Z.leb_spec (phys rb v + i) x) as [H1|H1]; simpl; [|by apply Hm].
  destruct (Z.ltb_spec x (phys rb v + i + Z.of_nat (length l))) as [H2|H2]; [|by apply Hm].
  exfalso. apply (Hx (v + (x - phys rb v))); [lia|]. phys_cases; lia.
Qed.

Lemma only_within_store32 rb m lo hi v i x : only_within rb m lo hi ->
  lo <= v -> 0 <= i -> v + i + 4 <= hi -> (v < xSize rb -> v + i + 4 <= xSize rb) ->
  only_within rb (store32 m (phys rb v + i) x) lo hi.
Proof. intros. unfold store32. apply only_within_store; simpl length; try done; lia. Qed.

Lemma only_within_store32_0 rb m lo hi v x : only_within rb m lo hi ->
  lo <= v -> v + 4 <= hi -> (v < xSize rb -> v + 4 <= xSize rb) ->
  only_within rb (store32 m (phys rb v) x) lo hi.
Proof.
  intros. rewrite <- (Z.add_0_r (phys rb v)). apply only_within_store32; try done; lia.
Qed.

Lemma mark_full_flags rb : mark_full_if_caught_up rb =
  set_flags rb (if pucAcquire rb =? pucFree rb then set_flag (uxRingbufferFlags rb) rbBUFFER_FULL_FLAG
                else uxRingbufferFlags rb).
Proof. unfold mark_full_if_caught_up. destruct (_ =? _); [done|]. by destruct rb. Qed.

(** A buffer after blocks were written up to position [a]. *)
Definition sent (rb : Ringbuffer_t) (m : memory) (a : Z) (items : Z) : Ringbuffer_t :=
  set_waiting (set_write (set_acquire (set_flags (set_storage rb m)
    (if phys rb a =? pucFree rb then set_flag (uxRingbufferFlags rb) rbBUFFER_FULL_FLAG
     else uxRingbufferFlags rb)) (phys rb a)) (phys rb a)) items.

Lemma item_buffer_same rb rb' : same_object rb rb' ->
  rb_flag rb' rbBYTE_BUFFER_FLAG = rb_flag rb rbBYTE_BUFFER_FLAG -> item_buffer rb -> item_buffer rb'.
Proof.
  intros (E1 & E2 & E3 & E4 & E5 & E6 & E7 & E8 & E9 & _) F [B1 B2 B3 B4 B5 B6 B7 B8 B9 B10 B11].
  split; rewrite ?E1, ?E2, ?E3, ?E4, ?E5, ?E6, ?E7, ?E8, ?E9, ?F; done.
Qed.

Lemma flags_after_mark rb (b : bool) :
  let fl := if b then set_flag (uxRingbufferFlags rb) rbBUFFER_FULL_FLAG else uxRingbufferFlags rb in
  has_flag fl rbBYTE_BUFFER_FLAG = rb_flag rb rbBYTE_BUFFER_FLAG /\
  has_flag fl rbALLOW_SPLIT_FLAG = rb_flag rb rbALLOW_SPLIT_FLAG /\
  has_flag fl rbBUFFER_FULL_FLAG = b || rb_flag rb rbBUFFER_FULL_FLAG.
Proof.
  unfold rb_flag, rbBYTE_BUFFER_FLAG, rbALLOW_SPLIT_FLAG, rbBUFFER_FULL_FLAG. destruct b; simpl; [|done].
  by rewrite !set_flag_other, set_flag_same by lia.
Qed.

Lemma item_repr_sent rb f r a outs bs m a' new :
  item_repr rb f r a outs bs -> a < a' <= f + xSize rb -> pos_ok (xSize rb) a' ->
  only_within rb m a a' ->
  chain (set_storage rb m) a new a' ->
  let rb' := sent rb m a' (items_in bs + items_in new) in
  item_repr rb' f r a' outs (bs ++ new) /\ same_object rb rb' /\
  rb_flag rb' rbALLOW_SPLIT_FLAG = rb_flag rb rbALLOW_SPLIT_FLAG.
Proof.
  intros Hr Ha' Hp' Hm Hnew rb'. destruct (item_repr_order _ _ _ _ _ _ Hr) as (H1 & H2 & H3).
  destruct Hr as [Hb Hfs Hf Ha Hlap Ho Hbs Efr Er Ew Ea Ef Ei].
  assert (same_object rb rb') as Hs by done.
  destruct (flags_after_mark rb (phys rb a' =? pucFree rb)) as (Fb & Fs & Fu).
  assert (item_buffer rb') as Hb' by (by apply (item_buffer_same rb)).
  split_and!; [|done..].
  split; try done.
  - change (a' <= f + xSize rb). lia.
  - apply (chain_elsewhere rb _ _ _ _ a a'); try done; pos_facts; lia.
  - apply chain_app. exists a. split.
    + apply (chain_elsewhere rb _ _ _ _ a a'); try done; pos_facts; lia.
    + apply (chain_frame (set_storage rb m)); try done. by apply (item_buffer_same rb).
  - unfold rb'. change (has_flag (if phys rb a' =? pucFree rb then
      set_flag (uxRingbufferFlags rb) rbBUFFER_FULL_FLAG else uxRingbufferFlags rb) rbBUFFER_FULL_FLAG =
      (a' =? f + xSize rb)). rewrite Fu, Ef, Efr. pos_facts.
    destruct (Z.eqb_spec a (f + xSize rb)); [lia|]. rewrite orb_false_r.
    destruct (Z.eqb_spec (phys rb a') (phys rb f)) as [E|E].
    + symmetry. apply Z.eqb_eq. phys_cases; lia.
    + symmetry. apply Z.eqb_neq. intros ->. apply E. phys_cases; lia.
  - rewrite items_in_app. done.
Qed.

(** ** Retrieving *)

Definition received (rb : Ringbuffer_t) (v items : Z) : Ringbuffer_t :=
  set_read (set_waiting rb items) (phys rb v).

Lemma item_repr_received rb f r a outs new bs v :
  item_repr rb f r a outs (new ++ bs) -> chain rb r new v ->
  item_repr (received rb v (items_in bs)) f v a (outs ++ new) bs.
Proof.
  intros [Hb Hfs Hf Ha Hlap Ho Hbs Efr Er Ew Ea Ef Ei] Hv.
  set (rb' := received rb v (items_in bs)). assert (same_object rb rb') as Hs by done.
  assert (item_buffer rb') as Hb' by (by apply (item_buffer_same rb)).
  apply chain_app in Hbs as (u & Hu & Hbs).
  assert (u = v) as ->.
  { clear -Hu Hv. revert r Hu Hv. induction new as [|b new IH]; intros r; simpl; [by intros <- <-|].
    intros [_ Hu] [_ Hv]. by eapply IH. }
  split; try done.
  - apply chain_app. exists r. split; by apply (chain_frame rb).
  - by apply (chain_frame rb).
Qed.

(** What [prvGetItemDefault] does at the header of an item. *)
Lemma get_item_asserts rb v b : item_buffer rb -> block_at rb v b -> is_dummy b = false ->
  (item_len rb (phys rb v) <=? xMaxItemSize rb) = true /\
  (if item_len rb (phys rb v) =? 0
   then (pucHead rb <=? phys rb v + rbHEADER_SIZE) && (phys rb v + rbHEADER_SIZE <=? pucTail rb)
   else (pucHead rb <=? phys rb v + rbHEADER_SIZE) && (phys rb v + rbHEADER_SIZE <? pucTail rb)) = true /\
  (forall rb', pucHead rb' = pucHead rb -> pucTail rb' = pucTail rb ->
   wrap_if_short rb' (phys rb v + u32 (rbHEADER_SIZE + rbALIGN_SIZE (item_len rb (phys rb v)))) =
     phys rb (block_end (xSize rb) v b)).
Proof.
  intros Hb [Hp Hl _ _ Hk] Hd. unfold block_end. rewrite Hl, Hd. rewrite Hd in Hk.
  destruct Hk as (Hk1 & Hk2 & _). pose proof (block_len_nonneg b).
  destruct (phys_aligned rb v Hb Hp) as [_ Hbd]. split_and!.
  - apply Z.leb_le. lia.
  - pos_facts. revert Hk2. bool_cases; phys_cases; bool_cases; simpl; try done; lia.
  - intros rb' EH ET. pos_facts. rewrite rbALIGN_SIZE_aligned by lia.
    rewrite u32_small by lia. by apply wrap_phys.
Qed.

Lemma prvGetItemDefault_item rb f r a outs b bs :
  item_repr rb f r a outs (b :: bs) -> is_dummy b = false ->
  prvGetItemDefault rb =
    Some (phys rb r + rbHEADER_SIZE, block_len b, has_flag (b_flags b) rbITEM_SPLIT_FLAG,
          received rb (block_end (xSize rb) r b) (items_in bs)).
Proof.
  intros Hr Hd. pose proof (items_to_read_exact _ _ _ _ _ _ Hr) as Htr.
  rewrite items_in_cons, Hd in Htr. pose proof (items_in_bounds bs).
  destruct (Z.ltb_spec 0 (1 + items_in bs)); [|lia].
  destruct (item_repr_order _ _ _ _ _ _ Hr) as (H1 & H2 & H3).
  destruct Hr as [Hb Hfs Hf Ha Hlap _ [Hblk _] _ Er _ _ _ Ei].
  destruct (phys_aligned rb r Hb H3) as [Hal Hbd].
  destruct (get_item_asserts rb r b Hb Hblk Hd) as (G1 & G2 & G3).
  unfold prvGetItemDefault, read_in_bounds. rewrite Htr, Er, Hal, G1. pos_facts.
  destruct (Z.leb_spec (pucHead rb) (phys rb r)); [|lia].
  destruct (Z.ltb_spec (phys rb r) (pucTail rb)); [|lia]. simpl.
  rewrite (ba_flags _ _ _ Hblk). fold (is_dummy b). rewrite Hd, Er. simpl. rewrite G2. simpl.
  rewrite G3 by done. rewrite (ba_len _ _ _ Hblk), Ei, items_in_cons, Hd. unfold rbHEADER_SIZE.
  cbn [length] in H2. replace (1 + items_in bs - 1) with (items_in bs) by lia.
  rewrite s32_small by lia. unfold item_flags. simpl. fold (item_flags rb (phys rb r)).
  by rewrite (ba_flags _ _ _ Hblk).
Qed.

Lemma prvGetItemDefault_dummy rb f r a outs d b bs :
  item_repr rb f r a outs (d :: b :: bs) -> is_dummy d = true -> is_dummy b = false ->
  prvGetItemDefault rb =
    Some (pucHead rb + rbHEADER_SIZE, block_len b, has_flag (b_flags b) rbITEM_SPLIT_FLAG,
          received rb (block_end (xSize rb) (xSize rb) b) (items_in bs)).
Proof.
  intros Hr Hd Hd2. pose proof (items_to_read_exact _ _ _ _ _ _ Hr) as Htr.
  rewrite !items_in_cons, Hd, Hd2 in Htr. pose proof (items_in_bounds bs).
  destruct (Z.ltb_spec 0 (0 + (1 + items_in bs))); [|lia].
  destruct (item_repr_order _ _ _ _ _ _ Hr) as (H1 & H2 & H3).
  destruct Hr as [Hb Hfs Hf Ha Hlap _ [Hblk [Hblk2 _]] _ Er _ _ _ Ei].
  unfold block_end in Hblk2. rewrite Hd in Hblk2.
  destruct (phys_aligned rb r Hb H3) as [Hal Hbd].
  destruct (get_item_asserts rb (xSize rb) b Hb Hblk2 Hd2) as (G1 & G2 & G3).
  assert (phys rb (xSize rb) = pucHead rb) as Ehd by (rewrite phys_hi by lia; lia).
  unfold prvGetItemDefault, read_in_bounds. rewrite Htr, Er, Hal. pos_facts.
  destruct (Z.leb_spec (pucHead rb) (phys rb r)); [|lia].
  destruct (Z.ltb_spec (phys rb r) (pucTail rb)); [|lia]. simpl.
  rewrite (ba_flags _ _ _ Hblk). fold (is_dummy d). rewrite Hd, orb_true_r. simpl.
  rewrite Ehd in *. unfold item_len, item_flags in *. simpl. rewrite G1. simpl. rewrite G2. simpl.
  rewrite G3 by done. pose proof (ba_len _ _ _ Hblk2) as L2. pose proof (ba_flags _ _ _ Hblk2) as L3.
  unfold item_len, item_flags in L2, L3. rewrite Ehd in L2, L3. rewrite L2, L3.
  rewrite Ei, !items_in_cons, Hd, Hd2. cbn [length] in H2.
  replace (0 + (1 + items_in bs) - 1) with (items_in bs) by lia. by rewrite s32_small by lia.
Qed.

Lemma prvCheckItemAvail_items rb f r a outs bs : item_repr rb f r a outs bs ->
  prvCheckItemAvail rb = (0 <? items_in bs) &&
    (rb_flag rb rbALLOW_SPLIT_FLAG || has_flag (item_flags rb (phys rb r)) rbITEM_WRITTEN_FLAG).
Proof.
  intros Hr. unfold prvCheckItemAvail. rewrite (items_to_read_exact _ _ _ _ _ _ Hr).
  rewrite (ib_byte _ (ir_buf _ _ _ _ _ _ Hr)), (ir_read _ _ _ _ _ _ Hr). simpl.
  assert (is_no_split rb = negb (rb_flag rb rbALLOW_SPLIT_FLAG)) as ->.
  { pose proof (ib_byte _ (ir_buf _ _ _ _ _ _ Hr)) as F. unfold is_no_split, rb_flag, has_flag in *.
    apply negb_false_iff, Z.eqb_eq in F. by rewrite Z.land_lor_distr_r, F, Z.lor_0_l, negb_involutive. }
  destruct (0 <? items_in bs), (rb_flag rb rbALLOW_SPLIT_FLAG); done.
Qed.

(** ** Returning *)

Definition freeable (b : block) : bool := has_flag (b_flags b) rbITEM_FREE_FLAG || is_dummy b.

(** The block once returned. *)
Definition freed (b : block) : block :=
  mkBlock (set_flag (clear_flag (b_flags b) rbITEM_SPLIT_FLAG) rbITEM_FREE_FLAG) (b_data b).

Lemma freed_flags b : freeable (freed b) = true /\ is_dummy (freed b) = is_dummy b.
Proof.
  unfold freeable, freed, is_dummy, rbITEM_FREE_FLAG, rbITEM_SPLIT_FLAG, rbITEM_DUMMY_DATA_FLAG. simpl.
  by rewrite set_flag_same, set_flag_other, clear_flag_other by lia.
Qed.

Lemma freed_not_split b : has_flag (b_flags (freed b)) rbITEM_SPLIT_FLAG = false.
Proof.
  unfold freed, rbITEM_FREE_FLAG, rbITEM_SPLIT_FLAG. simpl.
  by rewrite set_flag_other, clear_flag_same by lia.
Qed.

Lemma set_free_same rb p : pucFree rb = p -> set_free (set_storage rb (storage rb)) p = rb.
Proof. intros <-. by destruct rb. Qed.

(** One turn of the loop: past a freed item or a dummy. *)
Lemma advance_free_step fuel rb v b r : item_buffer rb -> block_at rb v b -> freeable b = true ->
  pucFree rb = phys rb v -> pucRead rb = phys rb r -> phys rb v <> phys rb r ->
  exists m, only_within rb m v (block_end (xSize rb) v b) /\
    advance_free (S fuel) rb =
      advance_free fuel (set_free (set_storage rb m) (phys rb (block_end (xSize rb) v b))).
Proof.
  intros Hb Hblk Hfb Ef Er Hne. destruct (block_end_bounds rb v b Hb Hblk) as (He & Hpe & Hde).
  pose proof (ba_pos _ _ _ Hblk) as Hpv. pose proof (ba_kind _ _ _ Hblk) as Hk.
  cbn [advance_free]. rewrite Ef, Er, (ba_flags _ _ _ Hblk). fold (is_dummy b).
  unfold freeable in Hfb. rewrite Hfb. apply Z.eqb_neq in Hne. rewrite Hne. simpl.
  unfold block_end in *. destruct (is_dummy b) eqn:Ed.
  - exists (store32 (storage rb) (phys rb v + 4) (set_flag (b_flags b) rbITEM_FREE_FLAG)).
    pos_facts. split; [by apply only_within_store32; [apply only_within_refl|lia..]|].
    unfold wrap_if_short. simpl. rewrite u32_small by lia. unfold rbHEADER_SIZE.
    destruct (Z.ltb_spec (pucTail rb - pucHead rb) 8); [lia|].
    rewrite (phys_hi rb (xSize rb)) by lia. f_equal. f_equal. lia.
  - exists (storage rb). split; [apply only_within_refl|].
    destruct (get_item_asserts rb v b Hb Hblk Ed) as (_ & _ & G3).
    destruct Hk as (Hk1 & Hk2 & _). pose proof (block_len_nonneg b).
    rewrite (ba_len _ _ _ Hblk) in *. rewrite (Z.add_comm _ rbHEADER_SIZE).
    set (p := phys rb v + u32 (rbHEADER_SIZE + rbALIGN_SIZE (block_len b))) in *.
    assert (p <= pucHead rb + xSize rb) as Hp.
    { unfold p. pos_facts. rewrite rbALIGN_SIZE_aligned, u32_small by lia.
      revert Hk2. bool_cases; phys_cases; lia. }
    simpl. destruct (Z.leb_spec p (pucHead rb + xSize rb)); [|lia]. simpl.
    rewrite G3 by done. unfold block_end. rewrite Ed. by destruct rb.
Qed.

(** The free pointer runs over freed items and dummies up to the read pointer
    or the first item still held. *)
Lemma advance_free_chain bs : forall fuel rb v r v2 post, item_buffer rb ->
  chain rb v bs v2 -> Forall (fun b => freeable b = true) bs -> chain rb v2 post r ->
  match post with [] => True | b :: _ => freeable b = false end ->
  pucFree rb = phys rb v -> pucRead rb = phys rb r -> 0 <= v -> r < v + xSize rb -> r <= 2 * xSize rb - 8 ->
  (length bs <= fuel)%nat ->
  exists m, advance_free fuel rb = Some (set_free (set_storage rb m) (phys rb v2)) /\
    only_within rb m v v2.
Proof.
  induction bs as [|b bs IH]; intros fuel rb v r v2 post Hb Hch Hfr Hpost Hstop Ef Er Hv Hr Hr2 Hfuel.
  - simpl in Hch. subst v2. exists (storage rb). split; [|apply only_within_refl].
    rewrite (set_free_same _ _ Ef). destruct post as [|b post].
    + simpl in Hpost. subst v. destruct fuel; simpl; rewrite Ef, Er, Z.eqb_refl, andb_false_r; done.
    + destruct Hpost as [Hblk _]. unfold freeable, is_dummy in Hstop.
      destruct fuel; simpl; rewrite Ef, (ba_flags _ _ _ Hblk), Hstop; done.
  - destruct fuel as [|fuel]; [simpl in Hfuel; lia|]. destruct Hch as [Hblk Hch].
    inversion Hfr as [|? ? Hfb Hfbs]; subst.
    pose proof (chain_le _ _ _ _ Hb Hch) as Hle. pose proof (chain_le _ _ _ _ Hb Hpost) as Hle2.
    destruct (block_end_bounds rb v b Hb Hblk) as (He & Hpe & _).
    assert (phys rb v <> phys rb r) as Hne by (intros E; pos_facts; apply phys_inj in E; lia).
    destruct (advance_free_step fuel rb v b r Hb Hblk Hfb Ef Er Hne) as (m0 & Hm0 & ->).
    set (rb1 := set_free _ _).
    assert (same_object rb rb1) as Hs by done.
    assert (item_buffer rb1) as Hb1 by (by apply (item_buffer_same rb)).
    destruct (IH fuel rb1 (block_end (xSize rb) v b) r v2 post) as (m & Hrun & Hm); try done.
    + apply (chain_elsewhere rb rb1 _ _ _ v (block_end (xSize rb) v b)); try done; pos_facts; lia.
    + apply (chain_elsewhere rb rb1 _ _ _ v (block_end (xSize rb) v b)); try done; pos_facts; lia.
    + pos_facts. lia.
    + change (r < block_end (xSize rb) v b + xSize rb). lia.
    + simpl in Hfuel. lia.
    + exists m. split; [exact Hrun|]. apply (only_within_trans rb rb1); [done|..].
      * eapply only_within_sub; [exact Hm0|lia..].
      * eapply only_within_sub; [exact Hm|lia..].
Qed.

(** The header writes of [prvReturnItemDefault]. *)
Definition free_marked (rb : Ringbuffer_t) (p : Z) : Ringbuffer_t :=
  let rb := set_item_flags rb p (clear_flag (item_flags rb p) rbITEM_SPLIT_FLAG) in
  set_item_flags rb p (set_flag (item_flags rb p) rbITEM_FREE_FLAG).

Lemma free_marked_chain rb v pre b post r u : item_buffer rb ->
  chain rb v pre u -> chain rb u (b :: post) r -> is_dummy b = false -> is_u32 (b_flags b) ->
  0 <= v -> r <= v + xSize rb -> r <= 2 * xSize rb ->
  let rb' := free_marked rb (phys rb u) in
  chain rb' v pre u /\ chain rb' u (freed b :: post) r /\
  only_within rb (storage rb') u (block_end (xSize rb) u b) /\
  rb' = set_storage rb (storage rb').
Proof.
  intros Hb Hpre [Hblk Hpost] Hd Hu32 Hv Hr Hr2 rb'.
  pose proof (chain_le _ _ _ _ Hb Hpre). pose proof (chain_le _ _ _ _ Hb Hpost).
  destruct (block_end_bounds rb u b Hb Hblk) as (He & Hpe & Hde). specialize (Hde Hd).
  pose proof (ba_flags _ _ _ Hblk) as Hfl. pose proof (ba_kind _ _ _ Hblk) as Hk. rewrite Hd in Hk.
  destruct Hk as (Hk1 & Hk2 & Hk3). pose proof (ba_pos _ _ _ Hblk) as Hpu. pose proof (block_len_nonneg b).
  assert (same_object rb rb') as Hs by done.
  assert (storage rb' = store32 (store32 (storage rb) (phys rb u + 4)
    (clear_flag (b_flags b) rbITEM_SPLIT_FLAG)) (phys rb u + 4)
    (set_flag (clear_flag (b_flags b) rbITEM_SPLIT_FLAG) rbITEM_FREE_FLAG)) as Em.
  { unfold rb', free_marked, set_item_flags. rewrite Hfl. unfold item_flags. simpl.
    by rewrite load32_store32_same by (by apply clear_flag_u32). }
  assert (only_within rb (storage rb') u (block_end (xSize rb) u b)) as Hm.
  { rewrite Em. pos_facts. revert Hk2. bool_cases; intros.
    all: apply only_within_store32; [apply only_within_store32; [apply only_within_refl|lia..]|lia..]. }
  assert (is_u32 (set_flag (clear_flag (b_flags b) rbITEM_SPLIT_FLAG) rbITEM_FREE_FLAG)) as Hu'
    by (apply set_flag_u32; [by apply clear_flag_u32|done]).
  assert (block_at rb' u (freed b)) as Hblk'.
  { split; [done|..].
    - unfold item_len. rewrite Em, (phys_same rb rb') by done. mem_simpl. apply (ba_len _ _ _ Hblk).
    - unfold item_flags. rewrite Em, (phys_same rb rb') by done. by rewrite load32_store32_same.
    - by rewrite freed_not_split.
    - destruct (freed_flags b) as [_ ->]. rewrite Hd. split_and!; try done.
      rewrite Em, (phys_same rb rb') by done. unfold block_len in *. simpl. mem_simpl. exact Hk3. }
  assert (block_end (xSize rb') u (freed b) = block_end (xSize rb) u b) as Ee.
  { unfold block_end. by destruct (freed_flags b) as [_ ->]. }
  split_and!; try done.
  - apply (chain_elsewhere rb rb' _ _ _ u (block_end (xSize rb) u b)); try done; pos_facts; lia.
  - cbn [chain]. rewrite Ee. split; [done|].
    apply (chain_elsewhere rb rb' _ _ _ u (block_end (xSize rb) u b)); try done; pos_facts; lia.
Qed.

(** The last lines of [prvReturnItemDefault]. *)
Definition finish_return (rb : Ringbuffer_t) : Ringbuffer_t :=
  if rb_flag rb rbBUFFER_FULL_FLAG then
    if negb (pucFree rb =? pucAcquire rb) then clear_full rb
    else if (pucFree rb =? pucAcquire rb) && (pucFree rb =? pucRead rb) then clear_full rb
    else rb
  else rb.

Lemma finish_return_flags rb :
  exists fl, finish_return rb = set_flags rb fl /\
    has_flag fl rbBYTE_BUFFER_FLAG = rb_flag rb rbBYTE_BUFFER_FLAG /\
    has_flag fl rbALLOW_SPLIT_FLAG = rb_flag rb rbALLOW_SPLIT_FLAG /\
    (pucFree rb <> pucAcquire rb \/ pucFree rb = pucRead rb \/ rb_flag rb rbBUFFER_FULL_FLAG = false ->
     has_flag fl rbBUFFER_FULL_FLAG = false).
Proof.
  assert (rb = set_flags rb (uxRingbufferFlags rb)) as Eid by (by destruct rb).
  assert (forall b : bool, exists fl, (if b then clear_full rb else rb) = set_flags rb fl /\
    has_flag fl rbBYTE_BUFFER_FLAG = rb_flag rb rbBYTE_BUFFER_FLAG /\
    has_flag fl rbALLOW_SPLIT_FLAG = rb_flag rb rbALLOW_SPLIT_FLAG /\
    (b = true \/ rb_flag rb rbBUFFER_FULL_FLAG = false -> has_flag fl rbBUFFER_FULL_FLAG = false)) as H.
  { intros []; [exists (clear_flag (uxRingbufferFlags rb) rbBUFFER_FULL_FLAG)|exists (uxRingbufferFlags rb)].
    - unfold rb_flag, rbBYTE_BUFFER_FLAG, rbALLOW_SPLIT_FLAG, rbBUFFER_FULL_FLAG.
      rewrite !clear_flag_other, clear_flag_same by lia. done.
    - split_and!; try done. by intros [|]. }
  unfold finish_return. destruct (rb_flag rb rbBUFFER_FULL_FLAG) eqn:Ef.
  - destruct (Z.eqb_spec (pucFree rb) (pucAcquire rb)) as [E|E]; simpl.
    + destruct (Z.eqb_spec (pucFree rb) (pucRead rb)) as [E2|E2]; simpl.
      * destruct (H true) as (fl & ? & ? & ? & Hf). exists fl. split_and!; auto.
      * destruct (H false) as (fl & ? & ? & ? & Hf). exists fl. split_and!; try done.
        by intros [?|[?|?]].
    + destruct (H true) as (fl & ? & ? & ? & Hf). exists fl. split_and!; auto.
  - destruct (H false) as (fl & ? & ? & ? & Hf). exists fl. split_and!; auto.
Qed.

(** The assertions of [prvReturnItemDefault] hold for a block that is held. *)
Lemma prvReturnItemDefault_asserts rb u b : item_buffer rb -> block_at rb u b ->
  is_dummy b = false -> freeable b = false ->
  prvReturnItemDefault rb (phys rb u + rbHEADER_SIZE) =
    (let rb1 := free_marked rb (phys rb u) in
     let! rb := advance_free (rb_fuel rb1) rb1 in Some (finish_return rb)).
Proof.
  intros Hb Hblk Hd Hnf. pose proof (ba_pos _ _ _ Hblk) as Hpu.
  destruct (phys_aligned rb u Hb Hpu) as [_ Hbd].
  pose proof (ba_kind _ _ _ Hblk) as Hk. rewrite Hd in Hk. destruct Hk as (Hk1 & _).
  unfold freeable in Hnf. apply orb_false_iff in Hnf as [Hnf _].
  unfold prvReturnItemDefault. generalize advance_free as adv. intros adv. pos_facts.
  rewrite rbCHECK_ALIGNED_true by (try (phys_cases; Z.div_mod_to_equations; lia); lia).
  destruct (Z.leb_spec (pucHead rb) (phys rb u + 8)); [|lia].
  destruct (Z.leb_spec (phys rb u + 8) (pucTail rb)); [|lia]. cbn [guard_c].
  replace (phys rb u + 8 - 8) with (phys rb u) by lia.
  rewrite (ba_len _ _ _ Hblk), (ba_flags _ _ _ Hblk). fold (is_dummy b). rewrite Hd, Hnf.
  destruct (Z.leb_spec (block_len b) (xMaxItemSize rb)); [|lia]. cbn [guard_c negb].
  rewrite <- (ba_flags _ _ _ Hblk). done.
Qed.

(** With the free pointer at the read pointer (all of the buffer handed out, or
    none) the loop does not turn. *)
Lemma prvReturnItemDefault_stuck rb r b post u : item_buffer rb -> chain rb u (b :: post) r ->
  is_dummy b = false -> freeable b = false -> is_u32 (b_flags b) ->
  pucFree rb = pucRead rb -> 0 <= u -> r <= u + xSize rb -> r <= 2 * xSize rb ->
  exists m, only_within rb m u (block_end (xSize rb) u b) /\
    chain (set_storage rb m) (block_end (xSize rb) u b) post r /\
    prvReturnItemDefault rb (phys rb u + rbHEADER_SIZE) = Some (finish_return (set_storage rb m)).
Proof.
  intros Hb Hbp Hd Hnf Hu32 Efr Hu Hr Hr2.
  destruct (free_marked_chain rb u [] b post r u Hb eq_refl Hbp Hd Hu32 Hu Hr Hr2) as (_ & C2 & Hm & Eid).
  destruct Hbp as [Hblk _]. rewrite (prvReturnItemDefault_asserts rb u b Hb Hblk Hd Hnf).
  cbv zeta. set (rb1 := free_marked rb (phys rb u)) in *.
  exists (storage rb1). split_and!; [done| |].
  - destruct C2 as [_ C2]. rewrite Eid in C2. unfold block_end in *.
    by destruct (freed_flags b) as [_ E]; rewrite E in C2.
  - assert (pucFree rb1 =? pucRead rb1 = true) as Eq by (apply Z.eqb_eq; by rewrite Eid).
    assert (rb_fuel rb1 = S (Z.to_nat (xSize rb1 / rbHEADER_SIZE))) as -> by done.
    cbn [advance_free]. rewrite Eq, andb_false_r. by rewrite Eid.
Qed.

(** Otherwise the free pointer passes the item and the dummies before it. *)
Lemma prvReturnItemDefault_run rb v r pre b post u : item_buffer rb ->
  chain rb v pre u -> chain rb u (b :: post) r -> Forall (fun b => freeable b = true) pre ->
  match post with [] => True | b :: _ => freeable b = false end ->
  is_dummy b = false -> freeable b = false -> is_u32 (b_flags b) ->
  pucFree rb = phys rb v -> pucRead rb = phys rb r -> 0 <= v -> r < v + xSize rb ->
  r <= 2 * xSize rb - 8 -> (length pre < rb_fuel rb)%nat ->
  exists m, only_within rb m v (block_end (xSize rb) u b) /\
    chain (set_storage rb m) (block_end (xSize rb) u b) post r /\
    prvReturnItemDefault rb (phys rb u + rbHEADER_SIZE) =
      Some (finish_return (set_free (set_storage rb m) (phys rb (block_end (xSize rb) u b)))).
Proof.
  intros Hb Hpre Hbp Hfpre Hfpost Hd Hnf Hu32 Efr Er Hv Hr Hr2 Hfuel.
  destruct (free_marked_chain rb v pre b post r u Hb Hpre Hbp Hd Hu32 Hv) as (C1 & C2 & Hm1 & Eid); [lia..|].
  set (rb1 := free_marked rb (phys rb u)) in *.
  assert (same_object rb rb1) as Hs by done.
  assert (item_buffer rb1) as Hb1 by (by apply (item_buffer_same rb)).
  pose proof (chain_le _ _ _ _ Hb Hpre) as L1. destruct Hbp as [Hblk Hpost].
  pose proof (chain_le _ _ _ _ Hb Hpost) as L2.
  destruct (block_end_bounds rb u b Hb Hblk) as (He & Hpe & _).
  assert (block_end (xSize rb1) u (freed b) = block_end (xSize rb) u b) as Ee.
  { unfold block_end. by destruct (freed_flags b) as [_ ->]. }
  destruct (advance_free_chain (pre ++ [freed b]) (rb_fuel rb1) rb1 v r
              (block_end (xSize rb) u b) post) as (m & Hadv & Hm); try done; try lia.
  - apply chain_app. exists u. split; [done|]. cbn [chain]. split; [apply C2|done].
  - apply Forall_app. split; [done|]. constructor; [by apply freed_flags|done].
  - destruct C2 as [_ C2]. by rewrite Ee in C2.
  - rewrite length_app. simpl. unfold rb_fuel in *. simpl. lia.
  - exists m.
    assert (only_within rb m v (block_end (xSize rb) u b)) as Hm'.
    { apply (only_within_trans rb rb1); [done| |done]. eapply only_within_sub; [exact Hm1|lia..]. }
    split_and!; try done.
    + apply (chain_elsewhere rb _ _ _ _ v (block_end (xSize rb) u b)); try done; pos_facts; lia.
    + rewrite (prvReturnItemDefault_asserts rb u b Hb Hblk Hd Hnf). cbv zeta. fold rb1.
      rewrite Hadv. by rewrite Eid.
Qed.

(** Returning the last item held: the free pointer is at the read pointer. *)
Lemma prvReturnItemDefault_last rb v r pre b u : item_buffer rb ->
  chain rb v pre u -> chain rb u [b] r -> Forall (fun b => freeable b = true) pre ->
  is_dummy b = false -> freeable b = false -> is_u32 (b_flags b) ->
  pucFree rb = phys rb v -> pucRead rb = phys rb r -> 0 <= v < xSize rb \/ v = xSize rb ->
  r <= v + xSize rb -> r <= 2 * xSize rb - 8 -> (length pre < rb_fuel rb)%nat ->
  exists m, only_within rb m v r /\
    prvReturnItemDefault rb (phys rb u + rbHEADER_SIZE) =
      Some (finish_return (set_free (set_storage rb m) (phys rb r))).
Proof.
  intros Hb Hpre Hbp Hfpre Hd Hnf Hu32 Efr Er Hv Hr Hr2 Hfuel.
  pose proof (chain_le _ _ _ _ Hb Hpre) as L1. pose proof (chain_le _ _ _ _ Hb Hbp) as L2.
  pose proof Hbp as [_ Eend]. simpl in Eend.
  destruct (Z.eq_dec r (v + xSize rb)) as [E|E].
  - destruct (prvReturnItemDefault_stuck rb r b [] u) as (m & Hm & _ & ->); try done; try lia.
    { rewrite Efr, Er. pos_facts. phys_cases; lia. }
    exists m. rewrite Eend in Hm. split; [eapply only_within_sub; [exact Hm|lia..]|].
    do 2 f_equal. assert (pucFree rb = phys rb r) as <- by (rewrite Efr; pos_facts; phys_cases; lia).
    by destruct rb.
  - destruct (prvReturnItemDefault_run rb v r pre b [] u) as (m & Hm & _ & ->); try done; try lia.
    exists m. by rewrite Eend in *.
Qed.

(** Once everything handed out is returned, the free pointer is at the read
    pointer and the buffer is not full. *)
Lemma item_repr_returned rb f r a outs bs rb' :
  item_repr rb f r a outs bs -> f < r -> same_object rb rb' ->
  only_within rb (storage rb') f r ->
  pucFree rb' = phys rb r -> pucRead rb' = pucRead rb -> pucWrite rb' = pucWrite rb ->
  pucAcquire rb' = pucAcquire rb -> xItemsWaiting rb' = xItemsWaiting rb ->
  rb_flag rb' rbBYTE_BUFFER_FLAG = rb_flag rb rbBYTE_BUFFER_FLAG ->
  rb_flag rb' rbBUFFER_FULL_FLAG = false ->
  exists f' a', item_repr rb' f' f' a' [] bs.
Proof.
  intros Hr Hfr Hs Hm Ef' Er' Ew' Ea' Ei' Fb Ff. destruct (item_repr_order _ _ _ _ _ _ Hr) as (H1 & H2 & H3).
  destruct Hr as [Hb Hfs Hf Ha Hlap Ho Hbs Efr Er Ew Ea Ef Ei].
  assert (item_buffer rb') as Hb' by (by apply (item_buffer_same rb)).
  assert (chain rb' r bs a) as Hbs'
    by (apply (chain_elsewhere rb rb' _ _ _ f r); try done; pos_facts; lia).
  pose proof Hs as (ES & _).
  assert (exists f' a', f' < xSize rb /\ f' <= a' < f' + xSize rb /\ pos_ok (xSize rb) f' /\
    pos_ok (xSize rb) a' /\ phys rb f' = phys rb r /\ phys rb a' = phys rb a /\ chain rb' f' bs a')
    as (f' & a' & Hf1 & Hf2 & Hf3 & Hf4 & Hf5 & Hf6 & Hf7).
  { destruct (Z.lt_ge_cases r (xSize rb)).
    - exists r, a. split_and!; try done; lia.
    - assert (forall v, pos_ok (xSize rb) v -> xSize rb <= v ->
        pos_ok (xSize rb) (v - xSize rb) /\ phys rb (v - xSize rb) = phys rb v) as Hback.
      { intros v Hv Hle. unfold pos_ok in *. pos_facts. split; [|phys_cases; lia].
        split_and!; try lia. Z.div_mod_to_equations; lia. }
      destruct (Hback r H3) as [R1 R2]; [lia|]. destruct (Hback a Ha) as [A1 A2]; [lia|].
      exists (r - xSize rb), (a - xSize rb). split_and!; try done; try (pos_facts; lia).
      rewrite <- ES. apply chain_shift; try done; rewrite ES; pos_facts; lia. }
  exists f', a'. rewrite <- ES in *.
  split; rewrite ?(phys_same rb rb') by done; rewrite ?Ef', ?Er', ?Ew', ?Ea', ?Ei'; try done; try congruence.
  - lia.
  - rewrite Ff. symmetry. apply Z.eqb_neq. lia.
Qed.

(** Two turns of the loop are always allowed. *)
Lemma rb_fuel_2 rb : item_buffer rb -> rb_fuel rb = S (S (Z.to_nat (xSize rb / rbHEADER_SIZE) - 1)).
Proof.
  intros Hb. unfold rb_fuel, rbHEADER_SIZE. pos_facts.
  assert (1 <= xSize rb / 8) by (apply Z.div_le_lower_bound; lia). lia.
Qed.

(** Returning the only item held, with at most a dummy before it, frees all
    that was handed out. *)
Lemma item_repr_return_last rb f r a pre b u bs : item_repr rb f r a (pre ++ [b]) bs ->
  chain rb f pre u -> chain rb u [b] r -> Forall (fun b => freeable b = true) pre ->
  (length pre <= 1)%nat -> is_dummy b = false -> freeable b = false -> is_u32 (b_flags b) ->
  exists rb', prvReturnItemDefault rb (phys rb u + rbHEADER_SIZE) = Some rb' /\
    same_object rb rb' /\ rb_flag rb' rbALLOW_SPLIT_FLAG = rb_flag rb rbALLOW_SPLIT_FLAG /\
    exists f' a', item_repr rb' f' f' a' [] bs.
Proof.
  intros Hr Hpre Hitem Hfpre Hlen Hd Hnf Hu32.
  destruct (item_repr_order _ _ _ _ _ _ Hr) as (O1 & O2 & O3).
  pose proof Hr as [Hb Hfs Hf Ha Hlap Ho Hbs Efr Er _ Ea Efu _].
  assert (f < r) as Hfr by (rewrite length_app in O1; simpl in O1; lia).
  destruct (prvReturnItemDefault_last rb f r pre b u) as (m & Hm & Hrun); try done; try (pos_facts; lia).
  { rewrite (rb_fuel_2 rb Hb). lia. }
  destruct (finish_return_flags (set_free (set_storage rb m) (phys rb r))) as (fl & Efl & F1 & F2 & F3).
  rewrite Hrun, Efl. eexists. split; [done|]. split_and!; [done|exact F2|].
  apply (item_repr_returned rb f r a (pre ++ [b]) bs); try done.
  apply F3. simpl. rewrite Ea, Er. auto.
Qed.

(** ** Creation *)

(** [xRingbufferCreate] of an item buffer rounds the size up. *)
Lemma xRingbufferCreate_items size ty h s m k :
  0 < size <= 2147483644 -> h <> NULL -> s <> NULL -> ty <> RINGBUF_TYPE_BYTEBUF ->
  xRingbufferCreate size ty h s m k =
    Some (Some (prvInitializeNewRingbuffer (aligned size) ty h s m k)).
Proof.
  intros Hs Hh Hst Ht. unfold xRingbufferCreate. destruct (Z.ltb_spec 0 size); [|lia]. cbn [guard_c].
  assert (rounded_size size ty = aligned size) as ->
    by (unfold rounded_size; destruct ty; try done; apply rbALIGN_SIZE_aligned; lia).
  apply Z.eqb_neq in Hh, Hst. by rewrite Hh, Hst.
Qed.

(** A fresh buffer has nothing in it. *)
Lemma item_repr_fresh rb : item_buffer rb -> rb_flag rb rbBUFFER_FULL_FLAG = false ->
  pucFree rb = pucHead rb -> pucRead rb = pucHead rb -> pucWrite rb = pucHead rb ->
  pucAcquire rb = pucHead rb -> xItemsWaiting rb = 0 -> item_repr rb 0 0 0 [] [].
Proof.
  intros Hb Hf E1 E2 E3 E4 E5. pose proof (ib_size _ Hb).
  assert (phys rb 0 = pucHead rb) as E0 by (rewrite phys_lo; lia).
  assert (pos_ok (xSize rb) 0) as Hp by (unfold pos_ok, rbHEADER_SIZE; split_and!; [lia|done|lia]).
  split; rewrite ?E0; try done; try lia. rewrite Hf. symmetry. apply Z.eqb_neq. lia.
Qed.
