(* ===== verification/RingbufNoSplit.v ===== *)
(** * No-split ring buffers: whole items in one piece

    The no-split functions of ringbuf.c meet the contract [ItemQueue]: for users
    that hold at most one item, a buffer is a queue of whole items.  Then
    concrete runs through the public functions, among them two in which the
    buffer misbehaves: users that hold several items, or complete acquired items
    out of order. *)

From stdpp Require Import base list option gmap.
From Stdlib Require Import ZArith Lia.
From S2P Require Import Prelude FreeRTOSList Kernel Ringbuf RingbufQueue RingbufItems.

Record no_split (rb : Ringbuffer_t) : Prop := {
  ns_copy : vCopyItem rb = CopyItemNoSplit;
  ns_flag : rb_flag rb rbALLOW_SPLIT_FLAG = false;
  ns_max : xMaxItemSize rb = aligned (xSize rb / 2) - rbHEADER_SIZE;
  ns_cur : xGetCurMaxSize rb = GetCurMaxSizeNoSplit }.

(** ** Items as blocks

    An item that does not fit before the tail is preceded by a dummy. *)

Definition dummy_block : block := mkBlock (set_flag rbITEM_DUMMY_DATA_FLAG rbITEM_WRITTEN_FLAG) [].
Definition item_block (l : list Z) : block := mkBlock rbITEM_WRITTEN_FLAG l.

Notation entry := (bool * list Z)%type (only parsing).
Definition entry_blocks (e : entry) : list block :=
  (if fst e then [dummy_block] else []) ++ [item_block (snd e)].

(** The item [out] is held, the items of [es] are to be read. *)
Definition no_split_repr (rb : Ringbuffer_t) (held : list Z) (items : list (list Z)) : Prop :=
  no_split rb /\ exists f r a out es,
    item_repr rb f r a (match out with None => [] | Some e => entry_blocks e end)
      (flat_map entry_blocks es) /\
    items = map snd es /\
    held = match out with
           | None => []
           | Some (dummy, _) => [phys rb (if dummy : bool then xSize rb else f) + rbHEADER_SIZE]
           end.

(** ** Sending *)

(** The header and data of an item as [prvCopyItemNoSplit] leaves them. *)
Definition put_item (m : memory) (p : Z) (l : list Z) : memory :=
  store32 (store32 (store_bytes (store32 (store32 m p (Z.of_nat (length l))) (p + 4) 0)
    (p + rbHEADER_SIZE) l) (p + 4) 0) (p + 4) rbITEM_WRITTEN_FLAG.

Lemma put_item_block rb m v l :
  item_buffer rb -> pos_ok (xSize rb) v -> Z.of_nat (length l) <= xMaxItemSize rb ->
  v + 8 + aligned (Z.of_nat (length l)) <= (if v <? xSize rb then xSize rb else 2 * xSize rb - 8) ->
  block_at (set_storage rb (put_item m (phys rb v) l)) v (item_block l) /\
  (forall lo hi, lo <= v -> item_end (xSize rb) v (Z.of_nat (length l)) <= hi ->
     only_within rb m lo hi -> only_within rb (put_item m (phys rb v) l) lo hi).
Proof.
  intros Hb Hv Hmax Hfit. set (n := Z.of_nat (length l)) in *. assert (0 <= n) by lia.
  assert (length l = Z.to_nat n) as El by lia.
  unfold put_item. fold n. unfold rbHEADER_SIZE, rbITEM_WRITTEN_FLAG. split.
  - pos_facts. split; [by unfold pos_ok|..]; simpl; unfold item_len, item_flags, block_len;
      change (phys (set_storage rb ?m) v) with (phys rb v); simpl; fold n.
    + mem_simpl. done.
    + mem_simpl. done.
    + done.
    + split_and!; [done..|]. mem_simpl. done.
  - intros lo hi Hlo Hhi Hm. unfold item_end in Hhi. pos_facts.
    assert (v + 8 + n <= hi /\ (v < xSize rb -> v + 8 + n <= xSize rb)) as [? ?]
      by (revert Hhi Hfit; bool_cases; simpl; bool_cases; lia).
    repeat first [exact Hm | apply only_within_store32_0; [|lia..]
      | apply only_within_store32; [|lia..] | apply only_within_store; [|lia..]].
Qed.

(** A buffer after an item was acquired and the acquire pointer moved to [a]. *)
Definition acquired (rb : Ringbuffer_t) (m : memory) (a : Z) : Ringbuffer_t :=
  set_flags (set_acquire (set_storage rb m) (phys rb a))
    (if phys rb a =? pucFree rb then set_flag (uxRingbufferFlags rb) rbBUFFER_FULL_FLAG
     else uxRingbufferFlags rb).

(** [prvAcquireItemNoSplit] puts the header at the acquire pointer if the item
    fits before the tail, *)
Lemma prvAcquireItemNoSplit_straight rb a n :
  item_buffer rb -> pos_ok (xSize rb) a -> pucAcquire rb = phys rb a -> 0 <= n <= xMaxItemSize rb ->
  a + 8 + aligned n <= (if a <? xSize rb then xSize rb else 2 * xSize rb - 8) ->
  prvAcquireItemNoSplit rb n =
    Some (phys rb a + rbHEADER_SIZE,
          acquired rb (store32 (store32 (storage rb) (phys rb a) n) (phys rb a + 4) 0)
            (item_end (xSize rb) a n)).
Proof.
  intros Hb Ha Ea Hn Hfit. destruct (phys_aligned rb a Hb Ha) as [Hal Hbd].
  pose proof (wrap_phys rb) as Hw. specialize (fun rb' => Hw rb' a n Hb Ha (proj1 Hn) Hfit).
  unfold prvAcquireItemNoSplit, acquire_in_bounds. rewrite Ea, Hal. pos_facts.
  rewrite !(u32_small (pucTail rb - phys rb a)), rbALIGN_SIZE_aligned by lia.
  rewrite (Z.add_comm (aligned n)), !u32_small by lia.
  assert (8 + aligned n <= pucTail rb - phys rb a) by (revert Hfit; bool_cases; phys_cases; lia).
  destruct (Z.leb_spec (pucHead rb) (phys rb a)); [|lia].
  destruct (Z.ltb_spec (phys rb a) (pucTail rb)); [|lia].
  destruct (Z.leb_spec 8 (pucTail rb - phys rb a)); [|lia].
  destruct (Z.ltb_spec (pucTail rb - phys rb a) (8 + aligned n)); [lia|].
  simpl. rewrite mark_full_flags, Ea. simpl. by rewrite Hw.
Qed.

(** and otherwise leaves a dummy there and puts it at the head. *)
Lemma prvAcquireItemNoSplit_dummy rb a n :
  item_buffer rb -> pos_ok (xSize rb) a -> pucAcquire rb = phys rb a -> 0 <= n <= xMaxItemSize rb ->
  a < xSize rb -> xSize rb < a + 8 + aligned n -> 8 + aligned n <= xSize rb - 8 ->
  prvAcquireItemNoSplit rb n =
    Some (pucHead rb + rbHEADER_SIZE,
          acquired rb (store32 (store32
            (store32 (store32 (storage rb) (phys rb a + 4) rbITEM_DUMMY_DATA_FLAG) (phys rb a) 0)
            (pucHead rb) n) (pucHead rb + 4) 0)
            (item_end (xSize rb) (xSize rb) n)).
Proof.
  intros Hb Ha Ea Hn Has Hnofit Hfit. destruct (phys_aligned rb a Hb Ha) as [Hal Hbd].
  assert (phys rb (xSize rb) = pucHead rb) as Ehd by (pos_facts; rewrite phys_hi by lia; lia).
  assert (pos_ok (xSize rb) (xSize rb)) as Hps by (pos_facts; unfold pos_ok, rbHEADER_SIZE; lia).
  pose proof (wrap_phys rb) as Hw. specialize (fun rb' => Hw rb' (xSize rb) n Hb Hps (proj1 Hn)).
  rewrite Z.ltb_irrefl, Ehd in Hw.
  unfold prvAcquireItemNoSplit, acquire_in_bounds. rewrite Ea, Hal. pos_facts.
  rewrite !(u32_small (pucTail rb - phys rb a)), rbALIGN_SIZE_aligned by lia.
  rewrite (Z.add_comm (aligned n)), !u32_small by lia.
  assert (pucTail rb - phys rb a < 8 + aligned n) by (phys_cases; lia).
  destruct (Z.leb_spec (pucHead rb) (phys rb a)); [|lia].
  destruct (Z.ltb_spec (phys rb a) (pucTail rb)); [|lia].
  destruct (Z.leb_spec 8 (pucTail rb - phys rb a)); [|lia].
  destruct (Z.ltb_spec (pucTail rb - phys rb a) (8 + aligned n)); [|lia].
  simpl. rewrite mark_full_flags, Ea. simpl. rewrite Hw by (done || lia). done.
Qed.

(** Completing an item marks it written. *)
Lemma prvSendItemDoneNoSplit_marks rb u n w :
  item_buffer rb -> pos_ok (xSize rb) u -> item_len rb (phys rb u) = n -> 0 <= n <= xMaxItemSize rb ->
  item_flags rb (phys rb u) = 0 -> xItemsWaiting rb = w -> 0 <= w < 2147483647 ->
  prvSendItemDoneNoSplit rb (phys rb u + rbHEADER_SIZE) =
    advance_write (rb_fuel rb)
      (set_waiting (set_storage rb (store32 (store32 (storage rb) (phys rb u + 4) 0) (phys rb u + 4)
         rbITEM_WRITTEN_FLAG)) (w + 1)).
Proof.
  intros Hb Hu Hl Hn Hf Hi Hw. destruct (phys_aligned rb u Hb Hu) as [_ Hbd].
  unfold prvSendItemDoneNoSplit. generalize advance_write as adv. intros adv. pos_facts.
  rewrite rbCHECK_ALIGNED_true by (try (phys_cases; Z.div_mod_to_equations; lia); lia).
  destruct (Z.leb_spec (pucHead rb) (phys rb u + 8)); [|lia].
  destruct (Z.leb_spec (phys rb u + 8) (pucTail rb)); [|lia]. cbn [guard_c].
  replace (phys rb u + 8 - 8) with (phys rb u) by lia. rewrite Hl, Hf.
  destruct (Z.leb_spec n (xMaxItemSize rb)); [|lia]. cbn [guard_c negb has_flag Z.land Z.eqb].
  unfold item_flags, set_item_flags. simpl. rewrite load32_store32_same by done.
  rewrite Hi, s32_small by lia. done.
Qed.

(** The write pointer passes a written item, *)
Lemma advance_write_item fuel rb u n :
  item_buffer rb -> pos_ok (xSize rb) u -> item_len rb (phys rb u) = n -> 0 <= n <= xMaxItemSize rb ->
  u + 8 + aligned n <= (if u <? xSize rb then xSize rb else 2 * xSize rb - 8) ->
  item_flags rb (phys rb u) = rbITEM_WRITTEN_FLAG -> pucWrite rb = phys rb u ->
  pucAcquire rb = phys rb (item_end (xSize rb) u n) ->
  advance_write (S fuel) rb = Some (set_write rb (phys rb (item_end (xSize rb) u n))).
Proof.
  intros Hb Hu Hl Hn Hfit Hf Hw Ha. destruct (phys_aligned rb u Hb Hu) as [_ Hbd].
  pose proof (wrap_phys rb) as Hwr. specialize (fun rb' => Hwr rb' u n Hb Hu (proj1 Hn) Hfit).
  cbn [advance_write]. rewrite Hw, Hf. simpl. rewrite Hl. pos_facts.
  rewrite rbALIGN_SIZE_aligned, (Z.add_comm (aligned n)), u32_small by lia.
  assert (phys rb u + (8 + aligned n) <= pucHead rb + xSize rb)
    by (revert Hfit; bool_cases; phys_cases; lia).
  destruct (Z.leb_spec (phys rb u + (8 + aligned n)) (pucHead rb + xSize rb)); [|lia]. simpl.
  rewrite Hwr by done. rewrite Ha, Z.eqb_refl. done.
Qed.

(** and a dummy, to the head. *)
Lemma advance_write_dummy fuel rb a :
  item_buffer rb -> item_flags rb (phys rb a) = rbITEM_DUMMY_DATA_FLAG -> pucWrite rb = phys rb a ->
  pucAcquire rb <> pucHead rb ->
  advance_write (S fuel) rb = advance_write fuel (set_write (set_storage rb
    (store32 (storage rb) (phys rb a + 4) (set_flag rbITEM_DUMMY_DATA_FLAG rbITEM_WRITTEN_FLAG)))
    (pucHead rb)).
Proof.
  intros Hb Hf Hw Ha. cbn [advance_write]. rewrite Hw, Hf. simpl. unfold wrap_if_short. simpl.
  pos_facts. rewrite u32_small by lia. destruct (Z.ltb_spec (pucTail rb - pucHead rb) 8); [lia|].
  destruct (Z.eqb_spec (pucHead rb) (pucAcquire rb)); [congruence|]. done.
Qed.

(** Hence [prvCopyItemNoSplit] adds the block of the item, *)
Lemma prvCopyItemNoSplit_straight rb a l w :
  item_buffer rb -> pos_ok (xSize rb) a -> pucAcquire rb = phys rb a ->
  pucWrite rb = phys rb a -> xItemsWaiting rb = w -> 0 <= w < 2147483647 ->
  let n := Z.of_nat (length l) in
  n <= xMaxItemSize rb ->
  a + 8 + aligned n <= (if a <? xSize rb then xSize rb else 2 * xSize rb - 8) ->
  prvCopyItemNoSplit rb l n =
    Some (sent rb (put_item (storage rb) (phys rb a) l) (item_end (xSize rb) a n) (w + 1)).
Proof.
  intros Hb Ha Ea Ew Ei Hw n Hn Hfit. assert (0 <= n) by lia.
  unfold prvCopyItemNoSplit. rewrite (prvAcquireItemNoSplit_straight rb a) by (done || lia).
  set (rb1 := acquired _ _ _). unfold memcpy_in. fold n. rewrite Z.leb_refl. cbn [guard_c].
  replace (Z.to_nat n) with (length l) by lia. rewrite firstn_all.
  set (rb2 := set_storage rb1 _). destruct (phys_aligned rb a Hb Ha) as [_ Hbd].
  assert (item_buffer rb1) as Hb1.
  { apply (item_buffer_same rb); [done| |done]. apply flags_after_mark. }
  assert (item_buffer rb2) as Hb2 by (by apply (item_buffer_same rb1)).
  assert (item_len rb2 (phys rb2 a) = n /\ item_flags rb2 (phys rb2 a) = 0) as [L2 F2].
  { change (phys rb2 a) with (phys rb a). unfold item_len, item_flags. simpl. unfold rbHEADER_SIZE.
    pos_facts. split; mem_simpl; done. }
  change (phys rb a) with (phys rb2 a).
  rewrite (prvSendItemDoneNoSplit_marks rb2 a n w) by (done || lia).
  unfold rb_fuel. rewrite (advance_write_item _ _ a n); try done; try lia.
  - by apply (item_buffer_same rb2).
  - change (phys rb2 a) with (phys rb a). change (phys _ a) with (phys rb a). unfold item_len. simpl.
    unfold rbHEADER_SIZE. pos_facts. mem_simpl. done.
  - change (phys rb2 a) with (phys rb a). change (phys _ a) with (phys rb a). unfold item_flags. simpl.
    unfold rbITEM_WRITTEN_FLAG. mem_simpl. done.
Qed.

(** after a dummy block where it does not fit. *)
Lemma prvCopyItemNoSplit_dummy rb a l w :
  item_buffer rb -> pos_ok (xSize rb) a -> pucAcquire rb = phys rb a ->
  pucWrite rb = phys rb a -> xItemsWaiting rb = w -> 0 <= w < 2147483647 ->
  let n := Z.of_nat (length l) in
  n <= xMaxItemSize rb ->
  a < xSize rb -> xSize rb < a + 8 + aligned n -> 8 + aligned n <= a ->
  prvCopyItemNoSplit rb l n =
    Some (sent rb (store32 (put_item
        (store32 (store32 (storage rb) (phys rb a + 4) rbITEM_DUMMY_DATA_FLAG) (phys rb a) 0)
        (phys rb (xSize rb)) l) (phys rb a + 4) (b_flags dummy_block))
      (item_end (xSize rb) (xSize rb) n) (w + 1)).
Proof.
  intros Hb Ha Ea Ew Ei Hw n Hn Has Hno Hfit. assert (0 <= n) by lia.
  assert (phys rb (xSize rb) = pucHead rb) as Ehd by (pos_facts; rewrite phys_hi by lia; lia).
  assert (pos_ok (xSize rb) (xSize rb)) as Hps by (pos_facts; unfold pos_ok, rbHEADER_SIZE; lia).
  assert (phys rb a = pucHead rb + a) as Epa by (apply phys_lo; lia).
  unfold prvCopyItemNoSplit. rewrite (prvAcquireItemNoSplit_dummy rb a) by (try done; pos_facts; lia).
  set (rb1 := acquired _ _ _). unfold memcpy_in. fold n. rewrite Z.leb_refl. cbn [guard_c].
  replace (Z.to_nat n) with (length l) by lia. rewrite firstn_all.
  set (rb2 := set_storage rb1 _).
  assert (item_buffer rb1) as Hb1.
  { apply (item_buffer_same rb); [done| |done]. apply flags_after_mark. }
  assert (item_buffer rb2) as Hb2 by (by apply (item_buffer_same rb1)).
  assert (item_len rb2 (phys rb2 (xSize rb)) = n /\ item_flags rb2 (phys rb2 (xSize rb)) = 0) as [L2 F2].
  { change (phys rb2 (xSize rb)) with (phys rb (xSize rb)). rewrite Ehd. unfold item_len, item_flags.
    simpl. unfold rbHEADER_SIZE. pos_facts. split; mem_simpl; done. }
  rewrite <- Ehd. change (phys rb (xSize rb)) with (phys rb2 (xSize rb)).
  rewrite (prvSendItemDoneNoSplit_marks rb2 (xSize rb) n w) by (done || lia).
  change (phys rb2 (xSize rb)) with (phys rb (xSize rb)). rewrite Ehd.
  assert (forall m w, phys (set_waiting (set_storage rb2 m) w) a = pucHead rb + a) as Epw by (intros; exact Epa).
  rewrite (rb_fuel_2 rb2 Hb2), (advance_write_dummy _ _ a); [|by apply (item_buffer_same rb2)|..].
  - set (rb3 := set_write _ _).
    rewrite (advance_write_item _ rb3 (xSize rb) n); try done; try lia.
    + by apply (item_buffer_same rb2).
    + change (phys rb3 (xSize rb)) with (phys rb (xSize rb)). rewrite Ehd. unfold item_len. simpl.
      rewrite Epw, Epa. unfold rbHEADER_SIZE. pos_facts. mem_simpl. done.
    + change (xSize rb3) with (xSize rb). rewrite Z.ltb_irrefl. pos_facts. lia.
    + change (phys rb3 (xSize rb)) with (phys rb (xSize rb)). rewrite Ehd. unfold item_flags. simpl.
      rewrite Epw, Epa. unfold rbHEADER_SIZE, rbITEM_WRITTEN_FLAG. pos_facts. mem_simpl. done.
  - rewrite Epw. unfold item_flags. simpl. rewrite ?Epa.
    unfold rbHEADER_SIZE, rbITEM_WRITTEN_FLAG, rbITEM_DUMMY_DATA_FLAG. pos_facts. mem_simpl. done.
  - done.
  - simpl. unfold item_end. rewrite Z.ltb_irrefl. simpl. rewrite phys_hi; unfold rbHEADER_SIZE; pos_facts; lia.
Qed.

(** An item that passes the space check fits before the tail, or at the head. *)
Lemma no_split_room rb f a n :
  item_buffer rb -> no_split rb -> pos_ok (xSize rb) f -> pos_ok (xSize rb) a ->
  f < xSize rb -> f <= a <= f + xSize rb -> 0 <= n <= xMaxItemSize rb ->
  room false (xSize rb) f a n = true ->
  (a + 8 + aligned n <= (if a <? xSize rb then xSize rb else 2 * xSize rb - 8) /\
   item_end (xSize rb) a n <= f + xSize rb) \/
  (a < xSize rb /\ xSize rb < a + 8 + aligned n /\ 8 + aligned n <= f).
Proof.
  intros Hb Hns Hf Ha Hfs Hfa Hn Hroom. pose proof (ns_max _ Hns) as Hmax.
  pose proof (aligned_bounds (xSize rb / 2)) as [Hh1 Hh2].
  unfold room, total_size, item_end in *. pos_facts.
  assert (8 + aligned n <= aligned (xSize rb / 2)).
  { rewrite Hmax in Hn. Z.div_mod_to_equations. lia. }
  assert (2 * aligned (xSize rb / 2) <= xSize rb + 4) by (Z.div_mod_to_equations; lia).
  assert (xSize rb < a + 8 + aligned n -> xSize rb + 4 <= a + 8 + aligned n)
    by (Z.div_mod_to_equations; lia).
  assert (a < 8 + aligned n -> a + 4 <= 8 + aligned n) by (Z.div_mod_to_equations; lia).
  revert Hroom. bool_cases; simpl; intros Hroom; try (left; bool_cases; simpl; lia);
    try (right; lia); try done.
  all: destruct (Z.le_gt_cases (a + 8 + aligned n) (xSize rb)); [left|right]; bool_cases; simpl; lia.
Qed.

Lemma dummy_block_dummy : is_dummy dummy_block = true.
Proof. done. Qed.

Lemma item_block_plain l : is_dummy (item_block l) = false.
Proof. done. Qed.

(** [prvCopyItemNoSplit] appends the item to what is to be read. *)
Lemma prvCopyItemNoSplit_appends rb f r a outs bs l :
  no_split rb -> item_repr rb f r a outs bs ->
  let n := Z.of_nat (length l) in
  n <= xMaxItemSize rb -> room false (xSize rb) f a n = true ->
  exists (d : bool) a' rb', prvCopyItemNoSplit rb l n = Some rb' /\
    item_repr rb' f r a' outs (bs ++ entry_blocks (d, l)) /\ same_object rb rb' /\ no_split rb'.
Proof.
  intros Hns Hr n Hn Hroom. destruct (item_repr_order _ _ _ _ _ _ Hr) as (O1 & O2 & O3).
  pose proof Hr as [Hb Hfs Hf Ha Hlap _ _ _ _ Ew Ea _ Ei].
  pose proof (items_in_bounds bs) as Hib. assert (0 <= n) by lia.
  assert (0 <= items_in bs < 2147483647) as Hw by (pos_facts; lia).
  assert (forall d m a', a < a' <= f + xSize rb -> pos_ok (xSize rb) a' -> only_within rb m a a' ->
    chain (set_storage rb m) a (entry_blocks (d, l)) a' ->
    prvCopyItemNoSplit rb l n = Some (sent rb m a' (items_in bs + 1)) ->
    exists (d : bool) a' rb', prvCopyItemNoSplit rb l n = Some rb' /\
      item_repr rb' f r a' outs (bs ++ entry_blocks (d, l)) /\ same_object rb rb' /\ no_split rb') as Hfin.
  { intros d m a' Ha' Hp' Hm Hch Hrun. exists d, a', (sent rb m a' (items_in bs + 1)).
    assert (items_in (entry_blocks (d, l)) = 1) as E1 by (by destruct d).
    destruct (item_repr_sent rb f r a outs bs m a' _ Hr Ha' Hp' Hm Hch) as (R1 & R2 & R3).
    rewrite E1 in *. split_and!; try done. destruct Hns as [N1 N2 N3 N4].
    split; try done. by rewrite R3. }
  destruct (no_split_room rb f a n) as [[Hfit Hend]|(Has & Hno & Hfit)]; try done; try (pos_facts; lia).
  - destruct (item_end_ok rb a n Hb Ha) as [Hpe Hle]; [done..|].
    destruct (put_item_block rb (storage rb) a l Hb Ha Hn Hfit) as [Hblk Hwi].
    apply (Hfin false (put_item (storage rb) (phys rb a) l) (item_end (xSize rb) a n)); try done.
    + lia.
    + apply Hwi; [lia|done|apply only_within_refl].
    + by apply prvCopyItemNoSplit_straight.
  - assert (phys rb (xSize rb) = pucHead rb) as Ehd by (pos_facts; rewrite phys_hi by lia; lia).
    assert (phys rb a = pucHead rb + a) as Epa by (apply phys_lo; lia).
    assert (pos_ok (xSize rb) (xSize rb)) as Hps by (pos_facts; unfold pos_ok, rbHEADER_SIZE; lia).
    assert (xSize rb + 8 + aligned n <= (if xSize rb <? xSize rb then xSize rb else 2 * xSize rb - 8)) as Hfit2
      by (rewrite Z.ltb_irrefl; pos_facts; lia).
    assert (item_end (xSize rb) (xSize rb) n = xSize rb + 8 + aligned n) as Ee
      by (unfold item_end; by rewrite Z.ltb_irrefl).
    destruct (item_end_ok rb (xSize rb) n Hb Hps) as [Hpe Hle]; [done..|].
    set (m0 := store32 (store32 (storage rb) (phys rb a + 4) rbITEM_DUMMY_DATA_FLAG) (phys rb a) 0).
    destruct (put_item_block rb m0 (xSize rb) l Hb Hps Hn Hfit2) as [Hblk Hwi]. fold n in Hwi.
    eapply (Hfin true _ (item_end (xSize rb) (xSize rb) n)); [lia|done| |
      |apply (prvCopyItemNoSplit_dummy rb a); try done; fold n; lia].
    + apply only_within_store32; [|pos_facts; lia..]. apply Hwi; [lia|reflexivity|].
      apply only_within_store32_0; [|pos_facts; lia..].
      apply only_within_store32; [apply only_within_refl|pos_facts; lia..].
    + fold m0. set (m := store32 _ (phys rb a + 4) _).
      assert (only_within (set_storage rb (put_item m0 (phys rb (xSize rb)) l)) m a (xSize rb)) as Hd
        by (apply (only_within_store32 (set_storage rb (put_item m0 (phys rb (xSize rb)) l)) _ _ _ a 4);
            simpl; [done|pos_facts; lia..]).
      split; [|split; [|done]].
      * split; [done|..|done|done]; change (phys (set_storage rb m) a) with (phys rb a);
          unfold item_len, item_flags; simpl; unfold m, put_item, m0; rewrite Epa, Ehd;
          unfold rbHEADER_SIZE, rbITEM_WRITTEN_FLAG, rbITEM_DUMMY_DATA_FLAG; fold n;
          assert (Z.of_nat (length l) = n) by done; pos_facts; mem_simpl; try done.
        by rewrite load32_store32_same.
      * change (block_at (set_storage rb m) (xSize rb) (item_block l)).
        apply (block_at_frame (set_storage rb (put_item m0 (phys rb (xSize rb)) l))); try done.
        { by apply (item_buffer_same rb). }
        intros w Hw'. apply Hd. intros w' Hw2 E. change (phys rb w = phys rb w') in E.
        change (xSize rb <= w < item_end (xSize rb) (xSize rb) n) in Hw'. pos_facts.
        apply phys_inj in E; lia.
Qed.

(** The free size reported is exact for items of at least a byte. *)
Lemma prvGetCurMaxSizeNoSplit_exact rb f r a outs bs n :
  no_split rb -> item_repr rb f r a outs bs -> 0 < n ->
  (n <=? xRingbufferGetCurFreeSize rb) = (n <=? xMaxItemSize rb) && room false (xSize rb) f a n.
Proof.
  intros Hns Hr Hn. destruct (item_repr_order _ _ _ _ _ _ Hr) as (O1 & O2 & O3).
  destruct Hr as [Hb Hfs Hf Ha Hlap _ _ Efr _ _ Ea Efu _].
  unfold xRingbufferGetCurFreeSize, run_GetCurMaxSize, prvGetCurMaxSizeNoSplit, clamp_free_size.
  rewrite (ns_cur _ Hns), Efr, Ea, Efu. unfold room, total_size. pose proof (ns_max _ Hns) as Hmax.
  pose proof (aligned_bounds (xSize rb / 2)) as [Hh1 Hh2]. pos_facts.
  assert (xSize rb <= 2 * aligned (xSize rb / 2) <= xSize rb + 4) by (Z.div_mod_to_equations; lia).
  assert (forall m, m mod 4 = 0 -> (8 + aligned n <= m <-> 8 + n <= m)) as Hal
    by (intros; Z.div_mod_to_equations; lia).
  pose proof (Hal (xSize rb - a)) as Hal1. pose proof (Hal f) as Hal2. pose proof (Hal (f + xSize rb - a)) as Hal3.
  assert (a < aligned (xSize rb / 2) -> a <= aligned (xSize rb / 2) - 4) by (Z.div_mod_to_equations; lia).
  assert ((xSize rb - a) mod 4 = 0 /\ (f + xSize rb - a) mod 4 = 0) as [M1 M2]
    by (split; Z.div_mod_to_equations; lia).
  specialize (Hal1 M1). specialize (Hal3 M2). specialize (Hal2 ltac:(done)). clear Hal M1 M2.
  rewrite (ib_tail _ Hb). destruct (Z.eqb_spec a (f + xSize rb)) as [E|E].
  - bool_cases; simpl; bool_cases; try done.
  - phys_cases; word_cases; done.
Qed.

(** ** The contract *)

Lemma no_split_send rb k held items l : no_split_repr rb held items ->
  exists ok woken notify rb' k',
    xRingbufferSendFromISR rb k (Some l) (Z.of_nat (length l)) = Some (ok, woken, notify, rb', k') /\
    no_split_repr rb' held (if ok then items ++ [l] else items) /\
    (ok = false -> rb' = rb) /\
    (l <> [] -> ok = (Z.of_nat (length l) <=? xRingbufferGetCurFreeSize rb)) /\
    (held = [] -> items = [] -> ok = (Z.of_nat (length l) <=? xRingbufferGetMaxItemSize rb)).
Proof.
  intros [Hns (f & r & a & out & es & Hr & Ei & Eh)]. pose proof (ir_buf _ _ _ _ _ _ Hr) as Hb.
  unfold xRingbufferGetMaxItemSize, xRingbufferSendFromISR. cbn [guard_c orb].
  rewrite (ib_byte _ Hb). cbn [andb].
  destruct (Z.ltb_spec (xMaxItemSize rb) (Z.of_nat (length l))) as [Hmax|Hmax].
  { eexists false, _, _, rb, k. split_and!; try done.
    - split; [done|]. by exists f, r, a, out, es.
    - intros Hl. apply length_pos in Hl.
      rewrite (prvGetCurMaxSizeNoSplit_exact _ _ _ _ _ _ _ Hns Hr) by done.
      symmetry. apply andb_false_iff. left. apply Z.leb_gt. lia.
    - intros _ _. symmetry. apply Z.leb_gt. lia. }
  unfold run_CheckItemFits, run_CopyItem. rewrite (ib_fits _ Hb), (ns_copy _ Hns).
  rewrite (prvCheckItemFitsDefault_exact rb f r a _ _ (Z.of_nat (length l)) Hr), (ns_flag _ Hns) by lia.
  destruct (room false (xSize rb) f a (Z.of_nat (length l))) eqn:Hroom.
  - destruct (prvCopyItemNoSplit_appends rb f r a _ _ l Hns Hr Hmax Hroom) as (d & a' & rb' & Hrun & Hr' & Hs & Hns').
    change (default [] (Some l)) with l. rewrite Hrun. destruct (notify_receiver_total rb' k) as [[[q h] k'] ->].
    eexists true, _, _, rb', k'. split_and!; try done.
    + split; [done|]. exists f, r, a', out, (es ++ [(d, l)]). split_and!.
      * rewrite flat_map_app. cbn [flat_map]. by rewrite app_nil_r.
      * by rewrite map_app, Ei.
      * rewrite Eh. destruct out as [[? ?]|]; [|done]. rewrite (phys_same rb rb') by done.
        by destruct Hs as (-> & _).
    + intros Hl. apply length_pos in Hl.
      rewrite (prvGetCurMaxSizeNoSplit_exact _ _ _ _ _ _ _ Hns Hr), Hroom by done.
      symmetry. apply andb_true_iff. split; [|done]. apply Z.leb_le. lia.
    + intros _ _. symmetry. by apply Z.leb_le.
  - eexists false, _, _, rb, k. split_and!; try done.
    + split; [done|]. by exists f, r, a, out, es.
    + intros Hl. apply length_pos in Hl.
      rewrite (prvGetCurMaxSizeNoSplit_exact _ _ _ _ _ _ _ Hns Hr), Hroom by done. by rewrite andb_false_r.
    + intros -> ->. destruct out as [[? ?]|]; [done|]. destruct es; [|done].
      destruct Hr as [_ _ _ _ _ Ho Hbs _ _ _ _ _ _]. simpl in Ho, Hbs. subst.
      unfold room in Hroom. by rewrite Z.eqb_refl in Hroom.
Qed.

(** Retrieving the first item. *)
Lemma no_split_get rb f r a outs d l bs :
  item_repr rb f r a outs (entry_blocks (d, l) ++ bs) ->
  let p := phys rb (if d : bool then xSize rb else r) + rbHEADER_SIZE in
  exists v,
    prvGetItemDefault rb = Some (p, Z.of_nat (length l), false, received rb v (items_in bs)) /\
    has_flag (item_flags rb (phys rb r)) rbITEM_WRITTEN_FLAG = true /\
    load_bytes (storage rb) p (Z.of_nat (length l)) = l /\
    item_repr (received rb v (items_in bs)) f v a (outs ++ entry_blocks (d, l)) bs.
Proof.
  intros Hr p. pose proof (ir_bs _ _ _ _ _ _ Hr) as Hbs. pose proof (ir_buf _ _ _ _ _ _ Hr) as Hb.
  assert (phys rb (xSize rb) = pucHead rb) as Ehd by (pos_facts; rewrite phys_hi by lia; lia).
  subst p. destruct d; cbn [entry_blocks fst snd app] in Hbs, Hr.
  - destruct Hbs as (Hblk & Hblk2 & _). exists (block_end (xSize rb) (xSize rb) (item_block l)).
    rewrite Ehd, (prvGetItemDefault_dummy rb f r a outs dummy_block (item_block l) bs) by done.
    split_and!; [done|by rewrite (ba_flags _ _ _ Hblk)| |].
    + pose proof (ba_kind _ _ _ Hblk2) as (_ & _ & H). change (phys _ _) with (phys rb (xSize rb)) in H.
      by rewrite Ehd in H.
    + apply (item_repr_received rb f r a outs [dummy_block; item_block l] bs); [done|]. by split.
  - destruct Hbs as (Hblk & _). exists (block_end (xSize rb) r (item_block l)).
    rewrite (prvGetItemDefault_item rb f r a outs (item_block l) bs) by done.
    split_and!; [done|by rewrite (ba_flags _ _ _ Hblk)| |].
    + by pose proof (ba_kind _ _ _ Hblk) as (_ & _ & H).
    + apply (item_repr_received rb f r a outs [item_block l] bs); [done|]. by split.
Qed.

Lemma no_split_receive rb items : no_split_repr rb [] items ->
  match items with
  | [] => receive_from_isr rb = Some (None, rb)
  | l :: items => exists r rb', receive_from_isr rb = Some (Some r, rb') /\
      part_bytes (storage rb') r = l /\ no_split_repr rb' (map fst (parts r)) items
  end.
Proof.
  intros [Hns (f & r & a & out & es & Hr & -> & Eh)]. destruct out as [[? ?]|]; [done|].
  pose proof (ir_buf _ _ _ _ _ _ Hr) as Hb. pose proof (ir_outs _ _ _ _ _ _ Hr) as Ho. simpl in Ho. subst r.
  unfold receive_from_isr, xRingbufferReceiveFromISR, prvReceiveGenericFromISR, receive_item, run_GetItem.
  rewrite (ns_flag _ Hns), (prvCheckItemAvail_items _ _ _ _ _ _ Hr), (ns_flag _ Hns), (ib_byte _ Hb), (ib_get _ Hb).
  cbn [guard_c negb orb]. destruct es as [|[d l] es]; [done|]. cbn [map snd].
  assert (items_in (flat_map entry_blocks ((d, l) :: es)) = 1 + items_in (flat_map entry_blocks es)) as En
    by (by destruct d; simpl; rewrite !items_in_cons, ?dummy_block_dummy, ?item_block_plain).
  rewrite En. pose proof (items_in_bounds (flat_map entry_blocks es)).
  destruct (Z.ltb_spec 0 (1 + items_in (flat_map entry_blocks es))); [|lia].
  destruct (no_split_get rb f f a [] d l _ Hr) as (v & Hget & Hw & Hload & Hr').
  rewrite Hw, Hget. change (rb_flag (received rb v ?n) rbALLOW_SPLIT_FLAG) with (rb_flag rb rbALLOW_SPLIT_FLAG).
  rewrite (ns_flag _ Hns). eexists _, _. split; [done|]. split.
  - unfold part_bytes, parts. simpl. by rewrite Hload, app_nil_r.
  - split; [by destruct Hns|]. by exists f, v, a, (Some (d, l)), es.
Qed.

(** Returning the only item held frees all that was handed out. *)
Lemma no_split_return_run rb f r a (d : bool) l bs : item_repr rb f r a (entry_blocks (d, l)) bs ->
  exists rb', prvReturnItemDefault rb (phys rb (if d then xSize rb else f) + rbHEADER_SIZE) = Some rb' /\
    same_object rb rb' /\ rb_flag rb' rbALLOW_SPLIT_FLAG = rb_flag rb rbALLOW_SPLIT_FLAG /\
    exists f' a', item_repr rb' f' f' a' [] bs.
Proof.
  intros Hr. pose proof (ir_outs _ _ _ _ _ _ Hr) as Ho. set (u := if d then xSize rb else f).
  assert (chain rb f (if d then [dummy_block] else []) u /\ chain rb u [item_block l] r) as [Hpre Hitem].
  { unfold u. destruct d; simpl in Ho |- *; [by destruct Ho as (? & ? & ?)|by destruct Ho]. }
  apply (item_repr_return_last rb f r a _ _ u bs Hr Hpre Hitem); try done; destruct d; simpl; try lia.
  all: by repeat constructor.
Qed.

Lemma no_split_return rb k held items : no_split_repr rb held items ->
  exists rb' k', return_parts rb k held = Some (rb', k') /\ no_split_repr rb' [] items.
Proof.
  intros [Hns (f & r & a & out & es & Hr & Ei & ->)]. destruct out as [[d l]|].
  2: { exists rb, k. split; [done|]. split; [done|]. by exists f, r, a, None, es. }
  pose proof (ir_buf _ _ _ _ _ _ Hr) as Hb. destruct (item_repr_order _ _ _ _ _ _ Hr) as (O1 & O2 & O3).
  destruct (no_split_return_run rb f r a d l _ Hr) as (rb1 & Hrun & Hs & Hfl & f' & a' & Hr').
  destruct (vRingbufferReturnItem_run rb rb1 k (phys rb (if d then xSize rb else f) + rbHEADER_SIZE))
    as (h & k' & E).
  - pose proof (ir_fpos _ _ _ _ _ _ Hr). unfold NULL. pos_facts. destruct d; phys_cases; lia.
  - unfold run_ReturnItem. by rewrite (ib_ret _ Hb).
  - exists rb1, k'. unfold return_parts, vRingbufferReturnItemFromISR. rewrite E. split; [done|]. split.
    + destruct Hs as (E1 & E2 & _ & _ & _ & E3 & _ & _ & E4 & _), Hns as [N1 N2 N3 N4].
      split; rewrite ?E1, ?E2, ?E3, ?E4, ?Hfl; done.
    + by exists f', f', a', None, es.
Qed.

#[export] Instance no_split_item_queue : ItemQueue no_split_repr.
Proof.
  split; [|apply no_split_receive|apply no_split_return].
  intros rb k held items l Hr.
  destruct (no_split_send rb k held items l Hr) as (ok & w & q & rb' & k' & E & H1 & H2 & H3 & H4).
  exists ok, w, q, rb', k'. split_and!; try done. intros Hl Hle. rewrite H3 by done. by apply Z.leb_le.
Qed.

(** ** The users' theorem *)

Lemma created_no_split size h s m k :
  13 <= size <= 2147483644 -> 0 < s -> s mod 4 = 0 -> s + size + 3 < 4294967296 ->
  no_split_repr (fst (prvInitializeNewRingbuffer (aligned size) RINGBUF_TYPE_NOSPLIT h s m k)) [] [].
Proof.
  intros Hs Hst Hst4 H32. set (rb := fst _).
  destruct (aligned_bounds size) as [A1 A2]. destruct (aligned_bounds (aligned size / 2)) as [B1 B2].
  assert (16 <= aligned size) by (Z.div_mod_to_equations; lia).
  assert (xMaxItemSize rb = aligned (aligned size / 2) - rbHEADER_SIZE /\
    0 <= aligned (aligned size / 2) - rbHEADER_SIZE <= aligned size - 16) as [Em Hm].
  { assert (8 <= aligned size / 2 <= 1073741824) by (split; Z.div_mod_to_equations; lia).
    unfold rbHEADER_SIZE. assert (8 <= aligned (aligned size / 2) <= aligned size - 8)
      by (split; [lia|Z.div_mod_to_equations; lia]).
    split; [|lia]. simpl. rewrite rbALIGN_SIZE_aligned, u32_small by (unfold rbHEADER_SIZE; lia). done. }
  split; [by split|]. exists 0, 0, 0, None, []. split; [|done].
  apply item_repr_fresh; try done. split; try done; try (simpl; lia). rewrite Em. simpl. lia.
Qed.

(** C21: a no-split buffer is a queue of whole items. From a freshly created buffer
    of at least 13 bytes, through any sequence of sends, receives and returns by
    users that hold at most one item, no assertion fails, items are delivered
    whole, intact and in the order they were accepted, and an empty buffer
    accepts exactly the items of at most the maximum size. *)
Theorem no_split_queue size h s m k ops :
  13 <= size <= 2147483644 -> 0 < h -> 0 < s -> s mod 4 = 0 -> s + size + 3 < 4294967296 ->
  exists rb k0,
    xRingbufferCreate size RINGBUF_TYPE_NOSPLIT h s m k = Some (Some (rb, k0)) /\
    xMaxItemSize rb = aligned (aligned size / 2) - rbHEADER_SIZE /\
    item_service rb k0 ops.
Proof.
  intros Hs Hh Hst Hst4 H32. rewrite xRingbufferCreate_items by (unfold NULL; try done; lia).
  pose proof (created_no_split size h s m k Hs Hst Hst4 H32) as Hr.
  destruct (prvInitializeNewRingbuffer _ _ _ _ _ _) as [rb k0] eqn:E. exists rb, k0.
  split_and!; [done| |by apply (item_queue no_split_repr)].
  simpl in Hr. destruct Hr as [Hns _]. rewrite (ns_max _ Hns). by injection E as <- _.
Qed.

Lemma no_split_queue_witness :
  exists rb k0,
    xRingbufferCreate 32 RINGBUF_TYPE_NOSPLIT 1000 2000 (fun _ => 0) demo_kernel = Some (Some (rb, k0)) /\
    xMaxItemSize rb = aligned (aligned 32 / 2) - rbHEADER_SIZE /\
    item_service rb k0 [SendItem [1; 2; 3]; SendItem [4]; ReceiveItem; SendItem [5]; ReturnItem].
Proof. apply no_split_queue; (lia || done). Defined.

(** The free size a no-split buffer reports is exact: whatever is in the buffer
    and held by its user, a send of an item of at least one byte succeeds if and
    only if the item is no larger. *)
Theorem xRingbufferGetCurFreeSize_exact rb k held items l :
  no_split_repr rb held items -> l <> [] ->
  exists woken notify rb' k',
    xRingbufferSendFromISR rb k (Some l) (Z.of_nat (length l)) =
      Some (Z.of_nat (length l) <=? xRingbufferGetCurFreeSize rb, woken, notify, rb', k').
Proof.
  intros Hr Hl. destruct (no_split_send rb k held items l Hr) as (ok & w & q & rb' & k' & E & _ & _ & Hok & _).
  rewrite <- (Hok Hl). by exists w, q, rb', k'.
Qed.

Lemma xRingbufferGetCurFreeSize_exact_witness :
  let rb := fst (prvInitializeNewRingbuffer (aligned 32) RINGBUF_TYPE_NOSPLIT 1000 2000 (fun _ => 0) demo_kernel) in
  exists woken notify rb' k',
    xRingbufferSendFromISR rb demo_kernel (Some [1; 2]) 2 =
      Some (2 <=? xRingbufferGetCurFreeSize rb, woken, notify, rb', k').
Proof.
  intros rb. apply (xRingbufferGetCurFreeSize_exact rb demo_kernel [] [] [1; 2]); [|done].
  apply created_no_split; (lia || done).
Defined.

(** ** A small client *)

Definition fresh_no_split (size : Z) : Ringbuffer_t :=
  fst (prvInitializeNewRingbuffer size RINGBUF_TYPE_NOSPLIT 1000 2000 (fun _ => 0) demo_kernel).

Definition client_send (rb : Ringbuffer_t) (l : list Z) : option (bool * Ringbuffer_t) :=
  let! (ok, _, _, rb, _) :=
    xRingbufferSendFromISR rb demo_kernel (Some l) (Z.of_nat (length l)) in
  Some (ok, rb).

(** The address of the item received and its bytes. *)
Definition client_receive (rb : Ringbuffer_t) : option (option (Z * list Z) * Ringbuffer_t) :=
  let! (r, rb) := xRingbufferReceiveFromISR rb in
  Some (match r with
        | None => None
        | Some r => Some (rr_item1 r, load_bytes (storage rb) (rr_item1 r) (rr_size1 r))
        end, rb).

Definition client_return (rb : Ringbuffer_t) (p : Z) : option Ringbuffer_t :=
  let! (_, rb, _) := vRingbufferReturnItemFromISR rb demo_kernel p in Some rb.

(** ** Returning one of two outstanding items frees both

    A 32-byte buffer holds two 8-byte items.  Both are received, so it is full
    and further sends are refused.  One is returned: [pucFree] equals both
    [pucRead] and [pucAcquire], which [prvReturnItemDefault] takes for a buffer
    freed in one go.  Two more sends then succeed, and the second overwrites the
    item still being held. *)
Lemma return_frees_outstanding_item :
  (let! (s1, rb) := client_send (fresh_no_split 32) (repeat 1 8) in
   let! (s2, rb) := client_send rb (repeat 2 8) in
   let! (i1, rb) := client_receive rb in
   let! (i2, rb) := client_receive rb in
   let! (full, _) := client_send rb (repeat 3 8) in
   let! rb := client_return rb 2008 in
   let! (s3, rb) := client_send rb (repeat 3 8) in
   let! (s4, rb) := client_send rb (repeat 3 8) in
   Some (s1 && s2 && s3 && s4, full, i1, i2, load_bytes (storage rb) 2024 8)) =
  Some (true, false, Some (2008, repeat 1 8), Some (2024, repeat 2 8), repeat 3 8).
Proof. vm_compute. reflexivity. Qed.

(** ** An acquired item is received before it is completed

    Two items are acquired past a wrap, so a dummy item precedes the first; the
    second is completed first.  [prvCheckItemAvail] looks at the flags of the
    dummy, and [prvGetItemDefault] then hands out the first item, never
    written. *)
Lemma receive_returns_unwritten_item :
  (let! (_, rb) := client_send (fresh_no_split 64) (repeat 1 24) in
   let! (_, rb) := client_send rb (repeat 2 8) in
   let! (_, rb) := client_receive rb in
   let! (_, rb) := client_receive rb in
   let! rb := client_return rb 2008 in
   let! rb := client_return rb 2040 in
   let! (p1, rb) := prvAcquireItemNoSplit rb 16 in
   let! (p2, rb) := prvAcquireItemNoSplit rb 8 in
   let! (_, rb, _) := xRingbufferSendComplete rb demo_kernel p2 in
   let! (i, rb) := client_receive rb in
   Some (p1, p2, i)) =
  Some (2008, 2032, Some (2008, repeat 1 16)).
Proof. vm_compute. reflexivity. Qed.

(** ** A buffer too small for one item

    [xRingbufferCreate] accepts any size but zero; below two headers the
    maximum item size wraps. *)
Lemma tiny_buffer_wraps_max_item_size :
  xMaxItemSize (fresh_no_split (rounded_size 4 RINGBUF_TYPE_NOSPLIT)) = 4294967292 /\
  xMaxItemSize (fst (prvInitializeNewRingbuffer 8 RINGBUF_TYPE_ALLOWSPLIT 1000 2000
                       (fun _ => 0) demo_kernel)) = 4294967288.
Proof. by vm_compute. Qed.
