(* ===== verification/RingbufAllowSplit.v ===== *)
(** * Allow-split ring buffers: whole items in up to two pieces

    The allow-split functions of ringbuf.c meet the contract [ItemQueue] as
    well: an item that does not fit before the tail is stored in two parts, which
    a receive hands out together. *)

From stdpp Require Import base list option gmap.
From Stdlib Require Import ZArith Lia.
From S2P Require Import Prelude FreeRTOSList Kernel Ringbuf RingbufQueue RingbufItems.

Record allow_split (rb : Ringbuffer_t) : Prop := {
  as_copy : vCopyItem rb = CopyItemAllowSplit;
  as_flag : rb_flag rb rbALLOW_SPLIT_FLAG = true;
  as_max : xMaxItemSize rb = xSize rb - 2 * rbHEADER_SIZE;
  as_cur : xGetCurMaxSize rb = GetCurMaxSizeAllowSplit }.

(** ** Items as blocks *)

Inductive split_entry :=
| Whole (l : list Z)
| AfterDummy (l : list Z)          (* only a header fits before the tail *)
| InTwo (l1 l2 : list Z).

Definition plain_block (l : list Z) : block := mkBlock 0 l.
Definition skip_block : block := mkBlock rbITEM_DUMMY_DATA_FLAG [].
Definition first_block (l : list Z) : block := mkBlock rbITEM_SPLIT_FLAG l.

Definition split_blocks (e : split_entry) : list block :=
  match e with
  | Whole l => [plain_block l]
  | AfterDummy l => [skip_block; plain_block l]
  | InTwo l1 l2 => [first_block l1; plain_block l2]
  end.

Definition entry_item (e : split_entry) : list Z :=
  match e with Whole l | AfterDummy l => l | InTwo l1 l2 => l1 ++ l2 end.

(** The addresses handed out for an entry stored at [f]. *)
Definition entry_parts (rb : Ringbuffer_t) (f : Z) (e : split_entry) : list Z :=
  match e with
  | Whole _ => [phys rb f + rbHEADER_SIZE]
  | AfterDummy _ => [phys rb (xSize rb) + rbHEADER_SIZE]
  | InTwo _ _ => [phys rb f + rbHEADER_SIZE; phys rb (xSize rb) + rbHEADER_SIZE]
  end.

Definition allow_split_repr (rb : Ringbuffer_t) (held : list Z) (items : list (list Z)) : Prop :=
  allow_split rb /\ exists f r a out es,
    item_repr rb f r a (match out with None => [] | Some e => split_blocks e end)
      (flat_map split_blocks es) /\
    items = map entry_item es /\
    held = match out with None => [] | Some e => entry_parts rb f e end.

(** ** Sending *)

(** The header and data of an item or of the last part of one. *)
Definition put_plain (m : memory) (p : Z) (l : list Z) : memory :=
  store_bytes (store32 (store32 m p (Z.of_nat (length l))) (p + 4) 0) (p + rbHEADER_SIZE) l.

Lemma put_plain_block rb m v l :
  item_buffer rb -> pos_ok (xSize rb) v -> Z.of_nat (length l) <= xMaxItemSize rb ->
  v + 8 + aligned (Z.of_nat (length l)) <= (if v <? xSize rb then xSize rb else 2 * xSize rb - 8) ->
  block_at (set_storage rb (put_plain m (phys rb v) l)) v (plain_block l) /\
  (forall lo hi, lo <= v -> item_end (xSize rb) v (Z.of_nat (length l)) <= hi ->
     only_within rb m lo hi -> only_within rb (put_plain m (phys rb v) l) lo hi).
Proof.
  intros Hb Hv Hmax Hfit. set (n := Z.of_nat (length l)) in *. assert (0 <= n) by lia.
  unfold put_plain. fold n. unfold rbHEADER_SIZE. split.
  - pos_facts. split; [by unfold pos_ok|..]; simpl; unfold item_len, item_flags, block_len;
      change (phys (set_storage rb ?m) v) with (phys rb v); simpl; fold n.
    + mem_simpl. done.
    + mem_simpl. done.
    + done.
    + split_and!; [done..|]. mem_simpl. done.
  - intros lo hi Hlo Hhi Hm. unfold item_end in Hhi. pos_facts.
    assert (v + 8 + n <= hi /\ (v < xSize rb -> v + 8 + n <= xSize rb)) as [? ?]
      by (revert Hhi Hfit; bool_cases; simpl; bool_cases; lia).
    repeat first [exact Hm | apply only_within_store32_0; [|lia..]
      | apply only_within_store32; [|lia..] | apply only_within_store; [|lia..]].
Qed.

(** The end of [prvCopyItemAllowSplit]: the item, or what is left of it, goes
    to the acquire pointer. *)
Definition copy_last (rb : Ringbuffer_t) (pucItem : list Z) (xItemSize xAlignedItemSize : Z) :
    option Ringbuffer_t :=
  let pxSecondHeader := pucAcquire rb in
  let rb := set_item_len rb pxSecondHeader xItemSize in
  let rb := set_item_flags rb pxSecondHeader 0 in
  let rb := set_acquire rb (pucAcquire rb + rbHEADER_SIZE) in
  let! rb := memcpy_in rb (pucAcquire rb) pucItem xItemSize in
  let rb := set_waiting rb (s32 (xItemsWaiting rb + 1)) in
  let rb := set_acquire rb (pucAcquire rb + xAlignedItemSize) in
  let rb := set_acquire rb (wrap_if_short rb (pucAcquire rb)) in
  let rb := mark_full_if_caught_up rb in
  Some (set_write rb (pucAcquire rb)).

Lemma copy_last_run rb a l w :
  item_buffer rb -> pos_ok (xSize rb) a -> pucAcquire rb = phys rb a ->
  xItemsWaiting rb = w -> 0 <= w < 2147483647 ->
  let n := Z.of_nat (length l) in
  n <= xMaxItemSize rb ->
  a + 8 + aligned n <= (if a <? xSize rb then xSize rb else 2 * xSize rb - 8) ->
  copy_last rb l n (aligned n) =
    Some (sent rb (put_plain (storage rb) (phys rb a) l) (item_end (xSize rb) a n) (w + 1)).
Proof.
  intros Hb Ha Ea Ei Hw n Hn Hfit. assert (0 <= n) by lia.
  pose proof (wrap_phys rb) as Hwr. specialize (fun rb' => Hwr rb' a n Hb Ha H Hfit).
  unfold copy_last, memcpy_in. rewrite Ea. simpl. fold n. rewrite Z.leb_refl. simpl.
  replace (Z.to_nat n) with (length l) by lia. rewrite firstn_all, mark_full_flags. simpl.
  rewrite Ei, s32_small by lia. rewrite Ea, <- (Z.add_assoc (phys rb a)).
  unfold rbHEADER_SIZE in *. rewrite Hwr by done. done.
Qed.

(** What [prvCopyItemAllowSplit] does where the item does not fit before the
    tail: the first part, or a dummy. *)
Definition copy_first (rb : Ringbuffer_t) (pucItem : list Z) (xItemSize xAlignedItemSize xRemLen : Z) :
    option (Ringbuffer_t * list Z * Z * Z) :=
  let pxFirstHeader := pucAcquire rb in
  let rb := set_item_flags rb pxFirstHeader 0 in
  let rb := set_item_len rb pxFirstHeader (u32 (xRemLen - rbHEADER_SIZE)) in
  let rb := set_acquire rb (pucAcquire rb + rbHEADER_SIZE) in
  let xRemLen := u32 (xRemLen - rbHEADER_SIZE) in
  if 0 <? xRemLen then
    let! rb := memcpy_in rb (pucAcquire rb) pucItem xRemLen in
    let rb := set_waiting rb (s32 (xItemsWaiting rb + 1)) in
    let rb := set_item_flags rb pxFirstHeader
                (set_flag (item_flags rb pxFirstHeader) rbITEM_SPLIT_FLAG) in
    Some (set_acquire rb (pucHead rb), drop (Z.to_nat xRemLen) pucItem,
          u32 (xItemSize - xRemLen), u32 (xAlignedItemSize - xRemLen))
  else
    let rb := set_item_flags rb pxFirstHeader
                (set_flag (item_flags rb pxFirstHeader) rbITEM_DUMMY_DATA_FLAG) in
    Some (set_acquire rb (pucHead rb), pucItem, xItemSize, xAlignedItemSize).

Lemma prvCopyItemAllowSplit_run rb a l :
  item_buffer rb -> pos_ok (xSize rb) a -> pucAcquire rb = phys rb a ->
  let n := Z.of_nat (length l) in
  n <= xMaxItemSize rb ->
  prvCopyItemAllowSplit rb l n =
    if pucTail rb - phys rb a <? 8 + aligned n
    then let! (rb, l, n, al) := copy_first rb l n (aligned n) (pucTail rb - phys rb a) in
         copy_last rb l n al
    else copy_last rb l n (aligned n).
Proof.
  intros Hb Ha Ea n Hn. assert (0 <= n) by lia. destruct (phys_aligned rb a Hb Ha) as [Hal Hbd].
  unfold prvCopyItemAllowSplit, acquire_in_bounds. rewrite Ea, Hal. pos_facts.
  rewrite !(u32_small (pucTail rb - phys rb a)), rbALIGN_SIZE_aligned by lia.
  rewrite (Z.add_comm (aligned n)), !(u32_small (8 + aligned n)) by lia.
  destruct (Z.leb_spec (pucHead rb) (phys rb a)); [|lia].
  destruct (Z.ltb_spec (phys rb a) (pucTail rb)); [|lia].
  destruct (Z.leb_spec 8 (pucTail rb - phys rb a)); [|lia]. cbn [guard_c andb].
  destruct (pucTail rb - phys rb a <? 8 + aligned n).
  - unfold copy_first, rbHEADER_SIZE. rewrite Ea. destruct (0 <? _); [|done].
    destruct (memcpy_in _ _ _ _); done.
  - done.
Qed.

(** Where only a header fits, a dummy takes it; *)
Definition put_skip (m : memory) (p : Z) : memory :=
  store32 (store32 (store32 m (p + 4) 0) p 0) (p + 4) rbITEM_DUMMY_DATA_FLAG.

Lemma put_skip_block rb m a : item_buffer rb -> pos_ok (xSize rb) a -> a + 8 = xSize rb ->
  block_at (set_storage rb (put_skip m (phys rb a))) a skip_block /\
  (only_within rb m a (xSize rb) -> only_within rb (put_skip m (phys rb a)) a (xSize rb)).
Proof.
  intros Hb Ha Hend. unfold put_skip, rbITEM_DUMMY_DATA_FLAG. split.
  - split; [done|..]; unfold item_len, item_flags; change (phys (set_storage rb ?m) a) with (phys rb a); simpl.
    + by mem_simpl.
    + by mem_simpl.
    + done.
    + split; [lia|done].
  - intros Hm. pos_facts.
    repeat first [exact Hm | apply only_within_store32_0; [|lia..] | apply only_within_store32; [|lia..]].
Qed.

Lemma copy_first_skip rb a l n al :
  pucAcquire rb = phys rb a ->
  copy_first rb l n al 8 =
    Some (set_acquire (set_storage rb (put_skip (storage rb) (phys rb a))) (pucHead rb), l, n, al).
Proof.
  intros Ea. unfold copy_first, put_skip. rewrite Ea. cbn [Z.ltb Z.sub Z.add u32 Z.modulo].
  replace (u32 (8 - rbHEADER_SIZE)) with 0 by done. cbn [Z.ltb Z.compare].
  unfold set_item_flags, item_flags at 1. simpl. mem_simpl. done.
Qed.

(** otherwise the first part of the item. *)
Definition put_first (m : memory) (p : Z) (l : list Z) : memory :=
  store32 (store_bytes (store32 (store32 m (p + 4) 0) p (Z.of_nat (length l))) (p + rbHEADER_SIZE) l)
    (p + 4) rbITEM_SPLIT_FLAG.

Lemma put_first_block rb m a l : item_buffer rb -> pos_ok (xSize rb) a ->
  Z.of_nat (length l) <= xMaxItemSize rb -> Z.of_nat (length l) mod 4 = 0 ->
  a + 8 + Z.of_nat (length l) = xSize rb ->
  block_at (set_storage rb (put_first m (phys rb a) l)) a (first_block l) /\
  (only_within rb m a (xSize rb) -> only_within rb (put_first m (phys rb a) l) a (xSize rb)).
Proof.
  intros Hb Ha Hmax H4 Hend. set (k := Z.of_nat (length l)) in *. assert (0 <= k) by lia.
  assert (aligned k = k) as Eal by (unfold aligned; Z.div_mod_to_equations; lia).
  unfold put_first. fold k. unfold rbHEADER_SIZE, rbITEM_SPLIT_FLAG. split.
  - pos_facts. split; [by unfold pos_ok|..]; simpl; unfold item_len, item_flags, block_len;
      change (phys (set_storage rb ?m) a) with (phys rb a); simpl; fold k.
    + mem_simpl. done.
    + mem_simpl. done.
    + intros _. unfold rbHEADER_SIZE. lia.
    + rewrite Eal. split_and!; [done|bool_cases; lia|]. mem_simpl. done.
  - intros Hm. pos_facts.
    repeat first [exact Hm | apply only_within_store32_0; [|lia..]
      | apply only_within_store32; [|lia..] | apply only_within_store; [|lia..]].
Qed.

Lemma copy_first_split rb a l n al w k :
  item_buffer rb -> pucAcquire rb = phys rb a -> xItemsWaiting rb = w -> 0 <= w < 2147483647 ->
  0 < k -> k <= n -> n = Z.of_nat (length l) -> n <= al < 4294967296 -> k < 4294967288 ->
  copy_first rb l n al (k + 8) =
    Some (set_acquire (set_waiting (set_storage rb
            (put_first (storage rb) (phys rb a) (take (Z.to_nat k) l))) (w + 1)) (pucHead rb),
          drop (Z.to_nat k) l, n - k, al - k).
Proof.
  intros Hb Ea Ei Hw Hk Hkn -> Hal Hk32. unfold copy_first, put_first, memcpy_in, rbHEADER_SIZE. rewrite Ea.
  replace (k + 8 - 8) with k by lia. rewrite (u32_small k), !u32_small by lia.
  destruct (Z.ltb_spec 0 k); [|lia]. simpl. destruct (Z.leb_spec k (Z.of_nat (length l))); [|lia]. simpl.
  assert (Z.of_nat (length (take (Z.to_nat k) l)) = k) as -> by (rewrite length_take; lia).
  unfold set_item_flags, item_flags at 1. simpl. rewrite Ea, Ei, s32_small by lia.
  rewrite load32_store_bytes_other by (rewrite length_take; lia). rewrite load32_store32_other by lia.
  rewrite load32_store32_same by done. done.
Qed.

(** An item that passes the space check fits before the tail, or its rest fits
    at the head. *)
Lemma allow_split_room rb f a n :
  item_buffer rb -> allow_split rb -> pos_ok (xSize rb) f -> pos_ok (xSize rb) a ->
  f < xSize rb -> f <= a <= f + xSize rb -> 0 <= n <= xMaxItemSize rb ->
  room true (xSize rb) f a n = true ->
  (a + 8 + aligned n <= (if a <? xSize rb then xSize rb else 2 * xSize rb - 8) /\
   item_end (xSize rb) a n <= f + xSize rb) \/
  (a < xSize rb /\ xSize rb < a + 8 + aligned n /\ a + 16 + aligned n <= xSize rb + f).
Proof.
  intros Hb Hns Hf Ha Hfs Hfa Hn Hroom. pose proof (as_max _ Hns) as Hmax.
  unfold room, total_size, item_end in *. pos_facts.
  assert (aligned n <= xSize rb - 16) by (Z.div_mod_to_equations; lia).
  revert Hroom. bool_cases; simpl; intros Hroom; try (left; bool_cases; simpl; lia);
    try (right; lia); try done.
  all: destruct (Z.le_gt_cases (a + 8 + aligned n) (xSize rb)); [left|right]; bool_cases; simpl; lia.
Qed.

Lemma aligned_sub n k : k mod 4 = 0 -> aligned (n - k) = aligned n - k.
Proof. intros. unfold aligned. Z.div_mod_to_equations. lia. Qed.

(** A block up to the tail and then one at the head. *)
Lemma two_blocks rb m1 a b1 l2 : item_buffer rb -> pos_ok (xSize rb) a -> a < xSize rb ->
  let n2 := Z.of_nat (length l2) in
  block_at (set_storage rb m1) a b1 -> block_end (xSize rb) a b1 = xSize rb ->
  only_within rb m1 a (xSize rb) -> n2 <= xMaxItemSize rb -> 8 + aligned n2 <= a ->
  let m := put_plain m1 (phys rb (xSize rb)) l2 in
  let e := xSize rb + 8 + aligned n2 in
  pos_ok (xSize rb) e /\ chain (set_storage rb m) a [b1; plain_block l2] e /\ only_within rb m a e.
Proof.
  intros Hb Ha Has n2 Hblk Hend Hm1 Hn Hfit m e. assert (0 <= n2) by lia.
  assert (pos_ok (xSize rb) (xSize rb)) as Hps by (pos_facts; unfold pos_ok, rbHEADER_SIZE; lia).
  assert (xSize rb + 8 + aligned n2 <= (if xSize rb <? xSize rb then xSize rb else 2 * xSize rb - 8)) as Hfit2
    by (rewrite Z.ltb_irrefl; pos_facts; lia).
  assert (item_end (xSize rb) (xSize rb) n2 = e) as Ee by (unfold item_end; by rewrite Z.ltb_irrefl).
  destruct (item_end_ok rb (xSize rb) n2 Hb Hps) as [Hpe Hle]; [done..|].
  destruct (put_plain_block rb m1 (xSize rb) l2 Hb Hps Hn Hfit2) as [Hblk2 Hwi].
  fold n2 in Hwi. fold m in Hblk2, Hwi. rewrite Ee in *. split_and!; [done| |].
  - split; [|split].
    + apply (block_at_frame (set_storage rb m1)); try done; [by apply (item_buffer_same rb)|].
      intros w Hw. change (xSize (set_storage rb m1)) with (xSize rb) in Hw. rewrite Hend in Hw.
      destruct (put_plain_block (set_storage rb m1) m1 (xSize rb) l2) as [_ Hwi2]; try done.
      { by apply (item_buffer_same rb). }
      change (m (phys rb w) = m1 (phys rb w)).
      apply (Hwi2 (xSize rb) e); [lia| |done|].
      { change (item_end (xSize rb) (xSize rb) n2 <= e). lia. }
      intros w' Hw' E. change (phys rb w = phys rb w') in E. pos_facts. apply phys_inj in E; lia.
    + change (xSize (set_storage rb m)) with (xSize rb). by rewrite Hend.
    + change (xSize (set_storage rb m)) with (xSize rb). rewrite Hend. exact Ee.
  - apply Hwi; [lia|done|]. eapply only_within_sub; [exact Hm1|lia|]. unfold e. pos_facts. lia.
Qed.

Section append.
Context (rb : Ringbuffer_t) (f r a : Z) (outs bs : list block) (l : list Z).
Context (Hns : allow_split rb) (Hr : item_repr rb f r a outs bs).
Let n := Z.of_nat (length l).

Definition appended (e : split_entry) : Prop :=
  exists a' rb', prvCopyItemAllowSplit rb l n = Some rb' /\ entry_item e = l /\
    item_repr rb' f r a' outs (bs ++ split_blocks e) /\ same_object rb rb' /\ allow_split rb'.

Lemma appended_sent e m a' :
  a < a' <= f + xSize rb -> pos_ok (xSize rb) a' -> only_within rb m a a' ->
  chain (set_storage rb m) a (split_blocks e) a' -> entry_item e = l ->
  prvCopyItemAllowSplit rb l n = Some (sent rb m a' (items_in bs + items_in (split_blocks e))) ->
  appended e.
Proof.
  intros Ha' Hp' Hm Hch He Hrun.
  destruct (item_repr_sent rb f r a outs bs m a' _ Hr Ha' Hp' Hm Hch) as (R1 & R2 & R3).
  eexists a', _. split_and!; try done. destruct Hns as [N1 N2 N3 N4].
  split; try done. by rewrite R3.
Qed.

(** Straight, when the item fits before the tail. *)
Lemma append_straight :
  n <= xMaxItemSize rb ->
  a + 8 + aligned n <= (if a <? xSize rb then xSize rb else 2 * xSize rb - 8) ->
  item_end (xSize rb) a n <= f + xSize rb -> appended (Whole l).
Proof.
  intros Hn Hfit Hend. destruct (item_repr_order _ _ _ _ _ _ Hr) as (O1 & O2 & O3).
  pose proof Hr as [Hb Hfs Hf Ha Hlap _ _ _ _ Ew Ea _ Ei]. pose proof (items_in_bounds bs).
  assert (0 <= n) by (unfold n; lia).
  destruct (item_end_ok rb a n Hb Ha) as [Hpe Hle]; [done..|].
  destruct (put_plain_block rb (storage rb) a l Hb Ha Hn Hfit) as [Hblk Hwi].
  apply (appended_sent _ (put_plain (storage rb) (phys rb a) l) (item_end (xSize rb) a n)); try done.
  - lia.
  - apply Hwi; [lia|done|apply only_within_refl].
  - rewrite (prvCopyItemAllowSplit_run rb a) by done. fold n.
    destruct (Z.ltb_spec (pucTail rb - phys rb a) (8 + aligned n)).
    + exfalso. revert Hfit. pos_facts. bool_cases; phys_cases; lia.
    + by apply copy_last_run; try done; pos_facts; lia.
Qed.

(** A dummy and then the item, when only a header fits before the tail. *)
Lemma append_skip :
  n <= xMaxItemSize rb -> a + 8 = xSize rb -> 0 < aligned n -> 8 + aligned n <= f ->
  appended (AfterDummy l).
Proof.
  intros Hn Htail Hpos Hfit. destruct (item_repr_order _ _ _ _ _ _ Hr) as (O1 & O2 & O3).
  pose proof Hr as [Hb Hfs Hf Ha Hlap _ _ _ _ Ew Ea _ Ei]. pose proof (items_in_bounds bs).
  assert (0 <= n) by (unfold n; lia).
  assert (phys rb (xSize rb) = pucHead rb) as Ehd by (pos_facts; rewrite phys_hi by lia; lia).
  destruct (put_skip_block rb (storage rb) a Hb Ha Htail) as [Hblk Hwi].
  set (m1 := put_skip (storage rb) (phys rb a)) in *.
  destruct (two_blocks rb m1 a skip_block l Hb Ha) as (Hpe & Hch & Hm); try done; fold n; try lia.
  { apply Hwi, only_within_refl. }
  fold n in Hpe, Hch, Hm.
  apply (appended_sent _ (put_plain m1 (phys rb (xSize rb)) l) (xSize rb + 8 + aligned n)); try done.
  - pos_facts. lia.
  - rewrite (prvCopyItemAllowSplit_run rb a) by done. fold n.
    assert (pucTail rb - phys rb a = 8) as -> by (pos_facts; rewrite phys_lo by lia; lia).
    destruct (Z.ltb_spec 8 (8 + aligned n)); [|lia].
    rewrite (copy_first_skip rb a) by done. fold m1. set (rb1 := set_acquire _ _).
    unfold n. rewrite (copy_last_run rb1 (xSize rb) l (items_in bs)); fold n; try done.
    + change (item_end (xSize rb1) (xSize rb) n) with (item_end (xSize rb) (xSize rb) n).
      unfold item_end. rewrite Z.ltb_irrefl. done.
    + by apply (item_buffer_same rb).
    + change (pos_ok (xSize rb) (xSize rb)). pos_facts. unfold pos_ok, rbHEADER_SIZE. lia.
    + pos_facts. lia.
    + change (xSize rb1) with (xSize rb). fold n. rewrite Z.ltb_irrefl. pos_facts. lia.
Qed.

(** Two parts. *)
Lemma append_split :
  n <= xMaxItemSize rb -> a + 8 < xSize rb -> xSize rb < a + 8 + aligned n ->
  a + 16 + aligned n <= xSize rb + f ->
  let k := Z.to_nat (xSize rb - a - 8) in
  appended (InTwo (take k l) (drop k l)).
Proof.
  intros Hn Htail Hno Hfit k. destruct (item_repr_order _ _ _ _ _ _ Hr) as (O1 & O2 & O3).
  pose proof Hr as [Hb Hfs Hf Ha Hlap _ _ _ _ Ew Ea _ Ei]. pose proof (items_in_bounds bs).
  assert (0 <= n) by (unfold n; lia). set (q := xSize rb - a - 8) in *.
  assert (q mod 4 = 0) as Hq4 by (unfold q; pos_facts; Z.div_mod_to_equations; lia).
  assert (q < n) as Hqn by (unfold q in *; pos_facts; Z.div_mod_to_equations; lia).
  assert (Z.of_nat (length (take k l)) = q) as Ek by (rewrite length_take; unfold k, n in *; lia).
  assert (Z.of_nat (length (drop k l)) = n - q) as Ed by (rewrite length_drop; unfold k, n in *; lia).
  assert (phys rb (xSize rb) = pucHead rb) as Ehd by (pos_facts; rewrite phys_hi by lia; lia).
  destruct (put_first_block rb (storage rb) a (take k l) Hb Ha) as [Hblk Hwi]; [rewrite Ek; lia..|].
  set (m1 := put_first (storage rb) (phys rb a) (take k l)) in *.
  assert (aligned (n - q) = aligned n - q) as Ea2 by (by apply aligned_sub).
  destruct (two_blocks rb m1 a (first_block (take k l)) (drop k l) Hb Ha) as (Hpe & Hch & Hm); try done;
    rewrite ?Ed, ?Ea2 in *; try lia.
  { unfold block_end, item_end, block_len. cbn [is_dummy first_block b_data b_flags].
    change (has_flag rbITEM_SPLIT_FLAG rbITEM_DUMMY_DATA_FLAG) with false. cbn [andb]. rewrite Ek.
    assert (aligned q = q) as -> by (unfold aligned; Z.div_mod_to_equations; lia).
    unfold rbHEADER_SIZE, q. bool_cases; simpl; bool_cases; lia. }
  { apply Hwi, only_within_refl. }
  apply (appended_sent _ (put_plain m1 (phys rb (xSize rb)) (drop k l)) (xSize rb + 8 + (aligned n - q)));
    try done.
  - unfold q. pos_facts. lia.
  - apply take_drop.
  - rewrite (prvCopyItemAllowSplit_run rb a) by done. fold n.
    assert (pucTail rb - phys rb a = q + 8) as -> by (unfold q; pos_facts; rewrite phys_lo by lia; lia).
    destruct (Z.ltb_spec (q + 8) (8 + aligned n)); [|unfold q in *; lia].
    rewrite (copy_first_split rb a l n (aligned n) (items_in bs) q) by (try done; pos_facts; lia).
    fold k m1. set (rb1 := set_acquire _ _). rewrite <- Ed, <- Ea2, <- Ed.
    rewrite (copy_last_run rb1 (xSize rb) (drop k l) (items_in bs + 1)); try done.
    + change (item_end (xSize rb1) (xSize rb) ?x) with (item_end (xSize rb) (xSize rb) x).
      unfold item_end. rewrite Z.ltb_irrefl. cbn [andb]. rewrite Ed, Ea2.
      change (items_in (split_blocks (InTwo (take k l) (drop k l)))) with 2.
      replace (items_in bs + 1 + 1) with (items_in bs + 2) by lia. done.
    + by apply (item_buffer_same rb).
    + change (pos_ok (xSize rb) (xSize rb)). pos_facts. unfold pos_ok, rbHEADER_SIZE. lia.
    + pos_facts. lia.
    + rewrite Ed. change (xMaxItemSize rb1) with (xMaxItemSize rb). lia.
    + change (xSize rb1) with (xSize rb). rewrite Z.ltb_irrefl, Ed, Ea2. unfold q in *. pos_facts. lia.
Qed.
End append.

Lemma prvCopyItemAllowSplit_appends rb f r a outs bs l :
  allow_split rb -> item_repr rb f r a outs bs ->
  Z.of_nat (length l) <= xMaxItemSize rb -> room true (xSize rb) f a (Z.of_nat (length l)) = true ->
  exists e, appended rb f r outs bs l e.
Proof.
  intros Hns Hr Hn Hroom. destruct (item_repr_order _ _ _ _ _ _ Hr) as (O1 & O2 & O3).
  pose proof Hr as [Hb Hfs Hf Ha Hlap _ _ _ _ _ _ _ _].
  destruct (allow_split_room rb f a (Z.of_nat (length l))) as [[Hfit Hend]|(Has & Hno & Hfit)];
    try done; try lia.
  - eexists. by apply (append_straight rb f r a outs bs l).
  - destruct (Z.eq_dec (a + 8) (xSize rb)) as [E|E].
    + eexists. apply (append_skip rb f r a outs bs l); try done; lia.
    + eexists. apply (append_split rb f r a outs bs l); try done. pos_facts. Z.div_mod_to_equations. lia.
Qed.

Lemma clamp_free_size_le rb x n : 0 < n -> n <= clamp_free_size rb x ->
  -2147483648 <= x < 2147483648 -> n <= xMaxItemSize rb /\ n <= x.
Proof. unfold clamp_free_size. intros Hn Hle Hx. revert Hle. word_cases; lia. Qed.

(** The free size reported is a promise for items of at least a byte. *)
Lemma prvGetCurMaxSizeAllowSplit_sound rb f r a outs bs n :
  allow_split rb -> item_repr rb f r a outs bs -> 0 < n -> n <= xRingbufferGetCurFreeSize rb ->
  n <= xMaxItemSize rb /\ room true (xSize rb) f a n = true.
Proof.
  intros Hns Hr Hn. destruct (item_repr_order _ _ _ _ _ _ Hr) as (O1 & O2 & O3).
  destruct Hr as [Hb Hfs Hf Ha Hlap _ _ Efr _ _ Ea Efu _].
  unfold xRingbufferGetCurFreeSize, run_GetCurMaxSize, prvGetCurMaxSizeAllowSplit.
  rewrite (as_cur _ Hns), Efr, Ea, Efu. unfold room, total_size. pose proof (as_max _ Hns) as Hmax.
  pos_facts. destruct (Z.eqb_spec a (f + xSize rb)) as [E|E]; [lia|].
  intros Hle. apply clamp_free_size_le in Hle as [Hle1 Hle]; [|done|].
  2: { repeat case_match; apply s32_range. }
  split; [done|]. revert Hle. rewrite (ib_tail _ Hb).
  assert (forall m, m mod 4 = 0 -> 8 + n <= m -> 8 + aligned n <= m) as Hal
    by (intros; Z.div_mod_to_equations; lia).
  pose proof (Hal (f + xSize rb - a)) as Hal1. pose proof (Hal (f + xSize rb - a - 8)) as Hal2.
  assert ((f + xSize rb - a) mod 4 = 0 /\ (f + xSize rb - a - 8) mod 4 = 0) as [M1 M2]
    by (split; Z.div_mod_to_equations; lia).
  specialize (Hal1 M1). specialize (Hal2 M2). clear Hal M1 M2.
  phys_cases; bool_cases; simpl; rewrite s32_small by lia; intros; bool_cases; done || lia.
Qed.

(** ** Receiving *)

Lemma first_block_end rb v l : block_at rb v (first_block l) ->
  block_end (xSize rb) v (first_block l) = xSize rb.
Proof.
  intros Hblk. pose proof (ba_split _ _ _ Hblk eq_refl) as E. unfold block_end, item_end.
  change (is_dummy (first_block l)) with false. cbn iota. rewrite E, Z.sub_diag.
  destruct (_ && _); done.
Qed.

Lemma received_split rb v n : allow_split rb -> allow_split (received rb v n).
Proof. intros [H1 H2 H3 H4]. by split. Qed.

(** A receive hands out both parts of the first item. *)
Lemma receive_item_entry rb f r a outs e bs :
  allow_split rb -> item_repr rb f r a outs (split_blocks e ++ bs) ->
  exists res v rb', receive_item rb 0 = Some (res, rb') /\
    map fst (parts res) = entry_parts rb r e /\ part_bytes (storage rb') res = entry_item e /\
    item_repr rb' f v a (outs ++ split_blocks e) bs /\ allow_split rb' /\ same_object rb rb'.
Proof.
  intros Hns Hr. pose proof (ir_buf _ _ _ _ _ _ Hr) as Hb. pose proof (ir_bs _ _ _ _ _ _ Hr) as Hbs.
  destruct (item_repr_order _ _ _ _ _ _ Hr) as (O1 & O2 & O3).
  assert (phys rb (xSize rb) = pucHead rb) as Ehd by (pos_facts; rewrite phys_hi by lia; lia).
  unfold receive_item, run_GetItem. rewrite (ib_byte _ Hb), (ib_get _ Hb).
  destruct e as [l|l|l1 l2]; cbn [split_blocks app entry_parts entry_item] in *.
  - destruct Hbs as [Hblk _].
    rewrite (prvGetItemDefault_item rb f r a outs (plain_block l) bs) by done.
    set (rb' := received _ _ _). change (rb_flag rb' rbALLOW_SPLIT_FLAG) with (rb_flag rb rbALLOW_SPLIT_FLAG).
    rewrite (as_flag _ Hns). change (has_flag (b_flags (plain_block l)) rbITEM_SPLIT_FLAG) with false.
    eexists _, (block_end (xSize rb) r (plain_block l)), rb'. split_and!; try done.
    + pose proof (ba_kind _ _ _ Hblk) as (_ & _ & H). unfold part_bytes, parts.
      cbn [flat_map fst snd rr_item1 rr_size1 rr_item2]. rewrite app_nil_r. exact H.
    + apply (item_repr_received rb f r a outs [plain_block l] bs); [done|]. by split.
    + by apply received_split.
  - destruct Hbs as (Hblk & Hblk2 & _).
    rewrite (prvGetItemDefault_dummy rb f r a outs skip_block (plain_block l) bs) by done.
    set (rb' := received _ _ _). change (rb_flag rb' rbALLOW_SPLIT_FLAG) with (rb_flag rb rbALLOW_SPLIT_FLAG).
    rewrite (as_flag _ Hns). change (has_flag (b_flags (plain_block l)) rbITEM_SPLIT_FLAG) with false.
    eexists _, (block_end (xSize rb) (xSize rb) (plain_block l)), rb'. rewrite Ehd. split_and!; try done.
    + pose proof (ba_kind _ _ _ Hblk2) as (_ & _ & H). change (phys _ _) with (phys rb (xSize rb)) in H.
      rewrite Ehd in H. unfold part_bytes, parts.
      cbn [flat_map fst snd rr_item1 rr_size1 rr_item2]. rewrite app_nil_r. exact H.
    + apply (item_repr_received rb f r a outs [skip_block; plain_block l] bs); [done|]. by split.
    + by apply received_split.
  - destruct Hbs as (Hblk & Hblk2 & Hch). rewrite (first_block_end rb r l1 Hblk) in Hblk2, Hch.
    rewrite (prvGetItemDefault_item rb f r a outs (first_block l1) (plain_block l2 :: bs)) by done.
    rewrite (first_block_end rb r l1 Hblk). set (rb1 := received _ _ _).
    change (rb_flag rb1 rbALLOW_SPLIT_FLAG) with (rb_flag rb rbALLOW_SPLIT_FLAG).
    change (pvGetItem rb1) with (pvGetItem rb). rewrite (as_flag _ Hns), (ib_get _ Hb).
    change (has_flag (b_flags (first_block l1)) rbITEM_SPLIT_FLAG) with true. cbn iota.
    assert (item_repr rb1 f (xSize rb) a (outs ++ [first_block l1]) (plain_block l2 :: bs)) as Hr1.
    { apply (item_repr_received rb f r a outs [first_block l1]); [done|]. split; [done|].
      by apply first_block_end. }
    rewrite (prvGetItemDefault_item rb1 f (xSize rb) a _ (plain_block l2) bs) by done.
    set (rb' := received rb1 _ _). change (phys rb1 (xSize rb)) with (phys rb (xSize rb)).
    pose proof (chain_le _ _ _ _ Hb Hch) as Hle.
    destruct (block_end_bounds rb (xSize rb) _ Hb Hblk2) as (He & _ & _).
    pose proof (ir_lap _ _ _ _ _ _ Hr) as Hlap. pose proof (ir_fpos _ _ _ _ _ _ Hr) as Hfp.
    pose proof (ba_split _ _ _ Hblk eq_refl) as Hsp. pose proof (block_len_nonneg (first_block l1)).
    destruct (Z.ltb_spec (phys rb (xSize rb) + rbHEADER_SIZE) (phys rb r + rbHEADER_SIZE)) as [|Hbad].
    2: { exfalso. rewrite Ehd in Hbad. pos_facts. rewrite phys_lo in Hbad by lia. lia. }
    change (has_flag (b_flags (plain_block l2)) rbITEM_SPLIT_FLAG) with false. cbn [guard_c negb].
    eexists _, (block_end (xSize rb) (xSize rb) (plain_block l2)), rb'. split_and!; try done.
    + unfold part_bytes, parts. cbn [flat_map fst snd rr_item1 rr_size1 rr_item2 app].
      pose proof (ba_kind _ _ _ Hblk) as (_ & _ & H1). pose proof (ba_kind _ _ _ Hblk2) as (_ & _ & H2).
      rewrite app_nil_r. f_equal; [exact H1|exact H2].
    + replace (outs ++ [first_block l1; plain_block l2])
        with ((outs ++ [first_block l1]) ++ [plain_block l2]) by (by rewrite <- app_assoc).
      apply (item_repr_received rb1 f (xSize rb) a (outs ++ [first_block l1]) [plain_block l2] bs); [done|].
      split; [|done]. by apply (block_at_frame rb).
    + by apply received_split, received_split.
Qed.

(** ** Returning *)

(** The first part of the only item held is returned: the free pointer moves to
    the second part, or stays if it is at the read pointer. *)
Lemma return_first_part rb f r a l1 l2 bs :
  item_repr rb f r a [first_block l1; plain_block l2] bs ->
  exists m q fl, let rb1 := set_flags (set_free (set_storage rb m) q) fl in
    prvReturnItemDefault rb (phys rb f + rbHEADER_SIZE) = Some rb1 /\
    (q = phys rb (xSize rb) \/ q = phys rb r) /\
    has_flag fl rbBYTE_BUFFER_FLAG = rb_flag rb rbBYTE_BUFFER_FLAG /\
    has_flag fl rbALLOW_SPLIT_FLAG = rb_flag rb rbALLOW_SPLIT_FLAG /\
    only_within rb m f (xSize rb) /\ chain rb1 (xSize rb) [plain_block l2] r.
Proof.
  intros Hr. destruct (item_repr_order _ _ _ _ _ _ Hr) as (O1 & O2 & O3).
  pose proof Hr as [Hb Hfs Hf Ha Hlap Ho Hbs Efr Er _ Ea Efu _].
  pose proof Ho as [Hblk Ho2]. pose proof (first_block_end rb f l1 Hblk) as Eend.
  destruct (Z.eq_dec r (f + xSize rb)) as [E|E].
  - destruct (prvReturnItemDefault_stuck rb r (first_block l1) [plain_block l2] f)
      as (m & Hm & Hch & Hrun); try done; try (pos_facts; lia).
    { rewrite Efr, Er. pos_facts. phys_cases; lia. }
    rewrite Eend in *.
    destruct (finish_return_flags (set_storage rb m)) as (fl & Efl & F1 & F2 & _).
    exists m, (pucFree rb), fl. split_and!; try done.
    + rewrite Hrun, Efl. by destruct rb.
    + right. rewrite Efr. pos_facts. phys_cases; lia.
    + apply (chain_frame (set_storage rb m)); try done. by apply (item_buffer_same rb).
  - destruct (prvReturnItemDefault_run rb f r [] (first_block l1) [plain_block l2] f)
      as (m & Hm & Hch & Hrun); try done; try (pos_facts; lia).
    { rewrite (rb_fuel_2 rb Hb). simpl. lia. }
    rewrite Eend in *.
    destruct (finish_return_flags (set_free (set_storage rb m) (phys rb (xSize rb)))) as (fl & Efl & F1 & F2 & _).
    exists m, (phys rb (xSize rb)), fl. split_and!; try done; auto.
    + rewrite Hrun. by f_equal.
    + apply (chain_frame (set_storage rb m)); try done. by apply (item_buffer_same rb).
Qed.

(** Both parts returned, all of the item is free. *)
Lemma return_two_parts rb f r a l1 l2 bs :
  item_repr rb f r a [first_block l1; plain_block l2] bs ->
  exists rb1 rb2, prvReturnItemDefault rb (phys rb f + rbHEADER_SIZE) = Some rb1 /\
    prvReturnItemDefault rb1 (phys rb (xSize rb) + rbHEADER_SIZE) = Some rb2 /\
    vReturnItem rb1 = vReturnItem rb /\ same_object rb rb2 /\
    rb_flag rb2 rbALLOW_SPLIT_FLAG = rb_flag rb rbALLOW_SPLIT_FLAG /\
    exists f' a', item_repr rb2 f' f' a' [] bs.
Proof.
  intros Hr. destruct (return_first_part rb f r a l1 l2 bs Hr) as (m & q & fl & Hrun & Hq & F1 & F2 & Hm & Hch).
  set (rb1 := set_flags _ _) in *. destruct (item_repr_order _ _ _ _ _ _ Hr) as (O1 & O2 & O3).
  pose proof Hr as [Hb Hfs Hf Ha Hlap Ho Hbs Efr Er _ Ea Efu _].
  assert (item_buffer rb1) as Hb1 by (by apply (item_buffer_same rb)).
  assert (exists m2, only_within rb1 m2 (xSize rb) r /\
    prvReturnItemDefault rb1 (phys rb1 (xSize rb) + rbHEADER_SIZE) =
      Some (finish_return (set_free (set_storage rb1 m2) (phys rb1 r)))) as (m2 & Hm2 & Hrun2).
  { destruct Hq as [Hq|Hq].
    - destruct (prvReturnItemDefault_last rb1 (xSize rb) r [] (plain_block l2) (xSize rb))
        as (m2 & Hm2 & Hrun2); try done; try (pos_facts; change (xSize rb1) with (xSize rb); lia).
      { rewrite (rb_fuel_2 rb1 Hb1). simpl. lia. } by exists m2.
    - destruct (prvReturnItemDefault_stuck rb1 r (plain_block l2) [] (xSize rb))
        as (m2 & Hm2 & Eend & Hrun2); try done; try (pos_facts; change (xSize rb1) with (xSize rb); lia).
      { change (q = pucRead rb). congruence. }
      exists m2. simpl in Eend. rewrite <- Eend. split; [done|]. rewrite Hrun2. do 2 f_equal.
      change (set_storage rb1 m2 = set_free (set_storage rb1 m2) (phys rb (block_end (xSize rb) (xSize rb) (plain_block l2)))).
      simpl in Eend. change (block_end (xSize rb) (xSize rb) (plain_block l2) = r) in Eend. by rewrite Eend, <- Hq. }
  destruct (finish_return_flags (set_free (set_storage rb1 m2) (phys rb1 r))) as (fl2 & Efl & G1 & G2 & G3).
  exists rb1. eexists. split; [done|]. split; [rewrite Efl in Hrun2; exact Hrun2|].
  split_and!; try done; [by rewrite <- F2|].
  pose proof (chain_le _ _ _ _ Hb1 Hch) as Hle.
  apply (item_repr_returned rb f r a [first_block l1; plain_block l2] bs); try done.
  - pos_facts. simpl in O1. lia.
  - apply (only_within_trans rb rb1); [done|..].
    + eapply only_within_sub; [exact Hm|lia|]. simpl in Hle. lia.
    + eapply only_within_sub; [exact Hm2|lia..].
  - by rewrite <- F1.
  - apply G3. right. left. simpl. by rewrite Er.
Qed.

(** ** The contract *)

Lemma same_allow_split rb rb' : same_object rb rb' ->
  rb_flag rb' rbALLOW_SPLIT_FLAG = rb_flag rb rbALLOW_SPLIT_FLAG -> allow_split rb -> allow_split rb'.
Proof.
  intros (E1 & E2 & _ & _ & _ & E3 & _ & _ & E4 & _) Hfl [N1 N2 N3 N4].
  split; rewrite ?E1, ?E2, ?E3, ?E4, ?Hfl; done.
Qed.

Lemma entry_parts_same rb rb' f e : same_object rb rb' -> entry_parts rb' f e = entry_parts rb f e.
Proof.
  intros Hs. pose proof Hs as (ES & _). unfold entry_parts. rewrite ES.
  destruct e; rewrite ?(phys_same rb rb') by done; done.
Qed.

Lemma allow_split_send rb k held items l : allow_split_repr rb held items ->
  exists ok woken notify rb' k',
    xRingbufferSendFromISR rb k (Some l) (Z.of_nat (length l)) = Some (ok, woken, notify, rb', k') /\
    allow_split_repr rb' held (if ok then items ++ [l] else items) /\
    (ok = false -> rb' = rb) /\
    (l <> [] -> Z.of_nat (length l) <= xRingbufferGetCurFreeSize rb -> ok = true) /\
    (held = [] -> items = [] -> ok = (Z.of_nat (length l) <=? xRingbufferGetMaxItemSize rb)).
Proof.
  intros [Hns (f & r & a & out & es & Hr & Ei & Eh)]. pose proof (ir_buf _ _ _ _ _ _ Hr) as Hb.
  assert (allow_split_repr rb held items) as Hrepr by (split; [done|]; by exists f, r, a, out, es).
  unfold xRingbufferGetMaxItemSize, xRingbufferSendFromISR. cbn [guard_c orb].
  rewrite (ib_byte _ Hb). cbn [andb].
  assert (l <> [] -> Z.of_nat (length l) <= xRingbufferGetCurFreeSize rb ->
    Z.of_nat (length l) <= xMaxItemSize rb /\ room true (xSize rb) f a (Z.of_nat (length l)) = true) as Hfree
    by (intros Hl%length_pos; by apply (prvGetCurMaxSizeAllowSplit_sound rb f r a _ _ _ Hns Hr)).
  destruct (Z.ltb_spec (xMaxItemSize rb) (Z.of_nat (length l))) as [Hmax|Hmax].
  { eexists false, _, _, rb, k. split_and!; try done.
    - intros Hl Hle. destruct (Hfree Hl Hle). lia.
    - intros _ _. symmetry. apply Z.leb_gt. lia. }
  unfold run_CheckItemFits, run_CopyItem. rewrite (ib_fits _ Hb), (as_copy _ Hns).
  rewrite (prvCheckItemFitsDefault_exact rb f r a _ _ (Z.of_nat (length l)) Hr), (as_flag _ Hns) by lia.
  destruct (room true (xSize rb) f a (Z.of_nat (length l))) eqn:Hroom.
  - destruct (prvCopyItemAllowSplit_appends rb f r a _ _ l Hns Hr Hmax Hroom)
      as (e & a' & rb' & Hrun & He & Hr' & Hs & Hns').
    change (default [] (Some l)) with l. rewrite Hrun.
    destruct (notify_receiver_total rb' k) as [[[q h] k'] ->].
    eexists true, _, _, rb', k'. split_and!; try done.
    + split; [done|]. exists f, r, a', out, (es ++ [e]). split_and!.
      * rewrite flat_map_app. cbn [flat_map]. by rewrite app_nil_r.
      * by rewrite map_app, Ei, <- He.
      * rewrite Eh. destruct out; [|done]. by rewrite (entry_parts_same rb rb').
    + intros _ _. symmetry. by apply Z.leb_le.
  - eexists false, _, _, rb, k. split_and!; try done.
    + intros Hl Hle. by destruct (Hfree Hl Hle).
    + intros -> ->. destruct out as [[]|]; [done..|]. destruct es; [|done].
      destruct Hr as [_ _ _ _ _ Ho Hbs _ _ _ _ _ _]. simpl in Ho, Hbs. subst.
      unfold room in Hroom. by rewrite Z.eqb_refl in Hroom.
Qed.

Lemma items_in_entry e : 1 <= items_in (split_blocks e).
Proof. destruct e; done. Qed.

Lemma allow_split_receive rb items : allow_split_repr rb [] items ->
  match items with
  | [] => receive_from_isr rb = Some (None, rb)
  | l :: items => exists r rb', receive_from_isr rb = Some (Some r, rb') /\
      part_bytes (storage rb') r = l /\ allow_split_repr rb' (map fst (parts r)) items
  end.
Proof.
  intros [Hns (f & r & a & out & es & Hr & -> & Eh)]. destruct out as [[]|]; [done..|].
  pose proof (ir_outs _ _ _ _ _ _ Hr) as Ho. simpl in Ho. subst r.
  unfold receive_from_isr, xRingbufferReceiveSplitFromISR, prvReceiveGenericFromISR.
  rewrite (as_flag _ Hns), (prvCheckItemAvail_items _ _ _ _ _ _ Hr), (as_flag _ Hns).
  cbn [guard_c]. rewrite andb_true_r. destruct es as [|e es]; [done|]. cbn [map].
  cbn [flat_map] in Hr |- *. rewrite items_in_app. pose proof (items_in_entry e).
  pose proof (items_in_bounds (flat_map split_blocks es)).
  destruct (Z.ltb_spec 0 (items_in (split_blocks e) + items_in (flat_map split_blocks es))); [|lia].
  destruct (receive_item_entry rb f f a [] e _ Hns Hr) as (res & v & rb' & -> & Hp & Hby & Hr' & Hns' & Hs).
  exists res, rb'. split_and!; [done..|]. split; [done|]. exists f, v, a, (Some e), es.
  split_and!; try done. by rewrite Hp, (entry_parts_same rb rb').
Qed.

(** One more part returned through the public function. *)
Lemma return_parts_cons rb rb1 k v ps : item_buffer rb -> 0 <= v < 2 * xSize rb ->
  prvReturnItemDefault rb (phys rb v + rbHEADER_SIZE) = Some rb1 ->
  exists k', return_parts rb k ((phys rb v + rbHEADER_SIZE) :: ps) = return_parts rb1 k' ps.
Proof.
  intros Hb Hv Hrun. destruct (vRingbufferReturnItem_run rb rb1 k (phys rb v + rbHEADER_SIZE)) as (h & k' & E).
  - unfold NULL. pos_facts. phys_cases; lia.
  - unfold run_ReturnItem. by rewrite (ib_ret _ Hb).
  - exists k'. cbn [return_parts]. unfold vRingbufferReturnItemFromISR. by rewrite E.
Qed.

Lemma allow_split_return rb k held items : allow_split_repr rb held items ->
  exists rb' k', return_parts rb k held = Some (rb', k') /\ allow_split_repr rb' [] items.
Proof.
  intros [Hns (f & r & a & out & es & Hr & Ei & ->)]. destruct out as [e|].
  2: { exists rb, k. split; [done|]. split; [done|]. by exists f, r, a, None, es. }
  pose proof (ir_buf _ _ _ _ _ _ Hr) as Hb. pose proof (ir_outs _ _ _ _ _ _ Hr) as Ho.
  assert (0 <= f < 2 * xSize rb /\ 0 <= xSize rb < 2 * xSize rb) as [Hf2 Hs2].
  { pose proof (ir_fpos _ _ _ _ _ _ Hr). pose proof (ir_f _ _ _ _ _ _ Hr). pos_facts. lia. }
  assert (forall rb' f' a', same_object rb rb' -> rb_flag rb' rbALLOW_SPLIT_FLAG = rb_flag rb rbALLOW_SPLIT_FLAG ->
    item_repr rb' f' f' a' [] (flat_map split_blocks es) -> allow_split_repr rb' [] items) as Hfin.
  { intros rb' f' a' Hs Hfl Hr'. split; [by apply (same_allow_split rb)|]. by exists f', f', a', None, es. }
  destruct e as [l|l|l1 l2]; cbn [entry_parts split_blocks] in *.
  - destruct (item_repr_return_last rb f r a [] (plain_block l) f _ Hr) as (rb1 & Hrun & Hs & Hfl & f' & a' & Hr');
      try done; [simpl; lia|].
    destruct (return_parts_cons rb rb1 k f [] Hb Hf2 Hrun) as (k' & ->). exists rb1, k'. eauto.
  - destruct (item_repr_return_last rb f r a [skip_block] (plain_block l) (xSize rb) _ Hr)
      as (rb1 & Hrun & Hs & Hfl & f' & a' & Hr'); try done.
    { by destruct Ho as (? & ? & ?). } { by destruct Ho as (? & ? & ?). } { by repeat constructor. }
    destruct (return_parts_cons rb rb1 k (xSize rb) [] Hb Hs2 Hrun) as (k' & ->). exists rb1, k'. eauto.
  - destruct (return_two_parts rb f r a l1 l2 _ Hr) as (rb1 & rb2 & Hrun1 & Hrun2 & Ert & Hs & Hfl & f' & a' & Hr').
    destruct (return_parts_cons rb rb1 k f [phys rb (xSize rb) + rbHEADER_SIZE] Hb Hf2 Hrun1) as (k1 & ->).
    destruct (vRingbufferReturnItem_run rb1 rb2 k1 (phys rb (xSize rb) + rbHEADER_SIZE)) as (h & k2 & E).
    + unfold NULL. pos_facts. phys_cases; lia.
    + unfold run_ReturnItem. by rewrite Ert, (ib_ret _ Hb).
    + cbn [return_parts]. unfold vRingbufferReturnItemFromISR. rewrite E. exists rb2, k2. eauto.
Qed.

#[export] Instance allow_split_item_queue : ItemQueue allow_split_repr.
Proof. split; [apply allow_split_send|apply allow_split_receive|apply allow_split_return]. Qed.

(** ** The users' theorem *)

Lemma created_allow_split size h s m k :
  13 <= size <= 2147483644 -> 0 < s -> s mod 4 = 0 -> s + size + 3 < 4294967296 ->
  allow_split_repr (fst (prvInitializeNewRingbuffer (aligned size) RINGBUF_TYPE_ALLOWSPLIT h s m k)) [] [].
Proof.
  intros Hs Hst Hst4 H32. set (rb := fst _). destruct (aligned_bounds size) as [A1 A2].
  assert (16 <= aligned size) by (Z.div_mod_to_equations; lia).
  assert (xMaxItemSize rb = aligned size - 2 * rbHEADER_SIZE) as Em
    by (simpl; unfold rbHEADER_SIZE; rewrite u32_small; lia).
  split; [by split|]. exists 0, 0, 0, None, []. split; [|done].
  apply item_repr_fresh; try done. split; try done; try (simpl; lia). rewrite Em. unfold rbHEADER_SIZE. simpl. lia.
Qed.

(** C22: an allow-split buffer is a queue of whole items, delivered in up to two
    parts. From a freshly created buffer of at least 13 bytes, through any
    sequence of sends, receives and returns by users that hold at most one item,
    no assertion fails, items are delivered whole, intact and in the order they
    were accepted, and an empty buffer accepts exactly the items of at most the
    maximum size. *)
Theorem allow_split_queue size h s m k ops :
  13 <= size <= 2147483644 -> 0 < h -> 0 < s -> s mod 4 = 0 -> s + size + 3 < 4294967296 ->
  exists rb k0,
    xRingbufferCreate size RINGBUF_TYPE_ALLOWSPLIT h s m k = Some (Some (rb, k0)) /\
    xMaxItemSize rb = aligned size - 2 * rbHEADER_SIZE /\
    item_service rb k0 ops.
Proof.
  intros Hs Hh Hst Hst4 H32. rewrite xRingbufferCreate_items by (unfold NULL; try done; lia).
  pose proof (created_allow_split size h s m k Hs Hst Hst4 H32) as Hr.
  destruct (prvInitializeNewRingbuffer _ _ _ _ _ _) as [rb k0] eqn:E. exists rb, k0.
  split_and!; [done| |by apply (item_queue allow_split_repr)].
  simpl in Hr. destruct Hr as [Hns _]. rewrite (as_max _ Hns). by injection E as <- _.
Qed.

Lemma allow_split_queue_witness :
  exists rb k0,
    xRingbufferCreate 32 RINGBUF_TYPE_ALLOWSPLIT 1000 2000 (fun _ => 0) demo_kernel = Some (Some (rb, k0)) /\
    xMaxItemSize rb = aligned 32 - 2 * rbHEADER_SIZE /\
    item_service rb k0 [SendItem [1; 2; 3; 4]; ReceiveItem; ReturnItem; SendItem [5; 6; 7; 8; 9; 10; 11; 12; 13]].
Proof. apply allow_split_queue; (lia || done). Defined.

(** ** The free size reported can be too small

    With nothing between the head and the free pointer to put a second part in,
    the free size still leaves room for two headers: an item of 40 bytes is
    accepted where 32 are reported. *)
Lemma free_size_underestimates :
  let rb := fst (prvInitializeNewRingbuffer 64 RINGBUF_TYPE_ALLOWSPLIT 1000 2000 (fun _ => 0) demo_kernel) in
  (let! (_, _, _, rb, k) := xRingbufferSendFromISR rb demo_kernel (Some (repeat 1 8)) 8 in
   let! (ok, _, _, _, _) := xRingbufferSendFromISR rb k (Some (repeat 2 40)) 40 in
   Some (xRingbufferGetCurFreeSize rb, ok)) = Some (32, true).
Proof. vm_compute. reflexivity. Qed.
