(* ===== verification/EspTimer.v ===== *)
(** * High-resolution timers (esp_timer)

    esp_timer.c over esp_timer_impl_common.c / esp_timer_impl_systimer.c, and
    the ETSTimer wrapper of ets_timer_legacy.c, with ISR dispatch supported and
    profiling off.

    A handle is an address; freed timers are absent from [timers], so any use of
    one is [None].  The two [LIST_HEAD]s are lists of handles; [LIST_REMOVE] of a
    timer that is not linked is the panic of queue.h's [INVARIANTS].  Each
    operation is one critical section, before which others may run ([until_lock]);
    the clock is what [esp_timer_impl_get_time] reads. *)

From stdpp Require Import base list option gmap.
From Stdlib Require Import ZArith Lia.
From S2P Require Import Prelude.

(** ** Data *)

Definition EVENT_ID_DELETE_TIMER : Z := 0xF0DE1E1E.
Definition FL_ISR_DISPATCH_METHOD : Z := 2 ^ 0.
Definition FL_SKIP_UNHANDLED_EVENTS : Z := 2 ^ 1.

Inductive esp_timer_dispatch_t := ESP_TIMER_TASK | ESP_TIMER_ISR.
#[export] Instance esp_timer_dispatch_eq_dec : EqDecision esp_timer_dispatch_t.
Proof. solve_decision. Defined.

(** The bit-field [period : 56]. *)
Definition u56 (x : Z) : Z := x mod 72057594037927936.

Record esp_timer := mkTimer {
  alarm : Z;         (* uint64_t *)
  period : Z;        (* uint64_t : 56 *)
  flags : Z;
  callback : Z;      (* union { callback; event_id } *)
  arg : Z }.

Definition event_id (t : esp_timer) : Z := callback t.

Record timer_state := mkTimers {
  timers : gmap Z esp_timer;        (* what is allocated *)
  list_task : list Z;               (* s_timers[ESP_TIMER_TASK] *)
  list_isr : list Z;                (* s_timers[ESP_TIMER_ISR] *)
  s_timer_task : Z;
  timestamp_task : Z;               (* timestamp_id[0] *)
  timestamp_isr : Z;                (* timestamp_id[1] *)
  alarm_target : Z;                 (* the compare value of the system timer *)
  time_now : Z;                     (* esp_timer_impl_get_time() *)
  s_isr_dispatch_need_yield : bool }.

Definition s_timers (st : timer_state) (d : esp_timer_dispatch_t) : list Z :=
  match d with ESP_TIMER_TASK => list_task st | ESP_TIMER_ISR => list_isr st end.

Definition timestamp_id (st : timer_state) (d : esp_timer_dispatch_t) : Z :=
  match d with ESP_TIMER_TASK => timestamp_task st | ESP_TIMER_ISR => timestamp_isr st end.

Definition with_timers (st : timer_state) (m : gmap Z esp_timer) : timer_state :=
  mkTimers m (list_task st) (list_isr st) (s_timer_task st) (timestamp_task st)
    (timestamp_isr st) (alarm_target st) (time_now st) (s_isr_dispatch_need_yield st).
Definition with_list (st : timer_state) (d : esp_timer_dispatch_t) (l : list Z) : timer_state :=
  mkTimers (timers st)
    (match d with ESP_TIMER_TASK => l | _ => list_task st end)
    (match d with ESP_TIMER_ISR => l | _ => list_isr st end)
    (s_timer_task st) (timestamp_task st) (timestamp_isr st) (alarm_target st) (time_now st)
    (s_isr_dispatch_need_yield st).
Definition with_timestamp (st : timer_state) (d : esp_timer_dispatch_t) (v : Z) : timer_state :=
  mkTimers (timers st) (list_task st) (list_isr st) (s_timer_task st)
    (match d with ESP_TIMER_TASK => v | _ => timestamp_task st end)
    (match d with ESP_TIMER_ISR => v | _ => timestamp_isr st end)
    (alarm_target st) (time_now st) (s_isr_dispatch_need_yield st).
Definition with_target (st : timer_state) (v : Z) : timer_state :=
  mkTimers (timers st) (list_task st) (list_isr st) (s_timer_task st) (timestamp_task st)
    (timestamp_isr st) v (time_now st) (s_isr_dispatch_need_yield st).
Definition with_task (st : timer_state) (v : Z) : timer_state :=
  mkTimers (timers st) (list_task st) (list_isr st) v (timestamp_task st)
    (timestamp_isr st) (alarm_target st) (time_now st) (s_isr_dispatch_need_yield st).
Definition with_now (st : timer_state) (v : Z) : timer_state :=
  mkTimers (timers st) (list_task st) (list_isr st) (s_timer_task st) (timestamp_task st)
    (timestamp_isr st) (alarm_target st) v (s_isr_dispatch_need_yield st).
Definition with_need_yield (st : timer_state) (b : bool) : timer_state :=
  mkTimers (timers st) (list_task st) (list_isr st) (s_timer_task st) (timestamp_task st)
    (timestamp_isr st) (alarm_target st) (time_now st) b.

(** [timer->flags & FL_ISR_DISPATCH_METHOD] as a dispatch method. *)
Definition dispatch_of (t : esp_timer) : esp_timer_dispatch_t :=
  if has_flag (flags t) FL_ISR_DISPATCH_METHOD then ESP_TIMER_ISR else ESP_TIMER_TASK.

Definition set_alarm (v : Z) (t : esp_timer) : esp_timer :=
  mkTimer v (period t) (flags t) (callback t) (arg t).
Definition set_alarm_period (a p : Z) (t : esp_timer) : esp_timer :=
  mkTimer a (u56 p) (flags t) (callback t) (arg t).
Definition upd_timer (st : timer_state) (h : Z) (f : esp_timer -> esp_timer) : timer_state :=
  with_timers st (alter f h (timers st)).

Definition alarm_at (st : timer_state) (h : Z) : Z := from_option alarm 0 (timers st !! h).

(** ** The hardware alarm (esp_timer_impl) *)

Definition esp_timer_impl_get_min_period_us : Z := 50.

Definition esp_timer_impl_set_alarm_id (st : timer_state) (timestamp : Z)
    (alarm_id : esp_timer_dispatch_t) : timer_state :=
  let st := with_timestamp st alarm_id timestamp in
  with_target st (Z.min (timestamp_task st) (timestamp_isr st)).

Definition esp_timer_impl_set_alarm (st : timer_state) (timestamp : Z) : timer_state :=
  esp_timer_impl_set_alarm_id st timestamp ESP_TIMER_TASK.

Definition esp_timer_impl_try_to_set_next_alarm (st : timer_state) : timer_state :=
  let '(now_alarm_idx, next_alarm_idx) :=
    if timestamp_task st <? timestamp_isr st then (ESP_TIMER_TASK, ESP_TIMER_ISR)
    else (ESP_TIMER_ISR, ESP_TIMER_TASK) in
  if negb (timestamp_id st next_alarm_idx =? UINT64_MAX) then
    esp_timer_impl_set_alarm_id st UINT64_MAX now_alarm_idx
  else with_timestamp st now_alarm_idx UINT64_MAX.

(** ** Armed timers *)

Definition is_initialized (st : timer_state) : bool := negb (s_timer_task st =? NULL).

Definition timer_armed (t : esp_timer) : bool := 0 <? alarm t.

(** The walk of [timer_insert]: before the first timer with a later alarm. *)
Fixpoint insert_before_later (st : timer_state) (timer : Z) (l : list Z) : list Z :=
  match l with
  | [] => [timer]
  | it :: l' => if alarm_at st timer <? alarm_at st it then timer :: l
                else it :: insert_before_later st timer l'
  end.

(** Linking a timer that is already in the list would make it cyclic: a
    failure here. *)
Definition timer_insert (st : timer_state) (timer : Z) (without_update_alarm : bool) : option timer_state :=
  let! t := timers st !! timer in
  let dispatch_method := dispatch_of t in
  assert! negb (bool_decide (timer ∈ s_timers st dispatch_method));
  let l := insert_before_later st timer (s_timers st dispatch_method) in
  let st := with_list st dispatch_method l in
  Some (if negb without_update_alarm && bool_decide (head l = Some timer)
        then esp_timer_impl_set_alarm_id st (alarm t) dispatch_method else st).

Definition LIST_REMOVE (st : timer_state) (timer : Z) (d : esp_timer_dispatch_t) : option timer_state :=
  assert! bool_decide (timer ∈ s_timers st d);
  Some (with_list st d (filter (fun h => h <> timer) (s_timers st d))).

Definition first_alarm (st : timer_state) (d : esp_timer_dispatch_t) : Z :=
  match s_timers st d with [] => UINT64_MAX | it :: _ => alarm_at st it end.

Definition timer_remove (st : timer_state) (timer : Z) : option timer_state :=
  let! t := timers st !! timer in
  let dispatch_method := dispatch_of t in
  let first_timer := head (s_timers st dispatch_method) in
  let! st := LIST_REMOVE st timer dispatch_method in
  let st := upd_timer st timer (set_alarm_period 0 0) in
  Some (if bool_decide (first_timer = Some timer)
        then esp_timer_impl_set_alarm_id st (first_alarm st dispatch_method) dispatch_method
        else st).

(** ** The API

    Every function returns an error code and the new state. *)

Record esp_timer_create_args_t := mkArgs {
  ca_callback : Z;
  ca_arg : Z;
  ca_dispatch_method : Z;
  ca_skip_unhandled_events : bool }.

(** [args] is [None] for NULL; [result] is what [heap_caps_calloc] returns. *)
Definition esp_timer_create (st : timer_state) (args : option esp_timer_create_args_t)
    (out_handle result : Z) : esp_err_t * option Z * timer_state :=
  if negb (is_initialized st) then (ESP_ERR_INVALID_STATE, None, st)
  else
    match args with
    | None => (ESP_ERR_INVALID_ARG, None, st)
    | Some a =>
        if (ca_callback a =? NULL) || (out_handle =? NULL) || (ca_dispatch_method a <? 0) ||
           (2 <=? ca_dispatch_method a) then (ESP_ERR_INVALID_ARG, None, st)
        else if result =? NULL then (ESP_ERR_NO_MEM, None, st)
        else
          let fl := Z.lor (if ca_dispatch_method a =? 0 then 0 else FL_ISR_DISPATCH_METHOD)
                          (if ca_skip_unhandled_events a then FL_SKIP_UNHANDLED_EVENTS else 0) in
          (ESP_OK, Some result,
           with_timers st (<[result := mkTimer 0 0 fl (ca_callback a) (ca_arg a)]> (timers st)))
    end.

(** What an operation decides before it takes the list lock it decides on the old
    state: [until_lock] is what interrupts, callbacks and other tasks do until the
    operation has the lock. *)
Section locking.
Context (until_lock : timer_state -> timer_state).

Definition esp_timer_start_once (st : timer_state) (timer timeout_us : Z) : option (esp_err_t * timer_state) :=
  if timer =? NULL then Some (ESP_ERR_INVALID_ARG, st)
  else if negb (is_initialized st) then Some (ESP_ERR_INVALID_STATE, st)
  else
    let al := s64 (u64 (time_now st + timeout_us)) in
    let st := until_lock st in
    let! t := timers st !! timer in
    if timer_armed t then Some (ESP_ERR_INVALID_STATE, st)
    else
      let! st := timer_insert (upd_timer st timer (set_alarm_period (u64 al) 0)) timer false in
      Some (ESP_OK, st).

Definition esp_timer_start_periodic (st : timer_state) (timer period_us : Z) : option (esp_err_t * timer_state) :=
  if timer =? NULL then Some (ESP_ERR_INVALID_ARG, st)
  else if negb (is_initialized st) then Some (ESP_ERR_INVALID_STATE, st)
  else
    let period_us := Z.max period_us esp_timer_impl_get_min_period_us in
    let al := s64 (u64 (time_now st + period_us)) in
    let st := until_lock st in
    let! t := timers st !! timer in
    if timer_armed t then Some (ESP_ERR_INVALID_STATE, st)
    else
      let! st := timer_insert (upd_timer st timer (set_alarm_period (u64 al) period_us)) timer false in
      Some (ESP_OK, st).

Definition esp_timer_stop (st : timer_state) (timer : Z) : option (esp_err_t * timer_state) :=
  if timer =? NULL then Some (ESP_ERR_INVALID_ARG, st)
  else if negb (is_initialized st) then Some (ESP_ERR_INVALID_STATE, st)
  else
    let st := until_lock st in
    let! t := timers st !! timer in
    if negb (timer_armed t) then Some (ESP_ERR_INVALID_STATE, st)
    else let! st := timer_remove st timer in Some (ESP_OK, st).

(** With the lock held. *)
Definition restart_locked (st : timer_state) (timer timeout_us : Z) : option (esp_err_t * timer_state) :=
  let now := time_now st in
  let! t := timers st !! timer in
  let p := period t in
  let! st := timer_remove st timer in
  let! st :=
    (if negb (p =? 0) then
       let new_period := Z.max timeout_us esp_timer_impl_get_min_period_us in
       timer_insert (upd_timer st timer (set_alarm_period (u64 (now + new_period)) new_period)) timer false
     else
       timer_insert (upd_timer st timer (set_alarm_period (u64 (now + timeout_us)) 0)) timer false) in
  Some (ESP_OK, st).

(** Whether the timer is armed is tested before the lock is taken. *)
Definition esp_timer_restart (st : timer_state) (timer timeout_us : Z) : option (esp_err_t * timer_state) :=
  if timer =? NULL then Some (ESP_ERR_INVALID_ARG, st)
  else if negb (is_initialized st) then Some (ESP_ERR_INVALID_STATE, st)
  else
    let! t := timers st !! timer in
    if negb (timer_armed t) then Some (ESP_ERR_INVALID_STATE, st)
    else restart_locked (until_lock st) timer timeout_us.

Definition mark_deleted (al : Z) (t : esp_timer) : esp_timer :=
  mkTimer (u64 al) 0 (clear_flag (flags t) FL_ISR_DISPATCH_METHOD) EVENT_ID_DELETE_TIMER (arg t).

Definition esp_timer_delete (st : timer_state) (timer : Z) : option (esp_err_t * timer_state) :=
  if timer =? NULL then Some (ESP_ERR_INVALID_ARG, st)
  else
    let al := time_now st in
    let st := until_lock st in
    let! t := timers st !! timer in
    if timer_armed t then Some (ESP_ERR_INVALID_STATE, st)
    else let! st := timer_insert (upd_timer st timer (mark_deleted al)) timer false in
         Some (ESP_OK, st).
End locking.

(** ** Dispatching

    [run_callback c a] is what happens while the list is unlocked around the
    call [c(a)]: the callback itself and whatever interrupts it. *)

Section dispatch.
Context (run_callback : Z -> Z -> timer_state -> option timer_state).

(** The alarm a fired periodic timer is put back with. *)
Definition rearmed (now : Z) (t : esp_timer) : Z :=
  let skipped := s32 (u64 (now - alarm t) / period t) in
  if has_flag (flags t) FL_SKIP_UNHANDLED_EVENTS && (1 <? skipped)
  then u64 (now + period t) else u64 (alarm t + period t).

(** The loop; the trace records each callback's timer and the alarm it had. *)
Fixpoint process_loop (fuel : nat) (st : timer_state) (dispatch_method : esp_timer_dispatch_t)
    (processed : bool) (trace : list (Z * Z)) : option (timer_state * bool * list (Z * Z)) :=
  match s_timers st dispatch_method with
  | [] => Some (st, processed, trace)
  | it :: _ =>
      let now := time_now st in
      let! t := timers st !! it in
      if u64 now <? alarm t then Some (st, processed, trace)
      else
        match fuel with
        | O => None
        | S fuel =>
            let! st := LIST_REMOVE st it dispatch_method in
            if event_id t =? EVENT_ID_DELETE_TIMER then
              process_loop fuel (with_timers st (delete it (timers st))) dispatch_method true trace
            else
              let! st :=
                (if 0 <? period t then
                   timer_insert (upd_timer st it (set_alarm (rearmed now t))) it true
                 else Some (upd_timer st it (set_alarm 0))) in
              let! st := run_callback (callback t) (arg t) st in
              process_loop fuel st dispatch_method true (trace ++ [(it, alarm t)])
        end
  end.

Definition timer_process_alarm (fuel : nat) (st : timer_state) (dispatch_method : esp_timer_dispatch_t) :
    option (timer_state * bool * list (Z * Z)) :=
  let! (st, processed, trace) := process_loop fuel st dispatch_method false [] in
  let st :=
    match s_timers st dispatch_method with
    | it :: _ =>
        if match dispatch_method with ESP_TIMER_TASK => true | ESP_TIMER_ISR => processed end
        then esp_timer_impl_set_alarm_id st (alarm_at st it) dispatch_method else st
    | [] => if processed then esp_timer_impl_set_alarm_id st UINT64_MAX dispatch_method else st
    end in
  Some (st, processed, trace).

Definition esp_timer_isr_dispatch_need_yield (in_isr : bool) (st : timer_state) : option timer_state :=
  assert! in_isr;
  Some (with_need_yield st true).

(** The interrupt handler: the callbacks run, whether the timer task is
    notified, whether the interrupt yields ([task_woken]: notifying woke a task
    of higher priority than the interrupted one). *)
Definition timer_alarm_handler (fuel : nat) (st : timer_state) (task_woken : bool) :
    option (timer_state * list (Z * Z) * bool * bool) :=
  let st := esp_timer_impl_try_to_set_next_alarm st in
  let! (st, isr_timers_processed, trace) := timer_process_alarm fuel st ESP_TIMER_ISR in
  let xHigherPriorityTaskWoken := s_isr_dispatch_need_yield st in
  let st := with_need_yield st false in
  let notify := negb isr_timers_processed in
  Some (st, trace, notify, xHigherPriorityTaskWoken || (notify && task_woken)).

(** One turn of [timer_task] after its notification. *)
Definition timer_task_turn (fuel : nat) (st : timer_state) : option (timer_state * list (Z * Z)) :=
  let! (st, _, trace) := timer_process_alarm fuel st ESP_TIMER_TASK in Some (st, trace).

End dispatch.

(** ** Initialisation and queries *)

(** [task] is the handle [xTaskCreatePinnedToCore] produced, NULL if it failed. *)
Definition init_timer_task (st : timer_state) (task : Z) : esp_err_t * timer_state :=
  if is_initialized st then (ESP_ERR_INVALID_STATE, st)
  else if task =? NULL then (ESP_ERR_NO_MEM, st)
  else (ESP_OK, with_task st task).

Definition deinit_timer_task (st : timer_state) : timer_state :=
  if negb (s_timer_task st =? NULL) then with_task st NULL else st.

(** [impl_init] is the result of [esp_timer_impl_init]. *)
Definition esp_timer_init (st : timer_state) (task : Z) (impl_init : esp_err_t) : esp_err_t * timer_state :=
  let (err, st) := init_timer_task st task in
  if err =? ESP_OK then
    if negb (impl_init =? ESP_OK) then (impl_init, deinit_timer_task st) else (impl_init, st)
  else (err, st).

Definition esp_timer_deinit (st : timer_state) : esp_err_t * timer_state :=
  if negb (is_initialized st) then (ESP_ERR_INVALID_STATE, st)
  else match list_task st, list_isr st with
       | [], [] => (ESP_OK, deinit_timer_task st)
       | _, _ => (ESP_ERR_INVALID_STATE, st)
       end.

(** [next_alarm] is an int64 compared with a uint64. *)
Definition earlier_alarm (next_alarm al : Z) : Z := if al <? u64 next_alarm then s64 al else next_alarm.

Definition esp_timer_get_next_alarm (st : timer_state) : Z :=
  let step next d := match s_timers st d with
                     | it :: _ => earlier_alarm next (alarm_at st it) | [] => next end in
  step (step INT64_MAX ESP_TIMER_TASK) ESP_TIMER_ISR.

Definition wakes_up (st : timer_state) (h : Z) : bool :=
  negb (has_flag (from_option flags 0 (timers st !! h)) FL_SKIP_UNHANDLED_EVENTS).

Definition esp_timer_get_next_alarm_for_wake_up (st : timer_state) : Z :=
  let step next d := match filter (fun h => wakes_up st h = true) (s_timers st d) with
                     | it :: _ => earlier_alarm next (alarm_at st it) | [] => next end in
  step (step INT64_MAX ESP_TIMER_TASK) ESP_TIMER_ISR.

(** Error code and, on success, what is stored through the pointer. *)
Definition esp_timer_get_period (st : timer_state) (timer out : Z) : option (esp_err_t * option Z) :=
  if (timer =? NULL) || (out =? NULL) then Some (ESP_ERR_INVALID_ARG, None)
  else let! t := timers st !! timer in Some (ESP_OK, Some (period t)).

Definition esp_timer_get_expiry_time (st : timer_state) (timer out : Z) : option (esp_err_t * option Z) :=
  if (timer =? NULL) || (out =? NULL) then Some (ESP_ERR_INVALID_ARG, None)
  else let! t := timers st !! timer in
       if 0 <? period t then Some (ESP_ERR_NOT_SUPPORTED, None) else Some (ESP_OK, Some (alarm t)).

Definition esp_timer_is_active (st : timer_state) (timer : Z) : option bool :=
  if timer =? NULL then Some false
  else let! t := timers st !! timer in Some (timer_armed t).

(** ** ETSTimer (ets_timer_legacy.c) *)

Definition TIMER_INITIALIZED_VAL : Z := 0x12121212.

Record ETSTimer := mkETS {
  timer_next : Z; timer_expire : Z; timer_period : Z; timer_func : Z; timer_arg : Z }.

Definition timer_initialized (p : ETSTimer) : bool := timer_expire p =? TIMER_INITIALIZED_VAL.

Definition set_timer_arg (p : ETSTimer) (v : Z) : ETSTimer :=
  mkETS (timer_next p) (timer_expire p) (timer_period p) (timer_func p) v.
Definition set_timer_expire (p : ETSTimer) (v : Z) : ETSTimer :=
  mkETS (timer_next p) v (timer_period p) (timer_func p) (timer_arg p).

(** [ESP_ERROR_CHECK] aborts on an error. *)
Definition ets_timer_setfn (st : timer_state) (p : ETSTimer) (pfunction parg result : Z) :
    option (ETSTimer * timer_state) :=
  let p := if negb (timer_initialized p) then mkETS 0 TIMER_INITIALIZED_VAL 0 0 0 else p in
  if timer_arg p =? NULL then
    let '(err, h, st) := esp_timer_create st (Some (mkArgs pfunction parg 0 false)) 1 result in
    assert! err =? ESP_OK;
    Some (set_timer_arg p (default NULL h), st)
  else Some (p, st).

Definition ets_timer_arm_us (until_lock : timer_state -> timer_state) (st : timer_state) (p : ETSTimer) (time_us : Z) (repeat_flag : bool) :
    option timer_state :=
  assert! timer_initialized p;
  let! (_, st) := esp_timer_stop until_lock st (timer_arg p) in
  let! (err, st) :=
    (if negb repeat_flag then esp_timer_start_once until_lock st (timer_arg p) time_us
     else esp_timer_start_periodic until_lock st (timer_arg p) time_us) in
  assert! err =? ESP_OK;
  Some st.

Definition ets_timer_arm (until_lock : timer_state -> timer_state) (st : timer_state) (p : ETSTimer) (time_ms : Z) (repeat_flag : bool) :
    option timer_state :=
  let time_us := u64 (1000 * time_ms) in
  assert! timer_initialized p;
  let! (_, st) := esp_timer_stop until_lock st (timer_arg p) in
  let! (err, st) :=
    (if negb repeat_flag then esp_timer_start_once until_lock st (timer_arg p) time_us
     else esp_timer_start_periodic until_lock st (timer_arg p) time_us) in
  assert! err =? ESP_OK;
  Some st.

Definition ets_timer_done (until_lock : timer_state -> timer_state) (st : timer_state) (p : ETSTimer) : option (ETSTimer * timer_state) :=
  if timer_initialized p then
    let! (_, st) := esp_timer_delete until_lock st (timer_arg p) in
    Some (set_timer_expire (set_timer_arg p NULL) 0, st)
  else Some (p, st).

Definition ets_timer_disarm (until_lock : timer_state -> timer_state) (st : timer_state) (p : ETSTimer) : option timer_state :=
  if timer_initialized p then
    let! (_, st) := esp_timer_stop until_lock st (timer_arg p) in Some st
  else Some st.

(** ** The invariant of the timer lists

    Every list is sorted by alarm and free of repetitions; its members are
    armed timers of that dispatch method, and every armed timer is linked.
    [unlinked] is a timer an operation has in hand, exempt from the last. *)

Record timer_ok (t : esp_timer) : Prop := {
  to_alarm : 0 <= alarm t < 9223372036854775808;
  to_period : 0 <= period t < 72057594037927936 }.

Record lists_ok (unlinked : option Z) (st : timer_state) : Prop := {
  lo_sorted : forall d, ascending (alarm_at st) (s_timers st d);
  lo_nodup : forall d, NoDup (s_timers st d);
  lo_member : forall d h, h ∈ s_timers st d ->
    exists t, timers st !! h = Some t /\ dispatch_of t = d /\ 0 < alarm t;
  lo_armed : forall h t, timers st !! h = Some t -> 0 < alarm t -> unlinked <> Some h ->
    h ∈ s_timers st (dispatch_of t);
  lo_unlinked : forall h d, unlinked = Some h -> h ∉ s_timers st d;
  lo_timer : forall h t, timers st !! h = Some t -> timer_ok t;
  lo_now : 0 < time_now st < 4611686018427387904 }.

(** The hardware is programmed for the earliest timer of a list. *)
Definition alarm_ok (st : timer_state) (d : esp_timer_dispatch_t) : Prop :=
  timestamp_id st d = first_alarm st d.

Lemma insert_before_later_ordered st timer l :
  insert_before_later st timer l = ordered_insert (alarm_at st) timer l.
Proof.
  induction l as [|it l IH]; simpl; [done|].
  destruct (Z.ltb_spec (alarm_at st timer) (alarm_at st it)), (Z.leb_spec (alarm_at st it) (alarm_at st timer));
    try lia; by rewrite ?IH.
Qed.

Lemma with_list_same st d l : s_timers (with_list st d l) d = l.
Proof. by destruct d. Qed.

Lemma with_list_other st d d' l : d <> d' -> s_timers (with_list st d l) d' = s_timers st d'.
Proof. by destruct d, d'. Qed.

Lemma set_alarm_id_same st v d : timestamp_id (esp_timer_impl_set_alarm_id st v d) d = v.
Proof. by destruct d. Qed.

Lemma set_alarm_id_other st v d d' : d <> d' ->
  timestamp_id (esp_timer_impl_set_alarm_id st v d) d' = timestamp_id st d'.
Proof. by destruct d, d'. Qed.

Lemma set_alarm_id_frame st v d :
  let st' := esp_timer_impl_set_alarm_id st v d in
  timers st' = timers st /\ (forall d', s_timers st' d' = s_timers st d') /\
  time_now st' = time_now st /\ s_timer_task st' = s_timer_task st.
Proof. split_and!; try done. Qed.

(** Two states with the same lists and timers are equally well-formed. *)
Lemma lists_ok_frame x st st' :
  timers st' = timers st -> (forall d, s_timers st' d = s_timers st d) ->
  time_now st' = time_now st -> lists_ok x st -> lists_ok x st'.
Proof.
  intros E1 E2 E3 [L1 L2 L3 L4 L5 L6 L7].
  assert (forall h, alarm_at st h = alarm_at st' h) as E4 by (intros; unfold alarm_at; by rewrite E1).
  split; intros *; rewrite ?E1, ?E2, ?E3; eauto.
  eapply ascending_ext; eauto.
Qed.

Lemma lists_ok_unarmed st h t :
  lists_ok None st -> timers st !! h = Some t -> alarm t = 0 -> lists_ok (Some h) st.
Proof.
  intros [L1 L2 L3 L4 L5 L6 L7] Ht Ha. split; eauto.
  intros h' d [= <-] Hin. destruct (L3 _ _ Hin) as (t' & Ht' & _ & ?).
  rewrite Ht in Ht'. injection Ht' as <-. lia.
Qed.

Lemma lists_ok_armed st h t :
  lists_ok (Some h) st -> timers st !! h = Some t -> alarm t = 0 -> lists_ok None st.
Proof.
  intros [L1 L2 L3 L4 L5 L6 L7] Ht Ha. split; eauto; [|done].
  intros h' t' Ht' Ha' _. apply L4; [done..|]. intros [= <-]. rewrite Ht in Ht'.
  injection Ht' as <-. lia.
Qed.

Lemma alarm_at_upd_ne st h h' f : h <> h' -> alarm_at (upd_timer st h f) h' = alarm_at st h'.
Proof. intros. unfold alarm_at, upd_timer. simpl. by rewrite lookup_alter_ne. Qed.

Lemma upd_timer_lookup st h f t : timers st !! h = Some t -> timers (upd_timer st h f) !! h = Some (f t).
Proof. intros E. unfold upd_timer. simpl. by rewrite lookup_alter_eq, E. Qed.

Lemma s_timers_upd st h f d : s_timers (upd_timer st h f) d = s_timers st d.
Proof. by destruct d. Qed.

Lemma lists_ok_upd st h f t :
  lists_ok (Some h) st -> timers st !! h = Some t -> timer_ok (f t) -> lists_ok (Some h) (upd_timer st h f).
Proof.
  intros [L1 L2 L3 L4 L5 L6 L7] Ht Hf.
  assert (forall d h', h' ∈ s_timers st d -> h <> h') as Hne by (intros d h' Hin ->; by eapply L5).
  split; intros *; rewrite ?s_timers_upd; eauto.
  - eapply ascending_ext_in; [|apply L1]. intros h' Hin. symmetry. apply alarm_at_upd_ne. eauto.
  - intros Hin. destruct (L3 _ _ Hin) as (t' & ? & ? & ?). exists t'. split_and!; try done.
    unfold upd_timer. simpl. rewrite lookup_alter_ne by eauto. done.
  - unfold upd_timer. simpl. intros Hl Ha Hx. rewrite lookup_alter_ne in Hl by congruence. eauto.
  - unfold upd_timer. simpl. destruct (decide (h = h0)) as [->|].
    + rewrite lookup_alter_eq, Ht. by intros [= <-].
    + rewrite lookup_alter_ne by done. eauto.
Qed.

Lemma LIST_REMOVE_ok st h d :
  lists_ok None st -> h ∈ s_timers st d ->
  exists st', LIST_REMOVE st h d = Some st' /\ lists_ok (Some h) st' /\ timers st' = timers st /\
    s_timers st' d = filter (fun h' => h' <> h) (s_timers st d) /\
    (forall d', d <> d' -> s_timers st' d' = s_timers st d') /\
    (forall d', timestamp_id st' d' = timestamp_id st d') /\
    time_now st' = time_now st /\ s_timer_task st' = s_timer_task st.
Proof.
  intros [L1 L2 L3 L4 L5 L6 L7] Hin. unfold LIST_REMOVE. rewrite bool_decide_true by done. simpl.
  eexists. split; [done|]. set (st' := with_list st d _).
  assert (s_timers st' d = filter (fun h' => h' <> h) (s_timers st d)) as Es by apply with_list_same.
  assert (forall d', d <> d' -> s_timers st' d' = s_timers st d') as Eo
    by (intros; by apply with_list_other).
  assert (timers st' = timers st) as Et by done.
  assert (forall h' d', h' ∈ s_timers st' d' -> h' ∈ s_timers st d' /\ h' <> h) as Hsub.
  { intros h' d' Hin'. destruct (decide (d = d')) as [->|].
    - rewrite Es in Hin'. apply list_elem_of_filter in Hin' as [? ?]. done.
    - rewrite Eo in Hin' by done. split; [done|]. intros ->.
      destruct (L3 _ _ Hin) as (? & E1 & ? & _), (L3 _ _ Hin') as (? & E2 & ? & _). congruence. }
  split; [|by split_and!]. split; intros *; rewrite ?Et; eauto.
  - destruct (decide (d = d0)) as [->|]; [rewrite Es; by apply ascending_filter|by rewrite Eo].
  - destruct (decide (d = d0)) as [->|]; [rewrite Es; by apply NoDup_filter|by rewrite Eo].
  - intros [? _]%Hsub. eauto.
  - intros Ht Ha Hne. assert (h0 <> h) by congruence.
    destruct (decide (d = dispatch_of t)) as [->|]; [rewrite Es|rewrite Eo by done; eauto].
    apply list_elem_of_filter. eauto.
  - intros [= ->] [_ ?]%Hsub. done.
Qed.

Lemma ordered_insert_head {A} (key : A -> Z) x l :
  ascending key l ->
  head (ordered_insert key x l) = Some x \/
  (exists y, head l = Some y /\ head (ordered_insert key x l) = Some y /\ key y <= key x).
Proof.
  destruct l as [|y l]; simpl; [by left|]. intros _.
  destruct (Z.leb_spec (key y) (key x)); [right; by exists y|by left].
Qed.

Lemma NoDup_ordered_insert {A} (key : A -> Z) x l :
  x ∉ l -> NoDup l -> NoDup (ordered_insert key x l).
Proof. intros. rewrite ordered_insert_perm. by constructor. Qed.

(** What [timer_insert] does with a timer in hand. *)
Lemma timer_insert_ok st h t without :
  lists_ok (Some h) st -> timers st !! h = Some t -> 0 < alarm t ->
  exists st', timer_insert st h without = Some st' /\ lists_ok None st' /\
    timers st' = timers st /\ time_now st' = time_now st /\ s_timer_task st' = s_timer_task st /\
    s_timers st' (dispatch_of t) = ordered_insert (alarm_at st) h (s_timers st (dispatch_of t)) /\
    (forall d, dispatch_of t <> d -> s_timers st' d = s_timers st d /\
                                     timestamp_id st' d = timestamp_id st d) /\
    (without = true -> forall d, timestamp_id st' d = timestamp_id st d) /\
    (without = false -> forall d, alarm_ok st d -> alarm_ok st' d).
Proof.
  intros Hok Ht Ha. pose proof Hok as [L1 L2 L3 L4 L5 L6 L7].
  unfold timer_insert. rewrite Ht. set (d := dispatch_of t).
  rewrite bool_decide_false by (by apply L5). simpl. rewrite insert_before_later_ordered.
  set (l := ordered_insert _ _ _). set (st1 := with_list st d l).
  assert (lists_ok None st1) as Hok1.
  { assert (timers st1 = timers st) as Et by done.
    assert (s_timers st1 d = l) as Es by apply with_list_same.
    assert (forall d', d <> d' -> s_timers st1 d' = s_timers st d') as Eo
      by (intros; by apply with_list_other).
    assert (forall d' h', h' ∈ s_timers st1 d' <-> h' ∈ s_timers st d' \/ (d' = d /\ h' = h)) as Hm.
    { intros d' h'. destruct (decide (d = d')) as [<-|].
      - rewrite Es. unfold l. rewrite ordered_insert_perm, elem_of_cons. naive_solver.
      - rewrite Eo by done. naive_solver. }
    split; intros *; rewrite ?Et; eauto; [..|done].
    - destruct (decide (d = d0)) as [<-|]; [rewrite Es|by rewrite Eo].
      by apply ordered_insert_ascending.
    - destruct (decide (d = d0)) as [<-|]; [rewrite Es|by rewrite Eo].
      apply NoDup_ordered_insert; [by apply L5|done].
    - rewrite Hm. intros [?|[-> ->]]; eauto.
    - intros Ht' Ha' _. rewrite Hm. destruct (decide (h0 = h)) as [->|].
      + right. rewrite Ht in Ht'. injection Ht' as <-. done.
      + left. apply L4; [done..|congruence]. }
  assert (forall d', d <> d' -> timestamp_id st1 d' = timestamp_id st d') as Ets by done.
  pose proof (ordered_insert_head (alarm_at st) h (s_timers st d) (L1 d)) as Hhead. fold l in Hhead.
  destruct (negb without && _) eqn:E.
  - apply andb_true_iff in E as [->%negb_true_iff E%bool_decide_eq_true].
    eexists. split; [done|].
    destruct (set_alarm_id_frame st1 (alarm t) d) as (F1 & F2 & F3 & F4).
    split_and!; try done.
    + by eapply lists_ok_frame.
    + rewrite F2. apply with_list_same.
    + intros d' Hd. rewrite F2, set_alarm_id_other by done. split; [by apply with_list_other|done].
    + intros _ d'. unfold alarm_ok, first_alarm. rewrite F2. destruct (decide (d = d')) as [<-|].
      * intros _. rewrite set_alarm_id_same. unfold st1. rewrite with_list_same.
        destruct l; [done|]. injection E as ->. change (alarm t = from_option alarm 0 (timers st !! h)). by rewrite Ht.
      * rewrite set_alarm_id_other by done. unfold st1. rewrite with_list_other by done. done.
  - eexists. split; [done|]. split_and!; try done.
    + apply with_list_same.
    + intros d' Hd. split; [by apply with_list_other|done].
    + intros -> d'. simpl in E. apply bool_decide_eq_false in E.
      unfold alarm_ok, first_alarm. destruct (decide (d = d')) as [<-|].
      * unfold st1 at 2 3. rewrite with_list_same. intros Hal.
        transitivity (timestamp_id st d); [by destruct d|]. rewrite Hal.
        destruct Hhead as [?|(y & Hy1 & Hy2 & _)]; [done|].
        destruct (s_timers st d); [done|]. destruct l; [done|]. injection Hy1 as ->. injection Hy2 as ->. done.
      * unfold st1 at 2 3. rewrite with_list_other by done. intros Hal. by rewrite Ets.
Qed.

Lemma filter_head_ne (x : Z) l :
  NoDup l -> head l <> Some x -> head (filter (fun y => y <> x) l) = head l.
Proof.
  destruct l as [|y l]; intros _ H; [done|]. rewrite filter_cons, decide_True; [done|].
  intros ->. done.
Qed.

(** What [timer_remove] does with a linked timer. *)
Lemma timer_remove_ok st h t :
  lists_ok None st -> timers st !! h = Some t -> h ∈ s_timers st (dispatch_of t) ->
  exists st', timer_remove st h = Some st' /\ lists_ok (Some h) st' /\
    timers st' = alter (set_alarm_period 0 0) h (timers st) /\
    time_now st' = time_now st /\ s_timer_task st' = s_timer_task st /\
    s_timers st' (dispatch_of t) = filter (fun h' => h' <> h) (s_timers st (dispatch_of t)) /\
    (forall d, dispatch_of t <> d -> s_timers st' d = s_timers st d) /\
    (forall d, alarm_ok st d -> alarm_ok st' d).
Proof.
  intros Hok Ht Hin. unfold timer_remove. rewrite Ht. set (d := dispatch_of t) in *.
  destruct (LIST_REMOVE_ok st h d Hok Hin) as (st1 & -> & Hok1 & Et & Es & Eo & Ets & En & Ek).
  assert (timers st1 !! h = Some t) as Ht1 by (by rewrite Et).
  assert (lists_ok (Some h) (upd_timer st1 h (set_alarm_period 0 0))) as Hok2.
  { eapply lists_ok_upd; [done..|]. split; [simpl; lia|]. change (0 <= 0 < 72057594037927936). lia. }
  set (st2 := upd_timer st1 h _) in *.
  assert (forall d, s_timers st2 d = s_timers st1 d) as E2 by (intros; apply s_timers_upd).
  assert (forall d', alarm_ok st d' -> d <> d' -> alarm_ok st2 d') as Hother.
  { intros d' Hal Hd. unfold alarm_ok, first_alarm in *. rewrite E2, Eo by done.
    transitivity (timestamp_id st d'); [by rewrite <- Ets; destruct d'|]. rewrite Hal.
    destruct (s_timers st d') as [|y l] eqn:El; [done|]. unfold st2. rewrite alarm_at_upd_ne.
    - unfold alarm_at. by rewrite Et.
    - intros ->. apply (lo_unlinked _ _ Hok2 y d' eq_refl). rewrite E2, Eo, El by done. by left. }
  destruct (bool_decide _) eqn:E.
  - apply bool_decide_eq_true in E. eexists. split; [done|].
    destruct (set_alarm_id_frame st2 (first_alarm st2 d) d) as (F1 & F2 & F3 & F4).
    split_and!; rewrite ?F1, ?F2, ?F3, ?F4, ?E2; try done.
    + by eapply lists_ok_frame.
    + unfold st2, upd_timer. simpl. by rewrite Et.
    + intros d' Hal. destruct (decide (d = d')) as [<-|].
      * unfold alarm_ok. rewrite set_alarm_id_same. unfold first_alarm. rewrite F2.
        by destruct (s_timers st2 d).
      * pose proof (Hother d' Hal n) as H2. unfold alarm_ok in *. rewrite set_alarm_id_other by done.
        rewrite H2. unfold first_alarm. by rewrite F2.
  - apply bool_decide_eq_false in E. eexists. split; [done|]. split_and!; rewrite ?E2; try done.
    + unfold st2, upd_timer. simpl. by rewrite Et.
    + intros d' Hal. destruct (decide (d = d')) as [<-|]; [|by apply Hother].
      unfold alarm_ok, first_alarm in *. rewrite E2, Es.
      transitivity (timestamp_id st d); [by rewrite <- Ets; destruct d|]. rewrite Hal.
      pose proof (filter_head_ne h (s_timers st d) (lo_nodup _ _ Hok d) E) as Hh.
      destruct (s_timers st d) as [|y l]; [done|]. simpl in Hh, E.
      destruct (filter _ (y :: l)) as [|y' l']; [done|]. injection Hh as ->.
      unfold st2. rewrite alarm_at_upd_ne by congruence. unfold alarm_at. by rewrite Et.
Qed.

(** ** The API keeps the lists and the hardware alarm right *)

Inductive timer_op :=
| OpCreate (args : option esp_timer_create_args_t) (out_handle result : Z)
| OpStartOnce (timer timeout_us : Z)
| OpStartPeriodic (timer period_us : Z)
| OpStop (timer : Z)
| OpRestart (timer timeout_us : Z)
| OpDelete (timer : Z).

Definition run_op (until_lock : timer_state -> timer_state) (st : timer_state) (op : timer_op) : option (esp_err_t * timer_state) :=
  match op with
  | OpCreate args out result => let '(err, _, st) := esp_timer_create st args out result in Some (err, st)
  | OpStartOnce h us => esp_timer_start_once until_lock st h us
  | OpStartPeriodic h us => esp_timer_start_periodic until_lock st h us
  | OpStop h => esp_timer_stop until_lock st h
  | OpRestart h us => esp_timer_restart until_lock st h us
  | OpDelete h => esp_timer_delete until_lock st h
  end.

(** The handle is live (or NULL), the interval below 2{^55} us (a thousand
    years), the allocator returns fresh memory. *)
Definition live_handle (st : timer_state) (h : Z) : Prop := h = NULL \/ is_Some (timers st !! h).
Definition interval_ok (us : Z) : Prop := 0 < us < 36028797018963968.

Definition armed_in (st : timer_state) (h : Z) : Prop :=
  exists t, timers st !! h = Some t /\ timer_armed t = true.

(** What runs until the operation has the lock keeps the lists and the handle, and
    if the operation is a restart it does not disarm the timer. *)
Definition meanwhile_ok (st st' : timer_state) (op : timer_op) : Prop :=
  lists_ok None st' /\ (forall d, alarm_ok st' d) /\
  (forall h, is_Some (timers st !! h) -> is_Some (timers st' !! h)) /\
  match op with OpRestart h _ => armed_in st h -> armed_in st' h | _ => True end.

Definition timer_op_ok (st : timer_state) (op : timer_op) : Prop :=
  match op with
  | OpCreate _ _ result => timers st !! result = None
  | OpStartOnce h us | OpStartPeriodic h us | OpRestart h us => live_handle st h /\ interval_ok us
  | OpStop h | OpDelete h => live_handle st h
  end.

Lemma alarm_value now us :
  0 < now < 4611686018427387904 -> 0 <= us < 72057594037927936 -> u64 (s64 (u64 (now + us))) = now + us.
Proof. intros. word_norm. done. Qed.

(** Arming an unarmed timer. *)
Lemma arm_ok st h t f :
  lists_ok None st -> timers st !! h = Some t -> timer_armed t = false ->
  timer_ok (f t) -> 0 < alarm (f t) ->
  exists st', timer_insert (upd_timer st h f) h false = Some st' /\ lists_ok None st' /\
    timers st' = alter f h (timers st) /\ time_now st' = time_now st /\
    s_timers st' (dispatch_of (f t)) =
      ordered_insert (alarm_at st') h (s_timers st (dispatch_of (f t))) /\
    (forall d, dispatch_of (f t) <> d -> s_timers st' d = s_timers st d) /\
    (forall d, alarm_ok st d -> alarm_ok st' d).
Proof.
  intros Hok Ht Ha Hf Hpos. unfold timer_armed in Ha. apply Z.ltb_ge in Ha.
  pose proof (lo_timer _ _ Hok _ _ Ht) as [[Ht0 _] _].
  assert (lists_ok (Some h) st) as Hok1 by (eapply lists_ok_unarmed; [done..|lia]).
  pose proof (lists_ok_upd _ _ _ _ Hok1 Ht Hf) as Hok2.
  destruct (timer_insert_ok _ h (f t) false Hok2) as
    (st' & E & Hok' & Et & En & _ & Es & Eo & _ & Hal); [by apply upd_timer_lookup|done|].
  exists st'. split_and!; try done.
  - rewrite Es, s_timers_upd. apply ordered_insert_ext.
    + unfold alarm_at. by rewrite Et.
    + apply Forall_forall. intros h' _. unfold alarm_at. by rewrite Et.
  - intros d Hd. rewrite (proj1 (Eo d Hd)). apply s_timers_upd.
  - intros d Hd. apply Hal; [done|]. unfold alarm_ok, first_alarm in *. rewrite s_timers_upd.
    transitivity (timestamp_id st d); [by destruct d|]. rewrite Hd.
    destruct (s_timers st d) as [|y l] eqn:El; [done|]. symmetry. apply alarm_at_upd_ne.
    intros <-. apply (lo_unlinked _ _ Hok1 h d eq_refl). rewrite El. by left.
Qed.

Lemma dispatch_set_alarm_period a p t : dispatch_of (set_alarm_period a p t) = dispatch_of t.
Proof. done. Qed.

Lemma timer_ok_set a p t :
  0 <= a < 9223372036854775808 -> timer_ok (set_alarm_period a p t).
Proof. intros. split; simpl; [lia|]. apply Z.mod_pos_bound. lia. Qed.

Lemma restart_locked_ok st h t us :
  lists_ok None st -> timers st !! h = Some t -> timer_armed t = true -> interval_ok us ->
  exists st', restart_locked st h us = Some (ESP_OK, st') /\ lists_ok None st' /\
    (forall d, alarm_ok st d -> alarm_ok st' d).
Proof.
  intros Hok Ht Ha [Hus0 Hus]. unfold timer_armed in Ha. apply Z.ltb_lt in Ha.
  pose proof (lo_now _ _ Hok) as Hnow.
  assert (h ∈ s_timers st (dispatch_of t)) as Hin by (by eapply lo_armed).
  destruct (timer_remove_ok st h t Hok Ht Hin) as (st1 & E1 & Hok1 & Et & En & _ & _ & _ & Hal).
  unfold restart_locked. rewrite Ht, E1.
  assert (timers st1 !! h = Some (set_alarm_period 0 0 t)) as Ht1
    by (rewrite Et, lookup_alter_eq, Ht; done).
  assert (lists_ok None st1) as Hok1' by (by eapply lists_ok_armed).
  destruct (negb (period t =? 0)).
  - destruct (arm_ok st1 h _ (set_alarm_period (u64 (time_now st + Z.max us esp_timer_impl_get_min_period_us))
        (Z.max us esp_timer_impl_get_min_period_us)) Hok1' Ht1) as (st2 & -> & Hok2 & _ & _ & _ & _ & Hal2);
      unfold esp_timer_impl_get_min_period_us; [done|..].
    + apply timer_ok_set. word_norm. lia.
    + simpl. word_norm. lia.
    + eexists. split; [done|]. split; auto.
  - destruct (arm_ok st1 h _ (set_alarm_period (u64 (time_now st + us)) 0) Hok1' Ht1) as
      (st2 & -> & Hok2 & _ & _ & _ & _ & Hal2); [done|..].
    + apply timer_ok_set. word_norm. lia.
    + simpl. word_norm. lia.
    + eexists. split; [done|]. split; auto.
Qed.

(** A freshly allocated, unarmed timer. *)
Lemma create_ok st result fl cb ar :
  lists_ok None st -> (forall d, alarm_ok st d) -> timers st !! result = None ->
  let st' := with_timers st (<[result := mkTimer 0 0 fl cb ar]> (timers st)) in
  lists_ok None st' /\ (forall d, alarm_ok st' d).
Proof.
  intros Hok Hal Hfr st'.
  assert (forall h, h <> result -> timers st' !! h = timers st !! h) as Hne
    by (intros; by apply lookup_insert_ne).
  assert (timers st' !! result = Some (mkTimer 0 0 fl cb ar)) as Heq by apply lookup_insert_eq.
  assert (forall d h, h ∈ s_timers st d -> h <> result) as Hfresh.
  { intros d h Hin ->. destruct (lo_member _ _ Hok _ _ Hin) as (? & ? & _). congruence. }
  assert (forall d h, h ∈ s_timers st d -> alarm_at st h = alarm_at st' h) as Haeq
    by (intros d h Hin; unfold alarm_at; rewrite Hne; eauto).
  assert (forall d, s_timers st' d = s_timers st d) as Es by done.
  assert (forall d, timestamp_id st' d = timestamp_id st d) as Ets by done.
  assert (time_now st' = time_now st) as En by done.
  clearbody st'. split; [|intros d; unfold alarm_ok, first_alarm in *].
  - destruct Hok as [L1 L2 L3 L4 L5 L6 L7]. split; intros *; rewrite ?Es; eauto.
    + eapply ascending_ext_in; [|apply L1]. eauto.
    + intros Hin. rewrite Hne by eauto. auto.
    + intros Ht Ha _. destruct (decide (h = result)) as [->|].
      * rewrite Heq in Ht. by injection Ht as <-.
      * rewrite Hne in Ht by done. by apply L4.
    + intros Ht. destruct (decide (h = result)) as [->|].
      * rewrite Heq in Ht. injection Ht as <-. split; simpl; lia.
      * rewrite Hne in Ht by done. eauto.
    + by rewrite En.
  - rewrite Ets, Hal, Es. destruct (s_timers st d) as [|y l] eqn:El; [done|].
    eapply Haeq. rewrite El. by left.
Qed.

(** C27: every API call succeeds or fails cleanly: on live handles it never
    corrupts a list; both lists stay sorted by alarm, hold exactly the armed
    timers of their dispatch method, and the hardware stays programmed for the
    first timer of each.  Whatever other calls do between the call's start and its
    taking the list lock is allowed for, as long as they keep the lists and the
    handle, and nothing disarms a timer that is being restarted (see
    [restart_races_with_dispatch]). *)
Theorem timer_api_invariant (until_lock : timer_state -> timer_state) st op :
  lists_ok None st -> (forall d, alarm_ok st d) -> timer_op_ok st op -> meanwhile_ok st (until_lock st) op ->
  exists err st', run_op until_lock st op = Some (err, st') /\ lists_ok None st' /\ (forall d, alarm_ok st' d).
Proof.
  intros Hok Hal Hop (Hok2 & Hal2 & Hlive2 & Harmed). pose proof (lo_now _ _ Hok) as Hnow.
  assert (forall err : esp_err_t, exists (err' : esp_err_t) st', Some (err, st) = Some (err', st') /\ lists_ok None st' /\
    (forall d, alarm_ok st' d)) as Hsame by eauto.
  assert (forall err : esp_err_t, exists (err' : esp_err_t) st', Some (err, until_lock st) = Some (err', st') /\
    lists_ok None st' /\ (forall d, alarm_ok st' d)) as Hsame2 by eauto.
  destruct op as [args out result|h us|h us|h|h us|h]; simpl in Hop, Harmed |- *.
  - unfold esp_timer_create. destruct (negb _); [apply Hsame|].
    destruct args as [a|]; [|apply Hsame]. destruct (_ || _); [apply Hsame|].
    destruct (_ =? _); [apply Hsame|]. eexists _, _. split; [done|]. by apply create_ok.
  - destruct Hop as [Hlive [Hus0 Hus]]. unfold esp_timer_start_once.
    destruct (Z.eqb_spec h NULL); [apply Hsame|]. destruct Hlive as [->|[t Ht]%Hlive2]; [done|].
    destruct (negb _); [apply Hsame|]. rewrite Ht. destruct (timer_armed t) eqn:Ha; [apply Hsame2|].
    rewrite alarm_value by lia.
    destruct (arm_ok (until_lock st) h t (set_alarm_period (time_now st + us) 0)) as
      (st' & -> & ? & _ & _ & _ & _ & ?); try done; [apply timer_ok_set; lia|simpl; lia|eauto 10].
  - destruct Hop as [Hlive [Hus0 Hus]]. unfold esp_timer_start_periodic.
    destruct (Z.eqb_spec h NULL); [apply Hsame|]. destruct Hlive as [->|[t Ht]%Hlive2]; [done|].
    destruct (negb _); [apply Hsame|]. rewrite Ht. destruct (timer_armed t) eqn:Ha; [apply Hsame2|].
    unfold esp_timer_impl_get_min_period_us. rewrite alarm_value by lia.
    destruct (arm_ok (until_lock st) h t (set_alarm_period (time_now st + Z.max us 50) (Z.max us 50))) as
      (st' & -> & ? & _ & _ & _ & _ & ?); try done; [apply timer_ok_set; lia|simpl; lia|eauto 10].
  - unfold esp_timer_stop.
    destruct (Z.eqb_spec h NULL); [apply Hsame|]. destruct Hop as [->|[t Ht]%Hlive2]; [done|].
    destruct (negb _); [apply Hsame|]. rewrite Ht. destruct (timer_armed t) eqn:Ha; [|apply Hsame2].
    unfold timer_armed in Ha. apply Z.ltb_lt in Ha.
    destruct (timer_remove_ok (until_lock st) h t Hok2 Ht) as (st' & -> & Hok' & Et & _ & _ & _ & _ & ?);
      [by eapply lo_armed|].
    eexists _, _. split; [done|]. split; [|auto].
    eapply lists_ok_armed; [done| |]; [by rewrite Et, lookup_alter_eq, Ht|done].
  - destruct Hop as [Hlive Hus]. unfold esp_timer_restart.
    destruct (Z.eqb_spec h NULL); [apply Hsame|]. destruct Hlive as [->|[t Ht]]; [done|].
    destruct (negb (is_initialized st)); [apply Hsame|]. rewrite Ht.
    destruct (timer_armed t) eqn:Ha; [|apply Hsame]. simpl.
    destruct Harmed as (t' & Ht' & Ha'); [by exists t|].
    destruct (restart_locked_ok (until_lock st) h t' us) as (st' & -> & ? & ?); try done. eauto 10.
  - unfold esp_timer_delete.
    destruct (Z.eqb_spec h NULL); [apply Hsame|]. destruct Hop as [->|[t Ht]%Hlive2]; [done|].
    rewrite Ht. destruct (timer_armed t) eqn:Ha; [apply Hsame2|].
    destruct (arm_ok (until_lock st) h t (mark_deleted (time_now st))) as
      (st' & -> & ? & _ & _ & _ & _ & ?); try done.
    + split; simpl; word_norm; lia.
    + simpl. word_norm. lia.
    + eauto 10.
Qed.

(** ** What dispatching at time [now] makes of a timer *)

Definition pending (now : Z) (t : esp_timer) : bool := timer_armed t && (alarm t <=? now).

(** Whole periods since the alarm. *)
Definition missed (now : Z) (t : esp_timer) : Z := (now - alarm t) / period t.

Definition skips (now : Z) (t : esp_timer) : bool :=
  has_flag (flags t) FL_SKIP_UNHANDLED_EVENTS && (1 <? missed now t).

(** How often its callback runs. *)
Definition fires (now : Z) (t : esp_timer) : Z :=
  if negb (pending now t) then 0
  else if event_id t =? EVENT_ID_DELETE_TIMER then 0
  else if period t =? 0 then 1
  else if skips now t then 1
  else missed now t + 1.

(** The timer afterwards; [None] if it is freed. *)
Definition settled (now : Z) (t : esp_timer) : option esp_timer :=
  if negb (pending now t) then Some t
  else if event_id t =? EVENT_ID_DELETE_TIMER then None
  else if period t =? 0 then Some (set_alarm 0 t)
  else if skips now t then Some (set_alarm (now + period t) t)
  else Some (set_alarm (alarm t + (missed now t + 1) * period t) t).

(** The [int skipped] of the code does not overflow. *)
Definition skip_ok (now : Z) (t : esp_timer) : Prop :=
  has_flag (flags t) FL_SKIP_UNHANDLED_EVENTS = true -> alarm t <= now -> missed now t < 2147483648.

Lemma missed_next now t : 0 < period t -> missed now (set_alarm (alarm t + period t) t) = missed now t - 1.
Proof.
  intros. unfold missed. simpl. replace (now - (alarm t + period t)) with (now - alarm t + (-1) * period t) by lia.
  rewrite Z.div_add by lia. lia.
Qed.

Lemma missed_bounds now t : 0 < period t -> alarm t <= now ->
  0 <= missed now t /\ alarm t + missed now t * period t <= now < alarm t + (missed now t + 1) * period t.
Proof.
  intros Hp Ha. unfold missed. pose proof (Z.div_mod (now - alarm t) (period t)).
  pose proof (Z.mod_pos_bound (now - alarm t) (period t) Hp).
  pose proof (Z.div_pos (now - alarm t) (period t)). nia.
Qed.

Definition time_ok (now : Z) : Prop := 0 < now < 4611686018427387904.

Lemma rearmed_value now t :
  time_ok now -> timer_ok t -> 0 < alarm t <= now -> 0 < period t -> skip_ok now t ->
  rearmed now t = if skips now t then now + period t else alarm t + period t.
Proof.
  intros Hn [Ha Hp] Hdue Hpos Hs. unfold time_ok in *. unfold rearmed, skips.
  rewrite (u64_small (now - alarm t)) by lia. fold (missed now t).
  destruct (has_flag (flags t) FL_SKIP_UNHANDLED_EVENTS) eqn:Hf; simpl; word_norm; [|done].
  pose proof (missed_bounds now t Hpos). specialize (Hs Hf). rewrite s32_small by lia.
  destruct (1 <? missed now t); word_norm; done.
Qed.

Lemma pending_true now t : 0 < alarm t <= now -> pending now t = true.
Proof. intros. unfold pending, timer_armed. bool_cases; done. Qed.

Lemma pending_false now t : now < alarm t \/ alarm t <= 0 -> pending now t = false.
Proof. intros. unfold pending, timer_armed. bool_cases; done. Qed.

(** One turn for a periodic timer leaves it settling where it would have. *)
Lemma rearm_step now t :
  time_ok now -> timer_ok t -> 0 < alarm t <= now -> 0 < period t -> skip_ok now t ->
  event_id t <> EVENT_ID_DELETE_TIMER ->
  let t1 := set_alarm (rearmed now t) t in
  settled now t1 = settled now t /\ fires now t = 1 + fires now t1 /\ 0 <= fires now t1 /\
  alarm t < alarm t1 /\ timer_ok t1 /\ skip_ok now t1 /\ dispatch_of t1 = dispatch_of t.
Proof.
  intros Hn Hok Hdue Hpos Hs Hdel. cbv zeta. rewrite rearmed_value by done.
  pose proof Hok as [Ha Hp]. pose proof (missed_bounds now t Hpos) as Hm. unfold time_ok in *.
  unfold settled at 2, fires at 1. rewrite pending_true by done. simpl.
  apply Z.eqb_neq in Hdel. rewrite Hdel. destruct (Z.eqb_spec (period t) 0); [lia|].
  destruct (skips now t) eqn:Esk.
  - set (t1 := set_alarm _ t). assert (pending now t1 = false) as Hp1 by (apply pending_false; simpl; lia).
    unfold settled, fires. rewrite Hp1. subst t1. simpl in *. split_and!; try done; try lia.
    + split; simpl; lia.
    + intros _. simpl. lia.
  - set (t1 := set_alarm _ t). destruct (Z.eq_dec (missed now t) 0) as [E0|E0].
    + assert (pending now t1 = false) as Hp1 by (apply pending_false; simpl; nia).
      unfold settled, fires. rewrite Hp1. simpl. rewrite E0. subst t1. simpl in *.
      split_and!; try done; try lia.
      * do 2 f_equal. lia.
      * split; simpl; lia.
      * intros _. simpl. nia.
    + assert (missed now t1 = missed now t - 1) as Em by (by apply missed_next).
      assert (pending now t1 = true) as Hp1 by (apply pending_true; simpl; nia).
      assert (skips now t1 = false) as Esk1.
      { unfold skips in *. rewrite Em. simpl. destruct (has_flag _ _); simpl in *; [|done]. bool_cases; done. }
      unfold settled, fires. rewrite Hp1. cbn [negb]. change (period t1) with (period t). change (event_id t1) with (event_id t).
      rewrite Hdel. destruct (Z.eqb_spec (period t) 0); [lia|]. rewrite Esk1, Em.
      assert (skip_ok now t1) as Hs1.
      { intros Hf Hl. rewrite Em. assert (missed now t < 2147483648); [|lia]. apply Hs; [done|lia]. }
      split_and!; try done; try (simpl; lia).
      * unfold t1, set_alarm. simpl. do 2 f_equal. lia.
      * split; simpl; lia.
Qed.

(** ** One turn of the loop *)

Record turn (st st' : timer_state) (d : esp_timer_dispatch_t) : Prop := {
  tn_lists : lists_ok None st';
  tn_other : forall d', d <> d' -> s_timers st' d' = s_timers st d';
  tn_stamp : forall d', timestamp_id st' d' = timestamp_id st d';
  tn_time : time_now st' = time_now st;
  tn_task : s_timer_task st' = s_timer_task st }.

Lemma alarm_at_insert st h h' t : h <> h' ->
  alarm_at (with_timers st (<[h := t]> (timers st))) h' = alarm_at st h'.
Proof. intros. unfold alarm_at. simpl. by rewrite lookup_insert_ne. Qed.

Lemma filter_ne_head (x : Z) l : NoDup (x :: l) -> filter (fun y => y <> x) (x :: l) = l.
Proof.
  intros [Hx _]%NoDup_cons. rewrite filter_cons, decide_False by (intros []; done).
  induction l as [|y l IH]; [done|]. rewrite filter_cons. apply not_elem_of_cons in Hx as [? ?].
  rewrite decide_True by done. f_equal. auto.
Qed.

Lemma alter_insert_value (m : gmap Z esp_timer) f h t :
  m !! h = Some t -> alter f h m = <[h := f t]> m.
Proof.
  intros E. apply map_eq. intros i. destruct (decide (h = i)) as [<-|].
  - by rewrite lookup_alter_eq, lookup_insert_eq, E.
  - by rewrite lookup_alter_ne, lookup_insert_ne.
Qed.

(** A timer whose callback runs: it leaves the list, or moves back in it. *)
Lemma process_fire st d it l t t1 :
  lists_ok None st -> s_timers st d = it :: l -> timers st !! it = Some t ->
  (period t = 0 -> t1 = set_alarm 0 t) ->
  (0 < period t -> t1 = set_alarm (rearmed (time_now st) t) t /\ 0 < alarm t1 /\ timer_ok t1) ->
  exists st1 st2, LIST_REMOVE st it d = Some st1 /\
    (if 0 <? period t then timer_insert (upd_timer st1 it (set_alarm (rearmed (time_now st) t))) it true
     else Some (upd_timer st1 it (set_alarm 0))) = Some st2 /\
    turn st st2 d /\ timers st2 = <[it := t1]> (timers st) /\
    (if 0 <? period t then s_timers st2 d ≡ₚ it :: l else s_timers st2 d = l).
Proof.
  intros Hok El Ht Hone Hper.
  assert (it ∈ s_timers st d) as Hin by (rewrite El; by left).
  destruct (lo_member _ _ Hok _ _ Hin) as (t' & E' & Hd & Ha). rewrite Ht in E'. injection E' as <-.
  destruct (LIST_REMOVE_ok st it d Hok Hin) as (st1 & E1 & Hok1 & Et & Es & Eo & Ets & En & Ek).
  assert (s_timers st1 d = l) as Es1.
  { rewrite Es, El. apply filter_ne_head. rewrite <- El. apply Hok. }
  assert (timers st1 !! it = Some t) as Ht1 by (by rewrite Et).
  pose proof (lo_timer _ _ Hok _ _ Ht) as [Hr1 Hr2].
  exists st1. destruct (Z.ltb_spec 0 (period t)) as [Hp|Hp].
  - destruct (Hper Hp) as (Heq & Hpos & Htok).
    assert (lists_ok (Some it) (upd_timer st1 it (set_alarm (rearmed (time_now st) t)))) as Hok2
      by (eapply lists_ok_upd; [done..|by rewrite <- Heq]).
    destruct (timer_insert_ok _ it t1 true Hok2) as
      (st2 & E2 & Hok' & Et' & En' & Ek' & Es' & Eo' & Hst & _); [rewrite Heq; by apply upd_timer_lookup|done|].
    assert (dispatch_of t1 = d) as Hd1 by (by rewrite Heq).
    exists st2. rewrite Hd1 in Es', Eo'. split_and!; try done.
    + split; try done; [| |by rewrite En'|by rewrite Ek'].  
      * intros d' Hd'. rewrite (proj1 (Eo' d' Hd')), s_timers_upd. by apply Eo.
      * intros d'. rewrite Hst by done. transitivity (timestamp_id st1 d'); [by destruct d'|apply Ets].
    + rewrite Et'. unfold upd_timer. simpl. rewrite Et, Heq. by rewrite (alter_insert_value _ _ _ t Ht).
    + rewrite Es', ordered_insert_perm, s_timers_upd. by rewrite Es1.
  - assert (period t = 0) as Hp0 by lia. specialize (Hone Hp0). exists (upd_timer st1 it (set_alarm 0)).
    split_and!; try done.
    + split; try done.
      eapply lists_ok_armed; [eapply lists_ok_upd; [done..|split; simpl; lia]|by apply upd_timer_lookup|done].
    + unfold upd_timer. simpl. rewrite Et, Hone. by rewrite (alter_insert_value _ _ _ t Ht).
Qed.

(** A timer whose memory is released. *)
Lemma process_free st d it l t :
  lists_ok None st -> s_timers st d = it :: l -> timers st !! it = Some t ->
  exists st1, LIST_REMOVE st it d = Some st1 /\
    let st2 := with_timers st1 (delete it (timers st1)) in
    turn st st2 d /\ timers st2 = delete it (timers st) /\ s_timers st2 d = l.
Proof.
  intros Hok El Ht. assert (it ∈ s_timers st d) as Hin by (rewrite El; by left).
  destruct (LIST_REMOVE_ok st it d Hok Hin) as (st1 & E1 & Hok1 & Et & Es & Eo & Ets & En & Ek).
  assert (s_timers st1 d = l) as Es1.
  { rewrite Es, El. apply filter_ne_head. rewrite <- El. apply Hok. }
  exists st1. split; [done|]. set (st2 := with_timers _ _).
  assert (forall d', s_timers st2 d' = s_timers st1 d') as E2 by (by intros []).
  assert (forall h, h <> it -> timers st2 !! h = timers st1 !! h) as Hne by (intros; by apply lookup_delete_ne).
  assert (timers st2 !! it = None) as Hnone by apply lookup_delete_eq.
  assert (forall d' h, h ∈ s_timers st1 d' -> h <> it) as Hfresh
    by (intros d' h Hin' ->; by eapply (lo_unlinked _ _ Hok1)).
  split_and!; [|by unfold st2; simpl; rewrite Et|by rewrite E2].
  split; [..|done|done].
  - destruct Hok1 as [L1 L2 L3 L4 L5 L6 L7]. split; intros *; rewrite ?E2; eauto.
    + eapply ascending_ext_in; [|apply L1]. intros h Hin'. unfold alarm_at. by rewrite Hne by eauto.
    + intros Hin'. rewrite Hne by eauto. eauto.
    + intros Ht' Ha _. assert (h <> it) by congruence. rewrite Hne in Ht' by done.
      apply L4; [done..|congruence].
    + done.
    + intros Ht'. assert (h <> it) by congruence. rewrite Hne in Ht' by done. eauto.
  - intros d' Hd. rewrite E2. by apply Eo.
  - intros d'. transitivity (timestamp_id st1 d'); [by destruct d'|apply Ets].
Qed.

(** How often a handle's callback runs when list [d] is processed. *)
Definition fires_at (st : timer_state) (d : esp_timer_dispatch_t) (h : Z) : Z :=
  match timers st !! h with
  | Some t => if decide (dispatch_of t = d) then fires (time_now st) t else 0
  | None => 0
  end.

Definition settled_at (st : timer_state) (d : esp_timer_dispatch_t) (h : Z) : option esp_timer :=
  match timers st !! h with
  | Some t => if decide (dispatch_of t = d) then settled (time_now st) t else Some t
  | None => None
  end.

(** The callbacks of a handle in a trace. *)
Definition calls (h : Z) (trace : list (Z * Z)) : Z :=
  Z.of_nat (length (filter (fun e => e.1 = h) trace)).

(** Enough fuel: one turn per linked timer and one per callback. *)
Definition timer_fuel (st : timer_state) (d : esp_timer_dispatch_t) : nat :=
  list_sum (map (fun h => 1 + Z.to_nat (fires_at st d h))%nat (s_timers st d)).

Lemma fires_nonneg now t : timer_ok t -> 0 <= fires now t.
Proof.
  intros [Ha Hp]. unfold fires. destruct (pending now t) eqn:E; simpl; [|lia].
  destruct (_ =? _); [lia|]. destruct (Z.eqb_spec (period t) 0); [lia|]. destruct (skips _ _); [lia|].
  unfold pending in E. apply andb_true_iff in E as [_ E%Z.leb_le].
  pose proof (missed_bounds now t). lia.
Qed.

Record processed_spec (st st' : timer_state) (d : esp_timer_dispatch_t) (trace : list (Z * Z)) : Prop := {
  ps_turn : turn st st' d;
  ps_timers : forall h, timers st' !! h = settled_at st d h;
  ps_calls : forall h, calls h trace = fires_at st d h;
  ps_order : ascending snd trace;
  ps_after : forall b, (forall h, h ∈ s_timers st d -> b <= alarm_at st h) ->
               Forall (fun e => b <= e.2) trace }.

Lemma turn_refl st d : lists_ok None st -> turn st st d.
Proof. by split. Qed.

Lemma turn_trans st1 st2 st3 d : turn st1 st2 d -> turn st2 st3 d -> turn st1 st3 d.
Proof.
  intros [A1 A2 A3 A4 A5] [B1 B2 B3 B4 B5]. split; [done| |..|congruence|congruence].
  - intros d' Hd. by rewrite B2, A2.
  - intros d'. by rewrite B3, A3.
Qed.

Lemma calls_cons h e trace : calls h (e :: trace) = (if decide (e.1 = h) then 1 else 0) + calls h trace.
Proof. unfold calls. rewrite filter_cons. destruct (decide _); simpl length; lia. Qed.

(** Nothing is due: the lists are as they will stay. *)
Lemma nothing_due st d :
  lists_ok None st -> (forall h t, head (s_timers st d) = Some h -> timers st !! h = Some t -> time_now st < alarm t) ->
  processed_spec st st d [].
Proof.
  intros Hok Hhd.
  assert (forall h t, timers st !! h = Some t -> dispatch_of t = d -> pending (time_now st) t = false) as Hp.
  { intros h t Ht Hd. apply pending_false. destruct (Z.lt_ge_cases 0 (alarm t)) as [Ha|]; [left|by right].
    assert (h ∈ s_timers st d) as Hin by (rewrite <- Hd; by eapply lo_armed).
    destruct (s_timers st d) as [|y l] eqn:El; [by apply not_elem_of_nil in Hin|].
    destruct (lo_member _ _ Hok d y) as (ty & Hty & _); [rewrite El; by left|].
    specialize (Hhd y ty eq_refl Hty).
    pose proof (lo_sorted _ _ Hok d) as Hs. rewrite El in Hs. destruct Hs as [Hs _].
    apply elem_of_cons in Hin as [->|Hin]; [congruence|].
    rewrite Forall_forall in Hs. specialize (Hs h Hin). unfold alarm_at in Hs.
    rewrite Hty, Ht in Hs. simpl in Hs. lia. }
  split; [by apply turn_refl|..|done|done].
  - intros h. unfold settled_at. destruct (timers st !! h) as [t|] eqn:Ht; [|done].
    destruct (decide _); [|done]. unfold settled. by rewrite (Hp h t).
  - intros h. unfold fires_at. destruct (timers st !! h) as [t|] eqn:Ht; [|done].
    destruct (decide _); [|done]. unfold fires. by rewrite (Hp h t).
Qed.

(** A turn followed by the rest of the loop. *)
Lemma processed_after_fire st st2 st' d it t t1 trace :
  lists_ok None st -> head (s_timers st d) = Some it -> timers st !! it = Some t ->
  turn st st2 d -> timers st2 = <[it := t1]> (timers st) ->
  (forall h, h ∈ s_timers st2 d -> h ∈ s_timers st d) ->
  dispatch_of t = d -> dispatch_of t1 = d ->
  settled (time_now st) t1 = settled (time_now st) t ->
  fires (time_now st) t = 1 + fires (time_now st) t1 -> (alarm t <= alarm t1 \/ it ∉ s_timers st2 d) ->
  processed_spec st2 st' d trace -> processed_spec st st' d ((it, alarm t) :: trace).
Proof.
  intros Hok Hhd Ht Htn Et Hsub Hd Hd1 Hset Hf Hal [P1 P2 P3 P4 P5].
  assert (forall h, it <> h -> timers st2 !! h = timers st !! h) as Hne
    by (intros; rewrite Et; by apply lookup_insert_ne).
  assert (timers st2 !! it = Some t1) as Heq by (rewrite Et; apply lookup_insert_eq).
  assert (forall h, h ∈ s_timers st d -> alarm t <= alarm_at st h) as Hmin.
  { intros h Hin. pose proof (lo_sorted _ _ Hok d) as Hs.
    destruct (s_timers st d) as [|y l]; [done|]. injection Hhd as ->. destruct Hs as [Hs _].
    assert (alarm_at st it = alarm t) as <- by (unfold alarm_at; by rewrite Ht).
    apply elem_of_cons in Hin as [->|Hin]; [done|]. rewrite Forall_forall in Hs. auto. }
  assert (forall b, b <= alarm t -> forall h, h ∈ s_timers st2 d -> b <= alarm_at st2 h) as Hmin2.
  { intros b Hb h Hin. unfold alarm_at. destruct (decide (it = h)) as [<-|].
    - rewrite Heq. simpl. destruct Hal as [?|[]]; [lia|done].
    - rewrite Hne by done. pose proof (Hmin h (Hsub h Hin)) as Hm. unfold alarm_at in Hm. lia. }
  split.
  - by eapply turn_trans.
  - intros h. rewrite P2. unfold settled_at. rewrite (tn_time _ _ _ Htn). destruct (decide (it = h)) as [<-|].
    + rewrite Heq, Ht. by rewrite !decide_True.
    + by rewrite Hne.
  - intros h. rewrite calls_cons, P3. unfold fires_at. rewrite (tn_time _ _ _ Htn). simpl.
    destruct (decide (it = h)) as [<-|].
    + rewrite Heq, Ht. rewrite !decide_True by done. lia.
    + by rewrite Hne.
  - split; [|done]. apply P5. apply Hmin2. simpl. lia.
  - intros b Hb. constructor.
    + simpl. pose proof (Hb it) as H. unfold alarm_at in H. rewrite Ht in H. apply H.
      destruct (s_timers st d); [done|]. injection Hhd as ->. by left.
    + apply P5. apply Hmin2. pose proof (Hb it) as H. unfold alarm_at in H. rewrite Ht in H. apply H.
      destruct (s_timers st d); [done|]. injection Hhd as ->. by left.
Qed.

Lemma processed_after_free st st2 st' d it l t trace :
  lists_ok None st -> s_timers st d = it :: l -> timers st !! it = Some t ->
  turn st st2 d -> timers st2 = delete it (timers st) -> s_timers st2 d = l ->
  dispatch_of t = d -> settled (time_now st) t = None -> fires (time_now st) t = 0 ->
  processed_spec st2 st' d trace -> processed_spec st st' d trace.
Proof.
  intros Hok El Ht Htn Et Es Hd Hset Hf [P1 P2 P3 P4 P5].
  assert (forall h, it <> h -> timers st2 !! h = timers st !! h) as Hne
    by (intros; rewrite Et; by apply lookup_delete_ne).
  assert (timers st2 !! it = None) as Heq by (rewrite Et; apply lookup_delete_eq).
  split; [by eapply turn_trans| | |done|].
  - intros h. rewrite P2. unfold settled_at. rewrite (tn_time _ _ _ Htn). destruct (decide (it = h)) as [<-|].
    + rewrite Heq, Ht. by rewrite decide_True.
    + by rewrite Hne.
  - intros h. rewrite P3. unfold fires_at. rewrite (tn_time _ _ _ Htn). destruct (decide (it = h)) as [<-|].
    + rewrite Heq, Ht. by rewrite decide_True.
    + by rewrite Hne.
  - intros b Hb. apply P5. intros h Hin. rewrite Es in Hin.
    pose proof (lo_nodup _ _ Hok d) as Hnd. rewrite El in Hnd. apply NoDup_cons in Hnd as [Hn _].
    specialize (Hb h). unfold alarm_at in *. rewrite Hne by congruence. apply Hb. rewrite El. by right.
Qed.

Definition turn_cost (st : timer_state) (d : esp_timer_dispatch_t) (h : Z) : nat :=
  1 + Z.to_nat (fires_at st d h).

Lemma timer_fuel_eq st d : timer_fuel st d = list_sum (map (turn_cost st d) (s_timers st d)).
Proof. done. Qed.

Lemma turn_costs_ext st st2 d l :
  time_now st2 = time_now st -> (forall h, h ∈ l -> timers st2 !! h = timers st !! h) ->
  list_sum (map (turn_cost st2 d) l) = list_sum (map (turn_cost st d) l).
Proof.
  intros En E. f_equal. apply map_ext_in. intros h Hin. unfold turn_cost, fires_at.
  rewrite E, En by (by apply list_elem_of_In). done.
Qed.

(** A turn uses up fuel. *)
Lemma timer_fuel_turn st st2 d it l :
  lists_ok None st -> s_timers st d = it :: l -> turn st st2 d ->
  (forall h, it <> h -> timers st2 !! h = timers st !! h) ->
  s_timers st2 d = l \/ (s_timers st2 d ≡ₚ it :: l /\ fires_at st2 d it < fires_at st d it /\ 0 <= fires_at st2 d it) ->
  (timer_fuel st2 d < timer_fuel st d)%nat.
Proof.
  intros Hok El Htn Hne Hl. rewrite !timer_fuel_eq, El.
  pose proof (lo_nodup _ _ Hok d) as Hnd. rewrite El in Hnd. apply NoDup_cons in Hnd as [Hn _].
  assert (list_sum (map (turn_cost st2 d) l) = list_sum (map (turn_cost st d) l)) as E.
  { apply turn_costs_ext; [apply Htn|]. intros h Hin. apply Hne. congruence. }
  change (list_sum (map (turn_cost st d) (it :: l)))
    with (turn_cost st d it + list_sum (map (turn_cost st d) l))%nat.
  destruct Hl as [->|(Hp & Hf & Hf0)].
  - rewrite E. unfold turn_cost. lia.
  - rewrite (Permutation_list_sum (Permutation_map (turn_cost st2 d) Hp)).
    change (list_sum (map (turn_cost st2 d) (it :: l)))
      with (turn_cost st2 d it + list_sum (map (turn_cost st2 d) l))%nat.
    rewrite E. unfold turn_cost. lia.
Qed.

Definition skips_ok (st : timer_state) : Prop :=
  forall h t, timers st !! h = Some t -> skip_ok (time_now st) t.

Section quiet.
Context (run_callback : Z -> Z -> timer_state -> option timer_state).
Hypothesis quiet : forall c a st, run_callback c a st = Some st.

Lemma process_loop_quiet fuel : forall st d processed trace,
  lists_ok None st -> skips_ok st -> (timer_fuel st d <= fuel)%nat ->
  exists st' processed' tr,
    process_loop run_callback fuel st d processed trace = Some (st', processed', trace ++ tr) /\
    processed_spec st st' d tr /\ (processed' = processed /\ st' = st \/ processed' = true).
Proof.
  induction fuel as [|fuel IH]; intros st d processed trace Hok Hsk Hfuel.
  { exists st, processed, []. rewrite app_nil_r. simpl.
    destruct (s_timers st d) as [|it l] eqn:El; [|rewrite timer_fuel_eq, El in Hfuel; simpl in Hfuel; lia].
    split; [done|]. split; [apply nothing_due; [done|by rewrite El]|by left]. }
  simpl. destruct (s_timers st d) as [|it l] eqn:El.
  { exists st, processed, []. rewrite app_nil_r.
    split; [done|]. split; [apply nothing_due; [done|by rewrite El]|by left]. }
  destruct (lo_member _ _ Hok d it) as (t & Ht & Hd & Ha); [rewrite El; by left|]. rewrite Ht.
  pose proof (lo_now _ _ Hok) as Hnow. pose proof (lo_timer _ _ Hok _ _ Ht) as Htok.
  rewrite (u64_small (time_now st)) by lia. destruct (Z.ltb_spec (time_now st) (alarm t)) as [Hlt|Hdue].
  { exists st, processed, []. rewrite app_nil_r. split; [done|]. split; [|by left].
    apply nothing_due; [done|]. rewrite El. intros h t' [= <-] Ht'. rewrite Ht in Ht'. by injection Ht' as <-. }
  assert (pending (time_now st) t = true) as Hpend by (by apply pending_true).
  destruct (Z.eqb_spec (event_id t) EVENT_ID_DELETE_TIMER) as [Edel|Edel].
  - destruct (process_free st d it l t Hok El Ht) as (st1 & -> & Htn & Et & Es).
    set (st2 := with_timers _ _) in *.
    assert (forall h, it <> h -> timers st2 !! h = timers st !! h) as Hne
      by (intros; rewrite Et; by apply lookup_delete_ne).
    destruct (IH st2 d true trace) as (st' & p' & tr & -> & Hspec & Hp).
    { apply Htn. }
    { intros h t' Ht'. rewrite (tn_time _ _ _ Htn). eapply (Hsk h). rewrite Et in Ht'.
      by apply lookup_delete_Some in Ht' as [_ ?]. }
    { pose proof (timer_fuel_turn st st2 d it l Hok El Htn Hne (or_introl Es)). lia. }
    exists st', p', tr. split; [done|]. split; [|right; by destruct Hp as [[-> _]| ->]].
    eapply (processed_after_free st st2); try done.
    + unfold settled. rewrite Hpend. apply Z.eqb_eq in Edel. by rewrite Edel.
    + unfold fires. rewrite Hpend. apply Z.eqb_eq in Edel. by rewrite Edel.
  - set (t1 := if 0 <? period t then set_alarm (rearmed (time_now st) t) t else set_alarm 0 t).
    assert (settled (time_now st) t1 = settled (time_now st) t /\
      fires (time_now st) t = 1 + fires (time_now st) t1 /\ 0 <= fires (time_now st) t1 /\
      skip_ok (time_now st) t1 /\ dispatch_of t1 = d /\
      (0 < period t -> alarm t < alarm t1 /\ timer_ok t1)) as (Hset & Hf & Hf0 & Hsk1 & Hd1 & Hper).
    { unfold t1. destruct (Z.ltb_spec 0 (period t)) as [Hp|Hp].
      - destruct (rearm_step (time_now st) t) as (R1 & R2 & R3 & R4 & R5 & R6 & R7); [done|done|done|done|by eapply Hsk|done|].
        split_and!; try done.
      - assert (period t = 0) as Ep by (destruct Htok; lia). apply Z.eqb_neq in Edel.
        assert (pending (time_now st) (set_alarm 0 t) = false) as Hp0 by (apply pending_false; simpl; lia).
        unfold settled, fires. rewrite Hpend, Hp0, Edel, Ep. simpl. split_and!; try done; try lia.
        unfold skip_ok, missed. simpl. intros _ _. rewrite Ep, Zdiv_0_r. lia. }
    destruct (process_fire st d it l t t1 Hok El Ht) as (st1 & st2 & -> & E2 & Htn & Et & Es).
    { intros Ep. unfold t1. by rewrite Ep. }
    { intros Hp. destruct (Hper Hp). split_and!; [|lia|done]. unfold t1.
      by destruct (Z.ltb_spec 0 (period t)); [|lia]. }
    rewrite E2, quiet.
    assert (forall h, it <> h -> timers st2 !! h = timers st !! h) as Hne
      by (intros; rewrite Et; by apply lookup_insert_ne).
    destruct (IH st2 d true (trace ++ [(it, alarm t)])) as (st' & p' & tr & -> & Hspec & Hp).
    { apply Htn. }
    { intros h t' Ht'. rewrite (tn_time _ _ _ Htn). destruct (decide (it = h)) as [<-|].
      - rewrite Et, lookup_insert_eq in Ht'. by injection Ht' as <-.
      - rewrite Hne in Ht' by done. by eapply Hsk. }
    { assert (timer_fuel st2 d < timer_fuel st d)%nat; [|lia].
      eapply timer_fuel_turn; try done. destruct (0 <? period t); [right|by left]. split; [done|].
      unfold fires_at. rewrite (tn_time _ _ _ Htn), Et, lookup_insert_eq, Ht, !decide_True by done. lia. }
    exists st', p', ((it, alarm t) :: tr). rewrite <- app_assoc.
    split; [done|]. split; [|right; by destruct Hp as [[-> _]| ->]].
    eapply (processed_after_fire st st2 st' d it t t1); try done.
    + by rewrite El.
    + intros h Hin. rewrite El. destruct (0 <? period t); rewrite Es in Hin; [done|by right].
    + destruct (Z.ltb_spec 0 (period t)) as [Hp'|Hp']; [left; destruct (Hper Hp'); lia|right].
      rewrite Es. pose proof (lo_nodup _ _ Hok d) as Hnd. rewrite El in Hnd.
      by apply NoDup_cons in Hnd as [? _].
Qed.

Lemma first_alarm_bound st d : lists_ok None st -> first_alarm st d <= UINT64_MAX.
Proof.
  intros Hok. unfold first_alarm. destruct (s_timers st d) as [|it l] eqn:El; [done|].
  destruct (lo_member _ _ Hok d it) as (t & E & _); [rewrite El; by left|].
  pose proof (lo_timer _ _ Hok _ _ E) as [? _]. unfold alarm_at. rewrite E. simpl. word_lia.
Qed.

Lemma settled_future now t t' :
  time_ok now -> timer_ok t -> settled now t = Some t' -> 0 < alarm t' -> now < alarm t'.
Proof.
  intros Hn [Ha Hp]. unfold settled. destruct (pending now t) eqn:E; simpl.
  - unfold pending, timer_armed in E. apply andb_true_iff in E as [E1%Z.ltb_lt E2%Z.leb_le].
    destruct (_ =? _); [done|]. destruct (Z.eqb_spec (period t) 0); [by intros [= <-]|].
    pose proof (missed_bounds now t). destruct (skips now t); intros [= <-] _; simpl; lia.
  - intros [= <-] H. unfold pending, timer_armed in E.
    apply andb_false_iff in E as [E%Z.ltb_ge|E%Z.leb_gt]; lia.
Qed.

(** Processing a list, with the hardware alarm. *)
Lemma process_alarm_spec fuel st d :
  lists_ok None st -> skips_ok st -> (timer_fuel st d <= fuel)%nat ->
  alarm_ok st d \/ (d = ESP_TIMER_TASK /\ timestamp_id st d = UINT64_MAX) ->
  exists st' processed tr,
    timer_process_alarm run_callback fuel st d = Some (st', processed, tr) /\
    (forall h, timers st' !! h = settled_at st d h) /\ (forall h, calls h tr = fires_at st d h) /\
    ascending snd tr /\ lists_ok None st' /\ alarm_ok st' d /\ time_now st' = time_now st /\
    (forall d', d <> d' -> s_timers st' d' = s_timers st d' /\ timestamp_id st' d' = timestamp_id st d') /\
    (alarm_target st' = Z.min (timestamp_task st') (timestamp_isr st') \/
     (st' = st /\ (s_timers st d = [] \/ d = ESP_TIMER_ISR))).
Proof.
  intros Hok Hsk Hfuel Hal. unfold timer_process_alarm.
  destruct (process_loop_quiet fuel st d false [] Hok Hsk Hfuel) as
    (st1 & p & tr & -> & [[T1 T2 T3 T4 T5] P2 P3 P4 P5] & Hp). rewrite app_nil_l.
  set (st2 := match s_timers st1 d with [] => _ | _ => _ end).
  eexists st2, p, tr. split; [done|].
  assert (timers st2 = timers st1 /\ (forall d', s_timers st2 d' = s_timers st1 d') /\
    time_now st2 = time_now st1 /\ (forall d', d <> d' -> timestamp_id st2 d' = timestamp_id st1 d') /\
    alarm_ok st2 d /\ (alarm_target st2 = Z.min (timestamp_task st2) (timestamp_isr st2) \/
     (st2 = st /\ (s_timers st d = [] \/ d = ESP_TIMER_ISR))))
    as (E1 & E2 & E3 & E4 & E5 & E6).
  { assert (forall v, v = first_alarm st1 d -> let st2 := esp_timer_impl_set_alarm_id st1 v d in
      timers st2 = timers st1 /\ (forall d', s_timers st2 d' = s_timers st1 d') /\
      time_now st2 = time_now st1 /\ (forall d', d <> d' -> timestamp_id st2 d' = timestamp_id st1 d') /\
      alarm_ok st2 d /\ (alarm_target st2 = Z.min (timestamp_task st2) (timestamp_isr st2) \/
       (st2 = st /\ (s_timers st d = [] \/ d = ESP_TIMER_ISR)))) as Hset.
    { intros v -> st3. destruct (set_alarm_id_frame st1 (first_alarm st1 d) d) as (F1 & F2 & F3 & _).
      split_and!; try done.
      - intros. by apply set_alarm_id_other.
      - unfold alarm_ok, st3. rewrite set_alarm_id_same. unfold first_alarm. by rewrite F2.
      - by left. }
    assert (p = false -> st1 = st) as Hsame by (destruct Hp as [[-> ->]| ->]; done).
    unfold st2, first_alarm in *. destruct (s_timers st1 d) as [|it l] eqn:El.
    - destruct p; [by apply Hset|]. specialize (Hsame eq_refl). subst st1. split_and!; try done; [|by right; auto].
      destruct Hal as [?|[-> Hm]]; [done|]. unfold alarm_ok, first_alarm. by rewrite El.
    - destruct d; [by apply Hset|]. destruct p; [by apply Hset|].
      specialize (Hsame eq_refl). subst st1. split_and!; try done; [|by right; auto].
      by destruct Hal as [?|[? _]]. }
  clearbody st2. split_and!; try done; try congruence.
  - by eapply lists_ok_frame.
  - intros d' Hd. by rewrite E2, E4, T2, T3.
Qed.


(** A periodic timer does not drift: after a dispatch its callback has run
    once for every alarm up to [now], and the next alarm is the first point of
    its original grid after [now]. *)
Theorem periodic_timer_no_drift fuel st d h t :
  lists_ok None st -> skips_ok st -> (timer_fuel st d <= fuel)%nat -> alarm_ok st d ->
  timers st !! h = Some t -> dispatch_of t = d -> 0 < alarm t <= time_now st -> 0 < period t ->
  event_id t <> EVENT_ID_DELETE_TIMER -> has_flag (flags t) FL_SKIP_UNHANDLED_EVENTS = false ->
  exists st' processed tr t',
    timer_process_alarm run_callback fuel st d = Some (st', processed, tr) /\
    timers st' !! h = Some t' /\ alarm t' = alarm t + calls h tr * period t /\
    alarm t' - period t <= time_now st < alarm t' /\ h ∈ s_timers st' d.
Proof.
  intros Hok Hsk Hfuel Hal Ht Hd Hdue Hp Hdel Hf.
  destruct (process_alarm_spec fuel st d) as (st' & p & tr & Hrun & Hset & Hcalls & _ & Hok' & _); [by auto..|].
  specialize (Hset h). specialize (Hcalls h). unfold settled_at, fires_at in *. rewrite Ht in *.
  rewrite decide_True in Hset by done. rewrite decide_True in Hcalls by done.
  unfold settled, fires, skips in *.
  rewrite pending_true, Hf in * by done. apply Z.eqb_neq in Hdel. rewrite Hdel in *.
  destruct (Z.eqb_spec (period t) 0); [lia|]. simpl in *.
  pose proof (missed_bounds (time_now st) t Hp).
  eexists st', p, tr, _. split_and!; try done; simpl; try lia.
  rewrite <- Hd. change (dispatch_of t) with (dispatch_of (set_alarm (alarm t + (missed (time_now st) t + 1) * period t) t)).
  apply (lo_armed _ _ Hok' _ _ Hset); [simpl; lia|done].
Qed.

(** With no ISR timers armed, one alarm interrupt followed by the turn of the
    timer task it asks for serves every due timer and leaves the hardware
    programmed for the earliest of the rest. *)
Theorem interrupt_serves_task_timers fuel st woken :
  lists_ok None st -> skips_ok st -> (timer_fuel st ESP_TIMER_TASK <= fuel)%nat ->
  (forall d, alarm_ok st d) -> list_isr st = [] -> list_task st <> [] ->
  exists st1 yield st2 tr,
    timer_alarm_handler run_callback fuel st woken = Some (st1, [], true, yield) /\
    timer_task_turn run_callback fuel st1 = Some (st2, tr) /\
    (forall h, calls h tr = fires_at st ESP_TIMER_TASK h) /\
    (forall h t, timers st2 !! h = Some t -> 0 < alarm t -> time_now st2 < alarm t) /\
    (forall d, alarm_ok st2 d) /\ alarm_target st2 = first_alarm st2 ESP_TIMER_TASK.
Proof.
  intros Hok Hsk Hfuel Hal Hisr Htask. unfold timer_alarm_handler, esp_timer_impl_try_to_set_next_alarm.
  pose proof (Hal ESP_TIMER_ISR) as Hi. unfold alarm_ok, first_alarm in Hi. simpl in Hi. rewrite Hisr in Hi.
  pose proof (Hal ESP_TIMER_TASK) as Ht. unfold alarm_ok, first_alarm in Ht. simpl in Ht.
  assert (timestamp_task st < UINT64_MAX) as Hlt.
  { rewrite Ht. destruct (list_task st) as [|it l] eqn:El; [done|].
    destruct (lo_member _ _ Hok ESP_TIMER_TASK it) as (t & E & _); [simpl; rewrite El; by left|].
    pose proof (lo_timer _ _ Hok _ _ E) as [? _]. unfold alarm_at. rewrite E. simpl. word_lia. }
  rewrite Hi. destruct (Z.ltb_spec (timestamp_task st) UINT64_MAX); [|lia]. simpl. rewrite Hi, Z.eqb_refl. simpl.
  set (st0 := with_timestamp st ESP_TIMER_TASK UINT64_MAX).
  assert (timer_process_alarm run_callback fuel st0 ESP_TIMER_ISR = Some (st0, false, [])) as ->.
  { unfold timer_process_alarm. assert (s_timers st0 ESP_TIMER_ISR = []) as E by done.
    destruct fuel; simpl; rewrite Hisr; simpl; by rewrite Hisr. }
  set (st1 := with_need_yield st0 false).
  assert (lists_ok None st1) as Hok1 by (apply (lists_ok_frame None st); [done|by intros []|done|done]).
  destruct (process_alarm_spec fuel st1 ESP_TIMER_TASK) as
    (st2 & p & tr & Hrun & Hset & Hcalls & _ & Hok2 & Hal2 & En & Eo & Htgt); [done|done|done|by right|].
  destruct (Eo ESP_TIMER_ISR) as [Ei1 Ei2]; [done|]. simpl in Ei1, Ei2.
  eexists st1, _, st2, tr. unfold timer_task_turn. rewrite Hrun.
  assert (forall d, alarm_ok st2 d) as Hal3.
  { intros []; [done|]. unfold alarm_ok, first_alarm. simpl. by rewrite Ei1, Ei2, Hisr. }
  split_and!; try done.
  - intros h t Hh Ha.
    assert (h ∈ s_timers st2 (dispatch_of t)) as Hin by (by apply (lo_armed _ _ Hok2)).
    destruct (dispatch_of t) eqn:Hd; simpl in Hin; [|rewrite Ei1, Hisr in Hin; by apply not_elem_of_nil in Hin].
    rewrite Hset in Hh. unfold settled_at in Hh.
    destruct (timers st1 !! h) as [t0|] eqn:E0; [|done].
    assert (dispatch_of t0 = ESP_TIMER_TASK -> time_now st1 < alarm t) as Hfut.
    { intros E. rewrite decide_True in Hh by done. eapply settled_future; try done; [apply Hok1|by eapply (lo_timer _ _ Hok1)]. }
    rewrite En. destruct (decide (dispatch_of t0 = ESP_TIMER_TASK)) as [?|Hn]; [auto|].
    injection Hh as ->. done.
  - destruct Htgt as [->|Htgt].
    + rewrite Ei2, Hi. pose proof (Hal3 ESP_TIMER_TASK) as E. unfold alarm_ok in E. simpl in E. rewrite E.
      pose proof (first_alarm_bound st2 ESP_TIMER_TASK Hok2). lia.
    + destruct Htgt as [_ [E|E]]; [|done]. simpl in E. done.
Qed.

End quiet.

(** ** Runs in which timers are lost *)

Definition no_callback : Z -> Z -> timer_state -> option timer_state := fun _ _ st => Some st.

(** A one-shot task timer (100) due at 1000 and a periodic one (200); nothing on
    the ISR list; it is 1260 us. *)
Definition one_shot_timer : esp_timer := mkTimer 1000 0 0 7000 0.
Definition periodic_timer : esp_timer := mkTimer 1050 100 0 7004 0.

Definition demo_timers : timer_state :=
  mkTimers {[100 := one_shot_timer; 200 := periodic_timer]} [100; 200] [] 1 1000 UINT64_MAX 1000 1260 false.

(** Two alarms close together, one of each dispatch method, are handled by one
    interrupt: the task timer 100 was due first, so its hardware alarm is dropped,
    but as an ISR timer (300) was processed the timer task is not notified. *)
Definition isr_and_task_timers : timer_state :=
  mkTimers {[100 := mkTimer 1000 0 0 7000 0; 300 := mkTimer 1001 50 1 7008 0]} [100] [300] 1
    1000 1001 1000 1003 false.

Lemma due_task_timer_not_served :
  (let! (st, trace, notify, _) := timer_alarm_handler no_callback 10 isr_and_task_timers true in
   Some (trace, notify, list_task st, timestamp_task st, alarm_target st)) =
  Some ([(300, 1001)], false, [100], UINT64_MAX, 1051).
Proof. vm_compute. reflexivity. Qed.

(** If the compare value 1001, already passed when it was programmed, raises a
    second interrupt, that one drops the alarm of the ISR timer, and the turn of
    the timer task leaves no alarm programmed at all though timer 300 is armed. *)
Lemma armed_isr_timer_without_alarm :
  (let! (st, _, _, _) := timer_alarm_handler no_callback 10 isr_and_task_timers true in
   let! (st, trace1, notify, _) := timer_alarm_handler no_callback 10 (with_now st 1005) true in
   let! (st, trace2) := timer_task_turn no_callback 10 (with_now st 1010) in
   Some (trace1, notify, trace2, list_isr st, alarm_at st 300, alarm_target st)) =
  Some ([], true, [(100, 1000)], [300], 1051, UINT64_MAX).
Proof. vm_compute. reflexivity. Qed.

(** [esp_timer_restart] checks that the timer is armed before it takes the
    lock.  If the alarm is processed in between, the timer is removed from a list
    it has left: queue.h panics. *)
Lemma restart_races_with_dispatch :
  let dispatch (st : timer_state) :=
    match timer_task_turn no_callback 10 st with Some (st, _) => st | None => st end in
  armed_in demo_timers 100 /\ esp_timer_restart dispatch demo_timers 100 500 = None.
Proof. vm_compute. eauto. Qed.

(** [ets_timer_done] on an armed timer forgets the handle, but the timer stays
    armed and is not freed. *)
Lemma ets_timer_done_leaks_armed_timer :
  (let! (p, st) := ets_timer_done id demo_timers (mkETS 0 TIMER_INITIALIZED_VAL 0 0 200) in
   Some (timer_arg p, list_task st, bool_decide (is_Some (timers st !! 200)))) =
  Some (NULL, [100; 200], true).
Proof. vm_compute. reflexivity. Qed.

(** ** Witnesses *)

Lemma demo_timers_lookup h t : timers demo_timers !! h = Some t ->
  h = 100 /\ t = one_shot_timer \/ h = 200 /\ t = periodic_timer.
Proof. simpl. rewrite lookup_insert_Some, lookup_singleton_Some. naive_solver. Qed.

Lemma demo_timers_ok : lists_ok None demo_timers.
Proof.
  split.
  - intros []; [|done]. repeat constructor; by vm_compute.
  - intros []; repeat constructor; set_solver.
  - intros [] h Hin; simpl in Hin; [|set_solver].
    apply elem_of_cons in Hin as [->|[->|Hin]%elem_of_cons]; [..|set_solver]; eexists; by split_and!.
  - intros h t [[-> ->]|[-> ->]]%demo_timers_lookup _ _; simpl; set_solver.
  - done.
  - intros h t [[-> ->]|[-> ->]]%demo_timers_lookup; split; simpl; lia.
  - simpl. lia.
Qed.

Lemma demo_timers_skips : skips_ok demo_timers.
Proof. by intros h t [[-> ->]|[-> ->]]%demo_timers_lookup. Qed.

Lemma demo_timers_alarms d : alarm_ok demo_timers d.
Proof. by destruct d. Qed.

Lemma timer_api_invariant_witness :
  exists err st', run_op id demo_timers (OpRestart 100 500) = Some (err, st') /\ lists_ok None st' /\
    (forall d, alarm_ok st' d).
Proof.
  apply (timer_api_invariant id demo_timers (OpRestart 100 500) demo_timers_ok demo_timers_alarms).
  - split; [right; by eexists|done].
  - split; [exact demo_timers_ok|]. split; [exact demo_timers_alarms|]. done.
Defined.


Lemma periodic_timer_no_drift_witness :
  exists st' processed tr t',
    timer_process_alarm no_callback 10 demo_timers ESP_TIMER_TASK = Some (st', processed, tr) /\
    timers st' !! 200 = Some t' /\ alarm t' = 1050 + calls 200 tr * 100 /\
    alarm t' - 100 <= 1260 < alarm t' /\ 200 ∈ s_timers st' ESP_TIMER_TASK.
Proof.
  apply (periodic_timer_no_drift no_callback (fun _ _ _ => eq_refl) 10 demo_timers ESP_TIMER_TASK
           200 periodic_timer demo_timers_ok demo_timers_skips); try done; try (simpl; lia);
    first [apply demo_timers_alarms | vm_compute; lia].
Defined.

Lemma interrupt_serves_task_timers_witness :
  exists st1 yield st2 tr,
    timer_alarm_handler no_callback 10 demo_timers true = Some (st1, [], true, yield) /\
    timer_task_turn no_callback 10 st1 = Some (st2, tr) /\
    (forall h, calls h tr = fires_at demo_timers ESP_TIMER_TASK h) /\
    (forall h t, timers st2 !! h = Some t -> 0 < alarm t -> time_now st2 < alarm t) /\
    (forall d, alarm_ok st2 d) /\ alarm_target st2 = first_alarm st2 ESP_TIMER_TASK.
Proof.
  apply (interrupt_serves_task_timers no_callback (fun _ _ _ => eq_refl) 10 demo_timers true
           demo_timers_ok demo_timers_skips); try done; first [apply demo_timers_alarms | vm_compute; lia].
Defined.
