(* ===== verification/Flash.v ===== *)
(** * The flash driver as the partition and OTA code sees it

    [FlashDriver] is the interface of esp_flash / spi_flash_mmap to its callers;
    [FlashLaws] is the documented behaviour of NOR flash that the callers rely
    on: erasing sets bytes to 0xFF, writing can only clear bits, and neither
    touches a byte outside its range, also when it fails.  [NorFlash] is a
    memory-backed driver that satisfies the laws. *)

From stdpp Require Import base list option gmap.
From Stdlib Require Import ZArith Lia.
From S2P Require Import Prelude.

Definition SPI_FLASH_SEC_SIZE : Z := 4096.

Class FlashDriver (S : Type) := {
  esp_flash_default_chip : Z;
  flash_chip_size : Z -> Z;
  (** stored bytes of a chip, and what the cache mapping of the default chip shows *)
  flash_byte : S -> Z -> memory;
  flash_view : S -> memory;
  esp_flash_erase_region : S -> Z -> Z -> Z -> esp_err_t * S;       (* chip, start, length *)
  esp_flash_write : S -> Z -> list Z -> Z -> esp_err_t * S;         (* chip, data, address *)
  esp_flash_write_encrypted : S -> Z -> Z -> list Z -> esp_err_t * S;
  esp_flash_read : S -> Z -> Z -> Z -> esp_err_t;                   (* chip, address, length *)
  spi_flash_mmap : S -> Z -> Z -> esp_err_t }.                      (* address, length *)

Definition in_range (a n x : Z) : bool := (a <=? x) && (x <? a + n).

Lemma in_range_true a n x : in_range a n x = true <-> a <= x < a + n.
Proof. unfold in_range. rewrite andb_true_iff, Z.leb_le, Z.ltb_lt. lia. Qed.

Lemma in_range_false a n x : in_range a n x = false <-> x < a \/ a + n <= x.
Proof. unfold in_range. rewrite andb_false_iff, Z.leb_gt, Z.ltb_ge. lia. Qed.

Class FlashLaws (S : Type) {D : FlashDriver S} := {
  erase_erases : forall st chip a n st' x,
    esp_flash_erase_region st chip a n = (ESP_OK, st') -> in_range a n x = true ->
    flash_byte st' chip x = 255;
  erase_frame : forall st chip a n err st' c x,
    esp_flash_erase_region st chip a n = (err, st') -> c <> chip \/ in_range a n x = false ->
    flash_byte st' c x = flash_byte st c x;
  write_clears : forall st chip data a st' x,
    esp_flash_write st chip data a = (ESP_OK, st') -> in_range a (Z.of_nat (length data)) x = true ->
    flash_byte st' chip x = Z.land (flash_byte st chip x) (nth (Z.to_nat (x - a)) data 0);
  write_frame : forall st chip data a err st' c x,
    esp_flash_write st chip data a = (err, st') ->
    c <> chip \/ in_range a (Z.of_nat (length data)) x = false ->
    flash_byte st' c x = flash_byte st c x;
  write_encrypted_frame : forall st chip data a err st' c x,
    esp_flash_write_encrypted st chip a data = (err, st') ->
    c <> chip \/ in_range a (Z.of_nat (length data)) x = false ->
    flash_byte st' c x = flash_byte st c x }.

(** A memory-backed driver; encryption is the identity, nothing fails. *)
Record nor_flash := mkNor { nor_bytes : memory }.

#[export] Instance NorFlash : FlashDriver nor_flash := {
  esp_flash_default_chip := 1;
  flash_chip_size _ := 4194304;
  flash_byte st chip x := if chip =? 1 then nor_bytes st x else 255;
  flash_view st := nor_bytes st;
  esp_flash_erase_region st chip a n :=
    if chip =? 1 then (ESP_OK, mkNor (fun x => if in_range a n x then 255 else nor_bytes st x))
    else (ESP_ERR_NOT_SUPPORTED, st);
  esp_flash_write st chip data a :=
    if chip =? 1 then
      (ESP_OK, mkNor (fun x => if in_range a (Z.of_nat (length data)) x
                               then Z.land (nor_bytes st x) (nth (Z.to_nat (x - a)) data 0)
                               else nor_bytes st x))
    else (ESP_ERR_NOT_SUPPORTED, st);
  esp_flash_write_encrypted st chip a data :=
    if chip =? 1 then
      (ESP_OK, mkNor (fun x => if in_range a (Z.of_nat (length data)) x
                               then Z.land (nor_bytes st x) (nth (Z.to_nat (x - a)) data 0)
                               else nor_bytes st x))
    else (ESP_ERR_NOT_SUPPORTED, st);
  esp_flash_read _ _ _ _ := ESP_OK;
  spi_flash_mmap _ _ _ := ESP_OK }.

#[export] Instance NorFlashLaws : @FlashLaws nor_flash NorFlash.
Proof.
  split; intros *; simpl; destruct (Z.eqb_spec chip 1) as [->|]; intros [= <- <-] || intros [= <-] || intros [=];
    simpl; try done.
  - by intros ->.
  - intros [?|Hr]; [by destruct (Z.eqb_spec c 1)|by rewrite Hr].
  - by intros ->.
  - intros [?|Hr]; [by destruct (Z.eqb_spec c 1)|by rewrite Hr].
  - intros [?|Hr]; [by destruct (Z.eqb_spec c 1)|by rewrite Hr].
Qed.

(** An unencrypted flash chip that does not fail. *)
Class PlainFlash (S : Type) {D : FlashDriver S} := {
  plain_laws :: FlashLaws S;
  view_plain : forall st x, flash_view st x = flash_byte st esp_flash_default_chip x;
  erase_succeeds : forall st a n, fst (esp_flash_erase_region st esp_flash_default_chip a n) = ESP_OK;
  write_succeeds : forall st l a, fst (esp_flash_write st esp_flash_default_chip l a) = ESP_OK;
  mmap_succeeds : forall st a n, spi_flash_mmap st a n = ESP_OK }.

#[export] Instance NorPlainFlash : @PlainFlash nor_flash NorFlash.
Proof. split; [apply _|done..]. Qed.

(** ** Bytes and words in flash *)

Definition is_byte (b : Z) : Prop := 0 <= b < 256.

Lemma land_255 b : is_byte b -> Z.land 255 b = b.
Proof.
  intros Hb. rewrite Z.land_comm. change 255 with (Z.ones 8). rewrite Z.land_ones by lia.
  apply Z.mod_small. unfold is_byte in Hb. lia.
Qed.

Lemma bytes32_bytes v : Forall is_byte (bytes32 v).
Proof. repeat constructor; unfold is_byte; try apply Z.mod_pos_bound; lia. Qed.

Lemma load32_bytes m a v :
  is_u32 v -> (forall i, (i < 4)%nat -> m (a + Z.of_nat i) = nth i (bytes32 v) 0) -> load32 m a = v.
Proof.
  intros Hv Hm. rewrite <- (load32_store32_same m a v Hv). apply load32_agree.
  intros x Hx. unfold store32, store_bytes. simpl length.
  destruct (Z.leb_spec a x); [|lia]. destruct (Z.ltb_spec x (a + Z.of_nat 4)); [|lia]. simpl andb. cbv iota.
  rewrite <- (Hm (Z.to_nat (x - a))) by lia. f_equal. lia.
Qed.

Lemma load_bytes_nth m a n l :
  n = Z.of_nat (length l) -> (forall i, (i < length l)%nat -> m (a + Z.of_nat i) = nth i l 0) ->
  load_bytes m a n = l.
Proof.
  intros -> Hm. unfold load_bytes. rewrite Nat2Z.id. apply nth_ext with (d := 0) (d' := 0).
  - by rewrite length_map, length_seq.
  - intros i Hi. rewrite length_map, length_seq in Hi.
    rewrite nth_indep with (d' := m (a + Z.of_nat 0)) by (by rewrite length_map, length_seq).
    rewrite (map_nth (fun i => m (a + Z.of_nat i))), seq_nth by done. apply Hm. done.
Qed.
