(* ===== verification/Partition.v ===== *)
(** * Partitions (esp_partition)

    partition.c and partition_target.c: loading the partition table, searching
    it, registering partitions at run time, and access to a partition's bytes
    through the flash driver.

    A partition is a list item with its address ([item_ptr], which is what
    pointer comparisons compare); labels are byte lists without the terminator.
    The MD5 function of the ROM, the encryption fuse and the table's offset are
    parameters. *)

From stdpp Require Import base list option gmap.
From Stdlib Require Import ZArith Lia.
From S2P Require Import Prelude Flash.

(** ** Constants and types *)

Definition ESP_PARTITION_TYPE_APP : Z := 0.
Definition ESP_PARTITION_TYPE_DATA : Z := 1.
Definition ESP_PARTITION_TYPE_BOOTLOADER : Z := 2.
Definition ESP_PARTITION_TYPE_PARTITION_TABLE : Z := 3.
Definition ESP_PARTITION_TYPE_ANY : Z := 255.
Definition ESP_PARTITION_SUBTYPE_APP_FACTORY : Z := 0.
Definition ESP_PARTITION_SUBTYPE_APP_OTA_MIN : Z := 16.
Definition ESP_PARTITION_SUBTYPE_APP_OTA_0 : Z := 16.
Definition ESP_PARTITION_SUBTYPE_APP_OTA_MAX : Z := 32.
Definition ESP_PARTITION_SUBTYPE_APP_TEST : Z := 32.
Definition ESP_PARTITION_SUBTYPE_DATA_OTA : Z := 0.
Definition ESP_PARTITION_SUBTYPE_DATA_NVS_KEYS : Z := 4.
Definition ESP_PARTITION_SUBTYPE_DATA_TEE_OTA : Z := 144.
Definition ESP_PARTITION_SUBTYPE_ANY : Z := 255.

Definition ESP_PARTITION_MAGIC : Z := 0x50AA.
Definition ESP_PARTITION_MAGIC_MD5 : Z := 0xEBEB.
Definition PART_FLAG_ENCRYPTED : Z := 2 ^ 0.
Definition PART_FLAG_READONLY : Z := 2 ^ 1.
Definition ESP_PARTITION_MD5_OFFSET : Z := 16.
Definition ESP_PARTITION_TABLE_MAX_LEN : Z := 0xC00.
Definition MMU_PAGE_SIZE : Z := 65536.

Record esp_partition_t := mkPartition {
  flash_chip : Z;
  type : Z;
  subtype : Z;
  address : Z;
  size : Z;
  erase_size : Z;
  label : list Z;
  encrypted : bool;
  readonly : bool }.

Record partition_list_item_t := mkItem {
  item_ptr : Z;            (* the address of info: what a const esp_partition_t* is *)
  info : esp_partition_t;
  user_registered : bool }.

Record esp_partition_info_t := mkInfo {
  magic : Z;
  pi_type : Z;
  pi_subtype : Z;
  pos_offset : Z;
  pos_size : Z;
  pi_label : list Z;
  pi_flags : Z }.

Definition partition_info_size : Z := 32.

(** The structure as it lies in flash. *)
Definition read_partition_info (m : memory) (a : Z) : esp_partition_info_t :=
  mkInfo (m a + 256 * m (a + 1)) (m (a + 2)) (m (a + 3)) (load32 m (a + 4)) (load32 m (a + 8))
    (load_bytes m (a + 12) 16) (load32 m (a + 28)).

(** [strncpy] into a zeroed buffer. *)
Fixpoint until_nul (l : list Z) : list Z :=
  match l with
  | [] => []
  | c :: l => if c =? 0 then [] else c :: until_nul l
  end.

Section partition.
Context {S : Type} {D : FlashDriver S}.
Context (esp_flash_encryption_enabled : bool) (md5 : list Z -> list Z).
Context (ESP_PARTITION_TABLE_OFFSET : Z).

Record partition_state := mkPstate {
  ps_flash : S;
  s_partition_list : list partition_list_item_t }.

Definition with_partitions (st : partition_state) (l : list partition_list_item_t) : partition_state :=
  mkPstate (ps_flash st) l.

(** ** Loading the table *)

Definition is_partition_encrypted (encryption_config : bool) (ty sub : Z) : bool :=
  if negb esp_flash_encryption_enabled then false
  else if (ty =? ESP_PARTITION_TYPE_APP) || (ty =? ESP_PARTITION_TYPE_BOOTLOADER) ||
          (ty =? ESP_PARTITION_TYPE_PARTITION_TABLE) ||
          ((ty =? ESP_PARTITION_TYPE_DATA) && (sub =? ESP_PARTITION_SUBTYPE_DATA_OTA)) ||
          ((ty =? ESP_PARTITION_TYPE_DATA) && (sub =? ESP_PARTITION_SUBTYPE_DATA_TEE_OTA)) ||
          ((ty =? ESP_PARTITION_TYPE_DATA) && (sub =? ESP_PARTITION_SUBTYPE_DATA_NVS_KEYS))
       then true
  else encryption_config.

Definition partition_of_entry (entry : esp_partition_info_t) : esp_partition_t :=
  mkPartition esp_flash_default_chip (pi_type entry) (pi_subtype entry) (pos_offset entry)
    (pos_size entry) SPI_FLASH_SEC_SIZE (until_nul (pi_label entry))
    (is_partition_encrypted (has_flag (pi_flags entry) PART_FLAG_ENCRYPTED) (pi_type entry) (pi_subtype entry))
    (has_flag (pi_flags entry) PART_FLAG_READONLY).

(** The loop over the mapped table: the error, the items, the bytes fed to the
    digest and where the digest entry is.  [calloc i] is the allocator's answer
    for entry [i]. *)
Fixpoint load_entries (fuel : nat) (calloc : Z -> Z) (m : memory) (p_entry i : Z) :
    esp_err_t * list partition_list_item_t * list Z * option Z :=
  match fuel with
  | O => (ESP_OK, [], [], None)
  | Datatypes.S fuel =>
      let entry := read_partition_info m p_entry in
      if magic entry =? ESP_PARTITION_MAGIC_MD5 then (ESP_OK, [], [], Some p_entry)
      else if negb (magic entry =? ESP_PARTITION_MAGIC) then (ESP_OK, [], [], None)
      else
        let bytes := load_bytes m p_entry partition_info_size in
        if calloc i =? NULL then (ESP_ERR_NO_MEM, [], bytes, None)
        else
          let '(err, items, digested, md5_part) :=
            load_entries fuel calloc m (p_entry + partition_info_size) (i + 1) in
          (err, mkItem (calloc i) (partition_of_entry entry) false :: items, bytes ++ digested, md5_part)
  end.

Definition list_eqb (a b : list Z) : bool := bool_decide (a = b).

Definition load_partitions (calloc : Z -> Z) (st : partition_state) : esp_err_t * partition_state :=
  let partition_align_pg_size := Z.land ESP_PARTITION_TABLE_OFFSET (u32 (Z.lnot (MMU_PAGE_SIZE - 1))) in
  let partition_pad := u32 (ESP_PARTITION_TABLE_OFFSET - partition_align_pg_size) in
  let err := spi_flash_mmap (ps_flash st) partition_align_pg_size SPI_FLASH_SEC_SIZE in
  if negb (err =? ESP_OK) then (err, st)
  else
    let m := flash_view (ps_flash st) in
    let p_start := partition_align_pg_size + partition_pad in
    let '(err, items, digested, md5_part) :=
      load_entries (Z.to_nat (SPI_FLASH_SEC_SIZE / partition_info_size)) calloc m p_start 0 in
    let err :=
      match md5_part with
      | None => ESP_ERR_NOT_FOUND
      | Some p => if list_eqb (md5 digested) (load_bytes m (p + ESP_PARTITION_MD5_OFFSET) 16)
                  then err else ESP_ERR_INVALID_STATE
      end in
    if err =? ESP_OK then (err, with_partitions st items) else (err, st).

Definition esp_partition_unload_all (st : partition_state) : partition_state := with_partitions st [].

Definition ensure_partitions_loaded (calloc : Z -> Z) (st : partition_state) : esp_err_t * partition_state :=
  match s_partition_list st with
  | [] => load_partitions calloc st
  | _ => (ESP_OK, st)
  end.

(** ** Searching *)

Record esp_partition_iterator_t := mkIterator {
  it_type : Z;
  it_subtype : Z;
  it_label : option (list Z);
  it_next_item : list partition_list_item_t;     (* from next_item on *)
  it_info : option partition_list_item_t }.

Definition it_matches (it : esp_partition_iterator_t) (p : esp_partition_t) : bool :=
  ((it_type it =? ESP_PARTITION_TYPE_ANY) || (it_type it =? type p)) &&
  ((it_subtype it =? ESP_PARTITION_SUBTYPE_ANY) || (it_subtype it =? subtype p)) &&
  match it_label it with None => true | Some l => list_eqb l (label p) end.

Fixpoint advance (it : esp_partition_iterator_t) (l : list partition_list_item_t) :
    option esp_partition_iterator_t :=
  match l with
  | [] => None
  | x :: l => if it_matches it (info x)
              then Some (mkIterator (it_type it) (it_subtype it) (it_label it) l (Some x))
              else advance it l
  end.

Definition esp_partition_next (it : esp_partition_iterator_t) : option esp_partition_iterator_t :=
  advance it (it_next_item it).

Definition esp_partition_get (it : esp_partition_iterator_t) : option partition_list_item_t := it_info it.

(** The search proper, over a loaded list; [malloc] of the iterator succeeds. *)
Definition find_in (l : list partition_list_item_t) (ty sub : Z) (lab : option (list Z)) :
    option esp_partition_iterator_t :=
  if (ty =? ESP_PARTITION_TYPE_ANY) && negb (sub =? ESP_PARTITION_SUBTYPE_ANY) then None
  else esp_partition_next (mkIterator ty sub lab l None).

Definition esp_partition_find (calloc : Z -> Z) (st : partition_state) (ty sub : Z) (lab : option (list Z)) :
    option esp_partition_iterator_t * partition_state :=
  let (err, st) := ensure_partitions_loaded calloc st in
  if negb (err =? ESP_OK) then (None, st) else (find_in (s_partition_list st) ty sub lab, st).

Definition find_first_in (l : list partition_list_item_t) (ty sub : Z) (lab : option (list Z)) :
    option partition_list_item_t :=
  let! it := find_in l ty sub lab in esp_partition_get it.

Definition esp_partition_find_first (calloc : Z -> Z) (st : partition_state) (ty sub : Z) (lab : option (list Z)) :
    option partition_list_item_t * partition_state :=
  let (it, st) := esp_partition_find calloc st ty sub lab in
  (let! it := it in esp_partition_get it, st).

Definition same_partition (p q : esp_partition_t) : bool :=
  (flash_chip p =? flash_chip q) && (address p =? address q) && (size q =? size p) &&
  Bool.eqb (encrypted q) (encrypted p).

Fixpoint verify_from (fuel : nat) (p : esp_partition_t) (it : option esp_partition_iterator_t) :
    option partition_list_item_t :=
  match it, fuel with
  | Some it', Datatypes.S fuel =>
      match esp_partition_get it' with
      | Some x => if same_partition (info x) p then Some x else verify_from fuel p (esp_partition_next it')
      | None => None
      end
  | _, _ => None
  end.

Definition verify_in (l : list partition_list_item_t) (p : esp_partition_t) : option partition_list_item_t :=
  let lab := if (0 <? Z.of_nat (length (label p))) then Some (label p) else None in
  verify_from (Datatypes.S (length l)) p (find_in l (type p) (subtype p) lab).

Definition esp_partition_verify (calloc : Z -> Z) (st : partition_state) (p : esp_partition_t) :
    option partition_list_item_t * partition_state :=
  let (err, st) := ensure_partitions_loaded calloc st in
  if negb (err =? ESP_OK) then (None, st) else (verify_in (s_partition_list st) p, st).

(** ** Registering partitions at run time *)

Definition bootloader_util_regions_overlap (start1 end1 start2 end2 : Z) : option bool :=
  assert! start1 <? end1;
  assert! start2 <? end2;
  Some ((start2 <? end1) && (start1 <? end2)).

Definition end_of (p : esp_partition_t) : Z := u32 (address p + size p).

(** Whether the region overlaps a partition of the list on the same chip; the
    bounds are converted to [intptr_t]. *)
Fixpoint overlaps_any (chip offset sz : Z) (l : list partition_list_item_t) : option bool :=
  match l with
  | [] => Some false
  | x :: l =>
      if flash_chip (info x) =? chip then
        let! o := bootloader_util_regions_overlap (s32 offset) (s32 (u32 (offset + sz)))
                    (s32 (address (info x))) (s32 (end_of (info x))) in
        if o : bool then Some true else overlaps_any chip offset sz l
      else overlaps_any chip offset sz l
  end.

(** [label] has at most 16 characters kept ([strlcpy]); [item] is the address
    [calloc] returned. *)
Definition esp_partition_register_external (calloc : Z -> Z) (st : partition_state)
    (chip offset sz : Z) (lab : list Z) (ty sub item : Z) :
    option (esp_err_t * option partition_list_item_t * partition_state) :=
  let chip := if chip =? NULL then esp_flash_default_chip else chip in
  if flash_chip_size chip <? u32 (offset + sz) then Some (ESP_ERR_INVALID_SIZE, None, st)
  else
    let (err, st) := ensure_partitions_loaded calloc st in
    if negb (err =? ESP_OK) then Some (err, None, st)
    else if item =? NULL then Some (ESP_ERR_NO_MEM, None, st)
    else
      let p := mkPartition chip ty sub offset sz SPI_FLASH_SEC_SIZE (take 16 lab)
                 (if chip =? esp_flash_default_chip then is_partition_encrypted false ty sub else false) false in
      let! o := overlaps_any chip offset sz (s_partition_list st) in
      if o : bool then Some (ESP_ERR_INVALID_ARG, None, st)
      else
        let x := mkItem item p true in
        Some (ESP_OK, Some x, with_partitions st (s_partition_list st ++ [x])).

Fixpoint deregister_from (partition : Z) (l : list partition_list_item_t) :
    esp_err_t * list partition_list_item_t :=
  match l with
  | [] => (ESP_ERR_NOT_FOUND, [])
  | x :: l =>
      if item_ptr x =? partition then
        if negb (user_registered x) then (ESP_ERR_INVALID_ARG, x :: l) else (ESP_OK, l)
      else let (err, l) := deregister_from partition l in (err, x :: l)
  end.

Definition esp_partition_deregister_external (st : partition_state) (partition : Z) :
    esp_err_t * partition_state :=
  let (err, l) := deregister_from partition (s_partition_list st) in (err, with_partitions st l).

(** ** Access to the bytes *)

(** The argument checks shared by the access functions. *)
Definition check_region (p : esp_partition_t) (offset sz : Z) : esp_err_t :=
  if size p <? offset then ESP_ERR_INVALID_ARG
  else if u32 (size p - offset) <? sz then ESP_ERR_INVALID_SIZE
  else ESP_OK.

Definition esp_partition_mmap (f : S) (p : esp_partition_t) (offset sz : Z) : esp_err_t :=
  let err := check_region p offset sz in
  if negb (err =? ESP_OK) then err
  else if negb (flash_chip p =? esp_flash_default_chip) then ESP_ERR_NOT_SUPPORTED
  else
    let phys_addr := u32 (address p + offset) in
    let region_offset := Z.land phys_addr (MMU_PAGE_SIZE - 1) in
    let mmap_addr := Z.land phys_addr (u32 (Z.lnot (MMU_PAGE_SIZE - 1))) in
    spi_flash_mmap f mmap_addr (u32 (sz + region_offset)).

(** Error and, when it is [ESP_OK], the bytes read. *)
Definition esp_partition_read (f : S) (p : esp_partition_t) (src_offset sz : Z) : esp_err_t * list Z :=
  let err := check_region p src_offset sz in
  if negb (err =? ESP_OK) then (err, [])
  else if negb (encrypted p) then
    (esp_flash_read f (flash_chip p) (u32 (address p + src_offset)) sz,
     load_bytes (flash_byte f (flash_chip p)) (u32 (address p + src_offset)) sz)
  else if negb (flash_chip p =? esp_flash_default_chip) then (ESP_ERR_NOT_SUPPORTED, [])
  else
    let err := esp_partition_mmap f p src_offset sz in
    if negb (err =? ESP_OK) then (err, [])
    else (ESP_OK, load_bytes (flash_view f) (u32 (address p + src_offset)) sz).

Definition esp_partition_write (f : S) (p : esp_partition_t) (dst_offset : Z) (src : list Z) : esp_err_t * S :=
  if readonly p then (ESP_ERR_NOT_ALLOWED, f)
  else
    let err := check_region p dst_offset (Z.of_nat (length src)) in
    if negb (err =? ESP_OK) then (err, f)
    else
      let dst_offset := u32 (address p + dst_offset) in
      if negb (encrypted p) then esp_flash_write f (flash_chip p) src dst_offset
      else if negb (flash_chip p =? esp_flash_default_chip) then (ESP_ERR_NOT_SUPPORTED, f)
      else esp_flash_write_encrypted f (flash_chip p) dst_offset src.

Definition esp_partition_read_raw (f : S) (p : esp_partition_t) (src_offset sz : Z) : esp_err_t * list Z :=
  let err := check_region p src_offset sz in
  if negb (err =? ESP_OK) then (err, [])
  else (esp_flash_read f (flash_chip p) (u32 (address p + src_offset)) sz,
        load_bytes (flash_byte f (flash_chip p)) (u32 (address p + src_offset)) sz).

Definition esp_partition_write_raw (f : S) (p : esp_partition_t) (dst_offset : Z) (src : list Z) : esp_err_t * S :=
  if readonly p then (ESP_ERR_NOT_ALLOWED, f)
  else
    let err := check_region p dst_offset (Z.of_nat (length src)) in
    if negb (err =? ESP_OK) then (err, f)
    else esp_flash_write f (flash_chip p) src (u32 (address p + dst_offset)).

Definition esp_partition_erase_range (f : S) (p : esp_partition_t) (offset sz : Z) : esp_err_t * S :=
  if readonly p then (ESP_ERR_NOT_ALLOWED, f)
  else
    let err := check_region p offset sz in
    if negb (err =? ESP_OK) then (err, f)
    else if negb (sz mod SPI_FLASH_SEC_SIZE =? 0) then (ESP_ERR_INVALID_SIZE, f)
    else if negb (offset mod SPI_FLASH_SEC_SIZE =? 0) then (ESP_ERR_INVALID_ARG, f)
    else esp_flash_erase_region f (flash_chip p) (u32 (address p + offset)) sz.

(** ** Copying *)

Definition ALIGN_UP (num align : Z) : Z := Z.land (u32 (num + (align - 1))) (u32 (Z.lnot (align - 1))).

(** The copy loop; [free_pages] are the successive answers of
    [spi_flash_mmap_get_free_pages]. *)
Fixpoint copy_loop (fuel : nat) (free_pages : list Z) (pages : Z) (f : S) (dest src : esp_partition_t)
    (dest_off src_off remaining attempts : Z) (error : esp_err_t) : option (esp_err_t * S) :=
  if remaining =? 0 then Some (error, f)
  else
    match fuel with
    | O => None
    | Datatypes.S fuel =>
        let chunk_size := Z.min remaining (u32 (pages * MMU_PAGE_SIZE)) in
        let err := esp_partition_mmap f src src_off chunk_size in
        if err =? ESP_OK then
          let data := load_bytes (flash_view f) (u32 (address src + src_off)) chunk_size in
          let (err, f) := esp_partition_write f dest dest_off data in
          if negb (err =? ESP_OK) then Some (err, f)
          else copy_loop fuel free_pages pages f dest src (u32 (dest_off + chunk_size))
                 (u32 (src_off + chunk_size)) (u32 (remaining - chunk_size)) 0 err
        else
          let pages := default 0 (head free_pages) in
          if 3 <=? attempts + 1 then Some (err, f)
          else copy_loop fuel (tail free_pages) pages f dest src dest_off src_off remaining (attempts + 1) err
    end.

Definition esp_partition_copy (fuel : nat) (free_pages : list Z) (f : S)
    (dest_part : option partition_list_item_t) (dest_offset : Z)
    (src_part : option partition_list_item_t) (src_offset sz : Z) : option (esp_err_t * S) :=
  match src_part, dest_part with
  | Some s, Some d =>
      if item_ptr s =? item_ptr d then Some (ESP_ERR_INVALID_ARG, f)
      else if (size (info s) <? src_offset) || (size (info d) <? dest_offset) then Some (ESP_ERR_INVALID_SIZE, f)
      else if negb (flash_chip (info s) =? esp_flash_default_chip) then Some (ESP_ERR_NOT_SUPPORTED, f)
      else
        let (sz, dest_erase_size) :=
          if sz =? UINT32_MAX then (u32 (size (info s) - src_offset), u32 (size (info d) - dest_offset))
          else (sz, sz) in
        if (UINT32_MAX <? src_offset + sz) || (size (info s) <? src_offset + sz) ||
           (UINT32_MAX <? dest_offset + sz) || (size (info d) <? dest_offset + sz)
        then Some (ESP_ERR_INVALID_SIZE, f)
        else
          let (err, f) := esp_partition_erase_range f (info d) dest_offset (ALIGN_UP dest_erase_size SPI_FLASH_SEC_SIZE) in
          if negb (err =? ESP_OK) then Some (err, f)
          else copy_loop fuel (tail free_pages) (default 0 (head free_pages)) f (info d) (info s)
                 dest_offset src_offset sz 0 err
  | _, _ => Some (ESP_ERR_INVALID_ARG, f)
  end.

(** ** Protected regions *)

Definition region_hits (p : esp_partition_t) (addr sz : Z) : bool :=
  ((address p <=? addr) && (addr <? u32 (address p + size p))) ||
  ((addr <? address p) && (address p <? u32 (addr + sz))).

Definition esp_partition_is_flash_region_writable (l : list partition_list_item_t) (addr sz : Z) : bool :=
  forallb (fun x => negb (readonly (info x) && region_hits (info x) addr sz)) l.

(** [running] is [esp_ota_get_running_partition()]. *)
Definition esp_partition_main_flash_region_safe (running : esp_partition_t) (addr sz : Z) : bool :=
  if addr <=? ESP_PARTITION_TABLE_OFFSET + ESP_PARTITION_TABLE_MAX_LEN then false
  else negb (region_hits running addr sz).

Definition esp_partition_get_main_flash_sector_size : Z := SPI_FLASH_SEC_SIZE.

(** ** Accesses stay inside the partition *)

Inductive partition_access :=
| AccWrite (offset : Z) (src : list Z)
| AccWriteRaw (offset : Z) (src : list Z)
| AccErase (offset sz : Z).

Definition run_access (f : S) (p : esp_partition_t) (a : partition_access) : esp_err_t * S :=
  match a with
  | AccWrite o src => esp_partition_write f p o src
  | AccWriteRaw o src => esp_partition_write_raw f p o src
  | AccErase o n => esp_partition_erase_range f p o n
  end.

Definition access_ok (a : partition_access) : Prop :=
  match a with
  | AccWrite o src | AccWriteRaw o src => is_u32 o
  | AccErase o n => is_u32 o /\ is_u32 n
  end.

(** The region of the chip a partition occupies does not wrap. *)
Definition placed (p : esp_partition_t) : Prop :=
  0 <= address p /\ 0 <= size p /\ address p + size p < 4294967296.

Lemma check_region_ok p offset sz :
  placed p -> 0 <= offset -> 0 <= sz -> check_region p offset sz = ESP_OK -> offset + sz <= size p.
Proof.
  intros (? & ? & ?) ? ?. unfold check_region. destruct (Z.ltb_spec (size p) offset); [done|].
  rewrite u32_small by lia. destruct (Z.ltb_spec (size p - offset) sz); [done|]. lia.
Qed.

Context {L : FlashLaws S}.

(** C30: whatever an access function is given and however it ends, it changes no
    byte outside the partition, and none at all of a read-only partition. *)
Theorem partition_access_isolated f p a err f' c x :
  placed p -> access_ok a -> run_access f p a = (err, f') ->
  c <> flash_chip p \/ x < address p \/ address p + size p <= x \/ readonly p = true ->
  flash_byte f' c x = flash_byte f c x.
Proof using L.
  clear md5 esp_flash_encryption_enabled ESP_PARTITION_TABLE_OFFSET. intros Hp Ha Hrun Hx. pose proof Hp as (? & ? & ?).
  destruct a as [o src|o src|o n]; simpl in Ha, Hrun;
    unfold esp_partition_write, esp_partition_write_raw, esp_partition_erase_range in Hrun;
    destruct (readonly p) eqn:Er; try (by injection Hrun as _ <-);
    destruct (check_region _ _ _ =? ESP_OK) eqn:Ec; simpl in Hrun; try (by injection Hrun as _ <-);
    apply Z.eqb_eq, check_region_ok in Ec; try done; try lia; unfold is_u32 in *; try lia;
    rewrite u32_small in Hrun by lia.
  - destruct (encrypted p); simpl in Hrun.
    + destruct (_ =? _); simpl in Hrun; [|by injection Hrun as _ <-].
      eapply write_encrypted_frame; [done|]. rewrite in_range_false. intuition (lia || congruence).
    + eapply write_frame; [done|]. rewrite in_range_false. intuition (lia || congruence).
  - eapply write_frame; [done|]. rewrite in_range_false. intuition (lia || congruence).
  - destruct (negb (n mod _ =? 0)); [by injection Hrun as _ <-|].
    destruct (negb (o mod _ =? 0)); [by injection Hrun as _ <-|].
    eapply erase_frame; [done|]. rewrite in_range_false. intuition (lia || congruence).
Qed.

(** ** Loading *)

Lemma load_entries_exact n : forall fuel calloc m p i,
  (n < fuel)%nat ->
  (forall j, 0 <= j < Z.of_nat n -> magic (read_partition_info m (p + j * 32)) = ESP_PARTITION_MAGIC) ->
  magic (read_partition_info m (p + Z.of_nat n * 32)) = ESP_PARTITION_MAGIC_MD5 ->
  (forall j, i <= j < i + Z.of_nat n -> calloc j <> NULL) ->
  load_entries fuel calloc m p i =
    (ESP_OK,
     map (fun j => mkItem (calloc (i + Z.of_nat j))
                     (partition_of_entry (read_partition_info m (p + Z.of_nat j * 32))) false) (seq 0 n),
     load_bytes m p (Z.of_nat n * 32), Some (p + Z.of_nat n * 32)).
Proof.
  induction n as [|n IH]; intros fuel calloc m p i Hfuel Hmag Hmd5 Hcalloc; (destruct fuel; [lia|]);
    cbn [load_entries].
  - rewrite Z.add_0_r in *. rewrite Hmd5. done.
  - specialize (Hmag 0) as H0. rewrite Z.add_0_r in H0. rewrite H0 by lia. simpl.
    destruct (Z.eqb_spec (calloc i) NULL) as [E|_]; [exfalso; by apply (Hcalloc i); [lia|]|].
    unfold partition_info_size. rewrite IH; [|lia|..].
    + f_equal; [f_equal; [f_equal|]|f_equal; lia].
      * rewrite <- seq_shift, map_map. f_equal; [f_equal; [f_equal; lia|do 2 f_equal; lia]|].
        apply map_ext. intros j. f_equal; [f_equal; lia|do 2 f_equal; lia].
      * replace (Z.of_nat (Datatypes.S n) * 32) with (32 + Z.of_nat n * 32) by lia.
        by rewrite load_bytes_app by lia.
    + intros j Hj. rewrite <- (Hmag (j + 1)) by lia. do 2 f_equal. lia.
    + rewrite <- Hmd5. do 2 f_equal. lia.
    + intros j Hj. apply Hcalloc. lia.
Qed.

(** Loading the table yields its entries up to the digest, in order, when the
    digest matches, and nothing when it does not. *)
Theorem load_partitions_exact calloc st n :
  let m := flash_view (ps_flash st) in
  let entry j := read_partition_info m (ESP_PARTITION_TABLE_OFFSET + j * 32) in
  is_u32 ESP_PARTITION_TABLE_OFFSET -> (n < 128)%nat ->
  (forall a k, spi_flash_mmap (ps_flash st) a k = ESP_OK) ->
  (forall j, 0 <= j < Z.of_nat n -> magic (entry j) = ESP_PARTITION_MAGIC /\ calloc j <> NULL) ->
  magic (entry (Z.of_nat n)) = ESP_PARTITION_MAGIC_MD5 ->
  let table := load_bytes m ESP_PARTITION_TABLE_OFFSET (Z.of_nat n * 32) in
  let stored := load_bytes m (ESP_PARTITION_TABLE_OFFSET + Z.of_nat n * 32 + 16) 16 in
  load_partitions calloc st =
    if list_eqb (md5 table) stored
    then (ESP_OK, with_partitions st (map (fun j => mkItem (calloc (Z.of_nat j))
            (partition_of_entry (entry (Z.of_nat j))) false) (seq 0 n)))
    else (ESP_ERR_INVALID_STATE, st).
Proof.
  intros m entry Hoff Hn Hmap Hent Hmd5 table stored. unfold load_partitions.
  rewrite Hmap. change (negb (ESP_OK =? ESP_OK)) with false. cbv iota zeta. fold m. change (MMU_PAGE_SIZE - 1) with (2 ^ 16 - 1).
  rewrite land_round_down by (done || lia).
  assert (0 <= ESP_PARTITION_TABLE_OFFSET mod 2 ^ 16 < 2 ^ 16) by (apply Z.mod_pos_bound; lia).
  pose proof (Z.mod_le ESP_PARTITION_TABLE_OFFSET (2 ^ 16)). unfold is_u32 in Hoff.
  rewrite u32_small by lia.
  replace (ESP_PARTITION_TABLE_OFFSET - ESP_PARTITION_TABLE_OFFSET mod 2 ^ 16 +
    (ESP_PARTITION_TABLE_OFFSET - (ESP_PARTITION_TABLE_OFFSET - ESP_PARTITION_TABLE_OFFSET mod 2 ^ 16)))
    with ESP_PARTITION_TABLE_OFFSET by lia.
  rewrite (load_entries_exact n) by (try done; try lia; intros; apply Hent; lia).
  fold table. unfold ESP_PARTITION_MD5_OFFSET. fold stored. destruct (list_eqb _ _); done.
Qed.

(** ** Searching and registering *)

Lemma advance_spec it l :
  match advance it l with
  | Some it' => exists l1 x, l = l1 ++ x :: it_next_item it' /\ it_info it' = Some x /\
      it_matches it (info x) = true /\ Forall (fun y => it_matches it (info y) = false) l1 /\
      (forall p, it_matches it' p = it_matches it p)
  | None => Forall (fun y => it_matches it (info y) = false) l
  end.
Proof.
  induction l as [|x l IH]; simpl; [done|]. destruct (it_matches it (info x)) eqn:E; simpl.
  - by exists [], x.
  - destruct (advance it l) as [it'|]; [|by constructor].
    destruct IH as (l1 & y & -> & H1 & H2 & H3 & H4). exists (x :: l1), y. split_and!; auto.
Qed.

Definition matches (ty sub : Z) (lab : option (list Z)) (p : esp_partition_t) : bool :=
  it_matches (mkIterator ty sub lab [] None) p.

(** The first match of a search. *)
Lemma find_first_in_spec l ty sub lab :
  ty <> ESP_PARTITION_TYPE_ANY ->
  match find_first_in l ty sub lab with
  | Some x => exists l1 l2, l = l1 ++ x :: l2 /\ matches ty sub lab (info x) = true /\
                Forall (fun y => matches ty sub lab (info y) = false) l1
  | None => Forall (fun y => matches ty sub lab (info y) = false) l
  end.
Proof.
  intros Hty. unfold find_first_in, find_in, esp_partition_next, esp_partition_get.
  destruct (Z.eqb_spec ty ESP_PARTITION_TYPE_ANY); [done|]. simpl.
  pose proof (advance_spec (mkIterator ty sub lab l None) l) as H.
  destruct (advance _ l) as [it'|]; [|done]. destruct H as (l1 & x & E & Hi & Hm & Hf & _).
  rewrite Hi. by exists l1, (it_next_item it').
Qed.

Definition disjoint_partitions (p q : esp_partition_t) : Prop :=
  flash_chip p <> flash_chip q \/ address p + size p <= address q \/ address q + size q <= address p.

Definition on_flash (p : esp_partition_t) : Prop :=
  0 <= address p /\ 0 < size p /\ address p + size p < 2147483648.

Lemma overlaps_any_spec chip offset sz l :
  0 <= offset -> 0 < sz -> offset + sz < 2147483648 -> Forall (fun x => on_flash (info x)) l ->
  exists b, overlaps_any chip offset sz l = Some b /\
    (b = false -> forall x, x ∈ l -> flash_chip (info x) = chip ->
       offset + sz <= address (info x) \/ address (info x) + size (info x) <= offset).
Proof.
  intros Ho Hs Hb. induction 1 as [|x l (H1 & H2 & H3) Hl (b & IH & IHd)]; simpl.
  - exists false. split; [done|]. intros _ x Hx. by apply not_elem_of_nil in Hx.
  - destruct (Z.eqb_spec (flash_chip (info x)) chip).
    + unfold bootloader_util_regions_overlap, end_of. word_norm.
      destruct (Z.ltb_spec offset (offset + sz)); [|lia].
      destruct (Z.ltb_spec (address (info x)) (address (info x) + size (info x))); [|lia]. simpl.
      destruct (Z.ltb_spec (address (info x)) (offset + sz)), (Z.ltb_spec offset (address (info x) + size (info x)));
        simpl; [by exists true|..]; exists b; (split; [done|]); intros Hb' y [->|Hy]%elem_of_cons Hc; try lia;
        by apply IHd.
    + exists b. split; [done|]. intros Hb' y [->|Hy]%elem_of_cons Hc; [done|by apply IHd].
Qed.

(** Registering an external partition never makes two partitions of a chip
    overlap: from a table of disjoint partitions it ends without a failed
    assertion, and if it reports success the new one is disjoint from all. *)
Theorem register_external_disjoint calloc st chip offset sz lab ty sub item :
  s_partition_list st <> [] ->
  Forall (fun x => on_flash (info x)) (s_partition_list st) ->
  0 <= offset -> 0 < sz -> offset + sz < 2147483648 -> chip <> NULL ->
  exists err x st', esp_partition_register_external calloc st chip offset sz lab ty sub item = Some (err, x, st') /\
    (err <> ESP_OK -> st' = st) /\
    (err = ESP_OK -> exists p, x = Some p /\ s_partition_list st' = s_partition_list st ++ [p] /\
       on_flash (info p) /\ address (info p) = offset /\ size (info p) = sz /\
       forall q, q ∈ s_partition_list st -> disjoint_partitions (info p) (info q)).
Proof.
  intros Hne Hall Ho Hs Hb Hc. unfold esp_partition_register_external, ensure_partitions_loaded.
  apply Z.eqb_neq in Hc. rewrite Hc. destruct (_ <? _); [by eexists _, _, _|].
  destruct (s_partition_list st) as [|x0 l0] eqn:El; [done|]. simpl negb.
  destruct (item =? NULL); [by eexists _, _, _|].
  destruct (overlaps_any_spec chip offset sz _ Ho Hs Hb Hall) as (b & E & Hd). rewrite El, E.
  destruct b; [by eexists _, _, _|]. eexists _, _, _. split; [done|]. split; [done|]. intros _.
  eexists. split_and!; try done. intros q Hq. unfold disjoint_partitions. simpl.
  destruct (Z.eq_dec chip (flash_chip (info q))); [right|by left].
  destruct (Hd eq_refl q Hq); [done|by left|by right].
Qed.

End partition.

(** ** A region beyond the chip

    The 32-bit sum [offset + size] wraps, so the bound check passes, and as
    [intptr_t]s the region looks like one at the bottom of the flash. *)

Definition nvs_partition : esp_partition_t := mkPartition 1 1 2 36864 24576 4096 [110; 118; 115] false false.

Definition demo_partitions : @partition_state nor_flash :=
  mkPstate (mkNor (fun _ => 255)) [mkItem 5000 nvs_partition false].

Lemma register_external_wraps :
  (let! (err, x, _) := esp_partition_register_external false (fun l => l) 32768 (fun _ => 6000) demo_partitions
                         1 0xFFFFF000 0x2000 [120] 1 6 7000 in
   Some (err, from_option (fun x => address (info x)) 0 x)) = Some (ESP_OK, 0xFFFFF000).
Proof. vm_compute. reflexivity. Qed.

(** ** Witnesses *)

Lemma partition_access_isolated_witness :
  exists err f', run_access (S := nor_flash) (mkNor (fun _ => 255)) nvs_partition (AccWrite 16 [1; 2; 3]) = (err, f') /\
    flash_byte f' 1 0 = flash_byte (mkNor (fun _ => 255)) 1 0.
Proof.
  eexists _, _. split; [reflexivity|].
  apply (partition_access_isolated (mkNor (fun _ => 255)) nvs_partition (AccWrite 16 [1; 2; 3]) ESP_OK);
    [by vm_compute|by vm_compute|reflexivity|right; left; by vm_compute].
Defined.

Lemma register_external_disjoint_witness :
  exists err x st', esp_partition_register_external false (fun l => l) 32768 (fun _ => 6000) demo_partitions
      1 65536 4096 [120] 1 6 7000 = Some (err, x, st') /\
    (err <> ESP_OK -> st' = demo_partitions) /\
    (err = ESP_OK -> exists p, x = Some p /\ s_partition_list st' = s_partition_list demo_partitions ++ [p] /\
       on_flash (info p) /\ address (info p) = 65536 /\ size (info p) = 4096 /\
       forall q, q ∈ s_partition_list demo_partitions -> disjoint_partitions (info p) (info q)).
Proof.
  apply (register_external_disjoint (S := nor_flash) false (fun l => l) 32768 (fun _ => 6000) demo_partitions
           1 65536 4096 [120] 1 6 7000); [done| |lia..|done].
  repeat constructor; by vm_compute.
Defined.
