(* ===== verification/Bootloader.v ===== *)
(** * Choosing the image to boot (bootloader_support)

    bootloader_common_loader.c (the OTA selection entries), flash_partitions.c
    (checking the table) and bootloader_utility.c (which slot to boot, and in
    what order the slots are tried), without anti-rollback and without a TEE.
    [rollback] is CONFIG_BOOTLOADER_APP_ROLLBACK_ENABLE; the ROM's CRC and MD5
    and the image loader are parameters. *)

From stdpp Require Import base list option gmap.
From Stdlib Require Import ZArith Lia.
From S2P Require Import Prelude Flash Partition.

(** ** Selection entries *)

Definition ESP_OTA_IMG_NEW : Z := 0.
Definition ESP_OTA_IMG_PENDING_VERIFY : Z := 1.
Definition ESP_OTA_IMG_VALID : Z := 2.
Definition ESP_OTA_IMG_INVALID : Z := 3.
Definition ESP_OTA_IMG_ABORTED : Z := 4.
Definition ESP_OTA_IMG_UNDEFINED : Z := UINT32_MAX.

Record esp_ota_select_entry_t := mkEntry {
  ota_seq : Z;
  seq_label : list Z;      (* uint8_t[20] *)
  ota_state : Z;
  crc : Z }.

Definition select_entry_size : Z := 32.

Definition read_select_entry (m : memory) (a : Z) : esp_ota_select_entry_t :=
  mkEntry (load32 m a) (load_bytes m (a + 4) 20) (load32 m (a + 24)) (load32 m (a + 28)).

Definition entry_bytes (e : esp_ota_select_entry_t) : list Z :=
  bytes32 (ota_seq e) ++ seq_label e ++ bytes32 (ota_state e) ++ bytes32 (crc e).

Definition set_seq_crc (seq c : Z) (e : esp_ota_select_entry_t) : esp_ota_select_entry_t :=
  mkEntry seq (seq_label e) (ota_state e) c.
Definition set_ota_state (s : Z) (e : esp_ota_select_entry_t) : esp_ota_select_entry_t :=
  mkEntry (ota_seq e) (seq_label e) s (crc e).

(** The two copies, and an index into them. *)
Definition otadata := (esp_ota_select_entry_t * esp_ota_select_entry_t)%type.
Definition entry_of (two : otadata) (i : Z) : esp_ota_select_entry_t := if i =? 0 then two.1 else two.2.
Definition upd_entry (two : otadata) (i : Z) (f : esp_ota_select_entry_t -> esp_ota_select_entry_t) : otadata :=
  if i =? 0 then (f two.1, two.2) else (two.1, f two.2).

Definition bootloader_common_select_otadata (two_otadata : option otadata)
    (valid_two_otadata : option (bool * bool)) (max : bool) : Z :=
  match two_otadata, valid_two_otadata with
  | Some (e0, e1), Some (v0, v1) =>
      if v0 && v1 then
        let condition := if max then Z.max (ota_seq e0) (ota_seq e1) else Z.min (ota_seq e0) (ota_seq e1) in
        if condition =? ota_seq e0 then 0 else 1
      else if v0 then 0
      else if v1 then 1
      else -1
  | _, _ => -1
  end.

Definition bootloader_common_ota_select_invalid (s : esp_ota_select_entry_t) : bool :=
  (ota_seq s =? UINT32_MAX) || (ota_state s =? ESP_OTA_IMG_INVALID) || (ota_state s =? ESP_OTA_IMG_ABORTED).

(** ** Bootloader state *)

Record esp_partition_pos_t := mkPos { offset : Z; pos_len : Z }.

Definition MAX_OTA_SLOTS : Z := 16.
Definition FACTORY_INDEX : Z := -1.
Definition TEST_APP_INDEX : Z := -2.
Definition INVALID_INDEX : Z := -99.

Record bootloader_state_t := mkBs {
  ota_info : esp_partition_pos_t;
  factory : esp_partition_pos_t;
  test : esp_partition_pos_t;
  ota : list esp_partition_pos_t;      (* ota[MAX_OTA_SLOTS] *)
  app_count : Z }.

Definition no_pos : esp_partition_pos_t := mkPos 0 0.
Definition initial_bs : bootloader_state_t := mkBs no_pos no_pos no_pos (repeat no_pos 16) 0.

Definition PART_TYPE_END : Z := 255.
Definition ESP_PARTITION_TABLE_MAX_ENTRIES : Z := 96.

Section bootloader.
Context {S : Type} {D : FlashDriver S}.
Context (esp_rom_crc32_le : list Z -> Z) (md5 : list Z -> list Z).
Context (esp_flash_encryption_enabled rollback : bool).
Context (ESP_PARTITION_TABLE_OFFSET chip_size : Z).

(** [esp_rom_crc32_le(UINT32_MAX, ...)] over the sequence number. *)
Definition bootloader_common_ota_select_crc (s : esp_ota_select_entry_t) : Z :=
  esp_rom_crc32_le (bytes32 (ota_seq s)).

Definition bootloader_common_ota_select_valid (s : esp_ota_select_entry_t) : bool :=
  negb (bootloader_common_ota_select_invalid s) && (crc s =? bootloader_common_ota_select_crc s).

Definition bootloader_common_get_active_otadata (two_otadata : option otadata) : Z :=
  match two_otadata with
  | None => -1
  | Some (e0, e1) =>
      bootloader_common_select_otadata two_otadata
        (Some (bootloader_common_ota_select_valid e0, bootloader_common_ota_select_valid e1)) true
  end.

(** ** Flash access of the bootloader *)

Definition bootloader_mmap (f : S) (src_addr sz : Z) : bool :=
  let src_page := Z.land src_addr (u32 (Z.lnot (MMU_PAGE_SIZE - 1))) in
  spi_flash_mmap f src_page (u32 (sz + (src_addr - src_page))) =? ESP_OK.

Definition bootloader_flash_erase_sector (f : S) (sector : Z) : esp_err_t * S :=
  esp_flash_erase_region f esp_flash_default_chip (u32 (sector * SPI_FLASH_SEC_SIZE)) SPI_FLASH_SEC_SIZE.

Definition bootloader_flash_write (f : S) (dest_addr : Z) (src : list Z) (write_encrypted : bool) : esp_err_t * S :=
  if write_encrypted then esp_flash_write_encrypted f esp_flash_default_chip dest_addr src
  else esp_flash_write f esp_flash_default_chip src dest_addr.

Definition bootloader_common_read_otadata (f : S) (info : esp_partition_pos_t) : esp_err_t * option otadata :=
  if offset info =? 0 then (ESP_ERR_NOT_FOUND, None)
  else if pos_len info <? 2 * SPI_FLASH_SEC_SIZE then (ESP_FAIL, None)
  else if negb (bootloader_mmap f (offset info) (pos_len info)) then (ESP_FAIL, None)
  else (ESP_OK, Some (read_select_entry (flash_view f) (offset info),
                      read_select_entry (flash_view f) (offset info + SPI_FLASH_SEC_SIZE))).

Definition write_otadata (f : S) (e : esp_ota_select_entry_t) (off : Z) (write_encrypted : bool) : esp_err_t * S :=
  let (err, f) := bootloader_flash_erase_sector f (off / SPI_FLASH_SEC_SIZE) in
  if err =? ESP_OK then bootloader_flash_write f off (entry_bytes e) write_encrypted else (err, f).

(** ** The partition table *)

(** The loop of [esp_partition_table_verify] from entry [num_parts]; on success
    the number of partitions. *)
Fixpoint table_verify_from (fuel : nat) (m : memory) (base num_parts : Z) (md5_found : bool) : esp_err_t * Z :=
  match fuel with
  | O => (ESP_ERR_INVALID_STATE, 0)
  | Datatypes.S fuel =>
      let a := base + num_parts * partition_info_size in
      let part := read_partition_info m a in
      if magic part =? ESP_PARTITION_MAGIC then
        if (chip_size <? pos_offset part) || (chip_size <? u32 (pos_offset part + pos_size part))
        then (ESP_ERR_INVALID_SIZE, 0)
        else table_verify_from fuel m base (num_parts + 1) md5_found
      else if magic part =? ESP_PARTITION_MAGIC_MD5 then
        if md5_found then (ESP_ERR_INVALID_STATE, 0)
        else if negb (list_eqb (load_bytes m (a + ESP_PARTITION_MD5_OFFSET) 16)
                               (md5 (load_bytes m base (num_parts * partition_info_size))))
        then (ESP_ERR_INVALID_STATE, 0)
        else table_verify_from fuel m base (num_parts + 1) true
      else if negb (num_parts =? 0) && (magic part =? 0xFFFF) && (pi_type part =? PART_TYPE_END) &&
              (pi_subtype part =? PART_TYPE_END)
      then (ESP_OK, num_parts - (if md5_found then 1 else 0))
      else (ESP_ERR_INVALID_STATE, 0)
  end.

Definition esp_partition_table_verify (m : memory) (base : Z) : esp_err_t * Z :=
  table_verify_from (Z.to_nat ESP_PARTITION_TABLE_MAX_ENTRIES) m base 0 false.

(** What one entry adds to the bootloader's state. *)
Definition add_partition (bs : bootloader_state_t) (p : esp_partition_info_t) : bootloader_state_t :=
  let pos := mkPos (pos_offset p) (pos_size p) in
  if pi_type p =? ESP_PARTITION_TYPE_APP then
    if pi_subtype p =? ESP_PARTITION_SUBTYPE_APP_FACTORY
    then mkBs (ota_info bs) pos (test bs) (ota bs) (app_count bs)
    else if pi_subtype p =? ESP_PARTITION_SUBTYPE_APP_TEST
    then mkBs (ota_info bs) (factory bs) pos (ota bs) (app_count bs)
    else if Z.land (pi_subtype p) (u32 (Z.lnot 15)) =? 16
    then mkBs (ota_info bs) (factory bs) (test bs)
           (<[Z.to_nat (Z.land (pi_subtype p) 15) := pos]> (ota bs)) (u32 (app_count bs + 1))
    else bs
  else if pi_type p =? ESP_PARTITION_TYPE_DATA then
    if pi_subtype p =? ESP_PARTITION_SUBTYPE_DATA_OTA
    then mkBs pos (factory bs) (test bs) (ota bs) (app_count bs)
    else bs
  else bs.

Definition bootloader_utility_load_partition_table (f : S) (bs : bootloader_state_t) : bool * bootloader_state_t :=
  if negb (bootloader_mmap f ESP_PARTITION_TABLE_OFFSET ESP_PARTITION_TABLE_MAX_LEN) then (false, bs)
  else
    let m := flash_view f in
    let (err, num_partitions) := esp_partition_table_verify m ESP_PARTITION_TABLE_OFFSET in
    if negb (err =? ESP_OK) then (false, bs)
    else (true, foldl (fun bs i => add_partition bs (read_partition_info m
                         (ESP_PARTITION_TABLE_OFFSET + Z.of_nat i * partition_info_size)))
                  bs (seq 0 (Z.to_nat num_partitions))).

(** ** Which slot to boot *)

Definition entry_unset (e : esp_ota_select_entry_t) : bool :=
  (ota_seq e =? UINT32_MAX) || negb (crc e =? bootloader_common_ota_select_crc e).

(** With rollback, an image still awaiting confirmation is marked aborted. *)
Definition abort_pending (f : S) (bs : bootloader_state_t) (two : otadata) (i : Z) : otadata * S :=
  if rollback && (ota_state (entry_of two i) =? ESP_OTA_IMG_PENDING_VERIFY) then
    let two := upd_entry two i (set_ota_state ESP_OTA_IMG_ABORTED) in
    let (_, f) := write_otadata f (entry_of two i) (offset (ota_info bs) + SPI_FLASH_SEC_SIZE * i)
                    esp_flash_encryption_enabled in
    (two, f)
  else (two, f).

(** The index, the flash afterwards and [ota_has_initial_contents]. *)
Definition bootloader_utility_get_selected_boot_partition (f : S) (bs : bootloader_state_t) : Z * S * bool :=
  if offset (ota_info bs) =? 0 then (FACTORY_INDEX, f, false)
  else
    match bootloader_common_read_otadata f (ota_info bs) with
    | (_, None) => (INVALID_INDEX, f, false)
    | (_, Some two) =>
        let (two, f) := abort_pending f bs two 0 in
        let (two, f) := abort_pending f bs two 1 in
        if (bootloader_common_ota_select_invalid two.1 && bootloader_common_ota_select_invalid two.2) ||
           (app_count bs =? 0) then
          if negb (offset (factory bs) =? 0) then (FACTORY_INDEX, f, false)
          else (0, f, entry_unset two.1 && entry_unset two.2)
        else
          let active := bootloader_common_get_active_otadata (Some two) in
          if negb (active =? -1) then
            let boot_index := u32 (ota_seq (entry_of two active) - 1) mod app_count bs in
            if rollback && (ota_state (entry_of two active) =? ESP_OTA_IMG_NEW) then
              let two := upd_entry two active (set_ota_state ESP_OTA_IMG_PENDING_VERIFY) in
              let (_, f) := write_otadata f (entry_of two active)
                              (offset (ota_info bs) + SPI_FLASH_SEC_SIZE * active)
                              esp_flash_encryption_enabled in
              (boot_index, f, false)
            else (boot_index, f, false)
          else (FACTORY_INDEX, f, false)
    end.

(** ** Loading an image *)

Definition index_to_partition (bs : bootloader_state_t) (index : Z) : esp_partition_pos_t :=
  if index =? FACTORY_INDEX then factory bs
  else if index =? TEST_APP_INDEX then test bs
  else if (0 <=? index) && (index <? MAX_OTA_SLOTS) && (index <? app_count bs)
       then default no_pos (ota bs !! Z.to_nat index)
  else no_pos.

(** [bootloader_load_image] verifies and loads an image. *)
Context (bootloader_load_image : esp_partition_pos_t -> bool).

Definition try_load_partition (partition : esp_partition_pos_t) : bool :=
  if pos_len partition =? 0 then false else bootloader_load_image partition.

Definition set_actual_ota_seq (f : S) (bs : bootloader_state_t) (index : Z) (ota_has_initial_contents : bool) : S :=
  if (FACTORY_INDEX <? index) && ota_has_initial_contents then
    let e := mkEntry (u32 (index + 1)) (repeat 255 20) ESP_OTA_IMG_VALID 0 in
    let e := set_seq_crc (ota_seq e) (bootloader_common_ota_select_crc e) e in
    snd (write_otadata f e (offset (ota_info bs)) esp_flash_encryption_enabled)
  else f.

(** Trying a list of indices in order: the first that loads does not return. *)
Fixpoint try_indices (bs : bootloader_state_t) (indices : list Z) : option Z :=
  match indices with
  | [] => None
  | index :: rest =>
      let part := index_to_partition bs index in
      if pos_len part =? 0 then try_indices bs rest
      else if try_load_partition part then Some index
      else try_indices bs rest
  end.

(** [start, start - 1, ..., FACTORY_INDEX] and [start + 1, ..., app_count - 1]. *)
Definition backwards (start : Z) : list Z :=
  map (fun i => start - Z.of_nat i) (seq 0 (Z.to_nat (start + 2))).
Definition forwards (start count : Z) : list Z :=
  map (fun i => start + 1 + Z.of_nat i) (seq 0 (Z.to_nat (count - (start + 1)))).

(** The index that is booted, [None] for a reset, and the flash. *)
Definition bootloader_utility_load_boot_image (f : S) (bs : bootloader_state_t) (start_index : Z)
    (ota_has_initial_contents : bool) : option Z * S :=
  if start_index =? TEST_APP_INDEX then
    (if try_load_partition (test bs) then Some TEST_APP_INDEX else None, f)
  else
    match try_indices bs (backwards start_index ++ forwards start_index (app_count bs)) with
    | Some index => (Some index, set_actual_ota_seq f bs index ota_has_initial_contents)
    | None => (if try_load_partition (test bs) then Some TEST_APP_INDEX else None, f)
    end.

(** ** The newest valid entry is active *)

Lemma select_otadata_max e0 e1 v0 v1 :
  let i := bootloader_common_select_otadata (Some (e0, e1)) (Some (v0, v1)) true in
  (i = -1 /\ v0 = false /\ v1 = false) \/
  (i = 0 /\ v0 = true /\ (v1 = true -> ota_seq e1 <= ota_seq e0)) \/
  (i = 1 /\ v1 = true /\ (v0 = true -> ota_seq e0 < ota_seq e1)).
Proof.
  simpl. destruct v0, v1; simpl; [|right; left; done|right; right; done|left; done].
  destruct (Z.eqb_spec (Z.max (ota_seq e0) (ota_seq e1)) (ota_seq e0)); [right; left|right; right];
    split_and!; try done; intros _; lia.
Qed.

(** The active selection entry is the valid one with the larger sequence
    number, and there is none exactly when no entry is valid. *)
Theorem get_active_otadata_newest e0 e1 :
  let valid := bootloader_common_ota_select_valid in
  let i := bootloader_common_get_active_otadata (Some (e0, e1)) in
  (i = -1 <-> valid e0 = false /\ valid e1 = false) /\
  (i <> -1 -> valid (entry_of (e0, e1) i) = true /\
     forall j, j = 0 \/ j = 1 -> valid (entry_of (e0, e1) j) = true ->
       ota_seq (entry_of (e0, e1) j) <= ota_seq (entry_of (e0, e1) i)).
Proof.
  intros valid i. pose proof (select_otadata_max e0 e1 (valid e0) (valid e1)) as H. fold i in H.
  change (bootloader_common_select_otadata (Some (e0, e1)) (Some (valid e0, valid e1)) true) with i in H. clearbody i.
  destruct H as [(-> & H0 & H1)|[(-> & H0 & H1)|(-> & H0 & H1)]].
  - by split.
  - split; [split; [done|intros [? _]; congruence]|]. intros _. split; [done|].
    intros j [->| ->] Hj; [done|]. simpl in *. auto.
  - split; [split; [done|intros [_ ?]; congruence]|]. intros _. split; [done|].
    intros j [->| ->] Hj; [|done]. specialize (H1 Hj). change (ota_seq e0 <= ota_seq e1). lia.
Qed.

(** ** A bootable image is found *)

Definition bootable (bs : bootloader_state_t) (index : Z) : bool :=
  try_load_partition (index_to_partition bs index).

Lemma try_indices_spec bs l :
  match try_indices bs l with
  | Some i => exists l1 l2, l = l1 ++ i :: l2 /\ bootable bs i = true /\
                Forall (fun j => bootable bs j = false) l1
  | None => Forall (fun j => bootable bs j = false) l
  end.
Proof.
  induction l as [|i l IH]; simpl; [done|].
  assert (forall j, match try_indices bs l with
    | Some i => exists l1 l2, l = l1 ++ i :: l2 /\ bootable bs i = true /\ Forall (fun j => bootable bs j = false) l1
    | None => Forall (fun j => bootable bs j = false) l end -> bootable bs j = false ->
    match try_indices bs l with
    | Some i => exists l1 l2, j :: l = l1 ++ i :: l2 /\ bootable bs i = true /\ Forall (fun j => bootable bs j = false) l1
    | None => Forall (fun j => bootable bs j = false) (j :: l) end) as Hskip.
  { intros j H Hj. destruct (try_indices bs l); [|by constructor].
    destruct H as (l1 & l2 & -> & H1 & H2). exists (j :: l1), l2. split_and!; auto. }
  destruct (Z.eqb_spec (pos_len (index_to_partition bs i)) 0) as [E|E].
  - apply Hskip; [done|]. unfold bootable, try_load_partition. apply Z.eqb_eq in E. by rewrite E.
  - destruct (try_load_partition (index_to_partition bs i)) eqn:Et; [|by apply Hskip].
    by exists [], l.
Qed.

Lemma elem_backwards start j : j ∈ backwards start <-> FACTORY_INDEX <= j <= start.
Proof.
  unfold backwards, FACTORY_INDEX. rewrite list_elem_of_fmap. split.
  - intros (i & -> & Hi%elem_of_seq). lia.
  - intros Hj. exists (Z.to_nat (start - j)). split; [lia|]. apply elem_of_seq. lia.
Qed.

Lemma elem_forwards start count j : j ∈ forwards start count <-> start < j < count.
Proof.
  unfold forwards. rewrite list_elem_of_fmap. split.
  - intros (i & -> & Hi%elem_of_seq). lia.
  - intros Hj. exists (Z.to_nat (j - (start + 1))). split; [lia|]. apply elem_of_seq. lia.
Qed.

(** C37: started at the factory slot or an OTA slot, the bootloader boots that slot if
    its image loads; otherwise it finds some image that loads if there is one among the
    factory slot, the OTA slots and the test slot, and resets only if there is none. *)
Theorem load_boot_image_finds_bootable f bs start initial :
  FACTORY_INDEX <= start ->
  match fst (bootloader_utility_load_boot_image f bs start initial) with
  | Some i => bootable bs i = true /\
      (bootable bs start = true -> i = start)
  | None => bootable bs TEST_APP_INDEX = false /\
      forall j, FACTORY_INDEX <= j < app_count bs \/ j = start -> bootable bs j = false
  end.
Proof.
  intros Hs. unfold bootloader_utility_load_boot_image.
  destruct (Z.eqb_spec start TEST_APP_INDEX); [unfold FACTORY_INDEX, TEST_APP_INDEX in *; lia|].
  pose proof (try_indices_spec bs (backwards start ++ forwards start (app_count bs))) as H.
  destruct (try_indices _ _) as [i|]; simpl.
  - destruct H as (l1 & l2 & E & Hi & Hl1). split; [done|]. intros Hst.
    assert (exists l, backwards start = start :: l) as [l Hl].
    { unfold backwards, FACTORY_INDEX in *. destruct (Z.to_nat (start + 2)) eqn:En; [lia|].
      simpl. eexists. f_equal. lia. }
    rewrite Hl in E. destruct l1 as [|x l1]; simplify_eq; [done|]. inversion Hl1; subst. congruence.
  - assert (forall j, FACTORY_INDEX <= j < app_count bs \/ j = start -> bootable bs j = false) as Hall.
    { intros j Hj. rewrite Forall_forall in H. apply H. rewrite elem_of_app, elem_backwards, elem_forwards. lia. }
    change (try_load_partition (test bs)) with (bootable bs TEST_APP_INDEX).
    destruct (bootable bs TEST_APP_INDEX) eqn:E; [|done]. split; [done|].
    intros Hst. rewrite Hall in Hst by (by right). done.
Qed.

(** ** Rewriting a selection entry *)

Record entry_ok (e : esp_ota_select_entry_t) : Prop := {
  eo_seq : is_u32 (ota_seq e);
  eo_state : is_u32 (ota_state e);
  eo_crc : is_u32 (crc e);
  eo_label : length (seq_label e) = 20%nat /\ Forall is_byte (seq_label e) }.

Lemma length_entry_bytes e : entry_ok e -> length (entry_bytes e) = 32%nat.
Proof. intros [_ _ _ [Hl _]]. unfold entry_bytes. rewrite !length_app, Hl. done. Qed.

Lemma entry_bytes_bytes e : entry_ok e -> Forall is_byte (entry_bytes e).
Proof.
  intros [_ _ _ [_ Hl]]. unfold entry_bytes. rewrite !Forall_app. split_and!; try done; apply bytes32_bytes.
Qed.

Lemma length_bytes32 v : length (bytes32 v) = 4%nat.
Proof. done. Qed.

(** A memory that holds the bytes of an entry reads back as the entry. *)
Lemma read_entry_bytes m a e :
  entry_ok e -> (forall i, (i < 32)%nat -> m (a + Z.of_nat i) = nth i (entry_bytes e) 0) ->
  read_select_entry m a = e.
Proof.
  intros [H1 H2 H3 [Hl _]] Hm. destruct e as [sq lb stt c]. unfold read_select_entry, entry_bytes in *.
  cbn [ota_seq seq_label ota_state crc] in *.
  f_equal.
  - apply load32_bytes; [done|]. intros i Hi. rewrite Hm by lia. by rewrite app_nth1 by (simpl; lia).
  - apply load_bytes_nth; [lia|]. intros i Hi.
    replace (a + 4 + Z.of_nat i) with (a + Z.of_nat (4 + i)) by lia. rewrite Hm by lia.
    rewrite app_nth2, app_nth1 by (rewrite ?length_bytes32; lia). f_equal. rewrite length_bytes32. lia.
  - apply load32_bytes; [done|]. intros i Hi.
    replace (a + 24 + Z.of_nat i) with (a + Z.of_nat (24 + i)) by lia. rewrite Hm by lia.
    rewrite !app_nth2, app_nth1 by (rewrite ?length_bytes32; lia). f_equal. rewrite length_bytes32. lia.
  - apply load32_bytes; [done|]. intros i Hi.
    replace (a + 28 + Z.of_nat i) with (a + Z.of_nat (28 + i)) by lia. rewrite Hm by lia.
    rewrite !app_nth2 by (rewrite ?length_bytes32; lia). f_equal. rewrite !length_bytes32. lia.
Qed.

Lemma read_select_entry_ext m m' a :
  (forall i, 0 <= i < 32 -> m (a + i) = m' (a + i)) -> read_select_entry m a = read_select_entry m' a.
Proof.
  intros H. assert (agree m' m a (a + 32)) as Hag by (intros x Hx; replace x with (a + (x - a)) by lia; symmetry; apply H; lia).
  unfold read_select_entry. f_equal;
    first [apply load32_agree | apply load_bytes_agree]; eapply agree_sub; try exact Hag; lia.
Qed.

(** Erasing the sector at [a] and writing an entry there. *)
Lemma write_entry_spec {P : PlainFlash S} f e a f1 f2 err1 err2 :
  entry_ok e -> 
  esp_flash_erase_region f esp_flash_default_chip a SPI_FLASH_SEC_SIZE = (err1, f1) ->
  esp_flash_write f1 esp_flash_default_chip (entry_bytes e) a = (err2, f2) ->
  err1 = ESP_OK /\ err2 = ESP_OK /\ read_select_entry (flash_view f2) a = e /\
  (forall x, x < a \/ a + SPI_FLASH_SEC_SIZE <= x -> flash_view f2 x = flash_view f x).
Proof.
  intros He E1 E2. pose proof (length_entry_bytes e He) as Hlen.
  pose proof (erase_succeeds f a SPI_FLASH_SEC_SIZE) as O1. rewrite E1 in O1. simpl in O1. subst err1.
  pose proof (write_succeeds f1 (entry_bytes e) a) as O2. rewrite E2 in O2. simpl in O2. subst err2.
  split_and!; try done.
  - apply read_entry_bytes; [done|]. intros i Hi. rewrite view_plain.
    rewrite (write_clears _ _ _ _ _ _ E2) by (rewrite in_range_true, Hlen; lia).
    rewrite (erase_erases _ _ _ _ _ _ E1) by (rewrite in_range_true; unfold SPI_FLASH_SEC_SIZE; lia).
    replace (Z.to_nat (a + Z.of_nat i - a)) with i by lia. apply land_255.
    pose proof (entry_bytes_bytes e He) as Hb. rewrite Forall_nth in Hb. apply Hb. lia.
  - intros x Hx. rewrite !view_plain.
    rewrite (write_frame _ _ _ _ _ _ _ _ E2) by (right; rewrite in_range_false, Hlen; unfold SPI_FLASH_SEC_SIZE in *; lia).
    apply (erase_frame _ _ _ _ _ _ _ _ E1). right. by rewrite in_range_false.
Qed.

(** ** Boot selection as a state machine on the two entries *)

(** The flash holds these two entries in the selection partition. *)
Definition holds (f : S) (bs : bootloader_state_t) (two : otadata) : Prop :=
  read_select_entry (flash_view f) (offset (ota_info bs)) = two.1 /\
  read_select_entry (flash_view f) (offset (ota_info bs) + SPI_FLASH_SEC_SIZE) = two.2 /\
  entry_ok two.1 /\ entry_ok two.2.

Definition otadata_partition_ok (bs : bootloader_state_t) : Prop :=
  0 < offset (ota_info bs) /\ offset (ota_info bs) mod SPI_FLASH_SEC_SIZE = 0 /\
  2 * SPI_FLASH_SEC_SIZE <= pos_len (ota_info bs) /\
  offset (ota_info bs) + pos_len (ota_info bs) < 4294967296.

Definition abort_if_pending (e : esp_ota_select_entry_t) : esp_ota_select_entry_t :=
  if rollback && (ota_state e =? ESP_OTA_IMG_PENDING_VERIFY) then set_ota_state ESP_OTA_IMG_ABORTED e else e.

Definition slot_of (bs : bootloader_state_t) (e : esp_ota_select_entry_t) : Z :=
  u32 (ota_seq e - 1) mod app_count bs.

(** The slot selected, and the entries left behind. *)
Definition boot_step (bs : bootloader_state_t) (two : otadata) : Z * otadata :=
  let two : otadata := (abort_if_pending two.1, abort_if_pending two.2) in
  if (bootloader_common_ota_select_invalid two.1 && bootloader_common_ota_select_invalid two.2) ||
     (app_count bs =? 0) then (if negb (offset (factory bs) =? 0) then FACTORY_INDEX else 0, two)
  else
    let active := bootloader_common_get_active_otadata (Some two) in
    if negb (active =? -1) then
      (slot_of bs (entry_of two active),
       if rollback && (ota_state (entry_of two active) =? ESP_OTA_IMG_NEW)
       then upd_entry two active (set_ota_state ESP_OTA_IMG_PENDING_VERIFY) else two)
    else (FACTORY_INDEX, two).

Section plain.
Arguments bootloader_common_get_active_otadata : simpl never.
Context {P : PlainFlash S}.
Hypothesis no_encryption : esp_flash_encryption_enabled = false.

Lemma set_ota_state_ok e s : entry_ok e -> is_u32 s -> entry_ok (set_ota_state s e).
Proof. intros [H1 H2 H3 H4] Hs. by split. Qed.

Lemma write_otadata_holds f bs two i e :
  otadata_partition_ok bs -> holds f bs two -> entry_ok e -> i = 0 \/ i = 1 ->
  holds (snd (write_otadata f e (offset (ota_info bs) + SPI_FLASH_SEC_SIZE * i) false)) bs
    (upd_entry two i (fun _ => e)).
Proof using P.
  clear md5 bootloader_load_image.
  intros (Ho & Hal & Hlen & Hb) (H0 & H1 & K0 & K1) He Hi. unfold write_otadata, bootloader_flash_erase_sector, bootloader_flash_write.
  set (o := offset (ota_info bs)) in *. set (a := o + SPI_FLASH_SEC_SIZE * i).
  assert (a / SPI_FLASH_SEC_SIZE * SPI_FLASH_SEC_SIZE = a) as Ea.
  { unfold a, SPI_FLASH_SEC_SIZE in *. clear -Hal Hi. Z.div_mod_to_equations. lia. }
  rewrite Ea, u32_small by (unfold a, SPI_FLASH_SEC_SIZE in *; destruct Hi as [->| ->]; lia).
  destruct (esp_flash_erase_region _ _ _ _) as [err1 f1] eqn:E1.
  destruct (esp_flash_write f1 esp_flash_default_chip (entry_bytes e) a) as [err2 f2] eqn:E2.
  destruct (write_entry_spec f e a f1 f2 err1 err2 He E1 E2) as (-> & -> & Hread & Hframe).
  change (ESP_OK =? ESP_OK) with true. cbv iota. unfold snd, holds. fold o.
  assert (forall b, b = o \/ b = o + SPI_FLASH_SEC_SIZE -> a <> b ->
    read_select_entry (flash_view f2) b = read_select_entry (flash_view f) b) as Hother.
  { intros b Hb' Hne. apply read_select_entry_ext. intros k Hk. apply Hframe.
    unfold a, SPI_FLASH_SEC_SIZE in *. destruct Hi as [->| ->], Hb' as [->| ->]; lia. }
  destruct Hi as [->| ->]; unfold upd_entry, a in *; simpl.
  - rewrite Z.add_0_r in *. rewrite Hread, Hother by (try (by right); unfold SPI_FLASH_SEC_SIZE; lia). done.
  - rewrite Z.mul_1_r in *. rewrite Hread, Hother by (try (by left); unfold SPI_FLASH_SEC_SIZE; lia). done.
Qed.

Lemma abort_pending_holds f bs two i :
  otadata_partition_ok bs -> holds f bs two -> i = 0 \/ i = 1 ->
  exists f', abort_pending f bs two i = (upd_entry two i abort_if_pending, f') /\
    holds f' bs (upd_entry two i abort_if_pending).
Proof using P no_encryption.
  intros Hp Hh Hi. unfold abort_pending, abort_if_pending. rewrite no_encryption.
  pose proof (write_otadata_holds f bs two i (set_ota_state ESP_OTA_IMG_ABORTED (entry_of two i)) Hp Hh) as Hw.
  destruct Hh as (H0 & H1 & K0 & K1). destruct two as [e0 e1]. unfold holds, entry_of, upd_entry in *.
  destruct Hi as [->| ->]; simpl in *; destruct (rollback && _) eqn:E.
  - destruct (write_otadata _ _ _ _) as [err f'] eqn:Ew. exists f'. split; [done|]. apply Hw; [|by left].
    by apply set_ota_state_ok.
  - by exists f.
  - destruct (write_otadata _ _ _ _) as [err f'] eqn:Ew. exists f'. split; [done|]. apply Hw; [|by right].
    by apply set_ota_state_ok.
  - by exists f.
Qed.

(** The bootloader's selection on flash refines the state machine. *)
Lemma get_selected_refines f bs two :
  otadata_partition_ok bs -> holds f bs two ->
  exists f' initial, bootloader_utility_get_selected_boot_partition f bs =
      (fst (boot_step bs two), f', initial) /\ holds f' bs (snd (boot_step bs two)).
Proof using P no_encryption.
  intros Hp Hh. pose proof Hp as (Ho & Hal & Hlen & Hb). pose proof Hh as (H0 & H1 & _ & _).
  unfold bootloader_utility_get_selected_boot_partition, bootloader_common_read_otadata, bootloader_mmap.
  destruct (Z.eqb_spec (offset (ota_info bs)) 0); [lia|].
  destruct (Z.ltb_spec (pos_len (ota_info bs)) (2 * SPI_FLASH_SEC_SIZE)); [lia|].
  rewrite mmap_succeeds. simpl. rewrite H0, H1, <- surjective_pairing.
  destruct (abort_pending_holds f bs two 0 Hp Hh) as (f1 & -> & Hh1); [by left|].
  destruct (abort_pending_holds f1 bs _ 1 Hp Hh1) as (f2 & -> & Hh2); [by right|].
  set (t := upd_entry (upd_entry two 0 abort_if_pending) 1 abort_if_pending) in *.
  unfold boot_step. change (abort_if_pending two.1, abort_if_pending two.2) with t. cbv zeta.
  destruct (_ || _).
  { destruct (negb _); by eexists _, _. }
  destruct (bootloader_common_get_active_otadata (@Some otadata t) =? -1) eqn:Eact; cbn [negb].
  { by eexists _, _. }
  apply Z.eqb_neq in Eact.
  pose proof (select_otadata_max t.1 t.2 (bootloader_common_ota_select_valid t.1) (bootloader_common_ota_select_valid t.2)) as Hs.
  set (active := bootloader_common_get_active_otadata (@Some otadata t)) in *.
  change (bootloader_common_select_otadata _ _ true) with active in Hs.
  assert (active = 0 \/ active = 1) as Ha by (destruct Hs as [(? & _)|[(? & _)|(? & _)]]; auto; done).
  clearbody active. destruct (rollback && _); [|by eexists _, _].
  rewrite no_encryption.
  pose proof (write_otadata_holds f2 bs t active (set_ota_state ESP_OTA_IMG_PENDING_VERIFY (entry_of t active)) Hp Hh2) as Hw.
  assert (entry_of (upd_entry t active (set_ota_state ESP_OTA_IMG_PENDING_VERIFY)) active =
          set_ota_state ESP_OTA_IMG_PENDING_VERIFY (entry_of t active)) as Ee.
  { unfold entry_of, upd_entry. by destruct Ha as [->| ->]. }
  rewrite Ee. destruct (write_otadata _ _ _ _) as [err f3]. eexists _, _. split; [done|]. simpl.
  assert (upd_entry t active (set_ota_state ESP_OTA_IMG_PENDING_VERIFY) =
          upd_entry t active (fun _ => set_ota_state ESP_OTA_IMG_PENDING_VERIFY (entry_of t active))) as ->.
  { unfold entry_of, upd_entry. by destruct Ha as [->| ->]. }
  apply Hw; [|done]. apply set_ota_state_ok; [|done].
  destruct Hh2 as (_ & _ & ? & ?). unfold entry_of. by destruct (active =? 0).
Qed.

(** C28: with rollback enabled and flash not encrypted, an update gets one boot to
    confirm itself: the first boot selects the new image and marks it pending; if it
    has not been confirmed by the next boot, that one selects the previous image again
    (which itself is not awaiting confirmation). *)
Theorem unconfirmed_update_rolled_back f bs two i :
  rollback = true -> 0 < app_count bs ->
  otadata_partition_ok bs -> holds f bs two -> i = 0 \/ i = 1 ->
  let new := entry_of two i in
  let old := entry_of two (1 - i) in
  bootloader_common_ota_select_valid new = true -> ota_state new = ESP_OTA_IMG_NEW ->
  bootloader_common_ota_select_valid old = true -> ota_state old <> ESP_OTA_IMG_PENDING_VERIFY ->
  ota_seq old < ota_seq new ->
  exists f1 f2 initial1 initial2,
    bootloader_utility_get_selected_boot_partition f bs = (slot_of bs new, f1, initial1) /\
    bootloader_utility_get_selected_boot_partition f1 bs = (slot_of bs old, f2, initial2).
Proof using P no_encryption.
  intros Hrb Hcnt Hp Hh Hi new old Hvn Hsn Hvo Hso Hseq.
  destruct (get_selected_refines f bs two Hp Hh) as (f1 & in1 & E1 & Hh1).
  destruct (get_selected_refines f1 bs _ Hp Hh1) as (f2 & in2 & E2 & _).
  exists f1, f2, in1, in2. rewrite E1, E2. clear E1 E2 Hh1 Hh.
  assert (forall e, bootloader_common_ota_select_valid e = true -> bootloader_common_ota_select_invalid e = false) as Hiv.
  { intros e He. unfold bootloader_common_ota_select_valid in He. by destruct (bootloader_common_ota_select_invalid e). }
  assert (app_count bs =? 0 = false) as Hz by (apply Z.eqb_neq; lia).
  assert (abort_if_pending new = new) as An.
  { unfold abort_if_pending. by rewrite Hsn, andb_false_r. }
  assert (abort_if_pending old = old) as Ao.
  { unfold abort_if_pending. apply Z.eqb_neq in Hso. by rewrite Hso, andb_false_r. }
  set (pend := set_ota_state ESP_OTA_IMG_PENDING_VERIFY new).
  set (abt := set_ota_state ESP_OTA_IMG_ABORTED pend).
  assert (abort_if_pending pend = abt) as Ap by (unfold abort_if_pending; by rewrite Hrb).
  assert (bootloader_common_ota_select_valid abt = false) as Hva.
  { unfold bootloader_common_ota_select_valid, bootloader_common_ota_select_invalid. simpl. by rewrite orb_true_r. }
  assert (rollback && (ota_state old =? ESP_OTA_IMG_NEW) = true \/
          rollback && (ota_state old =? ESP_OTA_IMG_NEW) = false) as Hst by (destruct (rollback && _); auto).
  assert (bootloader_common_ota_select_invalid new = false) as Hn by auto.
  assert (bootloader_common_ota_select_invalid old = false) as Hoi by auto.
  destruct two as [e0 e1]. destruct Hi as [->| ->]; unfold new, old, entry_of in *; simpl in *.
  - assert (boot_step bs (e0, e1) = (slot_of bs e0, (pend, e1))) as ->.
    { unfold boot_step. simpl. rewrite An, Ao, Hn, Hz. simpl.
      unfold bootloader_common_get_active_otadata, bootloader_common_select_otadata. rewrite Hvn, Hvo. simpl.
      rewrite Z.max_l, Z.eqb_refl by lia. simpl.
      change (entry_of (e0, e1) 0) with e0. by rewrite Hrb, Hsn. }
    simpl. split; [done|]. unfold boot_step. simpl. rewrite Ap, Ao, Hoi, Hz, andb_false_r. simpl.
    unfold bootloader_common_get_active_otadata, bootloader_common_select_otadata. by rewrite Hva, Hvo.
  - assert (boot_step bs (e0, e1) = (slot_of bs e1, (e0, pend))) as ->.
    { unfold boot_step. simpl. rewrite An, Ao, Hn, Hz, andb_false_r. simpl.
      unfold bootloader_common_get_active_otadata, bootloader_common_select_otadata. rewrite Hvn, Hvo. simpl.
      rewrite Z.max_r by lia. destruct (Z.eqb_spec (ota_seq e1) (ota_seq e0)); [lia|]. simpl.
      change (entry_of (e0, e1) 1) with e1. by rewrite Hrb, Hsn. }
    simpl. split; [done|]. unfold boot_step. simpl. rewrite Ap, Ao, Hoi, Hz. simpl.
    unfold bootloader_common_get_active_otadata, bootloader_common_select_otadata. by rewrite Hva, Hvo.
Qed.

End plain.
End bootloader.

(** ** Witnesses: two slots, the second one freshly updated *)

Definition demo_crc : list Z -> Z := fun _ => 7.
Definition demo_old_entry : esp_ota_select_entry_t := mkEntry 1 (repeat 255 20) ESP_OTA_IMG_VALID 7.
Definition demo_new_entry : esp_ota_select_entry_t := mkEntry 2 (repeat 255 20) ESP_OTA_IMG_NEW 7.

Definition demo_boot_flash : nor_flash := mkNor (fun x =>
  if in_range 4096 32 x then nth (Z.to_nat (x - 4096)) (entry_bytes demo_old_entry) 255
  else if in_range 8192 32 x then nth (Z.to_nat (x - 8192)) (entry_bytes demo_new_entry) 255
  else 255).

Definition demo_bs : bootloader_state_t :=
  mkBs (mkPos 4096 8192) no_pos no_pos
    (mkPos 65536 65536 :: mkPos 131072 65536 :: repeat no_pos 14) 2.

Lemma demo_boot_holds : holds demo_boot_flash demo_bs (demo_old_entry, demo_new_entry).
Proof.
  split_and!; [by vm_compute|by vm_compute|..];
    (split; [by vm_compute|by vm_compute|by vm_compute|split; [done|repeat constructor; by vm_compute]]).
Qed.

Lemma load_boot_image_finds_bootable_witness :
  match fst (bootloader_utility_load_boot_image demo_crc false (fun p => offset p =? 65536) demo_boot_flash demo_bs 1 false) with
  | Some i => bootable (fun p => offset p =? 65536) demo_bs i = true /\
      (bootable (fun p => offset p =? 65536) demo_bs 1 = true -> i = 1)
  | None => bootable (fun p => offset p =? 65536) demo_bs TEST_APP_INDEX = false /\
      forall j, FACTORY_INDEX <= j < app_count demo_bs \/ j = 1 -> bootable (fun p => offset p =? 65536) demo_bs j = false
  end.
Proof.
  apply (load_boot_image_finds_bootable demo_crc false (fun p => offset p =? 65536) demo_boot_flash demo_bs 1 false).
  by vm_compute.
Defined.

Lemma unconfirmed_update_rolled_back_witness :
  exists f1 f2 initial1 initial2,
    bootloader_utility_get_selected_boot_partition demo_crc false true demo_boot_flash demo_bs = (1, f1, initial1) /\
    bootloader_utility_get_selected_boot_partition demo_crc false true f1 demo_bs = (0, f2, initial2).
Proof.
  apply (unconfirmed_update_rolled_back demo_crc false true eq_refl demo_boot_flash demo_bs
           (demo_old_entry, demo_new_entry) 1); try done.
  - exact demo_boot_holds.
  - by right.
Defined.
