(* ===== verification/Ota.v ===== *)
(** * Over-the-air updates (app_update/esp_ota_ops.c)

    Writing an image to a partition and switching the boot partition, over the
    partition API and the selection entries, without anti-rollback and secure
    boot key revocation.

    The partition table is loaded (Partition.v), so searches are over its list;
    a [const esp_partition_t*] into the table is the list item.  Parameters:
    the ROM's CRC and MD5, the image verifier, the flash offset the code runs
    from, and the configuration. *)

From stdpp Require Import base list option gmap.
From Stdlib Require Import ZArith Lia.
From S2P Require Import Prelude Flash Partition Bootloader.

Definition ESP_ERR_OTA_PARTITION_CONFLICT : esp_err_t := 0x1501.
Definition ESP_ERR_OTA_VALIDATE_FAILED : esp_err_t := 0x1503.
Definition ESP_ERR_OTA_ROLLBACK_FAILED : esp_err_t := 0x1505.
Definition ESP_ERR_OTA_ROLLBACK_INVALID_STATE : esp_err_t := 0x1506.
Definition OTA_SIZE_UNKNOWN : Z := 0xffffffff.
Definition OTA_WITH_SEQUENTIAL_WRITES : Z := 0xfffffffe.
Definition ESP_IMAGE_HEADER_MAGIC : Z := 0xE9.

Definition OTA_SLOT (i : Z) : Z := Z.land i 0x0F.

Record ota_ops_entry_t := mkOps {
  handle : Z;
  staging : partition_list_item_t;
  final : partition_list_item_t;
  finalize_with_copy : bool;
  need_erase : bool;
  wrote_size : Z;
  partial_bytes : Z;
  ota_resumption : bool;
  partial_data : list Z }.

(** Updates of an operation's fields. *)
Definition ops_with_final (e : ota_ops_entry_t) (p : partition_list_item_t) (copy : bool) : ota_ops_entry_t :=
  mkOps (handle e) (staging e) p copy (need_erase e) (wrote_size e) (partial_bytes e) (ota_resumption e) (partial_data e).
Definition ops_with_wrote (e : ota_ops_entry_t) (n : Z) : ota_ops_entry_t :=
  mkOps (handle e) (staging e) (final e) (finalize_with_copy e) (need_erase e) n (partial_bytes e) (ota_resumption e) (partial_data e).
Definition ops_with_partial (e : ota_ops_entry_t) (n : Z) (d : list Z) : ota_ops_entry_t :=
  mkOps (handle e) (staging e) (final e) (finalize_with_copy e) (need_erase e) (wrote_size e) n (ota_resumption e) d.
Definition ops_with_erase (e : ota_ops_entry_t) (b : bool) : ota_ops_entry_t :=
  mkOps (handle e) (staging e) (final e) (finalize_with_copy e) b (wrote_size e) (partial_bytes e) (ota_resumption e) (partial_data e).
Definition ops_resumed (e : ota_ops_entry_t) (n : Z) : ota_ops_entry_t :=
  mkOps (handle e) (staging e) (final e) (finalize_with_copy e) (need_erase e) n (partial_bytes e) true (partial_data e).

Section ota.
Context {S : Type} {D : FlashDriver S}.
Context (esp_rom_crc32_le : list Z -> Z) (md5 : list Z -> list Z).
Context (esp_flash_encryption_enabled rollback : bool) (chip_size : Z).
Context (image_verify : S -> Z -> Z -> bool).      (* esp_image_verify: flash, offset, size *)
Context (phys_offs : Z).                           (* spi_flash_cache2phys of the running code *)
Context (ESP_PRIMARY_BOOTLOADER_OFFSET : Z).

Record ota_state_t := mkOta {
  os_flash : S;
  os_table : list partition_list_item_t;           (* s_partition_list *)
  s_ota_ops_entries : list ota_ops_entry_t;
  s_ota_ops_last_handle : Z;
  bootloader_offset : Z;                           (* esp_image_bootloader_offset_set *)
  dangerous_write_protection : bool }.

Definition with_flash (st : ota_state_t) (f : S) : ota_state_t :=
  mkOta f (os_table st) (s_ota_ops_entries st) (s_ota_ops_last_handle st) (bootloader_offset st)
    (dangerous_write_protection st).
Definition with_entries (st : ota_state_t) (l : list ota_ops_entry_t) : ota_state_t :=
  mkOta (os_flash st) (os_table st) l (s_ota_ops_last_handle st) (bootloader_offset st)
    (dangerous_write_protection st).
Definition with_handle (st : ota_state_t) (h : Z) : ota_state_t :=
  mkOta (os_flash st) (os_table st) (s_ota_ops_entries st) h (bootloader_offset st)
    (dangerous_write_protection st).
Definition with_bootloader_offset (st : ota_state_t) (o : Z) : ota_state_t :=
  mkOta (os_flash st) (os_table st) (s_ota_ops_entries st) (s_ota_ops_last_handle st) o
    (dangerous_write_protection st).
Definition with_protection (st : ota_state_t) (b : bool) : ota_state_t :=
  mkOta (os_flash st) (os_table st) (s_ota_ops_entries st) (s_ota_ops_last_handle st) (bootloader_offset st) b.

(** ** Reading the selection entries *)

Definition is_ota_partition (p : esp_partition_t) : bool :=
  (type p =? ESP_PARTITION_TYPE_APP) && (ESP_PARTITION_SUBTYPE_APP_OTA_0 <=? subtype p) &&
  (subtype p <? ESP_PARTITION_SUBTYPE_APP_OTA_MAX).

Definition find_app (st : ota_state_t) (sub : Z) : option partition_list_item_t :=
  find_first_in (os_table st) ESP_PARTITION_TYPE_APP sub None.

Definition find_otadata (st : ota_state_t) : option partition_list_item_t :=
  find_first_in (os_table st) ESP_PARTITION_TYPE_DATA ESP_PARTITION_SUBTYPE_DATA_OTA None.

Definition read_otadata (st : ota_state_t) : option (otadata * partition_list_item_t) :=
  let! p := find_otadata st in
  let i := info p in
  if negb (esp_partition_mmap (os_flash st) i 0 (size i) =? ESP_OK) then None
  else Some ((read_select_entry (flash_view (os_flash st)) (address i),
              read_select_entry (flash_view (os_flash st)) (address i + erase_size i)), p).

Definition image_validate (st : ota_state_t) (p : esp_partition_t) : esp_err_t :=
  if image_verify (os_flash st) (address p) (size p) then ESP_OK else ESP_ERR_OTA_VALIDATE_FAILED.

Definition set_new_state_otadata : Z := if rollback then ESP_OTA_IMG_NEW else ESP_OTA_IMG_UNDEFINED.

(** The count of consecutive OTA slots; [None] is the failed assertion. *)
Fixpoint count_apps (fuel : nat) (st : ota_state_t) (ota_app_count : Z) : option Z :=
  match find_app st (ESP_PARTITION_SUBTYPE_APP_OTA_MIN + ota_app_count) with
  | None => Some (u8 ota_app_count)
  | Some _ =>
      match fuel with
      | O => None
      | Datatypes.S fuel =>
          assert! ota_app_count <? 16;
          count_apps fuel st (ota_app_count + 1)
      end
  end.

Definition esp_ota_get_app_partition_count (st : ota_state_t) : option Z := count_apps 17 st 0.

(** The app partition that contains the running code; the code keeps the answer
    in a static variable, which changes nothing while the table stays loaded. *)
Fixpoint find_running (fuel : nat) (it : option esp_partition_iterator_t) : option partition_list_item_t :=
  match it, fuel with
  | Some it', Datatypes.S fuel =>
      let! p := esp_partition_get it' in
      if (address (info p) <=? phys_offs) && (phys_offs <? u32 (address (info p) + size (info p))) then Some p
      else find_running fuel (esp_partition_next it')
  | _, _ => None
  end.

Definition esp_ota_get_running_partition (st : ota_state_t) : option partition_list_item_t :=
  find_running (Datatypes.S (length (os_table st)))
    (find_in (os_table st) ESP_PARTITION_TYPE_APP ESP_PARTITION_SUBTYPE_ANY None).

Definition same_ptr (p q : partition_list_item_t) : bool := item_ptr p =? item_ptr q.

(** ** Switching the boot partition *)

Definition rewrite_ota_seq (f : S) (two_otadata : option otadata) (sq sec_id : Z)
    (ota_data_partition : esp_partition_t) : esp_err_t * S :=
  match two_otadata with
  | None => (ESP_ERR_INVALID_ARG, f)
  | Some two =>
      if 1 <? sec_id then (ESP_ERR_INVALID_ARG, f)
      else
        let e := entry_of two sec_id in
        let e := set_seq_crc sq (esp_rom_crc32_le (bytes32 sq)) e in
        let off := u32 (sec_id * erase_size ota_data_partition) in
        let (ret, f) := esp_partition_erase_range f ota_data_partition off (erase_size ota_data_partition) in
        if negb (ret =? ESP_OK) then (ret, f)
        else esp_partition_write f ota_data_partition off (entry_bytes e)
  end.

(** The least [base + i * ota_app_count] not below [current_seq]. *)
Fixpoint seq_search (fuel : nat) (current_seq base ota_app_count i : Z) : option Z :=
  let new_seq := u32 (base + u32 (i * ota_app_count)) in
  if new_seq <? current_seq then
    match fuel with
    | O => None
    | Datatypes.S fuel => seq_search fuel current_seq base ota_app_count (u32 (i + 1))
    end
  else Some new_seq.

Definition compute_ota_seq_for_target_slot (current_seq ota_slot_idx ota_app_count : Z) : option Z :=
  if ota_app_count =? 0 then Some 0
  else
    let base := u32 (ota_slot_idx + 1) mod ota_app_count in
    seq_search (Z.to_nat (current_seq / ota_app_count + 1)) current_seq base ota_app_count 0.

Definition esp_rewrite_ota_data (st : ota_state_t) (sub : Z) : option (esp_err_t * ota_state_t) :=
  match read_otadata st with
  | None => Some (ESP_ERR_NOT_FOUND, st)
  | Some (two, p) =>
      let! ota_app_count := esp_ota_get_app_partition_count st in
      if ota_app_count <=? OTA_SLOT sub then Some (ESP_ERR_INVALID_ARG, st)
      else
        let active_otadata := bootloader_common_get_active_otadata esp_rom_crc32_le (Some two) in
        let! (next_otadata, new_seq) :=
          (if negb (active_otadata =? -1) then
             let sq := ota_seq (entry_of two active_otadata) in
             let ota_slot := u32 (sq - 1) mod ota_app_count in
             if ota_slot =? OTA_SLOT sub then Some (active_otadata, sq)
             else let! new_seq := compute_ota_seq_for_target_slot sq (OTA_SLOT sub) ota_app_count in
                  Some (1 - active_otadata, new_seq)
           else Some (0, OTA_SLOT sub + 1)) in
        let two := upd_entry two next_otadata (set_ota_state set_new_state_otadata) in
        let (err, f) := rewrite_ota_seq (os_flash st) (Some two) new_seq next_otadata (info p) in
        Some (err, with_flash st f)
  end.

Definition esp_ota_set_boot_partition (st : ota_state_t) (partition : option esp_partition_t) :
    option (esp_err_t * ota_state_t) :=
  match partition with
  | None => Some (ESP_ERR_INVALID_ARG, st)
  | Some p =>
      if negb (image_validate st p =? ESP_OK) then Some (ESP_ERR_OTA_VALIDATE_FAILED, st)
      else if type p =? ESP_PARTITION_TYPE_APP then
        if subtype p =? ESP_PARTITION_SUBTYPE_APP_FACTORY then
          match find_otadata st with
          | Some d => let (err, f) := esp_partition_erase_range (os_flash st) (info d) 0 (size (info d)) in
                      Some (err, with_flash st f)
          | None => Some (ESP_ERR_NOT_FOUND, st)
          end
        else esp_rewrite_ota_data st (subtype p)
      else Some (ESP_ERR_INVALID_ARG, st)
  end.

(** The first OTA slot that exists, from subtype [s] on. *)
Fixpoint first_ota (n : nat) (st : ota_state_t) (s : Z) : option partition_list_item_t :=
  match n with
  | O => None
  | Datatypes.S n => match find_app st s with Some p => Some p | None => first_ota n st (s + 1) end
  end.

Definition find_default_boot_partition (st : ota_state_t) : option partition_list_item_t :=
  match find_app st ESP_PARTITION_SUBTYPE_APP_FACTORY with
  | Some p => Some p
  | None =>
      match first_ota 16 st ESP_PARTITION_SUBTYPE_APP_OTA_MIN with
      | Some p => Some p
      | None => find_app st ESP_PARTITION_SUBTYPE_APP_TEST
      end
  end.

(** The outer [option] is a failed assertion, the inner one the pointer. *)
Definition esp_ota_get_boot_partition (st : ota_state_t) : option (option partition_list_item_t) :=
  match read_otadata st with
  | None => Some None
  | Some (two, _) =>
      let! ota_app_count := esp_ota_get_app_partition_count st in
      if (bootloader_common_ota_select_invalid two.1 && bootloader_common_ota_select_invalid two.2) ||
         (ota_app_count =? 0) then Some (find_default_boot_partition st)
      else
        let active_otadata := bootloader_common_get_active_otadata esp_rom_crc32_le (Some two) in
        if negb (active_otadata =? -1) then
          let ota_slot := u32 (ota_seq (entry_of two active_otadata) - 1) mod ota_app_count in
          Some (find_app st (ESP_PARTITION_SUBTYPE_APP_OTA_MIN + ota_slot))
        else Some (find_default_boot_partition st)
  end.

(** The walk over the OTA subtypes of [esp_ota_get_next_update_partition]. *)
Fixpoint next_update_from (n : nat) (st : ota_state_t) (t : Z) (start_from : partition_list_item_t)
    (default_ota : option partition_list_item_t) (next_is_result : bool) : option partition_list_item_t :=
  match n with
  | O => default_ota
  | Datatypes.S n =>
      match find_app st t with
      | None => next_update_from n st (t + 1) start_from default_ota next_is_result
      | Some p =>
          let default_ota := match default_ota with None => Some p | d => d end in
          if same_ptr p start_from then next_update_from n st (t + 1) start_from default_ota true
          else if next_is_result then Some p
          else next_update_from n st (t + 1) start_from default_ota next_is_result
      end
  end.

Definition esp_ota_get_next_update_partition (st : ota_state_t) (start_from : option esp_partition_t) :
    option (option partition_list_item_t) :=
  let! start := match start_from with
                | None => esp_ota_get_running_partition st
                | Some p => verify_in (os_table st) p
                end in
  Some (next_update_from 16 st ESP_PARTITION_SUBTYPE_APP_OTA_0 start None false).

(** ** Rollback and state *)

Definition esp_ota_check_rollback_is_possible (st : ota_state_t) : option bool :=
  match read_otadata st with
  | None => Some false
  | Some (two, _) =>
      let! ota_app_count := esp_ota_get_app_partition_count st in
      if ota_app_count =? 0 then Some false
      else
        let valid := bootloader_common_ota_select_valid esp_rom_crc32_le in
        let active_ota := bootloader_common_select_otadata (Some two) (Some (valid two.1, valid two.2)) true in
        if active_ota =? -1 then Some false
        else
          let last := entry_of two (1 - active_ota) in
          let validated p := match p with
                             | Some p => image_validate st (info p) =? ESP_OK
                             | None => false end in
          if negb (valid last) && validated (find_app st ESP_PARTITION_SUBTYPE_APP_FACTORY) then Some true
          else if valid last then
            let slot := u32 (ota_seq last - 1) mod ota_app_count in
            Some (validated (find_app st (ESP_PARTITION_SUBTYPE_APP_OTA_MIN + slot)))
          else Some false
  end.

Definition esp_ota_current_ota_is_workable (st : ota_state_t) (valid : bool) : option (esp_err_t * ota_state_t) :=
  match read_otadata st with
  | None => Some (ESP_ERR_NOT_FOUND, st)
  | Some (two, p) =>
      let active := bootloader_common_get_active_otadata esp_rom_crc32_le (Some two) in
      let! count := (if active =? -1 then Some 0 else esp_ota_get_app_partition_count st) in
      if negb (active =? -1) && negb (count =? 0) then
        let e := entry_of two active in
        if valid && negb (ota_state e =? ESP_OTA_IMG_VALID) then
          let two := upd_entry two active (set_ota_state ESP_OTA_IMG_VALID) in
          let (err, f) := rewrite_ota_seq (os_flash st) (Some two) (ota_seq e) active (info p) in
          Some (err, with_flash st f)
        else if negb valid then
          let! possible := esp_ota_check_rollback_is_possible st in
          if negb possible then Some (ESP_ERR_OTA_ROLLBACK_FAILED, st)
          else
            let two := upd_entry two active (set_ota_state ESP_OTA_IMG_INVALID) in
            let (err, f) := rewrite_ota_seq (os_flash st) (Some two) (ota_seq e) active (info p) in
            Some (err, with_flash st f)
        else Some (ESP_OK, st)
      else Some (ESP_FAIL, st)
  end.

Definition esp_ota_mark_app_valid_cancel_rollback (st : ota_state_t) := esp_ota_current_ota_is_workable st true.
Definition esp_ota_mark_app_invalid_rollback (st : ota_state_t) := esp_ota_current_ota_is_workable st false.

(** Error, state, and whether the chip restarts. *)
Definition esp_ota_mark_app_invalid_rollback_and_reboot (st : ota_state_t) : option (esp_err_t * ota_state_t * bool) :=
  let! (ret, st) := esp_ota_mark_app_invalid_rollback st in Some (ret, st, ret =? ESP_OK).

Definition check_invalid_otadata (s : esp_ota_select_entry_t) : bool :=
  negb (ota_seq s =? UINT32_MAX) && (crc s =? bootloader_common_ota_select_crc esp_rom_crc32_le s) &&
  ((ota_state s =? ESP_OTA_IMG_INVALID) || (ota_state s =? ESP_OTA_IMG_ABORTED)).

Definition get_last_invalid_otadata (two : otadata) : Z :=
  bootloader_common_select_otadata (Some two)
    (Some (check_invalid_otadata two.1, check_invalid_otadata two.2)) false.

Definition esp_ota_get_last_invalid_partition (st : ota_state_t) : option (option partition_list_item_t) :=
  match read_otadata st with
  | None => Some None
  | Some (two, _) =>
      let invalid_otadata := get_last_invalid_otadata two in
      let! ota_app_count := esp_ota_get_app_partition_count st in
      if negb (invalid_otadata =? -1) && negb (ota_app_count =? 0) then
        let ota_slot := u32 (ota_seq (entry_of two invalid_otadata) - 1) mod ota_app_count in
        match find_app st (ESP_PARTITION_SUBTYPE_APP_OTA_MIN + ota_slot) with
        | Some p => Some (if negb (image_validate st (info p) =? ESP_OK) then None else Some p)
        | None => Some None
        end
      else Some None
  end.

(** Error code and the state stored. *)
Definition esp_ota_get_state_partition (st : ota_state_t) (p : esp_partition_t) : option (esp_err_t * option Z) :=
  if negb (is_ota_partition p) then Some (ESP_ERR_NOT_SUPPORTED, None)
  else
    let! ota_app_count := esp_ota_get_app_partition_count st in
    match read_otadata st with
    | None => Some (ESP_ERR_NOT_FOUND, None)
    | Some (two, _) =>
        if ota_app_count =? 0 then Some (ESP_ERR_NOT_FOUND, None)
        else
          let req_ota_slot := subtype p - ESP_PARTITION_SUBTYPE_APP_OTA_MIN in
          let is_it e := (u32 (ota_seq e - 1) mod ota_app_count =? req_ota_slot) &&
                         (crc e =? bootloader_common_ota_select_crc esp_rom_crc32_le e) in
          if is_it two.1 then Some (ESP_OK, Some (ota_state two.1))
          else if is_it two.2 then Some (ESP_OK, Some (ota_state two.2))
          else Some (ESP_ERR_NOT_FOUND, None)
    end.

Definition erase_last_boot_app_partition (st : ota_state_t) (skip_app_part_erase : bool) :
    option (esp_err_t * ota_state_t) :=
  match read_otadata st with
  | None => Some (ESP_FAIL, st)
  | Some (two, d) =>
      let active := bootloader_common_get_active_otadata esp_rom_crc32_le (Some two) in
      let! ota_app_count := esp_ota_get_app_partition_count st in
      if (active =? -1) || (ota_app_count =? 0) then Some (ESP_FAIL, st)
      else
        let inactive := 1 - active in
        let e := entry_of two inactive in
        if (ota_seq e =? UINT32_MAX) || negb (crc e =? bootloader_common_ota_select_crc esp_rom_crc32_le e)
        then Some (ESP_FAIL, st)
        else
          match find_app st (ESP_PARTITION_SUBTYPE_APP_OTA_MIN + u32 (ota_seq e - 1) mod ota_app_count) with
          | None => Some (ESP_FAIL, st)
          | Some last =>
              let! running := esp_ota_get_running_partition st in
              if same_ptr last running then Some (ESP_FAIL, st)
              else
                let (err, f) :=
                  if negb skip_app_part_erase
                  then esp_partition_erase_range (os_flash st) (info last) 0 (size (info last))
                  else (ESP_OK, os_flash st) in
                if negb (err =? ESP_OK) then Some (err, with_flash st f)
                else
                  let (err, f) := esp_partition_erase_range f (info d) (u32 (inactive * erase_size (info d)))
                                    (erase_size (info d)) in
                  Some (err, with_flash st f)
          end
  end.

Definition esp_ota_erase_last_boot_app_partition (st : ota_state_t) := erase_last_boot_app_partition st false.
Definition esp_ota_invalidate_inactive_ota_data_slot (st : ota_state_t) := erase_last_boot_app_partition st true.

(** ** Writing an image *)

(** [alloc] is whether [calloc] succeeds. *)
Definition esp_ota_init_entry (st : ota_state_t) (partition : partition_list_item_t) (alloc : bool) :
    option (ota_ops_entry_t * ota_state_t) :=
  if negb alloc then None
  else
    let h := u32 (s_ota_ops_last_handle st + 1) in
    let e := mkOps h partition partition false false 0 0 false (repeat 0 16) in
    Some (e, with_handle (with_entries st (e :: s_ota_ops_entries st)) h).

Fixpoint replace_entry (h : Z) (e' : ota_ops_entry_t) (l : list ota_ops_entry_t) : list ota_ops_entry_t :=
  match l with
  | [] => []
  | e :: l => if handle e =? h then e' :: l else e :: replace_entry h e' l
  end.

Definition set_entry (st : ota_state_t) (e : ota_ops_entry_t) : ota_state_t :=
  with_entries st (replace_entry (handle e) e (s_ota_ops_entries st)).

Fixpoint remove_entry (h : Z) (l : list ota_ops_entry_t) : list ota_ops_entry_t :=
  match l with
  | [] => []
  | e :: l => if handle e =? h then l else e :: remove_entry h l
  end.

Fixpoint lookup_entry (h : Z) (l : list ota_ops_entry_t) : option ota_ops_entry_t :=
  match l with
  | [] => None
  | e :: l => if handle e =? h then Some e else lookup_entry h l
  end.

Definition get_ota_ops_entry (st : ota_state_t) (h : Z) : option ota_ops_entry_t :=
  lookup_entry h (s_ota_ops_entries st).

(** Bootloader and partition-table targets change global settings. *)
Definition prepare_target (st : ota_state_t) (p : esp_partition_t) (new_bootloader_offset : Z) : ota_state_t :=
  let st := if type p =? ESP_PARTITION_TYPE_BOOTLOADER then with_bootloader_offset st new_bootloader_offset else st in
  if (type p =? ESP_PARTITION_TYPE_BOOTLOADER) || (type p =? ESP_PARTITION_TYPE_PARTITION_TABLE)
  then with_protection st false else st.

(** Error, the handle stored, the state. *)
Definition esp_ota_begin (st : ota_state_t) (partition : option esp_partition_t) (image_size : Z)
    (out_handle_null alloc : bool) : option (esp_err_t * option Z * ota_state_t) :=
  match partition with
  | None => Some (ESP_ERR_INVALID_ARG, None, st)
  | Some p =>
      if out_handle_null then Some (ESP_ERR_INVALID_ARG, None, st)
      else
        match verify_in (os_table st) p with
        | None => Some (ESP_ERR_NOT_FOUND, None, st)
        | Some part =>
            let! refused :=
              (if type (info part) =? ESP_PARTITION_TYPE_APP then
                 if negb (is_ota_partition (info part)) then Some ESP_ERR_INVALID_ARG
                 else
                   let! running := esp_ota_get_running_partition st in
                   if same_ptr part running then Some ESP_ERR_OTA_PARTITION_CONFLICT
                   else if rollback then
                     let! (err, state) := esp_ota_get_state_partition st (info running) in
                     Some (if (err =? ESP_OK) && (default 0 state =? ESP_OTA_IMG_PENDING_VERIFY)
                           then ESP_ERR_OTA_ROLLBACK_INVALID_STATE else ESP_OK)
                   else Some ESP_OK
               else Some ESP_OK) in
            if negb (refused =? ESP_OK) then Some (refused, None, st)
            else
              match esp_ota_init_entry st part alloc with
              | None => Some (ESP_ERR_NO_MEM, None, st)
              | Some (e, st) =>
                  let st := set_entry st (ops_with_erase e (image_size =? OTA_WITH_SEQUENTIAL_WRITES)) in
                  let st := prepare_target st (info part) (address (info part)) in
                  let (err, f) :=
                    if negb (image_size =? OTA_WITH_SEQUENTIAL_WRITES) then
                      let erase_len := if (image_size =? 0) || (image_size =? OTA_SIZE_UNKNOWN) then size (info part)
                                       else ALIGN_UP image_size (erase_size (info part)) in
                      esp_partition_erase_range (os_flash st) (info part) 0 erase_len
                    else (ESP_OK, os_flash st) in
                  let st := with_flash st f in
                  if negb (err =? ESP_OK) then Some (err, Some (handle e), st)
                  else if rollback && is_ota_partition (info part) then
                    let! (_, st) := esp_ota_invalidate_inactive_ota_data_slot st in
                    Some (ESP_OK, Some (handle e), st)
                  else Some (ESP_OK, Some (handle e), st)
              end
        end
  end.

Definition esp_ota_resume (st : ota_state_t) (partition : option esp_partition_t) (erase_sz image_offset : Z)
    (out_handle_null alloc : bool) : option (esp_err_t * option Z * ota_state_t) :=
  match partition with
  | None => Some (ESP_ERR_INVALID_ARG, None, st)
  | Some p =>
      if out_handle_null || (size p <? image_offset) then Some (ESP_ERR_INVALID_ARG, None, st)
      else
        match verify_in (os_table st) p with
        | None => Some (ESP_ERR_NOT_FOUND, None, st)
        | Some part =>
            if (type (info part) =? ESP_PARTITION_TYPE_APP) && negb (is_ota_partition (info part))
            then Some (ESP_ERR_INVALID_ARG, None, st)
            else
              let! running := esp_ota_get_running_partition st in
              if same_ptr part running then Some (ESP_ERR_OTA_PARTITION_CONFLICT, None, st)
              else
                match esp_ota_init_entry st part alloc with
                | None => Some (ESP_ERR_NO_MEM, None, st)
                | Some (e, st) =>
                    let st := prepare_target st (info part) (address (info part)) in
                    let e := ops_with_erase (ops_resumed e image_offset) (erase_sz =? OTA_WITH_SEQUENTIAL_WRITES) in
                    Some (ESP_OK, Some (handle e), set_entry st e)
                end
        end
  end.

Definition esp_ota_set_final_partition (st : ota_state_t) (h : Z) (fin : option partition_list_item_t)
    (with_copy : bool) : esp_err_t * ota_state_t :=
  match fin, get_ota_ops_entry st h with
  | None, _ => (ESP_ERR_INVALID_ARG, st)
  | _, None => (ESP_ERR_NOT_FOUND, st)
  | Some fp, Some it =>
      if negb (ota_resumption it) && negb (wrote_size it =? 0) then (ESP_ERR_INVALID_STATE, st)
      else if negb (same_ptr (staging it) fp) then
        match verify_in (os_table st) (info fp) with
        | None => (ESP_ERR_NOT_FOUND, st)
        | Some fp =>
            let st := set_entry st (ops_with_final it fp with_copy) in
            (ESP_OK, prepare_target st (info fp) (address (info (staging it))))
        end
      else (ESP_OK, st)
  end.

(** The erasing before a write of [sz] bytes. *)
Definition erase_ahead (f : S) (it : ota_ops_entry_t) (sz : Z) : esp_err_t * S :=
  let p := info (staging it) in
  let es := erase_size p in
  let first_sector := wrote_size it / es in
  let last_sector := u32 (wrote_size it + sz - 1) / es in
  if wrote_size it mod es =? 0 then
    esp_partition_erase_range f p (wrote_size it) (u32 ((last_sector - first_sector + 1) * es))
  else if negb (first_sector =? last_sector) then
    esp_partition_erase_range f p (u32 ((first_sector + 1) * es)) (u32 ((last_sector - first_sector) * es))
  else (ESP_OK, f).

(** The check of the first bytes of an image. *)
Definition first_bytes_ok (it : ota_ops_entry_t) (data : list Z) : bool :=
  if (wrote_size it =? 0) && (partial_bytes it =? 0) then
    let t := type (info (final it)) in
    if (t =? ESP_PARTITION_TYPE_APP) || (t =? ESP_PARTITION_TYPE_BOOTLOADER)
    then nth 0 data 0 =? ESP_IMAGE_HEADER_MAGIC
    else if t =? ESP_PARTITION_TYPE_PARTITION_TABLE
    then nth 0 data 0 + 256 * nth 1 data 0 =? ESP_PARTITION_MAGIC
    else true
  else true.

(** Splicing [l] into a buffer at [i]. *)
Definition splice (buf : list Z) (i : Z) (l : list Z) : list Z :=
  take (Z.to_nat i) buf ++ l ++ drop (Z.to_nat i + length l) buf.

Definition esp_ota_write (st : ota_state_t) (h : Z) (data : option (list Z)) : esp_err_t * ota_state_t :=
  match data with
  | None => (ESP_ERR_INVALID_ARG, st)
  | Some data =>
      let sz := Z.of_nat (length data) in
      if sz =? 0 then (ESP_OK, st)
      else
        match get_ota_ops_entry st h with
        | None => (ESP_ERR_INVALID_ARG, st)
        | Some it =>
            let (ret, f) := if need_erase it then erase_ahead (os_flash st) it sz else (ESP_OK, os_flash st) in
            let st := with_flash st f in
            if negb (ret =? ESP_OK) then (ret, st)
            else if negb (first_bytes_ok it data) then (ESP_ERR_OTA_VALIDATE_FAILED, st)
            else
              let write_rest (st : ota_state_t) (it : ota_ops_entry_t) (data : list Z) :=
                let (ret, f) := esp_partition_write (os_flash st) (info (staging it)) (wrote_size it) data in
                let st := with_flash st f in
                if ret =? ESP_OK
                then (ret, set_entry st (ops_with_wrote it (u32 (wrote_size it + Z.of_nat (length data)))))
                else (ret, set_entry st it) in
              let save_tail (st : ota_state_t) (it : ota_ops_entry_t) (data : list Z) :=
                let tail_len := (length data mod 16)%nat in
                let head_len := (length data - tail_len)%nat in
                let it := if negb (Nat.eqb tail_len 0)
                          then ops_with_partial it (Z.of_nat tail_len)
                                 (splice (partial_data it) 0 (drop head_len data))
                          else ops_with_partial it 0 (partial_data it) in
                write_rest st it (take head_len data) in
              if esp_flash_encryption_enabled then
                if negb (partial_bytes it =? 0) then
                  let copy_len := Z.min (16 - partial_bytes it) sz in
                  let it := ops_with_partial it (partial_bytes it + copy_len)
                              (splice (partial_data it) (partial_bytes it) (take (Z.to_nat copy_len) data)) in
                  if negb (partial_bytes it =? 16) then (ESP_OK, set_entry st it)
                  else
                    let (ret, f) := esp_partition_write (os_flash st) (info (staging it)) (wrote_size it) (partial_data it) in
                    let st := with_flash st f in
                    if negb (ret =? ESP_OK) then (ret, set_entry st it)
                    else
                      let it := ops_with_wrote (ops_with_partial it 0 (repeat 255 16)) (u32 (wrote_size it + 16)) in
                      save_tail st it (drop (Z.to_nat copy_len) data)
                else save_tail st it data
              else write_rest st it data
        end
  end.

Definition esp_ota_write_with_offset (st : ota_state_t) (h : Z) (data : option (list Z)) (off : Z) :
    option (esp_err_t * ota_state_t) :=
  match data with
  | None => Some (ESP_ERR_INVALID_ARG, st)
  | Some data =>
      match get_ota_ops_entry st h with
      | None => Some (ESP_ERR_INVALID_ARG, st)
      | Some it =>
          assert! negb (need_erase it);
          let sz := Z.of_nat (length data) in
          if esp_flash_encryption_enabled && negb (sz mod 16 =? 0) then Some (ESP_ERR_INVALID_ARG, st)
          else
            let (ret, f) := esp_partition_write (os_flash st) (info (staging it)) off data in
            let st := with_flash st f in
            Some (ret, if ret =? ESP_OK then set_entry st (ops_with_wrote it (u32 (wrote_size it + sz))) else st)
      end
  end.

Definition esp_ota_abort (st : ota_state_t) (h : Z) : esp_err_t * ota_state_t :=
  match get_ota_ops_entry st h with
  | None => (ESP_ERR_NOT_FOUND, st)
  | Some it => (ESP_OK, with_entries st (remove_entry h (s_ota_ops_entries st)))
  end.

Definition ota_verify_partition (st : ota_state_t) (it : ota_ops_entry_t) : esp_err_t :=
  let s := info (staging it) in
  let t := type (info (final it)) in
  if (t =? ESP_PARTITION_TYPE_APP) || (t =? ESP_PARTITION_TYPE_BOOTLOADER) then
    if image_verify (os_flash st) (address s) (size s) then ESP_OK else ESP_ERR_OTA_VALIDATE_FAILED
  else if t =? ESP_PARTITION_TYPE_PARTITION_TABLE then
    let ret := esp_partition_mmap (os_flash st) s 0 ESP_PARTITION_TABLE_MAX_LEN in
    if ret =? ESP_OK then
      if negb (fst (esp_partition_table_verify md5 chip_size (flash_view (os_flash st)) (address s)) =? ESP_OK)
      then ESP_ERR_OTA_VALIDATE_FAILED else ret
    else ret
  else ESP_OK.

(** [copy_fuel] and [free_pages] are for the final copy. *)
Definition esp_ota_end (copy_fuel : nat) (free_pages : list Z) (st : ota_state_t) (h : Z) :
    option (esp_err_t * ota_state_t) :=
  match get_ota_ops_entry st h with
  | None => Some (ESP_ERR_NOT_FOUND, st)
  | Some it =>
      let cleanup (ret : esp_err_t) (st : ota_state_t) :=
        let st := if type (info (final it)) =? ESP_PARTITION_TYPE_BOOTLOADER
                  then with_bootloader_offset st ESP_PRIMARY_BOOTLOADER_OFFSET else st in
        Some (ret, with_entries st (remove_entry h (s_ota_ops_entries st))) in
      if wrote_size it =? 0 then cleanup ESP_ERR_INVALID_ARG st
      else
        let (ret, f) :=
          if 0 <? partial_bytes it
          then esp_partition_write (os_flash st) (info (staging it)) (wrote_size it) (partial_data it)
          else (ESP_OK, os_flash st) in
        let st := with_flash st f in
        if negb (ret =? ESP_OK) then cleanup ESP_ERR_INVALID_STATE st
        else
          let ret := ota_verify_partition st it in
          if negb (ret =? ESP_OK) then cleanup ret st
          else if finalize_with_copy it then
            let! (ret, f) := esp_partition_copy copy_fuel free_pages (os_flash st) (Some (final it)) 0
                               (Some (staging it)) 0 (size (info (final it))) in
            cleanup ret (with_flash st f)
          else cleanup ret st
  end.

(** Error and the bytes of the application description. *)
Definition esp_ota_get_partition_description (st : ota_state_t) (partition : option esp_partition_t)
    (header_len desc_len magic_word : Z) : esp_err_t * list Z :=
  match partition with
  | None => (ESP_ERR_INVALID_ARG, [])
  | Some p =>
      if negb (type p =? ESP_PARTITION_TYPE_APP) then (ESP_ERR_NOT_SUPPORTED, [])
      else
        let (err, bytes) := esp_partition_read (os_flash st) p header_len desc_len in
        if negb (err =? ESP_OK) then (err, [])
        else if negb (load32 (fun i => nth (Z.to_nat i) bytes 0) 0 =? magic_word) then (ESP_ERR_NOT_FOUND, bytes)
        else (ESP_OK, bytes)
  end.


(** ** The sequence number for a target slot *)

Lemma seq_search_least fuel : forall cur base n i,
  0 < n -> 0 <= base -> 0 <= cur -> 0 <= i -> (i = 0 \/ base + (i - 1) * n < cur) -> is_u32 (cur + n) -> base < n ->
  (cur - base - i * n < Z.of_nat fuel * n) ->
  exists k, i <= k /\ seq_search fuel cur base n i = Some (base + k * n) /\ cur <= base + k * n /\
    (k = 0 \/ base + (k - 1) * n < cur).
Proof.
  induction fuel as [|fuel IH]; intros cur base n i Hn Hb Hc Hi Hprev Hu Hbn Hf; unfold is_u32 in *; simpl.
  - assert (0 <= i * n /\ i * n < 4294967296 - base) as [? ?] by (destruct Hprev as [->|?]; nia).
    rewrite (u32_small (i * n)), u32_small by lia. destruct (Z.ltb_spec (base + i * n) cur); [lia|]. by exists i.
  - assert (0 <= i * n /\ i * n < 4294967296 - base) as [? ?] by (destruct Hprev as [->|?]; nia).
    rewrite (u32_small (i * n)), (u32_small (base + i * n)) by lia.
    destruct (Z.ltb_spec (base + i * n) cur).
    + rewrite u32_small by nia.
      destruct (IH cur base n (i + 1)) as (k & Hk & E & L1 & L2); try lia; try nia.
      exists k. split_and!; auto; lia.
    + by exists i.
Qed.

(** The slot a sequence number selects. *)
Definition slot_of_seq (sq n : Z) : Z := u32 (sq - 1) mod n.

Lemma seq_for_slot cur slot n :
  0 <= slot < n -> n <= 255 -> 1 <= cur -> cur + n < 4294967296 -> slot_of_seq cur n <> slot ->
  exists s, compute_ota_seq_for_target_slot cur slot n = Some s /\
    cur < s < cur + n /\ slot_of_seq s n = slot /\
    forall s', cur < s' < s -> slot_of_seq s' n <> slot.
Proof.
  clear. unfold slot_of_seq. intros Hs Hn Hc Hb Hne. unfold compute_ota_seq_for_target_slot.
  destruct (Z.eqb_spec n 0); [lia|]. rewrite (u32_small (slot + 1)) by lia.
  pose proof (Z.mod_pos_bound (slot + 1) n ltac:(lia)) as Hbase.
  pose proof (Z.div_mod (slot + 1) n ltac:(lia)) as Edm.
  set (base := (slot + 1) mod n) in *.
  destruct (seq_search_least (Z.to_nat (cur / n + 1)) cur base n 0) as (k & Hk & E & H1 & H2);
    try lia; [unfold is_u32; lia| |].
  { pose proof (Z.div_mod cur n ltac:(lia)). pose proof (Z.mod_pos_bound cur n ltac:(lia)).
    pose proof (Z.div_pos cur n ltac:(lia) ltac:(lia)). nia. }
  assert (forall x, 1 <= x < 4294967296 -> (u32 (x - 1) mod n = slot <-> exists j, x = base + j * n)) as Hslot.
  { intros x Hx. rewrite u32_small by lia. pose proof (Z.div_mod (x - 1) n ltac:(lia)) as Ex.
    pose proof (Z.mod_pos_bound (x - 1) n ltac:(lia)). split.
    - intros Em. exists ((x - 1) / n + (slot + 1) / n). rewrite Em in Ex. nia.
    - intros [j Ej]. replace (x - 1) with (slot + (j - (slot + 1) / n) * n) by nia.
      rewrite Z.mod_add, Z.mod_small; lia. }
  assert (cur <> base + k * n) as Hcne by (intros Ec; apply Hne, Hslot; [lia|eauto]).
  assert (base + k * n < cur + n) as Hup.
  { destruct H2 as [->|H2]; [lia|]. destruct (Z.eq_dec (base + (k - 1) * n) cur); [|nia]. lia. }
  exists (base + k * n). split; [done|]. split; [lia|]. split; [apply Hslot; [lia|eauto]|].
  intros s' Hs' Es'. apply Hslot in Es' as [j ->]; [|lia]. assert (j < k) by nia.
  destruct H2 as [->|H2]; nia.
Qed.

(** C40: for another slot than the current one, and a current sequence number less than
    2^32 minus the number of slots, the loop ends with the least sequence number above
    the current that selects it (for the current slot itself, see
    [seq_search_not_strict]). *)
Theorem compute_ota_seq_least cur slot n :
  0 <= slot < n -> n <= 255 -> 1 <= cur -> cur + n < 4294967296 -> slot_of_seq cur n <> slot ->
  exists s, compute_ota_seq_for_target_slot cur slot n = Some s /\
    cur < s < cur + n /\ slot_of_seq s n = slot /\
    forall s', cur < s' < s -> slot_of_seq s' n <> slot.
Proof. clear. apply seq_for_slot. Qed.

(** ** Slots in the table *)

Lemma count_apps_spec fuel : forall st c n,
  0 <= c <= 16 -> (forall k, 0 <= k < c -> find_app st (16 + k) <> None) -> count_apps fuel st c = Some n ->
  c <= n <= 16 /\ (forall k, 0 <= k < n -> find_app st (16 + k) <> None) /\ find_app st (16 + n) = None.
Proof.
  induction fuel as [|fuel IH]; intros st c n Hc Hk; simpl;
    change ESP_PARTITION_SUBTYPE_APP_OTA_MIN with 16; destruct (find_app st (16 + c)) as [p|] eqn:Ep; try done.
  1, 3: unfold u8; rewrite Z.mod_small by lia; intros [= <-]; split_and!; auto; lia.
  destruct (Z.ltb_spec c 16); [|done]. intros H1. apply IH in H1; [|lia|].
  - destruct H1 as (? & ? & ?). split_and!; auto; lia.
  - intros k Hk'. destruct (Z.eq_dec k c) as [->|]; [by rewrite Ep|apply Hk; lia].
Qed.

Lemma app_count_spec st n : esp_ota_get_app_partition_count st = Some n ->
  0 <= n <= 16 /\ (forall k, 0 <= k < n -> find_app st (16 + k) <> None) /\ find_app st (16 + n) = None.
Proof. apply count_apps_spec; [lia|]. intros k Hk. lia. Qed.

Lemma count_apps_with_flash fuel st f c : count_apps fuel (with_flash st f) c = count_apps fuel st c.
Proof.
  revert c. induction fuel as [|fuel IH]; intros c; simpl; change (find_app (with_flash st f)) with (find_app st);
    destruct (find_app _ _); try done. destruct (_ <? _); [apply IH|done].
Qed.

Lemma ota_slot_of k : 0 <= k < 16 -> OTA_SLOT (16 + k) = k.
Proof.
  intros Hk. unfold OTA_SLOT. change 15 with (Z.ones 4). rewrite Z.land_ones by lia.
  change (2 ^ 4) with 16. rewrite Z.add_comm, <- (Z.mul_1_l 16), Z.mod_add, Z.mod_small by lia. done.
Qed.

(** ** The selection partition on plain flash *)

Record otadata_ok (d : esp_partition_t) : Prop := {
  od_chip : flash_chip d = esp_flash_default_chip;
  od_plain : encrypted d = false;
  od_writable : readonly d = false;
  od_erase : erase_size d = SPI_FLASH_SEC_SIZE;
  od_size : 0 <= address d /\ 2 * SPI_FLASH_SEC_SIZE <= size d /\ address d + size d < 4294967296 }.

(** The state has a selection partition [p] and [n] OTA slots. *)
Definition has_slots (st : ota_state_t) (p : partition_list_item_t) (n : Z) : Prop :=
  find_otadata st = Some p /\ otadata_ok (info p) /\ esp_ota_get_app_partition_count st = Some n /\ 0 < n.

Definition entries (f : S) (p : partition_list_item_t) : otadata :=
  (read_select_entry (flash_view f) (address (info p)),
   read_select_entry (flash_view f) (address (info p) + SPI_FLASH_SEC_SIZE)).

Definition valid_entry := bootloader_common_ota_select_valid esp_rom_crc32_le.

(** Entry [i] with sequence number [sq] goes before the other one, with [other]. *)
Definition outranked (i other sq : Z) : Prop := if i =? 0 then other <= sq else other < sq.

(** Entry [i] is the one a boot follows. *)
Definition selects (two : otadata) (i : Z) : Prop :=
  valid_entry (entry_of two i) = true /\
  (valid_entry (entry_of two (1 - i)) = true -> outranked i (ota_seq (entry_of two (1 - i))) (ota_seq (entry_of two i))).

Lemma selects_active two i : i = 0 \/ i = 1 -> selects two i ->
  bootloader_common_get_active_otadata esp_rom_crc32_le (Some two) = i /\
  bootloader_common_ota_select_invalid two.1 && bootloader_common_ota_select_invalid two.2 = false.
Proof.
  destruct two as [e0 e1]. unfold selects, valid_entry, bootloader_common_get_active_otadata. intros Hi [Hv Hlt].
  pose proof (select_otadata_max e0 e1 (bootloader_common_ota_select_valid esp_rom_crc32_le e0)
                (bootloader_common_ota_select_valid esp_rom_crc32_le e1)) as Hs. cbv zeta in Hs.
  destruct Hi as [->| ->]; unfold entry_of, outranked in *; simpl in Hv, Hlt, Hs |- *; split.
  2, 4: unfold bootloader_common_ota_select_valid in Hv; apply andb_true_iff in Hv as [Hv _];
    apply negb_true_iff in Hv; rewrite Hv; by rewrite ?andb_false_r.
  - destruct Hs as [(_ & ? & _)|[(-> & _)|(E & H1 & H2)]]; [congruence|done|]. specialize (H2 Hv). specialize (Hlt H1). lia.
  - destruct Hs as [(_ & _ & ?)|[(E & H1 & H2)|(-> & _)]]; [congruence| |done]. specialize (H2 Hv). specialize (Hlt H1). lia.
Qed.

Section plain.
Context {P : PlainFlash S}.
Hypothesis crc_u32 : forall l, is_u32 (esp_rom_crc32_le l).

Definition entry_offset (d : esp_partition_t) (i : Z) : Z := address d + SPI_FLASH_SEC_SIZE * i.

Lemma entries_entry f p i : i = 0 \/ i = 1 ->
  entry_of (entries f p) i = read_select_entry (flash_view f) (entry_offset (info p) i).
Proof.
  unfold entry_of, entries, entry_offset. intros [->| ->]; simpl; f_equal; unfold SPI_FLASH_SEC_SIZE; lia.
Qed.

Lemma read_otadata_plain st p : find_otadata st = Some p -> otadata_ok (info p) ->
  read_otadata st = Some (entries (os_flash st) p, p).
Proof.
  intros Hf [H1 H2 H3 H4 H5]. unfold read_otadata. rewrite Hf. simpl. unfold esp_partition_mmap, check_region.
  unfold SPI_FLASH_SEC_SIZE in *. destruct (Z.ltb_spec (size (info p)) 0); [lia|]. rewrite Z.sub_0_r, u32_small by lia.
  rewrite Z.ltb_irrefl. simpl. rewrite H1, Z.eqb_refl. simpl. rewrite mmap_succeeds. simpl. unfold entries.
  by rewrite H4.
Qed.

(** Whatever the flash holds, the boot partition is that of the selecting entry. *)
Lemma get_boot_selects st f p n i :
  has_slots st p n -> i = 0 \/ i = 1 -> selects (entries f p) i ->
  esp_ota_get_boot_partition (with_flash st f) =
    Some (find_app st (ESP_PARTITION_SUBTYPE_APP_OTA_MIN + slot_of_seq (ota_seq (entry_of (entries f p) i)) n)).
Proof.
  intros (Hf & Hok & Hn & Hpos) Hi Hsel. unfold esp_ota_get_boot_partition.
  rewrite (read_otadata_plain (with_flash st f) p) by done. change (os_flash (with_flash st f)) with f.
  unfold esp_ota_get_app_partition_count in *. rewrite count_apps_with_flash, Hn. cbn [mbind option_bind].
  destruct (selects_active _ i Hi Hsel) as [-> ->].
  destruct (Z.eqb_spec n 0); [lia|]. destruct (Z.eqb_spec i (-1)); [lia|]. done.
Qed.

(** The two accesses to an entry's sector reach the driver. *)
Lemma selection_access f d i l : otadata_ok d -> i = 0 \/ i = 1 -> (length l <= 32)%nat ->
  let off := u32 (i * erase_size d) in
  esp_partition_erase_range f d off (erase_size d) =
    esp_flash_erase_region f esp_flash_default_chip (entry_offset d i) SPI_FLASH_SEC_SIZE /\
  esp_partition_write f d off l = esp_flash_write f esp_flash_default_chip l (entry_offset d i).
Proof.
  intros [H1 H2 H3 H4 H5] Hi Hl. unfold esp_partition_erase_range, esp_partition_write, entry_offset.
  unfold SPI_FLASH_SEC_SIZE in *. rewrite H1, H2, H3, H4. cbn [negb].
  assert (u32 (i * 4096) = 4096 * i) as -> by (rewrite u32_small; lia).
  assert (check_region d (4096 * i) 4096 = ESP_OK /\ check_region d (4096 * i) (Z.of_nat (length l)) = ESP_OK) as [-> ->].
  { unfold check_region. rewrite !u32_small by lia.
    destruct (Z.ltb_spec (size d) (4096 * i)); [lia|].
    destruct (Z.ltb_spec (size d - 4096 * i) 4096); [lia|].
    by destruct (Z.ltb_spec (size d - 4096 * i) (Z.of_nat (length l))); [lia|]. }
  change (negb (ESP_OK =? ESP_OK)) with false. cbv iota. rewrite Z_mod_same_full.
  assert ((4096 * i) mod 4096 = 0) as -> by (rewrite Z.mul_comm; apply Z_mod_mult). cbn [negb Z.eqb].
  by rewrite u32_small by lia.
Qed.

(** Erasing sector [i] and then writing only the first [j] bytes of [e]. *)
Definition torn_rewrite (f : S) (d : esp_partition_t) (i : Z) (e : esp_ota_select_entry_t) (j : nat) : S :=
  let off := u32 (i * erase_size d) in
  let f := snd (esp_partition_erase_range f d off (erase_size d)) in
  snd (esp_partition_write f d off (take j (entry_bytes e))).

Lemma torn_rewrite_spec f d i e j x : otadata_ok d -> i = 0 \/ i = 1 -> entry_ok e -> (j <= 32)%nat ->
  let o := entry_offset d i in
  flash_view (torn_rewrite f d i e j) x =
    if in_range o SPI_FLASH_SEC_SIZE x
    then (if in_range o (Z.of_nat j) x then nth (Z.to_nat (x - o)) (entry_bytes e) 0 else 255)
    else flash_view f x.
Proof.
  intros Hd Hi He Hj o. unfold torn_rewrite. pose proof (length_entry_bytes e He) as Hlen.
  assert (length (take j (entry_bytes e)) = j) as Elen by (rewrite length_take; lia).
  rewrite (proj1 (selection_access f d i [] Hd Hi ltac:(simpl; lia))).
  rewrite (proj2 (selection_access _ d i (take j (entry_bytes e)) Hd Hi ltac:(lia))). fold o.
  unfold SPI_FLASH_SEC_SIZE in *.
  destruct (esp_flash_erase_region f _ o 4096) as [err1 f1] eqn:E1. cbn [snd].
  destruct (esp_flash_write f1 _ _ o) as [err2 f2] eqn:E2. cbn [snd].
  pose proof (erase_succeeds f o 4096) as O1. rewrite E1 in O1. simpl in O1. subst err1.
  pose proof (write_succeeds f1 (take j (entry_bytes e)) o) as O2. rewrite E2 in O2. simpl in O2. subst err2.
  rewrite !view_plain. destruct (in_range o 4096 x) eqn:Rs.
  - pose proof (erase_erases _ _ _ _ _ _ E1 Rs) as Er. destruct (in_range o (Z.of_nat j) x) eqn:Rj.
    + rewrite (write_clears _ _ _ _ _ _ E2) by by rewrite Elen. rewrite Er. apply in_range_true in Rj.
      set (k := Z.to_nat (x - o)). assert (nth k (take j (entry_bytes e)) 0 = nth k (entry_bytes e) 0) as ->.
      { rewrite <- (take_drop j (entry_bytes e)) at 2. rewrite app_nth1; [done|]. rewrite length_take. lia. }
      apply land_255. pose proof (entry_bytes_bytes e He) as Hb. rewrite Forall_nth in Hb. apply Hb. lia.
    + rewrite (write_frame _ _ _ _ _ _ _ _ E2) by (right; by rewrite Elen). done.
  - rewrite (write_frame _ _ _ _ _ _ _ _ E2).
    + apply (erase_frame _ _ _ _ _ _ _ _ E1). by right.
    + right. rewrite Elen. rewrite in_range_false in *. lia.
Qed.

Lemma torn_rewrite_other f p i e j : otadata_ok (info p) -> i = 0 \/ i = 1 -> entry_ok e -> (j <= 32)%nat ->
  entry_of (entries (torn_rewrite f (info p) i e j) p) (1 - i) = entry_of (entries f p) (1 - i).
Proof.
  intros Hd Hi He Hj. rewrite !entries_entry by lia. apply read_select_entry_ext. intros k Hk.
  rewrite torn_rewrite_spec by done.
  assert (in_range (entry_offset (info p) i) SPI_FLASH_SEC_SIZE (entry_offset (info p) (1 - i) + k) = false) as ->; [|done].
  rewrite in_range_false. unfold entry_offset, SPI_FLASH_SEC_SIZE. lia.
Qed.

Lemma torn_rewrite_entry f p i e : otadata_ok (info p) -> i = 0 \/ i = 1 -> entry_ok e ->
  entry_of (entries (torn_rewrite f (info p) i e 32) p) i = e.
Proof.
  intros Hd Hi He. rewrite entries_entry by lia. apply read_entry_bytes; [done|]. intros k Hk.
  rewrite torn_rewrite_spec by done.
  set (o := entry_offset (info p) i).
  assert (in_range o SPI_FLASH_SEC_SIZE (o + Z.of_nat k) = true /\ in_range o (Z.of_nat 32) (o + Z.of_nat k) = true)
    as [-> ->] by (rewrite !in_range_true; unfold SPI_FLASH_SEC_SIZE; lia).
  f_equal. lia.
Qed.

Lemma load32_bytes_u32 m a : (forall x, is_byte (m x)) -> is_u32 (load32 m a).
Proof.
  intros H. unfold load32, is_u32.
  pose proof (H a). pose proof (H (a + 1)). pose proof (H (a + 2)). pose proof (H (a + 3)). unfold is_byte in *. lia.
Qed.

Lemma read_entry_ok m a : (forall x, is_byte (m x)) -> entry_ok (read_select_entry m a).
Proof.
  intros H. split; cbn [read_select_entry ota_seq ota_state crc seq_label]; try by apply load32_bytes_u32.
  rewrite length_load_bytes. split; [done|].
  unfold load_bytes. apply Forall_map, Forall_forall. intros i _. apply H.
Qed.

(** What [rewrite_ota_seq] leaves: the entry with a state, and its checksum. *)
Definition sealed_entry (e : esp_ota_select_entry_t) (s sq : Z) : esp_ota_select_entry_t :=
  set_seq_crc sq (esp_rom_crc32_le (bytes32 sq)) (set_ota_state s e).

(** The entry of a new image. *)
Definition new_entry (e : esp_ota_select_entry_t) (sq : Z) : esp_ota_select_entry_t :=
  sealed_entry e set_new_state_otadata sq.

Lemma sealed_entry_ok e s sq : entry_ok e -> is_u32 s -> is_u32 sq -> entry_ok (sealed_entry e s sq).
Proof. intros [H1 H2 H3 H4] Hs Hsq. split; try done. apply crc_u32. Qed.

Lemma new_state_u32 : is_u32 set_new_state_otadata.
Proof.
  unfold set_new_state_otadata, ESP_OTA_IMG_NEW, ESP_OTA_IMG_UNDEFINED, UINT32_MAX, is_u32. destruct rollback; lia.
Qed.

Lemma new_entry_ok e sq : entry_ok e -> is_u32 sq -> entry_ok (new_entry e sq).
Proof. intros He Hs. apply sealed_entry_ok; [done|apply new_state_u32|done]. Qed.

Lemma new_entry_valid e sq : sq <> UINT32_MAX -> valid_entry (new_entry e sq) = true.
Proof.
  intros Hs. unfold valid_entry, bootloader_common_ota_select_valid, bootloader_common_ota_select_invalid,
    bootloader_common_ota_select_crc. simpl. rewrite Z.eqb_refl, andb_true_r.
  apply Z.eqb_neq in Hs. rewrite Hs. unfold set_new_state_otadata. by destruct rollback.
Qed.

Lemma rewrite_ota_seq_spec f p s sq i : otadata_ok (info p) -> (forall x, is_byte (flash_view f x)) ->
  i = 0 \/ i = 1 -> is_u32 s -> is_u32 sq ->
  rewrite_ota_seq f (Some (upd_entry (entries f p) i (set_ota_state s))) sq i (info p) =
    (ESP_OK, torn_rewrite f (info p) i (sealed_entry (entry_of (entries f p) i) s sq) 32).
Proof.
  intros Hd Hb Hi Hst Hs. unfold rewrite_ota_seq. destruct (Z.ltb_spec 1 i); [lia|].
  assert (entry_of (upd_entry (entries f p) i (set_ota_state s)) i =
    set_ota_state s (entry_of (entries f p) i)) as -> by (by destruct Hi as [->| ->]).
  fold (sealed_entry (entry_of (entries f p) i) s sq).
  assert (entry_ok (sealed_entry (entry_of (entries f p) i) s sq)) as He.
  { apply sealed_entry_ok; [|done..]. rewrite entries_entry by done. by apply read_entry_ok. }
  set (e := sealed_entry _ _ _) in *. clearbody e.
  unfold torn_rewrite. rewrite take_ge by (rewrite length_entry_bytes by done; lia).
  rewrite (proj1 (selection_access f (info p) i [] Hd Hi ltac:(simpl; lia))).
  destruct (esp_flash_erase_region f _ _ _) as [err1 f1] eqn:E1.
  pose proof (erase_succeeds f (entry_offset (info p) i) SPI_FLASH_SEC_SIZE) as O1. rewrite E1 in O1. simpl in O1. subst err1.
  change (negb (ESP_OK =? ESP_OK)) with false. cbv iota. cbn [snd].
  rewrite (proj2 (selection_access f1 (info p) i (entry_bytes e) Hd Hi ltac:(rewrite length_entry_bytes by done; lia))).
  destruct (esp_flash_write f1 _ _ _) as [err2 f2] eqn:E2.
  pose proof (write_succeeds f1 (entry_bytes e) (entry_offset (info p) i)) as O2. rewrite E2 in O2. simpl in O2. by subst err2.
Qed.

(** The sequence numbers in use leave room for one more update. *)
Definition seqs_in_range (two : otadata) (n : Z) : Prop :=
  forall i, i = 0 \/ i = 1 -> valid_entry (entry_of two i) = true ->
    1 <= ota_seq (entry_of two i) /\ ota_seq (entry_of two i) + n < UINT32_MAX.

(** Which entry is rewritten, and with which sequence number. *)
Lemma rewrite_ota_data_spec st p n k :
  let two := entries (os_flash st) p in
  has_slots st p n -> (forall x, is_byte (flash_view (os_flash st) x)) -> seqs_in_range two n -> 0 <= k < n ->
  exists i sq,
    esp_rewrite_ota_data st (16 + k) =
      Some (ESP_OK, with_flash st (torn_rewrite (os_flash st) (info p) i (new_entry (entry_of two i) sq) 32)) /\
    (i = 0 \/ i = 1) /\ 1 <= sq < UINT32_MAX /\ slot_of_seq sq n = k /\
    (valid_entry (entry_of two (1 - i)) = true -> outranked i (ota_seq (entry_of two (1 - i))) sq) /\
    (forall i0, i0 = 0 \/ i0 = 1 -> selects two i0 -> slot_of_seq (ota_seq (entry_of two i0)) n <> k ->
       i = 1 - i0 /\ ota_seq (entry_of two i0) < sq < ota_seq (entry_of two i0) + n).
Proof using P crc_u32.
  intros two (Hf & Hd & Hn & Hpos) Hb Hseq Hk. pose proof (app_count_spec st n Hn) as (Hn16 & _ & _).
  unfold esp_rewrite_ota_data. rewrite (read_otadata_plain st p Hf Hd), Hn. cbn [mbind option_bind]. fold two.
  rewrite ota_slot_of by lia. destruct (Z.leb_spec n k); [lia|].
  set (active := bootloader_common_get_active_otadata esp_rom_crc32_le (@Some otadata two)).
  assert (active = -1 /\ valid_entry two.1 = false /\ valid_entry two.2 = false \/
          (active = 0 \/ active = 1) /\ selects two active) as Hact.
  { unfold active. pose proof (select_otadata_max two.1 two.2 (valid_entry two.1) (valid_entry two.2)) as Hm.
    unfold selects, outranked.
    change (bootloader_common_select_otadata _ _ true) with active in Hm. fold active.
    destruct Hm as [?|[(E & H0 & H1)|(E & H0 & H1)]]; [by left|right..]; rewrite E; by auto. }
  assert (forall i sq, i = 0 \/ i = 1 -> 1 <= sq < UINT32_MAX ->
    (let (err, f) := rewrite_ota_seq (os_flash st) (Some (upd_entry two i (set_ota_state set_new_state_otadata))) sq i (info p)
     in Some (err, with_flash st f)) =
    Some (ESP_OK, with_flash st (torn_rewrite (os_flash st) (info p) i (new_entry (entry_of two i) sq) 32))) as Hrw.
  { intros i sq Hi Hs. unfold two. rewrite rewrite_ota_seq_spec; try done; [apply new_state_u32|]. unfold is_u32, UINT32_MAX in *. lia. }
  clearbody active. destruct Hact as [(-> & Hv0 & Hv1)|(Ha & Hsel)].
  - cbn [Z.eqb negb Pos.eqb Z.add]. exists 0, (k + 1). cbv beta iota. rewrite Hrw by (unfold UINT32_MAX; lia).
    unfold slot_of_seq. replace (k + 1 - 1) with k by lia. rewrite u32_small, Z.mod_small by lia.
    split_and!; auto; try (unfold UINT32_MAX; lia).
    + change (entry_of two (1 - 0)) with two.2. congruence.
    + intros i0 [->| ->] [Hv _]; [change (entry_of two 0) with two.1 in Hv|change (entry_of two 1) with two.2 in Hv]; congruence.
  - assert (forall i0, i0 = 0 \/ i0 = 1 -> selects two i0 -> i0 = active) as Huniq.
    { intros i0 Hi0 Hs0. destruct (selects_active two i0 Hi0 Hs0) as [<- _].
      by destruct (selects_active two active Ha Hsel) as [-> _]. }
    pose proof Hsel as [Hv Hrank]. destruct (Hseq active Ha Hv) as [Hq1 Hq2].
    destruct (Z.eqb_spec active (-1)); [lia|]. cbn [negb]. fold (slot_of_seq (ota_seq (entry_of two active)) n).
    destruct (Z.eqb_spec (slot_of_seq (ota_seq (entry_of two active)) n) k) as [Es|Es].
    + exists active, (ota_seq (entry_of two active)). rewrite Hrw by lia. split_and!; auto; try lia.
      intros i0 Hi0 Hs0 Hne. by rewrite (Huniq i0 Hi0 Hs0) in Hne.
    + destruct (seq_for_slot (ota_seq (entry_of two active)) k n) as (sq & -> & Hlt & Hslot & _);
        try done; try (unfold UINT32_MAX in *; lia).
      cbn [mbind option_bind]. exists (1 - active), sq. rewrite Hrw by lia.
      replace (1 - (1 - active)) with active by lia. split_and!; auto; try lia.
      * intros _. unfold outranked. destruct (_ =? 0); lia.
      * intros i0 Hi0 Hs0 _. rewrite (Huniq i0 Hi0 Hs0). lia.
Qed.

Lemma set_boot_partition_rewrites st q k :
  type q = ESP_PARTITION_TYPE_APP -> subtype q = 16 + k -> 0 <= k ->
  image_verify (os_flash st) (address q) (size q) = true ->
  esp_ota_set_boot_partition st (Some q) = esp_rewrite_ota_data st (16 + k).
Proof.
  intros Hty Hsub Hk Hv. unfold esp_ota_set_boot_partition, image_validate. rewrite Hv, Hty, Hsub. simpl negb. cbv iota.
  rewrite Z.eqb_refl. unfold ESP_PARTITION_SUBTYPE_APP_FACTORY. by destruct (Z.eqb_spec (16 + k) 0); [lia|].
Qed.

(** The rewritten entry, once complete, is the one a boot follows. *)
Lemma rewritten_selects f p i sq : otadata_ok (info p) -> (forall x, is_byte (flash_view f x)) ->
  i = 0 \/ i = 1 -> 1 <= sq < UINT32_MAX ->
  let two := entries f p in
  (valid_entry (entry_of two (1 - i)) = true -> outranked i (ota_seq (entry_of two (1 - i))) sq) ->
  let f' := torn_rewrite f (info p) i (new_entry (entry_of two i) sq) 32 in
  selects (entries f' p) i /\ ota_seq (entry_of (entries f' p) i) = sq.
Proof using P crc_u32.
  intros Hd Hb Hi Hsq two Hother f'.
  assert (entry_ok (new_entry (entry_of two i) sq)) as He.
  { apply new_entry_ok; [|unfold is_u32, UINT32_MAX in *; lia]. unfold two. rewrite entries_entry by done. by apply read_entry_ok. }
  unfold selects, f'. rewrite torn_rewrite_entry, torn_rewrite_other by (done || lia). split; [|done].
  split; [|exact Hother]. apply new_entry_valid. lia.
Qed.

(** C36: after [esp_ota_set_boot_partition] of a verified image in slot [k], which
    succeeds, [esp_ota_get_boot_partition] is slot [k], whatever entries the selection
    partition held, provided the sequence numbers of those that are valid are at least
    1 and, with the number of slots added, below 2^32 - 1. *)
Theorem set_then_get_boot_partition st p n q k :
  has_slots st p n -> (forall x, is_byte (flash_view (os_flash st) x)) ->
  seqs_in_range (entries (os_flash st) p) n ->
  type q = ESP_PARTITION_TYPE_APP -> subtype q = 16 + k -> 0 <= k < n ->
  image_verify (os_flash st) (address q) (size q) = true ->
  exists st', esp_ota_set_boot_partition st (Some q) = Some (ESP_OK, st') /\
    esp_ota_get_boot_partition st' = Some (find_app st (subtype q)).
Proof using P crc_u32.
  intros Hs Hb Hseq Hty Hsub Hk Hv. rewrite (set_boot_partition_rewrites st q k) by (done || lia).
  destruct (rewrite_ota_data_spec st p n k Hs Hb Hseq Hk) as (i & sq & -> & Hi & Hsq & Hslot & Hother & _).
  eexists. split; [done|]. pose proof Hs as (_ & Hd & _).
  destruct (rewritten_selects (os_flash st) p i sq Hd Hb Hi Hsq Hother) as [Hsel Eq].
  rewrite (get_boot_selects st _ p n i Hs Hi Hsel), Eq, Hslot, Hsub. done.
Qed.

(** ** Power loss during the switch *)

Lemma bytes32_load32 m a : (forall x, is_byte (m x)) -> bytes32 (load32 m a) = load_bytes m a 4.
Proof.
  intros H. unfold load32, bytes32, load_bytes. simpl.
  change (Z.of_nat 1) with 1. change (Z.of_nat 2) with 2. change (Z.of_nat 3) with 3. rewrite Z.add_0_r.
  pose proof (H a). pose proof (H (a + 1)). pose proof (H (a + 2)). pose proof (H (a + 3)). unfold is_byte in *.
  set (b0 := m a) in *. set (b1 := m (a + 1)) in *. set (b2 := m (a + 2)) in *. set (b3 := m (a + 3)) in *.
  clearbody b0 b1 b2 b3.
  assert (forall q b d, 0 <= b < d -> (b + d * q) / d = q /\ (b + d * q) mod d = b) as Hdm.
  { intros q b d Hbd. rewrite (Z.mul_comm d), Z.div_add, Z.mod_add, Z.div_small, Z.mod_small by lia. lia. }
  destruct (Hdm (b1 + 256 * b2 + 65536 * b3) b0 256 ltac:(lia)) as [_ M0].
  destruct (Hdm (b1 + 256 * (b2 + 256 * b3)) b0 256 ltac:(lia)) as [D1 _].
  destruct (Hdm (b2 + 256 * b3) b1 256 ltac:(lia)) as [_ M1].
  destruct (Hdm (b2 + 256 * b3) (b0 + 256 * b1) 65536 ltac:(lia)) as [D2 _].
  destruct (Hdm b3 b2 256 ltac:(lia)) as [_ M2].
  destruct (Hdm b3 (b0 + 256 * b1 + 65536 * b2) 16777216 ltac:(lia)) as [D3 _].
  set (w := b0 + 256 * b1 + 65536 * b2 + 16777216 * b3).
  replace (b0 + 256 * (b1 + 256 * b2 + 65536 * b3)) with w in M0 by (unfold w; lia).
  replace (b0 + 256 * (b1 + 256 * (b2 + 256 * b3))) with w in D1 by (unfold w; lia).
  replace (b0 + 256 * b1 + 65536 * (b2 + 256 * b3)) with w in D2 by (unfold w; lia).
  change (b0 + 256 * b1 + 65536 * b2 + 16777216 * b3) with w in D3.
  rewrite D1, D2, D3, M0, M1, M2, (Z.mod_small b3) by lia. done.
Qed.

(** What a partly written entry reads back as. *)
Lemma torn_entry_seq f p i e j : otadata_ok (info p) -> (forall x, is_byte (flash_view f x)) ->
  i = 0 \/ i = 1 -> entry_ok e -> (j <= 32)%nat ->
  let t := entry_of (entries (torn_rewrite f (info p) i e j) p) i in
  ((j < 4)%nat -> crc t = UINT32_MAX /\ bytes32 (ota_seq t) = take j (bytes32 (ota_seq e)) ++ repeat 255 (4 - j)) /\
  ((4 <= j)%nat -> ota_seq t = ota_seq e).
Proof.
  intros Hd Hb Hi He Hj t. unfold t. rewrite entries_entry by done. set (o := entry_offset (info p) i).
  set (m := flash_view (torn_rewrite f (info p) i e j)).
  assert (forall l, (l < 32)%nat -> m (o + Z.of_nat l) = if (l <? j)%nat then nth l (entry_bytes e) 0 else 255) as Hm.
  { intros l Hl. unfold m. rewrite torn_rewrite_spec by done. fold o.
    assert (in_range o SPI_FLASH_SEC_SIZE (o + Z.of_nat l) = true) as -> by (rewrite in_range_true; unfold SPI_FLASH_SEC_SIZE; lia).
    replace (Z.to_nat (o + Z.of_nat l - o)) with l by lia.
    destruct (Nat.ltb_spec l j), (in_range o (Z.of_nat j) (o + Z.of_nat l)) eqn:R;
      rewrite ?in_range_true, ?in_range_false in R; done || lia. }
  assert (forall x, is_byte (m x)) as Hmb.
  { intros x. unfold m. rewrite torn_rewrite_spec by done. destruct (in_range _ SPI_FLASH_SEC_SIZE x); [|apply Hb].
    destruct (in_range _ _ x) eqn:R; [|by unfold is_byte]. apply in_range_true in R.
    pose proof (entry_bytes_bytes e He) as Hbs. rewrite Forall_nth in Hbs. apply Hbs. rewrite length_entry_bytes by done. lia. }
  split; intros Hj4; cbn [read_select_entry crc ota_seq].
  - split.
    + unfold load32. replace (o + 28) with (o + Z.of_nat 28) by lia. rewrite (Hm 28%nat) by lia.
      replace (o + Z.of_nat 28 + 1) with (o + Z.of_nat 29) by lia. rewrite (Hm 29%nat) by lia.
      replace (o + Z.of_nat 28 + 2) with (o + Z.of_nat 30) by lia. rewrite (Hm 30%nat) by lia.
      replace (o + Z.of_nat 28 + 3) with (o + Z.of_nat 31) by lia. rewrite (Hm 31%nat) by lia.
      repeat match goal with |- context [(?a <? j)%nat] => destruct (Nat.ltb_spec a j); [lia|] end. done.
    + rewrite bytes32_load32 by done. apply load_bytes_nth.
      { rewrite length_app, length_take, repeat_length, length_bytes32. lia. }
      rewrite length_app, length_take, repeat_length, length_bytes32. intros l Hl. rewrite Hm by lia.
      unfold entry_bytes. destruct (Nat.ltb_spec l j).
      * rewrite app_nth1 by (rewrite length_bytes32; lia).
        rewrite app_nth1 by (rewrite length_take, length_bytes32; lia).
        rewrite <- (take_drop j (bytes32 (ota_seq e))) at 1. by rewrite app_nth1 by (rewrite length_take, length_bytes32; lia).
      * rewrite app_nth2 by (rewrite length_take, length_bytes32; lia). rewrite length_take, length_bytes32.
        rewrite nth_repeat_lt by lia. done.
  - destruct He as [He _ _ _]. apply load32_bytes; [done|]. intros l Hl. rewrite Hm by lia.
    destruct (Nat.ltb_spec l j); [|lia]. unfold entry_bytes. by rewrite app_nth1 by (rewrite length_bytes32; lia).
Qed.

Lemma with_own_flash st : with_flash st (os_flash st) = st.
Proof. by destruct st. Qed.

(** C1: switching to another slot is safe against power loss: if the chip is cut
    off after the sector was erased and any prefix of the entry was written, the
    boot partition is the old one or the new one.  (The checksum must not take
    the erased value on a half-written sequence number.) *)
Theorem boot_switch_survives_power_loss st p n q k i0 :
  let cur := ota_seq (entry_of (entries (os_flash st) p) i0) in
  has_slots st p n -> (forall x, is_byte (flash_view (os_flash st) x)) ->
  seqs_in_range (entries (os_flash st) p) n ->
  type q = ESP_PARTITION_TYPE_APP -> subtype q = 16 + k -> 0 <= k < n ->
  image_verify (os_flash st) (address q) (size q) = true ->
  i0 = 0 \/ i0 = 1 -> selects (entries (os_flash st) p) i0 -> slot_of_seq cur n <> k ->
  (forall s j, cur < s < cur + n -> (j < 4)%nat ->
     esp_rom_crc32_le (take j (bytes32 s) ++ repeat 255 (4 - j)) <> UINT32_MAX) ->
  exists i e,
    esp_ota_set_boot_partition st (Some q) = Some (ESP_OK, with_flash st (torn_rewrite (os_flash st) (info p) i e 32)) /\
    forall j, (j <= 32)%nat ->
      let boot := esp_ota_get_boot_partition (with_flash st (torn_rewrite (os_flash st) (info p) i e j)) in
      boot = esp_ota_get_boot_partition st \/ boot = Some (find_app st (subtype q)).
Proof using P crc_u32.
  intros cur Hs Hb Hseq Hty Hsub Hk Hv Hi0 Hsel Hne Hcrc. rewrite (set_boot_partition_rewrites st q k) by (done || lia).
  destruct (rewrite_ota_data_spec st p n k Hs Hb Hseq Hk) as (i & sq & -> & Hi & Hsq & Hslot & Hother & Hlt).
  destruct (Hlt i0 Hi0 Hsel Hne) as [-> Hcur]. fold cur in Hcur. clear Hlt.
  set (e := new_entry _ sq). exists (1 - i0), e. split; [done|]. intros j Hj boot. pose proof Hs as (_ & Hd & _).
  assert (entry_ok e) as He.
  { apply new_entry_ok; [|unfold is_u32, UINT32_MAX in *; lia]. rewrite entries_entry by done. by apply read_entry_ok. }
  set (f' := torn_rewrite (os_flash st) (info p) (1 - i0) e j) in *.
  assert (entry_of (entries f' p) i0 = entry_of (entries (os_flash st) p) i0) as Eold.
  { replace i0 with (1 - (1 - i0)) by lia. by apply torn_rewrite_other. }
  destruct (torn_entry_seq (os_flash st) p (1 - i0) e j Hd Hb Hi He Hj) as [Hlow Hhigh]. fold f' in Hlow, Hhigh.
  destruct (valid_entry (entry_of (entries f' p) (1 - i0))) eqn:Evalid.
  - right. assert (4 <= j)%nat as Hj4.
    { destruct (Nat.le_gt_cases 4 j) as [|Hj4]; [done|]. destruct (Hlow Hj4) as [Ec Eb]. exfalso.
      apply (Hcrc sq j Hcur Hj4). change (bytes32 sq) with (bytes32 (ota_seq e)). rewrite <- Eb, <- Ec.
      unfold valid_entry, bootloader_common_ota_select_valid in Evalid. apply andb_true_iff in Evalid as [_ Evalid].
      apply Z.eqb_eq in Evalid. done. }
    specialize (Hhigh Hj4). change (ota_seq e) with sq in Hhigh.
    unfold boot. rewrite (get_boot_selects st f' p n (1 - i0) Hs Hi).
    + rewrite Hhigh, Hslot, Hsub. done.
    + split; [done|]. replace (1 - (1 - i0)) with i0 by lia. intros _. rewrite Eold, Hhigh. fold cur.
      unfold outranked. destruct (_ =? 0); lia.
  - left. unfold boot. rewrite (get_boot_selects st f' p n i0 Hs Hi0).
    + rewrite <- (with_own_flash st) at 2. rewrite (get_boot_selects st (os_flash st) p n i0 Hs Hi0 Hsel), Eold. done.
    + destruct Hsel as [Hval _]. split; [by rewrite Eold|]. rewrite Evalid. done.
Qed.

(** ** The app and the bootloader follow the same entry *)

(** C38: with a partition table that both read alike, flash not encrypted, and no entry
    awaiting confirmation with rollback enabled, the slot the bootloader selects is the
    partition that [esp_ota_get_boot_partition] reports, in every other state of the
    entries. *)
Theorem app_agrees_with_bootloader st p n bs :
  esp_flash_encryption_enabled = false ->
  has_slots st p n -> (forall x, is_byte (flash_view (os_flash st) x)) ->
  otadata_partition_ok bs -> offset (ota_info bs) = address (info p) -> app_count bs = n ->
  (offset (factory bs) = 0 <-> find_app st ESP_PARTITION_SUBTYPE_APP_FACTORY = None) ->
  (forall i, i = 0 \/ i = 1 ->
     rollback && (ota_state (entry_of (entries (os_flash st) p) i) =? ESP_OTA_IMG_PENDING_VERIFY) = false) ->
  exists i f' initial,
    bootloader_utility_get_selected_boot_partition esp_rom_crc32_le esp_flash_encryption_enabled rollback (os_flash st) bs
      = (i, f', initial) /\
    esp_ota_get_boot_partition st =
      Some (if i =? FACTORY_INDEX then find_default_boot_partition st
            else find_app st (ESP_PARTITION_SUBTYPE_APP_OTA_MIN + i)).
Proof using P.
  intros Henc (Hf & Hd & Hn & Hpos) Hb Hbs Hoff Hcnt Hfac Hpend. set (two := entries (os_flash st) p) in *.
  assert (holds (os_flash st) bs two) as Hh.
  { unfold holds. rewrite Hoff. split_and!; try done; apply read_entry_ok; done. }
  destruct (get_selected_refines esp_rom_crc32_le esp_flash_encryption_enabled rollback Henc _ _ _ Hbs Hh)
    as (f' & initial & -> & _).
  eexists _, _, _. split; [done|]. unfold boot_step, abort_if_pending.
  pose proof (Hpend 0 ltac:(by left)) as Hp0. pose proof (Hpend 1 ltac:(by right)) as Hp1.
  change (entry_of two 0) with two.1 in Hp0. change (entry_of two 1) with two.2 in Hp1. rewrite Hp0, Hp1, Hcnt.
  change (two.1, two.2) with two.
  unfold esp_ota_get_boot_partition. rewrite (read_otadata_plain st p Hf Hd), Hn. cbn [mbind option_bind]. fold two.
  change (fst (?a, two)) with a.
  destruct (_ || _).
  - destruct (Z.eqb_spec (offset (factory bs)) 0) as [E|E]; simpl; [|done].
    apply Hfac in E. unfold find_default_boot_partition. rewrite E. simpl.
    pose proof (app_count_spec st n Hn) as (_ & Hsl & _). specialize (Hsl 0 ltac:(lia)). simpl in Hsl.
    unfold ESP_PARTITION_SUBTYPE_APP_OTA_MIN. change (16 + 0) with 16 in *. by destruct (find_app st 16).
  - destruct (negb _); [|done]. simpl.
    unfold slot_of. rewrite Hcnt. set (sl := u32 _ mod n).
    assert (0 <= sl) by (apply Z.mod_pos_bound; lia). unfold FACTORY_INDEX.
    destruct (Z.eqb_spec sl (-1)); [lia|done].
Qed.

(** ** Confirming and rejecting the running image *)

Lemma workable_rewrite st p n i e s :
  has_slots st p n -> (forall x, is_byte (flash_view (os_flash st) x)) -> i = 0 \/ i = 1 -> is_u32 s ->
  e = entry_of (entries (os_flash st) p) i ->
  rewrite_ota_seq (os_flash st) (Some (upd_entry (entries (os_flash st) p) i (set_ota_state s))) (ota_seq e) i (info p) =
    (ESP_OK, torn_rewrite (os_flash st) (info p) i (sealed_entry e s (ota_seq e)) 32) /\
  entry_ok (sealed_entry e s (ota_seq e)).
Proof.
  intros (_ & Hd & _) Hb Hi Hs ->. assert (entry_ok (entry_of (entries (os_flash st) p) i)) as He.
  { rewrite entries_entry by done. by apply read_entry_ok. }
  pose proof He as [Hq _ _ _]. split; [by apply rewrite_ota_seq_spec|by apply sealed_entry_ok].
Qed.

(** Confirming the running image succeeds, marks its entry valid, and keeps
    it the boot partition. *)
Theorem mark_app_valid_keeps_boot_partition st p n i :
  has_slots st p n -> (forall x, is_byte (flash_view (os_flash st) x)) -> i = 0 \/ i = 1 ->
  selects (entries (os_flash st) p) i ->
  exists st', esp_ota_mark_app_valid_cancel_rollback st = Some (ESP_OK, st') /\
    ota_state (entry_of (entries (os_flash st') p) i) = ESP_OTA_IMG_VALID /\
    esp_ota_get_boot_partition st' = esp_ota_get_boot_partition st.
Proof using P crc_u32.
  intros Hs Hb Hi Hsel. pose proof Hs as (Hf & Hd & Hn & Hpos).
  unfold esp_ota_mark_app_valid_cancel_rollback, esp_ota_current_ota_is_workable.
  rewrite (read_otadata_plain st p Hf Hd). destruct (selects_active _ i Hi Hsel) as [-> _].
  destruct (Z.eqb_spec i (-1)); [lia|]. rewrite Hn. cbn [mbind option_bind negb andb].
  destruct (Z.eqb_spec n 0); [lia|]. cbn [negb andb]. set (e := entry_of (entries (os_flash st) p) i).
  destruct (Z.eqb_spec (ota_state e) ESP_OTA_IMG_VALID) as [Est|Est]; cbn [negb]; [by exists st|].
  destruct (workable_rewrite st p n i e ESP_OTA_IMG_VALID Hs Hb Hi) as [-> He]; [by unfold is_u32, ESP_OTA_IMG_VALID|done|].
  eexists. split; [done|]. set (e' := sealed_entry _ _ _) in *. set (f' := torn_rewrite _ _ _ _ _).
  assert (entry_of (entries f' p) i = e') as Ei by by apply torn_rewrite_entry.
  assert (entry_of (entries f' p) (1 - i) = entry_of (entries (os_flash st) p) (1 - i)) as Eo by by apply torn_rewrite_other.
  cbn [os_flash with_flash]. split; [by rewrite Ei|].
  rewrite (get_boot_selects st f' p n i Hs Hi).
  - rewrite <- (with_own_flash st) at 2. rewrite (get_boot_selects st (os_flash st) p n i Hs Hi Hsel), Ei. done.
  - destruct Hsel as [Hv Hr]. split; [|by rewrite Ei, Eo]. rewrite Ei.
    unfold valid_entry, bootloader_common_ota_select_valid, bootloader_common_ota_select_invalid in *.
    fold e in Hv. simpl. unfold bootloader_common_ota_select_crc. simpl. rewrite Z.eqb_refl.
    by destruct (ota_seq e =? UINT32_MAX).
Qed.

(** Rejecting the running image, when a rollback is possible, succeeds and
    leaves as boot partition another one whose image verifies. *)
Theorem mark_app_invalid_rolls_back st p n i :
  has_slots st p n -> (forall x, is_byte (flash_view (os_flash st) x)) -> i = 0 \/ i = 1 ->
  selects (entries (os_flash st) p) i -> esp_ota_check_rollback_is_possible st = Some true ->
  let other := entry_of (entries (os_flash st) p) (1 - i) in
  exists st' q, esp_ota_mark_app_invalid_rollback st = Some (ESP_OK, st') /\
    esp_ota_get_boot_partition st' = Some (Some q) /\
    image_verify (os_flash st) (address (info q)) (size (info q)) = true /\
    Some q = (if valid_entry other then find_app st (ESP_PARTITION_SUBTYPE_APP_OTA_MIN + slot_of_seq (ota_seq other) n)
              else find_app st ESP_PARTITION_SUBTYPE_APP_FACTORY).
Proof using P crc_u32.
  intros Hs Hb Hi Hsel Hposs other. pose proof Hs as (Hf & Hd & Hn & Hpos).
  unfold esp_ota_mark_app_invalid_rollback, esp_ota_current_ota_is_workable. rewrite Hposs.
  unfold esp_ota_check_rollback_is_possible in Hposs.
  rewrite (read_otadata_plain st p Hf Hd) in Hposs |- *. destruct (selects_active _ i Hi Hsel) as [Hact _].
  rewrite Hact. destruct (Z.eqb_spec i (-1)); [lia|]. rewrite Hn in Hposs |- *.
  cbn [mbind option_bind negb andb] in Hposs |- *. destruct (Z.eqb_spec n 0); [lia|]. cbn [negb andb].
  change (bootloader_common_select_otadata _ _ true) with
    (bootloader_common_get_active_otadata esp_rom_crc32_le (Some (entries (os_flash st) p))) in Hposs.
  rewrite Hact in Hposs. destruct (Z.eqb_spec i (-1)); [lia|].
  fold valid_entry other in Hposs. set (e := entry_of (entries (os_flash st) p) i).
  destruct (workable_rewrite st p n i e ESP_OTA_IMG_INVALID Hs Hb Hi) as [-> He]; [by unfold is_u32, ESP_OTA_IMG_INVALID|done|].
  set (e' := sealed_entry _ _ _) in *. set (f' := torn_rewrite _ _ _ _ _).
  assert (entry_of (entries f' p) i = e') as Ei by by apply torn_rewrite_entry.
  assert (entry_of (entries f' p) (1 - i) = other) as Eo by by apply torn_rewrite_other.
  assert (valid_entry e' = false) as Hinv.
  { unfold valid_entry, bootloader_common_ota_select_valid, bootloader_common_ota_select_invalid. simpl. by rewrite orb_true_r. }
  unfold image_validate in Hposs. destruct (valid_entry other) eqn:Eother; cbn [negb andb] in Hposs |- *.
  - fold (slot_of_seq (ota_seq other) n) in Hposs.
    destruct (find_app st (ESP_PARTITION_SUBTYPE_APP_OTA_MIN + slot_of_seq (ota_seq other) n)) as [q|] eqn:Eq; [|done].
    exists (with_flash st f'), q. split_and!; try done.
    + rewrite (get_boot_selects st f' p n (1 - i) Hs); [by rewrite Eo, Eq|lia|].
      split; [by rewrite Eo|]. replace (1 - (1 - i)) with i by lia. rewrite Ei, Hinv. done.
    + by destruct (image_verify _ _ _).
  - destruct (find_app st ESP_PARTITION_SUBTYPE_APP_FACTORY) as [q|] eqn:Eq; [|done].
    exists (with_flash st f'), q. split_and!; try done; [|by destruct (image_verify _ _ _)].
    assert (find_default_boot_partition (with_flash st f') = Some q) as Hdef.
    { unfold find_default_boot_partition. change (find_app (with_flash st f')) with (find_app st). by rewrite Eq. }
    unfold esp_ota_get_boot_partition. rewrite (read_otadata_plain (with_flash st f') p) by done.
    unfold esp_ota_get_app_partition_count in *. rewrite count_apps_with_flash, Hn. cbn [mbind option_bind].
    rewrite Hdef. change (os_flash (with_flash st f')) with f'. destruct (_ || _); [done|].
    assert (bootloader_common_get_active_otadata esp_rom_crc32_le (Some (entries f' p)) = -1) as ->; [|done].
    pose proof (select_otadata_max (entries f' p).1 (entries f' p).2 (valid_entry (entries f' p).1) (valid_entry (entries f' p).2)) as Hm.
    cbv zeta in Hm. destruct Hi as [->| ->]; unfold entry_of in Ei, Eo; simpl in Ei, Eo;
      change (bootloader_common_get_active_otadata esp_rom_crc32_le (Some (entries f' p))) with
        (bootloader_common_select_otadata (Some ((entries f' p).1, (entries f' p).2))
           (Some (valid_entry (entries f' p).1, valid_entry (entries f' p).2)) true);
      change (entries f' p).1 with (read_select_entry (flash_view f') (address (info p))) in *;
      change (entries f' p).2 with (read_select_entry (flash_view f') (address (info p) + SPI_FLASH_SEC_SIZE)) in *;
      rewrite Ei, Eo, Hinv, Eother in *; destruct Hm as [[? _]|[(_ & ? & _)|(_ & ? & _)]]; done.
Qed.

End plain.

(** ** The next slot to update *)

Lemma next_update_none m : forall st t start d b,
  (forall j, 0 <= j < Z.of_nat m -> find_app st (t + j) = None) ->
  next_update_from m st t start d b = d.
Proof.
  induction m as [|m IH]; intros st t start d b H; simpl; [done|].
  pose proof (H 0 ltac:(lia)) as H0. rewrite Z.add_0_r in H0. rewrite H0. apply IH.
  intros j Hj. replace (t + 1 + j) with (t + (j + 1)) by lia. apply H. lia.
Qed.

(** The walk over contiguous slots, from slot [c] up to the one to find, [k]. *)
Lemma next_update_walk m : forall st n c k start d,
  Z.of_nat m = 16 - c -> 0 <= c <= k -> k < n <= 16 -> find_app st (16 + k) = Some start ->
  (forall j, 0 <= j < n -> find_app st (16 + j) <> None) ->
  (forall j, n <= j < 16 -> find_app st (16 + j) = None) ->
  (forall j x, 0 <= j < n -> j <> k -> find_app st (16 + j) = Some x -> same_ptr x start = false) ->
  (if c =? 0 then d = None else d = find_app st 16) ->
  next_update_from m st (16 + c) start d false = find_app st (16 + (k + 1) mod n).
Proof.
  induction m as [|m IH]; intros st n c k start d Hm Hc Hk Hst Hall Hnone Hptr Hd; [lia|]. simpl.
  destruct (find_app st (16 + c)) as [q|] eqn:Eq; [|exfalso; apply (Hall c); [lia|done]].
  assert ((match d with None => Some q | Some _ => d end) = find_app st 16) as Edef.
  { destruct (Z.eqb_spec c 0) as [->|]; [by rewrite Hd, <- Eq|]. rewrite Hd.
    destruct (find_app st 16) eqn:E16; [done|]. exfalso. by apply (Hall 0); [lia|]. }
  destruct (Z.eq_dec c k) as [->|Hne].
  - rewrite Hst in Eq. simplify_eq. unfold same_ptr at 1. rewrite Z.eqb_refl.
    replace (16 + k + 1) with (16 + (k + 1)) by lia. rewrite Edef.
    destruct (Z.eq_dec (k + 1) n) as [En|En].
    + rewrite En, Z_mod_same_full, Z.add_0_r. apply next_update_none.
      intros j Hj. replace (16 + n + j) with (16 + (n + j)) by lia. apply Hnone. lia.
    + rewrite Z.mod_small by lia. destruct m as [|m]; [lia|]. simpl.
      destruct (find_app st (16 + (k + 1))) as [r|] eqn:Er; [|exfalso; apply (Hall (k + 1)); [lia|done]].
      by rewrite (Hptr (k + 1) r) by (done || lia).
  - rewrite (Hptr c q) by (done || lia). replace (16 + c + 1) with (16 + (c + 1)) by lia.
    rewrite Edef. apply IH; try done; try lia. by destruct (Z.eqb_spec (c + 1) 0); [lia|].
Qed.

(** Updates go round the OTA slots: after slot [k] of [n] comes slot [k+1],
    after the last slot 0, never the given one unless it is the only one. *)
Theorem next_update_partition_cycles st n k q start :
  esp_ota_get_app_partition_count st = Some n -> 0 <= k < n ->
  (forall j, n <= j < 16 -> find_app st (16 + j) = None) ->
  (forall i j x y, 0 <= i < n -> 0 <= j < n ->
     find_app st (16 + i) = Some x -> find_app st (16 + j) = Some y -> item_ptr x = item_ptr y -> i = j) ->
  find_app st (16 + k) = Some start -> verify_in (os_table st) q = Some start ->
  esp_ota_get_next_update_partition st (Some q) = Some (find_app st (16 + (k + 1) mod n)) /\
  find_app st (16 + (k + 1) mod n) <> None /\ (1 < n -> find_app st (16 + (k + 1) mod n) <> Some start).
Proof.
  intros Hn Hk Hnone Hinj Hst Hver. pose proof (app_count_spec st n Hn) as (Hn16 & Hall & _).
  pose proof (Z.mod_pos_bound (k + 1) n ltac:(lia)) as Hb.
  unfold esp_ota_get_next_update_partition. rewrite Hver. cbn [mbind option_bind]. split_and!.
  - f_equal. change ESP_PARTITION_SUBTYPE_APP_OTA_0 with (16 + 0).
    apply next_update_walk; try done; try lia. intros j x Hj Hne Hx. unfold same_ptr.
    destruct (Z.eqb_spec (item_ptr x) (item_ptr start)); [|done]. exfalso. apply Hne. by eapply (Hinj j k).
  - by apply Hall.
  - intros H1 E. pose proof (Hinj _ _ _ _ Hb Hk E Hst eq_refl) as Hm.
    destruct (Z.eq_dec (k + 1) n) as [En|En]; [rewrite En, Z_mod_same_full in Hm; lia|].
    rewrite Z.mod_small in Hm by lia. lia.
Qed.

(** ** Sequential writes *)

Section writes.
Context {P : PlainFlash S}.
Hypothesis no_encryption : esp_flash_encryption_enabled = false.

(** An unencrypted partition of whole sectors on the default chip. *)
Record target_ok (p : esp_partition_t) : Prop := {
  tg_chip : flash_chip p = esp_flash_default_chip;
  tg_plain : encrypted p = false;
  tg_writable : readonly p = false;
  tg_erase : erase_size p = SPI_FLASH_SEC_SIZE;
  tg_size : 0 <= address p /\ 0 <= size p /\ address p + size p < 4294967296 - SPI_FLASH_SEC_SIZE;
  tg_sectors : size p mod SPI_FLASH_SEC_SIZE = 0 }.

(** The next sector boundary. *)
Definition sector_up (z : Z) : Z := (z + 4095) / 4096 * 4096.

Lemma sector_up_bounds z : z <= sector_up z < z + 4096 /\ sector_up z mod 4096 = 0.
Proof.
  clear image_verify. unfold sector_up. rewrite Z_mod_mult. split; [|done]. Z.div_mod_to_equations. lia.
Qed.

Lemma sector_up_le z s : z <= s -> s mod 4096 = 0 -> sector_up z <= s.
Proof. clear image_verify. intros H1 H2. unfold sector_up. Z.div_mod_to_equations. lia. Qed.

Lemma sector_up_mono z z' : z <= z' -> sector_up z <= sector_up z'.
Proof. clear image_verify. intros H. unfold sector_up. pose proof (Z.div_le_mono (z + 4095) (z' + 4095) 4096). lia. Qed.

(** What is erased before a write: from the first boundary not passed yet. *)
Lemma erase_ahead_range f it sz : let p := info (staging it) in let w := wrote_size it in
  target_ok p -> 0 <= w -> 0 < sz -> w + sz <= size p ->
  erase_ahead f it sz =
    if sector_up w =? sector_up (w + sz) then (ESP_OK, f)
    else esp_flash_erase_region f esp_flash_default_chip (address p + sector_up w) (sector_up (w + sz) - sector_up w).
Proof.
  clear image_verify. intros p w [H1 H2 H3 H4 H5 H6] Hw Hsz Hle. unfold erase_ahead. fold p w. rewrite H4. unfold SPI_FLASH_SEC_SIZE in *.
  rewrite (u32_small (w + sz - 1)) by lia.
  pose proof (sector_up_bounds w) as [B1 M1]. pose proof (sector_up_bounds (w + sz)) as [B2 M2].
  pose proof (sector_up_le (w + sz) (size p) Hle H6) as L2.
  pose proof (sector_up_mono w (w + sz) ltac:(lia)) as Hmono.
  assert (forall o l, o = sector_up w -> l = sector_up (w + sz) - sector_up w ->
    esp_partition_erase_range f p (u32 o) (u32 l) =
      esp_flash_erase_region f esp_flash_default_chip (address p + sector_up w) (sector_up (w + sz) - sector_up w)) as Her.
  { intros o l -> ->. rewrite !u32_small by lia. unfold esp_partition_erase_range, check_region. rewrite H3, H1.
    destruct (Z.ltb_spec (size p) (sector_up w)); [lia|]. rewrite (u32_small (size p - sector_up w)) by lia.
    destruct (Z.ltb_spec (size p - sector_up w) (sector_up (w + sz) - sector_up w)); [lia|].
    change (negb (ESP_OK =? ESP_OK)) with false. cbv iota. unfold SPI_FLASH_SEC_SIZE.
    rewrite Zminus_mod, M1, M2. simpl. by rewrite u32_small by lia. }
  assert (w mod 4096 = 0 -> sector_up w = w /\ sector_up (w + sz) = ((w + sz - 1) / 4096 + 1) * 4096 /\ w = w / 4096 * 4096) as Ha.
  { intros Hm. unfold sector_up. Z.div_mod_to_equations. lia. }
  assert (w mod 4096 <> 0 -> sector_up w = (w / 4096 + 1) * 4096 /\ sector_up (w + sz) = ((w + sz - 1) / 4096 + 1) * 4096) as Hb.
  { intros Hm. unfold sector_up. Z.div_mod_to_equations. lia. }
  destruct (Z.eqb_spec (w mod 4096) 0) as [E|E].
  - destruct (Ha E) as (E1 & E2 & E3). destruct (Z.eqb_spec (sector_up w) (sector_up (w + sz))); [lia|].
    rewrite <- (Her w (((w + sz - 1) / 4096 - w / 4096 + 1) * 4096)) by lia. by rewrite (u32_small w) by lia.
  - destruct (Hb E) as (E1 & E2). destruct (Z.eqb_spec (w / 4096) ((w + sz - 1) / 4096)) as [E3|E3]; simpl.
    + destruct (Z.eqb_spec (sector_up w) (sector_up (w + sz))); [done|lia].
    + destruct (Z.eqb_spec (sector_up w) (sector_up (w + sz))); [lia|]. apply Her; lia.
Qed.

(** The flash holds [data] from [a] on and is erased up to the boundary. *)
Definition written (f : S) (a : Z) (data : list Z) : Prop :=
  (forall i, (i < length data)%nat -> flash_view f (a + Z.of_nat i) = nth i data 0) /\
  (forall x, a + Z.of_nat (length data) <= x < a + sector_up (Z.of_nat (length data)) -> flash_view f x = 255).

Lemma erase_ahead_spec f it sz data : let p := info (staging it) in
  target_ok p -> wrote_size it = Z.of_nat (length data) -> 0 < sz -> wrote_size it + sz <= size p ->
  written f (address p) data ->
  exists f', erase_ahead f it sz = (ESP_OK, f') /\
    (forall x, address p + wrote_size it <= x < address p + sector_up (wrote_size it + sz) -> flash_view f' x = 255) /\
    (forall x, x < address p + wrote_size it \/ address p + size p <= x -> flash_view f' x = flash_view f x).
Proof.
  intros p Hp Hw Hsz Hle [_ Herased]. rewrite <- Hw in Herased. pose proof Hp as [_ _ _ _ _ H6].
  rewrite erase_ahead_range by (done || lia). fold p. set (w := wrote_size it) in *.
  pose proof (sector_up_bounds w) as [B1 _]. pose proof (sector_up_le (w + sz) (size p) Hle H6) as L2.
  pose proof (sector_up_mono w (w + sz) ltac:(lia)) as Hmono.
  destruct (Z.eqb_spec (sector_up w) (sector_up (w + sz))) as [E|E].
  - exists f. split_and!; try done. intros x Hx. apply Herased. lia.
  - destruct (esp_flash_erase_region f _ _ _) as [err f'] eqn:Ee.
    pose proof (erase_succeeds f (address p + sector_up w) (sector_up (w + sz) - sector_up w)) as O. rewrite Ee in O.
    simpl in O. subst err. exists f'. split; [done|]. split; intros x Hx; rewrite ?view_plain.
    + destruct (Z.lt_ge_cases x (address p + sector_up w)).
      * rewrite (erase_frame _ _ _ _ _ _ _ _ Ee) by (right; rewrite in_range_false; lia).
        rewrite <- view_plain. apply Herased. lia.
      * apply (erase_erases _ _ _ _ _ _ Ee). rewrite in_range_true. lia.
    + rewrite (erase_frame _ _ _ _ _ _ _ _ Ee) by (right; rewrite in_range_false; lia). done.
Qed.

Lemma partition_write_spec f p w chunk : target_ok p -> 0 <= w -> w + Z.of_nat (length chunk) <= size p ->
  Forall is_byte chunk ->
  (forall x, address p + w <= x < address p + w + Z.of_nat (length chunk) -> flash_view f x = 255) ->
  exists f', esp_partition_write f p w chunk = (ESP_OK, f') /\
    (forall i, (i < length chunk)%nat -> flash_view f' (address p + w + Z.of_nat i) = nth i chunk 0) /\
    (forall x, x < address p + w \/ address p + w + Z.of_nat (length chunk) <= x -> flash_view f' x = flash_view f x).
Proof.
  intros [H1 H2 H3 H4 H5 H6] Hw Hle Hb Her. unfold esp_partition_write, check_region. rewrite H1, H2, H3. unfold SPI_FLASH_SEC_SIZE in *.
  destruct (Z.ltb_spec (size p) w); [lia|]. rewrite (u32_small (size p - w)) by lia.
  destruct (Z.ltb_spec (size p - w) (Z.of_nat (length chunk))); [lia|].
  change (negb (ESP_OK =? ESP_OK)) with false. cbn [negb]. rewrite u32_small by lia.
  destruct (esp_flash_write f _ _ _) as [err f'] eqn:Ew.
  pose proof (write_succeeds f chunk (address p + w)) as O. rewrite Ew in O. simpl in O. subst err.
  exists f'. split; [done|]. split.
  - intros i Hi. rewrite view_plain, (write_clears _ _ _ _ _ _ Ew) by (rewrite in_range_true; lia).
    rewrite <- view_plain, Her by lia. replace (Z.to_nat (address p + w + Z.of_nat i - (address p + w))) with i by lia.
    apply land_255. rewrite Forall_nth in Hb. by apply Hb.
  - intros x Hx. rewrite !view_plain. apply (write_frame _ _ _ _ _ _ _ _ Ew). right. by rewrite in_range_false.
Qed.

(** The state of a sequential update: [data] is in flash, nothing else changed. *)
Definition writing (st0 st : ota_state_t) (h : Z) (it : ota_ops_entry_t) (data : list Z) : Prop :=
  get_ota_ops_entry st h = Some (ops_with_wrote it (Z.of_nat (length data))) /\
  written (os_flash st) (address (info (staging it))) data /\
  forall x, x < address (info (staging it)) \/ address (info (staging it)) + size (info (staging it)) <= x ->
    flash_view (os_flash st) x = flash_view (os_flash st0) x.

Lemma lookup_replace h e l : handle e = h -> lookup_entry h l <> None ->
  lookup_entry h (replace_entry h e l) = Some e.
Proof.
  intros He. induction l as [|x l IH]; simpl; [done|]. destruct (Z.eqb_spec (handle x) h) as [E|E]; simpl.
  - by rewrite (proj2 (Z.eqb_eq _ _) He).
  - intros Hl. apply Z.eqb_neq in E. by rewrite E, IH.
Qed.

Lemma write_step st0 st h it data chunk : handle it = h -> need_erase it = true -> target_ok (info (staging it)) ->
  writing st0 st h it data -> chunk <> [] -> Forall is_byte chunk ->
  Z.of_nat (length (data ++ chunk)) <= size (info (staging it)) ->
  (data = [] -> first_bytes_ok (ops_with_wrote it 0) chunk = true) ->
  exists st', esp_ota_write st h (Some chunk) = (ESP_OK, st') /\ writing st0 st' h it (data ++ chunk).
Proof.
  intros Hh Hne Hp (Hl & Hwr & Hfr) Hc Hb Hle Hfirst. rewrite length_app in Hle.
  assert (0 < Z.of_nat (length chunk)) as Hlen by (destruct chunk; [done|simpl; lia]).
  unfold esp_ota_write. destruct (Z.eqb_spec (Z.of_nat (length chunk)) 0); [lia|]. rewrite Hl.
  set (it' := ops_with_wrote it (Z.of_nat (length data))) in *. change (need_erase it') with (need_erase it). rewrite Hne.
  destruct (erase_ahead_spec (os_flash st) it' (Z.of_nat (length chunk)) data) as (f1 & -> & Her & Hfr1);
    try done; [simpl; lia|]. change (negb (ESP_OK =? ESP_OK)) with false. cbv iota.
  assert (first_bytes_ok it' chunk = true) as ->.
  { destruct data as [|d0 dd]; [by apply Hfirst|]. unfold first_bytes_ok, it'. cbn [wrote_size ops_with_wrote].
    by destruct (Z.eqb_spec (Z.of_nat (length (d0 :: dd))) 0); [simpl in *; lia|]. }
  cbn [negb]. rewrite no_encryption. cbn [os_flash with_flash].
  change (staging it') with (staging it) in *. change (wrote_size it') with (Z.of_nat (length data)) in *.
  set (p := info (staging it)) in *. set (w := Z.of_nat (length data)) in *.
  pose proof (sector_up_bounds (w + Z.of_nat (length chunk))) as [B _].
  destruct (partition_write_spec f1 p w chunk Hp) as (f2 & -> & Hdat & Hfr2); try done; try lia.
  { intros x Hx. apply Her. lia. }
  rewrite Z.eqb_refl. eexists. split; [done|].
  pose proof Hp as [_ _ _ _ H5 _]. unfold SPI_FLASH_SEC_SIZE in H5. rewrite u32_small by lia.
  split_and!; cbn [os_flash set_entry with_entries with_flash]; fold p.
  - unfold get_ota_ops_entry, set_entry. cbn [s_ota_ops_entries with_entries with_flash].
    change (handle (ops_with_wrote it' _)) with (handle it).
    rewrite Hh, lookup_replace; [|done|unfold get_ota_ops_entry in Hl; by rewrite Hl].
    unfold it', ops_with_wrote. simpl. rewrite length_app. do 2 f_equal. lia.
  - destruct Hwr as [Hd _]. split.
    + intros i Hi. rewrite length_app in Hi. destruct (Nat.lt_ge_cases i (length data)) as [Hi2|Hi2].
      * rewrite app_nth1 by done. rewrite Hfr2, Hfr1 by lia. by apply Hd.
      * rewrite app_nth2 by done. rewrite <- Hdat by lia. f_equal. lia.
    + intros x. rewrite length_app, Nat2Z.inj_add. fold w. intros Hx. rewrite Hfr2 by lia. apply Her. lia.
  - intros x Hx. rewrite Hfr2, Hfr1 by lia. by apply Hfr.
Qed.

(** A caller that stops at the first error. *)
Fixpoint write_all (st : ota_state_t) (h : Z) (chunks : list (list Z)) : esp_err_t * ota_state_t :=
  match chunks with
  | [] => (ESP_OK, st)
  | c :: cs =>
      let (err, st) := esp_ota_write st h (Some c) in
      if negb (err =? ESP_OK) then (err, st) else write_all st h cs
  end.

Lemma write_all_spec chunks : forall st0 st h it data,
  handle it = h -> need_erase it = true -> target_ok (info (staging it)) -> writing st0 st h it data ->
  Forall (fun c => c <> [] /\ Forall is_byte c) chunks ->
  Z.of_nat (length (data ++ concat chunks)) <= size (info (staging it)) ->
  (data = [] -> forall c cs, chunks = c :: cs -> first_bytes_ok (ops_with_wrote it 0) c = true) ->
  exists st', write_all st h chunks = (ESP_OK, st') /\ writing st0 st' h it (data ++ concat chunks).
Proof.
  induction chunks as [|c cs IH]; intros st0 st h it data Hh Hne Hp Hw Hcs Hle Hfirst; cbn [write_all concat] in *.
  - rewrite app_nil_r. by exists st.
  - inversion Hcs as [|? ? [Hc Hb] Hcs']; subst. rewrite app_assoc in Hle |- *.
    destruct (write_step st0 st (handle it) it data c) as (st1 & -> & Hw1); try done.
    { rewrite length_app in Hle. lia. } { intros ->. by eapply Hfirst. }
    change (negb (ESP_OK =? ESP_OK)) with false. cbv iota. apply IH; try done.
    intros Hnil. exfalso. apply app_eq_nil in Hnil as [_ Hnil]. done.
Qed.

(** C29: without flash encryption, an image written in any chunks with sequential
    erasing is in flash byte for byte, whatever the partition held before, and no byte
    outside the partition has changed. *)
Theorem sequential_write_stores_image st h it chunks :
  get_ota_ops_entry st h = Some it -> handle it = h -> need_erase it = true -> wrote_size it = 0 ->
  target_ok (info (staging it)) ->
  Forall (fun c => c <> [] /\ Forall is_byte c) chunks ->
  Z.of_nat (length (concat chunks)) <= size (info (staging it)) ->
  (forall c cs, chunks = c :: cs -> first_bytes_ok it c = true) ->
  let p := info (staging it) in
  exists st', write_all st h chunks = (ESP_OK, st') /\
    load_bytes (flash_view (os_flash st')) (address p) (Z.of_nat (length (concat chunks))) = concat chunks /\
    (forall x, x < address p \/ address p + size p <= x -> flash_view (os_flash st') x = flash_view (os_flash st) x) /\
    get_ota_ops_entry st' h = Some (ops_with_wrote it (Z.of_nat (length (concat chunks)))).
Proof.
  intros Hl Hh Hne Hw Hp Hcs Hle Hfirst p.
  assert (ops_with_wrote it 0 = it) as Hit by (destruct it; simpl in *; by subst).
  destruct (write_all_spec chunks st st h it []) as (st' & -> & H1 & [H2 _] & H3); try done.
  - split_and!; [by rewrite Hl; f_equal|split; simpl; intros; [lia|]|done].
    exfalso. change (sector_up (Z.of_nat 0)) with 0 in *. lia.
  - intros _. by rewrite Hit.
  - exists st'. split_and!; try done. apply load_bytes_nth; done.
Qed.

End writes.
End ota.

(** ** Witnesses: a selection partition and two slots *)

(** A stand-in for the ROM's CRC. *)
Definition demo_checksum (l : list Z) : Z := foldl (fun a b => (a * 31 + b) mod 65521) 1 l.

Lemma demo_checksum_u32 l : is_u32 (demo_checksum l).
Proof.
  unfold demo_checksum. destruct l as [|b l] using rev_ind; [done|]. rewrite foldl_app. simpl. unfold is_u32.
  pose proof (Z.mod_pos_bound (foldl (fun a b => (a * 31 + b) mod 65521) 1 l * 31 + b) 65521). lia.
Qed.

Definition demo_otadata : esp_partition_t := mkPartition 1 1 0 4096 8192 4096 [] false false.
Definition demo_ota_0 : esp_partition_t := mkPartition 1 0 16 65536 65536 4096 [] false false.
Definition demo_ota_1 : esp_partition_t := mkPartition 1 0 17 131072 65536 4096 [] false false.
Definition demo_item : partition_list_item_t := mkItem 100 demo_otadata false.

Definition demo_active : esp_ota_select_entry_t :=
  mkEntry 5 (repeat 255 20) ESP_OTA_IMG_VALID (demo_checksum (bytes32 5)).

(** Entry 1 selects slot 0; entry 0 is erased. *)
Definition demo_flash : nor_flash := mkNor (fun x =>
  if in_range 8192 32 x then nth (Z.to_nat (x - 8192)) (entry_bytes demo_active) 255 else 255).

Definition demo_ota_state : ota_state_t :=
  mkOta demo_flash [demo_item; mkItem 200 demo_ota_0 false; mkItem 300 demo_ota_1 false]
    [mkOps 1 (mkItem 300 demo_ota_1 false) (mkItem 300 demo_ota_1 false) false true 0 0 false (repeat 0 16)] 1 0 true.

Lemma demo_has_slots : has_slots demo_ota_state demo_item 2.
Proof. split_and!; [by vm_compute| |by vm_compute|lia]. split; try by vm_compute. Qed.

Lemma demo_flash_bytes x : is_byte (flash_view (os_flash demo_ota_state) x).
Proof.
  change (flash_view (os_flash demo_ota_state) x) with (nor_bytes demo_flash x). unfold demo_flash. cbn [nor_bytes].
  destruct (in_range 8192 32 x); [|by unfold is_byte].
  destruct (nth_in_or_default (Z.to_nat (x - 8192)) (entry_bytes demo_active) 255) as [H| ->]; [|by unfold is_byte].
  assert (Forall is_byte (entry_bytes demo_active)) as Hall by (repeat constructor; by vm_compute).
  rewrite List.Forall_forall in Hall. by apply Hall.
Qed.

Lemma demo_seqs_in_range : seqs_in_range demo_checksum (entries (os_flash demo_ota_state) demo_item) 2.
Proof. intros i [->| ->] H; [by vm_compute in H|by vm_compute]. Qed.

Definition demo_verify : nor_flash -> Z -> Z -> bool := fun _ a _ => a =? 131072.

Lemma compute_ota_seq_least_witness :
  exists s, compute_ota_seq_for_target_slot 5 7 8 = Some s /\ 5 < s < 5 + 8 /\ slot_of_seq s 8 = 7 /\
    forall s', 5 < s' < s -> slot_of_seq s' 8 <> 7.
Proof. apply (compute_ota_seq_least 5 7 8); try lia. by vm_compute. Defined.

Lemma set_then_get_boot_partition_witness :
  exists st', esp_ota_set_boot_partition demo_checksum true demo_verify demo_ota_state (Some demo_ota_1) = Some (ESP_OK, st') /\
    esp_ota_get_boot_partition demo_checksum st' = Some (find_app demo_ota_state (subtype demo_ota_1)).
Proof.
  apply (set_then_get_boot_partition demo_checksum true demo_verify demo_checksum_u32 demo_ota_state demo_item 2 demo_ota_1 1);
    [exact demo_has_slots|exact demo_flash_bytes|exact demo_seqs_in_range|done|done|lia|done].
Defined.

Lemma boot_switch_survives_power_loss_witness :
  exists i e,
    esp_ota_set_boot_partition demo_checksum true demo_verify demo_ota_state (Some demo_ota_1) =
      Some (ESP_OK, with_flash demo_ota_state (torn_rewrite (os_flash demo_ota_state) demo_otadata i e 32)) /\
    forall j, (j <= 32)%nat ->
      let boot := esp_ota_get_boot_partition demo_checksum
                    (with_flash demo_ota_state (torn_rewrite (os_flash demo_ota_state) demo_otadata i e j)) in
      boot = esp_ota_get_boot_partition demo_checksum demo_ota_state \/
      boot = Some (find_app demo_ota_state (subtype demo_ota_1)).
Proof.
  apply (boot_switch_survives_power_loss demo_checksum true demo_verify demo_checksum_u32 demo_ota_state demo_item 2 demo_ota_1 1 1);
    [exact demo_has_slots|exact demo_flash_bytes|exact demo_seqs_in_range|done|done|lia|done|by right|by split; vm_compute|by vm_compute|].
  intros s j _ Hj E. pose proof (demo_checksum_u32 (take j (bytes32 s) ++ repeat 255 (4 - j))) as H.
  unfold demo_checksum in E. destruct (take j (bytes32 s) ++ repeat 255 (4 - j)) as [|b l] using rev_ind; [done|].
  rewrite foldl_app in E. simpl in E. unfold UINT32_MAX in E.
  pose proof (Z.mod_pos_bound (foldl (fun a b => (a * 31 + b) mod 65521) 1 l * 31 + b) 65521). lia.
Defined.

Lemma app_agrees_with_bootloader_witness :
  exists i f' initial,
    bootloader_utility_get_selected_boot_partition demo_checksum false true (os_flash demo_ota_state) demo_bs = (i, f', initial) /\
    esp_ota_get_boot_partition demo_checksum demo_ota_state =
      Some (if i =? FACTORY_INDEX then find_default_boot_partition demo_ota_state
            else find_app demo_ota_state (ESP_PARTITION_SUBTYPE_APP_OTA_MIN + i)).
Proof.
  apply (app_agrees_with_bootloader demo_checksum false true demo_ota_state demo_item 2 demo_bs);
    [done|exact demo_has_slots|exact demo_flash_bytes|by vm_compute|done|done|by vm_compute|].
  by intros i [->| ->]; vm_compute.
Defined.

Lemma next_update_partition_cycles_witness :
  esp_ota_get_next_update_partition 65536 demo_ota_state (Some demo_ota_1) =
    Some (find_app demo_ota_state (16 + (1 + 1) mod 2)) /\
  find_app demo_ota_state (16 + (1 + 1) mod 2) <> None /\
  (1 < 2 -> find_app demo_ota_state (16 + (1 + 1) mod 2) <> Some (mkItem 300 demo_ota_1 false)).
Proof.
  apply (next_update_partition_cycles 65536 demo_ota_state 2 1 demo_ota_1 (mkItem 300 demo_ota_1 false));
    [by vm_compute|lia| | |by vm_compute|by vm_compute].
  - intros j Hj. destruct (decide (j = 2 \/ j = 3 \/ j = 4 \/ j = 5 \/ j = 6 \/ j = 7 \/ j = 8 \/ j = 9)).
    + naive_solver.
    + assert (j = 10 \/ j = 11 \/ j = 12 \/ j = 13 \/ j = 14 \/ j = 15) as Hj' by lia. naive_solver.
  - intros i j x y Hi Hj Hx Hy E.
    assert ((i = 0 \/ i = 1) /\ (j = 0 \/ j = 1)) as [[->| ->] [->| ->]] by lia; try done;
      vm_compute in Hx, Hy; simplify_eq; by vm_compute in E.
Defined.

Lemma sequential_write_stores_image_witness :
  exists st', write_all false demo_ota_state 1 [[0xE9; 1; 2]; [3; 4]] = (ESP_OK, st') /\
    load_bytes (flash_view (os_flash st')) 131072 5 = [0xE9; 1; 2; 3; 4] /\
    (forall x, x < 131072 \/ 131072 + 65536 <= x -> flash_view (os_flash st') x = flash_view demo_flash x) /\
    get_ota_ops_entry st' 1 = Some (mkOps 1 (mkItem 300 demo_ota_1 false) (mkItem 300 demo_ota_1 false) false true 5 0 false (repeat 0 16)).
Proof.
  apply (sequential_write_stores_image (S := nor_flash) false eq_refl demo_ota_state 1
           (mkOps 1 (mkItem 300 demo_ota_1 false) (mkItem 300 demo_ota_1 false) false true 0 0 false (repeat 0 16))
           [[0xE9; 1; 2]; [3; 4]]); try done.
  - repeat constructor; by vm_compute.
  - by intros c cs [= <- <-].
Defined.

(** After the first boot of an update to slot 1: entry 0 awaits confirmation. *)
Definition demo_pending : esp_ota_select_entry_t :=
  mkEntry 6 (repeat 255 20) ESP_OTA_IMG_PENDING_VERIFY (demo_checksum (bytes32 6)).
Definition demo_pending_flash : nor_flash := mkNor (fun x =>
  if in_range 4096 32 x then nth (Z.to_nat (x - 4096)) (entry_bytes demo_pending) 255 else nor_bytes demo_flash x).
Definition demo_pending_state : ota_state_t := with_flash demo_ota_state demo_pending_flash.

Lemma demo_pending_bytes x : is_byte (flash_view (os_flash demo_pending_state) x).
Proof.
  change (flash_view (os_flash demo_pending_state) x) with (nor_bytes demo_pending_flash x).
  unfold demo_pending_flash. cbn [nor_bytes]. destruct (in_range 4096 32 x); [|apply demo_flash_bytes].
  destruct (nth_in_or_default (Z.to_nat (x - 4096)) (entry_bytes demo_pending) 255) as [H| ->]; [|by unfold is_byte].
  assert (Forall is_byte (entry_bytes demo_pending)) as Hall by (repeat constructor; by vm_compute).
  rewrite List.Forall_forall in Hall. by apply Hall.
Qed.

Definition demo_verify_0 : nor_flash -> Z -> Z -> bool := fun _ a _ => a =? 65536.

Lemma mark_app_valid_keeps_boot_partition_witness :
  exists st', esp_ota_mark_app_valid_cancel_rollback demo_checksum demo_verify_0 demo_pending_state = Some (ESP_OK, st') /\
    ota_state (entry_of (entries (os_flash st') demo_item) 0) = ESP_OTA_IMG_VALID /\
    esp_ota_get_boot_partition demo_checksum st' = esp_ota_get_boot_partition demo_checksum demo_pending_state.
Proof.
  apply (mark_app_valid_keeps_boot_partition demo_checksum demo_verify_0 demo_checksum_u32 demo_pending_state demo_item 2 0);
    [exact demo_has_slots|exact demo_pending_bytes|by left|by split; vm_compute].
Defined.

Lemma mark_app_invalid_rolls_back_witness :
  exists st' q, esp_ota_mark_app_invalid_rollback demo_checksum demo_verify_0 demo_pending_state = Some (ESP_OK, st') /\
    esp_ota_get_boot_partition demo_checksum st' = Some (Some q) /\
    demo_verify_0 (os_flash demo_pending_state) (address (info q)) (size (info q)) = true /\
    Some q = find_app demo_pending_state 16.
Proof.
  destruct (mark_app_invalid_rolls_back demo_checksum demo_verify_0 demo_checksum_u32 demo_pending_state demo_item 2 0)
    as (st' & q & H1 & H2 & H3 & H4);
    [exact demo_has_slots|exact demo_pending_bytes|by left|by split; vm_compute|by vm_compute|].
  exists st', q. split_and!; [exact H1|exact H2|exact H3|]. etransitivity; [exact H4|by vm_compute].
Defined.

(** ** Findings *)

(** Encrypted sequential writes of 4088 and 12 bytes: the last, partial block
    is written by [esp_ota_end] at 4096, in a sector never erased, over the old
    contents (here zero). *)
Definition demo_secret : partition_list_item_t := mkItem 300 (mkPartition 1 3 17 131072 65536 4096 [] true false) false.
Definition demo_secret_state : ota_state_t :=
  mkOta (mkNor (fun _ => 0)) [demo_secret]
    [mkOps 1 demo_secret (mkItem 300 (mkPartition 1 1 6 131072 65536 4096 [] true false) false) false true 0 0 false (repeat 0 16)]
    1 0 true.

Lemma final_block_in_unerased_sector :
  (let (err, st) := write_all true demo_secret_state 1 [repeat 233 4088; repeat 233 12] in
   let! (err2, st) := esp_ota_end (fun l => l) 4194304 (fun _ _ _ => true) 0 0 [] st 1 in
   Some (err, err2, flash_view (os_flash st) (131072 + 4095), flash_view (os_flash st) (131072 + 4096)))
  = Some (ESP_OK, ESP_OK, 233, 0).
Proof. vm_compute. reflexivity. Qed.

(** Sixteen OTA slots and a test partition, whose subtype follows the last
    slot's: the count's assertion fails. *)
Definition demo_full_table : list partition_list_item_t :=
  map (fun i => mkItem (100 + Z.of_nat i) (mkPartition 1 0 (16 + Z.of_nat i) (65536 * Z.of_nat (Datatypes.S i)) 65536 4096 [] false false) false)
    (seq 0 17).

Lemma count_asserts_with_test_partition :
  esp_ota_get_app_partition_count (mkOta demo_flash demo_full_table [] 0 0 true) = None /\
  esp_ota_get_app_partition_count (mkOta demo_flash (take 16 demo_full_table) [] 0 0 true) = Some 16.
Proof. split; vm_compute; reflexivity. Qed.

(** An image size near [2^32] rounds up to 0: nothing is erased, and no error. *)
Lemma begin_huge_image_erases_nothing :
  (let! (err, h, st) := esp_ota_begin demo_checksum false 65536
      (mkOta (mkNor (fun _ => 0)) (os_table demo_ota_state) [] 0 0 true) (Some demo_ota_1) 0xFFFFFFFD false true in
   Some (err, h, flash_view (os_flash st) 131072)) = Some (ESP_OK, Some 1, 0).
Proof. vm_compute. reflexivity. Qed.

(** The loop stops at equality, where the comment above it says greater. *)
Lemma seq_search_not_strict : compute_ota_seq_for_target_slot 5 4 8 = Some 5.
Proof. vm_compute. reflexivity. Qed.

(** Selecting the current slot again erases its entry first: cut off there, the
    chip boots another slot. *)
Definition demo_slot_1_entry : esp_ota_select_entry_t :=
  mkEntry 6 (repeat 255 20) ESP_OTA_IMG_VALID (demo_checksum (bytes32 6)).
Definition demo_slot_1_state : ota_state_t :=
  mkOta (mkNor (fun x => if in_range 8192 32 x then nth (Z.to_nat (x - 8192)) (entry_bytes demo_slot_1_entry) 255 else 255))
    (os_table demo_ota_state) [] 0 0 true.

Lemma reselecting_slot_not_atomic :
  let boot st := let! p := esp_ota_get_boot_partition demo_checksum st in Some (from_option item_ptr 0 p) in
  boot demo_slot_1_state = Some 300 /\
  (let! (err, st) := esp_ota_set_boot_partition demo_checksum true demo_verify demo_slot_1_state (Some demo_ota_1) in
   boot st) = Some 300 /\
  boot (with_flash demo_slot_1_state (torn_rewrite (os_flash demo_slot_1_state) demo_otadata 1 demo_slot_1_entry 0)) = Some 200.
Proof. split_and!; vm_compute; reflexivity. Qed.

(** Of two rejected entries the older one is reported as the last. *)
Lemma last_invalid_is_the_older :
  let rejected sq := mkEntry sq (repeat 255 20) ESP_OTA_IMG_INVALID (demo_checksum (bytes32 sq)) in
  get_last_invalid_otadata demo_checksum (rejected 5, rejected 6) = 0.
Proof. vm_compute. reflexivity. Qed.
