(* ===== verification/EspEvent.v ===== *)
(** * Event loops (esp_event/esp_event.c)

    Registration of event handlers, posting, and the dispatch of posted events.

    A loop keeps its handlers on three levels of singly linked lists: loop nodes
    hold the handlers of all events, their base nodes those of one base, their id
    nodes those of one event.  A list is a Rocq list in the order of its links; a
    handler node is kept with the context it owns, whose address identifies the
    registration ([calloc] results are a list argument: the addresses the next
    calls return, NULL for none).

    Each function runs, as in the code, while its task has the loop's mutex;
    [mutex_holder] is the task that has it between the steps: the one that
    dispatches an event, or one that waits with it for room in the queue.  The
    queue is used through its contract (a bounded FIFO list of posts, theorem
    queue_is_fifo): a sender that finds it full and may wait is in [senders], and
    is served or timed out later.  [received] is the local variable [post] of
    esp_event_loop_run, and [happened] records what the loop did, for the theorems:
    it is no part of the structure.

    The options are those of the firmware: CONFIG_ESP_EVENT_POST_FROM_ISR set,
    CONFIG_ESP_EVENT_LOOP_PROFILING not set. *)

From stdpp Require Import base list option gmap.
From Stdlib Require Import ZArith Lia.
From S2P Require Import Prelude FreeRTOSList Kernel.

(** Event bases are addresses of strings: NULL, the two of esp_event.c, and those
    of the users. *)
Inductive esp_event_base_t :=
  | ESP_EVENT_ANY_BASE
  | esp_event_any_base
  | esp_event_handler_cleanup
  | event_base (name : Z).

#[export] Instance esp_event_base_dec : EqDecision esp_event_base_t.
Proof. solve_decision. Defined.

Definition ESP_EVENT_ANY_ID : Z := -1.

(** ** The lists of handlers *)

Record esp_event_handler_node_t := mkHandler {
  handler_ctx : Z; handler : Z; arg : Z; unregistered : bool }.

Record esp_event_id_node_t := mkIdNode {
  id_node_id : Z; id_node_handlers : list esp_event_handler_node_t }.

Record esp_event_base_node_t := mkBaseNode {
  base_node_base : esp_event_base_t;
  base_node_handlers : list esp_event_handler_node_t;
  id_nodes : list esp_event_id_node_t }.

Record esp_event_loop_node_t := mkLoopNode {
  loop_node_handlers : list esp_event_handler_node_t;
  base_nodes : list esp_event_base_node_t }.

(** A request to remove a handler: by the address of its context, or, in the
    legacy functions, by the handler function [rm_handler]. *)
Record esp_event_remove_handler_context_t := mkRemove {
  rm_base : esp_event_base_t; rm_id : Z; rm_ctx : Z; rm_handler : Z; rm_legacy : bool }.

(** ** Posts

    The data of a post: none, up to four bytes kept in the post itself, or a copy
    on the heap, of bytes or of a removal request. *)
Inductive esp_event_post_data_t :=
  | data_none
  | data_val (bytes : list Z)
  | data_ptr (bytes : list Z)
  | data_remove (ctx : esp_event_remove_handler_context_t).

Record esp_event_post_instance_t := mkPost {
  post_base : esp_event_base_t; post_id : Z; post_data : esp_event_post_data_t }.

(** A task that waits for room in the queue; [holds_mutex] if it has the mutex
    of the loop meanwhile. *)
Record sender := mkSender {
  sender_task : Z; sender_post : esp_event_post_instance_t; sender_ticks : Z; holds_mutex : bool }.

Inductive happening :=
  | Accepted (post : esp_event_post_instance_t)
  | Invoked (h : esp_event_handler_node_t) (post : esp_event_post_instance_t)
  | Dispatched (post : esp_event_post_instance_t)
  | Registered (mem : list Z) (nodes : list esp_event_loop_node_t)
  | Unregistered (instance : Z).

Record esp_event_loop_instance_t := mkLoop {
  queue : list esp_event_post_instance_t;
  queue_size : nat;
  senders : list sender;
  task : Z;
  running_task : Z;
  mutex_holder : Z;
  loop_nodes : list esp_event_loop_node_t;
  received : option esp_event_post_instance_t;
  happened : list happening }.

Definition with_queue (q : list esp_event_post_instance_t) (s : esp_event_loop_instance_t) :=
  mkLoop q (queue_size s) (senders s) (task s) (running_task s) (mutex_holder s) (loop_nodes s) (received s) (happened s).
Definition with_senders (l : list sender) (s : esp_event_loop_instance_t) :=
  mkLoop (queue s) (queue_size s) l (task s) (running_task s) (mutex_holder s) (loop_nodes s) (received s) (happened s).
Definition with_running (t : Z) (s : esp_event_loop_instance_t) :=
  mkLoop (queue s) (queue_size s) (senders s) (task s) t (mutex_holder s) (loop_nodes s) (received s) (happened s).
Definition with_holder (t : Z) (s : esp_event_loop_instance_t) :=
  mkLoop (queue s) (queue_size s) (senders s) (task s) (running_task s) t (loop_nodes s) (received s) (happened s).
Definition with_nodes (l : list esp_event_loop_node_t) (s : esp_event_loop_instance_t) :=
  mkLoop (queue s) (queue_size s) (senders s) (task s) (running_task s) (mutex_holder s) l (received s) (happened s).
Definition with_received (p : option esp_event_post_instance_t) (s : esp_event_loop_instance_t) :=
  mkLoop (queue s) (queue_size s) (senders s) (task s) (running_task s) (mutex_holder s) (loop_nodes s) p (happened s).
Definition with_happened (e : happening) (s : esp_event_loop_instance_t) :=
  mkLoop (queue s) (queue_size s) (senders s) (task s) (running_task s) (mutex_holder s) (loop_nodes s) (received s) (happened s ++ [e]).

(** ** Adding a handler *)

Definition calloc (mem : list Z) : Z * list Z :=
  match mem with [] => (NULL, []) | a :: mem => (a, mem) end.

(** The position of the handler's node and context in the list: behind the
    others, or, for the legacy functions, in place of the argument of the first
    node with the same handler. *)
Fixpoint overwrite_arg (l : list esp_event_handler_node_t) (event_handler event_handler_arg : Z) :
    option (list esp_event_handler_node_t) :=
  match l with
  | [] => None
  | it :: l =>
      if handler it =? event_handler
      then Some (mkHandler (handler_ctx it) (handler it) event_handler_arg (unregistered it) :: l)
      else match overwrite_arg l event_handler event_handler_arg with
           | Some l => Some (it :: l)
           | None => None
           end
  end.

(** The results of the functions that add a handler: the error, what is stored
    through [handler_ctx] (NULL if nothing is), the lists. *)
Definition handler_instances_add (mem : list Z) (handlers : list esp_event_handler_node_t)
    (event_handler event_handler_arg : Z) (legacy : bool) : esp_err_t * Z * list esp_event_handler_node_t :=
  let (handler_instance, mem) := calloc mem in
  if handler_instance =? NULL then (ESP_ERR_NO_MEM, NULL, handlers) else
  let (context, mem) := calloc mem in
  if context =? NULL then (ESP_ERR_NO_MEM, NULL, handlers) else
  match if legacy then overwrite_arg handlers event_handler event_handler_arg else None with
  | Some handlers => (ESP_OK, NULL, handlers)
  | None => (ESP_OK, context, handlers ++ [mkHandler context event_handler event_handler_arg false])
  end.

Definition slist_empty {A} (l : list A) : bool := match l with [] => true | _ => false end.

(** The last element that satisfies [f], and where it is. *)
Fixpoint find_last {A} (f : A -> bool) (l : list A) : option (nat * A) :=
  match l with
  | [] => None
  | x :: l => match find_last f l with
              | Some (i, y) => Some (S i, y)
              | None => if f x then Some (0%nat, x) else None
              end
  end.

Definition base_node_add_handler (mem : list Z) (base_node : esp_event_base_node_t) (id event_handler
    event_handler_arg : Z) (legacy : bool) : esp_err_t * Z * esp_event_base_node_t :=
  if id =? ESP_EVENT_ANY_ID then
    let '(err, instance, hs) := handler_instances_add mem (base_node_handlers base_node) event_handler event_handler_arg legacy in
    (err, instance, mkBaseNode (base_node_base base_node) hs (id_nodes base_node))
  else
    match find_last (fun it => id_node_id it =? id) (id_nodes base_node) with
    | None =>
        let (id_node, mem) := calloc mem in
        if id_node =? NULL then (ESP_ERR_NO_MEM, NULL, base_node) else
        let '(err, instance, hs) := handler_instances_add mem [] event_handler event_handler_arg legacy in
        if err =? ESP_OK
        then (err, instance, mkBaseNode (base_node_base base_node) (base_node_handlers base_node)
                     (id_nodes base_node ++ [mkIdNode id hs]))
        else (err, NULL, base_node)
    | Some (i, id_node) =>
        let '(err, instance, hs) := handler_instances_add mem (id_node_handlers id_node) event_handler event_handler_arg legacy in
        (err, instance, mkBaseNode (base_node_base base_node) (base_node_handlers base_node)
                (<[i := mkIdNode (id_node_id id_node) hs]> (id_nodes base_node)))
    end.

Definition loop_node_add_handler (mem : list Z) (loop_node : esp_event_loop_node_t) (base : esp_event_base_t)
    (id event_handler event_handler_arg : Z) (legacy : bool) : esp_err_t * Z * esp_event_loop_node_t :=
  if bool_decide (base = esp_event_any_base) && (id =? ESP_EVENT_ANY_ID) then
    let '(err, instance, hs) := handler_instances_add mem (loop_node_handlers loop_node) event_handler event_handler_arg legacy in
    (err, instance, mkLoopNode hs (base_nodes loop_node))
  else
    let new_base_node :=
      let (base_node, mem) := calloc mem in
      if base_node =? NULL then (ESP_ERR_NO_MEM, NULL, loop_node) else
      let '(err, instance, node) := base_node_add_handler mem (mkBaseNode base [] []) id event_handler event_handler_arg legacy in
      if err =? ESP_OK
      then (err, instance, mkLoopNode (loop_node_handlers loop_node) (base_nodes loop_node ++ [node]))
      else (err, NULL, loop_node) in
    match find_last (fun it => bool_decide (base_node_base it = base)) (base_nodes loop_node),
          find_last (fun _ => true) (base_nodes loop_node) with
    | Some (i, base_node), Some (_, last_base_node) =>
        if negb (slist_empty (id_nodes base_node)) && (id =? ESP_EVENT_ANY_ID) ||
           negb (bool_decide (base_node_base last_base_node = base)) &&
           negb (slist_empty (id_nodes last_base_node)) && (id =? ESP_EVENT_ANY_ID)
        then new_base_node
        else
          let '(err, instance, node) := base_node_add_handler mem base_node id event_handler event_handler_arg legacy in
          (err, instance, mkLoopNode (loop_node_handlers loop_node) (<[i := node]> (base_nodes loop_node)))
    | _, _ => new_base_node
    end.

(** The body of esp_event_handler_register_with_internal between taking and
    giving the mutex. *)
Definition loop_add_handler (mem : list Z) (nodes : list esp_event_loop_node_t) (event_base : esp_event_base_t)
    (event_id event_handler event_handler_arg : Z) (legacy : bool) : esp_err_t * Z * list esp_event_loop_node_t :=
  let is_loop_level_handler := bool_decide (event_base = esp_event_any_base) && (event_id =? ESP_EVENT_ANY_ID) in
  let new_loop_node :=
    let (loop_node, mem) := calloc mem in
    if loop_node =? NULL then (ESP_ERR_NO_MEM, NULL, nodes) else
    let '(err, instance, node) := loop_node_add_handler mem (mkLoopNode [] []) event_base event_id event_handler event_handler_arg legacy in
    if err =? ESP_OK then (err, instance, nodes ++ [node]) else (err, NULL, nodes) in
  match find_last (fun _ => true) nodes with
  | None => new_loop_node
  | Some (i, last_loop_node) =>
      if negb (slist_empty (base_nodes last_loop_node)) && is_loop_level_handler then new_loop_node else
      let '(err, instance, node) := loop_node_add_handler mem last_loop_node event_base event_id event_handler event_handler_arg legacy in
      (err, instance, <[i := node]> nodes)
  end.

(** ** Removing a handler *)

Definition same_handler (ctx : esp_event_remove_handler_context_t) (it : esp_event_handler_node_t) : bool :=
  if rm_legacy ctx then handler it =? rm_handler ctx else handler_ctx it =? rm_ctx ctx.

Fixpoint handler_instances_remove (ctx : esp_event_remove_handler_context_t)
    (handlers : list esp_event_handler_node_t) : esp_err_t * list esp_event_handler_node_t :=
  match handlers with
  | [] => (ESP_ERR_NOT_FOUND, [])
  | it :: l => if same_handler ctx it then (ESP_OK, l)
               else let (res, l) := handler_instances_remove ctx l in (res, it :: l)
  end.

Fixpoint id_nodes_remove_handler (ctx : esp_event_remove_handler_context_t) (l : list esp_event_id_node_t) :
    esp_err_t * list esp_event_id_node_t :=
  match l with
  | [] => (ESP_ERR_NOT_FOUND, [])
  | it :: l =>
      let (res, hs) := if id_node_id it =? rm_id ctx then handler_instances_remove ctx (id_node_handlers it)
                       else (ESP_ERR_NOT_FOUND, []) in
      if res =? ESP_OK then (ESP_OK, if slist_empty hs then l else mkIdNode (id_node_id it) hs :: l)
      else let (res, l) := id_nodes_remove_handler ctx l in (res, it :: l)
  end.

Definition base_node_remove_handler (ctx : esp_event_remove_handler_context_t) (base_node : esp_event_base_node_t) :
    esp_err_t * esp_event_base_node_t :=
  if rm_id ctx =? ESP_EVENT_ANY_ID then
    let (res, hs) := handler_instances_remove ctx (base_node_handlers base_node) in
    (res, mkBaseNode (base_node_base base_node) hs (id_nodes base_node))
  else
    let (res, ids) := id_nodes_remove_handler ctx (id_nodes base_node) in
    (res, mkBaseNode (base_node_base base_node) (base_node_handlers base_node) ids).

Fixpoint base_nodes_remove_handler (ctx : esp_event_remove_handler_context_t) (l : list esp_event_base_node_t) :
    esp_err_t * list esp_event_base_node_t :=
  match l with
  | [] => (ESP_ERR_NOT_FOUND, [])
  | it :: l =>
      let (res, node) := if bool_decide (base_node_base it = rm_base ctx) then base_node_remove_handler ctx it
                         else (ESP_ERR_NOT_FOUND, it) in
      if res =? ESP_OK
      then (ESP_OK, if slist_empty (base_node_handlers node) && slist_empty (id_nodes node) then l else node :: l)
      else let (res, l) := base_nodes_remove_handler ctx l in (res, it :: l)
  end.

Definition loop_node_remove_handler (ctx : esp_event_remove_handler_context_t) (loop_node : esp_event_loop_node_t) :
    esp_err_t * esp_event_loop_node_t :=
  if bool_decide (rm_base ctx = esp_event_any_base) && (rm_id ctx =? ESP_EVENT_ANY_ID) then
    let (res, hs) := handler_instances_remove ctx (loop_node_handlers loop_node) in
    (res, mkLoopNode hs (base_nodes loop_node))
  else
    let (res, bases) := base_nodes_remove_handler ctx (base_nodes loop_node) in
    (res, mkLoopNode (loop_node_handlers loop_node) bases).

Fixpoint loop_remove_handler (ctx : esp_event_remove_handler_context_t) (l : list esp_event_loop_node_t) :
    esp_err_t * list esp_event_loop_node_t :=
  match l with
  | [] => (ESP_ERR_NOT_FOUND, [])
  | it :: l =>
      let (res, node) := loop_node_remove_handler ctx it in
      if res =? ESP_OK
      then (ESP_OK, if slist_empty (base_nodes node) && slist_empty (loop_node_handlers node) then l else node :: l)
      else let (res, l) := loop_remove_handler ctx l in (res, it :: l)
  end.

(** ** Finding a handler to mark

    [place] is where a handler node is: the indices of its loop node, base node,
    id node, and its index in the list. *)
Inductive level :=
  | loop_level (k : nat)
  | base_level (k j : nat)
  | id_level (k j i : nat).

Definition base_node_at (nodes : list esp_event_loop_node_t) (k j : nat) : option esp_event_base_node_t :=
  let! ln := nodes !! k in base_nodes ln !! j.

Definition id_node_at (nodes : list esp_event_loop_node_t) (k j i : nat) : option esp_event_id_node_t :=
  let! bn := base_node_at nodes k j in id_nodes bn !! i.

Definition handlers_at (nodes : list esp_event_loop_node_t) (v : level) : list esp_event_handler_node_t :=
  match v with
  | loop_level k => match nodes !! k with Some ln => loop_node_handlers ln | None => [] end
  | base_level k j => match base_node_at nodes k j with Some bn => base_node_handlers bn | None => [] end
  | id_level k j i => match id_node_at nodes k j i with Some x => id_node_handlers x | None => [] end
  end.

Fixpoint find_handler (ctx : esp_event_remove_handler_context_t) (handlers : list esp_event_handler_node_t) : option nat :=
  match handlers with
  | [] => None
  | it :: l => if same_handler ctx it then Some 0%nat else S <$> find_handler ctx l
  end.

(** [handler_to_unregister] after the search of one list. *)
Definition found_at (ctx : esp_event_remove_handler_context_t) (v : level) (handlers : list esp_event_handler_node_t)
    (handler_to_unregister : option (level * nat)) : option (level * nat) :=
  match find_handler ctx handlers with
  | Some n => Some (v, n)
  | None => handler_to_unregister
  end.

Fixpoint find_in_id_nodes (ctx : esp_event_remove_handler_context_t) (k j i : nat) (l : list esp_event_id_node_t)
    (found : option (level * nat)) : option (level * nat) :=
  match l with
  | [] => found
  | id_node :: l =>
      find_in_id_nodes ctx k j (S i) l
        (if id_node_id id_node =? rm_id ctx then found_at ctx (id_level k j i) (id_node_handlers id_node) found else found)
  end.

Fixpoint find_in_base_nodes (ctx : esp_event_remove_handler_context_t) (k j : nat) (l : list esp_event_base_node_t)
    (found : option (level * nat)) : option (level * nat) :=
  match l with
  | [] => found
  | base_node :: l =>
      if bool_decide (base_node_base base_node = rm_base ctx) then
        match found_at ctx (base_level k j) (base_node_handlers base_node) found with
        | Some found => Some found
        | None => find_in_base_nodes ctx k (S j) l (find_in_id_nodes ctx k j 0 (id_nodes base_node) None)
        end
      else find_in_base_nodes ctx k (S j) l found
  end.

Fixpoint find_in_loop_nodes (ctx : esp_event_remove_handler_context_t) (k : nat) (l : list esp_event_loop_node_t)
    (found : option (level * nat)) : option (level * nat) :=
  match l with
  | [] => found
  | loop_node :: l =>
      match found_at ctx (loop_level k) (loop_node_handlers loop_node) found with
      | Some found => Some found
      | None => find_in_loop_nodes ctx (S k) l (find_in_base_nodes ctx k 0 (base_nodes loop_node) None)
      end
  end.

Definition mark_unregistered (h : esp_event_handler_node_t) : esp_event_handler_node_t :=
  mkHandler (handler_ctx h) (handler h) (arg h) true.

Definition alter_handlers (f : list esp_event_handler_node_t -> list esp_event_handler_node_t) (v : level)
    (nodes : list esp_event_loop_node_t) : list esp_event_loop_node_t :=
  match v with
  | loop_level k => alter (fun ln => mkLoopNode (f (loop_node_handlers ln)) (base_nodes ln)) k nodes
  | base_level k j =>
      alter (fun ln => mkLoopNode (loop_node_handlers ln)
        (alter (fun bn => mkBaseNode (base_node_base bn) (f (base_node_handlers bn)) (id_nodes bn)) j (base_nodes ln))) k nodes
  | id_level k j i =>
      alter (fun ln => mkLoopNode (loop_node_handlers ln)
        (alter (fun bn => mkBaseNode (base_node_base bn) (base_node_handlers bn)
          (alter (fun x => mkIdNode (id_node_id x) (f (id_node_handlers x))) i (id_nodes bn))) j (base_nodes ln))) k nodes
  end.

(** ** Posting

    [xQueueSendToBack]: the result, or [None] while the sender waits. *)
Definition send_to_back (who : Z) (post : esp_event_post_instance_t) (ticks_to_wait : Z) (holds : bool)
    (loop : esp_event_loop_instance_t) : option bool * esp_event_loop_instance_t :=
  if (length (queue loop) <? queue_size loop)%nat
  then (Some true, with_happened (Accepted post) (with_queue (queue loop ++ [post]) loop))
  else if ticks_to_wait =? 0 then (Some false, loop)
  else (None, with_senders (senders loop ++ [mkSender who post ticks_to_wait holds]) loop).

(** [xSemaphoreTakeRecursive] succeeds for task [who]. *)
Definition can_take (who : Z) (loop : esp_event_loop_instance_t) : bool :=
  (mutex_holder loop =? NULL) || (mutex_holder loop =? who).

(** The persistent copy of the data. *)
Definition copy_event_data (mem : list Z) (event_data : esp_event_post_data_t) : option esp_event_post_data_t :=
  let copied (d : esp_event_post_data_t) := if fst (calloc mem) =? NULL then None else Some d in
  match event_data with
  | data_none => Some data_none
  | data_val [] | data_ptr [] => Some data_none
  | data_val bytes | data_ptr bytes => copied (data_ptr bytes)
  | data_remove ctx => copied (data_remove ctx)
  end.

(** The result is [None] while the caller waits: for room in the queue, or, the
    state being unchanged, for the mutex; a call that gets the mutex in time is
    one made when the mutex is free.  [holds] tells that the caller has the mutex
    already. *)
Definition esp_event_post_to (who : Z) (mem : list Z) (event_base : esp_event_base_t) (event_id : Z)
    (event_data : esp_event_post_data_t) (ticks_to_wait : Z) (holds : bool) (loop : esp_event_loop_instance_t) :
    option esp_err_t * esp_event_loop_instance_t :=
  if bool_decide (event_base = ESP_EVENT_ANY_BASE) || (event_id =? ESP_EVENT_ANY_ID)
  then (Some ESP_ERR_INVALID_ARG, loop) else
  match copy_event_data mem event_data with
  | None => (Some ESP_ERR_NO_MEM, loop)
  | Some data =>
      let post := mkPost event_base event_id data in
      let finish (r : option bool * esp_event_loop_instance_t) :=
        (match fst r with
         | None => None
         | Some true => Some ESP_OK
         | Some false => Some ESP_ERR_TIMEOUT
         end, snd r) in
      if task loop =? NULL then
        if can_take who loop then
          if negb (running_task loop =? who)
          then finish (send_to_back who post ticks_to_wait holds loop)
          else finish (send_to_back who post 0 holds loop)
        else if ticks_to_wait =? portMAX_DELAY then (None, loop) else (Some ESP_ERR_TIMEOUT, loop)
      else if negb (task loop =? who)
      then finish (send_to_back who post ticks_to_wait holds loop)
      else finish (send_to_back who post 0 holds loop)
  end.

Definition sizeof_post_data : Z := 4.

(** [event_data] is the bytes at the address given, if it is not NULL. *)
Definition esp_event_isr_post_to (event_base : esp_event_base_t) (event_id : Z) (event_data : option (list Z))
    (event_data_size : Z) (loop : esp_event_loop_instance_t) : esp_err_t * esp_event_loop_instance_t :=
  if bool_decide (event_base = ESP_EVENT_ANY_BASE) || (event_id =? ESP_EVENT_ANY_ID)
  then (ESP_ERR_INVALID_ARG, loop) else
  if sizeof_post_data <? event_data_size then (ESP_ERR_INVALID_ARG, loop) else
  let data := match event_data with
              | Some bytes => if event_data_size =? 0 then data_none
                              else data_val (take (Z.to_nat event_data_size) bytes)
              | None => data_none
              end in
  let post := mkPost event_base event_id data in
  match send_to_back NULL post 0 false loop with
  | (Some true, loop) => (ESP_OK, loop)
  | (_, loop) => (ESP_FAIL, loop)
  end.

(** ** Registering and unregistering

    [find_and_unregister_handler] runs while [who] has the mutex.  Its first
    element of [mem] is for the copy of the context, the second for that of the
    request. *)
Definition find_and_unregister_handler (who : Z) (mem : list Z) (ctx : esp_event_remove_handler_context_t)
    (loop : esp_event_loop_instance_t) : option esp_err_t * esp_event_loop_instance_t :=
  match find_in_loop_nodes ctx 0 (loop_nodes loop) None with
  | None => (Some ESP_ERR_NOT_FOUND, loop)
  | Some (v, n) =>
      if match handlers_at (loop_nodes loop) v !! n with Some h => unregistered h | None => false end
      then (Some ESP_OK, loop)
      else
        let loop := with_nodes (alter_handlers (alter mark_unregistered n) v (loop_nodes loop)) loop in
        let post (mem : list Z) (ctx : esp_event_remove_handler_context_t) :=
          esp_event_post_to who mem esp_event_handler_cleanup 0 (data_remove ctx) portMAX_DELAY true loop in
        if rm_legacy ctx then
          let (handler_ctx_copy, mem) := calloc mem in
          if handler_ctx_copy =? NULL then (Some ESP_ERR_NO_MEM, loop)
          else post mem (mkRemove (rm_base ctx) (rm_id ctx) handler_ctx_copy (rm_handler ctx) true)
        else post mem ctx
  end.

Definition internal_base (event_base : esp_event_base_t) : esp_event_base_t :=
  if bool_decide (event_base = ESP_EVENT_ANY_BASE) then esp_event_any_base else event_base.

Definition esp_event_handler_register_with_internal (who : Z) (mem : list Z) (event_base : esp_event_base_t)
    (event_id event_handler event_handler_arg : Z) (legacy : bool) (loop : esp_event_loop_instance_t) :
    option (esp_err_t * Z) * esp_event_loop_instance_t :=
  if bool_decide (event_base = ESP_EVENT_ANY_BASE) && negb (event_id =? ESP_EVENT_ANY_ID)
  then (Some (ESP_ERR_INVALID_ARG, NULL), loop) else
  if negb (can_take who loop) then (None, loop) else
  let '(err, instance, nodes) := loop_add_handler mem (loop_nodes loop) (internal_base event_base) event_id
                        event_handler event_handler_arg legacy in
  (Some (err, instance), with_nodes nodes loop).

(** [contended]: another task had the mutex when the call tried to take it
    without waiting, and has given it back since. *)
Definition esp_event_handler_unregister_with_internal (who : Z) (contended : bool) (mem : list Z)
    (event_base : esp_event_base_t) (event_id ctx event_handler : Z) (legacy : bool) (loop : esp_event_loop_instance_t) :
    option esp_err_t * esp_event_loop_instance_t :=
  if bool_decide (event_base = ESP_EVENT_ANY_BASE) && negb (event_id =? ESP_EVENT_ANY_ID)
  then (Some ESP_ERR_INVALID_ARG, loop) else
  let remove_handler_ctx := mkRemove (internal_base event_base) event_id ctx event_handler legacy in
  if (mutex_holder loop =? NULL) && negb contended then
    let (res, nodes) := loop_remove_handler remove_handler_ctx (loop_nodes loop) in
    (Some res, with_nodes nodes loop)
  else if negb (can_take who loop) then (None, loop) else
    let (res, loop') := find_and_unregister_handler who mem remove_handler_ctx (with_holder who loop) in
    (res, match res with Some _ => with_holder (mutex_holder loop) loop' | None => loop' end).

(** ** The calls

    [who] makes them; [instance] of a registration is not passed on.  An
    unregistration of NULL is refused. *)
Inductive api_call :=
  | Register (event_base : esp_event_base_t) (event_id event_handler event_handler_arg : Z) (mem : list Z)
  | RegisterInstance (event_base : esp_event_base_t) (event_id event_handler event_handler_arg : Z) (mem : list Z)
  | Unregister (contended : bool) (event_base : esp_event_base_t) (event_id event_handler : Z) (mem : list Z)
  | UnregisterInstance (contended : bool) (event_base : esp_event_base_t) (event_id instance : Z) (mem : list Z)
  | Post (event_base : esp_event_base_t) (event_id : Z) (event_data : list Z) (ticks_to_wait : Z) (mem : list Z)
  | IsrPost (event_base : esp_event_base_t) (event_id : Z) (event_data : option (list Z)) (event_data_size : Z).

Definition esp_event_handler_register_with (who : Z) (mem : list Z) (event_base : esp_event_base_t)
    (event_id event_handler event_handler_arg : Z) (loop : esp_event_loop_instance_t) :
    option esp_err_t * esp_event_loop_instance_t :=
  let (r, loop) := esp_event_handler_register_with_internal who mem event_base event_id event_handler event_handler_arg true loop in
  (fst <$> r, loop).

Definition esp_event_handler_instance_register_with (who : Z) (mem : list Z) (event_base : esp_event_base_t)
    (event_id event_handler event_handler_arg : Z) (loop : esp_event_loop_instance_t) :
    option (esp_err_t * Z) * esp_event_loop_instance_t :=
  esp_event_handler_register_with_internal who mem event_base event_id event_handler event_handler_arg false loop.

(** The context is a local variable of the caller, whose address is in no node. *)
Definition esp_event_handler_unregister_with (who : Z) (contended : bool) (mem : list Z) (event_base : esp_event_base_t)
    (event_id event_handler : Z) (loop : esp_event_loop_instance_t) :=
  esp_event_handler_unregister_with_internal who contended mem event_base event_id NULL event_handler true loop.

Definition esp_event_handler_instance_unregister_with (who : Z) (contended : bool) (mem : list Z)
    (event_base : esp_event_base_t) (event_id handler_ctx_arg : Z) (loop : esp_event_loop_instance_t) :
    option esp_err_t * esp_event_loop_instance_t :=
  if handler_ctx_arg =? NULL then (Some ESP_ERR_INVALID_ARG, loop)
  else esp_event_handler_unregister_with_internal who contended mem event_base event_id handler_ctx_arg NULL false loop.

Definition make_call (who : Z) (c : api_call) (loop : esp_event_loop_instance_t) :
    option esp_err_t * esp_event_loop_instance_t :=
  match c with
  | Register b i h a mem => esp_event_handler_register_with who mem b i h a loop
  | RegisterInstance b i h a mem =>
      let (r, loop) := esp_event_handler_instance_register_with who mem b i h a loop in (fst <$> r, loop)
  | Unregister contended b i h mem => esp_event_handler_unregister_with who contended mem b i h loop
  | UnregisterInstance contended b i c mem => esp_event_handler_instance_unregister_with who contended mem b i c loop
  | Post b i d ticks mem => esp_event_post_to who mem b i (data_ptr d) ticks false loop
  | IsrPost b i d n => let (err, loop) := esp_event_isr_post_to b i d n loop in (Some err, loop)
  end.

(** What a call that answers ESP_OK puts on record: a registration the blocks it
    was given and the handlers there were, the unregistration of an instance the
    instance. *)
Definition recorded (c : api_call) (nodes : list esp_event_loop_node_t) : list happening :=
  match c with
  | Register _ _ _ _ mem | RegisterInstance _ _ _ _ mem => [Registered mem nodes]
  | UnregisterInstance _ _ _ instance _ => [Unregistered instance]
  | _ => []
  end.

Definition run_api_call (who : Z) (c : api_call) (loop : esp_event_loop_instance_t) :
    option esp_err_t * esp_event_loop_instance_t :=
  let (r, loop') := make_call who c loop in
  (r, if bool_decide (r = Some ESP_OK)
      then fold_left (fun l e => with_happened e l) (recorded c (loop_nodes loop)) loop' else loop').

(** ** Other tasks

    A waiting sender gets room in the queue, or its time is over. *)
Definition sender_resumes (n : nat) (loop : esp_event_loop_instance_t) : esp_event_loop_instance_t :=
  match senders loop !! n with
  | Some w =>
      if (length (queue loop) <? queue_size loop)%nat then
        let loop := with_senders (delete n (senders loop)) loop in
        let loop := with_happened (Accepted (sender_post w)) (with_queue (queue loop ++ [sender_post w]) loop) in
        if holds_mutex w then with_holder NULL loop else loop
      else loop
  | None => loop
  end.

Definition sender_times_out (n : nat) (loop : esp_event_loop_instance_t) : esp_event_loop_instance_t :=
  match senders loop !! n with
  | Some w => if sender_ticks w =? portMAX_DELAY then loop else with_senders (delete n (senders loop)) loop
  | None => loop
  end.

(** ** Dispatching *)

Section Dispatch.

(** The code of the handlers: the calls made while a handler runs, by it or by
    others (each with the task that makes it), given the handler, its argument
    and the event. *)
Context (handler_code : Z -> Z -> esp_event_post_instance_t -> list (Z * api_call)).

Definition run_api_calls (l : list (Z * api_call)) (loop : esp_event_loop_instance_t) : esp_event_loop_instance_t :=
  fold_left (fun loop c => snd (run_api_call (fst c) (snd c) loop)) l loop.

Definition handler_execute (loop : esp_event_loop_instance_t) (h : esp_event_handler_node_t)
    (post : esp_event_post_instance_t) : esp_event_loop_instance_t :=
  run_api_calls (handler_code (handler h) (arg h) post) (with_happened (Invoked h post) loop).

(** [SLIST_FOREACH_SAFE] from the [n]-th element: what follows it is read before
    the body runs, which can break off the walk. *)
Fixpoint slist_foreach_safe (fuel : nat) (len : esp_event_loop_instance_t -> nat)
    (body : nat -> esp_event_loop_instance_t -> option (bool * esp_event_loop_instance_t)) (n : nat)
    (loop : esp_event_loop_instance_t) : option esp_event_loop_instance_t :=
  match fuel with
  | O => None
  | S fuel =>
      if (n <? len loop)%nat then
        let temp := (S n <? len loop)%nat in
        let! (stop, loop) := body n loop in
        if stop then Some loop
        else if temp then slist_foreach_safe fuel len body (S n) loop else Some loop
      else Some loop
  end.

Definition walk_handlers (fuel : nat) (v : level) (post : esp_event_post_instance_t) (loop : esp_event_loop_instance_t) :=
  slist_foreach_safe fuel (fun loop => length (handlers_at (loop_nodes loop) v))
    (fun n loop =>
       match handlers_at (loop_nodes loop) v !! n with
       | Some h => if unregistered h then Some (false, loop) else Some (false, handler_execute loop h post)
       | None => Some (false, loop)
       end) 0 loop.

Definition walk_id_nodes (fuel : nat) (k j : nat) (post : esp_event_post_instance_t) (loop : esp_event_loop_instance_t) :=
  slist_foreach_safe fuel
    (fun loop => match base_node_at (loop_nodes loop) k j with Some bn => length (id_nodes bn) | None => 0%nat end)
    (fun i loop =>
       match id_node_at (loop_nodes loop) k j i with
       | Some id_node =>
           if id_node_id id_node =? post_id post
           then let! loop := walk_handlers fuel (id_level k j i) post loop in Some (true, loop)
           else Some (false, loop)
       | None => Some (false, loop)
       end) 0 loop.

Definition walk_base_nodes (fuel : nat) (k : nat) (post : esp_event_post_instance_t) (loop : esp_event_loop_instance_t) :=
  slist_foreach_safe fuel
    (fun loop => match loop_nodes loop !! k with Some ln => length (base_nodes ln) | None => 0%nat end)
    (fun j loop =>
       match base_node_at (loop_nodes loop) k j with
       | Some base_node =>
           if bool_decide (base_node_base base_node = post_base post)
           then let! loop := walk_handlers fuel (base_level k j) post loop in
                let! loop := walk_id_nodes fuel k j post loop in Some (false, loop)
           else Some (false, loop)
       | None => Some (false, loop)
       end) 0 loop.

Definition walk_loop_nodes (fuel : nat) (post : esp_event_post_instance_t) (loop : esp_event_loop_instance_t) :=
  slist_foreach_safe fuel (fun loop => length (loop_nodes loop))
    (fun k loop =>
       let! loop := walk_handlers fuel (loop_level k) post loop in
       let! loop := walk_base_nodes fuel k post loop in Some (false, loop)) 0 loop.

(** ** Running the loop

    The call of [xQueueReceive] that finds a post. *)
Definition receive_post (loop : esp_event_loop_instance_t) : esp_event_loop_instance_t :=
  match queue loop, received loop with
  | post :: q, None => with_received (Some post) (with_queue q loop)
  | _, _ => loop
  end.

(** The body of the loop of esp_event_loop_run, by task [me], once the mutex is
    free; [expired] is whether the time to run is over at its end.  [None] is a
    failed assertion, or too little fuel. *)
Definition dispatch_post (fuel : nat) (me : Z) (expired : bool) (loop : esp_event_loop_instance_t) :
    option esp_event_loop_instance_t :=
  match received loop with
  | None => Some loop
  | Some post =>
      if negb (mutex_holder loop =? NULL) then Some loop else
      let loop := with_holder me loop in
      let! loop :=
        (if bool_decide (post_base post = esp_event_handler_cleanup) then
           match post_data post with
           | data_remove ctx => Some (with_nodes (snd (loop_remove_handler ctx (loop_nodes loop))) loop)
           | _ => None
           end
         else Some loop) in
      let! loop := walk_loop_nodes fuel post (with_running me loop) in
      let loop := with_received None (with_happened (Dispatched post) loop) in
      let loop := if expired then loop else with_running NULL loop in
      Some (with_holder NULL loop)
  end.

(** What the tasks of the system can do next. *)
Inductive action :=
  | Call (who : Z) (c : api_call)
  | SenderResumes (n : nat)
  | SenderTimesOut (n : nat)
  | ReceivePost
  | DispatchPost (fuel : nat) (me : Z) (expired : bool).

Definition perform (a : action) (loop : esp_event_loop_instance_t) : option esp_event_loop_instance_t :=
  match a with
  | Call who c => Some (snd (run_api_call who c loop))
  | SenderResumes n => Some (sender_resumes n loop)
  | SenderTimesOut n => Some (sender_times_out n loop)
  | ReceivePost => Some (receive_post loop)
  | DispatchPost fuel me expired => dispatch_post fuel me expired loop
  end.

Fixpoint perform_all (l : list action) (loop : esp_event_loop_instance_t) : option esp_event_loop_instance_t :=
  match l with
  | [] => Some loop
  | a :: l => let! loop := perform a loop in perform_all l loop
  end.

(** One round of esp_event_loop_run: what others do until the call of
    xQueueReceive ends, what they do until the mutex is taken, and the tick count
    after the dispatch. *)
Record round := mkRound { arrivals : list action; meanwhile : list action; end_tick : Z }.

Inductive run_outcome :=
  | Returned (loop : esp_event_loop_instance_t)
  | StillRunning (loop : esp_event_loop_instance_t).

Fixpoint run_rounds (fuel : nat) (me ticks_to_run : Z) (rounds : list round) (marker remaining_ticks : Z)
    (loop : esp_event_loop_instance_t) : option run_outcome :=
  match rounds with
  | [] => Some (StillRunning loop)
  | r :: rounds =>
      let! loop := perform_all (arrivals r) loop in
      match queue loop with
      | [] =>
          if remaining_ticks =? portMAX_DELAY
          then run_rounds fuel me ticks_to_run rounds marker remaining_ticks loop
          else Some (Returned loop)
      | _ =>
          let! loop := perform_all (meanwhile r) (receive_post loop) in
          if negb (mutex_holder loop =? NULL) then Some (StillRunning loop) else
          if negb (ticks_to_run =? portMAX_DELAY) then
            let remaining_ticks := remaining_ticks - u32 (end_tick r - marker) in
            let! loop := dispatch_post fuel me (remaining_ticks <=? 0) loop in
            if remaining_ticks <=? 0 then Some (Returned loop)
            else run_rounds fuel me ticks_to_run rounds (end_tick r) remaining_ticks loop
          else
            let! loop := dispatch_post fuel me false loop in
            run_rounds fuel me ticks_to_run rounds marker remaining_ticks loop
      end
  end.

(** [now] is the tick count at the start. *)
Definition esp_event_loop_run (fuel : nat) (me : Z) (rounds : list round) (now ticks_to_run : Z)
    (loop : esp_event_loop_instance_t) : option run_outcome :=
  run_rounds fuel me ticks_to_run rounds now ticks_to_run loop.

End Dispatch.

(** ** Creating and deleting loops

    [result_loop], [queue_ok], [mutex_ok] and [created] are what the allocations
    return, [created] being the task, NULL if it could not be created. *)
Record esp_event_loop_args_t := mkArgs { args_queue_size : Z; task_name : Z }.

Definition esp_event_loop_create (result_loop : Z) (queue_ok mutex_ok : bool) (created : Z)
    (event_loop_args : option esp_event_loop_args_t) (event_loop : Z) : esp_err_t * option esp_event_loop_instance_t :=
  match event_loop_args with
  | None => (ESP_ERR_INVALID_ARG, None)
  | Some args =>
      if event_loop =? NULL then (ESP_ERR_INVALID_ARG, None) else
      if result_loop =? NULL then (ESP_ERR_NO_MEM, None) else
      if negb queue_ok then (ESP_ERR_NO_MEM, None) else
      if negb mutex_ok then (ESP_ERR_NO_MEM, None) else
      let loop (t : Z) := mkLoop [] (Z.to_nat (args_queue_size args)) [] t NULL NULL [] None [] in
      if negb (task_name args =? NULL) then
        if created =? NULL then (ESP_FAIL, None) else (ESP_OK, Some (loop created))
      else (ESP_OK, Some (loop NULL))
  end.

(** The removal of all handlers, by the contexts it frees. *)
Definition handler_instances_remove_all (handlers : list esp_event_handler_node_t) : list Z :=
  map handler_ctx handlers.

Definition base_node_remove_all_handler (base_node : esp_event_base_node_t) : list Z :=
  handler_instances_remove_all (base_node_handlers base_node) ++
  flat_map (fun it => handler_instances_remove_all (id_node_handlers it)) (id_nodes base_node).

Definition loop_node_remove_all_handler (loop_node : esp_event_loop_node_t) : list Z :=
  handler_instances_remove_all (loop_node_handlers loop_node) ++
  flat_map base_node_remove_all_handler (base_nodes loop_node).

(** What a deletion frees: contexts, and posts with their data; and the task it
    deletes. *)
Record deletion := mkDeletion { freed_contexts : list Z; freed_posts : list esp_event_post_instance_t; deleted_task : Z }.

(** [None] while another task has the mutex. *)
Definition esp_event_loop_delete (who : Z) (loop : esp_event_loop_instance_t) : option (esp_err_t * deletion) :=
  if negb (can_take who loop) then None else
  Some (ESP_OK, mkDeletion (flat_map loop_node_remove_all_handler (loop_nodes loop)) (queue loop) (task loop)).

(** ** Looking for a handler (esp_event_private.c)

    It ends with a give of the mutex, which the caller need not have: nothing
    happens if it is free, an assertion of the kernel fails ([None]) if another
    task has it. *)
Definition esp_event_is_handler_registered (who : Z) (event_base : esp_event_base_t) (event_id event_handler : Z)
    (loop : esp_event_loop_instance_t) : option (bool * esp_event_loop_instance_t) :=
  let there (handlers : list esp_event_handler_node_t) := existsb (fun h => handler h =? event_handler) handlers in
  let result :=
    existsb (fun ln =>
      bool_decide (event_base = ESP_EVENT_ANY_BASE) && (event_id =? ESP_EVENT_ANY_ID) && there (loop_node_handlers ln) ||
      existsb (fun bn =>
        bool_decide (base_node_base bn = event_base) &&
        ((event_id =? ESP_EVENT_ANY_ID) && there (base_node_handlers bn) ||
         existsb (fun x => (id_node_id x =? event_id) && there (id_node_handlers x)) (id_nodes bn))) (base_nodes ln))
      (loop_nodes loop) in
  if mutex_holder loop =? NULL then Some (result, loop)
  else if mutex_holder loop =? who then Some (result, with_holder NULL loop)
  else None.

(** ** The default loop (default_event_loop.c) *)
Definition s_default_loop := option esp_event_loop_instance_t.

(** Every call on the default loop is the call with it, if there is one. *)
Definition with_default_loop {A} (invalid_state : A)
    (call : esp_event_loop_instance_t -> option A * esp_event_loop_instance_t)
    (s : s_default_loop) : option A * s_default_loop :=
  match s with
  | None => (Some invalid_state, None)
  | Some loop => let (err, loop) := call loop in (err, Some loop)
  end.

Definition esp_event_handler_register (who : Z) (mem : list Z) (b : esp_event_base_t) (i h a : Z) :=
  with_default_loop ESP_ERR_INVALID_STATE (esp_event_handler_register_with who mem b i h a).
Definition esp_event_handler_instance_register (who : Z) (mem : list Z) (b : esp_event_base_t) (i h a : Z) :=
  with_default_loop (ESP_ERR_INVALID_STATE, NULL) (esp_event_handler_instance_register_with who mem b i h a).
Definition esp_event_handler_unregister (who : Z) (contended : bool) (mem : list Z) (b : esp_event_base_t) (i h : Z) :=
  with_default_loop ESP_ERR_INVALID_STATE (esp_event_handler_unregister_with who contended mem b i h).
Definition esp_event_handler_instance_unregister (who : Z) (contended : bool) (mem : list Z) (b : esp_event_base_t)
    (i context : Z) :=
  with_default_loop ESP_ERR_INVALID_STATE (esp_event_handler_instance_unregister_with who contended mem b i context).
Definition esp_event_post (who : Z) (mem : list Z) (b : esp_event_base_t) (i : Z) (d : list Z) (ticks : Z) :=
  with_default_loop ESP_ERR_INVALID_STATE (esp_event_post_to who mem b i (data_ptr d) ticks false).
Definition esp_event_isr_post (b : esp_event_base_t) (i : Z) (d : option (list Z)) (n : Z) :=
  with_default_loop ESP_ERR_INVALID_STATE (fun loop => let (err, loop) := esp_event_isr_post_to b i d n loop in (Some err, loop)).

Definition esp_event_loop_create_default (result_loop : Z) (queue_ok mutex_ok : bool) (created CONFIG_ESP_SYSTEM_EVENT_QUEUE_SIZE
    name s_default_loop_addr : Z) (s : s_default_loop) : esp_err_t * s_default_loop :=
  match s with
  | Some _ => (ESP_ERR_INVALID_STATE, s)
  | None => esp_event_loop_create result_loop queue_ok mutex_ok created
              (Some (mkArgs CONFIG_ESP_SYSTEM_EVENT_QUEUE_SIZE name)) s_default_loop_addr
  end.

Definition esp_event_loop_delete_default (who : Z) (s : s_default_loop) : option (esp_err_t * s_default_loop) :=
  match s with
  | None => Some (ESP_ERR_INVALID_STATE, None)
  | Some loop => let! (err, _) := esp_event_loop_delete who loop in Some (err, None)
  end.
