(* ===== verification/EventOrder.v ===== *)
(** * The order of event handlers

    The handlers of a loop as a sequence of registrations: what a registration and
    a removal do to it, and that the handlers of an event come in the order in
    which they were registered. *)

From stdpp Require Import base list option gmap.
From Stdlib Require Import ZArith Lia.
From S2P Require Import Prelude FreeRTOSList Kernel EspEvent.

(** ** The sequence of registrations

    A key is what a handler was registered for: no base for all events, no
    identifier for all events of a base. *)
Definition event_key : Type := option esp_event_base_t * option Z.
Definition entry : Type := event_key * esp_event_handler_node_t.

Definition key_of (b : esp_event_base_t) (i : Z) : event_key :=
  if bool_decide (b = esp_event_any_base) && (i =? ESP_EVENT_ANY_ID) then (None, None)
  else if i =? ESP_EVENT_ANY_ID then (Some b, None) else (Some b, Some i).

Definition key_matches (b : esp_event_base_t) (i : Z) (k : event_key) : bool :=
  match k with
  | (None, _) => true
  | (Some b', None) => bool_decide (b' = b)
  | (Some b', Some i') => bool_decide (b' = b) && (i' =? i)
  end.

Definition tag (k : event_key) (l : list esp_event_handler_node_t) : list entry := map (pair k) l.

Definition id_node_entries (b : esp_event_base_t) (x : esp_event_id_node_t) : list entry :=
  tag (Some b, Some (id_node_id x)) (id_node_handlers x).

Definition base_node_entries (bn : esp_event_base_node_t) : list entry :=
  tag (Some (base_node_base bn), None) (base_node_handlers bn) ++
  flat_map (id_node_entries (base_node_base bn)) (id_nodes bn).

Definition loop_node_entries (ln : esp_event_loop_node_t) : list entry :=
  tag (None, None) (loop_node_handlers ln) ++ flat_map base_node_entries (base_nodes ln).

Definition entries (nodes : list esp_event_loop_node_t) : list entry := flat_map loop_node_entries nodes.

(** The handlers of event [b], [i] in the order of the walk of a dispatch. *)
Definition first_id_node (i : Z) (l : list esp_event_id_node_t) : list esp_event_handler_node_t :=
  match filter (fun x => id_node_id x = i) l with [] => [] | x :: _ => id_node_handlers x end.

Definition base_node_order (b : esp_event_base_t) (i : Z) (bn : esp_event_base_node_t) : list esp_event_handler_node_t :=
  if bool_decide (base_node_base bn = b) then base_node_handlers bn ++ first_id_node i (id_nodes bn) else [].

Definition loop_node_order (b : esp_event_base_t) (i : Z) (ln : esp_event_loop_node_t) : list esp_event_handler_node_t :=
  loop_node_handlers ln ++ flat_map (base_node_order b i) (base_nodes ln).

Definition handlers_of (b : esp_event_base_t) (i : Z) (nodes : list esp_event_loop_node_t) : list esp_event_handler_node_t :=
  flat_map (loop_node_order b i) nodes.

Definition matching (b : esp_event_base_t) (i : Z) (l : list entry) : list esp_event_handler_node_t :=
  map snd (filter (fun e => key_matches b i (fst e) = true) l).

(** The identifiers of the id nodes of a base node are distinct. *)
Definition ids_distinct (nodes : list esp_event_loop_node_t) : Prop :=
  Forall (fun ln => Forall (fun bn => NoDup (map id_node_id (id_nodes bn))) (base_nodes ln)) nodes.

Lemma matching_app b i l1 l2 : matching b i (l1 ++ l2) = matching b i l1 ++ matching b i l2.
Proof. unfold matching. by rewrite filter_app, map_app. Qed.

Lemma matching_cons b i k h (l : list entry) :
  matching b i (@cons entry (k, h) l) = (if key_matches b i k then [h] else []) ++ matching b i l.
Proof. unfold matching. rewrite filter_cons. simpl. destruct (key_matches b i k); by case_decide. Qed.

Lemma matching_tag b i k l : matching b i (tag k l) = if key_matches b i k then l else [].
Proof.
  induction l as [|h l IH]; [by destruct (key_matches b i k)|].
  change (tag k (h :: l)) with ((k, h) :: tag k l). rewrite matching_cons, IH.
  by destruct (key_matches b i k).
Qed.

Lemma matching_flat_map {A} b i (f : A -> list entry) (g : A -> list esp_event_handler_node_t) l :
  Forall (fun x => g x = matching b i (f x)) l -> flat_map g l = matching b i (flat_map f l).
Proof. induction 1 as [|x l Hx _ IH]; [done|]. simpl. by rewrite matching_app, Hx, IH. Qed.

Lemma matching_none b i l : Forall (fun e => key_matches b i (fst e) = false) l -> matching b i l = [].
Proof. induction 1 as [|[k h] l Hx _ IH]; [done|]. rewrite matching_cons, IH. simpl in Hx. by rewrite Hx. Qed.

Lemma first_id_node_matching b i ids : NoDup (map id_node_id ids) ->
  first_id_node i ids = matching b i (flat_map (id_node_entries b) ids).
Proof.
  induction ids as [|x ids IH]; [done|]. simpl. intros [Hx Hn]%NoDup_cons.
  unfold first_id_node. rewrite filter_cons, matching_app. unfold id_node_entries at 1. rewrite matching_tag. simpl.
  rewrite bool_decide_true by done. simpl. case_decide as E.
  - subst i. rewrite Z.eqb_refl. rewrite matching_none, app_nil_r; [done|].
    apply Forall_forall. intros [k h] Hin. apply list_elem_of_In, in_flat_map in Hin as (y & Hy & Hin).
    unfold id_node_entries, tag in Hin. apply in_map_iff in Hin as (h' & [= <- <-] & _). simpl.
    rewrite bool_decide_true by done. apply Z.eqb_neq. intros Ey. apply Hx.
    apply list_elem_of_In, in_map_iff. eauto.
  - destruct (Z.eqb_spec (id_node_id x) i); [done|]. apply IH. done.
Qed.

(** The walk of a dispatch meets the matching entries in their order. *)
Lemma handlers_of_matching b i nodes : ids_distinct nodes -> handlers_of b i nodes = matching b i (entries nodes).
Proof.
  intros Hd. apply matching_flat_map. eapply Forall_impl; [exact Hd|]. intros ln Hln.
  unfold loop_node_order, loop_node_entries. rewrite matching_app, matching_tag. simpl. f_equal.
  apply matching_flat_map. eapply Forall_impl; [exact Hln|]. intros bn Hbn. simpl in Hbn.
  unfold base_node_order, base_node_entries. rewrite matching_app, matching_tag. simpl.
  case_bool_decide as E.
  - subst b. f_equal. by apply first_id_node_matching.
  - rewrite matching_none; [done|]. apply Forall_forall. intros [k h] Hin.
    apply list_elem_of_In, in_flat_map in Hin as (y & Hy & Hin).
    apply in_map_iff in Hin as (h' & [= <- <-] & _). simpl. by rewrite bool_decide_false.
Qed.

(** ** What a registration does to the sequence *)

(** No event matches both keys. *)
Definition apart (k k' : event_key) : Prop :=
  forall b i, key_matches b i k = true -> key_matches b i k' = false.

Definition added (k : event_key) (h : esp_event_handler_node_t) (l l' : list entry) : Prop :=
  exists l1 l2, l = l1 ++ l2 /\ l' = l1 ++ (k, h) :: l2 /\ Forall (fun e => apart k (fst e)) l2.

(** The handler of an entry with key [k] got another argument. *)
Definition overwritten (k : event_key) (event_handler event_handler_arg : Z) (l l' : list entry) : Prop :=
  exists l1 it l2, l = l1 ++ (k, it) :: l2 /\ handler it = event_handler /\
    l' = l1 ++ (k, mkHandler (handler_ctx it) (handler it) event_handler_arg (unregistered it)) :: l2.

(** The effect of a registration that returns [err] and [instance]. *)
Inductive registers (mem : list Z) (k : event_key) (event_handler event_handler_arg : Z) (legacy : bool) (l : list entry) :
    esp_err_t -> Z -> list entry -> Prop :=
  | reg_failed : registers mem k event_handler event_handler_arg legacy l ESP_ERR_NO_MEM NULL l
  | reg_added instance l' : instance ∈ mem -> instance <> NULL ->
      added k (mkHandler instance event_handler event_handler_arg false) l l' ->
      registers mem k event_handler event_handler_arg legacy l ESP_OK instance l'
  | reg_overwritten l' : legacy = true -> overwritten k event_handler event_handler_arg l l' ->
      registers mem k event_handler event_handler_arg legacy l ESP_OK NULL l'.

Lemma registers_ctx mem mem' k eh a leg l err inst l' p s :
  registers mem k eh a leg l err inst l' -> mem ⊆ mem' -> Forall (fun e => apart k (fst e)) s ->
  registers mem' k eh a leg (p ++ l ++ s) err inst (p ++ l' ++ s).
Proof.
  intros H Hm Hs. destruct H as [|i l' Hi Hn (l1 & l2 & -> & -> & Ha)|l' Hl (l1 & it & l2 & -> & Hh & ->)].
  - constructor.
  - apply reg_added; [by apply Hm|done|]. exists (p ++ l1), (l2 ++ s). rewrite <- !app_assoc. split_and!; [done..|].
    by apply Forall_app.
  - apply reg_overwritten; [done|]. exists (p ++ l1), it, (l2 ++ s). by rewrite <- !app_assoc.
Qed.

Lemma overwrite_arg_overwritten k l eh a l' : overwrite_arg l eh a = Some l' -> overwritten k eh a (tag k l) (tag k l').
Proof.
  revert l'. induction l as [|it l IH]; intros l' E; simpl in E; [done|].
  destruct (Z.eqb_spec (handler it) eh) as [Eh|]; simplify_eq.
  - exists [], it, (tag k l). done.
  - destruct (overwrite_arg l eh a) as [l0|]; simplify_eq.
    destruct (IH _ eq_refl) as (l1 & it' & l2 & E1 & Eh & E2). exists ((k, it) :: l1), it', l2.
    simpl. by rewrite E1, E2.
Qed.

Lemma handler_instances_add_registers mem k hs eh a leg err inst hs' :
  handler_instances_add mem hs eh a leg = (err, inst, hs') -> registers mem k eh a leg (tag k hs) err inst (tag k hs').
Proof.
  unfold handler_instances_add. destruct mem as [|x mem]; simpl; [intros; simplify_eq; constructor|].
  destruct (Z.eqb_spec x NULL); [intros; simplify_eq; constructor|].
  destruct mem as [|c mem]; simpl; [intros; simplify_eq; constructor|].
  destruct (Z.eqb_spec c NULL); [intros; simplify_eq; constructor|].
  assert (registers (x :: c :: mem) k eh a leg (tag k hs) ESP_OK c (tag k (hs ++ [mkHandler c eh a false]))) as Hadd.
  { apply reg_added; [set_solver|done|]. exists (tag k hs), []. rewrite app_nil_r.
    unfold tag. rewrite map_app. split_and!; [done..|constructor]. }
  destruct leg.
  - destruct (overwrite_arg hs eh a) as [l'|] eqn:E; intros; simplify_eq; [|done].
    apply reg_overwritten; [done|]. by apply overwrite_arg_overwritten.
  - intros; simplify_eq; done.
Qed.

Lemma find_last_some {A} (f : A -> bool) l i x : find_last f l = Some (i, x) ->
  exists l1 l2, l = l1 ++ x :: l2 /\ i = length l1 /\ f x = true /\ Forall (fun y => f y = false) l2.
Proof.
  revert i. induction l as [|y l IH]; intros i E; simpl in E; [done|].
  destruct (find_last f l) as [[j z]|] eqn:El; simplify_eq.
  - destruct (IH _ eq_refl) as (l1 & l2 & -> & -> & Hf & Hn). exists (y :: l1), l2. done.
  - destruct (f y) eqn:Ey; simplify_eq. exists [], l. split_and!; [done..|]. clear IH Ey.
    induction l as [|z l IH]; constructor; simpl in El.
    + destruct (find_last f l) as [[]|]; [done|]. by destruct (f z).
    + apply IH. by destruct (find_last f l) as [[]|].
Qed.

Lemma find_last_none {A} (f : A -> bool) l : find_last f l = None -> Forall (fun y => f y = false) l.
Proof.
  induction l as [|z l IH]; intros El; constructor; simpl in El.
  - destruct (find_last f l) as [[]|]; [done|]. by destruct (f z).
  - apply IH. by destruct (find_last f l) as [[]|].
Qed.

Lemma slist_insert_between {A} (l1 l2 : list A) x y : <[length l1 := y]> (l1 ++ x :: l2) = l1 ++ y :: l2.
Proof. induction l1 as [|z l1 IH]; [done|]. simpl. by rewrite IH. Qed.

Lemma calloc_subseteq mem a mem' : calloc mem = (a, mem') -> mem' ⊆ mem.
Proof. destruct mem; simpl; intros; simplify_eq; set_solver. Qed.

Lemma registers_ok_not_ok mem k eh a leg l err inst l' : registers mem k eh a leg l err inst l' ->
  (err =? ESP_OK) = false -> l' = l /\ err = ESP_ERR_NO_MEM /\ inst = NULL.
Proof. by destruct 1. Qed.

(** The key of a registration with identifier [id] in a base node. *)
Definition base_key (b : esp_event_base_t) (id : Z) : event_key :=
  if id =? ESP_EVENT_ANY_ID then (Some b, None) else (Some b, Some id).

Lemma apart_id b i i' : i' <> i -> apart (Some b, Some i) (Some b, Some i').
Proof.
  intros Hn b0 i0. simpl. case_bool_decide; [|done]. simpl. intros ->%Z.eqb_eq.
  by apply Z.eqb_neq.
Qed.

Lemma apart_base b i bn : base_node_base bn <> b ->
  Forall (fun e => apart (base_key b i) (fst e)) (base_node_entries bn).
Proof.
  intros Hb. apply Forall_forall. intros e He b0 i0 Hm.
  assert (b = b0) as <-.
  { unfold base_key in Hm. destruct (i =? ESP_EVENT_ANY_ID); simpl in Hm; by case_bool_decide. }
  unfold base_node_entries in He. apply list_elem_of_In, in_app_iff in He as [He|He].
  - apply in_map_iff in He as (h & <- & _). simpl. by apply bool_decide_false.
  - apply in_flat_map in He as (x & _ & He). apply in_map_iff in He as (h & <- & _). simpl.
    by rewrite bool_decide_false.
Qed.

Lemma apart_bases b i bns : Forall (fun bn => bool_decide (base_node_base bn = b) = false) bns ->
  Forall (fun e => apart (base_key b i) (fst e)) (flat_map base_node_entries bns).
Proof.
  induction 1 as [|bn bns Hb _ IH]; [constructor|]. simpl. apply Forall_app. split; [|done].
  apply apart_base. by apply bool_decide_eq_false in Hb.
Qed.

Lemma apart_ids b i ids : Forall (fun x => (id_node_id x =? i) = false) ids ->
  Forall (fun e => apart (Some b, Some i) (fst e)) (flat_map (id_node_entries b) ids).
Proof.
  induction 1 as [|x ids Hx _ IH]; [constructor|]. simpl. apply Forall_app. split; [|done].
  apply Forall_forall. intros e He. apply list_elem_of_In, in_map_iff in He as (h & <- & _). simpl.
  apply apart_id. by apply Z.eqb_neq in Hx.
Qed.

Lemma base_node_add_handler_registers mem bn id eh a leg err inst bn' :
  (id = ESP_EVENT_ANY_ID -> id_nodes bn = []) ->
  base_node_add_handler mem bn id eh a leg = (err, inst, bn') ->
  registers mem (base_key (base_node_base bn) id) eh a leg (base_node_entries bn) err inst (base_node_entries bn') /\
  base_node_base bn' = base_node_base bn /\
  (NoDup (map id_node_id (id_nodes bn)) -> NoDup (map id_node_id (id_nodes bn'))).
Proof.
  intros Hany. unfold base_node_add_handler, base_key. destruct (Z.eqb_spec id ESP_EVENT_ANY_ID) as [E|E].
  - destruct (handler_instances_add mem (base_node_handlers bn) eh a leg) as [[e' i'] hs] eqn:Eh. intros; simplify_eq. unfold base_node_entries. simpl.
    rewrite (Hany eq_refl). split; [|done]. apply (handler_instances_add_registers _ (Some (base_node_base bn), None)) in Eh.
    eapply (registers_ctx _ _ _ _ _ _ _ _ _ _ [] []) in Eh; [exact Eh|set_solver|constructor].
  - destruct (find_last _ (id_nodes bn)) as [[i x]|] eqn:Ef.
    + apply find_last_some in Ef as (l1 & l2 & El & -> & Hx & Hl2). apply Z.eqb_eq in Hx.
      destruct (handler_instances_add mem (id_node_handlers x) eh a leg) as [[e' i'] hs] eqn:Eh. intros; simplify_eq.
      unfold base_node_entries. simpl. rewrite El, slist_insert_between, !flat_map_app, !map_app. simpl. split_and!; [|done|done].
      apply (handler_instances_add_registers _ (Some (base_node_base bn), Some (id_node_id x))) in Eh.
      rewrite !app_assoc. rewrite <- !(app_assoc _ _ (flat_map _ l2)).
      eapply registers_ctx; [exact Eh|set_solver|]. apply apart_ids. done.
    + destruct (calloc mem) as [c mem'] eqn:Ec.
      destruct (c =? NULL); [intros; simplify_eq; split_and!; [constructor|done..]|].
      destruct (handler_instances_add mem' [] eh a leg) as [[e' i'] hs] eqn:Eh.
      apply (handler_instances_add_registers _ (Some (base_node_base bn), Some id)) in Eh.
      destruct (e' =? ESP_OK) eqn:Ee; intros; simplify_eq.
      * unfold base_node_entries. simpl. rewrite flat_map_app, map_app. simpl. rewrite app_nil_r. split_and!; [|done|].
        -- eapply (registers_ctx _ mem _ _ _ _ _ _ _ _ (tag (Some (base_node_base bn), None) (base_node_handlers bn) ++
              flat_map (id_node_entries (base_node_base bn)) (id_nodes bn)) []) in Eh;
            [|by eapply calloc_subseteq|constructor].
           rewrite !app_nil_r in Eh. rewrite app_assoc. exact Eh.
        -- intros Hn. apply NoDup_app. split_and!; [done| |apply NoDup_singleton].
           intros y Hy ->%list_elem_of_singleton. apply find_last_none in Ef.
           apply list_elem_of_In, in_map_iff in Hy as (x & Ex & Hx%list_elem_of_In).
           rewrite Forall_forall in Ef. apply Ef in Hx. lia.
      * destruct (registers_ok_not_ok _ _ _ _ _ _ _ _ _ Eh Ee) as (_ & -> & _).
        split_and!; [constructor|done..].
Qed.

Definition bases_distinct (bns : list esp_event_base_node_t) : Prop :=
  Forall (fun bn => NoDup (map id_node_id (id_nodes bn))) bns.

Lemma key_of_base b i : bool_decide (b = esp_event_any_base) && (i =? ESP_EVENT_ANY_ID) = false ->
  key_of b i = base_key b i.
Proof. unfold key_of, base_key. by intros ->. Qed.

Lemma new_base_node_registers mem ln b id eh a leg err inst ln' :
  bool_decide (b = esp_event_any_base) && (id =? ESP_EVENT_ANY_ID) = false ->
  bases_distinct (base_nodes ln) ->
  (let (base_node, mem) := calloc mem in
   if base_node =? NULL then (ESP_ERR_NO_MEM, NULL, ln) else
   let '(err, instance, node) := base_node_add_handler mem (mkBaseNode b [] []) id eh a leg in
   if err =? ESP_OK
   then (err, instance, mkLoopNode (loop_node_handlers ln) (base_nodes ln ++ [node]))
   else (err, NULL, ln)) = (err, inst, ln') ->
  registers mem (key_of b id) eh a leg (loop_node_entries ln) err inst (loop_node_entries ln') /\
  bases_distinct (base_nodes ln').
Proof.
  intros Hk Hd. destruct (calloc mem) as [c mem'] eqn:Ec.
  destruct (c =? NULL); [intros; simplify_eq; split; [constructor|done]|].
  destruct (base_node_add_handler _ _ _ _ _ _) as [[e' i'] node] eqn:Eb.
  apply base_node_add_handler_registers in Eb as (Hr & Hbase & Hn); [|done].
  change (base_node_entries (mkBaseNode b [] [])) with (@nil entry) in Hr. simpl in Hr, Hbase, Hn.
  destruct (e' =? ESP_OK) eqn:Ee; intros; simplify_eq.
  - unfold loop_node_entries. simpl. rewrite flat_map_app. simpl. rewrite app_nil_r, key_of_base by done. split.
    + eapply (registers_ctx _ mem _ _ _ _ _ _ _ _ (tag (None, None) (loop_node_handlers ln) ++
        flat_map base_node_entries (base_nodes ln)) []) in Hr; [|by eapply calloc_subseteq|constructor].
      rewrite !app_nil_r in Hr. rewrite app_assoc. exact Hr.
    + apply Forall_app. split; [done|]. constructor; [|constructor]. apply Hn. constructor.
  - destruct (registers_ok_not_ok _ _ _ _ _ _ _ _ _ Hr Ee) as (_ & -> & _). split; [constructor|done].
Qed.

Lemma loop_node_add_handler_registers mem ln b id eh a leg err inst ln' :
  (bool_decide (b = esp_event_any_base) && (id =? ESP_EVENT_ANY_ID) = true -> base_nodes ln = []) ->
  bases_distinct (base_nodes ln) ->
  loop_node_add_handler mem ln b id eh a leg = (err, inst, ln') ->
  registers mem (key_of b id) eh a leg (loop_node_entries ln) err inst (loop_node_entries ln') /\
  bases_distinct (base_nodes ln').
Proof.
  intros Hl Hd. unfold loop_node_add_handler.
  destruct (bool_decide (b = esp_event_any_base) && (id =? ESP_EVENT_ANY_ID)) eqn:Ek.
  - destruct (handler_instances_add mem (loop_node_handlers ln) eh a leg) as [[e' i'] hs] eqn:Eh. intros; simplify_eq.
    unfold loop_node_entries, key_of. rewrite Ek. simpl. rewrite (Hl eq_refl). simpl. split; [|constructor].
    apply (handler_instances_add_registers _ (None, None)) in Eh. by rewrite !app_nil_r.
  - destruct (find_last (fun it => bool_decide (base_node_base it = b)) (base_nodes ln)) as [[i bn]|] eqn:Ef;
      [|by apply new_base_node_registers].
    destruct (find_last (fun _ => true) (base_nodes ln)) as [[i' last]|]; [|by apply new_base_node_registers].
    destruct (_ || _) eqn:Eor; [by apply new_base_node_registers|].
    apply orb_false_iff in Eor as [Eor _].
    apply find_last_some in Ef as (l1 & l2 & El & -> & Hb & Hl2). apply bool_decide_eq_true in Hb.
    destruct (base_node_add_handler _ _ _ _ _ _) as [[e' i0] node] eqn:Eb. intros; simplify_eq.
    apply base_node_add_handler_registers in Eb as (Hr & Hbase & Hn).
    + unfold loop_node_entries. simpl. rewrite El, slist_insert_between, !flat_map_app, key_of_base by done. simpl. split.
      * rewrite !app_assoc. rewrite <- !(app_assoc _ _ (flat_map _ l2)).
        eapply registers_ctx; [exact Hr|set_solver|]. by apply apart_bases.
      * unfold bases_distinct in *. rewrite El in Hd. apply Forall_app in Hd as [Hd1 Hd2].
        apply Forall_cons in Hd2 as [Hd2 Hd3]. apply Forall_app. split; [done|]. constructor; auto.
    + intros ->. destruct (id_nodes bn); [done|]. simpl in Eor. lia.
Qed.

Lemma new_loop_node_registers mem nodes b id eh a leg err inst nodes' : ids_distinct nodes ->
  (let (loop_node, mem) := calloc mem in
   if loop_node =? NULL then (ESP_ERR_NO_MEM, NULL, nodes) else
   let '(err, instance, node) := loop_node_add_handler mem (mkLoopNode [] []) b id eh a leg in
   if err =? ESP_OK then (err, instance, nodes ++ [node]) else (err, NULL, nodes)) = (err, inst, nodes') ->
  registers mem (key_of b id) eh a leg (entries nodes) err inst (entries nodes') /\ ids_distinct nodes'.
Proof.
  intros Hd. destruct (calloc mem) as [c mem'] eqn:Ec.
  destruct (c =? NULL); [intros; simplify_eq; split; [constructor|done]|].
  destruct (loop_node_add_handler _ _ _ _ _ _) as [[e' i'] node] eqn:Eb.
  apply loop_node_add_handler_registers in Eb as (Hr & Hn); [|done|constructor].
  change (loop_node_entries (mkLoopNode [] [])) with (@nil entry) in Hr.
  destruct (e' =? ESP_OK) eqn:Ee; intros; simplify_eq.
  - unfold entries. rewrite flat_map_app. simpl. rewrite app_nil_r. split.
    + eapply (registers_ctx _ mem _ _ _ _ _ _ _ _ (flat_map loop_node_entries nodes) []) in Hr;
        [|by eapply calloc_subseteq|constructor]. by rewrite !app_nil_r in Hr.
    + apply Forall_app. split; [done|]. by constructor.
  - destruct (registers_ok_not_ok _ _ _ _ _ _ _ _ _ Hr Ee) as (_ & -> & _). split; [constructor|done].
Qed.

Lemma loop_add_handler_registers mem nodes b id eh a leg err inst nodes' : ids_distinct nodes ->
  loop_add_handler mem nodes b id eh a leg = (err, inst, nodes') ->
  registers mem (key_of b id) eh a leg (entries nodes) err inst (entries nodes') /\ ids_distinct nodes'.
Proof.
  intros Hd. unfold loop_add_handler.
  destruct (find_last (fun _ => true) nodes) as [[i ln]|] eqn:Ef; [|by apply new_loop_node_registers].
  destruct (negb (slist_empty (base_nodes ln)) && _) eqn:En; [by apply new_loop_node_registers|].
  apply find_last_some in Ef as (l1 & l2 & -> & -> & _ & Hl2).
  destruct l2 as [|y l2]; [|by inversion Hl2].
  destruct (loop_node_add_handler _ _ _ _ _ _) as [[e' i'] node] eqn:Eb. intros; simplify_eq.
  apply Forall_app in Hd as [Hd1 Hd2]. apply Forall_cons in Hd2 as [Hd2 _].
  apply loop_node_add_handler_registers in Eb as (Hr & Hn); [| |exact Hd2].
  - unfold entries. rewrite slist_insert_between, !flat_map_app. simpl. split.
    + eapply registers_ctx; [exact Hr|set_solver|constructor].
    + apply Forall_app. split; [done|]. by constructor.
  - intros E. destruct (base_nodes ln); [done|]. simpl in En. congruence.
Qed.

(** ** What a removal does *)

(** The entries that match a request: those registered for its event, with its
    handler or at its context. *)
Definition requested (ctx : esp_event_remove_handler_context_t) (e : entry) : bool :=
  bool_decide (fst e = key_of (rm_base ctx) (rm_id ctx)) && same_handler ctx (snd e).

Inductive removes (ctx : esp_event_remove_handler_context_t) (l : list entry) : esp_err_t -> list entry -> Prop :=
  | rem_none : Forall (fun e => requested ctx e = false) l -> removes ctx l ESP_ERR_NOT_FOUND l
  | rem_first l1 e l2 : l = l1 ++ e :: l2 -> requested ctx e = true -> Forall (fun e => requested ctx e = false) l1 ->
      removes ctx l ESP_OK (l1 ++ l2).

Lemma removes_ctx ctx l res l' p s : removes ctx l res l' -> Forall (fun e => requested ctx e = false) p ->
  (res = ESP_ERR_NOT_FOUND -> Forall (fun e => requested ctx e = false) s) ->
  removes ctx (p ++ l ++ s) res (p ++ l' ++ s).
Proof.
  intros [Hn|l1 e l2 -> He Hl] Hp Hs.
  - constructor. rewrite !Forall_app. auto.
  - rewrite <- !app_assoc. simpl. rewrite (app_assoc p l1 (e :: _)), (app_assoc p l1 (l2 ++ s)).
    econstructor; [done|done|]. by apply Forall_app.
Qed.

(** After a failure in [l] the rest decides. *)
Lemma removes_next ctx l m res m' : removes ctx l ESP_ERR_NOT_FOUND l -> removes ctx m res m' ->
  removes ctx (l ++ m) res (l ++ m').
Proof.
  intros Hl Hm. assert (Forall (fun e => requested ctx e = false) l) by (by inversion Hl).
  eapply (removes_ctx _ _ _ _ l []) in Hm; [by rewrite !app_nil_r in Hm|done|constructor].
Qed.

Lemma removes_res ctx l res l' : removes ctx l res l' ->
  (res =? ESP_OK) = true /\ res = ESP_OK \/ (res =? ESP_OK) = false /\ res = ESP_ERR_NOT_FOUND /\ l' = l.
Proof. destruct 1; [by right|by left]. Qed.

Lemma not_requested_tag ctx k l : k <> key_of (rm_base ctx) (rm_id ctx) ->
  Forall (fun e => requested ctx e = false) (tag k l).
Proof.
  intros Hk. apply Forall_forall. intros e He. apply list_elem_of_In, in_map_iff in He as (h & <- & _).
  unfold requested. by rewrite bool_decide_false.
Qed.

Lemma handler_instances_remove_removes ctx hs res hs' :
  handler_instances_remove ctx hs = (res, hs') ->
  removes ctx (tag (key_of (rm_base ctx) (rm_id ctx)) hs) res (tag (key_of (rm_base ctx) (rm_id ctx)) hs').
Proof.
  revert res hs'. induction hs as [|it hs IH]; intros res hs' E; simpl in E; simplify_eq.
  - constructor. constructor.
  - destruct (same_handler ctx it) eqn:Es.
    + simplify_eq. simpl. apply (rem_first _ _ [] (key_of (rm_base ctx) (rm_id ctx), it)); [done| |constructor].
      unfold requested. simpl. by rewrite bool_decide_true.
    + destruct (handler_instances_remove ctx hs) as [r l] eqn:Er. simplify_eq.
      apply (removes_next _ [(key_of (rm_base ctx) (rm_id ctx), it)]); [|by apply IH].
      constructor. constructor; [|constructor]. unfold requested. simpl. by rewrite Es, andb_false_r.
Qed.

Lemma id_nodes_remove_handler_removes ctx ids res ids' : rm_id ctx <> ESP_EVENT_ANY_ID ->
  id_nodes_remove_handler ctx ids = (res, ids') ->
  removes ctx (flat_map (id_node_entries (rm_base ctx)) ids) res (flat_map (id_node_entries (rm_base ctx)) ids') /\
  sublist (map id_node_id ids') (map id_node_id ids).
Proof.
  intros Hi. assert (key_of (rm_base ctx) (rm_id ctx) = (Some (rm_base ctx), Some (rm_id ctx))) as Hk.
  { unfold key_of. destruct (Z.eqb_spec (rm_id ctx) ESP_EVENT_ANY_ID); [done|]. by rewrite andb_false_r. }
  revert res ids'. induction ids as [|it ids IH]; intros res ids' E; simpl in E; simplify_eq.
  { split; [repeat constructor|done]. }
  destruct (id_nodes_remove_handler ctx ids) as [r l] eqn:Er. destruct (IH _ _ eq_refl) as [IH1 IH2].
  destruct (Z.eqb_spec (id_node_id it) (rm_id ctx)) as [Ei|Ei].
  - destruct (handler_instances_remove ctx (id_node_handlers it)) as [r' hs] eqn:Eh.
    apply handler_instances_remove_removes in Eh. rewrite Hk, <- Ei in Eh.
    destruct (removes_res _ _ _ _ Eh) as [(E1 & ->)|(E1 & -> & E2)]; rewrite E1 in E; simplify_eq.
    + split.
      * eapply (removes_ctx _ _ _ _ [] (flat_map (id_node_entries (rm_base ctx)) ids)) in Eh; [|constructor|done].
        simpl. destruct (slist_empty hs) eqn:Es; [|exact Eh]. destruct hs; [|done]. exact Eh.
      * destruct (slist_empty hs); simpl; [by apply sublist_cons|done].
    + simpl. split; [by apply removes_next|by apply sublist_skip].
  - simpl in E. simplify_eq. simpl. split; [|by apply sublist_skip].
    apply removes_next; [|done]. constructor. apply not_requested_tag. rewrite Hk. congruence.
Qed.

Lemma not_requested_base ctx bn : base_node_base bn <> rm_base ctx ->
  Forall (fun e => requested ctx e = false) (base_node_entries bn).
Proof.
  intros Hb. assert (fst (key_of (rm_base ctx) (rm_id ctx)) <> Some (base_node_base bn)) as Hk.
  { unfold key_of. repeat case_match; simpl; congruence. }
  unfold base_node_entries. apply Forall_app. split; [apply not_requested_tag; intros E; by rewrite <- E in Hk|].
  apply Forall_forall. intros e He. apply list_elem_of_In, in_flat_map in He as (x & _ & He%list_elem_of_In).
  assert (Forall (fun e => requested ctx e = false) (id_node_entries (base_node_base bn) x)) as Hf
    by (apply not_requested_tag; intros E; by rewrite <- E in Hk).
  rewrite Forall_forall in Hf. auto.
Qed.

Lemma base_node_remove_handler_removes ctx bn res bn' :
  bool_decide (rm_base ctx = esp_event_any_base) && (rm_id ctx =? ESP_EVENT_ANY_ID) = false ->
  base_node_base bn = rm_base ctx -> base_node_remove_handler ctx bn = (res, bn') ->
  removes ctx (base_node_entries bn) res (base_node_entries bn') /\
  sublist (map id_node_id (id_nodes bn')) (map id_node_id (id_nodes bn)).
Proof.
  intros Hk Hb. assert (key_of (rm_base ctx) (rm_id ctx) = base_key (rm_base ctx) (rm_id ctx)) as Hkey by by apply key_of_base.
  unfold base_node_remove_handler, base_node_entries. unfold base_key in Hkey.
  destruct (Z.eqb_spec (rm_id ctx) ESP_EVENT_ANY_ID) as [E|E].
  - destruct (handler_instances_remove ctx (base_node_handlers bn)) as [r hs] eqn:Eh. intros; simplify_eq. simpl.
    split; [|done]. apply handler_instances_remove_removes in Eh. rewrite Hkey, <- Hb in Eh.
    eapply (removes_ctx _ _ _ _ []) in Eh; [exact Eh|constructor|]. intros _.
    apply Forall_forall. intros e He. apply list_elem_of_In, in_flat_map in He as (x & _ & He%list_elem_of_In).
    assert (Forall (fun e => requested ctx e = false) (id_node_entries (base_node_base bn) x)) as Hf
      by (apply not_requested_tag; rewrite Hkey; congruence).
    rewrite Forall_forall in Hf. auto.
  - destruct (id_nodes_remove_handler ctx (id_nodes bn)) as [r ids] eqn:Eh. intros; simplify_eq. simpl.
    apply id_nodes_remove_handler_removes in Eh as (Eh & Hs); [|done]. split; [|done]. rewrite Hb.
    apply removes_next; [|done]. constructor. apply not_requested_tag. rewrite Hkey. congruence.
Qed.

Lemma base_nodes_remove_handler_removes ctx bns res bns' :
  bool_decide (rm_base ctx = esp_event_any_base) && (rm_id ctx =? ESP_EVENT_ANY_ID) = false ->
  base_nodes_remove_handler ctx bns = (res, bns') ->
  removes ctx (flat_map base_node_entries bns) res (flat_map base_node_entries bns') /\
  (bases_distinct bns -> bases_distinct bns').
Proof.
  intros Hk. revert res bns'. induction bns as [|it bns IH]; intros res bns' E; simpl in E; simplify_eq.
  { split; [repeat constructor|done]. }
  destruct (base_nodes_remove_handler ctx bns) as [r l] eqn:Er. destruct (IH _ _ eq_refl) as [IH1 IH2].
  unfold bases_distinct in *. case_bool_decide as Eb.
  - destruct (base_node_remove_handler ctx it) as [r' node] eqn:Eh.
    apply base_node_remove_handler_removes in Eh as (Eh & Hs); [|done..].
    destruct (removes_res _ _ _ _ Eh) as [(E1 & ->)|(E1 & -> & E2)]; rewrite E1 in E; simplify_eq.
    + eapply (removes_ctx _ _ _ _ [] (flat_map base_node_entries bns)) in Eh; [|constructor|done]. split.
      * simpl. destruct (slist_empty _ && _) eqn:Es; [|exact Eh]. apply andb_true_iff in Es as [Es1 Es2].
        unfold base_node_entries at 3 in Eh. destruct (base_node_handlers node); [|done].
        destruct (id_nodes node); [|done]. exact Eh.
      * intros [Hd1 Hd2]%Forall_cons. destruct (slist_empty _ && _); [done|].
        apply Forall_cons. split; [|done]. by eapply sublist_NoDup.
    + rewrite E2 in Eh. simpl. split; [by apply removes_next|].
      intros [Hd1 Hd2]%Forall_cons. apply Forall_cons. auto.
  - simpl in E. simplify_eq. simpl. split; [apply removes_next; [|done]; constructor; by apply not_requested_base|].
    intros [Hd1 Hd2]%Forall_cons. apply Forall_cons. auto.
Qed.

Lemma loop_node_remove_handler_removes ctx ln res ln' : loop_node_remove_handler ctx ln = (res, ln') ->
  removes ctx (loop_node_entries ln) res (loop_node_entries ln') /\
  (bases_distinct (base_nodes ln) -> bases_distinct (base_nodes ln')).
Proof.
  unfold loop_node_remove_handler, loop_node_entries.
  destruct (bool_decide (rm_base ctx = esp_event_any_base) && (rm_id ctx =? ESP_EVENT_ANY_ID)) eqn:Ek.
  - assert (key_of (rm_base ctx) (rm_id ctx) = (None, None)) as Hkey by (unfold key_of; by rewrite Ek).
    destruct (handler_instances_remove ctx (loop_node_handlers ln)) as [r hs] eqn:Eh. intros; simplify_eq. simpl.
    split; [|done]. apply handler_instances_remove_removes in Eh. rewrite Hkey in Eh.
    eapply (removes_ctx _ _ _ _ []) in Eh; [exact Eh|constructor|]. intros _.
    apply Forall_forall. intros e He. apply list_elem_of_In, in_flat_map in He as (bn & _ & He).
    unfold requested. rewrite Hkey. unfold base_node_entries in He. apply in_app_iff in He as [He|He].
    + apply in_map_iff in He as (h & <- & _). done.
    + apply in_flat_map in He as (x & _ & He). apply in_map_iff in He as (h & <- & _). done.
  - destruct (base_nodes_remove_handler ctx (base_nodes ln)) as [r bns] eqn:Eh. intros; simplify_eq. simpl.
    apply base_nodes_remove_handler_removes in Eh as (Eh & Hd); [|done]. split; [|done].
    apply removes_next; [|done]. constructor. apply not_requested_tag. rewrite key_of_base by done.
    unfold base_key. by case_match.
Qed.

Lemma loop_remove_handler_removes ctx nodes res nodes' : loop_remove_handler ctx nodes = (res, nodes') ->
  removes ctx (entries nodes) res (entries nodes') /\ (ids_distinct nodes -> ids_distinct nodes').
Proof.
  revert res nodes'. induction nodes as [|it nodes IH]; intros res nodes' E; simpl in E; simplify_eq.
  { split; [repeat constructor|done]. }
  destruct (loop_remove_handler ctx nodes) as [r l] eqn:Er. destruct (IH _ _ eq_refl) as [IH1 IH2].
  unfold ids_distinct in *.
  destruct (loop_node_remove_handler ctx it) as [r' node] eqn:Eh.
  apply loop_node_remove_handler_removes in Eh as (Eh & Hs).
  destruct (removes_res _ _ _ _ Eh) as [(E1 & ->)|(E1 & -> & E2)]; rewrite E1 in E; simplify_eq.
  - eapply (removes_ctx _ _ _ _ [] (entries nodes)) in Eh; [|constructor|done]. split.
    + unfold entries. simpl. destruct (slist_empty _ && _) eqn:Es; [|exact Eh]. apply andb_true_iff in Es as [Es1 Es2].
      unfold loop_node_entries at 2 in Eh. destruct (loop_node_handlers node); [|done].
      destruct (base_nodes node); [|done]. exact Eh.
    + intros [Hd1 Hd2]%Forall_cons. destruct (slist_empty _ && _); [done|].
      apply Forall_cons. split; [|done]. by apply Hs.
  - rewrite E2 in Eh. unfold entries. simpl. split; [by apply removes_next|].
    intros [Hd1 Hd2]%Forall_cons. apply Forall_cons. auto.
Qed.

(** ** What marking a handler does *)

Lemma lookup_between {A} (l : list A) i x : l !! i = Some x ->
  exists l1 l2, l = l1 ++ x :: l2 /\ forall f, alter f i l = l1 ++ f x :: l2.
Proof.
  intros E. exists (take i l), (drop (S i) l). split; [by rewrite take_drop_middle|]. intros f.
  rewrite <- (take_drop_middle l i x E) at 1. pose proof (lookup_lt_Some _ _ _ E) as Hi.
  replace i with (length (take i l)) at 1 by (rewrite length_take; lia).
  rewrite alter_app_r_alt by lia. by rewrite Nat.sub_diag.
Qed.

Lemma alter_tag f n k l h : l !! n = Some h ->
  exists l1 l2, tag k l = l1 ++ (k, h) :: l2 /\ tag k (alter f n l) = l1 ++ (k, f h) :: l2.
Proof.
  intros (l1 & l2 & -> & E)%lookup_between. rewrite E. exists (tag k l1), (tag k l2).
  unfold tag. by rewrite !map_app.
Qed.

(** Altering one handler alters its entry, and the entries know nothing else. *)
Lemma alter_handlers_entries f v n nodes h : handlers_at nodes v !! n = Some h ->
  exists k l1 l2, entries nodes = l1 ++ (k, h) :: l2 /\
    entries (alter_handlers (alter f n) v nodes) = l1 ++ (k, f h) :: l2.
Proof.
  assert (forall {A} (g : A -> list entry) l i x y k l1 l2, l !! i = Some x -> g x = l1 ++ (k, h) :: l2 ->
    g y = l1 ++ (k, f h) :: l2 -> exists m1 m2, flat_map g l = m1 ++ (k, h) :: m2 /\
      forall f', f' x = y -> flat_map g (alter f' i l) = m1 ++ (k, f h) :: m2) as Hflat.
  { intros A g l i x y k l1 l2 Hi Ex Ey. apply lookup_between in Hi as (a & b & -> & E).
    exists (flat_map g a ++ l1), (l2 ++ flat_map g b). split.
    - rewrite flat_map_app. simpl. rewrite Ex, <- !app_assoc. done.
    - intros f' <-. rewrite E, flat_map_app. simpl. rewrite Ey, <- !app_assoc. done. }
  unfold entries, handlers_at, id_node_at, base_node_at. destruct v as [k|k j|k j i]; simpl.
  - destruct (nodes !! k) as [ln|] eqn:Ek; [|done]. intros (l1 & l2 & E1 & E2)%(alter_tag f n (None, None)).
    edestruct (Hflat _ loop_node_entries nodes k ln (mkLoopNode (alter f n (loop_node_handlers ln)) (base_nodes ln))) as (m1 & m2 & M1 & M2); [done|..].
    + unfold loop_node_entries at 1. by rewrite E1, <- app_assoc.
    + unfold loop_node_entries. simpl. by rewrite E2, <- app_assoc.
    + exists (None, None), m1, m2. split; [done|]. by apply M2.
  - destruct (nodes !! k) as [ln|] eqn:Ek; [|done].
    destruct (base_nodes ln !! j) as [bn|] eqn:Ej; [|done].
    intros (l1 & l2 & E1 & E2)%(alter_tag f n (Some (base_node_base bn), None)).
    edestruct (Hflat _ base_node_entries (base_nodes ln) j bn
      (mkBaseNode (base_node_base bn) (alter f n (base_node_handlers bn)) (id_nodes bn))) as (m1 & m2 & M1 & M2); [done|..].
    { unfold base_node_entries at 1. by rewrite E1, <- app_assoc. }
    { unfold base_node_entries. simpl. by rewrite E2, <- app_assoc. }
    edestruct (Hflat _ loop_node_entries nodes k ln) as (p1 & p2 & P1 & P2); [done|..].
    + unfold loop_node_entries at 1. by rewrite M1, app_assoc.
    + instantiate (1 := mkLoopNode (loop_node_handlers ln) (alter (fun bn => mkBaseNode (base_node_base bn) (alter f n (base_node_handlers bn)) (id_nodes bn)) j (base_nodes ln))).
      unfold loop_node_entries. simpl. rewrite M2; [by rewrite app_assoc|]. reflexivity.
    + eexists _, p1, p2. split; [done|]. by apply P2.
  - destruct (nodes !! k) as [ln|] eqn:Ek; [|done].
    destruct (base_nodes ln !! j) as [bn|] eqn:Ej; [|done].
    destruct (id_nodes bn !! i) as [x|] eqn:Ei; [|done].
    intros (l1 & l2 & E1 & E2)%(alter_tag f n (Some (base_node_base bn), Some (id_node_id x))).
    edestruct (Hflat _ (id_node_entries (base_node_base bn)) (id_nodes bn) i x
      (mkIdNode (id_node_id x) (alter f n (id_node_handlers x)))) as (q1 & q2 & Q1 & Q2); [done|exact E1|exact E2|].
    edestruct (Hflat _ base_node_entries (base_nodes ln) j bn) as (m1 & m2 & M1 & M2); [done|..].
    { unfold base_node_entries at 1. by rewrite Q1, app_assoc. }
    { instantiate (1 := mkBaseNode (base_node_base bn) (base_node_handlers bn) (alter (fun x => mkIdNode (id_node_id x) (alter f n (id_node_handlers x))) i (id_nodes bn))).
      unfold base_node_entries. simpl. rewrite Q2; [by rewrite app_assoc|]. reflexivity. }
    edestruct (Hflat _ loop_node_entries nodes k ln) as (p1 & p2 & P1 & P2); [done|..].
    + unfold loop_node_entries at 1. by rewrite M1, app_assoc.
    + instantiate (1 := mkLoopNode (loop_node_handlers ln) (alter (fun bn => mkBaseNode (base_node_base bn) (base_node_handlers bn)
        (alter (fun x => mkIdNode (id_node_id x) (alter f n (id_node_handlers x))) i (id_nodes bn))) j (base_nodes ln))).
      unfold loop_node_entries. simpl. rewrite M2; [by rewrite app_assoc|]. reflexivity.
    + eexists _, p1, p2. split; [done|]. by apply P2.
Qed.

Lemma alter_handlers_ids f v nodes : ids_distinct nodes -> ids_distinct (alter_handlers f v nodes).
Proof.
  unfold ids_distinct. intros Hd. rewrite Forall_lookup in *. intros k ln. destruct v as [k'|k' j|k' j i]; simpl;
    (destruct (decide (k = k')) as [->|]; [rewrite list_lookup_alter_eq|rewrite list_lookup_alter_ne by done; apply Hd]).
  - intros (ln0 & E & ->)%fmap_Some. simpl. by eapply Hd.
  - intros (ln0 & E & ->)%fmap_Some. simpl. specialize (Hd _ _ E). rewrite Forall_lookup in *. intros j' bn.
    destruct (decide (j' = j)) as [->|]; [rewrite list_lookup_alter_eq|rewrite list_lookup_alter_ne by done; apply Hd].
    intros (bn0 & E' & ->)%fmap_Some. simpl. by eapply Hd.
  - intros (ln0 & E & ->)%fmap_Some. simpl. specialize (Hd _ _ E). rewrite Forall_lookup in *. intros j' bn.
    destruct (decide (j' = j)) as [->|]; [rewrite list_lookup_alter_eq|rewrite list_lookup_alter_ne by done; apply Hd].
    intros (bn0 & E' & ->)%fmap_Some. simpl. specialize (Hd _ _ E').
    replace (map id_node_id _) with (map id_node_id (id_nodes bn0)); [done|].
    clear. revert i. induction (id_nodes bn0) as [|x l IH]; intros [|i]; simpl; [done..|]. f_equal; apply IH.
Qed.

(** ** What the search finds *)

Lemma find_handler_sound ctx l n : find_handler ctx l = Some n -> exists h, l !! n = Some h /\ same_handler ctx h = true.
Proof.
  revert n. induction l as [|it l IH]; intros n; simpl; [done|]. destruct (same_handler ctx it) eqn:E.
  - intros [= <-]. eauto.
  - intros (m & Em & ->)%fmap_Some. eauto.
Qed.

Lemma find_handler_none ctx l : find_handler ctx l = None -> Forall (fun h => same_handler ctx h = false) l.
Proof.
  induction l as [|it l IH]; simpl; [constructor|]. destruct (same_handler ctx it) eqn:E; [done|].
  intros ?%fmap_None. constructor; auto.
Qed.

Section Search.
Context (ctx : esp_event_remove_handler_context_t) (nodes : list esp_event_loop_node_t).

Definition good_place (p : option (level * nat)) : Prop :=
  match p with
  | Some (v, n) => exists h, handlers_at nodes v !! n = Some h /\ same_handler ctx h = true
  | None => True
  end.

Lemma found_at_good v l found : handlers_at nodes v = l -> good_place found -> good_place (found_at ctx v l found).
Proof. intros <- Hf. unfold found_at. destruct (find_handler _ _) eqn:E; [|done]. by apply find_handler_sound. Qed.

Lemma find_in_id_nodes_good k j bn l pre found : base_node_at nodes k j = Some bn -> id_nodes bn = pre ++ l ->
  good_place found -> good_place (find_in_id_nodes ctx k j (length pre) l found).
Proof.
  intros Hb. revert pre found. induction l as [|x l IH]; intros pre found El Hf; simpl; [done|].
  assert (id_nodes bn = (pre ++ [x]) ++ l) as El' by (by rewrite <- app_assoc).
  replace (S (length pre)) with (length (pre ++ [x])) by (rewrite length_app; simpl; lia).
  apply IH; [done|]. destruct (_ =? _); [|done]. apply found_at_good; [|done].
  unfold handlers_at, id_node_at. by rewrite Hb, El, list_lookup_middle.
Qed.

Lemma find_in_base_nodes_good k ln l pre found : nodes !! k = Some ln -> base_nodes ln = pre ++ l ->
  good_place found -> good_place (find_in_base_nodes ctx k (length pre) l found).
Proof.
  intros Hb. revert pre found. induction l as [|x l IH]; intros pre found El Hf; simpl; [done|].
  assert (base_nodes ln = (pre ++ [x]) ++ l) as El' by (by rewrite <- app_assoc).
  assert (base_node_at nodes k (length pre) = Some x) as Ex by (unfold base_node_at; by rewrite Hb, El, list_lookup_middle).
  replace (S (length pre)) with (length (pre ++ [x])) by (rewrite length_app; simpl; lia).
  case_bool_decide; [|by apply IH].
  assert (good_place (found_at ctx (base_level k (length pre)) (base_node_handlers x) found)) as Hg.
  { apply found_at_good; [|done]. unfold handlers_at. by rewrite Ex. }
  destruct (found_at _ _ _ _); [done|]. apply IH; [done|]. by apply (find_in_id_nodes_good _ _ x _ []).
Qed.

Lemma find_in_loop_nodes_good l pre found : nodes = pre ++ l ->
  good_place found -> good_place (find_in_loop_nodes ctx (length pre) l found).
Proof.
  revert pre found. induction l as [|x l IH]; intros pre found El Hf; simpl; [done|].
  assert (nodes = (pre ++ [x]) ++ l) as El' by (by rewrite <- app_assoc).
  assert (nodes !! length pre = Some x) as Ex by (by rewrite El, list_lookup_middle).
  replace (S (length pre)) with (length (pre ++ [x])) by (rewrite length_app; simpl; lia).
  assert (good_place (found_at ctx (loop_level (length pre)) (loop_node_handlers x) found)) as Hg.
  { apply found_at_good; [|done]. unfold handlers_at. by rewrite Ex. }
  destruct (found_at _ _ _ _); [done|]. apply IH; [done|]. by apply (find_in_base_nodes_good _ x _ []).
Qed.

End Search.
