(* ===== verification/EventRun.v ===== *)
(** * Dispatching events

    What a dispatch calls and in which order, that an unregistered handler is not
    called again, and that the posts are dispatched in order, once each. *)

From stdpp Require Import base list option gmap.
From Stdlib Require Import ZArith Lia.
From S2P Require Import Prelude FreeRTOSList Kernel EspEvent EventOrder.

(** ** Lists of nodes that differ in marks only *)

Definition unmark (h : esp_event_handler_node_t) : esp_event_handler_node_t :=
  mkHandler (handler_ctx h) (handler h) (arg h) false.
Definition unmark_id (x : esp_event_id_node_t) : esp_event_id_node_t :=
  mkIdNode (id_node_id x) (unmark <$> id_node_handlers x).
Definition unmark_base (bn : esp_event_base_node_t) : esp_event_base_node_t :=
  mkBaseNode (base_node_base bn) (unmark <$> base_node_handlers bn) (unmark_id <$> id_nodes bn).
Definition unmark_loop (ln : esp_event_loop_node_t) : esp_event_loop_node_t :=
  mkLoopNode (unmark <$> loop_node_handlers ln) (unmark_base <$> base_nodes ln).
Definition unmark_all (nodes : list esp_event_loop_node_t) : list esp_event_loop_node_t := unmark_loop <$> nodes.

Lemma unmark_handlers_at nodes v : unmark <$> handlers_at nodes v = handlers_at (unmark_all nodes) v.
Proof.
  unfold handlers_at, id_node_at, base_node_at, unmark_all. destruct v as [k|k j|k j i]; rewrite list_lookup_fmap;
    destruct (nodes !! k) as [ln|]; simpl; [done..| |done| |done]; rewrite list_lookup_fmap;
    destruct (base_nodes ln !! j) as [bn|]; simpl; [done..| |done].
  rewrite list_lookup_fmap. by destruct (id_nodes bn !! i).
Qed.

Lemma alter_unmark n (l : list esp_event_handler_node_t) : unmark <$> alter mark_unregistered n l = unmark <$> l.
Proof. revert n. induction l as [|h l IH]; intros [|n]; simpl; [done..|]. f_equal. apply IH. Qed.

Lemma fmap_alter_same {A B} (g : A -> B) f i (l : list A) : (forall x, g (f x) = g x) -> g <$> alter f i l = g <$> l.
Proof. intros H. revert i. induction l as [|x l IH]; intros [|i]; simpl; [done|done|by rewrite H|]. f_equal. apply IH. Qed.

Lemma unmark_mark n v nodes : unmark_all (alter_handlers (alter mark_unregistered n) v nodes) = unmark_all nodes.
Proof.
  unfold unmark_all. destruct v; simpl; apply fmap_alter_same; intros ln; unfold unmark_loop; simpl; f_equal;
    [apply alter_unmark|apply fmap_alter_same..]; intros bn; unfold unmark_base; simpl; f_equal;
    [apply alter_unmark|apply fmap_alter_same]; intros x; unfold unmark_id; simpl; f_equal; apply alter_unmark.
Qed.

(** ** What the calls leave alone *)

Definition registers_nothing (c : api_call) : Prop :=
  match c with Register _ _ _ _ _ | RegisterInstance _ _ _ _ _ => False | _ => True end.

(** What calls put on record. *)
Definition by_call (e : happening) : Prop := match e with Invoked _ _ | Dispatched _ => False | _ => True end.

(** While [me] has the mutex a call that registers nothing can mark handlers and
    put posts into the queue. *)
Record only_marked (loop loop' : esp_event_loop_instance_t) : Prop := {
  om_nodes : unmark_all (loop_nodes loop') = unmark_all (loop_nodes loop);
  om_holder : mutex_holder loop' = mutex_holder loop;
  om_received : received loop' = received loop;
  om_running : running_task loop' = running_task loop;
  om_task : task loop' = task loop;
  om_happened : exists l, happened loop' = happened loop ++ l /\ Forall by_call l }.

Lemma only_marked_refl loop : only_marked loop loop.
Proof. split; try done. exists []. by rewrite app_nil_r. Qed.

Lemma only_marked_trans l1 l2 l3 : only_marked l1 l2 -> only_marked l2 l3 -> only_marked l1 l3.
Proof.
  intros [A1 A2 A3 A4 A5 (x & A6 & A7)] [B1 B2 B3 B4 B5 (y & B6 & B7)]. split; try congruence.
  exists (x ++ y). rewrite B6, A6, app_assoc. split; [done|]. by apply Forall_app.
Qed.

(** A post changes nothing but the queue and its senders. *)
Record posted (loop loop' : esp_event_loop_instance_t) : Prop := {
  po_nodes : loop_nodes loop' = loop_nodes loop;
  po_holder : mutex_holder loop' = mutex_holder loop;
  po_received : received loop' = received loop;
  po_running : running_task loop' = running_task loop;
  po_task : task loop' = task loop;
  po_queue : exists ps, queue loop' = queue loop ++ ps /\ happened loop' = happened loop ++ map Accepted ps }.

Lemma posted_refl loop : posted loop loop.
Proof. split; try done. exists []. by rewrite !app_nil_r. Qed.

Lemma posted_only_marked loop loop' : posted loop loop' -> only_marked loop loop'.
Proof.
  intros [A1 A2 A3 A4 A5 (ps & _ & A6)]. split; try congruence. exists (map Accepted ps). split; [done|].
  apply Forall_forall. intros e (p & <- & _)%list_elem_of_In%in_map_iff. done.
Qed.

Lemma send_to_back_posted who p ticks holds loop : posted loop (snd (send_to_back who p ticks holds loop)).
Proof.
  unfold send_to_back. destruct (_ <? _)%nat; [|destruct (_ =? _)]; split; try done; simpl;
    [by exists [p]|exists []; by rewrite !app_nil_r..].
Qed.

Lemma post_to_posted who mem b i d ticks holds loop :
  posted loop (snd (esp_event_post_to who mem b i d ticks holds loop)).
Proof.
  unfold esp_event_post_to. destruct (_ || _); [apply posted_refl|].
  destruct (copy_event_data mem d); [|apply posted_refl].
  repeat (case_match; simpl); solve [apply posted_refl|apply send_to_back_posted].
Qed.

Lemma isr_post_posted b i d n loop : posted loop (snd (esp_event_isr_post_to b i d n loop)).
Proof.
  unfold esp_event_isr_post_to. destruct (_ || _); [apply posted_refl|].
  destruct (_ <? _); [apply posted_refl|].
  match goal with |- context [send_to_back NULL ?p 0 false loop] =>
    pose proof (send_to_back_posted NULL p 0 false loop) as H; destruct (send_to_back NULL p 0 false loop) as [[[]|] l] end;
    exact H.
Qed.

Lemma find_and_unregister_only_marked who mem ctx loop :
  only_marked loop (snd (find_and_unregister_handler who mem ctx loop)).
Proof.
  unfold find_and_unregister_handler. destruct (find_in_loop_nodes ctx 0 (loop_nodes loop) None) as [[v n]|];
    [|apply only_marked_refl].
  case_match; [apply only_marked_refl|].
  set (l1 := with_nodes _ loop). assert (only_marked loop l1) as H1.
  { split; try done; [apply unmark_mark|exists []; by rewrite app_nil_r]. }
  destruct (rm_legacy ctx); [|eapply only_marked_trans; [done|apply posted_only_marked, post_to_posted]].
  destruct (calloc mem) as [c mem']. destruct (c =? NULL); [done|].
  eapply only_marked_trans; [done|apply posted_only_marked, post_to_posted].
Qed.

Lemma make_call_only_marked who c loop : mutex_holder loop <> NULL -> registers_nothing c ->
  only_marked loop (snd (make_call who c loop)).
Proof.
  intros Hm Hc.
  assert (forall contended mem b i ctx h legacy, only_marked loop
    (snd (esp_event_handler_unregister_with_internal who contended mem b i ctx h legacy loop))) as Hun.
  { intros. unfold esp_event_handler_unregister_with_internal. destruct (_ && _); [apply only_marked_refl|].
    rewrite (proj2 (Z.eqb_neq _ _) Hm). simpl. destruct (can_take who loop) eqn:Ec; simpl; [|apply only_marked_refl].
    assert (mutex_holder loop = who) as <- by (unfold can_take in Ec; lia).
    destruct (find_and_unregister_handler _ _ _ _) as [res l'] eqn:Ef.
    pose proof (find_and_unregister_only_marked (mutex_holder loop) mem (mkRemove (internal_base b) i ctx h legacy)
      (with_holder (mutex_holder loop) loop)) as H. rewrite Ef in H. simpl in H.
    destruct H as [A1 A2 A3 A4 A5 A6]. simpl in *. destruct res; by split. }
  destruct c as [| |contended b i h mem|contended b i ins mem|b i d ticks mem|b i d n]; simpl; try done.
  - apply Hun.
  - unfold esp_event_handler_instance_unregister_with. destruct (_ =? _); [apply only_marked_refl|apply Hun].
  - apply posted_only_marked, post_to_posted.
  - pose proof (isr_post_posted b i d n loop) as H. destruct (esp_event_isr_post_to b i d n loop).
    by apply posted_only_marked.
Qed.

(** The record of a call adds to the loop's record and changes nothing else. *)
Lemma run_api_call_record who c loop : exists l,
  snd (run_api_call who c loop) = fold_left (fun l e => with_happened e l) l (snd (make_call who c loop)) /\
  (l = recorded c (loop_nodes loop) /\ fst (make_call who c loop) = Some ESP_OK \/
   l = [] /\ fst (make_call who c loop) <> Some ESP_OK).
Proof.
  unfold run_api_call. destruct (make_call who c loop) as [r loop']. case_bool_decide; simpl.
  - eexists. split; [reflexivity|]. by left.
  - exists []. split; [done|]. by right.
Qed.

Lemma recorded_by_call c nodes : Forall by_call (recorded c nodes).
Proof. destruct c; repeat constructor. Qed.

Record same_but_record (l : list happening) (loop loop' : esp_event_loop_instance_t) : Prop := {
  sr_nodes : loop_nodes loop' = loop_nodes loop;
  sr_holder : mutex_holder loop' = mutex_holder loop;
  sr_received : received loop' = received loop;
  sr_running : running_task loop' = running_task loop;
  sr_task : task loop' = task loop;
  sr_queue : queue loop' = queue loop;
  sr_happened : happened loop' = happened loop ++ l }.

Lemma record_only l : forall loop, same_but_record l loop (fold_left (fun l e => with_happened e l) l loop).
Proof.
  induction l as [|e l IH]; intros loop; [split; try done; by rewrite app_nil_r|]. simpl.
  destruct (IH (with_happened e loop)) as [A1 A2 A3 A4 A5 A6 A7]. split; try done. rewrite A7. simpl. by rewrite <- app_assoc.
Qed.

Lemma run_api_call_only_marked who c loop : mutex_holder loop <> NULL -> registers_nothing c ->
  only_marked loop (snd (run_api_call who c loop)).
Proof.
  intros Hm Hc. apply (only_marked_trans _ (snd (make_call who c loop))); [by apply make_call_only_marked|].
  destruct (run_api_call_record who c loop) as (l & -> & Hl).
  destruct (record_only l (snd (make_call who c loop))) as [A1 A2 A3 A4 A5 _ A7]. split; try congruence.
  exists l. split; [done|]. destruct Hl as [[-> _]|[-> _]]; [apply recorded_by_call|constructor].
Qed.

Section Dispatch.
Context (handler_code : Z -> Z -> esp_event_post_instance_t -> list (Z * api_call)).

(** ** The places of the handlers of an event, in order *)

Fixpoint walk_places {A} (f : nat -> A -> list (level * nat) * bool) (n : nat) (l : list A) : list (level * nat) :=
  match l with
  | [] => []
  | x :: l => let (p, stop) := f n x in p ++ (if stop then [] else walk_places f (S n) l)
  end.

Definition places_in_list (v : level) (l : list esp_event_handler_node_t) : list (level * nat) :=
  walk_places (fun n _ => ([(v, n)], false)) 0 l.

Definition places_in_ids (pid : Z) (k j : nat) (l : list esp_event_id_node_t) : list (level * nat) :=
  walk_places (fun i x => if id_node_id x =? pid then (places_in_list (id_level k j i) (id_node_handlers x), true)
                          else ([], false)) 0 l.

Definition places_in_bases (pb : esp_event_base_t) (pid : Z) (k : nat) (l : list esp_event_base_node_t) :
    list (level * nat) :=
  walk_places (fun j bn =>
    (if bool_decide (base_node_base bn = pb)
     then places_in_list (base_level k j) (base_node_handlers bn) ++ places_in_ids pid k j (id_nodes bn) else [],
     false)) 0 l.

Definition places (pb : esp_event_base_t) (pid : Z) (nodes : list esp_event_loop_node_t) : list (level * nat) :=
  walk_places (fun k ln =>
    (places_in_list (loop_level k) (loop_node_handlers ln) ++ places_in_bases pb pid k (base_nodes ln), false)) 0 nodes.

Definition call_handler (post : esp_event_post_instance_t) (h : option esp_event_handler_node_t)
    (loop : esp_event_loop_instance_t) : esp_event_loop_instance_t :=
  match h with
  | Some h => if unregistered h then loop else handler_execute handler_code loop h post
  | None => loop
  end.

Definition call_place (post : esp_event_post_instance_t) (loop : esp_event_loop_instance_t) (p : level * nat) :=
  call_handler post (handlers_at (loop_nodes loop) (fst p) !! snd p) loop.

(** The walk by its specification: the [n]-th handler of the event is called
    unless it is marked when its turn comes. *)
Definition call_nth (post : esp_event_post_instance_t) (loop : esp_event_loop_instance_t) (n : nat) :=
  call_handler post (handlers_of (post_base post) (post_id post) (loop_nodes loop) !! n) loop.

Definition call_in_turn (post : esp_event_post_instance_t) (loop : esp_event_loop_instance_t) :=
  fold_left (call_nth post) (seq 0 (length (handlers_of (post_base post) (post_id post) (loop_nodes loop)))) loop.

(** The same walk over the handlers themselves. *)
Fixpoint walk_list {A} (g : A -> list esp_event_handler_node_t * bool) (l : list A) : list esp_event_handler_node_t :=
  match l with
  | [] => []
  | x :: l => fst (g x) ++ (if snd (g x) then [] else walk_list g l)
  end.

Definition at_places (nodes : list esp_event_loop_node_t) (ps : list (level * nat)) : list (option esp_event_handler_node_t) :=
  map (fun p => handlers_at nodes (fst p) !! snd p) ps.

Lemma walk_places_lookup {A} (f : nat -> A -> list (level * nat) * bool) (g : A -> list esp_event_handler_node_t * bool)
    nodes n l :
  (forall m x, l !! m = Some x -> snd (f (n + m)%nat x) = snd (g x) /\ at_places nodes (fst (f (n + m)%nat x)) = Some <$> fst (g x)) ->
  at_places nodes (walk_places f n l) = Some <$> walk_list g l.
Proof.
  revert n. induction l as [|x l IH]; intros n H; simpl; [done|].
  destruct (H 0%nat x eq_refl) as [H1 H2]. rewrite Nat.add_0_r in H1, H2.
  destruct (f n x) as [p stop]. simpl in H1, H2. subst stop. unfold at_places. rewrite map_app, fmap_app.
  f_equal; [done|]. destruct (snd (g x)); [done|]. apply IH. intros m y Hm. specialize (H (S m) y Hm).
  by rewrite <- plus_n_Sm in H.
Qed.

Lemma walk_list_flat_map {A} (g : A -> list esp_event_handler_node_t) l :
  walk_list (fun x => (g x, false)) l = flat_map g l.
Proof. induction l as [|x l IH]; [done|]. simpl. by rewrite IH. Qed.

Lemma places_in_list_lookup nodes v l : handlers_at nodes v = l -> at_places nodes (places_in_list v l) = Some <$> l.
Proof.
  intros E. unfold places_in_list. rewrite (walk_places_lookup _ (fun h => ([h], false))).
  - rewrite walk_list_flat_map. f_equal. clear. induction l as [|h l IH]; simpl; congruence.
  - intros m x Hm. split; [done|]. simpl. by rewrite E, Hm.
Qed.

Lemma walk_list_first pid l :
  walk_list (fun x => if id_node_id x =? pid then (id_node_handlers x, true) else ([], false)) l = first_id_node pid l.
Proof.
  induction l as [|x l IH]; [done|]. simpl. unfold first_id_node. rewrite filter_cons.
  destruct (Z.eqb_spec (id_node_id x) pid); [rewrite decide_True by done|rewrite decide_False by done]; simpl; [|done].
  by rewrite app_nil_r.
Qed.

Lemma places_in_ids_lookup nodes pid k j bn : base_node_at nodes k j = Some bn ->
  at_places nodes (places_in_ids pid k j (id_nodes bn)) = Some <$> first_id_node pid (id_nodes bn).
Proof.
  intros E. unfold places_in_ids.
  rewrite (walk_places_lookup _ (fun x => if id_node_id x =? pid then (id_node_handlers x, true) else ([], false))).
  - by rewrite walk_list_first.
  - intros m x Hm. destruct (_ =? _); simpl; [|done]. split; [done|]. apply places_in_list_lookup.
    unfold handlers_at, id_node_at. by rewrite E, Hm.
Qed.

Lemma places_in_bases_lookup nodes pb pid k ln : nodes !! k = Some ln ->
  at_places nodes (places_in_bases pb pid k (base_nodes ln)) = Some <$> flat_map (base_node_order pb pid) (base_nodes ln).
Proof.
  intros E. unfold places_in_bases. rewrite (walk_places_lookup _ (fun bn => (base_node_order pb pid bn, false))).
  - by rewrite walk_list_flat_map.
  - intros j bn Hj. split; [done|]. simpl. unfold base_node_order. case_bool_decide; [|done].
    assert (base_node_at nodes k j = Some bn) as Eb by (unfold base_node_at; by rewrite E, Hj).
    unfold at_places. rewrite map_app, fmap_app. f_equal; [|by apply places_in_ids_lookup].
    apply places_in_list_lookup. unfold handlers_at. by rewrite Eb.
Qed.

(** The places hold the handlers of the event. *)
Lemma places_lookup nodes pb pid : at_places nodes (places pb pid nodes) = Some <$> handlers_of pb pid nodes.
Proof.
  unfold places. rewrite (walk_places_lookup _ (fun ln => (loop_node_order pb pid ln, false))).
  - by rewrite walk_list_flat_map.
  - intros k ln Hk. split; [done|]. simpl. unfold loop_node_order, at_places. rewrite map_app, fmap_app.
    f_equal; [|by apply places_in_bases_lookup]. apply places_in_list_lookup. unfold handlers_at. by rewrite Hk.
Qed.

Lemma walk_places_fmap {A} (f f' : nat -> A -> list (level * nat) * bool) (u : A -> A) n l :
  (forall m x, f' m (u x) = f m x) -> walk_places f' n (u <$> l) = walk_places f n l.
Proof.
  intros H. revert n. induction l as [|x l IH]; intros n; simpl; [done|]. rewrite H. destruct (f n x) as [p []]; [done|].
  by rewrite IH.
Qed.

(** Marks do not matter for the places. *)
Lemma places_unmark pb pid nodes : places pb pid (unmark_all nodes) = places pb pid nodes.
Proof.
  assert (forall v l, places_in_list v (unmark <$> l) = places_in_list v l) as Hl by (intros; by apply walk_places_fmap).
  apply walk_places_fmap. intros k ln. simpl. rewrite Hl. do 2 f_equal.
  apply walk_places_fmap. intros j bn. simpl. rewrite Hl. case_bool_decide; [|done]. do 2 f_equal.
  apply walk_places_fmap. intros i x. simpl. by rewrite Hl.
Qed.

(** ** The dispatch is the walk over the places *)

Context (handlers_register_nothing : forall h a p,
  Forall (fun wc => registers_nothing (snd wc)) (handler_code h a p)).

Definition during (me : Z) (shape : list esp_event_loop_node_t) (loop : esp_event_loop_instance_t) : Prop :=
  mutex_holder loop = me /\ unmark_all (loop_nodes loop) = shape.

Lemma run_api_calls_only_marked l loop : mutex_holder loop <> NULL ->
  Forall (fun wc => registers_nothing (snd wc)) l -> only_marked loop (run_api_calls l loop).
Proof.
  intros Hm Hl. unfold run_api_calls. revert loop Hm. induction Hl as [|[w c] l Hc _ IH]; intros loop Hm; simpl.
  { apply only_marked_refl. }
  pose proof (run_api_call_only_marked w c loop Hm Hc) as H. eapply only_marked_trans; [exact H|].
  apply IH. by rewrite (om_holder _ _ H).
Qed.

Lemma call_handler_during me shape post h loop : me <> NULL -> during me shape loop ->
  during me shape (call_handler post h loop).
Proof.
  intros Hm [H1 H2]. destruct h as [h|]; simpl; [|done]. destruct (unregistered h); [done|].
  unfold handler_execute. set (l0 := with_happened _ loop).
  destruct (run_api_calls_only_marked (handler_code (handler h) (arg h) post) l0) as [A1 A2 _ _ _ _].
  - simpl. congruence.
  - apply handlers_register_nothing.
  - split; [by rewrite A2|by rewrite A1].
Qed.

Lemma call_places_during me shape post ps loop : me <> NULL -> during me shape loop ->
  during me shape (fold_left (call_place post) ps loop).
Proof.
  intros Hm. revert loop. induction ps as [|p ps IH]; intros loop H; simpl; [done|].
  apply IH. by apply call_handler_during.
Qed.

Lemma foreach_places {A} me shape post fuel len body (f : nat -> A -> list (level * nat) * bool) l n loop :
  me <> NULL -> during me shape loop -> (length l < fuel)%nat ->
  (forall loop, during me shape loop -> len loop = (n + length l)%nat) ->
  (forall m x loop, l !! m = Some x -> during me shape loop ->
     body (n + m)%nat loop = Some (snd (f (n + m)%nat x), fold_left (call_place post) (fst (f (n + m)%nat x)) loop)) ->
  slist_foreach_safe fuel len body n loop = Some (fold_left (call_place post) (walk_places f n l) loop).
Proof.
  intros Hme. revert n loop fuel. induction l as [|x l IH]; intros n loop [|fuel] Hd Hf Hlen Hbody; simpl in *; [lia| |lia|].
  { rewrite (Hlen loop Hd). by rewrite (proj2 (Nat.ltb_ge _ _)) by lia. }
  rewrite (proj2 (Nat.ltb_lt n _)) by (rewrite (Hlen loop Hd); lia).
  pose proof (Hbody 0%nat x loop eq_refl Hd) as Hb. rewrite Nat.add_0_r in Hb. rewrite Hb.
  destruct (f n x) as [p stop] eqn:Ef. simpl. rewrite fold_left_app.
  destruct stop; [done|]. rewrite (Hlen loop Hd).
  pose proof (call_places_during me shape post p loop Hme Hd) as Hd'.
  destruct l as [|y l].
  { rewrite (proj2 (Nat.ltb_ge _ _)) by (simpl; lia). done. }
  rewrite (proj2 (Nat.ltb_lt _ _)) by (simpl; lia). apply IH; [done|simpl in *; lia| |].
  - intros loop' H'. rewrite (Hlen loop' H'). simpl. lia.
  - intros m z loop' Hm H'. specialize (Hbody (S m) z loop' Hm H'). by rewrite <- plus_n_Sm in Hbody.
Qed.

(** Fuel for a list and all lists below it. *)
Fixpoint total {A} (f : A -> nat) (l : list A) : nat :=
  match l with [] => 0 | x :: l => S (f x) + total f l end.
Definition fuel_for (nodes : list esp_event_loop_node_t) : nat :=
  S (total (fun ln => length (loop_node_handlers ln) +
     total (fun bn => length (base_node_handlers bn) + total (fun x => length (id_node_handlers x)) (id_nodes bn))
       (base_nodes ln))%nat nodes).

Lemma total_length {A} (f : A -> nat) l : (length l <= total f l)%nat.
Proof. induction l; simpl; lia. Qed.
Lemma total_lookup {A} (f : A -> nat) l i x : l !! i = Some x -> (f x < total f l)%nat.
Proof. revert i. induction l as [|y l IH]; intros [|i] E; simpl in *; simplify_eq; [lia|]. specialize (IH _ E). lia. Qed.

Section Walk.
Context (me : Z) (shape : list esp_event_loop_node_t) (post : esp_event_post_instance_t) (fuel : nat).
Context (me_not_null : me <> NULL) (enough : (fuel_for shape <= fuel)%nat).

Lemma during_handlers loop v : during me shape loop ->
  length (handlers_at (loop_nodes loop) v) = length (handlers_at shape v).
Proof. intros [_ <-]. by rewrite <- unmark_handlers_at, length_fmap. Qed.

Lemma walk_handlers_places v loop : during me shape loop -> (length (handlers_at shape v) < fuel)%nat ->
  walk_handlers handler_code fuel v post loop =
    Some (fold_left (call_place post) (places_in_list v (handlers_at shape v)) loop).
Proof.
  intros Hd Hf. apply (foreach_places me shape); [done..| |].
  - intros loop' H'. by rewrite (during_handlers _ _ H').
  - intros m x loop' Hm H'. simpl. unfold call_place. simpl.
    destruct (handlers_at (loop_nodes loop') v !! m) as [h|]; simpl; [|done]. by destruct (unregistered h).
Qed.

Lemma during_base_node loop k j : during me shape loop ->
  base_node_at shape k j = unmark_base <$> base_node_at (loop_nodes loop) k j.
Proof.
  intros [_ <-]. unfold base_node_at, unmark_all. rewrite list_lookup_fmap.
  destruct (loop_nodes loop !! k) as [ln|]; simpl; [|done]. by rewrite list_lookup_fmap.
Qed.

Lemma walk_id_nodes_places k j bn loop : during me shape loop -> base_node_at shape k j = Some bn ->
  (length (id_nodes bn) < fuel)%nat ->
  (forall i x, id_nodes bn !! i = Some x -> (length (id_node_handlers x) < fuel)%nat) ->
  walk_id_nodes handler_code fuel k j post loop =
    Some (fold_left (call_place post) (places_in_ids (post_id post) k j (id_nodes bn)) loop).
Proof.
  intros Hd Hbn Hf Hfx. apply (foreach_places me shape); [done..| |].
  - intros loop' H'. rewrite (during_base_node _ _ _ H') in Hbn. destruct (base_node_at (loop_nodes loop') k j) as [b|]; [|done].
    simpl in Hbn. injection Hbn as <-. simpl. by rewrite length_fmap.
  - intros i x loop' Hx H'. simpl. pose proof Hbn as Hbn'. rewrite (during_base_node _ _ _ H') in Hbn'. unfold id_node_at at 1.
    destruct (base_node_at (loop_nodes loop') k j) as [b|]; [|done]. simpl in Hbn'. injection Hbn' as <-.
    simpl in Hx. rewrite list_lookup_fmap in Hx. destruct (id_nodes b !! i) as [y|] eqn:Ey; [|done].
    simpl in Hx. injection Hx as <-. simpl. destruct (id_node_id y =? post_id post) eqn:Ep; simpl; [|done].
    assert (id_node_at shape k j i = Some (unmark_id y)) as Ei by (unfold id_node_at; rewrite Hbn; simpl; by rewrite list_lookup_fmap, Ey).
    assert (handlers_at shape (id_level k j i) = unmark <$> id_node_handlers y) as Eh by (unfold handlers_at; by rewrite Ei).
    rewrite walk_handlers_places; [by rewrite Eh|done|]. rewrite Eh. apply (Hfx i (unmark_id y)).
    simpl. by rewrite list_lookup_fmap, Ey.
Qed.

Lemma walk_base_nodes_places k ln loop : during me shape loop -> shape !! k = Some ln ->
  walk_base_nodes handler_code fuel k post loop =
    Some (fold_left (call_place post) (places_in_bases (post_base post) (post_id post) k (base_nodes ln)) loop).
Proof.
  intros Hd Hln. pose proof (total_lookup (fun ln => length (loop_node_handlers ln) + total (fun bn => length (base_node_handlers bn) +
    total (fun x => length (id_node_handlers x)) (id_nodes bn)) (base_nodes ln))%nat _ _ _ Hln) as Hf.
  unfold fuel_for in enough. simpl in Hf.
  pose proof (total_length (fun bn => length (base_node_handlers bn) + total (fun x => length (id_node_handlers x)) (id_nodes bn))%nat
    (base_nodes ln)) as Hl.
  apply (foreach_places me shape); [done|done|lia| |].
  - intros loop' [_ <-]. unfold unmark_all in Hln. rewrite list_lookup_fmap in Hln.
    destruct (loop_nodes loop' !! k) as [l'|]; [|done]. simpl in Hln. injection Hln as <-. simpl. by rewrite length_fmap.
  - intros j bn loop' Hj H'. simpl.
    assert (base_node_at shape k j = Some bn) as Hbn by (unfold base_node_at; by rewrite Hln, Hj).
    pose proof Hbn as Hbn'. rewrite (during_base_node _ _ _ H') in Hbn'.
    destruct (base_node_at (loop_nodes loop') k j) as [b|]; [|done]. simpl in Hbn'. injection Hbn' as E.
    assert (base_node_base b = base_node_base bn) as Eb by (by rewrite <- E). rewrite Eb.
    case_bool_decide; [|done].
    pose proof (total_lookup (fun bn => length (base_node_handlers bn) + total (fun x => length (id_node_handlers x)) (id_nodes bn))%nat
      _ _ _ Hj) as Hfj. simpl in Hfj.
    assert (handlers_at shape (base_level k j) = base_node_handlers bn) as Eh by (unfold handlers_at; by rewrite Hbn).
    rewrite walk_handlers_places; [|done|rewrite Eh; lia]. rewrite Eh.
    rewrite (walk_id_nodes_places k j bn); [simpl; by rewrite fold_left_app|by apply call_places_during|done| |].
    + pose proof (total_length (fun x => length (id_node_handlers x)) (id_nodes bn)). lia.
    + intros i x Hx. pose proof (total_lookup (fun x => length (id_node_handlers x)) _ _ _ Hx). simpl in *. lia.
Qed.

Lemma walk_loop_nodes_places loop : during me shape loop ->
  walk_loop_nodes handler_code fuel post loop =
    Some (fold_left (call_place post) (places (post_base post) (post_id post) shape) loop).
Proof.
  intros Hd. unfold fuel_for in enough.
  pose proof (total_length (fun ln => length (loop_node_handlers ln) + total (fun bn => length (base_node_handlers bn) +
    total (fun x => length (id_node_handlers x)) (id_nodes bn)) (base_nodes ln))%nat shape) as Hl.
  apply (foreach_places me shape); [done|done|lia| |].
  - intros loop' [_ <-]. unfold unmark_all. by rewrite length_fmap.
  - intros k ln loop' Hk H'. simpl.
    pose proof (total_lookup (fun ln => length (loop_node_handlers ln) + total (fun bn => length (base_node_handlers bn) +
      total (fun x => length (id_node_handlers x)) (id_nodes bn)) (base_nodes ln))%nat _ _ _ Hk) as Hf. simpl in Hf.
    assert (handlers_at shape (loop_level k) = loop_node_handlers ln) as Eh by (unfold handlers_at; by rewrite Hk).
    rewrite walk_handlers_places; [|done|rewrite Eh; lia]. rewrite Eh.
    rewrite (walk_base_nodes_places k ln); [simpl; by rewrite fold_left_app|by apply call_places_during|done].
Qed.

End Walk.

(** ** The walk calls the handlers in turn *)

Lemma total_fmap {A} (f f' : A -> nat) (u : A -> A) l : (forall x, f (u x) = f' x) -> total f (u <$> l) = total f' l.
Proof. intros H. induction l as [|x l IH]; [done|]. rewrite fmap_cons. cbn [total]. by rewrite H, IH. Qed.

Lemma fuel_for_unmark nodes : fuel_for (unmark_all nodes) = fuel_for nodes.
Proof.
  unfold fuel_for. f_equal. apply total_fmap. intros ln. simpl. rewrite length_fmap. f_equal.
  apply total_fmap. intros bn. simpl. rewrite length_fmap. f_equal.
  apply total_fmap. intros x. simpl. by rewrite length_fmap.
Qed.

Lemma fold_places_in_turn me shape post pre rest loop : me <> NULL ->
  places (post_base post) (post_id post) shape = pre ++ rest -> during me shape loop ->
  fold_left (call_place post) rest loop = fold_left (call_nth post) (seq (length pre) (length rest)) loop.
Proof.
  intros Hme. revert pre loop. induction rest as [|p rest IH]; intros pre loop E Hd; simpl; [done|].
  assert (call_place post loop p = call_nth post loop (length pre)) as Ec.
  { unfold call_place, call_nth. f_equal. destruct Hd as [_ Hs].
    pose proof (places_lookup (loop_nodes loop) (post_base post) (post_id post)) as Hp.
    rewrite <- places_unmark, Hs, E in Hp. unfold at_places in Hp. rewrite map_app in Hp. simpl in Hp.
    assert ((Some <$> handlers_of (post_base post) (post_id post) (loop_nodes loop)) !! length pre =
      Some (handlers_at (loop_nodes loop) (fst p) !! snd p)) as H.
    { rewrite <- Hp. rewrite lookup_app_r by (by rewrite length_map). by rewrite length_map, Nat.sub_diag. }
    rewrite list_lookup_fmap in H. destruct (handlers_of _ _ _ !! length pre); [|done]. simpl in H. congruence. }
  rewrite Ec. replace (S (length pre)) with (length (pre ++ [p])) by (rewrite length_app; simpl; lia).
  apply IH; [by rewrite <- app_assoc|]. unfold call_nth. by apply call_handler_during.
Qed.

Lemma walk_in_turn me post fuel loop : me <> NULL -> mutex_holder loop = me -> (fuel_for (loop_nodes loop) <= fuel)%nat ->
  walk_loop_nodes handler_code fuel post loop = Some (call_in_turn post loop).
Proof.
  intros Hme Hm Hf. assert (during me (unmark_all (loop_nodes loop)) loop) as Hd by done.
  rewrite (walk_loop_nodes_places me (unmark_all (loop_nodes loop))); [|done|by rewrite fuel_for_unmark|done].
  rewrite (fold_places_in_turn me (unmark_all (loop_nodes loop)) post [] _ loop Hme eq_refl Hd).
  unfold call_in_turn. do 3 f_equal. simpl.
  pose proof (f_equal length (places_lookup (loop_nodes loop) (post_base post) (post_id post))) as H.
  unfold at_places in H. rewrite length_map, length_fmap in H. by rewrite places_unmark.
Qed.

(** The removal that an internal event asks for. *)
Definition cleaned (post : esp_event_post_instance_t) (loop : esp_event_loop_instance_t) : esp_event_loop_instance_t :=
  match post_data post with
  | data_remove ctx =>
      if bool_decide (post_base post = esp_event_handler_cleanup)
      then with_nodes (snd (loop_remove_handler ctx (loop_nodes loop))) loop else loop
  | _ => loop
  end.

(** What the end of a round leaves. *)
Definition round_ended (expired : bool) (post : esp_event_post_instance_t) (loop : esp_event_loop_instance_t) :
    esp_event_loop_instance_t :=
  let loop := with_received None (with_happened (Dispatched post) loop) in
  with_holder NULL (if expired then loop else with_running NULL loop).

Lemma dispatch_post_in_turn fuel me expired loop post :
  received loop = Some post -> mutex_holder loop = NULL -> me <> NULL ->
  (post_base post = esp_event_handler_cleanup -> exists ctx, post_data post = data_remove ctx) ->
  (fuel_for (loop_nodes (cleaned post loop)) <= fuel)%nat ->
  dispatch_post handler_code fuel me expired loop =
    Some (round_ended expired post (call_in_turn post (with_running me (with_holder me (cleaned post loop))))).
Proof.
  intros Hr Hm Hme Hc Hf. unfold dispatch_post. rewrite Hr, Hm. simpl. unfold cleaned in *.
  case_bool_decide as Eb.
  - destruct (Hc Eb) as [ctx Ex]. rewrite Ex in *. simpl in *.
    rewrite (walk_in_turn me post fuel); [|done..]. reflexivity.
  - replace (match post_data post with data_remove _ => _ | _ => loop end) with loop in * by
      (by destruct (post_data post)).
    rewrite (walk_in_turn me post fuel); [|done..]. reflexivity.
Qed.

End Dispatch.
