(* ===== verification/EventSafe.v ===== *)
(** * Event loops: what holds from creation on

    The record of a loop and what each call adds to it; the posts accepted are
    dispatched in order, once each; a handler instance whose unregistration was
    answered ESP_OK is not called again. *)

From stdpp Require Import base list option gmap.
From Stdlib Require Import ZArith Lia.
From S2P Require Import Prelude FreeRTOSList Kernel EspEvent EventOrder EventRun.

(** ** The record of what happened *)

Definition accepted (l : list happening) : list esp_event_post_instance_t :=
  flat_map (fun e => match e with Accepted p => [p] | _ => [] end) l.
Definition dispatched (l : list happening) : list esp_event_post_instance_t :=
  flat_map (fun e => match e with Dispatched p => [p] | _ => [] end) l.
Definition invocations (l : list happening) : list esp_event_handler_node_t :=
  flat_map (fun e => match e with Invoked h _ => [h] | _ => [] end) l.

(** The blocks registrations were given. *)
Definition handed_out (l : list happening) : list Z :=
  flat_map (fun e => match e with Registered mem _ => mem | _ => [] end) l.

Lemma by_call_invocations l : Forall by_call l -> invocations l = [] /\ dispatched l = [].
Proof. induction 1 as [|e l He _ [IH1 IH2]]; [done|]. by destruct e; simpl. Qed.

Lemma accepted_map ps : accepted (map Accepted ps) = ps.
Proof. induction ps as [|p ps IH]; [done|]. simpl. by rewrite IH. Qed.
Lemma invocations_map ps : invocations (map Accepted ps) = [].
Proof. by induction ps. Qed.

(** ** What a call does to the handlers

    [mem_of]: the blocks a registration may allocate. *)
Definition mem_of (c : api_call) : list Z :=
  match c with Register _ _ _ _ mem | RegisterInstance _ _ _ _ mem => mem | _ => [] end.

Inductive entries_step (mem : list Z) (l : list entry) : list entry -> Prop :=
  | es_same : entries_step mem l l
  | es_registers k eh a leg err inst l' : registers mem k eh a leg l err inst l' -> entries_step mem l l'
  | es_removes ctx res l' : removes ctx l res l' -> entries_step mem l l'
  | es_marks l1 k h l2 : l = l1 ++ (k, h) :: l2 -> entries_step mem l (l1 ++ (k, mark_unregistered h) :: l2).

Record nodes_step (mem : list Z) (loop loop' : esp_event_loop_instance_t) : Prop := {
  ns_entries : ids_distinct (loop_nodes loop) -> entries_step mem (entries (loop_nodes loop)) (entries (loop_nodes loop'));
  ns_ids : ids_distinct (loop_nodes loop) -> ids_distinct (loop_nodes loop');
  ns_received : received loop' = received loop;
  ns_queue : exists ps, queue loop' = queue loop ++ ps /\ happened loop' = happened loop ++ map Accepted ps }.

(** What a call does to the queue and to the record. *)
Definition appended (loop loop' : esp_event_loop_instance_t) : Prop :=
  exists new, queue loop' = queue loop ++ accepted new /\ happened loop' = happened loop ++ new /\ Forall by_call new.

Lemma accepted_by_call ps : Forall by_call (map Accepted ps).
Proof. by induction ps; constructor. Qed.

Lemma posts_appended loop loop' :
  (exists ps, queue loop' = queue loop ++ ps /\ happened loop' = happened loop ++ map Accepted ps) -> appended loop loop'.
Proof.
  intros (ps & Hq & Hh). exists (map Accepted ps). rewrite accepted_map. split_and!; [done..|apply accepted_by_call].
Qed.

Lemma posted_nodes_step mem loop loop' : posted loop loop' -> nodes_step mem loop loop'.
Proof. intros [A1 A2 A3 A4 A5 A6]. split; [rewrite A1; constructor|by rewrite A1|done|done]. Qed.

Lemma same_queue loop loop' : queue loop' = queue loop -> happened loop' = happened loop ->
  exists ps, queue loop' = queue loop ++ ps /\ happened loop' = happened loop ++ map Accepted ps.
Proof. intros -> ->. exists []. by rewrite !app_nil_r. Qed.

Lemma register_nodes_step who mem b i h a leg loop :
  nodes_step mem loop (snd (esp_event_handler_register_with_internal who mem b i h a leg loop)).
Proof.
  unfold esp_event_handler_register_with_internal. destruct (_ && _); [apply posted_nodes_step, posted_refl|].
  destruct (negb _); [apply posted_nodes_step, posted_refl|].
  destruct (loop_add_handler mem (loop_nodes loop) (internal_base b) i h a leg) as [[err inst] nodes] eqn:E. simpl.
  split; simpl; [intros Hd..|done|by apply same_queue];
    destruct (loop_add_handler_registers _ _ _ _ _ _ _ _ _ _ Hd E) as [Hr Hd']; [by eapply es_registers|done].
Qed.

(** The search marks a handler that the request names, and then posts. *)
Lemma find_and_unregister_cases who mem ctx loop r loop' :
  find_and_unregister_handler who mem ctx loop = (r, loop') ->
  (r = Some ESP_ERR_NOT_FOUND /\ loop' = loop) \/
  exists k h l1 l2, entries (loop_nodes loop) = l1 ++ (k, h) :: l2 /\ same_handler ctx h = true /\
    ((unregistered h = true /\ r = Some ESP_OK /\ loop' = loop) \/
     exists nodes, entries nodes = l1 ++ (k, mark_unregistered h) :: l2 /\
       (ids_distinct (loop_nodes loop) -> ids_distinct nodes) /\ posted (with_nodes nodes loop) loop').
Proof.
  unfold find_and_unregister_handler.
  pose proof (find_in_loop_nodes_good ctx (loop_nodes loop) (loop_nodes loop) [] None eq_refl I) as Hg. simpl in Hg.
  destruct (find_in_loop_nodes ctx 0 (loop_nodes loop) None) as [[v n]|]; [|intros; simplify_eq; by left].
  destruct Hg as (h & Hh & Hs). rewrite Hh.
  destruct (alter_handlers_entries mark_unregistered v n (loop_nodes loop) h Hh) as (k & l1 & l2 & E1 & E2).
  destruct (unregistered h) eqn:Eu.
  { intros; simplify_eq. right. exists k, h, l1, l2. split; [done|]. split; [done|]. by left. }
  intros E. right. exists k, h, l1, l2. split; [done|]. split; [done|]. right.
  exists (alter_handlers (alter mark_unregistered n) v (loop_nodes loop)). split; [done|].
  split; [apply alter_handlers_ids|]. revert E. destruct (rm_legacy ctx).
  - destruct (calloc mem) as [c mem']. destruct (c =? NULL); intros E; simplify_eq; [apply posted_refl|].
    match type of E with ?p = _ => change loop' with (snd (r, loop')); rewrite <- E end. apply post_to_posted.
  - intros E. match type of E with ?p = _ => change loop' with (snd (r, loop')); rewrite <- E end. apply post_to_posted.
Qed.

Lemma find_and_unregister_nodes_step who mem0 mem ctx loop :
  nodes_step mem0 loop (snd (find_and_unregister_handler who mem ctx loop)).
Proof.
  destruct (find_and_unregister_handler who mem ctx loop) as [r loop'] eqn:E. simpl.
  apply find_and_unregister_cases in E as [[_ ->]|(k & h & l1 & l2 & E1 & Hs & [(_ & _ & ->)|(nodes & E2 & Hd & [A1 A2 A3 A4 A5 A6])])];
    [apply posted_nodes_step, posted_refl..|].
  split; simpl in *; rewrite ?A1; [|done..]. intros _. rewrite E2, E1. by constructor.
Qed.

Lemma unregister_nodes_step who contended mem0 mem b i ctx h leg loop :
  nodes_step mem0 loop (snd (esp_event_handler_unregister_with_internal who contended mem b i ctx h leg loop)).
Proof.
  unfold esp_event_handler_unregister_with_internal. destruct (_ && _); [apply posted_nodes_step, posted_refl|].
  set (c := mkRemove _ _ _ _ _). destruct (_ && _).
  - destruct (loop_remove_handler c (loop_nodes loop)) as [res nodes] eqn:E.
    apply loop_remove_handler_removes in E as [Hr Hd]. split; simpl; [intros _; by eapply es_removes|done|done|by apply same_queue].
  - destruct (negb _); [apply posted_nodes_step, posted_refl|].
    pose proof (find_and_unregister_nodes_step who mem0 mem c (with_holder who loop)) as H.
    destruct (find_and_unregister_handler who mem c (with_holder who loop)) as [[res|] l']; simpl in *;
      destruct H as [A1 A2 A3 A4]; by split.
Qed.

Lemma make_call_nodes_step who c loop : nodes_step (mem_of c) loop (snd (make_call who c loop)).
Proof.
  destruct c as [b i h a mem|b i h a mem|contended b i h mem|contended b i ins mem|b i d ticks mem|b i d n]; simpl.
  - unfold esp_event_handler_register_with. pose proof (register_nodes_step who mem b i h a true loop) as H.
    by destruct (esp_event_handler_register_with_internal who mem b i h a true loop).
  - unfold esp_event_handler_instance_register_with. pose proof (register_nodes_step who mem b i h a false loop) as H.
    by destruct (esp_event_handler_register_with_internal who mem b i h a false loop).
  - apply unregister_nodes_step.
  - unfold esp_event_handler_instance_unregister_with. destruct (_ =? _); [apply posted_nodes_step, posted_refl|].
    apply unregister_nodes_step.
  - apply posted_nodes_step, post_to_posted.
  - pose proof (isr_post_posted b i d n loop) as H. destruct (esp_event_isr_post_to b i d n loop). by apply posted_nodes_step.
Qed.

(** A registration that does not answer ESP_OK leaves the handlers. *)
Lemma register_fails who mem b i h a leg loop r loop' : ids_distinct (loop_nodes loop) ->
  esp_event_handler_register_with_internal who mem b i h a leg loop = (r, loop') -> fst <$> r <> Some ESP_OK ->
  entries (loop_nodes loop') = entries (loop_nodes loop).
Proof.
  intros Hd. unfold esp_event_handler_register_with_internal. destruct (_ && _); [intros; by simplify_eq|].
  destruct (negb _); [intros; by simplify_eq|].
  destruct (loop_add_handler mem (loop_nodes loop) (internal_base b) i h a leg) as [[err inst] nodes] eqn:E.
  intros [= <- <-] Hr. simpl in *. destruct (loop_add_handler_registers _ _ _ _ _ _ _ _ _ _ Hd E) as [Hreg _].
  inversion Hreg; subst; done.
Qed.

Lemma make_call_fails who c loop : ids_distinct (loop_nodes loop) -> fst (make_call who c loop) <> Some ESP_OK ->
  mem_of c = [] \/ entries (loop_nodes (snd (make_call who c loop))) = entries (loop_nodes loop).
Proof.
  intros Hd. destruct c as [b i h a mem|b i h a mem| | | |]; try (intros; by left); intros Hr; right; revert Hr; simpl.
  - unfold esp_event_handler_register_with.
    destruct (esp_event_handler_register_with_internal who mem b i h a true loop) as [r l] eqn:E. by eapply register_fails.
  - unfold esp_event_handler_instance_register_with.
    destruct (esp_event_handler_register_with_internal who mem b i h a false loop) as [r l] eqn:E. by eapply register_fails.
Qed.

Lemma recorded_handed_out c nodes : handed_out (recorded c nodes) = mem_of c /\ accepted (recorded c nodes) = [].
Proof. destruct c; simpl; by rewrite ?app_nil_r. Qed.

(** The effect of a call: [ps] are the posts it queued, [l] is what it put on
    record at its end. *)
Record call_effect (c : api_call) (loop loop' : esp_event_loop_instance_t) (ps : list esp_event_post_instance_t)
    (l : list happening) : Prop := {
  ce_entries : ids_distinct (loop_nodes loop) -> entries_step (handed_out l) (entries (loop_nodes loop)) (entries (loop_nodes loop'));
  ce_ids : ids_distinct (loop_nodes loop) -> ids_distinct (loop_nodes loop');
  ce_received : received loop' = received loop;
  ce_queue : queue loop' = queue loop ++ ps;
  ce_happened : happened loop' = happened loop ++ map Accepted ps ++ l;
  ce_record : l = [] \/ l = recorded c (loop_nodes loop) }.

Lemma run_api_call_effect who c loop : exists ps l, call_effect c loop (snd (run_api_call who c loop)) ps l /\
  (l <> [] -> exists loop', make_call who c loop = (Some ESP_OK, loop') /\
     loop_nodes (snd (run_api_call who c loop)) = loop_nodes loop').
Proof.
  destruct (run_api_call_record who c loop) as (l & E & Hl).
  destruct (make_call_nodes_step who c loop) as [A1 A2 A3 (ps & A4 & A5)].
  destruct (record_only l (snd (make_call who c loop))) as [B1 _ B3 _ _ B6 B7]. rewrite <- E in *.
  exists ps, l. split; [split|]; try congruence.
  - intros Hd. rewrite B1. destruct Hl as [[-> _]|[-> Hr]].
    + rewrite (proj1 (recorded_handed_out c _)). by apply A1.
    + destruct (make_call_fails who c loop Hd Hr) as [Em| ->]; [|constructor]. specialize (A1 Hd). by rewrite Em in A1.
  - intros Hd. rewrite B1. auto.
  - by rewrite B7, A5, app_assoc.
  - destruct Hl as [[-> _]|[-> _]]; auto.
  - intros Hne. destruct Hl as [[_ Hr]|[-> _]]; [|done]. destruct (make_call who c loop) as [r loop']. simpl in *. subst r. eauto.
Qed.

(** A reading of it for the nodes, another for the queue. *)
Lemma run_api_call_nodes_step who c loop : let loop' := snd (run_api_call who c loop) in
  (ids_distinct (loop_nodes loop) -> entries_step (mem_of c) (entries (loop_nodes loop)) (entries (loop_nodes loop'))) /\
  (ids_distinct (loop_nodes loop) -> ids_distinct (loop_nodes loop')) /\
  received loop' = received loop /\ appended loop loop'.
Proof.
  destruct (run_api_call_effect who c loop) as (ps & l & [A1 A2 A3 A4 A5 A6] & _). cbv zeta.
  destruct (run_api_call_record who c loop) as (l' & E & _).
  destruct (record_only l' (snd (make_call who c loop))) as [B1 _ _ _ _ _ _]. rewrite <- E in B1.
  split; [|split; [done|split; [done|]]].
  - rewrite B1. apply (make_call_nodes_step who c loop).
  - exists (map Accepted ps ++ l). rewrite A4, A5. unfold accepted. rewrite flat_map_app. fold (accepted (map Accepted ps)) (accepted l).
    rewrite accepted_map. destruct A6 as [-> | ->]; [by rewrite !app_nil_r; split_and!; [..|apply accepted_by_call]|].
    rewrite (proj2 (recorded_handed_out c _)), app_nil_r. split_and!; [done..|].
    apply Forall_app. split; [apply accepted_by_call|apply recorded_by_call].
Qed.

(** ** Invariants of a dispatch *)

Section Dispatch.
Context (handler_code : Z -> Z -> esp_event_post_instance_t -> list (Z * api_call)).

Section Invariant.
Context (P : esp_event_loop_instance_t -> Prop).

Lemma foreach_invariant fuel len body n loop loop' :
  (forall n loop s loop', body n loop = Some (s, loop') -> P loop -> P loop') ->
  slist_foreach_safe fuel len body n loop = Some loop' -> P loop -> P loop'.
Proof.
  intros Hb. revert n loop. induction fuel as [|fuel IH]; intros n loop E H; simpl in E; [done|].
  destruct (_ <? _)%nat; [|by simplify_eq].
  destruct (body n loop) as [[s l1]|] eqn:Eb; [|done]. apply Hb in Eb; [|done].
  destruct s; [by simplify_eq|]. destruct (_ <? _)%nat; [by eapply IH|by simplify_eq].
Qed.

Context (post : esp_event_post_instance_t).
Context (P_execute : forall loop v n h, P loop -> handlers_at (loop_nodes loop) v !! n = Some h ->
  unregistered h = false -> P (handler_execute handler_code loop h post)).

Lemma walk_handlers_invariant fuel v loop loop' :
  walk_handlers handler_code fuel v post loop = Some loop' -> P loop -> P loop'.
Proof.
  apply foreach_invariant. intros n l s l' E H.
  destruct (handlers_at (loop_nodes l) v !! n) as [h|] eqn:Eh; [|by simplify_eq].
  destruct (unregistered h) eqn:Eu; simplify_eq; [done|]. by eapply P_execute.
Qed.

Lemma walk_loop_nodes_invariant fuel loop loop' :
  walk_loop_nodes handler_code fuel post loop = Some loop' -> P loop -> P loop'.
Proof.
  apply foreach_invariant. intros k l s l' E H.
  destruct (walk_handlers handler_code fuel (loop_level k) post l) as [l1|] eqn:E1; [|done].
  apply walk_handlers_invariant in E1; [|done].
  destruct (walk_base_nodes handler_code fuel k post l1) as [l2|] eqn:E2; simplify_eq.
  revert E2 E1. apply foreach_invariant. clear - P_execute. intros j l s l' E H.
  destruct (base_node_at (loop_nodes l) k j) as [bn|]; [|by simplify_eq]. case_bool_decide; [|by simplify_eq].
  destruct (walk_handlers handler_code fuel (base_level k j) post l) as [l1|] eqn:E1; [|done].
  apply walk_handlers_invariant in E1; [|done].
  destruct (walk_id_nodes handler_code fuel k j post l1) as [l2|] eqn:E2; simplify_eq.
  revert E2 E1. apply foreach_invariant. clear - P_execute. intros i l s l' E H.
  destruct (id_node_at (loop_nodes l) k j i) as [x|]; [|by simplify_eq]. destruct (_ =? _); [|by simplify_eq].
  destruct (walk_handlers handler_code fuel (id_level k j i) post l) as [l1|] eqn:E1; simplify_eq.
  by apply walk_handlers_invariant in E1.
Qed.

End Invariant.

Lemma run_api_calls_invariant (P : esp_event_loop_instance_t -> Prop) l loop :
  (forall who c loop, (who, c) ∈ l -> P loop -> P (snd (run_api_call who c loop))) -> P loop -> P (run_api_calls l loop).
Proof.
  unfold run_api_calls. revert loop. induction l as [|[w c] l IH]; intros loop H Hp; simpl; [done|].
  apply IH; [intros; apply H; [by right|done]|]. apply H; [by left|done].
Qed.

(** ** Posts in order, once each *)

Definition in_order (loop : esp_event_loop_instance_t) : Prop :=
  accepted (happened loop) = dispatched (happened loop) ++ option_list (received loop) ++ queue loop.

Lemma in_order_more loop loop' : received loop' = received loop ->
  appended loop loop' -> in_order loop -> in_order loop'.
Proof.
  unfold in_order. intros -> (new & -> & -> & Hn) H. destruct (by_call_invocations new Hn) as [_ Hd].
  unfold accepted, dispatched in *. rewrite !flat_map_app, H, Hd. by rewrite app_nil_r, <- !app_assoc.
Qed.

Lemma in_order_call who c loop : in_order loop -> in_order (snd (run_api_call who c loop)).
Proof. destruct (run_api_call_nodes_step who c loop) as (_ & _ & A & B). by apply in_order_more. Qed.

Lemma handler_execute_received loop h post : received (handler_execute handler_code loop h post) = received loop.
Proof.
  unfold handler_execute. apply (run_api_calls_invariant (fun l => received l = received loop)); [|done].
  intros who c l _ <-. by destruct (run_api_call_nodes_step who c l) as (_ & _ & A & _).
Qed.

Lemma dispatch_post_cases fuel me expired loop loop' : dispatch_post handler_code fuel me expired loop = Some loop' ->
  loop' = loop \/ exists post l1, received loop = Some post /\ mutex_holder loop = NULL /\
    walk_loop_nodes handler_code fuel post (with_running me (cleaned post (with_holder me loop))) = Some l1 /\
    loop' = round_ended expired post l1.
Proof.
  unfold dispatch_post. destruct (received loop) as [post|]; [|intros; simplify_eq; by left].
  destruct (Z.eqb_spec (mutex_holder loop) NULL); simpl; [|intros; simplify_eq; by left].
  intros E. right. exists post. unfold cleaned.
  case_bool_decide; destruct (post_data post); try done;
    match type of E with context [walk_loop_nodes handler_code fuel post ?l] =>
      destruct (walk_loop_nodes handler_code fuel post l) as [l1|] eqn:Ew; [|done] end;
    injection E as <-; by exists l1.
Qed.

Lemma in_order_dispatch fuel me expired loop loop' :
  dispatch_post handler_code fuel me expired loop = Some loop' -> in_order loop -> in_order loop'.
Proof.
  intros [->|(post & l1 & Er & _ & E & ->)]%dispatch_post_cases H; [done|].
  apply (walk_loop_nodes_invariant (fun l => in_order l /\ received l = Some post)) in E.
  - destruct E as [H1 Hr]. unfold in_order in *. rewrite Hr in H1. unfold round_ended.
    destruct expired; simpl; unfold accepted, dispatched in *; rewrite !flat_map_app; simpl;
      rewrite app_nil_r, H1, <- app_assoc; done.
  - intros l v n h [Hl Hlr] _ _. split; [|by rewrite handler_execute_received].
    unfold handler_execute. apply run_api_calls_invariant; [intros; by apply in_order_call|].
    unfold in_order in *. simpl. unfold accepted, dispatched in *. rewrite !flat_map_app. simpl. by rewrite !app_nil_r.
  - unfold cleaned. destruct (post_data post); try done. by destruct (bool_decide _).
Qed.

Lemma in_order_perform a loop loop' : perform handler_code a loop = Some loop' -> in_order loop -> in_order loop'.
Proof.
  destruct a as [who c|n|n| |fuel me expired]; simpl.
  - intros [= <-]. apply in_order_call.
  - intros [= <-]. unfold sender_resumes. destruct (senders loop !! n) as [w|]; [|done].
    destruct (_ <? _)%nat; [|done]. apply in_order_more; [by destruct (holds_mutex w)|]. apply posts_appended.
    exists [sender_post w]. by destruct (holds_mutex w).
  - intros [= <-]. unfold sender_times_out. destruct (senders loop !! n) as [w|]; [|done]. by destruct (_ =? _).
  - intros [= <-]. unfold receive_post, in_order. destruct (queue loop) as [|p q] eqn:Eq; [by rewrite Eq|].
    destruct (received loop) eqn:Er; simpl; rewrite ?Er, ?Eq; done.
  - apply in_order_dispatch.
Qed.

(** What a post answers tells whether it was accepted. *)
Definition new_post (b : esp_event_base_t) (i : Z) (d : list Z) : esp_event_post_instance_t :=
  mkPost b i (if slist_empty d then data_none else data_ptr d).

Lemma post_answer who mem b i d ticks loop r loop' :
  esp_event_post_to who mem b i (data_ptr d) ticks false loop = (Some r, loop') ->
  queue loop' = queue loop ++ (if r =? ESP_OK then [new_post b i d] else []).
Proof.
  unfold esp_event_post_to, new_post. destruct (_ || _); [intros; simplify_eq; by rewrite app_nil_r|].
  unfold copy_event_data, send_to_back. destruct d as [|x d]; simpl.
  - repeat case_match; intros; simplify_eq; simpl; by rewrite ?app_nil_r.
  - repeat case_match; intros; simplify_eq; simpl in *; simplify_eq; by rewrite ?app_nil_r.
Qed.

(** ** Distinct contexts *)

Definition ctxs (l : list entry) : list Z := map (fun e => handler_ctx (snd e)) l.

Lemma ctxs_app l1 l2 : ctxs (l1 ++ l2) = ctxs l1 ++ ctxs l2.
Proof. apply map_app. Qed.

(** The blocks a registration gets are not in use. *)
Definition fresh_for (loop : esp_event_loop_instance_t) (mem : list Z) : Prop :=
  forall a, a ∈ mem -> a <> NULL -> a ∉ ctxs (entries (loop_nodes loop)).

Lemma step_ctxs_distinct mem l l' : (forall a, a ∈ mem -> a <> NULL -> a ∉ ctxs l) -> entries_step mem l l' ->
  NoDup (ctxs l) -> NoDup (ctxs l').
Proof.
  intros Hf [|k eh a leg err inst l0 [|i l1 Hi Hn (m1 & m2 & -> & -> & _)|l1 _ (m1 & it & m2 & -> & _ & ->)]|
    ctx res l0 [|m1 e m2 -> _ _]|m1 k h m2 ->] Hd; try done.
  - specialize (Hf i Hi Hn). rewrite !ctxs_app in *. simpl. rewrite <- Permutation_middle. by constructor.
  - by rewrite !ctxs_app in *.
  - rewrite !ctxs_app in *. simpl in Hd. eapply sublist_NoDup; [exact Hd|]. apply sublist_app; [done|by apply sublist_cons].
  - by rewrite !ctxs_app in *.
Qed.

(** A created loop, and what the tasks make of it; blocks are not handed out
    twice. *)
Inductive loop_reachable : esp_event_loop_instance_t -> Prop :=
  | reach_created result_loop queue_ok mutex_ok created args addr loop :
      esp_event_loop_create result_loop queue_ok mutex_ok created args addr = (ESP_OK, Some loop) -> loop_reachable loop
  | reach_performed a loop loop' : loop_reachable loop ->
      (forall who c, a = Call who c -> fresh_for loop (mem_of c)) ->
      perform handler_code a loop = Some loop' -> loop_reachable loop'.

Lemma created_loop rl qo mo cr args addr loop : esp_event_loop_create rl qo mo cr args addr = (ESP_OK, Some loop) ->
  loop_nodes loop = [] /\ queue loop = [] /\ received loop = None /\ happened loop = [] /\ mutex_holder loop = NULL.
Proof. unfold esp_event_loop_create. repeat case_match; intros; simplify_eq; done. Qed.

Lemma reachable_in_order loop : loop_reachable loop -> in_order loop.
Proof.
  induction 1 as [rl qo mo cr args addr loop E|a loop loop' _ IH _ E].
  - apply created_loop in E as (_ & Hq & Hr & Hh & _). unfold in_order. by rewrite Hq, Hr, Hh.
  - by eapply in_order_perform.
Qed.

End Dispatch.

(** ** Unregistered handlers *)

(** No handler at context [c] is still to be called. *)
Definition silent (c : Z) (l : list entry) : Prop :=
  Forall (fun e => handler_ctx (snd e) = c -> unregistered (snd e) = true) l.

Lemma step_silent c mem l l' : c ∉ mem -> entries_step mem l l' -> silent c l -> silent c l'.
Proof.
  unfold silent.
  intros Hf [|k eh a leg err inst l0 [|i l1 Hi Hn (m1 & m2 & -> & -> & _)|l1 _ (m1 & it & m2 & -> & _ & ->)]|
    ctx res l0 [|m1 e m2 -> _ _]|m1 k h m2 ->] Hd; try done; rewrite ?Forall_app, ?Forall_cons in *; simpl in *; try tauto.
  split; [tauto|]. split; [|tauto]. by intros ->.
Qed.

Lemma handlers_at_entry nodes v n h : handlers_at nodes v !! n = Some h -> exists k, (k, h) ∈ entries nodes.
Proof.
  intros H. destruct (alter_handlers_entries id v n nodes h H) as (k & l1 & l2 & E & _). exists k. rewrite E. set_solver.
Qed.


(** ** Unregistering an instance silences it *)

Lemma distinct_others (l1 l2 : list entry) k h e : NoDup (ctxs (l1 ++ (k, h) :: l2)) -> e ∈ l1 \/ e ∈ l2 ->
  handler_ctx (snd e) <> handler_ctx h.
Proof.
  rewrite ctxs_app. simpl. intros Hn. rewrite <- Permutation_middle in Hn. apply NoDup_cons in Hn as [Hn _].
  intros H E. apply Hn. rewrite <- E, <- ctxs_app. apply list_elem_of_In, (in_map (fun e => handler_ctx (snd e))), list_elem_of_In.
  apply elem_of_app. tauto.
Qed.

Lemma silent_removed l1 k h l2 : NoDup (ctxs (l1 ++ (k, h) :: l2)) -> silent (handler_ctx h) (l1 ++ l2).
Proof.
  intros Hn. unfold silent. apply Forall_forall. intros e He E. exfalso.
  apply elem_of_app in He. by eapply distinct_others.
Qed.

Lemma silent_marked l1 k h h' l2 : NoDup (ctxs (l1 ++ (k, h) :: l2)) -> unregistered h' = true ->
  silent (handler_ctx h) (l1 ++ (k, h') :: l2).
Proof.
  intros Hn Hu. pose proof (silent_removed _ _ _ _ Hn) as H. unfold silent in *. apply Forall_app in H as [H1 H2].
  apply Forall_app. split; [done|]. constructor; [by intros _|done].
Qed.

Lemma unregister_silent who contended mem b i c loop loop1 : NoDup (ctxs (entries (loop_nodes loop))) ->
  esp_event_handler_instance_unregister_with who contended mem b i c loop = (Some ESP_OK, loop1) ->
  silent c (entries (loop_nodes loop1)).
Proof.
  intros Hn. unfold esp_event_handler_instance_unregister_with. destruct (c =? NULL); [done|].
  unfold esp_event_handler_unregister_with_internal. destruct (_ && _); [done|].
  set (ctx := mkRemove _ _ _ _ _). destruct (_ && _).
  - destruct (loop_remove_handler ctx (loop_nodes loop)) as [res nodes] eqn:E. intros; simplify_eq.
    apply loop_remove_handler_removes in E as [Hr Hd']. simpl. inversion Hr as [|l1 [k h] l2 El He _]; subst.
    apply andb_true_iff in He as [_ He]. apply Z.eqb_eq in He. simpl in He. subst c. rewrite El in Hn.
    by eapply silent_removed.
  - destruct (negb _); [done|].
    destruct (find_and_unregister_handler who mem ctx (with_holder who loop)) as [r l'] eqn:E. intros; simplify_eq.
    apply find_and_unregister_cases in E as [[? _]|(k & h & l1 & l2 & E1 & Hs & E)]; [done|].
    simpl in E1. rewrite E1 in Hn. apply Z.eqb_eq in Hs. simpl in Hs. subst c.
    destruct E as [(Hu & _ & ->)|(nodes & E2 & Hd' & [A1 _ _ _ _ _])]; simpl.
    + rewrite E1. by eapply silent_marked.
    + rewrite A1. simpl. rewrite E2. by eapply silent_marked.
Qed.

(** [calloc] has returned no block that was in use. *)
Definition blocks_sound (log : list happening) : Prop :=
  Forall (fun e => match e with
    | Registered mem nodes => forall a, a ∈ mem -> a <> NULL -> a ∉ ctxs (entries nodes)
    | _ => True end) log.

(** Since its unregistration was answered ESP_OK an instance has not been called,
    and cannot be: its handler is marked or removed. *)
Definition silenced (loop : esp_event_loop_instance_t) : Prop :=
  forall before c after, happened loop = before ++ Unregistered c :: after -> c ∉ handed_out after ->
    silent c (entries (loop_nodes loop)) /\ Forall (fun h => handler_ctx h <> c) (invocations after).

Definition safe_loop (loop : esp_event_loop_instance_t) : Prop :=
  ids_distinct (loop_nodes loop) /\
  (blocks_sound (happened loop) -> NoDup (ctxs (entries (loop_nodes loop))) /\ silenced loop).

Lemma app_cons_split {A} (l1 l2 b a : list A) x : l1 ++ l2 = b ++ x :: a ->
  (exists a0, l1 = b ++ x :: a0 /\ a = a0 ++ l2) \/ (exists b0, b = l1 ++ b0 /\ l2 = b0 ++ x :: a).
Proof.
  revert b. induction l1 as [|y l1 IH]; intros b E; [right; by exists b|].
  destruct b as [|z b]; simpl in E; injection E as E1 E2; subst.
  - left. by exists l1.
  - destruct (IH b E2) as [(a0 & -> & ->)|(b0 & -> & ->)]; [left; by exists a0|right; by exists b0].
Qed.

Lemma handed_out_app l1 l2 : handed_out (l1 ++ l2) = handed_out l1 ++ handed_out l2.
Proof. apply flat_map_app. Qed.
Lemma invocations_app l1 l2 : invocations (l1 ++ l2) = invocations l1 ++ invocations l2.
Proof. apply flat_map_app. Qed.

(** Whatever adds [new] to the record: it may register only with fresh blocks,
    call no silent handler, and what it says is unregistered must be silent. *)
Lemma safe_step loop loop' new :
  happened loop' = happened loop ++ new ->
  (ids_distinct (loop_nodes loop) -> ids_distinct (loop_nodes loop') /\
     entries_step (handed_out new) (entries (loop_nodes loop)) (entries (loop_nodes loop'))) ->
  (blocks_sound new -> forall a, a ∈ handed_out new -> a <> NULL -> a ∉ ctxs (entries (loop_nodes loop))) ->
  (forall c, silent c (entries (loop_nodes loop)) -> Forall (fun h => handler_ctx h <> c) (invocations new)) ->
  (forall b c a, new = b ++ Unregistered c :: a -> NoDup (ctxs (entries (loop_nodes loop))) ->
     invocations a = [] /\ silent c (entries (loop_nodes loop'))) ->
  safe_loop loop -> safe_loop loop'.
Proof.
  intros Eh Hstep Hfresh Hcalls Hun [Hd Hs]. destruct (Hstep Hd) as [Hd' He]. split; [done|].
  rewrite Eh. unfold blocks_sound at 1. rewrite Forall_app. intros [Hb1 Hb2]. destruct (Hs Hb1) as [Hn Hq].
  split; [eapply step_ctxs_distinct; eauto|]. intros before c after E Hc. rewrite Eh in E.
  apply app_cons_split in E as [(a0 & E1 & ->)|(b0 & -> & E2)].
  - rewrite handed_out_app, elem_of_app in Hc. rewrite invocations_app, Forall_app.
    destruct (Hq before c a0 E1) as [Hsil Hinv]; [tauto|]. split; [eapply step_silent; eauto|auto].
  - destruct (Hun b0 c after E2 Hn) as [-> Hsil]. by split.
Qed.

Lemma no_record (new : list happening) : Forall (fun e => match e with Unregistered _ => False | _ => True end) new ->
  forall b c a, new <> b ++ Unregistered c :: a.
Proof. intros H b c a ->. apply Forall_app in H as [_ H]. by apply Forall_cons in H as [[] _]. Qed.

Lemma accepted_no_record ps : Forall (fun e => match e with Unregistered _ => False | _ => True end) (map Accepted ps).
Proof. by induction ps; constructor. Qed.
Lemma handed_out_accepted ps : handed_out (map Accepted ps) = [].
Proof. by induction ps. Qed.

Lemma safe_call who c loop : safe_loop loop -> safe_loop (snd (run_api_call who c loop)).
Proof.
  destruct (run_api_call_effect who c loop) as (ps & l & [A1 A2 A3 A4 A5 A6] & Hok).
  apply (safe_step _ _ (map Accepted ps ++ l)); [done|..]; rewrite ?handed_out_app, ?handed_out_accepted, ?invocations_app, ?invocations_map.
  - auto.
  - intros [_ Hb]%Forall_app. destruct A6 as [-> | ->]; [intros a Ha; by apply elem_of_nil in Ha|].
    destruct c; simpl in *; rewrite ?app_nil_r; try (intros ? Ha; by apply elem_of_nil in Ha);
      by apply Forall_cons in Hb as [Hb _].
  - intros c' _. destruct A6 as [-> | ->]; [constructor|]. destruct c; constructor.
  - intros b c' a E Hn. apply app_cons_split in E as [(a0 & E & _)|(b0 & _ & E)].
    { exfalso. eapply no_record; [apply accepted_no_record|exact E]. }
    destruct A6 as [-> | ->]; [by destruct b0|]. destruct Hok as (loop' & Hmc & En); [by rewrite E; destruct b0|].
    destruct c as [| | |cd b' i ins mem| | ]; simpl in E; try by destruct b0 as [|? []].
    destruct b0 as [|e b0]; simpl in E; [|by destruct b0]. injection E as <- <-. split; [done|].
    rewrite En. simpl in Hmc. by eapply unregister_silent.
Qed.

(** A step that registers and unregisters nothing. *)
Lemma safe_other loop loop' new : happened loop' = happened loop ++ new ->
  handed_out new = [] -> Forall (fun e => match e with Unregistered _ => False | _ => True end) new ->
  (forall c, silent c (entries (loop_nodes loop)) -> Forall (fun h => handler_ctx h <> c) (invocations new)) ->
  (ids_distinct (loop_nodes loop) -> ids_distinct (loop_nodes loop') /\
     entries_step [] (entries (loop_nodes loop)) (entries (loop_nodes loop'))) ->
  safe_loop loop -> safe_loop loop'.
Proof.
  intros Eh Ho Hu Hc Hs. apply (safe_step _ _ new); [done| | |done|]; rewrite ?Ho.
  - done.
  - intros _ a Ha. by apply elem_of_nil in Ha.
  - intros b c a E. by apply no_record in E.
Qed.

Section Dispatch.
Context (handler_code : Z -> Z -> esp_event_post_instance_t -> list (Z * api_call)).

Lemma safe_execute loop v n h post : safe_loop loop -> handlers_at (loop_nodes loop) v !! n = Some h ->
  unregistered h = false -> safe_loop (handler_execute handler_code loop h post).
Proof.
  intros Hs Hh Hu. unfold handler_execute. apply run_api_calls_invariant; [intros; by apply safe_call|].
  revert Hs. apply (safe_other _ _ [Invoked h post]); try done; [by repeat constructor| |by split; [|constructor]].
  intros c Hc. constructor; [|constructor]. intros Ec. apply handlers_at_entry in Hh as [k Hin].
  unfold silent in Hc. rewrite Forall_forall in Hc. specialize (Hc _ Hin Ec). simpl in Hc. congruence.
Qed.

Lemma safe_dispatch fuel me expired loop loop' :
  dispatch_post handler_code fuel me expired loop = Some loop' -> safe_loop loop -> safe_loop loop'.
Proof.
  intros [->|(post & l1 & _ & _ & E & ->)]%dispatch_post_cases Hs; [done|].
  apply (walk_loop_nodes_invariant handler_code safe_loop) in E; [|intros; by eapply safe_execute|].
  - revert E. apply (safe_other _ _ [Dispatched post]); [by destruct expired|done|by repeat constructor|constructor|].
    destruct expired; by split; [|constructor].
  - revert Hs. apply (safe_other _ _ []); [|done|constructor|constructor|].
    + rewrite app_nil_r. unfold cleaned. destruct (post_data post); try done. by destruct (bool_decide _).
    + intros Hd. unfold cleaned. destruct (post_data post) as [| | |ctx]; try by split; [|constructor].
      destruct (bool_decide _); [|by split; [|constructor]]. simpl.
      destruct (loop_remove_handler ctx (loop_nodes loop)) as [res nodes] eqn:E'.
      apply loop_remove_handler_removes in E' as [Hr Hd']. split; simpl; [auto|by eapply es_removes].
Qed.

Lemma safe_perform a loop loop' : perform handler_code a loop = Some loop' -> safe_loop loop -> safe_loop loop'.
Proof.
  destruct a as [who c|n|n| |fuel me expired]; simpl.
  - intros [= <-]. apply safe_call.
  - intros [= <-]. unfold sender_resumes. destruct (senders loop !! n) as [w|]; [|done].
    destruct (_ <? _)%nat; [|done]. apply (safe_other _ _ [Accepted (sender_post w)]);
      [by destruct (holds_mutex w)|done|by repeat constructor|constructor|].
    destruct (holds_mutex w); by split; [|constructor].
  - intros [= <-]. unfold sender_times_out. destruct (senders loop !! n); [|done]. by destruct (_ =? _).
  - intros [= <-]. unfold receive_post. destruct (queue loop); [done|]. by destruct (received loop).
  - apply safe_dispatch.
Qed.

Lemma reachable_safe loop : loop_reachable handler_code loop -> safe_loop loop.
Proof.
  induction 1 as [rl qo mo cr args addr loop E|a loop loop' _ IH _ E]; [|by eapply safe_perform].
  apply created_loop in E as (Hn & _ & _ & Hh & _). split; rewrite ?Hn; [constructor|]. intros _. split; [constructor|].
  intros before c after E. rewrite Hh in E. by destruct before.
Qed.
End Dispatch.
