(* ===== verification/EventLoop.v ===== *)
(** * Event loops: the theorems

    The promises of the documentation of esp_event, and where the code does not
    keep them. *)

From stdpp Require Import base list option gmap.
From Stdlib Require Import ZArith Lia.
From S2P Require Import Prelude FreeRTOSList Kernel EspEvent EventOrder EventRun EventSafe.

(** C24: Once the unregistration of a handler instance has been answered ESP_OK,
    made from anywhere (another task, also while the loop is dispatching, a handler
    during a dispatch, the handler itself), that instance is never called again,
    neither in the rest of that dispatch nor later, whatever handlers and tasks do
    (registrations included), as long as its block is not handed out again for
    another registration; [calloc] returns no block in use. *)
Theorem unregistered_handler_never_runs handler_code loop :
  loop_reachable handler_code loop -> blocks_sound (happened loop) ->
  (forall before c after, happened loop = before ++ Unregistered c :: after -> c ∉ handed_out after ->
     Forall (fun h => handler_ctx h <> c) (invocations after)) /\
  (forall who contended mem b i c loop0 loop1,
     run_api_call who (UnregisterInstance contended b i c mem) loop0 = (Some ESP_OK, loop1) ->
     last (happened loop1) = Some (Unregistered c)).
Proof.
  intros Hr Hb. split.
  - intros before c after E Hc. destruct (reachable_safe handler_code loop Hr) as [_ Hs].
    destruct (Hs Hb) as [_ Hq]. by eapply Hq.
  - intros who contended mem b i c loop0 loop1. unfold run_api_call.
    destruct (make_call who _ loop0) as [r l]. case_bool_decide; intros; simplify_eq. simpl. apply last_snoc.
Qed.

(** C26: From the creation of a loop on, and whatever handlers and other tasks do,
    the posts that were accepted are dispatched in no other order than that of their
    acceptance, and none twice: those dispatched so far, the one being processed, those
    in the queue are together, and in this order, the posts accepted. A post by a task
    that is answered at once is accepted, at the end of the queue, exactly if the
    answer is ESP_OK. *)
Theorem posts_dispatched_once_in_order handler_code loop :
  loop_reachable handler_code loop ->
  accepted (happened loop) = dispatched (happened loop) ++ option_list (received loop) ++ queue loop /\
  forall who mem b i d ticks r loop',
    esp_event_post_to who mem b i (data_ptr d) ticks false loop = (Some r, loop') ->
    queue loop' = queue loop ++ (if r =? ESP_OK then [new_post b i d] else []).
Proof. intros Hr. split; [by eapply reachable_in_order|]. intros. by eapply post_answer. Qed.

(** ** The order of a dispatch *)

(** A call of the [n]-th handler shows in the record, with the context of that
    handler, and leaves the shape. *)
Lemma call_nth_happened handler_code post me shape loop n :
  (forall h a p, Forall (fun wc => registers_nothing (snd wc)) (handler_code h a p)) -> me <> NULL ->
  during me shape loop -> exists new, happened (call_nth handler_code post loop n) = happened loop ++ new /\
    match handlers_of (post_base post) (post_id post) (loop_nodes loop) !! n with
    | Some h => invocations new = if unregistered h then [] else [h]
    | None => invocations new = []
    end.
Proof.
  intros Hc Hme [Hm _]. unfold call_nth, call_handler.
  destruct (handlers_of _ _ _ !! n) as [h|]; [|exists []; by rewrite app_nil_r].
  destruct (unregistered h); [exists []; by rewrite app_nil_r|].
  unfold handler_execute. set (l0 := with_happened _ loop).
  destruct (run_api_calls_only_marked (handler_code (handler h) (arg h) post) l0) as [_ _ _ _ _ (new & E & Hnew)];
    [simpl; congruence|apply Hc|].
  exists (Invoked h post :: new). rewrite E. simpl. rewrite <- app_assoc. split; [done|].
  by rewrite (proj1 (by_call_invocations new Hnew)).
Qed.

Lemma handlers_of_unmark b i nodes : unmark <$> handlers_of b i nodes = handlers_of b i (unmark_all nodes).
Proof.
  assert (Some <$> handlers_of b i (unmark_all nodes) = Some <$> (unmark <$> handlers_of b i nodes)) as E.
  { rewrite <- places_lookup, places_unmark.
    transitivity (fmap unmark <$> (Some <$> handlers_of b i nodes)); [|by rewrite <- !list_fmap_compose].
    rewrite <- places_lookup. unfold at_places. induction (places b i nodes) as [|p ps IH]; [done|]. simpl.
    by rewrite <- unmark_handlers_at, list_lookup_fmap, IH. }
  symmetry. eapply list_fmap_eq_inj; [|exact E]. intros x y [= ->]. done.
Qed.

Lemma calls_in_order handler_code post me shape k loop m :
  (forall h a p, Forall (fun wc => registers_nothing (snd wc)) (handler_code h a p)) -> me <> NULL ->
  during me shape loop -> (m + k)%nat = length (handlers_of (post_base post) (post_id post) shape) ->
  exists new, happened (fold_left (call_nth handler_code post) (seq m k) loop) = happened loop ++ new /\
    sublist (handler_ctx <$> invocations new)
      (drop m (handler_ctx <$> handlers_of (post_base post) (post_id post) shape)).
Proof.
  intros Hc Hme. revert loop m. induction k as [|k IH]; intros loop m Hd Hl; simpl.
  { exists []. rewrite app_nil_r. split; [done|]. apply sublist_nil_l. }
  destruct (call_nth_happened handler_code post me shape loop m Hc Hme Hd) as (new & En & Hn).
  assert (during me shape (call_nth handler_code post loop m)) as Hd' by by apply call_handler_during.
  destruct (IH _ (S m) Hd' ltac:(lia)) as (new' & En' & Hs). exists (new ++ new').
  rewrite En', En, <- app_assoc. split; [done|]. rewrite invocations_app, fmap_app.
  destruct Hd as [_ Hsh]. rewrite <- Hsh, <- handlers_of_unmark in *. rewrite length_fmap in Hl.
  destruct (lookup_lt_is_Some_2 (handlers_of (post_base post) (post_id post) (loop_nodes loop)) m ltac:(lia)) as [h Eh].
  rewrite Eh in Hn. erewrite (drop_S _ (handler_ctx h)); [|by rewrite !list_lookup_fmap, Eh].
  rewrite Hn. destruct (unregistered h); simpl; [by apply sublist_cons|by apply sublist_skip].
Qed.

(** C25: With handlers that register nothing a dispatch ends: each handler of the
    event, in the order of the lists, is called when its turn comes unless it has
    been unregistered by then, for the event and with the argument registered, and
    none is called twice. *)
Theorem dispatch_calls_handlers_in_turn handler_code fuel me expired loop post :
  (forall h a p, Forall (fun wc => registers_nothing (snd wc)) (handler_code h a p)) ->
  received loop = Some post -> mutex_holder loop = NULL -> me <> NULL ->
  (post_base post = esp_event_handler_cleanup -> exists ctx, post_data post = data_remove ctx) ->
  (fuel_for (loop_nodes (cleaned post loop)) <= fuel)%nat ->
  let start := with_running me (with_holder me (cleaned post loop)) in
  exists new,
    dispatch_post handler_code fuel me expired loop = Some (round_ended expired post (call_in_turn handler_code post start)) /\
    happened (call_in_turn handler_code post start) = happened loop ++ new /\
    sublist (handler_ctx <$> invocations new)
      (handler_ctx <$> handlers_of (post_base post) (post_id post) (loop_nodes start)).
Proof.
  intros Hc Hr Hm Hme Hb Hf start.
  assert (during me (unmark_all (loop_nodes start)) start) as Hd by done.
  destruct (calls_in_order handler_code post me _ (length (handlers_of (post_base post) (post_id post) (loop_nodes start)))
    start 0 Hc Hme Hd) as (new & En & Hs).
  { by rewrite <- handlers_of_unmark, length_fmap. }
  exists new. split; [by apply dispatch_post_in_turn|]. split.
  - unfold call_in_turn. rewrite En. f_equal. unfold start, cleaned. destruct (post_data post); try done.
    by destruct (bool_decide _).
  - rewrite drop_0, <- handlers_of_unmark in Hs. by rewrite <- list_fmap_compose in Hs.
Qed.

(** ** Registered first, called first

    A user registers and unregisters instances while the loop is idle; the
    registry is what the answers of the calls tell: a registration that succeeds
    is put at the end, under the instance returned, and an unregistration that
    succeeds takes its instance out. *)
Inductive registration :=
  | AddHandler (b : esp_event_base_t) (i event_handler event_handler_arg : Z) (mem : list Z)
  | RemoveHandler (b : esp_event_base_t) (i instance : Z).

Definition register_one (who : Z) (r : registration) (s : esp_event_loop_instance_t * list entry) :
    esp_event_loop_instance_t * list entry :=
  let (loop, registry) := s in
  match r with
  | AddHandler b i h a mem =>
      match esp_event_handler_instance_register_with who mem b i h a loop with
      | (Some (err, instance), loop) =>
          (loop, if err =? ESP_OK then registry ++ [(key_of (internal_base b) i, mkHandler instance h a false)] else registry)
      | (None, loop) => (loop, registry)
      end
  | RemoveHandler b i instance =>
      match esp_event_handler_instance_unregister_with who false [] b i instance loop with
      | (Some err, loop) =>
          (loop, if err =? ESP_OK then filter (fun e : entry => handler_ctx (snd e) <> instance) registry else registry)
      | (None, loop) => (loop, registry)
      end
  end.

Fixpoint register_all (who : Z) (rs : list registration) (s : esp_event_loop_instance_t * list entry) :=
  match rs with
  | [] => s
  | r :: rs => register_all who rs (register_one who r s)
  end.

(** [calloc] returns no block that is in use. *)
Fixpoint blocks_fresh (who : Z) (rs : list registration) (s : esp_event_loop_instance_t * list entry) : Prop :=
  match rs with
  | [] => True
  | r :: rs =>
      match r with AddHandler _ _ _ _ mem => fresh_for (fst s) mem | _ => True end /\
      blocks_fresh who rs (register_one who r s)
  end.

(** The loop has the handlers of the registry, those of each event in the order
    of the registry. *)
Record implements (loop : esp_event_loop_instance_t) (registry : list entry) : Prop := {
  im_ids : ids_distinct (loop_nodes loop);
  im_perm : entries (loop_nodes loop) ≡ₚ registry;
  im_distinct : NoDup (ctxs registry);
  im_unmarked : Forall (fun e => unregistered (snd e) = false) registry;
  im_order : forall b i, matching b i (entries (loop_nodes loop)) = matching b i registry;
  im_idle : mutex_holder loop = NULL /\ queue loop = [] /\ received loop = None /\ happened loop = [] }.

Lemma added_matching k h l l' b i : added k h l l' ->
  matching b i l' = matching b i l ++ (if key_matches b i k then [h] else []).
Proof.
  intros (l1 & l2 & -> & -> & Ha). rewrite !matching_app, matching_cons. destruct (key_matches b i k) eqn:E.
  - rewrite (matching_none b i l2); [by rewrite !app_nil_r|]. eapply Forall_impl; [exact Ha|]. intros e He. by apply He.
  - by rewrite !app_nil_r.
Qed.

Lemma registered_implements loop registry mem k eh a err inst nodes :
  implements loop registry -> fresh_for loop mem -> ids_distinct nodes ->
  registers mem k eh a false (entries (loop_nodes loop)) err inst (entries nodes) ->
  implements (with_nodes nodes loop) (if err =? ESP_OK then registry ++ [(k, mkHandler inst eh a false)] else registry).
Proof.
  intros [A1 A2 A3 A4 A5 A6] Hf Hd Hr. inversion Hr as [El|i0 l0 Hi Hn Ha El|l0 Hl]; subst; simpl; [| |done].
  - match goal with E : entries _ = entries nodes |- _ => rename E into El end.
    split; simpl; try done; [by rewrite <- El|intros; by rewrite <- El].
  - specialize (Hf inst Hi Hn). pose proof Ha as (l1 & l2 & E1 & E2 & _). split; simpl; try done.
    + rewrite E2, <- Permutation_middle, <- E1, A2. by rewrite Permutation_app_comm.
    + rewrite ctxs_app. simpl. rewrite Permutation_app_comm. simpl. constructor; [|done].
      unfold ctxs in *. intros Hin. apply Hf. by rewrite A2.
    + apply Forall_app. split; [done|]. by constructor.
    + intros b i. rewrite (added_matching _ _ _ _ _ _ Ha), matching_app, A5. f_equal. rewrite matching_cons.
      by rewrite app_nil_r.
Qed.

Lemma matching_filter b i c l : matching b i (filter (fun e : entry => handler_ctx (snd e) <> c) l) =
  filter (fun h => handler_ctx h <> c) (matching b i l).
Proof.
  induction l as [|[k h] l IH]; [done|]. rewrite (matching_cons b i k h l), filter_app, <- IH.
  destruct (decide (handler_ctx h <> c)) as [Hc|Hc].
  - rewrite (filter_cons_True _ (k, h)) by done. rewrite matching_cons. f_equal.
    destruct (key_matches b i k); [by rewrite filter_cons_True|done].
  - rewrite (filter_cons_False _ (k, h)) by done. destruct (key_matches b i k); [by rewrite filter_cons_False|done].
Qed.

Lemma removed_filter (l1 l2 : list entry) e : NoDup (ctxs (l1 ++ e :: l2)) ->
  l1 ++ l2 = filter (fun x : entry => handler_ctx (snd x) <> handler_ctx (snd e)) (l1 ++ e :: l2).
Proof.
  destruct e as [k h]. intros Hn. rewrite filter_app, filter_cons, decide_False by (by intros []).
  assert (forall l : list entry, (forall e, e ∈ l -> e ∈ l1 \/ e ∈ l2) -> filter (fun x : entry => handler_ctx (snd x) <> handler_ctx h) l = l) as Hall.
  { intros l Hl. induction l as [|x l IH]; [done|]. rewrite filter_cons, decide_True.
    - f_equal. apply IH. intros. apply Hl. by right.
    - eapply distinct_others; [exact Hn|]. apply Hl. by left. }
  simpl. rewrite !Hall; [done|auto|auto].
Qed.

Lemma removed_implements loop registry ctx res nodes :
  implements loop registry -> rm_legacy ctx = false -> ids_distinct nodes ->
  removes ctx (entries (loop_nodes loop)) res (entries nodes) ->
  implements (with_nodes nodes loop)
    (if res =? ESP_OK then filter (fun e : entry => handler_ctx (snd e) <> rm_ctx ctx) registry else registry).
Proof.
  intros [A1 A2 A3 A4 A5 A6] Hleg Hd Hr. inversion Hr as [Hn|l1 e l2 E1 He Hl]; subst; simpl.
  - match goal with E : entries _ = entries nodes |- _ => rename E into El end.
    split; simpl; try done; [by rewrite <- El|intros; by rewrite <- El].
  - match goal with E : l1 ++ l2 = entries nodes |- _ => rename E into El end.
    apply andb_true_iff in He as [_ He]. unfold same_handler in He. rewrite Hleg in He. apply Z.eqb_eq in He.
    assert (NoDup (ctxs (l1 ++ e :: l2))) as Hn by (rewrite <- E1; unfold ctxs; by rewrite A2).
    assert (entries nodes = filter (fun x : entry => handler_ctx (snd x) <> rm_ctx ctx) (entries (loop_nodes loop))) as En.
    { rewrite <- El, E1, <- He. by apply removed_filter. }
    split; simpl; try done.
    + by rewrite En, A2.
    + eapply sublist_NoDup; [exact A3|]. apply (fmap_sublist (fun e : entry => handler_ctx (snd e))), sublist_filter.
    + rewrite Forall_forall in *. intros x [_ Hx]%list_elem_of_filter. auto.
    + intros b i. by rewrite En, !matching_filter, A5.
Qed.

Lemma register_one_implements who r s : implements (fst s) (snd s) ->
  match r with AddHandler _ _ _ _ mem => fresh_for (fst s) mem | _ => True end ->
  implements (fst (register_one who r s)) (snd (register_one who r s)).
Proof.
  destruct s as [loop registry]. simpl. intros Hi Hf. pose proof (im_ids _ _ Hi) as Hd.
  pose proof (proj1 (im_idle _ _ Hi)) as Hm. destruct r as [b i h a mem|b i c]; simpl.
  - unfold esp_event_handler_instance_register_with, esp_event_handler_register_with_internal.
    destruct (_ && _); [done|]. unfold can_take. rewrite Hm. simpl.
    destruct (loop_add_handler mem (loop_nodes loop) (internal_base b) i h a false) as [[err inst] nodes] eqn:E.
    destruct (loop_add_handler_registers _ _ _ _ _ _ _ _ _ _ Hd E) as [Hr Hd'].
    by apply (registered_implements _ _ mem).
  - unfold esp_event_handler_instance_unregister_with. destruct (c =? NULL); [done|].
    unfold esp_event_handler_unregister_with_internal. destruct (_ && _); [done|]. rewrite Hm. simpl.
    set (ctx := mkRemove _ _ _ _ _). destruct (loop_remove_handler ctx (loop_nodes loop)) as [res nodes] eqn:E.
    apply loop_remove_handler_removes in E as [Hr Hd']. by apply (removed_implements _ _ ctx); [| |apply Hd'|].
Qed.

Lemma register_all_implements who rs s : implements (fst s) (snd s) -> blocks_fresh who rs s ->
  implements (fst (register_all who rs s)) (snd (register_all who rs s)).
Proof.
  revert s. induction rs as [|r rs IH]; intros s Hi Hf; simpl in *; [done|]. destruct Hf as [Hf1 Hf2].
  apply IH; [|done]. by apply register_one_implements.
Qed.

(** Handlers that only post. *)
Definition only_posts (c : api_call) : Prop :=
  match c with Post _ _ _ _ _ | IsrPost _ _ _ _ => True | _ => False end.

Lemma run_api_calls_posted l loop : Forall (fun wc => only_posts (snd wc)) l ->
  loop_nodes (run_api_calls l loop) = loop_nodes loop.
Proof.
  intros Hl. apply (run_api_calls_invariant (fun l => loop_nodes l = loop_nodes loop)); [|done].
  intros who c l0 Hin <-. rewrite Forall_forall in Hl. apply Hl in Hin.
  destruct (run_api_call_record who c l0) as (rec & -> & _).
  destruct (record_only rec (snd (make_call who c l0))) as [-> _ _ _ _ _ _].
  destruct c as [| | | |b i d ticks mem|b i d n]; try done; simpl.
  - by destruct (post_to_posted who mem b i (data_ptr d) ticks false l0).
  - pose proof (isr_post_posted b i d n l0) as H. by destruct (esp_event_isr_post_to b i d n l0), H.
Qed.

Lemma calls_all_unmarked handler_code post me shape k loop m :
  (forall h a p, Forall (fun wc => only_posts (snd wc)) (handler_code h a p)) -> me <> NULL ->
  during me shape loop ->
  (m + k)%nat = length (handlers_of (post_base post) (post_id post) (loop_nodes loop)) ->
  Forall (fun h => unregistered h = false) (handlers_of (post_base post) (post_id post) (loop_nodes loop)) ->
  invocations (happened (fold_left (call_nth handler_code post) (seq m k) loop)) =
    invocations (happened loop) ++ drop m (handlers_of (post_base post) (post_id post) (loop_nodes loop)).
Proof.
  intros Hc Hme. assert (forall h a p, Forall (fun wc => registers_nothing (snd wc)) (handler_code h a p)) as Hrn.
  { intros. eapply Forall_impl; [apply Hc|]. intros [w c]. by destruct c. }
  revert loop m. induction k as [|k IH]; intros loop m Hd Hl Hu; simpl.
  { by rewrite drop_ge, app_nil_r by lia. }
  destruct (call_nth_happened handler_code post me shape loop m Hrn Hme Hd) as (new & En & Hn).
  assert (during me shape (call_nth handler_code post loop m)) as Hd' by by apply call_handler_during.
  assert (loop_nodes (call_nth handler_code post loop m) = loop_nodes loop) as El.
  { unfold call_nth, call_handler. destruct (handlers_of _ _ _ !! m) as [h|]; [|done]. destruct (unregistered h); [done|].
    unfold handler_execute. by rewrite run_api_calls_posted. }
  destruct (lookup_lt_is_Some_2 (handlers_of (post_base post) (post_id post) (loop_nodes loop)) m ltac:(lia)) as [h Eh].
  rewrite Eh in Hn. rewrite Forall_forall in Hu. rewrite Hu in Hn by (by eapply list_elem_of_lookup_2).
  rewrite IH; [|done|rewrite El; lia|rewrite El; by apply Forall_forall].
  rewrite El, En, invocations_app, Hn, <- app_assoc. by rewrite (drop_S _ h m Eh).
Qed.

(** C23: Registered first, called first: however a user has registered and
    unregistered handler instances (for single events, for all events of a base,
    for all events; allocations failing or not) while the loop was idle and nobody
    else had its mutex, the dispatch of an event to handlers that only post calls
    exactly the handlers in the registry that match it, in the order of their
    registration; and an unregistration made then succeeds exactly if its instance is
    registered for just the event it names.  (An unregistration during a dispatch is
    another search, see [unregister_silences_another_registration].) *)
Theorem handlers_run_in_registration_order handler_code rl qo mo created args addr loop0 who rs loop registry :
  esp_event_loop_create rl qo mo created args addr = (ESP_OK, Some loop0) ->
  blocks_fresh who rs (loop0, []) -> register_all who rs (loop0, []) = (loop, registry) ->
  (forall h a p, Forall (fun wc => only_posts (snd wc)) (handler_code h a p)) ->
  (forall post me expired fuel, me <> NULL -> post_base post <> esp_event_handler_cleanup ->
     (fuel_for (loop_nodes loop) <= fuel)%nat ->
     exists loop', dispatch_post handler_code fuel me expired (with_received (Some post) loop) = Some loop' /\
       invocations (happened loop') = matching (post_base post) (post_id post) registry /\ received loop' = None) /\
  (forall b i instance, instance <> NULL -> b <> ESP_EVENT_ANY_BASE \/ i = ESP_EVENT_ANY_ID ->
     fst (esp_event_handler_instance_unregister_with who false [] b i instance loop) = Some ESP_OK <->
     exists h, (key_of (internal_base b) i, h) ∈ registry /\ handler_ctx h = instance).
Proof.
  intros Ecr Hf Er Hc. assert (implements loop registry) as Hi.
  { pose proof (register_all_implements who rs (loop0, [])) as H. rewrite Er in H. apply H; [|done].
    apply created_loop in Ecr as (E1 & E2 & E3 & E4 & E5).
    split; simpl; rewrite ?E1; try done; try constructor. }
  destruct Hi as [A1 A2 A3 A4 A5 (A6 & A7 & A8 & A9)]. split.
  - intros post me expired fuel Hme Hb Hfuel. eexists. split; [apply dispatch_post_in_turn; try done|].
    + intros. eapply Forall_impl; [apply Hc|]. intros [w c]. by destruct c.
    + unfold cleaned. by destruct (post_data post); try case_bool_decide.
    + set (start := with_running me _). assert (loop_nodes start = loop_nodes loop) as En.
      { subst start. unfold cleaned. by destruct (post_data post); try case_bool_decide. }
      assert (happened start = []) as Eh.
      { subst start. unfold cleaned. by destruct (post_data post); try case_bool_decide. }
      assert (mutex_holder start = me) as Em.
      { subst start. unfold cleaned. by destruct (post_data post); try case_bool_decide. }
      assert (handlers_of (post_base post) (post_id post) (loop_nodes start) =
        matching (post_base post) (post_id post) registry) as Eo by (rewrite En, handlers_of_matching by done; apply A5).
      split; [|by destruct expired].
      replace (invocations (happened (round_ended expired post (call_in_turn handler_code post start)))) with
        (invocations (happened (call_in_turn handler_code post start))) by
        (destruct expired; simpl; by rewrite invocations_app, app_nil_r).
      unfold call_in_turn. rewrite (calls_all_unmarked _ _ me (unmark_all (loop_nodes start))); try done.
      * by rewrite Eh, Eo.
      * rewrite Eo. unfold matching. apply Forall_forall. intros h Hh.
        apply list_elem_of_In, in_map_iff in Hh as (e & <- & He%list_elem_of_In%list_elem_of_filter).
        rewrite Forall_forall in A4. apply A4. apply He.
  - intros b i instance Hn Hb. unfold esp_event_handler_instance_unregister_with.
    rewrite (proj2 (Z.eqb_neq _ _) Hn). unfold esp_event_handler_unregister_with_internal.
    replace (bool_decide (b = ESP_EVENT_ANY_BASE) && negb (i =? ESP_EVENT_ANY_ID)) with false by
      (case_bool_decide; [|done]; destruct Hb as [ | ->]; [done|done]).
    rewrite A6. simpl. set (ctx := mkRemove _ _ _ _ _).
    destruct (loop_remove_handler ctx (loop_nodes loop)) as [res nodes] eqn:E.
    apply loop_remove_handler_removes in E as [Hr _]. simpl. split.
    + intros [= ->]. inversion Hr as [|l1 [k h] l2 El He _]; subst. exists h.
      apply andb_true_iff in He as [He1 He2]. apply bool_decide_eq_true in He1. apply Z.eqb_eq in He2. simpl in *. subst k.
      split; [|done]. rewrite <- A2, El. set_solver.
    + intros (h & Hin & Eh). inversion Hr as [Hnone|]; [|done]. subst. rewrite <- A2 in Hin.
      rewrite Forall_forall in Hnone. apply Hnone in Hin. unfold requested, same_handler in Hin. simpl in Hin.
      by rewrite bool_decide_true, Z.eqb_refl in Hin by done.
Qed.

(** ** How long esp_event_loop_run runs

    By a clock that does not wrap it runs until a deadline: the round during whose
    dispatch the deadline passes is the last one. *)
Record timed_round := mkTimed { timed_arrivals : list action; timed_meanwhile : list action; end_time : Z }.

Definition on_ticks (r : timed_round) : round := mkRound (timed_arrivals r) (timed_meanwhile r) (u32 (end_time r)).

Fixpoint run_until (handler_code : Z -> Z -> esp_event_post_instance_t -> list (Z * api_call)) (fuel : nat)
    (me deadline : Z) (rounds : list timed_round) (loop : esp_event_loop_instance_t) : option run_outcome :=
  match rounds with
  | [] => Some (StillRunning loop)
  | r :: rounds =>
      let! loop := perform_all handler_code (timed_arrivals r) loop in
      match queue loop with
      | [] => Some (Returned loop)
      | _ =>
          let! loop := perform_all handler_code (timed_meanwhile r) (receive_post loop) in
          if negb (mutex_holder loop =? NULL) then Some (StillRunning loop) else
          let! loop := dispatch_post handler_code fuel me (deadline <=? end_time r) loop in
          if deadline <=? end_time r then Some (Returned loop)
          else run_until handler_code fuel me deadline rounds loop
      end
  end.

Fixpoint clock_runs (t : Z) (rounds : list timed_round) : Prop :=
  match rounds with
  | [] => True
  | r :: rounds => 0 <= end_time r - t < 2 ^ 32 /\ clock_runs (end_time r) rounds
  end.

Lemma run_rounds_until handler_code fuel me ticks_to_run deadline rounds t loop :
  ticks_to_run <> portMAX_DELAY -> clock_runs t rounds -> deadline - t <> portMAX_DELAY -> t <= deadline ->
  deadline - t <= portMAX_DELAY ->
  run_rounds handler_code fuel me ticks_to_run (map on_ticks rounds) (u32 t) (deadline - t) loop =
    run_until handler_code fuel me deadline rounds loop.
Proof.
  intros Ht. revert t loop. induction rounds as [|r rounds IH]; intros t loop Hc Hd Ht' Hm; simpl; [done|].
  destruct Hc as [Hc1 Hc2]. destruct (perform_all handler_code (timed_arrivals r) loop) as [l1|]; [|done].
  destruct (queue l1); [by rewrite (proj2 (Z.eqb_neq _ _) Hd)|].
  destruct (perform_all handler_code (timed_meanwhile r) (receive_post l1)) as [l2|]; [|done].
  destruct (negb (mutex_holder l2 =? NULL)); [done|]. rewrite (proj2 (Z.eqb_neq _ _) Ht). simpl.
  replace (deadline - t - u32 (u32 (end_time r) - u32 t)) with (deadline - end_time r) by word_lia.
  replace (deadline - end_time r <=? 0) with (deadline <=? end_time r) by lia.
  destruct (dispatch_post handler_code fuel me (deadline <=? end_time r) l2) as [l3|]; [|done].
  destruct (Z.leb_spec deadline (end_time r)); [done|]. apply IH; [done|lia..].
Qed.

(** With a time limit esp_event_loop_run is the run until the deadline, whatever
    the tick counter wraps. *)
Theorem loop_run_until_deadline handler_code fuel me ticks_to_run rounds start loop :
  0 <= ticks_to_run < portMAX_DELAY -> clock_runs start rounds ->
  esp_event_loop_run handler_code fuel me (map on_ticks rounds) (u32 start) ticks_to_run loop =
    run_until handler_code fuel me (start + ticks_to_run) rounds loop.
Proof.
  intros Ht Hc. unfold esp_event_loop_run. rewrite <- (run_rounds_until handler_code fuel me ticks_to_run _ _ start); try lia; [|done].
  f_equal. lia.
Qed.

(** ** At concrete loops *)

Definition no_calls (h a : Z) (p : esp_event_post_instance_t) : list (Z * api_call) := [].

Definition some_args (size name : Z) : option esp_event_loop_args_t := Some (mkArgs size name).

(** A loop of task 1, and one without a task. *)
Definition a_loop (size : Z) : esp_event_loop_instance_t := mkLoop [] (Z.to_nat size) [] 1 NULL NULL [] None [].
Definition a_user_loop (size : Z) : esp_event_loop_instance_t := mkLoop [] (Z.to_nat size) [] NULL NULL NULL [] None [].

Definition a_base : esp_event_base_t := event_base 1000.

(** Handlers for one event, for its base and for all, and one removed again. *)
Definition some_registrations : list registration :=
  [AddHandler a_base 5 70 1 [10; 11; 12; 13; 14];
   AddHandler ESP_EVENT_ANY_BASE ESP_EVENT_ANY_ID 71 2 [20; 21; 22; 23];
   AddHandler a_base ESP_EVENT_ANY_ID 72 3 [30; 31; 32; 33];
   AddHandler a_base 5 73 4 [40; 41];
   RemoveHandler a_base 5 14;
   AddHandler a_base 5 74 5 [50; 51; 52; 53; 54]].

Definition a_registry : list entry :=
  [((None, None), mkHandler 22 71 2 false); ((Some a_base, None), mkHandler 32 72 3 false);
   ((Some a_base, Some 5), mkHandler 52 74 5 false)].

Definition a_post : esp_event_post_instance_t := mkPost a_base 5 (data_ptr [1; 2]).

Lemma handlers_run_in_registration_order_witness :
  let loop := fst (register_all 2 some_registrations (a_loop 4, [])) in
  exists loop', dispatch_post no_calls 100 1 false (with_received (Some a_post) loop) = Some loop' /\
    invocations (happened loop') = [mkHandler 22 71 2 false; mkHandler 32 72 3 false; mkHandler 52 74 5 false].
Proof.
  cbv zeta.
  pose proof (handlers_run_in_registration_order no_calls 9 true true 1 (some_args 4 7) 8 (a_loop 4) 2 some_registrations
    (fst (register_all 2 some_registrations (a_loop 4, []))) a_registry) as H.
  destruct H as [H _].
  - reflexivity.
  - simpl. repeat split; unfold fresh_for; intros a Ha Hn; vm_compute; rewrite ?elem_of_cons; set_solver.
  - vm_compute. reflexivity.
  - intros. constructor.
  - destruct (H a_post 1 false 100%nat) as (loop' & E & Ei & _); [done|done|vm_compute; lia|].
    exists loop'. split; [exact E|]. rewrite Ei. vm_compute. reflexivity.
Defined.

(** The first handler unregisters the last one of the event. *)
Definition unregistering (h a : Z) (p : esp_event_post_instance_t) : list (Z * api_call) :=
  if h =? 71 then [(1, UnregisterInstance false a_base 5 52 [60])] else [].

Lemma unregistering_registers_nothing h a p :
  Forall (fun wc => registers_nothing (snd wc)) (unregistering h a p).
Proof. unfold unregistering. destruct (_ =? _); repeat constructor. Qed.

Lemma dispatch_calls_handlers_in_turn_witness :
  let loop := with_received (Some a_post) (fst (register_all 2 some_registrations (a_loop 4, []))) in
  exists loop', dispatch_post unregistering 100 1 false loop = Some loop' /\
    map handler_ctx (invocations (happened loop')) = [22; 32] /\ length (queue loop') = 1%nat.
Proof.
  cbv zeta. set (loop := with_received _ _).
  destruct (dispatch_calls_handlers_in_turn unregistering 100 1 false loop a_post) as (new & E & _).
  - apply unregistering_registers_nothing.
  - reflexivity.
  - reflexivity.
  - discriminate.
  - discriminate.
  - vm_compute. lia.
  - eexists. split; [exact E|]. vm_compute. split; reflexivity.
Defined.

(** The actions that bring a handler and an event into a new loop. *)
Definition first_actions : list action :=
  [Call 2 (RegisterInstance a_base 5 71 1 [10; 11; 12; 13; 14]); Call 3 (Post a_base 5 [7] 10 [15]); ReceivePost].

Lemma perform_all_reachable handler_code acts loop loop' : loop_reachable handler_code loop ->
  (fix fresh acts loop := match acts with
   | [] => True
   | a :: acts => (forall who c, a = Call who c -> fresh_for loop (mem_of c)) /\
                  match perform handler_code a loop with Some loop => fresh acts loop | None => True end
   end) acts loop ->
  perform_all handler_code acts loop = Some loop' -> loop_reachable handler_code loop'.
Proof.
  revert loop. induction acts as [|a acts IH]; intros loop Hr Hf E; simpl in *; [by simplify_eq|].
  destruct Hf as [Hf1 Hf2]. destruct (perform handler_code a loop) as [l1|] eqn:E1; [|done].
  eapply IH; [|exact Hf2|exact E]. by eapply reach_performed.
Qed.

Definition after_first_actions : esp_event_loop_instance_t :=
  default (a_loop 1) (perform_all no_calls first_actions (a_loop 1)).

Lemma after_first_actions_reachable : loop_reachable no_calls after_first_actions.
Proof.
  apply (perform_all_reachable no_calls first_actions (a_loop 1)); [|simpl|reflexivity].
  - by apply (reach_created no_calls 9 true true 1 (some_args 1 7) 8).
  - split_and!; try done; intros who c [= <- <-]; unfold fresh_for; intros a Ha Hn; simpl in *; apply not_elem_of_nil || set_solver.
Qed.

(** The first handler, at its first event, unregisters the second one, and
    registers another. *)
Definition replacing (h a : Z) (p : esp_event_post_instance_t) : list (Z * api_call) :=
  if (h =? 71) && match post_data p with data_ptr [x] => x =? 7 | _ => false end
  then [(1, UnregisterInstance false a_base 5 21 [60]); (1, RegisterInstance a_base 5 75 6 [70; 71])] else [].

(** Its event is dispatched, the internal event after it, and another one. *)
Definition replacing_actions : list action :=
  [Call 2 (RegisterInstance a_base 5 71 1 [10; 11; 12; 13; 14]); Call 2 (RegisterInstance a_base 5 74 2 [20; 21]);
   Call 3 (Post a_base 5 [7] 10 [15]); ReceivePost; DispatchPost 100 1 false; Call 3 (Post a_base 5 [8] 10 [16]);
   ReceivePost; DispatchPost 100 1 false; ReceivePost; DispatchPost 100 1 false].

Definition after_replacing : esp_event_loop_instance_t :=
  default (a_loop 4) (perform_all replacing replacing_actions (a_loop 4)).

Lemma after_replacing_reachable : loop_reachable replacing after_replacing.
Proof.
  apply (perform_all_reachable replacing replacing_actions (a_loop 4)); [|lazy -[fresh_for mem_of not]|vm_compute; reflexivity].
  - by apply (reach_created replacing 9 true true 1 (some_args 4 7) 8).
  - split_and!; try done; intros who c [= <- <-]; unfold fresh_for; intros a Ha Hn; vm_compute; set_solver.
Qed.

Lemma unregistered_handler_never_runs_witness :
  map handler_ctx (invocations (happened after_replacing)) = [14; 71; 14; 71] /\
  exists before after, happened after_replacing = before ++ Unregistered 21 :: after /\
    Forall (fun h => handler_ctx h <> 21) (invocations after).
Proof.
  split; [vm_compute; reflexivity|].
  destruct (unregistered_handler_never_runs replacing after_replacing after_replacing_reachable) as [H _].
  - vm_compute. repeat constructor; set_solver.
  - eexists (take 5 (happened after_replacing)), (drop 6 (happened after_replacing)).
    assert (happened after_replacing = take 5 (happened after_replacing) ++ Unregistered 21 :: drop 6 (happened after_replacing)) as E
      by (vm_compute; reflexivity).
    split; [exact E|]. apply (H _ _ _ E). apply (bool_decide_eq_true_1 _ (Decision0 := _)). vm_compute. reflexivity.
Defined.

Lemma posts_dispatched_once_in_order_witness :
  accepted (happened after_first_actions) = [mkPost a_base 5 (data_ptr [7])] /\
  received after_first_actions = Some (mkPost a_base 5 (data_ptr [7])) /\
  accepted (happened after_first_actions) =
    dispatched (happened after_first_actions) ++ option_list (received after_first_actions) ++ queue after_first_actions.
Proof.
  destruct (posts_dispatched_once_in_order no_calls after_first_actions after_first_actions_reachable) as [H _].
  split; [reflexivity|]. split; [reflexivity|exact H].
Defined.

(** ** Where the code does not keep its promises *)

Definition after (handler_code : Z -> Z -> esp_event_post_instance_t -> list (Z * api_call)) (acts : list action)
    (loop : esp_event_loop_instance_t) : esp_event_loop_instance_t :=
  default loop (perform_all handler_code acts loop).

(** A task that unregisters a handler while the loop dispatches gets the mutex
    when the dispatch is over, and posts the internal event with no time limit
    while it holds the mutex.  If the queue is full and the place that the loop's
    task frees is taken by another sender, the loop's task waits for the mutex and
    the mutex' holder for the loop's task. *)
Definition deadlock_actions : list action :=
  [Call 2 (RegisterInstance a_base 5 71 1 [10; 11; 12; 13; 14]);
   Call 3 (Post a_base 5 [1] 10 [15]); Call 4 (Post a_base 5 [2] portMAX_DELAY [16]);
   Call 2 (UnregisterInstance true a_base 5 14 [17]); ReceivePost; SenderResumes 0].

Definition stuck (loop : esp_event_loop_instance_t) : Prop :=
  mutex_holder loop = 2 /\ length (queue loop) = queue_size loop /\ (exists p, received loop = Some p) /\
  (exists n w, senders loop !! n = Some w /\ sender_task w = 2 /\ sender_ticks w = portMAX_DELAY).

Lemma deferred_unregister_gets_stuck : stuck (after no_calls deadlock_actions (a_loop 1)).
Proof. vm_compute. split_and!; [done|done|by eexists|]. by exists 0%nat; eexists. Qed.

Lemma stuck_make_call who c loop : who <> 2 -> stuck loop ->
  (stuck (snd (make_call who c loop)) /\ happened (snd (make_call who c loop)) = happened loop) /\
  (fst (make_call who c loop) <> Some ESP_OK \/ recorded c (loop_nodes loop) = []).
Proof.
  intros Hw H. pose proof H as (Hm & Hq & Hr & n & w & Hs & Hws & Hwt).
  assert (can_take who loop = false) as Hc by (unfold can_take, NULL; rewrite Hm; lia).
  assert (forall who p ticks holds, stuck (snd (send_to_back who p ticks holds loop)) /\
    happened (snd (send_to_back who p ticks holds loop)) = happened loop) as Hsend.
  { intros who' p ticks holds. unfold send_to_back. rewrite (proj2 (Nat.ltb_ge _ _)) by lia.
    destruct (_ =? _); simpl; [done|]. split; [|done]. split_and!; try done. exists n, w. split; [|done].
    simpl. apply lookup_app_Some. by left. }
  destruct c as [b i h a mem|b i h a mem|contended b i h mem|contended b i ins mem|b i d ticks mem|b i d n0]; simpl.
  - unfold esp_event_handler_register_with, esp_event_handler_register_with_internal. rewrite Hc.
    destruct (_ && _); (split; [done|by left]).
  - unfold esp_event_handler_instance_register_with, esp_event_handler_register_with_internal. rewrite Hc.
    destruct (_ && _); (split; [done|by left]).
  - unfold esp_event_handler_unregister_with, esp_event_handler_unregister_with_internal. rewrite Hc, Hm. simpl.
    split; [by destruct (_ && _)|by right].
  - unfold esp_event_handler_instance_unregister_with, esp_event_handler_unregister_with_internal. rewrite Hc, Hm. simpl.
    destruct (_ =? _); [split; [done|by left]|]. destruct (_ && _); (split; [done|by left]).
  - split; [|by right]. unfold esp_event_post_to. destruct (_ || _); [done|].
    destruct (copy_event_data mem (data_ptr d)); [|done]. rewrite Hc. repeat (case_match; simpl); solve [done|apply Hsend].
  - split; [|by right]. unfold esp_event_isr_post_to. destruct (_ || _); [done|]. destruct (_ <? _); [done|].
    match goal with |- context [send_to_back NULL ?p 0 false loop] =>
      pose proof (Hsend NULL p 0 false) as H'; destruct (send_to_back NULL p 0 false loop) as [[[]|] l] end; exact H'.
Qed.

Lemma stuck_call who c loop : who <> 2 -> stuck loop -> stuck (snd (run_api_call who c loop)) /\
  happened (snd (run_api_call who c loop)) = happened loop.
Proof.
  intros Hw H. destruct (stuck_make_call who c loop Hw H) as [H1 H2].
  destruct (run_api_call_record who c loop) as (l & -> & Hl).
  assert (l = []) as -> by (destruct Hl as [[-> Hr]|[-> _]]; [by destruct H2|done]). done.
Qed.

(** Nothing is ever dispatched again, whatever the others do. *)
Theorem deferred_unregister_deadlocks handler_code acts loop loop' :
  stuck loop -> Forall (fun a => forall c, a <> Call 2 c) acts -> perform_all handler_code acts loop = Some loop' ->
  stuck loop' /\ happened loop' = happened loop.
Proof.
  intros H Ha. revert loop H. induction Ha as [|a acts Ha _ IH]; intros loop H E; simpl in E; [by simplify_eq|].
  destruct (perform handler_code a loop) as [l1|] eqn:E1; [|done].
  assert (stuck l1 /\ happened l1 = happened loop) as [H1 H2].
  { pose proof H as (Hm & Hq & (p & Hp) & n & w & Hs & Hws & Hwt).
    destruct a as [who c|k|k| |fuel me expired]; simpl in E1.
    - injection E1 as <-. apply stuck_call; [|done]. intros ->. by apply (Ha c).
    - injection E1 as <-. unfold sender_resumes. destruct (senders loop !! k); [|done].
      by rewrite (proj2 (Nat.ltb_ge _ _)) by lia.
    - injection E1 as <-. unfold sender_times_out. destruct (senders loop !! k) as [v|] eqn:Ek; [|done].
      destruct (Z.eqb_spec (sender_ticks v) portMAX_DELAY); [done|]. split; [|done]. split_and!; simpl; try done; [by exists p|].
      destruct (decide (n < k)%nat).
      + exists n, w. by rewrite list_lookup_delete_lt by lia.
      + exists (n - 1)%nat, w. rewrite list_lookup_delete_ge by (destruct (decide (n = k)); [congruence|lia]).
        replace (S (n - 1)) with n; [done|]. destruct (decide (n = k)); [congruence|lia].
    - injection E1 as <-. unfold receive_post. rewrite Hp. by destruct (queue loop).
    - unfold dispatch_post in E1. rewrite Hp, Hm in E1. simpl in E1. by injection E1 as <-. }
  destruct (IH l1 H1 E) as [H3 H4]. split; [done|congruence].
Qed.

(** The legacy functions name a handler by its function.  A handler registered
    for all events and for one event that unregisters itself for the one event
    while it runs marks the registration for all events, which stays marked: no
    event calls it any more, and it is still in the lists. *)
Definition leaving (h a : Z) (p : esp_event_post_instance_t) : list (Z * api_call) :=
  if (h =? 70) && bool_decide (post_base p = a_base) then [(1, Unregister false a_base 5 h [60; 61])] else [].

Definition other_base : esp_event_base_t := event_base 2000.

Example unregister_silences_another_registration :
  let loop := after leaving
    [Call 2 (Register ESP_EVENT_ANY_BASE ESP_EVENT_ANY_ID 70 1 [10; 11; 12]); Call 2 (Register a_base 5 70 2 [20; 21; 22; 23]);
     Call 3 (Post a_base 5 [] 0 []); ReceivePost; DispatchPost 50 1 false; ReceivePost; DispatchPost 50 1 false] (a_loop 4) in
  let later := after leaving [Call 3 (Post other_base 6 [] 0 []); ReceivePost; DispatchPost 50 1 false] loop in
  entries (loop_nodes later) = [((None, None), mkHandler 12 70 1 true)] /\
  invocations (happened later) = invocations (happened loop).
Proof. vm_compute. by split. Qed.

(** Registered again before the internal event of its unregistration is
    processed, a legacy handler is taken for still registered and then removed. *)
Example registered_again_is_lost :
  let before := after leaving [Call 2 (Register a_base 5 70 1 [10; 11; 12; 13; 14]); Call 3 (Post a_base 5 [] 0 []);
     ReceivePost; DispatchPost 50 1 false] (a_loop 4) in
  let again := esp_event_handler_register_with 2 [20; 21] a_base 5 70 9 before in
  fst again = Some ESP_OK /\ loop_nodes (after leaving [ReceivePost; DispatchPost 50 1 false] (snd again)) = [].
Proof. vm_compute. by split. Qed.

(** A handler that unregisters itself while the queue is full is answered
    ESP_ERR_TIMEOUT; it is not called any more, unregistering it again answers
    ESP_OK without removing it, and registering it again ESP_OK without effect. *)
Example failed_unregistration_sticks :
  let loop := after leaving [Call 2 (Register a_base 5 70 1 [10; 11; 12; 13; 14]); Call 3 (Post a_base 5 [] 0 []);
     ReceivePost; Call 3 (Post other_base 6 [] 0 [])] (a_loop 1) in
  fst (find_and_unregister_handler 1 [60; 61] (mkRemove a_base 5 NULL 70 true) (with_holder 1 loop)) = Some ESP_ERR_TIMEOUT /\
  let later := after leaving [DispatchPost 50 1 false; ReceivePost; DispatchPost 50 1 false] loop in
  let again := esp_event_handler_unregister_with 2 true [62; 63] a_base 5 70 later in
  let register := esp_event_handler_register_with 2 [20; 21] a_base 5 70 9 (snd again) in
  fst again = Some ESP_OK /\ queue (snd again) = [] /\ fst register = Some ESP_OK /\
  entries (loop_nodes (snd register)) = [((Some a_base, Some 5), mkHandler 14 70 9 true)].
Proof. vm_compute. by split_and!. Qed.

(** The legacy registration of a handler that is registered for the event makes a
    second one when a handler of the base was registered in between. *)
Example registered_twice :
  let loop := after no_calls [Call 2 (Register a_base 5 70 1 [10; 11; 12; 13; 14]);
     Call 2 (Register a_base ESP_EVENT_ANY_ID 71 2 [20; 21; 22]); Call 2 (Register a_base 5 70 3 [30; 31; 32])] (a_loop 4) in
  handlers_of a_base 5 (loop_nodes loop) = [mkHandler 14 70 1 false; mkHandler 22 71 2 false; mkHandler 32 70 3 false].
Proof. reflexivity. Qed.

(** The internal event is dispatched to the handlers of all events. *)
Example internal_event_is_dispatched :
  let loop := after leaving [Call 2 (Register a_base 5 70 1 [10; 11; 12; 13; 14]);
     Call 2 (Register ESP_EVENT_ANY_BASE ESP_EVENT_ANY_ID 71 2 [20; 21; 22]); Call 3 (Post a_base 5 [] 0 []);
     ReceivePost; DispatchPost 50 1 false; ReceivePost; DispatchPost 50 1 false] (a_loop 4) in
  last (happened loop) =
    Some (Dispatched (mkPost esp_event_handler_cleanup 0 (data_remove (mkRemove a_base 5 60 70 true)))) /\
  map handler (invocations (happened loop)) = [70; 71; 71].
Proof. vm_compute. by split. Qed.

(** When its time is over esp_event_loop_run leaves the loop marked as run by the
    task: a post of that task to a full queue then does not wait for the time it
    was given. *)
Example post_after_run_does_not_wait :
  let run := run_rounds no_calls 50 6 10 [mkRound [] [] 112] 100 10 in
  match run (after no_calls [Call 3 (Post a_base 5 [] 0 [])] (a_user_loop 1)) with
  | Some (Returned loop) =>
      let full := after no_calls [Call 3 (Post a_base 5 [] 0 [])] loop in
      running_task full = 6 /\
      fst (esp_event_post_to 6 [] a_base 5 data_none 20 false full) = Some ESP_ERR_TIMEOUT /\
      fst (esp_event_post_to 3 [] a_base 5 data_none 20 false full) = None
  | _ => False
  end.
Proof. vm_compute. by split_and!. Qed.

(** Looking for a handler fails while another task dispatches, and gives the mutex
    of a dispatch away when a handler does it. *)
Example looking_gives_the_mutex :
  let loop := with_holder 1 (after no_calls [Call 2 (Register a_base 5 70 1 [10; 11; 12; 13; 14])] (a_loop 4)) in
  esp_event_is_handler_registered 2 a_base 5 70 loop = None /\
  esp_event_is_handler_registered 1 a_base 5 70 loop = Some (true, with_holder NULL loop).
Proof. by split. Qed.
